(* ===== verification/_CoqProject ===== *)
-Q . S2P
Prelude.v
CString.v
Tokens.v
Vga.v
Keyboard.v
Console.v
Descriptors.v
Io.v
IoSpec.v
Fat.v
FatRep.v
DirTable.v
LineInput.v
Machine.v
Fs.v
FsStore.v
FsSpec.v
FsOutput.v
Dir.v
DirSpec.v
Shell.v
ShellParse.v
ShellSpec.v
ShellInv.v
Boot.v
Sample.v
SystemTheorems.v
FileTheorems.v
DirTheorems.v
DeviceTheorems.v
Prototype.v
PrototypeSpec.v
PrototypeTheorems.v
Linked.v
Holes.v
HolesSpec.v
HolesTheorems.v
Irq.v
Timers.v
Ipc.v
IpcQueues.v
IpcInv.v
IpcSpec.v
KernelBoot.v
IpcTheorems.v
Clock.v
IrqSpec.v
KernelCalls.v
KernelFrame.v
KernelCallsSpec.v
DevicesSpec.v
ProcessCalls.v
Interrupts.v
InterruptsSpec.v
KernelRequests.v
KernelTheorems.v
KernelCallsTheorems.v
InterruptTheorems.v
Cache.v
CacheLists.v
CacheSpec.v
CacheRep.v
CacheOps.v
CacheStore.v
CacheTheorems.v
Super.v
SuperSpec.v
Zones.v
SuperTheorems.v
Inode.v
FileMap.v
Volume.v
FileZones.v
MapWrites.v
InodeRuns.v
InodeTable.v
NewBlocks.v
InodeNumbers.v
InodeTheorems.v
