(* ===== verification/Prelude.v ===== *)
(** * DugOS: a verification development

    DugOS is a small 32-bit kernel (src/src), written after a hosted prototype
    (src/dug_os.c) and kept beside the MINIX 3.1 sources it studies
    (src/reference/minix). This library models the three and proves what they
    guarantee. This file holds what the others share: machine integers, the
    monad [M] of computations with a state, bounded loops, arrays indexed by
    [Z], and the tactics [step] and [steps] that run monadic code.

    ** How code becomes definitions

    A C function is a definition of the same name. Pure code is a function; code
    that works on static variables is a computation [M S A] on a record [S] of
    these variables. It ends in an [outcome]: [Ret] with a result; [Fault], an
    access outside an object or another undefined action; [Blocked], waiting for
    a key that does not come; [Off], the machine is off or has panicked;
    [Timeout], a loop ran out of the steps it was given. A theorem that a
    function returns excludes all the others. Integers are [Z] with the
    wrap-around of their width written out ([u8], [u16], [u32]); a [char *] is
    the list of the cells from that address on; an array is a list, and an
    access outside it a [Fault]; a pointer into a static table is an index or
    [None].

    ** The kernel (src/src)

    - CString.v: string.c and string.h. Tokens.v: cutting a line into words.
    - Vga.v: vga.c (video memory, cursor, colour). Console.v: what a sequence of
      driver calls shows; the class [Prints] derives it from the code.
    - Keyboard.v: keyboard.c, decoder and ring buffer, with the accesses of the
      interrupt handler between those of the reader.
    - Descriptors.v: gdt.c and idt.c.
    - Io.v and IoSpec.v: port.h, pic.c, isr.c and the waiting half of
      keyboard.c. The devices are the class [Bus] with the laws [PcLaws] of the
      two 8259A controllers and the keyboard port; the bus [pc] satisfies them.
    - Fat.v: the arrays of fs.c and the operations on blocks and chains.
      FatRep.v: the map from (directory, name) to contents they represent.
      LineInput.v: the line editors. Machine.v: the state of the kernel. Fs.v:
      the commands of fs.c. FsStore.v, FsSpec.v, FsOutput.v: that they implement
      operations on the map, and what they print.
    - DirTable.v, Dir.v, DirSpec.v: dir.c, paths, table and commands.
    - Shell.v, ShellParse.v, ShellSpec.v, ShellInv.v: shell.c, the reference
      shell on map, paths and characters, and the invariant of a session.
    - Boot.v: main.c, from the boot loader to the prompt. Sample.v: a concrete
      machine, on which the statements are tried.

    SystemTheorems.v, FileTheorems.v, DirTheorems.v and DeviceTheorems.v hold
    the theorems: the kernel boots and then behaves as the reference shell for
    every sequence of keys (refinement, from [kmain] down to each command); the
    block layer stores what it is given and frees what it should; the ring
    buffer is a queue under every interleaving; the console is a terminal; the
    interrupt path reaches the right stub and acknowledges it; and where the
    code goes wrong, that it does (block 0 never freed, a path without
    terminator, the case of shifted letters).

    ** The prototype (src/dug_os.c)

    Prototype.v models it as a process; files, directories and [system] belong
    to a [Host], a class whose laws are the documented behaviour of the C
    library. PrototypeSpec.v and PrototypeTheorems.v show that it ends on every
    input without leaving its buffers.

    ** The reference system (src/reference/minix)

    - Linked.v: lists linked through a static table.
    - Holes.v, HolesSpec.v, HolesTheorems.v: servers/pm/alloc.c. The two linked
      lists of the hole table represent a sorted list of disjoint holes;
      allocation is first fit on it, release merges neighbours, and holes and
      blocks given out always divide the memory.
    - Irq.v: interrupt hooks and lines, i8259.c with [enable_irq] and
      [disable_irq] of klib386.s, and [get_randomness] of system.c. Timers.v:
      watchdog timers; the timer library is not among the sources, so it is the
      class [TimerLib] with what include/timers.h says as its laws.
    - Ipc.v: kernel/proc.c (traps, messages, notifications, ready queues), with
      [cp_mess] of klib386.s and the choice [restart] of mpx386.s makes, on the
      record [kst] of all the kernel's tables.
      IpcQueues.v: what a copied message is, and the ready queues. IpcInv.v: queues of callers and chains of waiting processes. IpcSpec.v:
      the invariant [kinv] and every operation run from it.
    - KernelBoot.v: kernel/main.c, [get_priv] of system.c and the image of
      table.c; a checker for states in which nobody is sending.
    - IpcTheorems.v: start-up establishes [kinv]; every trap, notification and
      end of a quantum keeps it, returns, and leaves the most urgent process
      running; what sending and receiving do; and the calls that pass the
      checks although the code cannot handle them.
    - Clock.v: setting and resetting timers, clock.c. Interrupts.v: the tick
      handler and the clock task of clock.c, interrupt entry ([intr_handle],
      the entry code of mpx386.s), and the kernel calls for alarms, times and
      interrupt control.
    - KernelCalls.v: the handlers of kernel/system for forking, exiting,
      priorities, signals and privileges, with [send_sig] and [cause_sig] of
      system.c.
    - KernelFrame.v: the class [Keeps] of computations that keep a relation
      between states. IrqSpec.v: the lists of hooks, and the operations on them.
      DevicesSpec.v: the invariant [devices_ok] of hooks, timers and random
      information. KernelCallsSpec.v, ProcessCalls.v and InterruptsSpec.v: the
      handlers run from [korder], which adds the state of signals to [kinv],
      and [devices_ok]. KernelRequests.v: the requests of the SYSTEM task.
    - KernelTheorems.v: traps, interrupts, the clock task, kernel calls and
      replies in any order keep the kernel in order and leave the most urgent
      process running. KernelCallsTheorems.v: what each call does.
      InterruptTheorems.v: ticks, alarms, interrupts and hooks.
    - Cache.v: the buffer cache of the file server, servers/fs/cache.c with
      buf.h, [buf_pool] of main.c and [get_block_size] of super.c, on the record
      [fsst]. Drivers are the class [BlockDev], which says nothing of what they
      answer. CacheLists.v: the Shell sort of a transfer, the free chain and the
      hash chains. CacheSpec.v: the invariant [cached] and every
      operation run from it, whatever the drivers answer. CacheOps.v: start-up,
      and the calls of clients as a step relation.
    - CacheRep.v: drivers that carry out their transfers (the class [Reliable]),
      and the contents of blocks the cache then represents. CacheStore.v: it
      refines a plain store of blocks. CacheTheorems.v: the theorems of the
      cache.
    - Super.v: super.c, [conv2] and [conv4] of utility.c, and the zones of
      cache.c. SuperSpec.v: byte order, bits and words. Zones.v: the bit maps
      on the devices, zones and the hint where to look for a free one.
      SuperTheorems.v: super blocks are checked, a free bit is found if there is
      one, zones are given out once.
    - Inode.v: the table of inodes, inode.c with [clock_time] of utility.c, on the
      record [vfs] of the cache and the table. FileMap.v: the zones of a file,
      [read_map] and [rd_indir] of read.c, write.c, [truncate] of link.c and
      [put_inode]. Volume.v: a mounted file system, whose zones are allocated and
      freed and whose blocks are read and written, and changed while they are in
      use. FileZones.v: the places of the map of a file and the invariant
      [file_ok]: no zone is in two places, and each is marked in the bit map; and
      [read_map] from a file that is in order. MapWrites.v and NewBlocks.v:
      entering and freeing zones, and new blocks, from such a file.
    - InodeRuns.v: the layouts of an inode on the device, reading and writing it.
      InodeTable.v: the search of the table, what every driver leaves of it, and
      the references to slots as a step relation. InodeNumbers.v: the numbers of
      inodes and the release of an inode.
    - InodeTheorems.v: a new block is cleared and no other block of the file
      changes; a zone is entered at one place; the last user of a file without
      links gives back all it had; users are counted; inodes are read back; a
      number is given out once.

    ** Bounds

    Loops over a table of n entries get n + 1 steps, which the invariants show to
    be enough: [proc_fuel] (69) for lists of processes, [hole_fuel] (129) for
    holes. [free_chain] gets 10 steps, more than the 8 blocks of the FAT: each
    step but the last frees a block. Loops over input get the number of
    characters that are left. The claims that a walk does not end are stated for
    every number of steps. A list of interrupt hooks gets [irq_fuel] (18) steps,
    for the 17 hooks there are; a chain of buffers [buf_fuel] (129). The loops of
    a sort, of a transfer and of a bit map get as many steps as there are
    buffers, words and blocks, and one more; the search of the 64 inodes 65; the
    loop that frees the data of a file one more than the file has bytes.

    ** Not modelled

    boot.s and isr_stubs.s, linker script and build files; the pause of SLEEP_MS.
    Of the reference system: the protection tables, exceptions, and what is
    written to the ports of the timer chip and the interrupt controllers besides
    the masks; the kernel calls for port input and output, memory and copying;
    shutdown; drivers, the rest of the process manager, and of the file server
    what is above inodes and the maps of files (paths, directories, transfers and
    the system calls). A panic of the file server is [Off], without the flush it
    attempts. The theorems on files are for file systems that are mounted for
    writing, with working drivers; those on truncation for sizes up to a zone
    below 4 GB. An interrupt handler and a kernel call are one step each, so an
    interrupt in the middle of a kernel call is not considered. In proc.c, the signal to the
    terminal driver that ends a diagnostic of [kprintf] is left out, and messages
    lie in memory apart from the kernel's tables. *)

From stdpp Require Export prelude list gmap strings.
From Stdlib Require Export ZArith Lia.
#[global] Open Scope Z_scope.

(** ** Machine-width integers *)

Definition u8 (x : Z) : Z := x mod 256.
Definition u16 (x : Z) : Z := x mod 65536.
Definition u32 (x : Z) : Z := x mod 4294967296.
Definition s32 (x : Z) : Z := (x + 2147483648) mod 4294967296 - 2147483648.

(** The value of a [char] on i386 (signed) whose byte is [b]. *)
Definition schar (b : Z) : Z := if b <? 128 then b else b - 256.

(** ** Outcomes and the kernel monad *)

Inductive outcome (S A : Type) : Type :=
  | Ret (a : A) (s : S)
  | Fault (s : S)
  | Blocked (s : S)
  | Off (s : S)
  | Timeout (s : S).
Arguments Ret {S A} a s.
Arguments Fault {S A} s.
Arguments Blocked {S A} s.
Arguments Off {S A} s.
Arguments Timeout {S A} s.

Definition M (S A : Type) : Type := S → outcome S A.

#[global] Instance M_ret (S : Type) : MRet (M S) := λ A a s, Ret a s.
#[global] Instance M_bind (S : Type) : MBind (M S) := λ A B f c s,
  match c s with
  | Ret a s' => f a s'
  | Fault s' => Fault s'
  | Blocked s' => Blocked s'
  | Off s' => Off s'
  | Timeout s' => Timeout s'
  end.

Section monad.
Context {S : Type}.

Definition fault {A} : M S A := λ s, Fault s.
Definition get : M S S := λ s, Ret s s.
Definition gets {A} (f : S → A) : M S A := λ s, Ret (f s) s.
Definition modify (f : S → S) : M S unit := λ s, Ret tt (f s).
Definition halt {A} : M S A := λ s, Off s.

(** A partial pure computation: [None] is an undefined access. *)
Definition lift_opt {A} (o : option A) : M S A :=
  match o with Some a => mret a | None => fault end.

(** [if (b) c]. *)
Definition when (b : bool) (c : M S unit) : M S unit :=
  if b then c else mret tt.

(** A [while] loop with an explicit bound on its iterations; [inl] goes round
    again, [inr] leaves the loop. *)
Fixpoint loop {A B} (fuel : nat) (body : A → M S (A + B)) (a : A) : M S B :=
  match fuel with
  | O => λ s, Timeout s
  | Datatypes.S fuel' =>
      r ← body a;
      match r with
      | inl a' => loop fuel' body a'
      | inr b => mret b
      end
  end.

(** [for (x in l) body(x)]. *)
Fixpoint for_each {A} (l : list A) (body : A → M S unit) : M S unit :=
  match l with
  | [] => mret tt
  | x :: l' => body x;; for_each l' body
  end.

(** [for (x in l) if (test(x)) return x; return dflt]. *)
Fixpoint find_loop {A} (l : list A) (test : A → M S bool) (dflt : A) : M S A :=
  match l with
  | [] => mret dflt
  | x :: l' =>
      b ← test x;
      if (b : bool) then mret x else find_loop l' test dflt
  end.

Lemma bind_ret {A B} (c : M S A) (f : A → M S B) s a s' :
  c s = Ret a s' → (c ≫= f) s = f a s'.
Proof. unfold mbind, M_bind. by intros ->. Qed.

Lemma bind_fault {A B} (c : M S A) (f : A → M S B) s s' :
  c s = Fault s' → (c ≫= f) s = Fault s'.
Proof. unfold mbind, M_bind. by intros ->. Qed.

Lemma bind_blocked {A B} (c : M S A) (f : A → M S B) s s' :
  c s = Blocked s' → (c ≫= f) s = Blocked s'.
Proof. unfold mbind, M_bind. by intros ->. Qed.

Lemma bind_off {A B} (c : M S A) (f : A → M S B) s s' :
  c s = Off s' → (c ≫= f) s = Off s'.
Proof. unfold mbind, M_bind. by intros ->. Qed.

Lemma bind_assoc {A B C} (c : M S A) (f : A → M S B) (g : B → M S C) s :
  ((c ≫= f) ≫= g) s = (c ≫= (λ a, f a ≫= g)) s.
Proof. unfold mbind, M_bind. by destruct (c s). Qed.

Lemma bind_ret_inv {A B} (c : M S A) (f : A → M S B) s b s'' :
  (c ≫= f) s = Ret b s'' → ∃ a s', c s = Ret a s' ∧ f a s' = Ret b s''.
Proof. unfold mbind, M_bind. destruct (c s) eqn:E; intros; naive_solver. Qed.

Lemma bind_get {B} (f : S → M S B) s : (get ≫= f) s = f s s.
Proof. done. Qed.

Lemma bind_gets {A B} (g : S → A) (f : A → M S B) s : (gets g ≫= f) s = f (g s) s.
Proof. done. Qed.

Lemma bind_modify {B} (g : S → S) (f : unit → M S B) s :
  (modify g ≫= f) s = f tt (g s).
Proof. done. Qed.

Lemma bind_mret {A B} (a : A) (f : A → M S B) s : ((mret a : M S A) ≫= f) s = f a s.
Proof. done. Qed.

Lemma bind_lift {A B} (o : option A) a (f : A → M S B) s :
  o = Some a → (lift_opt o ≫= f) s = f a s.
Proof. by intros ->. Qed.

Lemma lift_opt_some {A} (o : option A) a s :
  o = Some a → lift_opt o s = Ret a s.
Proof. by intros ->. Qed.

Lemma lift_opt_none {A} (o : option A) s :
  o = None → lift_opt o s = Fault s.
Proof. by intros ->. Qed.

Lemma loop_S {A B} fuel (body : A → M S (A + B)) a :
  loop (Datatypes.S fuel) body a =
  (body a ≫= λ r, match r with inl a' => loop fuel body a' | inr b => mret b end).
Proof. done. Qed.

(** Running the first commands of a sequence together. *)
Lemma bind_seq {A B C} (x : M S A) (y : M S B) (z : M S C) s b s1 :
  (x;; y) s = Ret b s1 → (x;; y;; z) s = z s1.
Proof.
  intros E. change ((x ≫= λ _, y ≫= λ _, z) s = z s1).
  rewrite <- bind_assoc. by rewrite (bind_ret _ _ _ _ _ E).
Qed.

Lemma bind_seq3 {A B C D} (x : M S A) (y : M S B) (z : M S C) (w : M S D) s b s1 :
  (x;; y;; z) s = Ret b s1 → (x;; y;; z;; w) s = w s1.
Proof.
  intros E. unfold mbind, M_bind in *. destruct (x s); try done.
  destruct (y s0); try done. by rewrite E.
Qed.

End monad.

(** Running a component's computation inside a larger state. *)
Definition zoom {S T A : Type} (get : S → T) (set : T → S → S) (c : M T A) : M S A :=
  λ s, match c (get s) with
       | Ret a t => Ret a (set t s)
       | Fault t => Fault (set t s)
       | Blocked t => Blocked (set t s)
       | Off t => Off (set t s)
       | Timeout t => Timeout (set t s)
       end.

Lemma zoom_ret {S T A : Type} (get : S → T) set (c : M T A) s a t :
  c (get s) = Ret a t → zoom get set c s = Ret a (set t s).
Proof. unfold zoom. by intros ->. Qed.

Lemma zoom_fault {S T A : Type} (get : S → T) set (c : M T A) s t :
  c (get s) = Fault t → zoom get set c s = Fault (set t s).
Proof. unfold zoom. by intros ->. Qed.

(** ** Arrays: lists indexed by C integers *)

(** [a[i]] as an rvalue and [a[i] = x]; [None] when [i] is outside the array. *)
Definition zget {A} (l : list A) (i : Z) : option A :=
  if 0 <=? i then l !! Z.to_nat i else None.
Definition zset {A} (l : list A) (i : Z) (x : A) : option (list A) :=
  if (0 <=? i) && (i <? Z.of_nat (length l)) then Some (<[Z.to_nat i := x]> l) else None.

(** The pure update, for the states a successful [zset] produces. *)
Definition upd {A} (l : list A) (i : Z) (x : A) : list A := <[Z.to_nat i := x]> l.

Definition zlen {A} (l : list A) : Z := Z.of_nat (length l).

Section arrays.
Context {A : Type}.
Implicit Types (l : list A) (x : A).

Lemma zlen_nonneg l : 0 ≤ zlen l.
Proof. unfold zlen. lia. Qed.

Lemma zget_nat l (n : nat) : zget l (Z.of_nat n) = l !! n.
Proof. unfold zget. destruct (Z.leb_spec 0 (Z.of_nat n)); [|lia]. by rewrite Nat2Z.id. Qed.

Lemma zget_in l i : 0 ≤ i < zlen l → ∃ x, zget l i = Some x.
Proof.
  unfold zlen, zget. intros. destruct (Z.leb_spec 0 i); [|lia].
  apply lookup_lt_is_Some_2. lia.
Qed.

Lemma zget_Some_range l i x : zget l i = Some x → 0 ≤ i < zlen l.
Proof.
  unfold zget, zlen. destruct (Z.leb_spec 0 i); [|done].
  intros H2%lookup_lt_Some. lia.
Qed.

Lemma zget_None l i : zget l i = None ↔ i < 0 ∨ zlen l ≤ i.
Proof.
  unfold zget, zlen. destruct (Z.leb_spec 0 i); [|naive_solver].
  rewrite lookup_ge_None. lia.
Qed.

Lemma zset_upd l i x : 0 ≤ i < zlen l → zset l i x = Some (upd l i x).
Proof.
  unfold zset, zlen, upd. intros.
  destruct (Z.leb_spec 0 i), (Z.ltb_spec i (Z.of_nat (length l))); try lia. done.
Qed.

Lemma zset_None l i x : i < 0 ∨ zlen l ≤ i → zset l i x = None.
Proof.
  unfold zset, zlen. intros.
  by destruct (Z.leb_spec 0 i), (Z.ltb_spec i (Z.of_nat (length l))); try lia.
Qed.

Lemma zset_Some l i x l' : zset l i x = Some l' → 0 ≤ i < zlen l ∧ l' = upd l i x.
Proof.
  unfold zset, zlen, upd.
  destruct (Z.leb_spec 0 i), (Z.ltb_spec i (Z.of_nat (length l))); naive_solver lia.
Qed.

Lemma zlen_upd l i x : zlen (upd l i x) = zlen l.
Proof. unfold zlen, upd. by rewrite length_insert. Qed.

Lemma zget_upd_eq l i x : 0 ≤ i < zlen l → zget (upd l i x) i = Some x.
Proof.
  unfold zget, upd, zlen. intros. destruct (Z.leb_spec 0 i); [|lia].
  apply list_lookup_insert_eq. lia.
Qed.

Lemma zget_upd_ne l i j x : 0 ≤ i → i ≠ j → zget (upd l i x) j = zget l j.
Proof.
  unfold zget, upd. intros. destruct (Z.leb_spec 0 j); [|done].
  apply list_lookup_insert_ne. lia.
Qed.

Lemma zget_upd l i j x :
  0 ≤ i < zlen l → zget (upd l i x) j = if i =? j then Some x else zget l j.
Proof.
  intros. destruct (Z.eqb_spec i j) as [->|].
  - by apply zget_upd_eq.
  - apply zget_upd_ne; lia.
Qed.

Lemma Forall_upd (P : A → Prop) l i x : Forall P l → P x → Forall P (upd l i x).
Proof. intros. unfold upd. by apply Forall_insert. Qed.

Lemma Forall_zget (P : A → Prop) l i x : Forall P l → zget l i = Some x → P x.
Proof.
  unfold zget. intros HF. destruct (0 <=? i); [|done].
  intros. by eapply Forall_lookup_1.
Qed.

Lemma zget_elem_of l i x : zget l i = Some x → x ∈ l.
Proof.
  unfold zget. destruct (0 <=? i); [|done]. apply list_elem_of_lookup_2.
Qed.

Lemma upd_id l i x : zget l i = Some x → upd l i x = l.
Proof. unfold zget, upd. destruct (0 <=? i); [|done]. apply list_insert_id. Qed.

Lemma upd_app_mid l1 x l2 y : upd (l1 ++ x :: l2) (zlen l1) y = l1 ++ y :: l2.
Proof.
  unfold upd, zlen. rewrite Nat2Z.id.
  rewrite insert_app_r_alt by lia. by rewrite Nat.sub_diag.
Qed.

Lemma zget_app_mid l1 x l2 : zget (l1 ++ x :: l2) (zlen l1) = Some x.
Proof. unfold zlen. rewrite zget_nat. by rewrite list_lookup_middle. Qed.

Lemma zget_app_l l1 l2 i : i < zlen l1 → zget (l1 ++ l2) i = zget l1 i.
Proof.
  unfold zget, zlen. intros. destruct (Z.leb_spec 0 i); [|done].
  apply lookup_app_l. lia.
Qed.

Lemma zlen_app l1 l2 : zlen (l1 ++ l2) = zlen l1 + zlen l2.
Proof. unfold zlen. rewrite length_app. lia. Qed.

Lemma zlen_cons x l : zlen (x :: l) = 1 + zlen l.
Proof. unfold zlen. simpl. lia. Qed.

Lemma zlen_nil : zlen ([] : list A) = 0.
Proof. done. Qed.

Lemma zget_ext l1 l2 :
  zlen l1 = zlen l2 → (∀ i, 0 ≤ i < zlen l1 → zget l1 i = zget l2 i) → l1 = l2.
Proof.
  unfold zlen. intros Hlen Hext. apply list_eq. intros i.
  destruct (decide (i < length l1)%nat).
  - specialize (Hext (Z.of_nat i)). rewrite !zget_nat in Hext. apply Hext. lia.
  - rewrite !lookup_ge_None_2 by lia. done.
Qed.

Lemma bind_zset {S B : Type} l i x (f : list A → M S B) s :
  0 ≤ i < zlen l → (lift_opt (zset l i x) ≫= f) s = f (upd l i x) s.
Proof. intros. by apply bind_lift, zset_upd. Qed.
End arrays.

(** Consecutive integers [[lo, lo+1, .., lo+n-1]]. *)
Definition range (lo : Z) (n : nat) : list Z := seqZ lo (Z.of_nat n).

Lemma range_S lo n : range lo (S n) = lo :: range (lo + 1) n.
Proof.
  unfold range. rewrite seqZ_cons by lia. f_equal. f_equal; lia.
Qed.

Lemma range_snoc lo n : range lo (S n) = range lo n ++ [lo + Z.of_nat n].
Proof. apply seqZ_S. Qed.

Lemma zlen_range lo n : zlen (range lo n) = Z.of_nat n.
Proof. unfold zlen, range. rewrite length_seqZ. lia. Qed.

Lemma elem_of_range lo n i : i ∈ range lo n ↔ lo ≤ i < lo + Z.of_nat n.
Proof. apply elem_of_seqZ. Qed.

(** Filters that keep everything or nothing. *)
Lemma filter_all {A} (P : A → Prop) `{∀ x, Decision (P x)} l : Forall P l → filter P l = l.
Proof. induction 1; [done|]. rewrite filter_cons_True by done. by f_equal. Qed.

Lemma filter_none {A} (P : A → Prop) `{∀ x, Decision (P x)} l : Forall (λ x, ¬ P x) l → filter P l = [].
Proof. induction 1; [done|]. by rewrite filter_cons_False. Qed.

(** A search whose test only reads the state. *)
Definition search (p : Z → bool) (l : list Z) (dflt : Z) : Z :=
  default dflt (List.find p l).

Lemma find_loop_run {S : Type} (p : Z → bool) (l : list Z) (test : Z → M S bool) dflt s :
  (∀ x, x ∈ l → test x s = Ret (p x) s) →
  find_loop l test dflt s = Ret (search p l dflt) s.
Proof.
  unfold search. induction l as [|x l IH]; intros H; [done|]. simpl.
  rewrite (bind_ret _ _ _ _ _ (H x ltac:(set_solver))).
  destruct (p x); [done|]. apply IH. set_solver.
Qed.

(** The result of a search over an index range: the first hit, or the default. *)
Lemma search_range p lo n dflt :
  let r := search p (range lo n) dflt in
  (lo ≤ r < lo + Z.of_nat n ∧ p r = true ∧ ∀ j, lo ≤ j < r → p j = false) ∨
  (r = dflt ∧ ∀ j, lo ≤ j < lo + Z.of_nat n → p j = false).
Proof.
  simpl. unfold search. revert lo. induction n as [|n IH]; intros lo.
  - right. split; [done|lia].
  - rewrite range_S. simpl. destruct (p lo) eqn:E.
    + left. simpl. split_and!; [lia|lia|done|lia].
    + destruct (IH (lo + 1)) as [(Hr & Hp & Hj)|(Hr & Hj)].
      * left. split_and!; [lia|lia|done|]. intros j ?.
        destruct (decide (j = lo)) as [->|]; [done|]. apply Hj. lia.
      * right. split; [done|]. intros j ?.
        destruct (decide (j = lo)) as [->|]; [done|]. apply Hj. lia.
Qed.

(** Facts about all bytes, by computation. *)
Lemma range_forall (P : Z → bool) lo n :
  forallb P (range lo n) = true → ∀ x, lo ≤ x < lo + Z.of_nat n → P x = true.
Proof.
  rewrite forallb_forall. intros H x Hx. apply H.
  apply list_elem_of_In, elem_of_seqZ. lia.
Qed.

(** The rule for counting loops: an invariant indexed by the counter. *)
Lemma for_each_range {S : Type} (I : Z → S → Prop) lo n (body : Z → M S unit) s :
  I lo s →
  (∀ i s, lo ≤ i < lo + Z.of_nat n → I i s →
     ∃ s', body i s = Ret tt s' ∧ I (i + 1) s') →
  ∃ s', for_each (range lo n) body s = Ret tt s' ∧ I (lo + Z.of_nat n) s'.
Proof.
  revert lo s. induction n as [|n IH]; intros lo s HI Hbody.
  - exists s. split; [done|]. by rewrite Z.add_0_r.
  - rewrite range_S. simpl.
    destruct (Hbody lo s) as (s1 & E1 & HI1); [lia|done|].
    rewrite (bind_ret _ _ _ _ _ E1).
    destruct (IH (lo + 1) s1) as (s2 & E2 & HI2); [done| |].
    + intros. apply Hbody; [lia|done].
    + exists s2. split; [done|]. by replace (lo + Z.of_nat (Datatypes.S n)) with (lo + 1 + Z.of_nat n) by lia.
Qed.

(** ** Automation *)

Create HintDb dugos.
Create Rewrite HintDb dugos_len.
#[export] Hint Resolve zlen_nonneg Forall_upd : dugos.
#[export] Hint Rewrite @zlen_upd @zlen_app @zlen_cons @zlen_nil : dugos_len.

(** [step E] runs the first command of a sequence, whose result [E] gives. *)
Ltac step E := erewrite (bind_ret _ _ _ _ _ E); cbv beta.

(** Commands that only read or update the state run by computation. *)
Ltac steps :=
  repeat first [rewrite bind_get | rewrite bind_gets | rewrite bind_modify | rewrite bind_mret];
  cbv beta zeta.

(** Turn the boolean tests of the code into propositions. *)
Ltac bools :=
  repeat match goal with
  | H : (_ && _) = true |- _ => apply andb_true_iff in H as [??]
  | H : (_ || _) = false |- _ => apply orb_false_iff in H as [??]
  | H : negb _ = true |- _ => apply negb_true_iff in H
  | H : negb _ = false |- _ => apply negb_false_iff in H
  | H : (_ <=? _) = true |- _ => apply Z.leb_le in H
  | H : (_ <=? _) = false |- _ => apply Z.leb_gt in H
  | H : (_ <? _) = true |- _ => apply Z.ltb_lt in H
  | H : (_ <? _) = false |- _ => apply Z.ltb_ge in H
  | H : (_ =? _) = true |- _ => apply Z.eqb_eq in H
  | H : (_ =? _) = false |- _ => apply Z.eqb_neq in H
  end.
