(* ===== verification/CString.v ===== *)
(** * string.c: the kernel's string and memory routines

    A [char *] is the list of the cells from the address it points to up to the
    end of the object it points into; a cell holds a byte [0..255], or
    [INDET] when it was never written.  Reading or writing past the end of the
    list, or reading an indeterminate cell, is undefined behaviour and is
    [None].  Routines that write return the new contents of the destination. *)

From S2P Require Import Prelude.

From Stdlib Require Strings.String Strings.Ascii.

(** An automatic array before anything is stored in it. *)
Definition INDET : Z := -1.
Definition uninit (n : Z) : list Z := replicate (Z.to_nat n) INDET.

(** [*p] for a byte pointer. *)
Definition ld (p : list Z) : option Z :=
  match p with
  | c :: _ => if c <? 0 then None else Some c
  | [] => None
  end.

(** A string literal, with its terminator. *)
Definition chars (s : string) : list Z :=
  map (λ a, Z.of_nat (Ascii.nat_of_ascii a)) (String.list_ascii_of_string s).
Definition lit (s : string) : list Z := chars s ++ [0].

(** ** The routines *)

Fixpoint kstrlen (s : list Z) : option Z :=
  match s with
  | [] => None
  | c :: s' =>
      if c <? 0 then None
      else if c =? 0 then Some 0
      else n ← kstrlen s'; Some (n + 1)
  end.

Fixpoint kstrcmp (a b : list Z) : option Z :=
  match a, b with
  | ca :: a', cb :: b' =>
      if (ca <? 0) || (cb <? 0) then None
      else if negb (ca =? 0) && (ca =? cb) then kstrcmp a' b'
      else Some (ca - cb)
  | _, _ => None
  end.

Fixpoint kstrncmp (a b : list Z) (n : nat) : option Z :=
  match n with
  | O => Some 0
  | S n' =>
      match a, b with
      | ca :: a', cb :: b' =>
          if (ca <? 0) || (cb <? 0) then None
          else if negb (ca =? 0) && (ca =? cb) then kstrncmp a' b' n'
          else Some (ca - cb)
      | _, _ => None
      end
  end.

Fixpoint kstrcpy (dst src : list Z) : option (list Z) :=
  match src, dst with
  | c :: src', _ :: dst' =>
      if c <? 0 then None
      else if c =? 0 then Some (0 :: dst')
      else r ← kstrcpy dst' src'; Some (c :: r)
  | _, _ => None
  end.

Fixpoint kmemset (dst : list Z) (c : Z) (n : nat) : option (list Z) :=
  match n with
  | O => Some dst
  | S n' =>
      match dst with
      | _ :: dst' => r ← kmemset dst' c n'; Some (u8 c :: r)
      | [] => None
      end
  end.

Fixpoint kmemcpy (dst src : list Z) (n : nat) : option (list Z) :=
  match n with
  | O => Some dst
  | S n' =>
      match dst, src with
      | _ :: dst', c :: src' => r ← kmemcpy dst' src' n'; Some (c :: r)
      | _, _ => None
      end
  end.

(** The first loop copies; when it stores the terminator it leaves [n] and [p]
    where they are, and the second loop zero-fills from there. *)
Fixpoint kstrncpy (dst src : list Z) (n : nat) : option (list Z) :=
  match n with
  | O => Some dst
  | S n' =>
      match dst, src with
      | _ :: dst', c :: src' =>
          if c <? 0 then None
          else if c =? 0 then kmemset dst 0 n
          else r ← kstrncpy dst' src' n'; Some (c :: r)
      | _, _ => None
      end
  end.

Fixpoint kstrcat (dst src : list Z) : option (list Z) :=
  match dst with
  | [] => None
  | d :: dst' =>
      if d <? 0 then None
      else if d =? 0 then kstrcpy dst src
      else r ← kstrcat dst' src; Some (d :: r)
  end.

(** The result is [Some off] for the pointer [s + off] and [None] for NULL. *)
Fixpoint kstrchr (s : list Z) (c : Z) : option (option Z) :=
  match s with
  | [] => None
  | x :: s' =>
      if x <? 0 then None
      else if x =? 0 then Some (if c =? 0 then Some 0 else None)
      else if x =? u8 c then Some (Some 0)
      else r ← kstrchr s' c; Some (option_map (λ off, off + 1) r)
  end.

Definition kto_lower (c : Z) : Z :=
  if (65 <=? c) && (c <=? 90) then c + (97 - 65) else c.

Definition kis_print (c : Z) : Z :=
  if (32 <=? c) && (c <=? 126) then 1 else 0.

(** ** C strings *)

Definition is_char (c : Z) : Prop := 0 < c < 256.

(** [buf] holds the string [s], its terminator and then anything. *)
Definition cstr (buf s : list Z) : Prop :=
  Forall is_char s ∧ ∃ rest, buf = s ++ 0 :: rest.

Definition terminated (buf : list Z) : Prop := ∃ s, cstr buf s.

(** The string in a buffer, computed. *)
Fixpoint cstring (buf : list Z) : option (list Z) :=
  match buf with
  | [] => None
  | c :: buf' =>
      if (c <? 0) || (256 <=? c) then None
      else if c =? 0 then Some []
      else s ← cstring buf'; Some (c :: s)
  end.

Lemma cstring_spec buf s : cstring buf = Some s ↔ cstr buf s.
Proof.
  revert s. induction buf as [|c buf IH]; intros s; simpl.
  { split; [done|]. intros [_ [rest Hr]]. by destruct s. }
  destruct (Z.ltb_spec c 0), (Z.leb_spec 256 c); simpl; try lia.
  1,2: split; [done|]; intros [HF [rest Hr]]; destruct s; simplify_eq/=; [lia|];
       inversion HF; unfold is_char in *; lia.
  destruct (Z.eqb_spec c 0) as [->|Hc].
  - split.
    + intros [= <-]. split; [constructor|by exists buf].
    + intros [HF [rest Hr]]. destruct s; [done|]. simplify_eq/=.
      inversion HF. unfold is_char in *. lia.
  - split.
    + destruct (cstring buf) as [s'|] eqn:E; [|done]. intros [= <-].
      destruct (proj1 (IH s') eq_refl) as [HF [rest ->]]. split; [|by exists rest].
      constructor; [|done]. unfold is_char. lia.
    + intros [HF [rest Hr]]. destruct s as [|x s]; simplify_eq/=.
      inversion HF; subst.
      by rewrite (proj2 (IH s)) by (split; [done|by eexists]).
Qed.

Lemma cstr_fun buf s1 s2 : cstr buf s1 → cstr buf s2 → s1 = s2.
Proof. rewrite <-!cstring_spec. congruence. Qed.

Lemma cstr_cons c buf s : is_char c → cstr buf s → cstr (c :: buf) (c :: s).
Proof. intros ? [? [rest ->]]. split; [by constructor|by exists rest]. Qed.

Lemma cstr_lit s : Forall is_char (chars s) → cstr (lit s) (chars s).
Proof. intros. split; [done|]. by exists []. Qed.

Lemma cstr_app0 s rest : Forall is_char s → cstr (s ++ 0 :: rest) s.
Proof. intros. split; [done|by exists rest]. Qed.

(** Induction over the string a buffer holds. *)
Lemma cstr_ind (P : list Z → list Z → Prop) :
  (∀ rest, P (0 :: rest) []) →
  (∀ c buf s, is_char c → cstr buf s → P buf s → P (c :: buf) (c :: s)) →
  ∀ buf s, cstr buf s → P buf s.
Proof.
  intros H0 Hc buf s [HF [rest ->]]. induction HF; simpl; [apply H0|].
  apply Hc; [done|by apply cstr_app0|done].
Qed.

Lemma cstr_inv buf s :
  cstr buf s →
  (∃ rest, buf = 0 :: rest ∧ s = []) ∨
  (∃ c buf' s', buf = c :: buf' ∧ s = c :: s' ∧ is_char c ∧ cstr buf' s').
Proof.
  intros [HF [rest ->]]. destruct HF as [|c s Hc HF]; [left; by exists rest|right].
  exists c, (s ++ 0 :: rest), s. split_and!; try done. split; [done|by exists rest].
Qed.

Ltac char_tests :=
  unfold is_char in *;
  repeat match goal with
  | |- context [?x <? ?y] => destruct (Z.ltb_spec x y); try lia
  | |- context [?x <=? ?y] => destruct (Z.leb_spec x y); try lia
  | |- context [?x =? ?y] => destruct (Z.eqb_spec x y); try lia
  end; simpl.

Ltac zcmp :=
  repeat match goal with
  | |- context [?x ?= ?y] => destruct (Z.compare_spec x y); try lia
  end.

Ltac cstr_induction H :=
  match type of H with
  | cstr ?b ?s => revert b s H; refine (cstr_ind _ _ _)
  end.

(** ** What the routines compute *)

Lemma kstrlen_cstr buf s : cstr buf s → kstrlen buf = Some (zlen s).
Proof.
  intros H. cstr_induction H; [done|]. intros c buf s Hc _ IH. simpl.
  rewrite IH. char_tests. f_equal. rewrite zlen_cons. lia.
Qed.

(** Lexicographic order of strings by unsigned byte value. *)
Fixpoint lex_compare (s t : list Z) : comparison :=
  match s, t with
  | [], [] => Eq
  | [], _ :: _ => Lt
  | _ :: _, [] => Gt
  | x :: s', y :: t' =>
      match x ?= y with Eq => lex_compare s' t' | r => r end
  end.

Lemma lex_compare_eq s t : lex_compare s t = Eq ↔ s = t.
Proof.
  revert t. induction s as [|x s IH]; intros [|y t]; simpl; try done.
  destruct (Z.compare_spec x y) as [->| |].
  - rewrite IH. split; [by intros ->|by intros [= ->]].
  - split; [done|intros [= -> ->]; lia].
  - split; [done|intros [= -> ->]; lia].
Qed.

Lemma kstrcmp_lex a sa b sb :
  cstr a sa → cstr b sb →
  ∃ r, kstrcmp a b = Some r ∧ (r ?= 0) = lex_compare sa sb.
Proof.
  intros Ha. revert b sb. cstr_induction Ha.
  - intros rest b sb [(rest' & -> & ->)|(c & b' & s' & -> & -> & Hc & _)]%cstr_inv;
      simpl; char_tests; eexists; (split; [done|]); by zcmp.
  - intros c a sa Hc _ IH b sb
      [(rest' & -> & ->)|(d & b' & s' & -> & -> & Hd & Hb)]%cstr_inv; simpl.
    + char_tests. eexists; split; [done|]. by zcmp.
    + char_tests.
      * subst. rewrite Z.compare_refl. by apply IH.
      * eexists; split; [done|]. by zcmp.
Qed.

Lemma kstrcmp_eq a sa b sb :
  cstr a sa → cstr b sb → ∃ r, kstrcmp a b = Some r ∧ (r = 0 ↔ sa = sb).
Proof.
  intros Ha Hb. destruct (kstrcmp_lex a sa b sb) as (r & Hr & Hc); [done..|].
  exists r. split; [done|]. rewrite <-lex_compare_eq, <-Hc. by rewrite Z.compare_eq_iff.
Qed.

(** The boolean the code tests, [kstrcmp(a, b) == 0]. *)
Lemma kstrcmp_test a sa b sb :
  cstr a sa → cstr b sb →
  ∃ r, kstrcmp a b = Some r ∧ (r =? 0) = bool_decide (sa = sb).
Proof.
  intros Ha Hb. destruct (kstrcmp_eq a sa b sb) as (r & Hr & Hc); [done..|].
  exists r. split; [done|]. case_bool_decide; destruct (Z.eqb_spec r 0); naive_solver.
Qed.

(** Comparing an array that is not terminated runs past its end. *)
Lemma kstrcmp_overrun s rest : Forall is_char s → kstrcmp s (s ++ rest) = None.
Proof. induction 1; [done|]. simpl. by char_tests. Qed.

Lemma kstrlen_overrun s : Forall is_char s → kstrlen s = None.
Proof. induction 1 as [|c s Hc _ IH]; [done|]. simpl. rewrite IH. by char_tests. Qed.

Lemma kstrncmp_prefix a sa b sb n :
  cstr a sa → cstr b sb → (n ≤ length sb)%nat →
  ∃ r, kstrncmp a b n = Some r ∧ (r = 0 ↔ take n sa = take n sb).
Proof.
  intros Ha. revert b sb n. cstr_induction Ha.
  - intros rest b sb [|n] Hb Hn; [by exists 0|].
    apply cstr_inv in Hb as [(rest' & -> & ->)|(c & b' & s' & -> & -> & Hc & _)]; simpl in *; [lia|].
    char_tests. eexists; split; [done|]. split; [lia|done].
  - intros c a sa Hc _ IH b sb [|n] Hb Hn; [by exists 0|].
    apply cstr_inv in Hb as [(rest' & -> & ->)|(d & b' & s' & -> & -> & Hd & Hb)]; simpl in *; [lia|].
    char_tests.
    + subst. destruct (IH b' s' n) as (r & Hr & Heq); [done|lia|]. exists r.
      split; [done|]. rewrite Heq. split; [by intros ->|by intros [= ->]].
    + eexists; split; [done|]. split; [lia|by intros [= ->]].
Qed.

Lemma kmemset_spec dst c n :
  (n ≤ length dst)%nat → kmemset dst c n = Some (replicate n (u8 c) ++ drop n dst).
Proof.
  revert dst. induction n as [|n IH]; intros dst Hn; [by destruct dst|].
  destruct dst; simpl in *; [lia|]. by rewrite IH by lia.
Qed.

Lemma kmemcpy_spec dst src n :
  (n ≤ length dst)%nat → (n ≤ length src)%nat →
  kmemcpy dst src n = Some (take n src ++ drop n dst).
Proof.
  revert dst src. induction n as [|n IH]; intros dst src Hd Hs; [by destruct dst|].
  destruct dst, src; simpl in *; try lia. by rewrite IH by lia.
Qed.

Lemma kmemcpy_overrun dst src n :
  (length dst < n)%nat ∨ (length src < n)%nat → kmemcpy dst src n = None.
Proof.
  revert dst src. induction n as [|n IH]; intros dst src H; [lia|].
  destruct dst, src; simpl in *; try done. by rewrite IH by lia.
Qed.

Lemma kstrcpy_spec dst src s :
  cstr src s → (length s < length dst)%nat →
  kstrcpy dst src = Some (s ++ 0 :: drop (S (length s)) dst).
Proof.
  intros H. revert dst. cstr_induction H.
  - intros rest [|d dst]; simpl; [lia|]. by rewrite drop_0.
  - intros c src s Hc _ IH [|d dst] Hl; simpl in *; [lia|].
    rewrite IH by lia. by char_tests.
Qed.

Lemma kstrncpy_spec dst src s n :
  cstr src s → (n ≤ length dst)%nat →
  kstrncpy dst src n =
    Some (take n s ++ replicate (n - length s) 0 ++ drop n dst).
Proof.
  intros H. revert dst n. cstr_induction H.
  - intros rest dst [|n] Hn; [by destruct dst|].
    destruct dst as [|d dst]; simpl in *; [lia|]. by rewrite kmemset_spec by lia.
  - intros c src s Hc _ IH dst [|n] Hn; [by destruct dst|].
    destruct dst as [|d dst]; simpl in *; [lia|].
    rewrite IH by lia. by char_tests.
Qed.

(** Short strings are copied with a terminator ... *)
Lemma kstrncpy_cstr dst src s n :
  cstr src s → (length s < n)%nat → (n = length dst)%nat →
  ∃ buf, kstrncpy dst src n = Some buf ∧ cstr buf s ∧ length buf = n.
Proof.
  intros Hs Hl Hn. eexists. split; [apply (kstrncpy_spec _ _ s); [done|lia]|].
  rewrite take_ge, drop_ge by lia. rewrite app_nil_r.
  split; [|rewrite length_app, length_replicate; lia].
  split; [by destruct Hs|].
  destruct (n - length s)%nat as [|k] eqn:E; [lia|]. by exists (replicate k 0).
Qed.

(** ... and longer ones fill the array and leave it without one. *)
Lemma kstrncpy_long dst src s n :
  cstr src s → (n ≤ length s)%nat → (n = length dst)%nat →
  kstrncpy dst src n = Some (take n s).
Proof.
  intros Hs Hl Hn. rewrite (kstrncpy_spec _ _ s) by (done || lia).
  rewrite drop_ge by lia. replace (n - length s)%nat with O by lia.
  simpl. by rewrite app_nil_r.
Qed.

Lemma kstrcat_spec dst sd src s :
  cstr dst sd → cstr src s → (length sd + length s < length dst)%nat →
  kstrcat dst src = Some (sd ++ s ++ 0 :: drop (S (length sd + length s)) dst).
Proof.
  intros Hd Hs. cstr_induction Hd.
  - intros rest Hl. transitivity (kstrcpy (0 :: rest) src); [done|].
    by rewrite (kstrcpy_spec _ _ s).
  - intros c dst sd Hc _ IH Hl. simpl in *. rewrite IH by lia. by char_tests.
Qed.

Lemma kstrchr_spec buf s c :
  cstr buf s → is_char c →
  kstrchr buf c = Some (option_map (λ '(i, _), Z.of_nat i) (list_find (eq c) s)).
Proof.
  intros H Hc. cstr_induction H; simpl.
  - intros. by char_tests.
  - intros x buf s Hx _ IH. rewrite IH. unfold u8. rewrite (Z.mod_small c) by (unfold is_char in *; lia).
    char_tests; case_decide; try lia; subst; try done. f_equal.
    destruct (list_find (eq c) s) as [[i y]|]; simpl; [|done]. f_equal. lia.
Qed.
