(* ===== verification/Tokens.v ===== *)
(** * Tokens of a command line

    Both shells of the repository cut a line in place into the tokens between
    delimiters.  The scanning loops and the words they find are here, for any
    set [delim] of delimiters. *)

From S2P Require Import Prelude CString.

(** [while (delim( *p)) p++] from position [p], with [rest] the cells from [p]
    on. *)
Fixpoint tok_skip (delim : Z → bool) (rest : list Z) (p : nat) : option nat :=
  match rest with
  | [] => None
  | c :: rest' =>
      if c <? 0 then None else if delim c then tok_skip delim rest' (S p) else Some p
  end.

(** [while ( *p && !delim( *p)) p++]. *)
Fixpoint tok_scan (delim : Z → bool) (rest : list Z) (p : nat) : option nat :=
  match rest with
  | [] => None
  | c :: rest' =>
      if c <? 0 then None
      else if (c =? 0) || delim c then Some p else tok_scan delim rest' (S p)
  end.

(** A run of cells with a property, and what comes after it. *)
Lemma span (f : Z → bool) (s : list Z) :
  ∃ a b, s = a ++ b ∧ Forall (λ c, f c = true) a ∧ (b = [] ∨ ∃ c b', b = c :: b' ∧ f c = false).
Proof.
  induction s as [|c s (a & b & -> & Ha & Hb)]; [exists [], []; by auto|].
  destruct (f c) eqn:E.
  - exists (c :: a), b. split; [done|]. split; [by constructor|done].
  - exists [], (c :: a ++ b). split; [done|]. split; [constructor|]. right. by exists c, (a ++ b).
Qed.

Lemma drop_pre (pre x : list Z) n : drop (length pre + n) (pre ++ x) = drop n x.
Proof. by rewrite drop_app_add'. Qed.

Section delim.
Context (delim : Z → bool).

(** The words between the delimiters. *)
Fixpoint fields_from (cur s : list Z) : list (list Z) :=
  match s with
  | [] => if decide (cur = []) then [] else [cur]
  | c :: s' =>
      if delim c then
        if decide (cur = []) then fields_from [] s' else cur :: fields_from [] s'
      else fields_from (cur ++ [c]) s'
  end.
Definition fields (s : list Z) : list (list Z) := fields_from [] s.

Definition token (t : list Z) : Prop := t ≠ [] ∧ Forall (λ c, delim c = false) t.

Lemma fields_delims bs s : Forall (λ c, delim c = true) bs → fields (bs ++ s) = fields s.
Proof. unfold fields. induction 1 as [|b bs Hb HF IH]; [done|]. simpl. by rewrite Hb. Qed.

Lemma fields_from_token cur t s :
  Forall (λ c, delim c = false) t → fields_from cur (t ++ s) = fields_from (cur ++ t) s.
Proof.
  intros HF. revert cur. induction HF as [|c t Hc HF IH]; intros cur; simpl; [by rewrite app_nil_r|].
  rewrite Hc, IH. by rewrite <-app_assoc.
Qed.

Lemma fields_token t b s :
  token t → delim b = true → fields (t ++ b :: s) = t :: fields s.
Proof.
  intros [Hne HF] Hb. unfold fields. rewrite fields_from_token by done. simpl.
  by rewrite Hb, decide_False.
Qed.

Lemma fields_last t : token t → fields t = [t].
Proof.
  intros [Hne HF]. pose proof (fields_from_token [] t [] HF) as E. rewrite app_nil_r in E.
  unfold fields. rewrite E. simpl. by rewrite decide_False.
Qed.

Lemma tok_skip_run a b p :
  Forall is_char a → Forall (λ c, delim c = true) a →
  (∃ c b', b = c :: b' ∧ 0 ≤ c ∧ delim c = false) → tok_skip delim (a ++ b) p = Some (p + length a)%nat.
Proof.
  intros HC HF (c & b' & -> & Hc & Hb). revert p.
  induction HF as [|x a Hx HF IH]; intros p; simpl.
  - destruct (Z.ltb_spec c 0); [lia|]. by rewrite Hb, Nat.add_0_r.
  - inversion HC; subst. unfold is_char in *. destruct (Z.ltb_spec x 0); [lia|]. rewrite Hx, IH by done.
    f_equal. lia.
Qed.

Lemma tok_scan_run a b p :
  Forall is_char a → Forall (λ c, delim c = false) a →
  (∃ c b', b = c :: b' ∧ 0 ≤ c ∧ (c = 0 ∨ delim c = true)) →
  tok_scan delim (a ++ b) p = Some (p + length a)%nat.
Proof.
  intros HC HF (c & b' & -> & Hc & Hb). revert p.
  induction HF as [|x a Hx HF IH]; intros p; simpl.
  - destruct (Z.ltb_spec c 0); [lia|].
    assert ((c =? 0) || delim c = true) as ->; [|by rewrite Nat.add_0_r].
    destruct Hb as [-> | ->]; [done|]. by rewrite orb_true_r.
  - inversion HC; subst. unfold is_char in *. destruct (Z.ltb_spec x 0); [lia|].
    destruct (Z.eqb_spec x 0); [lia|]. simpl. rewrite Hx, IH by done. f_equal. lia.
Qed.

(** A string is its leading delimiters, its first word, and the rest. *)
Lemma first_token s :
  (Forall (λ c, delim c = true) s ∧ fields s = []) ∨
  ∃ bs t r, s = bs ++ t ++ r ∧ Forall (λ c, delim c = true) bs ∧ token t ∧
    (r = [] ∨ ∃ x y, r = x :: y ∧ delim x = true) ∧ fields s = t :: fields (tail r).
Proof.
  destruct (span delim s) as (bs & s1 & -> & Hbs & Hs1).
  destruct Hs1 as [->|(c & b' & -> & Hc)].
  { left. rewrite app_nil_r. split; [done|]. rewrite <-(app_nil_r bs). by rewrite fields_delims. }
  right. destruct (span (λ c, negb (delim c)) (c :: b')) as (tok & s2 & Etok & Htok & Hs2).
  assert (HT : token tok).
  { split; [|eapply Forall_impl; [exact Htok|]; simpl; intros; by bools].
    intros ->. destruct Hs2 as [->|(x & y & -> & Hx)]; [done|]. simpl in Etok. injection Etok as <- _.
    by rewrite Hc in Hx. }
  exists bs, tok, s2. rewrite Etok, fields_delims by done.
  destruct Hs2 as [->|(x & y & -> & Hx)].
  - split_and!; try done; [by left|]. rewrite app_nil_r. by apply fields_last.
  - bools. split_and!; try done; [by right; eauto|]. by apply fields_token.
Qed.
End delim.
