(* ===== verification/Vga.v ===== *)
(** * vga.c: the text-mode console

    The state is the driver's three variables and the 80x25 cells at 0xB8000.
    An access outside the 2000 cells is a [Fault]. *)

From S2P Require Import Prelude CString.

Definition VGA_WIDTH : Z := 80.
Definition VGA_HEIGHT : Z := 25.

Record vga_state := VGA {
  vmem : list Z;      (* VGA_MEM: 16-bit cells *)
  vrow : Z;           (* row *)
  vcol : Z;           (* col *)
  vcolor : Z          (* color *)
}.

(** enum vga_color *)
Definition VGA_BLACK : Z := 0.
Definition VGA_LIGHT_GREY : Z := 7.
Definition VGA_LIGHT_GREEN : Z := 10.
Definition VGA_LIGHT_CYAN : Z := 11.
Definition VGA_LIGHT_RED : Z := 12.
Definition VGA_YELLOW : Z := 14.
Definition VGA_WHITE : Z := 15.

Definition set_mem (f : list Z) (v : vga_state) : vga_state :=
  VGA f (vrow v) (vcol v) (vcolor v).
Definition set_cursor (r c : Z) (v : vga_state) : vga_state :=
  VGA (vmem v) r c (vcolor v).

(** [VGA_MEM[i] = x] and [VGA_MEM[i]]. *)
Definition poke (i x : Z) : M vga_state unit := λ v,
  match zset (vmem v) i x with
  | Some m => Ret tt (set_mem m v)
  | None => Fault v
  end.
Definition peek (i : Z) : M vga_state Z := λ v,
  match zget (vmem v) i with
  | Some x => Ret x v
  | None => Fault v
  end.

Definition make_entry (c attr : Z) : Z := Z.lor (u8 c) (Z.shiftl attr 8).

Definition vga_set_color (fg bg : Z) : M vga_state unit :=
  modify (λ v, VGA (vmem v) (vrow v) (vcol v) (u8 (Z.lor fg (Z.shiftl bg 4)))).

Definition vga_clear : M vga_state unit :=
  for_each (range 0 (Z.to_nat VGA_HEIGHT)) (λ y,
    for_each (range 0 (Z.to_nat VGA_WIDTH)) (λ x,
      color ← gets vcolor;
      poke (y * VGA_WIDTH + x) (make_entry 32 color)));;
  modify (set_cursor 0 0).

Definition vga_init : M vga_state unit :=
  vga_set_color VGA_LIGHT_GREY VGA_BLACK;;
  vga_clear.

Definition scroll_if_needed : M vga_state unit :=
  row ← gets vrow;
  if row <? VGA_HEIGHT then mret tt else
  for_each (range 1 (Z.to_nat (VGA_HEIGHT - 1))) (λ y,
    for_each (range 0 (Z.to_nat VGA_WIDTH)) (λ x,
      c ← peek (y * VGA_WIDTH + x);
      poke ((y - 1) * VGA_WIDTH + x) c));;
  for_each (range 0 (Z.to_nat VGA_WIDTH)) (λ x,
    color ← gets vcolor;
    poke ((VGA_HEIGHT - 1) * VGA_WIDTH + x) (make_entry 32 color));;
  modify (λ v, set_cursor (VGA_HEIGHT - 1) (vcol v) v).

Definition vga_putchar (c : Z) : M vga_state unit :=
  if c =? 10 then
    modify (λ v, set_cursor (vrow v + 1) 0 v);;
    scroll_if_needed
  else if c =? 8 then
    row ← gets vrow;
    col ← gets vcol;
    (if 0 <? col then modify (set_cursor row (col - 1))
     else if 0 <? row then modify (set_cursor (row - 1) (VGA_WIDTH - 1))
     else mret tt);;
    v ← get;
    poke (vrow v * VGA_WIDTH + vcol v) (make_entry 32 (vcolor v))
  else
    v ← get;
    poke (vrow v * VGA_WIDTH + vcol v) (make_entry c (vcolor v));;
    modify (λ v, set_cursor (vrow v) (vcol v + 1) v);;
    col ← gets vcol;
    if VGA_WIDTH <=? col then
      modify (λ v, set_cursor (vrow v + 1) 0 v);;
      scroll_if_needed
    else mret tt.

Fixpoint vga_write (s : list Z) : M vga_state unit :=
  match s with
  | [] => fault
  | c :: s' =>
      if c <? 0 then fault
      else if c =? 0 then mret tt
      else vga_putchar c;; vga_write s'
  end.

Definition vga_writeln (s : list Z) : M vga_state unit :=
  vga_write s;;
  vga_putchar 10.

(** The digit loop leaves [buf] and [i]; a 32-bit number has at most ten
    digits, so 33 iterations are more than it can take. *)
Definition dec_step : list Z * Z * Z → M vga_state (list Z * Z * Z + list Z * Z) :=
  λ '(buf, i, n),
    if 0 <? n then
      buf' ← lift_opt (zset buf i (48 + n mod 10));
      mret (inl (buf', i + 1, n / 10))
    else mret (inr (buf, i)).
Definition dec_digits (n : Z) : M vga_state (list Z * Z) :=
  loop 33 dec_step (uninit 11, 0, n).

Definition dec_back (buf : list Z) (i : Z) : M vga_state (Z + unit) :=
  if 0 <? i then
    c ← lift_opt (zget buf (i - 1));
    (if c <? 0 then fault else vga_putchar c);;
    mret (inl (i - 1))
  else mret (inr tt).

Definition vga_write_dec (n : Z) : M vga_state unit :=
  if n =? 0 then vga_putchar 48 else
  '(buf, i) ← dec_digits n;
  loop 12 (dec_back buf) i.

Definition hex_chars : list Z := lit "0123456789ABCDEF".

Definition hex_step (n : Z) : Z * bool → M vga_state (Z * bool + unit) :=
  λ '(shift, started),
    if 0 <=? shift then
      c ← lift_opt (zget hex_chars (Z.land (Z.shiftr n shift) 15));
      if negb (c =? 48) || started || (shift =? 0) then
        vga_putchar c;;
        mret (inl (shift - 4, true))
      else mret (inl (shift - 4, started))
    else mret (inr tt).

(** Eight nibbles: eight iterations and the test that ends the loop. *)
Definition vga_write_hex (n : Z) : M vga_state unit :=
  loop 9 (hex_step n) (28, false).

(** ** The reference terminal

    What the driver promises, without its copying loops: the screen is a flat
    array of cells, a line feed past the last row drops the first 80 cells and
    appends 80 blanks. *)

Definition vga_wf (v : vga_state) : Prop :=
  zlen (vmem v) = 2000 ∧ 0 ≤ vrow v < 25 ∧ 0 ≤ vcol v < 80 ∧ 0 ≤ vcolor v < 256.

Definition blank (v : vga_state) : Z := make_entry 32 (vcolor v).

Definition scrolled (mem : list Z) (b : Z) : list Z := drop 80 mem ++ replicate 80 b.

Definition term_newline (v : vga_state) : vga_state :=
  if vrow v + 1 <? 25 then set_cursor (vrow v + 1) 0 v
  else VGA (scrolled (vmem v) (blank v)) 24 0 (vcolor v).

Definition term_back (v : vga_state) : Z * Z :=
  if 0 <? vcol v then (vrow v, vcol v - 1)
  else if 0 <? vrow v then (vrow v - 1, 79)
  else (vrow v, vcol v).

Definition term_put (v : vga_state) (c : Z) : vga_state :=
  if c =? 10 then term_newline v
  else if c =? 8 then
    let '(r, k) := term_back v in
    VGA (upd (vmem v) (r * 80 + k) (blank v)) r k (vcolor v)
  else
    let v1 := set_mem (upd (vmem v) (vrow v * 80 + vcol v) (make_entry c (vcolor v))) v in
    if vcol v + 1 <? 80 then set_cursor (vrow v) (vcol v + 1) v1 else term_newline v1.

Definition term_puts (v : vga_state) (s : list Z) : vga_state := foldl term_put v s.

(** ** The copying loops *)

Lemma poke_run i x v :
  0 ≤ i < zlen (vmem v) → poke i x v = Ret tt (set_mem (upd (vmem v) i x) v).
Proof. intros. unfold poke. by rewrite zset_upd. Qed.

Lemma peek_run i v :
  0 ≤ i < zlen (vmem v) → ∃ x, zget (vmem v) i = Some x ∧ peek i v = Ret x v.
Proof. intros [x Hx]%zget_in. exists x. split; [done|]. unfold peek. by rewrite Hx. Qed.

(** Cells [0..k-1] already hold what was 80 cells further on. *)
Definition shifting (mem : list Z) (k : Z) : list Z :=
  take (Z.to_nat k) (drop 80 mem) ++ drop (Z.to_nat k) mem.

Lemma shifting_step mem k x :
  zlen mem = 2000 → 0 ≤ k < 1920 → zget (shifting mem k) (k + 80) = Some x →
  upd (shifting mem k) k x = shifting mem (k + 1).
Proof.
  unfold zlen, shifting, upd, zget. intros Hl Hk.
  destruct (Z.leb_spec 0 (k + 80)); [|lia].
  replace (Z.to_nat (k + 80)) with (Z.to_nat k + 80)%nat by lia.
  replace (Z.to_nat (k + 1)) with (S (Z.to_nat k)) by lia.
  set (n := Z.to_nat k). assert (n < 1920)%nat by lia.
  assert (Hlt : length (take n (drop 80 mem)) = n) by (rewrite length_take, length_drop; lia).
  rewrite lookup_app_r by lia. rewrite Hlt, lookup_drop.
  replace (n + (n + 80 - n))%nat with (80 + n)%nat by lia. intros Hx.
  rewrite insert_app_r_alt, Hlt, Nat.sub_diag by lia.
  erewrite take_S_r by (rewrite lookup_drop; exact Hx). rewrite <-app_assoc. f_equal.
  destruct (drop n mem) as [|d r] eqn:E.
  - apply (f_equal length) in E. rewrite length_drop in E. simpl in E. lia.
  - simpl. f_equal. change (S n) with (1 + n)%nat. rewrite Nat.add_comm, <-drop_drop, E. done.
Qed.

Lemma zlen_shifting mem k : zlen mem = 2000 → 0 ≤ k ≤ 1920 → zlen (shifting mem k) = 2000.
Proof.
  unfold zlen, shifting. intros. rewrite length_app, length_take, !length_drop. lia.
Qed.

Lemma set_mem_mem m v : vmem (set_mem m v) = m.
Proof. done. Qed.

Lemma scroll_copy v :
  zlen (vmem v) = 2000 →
  for_each (range 1 (Z.to_nat (VGA_HEIGHT - 1))) (λ y,
    for_each (range 0 (Z.to_nat VGA_WIDTH)) (λ x,
      c ← peek (y * VGA_WIDTH + x);
      poke ((y - 1) * VGA_WIDTH + x) c)) v
  = Ret tt (set_mem (shifting (vmem v) 1920) v).
Proof.
  intros Hl. set (mem := vmem v).
  destruct (for_each_range (λ y v', v' = set_mem (shifting mem ((y - 1) * 80)) v)
    1 (Z.to_nat (VGA_HEIGHT - 1)) (λ y,
    for_each (range 0 (Z.to_nat VGA_WIDTH)) (λ x,
      c ← peek (y * VGA_WIDTH + x);
      poke ((y - 1) * VGA_WIDTH + x) c)) v) as (v' & E & ->).
  - unfold shifting. simpl. destruct v; simpl. by rewrite drop_0.
  - intros y _ Hy ->.
    destruct (for_each_range (λ x v', v' = set_mem (shifting mem ((y - 1) * 80 + x)) v)
      0 (Z.to_nat VGA_WIDTH) (λ x,
      c ← peek (y * VGA_WIDTH + x);
      poke ((y - 1) * VGA_WIDTH + x) c)
      (set_mem (shifting mem ((y - 1) * 80)) v)) as (v' & E & ->).
    + by rewrite Z.add_0_r.
    + intros x _ Hx ->. unfold VGA_WIDTH, VGA_HEIGHT in *. simpl in Hy, Hx.
      set (k := (y - 1) * 80 + x).
      assert (Hk : 0 ≤ k < 1920) by lia.
      pose proof (zlen_shifting mem k Hl ltac:(lia)) as Hs.
      destruct (peek_run (y * 80 + x) (set_mem (shifting mem k) v)) as (c & Hc & Ec);
        [rewrite set_mem_mem; lia|].
      step Ec. rewrite poke_run by (rewrite set_mem_mem; lia).
      eexists. split; [done|]. rewrite set_mem_mem. unfold set_mem at 1; simpl.
      replace ((y - 1) * 80 + (x + 1)) with (k + 1) by lia.
      rewrite shifting_step with (x := c); [done..|].
      rewrite set_mem_mem in Hc. rewrite <-Hc. f_equal. lia.
    + eexists. split; [exact E|]. f_equal. f_equal. unfold VGA_WIDTH. lia.
  - rewrite E. f_equal.
Qed.

(** Cells [base .. base+k-1] overwritten with [b]. *)
Definition filled (mem : list Z) (base k : nat) (b : Z) : list Z :=
  take base mem ++ replicate k b ++ drop (base + k) mem.

Lemma filled_step mem base k b :
  (base + k < length mem)%nat →
  <[(base + k)%nat := b]> (filled mem base k b) = filled mem base (S k) b.
Proof.
  intros Hl. unfold filled.
  assert (length (take base mem) = base) by (rewrite length_take; lia).
  rewrite insert_app_r_alt by lia. f_equal.
  rewrite insert_app_r_alt, length_replicate by (rewrite length_replicate; lia).
  rewrite replicate_S_end, <-app_assoc. f_equal.
  replace (base + k - length (take base mem) - k)%nat with O by lia.
  destruct (drop (base + k) mem) as [|d r] eqn:E.
  - apply (f_equal length) in E. rewrite length_drop in E. simpl in E. lia.
  - simpl. f_equal. replace (base + S k)%nat with ((base + k) + 1)%nat by lia.
    by rewrite <-drop_drop, E.
Qed.

Lemma length_filled mem base k b :
  (base + k ≤ length mem)%nat → length (filled mem base k b) = length mem.
Proof.
  intros. unfold filled.
  rewrite !length_app, length_take, length_replicate, length_drop. lia.
Qed.

Lemma fill_run (base : nat) n v :
  (base + n ≤ length (vmem v))%nat →
  for_each (range 0 n) (λ x,
    color ← gets vcolor; poke (Z.of_nat base + x) (make_entry 32 color)) v
  = Ret tt (set_mem (filled (vmem v) base n (blank v)) v).
Proof.
  intros Hl.
  destruct (for_each_range (λ k v',
      v' = set_mem (filled (vmem v) base (Z.to_nat k) (blank v)) v)
    0 n (λ x, color ← gets vcolor; poke (Z.of_nat base + x) (make_entry 32 color)) v)
    as (v' & E & ->).
  - unfold filled. simpl. rewrite Nat.add_0_r, take_drop. by destruct v.
  - intros k _ Hk ->. steps.
    assert (Hlen := length_filled (vmem v) base (Z.to_nat k) (blank v) ltac:(lia)).
    rewrite poke_run by (rewrite set_mem_mem; unfold zlen; lia).
    eexists. split; [done|]. rewrite set_mem_mem. unfold set_mem; simpl. f_equal.
    unfold upd. replace (Z.to_nat (Z.of_nat base + k)) with (base + Z.to_nat k)%nat by lia.
    replace (Z.to_nat (k + 1)) with (S (Z.to_nat k)) by lia.
    rewrite <-filled_step by lia. done.
  - rewrite E. f_equal. f_equal. f_equal. lia.
Qed.

Lemma for_each_ext {S A : Type} (l : list A) (f g : A → M S unit) s :
  (∀ x s, x ∈ l → f x s = g x s) → for_each l f s = for_each l g s.
Proof.
  revert s. induction l as [|x l IH]; intros s H; [done|]. simpl.
  unfold mbind, M_bind. rewrite H by set_solver.
  destruct (g x s); try done. apply IH. intros. apply H. set_solver.
Qed.

Lemma shifted_filled mem b :
  zlen mem = 2000 → filled (shifting mem 1920) 1920 80 b = scrolled mem b.
Proof.
  intros Hl. assert (Hs := zlen_shifting mem 1920 Hl ltac:(lia)).
  unfold zlen in *. unfold filled, scrolled.
  rewrite (drop_ge (shifting _ _)) by lia. rewrite app_nil_r. f_equal.
  unfold shifting. rewrite take_app_le, take_take, Nat.min_id, take_ge; [done|..];
    rewrite ?length_take, length_drop; lia.
Qed.

Lemma scroll_run v :
  zlen (vmem v) = 2000 →
  scroll_if_needed v =
    Ret tt (if vrow v <? 25 then v
            else VGA (scrolled (vmem v) (blank v)) 24 (vcol v) (vcolor v)).
Proof.
  intros Hl. unfold scroll_if_needed. steps.
  unfold VGA_HEIGHT at 1. destruct (vrow v <? 25); [done|].
  step (scroll_copy v Hl).
  assert (Hs := zlen_shifting (vmem v) 1920 Hl ltac:(lia)).
  assert (Hf := fill_run 1920 80 (set_mem (shifting (vmem v) 1920) v)
    ltac:(rewrite set_mem_mem; unfold zlen in *; lia)).
  change (Z.to_nat VGA_WIDTH) with 80%nat.
  change ((VGA_HEIGHT - 1) * VGA_WIDTH) with (Z.of_nat 1920). step Hf.
  rewrite set_mem_mem, shifted_filled by done. done.
Qed.

Lemma newline_run v :
  zlen (vmem v) = 2000 → 0 ≤ vrow v < 25 →
  scroll_if_needed (set_cursor (vrow v + 1) 0 v) = Ret tt (term_newline v).
Proof.
  intros Hl Hr. by rewrite scroll_run by done.
Qed.

Lemma cell_in v r k :
  vga_wf v → 0 ≤ r < 25 → 0 ≤ k < 80 → 0 ≤ r * 80 + k < zlen (vmem v).
Proof. unfold vga_wf. lia. Qed.

Lemma term_back_range v :
  vga_wf v → 0 ≤ (term_back v).1 < 25 ∧ 0 ≤ (term_back v).2 < 80.
Proof.
  intros (_ & Hr & Hc & _). unfold term_back.
  destruct (Z.ltb_spec 0 (vcol v)), (Z.ltb_spec 0 (vrow v)); simpl; lia.
Qed.

(** The driver is the reference terminal. *)
Lemma putchar_run c v : vga_wf v → vga_putchar c v = Ret tt (term_put v c).
Proof.
  intros Hwf. pose proof Hwf as (Hl & Hr & Hc & _).
  unfold vga_putchar, term_put.
  destruct (c =? 10); [steps; by apply newline_run|].
  destruct (c =? 8).
  - steps.
    assert (E : (if 0 <? vcol v then modify (set_cursor (vrow v) (vcol v - 1))
        else if 0 <? vrow v then modify (set_cursor (vrow v - 1) (VGA_WIDTH - 1))
        else mret tt) v = Ret tt (set_cursor (term_back v).1 (term_back v).2 v)).
    { unfold term_back. destruct (0 <? vcol v); [done|]. destruct (0 <? vrow v); [done|].
      by destruct v. }
    step E. steps. destruct (term_back_range v Hwf) as [Hr' Hc'].
    destruct (term_back v) as [r k]. simpl in *.
    rewrite poke_run by (unfold VGA_WIDTH; simpl; lia). done.
  - steps. step (poke_run (vrow v * VGA_WIDTH + vcol v) (make_entry c (vcolor v)) v
      ltac:(unfold VGA_WIDTH; lia)).
    steps. unfold VGA_WIDTH. simpl.
    destruct (Z.leb_spec 80 (vcol v + 1)), (Z.ltb_spec (vcol v + 1) 80); try lia; [|done].
    steps. rewrite <-newline_run; [done|simpl|done]. by rewrite zlen_upd.
Qed.

Lemma zlen_scrolled mem b : zlen mem = 2000 → zlen (scrolled mem b) = 2000.
Proof. unfold zlen, scrolled. rewrite length_app, length_drop, length_replicate. lia. Qed.

Lemma term_newline_wf v : vga_wf v → vga_wf (term_newline v).
Proof.
  intros (Hl & Hr & Hc & Hk). unfold term_newline.
  destruct (Z.ltb_spec (vrow v + 1) 25); unfold vga_wf; simpl; split_and!; try lia.
  by apply zlen_scrolled.
Qed.

Lemma term_put_wf v c : vga_wf v → vga_wf (term_put v c).
Proof.
  intros Hwf. pose proof Hwf as (Hl & Hr & Hc & Hk). unfold term_put.
  destruct (c =? 10); [by apply term_newline_wf|].
  destruct (c =? 8).
  - pose proof (term_back_range v Hwf) as [??]. destruct (term_back v) as [r k].
    unfold vga_wf; simpl in *. rewrite zlen_upd. lia.
  - destruct (Z.ltb_spec (vcol v + 1) 80).
    + unfold vga_wf; simpl. rewrite zlen_upd. lia.
    + apply term_newline_wf. unfold vga_wf; simpl. rewrite zlen_upd. lia.
Qed.

Lemma term_puts_wf v s : vga_wf v → vga_wf (term_puts v s).
Proof. revert v. induction s; intros v H; [done|]. simpl. by apply IHs, term_put_wf. Qed.

Lemma term_puts_app v s t : term_puts v (s ++ t) = term_puts (term_puts v s) t.
Proof. unfold term_puts. by rewrite foldl_app. Qed.

#[export] Hint Resolve term_put_wf term_puts_wf term_newline_wf : dugos.

Lemma write_run buf s v : vga_wf v → cstr buf s → vga_write buf v = Ret tt (term_puts v s).
Proof.
  intros Hv H. revert v Hv. cstr_induction H; [done|].
  intros c buf s Hc _ IH v Hv. simpl. char_tests.
  step (putchar_run c v Hv). by rewrite IH by auto with dugos.
Qed.

Lemma writeln_run buf s v :
  vga_wf v → cstr buf s → vga_writeln buf v = Ret tt (term_puts v (s ++ [10])).
Proof.
  intros Hv H. unfold vga_writeln. step (write_run buf s v Hv H).
  rewrite putchar_run by auto with dugos. by rewrite term_puts_app.
Qed.

(** A string that is not terminated is printed and then overrun. *)
Lemma write_overrun s v : vga_wf v → Forall is_char s → ∃ v', vga_write s v = Fault v'.
Proof.
  intros Hv HF. revert v Hv. induction HF as [|c s Hc _ IH]; intros v Hv; [by exists v|].
  simpl. char_tests. step (putchar_run c v Hv). apply IH. auto with dugos.
Qed.

Lemma set_color_run fg bg v :
  vga_wf v → ∃ v', vga_set_color fg bg v = Ret tt v' ∧ vga_wf v'.
Proof.
  intros (?&?&?&?). eexists. split; [done|]. split_and!; simpl; try lia; try done.
  - apply Z.mod_pos_bound. lia.
  - apply Z.mod_pos_bound. lia.
Qed.

(** ** Clearing the screen *)

Lemma filled_filled mem k n b :
  (k + n ≤ length mem)%nat → filled (filled mem 0 k b) k n b = filled mem 0 (k + n) b.
Proof.
  intros Hl. unfold filled. rewrite take_0, !Nat.add_0_l. simpl.
  rewrite take_app_length' by by rewrite length_replicate.
  rewrite drop_app_ge, length_replicate, drop_drop by (rewrite length_replicate; lia).
  rewrite replicate_add, <-app_assoc.
  by replace (k + (k + n - k))%nat with (k + n)%nat by lia.
Qed.

Lemma clear_run v :
  zlen (vmem v) = 2000 →
  vga_clear v = Ret tt (VGA (replicate 2000 (blank v)) 0 0 (vcolor v)).
Proof.
  unfold zlen. intros Hl. unfold vga_clear, VGA_HEIGHT, VGA_WIDTH.
  change (Z.to_nat 25) with 25%nat. change (Z.to_nat 80) with 80%nat.
  destruct (for_each_range (λ y v',
      v' = set_mem (filled (vmem v) 0 (Z.to_nat (y * 80)) (blank v)) v)
    0 25 (λ y, for_each (range 0 80) (λ x,
      color ← gets vcolor; poke (y * 80 + x) (make_entry 32 color))) v)
    as (v' & E & ->).
  - unfold filled. simpl. by destruct v.
  - intros y _ Hy ->. set (v1 := set_mem _ v).
    assert (Hf := length_filled (vmem v) 0 (Z.to_nat (y * 80)) (blank v) ltac:(lia)).
    eexists. split.
    + etransitivity; [|apply (fill_run (Z.to_nat (y * 80)) 80 v1); simpl; lia].
      apply for_each_ext. intros. by rewrite Z2Nat.id by lia.
    + unfold v1; simpl. rewrite filled_filled by lia. unfold set_mem; simpl. f_equal.
      by replace (Z.to_nat ((y + 1) * 80)) with (Z.to_nat (y * 80) + 80)%nat by lia.
  - step E. unfold modify, set_cursor; simpl. f_equal. f_equal.
    change (Z.to_nat ((0 + Z.of_nat 25) * 80)) with 2000%nat. unfold filled.
    rewrite drop_ge by lia. by rewrite app_nil_r, take_0.
Qed.

Lemma cleared_wf c b :
  0 ≤ c < 256 → vga_wf (VGA (replicate 2000 b) 0 0 c).
Proof.
  intros. unfold vga_wf, zlen; cbn [vmem vrow vcol vcolor].
  rewrite length_replicate. lia.
Qed.

(** ** Numbers *)

Definition is_digit (c : Z) : Prop := 48 ≤ c < 58.

(** The number a string of decimal digits denotes. *)
Definition dec_val (s : list Z) : Z := foldl (λ acc c, acc * 10 + (c - 48)) 0 s.

(** The same for the digits in the order the loop produces them. *)
Definition dec_val_rev (s : list Z) : Z := foldr (λ c acc, (c - 48) + 10 * acc) 0 s.

Lemma dec_val_reverse s : dec_val (reverse s) = dec_val_rev s.
Proof.
  unfold dec_val, dec_val_rev. induction s as [|c s IH]; [done|].
  rewrite reverse_cons, foldl_app. simpl. rewrite IH. lia.
Qed.

(** A numeral without leading zeros. *)
Definition canonical (s : list Z) : Prop :=
  Forall is_digit s ∧ (head s = Some 48 → s = [48]) ∧ s ≠ [].

Lemma dec_loop fuel pre rest n v :
  0 ≤ n < 10 ^ Z.of_nat (length rest) → (length rest < fuel)%nat →
  ∃ ds rest', loop fuel dec_step (pre ++ rest, zlen pre, n) v
    = Ret (pre ++ ds ++ rest', zlen pre + zlen ds) v ∧
  dec_val_rev ds = n ∧ Forall is_digit ds ∧ last ds ≠ Some 48 ∧
  length (ds ++ rest') = length rest.
Proof.
  revert pre rest n. induction fuel as [|fuel IH]; intros pre rest n Hn Hf; [lia|].
  rewrite loop_S. cbn [dec_step]. destruct (Z.ltb_spec 0 n) as [Hpos|].
  2: { exists [], rest. rewrite bind_mret, zlen_nil, Z.add_0_r.
       split_and!; try done. simpl. lia. }
  destruct rest as [|r rest]; [change (10 ^ Z.of_nat (length [])) with 1 in Hn; lia|].
  assert (Hmod := Z.mod_pos_bound n 10 ltac:(lia)).
  rewrite (bind_assoc (lift_opt _)), (bind_lift _ (pre ++ (48 + n mod 10) :: rest)).
  2: { rewrite zset_upd by (autorewrite with dugos_len; pose proof (zlen_nonneg pre);
         pose proof (zlen_nonneg rest); lia). by rewrite upd_app_mid. }
  rewrite bind_mret.
  replace (pre ++ (48 + n mod 10) :: rest) with ((pre ++ [48 + n mod 10]) ++ rest)
    by by rewrite <-app_assoc.
  replace (zlen pre + 1) with (zlen (pre ++ [48 + n mod 10])) by (by autorewrite with dugos_len).
  destruct (IH (pre ++ [48 + n mod 10]) rest (n / 10)) as (ds & rest' & E & Hv & HF & Hlast & Hlen).
  { split; [apply Z.div_pos; lia|]. apply Z.div_lt_upper_bound; [lia|].
    simpl length in Hn. rewrite Nat2Z.inj_succ, Z.pow_succ_r in Hn; lia. }
  { simpl in Hf. lia. }
  exists ((48 + n mod 10) :: ds), rest'. rewrite E. split_and!.
  - f_equal. f_equal; [by rewrite <-app_assoc|]. autorewrite with dugos_len. lia.
  - simpl. rewrite Hv. pose proof (Z.div_mod n 10 ltac:(lia)). lia.
  - constructor; [unfold is_digit; lia|done].
  - destruct ds as [|d ds]; [|by rewrite last_cons_cons].
    simpl in *. intros [= ?]. pose proof (Z.div_mod n 10 ltac:(lia)). lia.
  - simpl in *. lia.
Qed.

Lemma dec_print ds rest fuel v :
  vga_wf v → Forall is_digit ds → (length ds < fuel)%nat →
  loop fuel (dec_back (ds ++ rest)) (zlen ds) v = Ret tt (term_puts v (reverse ds)).
Proof.
  revert ds rest v. induction fuel as [|fuel IH]; intros ds rest v Hv HF Hf; [lia|].
  rewrite loop_S. unfold dec_back at 2.
  destruct ds as [|c ds _] using rev_ind; [done|].
  apply Forall_app in HF as [HF [Hc _]%Forall_cons].
  autorewrite with dugos_len. pose proof (zlen_nonneg ds).
  destruct (Z.ltb_spec 0 (zlen ds + (1 + 0))); [|lia].
  replace (zlen ds + (1 + 0) - 1) with (zlen ds) by lia.
  rewrite <-app_assoc. rewrite bind_assoc, (bind_lift _ c) by apply zget_app_mid.
  unfold is_digit in Hc. destruct (Z.ltb_spec c 0); [lia|].
  rewrite bind_assoc. step (putchar_run c v Hv). steps.
  rewrite length_app in Hf; simpl in Hf.
  rewrite IH by (auto with dugos || lia). by rewrite reverse_snoc.
Qed.

Lemma write_dec_run n v :
  vga_wf v → 0 ≤ n < 2 ^ 32 →
  ∃ ds, vga_write_dec n v = Ret tt (term_puts v ds) ∧ dec_val ds = n ∧ canonical ds.
Proof.
  intros Hv Hn. unfold vga_write_dec. destruct (Z.eqb_spec n 0) as [->|Hnz].
  { exists [48]. rewrite putchar_run by done. split_and!; try done.
    split_and!; try done. repeat constructor; unfold is_digit; lia. }
  destruct (dec_loop 33 [] (uninit 11) n v) as (ds & rest & E & Hval & HF & Hlast & Hlen).
  { change (10 ^ Z.of_nat (length (uninit 11))) with (10 ^ 11). lia. }
  { change (length (uninit 11)) with 11%nat. lia. }
  unfold dec_digits. simpl app in E. rewrite zlen_nil in E. step E.
  rewrite Z.add_0_l. rewrite length_app in Hlen. change (length (uninit 11)) with 11%nat in Hlen.
  rewrite dec_print by (done || lia).
  exists (reverse ds). split_and!; [done|by rewrite dec_val_reverse|].
  split_and!.
  - by apply Forall_reverse.
  - rewrite head_reverse. done.
  - intros Hnil%(f_equal reverse). rewrite reverse_involutive in Hnil. by subst.
Qed.

Definition hex_char (k : Z) : Z := if k <? 10 then 48 + k else 55 + k.
Definition hex_digit (c : Z) : Z := if c <? 58 then c - 48 else c - 55.
Definition is_hex_digit (c : Z) : Prop := ∃ k, 0 ≤ k < 16 ∧ c = hex_char k.
Definition hex_val (s : list Z) : Z := foldl (λ acc c, acc * 16 + hex_digit c) 0 s.

Lemma hex_chars_get k : 0 ≤ k < 16 → zget hex_chars k = Some (hex_char k).
Proof.
  intros. assert (Hk : k ∈ range 0 16) by (unfold range; rewrite elem_of_seqZ; lia).
  revert Hk. unfold range. simpl seqZ. rewrite !list_elem_of_In. simpl.
  intros Hk. repeat destruct Hk as [<-|Hk]; done.
Qed.

Lemma hex_digit_char k : 0 ≤ k < 16 → hex_digit (hex_char k) = k.
Proof.
  intros. unfold hex_digit, hex_char. destruct (Z.ltb_spec k 10).
  - destruct (Z.ltb_spec (48 + k) 58); lia.
  - destruct (Z.ltb_spec (55 + k) 58); lia.
Qed.

Lemma hex_val_cons c s : hex_val (c :: s) = hex_digit c * 16 ^ zlen s + hex_val s.
Proof.
  unfold hex_val. simpl. generalize (hex_digit c). clear c.
  induction s as [|d s IH] using rev_ind; intros k; [unfold zlen; simpl; lia|].
  rewrite !foldl_app. simpl. rewrite (IH k), zlen_app, zlen_cons. change (zlen (@nil Z)) with 0.
  pose proof (zlen_nonneg s). rewrite Z.pow_add_r by lia. change (16 ^ (1 + 0)) with 16. lia.
Qed.

Lemma nibble n j :
  Z.land (Z.shiftr n (4 * Z.of_nat j)) 15 = (n / 16 ^ Z.of_nat j) mod 16.
Proof.
  change 15 with (Z.ones 4). rewrite Z.land_ones by lia.
  rewrite Z.shiftr_div_pow2 by lia. by rewrite Z.pow_mul_r by lia.
Qed.

Lemma mod_pow16_succ n j :
  n mod 16 ^ Z.of_nat (S j) =
    ((n / 16 ^ Z.of_nat j) mod 16) * 16 ^ Z.of_nat j + n mod 16 ^ Z.of_nat j.
Proof.
  rewrite Nat2Z.inj_succ, Z.pow_succ_r, Z.mul_comm by lia.
  rewrite Z.rem_mul_r by (try apply Z.pow_nonzero; lia). lia.
Qed.

(** [j] nibbles left to go: what is printed denotes the low [j] nibbles; once
    started, or at the end, no nibble is skipped. *)
Lemma hex_loop n j started v :
  vga_wf v →
  ∃ ds, loop (S j) (hex_step n) (4 * Z.of_nat j - 4, started) v = Ret tt (term_puts v ds) ∧
    hex_val ds = n mod 16 ^ Z.of_nat j ∧ Forall is_hex_digit ds ∧
    (started = true → length ds = j) ∧ (head ds = Some 48 → started = true ∨ ds = [48]) ∧
    (0 < j → ds ≠ [])%nat.
Proof.
  revert started v. induction j as [|j IH]; intros started v Hv; rewrite loop_S; cbn [hex_step].
  { exists []. split_and!; try done; [by rewrite Z.mod_1_r|lia]. }
  destruct (Z.leb_spec 0 (4 * Z.of_nat (S j) - 4)); [|lia].
  replace (4 * Z.of_nat (S j) - 4) with (4 * Z.of_nat j) by lia.
  rewrite nibble. set (k := (n / 16 ^ Z.of_nat j) mod 16).
  assert (Hk : 0 ≤ k < 16) by (apply Z.mod_pos_bound; lia).
  rewrite bind_assoc, (bind_lift _ _ _ _ (hex_chars_get k Hk)).
  destruct (negb (hex_char k =? 48) || started || (4 * Z.of_nat j =? 0)) eqn:Hif.
  - rewrite bind_assoc. step (putchar_run (hex_char k) v Hv). steps.
    destruct (IH true (term_put v (hex_char k)) (term_put_wf _ _ Hv))
      as (ds & E & Hval & HF & Hlen & _ & _).
    specialize (Hlen eq_refl).
    exists (hex_char k :: ds). split_and!.
    + by etransitivity; [exact E|].
    + rewrite hex_val_cons, hex_digit_char, Hval, mod_pow16_succ by done.
      unfold zlen. by rewrite Hlen.
    + constructor; [by exists k|done].
    + intros _. simpl. by rewrite Hlen.
    + simpl. intros [= Hz]. rewrite Hz in Hif. destruct started; [by left|right].
      simpl in Hif. bools. destruct ds; [by rewrite Hz|]. simpl in Hlen. lia.
    + done.
  - apply orb_false_iff in Hif as [[Hz Hs]%orb_false_iff Hj]. bools. subst started.
    assert (Hk0 : k = 0).
    { unfold hex_char in Hz. destruct (Z.ltb_spec k 10); lia. }
    steps. destruct (IH false v Hv) as (ds & E & Hval & HF & Hlen & Hhd & Hne).
    exists ds. split_and!; try done.
    + rewrite mod_pow16_succ. fold k. rewrite Hk0, Hval. lia.
    + intros _. apply Hne. lia.
Qed.

Lemma write_hex_run n v :
  vga_wf v → 0 ≤ n < 2 ^ 32 →
  ∃ ds, vga_write_hex n v = Ret tt (term_puts v ds) ∧ hex_val ds = n ∧
    Forall is_hex_digit ds ∧ ds ≠ [] ∧ (head ds = Some 48 → ds = [48]).
Proof.
  intros Hv Hn. destruct (hex_loop n 8 false v Hv) as (ds & E & Hval & HF & _ & Hhd & Hne).
  exists ds. split_and!; try done.
  - rewrite Hval. apply Z.mod_small. done.
  - apply Hne. lia.
  - intros H. by destruct (Hhd H).
Qed.
