(* ===== verification/Keyboard.v ===== *)
(** * keyboard.c: scan codes, modifiers and the ring buffer

    The driver's static variables and the code that works on them alone: the
    translation done by the interrupt handler once it has read the scan code,
    and the two ends of the ring buffer.  Port access and the [hlt] loop of
    [kbd_getchar] are in Io.v. *)

From S2P Require Import Prelude CString.

Definition KBD_BUF_SIZE : Z := 256.

Record kbd_state := KBD {
  kbuf : list Z;       (* kbd_buf *)
  khead : Z;           (* kbd_head *)
  ktail : Z;           (* kbd_tail *)
  kshift : Z;          (* shift_held *)
  kcaps : Z            (* caps_lock_on *)
}.

(** US QWERTY, indexed by make code. *)
Definition scancode_normal : list Z :=
  [0; 27] ++ chars "1234567890-=" ++ [8; 9] ++
  chars "qwertyuiop[]" ++ [10; 0] ++
  chars "asdfghjkl;'`" ++ [0] ++
  chars "\zxcvbnm,./" ++ [0; 42; 0; 32] ++
  replicate 26 0 ++ replicate 44 0.

Definition scancode_shift : list Z :=
  [0; 27] ++ chars "!@#$%^&*()_+" ++ [8; 9] ++
  chars "QWERTYUIOP{}" ++ [10; 0] ++
  chars "ASDFGHJKL:" ++ [34; 126; 0] ++
  chars "|ZXCVBNM<>?" ++ [0; 42; 0; 32] ++
  replicate 26 0 ++ replicate 44 0.

Definition kbd_put (c : Z) : M kbd_state unit :=
  k ← get;
  let next_head := (khead k + 1) mod KBD_BUF_SIZE in
  if negb (next_head =? ktail k) then
    buf ← lift_opt (zset (kbuf k) (khead k) c);
    modify (λ _, KBD buf next_head (ktail k) (kshift k) (kcaps k))
  else mret tt.

Definition set_shift (x : Z) (k : kbd_state) : kbd_state :=
  KBD (kbuf k) (khead k) (ktail k) x (kcaps k).
Definition set_caps (x : Z) (k : kbd_state) : kbd_state :=
  KBD (kbuf k) (khead k) (ktail k) (kshift k) x.

(** [kbd_isr] from the point where [sc] holds the scan code. *)
Definition kbd_isr_body (sc : Z) : M kbd_state unit :=
  if negb (Z.land sc 0x80 =? 0) then
    let make := Z.land sc 0x7F in
    if (make =? 0x2A) || (make =? 0x36) then modify (set_shift 0) else mret tt
  else if (sc =? 0x2A) || (sc =? 0x36) then modify (set_shift 1)
  else if sc =? 0x3A then modify (λ k, set_caps (Z.lxor (kcaps k) 1) k)
  else
    k ← get;
    c ← lift_opt (if negb (kshift k =? 0) then zget scancode_shift sc
                  else zget scancode_normal sc);
    if c =? 0 then mret tt else
    let flip := negb (Z.lxor (kcaps k) (kshift k) =? 0) in
    kbd_put
      (if (97 <=? schar c) && (schar c <=? 122) then
         if flip then c - 97 + 65 else c
       else if (65 <=? schar c) && (schar c <=? 90) then
         if flip then c - 65 + 97 else c
       else c).

Definition kbd_has_char (k : kbd_state) : bool := negb (khead k =? ktail k).

(** The last three lines of [kbd_getchar]: the load of the character and the
    store that advances the tail. *)
Definition kbd_load (k : kbd_state) : option Z := zget (kbuf k) (ktail k).
Definition kbd_advance (k : kbd_state) : kbd_state :=
  KBD (kbuf k) (khead k) ((ktail k + 1) mod KBD_BUF_SIZE) (kshift k) (kcaps k).

Definition kbd_pop : M kbd_state Z :=
  k ← get;
  c ← lift_opt (kbd_load k);
  modify kbd_advance;;
  mret c.

(** ** Representation *)

Definition kbd_wf (k : kbd_state) : Prop :=
  zlen (kbuf k) = KBD_BUF_SIZE ∧
  0 ≤ khead k < KBD_BUF_SIZE ∧ 0 ≤ ktail k < KBD_BUF_SIZE ∧
  0 ≤ kshift k ≤ 1 ∧ 0 ≤ kcaps k ≤ 1.

(** Number of characters waiting, and the characters themselves, oldest first. *)
Definition kbd_count (k : kbd_state) : nat :=
  Z.to_nat ((khead k - ktail k) mod KBD_BUF_SIZE).
Definition kbd_queue (k : kbd_state) : list Z :=
  (λ i, default 0 (zget (kbuf k) ((ktail k + Z.of_nat i) mod KBD_BUF_SIZE)))
    <$> seq 0 (kbd_count k).

(** ** The specification: a bounded queue behind a keyboard decoder *)

Record mods := Mods { m_shift : bool; m_caps : bool }.

(** The character a make code gives under the modifiers, as the tables and the
    case adjustment define it. *)
Definition kbd_char (m : mods) (sc : Z) : option Z :=
  c ← (if m_shift m then zget scancode_shift sc else zget scancode_normal sc);
  if c =? 0 then None
  else Some
    (if (97 <=? c) && (c <=? 122) then
       if xorb (m_caps m) (m_shift m) then c - 32 else c
     else if (65 <=? c) && (c <=? 90) then
       if xorb (m_caps m) (m_shift m) then c + 32 else c
     else c).

Definition kbd_decode (m : mods) (sc : Z) : mods * option Z :=
  if 128 <=? sc then
    (if (sc =? 0xAA) || (sc =? 0xB6) then Mods false (m_caps m) else m, None)
  else if (sc =? 0x2A) || (sc =? 0x36) then (Mods true (m_caps m), None)
  else if sc =? 0x3A then (Mods (m_shift m) (negb (m_caps m)), None)
  else (m, kbd_char m sc).

Definition mods_of (k : kbd_state) : mods := Mods (kshift k =? 1) (kcaps k =? 1).

(** At most 255 characters wait; one that finds the queue full is dropped. *)
Definition enqueue (q : list Z) (o : option Z) : list Z :=
  match o with
  | Some c => if (length q <? 255)%nat then q ++ [c] else q
  | None => q
  end.

Ltac mod256 := unfold KBD_BUF_SIZE in *; Z.to_euclidean_division_equations; lia.

Lemma kbd_queue_length k : length (kbd_queue k) = kbd_count k.
Proof. unfold kbd_queue. by rewrite length_fmap, length_seq. Qed.

Lemma kbd_count_bound k : (kbd_count k < 256)%nat.
Proof. unfold kbd_count. mod256. Qed.

Lemma kbd_empty k : kbd_wf k → kbd_has_char k = false ↔ kbd_queue k = [].
Proof.
  intros (_ & Hh & Ht & _). rewrite <-length_zero_iff_nil, kbd_queue_length.
  unfold kbd_has_char, kbd_count. rewrite negb_false_iff, Z.eqb_eq. mod256.
Qed.

Lemma kbd_full k :
  kbd_wf k → (khead k + 1) mod KBD_BUF_SIZE = ktail k ↔ length (kbd_queue k) = 255%nat.
Proof.
  intros (_ & Hh & Ht & _). rewrite kbd_queue_length. unfold kbd_count. mod256.
Qed.

(** Position of the [i]-th waiting character. *)
Lemma kbd_slot_ne k (i : nat) :
  kbd_wf k → (i < kbd_count k)%nat → (ktail k + Z.of_nat i) mod KBD_BUF_SIZE ≠ khead k.
Proof. intros (_ & Hh & Ht & _). unfold kbd_count. mod256. Qed.

Lemma kbd_put_run c k :
  kbd_wf k →
  ∃ k', kbd_put c k = Ret tt k' ∧ kbd_wf k' ∧ mods_of k' = mods_of k ∧
    kbd_queue k' = enqueue (kbd_queue k) (Some c).
Proof.
  intros Hwf. pose proof Hwf as (Hl & Hh & Ht & Hs & Hc). unfold kbd_put. steps.
  assert (Hfull := kbd_full k Hwf). assert (Hcnt := kbd_count_bound k).
  unfold enqueue.
  destruct (Z.eqb_spec ((khead k + 1) mod KBD_BUF_SIZE) (ktail k)) as [He|He]; cbn [negb].
  { exists k. split_and!; try done. by rewrite (proj1 Hfull He). }
  assert (length (kbd_queue k) ≠ 255%nat) by tauto. rewrite kbd_queue_length in *.
  destruct (Nat.ltb_spec (kbd_count k) 255); [|lia].
  rewrite (bind_lift _ _ _ _ (zset_upd (kbuf k) (khead k) c ltac:(unfold KBD_BUF_SIZE in *; lia))).
  eexists. split; [done|]. set (k' := KBD _ _ _ _ _).
  split_and!; try done.
  - unfold kbd_wf, k'; simpl. rewrite zlen_upd. split_and!; try done; try lia; mod256.
  - assert (Hk' : kbd_count k' = S (kbd_count k)).
    { unfold kbd_count, k' in *; simpl. mod256. }
    unfold kbd_queue. rewrite Hk', seq_S, fmap_app. unfold k'; simpl. f_equal.
    + apply list_fmap_ext. intros j i Hi%lookup_seq.
      rewrite zget_upd_ne; [done|lia|]. apply not_eq_sym, kbd_slot_ne; [done|lia].
    + f_equal. replace ((ktail k + Z.of_nat (kbd_count k)) mod KBD_BUF_SIZE) with (khead k)
        by (unfold kbd_count; mod256).
      by rewrite zget_upd_eq by (unfold KBD_BUF_SIZE in *; lia).
Qed.

Lemma kbd_pop_run k c q :
  kbd_wf k → kbd_queue k = c :: q →
  kbd_load k = Some c ∧ kbd_wf (kbd_advance k) ∧
  mods_of (kbd_advance k) = mods_of k ∧ kbd_queue (kbd_advance k) = q.
Proof.
  intros Hwf Hq. pose proof Hwf as (Hl & Hh & Ht & Hs & Hc).
  assert (Hlen := kbd_queue_length k). rewrite Hq in Hlen. simpl in Hlen.
  assert (Hk' : kbd_count k = S (kbd_count (kbd_advance k))).
  { unfold kbd_count, kbd_advance in *; simpl. mod256. }
  unfold kbd_queue in Hq. rewrite Hk' in Hq. simpl in Hq.
  injection Hq as Hhd Htl. split_and!.
  - unfold kbd_load. rewrite Z.add_0_r, Z.mod_small in Hhd by done.
    destruct (zget_in (kbuf k) (ktail k)) as [x Hx]; [unfold KBD_BUF_SIZE in *; lia|].
    rewrite Hx in *. by simplify_eq/=.
  - unfold kbd_wf, kbd_advance; simpl. split_and!; try done; try lia; mod256.
  - done.
  - rewrite <-Htl. unfold kbd_queue. rewrite <-seq_shift, <-list_fmap_compose.
    apply list_fmap_ext. intros j i _. unfold kbd_advance; simpl. do 2 f_equal. mod256.
Qed.

Lemma break_bit sc : 0 ≤ sc < 256 → negb (Z.land sc 0x80 =? 0) = (128 <=? sc).
Proof.
  intros. apply eqb_prop.
  apply (range_forall (λ sc, eqb (negb (Z.land sc 0x80 =? 0)) (128 <=? sc)) 0 256); [|lia].
  by vm_compute.
Qed.

Lemma break_shift sc :
  0 ≤ sc < 256 → 128 ≤ sc →
  (Z.land sc 0x7F =? 0x2A) || (Z.land sc 0x7F =? 0x36) = (sc =? 0xAA) || (sc =? 0xB6).
Proof.
  intros. apply eqb_prop.
  apply (range_forall (λ sc, eqb ((Z.land sc 0x7F =? 0x2A) || (Z.land sc 0x7F =? 0x36))
    ((sc =? 0xAA) || (sc =? 0xB6))) 128 128); [|lia]. by vm_compute.
Qed.

(** The tables cover every make code and hold 7-bit characters. *)
Lemma scancode_get (sh : bool) sc :
  0 ≤ sc < 128 →
  ∃ c, (if sh then zget scancode_shift sc else zget scancode_normal sc) = Some c ∧ 0 ≤ c < 128.
Proof.
  intros Hsc.
  pose proof (range_forall (λ sc,
    match zget scancode_shift sc, zget scancode_normal sc with
    | Some a, Some b => (0 <=? a) && (a <? 128) && (0 <=? b) && (b <? 128)
    | _, _ => false
    end) 0 128 ltac:(by vm_compute) sc Hsc) as H. cbv beta in H.
  destruct (zget scancode_shift sc), (zget scancode_normal sc); try done. bools.
  destruct sh; eexists; (split; [done|lia]).
Qed.

Lemma kbd_isr_run sc k :
  kbd_wf k → 0 ≤ sc < 256 →
  ∃ k', kbd_isr_body sc k = Ret tt k' ∧ kbd_wf k' ∧
    mods_of k' = (kbd_decode (mods_of k) sc).1 ∧
    kbd_queue k' = enqueue (kbd_queue k) (kbd_decode (mods_of k) sc).2.
Proof.
  intros Hwf Hsc. pose proof Hwf as (Hl & Hh & Ht & Hs & Hc).
  unfold kbd_isr_body, kbd_decode. rewrite break_bit by done.
  destruct (Z.leb_spec 128 sc).
  { cbv zeta. rewrite break_shift by done. destruct (_ || _); [|by exists k].
    eexists; split; [done|]. unfold kbd_wf; simpl. split_and!; try done; lia. }
  destruct (_ || _).
  { eexists; split; [done|]. unfold kbd_wf; simpl. split_and!; try done; lia. }
  destruct (sc =? 0x3A).
  { eexists; split; [done|]. unfold kbd_wf, mods_of; simpl.
    assert (kcaps k = 0 ∨ kcaps k = 1) as [->| ->] by lia; split_and!; try done; lia. }
  steps. unfold kbd_char. cbn [fst snd mods_of m_shift m_caps].
  assert (Hsh : negb (kshift k =? 0) = (kshift k =? 1)).
  { by assert (kshift k = 0 ∨ kshift k = 1) as [->| ->] by lia. }
  assert (Hxor : negb (Z.lxor (kcaps k) (kshift k) =? 0) = xorb (kcaps k =? 1) (kshift k =? 1)).
  { assert (kshift k = 0 ∨ kshift k = 1) as [->| ->] by lia;
    by assert (kcaps k = 0 ∨ kcaps k = 1) as [->| ->] by lia. }
  rewrite Hsh, Hxor. destruct (scancode_get (kshift k =? 1) sc) as (c & -> & Hc'); [lia|].
  rewrite (bind_lift _ c) by done. simpl. destruct (c =? 0); [by exists k|].
  unfold schar. destruct (Z.ltb_spec c 128); [|lia].
  replace (c - 97 + 65) with (c - 32) by lia. replace (c - 65 + 97) with (c + 32) by lia.
  set (c' := if _ && _ then _ else _).
  destruct (kbd_put_run c' k Hwf) as (k' & E & Hwf' & Hm & Hq). by exists k'.
Qed.

(** ** Producer and consumer, interleaved

    The interrupt handler may run between any two memory accesses of
    [kbd_getchar]; the reader's program counter says how far it is. *)

Inductive reader :=
  | RWait                  (* at the [while (!kbd_has_char())] test *)
  | RLoad                  (* past the test, before [kbd_buf[kbd_tail]] is read *)
  | RStore (c : Z).        (* [c] read, [kbd_tail] not yet advanced *)

Record pipe := Pipe { p_kbd : kbd_state; p_reader : reader; p_got : list Z }.

Inductive pipe_step : pipe → pipe → Prop :=
  | step_irq sc k k' r got :
      0 ≤ sc < 256 → kbd_isr_body sc k = Ret tt k' →
      pipe_step (Pipe k r got) (Pipe k' r got)
  | step_test k got :
      kbd_has_char k = true →
      pipe_step (Pipe k RWait got) (Pipe k RLoad got)
  | step_load k c got :
      kbd_load k = Some c →
      pipe_step (Pipe k RLoad got) (Pipe k (RStore c) got)
  | step_store k c got :
      pipe_step (Pipe k (RStore c) got) (Pipe (kbd_advance k) RWait (got ++ [c])).

(** The specification: decoding and a queue with room for 255 characters; a
    read takes the oldest one, atomically. *)
Record spec := Spec { s_mods : mods; s_queue : list Z; s_got : list Z }.

Inductive spec_step : spec → spec → Prop :=
  | spec_irq sc m q got :
      0 ≤ sc < 256 →
      spec_step (Spec m q got)
        (Spec (kbd_decode m sc).1 (enqueue q (kbd_decode m sc).2) got)
  | spec_read m c q got :
      spec_step (Spec m (c :: q) got) (Spec m q (got ++ [c])).

(** The reader past its test still owns the head of the queue. *)
Definition reader_ok (r : reader) (q : list Z) : Prop :=
  match r with
  | RWait => True
  | RLoad => q ≠ []
  | RStore c => ∃ q', q = c :: q'
  end.

Definition pipe_sim (p : pipe) (s : spec) : Prop :=
  kbd_wf (p_kbd p) ∧ s_mods s = mods_of (p_kbd p) ∧
  s_queue s = kbd_queue (p_kbd p) ∧ s_got s = p_got p ∧
  reader_ok (p_reader p) (s_queue s).

Lemma reader_ok_enqueue r q o : reader_ok r q → reader_ok r (enqueue q o).
Proof.
  destruct r as [| |c], o as [x|]; simpl; try done; case_match; try done.
  - intros _ ?%app_nil. naive_solver.
  - intros [q' ->]. by exists (q' ++ [x]).
Qed.

Lemma pipe_simulation p p' s :
  pipe_sim p s → pipe_step p p' → ∃ s', rtc spec_step s s' ∧ pipe_sim p' s'.
Proof.
  intros (Hwf & Hm & Hq & Hg & Hr) Hstep.
  destruct s as [m q got]; simpl in *; subst m q got.
  inversion Hstep as [sc k k' r got Hsc E|k got E|k c got E|k c got]; subst; simpl in *.
  - destruct (kbd_isr_run sc k Hwf Hsc) as (k2 & E2 & Hwf' & Hm' & Hq').
    rewrite E in E2. injection E2 as <-.
    eexists. split; [apply rtc_once, (spec_irq sc); done|].
    split_and!; simpl; try done. by apply reader_ok_enqueue.
  - eexists. split; [apply rtc_refl|]. split_and!; try done. simpl.
    intros Hnil%(kbd_empty k Hwf). congruence.
  - eexists. split; [apply rtc_refl|]. split_and!; try done. simpl.
    destruct (kbd_queue k) as [|x q] eqn:Hq; [done|].
    destruct (kbd_pop_run k x q Hwf Hq) as (Hl & _). exists q. congruence.
  - destruct Hr as [q Hq]. destruct (kbd_pop_run k c q Hwf Hq) as (_ & Hwf' & Hm' & Hq').
    rewrite Hq. eexists. split; [apply rtc_once, spec_read|]. split_and!; simpl; done.
Qed.

Lemma pipe_refines p p' s :
  pipe_sim p s → rtc pipe_step p p' → ∃ s', rtc spec_step s s' ∧ pipe_sim p' s'.
Proof.
  intros Hs Hr. revert s Hs. induction Hr as [p|p p1 p' Hstep _ IH]; intros s Hs.
  - exists s. split; [apply rtc_refl|done].
  - destruct (pipe_simulation p p1 s Hs Hstep) as (s1 & H1 & Hs1).
    destruct (IH s1 Hs1) as (s2 & H2 & Hs2). exists s2. split; [by etrans|done].
Qed.
