(* ===== verification/Console.v ===== *)
(** * Console output

    Every message of the kernel is a sequence of colour changes and strings.
    [render] is the effect of such a sequence on the reference terminal of
    Vga.v, and the class [Prints] says that a piece of driver code has exactly
    that effect; its instances find the sequence from the code. *)

From S2P Require Import Prelude CString Vga.

Inductive citem :=
  | CText (s : list Z)
  | CColor (fg bg : Z)
  | CClear.

Definition set_attr (fg bg : Z) (v : vga_state) : vga_state :=
  VGA (vmem v) (vrow v) (vcol v) (u8 (Z.lor fg (Z.shiftl bg 4))).

Definition render1 (v : vga_state) (x : citem) : vga_state :=
  match x with
  | CText s => term_puts v s
  | CColor fg bg => set_attr fg bg v
  | CClear => VGA (replicate 2000 (blank v)) 0 0 (vcolor v)
  end.

Definition render (v : vga_state) (tr : list citem) : vga_state := foldl render1 v tr.

Lemma render_app v t1 t2 : render v (t1 ++ t2) = render (render v t1) t2.
Proof. apply foldl_app. Qed.

Lemma set_attr_wf fg bg v : vga_wf v → vga_wf (set_attr fg bg v).
Proof.
  intros (?&?&?&?). unfold vga_wf, set_attr, u8. simpl.
  pose proof (Z.mod_pos_bound (Z.lor fg (Z.shiftl bg 4)) 256). lia.
Qed.

Lemma render1_wf v x : vga_wf v → vga_wf (render1 v x).
Proof.
  intros Hv. destruct x; simpl; [by apply term_puts_wf|by apply set_attr_wf|].
  apply cleared_wf. apply Hv.
Qed.

Lemma render_wf v tr : vga_wf v → vga_wf (render v tr).
Proof. revert v. induction tr; simpl; [done|]. intros. by apply IHtr, render1_wf. Qed.

#[export] Hint Resolve set_attr_wf render_wf : dugos.

Class Prints (c : M vga_state unit) (tr : list citem) : Prop :=
  prints : ∀ v, vga_wf v → c v = Ret tt (render v tr).

#[export] Instance prints_ret : Prints (mret tt) [].
Proof. by intros v _. Qed.

#[export] Instance prints_seq c1 c2 t1 t2 :
  Prints c1 t1 → Prints c2 t2 → Prints (c1;; c2) (t1 ++ t2).
Proof.
  intros H1 H2 v Hv. step (H1 v Hv). rewrite render_app. apply H2. auto with dugos.
Qed.

#[export] Instance prints_color fg bg : Prints (vga_set_color fg bg) [CColor fg bg].
Proof. by intros v Hv. Qed.

#[export] Instance prints_clear : Prints vga_clear [CClear].
Proof. intros v Hv. apply clear_run, Hv. Qed.

#[export] Instance prints_putchar c : Prints (vga_putchar c) [CText [c]].
Proof. intros v Hv. by apply putchar_run. Qed.

(** A buffer known to hold a string, as a class, so that the instances below
    apply to literals and to the buffers of the context alike. *)
Class IsStr (buf s : list Z) : Prop := is_str : cstr buf s.

Definition lit_ok (s : string) : bool :=
  forallb (λ c, (0 <? c) && (c <? 256)) (chars s).

Lemma lit_ok_chars s : lit_ok s = true → Forall is_char (chars s).
Proof.
  unfold lit_ok. rewrite forallb_forall. intros H. apply Forall_forall. intros x Hx.
  apply list_elem_of_In, H in Hx. bools. done.
Qed.

#[export] Hint Extern 0 (IsStr (lit _) _) =>
  (apply cstr_lit, lit_ok_chars; vm_compute; reflexivity) : typeclass_instances.
#[export] Hint Extern 1 (IsStr _ _) => eassumption : typeclass_instances.

#[export] Instance prints_write buf s : IsStr buf s → Prints (vga_write buf) [CText s].
Proof. intros Hs v Hv. by apply write_run. Qed.

#[export] Instance prints_writeln buf s : IsStr buf s → Prints (vga_writeln buf) [CText (s ++ [10])].
Proof. intros Hs v Hv. by apply writeln_run. Qed.

(** The digits the driver prints for a number. *)
Fixpoint dec_rev (fuel : nat) (n : Z) : list Z :=
  match fuel with
  | O => []
  | S fuel' => if n =? 0 then [] else (48 + n mod 10) :: dec_rev fuel' (n / 10)
  end.

Definition dec_string (n : Z) : list Z := if n =? 0 then [48] else reverse (dec_rev 10 n).

Lemma dec_rev_spec fuel n :
  0 ≤ n < 10 ^ Z.of_nat fuel →
  dec_val_rev (dec_rev fuel n) = n ∧ Forall is_digit (dec_rev fuel n) ∧
  last (dec_rev fuel n) ≠ Some 48.
Proof.
  revert n. induction fuel as [|fuel IH]; intros n Hn; simpl.
  { split_and!; [simpl in *; lia|constructor|done]. }
  destruct (Z.eqb_spec n 0) as [->|]; [split_and!; [done|constructor|done]|].
  destruct (IH (n / 10)) as (Hv & HF & Hl).
  { rewrite Nat2Z.inj_succ, Z.pow_succ_r in Hn by lia.
    split; [apply Z.div_pos; lia|]. apply Z.div_lt_upper_bound; lia. }
  pose proof (Z.mod_pos_bound n 10). split_and!.
  - unfold dec_val_rev in *. simpl. rewrite Hv. pose proof (Z.div_mod n 10). lia.
  - constructor; [unfold is_digit; lia|done].
  - destruct (dec_rev fuel (n / 10)) as [|y l]; [|done].
    simpl. intros [= E]. unfold dec_val_rev in Hv. simpl in Hv.
    pose proof (Z.div_mod n 10). lia.
Qed.

Lemma dec_rev_unique d1 d2 :
  Forall is_digit d1 → Forall is_digit d2 → last d1 ≠ Some 48 → last d2 ≠ Some 48 →
  dec_val_rev d1 = dec_val_rev d2 → d1 = d2.
Proof.
  assert (Hpos : ∀ d, Forall is_digit d → 0 ≤ dec_val_rev d ∧ (last d ≠ Some 48 → d ≠ [] → 0 < dec_val_rev d)).
  { induction 1 as [|x d Hx Hd [IH1 IH2]]; [split; [done|done]|].
    unfold is_digit, dec_val_rev in *. simpl. split; [lia|]. intros Hl _.
    destruct d as [|y d]; [simpl in *|].
    - assert (x ≠ 48) by (intros ->; done). lia.
    - specialize (IH2 Hl ltac:(done)). lia. }
  intros H1. revert d2. induction H1 as [|x d1 Hx H1 IH]; intros d2 H2 Hl1 Hl2 E.
  - destruct d2 as [|y d2]; [done|]. destruct (Hpos _ H2) as [_ Hp].
    specialize (Hp Hl2 ltac:(done)). unfold dec_val_rev in *. simpl in *. lia.
  - destruct H2 as [|y d2 Hy H2].
    { destruct (Hpos (x :: d1)) as [_ Hp]; [by constructor|].
      specialize (Hp Hl1 ltac:(done)). unfold dec_val_rev in *. simpl in *. lia. }
    destruct (Hpos _ H1), (Hpos _ H2). unfold is_digit in *.
    assert (x = y ∧ dec_val_rev d1 = dec_val_rev d2) as [-> E2].
    { unfold dec_val_rev in *. simpl in E.
      set (u := foldr _ _ d1) in *. set (w := foldr _ _ d2) in *. lia. }
    f_equal. apply IH; try done; [destruct d1|destruct d2]; done.
Qed.

Lemma dec_string_unique n ds :
  0 ≤ n < 2 ^ 32 → dec_val ds = n → canonical ds → ds = dec_string n.
Proof.
  intros Hn Hv (HF & Hh & Hne).
  assert (Hr : dec_val_rev (reverse ds) = n) by by rewrite <-dec_val_reverse, reverse_involutive.
  destruct (dec_rev_spec 10 n) as (Hv2 & HF2 & Hl2); [lia|].
  assert (HFr : Forall is_digit (reverse ds)) by by apply Forall_reverse.
  unfold dec_string. destruct (Z.eqb_spec n 0) as [->|].
  - destruct ds as [|x ds]; [done|]. destruct (decide (x = 48)) as [->|Hx]; [by apply Hh|].
    exfalso. assert (reverse (x :: ds) = []); [|by rewrite reverse_cons, app_nil in *; naive_solver].
    apply dec_rev_unique; try done. rewrite reverse_cons, last_snoc. naive_solver.
  - rewrite <-(reverse_involutive ds). f_equal. apply dec_rev_unique; try done.
    + destruct ds as [|x ds]; [done|]. rewrite reverse_cons, last_snoc. intros [= ->].
      rewrite Hh in Hv; done.
    + congruence.
Qed.

(** Arguments of [vga_write_dec] and [vga_write_hex] are 32-bit. *)
Class IsU32 (n : Z) : Prop := is_u32 : 0 ≤ n < 2 ^ 32.
#[export] Hint Extern 0 (IsU32 _) => (red; simpl; lia) : typeclass_instances.

#[export] Instance prints_dec n : IsU32 n → Prints (vga_write_dec n) [CText (dec_string n)].
Proof.
  intros Hn v Hv. destruct (write_dec_run n v Hv Hn) as (ds & E & Hd & Hc).
  rewrite E. by rewrite (dec_string_unique n ds).
Qed.

(** The same for hexadecimal. *)
Fixpoint hex_digits (fuel : nat) (n : Z) : list Z :=
  match fuel with
  | O => []
  | S fuel' => if n =? 0 then [] else hex_digits fuel' (n / 16) ++ [hex_char (n mod 16)]
  end.

Definition hex_string (n : Z) : list Z := if n =? 0 then [48] else hex_digits 8 n.

Lemma hex_val_snoc ds c : hex_val (ds ++ [c]) = hex_val ds * 16 + hex_digit c.
Proof. unfold hex_val. by rewrite foldl_snoc. Qed.

Lemma hex_val_nonneg ds : Forall is_hex_digit ds → 0 ≤ hex_val ds.
Proof.
  induction ds as [|c ds IH] using rev_ind; [done|].
  intros [HF Hc]%Forall_app. inversion Hc as [|? ? (k & Hk & ->) _]; subst.
  rewrite hex_val_snoc, hex_digit_char by done. specialize (IH HF). lia.
Qed.

Lemma head_snoc_ne (ds : list Z) c : head (ds ++ [c]) ≠ Some 48 → head ds ≠ Some 48.
Proof. by destruct ds. Qed.

Lemma hex_val_pos ds : Forall is_hex_digit ds → head ds ≠ Some 48 → ds ≠ [] → 0 < hex_val ds.
Proof.
  induction ds as [|c ds IH] using rev_ind; [done|].
  intros [HF Hc]%Forall_app Hh _. inversion Hc as [|? ? (k & Hk & ->) _]; subst.
  rewrite hex_val_snoc, hex_digit_char by done. destruct ds as [|d ds].
  - assert (k ≠ 0) by (intros ->; done). unfold hex_val. simpl. lia.
  - specialize (IH HF Hh ltac:(done)). lia.
Qed.

Lemma hex_unique d1 d2 :
  Forall is_hex_digit d1 → Forall is_hex_digit d2 → head d1 ≠ Some 48 → head d2 ≠ Some 48 →
  hex_val d1 = hex_val d2 → d1 = d2.
Proof.
  revert d2. induction d1 as [|x d1 IH] using rev_ind; intros d2 H1 H2 Hh1 Hh2 E.
  - destruct d2 as [|y d2]; [done|]. pose proof (hex_val_pos _ H2 Hh2 ltac:(done)).
    change (hex_val []) with 0 in E. lia.
  - destruct d2 as [|y d2 _] using rev_ind.
    { pose proof (hex_val_pos _ H1 Hh1 ltac:(by destruct d1)). change (hex_val []) with 0 in E. lia. }
    apply Forall_app in H1 as [H1 Hx], H2 as [H2 Hy].
    inversion Hx as [|? ? (k & Hk & ->) _]; subst. inversion Hy as [|? ? (j & Hj & ->) _]; subst.
    rewrite !hex_val_snoc, !hex_digit_char in E by done.
    assert (k = j) as -> by lia. f_equal. apply IH; try done; [by eapply head_snoc_ne..|lia].
Qed.

Lemma hex_digits_spec fuel n :
  0 ≤ n < 16 ^ Z.of_nat fuel →
  hex_val (hex_digits fuel n) = n ∧ Forall is_hex_digit (hex_digits fuel n) ∧
  head (hex_digits fuel n) ≠ Some 48.
Proof.
  revert n. induction fuel as [|fuel IH]; intros n Hn; simpl.
  { split_and!; [unfold hex_val; simpl in *; lia|constructor|done]. }
  destruct (Z.eqb_spec n 0) as [->|]; [split_and!; [done|constructor|done]|].
  destruct (IH (n / 16)) as (Hv & HF & Hl).
  { rewrite Nat2Z.inj_succ, Z.pow_succ_r in Hn by lia.
    split; [apply Z.div_pos; lia|]. apply Z.div_lt_upper_bound; lia. }
  pose proof (Z.mod_pos_bound n 16). pose proof (Z.div_mod n 16). split_and!.
  - rewrite hex_val_snoc, Hv, hex_digit_char by lia. lia.
  - apply Forall_app. split; [done|]. apply Forall_singleton. exists (n mod 16). split; [lia|done].
  - destruct (hex_digits fuel (n / 16)) as [|y l]; [|done]. simpl. intros [= E].
    change (hex_val []) with 0 in Hv. unfold hex_char in E.
    destruct (Z.ltb_spec (n mod 16) 10); lia.
Qed.

#[export] Instance prints_hex n : IsU32 n → Prints (vga_write_hex n) [CText (hex_string n)].
Proof.
  intros Hn v Hv. destruct (write_hex_run n v Hv Hn) as (ds & E & Hd & HF & Hne & Hh).
  rewrite E. do 2 f_equal. unfold IsU32 in Hn.
  destruct (hex_digits_spec 8 n) as (Hv2 & HF2 & Hl2); [lia|]. unfold hex_string.
  destruct (Z.eqb_spec n 0) as [->|].
  - destruct ds as [|x ds]; [done|]. destruct (decide (x = 48)) as [->|Hx]; [by rewrite Hh|].
    pose proof (hex_val_pos _ HF ltac:(naive_solver) Hne). lia.
  - rewrite (hex_unique ds (hex_digits 8 n)); try done; [|congruence].
    intros Hh'. rewrite (Hh Hh') in Hd. by vm_compute in Hd.
Qed.
