(* ===== verification/Descriptors.v ===== *)
(** * gdt.c and idt.c: the descriptor tables

    Both tables are arrays of packed records.  The addresses of the tables and
    of the assembly stubs are fixed by the linker: they are parameters. *)

From S2P Require Import Prelude.

(** ** gdt.c *)

Definition GDT_ENTRIES : Z := 5.

Record gdt_entry := GdtEntry {
  limit_low : Z; base_low : Z; base_mid : Z; access : Z; gflags : Z; base_high : Z
}.

Record table_ptr := TablePtr { ptr_limit : Z; ptr_base : Z }.

(** [gdtr] is what [gdt_flush] loads: the descriptor [lgdt] is given. *)
Record gdt_state := GDT {
  gdt : list gdt_entry;
  gdt_descriptor : table_ptr;
  gdtr : option table_ptr
}.

Definition gdt_set (idx base limit acc fl : Z) : M gdt_state unit :=
  s ← get;
  t ← lift_opt (zset (gdt s) idx
        (GdtEntry (Z.land limit 0xFFFF) (Z.land base 0xFFFF)
                  (Z.land (Z.shiftr base 16) 0xFF) acc
                  (Z.lor (Z.land (Z.shiftr limit 16) 0x0F) (Z.land fl 0xF0))
                  (Z.land (Z.shiftr base 24) 0xFF)));
  modify (λ s, GDT t (gdt_descriptor s) (gdtr s)).

(** Each packed entry has 8 bytes. *)
Definition gdt_init (gdt_addr : Z) : M gdt_state unit :=
  modify (λ s, GDT (gdt s) (TablePtr (u16 (8 * GDT_ENTRIES - 1)) (u32 gdt_addr)) (gdtr s));;
  gdt_set 0 0 0 0 0;;
  gdt_set 1 0 0xFFFFFFFF 0x9A 0xCF;;
  gdt_set 2 0 0xFFFFFFFF 0x92 0xCF;;
  gdt_set 3 0 0xFFFFFFFF 0xFA 0xCF;;
  gdt_set 4 0 0xFFFFFFFF 0xF2 0xCF;;
  modify (λ s, GDT (gdt s) (gdt_descriptor s) (Some (gdt_descriptor s))).

(** What the processor reads back from an entry (Intel SDM, figure 3-8). *)
Definition seg_base (e : gdt_entry) : Z :=
  base_low e + 65536 * base_mid e + 16777216 * base_high e.
Definition seg_limit (e : gdt_entry) : Z := limit_low e + 65536 * (gflags e mod 16).
Definition seg_granular (e : gdt_entry) : bool := Z.testbit (gflags e) 7.
Definition seg_32bit (e : gdt_entry) : bool := Z.testbit (gflags e) 6.
Definition seg_present (e : gdt_entry) : bool := Z.testbit (access e) 7.
Definition seg_dpl (e : gdt_entry) : Z := Z.land (Z.shiftr (access e) 5) 3.
Definition seg_code (e : gdt_entry) : bool := Z.testbit (access e) 3.
(** The last byte the segment reaches. *)
Definition seg_last (e : gdt_entry) : Z :=
  if seg_granular e then seg_limit e * 4096 + 4095 else seg_limit e.

(** ** idt.c *)

Definition IDT_ENTRIES : Z := 256.

Record idt_entry := IdtEntry {
  handler_low : Z; selector : Z; always0 : Z; iflags : Z; handler_high : Z
}.

Record idt_state := IDT {
  idt : list idt_entry;
  idt_descriptor : table_ptr;
  idtr : option table_ptr
}.

Definition idt_put (n : Z) (e : idt_entry) : M idt_state unit :=
  s ← get;
  t ← lift_opt (zset (idt s) n e);
  modify (λ s, IDT t (idt_descriptor s) (idtr s)).

Definition idt_set (n handler sel fl : Z) : M idt_state unit :=
  idt_put n (IdtEntry (Z.land handler 0xFFFF) sel 0 fl (Z.land (Z.shiftr handler 16) 0xFFFF)).

(** The byte loop [p[i] = 0] runs over the 256 entries of 8 bytes; the calls
    [idt_set(n, isrN, ..)] and [idt_set(32 + n, irqN, ..)] follow, one per stub. *)
Definition idt_init (idt_addr : Z) (isr_stub irq_stub : Z → Z) : M idt_state unit :=
  modify (λ s, IDT (idt s) (TablePtr (u16 (8 * IDT_ENTRIES - 1)) (u32 idt_addr)) (idtr s));;
  for_each (range 0 (Z.to_nat IDT_ENTRIES)) (λ n, idt_put n (IdtEntry 0 0 0 0 0));;
  for_each (range 0 32) (λ n, idt_set n (u32 (isr_stub n)) 0x08 0x8E);;
  for_each (range 0 16) (λ n, idt_set (32 + n) (u32 (irq_stub n)) 0x08 0x8E);;
  modify (λ s, IDT (idt s) (idt_descriptor s) (Some (idt_descriptor s))).

(** What the processor reads from a gate (Intel SDM, figure 6-2). *)
Definition gate_offset (e : idt_entry) : Z := handler_low e + 65536 * handler_high e.
Definition gate_present (e : idt_entry) : bool := Z.testbit (iflags e) 7.
Definition gate_dpl (e : idt_entry) : Z := Z.land (Z.shiftr (iflags e) 5) 3.
(** Type 0xE: a 32-bit interrupt gate, which clears IF on entry. *)
Definition gate_interrupt (e : idt_entry) : bool := Z.land (iflags e) 0x1F =? 0x0E.

(** ** Encoding and decoding *)

Lemma land_field x k w :
  0 ≤ w → 0 ≤ k → Z.land (Z.shiftr x k) (Z.ones w) = (x / 2 ^ k) mod 2 ^ w.
Proof. intros Hw Hk. rewrite Z.land_ones by done. by rewrite Z.shiftr_div_pow2. Qed.

Lemma land16 x : Z.land x 0xFFFF = x mod 65536.
Proof. apply (Z.land_ones x 16). lia. Qed.

Lemma land_low_high a b : 0 ≤ a < 16 → Z.lor a (Z.land b 0xF0) mod 16 = a.
Proof.
  intros Ha. change 16 with (2 ^ 4). rewrite <-Z.land_ones by lia.
  rewrite Z.land_lor_distr_l, <-Z.land_assoc. change (Z.land 0xF0 (Z.ones 4)) with 0.
  rewrite Z.land_0_r, Z.lor_0_r, Z.land_ones by lia. apply Z.mod_small. lia.
Qed.

(** The table an entry is put in, with the rest unchanged. *)
Definition gdt_encode (base limit acc fl : Z) : gdt_entry :=
  GdtEntry (Z.land limit 0xFFFF) (Z.land base 0xFFFF)
           (Z.land (Z.shiftr base 16) 0xFF) acc
           (Z.lor (Z.land (Z.shiftr limit 16) 0x0F) (Z.land fl 0xF0))
           (Z.land (Z.shiftr base 24) 0xFF).

Lemma gdt_set_run idx base limit acc fl s :
  0 ≤ idx < zlen (gdt s) →
  gdt_set idx base limit acc fl s =
    Ret tt (GDT (upd (gdt s) idx (gdt_encode base limit acc fl)) (gdt_descriptor s) (gdtr s)).
Proof. intros. unfold gdt_set. steps. by rewrite bind_zset. Qed.

Lemma seg_base_encode base limit acc fl :
  0 ≤ base < 2 ^ 32 → seg_base (gdt_encode base limit acc fl) = base.
Proof.
  intros Hb. unfold seg_base. simpl. rewrite land16.
  change 0xFF with (Z.ones 8). rewrite !land_field by lia.
  change (2 ^ 16) with 65536. change (2 ^ 24) with 16777216. change (2 ^ 8) with 256.
  Z.to_euclidean_division_equations. lia.
Qed.

Lemma seg_limit_encode base limit acc fl :
  0 ≤ limit → seg_limit (gdt_encode base limit acc fl) = limit mod 2 ^ 20.
Proof.
  intros Hl. unfold seg_limit. simpl.
  change 0x0F with (Z.ones 4). rewrite land_field by lia. change (2 ^ 4) with 16.
  rewrite land_low_high by (apply Z.mod_pos_bound; lia). rewrite land16.
  change (2 ^ 16) with 65536. change (2 ^ 20) with (65536 * 16).
  rewrite Z.rem_mul_r by lia. lia.
Qed.

Lemma gdt_init_run addr s :
  zlen (gdt s) = GDT_ENTRIES →
  let d := TablePtr 39 (u32 addr) in
  gdt_init addr s = Ret tt (GDT
    [gdt_encode 0 0 0 0; gdt_encode 0 0xFFFFFFFF 0x9A 0xCF; gdt_encode 0 0xFFFFFFFF 0x92 0xCF;
     gdt_encode 0 0xFFFFFFFF 0xFA 0xCF; gdt_encode 0 0xFFFFFFFF 0xF2 0xCF] d (Some d)).
Proof.
  intros Hs. unfold gdt_init. steps. destruct s as [g d0 r]. simpl in *.
  destruct g as [|e0 [|e1 [|e2 [|e3 [|e4 [|]]]]]]; 
    try (unfold zlen, GDT_ENTRIES in Hs; simpl in Hs; lia).
  reflexivity.
Qed.

(** ** The interrupt table *)

Definition gate_encode (handler : Z) : idt_entry :=
  IdtEntry (Z.land handler 0xFFFF) 0x08 0 0x8E (Z.land (Z.shiftr handler 16) 0xFFFF).

Lemma gate_offset_encode h : 0 ≤ h < 2 ^ 32 → gate_offset (gate_encode h) = h.
Proof.
  intros Hh. unfold gate_offset. simpl. change 0xFFFF with (Z.ones 16) at 2.
  rewrite land16, land_field by lia. change (2 ^ 16) with 65536.
  Z.to_euclidean_division_equations. lia.
Qed.

Lemma idt_put_run n e s :
  0 ≤ n < zlen (idt s) →
  idt_put n e s = Ret tt (IDT (upd (idt s) n e) (idt_descriptor s) (idtr s)).
Proof. intros. unfold idt_put. steps. by rewrite bind_zset. Qed.

(** A loop that puts one entry per index. *)
Lemma idt_fill lo off n (f : Z → idt_entry) s :
  0 ≤ lo + off → lo + off + Z.of_nat n ≤ zlen (idt s) →
  ∃ t, for_each (range lo n) (λ i, idt_put (off + i) (f i)) s
       = Ret tt (IDT t (idt_descriptor s) (idtr s)) ∧ zlen t = zlen (idt s) ∧
    ∀ j, zget t j = if (lo + off <=? j) && (j <? lo + off + Z.of_nat n)
                    then Some (f (j - off)) else zget (idt s) j.
Proof.
  intros Hlo Hn.
  destruct (for_each_range (λ k s', zlen (idt s') = zlen (idt s) ∧
      idt_descriptor s' = idt_descriptor s ∧ idtr s' = idtr s ∧
      ∀ j, zget (idt s') j = if (lo + off <=? j) && (j <? k + off)
                    then Some (f (j - off)) else zget (idt s) j) lo n
      (λ i, idt_put (off + i) (f i)) s) as (s' & E & Hl & Hd & Hr & Hj).
  - split_and!; try done. intros j. by destruct (Z.leb_spec (lo + off) j), (Z.ltb_spec j (lo + off)); try lia.
  - intros i s1 Hi (Hl & Hd & Hr & Hj). eexists. split; [apply idt_put_run; lia|]. simpl.
    split_and!; [by rewrite zlen_upd|done|done|]. intros j.
    rewrite zget_upd by lia. rewrite Hj.
    destruct (Z.eqb_spec (off + i) j) as [<-|].
    + destruct (Z.leb_spec (lo + off) (off + i)), (Z.ltb_spec (off + i) (i + 1 + off)); try lia.
      simpl. do 2 f_equal. lia.
    + destruct (Z.leb_spec (lo + off) j), (Z.ltb_spec j (i + off)), (Z.ltb_spec j (i + 1 + off)); try lia; done.
  - exists (idt s'). rewrite E. destruct s'; simpl in *; subst.
    split_and!; try done. intros j. rewrite Hj. by replace (lo + off + Z.of_nat n) with (lo + Z.of_nat n + off) by lia.
Qed.

(** The gates [idt_init] installs: exceptions, then hardware interrupts. *)
Definition idt_gate (isr_stub irq_stub : Z → Z) (n : Z) : idt_entry :=
  if n <? 32 then gate_encode (u32 (isr_stub n))
  else if n <? 48 then gate_encode (u32 (irq_stub (n - 32)))
  else IdtEntry 0 0 0 0 0.

Lemma idt_init_run addr isr irq s :
  zlen (idt s) = IDT_ENTRIES →
  ∃ t, idt_init addr isr irq s
    = Ret tt (IDT t (TablePtr 2047 (u32 addr)) (Some (TablePtr 2047 (u32 addr)))) ∧
    zlen t = IDT_ENTRIES ∧ ∀ n, 0 ≤ n < 256 → zget t n = Some (idt_gate isr irq n).
Proof.
  intros Hs. unfold idt_init, IDT_ENTRIES in *. steps.
  match goal with |- context [ (_ ≫= _) ?s0 ] => set (s1 := s0) end.
  destruct (idt_fill 0 0 256 (λ _, IdtEntry 0 0 0 0 0) s1) as (t1 & E1 & L1 & G1); [lia|simpl; lia|].
  step E1. set (s2 := IDT t1 _ _).
  destruct (idt_fill 0 0 32 (λ n, gate_encode (u32 (isr n))) s2) as (t2 & E2 & L2 & G2);
    [lia|simpl in *; lia|].
  step E2. set (s3 := IDT t2 _ _).
  destruct (idt_fill 0 32 16 (λ n, gate_encode (u32 (irq n))) s3) as (t3 & E3 & L3 & G3);
    [lia|simpl in *; lia|].
  step E3. eexists. split; [done|]. simpl in *. split; [lia|]. intros n Hn.
  rewrite G3, G2, G1. unfold idt_gate. rewrite Z.sub_0_r.
  change (0 + 32 + Z.of_nat 16) with 48. change (0 + 0 + Z.of_nat 32) with 32.
  change (0 + 0 + Z.of_nat 256) with 256. change (0 + 32) with 32. change (0 + 0) with 0.
  destruct (Z.leb_spec 32 n), (Z.ltb_spec n 48), (Z.ltb_spec n 32), (Z.leb_spec 0 n),
    (Z.ltb_spec n 256); try lia; done.
Qed.
