(* ===== verification/Io.v ===== *)
(** * The hardware side: port.h, pic.c, isr.c and the driver half of keyboard.c

    The devices behind the I/O ports are not part of the repository: a [Bus]
    gives their state, what a port write or read does to it and how a device
    raises an interrupt.  [PcLaws] states the documented behaviour of the two
    8259A controllers and of the keyboard port; [pc] is a concrete bus that
    satisfies it. *)

From S2P Require Import Prelude CString Vga Console Keyboard.

(** An interrupt: the line it comes from and the byte its device holds. *)
Record event := Event { ev_irq : Z; ev_data : Z }.

Class Bus := {
  dev : Type;
  bus_out : Z → Z → dev → dev;       (* OUT: port, byte *)
  bus_in : Z → dev → Z * dev;        (* IN: port *)
  bus_raise : event → dev → dev      (* a device raises its line and the CPU takes it *)
}.

(** The functions an IRQ line can be registered with. *)
Inductive handler := h_kbd_isr.

#[export] Instance handler_eq : EqDecision handler.
Proof. solve_decision. Defined.

Section io.
Context `{B : Bus}.

(** The part of the kernel that talks to devices: the drivers' state, the
    interrupt flag, the devices, and the interrupts still to come. *)
Record io := IO {
  io_vga : vga_state;
  io_kbd : kbd_state;
  irq_handlers : list (option handler);
  io_if : bool;
  io_dev : dev;
  io_env : list event
}.

Definition set_vga (x : vga_state) (i : io) : io :=
  IO x (io_kbd i) (irq_handlers i) (io_if i) (io_dev i) (io_env i).
Definition set_kbd (x : kbd_state) (i : io) : io :=
  IO (io_vga i) x (irq_handlers i) (io_if i) (io_dev i) (io_env i).
Definition set_irq (x : list (option handler)) (i : io) : io :=
  IO (io_vga i) (io_kbd i) x (io_if i) (io_dev i) (io_env i).
Definition set_if (x : bool) (i : io) : io :=
  IO (io_vga i) (io_kbd i) (irq_handlers i) x (io_dev i) (io_env i).
Definition set_dev (x : dev) (i : io) : io :=
  IO (io_vga i) (io_kbd i) (irq_handlers i) (io_if i) x (io_env i).
Definition set_env (x : list event) (i : io) : io :=
  IO (io_vga i) (io_kbd i) (irq_handlers i) (io_if i) (io_dev i) x.

Definition con (c : M vga_state unit) : M io unit := zoom io_vga set_vga c.
Definition onkbd {A} (c : M kbd_state A) : M io A := zoom io_kbd set_kbd c.

(** ** port.h *)

Definition outb (port val : Z) : M io unit :=
  modify (λ i, set_dev (bus_out (u16 port) (u8 val) (io_dev i)) i).

Definition inb (port : Z) : M io Z := λ i,
  let '(v, d) := bus_in (u16 port) (io_dev i) in Ret (u8 v) (set_dev d i).

Definition io_wait : M io unit := outb 0x80 0.

(** ** pic.c *)

Definition PIC1_CMD : Z := 0x20.
Definition PIC1_DATA : Z := 0x21.
Definition PIC2_CMD : Z := 0xA0.
Definition PIC2_DATA : Z := 0xA1.
Definition ICW1_INIT : Z := 0x11.
Definition ICW4_8086 : Z := 0x01.
Definition PIC_EOI : Z := 0x20.
Definition PIC1_OFFSET : Z := 0x20.
Definition PIC2_OFFSET : Z := 0x28.
Definition BIOS_PIC1_OFFSET : Z := 0x08.
Definition BIOS_PIC2_OFFSET : Z := 0x70.

Definition pic_init : M io unit :=
  mask1 ← inb PIC1_DATA;
  mask2 ← inb PIC2_DATA;
  outb PIC1_CMD ICW1_INIT;; io_wait;;
  outb PIC2_CMD ICW1_INIT;; io_wait;;
  outb PIC1_DATA PIC1_OFFSET;; io_wait;;
  outb PIC2_DATA PIC2_OFFSET;; io_wait;;
  outb PIC1_DATA 0x04;; io_wait;;
  outb PIC2_DATA 0x02;; io_wait;;
  outb PIC1_DATA ICW4_8086;; io_wait;;
  outb PIC2_DATA ICW4_8086;; io_wait;;
  outb PIC1_DATA mask1;;
  outb PIC2_DATA mask2;;
  con (vga_set_color VGA_LIGHT_GREEN VGA_BLACK;;
       vga_writeln (lit "  >> PIC remapped (IRQ 0-7 -> 0x20, IRQ 8-15 -> 0x28)")).

Definition pic_restore : M io unit :=
  outb PIC1_CMD ICW1_INIT;; io_wait;;
  outb PIC2_CMD ICW1_INIT;; io_wait;;
  outb PIC1_DATA BIOS_PIC1_OFFSET;; io_wait;;
  outb PIC2_DATA BIOS_PIC2_OFFSET;; io_wait;;
  outb PIC1_DATA 0x04;; io_wait;;
  outb PIC2_DATA 0x02;; io_wait;;
  outb PIC1_DATA ICW4_8086;; io_wait;;
  outb PIC2_DATA ICW4_8086;; io_wait;;
  outb PIC1_DATA 0xFF;;
  outb PIC2_DATA 0xFF.

Definition pic_eoi (irq : Z) : M io unit :=
  when (8 <=? irq) (outb PIC2_CMD PIC_EOI);;
  outb PIC1_CMD PIC_EOI.

(** [port] and the bit number of an IRQ line. *)
Definition pic_line (irq : Z) : Z * Z :=
  if irq <? 8 then (PIC1_DATA, irq) else (PIC2_DATA, irq - 8).

Definition pic_mask (irq : Z) : M io unit :=
  let '(port, bit) := pic_line irq in
  x ← inb port;
  outb port (Z.lor x (u8 (Z.shiftl 1 bit))).

Definition pic_unmask (irq : Z) : M io unit :=
  let '(port, bit) := pic_line irq in
  x ← inb port;
  outb port (Z.land x (u8 (Z.lnot (Z.shiftl 1 bit)))).

(** ** isr.c *)

Definition exception_string (vec : Z) : string :=
      (if vec =? 0 then "Divide by zero" else
       if vec =? 1 then "Debug" else
       if vec =? 2 then "Non-maskable interrupt" else
       if vec =? 3 then "Breakpoint" else
       if vec =? 4 then "Overflow" else
       if vec =? 5 then "Bound range exceeded" else
       if vec =? 6 then "Invalid opcode" else
       if vec =? 7 then "Device not available" else
       if vec =? 8 then "Double fault" else
       if vec =? 9 then "Coprocessor segment overrun" else
       if vec =? 10 then "Invalid TSS" else
       if vec =? 11 then "Segment not present" else
       if vec =? 12 then "Stack-segment fault" else
       if vec =? 13 then "General protection fault" else
       if vec =? 14 then "Page fault" else
       if vec =? 16 then "x87 FPU exception" else
       if vec =? 17 then "Alignment check" else
       if vec =? 18 then "Machine check" else
       if vec =? 19 then "SIMD FP exception" else "Reserved/unknown").
Definition exception_name (vec : Z) : list Z := lit (exception_string vec).

(** The fields of [struct regs] the handler reads. *)
Record regs := Regs { r_vector : Z; r_err_code : Z; r_eip : Z }.

(** [for (;;) cli; hlt]: the machine stays off. *)
Definition cli : M io unit := modify (set_if false).
Definition sti : M io unit := modify (set_if true).

Definition isr_common_handler (r : regs) : M io unit :=
  con (vga_set_color VGA_LIGHT_RED VGA_BLACK;;
       vga_writeln (lit "");;
       vga_write (lit "  !! EXCEPTION ");;
       vga_write_dec (r_vector r);;
       vga_write (lit " (");;
       vga_write (exception_name (r_vector r));;
       vga_write (lit ")  err=0x");;
       vga_write_hex (r_err_code r);;
       vga_writeln (lit "");;
       vga_write (lit "  Faulting EIP=0x");;
       vga_write_hex (r_eip r);;
       vga_writeln (lit "");;
       vga_writeln (lit "  CPU halted. Restart QEMU to continue."));;
  cli;; halt.

Definition irq_register (irq : Z) (h : option handler) : M io unit :=
  if irq <? 16 then
    i ← get;
    t ← lift_opt (zset (irq_handlers i) irq h);
    modify (set_irq t)
  else mret tt.

(** ** keyboard.c, with the port *)

Definition KBD_DATA_PORT : Z := 0x60.

Definition kbd_isr : M io unit :=
  sc ← inb KBD_DATA_PORT;
  onkbd (kbd_isr_body sc).

Definition run_handler (h : handler) : M io unit :=
  match h with h_kbd_isr => kbd_isr end.

Definition irq_dispatch (irq : Z) : M io unit :=
  i ← get;
  (if irq <? 16 then
     h ← lift_opt (zget (irq_handlers i) irq);
     match h with Some f => run_handler f | None => mret tt end
   else mret tt);;
  pic_eoi (u8 irq).

Definition kbd_init : M io unit :=
  irq_register 1 (Some h_kbd_isr);;
  pic_unmask 1.

Definition idle : M io unit := λ i, Blocked i.

(** [hlt] with interrupts enabled: the next interrupt is taken (its stub calls
    [irq_dispatch]) and execution goes on; with no interrupt to come the
    processor waits, with interrupts disabled it never wakes. *)
Definition hlt : M io unit :=
  i ← get;
  if io_if i then
    match io_env i with
    | [] => idle
    | e :: es =>
        modify (λ i, set_env es (set_dev (bus_raise e (io_dev i)) i));;
        irq_dispatch (ev_irq e)
    end
  else halt.

(** Every turn of the loop takes one of the interrupts to come. *)
Definition kbd_wait : M io unit :=
  n ← gets (λ i, length (io_env i));
  loop (S n) (λ _ : unit,
    k ← gets io_kbd;
    if negb (kbd_has_char k) then hlt;; mret (inl tt) else mret (inr tt)) tt.

Definition kbd_getchar : M io Z :=
  kbd_wait;;
  onkbd kbd_pop.

End io.
