(* ===== verification/IoSpec.v ===== *)
(** * What the devices promise, and what the drivers make of it

    The laws of the interrupt controllers and the keyboard port, a bus that
    satisfies them, the effect of the controller routines, and the keyboard as
    a stream of characters. *)

From S2P Require Import Prelude CString Vga Console Keyboard Io.

(** ** The 8259A

    One controller: its mask, its vector base, the in-service bits, and which
    initialisation word (2, 3 or 4) the data port expects next; 0 when it is
    in operation. *)
Record chip := Chip { imr : Z; vec_base : Z; in_service : Z; icw : Z }.

Definition clear_lowest (x : Z) : Z := Z.land x (x - 1).

(** ICW1 clears the mask register and starts the initialisation sequence. *)
Definition chip_icw1 (c : chip) : chip := Chip 0 (vec_base c) (in_service c) 2.
(** A non-specific EOI ends the service of the highest-priority level. *)
Definition chip_eoi (c : chip) : chip :=
  Chip (imr c) (vec_base c) (clear_lowest (in_service c)) (icw c).
(** The data port takes ICW2 (vector base), ICW3, ICW4, then the mask. *)
Definition chip_data (v : Z) (c : chip) : chip :=
  if icw c =? 2 then Chip (imr c) (Z.land v 0xF8) (in_service c) 3
  else if icw c =? 3 then Chip (imr c) (vec_base c) (in_service c) 4
  else if icw c =? 4 then Chip (imr c) (vec_base c) (in_service c) 0
  else Chip v (vec_base c) (in_service c) (icw c).
Definition chip_serve (bit : Z) (c : chip) : chip :=
  Chip (imr c) (vec_base c) (Z.lor (in_service c) (Z.shiftl 1 bit)) (icw c).

(** A write to a port, for a controller whose command port is [cmd]. *)
Definition chip_out (cmd port v : Z) (c : chip) : chip :=
  if port =? cmd then if v =? 0x11 then chip_icw1 c else chip_eoi c
  else if port =? cmd + 1 then chip_data v c else c.

Definition chip_raise1 (irq : Z) (c : chip) : chip :=
  chip_serve (if irq <? 8 then irq else 2) c.
Definition chip_raise2 (irq : Z) (c : chip) : chip :=
  if irq <? 8 then c else chip_serve (irq - 8) c.

(** Documented behaviour of the two controllers and of port 0x60.  Of the
    command words only ICW1 = 0x11 and the non-specific EOI 0x20 are used. *)
Class PcLaws (B : Bus) := {
  pic1 : dev → chip;
  pic2 : dev → chip;
  law_out1 : ∀ p v d, (p = 0x20 → v = 0x11 ∨ v = 0x20) → (p = 0xA0 → v = 0x11 ∨ v = 0x20) →
    0 ≤ v < 256 → pic1 (bus_out p v d) = chip_out 0x20 p v (pic1 d);
  law_out2 : ∀ p v d, (p = 0x20 → v = 0x11 ∨ v = 0x20) → (p = 0xA0 → v = 0x11 ∨ v = 0x20) →
    0 ≤ v < 256 → pic2 (bus_out p v d) = chip_out 0xA0 p v (pic2 d);
  law_in1 : ∀ p d, pic1 (bus_in p d).2 = pic1 d;
  law_in2 : ∀ p d, pic2 (bus_in p d).2 = pic2 d;
  law_mask1 : ∀ d, (bus_in 0x21 d).1 = imr (pic1 d);
  law_mask2 : ∀ d, (bus_in 0xA1 d).1 = imr (pic2 d);
  law_imr1 : ∀ d, 0 ≤ imr (pic1 d) < 256;
  law_imr2 : ∀ d, 0 ≤ imr (pic2 d) < 256;
  law_raise1 : ∀ e d, pic1 (bus_raise e d) = chip_raise1 (ev_irq e) (pic1 d);
  law_raise2 : ∀ e d, pic2 (bus_raise e d) = chip_raise2 (ev_irq e) (pic2 d);
  law_scancode : ∀ e d, ev_irq e = 1 → (bus_in 0x60 (bus_raise e d)).1 = ev_data e
}.

(** *** A bus with two controllers and a keyboard latch *)

Record pc_dev := PcDev { d_pic1 : chip; d_pic2 : chip; d_latch : Z }.

Definition byte_chip (c : chip) : chip := Chip (u8 (imr c)) (vec_base c) (in_service c) (icw c).

#[export] Instance pc : Bus := {|
  dev := pc_dev;
  bus_out p v d := PcDev (chip_out 0x20 p v (byte_chip (d_pic1 d)))
                         (chip_out 0xA0 p v (byte_chip (d_pic2 d))) (d_latch d);
  bus_in p d := (if p =? 0x21 then u8 (imr (d_pic1 d))
                 else if p =? 0xA1 then u8 (imr (d_pic2 d))
                 else if p =? 0x60 then d_latch d else 0, d);
  bus_raise e d := PcDev (chip_raise1 (ev_irq e) (byte_chip (d_pic1 d)))
                         (chip_raise2 (ev_irq e) (byte_chip (d_pic2 d))) (ev_data e)
|}.

Lemma u8_byte x : 0 ≤ x < 256 → u8 x = x.
Proof. apply Z.mod_small. Qed.

Lemma u8_range x : 0 ≤ u8 x < 256.
Proof. apply Z.mod_pos_bound. lia. Qed.

Lemma byte_chip_out cmd p v c :
  0 ≤ v < 256 → byte_chip (chip_out cmd p v (byte_chip c)) = chip_out cmd p v (byte_chip c).
Proof.
  intros. unfold chip_out, chip_data, byte_chip. assert (E := u8_byte _ (u8_range (imr c))).
  repeat case_match; unfold chip_icw1, chip_eoi; simpl; rewrite ?E, ?u8_byte by done; done.
Qed.

Lemma byte_chip_serve b c : byte_chip (chip_serve b (byte_chip c)) = chip_serve b (byte_chip c).
Proof. unfold byte_chip, chip_serve. simpl. by rewrite u8_byte by apply u8_range. Qed.

Lemma byte_chip_idem c : byte_chip (byte_chip c) = byte_chip c.
Proof. unfold byte_chip. simpl. by rewrite u8_byte by apply u8_range. Qed.

#[export] Instance pc_laws : PcLaws pc.
Proof.
  refine {| pic1 d := byte_chip (d_pic1 d); pic2 d := byte_chip (d_pic2 d) |}; simpl; try done.
  - intros. by apply byte_chip_out.
  - intros. by apply byte_chip_out.
  - intros. apply u8_range.
  - intros. apply u8_range.
  - intros. apply byte_chip_serve.
  - intros e d. unfold chip_raise2. destruct (_ <? _); [apply byte_chip_idem|apply byte_chip_serve].
Defined.

Section pic.
Context `{B : Bus, L : !PcLaws B}.

(** A sequence of port writes, on the bus and on one controller. *)
Definition outs (l : list (Z * Z)) (d : dev) : dev := foldl (λ d '(p, v), bus_out p v d) d l.
Definition chip_outs (cmd : Z) (l : list (Z * Z)) (c : chip) : chip :=
  foldl (λ c '(p, v), chip_out cmd p v c) c l.

Definition legal_out (x : Z * Z) : Prop :=
  (x.1 = 0x20 → x.2 = 0x11 ∨ x.2 = 0x20) ∧ (x.1 = 0xA0 → x.2 = 0x11 ∨ x.2 = 0x20) ∧ 0 ≤ x.2 < 256.

Lemma outs_chips l d :
  Forall legal_out l →
  pic1 (outs l d) = chip_outs 0x20 l (pic1 d) ∧ pic2 (outs l d) = chip_outs 0xA0 l (pic2 d).
Proof.
  intros HF. revert d. induction HF as [|[p v] l (H1 & H2 & H3) HF IH]; intros d; [done|].
  unfold outs, chip_outs. simpl in *. destruct (IH (bus_out p v d)) as [E1 E2].
  unfold outs, chip_outs in *. by rewrite E1, E2, law_out1, law_out2 by done.
Qed.

(** The writes of the initialisation sequence with vector bases [o1], [o2] and
    masks [m1], [m2]. *)
Definition init_writes (o1 o2 m1 m2 : Z) : list (Z * Z) :=
  [(0x20, 0x11); (0x80, 0); (0xA0, 0x11); (0x80, 0);
   (0x21, o1); (0x80, 0); (0xA1, o2); (0x80, 0);
   (0x21, 0x04); (0x80, 0); (0xA1, 0x02); (0x80, 0);
   (0x21, 0x01); (0x80, 0); (0xA1, 0x01); (0x80, 0);
   (0x21, m1); (0xA1, m2)].

Lemma init_writes_chips o1 o2 m1 m2 d :
  0 ≤ o1 < 256 → 0 ≤ o2 < 256 → 0 ≤ m1 < 256 → 0 ≤ m2 < 256 →
  pic1 (outs (init_writes o1 o2 m1 m2) d) =
    Chip m1 (Z.land o1 0xF8) (in_service (pic1 d)) 0 ∧
  pic2 (outs (init_writes o1 o2 m1 m2) d) =
    Chip m2 (Z.land o2 0xF8) (in_service (pic2 d)) 0.
Proof.
  intros. destruct (outs_chips (init_writes o1 o2 m1 m2) d) as [E1 E2].
  - unfold init_writes, legal_out.
    repeat (apply Forall_cons_2; [simpl; lia|]). apply Forall_nil_2.
  - rewrite E1, E2. done.
Qed.

Lemma inb_run p i :
  inb p i = Ret (u8 (bus_in (u16 p) (io_dev i)).1)
                (set_dev (bus_in (u16 p) (io_dev i)).2 i).
Proof. unfold inb. by destruct (bus_in _ _). Qed.

Lemma inb_mask1 i :
  ∃ d, inb PIC1_DATA i = Ret (imr (pic1 (io_dev i))) (set_dev d i) ∧
    pic1 d = pic1 (io_dev i) ∧ pic2 d = pic2 (io_dev i).
Proof.
  eexists. rewrite inb_run. change (u16 PIC1_DATA) with 0x21. rewrite law_mask1.
  rewrite u8_byte by apply law_imr1. split; [done|]. by rewrite law_in1, law_in2.
Qed.

Lemma inb_mask2 i :
  ∃ d, inb PIC2_DATA i = Ret (imr (pic2 (io_dev i))) (set_dev d i) ∧
    pic1 d = pic1 (io_dev i) ∧ pic2 d = pic2 (io_dev i).
Proof.
  eexists. rewrite inb_run. change (u16 PIC2_DATA) with 0xA1. rewrite law_mask2.
  rewrite u8_byte by apply law_imr2. split; [done|]. by rewrite law_in1, law_in2.
Qed.

Lemma outb_run p v i :
  0 ≤ p < 65536 → 0 ≤ v < 256 → outb p v i = Ret tt (set_dev (bus_out p v (io_dev i)) i).
Proof.
  intros Hp Hv. unfold outb, modify. rewrite u8_byte by done.
  unfold u16. by rewrite Z.mod_small.
Qed.

Lemma bind_outb {A} p v (f : unit → M io A) i :
  0 ≤ p < 65536 → 0 ≤ v < 256 →
  (outb p v ≫= f) i = f tt (set_dev (bus_out p v (io_dev i)) i).
Proof. intros Hp Hv. by apply bind_ret, outb_run. Qed.

Lemma con_run c tr i :
  Prints c tr → vga_wf (io_vga i) → con c i = Ret tt (set_vga (render (io_vga i) tr) i).
Proof. intros Hc Hv. unfold con. apply zoom_ret, Hc, Hv. Qed.

Definition pic_banner : list citem :=
  [CColor VGA_LIGHT_GREEN VGA_BLACK;
   CText (chars "  >> PIC remapped (IRQ 0-7 -> 0x20, IRQ 8-15 -> 0x28)" ++ [10])].

Lemma pic_init_run i :
  vga_wf (io_vga i) →
  ∃ d, pic_init i = Ret tt (set_vga (render (io_vga i) pic_banner) (set_dev d i)) ∧
    pic1 d = Chip (imr (pic1 (io_dev i))) 0x20 (in_service (pic1 (io_dev i))) 0 ∧
    pic2 d = Chip (imr (pic2 (io_dev i))) 0x28 (in_service (pic2 (io_dev i))) 0.
Proof.
  intros Hv. unfold pic_init.
  destruct (inb_mask1 i) as (d1 & E1 & Ha1 & Ha2). step E1.
  destruct (inb_mask2 (set_dev d1 i)) as (d2 & E2 & Hb1 & Hb2). simpl in *. step E2.
  rewrite Ha2 in *. rewrite Ha1 in *. unfold io_wait.
  set (m1 := imr (pic1 (io_dev i))). set (m2 := imr (pic2 (io_dev i))).
  assert (0 ≤ m1 < 256) by apply law_imr1. assert (0 ≤ m2 < 256) by apply law_imr2.
  do 18 (rewrite bind_outb by (done || (split; easy))).
  destruct (init_writes_chips 0x20 0x28 m1 m2 d2) as [F1 F2]; [lia..|].
  exists (outs (init_writes 0x20 0x28 m1 m2) d2). rewrite F1, F2, Hb1, Hb2.
  split; [|done]. by erewrite con_run; [|apply _|].
Qed.

Lemma pic_restore_run i :
  ∃ d, pic_restore i = Ret tt (set_dev d i) ∧
    pic1 d = Chip 0xFF 0x08 (in_service (pic1 (io_dev i))) 0 ∧
    pic2 d = Chip 0xFF 0x70 (in_service (pic2 (io_dev i))) 0.
Proof.
  unfold pic_restore, io_wait. do 17 (rewrite bind_outb by (split; easy)).
  rewrite outb_run by (split; easy).
  exists (outs (init_writes 0x08 0x70 0xFF 0xFF) (io_dev i)).
  split; [done|]. apply init_writes_chips; lia.
Qed.

(** Whether a line is masked. *)
Definition masked (d : dev) (irq : Z) : bool :=
  if irq <? 8 then Z.testbit (imr (pic1 d)) irq else Z.testbit (imr (pic2 d)) (irq - 8).

(** Both controllers in operation, not in the middle of an initialisation. *)
Definition pics_ready (d : dev) : Prop := icw (pic1 d) = 0 ∧ icw (pic2 d) = 0.

Lemma chip_data_ready v c :
  icw c = 0 → chip_data v c = Chip v (vec_base c) (in_service c) 0.
Proof. intros E. unfold chip_data. by rewrite E. Qed.

(** A read-modify-write of the mask register of a line's controller. *)
Lemma pic_update_run irq (f : Z → Z → Z) i :
  0 ≤ irq < 16 → pics_ready (io_dev i) →
  (∀ x b, 0 ≤ x < 256 → 0 ≤ b < 8 → 0 ≤ f x b < 256) →
  ∃ d, (let '(port, bit) := pic_line irq in x ← inb port; outb port (f x bit)) i
    = Ret tt (set_dev d i) ∧ pics_ready d ∧
    pic1 d = Chip (if irq <? 8 then f (imr (pic1 (io_dev i))) irq else imr (pic1 (io_dev i)))
                  (vec_base (pic1 (io_dev i))) (in_service (pic1 (io_dev i))) 0 ∧
    pic2 d = Chip (if irq <? 8 then imr (pic2 (io_dev i)) else f (imr (pic2 (io_dev i))) (irq - 8))
                  (vec_base (pic2 (io_dev i))) (in_service (pic2 (io_dev i))) 0.
Proof.
  intros Hirq [R1 R2] Hf. unfold pic_line.
  assert (Eta : ∀ c : chip, icw c = 0 → c = Chip (imr c) (vec_base c) (in_service c) 0)
    by (intros []; simpl; by intros ->).
  destruct (Z.ltb_spec irq 8).
  - destruct (inb_mask1 i) as (d1 & E1 & Ha1 & Ha2). step E1.
    pose proof (Hf _ irq (law_imr1 (io_dev i)) ltac:(lia)) as Hr.
    rewrite outb_run by (split; easy || lia). eexists. split; [done|].
    unfold pics_ready. rewrite law_out1, law_out2 by (done || lia).
    unfold chip_out, PIC1_DATA. simpl. rewrite Ha1, Ha2, chip_data_ready by done.
    split; [done|]. split; [done|]. by apply Eta.
  - destruct (inb_mask2 i) as (d1 & E1 & Ha1 & Ha2). step E1.
    pose proof (Hf _ (irq - 8) (law_imr2 (io_dev i)) ltac:(lia)) as Hr.
    rewrite outb_run by (split; easy || lia). eexists. split; [done|].
    unfold pics_ready. rewrite law_out1, law_out2 by (done || lia).
    unfold chip_out, PIC2_DATA. simpl. rewrite Ha1, Ha2, chip_data_ready by done.
    split; [done|]. split; [|done]. by apply Eta.
Qed.

Lemma lor_bit_byte x b : 0 ≤ x < 256 → 0 ≤ b < 8 → 0 ≤ Z.lor x (u8 (Z.shiftl 1 b)) < 256.
Proof.
  intros Hx Hb. split; [apply Z.lor_nonneg; split; [lia|apply u8_range]|].
  destruct (decide (Z.lor x (u8 (Z.shiftl 1 b)) = 0)) as [->|]; [lia|].
  change 256 with (2 ^ 8). apply Z.log2_lt_pow2.
  { pose proof (proj2 (Z.lor_nonneg x (u8 (Z.shiftl 1 b)))). pose proof (u8_range (Z.shiftl 1 b)). lia. }
  pose proof (u8_range (Z.shiftl 1 b)). rewrite Z.log2_lor by lia.
  apply Z.max_lub_lt.
  - destruct (decide (x = 0)) as [->|]; [done|]. apply Z.log2_lt_pow2; lia.
  - destruct (decide (u8 (Z.shiftl 1 b) = 0)) as [->|]; [done|]. apply Z.log2_lt_pow2; lia.
Qed.

Lemma land_byte x y : 0 ≤ x < 256 → 0 ≤ Z.land x y < 256.
Proof.
  intros Hx. split; [apply Z.land_nonneg; lia|]. destruct (decide (Z.land x y = 0)) as [->|]; [lia|].
  assert (0 ≤ Z.land x y) by (apply Z.land_nonneg; lia).
  rewrite <-(Z.mod_small x 256), <-Z.land_ones with (n := 8) in * by lia.
  rewrite Z.land_comm, Z.land_assoc in *. rewrite Z.land_ones by lia. apply Z.mod_pos_bound. lia.
Qed.

Lemma set_bit_spec x b j :
  0 ≤ b < 8 → 0 ≤ j < 8 →
  Z.testbit (Z.lor x (u8 (Z.shiftl 1 b))) j = (b =? j) || Z.testbit x j.
Proof.
  intros Hb Hj. rewrite Z.lor_spec, orb_comm. f_equal. unfold u8.
  change 256 with (2 ^ 8). rewrite Z.mod_pow2_bits_low by lia.
  rewrite Z.shiftl_1_l. apply Z.pow2_bits_eqb. lia.
Qed.

Lemma clear_bit_spec x b j :
  0 ≤ b < 8 → 0 ≤ j < 8 →
  Z.testbit (Z.land x (u8 (Z.lnot (Z.shiftl 1 b)))) j = negb (b =? j) && Z.testbit x j.
Proof.
  intros Hb Hj. rewrite Z.land_spec, andb_comm. f_equal. unfold u8.
  change 256 with (2 ^ 8). rewrite Z.mod_pow2_bits_low by lia.
  rewrite Z.lnot_spec by lia. rewrite Z.shiftl_1_l. by rewrite Z.pow2_bits_eqb by lia.
Qed.

(** Nothing but the mask bits differs. *)
Definition same_pics (d d' : dev) : Prop :=
  vec_base (pic1 d') = vec_base (pic1 d) ∧ vec_base (pic2 d') = vec_base (pic2 d) ∧
  in_service (pic1 d') = in_service (pic1 d) ∧ in_service (pic2 d') = in_service (pic2 d) ∧
  pics_ready d'.

Lemma pic_mask_run irq i :
  0 ≤ irq < 16 → pics_ready (io_dev i) →
  ∃ d, pic_mask irq i = Ret tt (set_dev d i) ∧ same_pics (io_dev i) d ∧
    ∀ j, 0 ≤ j < 16 → masked d j = (irq =? j) || masked (io_dev i) j.
Proof.
  intros Hirq Hr.
  destruct (pic_update_run irq (λ x b, Z.lor x (u8 (Z.shiftl 1 b))) i Hirq Hr lor_bit_byte)
    as (d & E & Hrd & E1 & E2).
  exists d. split; [exact E|]. unfold same_pics, masked. rewrite E1, E2. simpl.
  split; [done|]. intros j Hj.
  destruct (Z.ltb_spec irq 8), (Z.ltb_spec j 8).
  - apply set_bit_spec; lia.
  - by destruct (Z.eqb_spec irq j); [lia|].
  - by destruct (Z.eqb_spec irq j); [lia|].
  - rewrite set_bit_spec by lia. f_equal.
    destruct (Z.eqb_spec (irq - 8) (j - 8)), (Z.eqb_spec irq j); lia.
Qed.

Lemma pic_unmask_run irq i :
  0 ≤ irq < 16 → pics_ready (io_dev i) →
  ∃ d, pic_unmask irq i = Ret tt (set_dev d i) ∧ same_pics (io_dev i) d ∧
    ∀ j, 0 ≤ j < 16 → masked d j = negb (irq =? j) && masked (io_dev i) j.
Proof.
  intros Hirq Hr.
  destruct (pic_update_run irq (λ x b, Z.land x (u8 (Z.lnot (Z.shiftl 1 b)))) i Hirq Hr
    (λ x b Hx Hb, land_byte x _ Hx)) as (d & E & Hrd & E1 & E2).
  exists d. split; [exact E|]. unfold same_pics, masked. rewrite E1, E2. simpl.
  split; [done|]. intros j Hj.
  destruct (Z.ltb_spec irq 8), (Z.ltb_spec j 8).
  - apply clear_bit_spec; lia.
  - by destruct (Z.eqb_spec irq j); [lia|].
  - by destruct (Z.eqb_spec irq j); [lia|].
  - rewrite clear_bit_spec by lia. do 2 f_equal.
    destruct (Z.eqb_spec (irq - 8) (j - 8)), (Z.eqb_spec irq j); lia.
Qed.

Lemma pic_eoi_run irq i :
  ∃ d, pic_eoi irq i = Ret tt (set_dev d i) ∧
    pic1 d = chip_eoi (pic1 (io_dev i)) ∧
    pic2 d = if 8 <=? irq then chip_eoi (pic2 (io_dev i)) else pic2 (io_dev i).
Proof.
  unfold pic_eoi, when. destruct (8 <=? irq).
  - rewrite bind_outb, outb_run by (split; easy). eexists. split; [done|].
    cbn [io_dev set_dev]. rewrite !law_out1, !law_out2 by (unfold PIC1_CMD, PIC2_CMD, PIC_EOI; lia). by split.
  - steps. rewrite outb_run by (split; easy). eexists. split; [done|].
    cbn [io_dev set_dev]. rewrite !law_out1, !law_out2 by (unfold PIC1_CMD, PIC2_CMD, PIC_EOI; lia). by split.
Qed.

(** No interrupt is being served. *)
Definition quiet (d : dev) : Prop := in_service (pic1 d) = 0 ∧ in_service (pic2 d) = 0.

(** ** The keyboard as a stream of characters *)

Definition event_ok (e : event) : Prop := 0 ≤ ev_irq e < 16 ∧ 0 ≤ ev_data e < 256.

(** The characters the interrupts to come will type. *)
Fixpoint typed (md : mods) (es : list event) : list Z :=
  match es with
  | [] => []
  | e :: es' =>
      if ev_irq e =? 1 then
        match (kbd_decode md (ev_data e)).2 with
        | Some c => c :: typed (kbd_decode md (ev_data e)).1 es'
        | None => typed (kbd_decode md (ev_data e)).1 es'
        end
      else typed md es'
  end.

(** The table with the keyboard handler on line 1. *)
Definition kbd_table : list (option handler) :=
  None :: Some h_kbd_isr :: replicate 14 None.

(** The drivers are in order, interrupts are on, and the characters the kernel
    will read are [inp]. *)
Record io_rep (i : io) (inp : list Z) : Prop := {
  ir_vga : vga_wf (io_vga i);
  ir_kbd : kbd_wf (io_kbd i);
  ir_irq : irq_handlers i = kbd_table;
  ir_if : io_if i = true;
  ir_env : Forall event_ok (io_env i);
  ir_quiet : quiet (io_dev i);
  ir_inp : inp = kbd_queue (io_kbd i) ++ typed (mods_of (io_kbd i)) (io_env i);
  ir_chars : Forall is_char inp
}.

Lemma kbd_decode_char md sc c : 0 ≤ sc < 256 → (kbd_decode md sc).2 = Some c → is_char c.
Proof.
  intros Hsc E.
  assert (H : from_option (λ c, (0 <? c) && (c <? 256)) true (kbd_decode md sc).2 = true).
  { apply (range_forall (λ sc, from_option (λ c, (0 <? c) && (c <? 256)) true (kbd_decode md sc).2)
      0 256); [|lia]. by destruct md as [[] []]; vm_compute. }
  rewrite E in H. simpl in H. bools. done.
Qed.

Lemma typed_chars md es : Forall event_ok es → Forall is_char (typed md es).
Proof.
  intros HF. revert md. induction HF as [|e es [_ He] HF IH]; intros md; simpl; [constructor|].
  destruct (_ =? 1); [|apply IH].
  destruct (kbd_decode md (ev_data e)).2 as [c|] eqn:E; [|apply IH].
  constructor; [by eapply kbd_decode_char|apply IH].
Qed.

Lemma eoi_clears c b :
  in_service c = 0 → 0 ≤ b < 8 → in_service (chip_eoi (chip_serve b c)) = 0.
Proof.
  intros Hc Hb. unfold chip_eoi, chip_serve. cbn [in_service]. rewrite Hc. apply Z.eqb_eq.
  apply (range_forall (λ b, clear_lowest (Z.lor 0 (Z.shiftl 1 b)) =? 0) 0 8); [by vm_compute|lia].
Qed.

(** Serving one interrupt leaves no in-service bit behind. *)
Lemma eoi_quiet e d d' :
  event_ok e → quiet d →
  pic1 d' = chip_eoi (pic1 (bus_raise e d)) →
  pic2 d' = (if 8 <=? u8 (ev_irq e) then chip_eoi (pic2 (bus_raise e d)) else pic2 (bus_raise e d)) →
  quiet d'.
Proof.
  intros [He _] [Q1 Q2] E1 E2. unfold quiet. rewrite E1, E2, law_raise1, law_raise2.
  unfold chip_raise1, chip_raise2. rewrite u8_byte by lia.
  destruct (Z.ltb_spec (ev_irq e) 8), (Z.leb_spec 8 (ev_irq e)); try lia.
  - split; [|done]. apply eoi_clears; [done|lia].
  - split; apply eoi_clears; done || lia.
Qed.

(** What an interrupt does to the keyboard driver. *)
Definition kbd_after (e : event) (k k' : kbd_state) : Prop :=
  if ev_irq e =? 1 then
    mods_of k' = (kbd_decode (mods_of k) (ev_data e)).1 ∧
    kbd_queue k' = enqueue (kbd_queue k) (kbd_decode (mods_of k) (ev_data e)).2
  else k' = k.

Lemma kbd_table_other q : 0 ≤ q < 16 → q ≠ 1 → zget kbd_table q = Some None.
Proof.
  intros Hq Hne.
  pose proof (range_forall (λ q, (q =? 1) || bool_decide (zget kbd_table q = Some None))
    0 16 ltac:(by vm_compute) q ltac:(lia)) as H. simpl in H.
  apply orb_true_iff in H as [H|H]; [bools; lia|]. by apply bool_decide_eq_true in H.
Qed.

Lemma irq_dispatch_run e d i :
  event_ok e → quiet d → kbd_wf (io_kbd i) → irq_handlers i = kbd_table →
  io_dev i = bus_raise e d →
  ∃ k d', irq_dispatch (ev_irq e) i = Ret tt (set_dev d' (set_kbd k i)) ∧ quiet d' ∧
    kbd_wf k ∧ kbd_after e (io_kbd i) k.
Proof.
  intros He Hq Hk Ht Hd. destruct (He) as [Hirq Hdat]. unfold irq_dispatch, kbd_after. steps.
  destruct (Z.ltb_spec (ev_irq e) 16); [|lia]. rewrite Ht, bind_assoc.
  destruct (Z.eqb_spec (ev_irq e) 1) as [E1|E1].
  - rewrite (bind_lift _ (Some h_kbd_isr)) by by rewrite E1.
    simpl run_handler. unfold kbd_isr. rewrite bind_assoc, (bind_ret _ _ _ _ _ (inb_run _ _)).
    change (u16 KBD_DATA_PORT) with 0x60. rewrite Hd, law_scancode by done.
    rewrite (u8_byte (ev_data e)) by done.
    destruct (kbd_isr_run (ev_data e) (io_kbd i) Hk Hdat) as (k & Ek & Hwk & Hm & Hqk).
    erewrite (bind_ret (onkbd _)) by (apply zoom_ret; exact Ek).
    destruct (pic_eoi_run (u8 (ev_irq e)) (set_kbd k (set_dev (bus_in 96 (bus_raise e d)).2 i)))
      as (d' & E & P1 & P2). simpl in P1, P2. rewrite law_in1, law_in2 in *.
    exists k, d'. rewrite E. split; [done|]. split; [by eapply eoi_quiet|done].
  - rewrite (bind_lift _ None) by by apply kbd_table_other.
    steps. destruct (pic_eoi_run (u8 (ev_irq e)) i) as (d' & E & P1 & P2). rewrite Hd in *.
    exists (io_kbd i), d'. rewrite E. split; [by destruct i|]. split; [by eapply eoi_quiet|done].
Qed.

Lemma hlt_run i inp e es :
  io_rep i inp → kbd_queue (io_kbd i) = [] → io_env i = e :: es →
  ∃ i', hlt i = Ret tt i' ∧ io_rep i' inp ∧ io_vga i' = io_vga i ∧ io_env i' = es.
Proof.
  intros Hi Hq Henv. unfold hlt. steps. rewrite (ir_if _ _ Hi), Henv. steps.
  pose proof (ir_env _ _ Hi) as HF. rewrite Henv in HF. inversion HF as [|? ? He HF2]; subst.
  destruct (irq_dispatch_run e (io_dev i) (set_env es (set_dev (bus_raise e (io_dev i)) i)))
    as (k & d' & E & Hq' & Hk & Ha); [done|apply Hi|apply Hi|apply Hi|done|].
  eexists. split; [exact E|]. split; [|done]. constructor; simpl; try done; try apply Hi.
  rewrite (ir_inp _ _ Hi), Hq, Henv. simpl. unfold kbd_after in Ha. simpl in Ha.
  destruct (ev_irq e =? 1).
  - destruct Ha as [-> ->]. rewrite Hq.
    by destruct (kbd_decode (mods_of (io_kbd i)) (ev_data e)).2.
  - subst k. by rewrite Hq.
Qed.

Lemma wait_loop n i inp :
  io_rep i inp → (length (io_env i) ≤ n)%nat →
  ∃ i', io_rep i' inp ∧ io_vga i' = io_vga i ∧
    loop (S n) (λ _ : unit, k ← gets io_kbd;
      if negb (kbd_has_char k) then hlt;; mret (inl tt) else mret (inr tt)) tt i
    = (if decide (inp = []) then Blocked i' else Ret tt i') ∧
    (inp ≠ [] → kbd_queue (io_kbd i') ≠ []).
Proof.
  revert i. induction n as [|n IH]; intros i Hi Hn.
  all: rewrite loop_S; rewrite bind_assoc; steps; destruct (kbd_has_char (io_kbd i)) eqn:Ehas; cbn [negb].
  1,3: exists i; assert (Hne : kbd_queue (io_kbd i) ≠ [])
      by (intros Hq; apply kbd_empty in Hq; [congruence|apply Hi]);
    split_and!; try done; destruct decide as [Hnil|]; [|done];
    pose proof (ir_inp _ _ Hi) as Hinp; rewrite Hnil in Hinp; by destruct (kbd_queue (io_kbd i)).
  all: assert (Hq : kbd_queue (io_kbd i) = []) by (apply kbd_empty; [apply Hi|done]).
  all: destruct (io_env i) as [|e es] eqn:Henv.
  all: try (assert (inp = []) as -> by (rewrite (ir_inp _ _ Hi), Hq, Henv; done);
    exists i; split_and!; try done; rewrite decide_True by done; rewrite bind_assoc;
    apply bind_blocked; unfold hlt; steps; rewrite (ir_if _ _ Hi), Henv; done).
  { simpl in Hn. lia. }
  destruct (hlt_run i inp e es Hi Hq Henv) as (i1 & E1 & Hi1 & Hv & He).
  rewrite bind_assoc. step E1. steps.
  destruct (IH i1 Hi1) as (i' & Hi' & Hv' & E & Hne); [rewrite He; simpl in Hn; lia|].
  exists i'. split_and!; [done|congruence|exact E|done].
Qed.

(** Reading takes the next character of the stream, or waits for ever. *)
Lemma getchar_run i c inp :
  io_rep i (c :: inp) →
  ∃ i', kbd_getchar i = Ret c i' ∧ io_rep i' inp ∧ io_vga i' = io_vga i.
Proof.
  intros Hi. unfold kbd_getchar, kbd_wait. rewrite bind_assoc. steps.
  destruct (wait_loop _ i (c :: inp) Hi (le_n _)) as (i1 & Hi1 & Hv & E & Hne). simpl in E.
  step E. pose proof (ir_inp _ _ Hi1) as Hinp.
  destruct (kbd_queue (io_kbd i1)) as [|c' q] eqn:Eq; [by destruct Hne|].
  injection Hinp as <- Hinp.
  destruct (kbd_pop_run _ c q (ir_kbd _ _ Hi1) Eq) as (El & Hw & Hm & Hq).
  exists (set_kbd (kbd_advance (io_kbd i1)) i1). split.
  - unfold onkbd. apply zoom_ret. unfold kbd_pop. steps. by rewrite (bind_lift _ _ _ _ El).
  - split; [|done]. constructor; simpl; try done; try apply Hi1.
    + by rewrite Hq, Hm.
    + pose proof (ir_chars _ _ Hi1) as HF. by inversion HF.
Qed.

Lemma getchar_blocked i : io_rep i [] → ∃ i', kbd_getchar i = Blocked i'.
Proof.
  intros Hi. unfold kbd_getchar, kbd_wait.
  destruct (wait_loop _ i [] Hi (le_n _)) as (i1 & _ & _ & E & _). simpl in E.
  exists i1. rewrite bind_assoc. steps. by apply bind_blocked.
Qed.

(** Console output at this level. *)
Definition emits (i : io) (tr : list citem) (i' : io) (inp : list Z) : Prop :=
  io_rep i' inp ∧ io_vga i' = render (io_vga i) tr.

Lemma con_emits c tr i inp :
  Prints c tr → io_rep i inp → ∃ i', con c i = Ret tt i' ∧ emits i tr i' inp.
Proof.
  intros Hc Hi. eexists. split; [apply con_run; [done|apply Hi]|]. split; [|done].
  constructor; simpl; try apply Hi. apply render_wf, Hi.
Qed.

Lemma emits_trans i t1 i1 inp1 t2 i2 inp2 :
  emits i t1 i1 inp1 → emits i1 t2 i2 inp2 → emits i (t1 ++ t2) i2 inp2.
Proof. intros [_ E1] [H2 E2]. split; [done|]. by rewrite render_app, <-E1. Qed.

Lemma emits_quiet i i' inp : io_rep i' inp → io_vga i' = io_vga i → emits i [] i' inp.
Proof. by split. Qed.

(** ** Registration *)

Lemma irq_register_run irq h i :
  zlen (irq_handlers i) = 16 → 0 ≤ irq →
  irq_register irq h i =
    Ret tt (if irq <? 16 then set_irq (upd (irq_handlers i) irq h) i else i).
Proof.
  intros Hl Hi. unfold irq_register. destruct (Z.ltb_spec irq 16); [|done].
  steps. by rewrite bind_zset by lia.
Qed.

Lemma kbd_init_run i :
  zlen (irq_handlers i) = 16 → pics_ready (io_dev i) →
  ∃ d, kbd_init i = Ret tt (set_dev d (set_irq (upd (irq_handlers i) 1 (Some h_kbd_isr)) i)) ∧
    same_pics (io_dev i) d ∧
    ∀ j, 0 ≤ j < 16 → masked d j = negb (1 =? j) && masked (io_dev i) j.
Proof.
  intros Hl Hr. unfold kbd_init. rewrite (bind_ret _ _ _ _ _ (irq_register_run 1 _ i Hl ltac:(lia))).
  simpl. destruct (pic_unmask_run 1 (set_irq (upd (irq_handlers i) 1 (Some h_kbd_isr)) i))
    as (d & E & ?); [lia|done|]. by exists d.
Qed.

(** ** Exceptions *)

#[export] Instance exception_name_str vec :
  IsStr (exception_name vec) (chars (exception_string vec)).
Proof.
  apply cstr_lit, lit_ok_chars. unfold exception_string.
  repeat (destruct (vec =? _); [reflexivity|]). reflexivity.
Qed.

(** The report of an exception. *)
Definition exception_report (r : regs) : list citem :=
  [CColor VGA_LIGHT_RED VGA_BLACK; CText [10]; CText (chars "  !! EXCEPTION ");
   CText (dec_string (r_vector r)); CText (chars " (");
   CText (chars (exception_string (r_vector r))); CText (chars ")  err=0x");
   CText (hex_string (r_err_code r)); CText [10]; CText (chars "  Faulting EIP=0x");
   CText (hex_string (r_eip r)); CText [10];
   CText (chars "  CPU halted. Restart QEMU to continue." ++ [10])].

Lemma isr_common_run r i :
  vga_wf (io_vga i) → IsU32 (r_vector r) → IsU32 (r_err_code r) → IsU32 (r_eip r) →
  isr_common_handler r i =
    Off (set_if false (set_vga (render (io_vga i) (exception_report r)) i)).
Proof.
  intros Hv Hvec Herr Heip. unfold isr_common_handler.
  erewrite bind_ret; [|apply con_run; [apply _|done]]. reflexivity.
Qed.
End pic.
