(* ===== verification/Fat.v ===== *)
(** * fs.c: the storage layer

    The three static arrays of the file system, the static scratch buffers of
    [fs_write], [fs_edit] and [fs_copy], and the helpers that work on them
    without input or output: block allocation, FAT chains, directory search. *)

From S2P Require Import Prelude CString.

Definition FS_N_BLOCKS : Z := 8.
Definition FS_BLOCK_SIZE : Z := 32768.
Definition FS_MAX_FILES : Z := 32.
Definition FS_NAME_LEN : Z := 64.
Definition FS_DIR_LEN : Z := 64.
Definition FAT_FREE : Z := 0x0000.
Definition FAT_END : Z := 0xFFFF.

Record file_entry := Entry {
  e_name : list Z;      (* char name[FS_NAME_LEN] *)
  e_dir : list Z;       (* char dir[FS_DIR_LEN] *)
  e_first : Z;          (* uint16_t first_block *)
  e_size : Z;           (* uint32_t size *)
  e_used : Z            (* uint8_t used *)
}.

Record fs_state := FS {
  fat : list Z;
  blocks : list (list Z);
  files : list file_entry;
  wtmp : list Z;        (* static tmp[] of fs_write *)
  etmp : list Z;        (* static tmp[] of fs_edit *)
  ctmp : list Z         (* static tmp[] of fs_copy *)
}.

Definition TMP_SIZE : Z := FS_N_BLOCKS * FS_BLOCK_SIZE.

Definition set_fat (x : list Z) (s : fs_state) : fs_state :=
  FS x (blocks s) (files s) (wtmp s) (etmp s) (ctmp s).
Definition set_blocks (x : list (list Z)) (s : fs_state) : fs_state :=
  FS (fat s) x (files s) (wtmp s) (etmp s) (ctmp s).
Definition set_files (x : list file_entry) (s : fs_state) : fs_state :=
  FS (fat s) (blocks s) x (wtmp s) (etmp s) (ctmp s).
Definition set_wtmp (x : list Z) (s : fs_state) : fs_state :=
  FS (fat s) (blocks s) (files s) x (etmp s) (ctmp s).
Definition set_etmp (x : list Z) (s : fs_state) : fs_state :=
  FS (fat s) (blocks s) (files s) (wtmp s) x (ctmp s).
Definition set_ctmp (x : list Z) (s : fs_state) : fs_state :=
  FS (fat s) (blocks s) (files s) (wtmp s) (etmp s) x.

(** Array accesses of the static arrays. *)
Definition rd_fat (i : Z) : M fs_state Z :=
  s ← get; lift_opt (zget (fat s) i).
Definition wr_fat (i x : Z) : M fs_state unit :=
  s ← get; f ← lift_opt (zset (fat s) i (u16 x)); modify (set_fat f).
Definition rd_file (i : Z) : M fs_state file_entry :=
  s ← get; lift_opt (zget (files s) i).
Definition wr_file (i : Z) (e : file_entry) : M fs_state unit :=
  s ← get; f ← lift_opt (zset (files s) i e); modify (set_files f).

Definition alloc_block : M fs_state Z :=
  find_loop (range 0 (Z.to_nat FS_N_BLOCKS))
    (λ i, x ← rd_fat i; mret (x =? FAT_FREE)) FS_N_BLOCKS.

Definition free_step (start : Z) : M fs_state (Z + unit) :=
  if (start <? FS_N_BLOCKS) && negb (start =? FAT_END) && negb (start =? FAT_FREE) then
    next ← rd_fat start;
    wr_fat start FAT_FREE;;
    mret (inl next)
  else mret (inr tt).

(** Ten rounds: [free_chain_total] shows that no FAT needs more. *)
Definition free_chain (start : Z) : M fs_state unit := loop 10 free_step start.

Definition file_match (name dir : list Z) (i : Z) : M fs_state bool :=
  e ← rd_file i;
  if e_used e =? 0 then mret false else
  r ← lift_opt (kstrcmp (e_name e) name);
  if negb (r =? 0) then mret false else
  r2 ← lift_opt (kstrcmp (e_dir e) dir);
  mret (r2 =? 0).

Definition find_file (name dir : list Z) : M fs_state Z :=
  find_loop (range 0 (Z.to_nat FS_MAX_FILES)) (file_match name dir) FS_MAX_FILES.

Definition find_free_slot : M fs_state Z :=
  find_loop (range 0 (Z.to_nat FS_MAX_FILES))
    (λ i, e ← rd_file i; mret (e_used e =? 0)) FS_MAX_FILES.

(** [kmemcpy(base + off, src, n)] into an array [base]. *)
Definition kmemcpy_at (base : list Z) (off : Z) (src : list Z) (n : Z) : option (list Z) :=
  r ← kmemcpy (drop (Z.to_nat off) base) src (Z.to_nat n);
  Some (take (Z.to_nat off) base ++ r).

(** One turn of the loop of [write_to_blocks]: [first], [prev], [written]. *)
Definition write_step (data : list Z) (len : Z)
    : Z * Z * Z → M fs_state (Z * Z * Z + Z) :=
  λ '(first, prev, written),
    if written <? len then
      blk ← alloc_block;
      if blk =? FS_N_BLOCKS then mret (inr FS_N_BLOCKS) else
      wr_fat blk FAT_END;;
      when (negb (prev =? FAT_END)) (wr_fat prev blk);;
      let first' := if first =? FAT_END then blk else first in
      let chunk0 := len - written in
      let chunk := if FS_BLOCK_SIZE <? chunk0 then FS_BLOCK_SIZE else chunk0 in
      s ← get;
      b ← lift_opt (zget (blocks s) blk);
      b' ← lift_opt (kmemcpy b (drop (Z.to_nat written) data) (Z.to_nat chunk));
      bs ← lift_opt (zset (blocks s) blk b');
      modify (set_blocks bs);;
      mret (inl (first', blk, written + chunk))
    else mret (inr first).

Definition write_to_blocks (data : list Z) (len : Z) : M fs_state Z :=
  if len =? 0 then mret FAT_END else
  loop (Z.to_nat (len / FS_BLOCK_SIZE + 3)) (write_step data len) (FAT_END, FAT_END, 0).

(** The block of [fs_edit] and [fs_copy] that gathers a file into [tmp]. *)
Definition gather_step : Z * Z * Z * list Z → M fs_state (Z * Z * Z * list Z + list Z) :=
  λ '(blk, left_, off, tmp),
    if (blk <? FS_N_BLOCKS) && (0 <? left_) then
      let chunk := if left_ <? FS_BLOCK_SIZE then left_ else FS_BLOCK_SIZE in
      s ← get;
      b ← lift_opt (zget (blocks s) blk);
      tmp' ← lift_opt (kmemcpy_at tmp off b chunk);
      next ← rd_fat blk;
      mret (inl (next, left_ - chunk, off + chunk, tmp'))
    else mret (inr tmp).

Definition gather (first size : Z) (tmp : list Z) : M fs_state (list Z) :=
  loop (Z.to_nat (size / FS_BLOCK_SIZE + 3)) gather_step (first, size, 0, tmp).

Definition fs_init : M fs_state unit :=
  for_each (range 0 (Z.to_nat FS_N_BLOCKS)) (λ i, wr_fat i FAT_FREE);;
  for_each (range 0 (Z.to_nat FS_MAX_FILES)) (λ i,
    e ← rd_file i;
    wr_file i (Entry (e_name e) (e_dir e) FAT_END 0 0)).

Definition dir_match (dir : list Z) (i : Z) : M fs_state bool :=
  e ← rd_file i;
  if e_used e =? 0 then mret false else
  r ← lift_opt (kstrcmp (e_dir e) dir);
  mret (r =? 0).

(** [fs_dir_empty]: 1 when no used entry names the directory. *)
Definition fs_dir_empty (dir : list Z) : M fs_state Z :=
  i ← find_loop (range 0 (Z.to_nat FS_MAX_FILES)) (dir_match dir) FS_MAX_FILES;
  mret (if i =? FS_MAX_FILES then 1 else 0).

Lemma block_size_val : FS_BLOCK_SIZE = 32768.
Proof. done. Qed.

Lemma tmp_size_val : TMP_SIZE = 8 * FS_BLOCK_SIZE.
Proof. done. Qed.

#[global] Opaque FS_BLOCK_SIZE TMP_SIZE.
#[global] Arguments Z.to_nat : simpl never.

(** ** Reading and writing the arrays *)

Lemma rd_fat_run i x s : zget (fat s) i = Some x → rd_fat i s = Ret x s.
Proof. intros H. unfold rd_fat. steps. by rewrite H. Qed.

Lemma wr_fat_run i x s :
  0 ≤ i < zlen (fat s) → wr_fat i x s = Ret tt (set_fat (upd (fat s) i (u16 x)) s).
Proof. intros. unfold wr_fat. steps. by rewrite (bind_lift _ _ _ _ (zset_upd _ _ _ H)). Qed.

Lemma rd_file_run i e s : zget (files s) i = Some e → rd_file i s = Ret e s.
Proof. intros H. unfold rd_file. steps. by rewrite H. Qed.

Lemma wr_file_run i e s :
  0 ≤ i < zlen (files s) → wr_file i e s = Ret tt (set_files (upd (files s) i e) s).
Proof. intros. unfold wr_file. steps. by rewrite (bind_lift _ _ _ _ (zset_upd _ _ _ H)). Qed.

(** ** Shape of the arrays *)

Definition block_ok (b : list Z) : Prop := zlen b = FS_BLOCK_SIZE.
Definition entry_shape (e : file_entry) : Prop :=
  zlen (e_name e) = FS_NAME_LEN ∧ zlen (e_dir e) = FS_DIR_LEN ∧
  0 ≤ e_first e < 65536 ∧ 0 ≤ e_size e < 4294967296.

Record fs_shape (s : fs_state) : Prop := {
  sh_fat : zlen (fat s) = FS_N_BLOCKS;
  sh_fat16 : Forall (λ x, 0 ≤ x < 65536) (fat s);
  sh_blocks : zlen (blocks s) = FS_N_BLOCKS;
  sh_block : Forall block_ok (blocks s);
  sh_files : zlen (files s) = FS_MAX_FILES;
  sh_entry : Forall entry_shape (files s);
  sh_wtmp : zlen (wtmp s) = TMP_SIZE;
  sh_etmp : zlen (etmp s) = TMP_SIZE;
  sh_ctmp : zlen (ctmp s) = TMP_SIZE
}.

Lemma fs_shape_set_fat f s :
  fs_shape s → zlen f = FS_N_BLOCKS → Forall (λ x, 0 ≤ x < 65536) f → fs_shape (set_fat f s).
Proof. intros []. by constructor. Qed.

Lemma fs_shape_set_blocks b s :
  fs_shape s → zlen b = FS_N_BLOCKS → Forall block_ok b → fs_shape (set_blocks b s).
Proof. intros []. by constructor. Qed.

Lemma fs_shape_set_files f s :
  fs_shape s → zlen f = FS_MAX_FILES → Forall entry_shape f → fs_shape (set_files f s).
Proof. intros []. by constructor. Qed.

Lemma fs_shape_upd_fat i x s :
  fs_shape s → 0 ≤ x < 65536 → fs_shape (set_fat (upd (fat s) i x) s).
Proof.
  intros Hs Hx. apply fs_shape_set_fat; [done| |].
  - by rewrite zlen_upd, sh_fat.
  - apply Forall_upd; [apply Hs|done].
Qed.

Lemma fs_shape_upd_file i e s :
  fs_shape s → entry_shape e → fs_shape (set_files (upd (files s) i e) s).
Proof.
  intros Hs Hx. apply fs_shape_set_files; [done| |].
  - by rewrite zlen_upd, sh_files.
  - apply Forall_upd; [apply Hs|done].
Qed.

Lemma fat_get s i : fs_shape s → 0 ≤ i < 8 → ∃ x, zget (fat s) i = Some x ∧ 0 ≤ x < 65536.
Proof.
  intros Hs Hi. destruct (zget_in (fat s) i) as [x Hx]; [by rewrite sh_fat|].
  exists x. split; [done|]. by apply (Forall_zget _ _ _ _ (sh_fat16 s Hs) Hx).
Qed.

Lemma file_get s i : fs_shape s → 0 ≤ i < 32 → ∃ e, zget (files s) i = Some e ∧ entry_shape e.
Proof.
  intros Hs Hi. destruct (zget_in (files s) i) as [x Hx]; [by rewrite sh_files|].
  exists x. split; [done|]. by apply (Forall_zget _ _ _ _ (sh_entry s Hs) Hx).
Qed.

Lemma block_get s i : fs_shape s → 0 ≤ i < 8 → ∃ b, zget (blocks s) i = Some b ∧ block_ok b.
Proof.
  intros Hs Hi. destruct (zget_in (blocks s) i) as [x Hx]; [by rewrite sh_blocks|].
  exists x. split; [done|]. by apply (Forall_zget _ _ _ _ (sh_block s Hs) Hx).
Qed.

(** ** Allocation *)

Definition is_free (s : fs_state) (i : Z) : bool := default 1 (zget (fat s) i) =? FAT_FREE.

Lemma is_free_spec s i : is_free s i = true ↔ zget (fat s) i = Some FAT_FREE.
Proof.
  unfold is_free. destruct (zget (fat s) i) as [x|]; [|by split]. simpl. rewrite Z.eqb_eq.
  split; [by intros ->|by intros [= ->]].
Qed.

Lemma alloc_block_run s :
  fs_shape s →
  alloc_block s = Ret (search (is_free s) (range 0 8) FS_N_BLOCKS) s.
Proof.
  intros Hs. unfold alloc_block. apply find_loop_run.
  intros i Hi%elem_of_seqZ. destruct (fat_get s i Hs ltac:(done)) as (x & Hx & _).
  step (rd_fat_run i x s Hx). unfold is_free. by rewrite Hx.
Qed.

(** ** Freeing a chain *)

Definition nonfree (f : list Z) : nat := length (filter (λ x, x ≠ FAT_FREE) f).

Lemma nonfree_upd f i x :
  zget f i = Some x → x ≠ FAT_FREE → nonfree f = S (nonfree (upd f i FAT_FREE)).
Proof.
  intros Hx Hne. unfold nonfree, upd. unfold zget in Hx. destruct (0 <=? i); [|done].
  rewrite <-(take_drop_middle f (Z.to_nat i) x Hx) at 1.
  rewrite insert_take_drop by by eapply lookup_lt_Some.
  rewrite !filter_app, !filter_cons, !length_app.
  rewrite decide_True by done. rewrite decide_False by (intros H; by apply H).
  simpl. lia.
Qed.

Lemma nonfree_le f : (nonfree f ≤ length f)%nat.
Proof. apply length_filter. Qed.

(** Entries only ever change to [FAT_FREE]. *)
Definition only_freed (f f' : list Z) : Prop :=
  zlen f' = zlen f ∧ ∀ b x, zget f' b = Some x → x = FAT_FREE ∨ zget f b = Some x.

Lemma free_loop fuel start s :
  fs_shape s → 0 ≤ start < 65536 →
  (nonfree (fat s) + 2 ≤ fuel ∨ start = FAT_FREE ∧ 1 ≤ fuel)%nat →
  ∃ f, loop fuel free_step start s = Ret tt (set_fat f s) ∧
    fs_shape (set_fat f s) ∧ only_freed (fat s) f.
Proof.
  revert start s. induction fuel as [|fuel IH]; intros start s Hs Hst Hfuel; [lia|].
  rewrite loop_S. unfold free_step at 2.
  destruct ((start <? FS_N_BLOCKS) && negb (start =? FAT_END) && negb (start =? FAT_FREE)) eqn:Ht.
  2: { exists (fat s). rewrite bind_mret. split_and!; [by destruct s|by destruct s|].
       split; [done|auto]. }
  bools. unfold FS_N_BLOCKS in *.
  destruct (fat_get s start Hs ltac:(lia)) as (x & Hx & Hxr).
  rewrite bind_assoc. step (rd_fat_run _ _ _ Hx).
  rewrite bind_assoc. step (wr_fat_run start FAT_FREE s ltac:(rewrite sh_fat by done; unfold FS_N_BLOCKS; lia)).
  steps. change (u16 FAT_FREE) with FAT_FREE.
  set (s1 := set_fat (upd (fat s) start FAT_FREE) s).
  assert (Hs1 : fs_shape s1) by (apply fs_shape_upd_fat; [done|unfold FAT_FREE; lia]).
  destruct (IH x s1 Hs1 Hxr) as (f & E & Hsf & Hlf & Hof).
  - destruct (decide (x = FAT_FREE)) as [->|Hne]; [right; lia|left].
    destruct Hfuel as [Hfuel|[? _]]; [|unfold FAT_FREE in *; lia].
    rewrite (nonfree_upd _ _ _ Hx Hne) in Hfuel. simpl. lia.
  - exists f. split_and!; [done|done|]. simpl in Hlf, Hof. rewrite zlen_upd in Hlf.
    split; [done|]. intros b y Hy. destruct (Hof b y Hy) as [|Hb]; [by left|].
    rewrite zget_upd in Hb by (rewrite sh_fat by done; unfold FS_N_BLOCKS; lia).
    destruct (start =? b); [left; by simplify_eq|by right].
Qed.

Lemma free_chain_run start s :
  fs_shape s → 0 ≤ start < 65536 →
  ∃ f, free_chain start s = Ret tt (set_fat f s) ∧
    fs_shape (set_fat f s) ∧ only_freed (fat s) f.
Proof.
  intros Hs Hst. apply free_loop; [done|done|left].
  pose proof (nonfree_le (fat s)). pose proof (sh_fat s Hs). unfold zlen, FS_N_BLOCKS in *. lia.
Qed.

(** ** Chains *)

(** The links of a chain with the blocks [l], in order.  A link whose value is
    [FAT_FREE] would read as the end of an unallocated block, so no chain has one:
    block 0 can only be the head of a chain. *)
Fixpoint links (f : list Z) (l : list Z) : Prop :=
  match l with
  | [] => True
  | b :: l' =>
      0 ≤ b < FS_N_BLOCKS ∧ zget f b = Some (hd FAT_END l') ∧
      hd FAT_END l' ≠ FAT_FREE ∧ links f l'
  end.

Definition chain (f : list Z) (first : Z) (l : list Z) : Prop :=
  first = hd FAT_END l ∧ links f l.

Lemma links_fun f l1 l2 :
  links f l1 → links f l2 → hd FAT_END l1 = hd FAT_END l2 → l1 = l2.
Proof.
  revert l2. induction l1 as [|b l1 IH]; intros [|b2 l2]; simpl; try done.
  - intros _ (? & _) Hb. unfold FAT_END, FS_N_BLOCKS in *. lia.
  - intros (? & _) _ Hb. unfold FAT_END, FS_N_BLOCKS in *. lia.
  - intros (_ & H1 & _ & L1) (_ & H2 & _ & L2) <-. f_equal. apply IH; congruence.
Qed.

Lemma chain_fun f first l1 l2 : chain f first l1 → chain f first l2 → l1 = l2.
Proof. intros [-> L1] [H L2]. by eapply links_fun. Qed.

Lemma links_suffix f l1 l2 : links f (l1 ++ l2) → links f l2.
Proof. induction l1 as [|b l1 IH]; [done|]. simpl. intros (_ & _ & _ & H). by apply IH. Qed.

Lemma links_NoDup f l : links f l → NoDup l.
Proof.
  induction l as [|b l IH]; intros HL; [constructor|].
  assert (links f l) by by destruct HL as (_ & _ & _ & ?).
  constructor; [|by apply IH].
  intros (l1 & l2 & ->)%list_elem_of_split.
  assert (H2 : links f (b :: l2)) by (eapply (links_suffix f (b :: l1)); exact HL).
  apply (links_fun _ _ _ HL) in H2; [|done]. apply (f_equal length) in H2.
  simpl in H2. rewrite length_app in H2. simpl in H2. lia.
Qed.

Lemma links_range f l b : links f l → b ∈ l → 0 ≤ b < FS_N_BLOCKS.
Proof.
  induction l as [|c l IH]; [by rewrite elem_of_nil|].
  simpl. intros (? & _ & _ & ?) [->|]%elem_of_cons; auto.
Qed.

Lemma links_nonfree f l b : links f l → b ∈ l → zget f b ≠ Some FAT_FREE.
Proof.
  induction l as [|c l IH]; [by rewrite elem_of_nil|].
  simpl. intros (_ & Hc & ? & ?) [->|]%elem_of_cons; [congruence|auto].
Qed.

(** Block 0 is only ever at the head. *)
Lemma links_tail_nonzero f b l : links f (b :: l) → 0 ∉ l.
Proof.
  revert b. induction l as [|c l IH]; intros b (_ & _ & Hne & HL); [apply not_elem_of_nil|].
  simpl in Hne. intros [<-|Hin]%elem_of_cons; [done|]. by eapply IH.
Qed.

Lemma links_agree f f' l :
  links f l → (∀ b, b ∈ l → zget f' b = zget f b) → links f' l.
Proof.
  induction l as [|b l IH]; [done|]. intros (? & Hb & ? & HL) Hag.
  simpl. split_and!; try lia; try done.
  - rewrite Hag by set_solver. done.
  - apply IH; [done|]. set_solver.
Qed.

Lemma links_length f l : links f l → (length l ≤ 8)%nat.
Proof.
  intros HL. apply links_NoDup in HL as HN.
  change 8%nat with (length (range 0 8)). apply NoDup_incl_length; [by apply NoDup_ListNoDup|].
  intros b Hb%list_elem_of_In. apply list_elem_of_In, elem_of_seqZ.
  apply (links_range f l b HL Hb).
Qed.

(** Entries of [l] set to free. *)
Definition freed (f : list Z) (l : list Z) : list Z := foldl (λ f b, upd f b FAT_FREE) f l.

Lemma zlen_freed f l : zlen (freed f l) = zlen f.
Proof.
  revert f. induction l as [|b l IH]; intros f; [done|]. simpl. rewrite IH. by rewrite zlen_upd.
Qed.

Lemma freed_out f l b :
  (∀ c, c ∈ l → 0 ≤ c) → b ∉ l → zget (freed f l) b = zget f b.
Proof.
  revert f. induction l as [|c l IH]; intros f Hr Hb; [done|].
  simpl. rewrite IH by set_solver. apply zget_upd_ne; set_solver.
Qed.

Lemma freed_in f l b :
  (∀ c, c ∈ l → 0 ≤ c < zlen f) → b ∈ l → zget (freed f l) b = Some FAT_FREE.
Proof.
  revert f. induction l as [|c l IH]; intros f Hr Hb; [by apply elem_of_nil in Hb|].
  simpl. destruct (decide (b ∈ l)) as [Hin|Hin].
  - apply IH; [|done]. rewrite zlen_upd. set_solver.
  - rewrite freed_out by set_solver. apply elem_of_cons in Hb as [->|]; [|done].
    apply zget_upd_eq. set_solver.
Qed.

Lemma free_links_loop fuel l s :
  fs_shape s → links (fat s) l → 0 ∉ l → (length l < fuel)%nat →
  loop fuel free_step (hd FAT_END l) s = Ret tt (set_fat (freed (fat s) l) s).
Proof.
  revert l s. induction fuel as [|fuel IH]; intros l s Hs HL H0 Hf; [lia|].
  rewrite loop_S. unfold free_step at 2. destruct l as [|b l].
  { simpl. rewrite bind_mret. by destruct s. }
  simpl hd. pose proof (links_NoDup _ _ HL) as HN.
  destruct HL as (Hb & Hg & Hne & HL). unfold FS_N_BLOCKS in Hb.
  assert (b ≠ 0) by set_solver.
  unfold FS_N_BLOCKS, FAT_END at 1, FAT_FREE at 1.
  destruct (Z.ltb_spec b 8), (Z.eqb_spec b 0xFFFF), (Z.eqb_spec b 0); try lia. cbn [andb negb].
  rewrite bind_assoc. step (rd_fat_run _ _ _ Hg).
  rewrite bind_assoc. step (wr_fat_run b FAT_FREE s ltac:(rewrite sh_fat by done; unfold FS_N_BLOCKS; lia)).
  steps. change (u16 FAT_FREE) with FAT_FREE.
  inversion HN as [|? ? Hnb HN']; subst.
  rewrite IH; [done| | | |].
  - apply fs_shape_upd_fat; [done|unfold FAT_FREE; lia].
  - eapply links_agree; [exact HL|]. intros c Hc. simpl. apply zget_upd_ne; [lia|].
    intros ->. done.
  - set_solver.
  - simpl in Hf. lia.
Qed.

(** A chain that does not start at block 0 is freed block by block ... *)
Lemma free_chain_links first l s :
  fs_shape s → chain (fat s) first l → first ≠ 0 →
  free_chain first s = Ret tt (set_fat (freed (fat s) l) s).
Proof.
  intros Hs [-> HL] H0. unfold free_chain. pose proof (links_length _ _ HL).
  apply free_links_loop; try done; [|lia].
  destruct l as [|b l]; [apply not_elem_of_nil|]. simpl in H0.
  rewrite elem_of_cons. intros [?|?]; [done|]. by apply (links_tail_nonzero _ _ _ HL).
Qed.

(** ... and one that does is not freed at all: the guard takes the block number
    0 for [FAT_FREE]. *)
Lemma free_chain_zero s : free_chain 0 s = Ret tt s.
Proof. done. Qed.

(** ** Writing a chain *)

Definition blk_data (s : fs_state) (b : Z) : list Z := default [] (zget (blocks s) b).
Definition chain_data (s : fs_state) (l : list Z) : list Z := concat (blk_data s <$> l).

(** The FAT after [b] is appended to the chain [l]. *)
Definition link_fat (f l : list Z) (b : Z) : list Z :=
  match last l with
  | None => upd f b FAT_END
  | Some p => upd (upd f b FAT_END) p b
  end.

Lemma links_snoc f l b :
  zlen f = FS_N_BLOCKS → links f l → b ∉ l → 0 ≤ b < FS_N_BLOCKS → (l ≠ [] → b ≠ 0) →
  links (link_fat f l b) (l ++ [b]).
Proof.
  intros Hf. unfold link_fat. induction l as [|p l IH]; intros HL Hb Hr H0.
  { simpl. split_and!; try lia; try done. apply zget_upd_eq. lia. }
  pose proof (links_NoDup _ _ HL) as HN. inversion HN as [|? ? Hp HN']; subst.
  destruct HL as (Hpr & Hpg & Hpn & HL). specialize (H0 ltac:(done)).
  destruct l as [|q l].
  - simpl. split_and!; try lia; try done.
    + apply zget_upd_eq. rewrite zlen_upd. lia.
    + rewrite zget_upd_ne by set_solver. apply zget_upd_eq. lia.
  - rewrite last_cons_cons.
    assert (IH' := IH HL ltac:(set_solver) Hr (λ _, H0)).
    destruct (last (q :: l)) as [z|] eqn:Ez; [|by apply last_None in Ez].
    assert (Hz : z ∈ q :: l) by (apply last_Some in Ez as [l' ->]; set_solver).
    assert (0 ≤ z < FS_N_BLOCKS) by exact (links_range _ _ _ HL Hz).
    split_and!; try lia; try done.
    rewrite zget_upd_ne by (lia || set_solver). rewrite zget_upd_ne by (lia || set_solver). done.
Qed.

Lemma link_fat_out f l b c :
  0 ≤ b → (∀ x, x ∈ l → 0 ≤ x) → c ∉ l ++ [b] → zget (link_fat f l b) c = zget f c.
Proof.
  intros Hb Hl Hc. unfold link_fat. destruct (last l) as [p|] eqn:E.
  - assert (p ∈ l) by (apply last_Some in E as [l' ->]; set_solver).
    rewrite !zget_upd_ne; set_solver.
  - apply zget_upd_ne; set_solver.
Qed.

Lemma zlen_link_fat f l b : zlen (link_fat f l b) = zlen f.
Proof. unfold link_fat. by destruct (last l); rewrite ?zlen_upd. Qed.

Lemma link_fat_run s l b :
  fs_shape s → links (fat s) l → 0 ≤ b < FS_N_BLOCKS →
  ∃ s1, wr_fat b FAT_END s = Ret tt s1 ∧
    when (negb (default FAT_END (last l) =? FAT_END)) (wr_fat (default FAT_END (last l)) b) s1
    = Ret tt (set_fat (link_fat (fat s) l b) s).
Proof.
  intros Hs HL Hb. pose proof (sh_fat s Hs) as Hf.
  eexists. split; [apply wr_fat_run; lia|]. change (u16 FAT_END) with FAT_END.
  unfold link_fat. destruct (last l) as [p|] eqn:E; [|done].
  assert (p ∈ l) as Hp by (apply last_Some in E as [l' ->]; set_solver).
  pose proof (links_range _ _ _ HL Hp). unfold FS_N_BLOCKS, FAT_END in *. simpl.
  destruct (Z.eqb_spec p 0xFFFF); [lia|]. cbn [negb when].
  rewrite wr_fat_run by (simpl; rewrite zlen_upd; lia). simpl.
  unfold u16. by rewrite (Z.mod_small b) by lia.
Qed.

Lemma link_fat_shape s l b :
  fs_shape s → links (fat s) l → 0 ≤ b < FS_N_BLOCKS →
  fs_shape (set_fat (link_fat (fat s) l b) s).
Proof.
  intros Hs HL Hb. apply fs_shape_set_fat; [done| |].
  - by rewrite zlen_link_fat, sh_fat.
  - unfold link_fat, FS_N_BLOCKS, FAT_END in *. pose proof (sh_fat16 s Hs).
    destruct (last l); repeat apply Forall_upd; try done; lia.
Qed.

(** What holds between turns of the loop, with [l] the blocks written so far. *)
Record writing (s0 s : fs_state) (data : list Z) (len : Z) (l : list Z) (written : Z) : Prop := {
  wr_shape : fs_shape s;
  wr_links : links (fat s) l;
  wr_free : ∀ b, b ∈ l → zget (fat s0) b = Some FAT_FREE;
  wr_fat_out : ∀ b, b ∉ l → zget (fat s) b = zget (fat s0) b;
  wr_blk_out : ∀ b, b ∉ l → zget (blocks s) b = zget (blocks s0) b;
  wr_zero : l ≠ [] → zget (fat s) 0 ≠ Some FAT_FREE;
  wr_written : written = Z.min len (FS_BLOCK_SIZE * zlen l);
  wr_tight : l ≠ [] → FS_BLOCK_SIZE * (zlen l - 1) < len;
  wr_data : take (Z.to_nat written) (chain_data s l) = take (Z.to_nat written) data;
  wr_rest : files s = files s0 ∧ wtmp s = wtmp s0 ∧ etmp s = etmp s0 ∧ ctmp s = ctmp s0
}.

Lemma writing_start s data len : fs_shape s → 0 ≤ len → writing s s data len [] 0.
Proof.
  intros Hs Hl. constructor; try done.
  - intros b Hb. by apply elem_of_nil in Hb.
  - change (zlen (@nil Z)) with 0. lia.
Qed.

Lemma chain_data_length s l :
  fs_shape s → links (fat s) l → length (chain_data s l) = (Z.to_nat FS_BLOCK_SIZE * length l)%nat.
Proof.
  intros Hs. unfold chain_data. induction l as [|b l IH]; intros HL; [by rewrite Nat.mul_0_r|].
  rewrite fmap_cons. cbn [concat]. destruct HL as (Hb & _ & _ & HL).
  rewrite length_app, IH by done. unfold blk_data.
  destruct (block_get s b Hs Hb) as (d & -> & Hd). unfold block_ok, zlen in Hd.
  cbn [default from_option length]. unfold id. lia.
Qed.

Lemma chain_data_app s l1 l2 : chain_data s (l1 ++ l2) = chain_data s l1 ++ chain_data s l2.
Proof. unfold chain_data. by rewrite fmap_app, concat_app. Qed.

Lemma chain_data_agree s s' l :
  (∀ b, b ∈ l → zget (blocks s') b = zget (blocks s) b) → chain_data s' l = chain_data s l.
Proof.
  intros H. unfold chain_data. f_equal. apply list_fmap_ext.
  intros i b Hb%list_elem_of_lookup_2. unfold blk_data. by rewrite H.
Qed.

Lemma first_snoc f l b :
  links f l → (if hd FAT_END l =? FAT_END then b else hd FAT_END l) = hd FAT_END (l ++ [b]).
Proof.
  destruct l as [|c l]; [done|]. intros (Hc & _). simpl.
  unfold FAT_END, FS_N_BLOCKS in *. by destruct (Z.eqb_spec c 0xFFFF); [lia|].
Qed.

(** The chunk stored by one turn extends the data by that much. *)
Lemma chunk_data (cur data blk : list Z) (chunk : nat) :
  cur = take (length cur) data → (length cur + chunk ≤ length data)%nat →
  take (length cur + chunk) (cur ++ take chunk (drop (length cur) data) ++ drop chunk blk)
  = take (length cur + chunk) data.
Proof.
  intros Hcur Hl. rewrite take_app_add. rewrite take_app_le
    by (rewrite length_take, length_drop; lia).
  rewrite take_take, Nat.min_id. rewrite Hcur at 1.
  by rewrite take_take_drop.
Qed.

Lemma writing_snoc s0 s data len l written b d :
  writing s0 s data len l written → 0 < len ≤ zlen data → written < len →
  0 ≤ b < FS_N_BLOCKS → zget (fat s) b = Some FAT_FREE →
  (∀ j, 0 ≤ j < b → zget (fat s) j ≠ Some FAT_FREE) →
  zget (blocks s) b = Some d →
  let chunk := Z.min FS_BLOCK_SIZE (len - written) in
  let d' := take (Z.to_nat chunk) (drop (Z.to_nat written) data) ++ drop (Z.to_nat chunk) d in
  writing s0 (set_blocks (upd (blocks s) b d') (set_fat (link_fat (fat s) l b) s))
    data len (l ++ [b]) (written + chunk).
Proof.
  intros W Hlen Hw Hb Hfree Hmin Hd chunk d'.
  assert (Hs := wr_shape _ _ _ _ _ _ W). assert (HL := wr_links _ _ _ _ _ _ W).
  pose proof block_size_val as HBS.
  assert (Hbl : b ∉ l) by (intros Hin; by apply (links_nonfree _ _ _ HL Hin)).
  assert (Hne0 : l ≠ [] → b ≠ 0).
  { intros Hl ->. by apply (wr_zero _ _ _ _ _ _ W Hl). }
  assert (Hwl : written = FS_BLOCK_SIZE * zlen l).
  { pose proof (wr_written _ _ _ _ _ _ W). lia. }
  assert (Hw0 : 0 ≤ written) by (pose proof (zlen_nonneg l); nia).
  assert (Hdl : length d = Z.to_nat FS_BLOCK_SIZE).
  { pose proof (Forall_zget _ _ _ _ (sh_block s Hs) Hd) as Hok. unfold block_ok, zlen in Hok. lia. }
  assert (Hd' : length d' = Z.to_nat FS_BLOCK_SIZE).
  { unfold d', zlen in *. rewrite length_app, length_take, !length_drop. lia. }
  assert (Hlr : ∀ x, x ∈ l → 0 ≤ x) by (intros x Hx; pose proof (links_range _ _ _ HL Hx); lia).
  constructor; cbn [fat blocks files wtmp etmp ctmp set_blocks set_fat].
  - apply fs_shape_set_blocks; [by apply link_fat_shape| |].
    + by rewrite zlen_upd, sh_blocks.
    + apply Forall_upd; [by apply sh_block|]. unfold block_ok, zlen. lia.
  - apply links_snoc; try done. by apply sh_fat.
  - intros c [Hc|Hc%list_elem_of_singleton]%elem_of_app; [by eapply wr_free|]. subst c.
    rewrite <-(wr_fat_out _ _ _ _ _ _ W) by done. done.
  - intros c Hc. rewrite link_fat_out by (done || lia). apply (wr_fat_out _ _ _ _ _ _ W). set_solver.
  - intros c Hc. rewrite zget_upd_ne by (lia || set_solver). apply (wr_blk_out _ _ _ _ _ _ W). set_solver.
  - intros _ Hz. destruct (decide (0 ∈ l ++ [b])) as [Hin|Hout].
    + eapply links_nonfree; [|exact Hin|exact Hz]. apply links_snoc; try done. by apply sh_fat.
    + rewrite link_fat_out in Hz by (done || lia).
      destruct (decide (b = 0)) as [->|]; [set_solver|]. apply (Hmin 0); [lia|done].
  - rewrite zlen_app, zlen_cons. change (zlen (@nil Z)) with 0. unfold chunk. lia.
  - intros _. rewrite zlen_app, zlen_cons. change (zlen (@nil Z)) with 0. lia.
  - rewrite chain_data_app.
    rewrite (chain_data_agree s) by (intros c Hc; apply zget_upd_ne; [lia|set_solver]).
    assert (Hcl : length (chain_data s l) = Z.to_nat written).
    { rewrite chain_data_length by done. unfold zlen in Hwl. lia. }
    assert (Hcd : chain_data s l = take (length (chain_data s l)) data).
    { rewrite Hcl. rewrite <-(wr_data _ _ _ _ _ _ W), take_ge; [done|lia]. }
    unfold chain_data at 2. cbn [fmap list_fmap concat]. rewrite app_nil_r.
    unfold blk_data. cbn [blocks set_blocks]. rewrite zget_upd_eq by (rewrite sh_blocks; done).
    cbn [default from_option]. unfold id, d'.
    replace (Z.to_nat (written + chunk)) with (length (chain_data s l) + Z.to_nat chunk)%nat by lia.
    rewrite <-Hcl. apply chunk_data; [done|]. unfold zlen in *. lia.
  - apply (wr_rest _ _ _ _ _ _ W).
Qed.

Lemma write_step_run s0 s data len l written :
  writing s0 s data len l written → 0 < len ≤ zlen data → written < len →
  (∃ b s', write_step data len (hd FAT_END l, default FAT_END (last l), written) s
      = Ret (inl (hd FAT_END (l ++ [b]), b,
                  written + Z.min FS_BLOCK_SIZE (len - written))) s' ∧
    writing s0 s' data len (l ++ [b]) (written + Z.min FS_BLOCK_SIZE (len - written))) ∨
  (write_step data len (hd FAT_END l, default FAT_END (last l), written) s
      = Ret (inr FS_N_BLOCKS) s ∧
   ∀ b, 0 ≤ b < FS_N_BLOCKS → zget (fat s) b ≠ Some FAT_FREE).
Proof.
  intros W Hlen Hw.
  assert (Hs := wr_shape _ _ _ _ _ _ W). assert (HL := wr_links _ _ _ _ _ _ W).
  cbn [write_step]. destruct (Z.ltb_spec written len); [|lia].
  step (alloc_block_run s Hs).
  destruct (search_range (is_free s) 0 8 FS_N_BLOCKS) as [(Hb & Hfr & Hmin)|(Hb & Hnone)];
    cbv zeta in *; set (b := search _ _ _) in *; clearbody b.
  2: { right. subst b. rewrite Z.eqb_refl. split; [done|]. intros b Hb Hz.
       apply is_free_spec in Hz. rewrite Hnone in Hz by done. done. }
  left. apply is_free_spec in Hfr.
  assert (Hbr : 0 ≤ b < FS_N_BLOCKS) by (unfold FS_N_BLOCKS; lia).
  destruct (Z.eqb_spec b FS_N_BLOCKS); [lia|].
  destruct (block_get s b Hs Hbr) as (d & Hd & Hdok).
  assert (Hmin' : ∀ j, 0 ≤ j < b → zget (fat s) j ≠ Some FAT_FREE).
  { intros j Hj Hz. apply is_free_spec in Hz. rewrite Hmin in Hz by done. done. }
  pose proof (writing_snoc _ _ _ _ _ _ b d W Hlen Hw Hbr Hfr Hmin' Hd) as W'.
  cbv zeta in W'. exists b. eexists. split; [|exact W'].
  destruct (link_fat_run s l b Hs HL Hbr) as (s1 & E1 & E2).
  step E1. step E2. cbv zeta. steps. cbn [blocks set_fat]. rewrite (bind_lift _ _ _ _ Hd).
  pose proof (wr_written _ _ _ _ _ _ W). pose proof block_size_val.
  pose proof (zlen_nonneg l).
  replace (if FS_BLOCK_SIZE <? len - written then FS_BLOCK_SIZE else len - written)
    with (Z.min FS_BLOCK_SIZE (len - written))
    by (destruct (Z.ltb_spec FS_BLOCK_SIZE (len - written)); lia).
  assert (0 ≤ written) by nia. unfold block_ok, zlen in *.
  erewrite bind_lift by (apply kmemcpy_spec; rewrite ?length_drop; lia).
  erewrite bind_lift by (apply zset_upd; by rewrite sh_blocks). steps.
  by rewrite (first_snoc _ _ _ HL).
Qed.

(** Every block of the disk is taken. *)
Definition disk_full (s : fs_state) : Prop :=
  ∀ b, 0 ≤ b < FS_N_BLOCKS → zget (fat s) b ≠ Some FAT_FREE.

Lemma write_loop fuel s0 s data len l written :
  writing s0 s data len l written → 0 < len ≤ zlen data →
  len / FS_BLOCK_SIZE + 3 ≤ Z.of_nat fuel + zlen l →
  ∃ s' l' w, writing s0 s' data len l' w ∧
    ((loop fuel (write_step data len) (hd FAT_END l, default FAT_END (last l), written) s
        = Ret (hd FAT_END l') s' ∧ w = len) ∨
     (loop fuel (write_step data len) (hd FAT_END l, default FAT_END (last l), written) s
        = Ret FS_N_BLOCKS s' ∧ w < len ∧ disk_full s')).
Proof.
  pose proof block_size_val as HBS.
  revert s l written. induction fuel as [|fuel IH]; intros s l written W Hlen Hfuel.
  { exfalso. destruct l as [|b l].
    - change (zlen (@nil Z)) with 0 in *. pose proof (Z.div_pos len FS_BLOCK_SIZE). lia.
    - pose proof (wr_tight _ _ _ _ _ _ W ltac:(done)).
      pose proof (Z.div_mod len FS_BLOCK_SIZE ltac:(lia)).
      pose proof (Z.mod_pos_bound len FS_BLOCK_SIZE ltac:(lia)). nia. }
  rewrite loop_S. destruct (Z.lt_ge_cases written len) as [Hw|Hw].
  - destruct (write_step_run _ _ _ _ _ _ W Hlen Hw) as [(b & s1 & E & W1)|[E Hfull]].
    + step E. assert (Hf' : len / FS_BLOCK_SIZE + 3 ≤ Z.of_nat fuel + zlen (l ++ [b])).
      { rewrite zlen_app, zlen_cons. change (zlen (@nil Z)) with 0. lia. }
      specialize (IH s1 (l ++ [b]) _ W1 Hlen Hf'). by rewrite last_snoc in IH.
    + exists s, l, written. split; [done|]. right. step E. split; [done|]. done.
  - exists s, l, written. split; [done|]. left. cbn [write_step].
    destruct (Z.ltb_spec written len); [lia|]. steps. split; [done|].
    pose proof (wr_written _ _ _ _ _ _ W). lia.
Qed.

(** A new chain holds the data, or the disk was filled up in the attempt. *)
Lemma write_to_blocks_run s data len :
  fs_shape s → 0 < len ≤ zlen data →
  ∃ s' l w, writing s s' data len l w ∧
    ((write_to_blocks data len s = Ret (hd FAT_END l) s' ∧ w = len) ∨
     (write_to_blocks data len s = Ret FS_N_BLOCKS s' ∧ w < len ∧ disk_full s')).
Proof.
  intros Hs Hlen. unfold write_to_blocks. destruct (Z.eqb_spec len 0); [lia|].
  apply (write_loop _ s s data len [] 0); [apply writing_start; [done|lia]|done|].
  change (zlen (@nil Z)) with 0. pose proof block_size_val.
  pose proof (Z.div_pos len FS_BLOCK_SIZE). lia.
Qed.

(** Room on the disk decides which of the two it is. *)
Definition nfree (s : fs_state) : Z :=
  zlen (filter (λ b, zget (fat s) b = Some FAT_FREE) (range 0 8)).

Lemma NoDup_subset_length (l1 l2 : list Z) :
  NoDup l1 → (∀ x, x ∈ l1 → x ∈ l2) → zlen l1 ≤ zlen l2.
Proof.
  intros HN Hs. unfold zlen. apply inj_le, NoDup_incl_length; [by apply NoDup_ListNoDup|].
  intros x. rewrite <-!list_elem_of_In. auto.
Qed.

Lemma writing_le_nfree s0 s data len l w :
  writing s0 s data len l w → zlen l ≤ nfree s0.
Proof.
  intros W. assert (HL := wr_links _ _ _ _ _ _ W). unfold nfree.
  apply NoDup_subset_length; [by eapply links_NoDup|].
  intros b Hb. apply list_elem_of_filter. split; [by apply (wr_free _ _ _ _ _ _ W)|].
  apply elem_of_seqZ. apply (links_range _ _ _ HL Hb).
Qed.

Lemma writing_full s0 s data len l w :
  writing s0 s data len l w → disk_full s → nfree s0 ≤ zlen l.
Proof.
  intros W Hfull. unfold nfree. apply NoDup_subset_length.
  - apply NoDup_filter, NoDup_seqZ.
  - intros b [Hb Hr%elem_of_seqZ]%list_elem_of_filter.
    destruct (decide (b ∈ l)) as [|Hout]; [done|]. exfalso.
    apply (Hfull b); [done|]. by rewrite (wr_fat_out _ _ _ _ _ _ W).
Qed.

(** ** Gathering a chain *)

(** A file of [size] bytes has exactly the blocks it needs. *)
Definition fits (size : Z) (l : list Z) : Prop :=
  0 ≤ size ≤ FS_BLOCK_SIZE * zlen l ∧ (l ≠ [] → FS_BLOCK_SIZE * (zlen l - 1) < size).

Lemma fits_writing s0 s data len l :
  writing s0 s data len l len → 0 < len → fits len l.
Proof.
  intros W Hlen. pose proof (wr_written _ _ _ _ _ _ W).
  split; [lia|]. apply (wr_tight _ _ _ _ _ _ W).
Qed.

Lemma kmemcpy_at_run base off src n :
  0 ≤ off → 0 ≤ n → off + n ≤ zlen base → n ≤ zlen src →
  kmemcpy_at base off src n =
    Some (take (Z.to_nat off) base ++ take (Z.to_nat n) src ++ drop (Z.to_nat (off + n)) base).
Proof.
  unfold zlen. intros. unfold kmemcpy_at.
  rewrite kmemcpy_spec by (rewrite ?length_drop; lia). cbn. f_equal. f_equal.
  rewrite drop_drop. do 2 f_equal. lia.
Qed.

Lemma splice_lengths {A} (pre mid post : list A) (n : nat) :
  length pre = n → take n (pre ++ mid ++ post) = pre ∧ drop n (pre ++ mid ++ post) = mid ++ post.
Proof. intros <-. by rewrite take_app_length, drop_app_length. Qed.

(** The part of a file in the first block of its chain, and what is left. *)
Lemma fits_chunk s b l d size :
  zget (blocks s) b = Some d → block_ok d → fits size (b :: l) →
  let chunk := if size <? FS_BLOCK_SIZE then size else FS_BLOCK_SIZE in
  0 < chunk ≤ zlen d ∧ chunk ≤ size ∧ fits (size - chunk) l ∧
  take (Z.to_nat size) (chain_data s (b :: l)) =
    take (Z.to_nat chunk) d ++ take (Z.to_nat (size - chunk)) (chain_data s l).
Proof.
  intros Hd Hok [Hr Ht] chunk. unfold block_ok in Hok. pose proof block_size_val as HBS.
  specialize (Ht ltac:(done)). rewrite zlen_cons in Hr, Ht. pose proof (zlen_nonneg l).
  assert (Hc : chunk = Z.min size FS_BLOCK_SIZE)
    by (unfold chunk; destruct (Z.ltb_spec size FS_BLOCK_SIZE); lia).
  split; [nia|]. split; [lia|]. split; [split|].
  - lia.
  - intros Hne. destruct l as [|c l]; [done|]. rewrite zlen_cons in *. pose proof (zlen_nonneg l). nia.
  - unfold chain_data. rewrite fmap_cons. cbn [concat]. unfold blk_data at 1. rewrite Hd.
    cbn [default from_option]. unfold id. rewrite take_app. unfold zlen in *.
    f_equal; [|f_equal; lia].
    destruct (Z.le_gt_cases size FS_BLOCK_SIZE); [f_equal; lia|]. by rewrite !take_ge by lia.
Qed.

(** The bound on the turns of the loops that walk a chain. *)
Lemma fits_fuel size l : fits size l → (length l < Z.to_nat (size / FS_BLOCK_SIZE + 3))%nat.
Proof.
  intros [Hr Ht]. pose proof block_size_val. destruct l as [|b l].
  - pose proof (Z.div_pos size FS_BLOCK_SIZE). simpl. lia.
  - specialize (Ht ltac:(done)). unfold zlen in *.
    pose proof (Z.div_mod size FS_BLOCK_SIZE ltac:(lia)).
    pose proof (Z.mod_pos_bound size FS_BLOCK_SIZE ltac:(lia)). nia.
Qed.

Lemma gather_loop fuel l left_ off tmp s :
  fs_shape s → links (fat s) l → fits left_ l → (length l < fuel)%nat →
  0 ≤ off → off + left_ ≤ zlen tmp →
  loop fuel gather_step (hd FAT_END l, left_, off, tmp) s =
    Ret (take (Z.to_nat off) tmp ++ take (Z.to_nat left_) (chain_data s l) ++
         drop (Z.to_nat (off + left_)) tmp) s.
Proof.
  intros Hs. revert l left_ off tmp.
  induction fuel as [|fuel IH]; intros l lf off tmp HL Hfit Hf Ho Htmp; [lia|].
  rewrite loop_S. cbn [gather_step]. destruct l as [|b l].
  { destruct Hfit as [Hr _]. change (zlen (@nil Z)) with 0 in Hr. cbn [hd].
    change (FAT_END <? FS_N_BLOCKS) with false. cbn [andb]. steps.
    replace lf with 0 by lia. rewrite Z.add_0_r. simpl. by rewrite take_drop. }
  pose proof HL as (Hb & Hn & _ & HL').
  destruct (block_get s b Hs Hb) as (d & Hd & Hdok).
  destruct (fits_chunk s b l d lf Hd Hdok Hfit) as (Hc1 & Hc2 & Hfit' & Htk). cbv zeta in *.
  cbn [hd]. destruct (Z.ltb_spec b FS_N_BLOCKS); [|lia].
  destruct (Z.ltb_spec 0 lf); [|lia]. cbn [andb].
  set (chunk := if lf <? FS_BLOCK_SIZE then lf else FS_BLOCK_SIZE) in *.
  rewrite bind_assoc. steps. rewrite bind_assoc, (bind_lift _ _ _ _ Hd).
  rewrite bind_assoc. erewrite bind_lift by (apply kmemcpy_at_run; lia).
  rewrite bind_assoc. step (rd_fat_run _ _ _ Hn). steps.
  assert (Hl1 : length (take (Z.to_nat off) tmp ++ take (Z.to_nat chunk) d) = Z.to_nat (off + chunk)).
  { unfold zlen in *. rewrite length_app, !length_take. lia. }
  rewrite IH; [|done|done|simpl in Hf; lia|lia|].
  - f_equal. rewrite !app_assoc.
    destruct (splice_lengths (take (Z.to_nat off) tmp ++ take (Z.to_nat chunk) d) []
      (drop (Z.to_nat (off + chunk)) tmp) (Z.to_nat (off + chunk)) Hl1) as [Ht1 _].
    simpl in Ht1. rewrite Ht1. rewrite drop_app_ge by lia. rewrite Hl1, drop_drop.
    rewrite Htk, <-!app_assoc. do 4 f_equal. lia.
  - unfold zlen in *. rewrite !length_app, !length_take, length_drop. lia.
Qed.

Lemma gather_run first size tmp s l :
  fs_shape s → chain (fat s) first l → fits size l → size ≤ zlen tmp →
  gather first size tmp s =
    Ret (take (Z.to_nat size) (chain_data s l) ++ drop (Z.to_nat size) tmp) s.
Proof.
  intros Hs [-> HL] Hfit Htmp. unfold gather.
  by rewrite (gather_loop _ l) with (off := 0) by (done || lia || by apply fits_fuel).
Qed.
