(* ===== verification/FatRep.v ===== *)
(** * What the file system's arrays represent

    The abstract file system is a finite map from (directory, name) to
    contents; [fs_rep] relates the FAT, the blocks and the directory slots to
    it.  The lemmas here say how one slot can be replaced, and what the helpers
    of fs.c do to the map. *)

From S2P Require Import Prelude CString Fat.

Abbreviation afs := (gmap (list Z * list Z) (list Z)).

(** Slot [e] is a live file with this name, directory and chain. *)
Record live (s : fs_state) (e : file_entry) (n d l : list Z) : Prop := {
  lv_used : e_used e ≠ 0;
  lv_name : cstr (e_name e) n;
  lv_dir : cstr (e_dir e) d;
  lv_chain : chain (fat s) (e_first e) l;
  lv_fits : fits (e_size e) l
}.

Definition contents (s : fs_state) (e : file_entry) (l : list Z) : list Z :=
  take (Z.to_nat (e_size e)) (chain_data s l).

(** A free slot is an empty file without a name. *)
Definition dead (e : file_entry) : Prop :=
  e_used e = 0 ∧ e_first e = FAT_END ∧ e_size e = 0.

Record fs_rep (s : fs_state) (m : afs) : Prop := {
  rep_shape : fs_shape s;
  rep_slot : ∀ i e, zget (files s) i = Some e → dead e ∨
    ∃ n d l, live s e n d l ∧ m !! (d, n) = Some (contents s e l);
  rep_key : ∀ d n v, m !! (d, n) = Some v →
    ∃ i e l, zget (files s) i = Some e ∧ live s e n d l;
  rep_inj : ∀ i j ei ej n d li lj,
    zget (files s) i = Some ei → zget (files s) j = Some ej →
    live s ei n d li → live s ej n d lj → i = j;
  rep_disj : ∀ i j ei ej ni di nj dj li lj b,
    zget (files s) i = Some ei → zget (files s) j = Some ej →
    live s ei ni di li → live s ej nj dj lj → b ∈ li → b ∈ lj → i = j
}.

Lemma live_fun s e n1 d1 l1 n2 d2 l2 :
  live s e n1 d1 l1 → live s e n2 d2 l2 → n1 = n2 ∧ d1 = d2 ∧ l1 = l2.
Proof.
  intros [] []. split_and!; [by eapply cstr_fun|by eapply cstr_fun|by eapply chain_fun].
Qed.

Lemma live_agree s s' e n d l :
  live s e n d l → (∀ b, b ∈ l → zget (fat s') b = zget (fat s) b) → live s' e n d l.
Proof.
  intros [? ? ? [? HL] ?] Hag. constructor; try done. split; [done|].
  by eapply links_agree.
Qed.

Lemma contents_agree s s' e l :
  (∀ b, b ∈ l → zget (blocks s') b = zget (blocks s) b) → contents s' e l = contents s e l.
Proof. intros. unfold contents. by rewrite (chain_data_agree s). Qed.

(** The map without the file in slot [e]. *)
Definition without (e : file_entry) (m m0 : afs) : Prop :=
  (dead e ∧ m0 = m) ∨
  (e_used e ≠ 0 ∧ ∃ n d, cstr (e_name e) n ∧ cstr (e_dir e) d ∧ m0 = delete (d, n) m).

(** Replacing one slot while the blocks of the other files stay as they are. *)
Section update.
Context (s s' : fs_state) (m m0 : afs) (idx : Z) (e e' : file_entry).
Hypothesis Hrep : fs_rep s m.
Hypothesis Hshape : fs_shape s'.
Hypothesis Hidx : zget (files s) idx = Some e.
Hypothesis Hfiles : files s' = upd (files s) idx e'.
Hypothesis Hframe : ∀ j ej n d l, j ≠ idx → zget (files s) j = Some ej →
  live s ej n d l → ∀ b, b ∈ l →
  zget (fat s') b = zget (fat s) b ∧ zget (blocks s') b = zget (blocks s) b.
Hypothesis Hwithout : without e m m0.

Local Lemma slot_idx : zget (files s') idx = Some e'.
Proof. rewrite Hfiles. apply zget_upd_eq. by eapply zget_Some_range. Qed.

Local Lemma slot_other j : j ≠ idx → zget (files s') j = zget (files s) j.
Proof.
  intros. rewrite Hfiles. apply zget_upd_ne; [|done].
  apply zget_Some_range in Hidx. lia.
Qed.

Local Ltac slots :=
  repeat match goal with
  | H : zget (files s') idx = _ |- _ => rewrite slot_idx in H
  | H : zget (files s') ?j = _, Hn : ?j ≠ idx |- _ => rewrite (slot_other j Hn) in H
  end.

Local Lemma other_live j ej n d l :
  j ≠ idx → zget (files s) j = Some ej → live s ej n d l →
  live s' ej n d l ∧ contents s' ej l = contents s ej l ∧ m0 !! (d, n) = m !! (d, n).
Proof.
  intros Hj Hej Hlv. split_and!.
  - eapply live_agree; [done|]. intros b Hb. by eapply Hframe.
  - apply contents_agree. intros b Hb. by eapply Hframe.
  - destruct Hwithout as [[_ ->]|(Hu & n0 & d0 & Hn0 & Hd0 & ->)]; [done|].
    apply lookup_delete_ne. intros [= -> ->]. apply Hj.
    destruct (rep_slot s m Hrep idx e Hidx) as [[? _]|(n1 & d1 & l1 & Hl1 & _)]; [done|].
    assert (n1 = n) as -> by (eapply cstr_fun; [apply Hl1|done]).
    assert (d1 = d) as -> by (eapply cstr_fun; [apply Hl1|done]).
    by eapply (rep_inj s m Hrep).
Qed.

Local Lemma live_back j ej n d l :
  j ≠ idx → zget (files s) j = Some ej → live s' ej n d l → live s ej n d l.
Proof.
  intros Hj Hej Hlv.
  destruct (rep_slot s m Hrep j ej Hej) as [[Hu _]|(n1 & d1 & l1 & Hl1 & _)];
    [by destruct (lv_used _ _ _ _ _ Hlv)|].
  destruct (other_live j ej n1 d1 l1 Hj Hej Hl1) as (Hl1' & _).
  by destruct (live_fun _ _ _ _ _ _ _ _ Hlv Hl1') as (-> & -> & ->).
Qed.

Local Lemma without_key d n v :
  m0 !! (d, n) = Some v →
  ∃ j ej l, j ≠ idx ∧ zget (files s) j = Some ej ∧ live s ej n d l.
Proof.
  intros Hm0. assert (Hm : m !! (d, n) = Some v).
  { destruct Hwithout as [[_ Heq]|(_ & n0 & d0 & _ & _ & Heq)]; rewrite Heq in Hm0; [done|].
    by apply lookup_delete_Some in Hm0 as [_ ?]. }
  destruct (rep_key s m Hrep d n v Hm) as (j & ej & l & Hej & Hlv).
  exists j, ej, l. split_and!; try done. intros ->. rewrite Hidx in Hej. injection Hej as <-.
  destruct Hwithout as [[[Hu _] _]|(_ & n0 & d0 & Hn0 & Hd0 & Heq)].
  - by destruct (lv_used _ _ _ _ _ Hlv).
  - assert (n0 = n) as -> by (eapply cstr_fun; [done|apply Hlv]).
    assert (d0 = d) as -> by (eapply cstr_fun; [done|apply Hlv]).
    rewrite Heq, lookup_delete_eq in Hm0. done.
Qed.

Lemma rep_update_dead : dead e' → fs_rep s' m0.
Proof.
  intros Hdead. constructor; [done|..].
  - intros j ej Hej. destruct (decide (j = idx)) as [->|Hj].
    { rewrite slot_idx in Hej. left. by simplify_eq. }
    rewrite slot_other in Hej by done.
    destruct (rep_slot s m Hrep j ej Hej) as [|(n & d & l & Hlv & Hm)]; [by left|right].
    destruct (other_live j ej n d l Hj Hej Hlv) as (Hlv' & Hc & Hm').
    exists n, d, l. split; [done|]. by rewrite Hm', Hm, Hc.
  - intros d n v (j & ej & l & Hj & Hej & Hlv)%without_key.
    exists j, ej, l. rewrite slot_other by done. split; [done|]. by apply (other_live j).
  - intros i j ei ej n d li lj Hi Hj Hli Hlj.
    assert (i ≠ idx) by (intros ->; rewrite slot_idx in Hi; simplify_eq; by destruct Hli, Hdead).
    assert (j ≠ idx) by (intros ->; rewrite slot_idx in Hj; simplify_eq; by destruct Hlj, Hdead).
    rewrite slot_other in Hi, Hj by done.
    eapply (rep_inj s m Hrep i j); eauto using live_back.
  - intros i j ei ej ni di nj dj li lj b Hi Hj Hli Hlj Hbi Hbj.
    assert (i ≠ idx) by (intros ->; rewrite slot_idx in Hi; simplify_eq; by destruct Hli, Hdead).
    assert (j ≠ idx) by (intros ->; rewrite slot_idx in Hj; simplify_eq; by destruct Hlj, Hdead).
    rewrite slot_other in Hi, Hj by done.
    eapply (rep_disj s m Hrep i j); eauto using live_back.
Qed.

Lemma rep_update_live n d l :
  live s' e' n d l → m0 !! (d, n) = None →
  (∀ j ej nj dj lj b, j ≠ idx → zget (files s) j = Some ej → live s ej nj dj lj →
     b ∈ l → b ∉ lj) →
  fs_rep s' (<[(d, n) := contents s' e' l]> m0).
Proof.
  intros Hlive Hnone Hdisj.
  assert (Hother : ∀ j ej lj, j ≠ idx → zget (files s) j = Some ej →
    live s ej n d lj → False).
  { intros j ej lj Hj Hej Hlv. destruct (other_live j ej n d lj Hj Hej Hlv) as (_ & _ & Hm).
    destruct (rep_slot s m Hrep j ej Hej) as [[Hu _]|(n1 & d1 & l1 & Hl1 & Hm1)];
      [by destruct (lv_used _ _ _ _ _ Hlv)|].
    destruct (live_fun _ _ _ _ _ _ _ _ Hlv Hl1) as (-> & -> & ->). congruence. }
  constructor; [done|..].
  - intros j ej Hej. destruct (decide (j = idx)) as [->|Hj].
    { rewrite slot_idx in Hej. injection Hej as <-. right. exists n, d, l.
      split; [done|]. by rewrite lookup_insert_eq. }
    rewrite slot_other in Hej by done.
    destruct (rep_slot s m Hrep j ej Hej) as [|(nj & dj & lj & Hlv & Hm)]; [by left|right].
    destruct (other_live j ej nj dj lj Hj Hej Hlv) as (Hlv' & Hc & Hm').
    exists nj, dj, lj. split; [done|]. rewrite lookup_insert_ne; [by rewrite Hm', Hm, Hc|].
    intros [= -> ->]. by eapply Hother.
  - intros dk nk v [[[= -> ->] <-]|[Hne Hm]]%lookup_insert_Some.
    + exists idx, e', l. by rewrite slot_idx.
    + apply without_key in Hm as (j & ej & lj & Hj & Hej & Hlv).
      exists j, ej, lj. rewrite slot_other by done. split; [done|]. by apply (other_live j).
  - intros i j ei ej n1 d1 li lj Hi Hj Hli Hlj.
    destruct (decide (i = idx)) as [->|Hni], (decide (j = idx)) as [->|Hnj]; [done|..];
      slots; simplify_eq.
    + destruct (live_fun _ _ _ _ _ _ _ _ Hlive Hli) as (-> & -> & ->). exfalso.
      eapply (Hother j); eauto using live_back.
    + destruct (live_fun _ _ _ _ _ _ _ _ Hlive Hlj) as (-> & -> & ->). exfalso.
      eapply (Hother i); eauto using live_back.
    + eapply (rep_inj s m Hrep i j); eauto using live_back.
  - intros i j ei ej ni di nj dj li lj b Hi Hj Hli Hlj Hbi Hbj.
    destruct (decide (i = idx)) as [->|Hni], (decide (j = idx)) as [->|Hnj]; [done|..];
      slots; simplify_eq.
    + destruct (live_fun _ _ _ _ _ _ _ _ Hlive Hli) as (-> & -> & ->). exfalso.
      eapply (Hdisj j ej); eauto using live_back.
    + destruct (live_fun _ _ _ _ _ _ _ _ Hlive Hlj) as (-> & -> & ->). exfalso.
      eapply (Hdisj i ei); eauto using live_back.
    + eapply (rep_disj s m Hrep i j); eauto using live_back.
Qed.
End update.

(** ** The helpers, on a state that represents a map *)

Lemma live_nonfree s e n d l b : live s e n d l → b ∈ l → zget (fat s) b ≠ Some FAT_FREE.
Proof. intros [] Hb. eapply links_nonfree; [by destruct lv_chain0|done]. Qed.

(** [s'] has the arrays' shape and the blocks of every file but that in slot [idx]. *)
Definition keeps (s : fs_state) (idx : Z) (s' : fs_state) : Prop :=
  fs_shape s' ∧
  ∀ j ej n d l, j ≠ idx → zget (files s) j = Some ej → live s ej n d l →
  ∀ b, b ∈ l → zget (fat s') b = zget (fat s) b ∧ zget (blocks s') b = zget (blocks s) b.

Lemma keeps_refl s idx : fs_shape s → keeps s idx s.
Proof. done. Qed.

Lemma keeps_writing s idx s1 s2 data len l w :
  keeps s idx s1 → writing s1 s2 data len l w → keeps s idx s2.
Proof.
  intros [_ Hk] W. split; [by apply (wr_shape _ _ _ _ _ _ W)|].
  intros j ej n d lj Hj Hej Hlv b Hb. destruct (Hk j ej n d lj Hj Hej Hlv b Hb) as [Hf Hbl].
  assert (b ∉ l).
  { intros Hin%(wr_free _ _ _ _ _ _ W). rewrite Hf in Hin.
    by apply (live_nonfree _ _ _ _ _ _ Hlv Hb). }
  by rewrite (wr_fat_out _ _ _ _ _ _ W), (wr_blk_out _ _ _ _ _ _ W).
Qed.

Lemma keeps_new_blocks s idx s1 s2 data len l w :
  keeps s idx s1 → writing s1 s2 data len l w →
  ∀ j ej n d lj b, j ≠ idx → zget (files s) j = Some ej → live s ej n d lj → b ∈ l → b ∉ lj.
Proof.
  intros [_ Hk] W j ej n d lj b Hj Hej Hlv Hb Hbj.
  apply (wr_free _ _ _ _ _ _ W) in Hb. destruct (Hk j ej n d lj Hj Hej Hlv b Hbj) as [Hf _].
  rewrite Hf in Hb. by apply (live_nonfree _ _ _ _ _ _ Hlv Hbj).
Qed.

(** Freeing a file's chain: all of it, or nothing when it starts at block 0. *)
Lemma free_file_run s m idx e n d l :
  fs_rep s m → zget (files s) idx = Some e → live s e n d l →
  ∃ f, free_chain (e_first e) s = Ret tt (set_fat f s) ∧ keeps s idx (set_fat f s) ∧
    f = if e_first e =? 0 then fat s else freed (fat s) l.
Proof.
  intros Hrep Hidx Hlv. assert (Hs := rep_shape s m Hrep).
  assert (Hch := lv_chain _ _ _ _ _ Hlv). pose proof Hch as [Hfirst HL].
  destruct (Z.eqb_spec (e_first e) 0) as [Hz|Hz].
  { exists (fat s). rewrite Hz, free_chain_zero. split_and!; [by destruct s| |done].
    split; [by destruct s|done]. }
  exists (freed (fat s) l). rewrite (free_chain_links _ l) by done.
  split_and!; try done.
  assert (Hr : ∀ c, c ∈ l → 0 ≤ c < zlen (fat s)).
  { intros c Hc. rewrite sh_fat by done. by eapply links_range. }
  split.
  - apply fs_shape_set_fat; [done|by rewrite zlen_freed, sh_fat|].
    clear -Hs. generalize (sh_fat16 s Hs). generalize (fat s).
    induction l as [|b l IH]; intros f Hf; [done|]. simpl. apply IH, Forall_upd; [done|].
    unfold FAT_FREE. lia.
  - intros j ej nj dj lj Hj Hej Hlj b Hb. split; [|done]. simpl. apply freed_out.
    + intros c Hc. apply Hr in Hc. lia.
    + intros Hbl. apply Hj. by eapply (rep_disj s m Hrep).
Qed.

Lemma bool_decide_Some (x y : list Z) : bool_decide (Some x = Some y) = bool_decide (x = y).
Proof. apply bool_decide_ext. split; [by intros [= ->]|by intros ->]. Qed.

Definition slot_test (s : fs_state) (n d : list Z) (i : Z) : bool :=
  match zget (files s) i with
  | Some e => negb (e_used e =? 0) && bool_decide (cstring (e_name e) = Some n)
              && bool_decide (cstring (e_dir e) = Some d)
  | None => false
  end.

Lemma file_match_run s m nb n db d i :
  fs_rep s m → cstr nb n → cstr db d → 0 ≤ i < 32 →
  file_match nb db i s = Ret (slot_test s n d i) s.
Proof.
  intros Hrep Hn Hd Hi. destruct (file_get s i (rep_shape s m Hrep) Hi) as (e & He & _).
  unfold file_match, slot_test. step (rd_file_run i e s He). rewrite He.
  destruct (rep_slot s m Hrep i e He) as [[-> _]|(n1 & d1 & l1 & Hlv & _)]; [done|].
  assert (Hu := lv_used _ _ _ _ _ Hlv). destruct (Z.eqb_spec (e_used e) 0); [done|].
  pose proof (lv_name _ _ _ _ _ Hlv) as Hn1. pose proof (lv_dir _ _ _ _ _ Hlv) as Hd1.
  destruct (kstrcmp_test _ _ _ _ Hn1 Hn) as (r1 & E1 & T1).
  destruct (kstrcmp_test _ _ _ _ Hd1 Hd) as (r2 & E2 & T2).
  apply cstring_spec in Hn1 as ->. apply cstring_spec in Hd1 as ->.
  rewrite (bind_lift _ _ _ _ E1), T1. simpl. rewrite !bool_decide_Some.
  destruct (bool_decide (n1 = n)); simpl; [|done]. rewrite (bind_lift _ _ _ _ E2). by rewrite T2.
Qed.

Lemma slot_test_true s n d i :
  slot_test s n d i = true ↔
  ∃ e, zget (files s) i = Some e ∧ e_used e ≠ 0 ∧ cstr (e_name e) n ∧ cstr (e_dir e) d.
Proof.
  unfold slot_test. destruct (zget (files s) i) as [e|]; [|naive_solver].
  rewrite !andb_true_iff, negb_true_iff, Z.eqb_neq, !bool_decide_eq_true, !cstring_spec.
  naive_solver.
Qed.

Lemma find_file_run s m nb n db d :
  fs_rep s m → cstr nb n → cstr db d →
  ∃ r, find_file nb db s = Ret r s ∧
    ((∃ e l, 0 ≤ r < FS_MAX_FILES ∧ zget (files s) r = Some e ∧ live s e n d l ∧
       m !! (d, n) = Some (contents s e l)) ∨
     (r = FS_MAX_FILES ∧ m !! (d, n) = None)).
Proof.
  intros Hrep Hn Hd. eexists. split.
  { apply find_loop_run. intros i Hi%elem_of_seqZ. by apply file_match_run with m. }
  change (Z.to_nat FS_MAX_FILES) with 32%nat.
  destruct (search_range (slot_test s n d) 0 32 FS_MAX_FILES) as [(Hr & Ht & _)|(Hr & Hnone)];
    cbv zeta in *; set (r := search _ _ _) in *; clearbody r.
  - left. apply slot_test_true in Ht as (e & He & Hu & Hne & Hde).
    destruct (rep_slot s m Hrep r e He) as [[? _]|(n1 & d1 & l & Hlv & Hm)]; [done|].
    assert (n1 = n) as -> by (eapply cstr_fun; [apply Hlv|done]).
    assert (d1 = d) as -> by (eapply cstr_fun; [apply Hlv|done]).
    exists e, l. split_and!; try done; unfold FS_MAX_FILES; lia.
  - right. split; [done|]. destruct (m !! (d, n)) as [v|] eqn:Hm; [|done]. exfalso.
    destruct (rep_key s m Hrep d n v Hm) as (i & e & l & He & Hlv).
    assert (Hi : 0 ≤ i < 32) by (apply zget_Some_range in He; by rewrite (sh_files s (rep_shape s m Hrep)) in He).
    assert (slot_test s n d i = true); [|rewrite Hnone in *; done].
    apply slot_test_true. exists e. destruct Hlv. done.
Qed.

Lemma find_free_slot_run s m :
  fs_rep s m →
  ∃ r, find_free_slot s = Ret r s ∧
    ((∃ e, 0 ≤ r < FS_MAX_FILES ∧ zget (files s) r = Some e ∧ dead e) ∨
     (r = FS_MAX_FILES ∧ ∀ i e, zget (files s) i = Some e → e_used e ≠ 0)).
Proof.
  intros Hrep. eexists. split.
  { apply (find_loop_run (λ i, default 1 (e_used <$> zget (files s) i) =? 0)).
    intros i Hi%elem_of_seqZ.
    destruct (file_get s i (rep_shape s m Hrep) Hi) as (e & He & _).
    step (rd_file_run i e s He). by rewrite He. }
  change (Z.to_nat FS_MAX_FILES) with 32%nat.
  edestruct (search_range (λ i, default 1 (e_used <$> zget (files s) i) =? 0) 0 32 FS_MAX_FILES)
    as [(Hr & Ht & _)|(Hr & Hnone)]; cbv zeta in *; set (r := search _ _ _) in *; clearbody r.
  - left. destruct (file_get s r (rep_shape s m Hrep) Hr) as (e & He & _).
    rewrite He in Ht. simpl in Ht. bools. exists e. split_and!; try done; try (unfold FS_MAX_FILES; lia).
    destruct (rep_slot s m Hrep r e He) as [|(n & d & l & Hlv & _)]; [done|].
    by destruct (lv_used _ _ _ _ _ Hlv).
  - right. split; [done|]. intros i e He.
    assert (Hi : 0 ≤ i < 32) by (apply zget_Some_range in He; by rewrite (sh_files s (rep_shape s m Hrep)) in He).
    specialize (Hnone i Hi). rewrite He in Hnone. simpl in Hnone. by bools.
Qed.

(** [fs_dir_empty] answers whether the map has a file in the directory. *)
Lemma dir_empty_run s m db d :
  fs_rep s m → cstr db d →
  ∃ r, fs_dir_empty db s = Ret r s ∧
    ((r = 1 ∧ ∀ n, m !! (d, n) = None) ∨ (r = 0 ∧ ∃ n, is_Some (m !! (d, n)))).
Proof.
  intros Hrep Hd.
  set (p i := match zget (files s) i with
    | Some e => negb (e_used e =? 0) && bool_decide (cstring (e_dir e) = Some d)
    | None => false end).
  assert (Hrun : ∀ i, i ∈ range 0 32 → dir_match db i s = Ret (p i) s).
  { intros i Hi%elem_of_seqZ. destruct (file_get s i (rep_shape s m Hrep) Hi) as (e & He & _).
    unfold p, dir_match. step (rd_file_run i e s He). rewrite He.
    destruct (rep_slot s m Hrep i e He) as [[-> _]|(n1 & d1 & l1 & Hlv & _)]; [done|].
    assert (Hu := lv_used _ _ _ _ _ Hlv). destruct (Z.eqb_spec (e_used e) 0); [done|].
    pose proof (lv_dir _ _ _ _ _ Hlv) as Hd1.
    destruct (kstrcmp_test _ _ _ _ Hd1 Hd) as (r2 & E2 & T2).
    apply cstring_spec in Hd1 as ->. rewrite (bind_lift _ _ _ _ E2). rewrite T2. simpl.
    by rewrite bool_decide_Some. }
  unfold fs_dir_empty. step (find_loop_run p (range 0 32) _ FS_MAX_FILES s Hrun).
  eexists. split; [done|].
  destruct (search_range p 0 32 FS_MAX_FILES) as [(Hr & Ht & _)|(Hr & Hnone)];
    cbv zeta in *; set (r := search _ _ _) in *; clearbody r.
  - destruct (Z.eqb_spec r FS_MAX_FILES); [unfold FS_MAX_FILES in *; lia|].
    right. split; [done|]. unfold p in Ht.
    destruct (zget (files s) r) as [e|] eqn:He; [|done]. bools.
    destruct (rep_slot s m Hrep r e He) as [[? _]|(n1 & d1 & l1 & Hlv & Hm)]; [done|].
    apply bool_decide_eq_true, cstring_spec in H0.
    assert (d1 = d) as -> by (eapply cstr_fun; [apply Hlv|done]). exists n1. by rewrite Hm.
  - rewrite Hr, Z.eqb_refl. left. split; [done|]. intros n.
    destruct (m !! (d, n)) as [v|] eqn:Hm; [|done]. exfalso.
    destruct (rep_key s m Hrep d n v Hm) as (i & e & l & He & Hlv).
    assert (Hi : 0 ≤ i < 32) by (apply zget_Some_range in He; by rewrite (sh_files s (rep_shape s m Hrep)) in He).
    specialize (Hnone i Hi). unfold p in Hnone. rewrite He in Hnone.
    destruct Hlv as [Hu _ Hdd%cstring_spec _ _]. rewrite Hdd in Hnone.
    rewrite bool_decide_true, andb_true_r in Hnone by done. by bools.
Qed.

(** ** Formatting *)

Lemma fat_clear s :
  fs_shape s →
  ∃ f, for_each (range 0 (Z.to_nat FS_N_BLOCKS)) (λ i, wr_fat i FAT_FREE) s = Ret tt (set_fat f s) ∧
    fs_shape (set_fat f s) ∧ ∀ i, 0 ≤ i < 8 → zget f i = Some FAT_FREE.
Proof.
  intros Hs.
  destruct (for_each_range (λ k s', ∃ f, s' = set_fat f s ∧ fs_shape s' ∧
      ∀ i, 0 ≤ i < k → zget f i = Some FAT_FREE) 0 (Z.to_nat FS_N_BLOCKS)
      (λ i, wr_fat i FAT_FREE) s) as (s' & E & f & -> & Hs' & Hf).
  - exists (fat s). split; [by destruct s|]. split; [done|lia].
  - intros i s1 Hi (f & -> & Hs1 & Hf). unfold FS_N_BLOCKS in Hi.
    assert (Hl : zlen f = 8) by apply (sh_fat _ Hs1).
    eexists. split; [apply wr_fat_run; simpl; lia|]. exists (upd f i FAT_FREE).
    split; [done|]. split; [apply (fs_shape_upd_fat i FAT_FREE _ Hs1); unfold FAT_FREE; lia|].
    intros j Hj. rewrite zget_upd by lia. destruct (Z.eqb_spec i j); [done|]. apply Hf. lia.
  - exists f. split; [done|]. split; [done|]. unfold FS_N_BLOCKS in Hf. intros i Hi. apply Hf. lia.
Qed.

Lemma files_clear s :
  fs_shape s →
  ∃ t, for_each (range 0 (Z.to_nat FS_MAX_FILES)) (λ i,
         e ← rd_file i; wr_file i (Entry (e_name e) (e_dir e) FAT_END 0 0)) s
       = Ret tt (set_files t s) ∧
    fs_shape (set_files t s) ∧ ∀ i e, zget t i = Some e → dead e.
Proof.
  intros Hs.
  destruct (for_each_range (λ k s', ∃ t, s' = set_files t s ∧ fs_shape s' ∧
      ∀ i e, i < k → zget t i = Some e → dead e) 0 (Z.to_nat FS_MAX_FILES)
      (λ i, e ← rd_file i; wr_file i (Entry (e_name e) (e_dir e) FAT_END 0 0)) s)
    as (s' & E & t & -> & Hs' & Ht).
  - exists (files s). split; [by destruct s|]. split; [done|].
    intros i e Hi H%zget_Some_range. lia.
  - intros i s1 Hi (t & -> & Hs1 & Ht). unfold FS_MAX_FILES in Hi.
    destruct (file_get _ i Hs1) as (e & He & Hn & Hd & _); [lia|].
    assert (Hl : zlen t = 32) by apply (sh_files _ Hs1).
    eexists. split; [step (rd_file_run _ _ _ He); apply wr_file_run; simpl; lia|].
    exists (upd t i (Entry (e_name e) (e_dir e) FAT_END 0 0)).
    split; [done|]. split; [by apply (fs_shape_upd_file i _ _ Hs1)|].
    intros j ej Hj. rewrite zget_upd by lia. destruct (Z.eqb_spec i j); [by intros [= <-]|].
    apply Ht. lia.
  - exists t. split; [done|]. split; [done|]. unfold FS_MAX_FILES in Ht.
    intros i e He. apply (Ht i e); [|done]. apply zget_Some_range in He.
    assert (Hl : zlen t = 32) by apply (sh_files _ Hs'). lia.
Qed.

(** After [fs_init] there is no file and every block is free. *)
Lemma fs_init_run s :
  fs_shape s →
  ∃ s', fs_init s = Ret tt s' ∧ fs_rep s' ∅ ∧ ∀ i, 0 ≤ i < 8 → zget (fat s') i = Some FAT_FREE.
Proof.
  intros Hs. unfold fs_init.
  destruct (fat_clear s Hs) as (f & E1 & Hs1 & Hf). step E1.
  destruct (files_clear _ Hs1) as (t & E2 & Hs2 & Ht). rewrite E2.
  eexists. split; [done|]. split; [|done].
  assert (Hno : ∀ i e n d l, zget t i = Some e → ¬ live (set_files t (set_fat f s)) e n d l).
  { intros i e n d l He [Hu _ _ _ _]. by destruct (Ht i e He). }
  constructor; [done| | | |].
  - intros i e He. left. by eapply Ht.
  - intros d n v Hv. by rewrite lookup_empty in Hv.
  - intros i j ei ej n d li lj Hi _ Hli. by destruct (Hno _ _ _ _ _ Hi Hli).
  - intros i j ei ej ni di nj dj li lj b Hi _ Hli. by destruct (Hno _ _ _ _ _ Hi Hli).
Qed.
