(* ===== verification/DirTable.v ===== *)
(** * dir.c: paths and the directory table

    The static table of paths, the path arithmetic and the table operations;
    the commands that print and ask are in Dir.v. *)

From S2P Require Import Prelude CString.

Definition DIR_NAME_LEN : Z := 64.
Definition DIR_MAX : Z := 32.

Record dir_state := DIR {
  dirs : list (list Z);     (* char dirs[DIR_MAX][DIR_NAME_LEN] *)
  dir_count : Z;
  cwd_idx : Z
}.

Definition slash : Z := 47.

Definition find_dir (path : list Z) : M dir_state Z :=
  n ← gets dir_count;
  find_loop (range 0 (Z.to_nat n))
    (λ i, s ← get;
          d ← lift_opt (zget (dirs s) i);
          r ← lift_opt (kstrcmp d path);
          mret (r =? 0)) DIR_MAX.

(** [kstrncpy(out + off, src, n)]. *)
Definition kstrncpy_at (out : list Z) (off : Z) (src : list Z) (n : Z) : option (list Z) :=
  r ← kstrncpy (drop (Z.to_nat off) out) src (Z.to_nat n);
  Some (take (Z.to_nat off) out ++ r).

(** The absolute branch of [build_path]. *)
Definition build_abs (out name : list Z) : option (list Z) :=
  out1 ← kstrncpy out name (Z.to_nat DIR_NAME_LEN);
  len ← kstrlen out1;
  if 1 <? len then
    c ← zget out1 (len - 1);
    if c =? slash then zset out1 (len - 1) 0 else Some out1
  else Some out1.

(** The relative branch, with [cwd] the current directory's path. *)
Definition build_rel (cwd out name : list Z) : option (list Z) :=
  out1 ← kstrncpy out cwd (Z.to_nat DIR_NAME_LEN);
  r ← kstrcmp cwd (lit "/");
  out2 ← (if negb (r =? 0) then
            clen ← kstrlen out1;
            if clen <? DIR_NAME_LEN - 2 then
              o ← zset out1 clen slash;
              zset o (clen + 1) 0
            else Some out1
          else Some out1);
  off ← kstrlen out2;
  kstrncpy_at out2 off name (DIR_NAME_LEN - off).

Definition build_path (out name : list Z) : M dir_state (list Z) :=
  c ← lift_opt (ld name);
  if c =? slash then lift_opt (build_abs out name)
  else
    s ← get;
    cwd ← lift_opt (zget (dirs s) (cwd_idx s));
    lift_opt (build_rel cwd out name).

(** [while (len > 0 && out[len-1] != '/') len--]. *)
Fixpoint back_to_slash (out : list Z) (len : nat) : option nat :=
  match len with
  | O => Some O
  | S len' =>
      c ← out !! len';
      if c =? slash then Some len else back_to_slash out len'
  end.

Definition parent_path (out path : list Z) : option (list Z) :=
  r ← kstrcmp path (lit "/");
  if r =? 0 then
    o ← zset out 0 slash; zset o 1 0
  else
    out1 ← kstrncpy out path (Z.to_nat DIR_NAME_LEN);
    len0 ← kstrlen out1;
    len ← back_to_slash out1 (Z.to_nat len0);
    if (len <=? 1)%nat then
      o ← zset out1 0 slash; zset o 1 0
    else zset out1 (Z.of_nat len - 1) 0.

(** [while ( *rest ) { if ( *rest == '/') return 0; rest++; }]. *)
Fixpoint no_slash (rest : list Z) : option bool :=
  c ← ld rest;
  if c =? 0 then Some true
  else if c =? slash then Some false
  else match rest with _ :: rest' => no_slash rest' | [] => None end.

Definition is_immediate_child (child parent : list Z) : option Z :=
  r ← kstrcmp parent (lit "/");
  if r =? 0 then
    c0 ← ld child;
    if negb (c0 =? slash) then Some 0 else
    let rest := drop 1 child in
    c1 ← ld rest;
    if c1 =? 0 then Some 0 else
    b ← no_slash rest;
    Some (if (b : bool) then 1 else 0)
  else
    plen ← kstrlen parent;
    r2 ← kstrncmp child parent (Z.to_nat plen);
    if negb (r2 =? 0) then Some 0 else
    c ← ld (drop (Z.to_nat plen) child);
    if negb (c =? slash) then Some 0 else
    let rest := drop (Z.to_nat (plen + 1)) child in
    b ← no_slash rest;
    if (b : bool) then
      c1 ← ld rest;
      Some (if c1 =? 0 then 0 else 1)
    else Some 0.

Definition dir_init : M dir_state unit :=
  s ← get;
  d0 ← lift_opt (zget (dirs s) 0);
  d1 ← lift_opt (zset d0 0 slash);
  d2 ← lift_opt (zset d1 1 0);
  ds ← lift_opt (zset (dirs s) 0 d2);
  modify (λ _, DIR ds 1 0).

(** The returned pointer: the cells of [dirs[cwd_idx]]. *)
Definition dir_getcwd : M dir_state (list Z) :=
  s ← get; lift_opt (zget (dirs s) (cwd_idx s)).

(** The table update of [dir_mkdir]. *)
Definition dir_add (path : list Z) : M dir_state unit :=
  s ← get;
  d ← lift_opt (zget (dirs s) (dir_count s));
  d' ← lift_opt (kstrncpy d path (Z.to_nat DIR_NAME_LEN));
  ds ← lift_opt (zset (dirs s) (dir_count s) d');
  modify (λ _, DIR ds (dir_count s + 1) (cwd_idx s)).

(** [kstrncpy(dirs[i], dirs[i + 1], DIR_NAME_LEN)]. *)
Definition dir_shift (i : Z) : M dir_state unit :=
  s ← get;
  d ← lift_opt (zget (dirs s) i);
  d1 ← lift_opt (zget (dirs s) (i + 1));
  d' ← lift_opt (kstrncpy d d1 (Z.to_nat DIR_NAME_LEN));
  ds ← lift_opt (zset (dirs s) i d');
  modify (λ _, DIR ds (dir_count s) (cwd_idx s)).

(** The table update of [dir_rmdir]: compaction and the shift of [cwd_idx]. *)
Definition dir_remove (idx : Z) : M dir_state unit :=
  n ← gets dir_count;
  for_each (range idx (Z.to_nat (n - 1 - idx))) dir_shift;;
  s ← get;
  d ← lift_opt (zget (dirs s) (dir_count s - 1));
  d' ← lift_opt (zset d 0 0);
  ds ← lift_opt (zset (dirs s) (dir_count s - 1) d');
  modify (λ _, DIR ds (dir_count s - 1)
                   (if idx <? cwd_idx s then cwd_idx s - 1 else cwd_idx s)).

(** ** Strings in 64-byte arrays *)

(** What [kstrncpy(buf, s, 64)] leaves in [buf]. *)
Definition pad64 (s : list Z) : list Z := take 64 (s ++ replicate 64 0).
#[global] Arguments pad64 : simpl never.

Lemma length_pad64 s : length (pad64 s) = 64%nat.
Proof. unfold pad64. rewrite length_take, length_app, length_replicate. lia. Qed.

Lemma pad64_short s : (length s < 64)%nat → pad64 s = s ++ replicate (64 - length s) 0.
Proof. intros. unfold pad64. rewrite take_app_ge, take_replicate by lia. do 2 f_equal. lia. Qed.

Lemma pad64_long s : (64 ≤ length s)%nat → pad64 s = take 64 s.
Proof. intros. unfold pad64. by rewrite take_app_le by lia. Qed.

Lemma cstr_pad64 s : Forall is_char s → (length s < 64)%nat → cstr (pad64 s) s.
Proof.
  intros HF Hl. rewrite pad64_short by done. split; [done|].
  destruct (64 - length s)%nat as [|k] eqn:E; [lia|]. by exists (replicate k 0).
Qed.

Lemma kstrncpy_pad64 dst src s :
  length dst = 64%nat → cstr src s → kstrncpy dst src 64 = Some (pad64 s).
Proof.
  intros Hd Hs. rewrite (kstrncpy_spec _ _ s) by (done || lia).
  rewrite (drop_ge dst) by lia. rewrite app_nil_r. f_equal. unfold pad64.
  rewrite take_app. f_equal. rewrite take_replicate. f_equal. lia.
Qed.

Lemma kstrncpy_at_pad64 base nb n :
  (length base < 64)%nat → cstr nb n →
  kstrncpy_at (pad64 base) (zlen base) nb (DIR_NAME_LEN - zlen base) = Some (pad64 (base ++ n)).
Proof.
  intros Hb Hn. unfold kstrncpy_at, zlen, DIR_NAME_LEN. rewrite Nat2Z.id.
  rewrite (pad64_short base) by done. rewrite drop_app_length, take_app_length.
  rewrite (kstrncpy_spec _ _ n) by (done || rewrite length_replicate; lia).
  rewrite drop_ge by (rewrite length_replicate; lia). rewrite app_nil_r. simpl. f_equal.
  replace (Z.to_nat (64 - Z.of_nat (length base))) with (64 - length base)%nat by lia.
  unfold pad64. rewrite <-app_assoc, take_app_ge by lia. f_equal.
  rewrite take_app, take_replicate. do 2 f_equal. lia.
Qed.

(** A string that fills its array has no terminator in it. *)
Lemma pad64_overrun s : Forall is_char s → (64 ≤ length s)%nat → Forall is_char (pad64 s).
Proof. intros. rewrite pad64_long by done. by apply Forall_take. Qed.

(** ** Paths *)

Definition root : list Z := [slash].

(** What [build_path] computes of the current directory and a relative name;
    a directory of 62 or 63 characters gets no separator. *)
Definition join (c n : list Z) : list Z :=
  if decide (c = root) then c ++ n
  else if (length c <? 62)%nat then c ++ slash :: n else c ++ n.

(** What it makes of an absolute name. *)
Definition strip (n : list Z) : list Z :=
  match last n with
  | Some x => if (x =? slash) && (1 <? zlen n) then removelast n else n
  | None => n
  end.

Definition resolve (c n : list Z) : list Z :=
  match n with
  | x :: _ => if x =? slash then strip n else join c n
  | [] => join c n
  end.

Lemma cstr_root : cstr (lit "/") root.
Proof. split; [repeat constructor; lia|]. by exists []. Qed.

Lemma zset_pad64 s x :
  (S (length s) < 64)%nat → 
  (o ← zset (pad64 s) (zlen s) x; zset o (zlen s + 1) 0) = Some (pad64 (s ++ [x])).
Proof.
  intros Hl. rewrite zset_upd by (unfold zlen; rewrite length_pad64; lia). simpl.
  rewrite zset_upd by (rewrite zlen_upd; unfold zlen; rewrite length_pad64; lia). f_equal.
  rewrite (pad64_short s), (pad64_short (s ++ [x])) by (rewrite ?length_app; simpl; lia).
  rewrite length_app. simpl. replace (64 - length s)%nat with (S (S (62 - length s))) by lia.
  replace (64 - (length s + 1))%nat with (S (62 - length s)) by lia.
  simpl replicate. rewrite upd_app_mid. rewrite (cons_middle x), app_assoc.
  replace (zlen s + 1) with (zlen (s ++ [x])) by (rewrite zlen_app; done).
  by rewrite upd_app_mid.
Qed.

Lemma build_rel_run cb c out nb n :
  length out = 64%nat → cstr cb c → cstr nb n → (length c < 64)%nat →
  build_rel cb out nb = Some (pad64 (join c n)).
Proof.
  intros Ho Hc Hn Hl. assert (HF := proj1 Hc). unfold build_rel, join, DIR_NAME_LEN.
  change (Z.to_nat 64) with 64%nat.
  rewrite (kstrncpy_pad64 out cb c) by done. simpl.
  destruct (kstrcmp_test _ _ _ _ Hc cstr_root) as (r & -> & Hr). simpl. rewrite Hr.
  assert (Hlen := kstrlen_cstr _ _ (cstr_pad64 c HF Hl)).
  case_bool_decide; destruct decide; try done; cbn [negb].
  { simpl. rewrite Hlen. simpl. by apply kstrncpy_at_pad64. }
  rewrite Hlen. simpl. change (64 - 2) with 62. destruct (Nat.ltb_spec (length c) 62).
  - destruct (Z.ltb_spec (zlen c) 62); [|unfold zlen in *; lia].
    rewrite zset_pad64 by lia. cbn [mbind option_bind].
    assert (HF2 : Forall is_char (c ++ [slash])).
    { apply Forall_app; split; [done|]. repeat constructor; unfold slash; lia. }
    rewrite (kstrlen_cstr _ (c ++ [slash])).
    2:{ apply cstr_pad64; [done|]. rewrite length_app. simpl. lia. }
    simpl. rewrite (kstrncpy_at_pad64 _ _ n); [|rewrite length_app; simpl; lia|done].
    by rewrite <-app_assoc.
  - destruct (Z.ltb_spec (zlen c) 62); [unfold zlen in *; lia|]. simpl. rewrite Hlen. simpl.
    by apply kstrncpy_at_pad64.
Qed.

Lemma build_abs_run out nb n :
  length out = 64%nat → cstr nb n → (length n < 64)%nat →
  ∃ o, build_abs out nb = Some o ∧ length o = 64%nat ∧ cstr o (strip n).
Proof.
  intros Ho Hn Hl. assert (HF := proj1 Hn). unfold build_abs, DIR_NAME_LEN.
  change (Z.to_nat 64) with 64%nat.
  rewrite (kstrncpy_pad64 out nb n) by done. simpl.
  rewrite (kstrlen_cstr _ _ (cstr_pad64 n HF Hl)). simpl. unfold strip.
  destruct (Z.ltb_spec 1 (zlen n)) as [Hg|Hg].
  2:{ eexists. split; [done|]. split; [apply length_pad64|].
      destruct (last n); [|by apply cstr_pad64]. rewrite andb_false_r. by apply cstr_pad64. }
  destruct n as [|x n' _] using rev_ind; [done|]. clear Hn.
  rewrite last_snoc, removelast_last.
  rewrite length_app in Hl. simpl in Hl. apply Forall_app in HF as [HF Hx].
  assert (E : pad64 (n' ++ [x]) = n' ++ x :: replicate (64 - length (n' ++ [x])) 0).
  { rewrite pad64_short by (rewrite length_app; simpl; lia). by rewrite <-app_assoc. }
  rewrite E. rewrite zlen_app. replace (zlen n' + zlen [x] - 1) with (zlen n') by (unfold zlen; simpl; lia).
  rewrite zget_app_mid. simpl. destruct (Z.eqb_spec x slash) as [->|Hne]; simpl.
  - rewrite zset_upd by (rewrite zlen_app, zlen_cons; pose proof (zlen_nonneg n');
      unfold zlen; lia). rewrite upd_app_mid.
    eexists. split; [done|]. split; [|by apply cstr_app0].
    rewrite !length_app. simpl. rewrite length_replicate. lia.
  - eexists. split; [done|]. rewrite <-E. split; [apply length_pad64|].
    apply cstr_pad64; [by apply Forall_app|]. rewrite length_app. simpl. lia.
Qed.

(** An absolute name of 64 characters or more is measured past the array. *)
Lemma build_abs_overrun out nb n :
  length out = 64%nat → cstr nb n → (64 ≤ length n)%nat → build_abs out nb = None.
Proof.
  intros Ho Hn Hl. unfold build_abs, DIR_NAME_LEN.
  change (Z.to_nat 64) with 64%nat.
  rewrite (kstrncpy_pad64 out nb n) by done. simpl.
  by rewrite (kstrlen_overrun _ (pad64_overrun n (proj1 Hn) Hl)).
Qed.

(** The path of the entry [n] of the directory [p]. *)
Definition child (p n : list Z) : list Z := (if decide (p = root) then [] else p) ++ slash :: n.

Lemma join_child c n : (length c < 62)%nat → join c n = child c n.
Proof.
  intros Hl. unfold join, child. destruct decide as [->|]; [done|].
  by destruct (Nat.ltb_spec (length c) 62); [|lia].
Qed.

(** The loop stops behind the last slash of the string. *)
Lemma back_to_slash_run pre n rest :
  slash ∉ n →
  back_to_slash (pre ++ slash :: n ++ rest) (length pre + 1 + length n) = Some (length pre + 1)%nat.
Proof.
  revert rest. induction n as [|x n IH] using rev_ind; intros rest Hn.
  - rewrite Nat.add_0_r, Nat.add_1_r. cbn [back_to_slash].
    by rewrite list_lookup_middle.
  - rewrite length_app. simpl length.
    replace (length pre + 1 + (length n + 1))%nat with (S (length pre + 1 + length n)) by lia.
    cbn [back_to_slash]. rewrite <-app_assoc.
    replace (pre ++ slash :: n ++ [x] ++ rest) with ((pre ++ slash :: n) ++ x :: rest)
      by by rewrite <-app_assoc.
    rewrite list_lookup_middle by (rewrite length_app; simpl; lia). cbn [mbind option_bind].
    destruct (Z.eqb_spec x slash) as [->|]; [set_solver|].
    rewrite <-app_assoc. apply (IH (x :: rest)). set_solver.
Qed.

Definition parent (pre : list Z) : list Z := if decide (pre = []) then root else pre.

(** "/home" -> "/", "/" -> "/". *)
Lemma parent_path_run out pb pre n :
  length out = 64%nat → cstr pb (pre ++ slash :: n) → slash ∉ n →
  (length (pre ++ slash :: n) < 64)%nat →
  ∃ o, parent_path out pb = Some o ∧ cstr o (parent pre) ∧ length o = 64%nat.
Proof.
  intros Ho Hp Hn Hl. assert (HF := proj1 Hp). unfold parent_path, DIR_NAME_LEN, parent.
  change (Z.to_nat 64) with 64%nat.
  destruct (kstrcmp_test _ _ _ _ Hp cstr_root) as (r & -> & Hr). simpl. rewrite Hr.
  assert (Hset : ∀ b : list Z, length b = 64%nat →
    ∃ o, (o ← zset b 0 slash; zset o 1 0) = Some o ∧ cstr o root ∧ length o = 64%nat).
  { intros b Hb. rewrite zset_upd by (unfold zlen; lia). simpl.
    rewrite zset_upd by (rewrite zlen_upd; unfold zlen; lia). eexists. split; [done|].
    destruct b as [|x [|y b]]; try done. split; [|done]. split; [repeat constructor; lia|].
    by exists b. }
  case_bool_decide as E.
  { destruct (Hset out Ho) as (o & -> & ?). exists o. split; [done|].
    apply (f_equal length) in E. rewrite length_app in E. simpl in E.
    destruct pre; simpl in *; [|lia]. done. }
  rewrite (kstrncpy_pad64 out pb (pre ++ slash :: n)) by done. cbn [mbind option_bind].
  rewrite (kstrlen_cstr _ _ (cstr_pad64 _ HF Hl)). cbn [mbind option_bind].
  unfold zlen at 1. rewrite Nat2Z.id, (pad64_short (pre ++ slash :: n)) by done.
  rewrite length_app in *. simpl length in *.
  replace (length pre + S (length n))%nat with (length pre + 1 + length n)%nat by lia.
  rewrite <-app_assoc. simpl app. rewrite back_to_slash_run by done. cbn [mbind option_bind].
  destruct (Nat.leb_spec (length pre + 1) 1).
  - destruct pre; simpl in *; [|lia].
    destruct (Hset (slash :: n ++ replicate (64 - S (length n)) 0)) as (o & E2 & ?).
    { simpl. rewrite length_app, length_replicate. lia. }
    exists o. split; [|done]. exact E2.
  - destruct decide as [->|]; [simpl in *; lia|].
    replace (Z.of_nat (length pre + 1) - 1) with (zlen pre) by (unfold zlen; lia).
    rewrite zset_upd by (rewrite zlen_app, zlen_cons; unfold zlen; lia).
    rewrite upd_app_mid. eexists. split; [done|]. split.
    + apply cstr_app0. by apply Forall_app in HF as [??].
    + rewrite !length_app. simpl. rewrite length_app, length_replicate. lia.
Qed.

Lemma no_slash_run buf s : cstr buf s → no_slash buf = Some (bool_decide (slash ∉ s)).
Proof.
  intros H. cstr_induction H.
  - intros rest. by rewrite bool_decide_true by apply not_elem_of_nil.
  - intros c buf s Hc _ IH. simpl. destruct (Z.ltb_spec c 0); [unfold is_char in *; lia|]. simpl.
    destruct (Z.eqb_spec c 0); [unfold is_char in *; lia|].
    destruct (Z.eqb_spec c slash) as [->|].
    + by rewrite bool_decide_false by set_solver.
    + rewrite IH. f_equal. apply bool_decide_ext. set_solver.
Qed.

Lemma cstr_drop buf s n : cstr buf s → (n ≤ length s)%nat → cstr (drop n buf) (drop n s).
Proof.
  intros [HF [rest ->]] Hn. split; [by apply Forall_drop|]. exists rest.
  by rewrite drop_app_le by lia.
Qed.

Lemma cstr_ld buf s : cstr buf s → ld buf = Some (hd 0 s).
Proof.
  intros [(rest & -> & ->)|(c & buf' & s' & -> & -> & Hc & _)]%cstr_inv; [done|].
  simpl. unfold is_char in *. destruct (Z.ltb_spec c 0); [lia|done].
Qed.

Lemma hd_zero s : Forall is_char s → hd 0 s = 0 ↔ s = [].
Proof. destruct 1; simpl; [done|]. unfold is_char in *. split; [lia|done]. Qed.

(** A non-empty name without slashes. *)
Definition simple_name (n : list Z) : Prop := n ≠ [] ∧ slash ∉ n.

(** The verdict [r] on whether [Q] holds. *)
Definition verdict (r : Z) (Q : Prop) : Prop := (r = 0 ∨ r = 1) ∧ (r = 1 ↔ Q).

Lemma verdict_0 (Q : Prop) : ¬ Q → verdict 0 Q.
Proof. intros. split; [by left|]. by split. Qed.

Lemma verdict_1 (Q : Prop) : Q → verdict 1 Q.
Proof. intros. split; [by right|]. by split. Qed.

Lemma child_of_root cb c :
  cstr cb c →
  ∃ r, is_immediate_child cb (lit "/") = Some r ∧ verdict r (∃ n, simple_name n ∧ c = slash :: n).
Proof.
  intros Hc. unfold is_immediate_child. simpl. rewrite (cstr_ld _ _ Hc). simpl.
  destruct c as [|x c]; simpl.
  { exists 0. split; [done|]. apply verdict_0. intros (m & _ & [=]). }
  destruct (Z.eqb_spec x slash) as [->|]; simpl.
  2:{ exists 0. split; [done|]. apply verdict_0. intros (m & _ & [=]). done. }
  assert (Hc1 : cstr (drop 1 cb) c) by (apply (cstr_drop _ _ 1 Hc); simpl; lia).
  rewrite (cstr_ld _ _ Hc1), (no_slash_run _ _ Hc1). simpl.
  pose proof (hd_zero c (proj1 Hc1)) as Hz.
  destruct (Z.eqb_spec (hd 0 c) 0) as [E0|E0].
  - exists 0. split; [done|]. apply verdict_0. intros (m & [Hn _] & [= ->]). tauto.
  - eexists. split; [done|]. case_bool_decide.
    + apply verdict_1. exists c. split; [|done]. split; [tauto|done].
    + apply verdict_0. intros (m & [_ Hn] & [= ->]). done.
Qed.

Lemma child_of_subdir cb c pb p :
  cstr cb c → cstr pb p → p ≠ root →
  ∃ r, is_immediate_child cb pb = Some r ∧
    verdict r (∃ n, simple_name n ∧ c = p ++ slash :: n).
Proof.
  intros Hc Hp Hne. unfold is_immediate_child.
  destruct (kstrcmp_test _ _ _ _ Hp cstr_root) as (r & -> & Hr). simpl. rewrite Hr. clear r Hr.
  rewrite bool_decide_false, (kstrlen_cstr _ _ Hp) by done. cbn [mbind option_bind]. unfold zlen.
  rewrite Nat2Z.id. destruct (kstrncmp_prefix _ _ _ _ (length p) Hc Hp) as (r & -> & Hr); [lia|].
  cbn [mbind option_bind]. rewrite (take_ge p) in Hr by lia.
  destruct (Z.eqb_spec r 0) as [E0|E0]; cbn [negb].
  2:{ exists 0. split; [done|]. apply verdict_0. intros (m & _ & ->).
      apply E0, Hr. apply take_app_length. }
  apply Hr in E0. clear r Hr.
  assert (Hlen : (length p ≤ length c)%nat) by (rewrite <-E0, length_take; lia).
  rewrite <-(take_drop (length p) c), E0.
  pose proof (cstr_drop _ _ _ Hc Hlen) as Hc'. destruct (drop (length p) c) as [|x c'];
    rewrite (cstr_ld _ _ Hc'); cbn [mbind option_bind hd].
  { exists 0. split; [done|]. apply verdict_0. intros (m & _ & Em%app_inv_head). done. }
  destruct (Z.eqb_spec x slash) as [->|]; cbn [negb].
  2:{ exists 0. split; [done|]. apply verdict_0. intros (m & _ & Em%app_inv_head). by simplify_eq. }
  replace (Z.to_nat (Z.of_nat (length p) + 1)) with (length p + 1)%nat by lia.
  rewrite <-drop_drop.
  assert (Hc1 : cstr (drop 1 (drop (length p) cb)) c') by (apply (cstr_drop _ _ 1 Hc'); simpl; lia).
  rewrite (no_slash_run _ _ Hc1), (cstr_ld _ _ Hc1). cbn [mbind option_bind].
  pose proof (hd_zero c' (proj1 Hc1)) as Hz. case_bool_decide as Hs.
  - eexists. split; [done|]. destruct (Z.eqb_spec (hd 0 c') 0).
    + apply verdict_0. intros (m & [Hm _] & Em%app_inv_head). simplify_eq. tauto.
    + apply verdict_1. exists c'. split; [|done]. split; [tauto|done].
  - eexists. split; [done|]. apply verdict_0. intros (m & [_ Hm] & Em%app_inv_head). by simplify_eq.
Qed.

(** [is_immediate_child] decides the relation its comment describes. *)
Lemma immediate_child_run cb c pb p :
  cstr cb c → cstr pb p →
  ∃ r, is_immediate_child cb pb = Some r ∧ verdict r (∃ n, simple_name n ∧ c = child p n).
Proof.
  intros Hc Hp. unfold child. destruct decide as [->|]; [|by apply child_of_subdir].
  destruct (child_of_root cb c Hc) as (r & E & ?). exists r. split; [|done].
  rewrite <-E. unfold is_immediate_child.
  destruct (kstrcmp_test _ _ _ _ Hp cstr_root) as (x & -> & Hx).
  destruct (kstrcmp_test _ _ _ _ cstr_root cstr_root) as (y & -> & Hy). simpl.
  by rewrite Hx, Hy.
Qed.

(** ** The table *)

Definition valid_path (p : list Z) : Prop :=
  Forall is_char p ∧ (length p < 64)%nat ∧ head p = Some slash.

(** [D] holds the paths [ps], the root first. *)
Record dir_rep (D : dir_state) (ps : list (list Z)) : Prop := {
  dr_size : zlen (dirs D) = DIR_MAX;
  dr_rows : Forall (λ r, length r = 64%nat) (dirs D);
  dr_count : dir_count D = zlen ps;
  dr_max : zlen ps ≤ DIR_MAX;
  dr_row : ∀ i p, zget ps i = Some p → ∃ r, zget (dirs D) i = Some r ∧ cstr r p;
  dr_valid : Forall valid_path ps;
  dr_root : head ps = Some root;
  dr_nodup : NoDup ps;
  dr_cwd : 0 ≤ cwd_idx D < zlen ps
}.

Definition cwd_of (D : dir_state) (ps : list (list Z)) : list Z := default [] (zget ps (cwd_idx D)).

Lemma valid_root : valid_path root.
Proof. split_and!; [repeat constructor; unfold slash; lia|simpl; lia|done]. Qed.

Lemma dir_init_run D :
  zlen (dirs D) = DIR_MAX → Forall (λ r, length r = 64%nat) (dirs D) →
  ∃ D', dir_init D = Ret tt D' ∧ dir_rep D' [root] ∧ cwd_of D' [root] = root.
Proof.
  intros Hs Hr. unfold dir_init. steps. unfold DIR_MAX in *.
  destruct (zget_in (dirs D) 0) as (d & Hd); [lia|]. rewrite (bind_lift _ _ _ _ Hd).
  assert (Hl := Forall_zget _ _ _ _ Hr Hd). simpl in Hl.
  destruct d as [|x [|y d]]; try done.
  rewrite !bind_zset by (rewrite ?zlen_upd, ?zlen_cons; pose proof (zlen_nonneg d); lia).
  eexists. split; [done|]. split; [|done]. constructor; simpl.
  - by rewrite zlen_upd.
  - by apply Forall_upd.
  - done.
  - unfold zlen, DIR_MAX; simpl; lia.
  - intros i p Hp. assert (i = 0) as ->.
    { apply zget_Some_range in Hp. unfold zlen in Hp. simpl in Hp. lia. }
    injection Hp as <-. eexists. split; [apply zget_upd_eq; lia|].
    apply (cstr_app0 root). apply valid_root.
  - repeat constructor; apply valid_root || (unfold slash; lia).
  - done.
  - apply NoDup_singleton.
  - unfold zlen; simpl; lia.
Qed.

Lemma dr_path D ps i p : dir_rep D ps → zget ps i = Some p → valid_path p.
Proof. intros HD. apply Forall_zget, HD. Qed.

Lemma cwd_row D ps :
  dir_rep D ps → zget ps (cwd_idx D) = Some (cwd_of D ps) ∧
  ∃ r, zget (dirs D) (cwd_idx D) = Some r ∧ cstr r (cwd_of D ps).
Proof.
  intros HD. destruct (zget_in ps (cwd_idx D)) as (p & Hp); [apply HD|].
  unfold cwd_of. rewrite Hp. split; [done|]. by apply (dr_row _ _ HD).
Qed.

Lemma getcwd_run D ps :
  dir_rep D ps → ∃ r, dir_getcwd D = Ret r D ∧ cstr r (cwd_of D ps).
Proof.
  intros HD. destruct (cwd_row D ps HD) as (_ & r & Hr & ?). exists r. split; [|done].
  unfold dir_getcwd. steps. by apply lift_opt_some.
Qed.

(** The result of a search of the table for [p]. *)
Definition found (ps : list (list Z)) (p : list Z) (r : Z) : Prop :=
  (0 ≤ r < DIR_MAX ∧ zget ps r = Some p) ∨ (r = DIR_MAX ∧ p ∉ ps).

Lemma find_dir_gen D ps pb (test : list Z → bool) :
  dir_rep D ps →
  (∀ r q, cstr r q → q ∈ ps → ∃ x, kstrcmp r pb = Some x ∧ (x =? 0) = test q) →
  find_dir pb D = Ret (search (λ i, from_option test false (zget ps i))
                         (range 0 (length ps)) DIR_MAX) D.
Proof.
  intros HD Ht. unfold find_dir. steps. rewrite (dr_count _ _ HD). unfold zlen. rewrite Nat2Z.id.
  apply (find_loop_run (λ i, from_option test false (zget ps i))).
  intros i Hi%elem_of_seqZ. steps.
  destruct (zget_in ps i) as (q & Hq); [unfold zlen; lia|].
  destruct (dr_row _ _ HD i q Hq) as (r & Hr & Hc). rewrite (bind_lift _ _ _ _ Hr).
  destruct (Ht r q Hc (zget_elem_of _ _ _ Hq)) as (x & Ex & Hx).
  rewrite (bind_lift _ _ _ _ Ex). rewrite Hq, Hx. done.
Qed.

Lemma find_dir_run D ps pb p :
  dir_rep D ps → cstr pb p → ∃ r, find_dir pb D = Ret r D ∧ found ps p r.
Proof.
  intros HD Hp. eexists. split.
  { apply (find_dir_gen _ _ _ (λ q, bool_decide (q = p)) HD). intros. by apply kstrcmp_test. }
  pose proof (dr_max _ _ HD).
  destruct (search_range (λ i, from_option (λ q, bool_decide (q = p)) false (zget ps i))
    0 (length ps) DIR_MAX) as [(Hr & Ht & _)|[-> Ht]].
  - left. split; [unfold zlen in *; lia|].
    destruct (zget ps _); [|done]. simpl in Ht. apply bool_decide_eq_true in Ht. by subst.
  - right. split; [done|]. intros [i Hi]%list_elem_of_lookup.
    specialize (Ht (Z.of_nat i)). rewrite zget_nat, Hi in Ht. simpl in Ht.
    rewrite bool_decide_true in Ht by done. apply lookup_lt_Some in Hi.
    discriminate Ht. lia.
Qed.

(** A path that fills its array matches no directory. *)
Lemma kstrcmp_longer r q b :
  cstr r q → Forall is_char b → (length q < length b)%nat →
  ∃ x, kstrcmp r b = Some x ∧ (x =? 0) = false.
Proof.
  intros H. revert b. cstr_induction H.
  - intros rest [|y b] Hb Hl; simpl in Hl; [lia|]. inversion Hb; subst.
    simpl. unfold is_char in *. destruct (Z.ltb_spec y 0); [lia|]. simpl.
    eexists. split; [done|]. apply Z.eqb_neq. lia.
  - intros c buf s Hc Hbuf IH [|y b] Hb Hl; simpl in Hl; [lia|]. inversion Hb; subst.
    simpl. unfold is_char in *. destruct (Z.ltb_spec y 0), (Z.ltb_spec c 0); try lia. simpl.
    destruct (Z.eqb_spec c 0); [lia|]. simpl. destruct (Z.eqb_spec c y).
    + apply IH; [done|lia].
    + eexists. split; [done|]. apply Z.eqb_neq. lia.
Qed.

Lemma find_dir_overlong D ps b :
  dir_rep D ps → Forall is_char b → (64 ≤ length b)%nat → find_dir b D = Ret DIR_MAX D.
Proof.
  intros HD Hb Hl. rewrite (find_dir_gen _ _ _ (λ _, false) HD).
  - destruct (search_range (λ i, from_option (λ _, false) false (zget ps i)) 0 (length ps) DIR_MAX)
      as [(_ & Ht & _)|[-> _]]; [|done]. by destruct (zget ps _).
  - intros r q Hc Hq. apply (kstrcmp_longer r q b Hc Hb).
    apply (Forall_forall valid_path ps) in Hq; [|apply HD]. destruct Hq as (_ & ? & _). lia.
Qed.

Lemma row_get D ps i :
  dir_rep D ps → 0 ≤ i < DIR_MAX → ∃ r, zget (dirs D) i = Some r ∧ length r = 64%nat.
Proof.
  intros HD Hi. destruct (zget_in (dirs D) i) as (r & Hr); [by rewrite (dr_size _ _ HD)|].
  exists r. split; [done|]. by apply (Forall_zget _ _ _ _ (dr_rows _ _ HD) Hr).
Qed.

Lemma zget_snoc {A} (l : list A) x i y :
  zget (l ++ [x]) i = Some y → (i = zlen l ∧ y = x) ∨ (i < zlen l ∧ zget l i = Some y).
Proof.
  intros H. destruct (decide (i < zlen l)).
  - right. by rewrite zget_app_l in H.
  - left. pose proof (zget_Some_range _ _ _ H) as Hr. rewrite zlen_app in Hr.
    change (zlen [x]) with 1 in Hr. assert (i = zlen l) as -> by lia.
    rewrite zget_app_mid in H. by simplify_eq.
Qed.

Lemma dir_add_run D ps pb p :
  dir_rep D ps → cstr pb p → valid_path p → p ∉ ps → zlen ps < DIR_MAX →
  ∃ D', dir_add pb D = Ret tt D' ∧ dir_rep D' (ps ++ [p]) ∧ cwd_idx D' = cwd_idx D.
Proof.
  intros HD Hp Hv Hn Hm. unfold dir_add. steps. rewrite (dr_count _ _ HD).
  pose proof (zlen_nonneg ps).
  destruct (row_get D ps (zlen ps) HD) as (r & Hr & Hl); [lia|]. rewrite (bind_lift _ _ _ _ Hr).
  rewrite (bind_lift _ _ _ _ (kstrncpy_pad64 r pb p Hl Hp)).
  pose proof (dr_size _ _ HD) as Hsz.
  rewrite bind_zset by lia. eexists. split; [done|]. split; [|done].
  constructor; simpl.
  - by rewrite zlen_upd.
  - apply Forall_upd; [apply HD|apply length_pad64].
  - rewrite zlen_app. done.
  - rewrite zlen_app. change (zlen [p]) with 1. lia.
  - intros i q [[-> ->]|[Hi Hq]]%zget_snoc.
    + eexists. split; [apply zget_upd_eq; lia|]. apply cstr_pad64; apply Hv.
    + rewrite zget_upd_ne by lia. by apply (dr_row _ _ HD).
  - apply Forall_app. split; [apply HD|]. by apply Forall_singleton.
  - pose proof (dr_root _ _ HD). by destruct ps.
  - apply NoDup_app. split_and!; [apply HD| |apply NoDup_singleton]. set_solver.
  - rewrite zlen_app. pose proof (dr_cwd _ _ HD). change (zlen [p]) with 1. lia.
Qed.

(** Rows after the copies of the compaction loop up to [k]. *)
Definition compacting (D : dir_state) (ps : list (list Z)) (idx k : Z) (D' : dir_state) : Prop :=
  zlen (dirs D') = DIR_MAX ∧ Forall (λ r, length r = 64%nat) (dirs D') ∧
  dir_count D' = dir_count D ∧ cwd_idx D' = cwd_idx D ∧
  ∀ j p, 0 ≤ j → zget ps (if (idx <=? j) && (j <? k) then j + 1 else j) = Some p →
    ∃ r, zget (dirs D') j = Some r ∧ cstr r p.

Lemma compact_step D ps idx k D' :
  dir_rep D ps → 0 ≤ idx → idx ≤ k < zlen ps - 1 → compacting D ps idx k D' →
  ∃ D'', dir_shift k D' = Ret tt D'' ∧ compacting D ps idx (k + 1) D''.
Proof.
  intros HD Hi Hk (Hs & HF & Hc & Hw & Hrow). unfold dir_shift. steps.
  pose proof (dr_max _ _ HD).
  destruct (zget_in (dirs D') k) as (d & Hd); [lia|]. rewrite (bind_lift _ _ _ _ Hd).
  destruct (zget_in ps (k + 1)) as (p & Hp); [lia|].
  destruct (Hrow (k + 1) p) as (r & Hr & Hcs); [lia| |].
  { destruct (Z.leb_spec idx (k + 1)), (Z.ltb_spec (k + 1) k); simpl; try lia. done. }
  rewrite (bind_lift _ _ _ _ Hr).
  assert (Hl := Forall_zget _ _ _ _ HF Hd). simpl in Hl.
  rewrite (bind_lift _ _ _ _ (kstrncpy_pad64 d r p Hl Hcs)). rewrite bind_zset by lia.
  eexists. split; [done|]. split_and!; simpl; try done.
  - by rewrite zlen_upd.
  - apply Forall_upd; [done|apply length_pad64].
  - intros j q Hj Hq. rewrite zget_upd by lia. destruct (Z.eqb_spec k j) as [->|].
    + destruct (Z.leb_spec idx j), (Z.ltb_spec j (j + 1)); simpl in Hq; try lia.
      rewrite Hp in Hq. simplify_eq. destruct (dr_path _ _ _ _ HD Hp) as (? & ? & _).
      eexists. split; [done|]. by apply cstr_pad64.
    + apply Hrow; [done|]. rewrite <-Hq. do 2 f_equal.
      destruct (Z.ltb_spec j k), (Z.ltb_spec j (k + 1)); try lia; done.
Qed.

Lemma zget_delete {A} (l : list A) (i : nat) j :
  0 ≤ j → zget (delete i l) j = zget l (if Z.of_nat i <=? j then j + 1 else j).
Proof.
  intros Hj. unfold zget. destruct (Z.leb_spec (Z.of_nat i) j);
    destruct (Z.leb_spec 0 j); try lia.
  - destruct (Z.leb_spec 0 (j + 1)); [|lia]. rewrite list_lookup_delete_ge by lia. f_equal. lia.
  - by rewrite list_lookup_delete_lt by lia.
Qed.

Lemma zlen_delete {A} (l : list A) (i : nat) :
  (i < length l)%nat → zlen (delete i l) = zlen l - 1.
Proof.
  intros Hi. unfold zlen. destruct (lookup_lt_is_Some_2 l i Hi) as [x Hx].
  rewrite (length_delete l i) by (by eexists). lia.
Qed.

Lemma dir_remove_run D ps (idx : nat) :
  dir_rep D ps → (0 < idx < length ps)%nat → Z.of_nat idx ≠ cwd_idx D →
  ∃ D', dir_remove (Z.of_nat idx) D = Ret tt D' ∧ dir_rep D' (delete idx ps) ∧
    cwd_of D' (delete idx ps) = cwd_of D ps.
Proof.
  intros HD Hi Hne. unfold dir_remove. steps. rewrite (dr_count _ _ HD).
  pose proof (dr_max _ _ HD) as Hmax. pose proof (dr_cwd _ _ HD) as Hcw.
  destruct (for_each_range (λ k, compacting D ps (Z.of_nat idx) k) (Z.of_nat idx)
    (Z.to_nat (zlen ps - 1 - Z.of_nat idx)) dir_shift D) as (D1 & E1 & Hs & HF & Hc & Hw & Hrow).
  { split_and!; try done; try apply HD. intros j p Hj Hp. apply (dr_row _ _ HD).
    destruct (Z.leb_spec (Z.of_nat idx) j), (Z.ltb_spec j (Z.of_nat idx)); simpl in Hp; try lia; done. }
  { intros k s Hk HI. apply (compact_step D ps _ k s HD); unfold zlen in *; lia || done. }
  step E1. steps. rewrite Hc, (dr_count _ _ HD), Hw.
  destruct (zget_in (dirs D1) (zlen ps - 1)) as (d & Hd); [unfold zlen in *; lia|].
  rewrite (bind_lift _ _ _ _ Hd). assert (Hl := Forall_zget _ _ _ _ HF Hd). simpl in Hl.
  rewrite bind_zset by (unfold zlen; lia).
  rewrite bind_zset by (unfold zlen in *; lia). eexists. split; [done|].
  assert (Hlen : zlen (delete idx ps) = zlen ps - 1) by (apply zlen_delete; lia).
  split; [constructor; simpl|].
  - by rewrite zlen_upd.
  - apply Forall_upd; [done|]. unfold upd. by rewrite length_insert.
  - done.
  - lia.
  - intros j p Hp. pose proof (zget_Some_range _ _ _ Hp) as Hj. rewrite Hlen in Hj.
    rewrite zget_delete in Hp by lia. rewrite zget_upd_ne by lia. apply Hrow; [lia|].
    rewrite <-Hp. do 2 f_equal. unfold zlen in *.
    destruct (Z.ltb_spec j (Z.of_nat idx + Z.of_nat (Z.to_nat (Z.of_nat (length ps) - 1 - Z.of_nat idx))));
      [by rewrite andb_true_r|lia].
  - apply Forall_delete, HD.
  - pose proof (dr_root _ _ HD). destruct ps, idx; try lia; done.
  - eapply sublist_NoDup; [apply HD|apply sublist_delete].
  - rewrite Hlen. unfold zlen in *. destruct (Z.ltb_spec (Z.of_nat idx) (cwd_idx D)); lia.
  - unfold cwd_of. simpl. rewrite zget_delete.
    + do 2 f_equal. destruct (Z.ltb_spec (Z.of_nat idx) (cwd_idx D)) as [|];
        [destruct (Z.leb_spec (Z.of_nat idx) (cwd_idx D - 1)); lia|].
      destruct (Z.leb_spec (Z.of_nat idx) (cwd_idx D)); lia.
    + destruct (Z.ltb_spec (Z.of_nat idx) (cwd_idx D)); lia.
Qed.

(** The names [build_path] turns into a terminated path. *)
Definition path_fits (c n : list Z) : Prop :=
  match n with
  | x :: _ => if x =? slash then (length n < 64)%nat else (length (join c n) < 64)%nat
  | [] => (length c < 63)%nat
  end.

Lemma is_char_slash : is_char slash.
Proof. unfold is_char, slash. lia. Qed.

Lemma join_chars c n : Forall is_char c → Forall is_char n → Forall is_char (join c n).
Proof.
  intros. unfold join. destruct decide, (length c <? 62)%nat;
    apply Forall_app; auto using Forall_cons_2, is_char_slash.
Qed.

Lemma build_path_run D ps out nb n :
  dir_rep D ps → cstr nb n → length out = 64%nat → n ≠ [] → path_fits (cwd_of D ps) n →
  ∃ o, build_path out nb D = Ret o D ∧ length o = 64%nat ∧ cstr o (resolve (cwd_of D ps) n).
Proof.
  intros HD Hn Ho Hne Hfit. unfold build_path. rewrite (bind_lift _ _ _ _ (cstr_ld _ _ Hn)).
  destruct n as [|x n]; [done|]. simpl in *. destruct (Z.eqb_spec x slash).
  - destruct (build_abs_run out nb (x :: n) Ho Hn Hfit) as (o & E & ?).
    exists o. split; [|done]. by apply lift_opt_some.
  - steps. destruct (cwd_row D ps HD) as (Hp & r & Hr & Hc). rewrite (bind_lift _ _ _ _ Hr).
    destruct (dr_path _ _ _ _ HD Hp) as (HF & Hl & _).
    eexists. split; [by apply lift_opt_some, build_rel_run|]. split; [apply length_pad64|].
    apply cstr_pad64; [|done]. apply join_chars; [done|apply Hn].
Qed.

Lemma length_strip n : (length (strip n) ≤ length n)%nat.
Proof.
  unfold strip. destruct (last n); [|lia]. destruct (_ && _); [|lia].
  destruct n as [|x n _] using rev_ind; [done|]. rewrite removelast_last, length_app. lia.
Qed.

Lemma resolve_valid c n :
  valid_path c → Forall is_char n → n ≠ [] → path_fits c n → valid_path (resolve c n).
Proof.
  intros (Hc & Hl & Hs) Hn Hne Hfit. destruct n as [|x n]; [done|]. simpl in *.
  destruct (Z.eqb_spec x slash) as [->|].
  - split_and!.
    + unfold strip. destruct (last _); [|done]. destruct (_ && _); [|done].
      destruct (slash :: n) as [|y l _] using rev_ind; [done|].
      rewrite removelast_last. by apply Forall_app in Hn as [??].
    + pose proof (length_strip (slash :: n)). simpl in *. lia.
    + unfold strip. destruct (last _); [|done]. destruct (_ && _) eqn:E; [|done].
      destruct n; [by destruct (z =? slash)|done].
  - split_and!; [by apply join_chars|done|].
    unfold join. destruct c as [|y c]; [done|]. by destruct decide, (length (y :: c) <? 62)%nat.
Qed.
