(* ===== verification/LineInput.v ===== *)
(** * Line input: the readline routines of fs.c, dir.c and shell.c, trim_line,
      and the text-entry loop of fs_write and fs_edit

    The reference for a line is [edit_line], a line editor on the stream of
    typed characters; the routines compute it in their buffers. *)

From S2P Require Import Prelude CString Vga Console Keyboard Io IoSpec Fat.

Section input.
Context `{B : Bus}.

(** Every turn reads a character, and there are at most this many to come. *)
Definition input_fuel (i : io) : nat := S (kbd_count (io_kbd i) + length (io_env i)).

Definition read_step (accept : Z → bool) (len : Z) : list Z * Z → M io (list Z * Z + list Z * Z) :=
  λ '(buf, n),
    c ← kbd_getchar;
    if c =? 10 then
      buf' ← lift_opt (zset buf n 0);
      con (vga_putchar 10);;
      mret (inr (buf', n))
    else if c =? 8 then
      if 0 <? n then con (vga_putchar 8);; mret (inl (buf, n - 1))
      else mret (inl (buf, n))
    else if accept c && (n <? len - 1) then
      buf' ← lift_opt (zset buf n c);
      con (vga_putchar c);;
      mret (inl (buf', n + 1))
    else mret (inl (buf, n)).

Definition read_with (accept : Z → bool) (buf : list Z) (len : Z) : M io (list Z * Z) :=
  f ← gets input_fuel;
  loop f (read_step accept len) (buf, 0).

(** [readline] of fs.c and dir.c: any character is stored. *)
Definition readline (buf : list Z) (len : Z) : M io (list Z * Z) :=
  read_with (λ _, true) buf len.

(** [readline] of shell.c: only printable ones are. *)
Definition printable (c : Z) : bool := (0x20 <=? schar c) && (schar c <=? 0x7E).
Definition shell_readline (buf : list Z) (len : Z) : M io (list Z * Z) :=
  read_with printable buf len.
End input.

Definition is_ws (c : Z) : bool := (c =? 32) || (c =? 9) || (c =? 13) || (c =? 10).

(** The loop of [trim_line], with [i + 1] as its variable. *)
Fixpoint trim_from (s : list Z) (i : nat) : option (list Z) :=
  match i with
  | O => Some s
  | S i' =>
      c ← s !! i';
      if is_ws c then trim_from (<[i' := 0]> s) i' else Some s
  end.

Definition trim_line (s : list Z) : option (list Z) :=
  len ← kstrlen s;
  trim_from s (Z.to_nat len).

Section collect.
Context `{B : Bus}.

(** One line of the text-entry loops; [line], [tmp] and [total] are the
    locals of fs_write and fs_edit. *)
Definition collect_step : list Z * list Z * Z → M io (list Z * list Z * Z + list Z * Z) :=
  λ '(line, tmp, total),
    con (vga_write (lit "  > "));;
    '(line1, _) ← readline line 256;
    line2 ← lift_opt (trim_line line1);
    r ← lift_opt (kstrcmp line2 (lit "."));
    if r =? 0 then mret (inr (tmp, total)) else
    line_len ← lift_opt (kstrlen line2);
    if total + line_len + 1 <=? TMP_SIZE then
      tmp1 ← lift_opt (kmemcpy_at tmp total line2 line_len);
      tmp2 ← lift_opt (zset tmp1 (total + line_len) 10);
      mret (inl (line2, tmp2, total + line_len + 1))
    else mret (inl (line2, tmp, total)).

Definition collect (tmp : list Z) (total : Z) : M io (list Z * Z) :=
  f ← gets input_fuel;
  loop f collect_step (uninit 256, tmp, total).
End collect.

(** ** The line editor *)

Section editor.
Context (accept : Z → bool) (len : Z).

(** The line and the characters left after Enter; [None]: no Enter yet. *)
Fixpoint edit_line (acc inp : list Z) : option (list Z * list Z) :=
  match inp with
  | [] => None
  | c :: inp' =>
      if c =? 10 then Some (acc, inp')
      else if c =? 8 then edit_line (removelast acc) inp'
      else if accept c && (zlen acc <? len - 1) then edit_line (acc ++ [c]) inp'
      else edit_line acc inp'
  end.

(** What appears on the screen meanwhile. *)
Fixpoint edit_echo (acc inp : list Z) : list Z :=
  match inp with
  | [] => []
  | c :: inp' =>
      if c =? 10 then [10]
      else if c =? 8 then
        if bool_decide (acc = []) then edit_echo acc inp' else 8 :: edit_echo (removelast acc) inp'
      else if accept c && (zlen acc <? len - 1) then c :: edit_echo (acc ++ [c]) inp'
      else edit_echo acc inp'
  end.

Lemma edit_line_rest acc inp line rest :
  edit_line acc inp = Some (line, rest) → (length rest < length inp)%nat ∧ suffix rest inp.
Proof.
  revert acc. induction inp as [|c inp IH]; intros acc; simpl; [done|].
  assert (Hs : suffix rest inp → suffix rest (c :: inp)) by apply suffix_cons_r.
  repeat case_match; [intros [= <- <-]; split; [lia|by apply suffix_cons_r]|..];
    intros [? ?]%IH; split; auto; lia.
Qed.

Lemma edit_line_chars acc inp line rest :
  Forall is_char acc → Forall is_char inp → edit_line acc inp = Some (line, rest) →
  Forall is_char line ∧ Forall is_char rest.
Proof.
  intros Ha Hi. revert acc Ha. induction Hi as [|c inp Hc Hi IH]; intros acc Ha; simpl; [done|].
  repeat case_match; [by intros [= <- <-]|apply IH..].
  - destruct acc as [|x acc _] using rev_ind; [done|]. rewrite removelast_last.
    by apply Forall_app in Ha as [??].
  - apply Forall_app. split; [done|by apply Forall_singleton].
  - done.
Qed.

Lemma edit_line_bound acc inp line rest :
  zlen acc ≤ len - 1 → edit_line acc inp = Some (line, rest) → zlen line ≤ len - 1.
Proof.
  revert acc. induction inp as [|c inp IH]; intros acc Ha; simpl; [done|].
  repeat case_match; [intros [= <- <-]; done|apply IH..].
  - destruct acc as [|x acc _] using rev_ind; [done|]. rewrite removelast_last.
    rewrite zlen_app in Ha. pose proof (zlen_nonneg [x]). lia.
  - bools. rewrite zlen_app. change (zlen [c]) with 1. lia.
  - done.
Qed.
End editor.

Section readline.
Context `{B : Bus, L : !PcLaws B} (accept : Z → bool) (len : Z).

Lemma input_fuel_enough i inp : io_rep i inp → (length inp < input_fuel i)%nat.
Proof.
  intros Hi. rewrite (ir_inp _ _ Hi), length_app, kbd_queue_length. unfold input_fuel.
  assert (H : ∀ md es, (length (typed md es) ≤ length es)%nat).
  { intros md es. revert md. induction es as [|e es IH]; intros md; simpl; [done|].
    repeat case_match; simpl; specialize (IH (kbd_decode md (ev_data e)).1) as H1;
      specialize (IH md); lia. }
  specialize (H (mods_of (io_kbd i)) (io_env i)). lia.
Qed.

(** The text that a sequence of echoed characters adds to the screen. *)
Lemma putchar_emits c i inp :
  io_rep i inp → ∃ i', con (vga_putchar c) i = Ret tt i' ∧ emits i [CText [c]] i' inp.
Proof. intros. apply con_emits; [apply _|done]. Qed.

Lemma emits_text i s1 i1 inp1 s2 i2 inp2 :
  emits i [CText s1] i1 inp1 → emits i1 [CText s2] i2 inp2 → emits i [CText (s1 ++ s2)] i2 inp2.
Proof.
  intros [_ E1] [H2 E2]. split; [done|]. rewrite E2, E1. simpl. symmetry. apply term_puts_app.
Qed.

Lemma emits_same i i1 tr i2 inp2 :
  io_vga i1 = io_vga i → emits i1 tr i2 inp2 → emits i tr i2 inp2.
Proof. intros E [H E2]. split; [done|]. by rewrite E2, E. Qed.

(** The outcome of a read from the state [i]: the edited line, or waiting. *)
Definition read_result (acc inp : list Z) (i : io) (o : outcome io (list Z * Z)) : Prop :=
  match edit_line accept len acc inp with
  | Some (line, rest) =>
      ∃ tail i', o = Ret (line ++ 0 :: tail, zlen line) i' ∧
        zlen line + 1 + zlen tail = len ∧
        emits i [CText (edit_echo accept len acc inp)] i' rest
  | None => ∃ i', o = Blocked i'
  end.

(** One turn of the loop that echoes [e] and goes on with the buffer [acc']. *)
Lemma read_result_step acc c inp acc' e i i1 o :
  edit_line accept len acc (c :: inp) = edit_line accept len acc' inp →
  edit_echo accept len acc (c :: inp) = e ++ edit_echo accept len acc' inp →
  emits i [CText e] i1 inp → read_result acc' inp i1 o → read_result acc (c :: inp) i o.
Proof.
  intros E1 E2 He. unfold read_result. rewrite E1, E2.
  destruct (edit_line accept len acc' inp) as [[line rest]|]; [|done].
  intros (tl & i' & Eo & Hz & He2). exists tl, i'. split; [done|]. split; [done|].
  by eapply emits_text.
Qed.

Lemma getchar_emits i c inp :
  io_rep i (c :: inp) → ∃ i', kbd_getchar i = Ret c i' ∧ io_rep i' inp ∧ emits i [CText []] i' inp.
Proof.
  intros Hi. destruct (getchar_run i c inp Hi) as (i' & E & Hi' & Hv). by exists i'.
Qed.

Lemma read_loop fuel acc tail inp i :
  io_rep i inp → zlen acc ≤ len - 1 → zlen acc + zlen tail = len → (length inp < fuel)%nat →
  read_result acc inp i (loop fuel (read_step accept len) (acc ++ tail, zlen acc) i).
Proof.
  revert fuel acc tail i. induction inp as [|c inp IH]; intros fuel acc tail i Hi Ha Hl Hf;
    (destruct fuel as [|fuel]; [lia|]); rewrite loop_S; unfold read_step at 2;
    rewrite bind_assoc.
  { destruct (getchar_blocked i Hi) as [i' E]. exists i'. by apply bind_blocked. }
  destruct (getchar_emits i c inp Hi) as (i1 & E1 & Hi1 & Hv1). step E1.
  pose proof (zlen_nonneg acc). destruct tail as [|t tail]; [change (zlen (@nil Z)) with 0 in Hl; lia|].
  rewrite zlen_cons in Hl. pose proof (zlen_nonneg tail). simpl in Hf.
  assert (Hin : 0 ≤ zlen acc < zlen (acc ++ t :: tail)) by (rewrite zlen_app, zlen_cons; lia).
  destruct (c =? 10) eqn:E10; [|destruct (c =? 8) eqn:E8;
    [|destruct (accept c && (zlen acc <? len - 1)) eqn:Eok]].
  - rewrite bind_assoc, bind_zset, upd_app_mid, bind_assoc by done.
    destruct (putchar_emits 10 i1 inp Hi1) as (i2 & E2 & He). step E2. steps.
    unfold read_result. simpl. rewrite E10. exists tail, i2. split; [done|]. split; [lia|].
    by eapply (emits_text _ []).
  - destruct acc as [|x acc _] using rev_ind.
    + steps. apply (read_result_step [] c inp [] [] i i1); [simpl; by rewrite E10, E8..|done|].
      apply (IH fuel [] (t :: tail)); rewrite ?zlen_cons; done || lia.
    + rewrite zlen_app in *. change (zlen [x]) with 1 in *. pose proof (zlen_nonneg acc).
      destruct (Z.ltb_spec 0 (zlen acc + 1)); [|lia]. rewrite bind_assoc.
      destruct (putchar_emits 8 i1 inp Hi1) as (i2 & E2 & He). step E2. steps.
      rewrite <-app_assoc. replace (zlen acc + 1 - 1) with (zlen acc) by lia.
      apply (read_result_step (acc ++ [x]) c inp acc [8] i i2).
      * simpl. by rewrite E10, E8, removelast_last.
      * simpl. by rewrite E10, E8, removelast_last, bool_decide_false by by destruct acc.
      * by eapply (emits_text _ []).
      * apply (IH fuel acc (x :: t :: tail)); rewrite ?zlen_cons; try lia. apply He.
  - pose proof (proj1 (andb_true_iff _ _) Eok) as [_ Hok%Z.ltb_lt].
    rewrite bind_assoc, bind_zset, upd_app_mid, bind_assoc by done.
    destruct (putchar_emits c i1 inp Hi1) as (i2 & E2 & He). step E2. steps.
    apply (read_result_step acc c inp (acc ++ [c]) [c] i i2).
    + simpl. by rewrite E10, E8, Eok.
    + simpl. by rewrite E10, E8, Eok.
    + by eapply (emits_text _ []).
    + replace (zlen acc + 1) with (zlen (acc ++ [c])) by (rewrite zlen_app; done).
      replace (acc ++ c :: tail) with ((acc ++ [c]) ++ tail) by by rewrite <-app_assoc.
      apply IH; rewrite ?zlen_app; change (zlen [c]) with 1; try lia. apply He.
  - steps. apply (read_result_step acc c inp acc [] i i1); [simpl; by rewrite E10, E8, Eok..|done|].
    apply (IH fuel acc (t :: tail)); rewrite ?zlen_cons; done || lia.
Qed.
End readline.

(** A read into a buffer of [len] cells. *)
Lemma read_with_run `{B : Bus, L : !PcLaws B} accept len buf i inp :
  io_rep i inp → zlen buf = len → 0 < len →
  match edit_line accept len [] inp with
  | Some (line, rest) =>
      ∃ buf' i', read_with accept buf len i = Ret (buf', zlen line) i' ∧
        cstr buf' line ∧ zlen buf' = len ∧ zlen line < len ∧
        emits i [CText (edit_echo accept len [] inp)] i' rest
  | None => ∃ i', read_with accept buf len i = Blocked i'
  end.
Proof.
  intros Hi Hb Hlen. unfold read_with. steps.
  pose proof (read_loop accept len (input_fuel i) [] buf inp i Hi) as H. unfold read_result in H.
  change (zlen (@nil Z)) with 0 in H. simpl app in H.
  specialize (H ltac:(lia) ltac:(lia) (input_fuel_enough i inp Hi)).
  destruct (edit_line accept len [] inp) as [[line rest]|] eqn:E; [|done].
  destruct H as (tl & i' & Eo & Hz & He). exists (line ++ 0 :: tl), i'.
  pose proof (edit_line_chars accept len [] inp line rest) as [HF _]; [constructor|apply Hi|done|].
  rewrite zlen_app, zlen_cons. pose proof (zlen_nonneg tl).
  split_and!; [exact Eo|by apply cstr_app0|lia|lia|apply He..].
Qed.

(** ** Trimming *)

Fixpoint rtrim (s : list Z) : list Z :=
  match s with
  | [] => []
  | c :: s' => if is_ws c && bool_decide (rtrim s' = []) then [] else c :: rtrim s'
  end.

Lemma rtrim_snoc_ws s c : is_ws c = true → rtrim (s ++ [c]) = rtrim s.
Proof.
  intros Hc. induction s as [|x s IH]; simpl; [by rewrite Hc|]. by rewrite IH.
Qed.

Lemma rtrim_snoc s c : is_ws c = false → rtrim (s ++ [c]) = s ++ [c].
Proof.
  intros Hc. induction s as [|x s IH]; simpl; [by rewrite Hc|].
  rewrite IH, bool_decide_false by by destruct s. by rewrite andb_false_r.
Qed.

Lemma rtrim_prefix s : rtrim s `prefix_of` s.
Proof.
  induction s as [|c s IH]; simpl; [done|]. destruct (_ && _); [apply prefix_nil|].
  by apply prefix_cons.
Qed.

Lemma trim_from_run s rest :
  Forall is_char s →
  ∃ rest', trim_from (s ++ 0 :: rest) (length s) = Some (rtrim s ++ 0 :: rest') ∧
    length (rtrim s ++ 0 :: rest') = length (s ++ 0 :: rest).
Proof.
  revert rest. induction s as [|c s IH] using rev_ind; intros rest HF; [by exists rest|].
  apply Forall_app in HF as [HF _]. rewrite length_app, Nat.add_1_r. cbn [trim_from].
  rewrite <-app_assoc. simpl app. rewrite list_lookup_middle by done. cbn [mbind option_bind].
  destruct (is_ws c) eqn:Ec.
  - rewrite rtrim_snoc_ws by done. rewrite insert_app_r_alt, Nat.sub_diag by lia. simpl.
    destruct (IH (0 :: rest) HF) as (r & E & El). exists r. split; [exact E|].
    rewrite El, !length_app. simpl. lia.
  - rewrite rtrim_snoc by done. exists rest. by rewrite <-app_assoc.
Qed.

Lemma trim_line_run buf s :
  cstr buf s → ∃ buf', trim_line buf = Some buf' ∧ cstr buf' (rtrim s) ∧ length buf' = length buf.
Proof.
  intros Hs. unfold trim_line. rewrite (kstrlen_cstr _ _ Hs). destruct Hs as [HF [rest ->]].
  cbn [mbind option_bind]. unfold zlen. rewrite Nat2Z.id.
  destruct (trim_from_run s rest HF) as (r & E & El). eexists. split; [exact E|]. split; [|done].
  apply cstr_app0. destruct (rtrim_prefix s) as [k Hk]. rewrite Hk in HF.
  by apply Forall_app in HF as [??].
Qed.

(** ** Text entry *)

Definition dot : list Z := [46].

(** Adding one line to the text, which the buffer bounds. *)
Definition add_line (data line : list Z) : list Z :=
  if zlen data + zlen line + 1 <=? TMP_SIZE then data ++ line ++ [10] else data.

(** Lines are added until one that trims to a single dot. *)
Fixpoint enter (fuel : nat) (data inp : list Z) : option (list Z * list Z) :=
  match fuel with
  | O => None
  | S fuel' =>
      '(line, rest) ← edit_line (λ _, true) 256 [] inp;
      if decide (rtrim line = dot) then Some (data, rest)
      else enter fuel' (add_line data (rtrim line)) rest
  end.

Definition text_entry (data inp : list Z) : option (list Z * list Z) :=
  enter (S (length inp)) data inp.

Lemma enter_fuel f1 f2 data inp :
  (length inp < f1)%nat → (length inp < f2)%nat → enter f1 data inp = enter f2 data inp.
Proof.
  revert f2 data inp. induction f1 as [|f1 IH]; intros f2 data inp H1 H2; [lia|].
  destruct f2 as [|f2]; [lia|]. simpl.
  destruct (edit_line (λ _, true) 256 [] inp) as [[line rest]|] eqn:E; simpl; [|done].
  apply edit_line_rest in E as [E _]. destruct decide; [done|]. apply IH; lia.
Qed.

Lemma text_entry_unfold data inp :
  text_entry data inp =
    '(line, rest) ← edit_line (λ _, true) 256 [] inp;
    if decide (rtrim line = dot) then Some (data, rest)
    else text_entry (add_line data (rtrim line)) rest.
Proof.
  unfold text_entry. simpl.
  destruct (edit_line (λ _, true) 256 [] inp) as [[line rest]|] eqn:E; simpl; [|done].
  apply edit_line_rest in E as [E _]. destruct decide; [done|]. apply (enter_fuel _ (S _)); lia.
Qed.

Lemma text_entry_rest data inp data' rest :
  text_entry data inp = Some (data', rest) → (length rest < length inp)%nat.
Proof.
  unfold text_entry. generalize (S (length inp)). intros f. revert data inp.
  induction f as [|f IH]; intros data inp; simpl; [done|].
  destruct (edit_line (λ _, true) 256 [] inp) as [[l r]|] eqn:E; simpl; [|done].
  apply edit_line_rest in E as [E _]. destruct decide; [intros [= <- <-]; lia|].
  intros ?%IH. lia.
Qed.

Lemma text_entry_bound data inp data' rest :
  zlen data ≤ TMP_SIZE → text_entry data inp = Some (data', rest) → zlen data' ≤ TMP_SIZE.
Proof.
  unfold text_entry. generalize (S (length inp)). intros f. revert data inp.
  induction f as [|f IH]; intros data inp Hd; simpl; [done|].
  destruct (edit_line _ _ _ _) as [[line r]|]; simpl; [|done].
  destruct decide; [by intros [= <- <-]|]. apply IH. unfold add_line.
  destruct (Z.leb_spec (zlen data + zlen (rtrim line) + 1) TMP_SIZE); [|done].
  rewrite !zlen_app. change (zlen [10]) with 1. lia.
Qed.

(** [tmp] starts with [data]. *)
Definition holds (tmp data : list Z) : Prop :=
  zlen tmp = TMP_SIZE ∧ ∃ more, tmp = data ++ more.

Lemma holds_add tmp data lb line :
  holds tmp data → cstr lb line → zlen data + zlen line + 1 ≤ TMP_SIZE →
  ∃ tmp1 tmp2, kmemcpy_at tmp (zlen data) lb (zlen line) = Some tmp1 ∧
    zset tmp1 (zlen data + zlen line) 10 = Some tmp2 ∧ holds tmp2 (data ++ line ++ [10]).
Proof.
  intros [Hl [more ->]] [_ [rest ->]] Hfit. rewrite zlen_app in Hl.
  pose proof (zlen_nonneg data). pose proof (zlen_nonneg line).
  rewrite kmemcpy_at_run by (rewrite ?zlen_app; pose proof (zlen_nonneg (0 :: rest)); lia).
  unfold zlen in *. rewrite <-Nat2Z.inj_add, !Nat2Z.id, take_app_length, take_app_length.
  rewrite drop_app_ge by lia. replace (length data + length line - length data)%nat with (length line) by lia.
  destruct (drop (length line) more) as [|y more'] eqn:E.
  { apply (f_equal length) in E. rewrite length_drop in E. simpl in E. lia. }
  pose proof (f_equal length E) as El. rewrite length_drop in El. simpl in El.
  rewrite Nat2Z.inj_add. change (Z.of_nat (length data)) with (zlen data).
  change (Z.of_nat (length line)) with (zlen line). rewrite app_assoc, <-zlen_app.
  eexists _, _. split; [done|]. rewrite zset_upd.
  2:{ rewrite (zlen_app _ (y :: more')), zlen_cons. pose proof (zlen_nonneg (data ++ line)).
      pose proof (zlen_nonneg more'). lia. }
  rewrite upd_app_mid. split; [done|]. split.
  - unfold zlen. rewrite !length_app in *. simpl. lia.
  - exists more'. by rewrite <-!app_assoc.
Qed.

Section collect_proofs.
Context `{B : Bus, L : !PcLaws B}.

Definition collect_result (data inp : list Z) (o : outcome io (list Z * Z)) : Prop :=
  match text_entry data inp with
  | Some (data', rest) =>
      ∃ tmp' i', o = Ret (tmp', zlen data') i' ∧ holds tmp' data' ∧ io_rep i' rest
  | None => ∃ i', o = Blocked i'
  end.

Lemma cstr_dot : cstr (lit ".") dot.
Proof. apply cstr_lit, lit_ok_chars. done. Qed.

Lemma collect_loop fuel data inp line tmp i :
  io_rep i inp → zlen line = 256 → holds tmp data → (length inp < fuel)%nat →
  collect_result data inp (loop fuel collect_step (line, tmp, zlen data) i).
Proof.
  revert data inp line tmp i. induction fuel as [|fuel IH]; intros data inp line tmp i Hi Hl Ht Hf; [lia|].
  rewrite loop_S. unfold collect_step at 2, collect_result. rewrite text_entry_unfold.
  destruct (con_emits (vga_write (lit "  > ")) _ i inp _ Hi) as (i1 & E1 & Hi1 & _).
  rewrite bind_assoc. step E1. rewrite bind_assoc.
  pose proof (read_with_run (λ _, true) 256 line i1 inp Hi1 Hl ltac:(lia)) as Hread.
  destruct (edit_line (λ _, true) 256 [] inp) as [[typ rest]|] eqn:Eedit; simpl.
  2:{ destruct Hread as [i' E]. exists i'. by apply bind_blocked. }
  destruct Hread as (lb & i2 & E2 & Hc & Hlb & _ & Hi2 & _). step E2.
  destruct (trim_line_run lb typ Hc) as (lb2 & E3 & Hc2 & Hlen2).
  rewrite bind_assoc, (bind_lift _ _ _ _ E3).
  destruct (kstrcmp_test _ _ _ _ Hc2 cstr_dot) as (r & E4 & Hr).
  rewrite bind_assoc, (bind_lift _ _ _ _ E4), Hr.
  apply edit_line_rest in Eedit as [Hrest _].
  case_bool_decide; destruct decide; try done; [steps; by exists tmp, i2|].
  rewrite bind_assoc, (bind_lift _ _ _ _ (kstrlen_cstr _ _ Hc2)). unfold add_line.
  assert (Hlb2 : zlen lb2 = 256) by (unfold zlen in *; congruence).
  destruct (Z.leb_spec (zlen data + zlen (rtrim typ) + 1) TMP_SIZE).
  - destruct (holds_add tmp data lb2 (rtrim typ) Ht Hc2) as (t1 & t2 & E5 & E6 & Ht2); [done|].
    rewrite bind_assoc, (bind_lift _ _ _ _ E5), bind_assoc, (bind_lift _ _ _ _ E6). steps.
    replace (zlen data + zlen (rtrim typ) + 1) with (zlen (data ++ rtrim typ ++ [10]))
      by (rewrite !zlen_app; change (zlen [10]) with 1; lia).
    apply IH; [done..|lia].
  - steps. apply IH; [done..|lia].
Qed.

(** The text-entry loop reads exactly the text the stream holds. *)
Lemma collect_run data inp tmp i :
  io_rep i inp → holds tmp data → collect_result data inp (collect tmp (zlen data) i).
Proof.
  intros Hi Ht. unfold collect. steps. apply collect_loop; try done.
  by apply input_fuel_enough.
Qed.
End collect_proofs.
