(* ===== verification/Machine.v ===== *)
(** * The kernel's state as a whole

    The device side, the static data of fs.c and dir.c and the command buffer
    of the shell.  Pointers the kernel passes between its modules are never
    NULL: they are arrays, string literals or positions in the command buffer,
    so a [const char *] argument is the list of cells it points to. *)

From S2P Require Import Prelude CString Vga Console Keyboard Io IoSpec Fat DirTable.

Section machine.
Context `{B : Bus}.

Record machine := Machine {
  m_io : io;
  m_fs : fs_state;
  m_dir : dir_state;
  m_cmd : list Z            (* static char buf[CMD_LEN] of shell_run *)
}.

Definition set_io (x : io) (m : machine) : machine := Machine x (m_fs m) (m_dir m) (m_cmd m).
Definition set_fs (x : fs_state) (m : machine) : machine := Machine (m_io m) x (m_dir m) (m_cmd m).
Definition set_dir (x : dir_state) (m : machine) : machine := Machine (m_io m) (m_fs m) x (m_cmd m).
Definition set_cmd (x : list Z) (m : machine) : machine := Machine (m_io m) (m_fs m) (m_dir m) x.

Definition onio {A} (c : M io A) : M machine A := zoom m_io set_io c.
Definition onfs {A} (c : M fs_state A) : M machine A := zoom m_fs set_fs c.
Definition ondir {A} (c : M dir_state A) : M machine A := zoom m_dir set_dir c.

(** Console output. *)
Definition say (c : M vga_state unit) : M machine unit := onio (con c).

(** The three lines around every error and every success message. *)
Definition complain (c : M vga_state unit) : M machine unit :=
  say (vga_set_color VGA_LIGHT_RED VGA_BLACK;; c;; vga_set_color VGA_WHITE VGA_BLACK).
Definition confirm (c : M vga_state unit) : M machine unit :=
  say (vga_set_color VGA_LIGHT_GREEN VGA_BLACK;; c;; vga_set_color VGA_WHITE VGA_BLACK).
End machine.

Section lemmas.
Context `{B : Bus, L : !PcLaws B}.

Lemma bind_onfs {A C} (c : M fs_state A) (f : A → M machine C) m a s :
  c (m_fs m) = Ret a s → (onfs c ≫= f) m = f a (set_fs s m).
Proof. intros E. apply bind_ret, zoom_ret, E. Qed.

Lemma bind_ondir {A C} (c : M dir_state A) (f : A → M machine C) m a s :
  c (m_dir m) = Ret a s → (ondir c ≫= f) m = f a (set_dir s m).
Proof. intros E. apply bind_ret, zoom_ret, E. Qed.

Lemma bind_onio {A C} (c : M io A) (f : A → M machine C) m a s :
  c (m_io m) = Ret a s → (onio c ≫= f) m = f a (set_io s m).
Proof. intros E. apply bind_ret, zoom_ret, E. Qed.

Lemma onio_blocked {A C} (c : M io A) (f : A → M machine C) m s :
  c (m_io m) = Blocked s → (onio c ≫= f) m = Blocked (set_io s m).
Proof. intros E. apply bind_blocked. unfold onio, zoom. by rewrite E. Qed.

Lemma set_fs_id m : set_fs (m_fs m) m = m.
Proof. by destruct m. Qed.
Lemma set_dir_id m : set_dir (m_dir m) m = m.
Proof. by destruct m. Qed.

(** Console output leaves everything but the screen alone. *)
Lemma say_run c tr m inp :
  Prints c tr → io_rep (m_io m) inp →
  ∃ i, say c m = Ret tt (set_io i m) ∧ emits (m_io m) tr i inp.
Proof.
  intros Hc Hi. destruct (con_emits c tr (m_io m) inp Hc Hi) as (i & E & He).
  exists i. split; [|done]. by apply zoom_ret.
Qed.

Definition red (tr : list citem) : list citem :=
  CColor VGA_LIGHT_RED VGA_BLACK :: tr ++ [CColor VGA_WHITE VGA_BLACK].
Definition green (tr : list citem) : list citem :=
  CColor VGA_LIGHT_GREEN VGA_BLACK :: tr ++ [CColor VGA_WHITE VGA_BLACK].

Lemma complain_run c tr m inp :
  Prints c tr → io_rep (m_io m) inp →
  ∃ i, complain c m = Ret tt (set_io i m) ∧ emits (m_io m) (red tr) i inp.
Proof. intros Hc Hi. by apply say_run; [apply (prints_seq _ _ [_]); apply _|]. Qed.

Lemma confirm_run c tr m inp :
  Prints c tr → io_rep (m_io m) inp →
  ∃ i, confirm c m = Ret tt (set_io i m) ∧ emits (m_io m) (green tr) i inp.
Proof. intros Hc Hi. by apply say_run; [apply (prints_seq _ _ [_]); apply _|]. Qed.

(** Printing, between the steps of a command. *)
Lemma bind_say {A} c tr m inp (f : unit → M machine A) :
  Prints c tr → io_rep (m_io m) inp →
  ∃ i, (say c ≫= f) m = f tt (set_io i m) ∧ io_rep i inp.
Proof.
  intros Hc Hi. destruct (say_run c tr m inp Hc Hi) as (i & E & He & _). exists i.
  split; [|done]. by step E.
Qed.

Lemma bind_complain {A} c tr m inp (f : unit → M machine A) :
  Prints c tr → io_rep (m_io m) inp →
  ∃ i, (complain c ≫= f) m = f tt (set_io i m) ∧ io_rep i inp.
Proof.
  intros Hc Hi. destruct (complain_run c tr m inp Hc Hi) as (i & E & He & _). exists i.
  split; [|done]. by step E.
Qed.
End lemmas.

(** Run the console command in front, with the input [Hi]. *)
Ltac print_cmd Hi i Hi' :=
  let E := fresh "E" in
  match goal with
  | |- context [(say ?c ≫= ?k) ?m] => destruct (bind_say c _ m _ k _ Hi) as (i & E & Hi')
  | |- context [(complain ?c ≫= ?k) ?m] => destruct (bind_complain c _ m _ k _ Hi) as (i & E & Hi')
  end; rewrite E; clear E.

(** A text line. *)
Definition line (s : string) : citem := CText (chars s ++ [10]).
Definition text (s : string) : citem := CText (chars s).
