(* ===== verification/Fs.v ===== *)
(** * fs.c: the file commands

    The handlers fs_write, fs_read, fs_edit, fs_delete, fs_rename, fs_copy and
    fs_list, on top of the storage layer of Fat.v.  The [static tmp[]] arrays
    are fields of the file-system state. *)

From S2P Require Import Prelude CString Vga Console Keyboard Io IoSpec Fat DirTable LineInput Machine.

Section fs.
Context `{B : Bus}.

(** Assignments to fields of [files[idx]]. *)
Definition upd_file (idx : Z) (f : file_entry → option file_entry) : M fs_state unit :=
  e ← rd_file idx;
  e' ← lift_opt (f e);
  wr_file idx e'.

Definition set_first_size (first size : Z) (e : file_entry) : file_entry :=
  Entry (e_name e) (e_dir e) (u16 first) (u32 size) (e_used e).
Definition set_used (u : Z) (e : file_entry) : file_entry :=
  Entry (e_name e) (e_dir e) (e_first e) (e_size e) u.
Definition set_name (name : list Z) (e : file_entry) : option file_entry :=
  n ← kstrncpy (e_name e) name (Z.to_nat FS_NAME_LEN);
  Some (Entry n (e_dir e) (e_first e) (e_size e) (e_used e)).
Definition set_dirname (dir : list Z) (e : file_entry) : option file_entry :=
  d ← kstrncpy (e_dir e) dir (Z.to_nat FS_DIR_LEN);
  Some (Entry (e_name e) d (e_first e) (e_size e) (e_used e)).

(** The first part of [fs_write]: the slot to write to, [None] when the
    directory is full and the function returns. *)
Definition write_slot (name dir : list Z) : M machine (option Z) :=
  idx ← onfs (find_file name dir);
  if idx <? FS_MAX_FILES then
    e ← onfs (rd_file idx);
    onfs (free_chain (e_first e));;
    onfs (upd_file idx (λ e, Some (set_first_size FAT_END 0 e)));;
    mret (Some idx)
  else
    idx2 ← onfs find_free_slot;
    if idx2 =? FS_MAX_FILES then
      complain (vga_writeln (lit "  [fwrite] Error: directory is full (max 32 files)"));;
      mret None
    else
      onfs (upd_file idx2 (set_name name));;
      onfs (upd_file idx2 (set_dirname dir));;
      onfs (upd_file idx2 (λ e, Some (set_used 1 e)));;
      mret (Some idx2).

(** [(total == 0) ? FAT_END : write_to_blocks(tmp, total)]. *)
Definition store (tmp : list Z) (total : Z) : M machine Z :=
  if total =? 0 then mret FAT_END else onfs (write_to_blocks tmp total).

Definition fs_write (name dir : list Z) : M machine unit :=
  nlen ← lift_opt (kstrlen name);
  if nlen =? 0 then complain (vga_writeln (lit "  [fwrite] Error: usage: fwrite <filename>")) else
  slot ← write_slot name dir;
  match slot with
  | None => mret tt
  | Some idx =>
      say (vga_set_color VGA_WHITE VGA_BLACK;;
           vga_writeln (lit "  Enter content. Type a single '.' on a new line to finish:"));;
      tmp0 ← gets (λ m, wtmp (m_fs m));
      '(tmp, total) ← onio (collect tmp0 0);
      onfs (modify (set_wtmp tmp));;
      first ← store tmp total;
      if first =? FS_N_BLOCKS then
        complain (vga_writeln (lit "  [fwrite] Error: disk full -- not enough free blocks"));;
        onfs (upd_file idx (λ e, Some (set_used 0 e)))
      else
        onfs (upd_file idx (λ e, Some (set_first_size first total e)));;
        confirm (vga_write (lit "  [fwrite] '");; vga_write name;;
                 vga_writeln (lit "' written successfully."))
  end.

(** The bytes of one block, each newline followed by the indent. *)
Definition print_block (b : list Z) (chunk : Z) : M vga_state unit :=
  for_each (range 0 (Z.to_nat chunk)) (λ i,
    c ← lift_opt (zget b i);
    vga_putchar c;;
    if c =? 10 then vga_write (lit "  ") else mret tt).

Definition print_step : Z * Z → M machine (Z * Z + unit) :=
  λ '(blk, left_),
    if (blk <? FS_N_BLOCKS) && (0 <? left_) then
      let chunk := if left_ <? FS_BLOCK_SIZE then left_ else FS_BLOCK_SIZE in
      s ← gets m_fs;
      b ← lift_opt (zget (blocks s) blk);
      say (print_block b chunk);;
      next ← onfs (rd_fat blk);
      mret (inl (next, left_ - chunk))
    else mret (inr tt).

Definition fs_read (name dir : list Z) : M machine unit :=
  nlen ← lift_opt (kstrlen name);
  if nlen =? 0 then complain (vga_writeln (lit "  [fread] Error: usage: fread <filename>")) else
  idx ← onfs (find_file name dir);
  if idx =? FS_MAX_FILES then
    complain (vga_write (lit "  [fread] Error: file not found: ");; vga_writeln name)
  else
    say (vga_set_color VGA_LIGHT_CYAN VGA_BLACK;;
         vga_write (lit "  ---- ");; vga_write name;; vga_writeln (lit " ----");;
         vga_set_color VGA_WHITE VGA_BLACK);;
    e ← onfs (rd_file idx);
    (if (e_first e =? FAT_END) || (e_size e =? 0) then say (vga_writeln (lit "  (empty file)"))
     else
       say (vga_write (lit "  "));;
       loop (Z.to_nat (e_size e / FS_BLOCK_SIZE + 3)) print_step (e_first e, e_size e);;
       say (vga_putchar 10));;
    say (vga_set_color VGA_LIGHT_CYAN VGA_BLACK;;
         vga_writeln (lit "  ---- EOF ----");;
         vga_set_color VGA_WHITE VGA_BLACK).

Definition fs_edit (name dir : list Z) : M machine unit :=
  nlen ← lift_opt (kstrlen name);
  if nlen =? 0 then complain (vga_writeln (lit "  [fedit] Error: usage: fedit <filename>")) else
  idx ← onfs (find_file name dir);
  if idx =? FS_MAX_FILES then
    complain (vga_write (lit "  [fedit] Error: file not found: ");; vga_writeln name;;
              vga_writeln (lit "  Use fwrite to create it first."))
  else
    e ← onfs (rd_file idx);
    s ← gets m_fs;
    tmp0 ← onfs (gather (e_first e) (e_size e) (etmp s));
    say (vga_set_color VGA_WHITE VGA_BLACK;;
         vga_write (lit "  Appending to '");; vga_write name;;
         vga_writeln (lit "'. Type '.' to finish:"));;
    '(tmp, total) ← onio (collect tmp0 (e_size e));
    onfs (modify (set_etmp tmp));;
    onfs (free_chain (e_first e));;
    first ← store tmp total;
    if first =? FS_N_BLOCKS then
      complain (vga_writeln (lit "  [fedit] Error: disk full"));;
      onfs (upd_file idx (λ e, Some (set_first_size FAT_END 0 e)))
    else
      onfs (upd_file idx (λ e, Some (set_first_size first total e)));;
      confirm (vga_write (lit "  [fedit] '");; vga_write name;;
               vga_writeln (lit "' updated successfully.")).

(** [ans[0] != 'y' && ans[0] != 'Y']. *)
Definition declined (ans : list Z) : option bool :=
  c ← ld ans;
  Some (negb (c =? 121) && negb (c =? 89)).

Definition fs_delete (name dir : list Z) : M machine unit :=
  nlen ← lift_opt (kstrlen name);
  if nlen =? 0 then complain (vga_writeln (lit "  [fdel] Error: usage: fdel <filename>")) else
  idx ← onfs (find_file name dir);
  if idx =? FS_MAX_FILES then
    complain (vga_write (lit "  [fdel] Error: file not found: ");; vga_writeln name)
  else
    say (vga_write (lit "  Delete '");; vga_write name;; vga_write (lit "'? (y/n): "));;
    '(ans, _) ← onio (readline (uninit 4) 4);
    no ← lift_opt (declined ans);
    if (no : bool) then say (vga_writeln (lit "  [fdel] Cancelled."))
    else
      e ← onfs (rd_file idx);
      onfs (free_chain (e_first e));;
      onfs (upd_file idx (λ e,
        n ← zset (e_name e) 0 0; Some (Entry n (e_dir e) FAT_END 0 0)));;
      confirm (vga_write (lit "  [fdel] '");; vga_write name;; vga_writeln (lit "' deleted.")).

Definition fs_rename (oldname newname dir : list Z) : M machine unit :=
  olen ← lift_opt (kstrlen oldname);
  nlen ← (if olen =? 0 then mret 0 else lift_opt (kstrlen newname));
  if (olen =? 0) || (nlen =? 0) then
    complain (vga_writeln (lit "  [rename] Error: usage: rename <old> <new>"))
  else
  idx ← onfs (find_file oldname dir);
  if idx =? FS_MAX_FILES then
    complain (vga_write (lit "  [rename] Error: file not found: ");; vga_writeln oldname)
  else
    taken ← onfs (find_file newname dir);
    if taken <? FS_MAX_FILES then
      complain (vga_write (lit "  [rename] Error: '");; vga_write newname;;
                vga_writeln (lit "' already exists"))
    else
      onfs (upd_file idx (set_name newname));;
      confirm (vga_write (lit "  [rename] '");; vga_write oldname;;
               vga_write (lit "' -> '");; vga_write newname;; vga_writeln (lit "'")).

(** The second half of [fs_copy]: the data, then the new entry. *)
Definition copy_into (src dst dir : list Z) (sidx didx : Z) : M machine unit :=
  e ← onfs (rd_file sidx);
  s ← gets m_fs;
  tmp ← onfs (gather (e_first e) (e_size e) (ctmp s));
  onfs (modify (set_ctmp tmp));;
  first ← store tmp (e_size e);
  if first =? FS_N_BLOCKS then
    complain (vga_writeln (lit "  [copy] Error: disk full"))
  else
    onfs (upd_file didx (set_name dst));;
    onfs (upd_file didx (set_dirname dir));;
    onfs (upd_file didx (λ d, Some (set_used 1 (set_first_size first (e_size e) d))));;
    confirm (vga_write (lit "  [copy] '");; vga_write src;;
             vga_write (lit "' -> '");; vga_write dst;; vga_writeln (lit "'")).

Definition fs_copy (src dst dir : list Z) : M machine unit :=
  slen ← lift_opt (kstrlen src);
  dlen ← (if slen =? 0 then mret 0 else lift_opt (kstrlen dst));
  if (slen =? 0) || (dlen =? 0) then
    complain (vga_writeln (lit "  [copy] Error: usage: copy <source> <destination>"))
  else
  sidx ← onfs (find_file src dir);
  if sidx =? FS_MAX_FILES then
    complain (vga_write (lit "  [copy] Error: source not found: ");; vga_writeln src)
  else
    taken ← onfs (find_file dst dir);
    if taken <? FS_MAX_FILES then
      complain (vga_write (lit "  [copy] Error: destination already exists: ");; vga_writeln dst)
    else
      didx ← onfs find_free_slot;
      if didx =? FS_MAX_FILES then
        complain (vga_writeln (lit "  [copy] Error: directory full"))
      else
        copy_into src dst dir sidx didx.

(** One turn of the loop of [fs_list]; returns whether a file was listed. *)
Definition list_one (dir : list Z) (i : Z) : M machine Z :=
  e ← onfs (rd_file i);
  if e_used e =? 0 then mret 0 else
  r ← lift_opt (kstrcmp (e_dir e) dir);
  if negb (r =? 0) then mret 0 else
  say (vga_write (lit "  ");; vga_write (e_name e);; vga_write (lit "  (");;
       vga_write_dec (e_size e);; vga_writeln (lit " bytes)"));;
  mret 1.

Fixpoint list_files (dir : list Z) (is_ : list Z) (count : Z) : M machine Z :=
  match is_ with
  | [] => mret count
  | i :: is' =>
      k ← list_one dir i;
      list_files dir is' (count + k)
  end.

Definition fs_list (dir : list Z) : M machine unit :=
  count ← list_files dir (range 0 (Z.to_nat FS_MAX_FILES)) 0;
  if count =? 0 then say (vga_writeln (lit "  (no files in this directory)")) else mret tt.
End fs.
