(* ===== verification/FsStore.v ===== *)
(** * Replacing the contents of a file

    The steps the file commands share, on states that represent a map: the
    assignment of a directory entry, and the storing of a text into a slot. *)

From S2P Require Import Prelude CString Vga Console Keyboard Io IoSpec Fat FatRep DirTable LineInput Machine Fs.

(** A name or path that fits its 64-byte field. *)
Definition short (s : list Z) : Prop := (length s < 64)%nat.

Lemma upd_file_run idx f s e e' :
  zget (files s) idx = Some e → f e = Some e' →
  upd_file idx f s = Ret tt (set_files (upd (files s) idx e') s).
Proof.
  intros He Hf. unfold upd_file. step (rd_file_run _ _ _ He). rewrite (bind_lift _ _ _ _ Hf).
  apply wr_file_run. by eapply zget_Some_range.
Qed.

Lemma upd_upd {A} (l : list A) i x y : upd (upd l i x) i y = upd l i y.
Proof. apply list_insert_insert_eq. Qed.

Lemma kstrncpy_field b src s :
  zlen b = 64 → cstr src s → short s →
  ∃ b', kstrncpy b src 64 = Some b' ∧ cstr b' s ∧ zlen b' = 64.
Proof.
  unfold zlen. intros Hb Hs Hl. destruct (kstrncpy_cstr b src s 64) as (b' & ? & ? & ?); try done; [lia|].
  exists b'. split_and!; [done..|lia].
Qed.

Lemma set_name_run e nb n :
  entry_shape e → cstr nb n → short n →
  ∃ b, set_name nb e = Some (Entry b (e_dir e) (e_first e) (e_size e) (e_used e)) ∧ cstr b n ∧ zlen b = 64.
Proof.
  intros (Hn & _) Hc Hs. destruct (kstrncpy_field (e_name e) nb n Hn Hc Hs) as (b & E & ?).
  exists b. split; [|done]. unfold set_name. change (Z.to_nat FS_NAME_LEN) with 64%nat. by rewrite E.
Qed.

Lemma set_dirname_run e db d :
  entry_shape e → cstr db d → short d →
  ∃ b, set_dirname db e = Some (Entry (e_name e) b (e_first e) (e_size e) (e_used e)) ∧ cstr b d ∧ zlen b = 64.
Proof.
  intros (_ & Hd & _) Hc Hs. destruct (kstrncpy_field (e_dir e) db d Hd Hc Hs) as (b & E & ?).
  exists b. split; [|done]. unfold set_dirname. change (Z.to_nat FS_DIR_LEN) with 64%nat. by rewrite E.
Qed.

Lemma slot_shape s m idx e : fs_rep s m → zget (files s) idx = Some e → entry_shape e.
Proof. intros Hrep. apply Forall_zget, sh_entry, (rep_shape _ _ Hrep). Qed.

Lemma slot_range s m idx e : fs_rep s m → zget (files s) idx = Some e → 0 ≤ idx < zlen (files s).
Proof. intros _. apply zget_Some_range. Qed.

(** An empty chain. *)
Lemma live_empty s e n d :
  e_used e ≠ 0 → cstr (e_name e) n → cstr (e_dir e) d → e_first e = FAT_END → e_size e = 0 →
  live s e n d [].
Proof.
  intros Hu Hn Hd Hf Hz. constructor; try done.
  rewrite Hz. split; [change (zlen (@nil Z)) with 0; lia|done].
Qed.

Lemma live_empty_inv s e n d :
  live s e n d [] →
  e_used e ≠ 0 ∧ cstr (e_name e) n ∧ cstr (e_dir e) d ∧ e_first e = FAT_END ∧ e_size e = 0.
Proof.
  intros [Hu Hn Hd [Hf _] [Hz _]]. change (zlen (@nil Z)) with 0 in Hz.
  split; [done|]. split; [done|]. split; [done|]. split; [done|]. lia.
Qed.

(** Two states with the same arrays but the scratch buffers. *)
Definition same_store (s s' : fs_state) : Prop :=
  fat s' = fat s ∧ blocks s' = blocks s ∧ files s' = files s ∧
  zlen (wtmp s') = zlen (wtmp s) ∧ zlen (etmp s') = zlen (etmp s) ∧ zlen (ctmp s') = zlen (ctmp s).

Lemma same_store_shape s s' : same_store s s' → fs_shape s → fs_shape s'.
Proof.
  intros (Ef & Eb & Ei & E1 & E2 & E3) []. constructor; rewrite ?Ef, ?Eb, ?Ei, ?E1, ?E2, ?E3; done.
Qed.

Lemma same_store_live s s' e n d l : same_store s s' → live s e n d l ↔ live s' e n d l.
Proof.
  intros (Ef & _). split; intros H; (eapply live_agree; [done|]); intros; by rewrite Ef.
Qed.

Lemma same_store_contents s s' e l : same_store s s' → contents s' e l = contents s e l.
Proof. intros (_ & Eb & _). apply contents_agree. intros. by rewrite Eb. Qed.

Lemma same_store_rep s s' m : same_store s s' → fs_rep s m → fs_rep s' m.
Proof.
  intros Hs Hrep. pose proof Hs as (Ef & Eb & Ei & _). constructor; rewrite ?Ei.
  - by eapply same_store_shape, Hrep.
  - intros i e He. destruct (rep_slot _ _ Hrep i e He) as [|(n & d & l & Hl & Hm)]; [by left|right].
    exists n, d, l. rewrite (same_store_contents s) by done.
    by rewrite <-(same_store_live s s').
  - intros d n v Hv. destruct (rep_key _ _ Hrep d n v Hv) as (i & e & l & He & Hl).
    exists i, e, l. by rewrite <-(same_store_live s s').
  - intros i j ei ej n d li lj Hi Hj Hli Hlj.
    rewrite <-!(same_store_live s s') in * by done. by eapply (rep_inj _ _ Hrep).
  - intros i j ei ej ni di nj dj li lj b Hi Hj Hli Hlj.
    rewrite <-!(same_store_live s s') in * by done. by eapply (rep_disj _ _ Hrep).
Qed.

Lemma same_store_keeps s idx s1 s2 : keeps s idx s1 → same_store s1 s2 → keeps s idx s2.
Proof.
  intros [Hsh Hk] Hs. split; [by eapply same_store_shape|].
  destruct Hs as (-> & -> & _). apply Hk.
Qed.

Section store.
Context `{B : Bus} (s0 : fs_state) (fm : afs) (idx : Z) (e : file_entry).
Hypothesis Hrep : fs_rep s0 fm.
Hypothesis Hidx : zget (files s0) idx = Some e.

(** A chain for [data] in [s'] that shares no block with the other files. *)
Definition fresh_chain (s' : fs_state) (first : Z) (data l : list Z) : Prop :=
  chain (fat s') first l ∧ fits (zlen data) l ∧
  take (length data) (chain_data s' l) = data ∧
  ∀ j ej n d lj b, j ≠ idx → zget (files s0) j = Some ej → live s0 ej n d lj → b ∈ l → b ∉ lj.

Lemma fresh_empty s' : fresh_chain s' FAT_END [] [].
Proof.
  split; [done|]. split; [split; [change (zlen (@nil Z)) with 0; lia|done]|]. split; [done|].
  intros j ej n d lj b _ _ _ Hb. by apply elem_of_nil in Hb.
Qed.

Lemma fresh_first s' first data l : fresh_chain s' first data l → first ≠ FS_N_BLOCKS ∧ 0 ≤ first < 65536.
Proof.
  intros ([Hf HL] & _). destruct l as [|b l]; simpl in *; subst; unfold FS_N_BLOCKS, FAT_END.
  - lia.
  - destruct HL as [Hb _]. unfold FS_N_BLOCKS in *. lia.
Qed.

Lemma store_run (m : machine) tmp data :
  keeps s0 idx (m_fs m) → files (m_fs m) = files s0 → holds tmp data →
  ∃ first s', store tmp (zlen data) m = Ret first (set_fs s' m) ∧ keeps s0 idx s' ∧
    files s' = files s0 ∧
    ((first = FS_N_BLOCKS ∧ disk_full s') ∨ ∃ l, fresh_chain s' first data l).
Proof.
  intros Hk Hf [Htl [more Ht]]. unfold store.
  destruct (Z.eqb_spec (zlen data) 0) as [E0|E0].
  { exists FAT_END, (m_fs m). rewrite set_fs_id. split_and!; try done. right. exists [].
    destruct data; [apply fresh_empty|rewrite zlen_cons in E0; pose proof (zlen_nonneg data); lia]. }
  pose proof (zlen_nonneg data).
  assert (Hle : zlen data ≤ zlen tmp) by (rewrite Ht, zlen_app; pose proof (zlen_nonneg more); lia).
  destruct (write_to_blocks_run (m_fs m) tmp (zlen data)) as (s' & l & w & W & Hr); [apply Hk|lia|].
  assert (Hk' := keeps_writing _ _ _ _ _ _ _ _ Hk W).
  assert (Hf' : files s' = files s0) by (rewrite <-Hf; apply (wr_rest _ _ _ _ _ _ W)).
  destruct Hr as [[E ->]|(E & Hw & Hfull)].
  - exists (hd FAT_END l), s'. split_and!; [by apply zoom_ret|done|done|]. right. exists l.
    split; [|split; [|split]].
    + split; [done|]. apply (wr_links _ _ _ _ _ _ W).
    + eapply fits_writing; [done|lia].
    + pose proof (wr_data _ _ _ _ _ _ W) as Hd. unfold zlen in Hd. rewrite Nat2Z.id in Hd.
      rewrite Hd, Ht. apply take_app_length.
    + exact (keeps_new_blocks _ _ _ _ _ _ _ _ Hk W).
  - exists FS_N_BLOCKS, s'. split_and!; [by apply zoom_ret|done|done|]. by left.
Qed.

(** Entering a chain into the slot. *)
Lemma place_run s' first data l e' n d m0 :
  keeps s0 idx s' → files s' = files s0 → fresh_chain s' first data l →
  zlen data ≤ TMP_SIZE → without e fm m0 → m0 !! (d, n) = None →
  e_used e' ≠ 0 → cstr (e_name e') n → cstr (e_dir e') d → zlen (e_name e') = 64 → zlen (e_dir e') = 64 →
  e_first e' = first → e_size e' = zlen data →
  fs_rep (set_files (upd (files s') idx e') s') (<[(d, n) := data]> m0).
Proof.
  intros [Hsh Hk] Hf Hfr Hmax Hw Hm0 Hu Hn Hd Ln Ld Ef Ez.
  pose proof (fresh_first _ _ _ _ Hfr) as [_ Hfirst]. destruct Hfr as (Hch & Hfit & Hdat & Hdisj).
  set (s2 := set_files _ _).
  assert (Hl2 : live s2 e' n d l) by (constructor; try done; by rewrite ?Ef, ?Ez).
  assert (Hc : contents s2 e' l = data).
  { unfold contents. rewrite Ez. unfold zlen. rewrite Nat2Z.id. exact Hdat. }
  rewrite <-Hc at 1. apply (rep_update_live s0 s2 fm m0 idx e e'); try done.
  - apply fs_shape_upd_file; [done|]. rewrite tmp_size_val, block_size_val in Hmax.
    pose proof (zlen_nonneg data). split_and!; rewrite ?Ef, ?Ez; done || lia.
  - simpl. by rewrite Hf.
Qed.

Lemma place_empty s' e' n d m0 :
  keeps s0 idx s' → files s' = files s0 → without e fm m0 → m0 !! (d, n) = None →
  e_used e' ≠ 0 → cstr (e_name e') n → cstr (e_dir e') d → zlen (e_name e') = 64 → zlen (e_dir e') = 64 →
  e_first e' = FAT_END → e_size e' = 0 →
  fs_rep (set_files (upd (files s') idx e') s') (<[(d, n) := []]> m0).
Proof.
  intros. apply (place_run s' FAT_END [] []); try done. apply fresh_empty.
Qed.

(** Clearing the slot. *)
Lemma clear_run_slot s' e' m0 :
  keeps s0 idx s' → files s' = files s0 → without e fm m0 → dead e' → entry_shape e' →
  fs_rep (set_files (upd (files s') idx e') s') m0.
Proof.
  intros [Hsh Hk] Hf Hw Hd He. apply (rep_update_dead s0 _ fm m0 idx e e'); try done.
  - by apply fs_shape_upd_file.
  - simpl. by rewrite Hf.
Qed.

(** Entering a chain for [data] into the slot of the file. *)
Lemma commit_run s' first data l n d :
  keeps s0 idx s' → files s' = files s0 → fresh_chain s' first data l →
  zlen data ≤ TMP_SIZE → e_used e ≠ 0 → cstr (e_name e) n → cstr (e_dir e) d →
  fs_rep (set_files (upd (files s') idx (set_first_size first (zlen data) e)) s')
    (<[(d, n) := data]> fm).
Proof.
  intros Hk Hf Hfr Hmax Hu Hn Hd. rewrite <-(insert_delete_eq fm).
  destruct (fresh_first _ _ _ _ Hfr) as [_ Hr16].
  pose proof (slot_shape _ _ _ _ Hrep Hidx) as (? & ? & _).
  apply (place_run s' first data l); try done; simpl.
  - right. split; [done|]. by exists n, d.
  - apply lookup_delete_eq.
  - apply Z.mod_small. lia.
  - rewrite tmp_size_val, block_size_val in Hmax. apply Z.mod_small.
    pose proof (zlen_nonneg data). lia.
Qed.
End store.

(** Assignments to an entry, at the level of the machine. *)
Lemma bind_upd_file `{B : Bus} {A} (m : machine) idx f e e' (k : unit → M machine A) :
  zget (files (m_fs m)) idx = Some e → f e = Some e' →
  (onfs (upd_file idx f) ≫= k) m =
    k tt (set_fs (set_files (upd (files (m_fs m)) idx e') (m_fs m)) m).
Proof. intros He Hf. apply bind_onfs. by apply (upd_file_run idx f _ e). Qed.

(** Naming a slot: name, directory, then the other fields with [g]. *)
Lemma bind_new_entry `{B : Bus} {A} (m : machine) idx nb n db d e (g : file_entry → file_entry)
    (k : unit → M machine A) :
  zget (files (m_fs m)) idx = Some e → entry_shape e →
  cstr nb n → cstr db d → short n → short d →
  ∃ b1 b2,
    (onfs (upd_file idx (set_name nb));; onfs (upd_file idx (set_dirname db));;
     onfs (upd_file idx (λ e, Some (g e))) ≫= k) m =
      k tt (set_fs (set_files (upd (files (m_fs m)) idx
             (g (Entry b1 b2 (e_first e) (e_size e) (e_used e)))) (m_fs m)) m) ∧
    cstr b1 n ∧ cstr b2 d ∧ zlen b1 = 64 ∧ zlen b2 = 64.
Proof.
  intros He Hsh Hn Hd Sn Sd. pose proof (zget_Some_range _ _ _ He) as Hin.
  destruct (set_name_run e nb n Hsh Hn Sn) as (b1 & E1 & Hc1 & Hl1).
  destruct (set_dirname_run (Entry b1 (e_dir e) (e_first e) (e_size e) (e_used e)) db d)
    as (b2 & E2 & Hc2 & Hl2); [by destruct Hsh as (? & ? & ?)|done..|].
  exists b1, b2. split; [|done].
  rewrite (bind_upd_file _ _ _ _ _ _ He E1).
  erewrite bind_upd_file; [|by apply zget_upd_eq|exact E2].
  erewrite bind_upd_file; [|simpl; by rewrite upd_upd, zget_upd_eq|reflexivity].
  simpl. by rewrite !upd_upd.
Qed.

Lemma bind_rd_file `{B : Bus} {A} (m : machine) idx e (k : file_entry → M machine A) :
  zget (files (m_fs m)) idx = Some e → (onfs (rd_file idx) ≫= k) m = k e m.
Proof.
  intros He. rewrite <-(set_fs_id m) at 2. apply bind_onfs. by apply rd_file_run.
Qed.
