(* ===== verification/FsSpec.v ===== *)
(** * The file commands implement a map

    Each command of fs.c, run on a machine whose file system represents a map
    from (directory, name) to contents and whose keyboard holds a stream of
    characters, ends in a machine that represents the updated map. *)

From S2P Require Import Prelude CString Vga Console Keyboard Io IoSpec Fat FatRep DirTable LineInput Machine Fs FsStore.

Section spec.
Context `{B : Bus, L : !PcLaws B}.
Implicit Types (m : machine) (fm : afs).

(** The file system holds [fm], the stream [inp]; the rest is as in [m]. *)
Record fs_done m m' fm inp : Prop := {
  fd_fs : fs_rep (m_fs m') fm;
  fd_io : io_rep (m_io m') inp;
  fd_dir : m_dir m' = m_dir m;
  fd_cmd : m_cmd m' = m_cmd m
}.

Lemma fs_done_refl m fm inp : fs_rep (m_fs m) fm → io_rep (m_io m) inp → fs_done m m fm inp.
Proof. by constructor. Qed.

Lemma fs_done_trans m m1 m2 fm1 inp1 fm2 inp2 :
  fs_done m m1 fm1 inp1 → fs_done m1 m2 fm2 inp2 → fs_done m m2 fm2 inp2.
Proof. intros [] []. constructor; congruence. Qed.

(** The message that ends a command. *)
Lemma complain_done c tr m m1 fm inp :
  Prints c tr → fs_done m m1 fm inp → ∃ m', complain c m1 = Ret tt m' ∧ fs_done m m' fm inp.
Proof.
  intros Hc []. destruct (complain_run c tr m1 inp) as (i & E & He & _); [done..|].
  eexists. split; [exact E|]. by constructor.
Qed.

Lemma confirm_done c tr m m1 fm inp :
  Prints c tr → fs_done m m1 fm inp → ∃ m', confirm c m1 = Ret tt m' ∧ fs_done m m' fm inp.
Proof.
  intros Hc []. destruct (confirm_run c tr m1 inp) as (i & E & He & _); [done..|].
  eexists. split; [exact E|]. by constructor.
Qed.

Lemma say_done c tr m m1 fm inp :
  Prints c tr → fs_done m m1 fm inp → ∃ m', say c m1 = Ret tt m' ∧ fs_done m m' fm inp.
Proof.
  intros Hc []. destruct (say_run c tr m1 inp) as (i & E & He & _); [done..|].
  eexists. split; [exact E|]. by constructor.
Qed.

Lemma name_nonempty (n : list Z) : n ≠ [] → (zlen n =? 0) = false.
Proof. destruct n; [done|]. intros _. rewrite zlen_cons. pose proof (zlen_nonneg n). apply Z.eqb_neq. lia. Qed.

Definition slots_full (s : fs_state) : Prop :=
  ∀ i e, zget (files s) i = Some e → e_used e ≠ 0.

(** ** fwrite *)

(** The slot [fs_write] takes: that of the file, emptied, or a new one. *)
Lemma write_slot_run m fm inp nb n db d :
  fs_rep (m_fs m) fm → io_rep (m_io m) inp → cstr nb n → cstr db d → short n → short d →
  (fm !! (d, n) = None ∧ slots_full (m_fs m) ∧
     ∃ m', write_slot nb db m = Ret None m' ∧ fs_done m m' fm inp) ∨
  (∃ idx e s', write_slot nb db m = Ret (Some idx) (set_fs s' m) ∧
     fs_rep s' (<[(d, n) := []]> fm) ∧ zget (files s') idx = Some e ∧ live s' e n d []).
Proof.
  intros Hf Hi Hn Hd Sn Sd. unfold write_slot.
  destruct (find_file_run _ _ nb n db d Hf Hn Hd) as (r & E & Hr).
  rewrite (bind_onfs _ _ _ _ _ E), set_fs_id.
  destruct Hr as [(e & l & Hrange & He & Hl & Hm)|[-> Hm]].
  - right. destruct (Z.ltb_spec r FS_MAX_FILES); [|lia].
    rewrite (bind_rd_file _ _ _ _ He).
    destruct (free_file_run _ _ r e n d l Hf He Hl) as (f & Ef & Hk & _).
    rewrite (bind_onfs _ _ _ _ _ Ef). set (s1 := set_fat f (m_fs m)).
    erewrite bind_upd_file; [|exact He|reflexivity].
    eexists r, _, _. split; [reflexivity|].
    destruct Hl as [Hu Hen Hed _ _]. destruct (slot_shape _ _ _ _ Hf He) as (? & ? & _).
    split; [|split; [apply zget_upd_eq, (slot_range _ _ _ _ Hf He)|by apply live_empty]].
    rewrite <-(insert_delete_eq fm). apply (place_empty _ _ _ _ Hf He s1); try done.
    + right. split; [done|]. by exists n, d.
    + apply lookup_delete_eq.
  - simpl. destruct (find_free_slot_run _ _ Hf) as (r & E2 & Hr).
    rewrite (bind_onfs _ _ _ _ _ E2), set_fs_id.
    destruct Hr as [(e & Hrange & He & Hdead)|[-> Hall]].
    + right. destruct (Z.eqb_spec r FS_MAX_FILES); [lia|].
      pose proof (slot_shape _ _ _ _ Hf He) as Hsh. pose proof (slot_range _ _ _ _ Hf He) as Hin.
      destruct (bind_new_entry m r nb n db d e (set_used 1) (λ _, mret (Some r))) as (b1 & b2 & E3 & Hc1 & Hc2 & Hl1 & Hl2);
        [done..|].
      rewrite E3. destruct Hdead as (Hu & Hfst & Hsz).
      eexists r, _, _. split; [reflexivity|].
      split; [|split; [by apply zget_upd_eq|by apply live_empty]].
      apply (place_empty _ _ _ _ Hf He (m_fs m)); try done.
      * by apply keeps_refl, Hf.
      * by left.
    + left. split; [done|]. split; [done|]. rewrite Z.eqb_refl.
      print_cmd Hi i Hi'. eexists. split; [reflexivity|]. by constructor.
Qed.

(** The possible ends of [fwrite]: the directory is full, the text is not
    finished yet, the file holds the text, or the disk is full and the file
    is gone. *)
Definition write_result m fm (d n inp : list Z) (o : outcome machine unit) : Prop :=
  (fm !! (d, n) = None ∧ slots_full (m_fs m) ∧ ∃ m', o = Ret tt m' ∧ fs_done m m' fm inp) ∨
  match text_entry [] inp with
  | None => ∃ m', o = Blocked m'
  | Some (data, rest) =>
      ∃ m', o = Ret tt m' ∧
        (fs_done m m' (<[(d, n) := data]> fm) rest ∨
         (disk_full (m_fs m') ∧ fs_done m m' (delete (d, n) fm) rest))
  end.

Lemma holds_nil tmp : zlen tmp = TMP_SIZE → holds tmp [].
Proof. intros. split; [done|]. by exists tmp. Qed.

Lemma fs_write_run m fm inp nb n db d :
  fs_rep (m_fs m) fm → io_rep (m_io m) inp → cstr nb n → cstr db d → n ≠ [] → short n → short d →
  write_result m fm d n inp (fs_write nb db m).
Proof.
  intros Hf Hi Hn Hd Hne Sn Sd. unfold fs_write, write_result.
  rewrite (bind_lift _ _ _ _ (kstrlen_cstr _ _ Hn)), name_nonempty by done.
  destruct (write_slot_run m fm inp nb n db d Hf Hi Hn Hd Sn Sd)
    as [(Hm & Hfull & m' & E & Hd')|(idx & e & s1 & E & Hf1 & He & Hl)].
  { left. split_and!; [done..|]. step E. by exists m'. }
  right. step E. clear E.
  print_cmd (Hi : io_rep (m_io (set_fs s1 m)) inp) i1 Hi1. steps.
  assert (Hz : zlen (wtmp s1) = TMP_SIZE) by apply (rep_shape _ _ Hf1).
  pose proof (collect_run [] inp (wtmp s1) i1 Hi1 (holds_nil _ Hz)) as Hc. unfold collect_result in Hc.
  destruct (text_entry [] inp) as [[data rest]|] eqn:Et.
  2:{ destruct Hc as [i' Ec]. eexists. by apply onio_blocked. }
  destruct Hc as (tmp & i2 & Ec & Ht & Hi2).
  rewrite (bind_onio _ _ _ _ _ (Ec : collect _ 0 (m_io (set_io i1 (set_fs s1 m))) = _)).
  assert (Hsame : same_store s1 (set_wtmp tmp s1)) by (split_and!; try done; simpl; rewrite Hz; apply Ht).
  rewrite (bind_onfs _ _ _ tt (set_wtmp tmp s1)) by reflexivity.
  set (m2 := set_fs (set_wtmp tmp s1) _).
  assert (Hf2 : fs_rep (m_fs m2) (<[(d, n) := []]> fm)) by by eapply same_store_rep.
  assert (He2 : zget (files (m_fs m2)) idx = Some e) by done.
  destruct (store_run (m_fs m2) idx m2 tmp data) as (first & s3 & Es & Hk & Hfs & Hr);
    [by apply keeps_refl, Hf2|done|done|].
  step Es. clear Es.
  assert (Hmax : zlen data ≤ TMP_SIZE).
  { eapply text_entry_bound; [|exact Et]. rewrite tmp_size_val, block_size_val. done. }
  destruct (live_empty_inv _ _ _ _ Hl) as (Hu & Hen & Hed & Hfst & Hsz).
  pose proof (slot_shape _ _ _ _ Hf1 He) as (? & ? & ?).
  assert (Hw : without e (<[(d, n) := []]> fm) (delete (d, n) fm)).
  { right. split; [done|]. exists n, d. by rewrite delete_insert_eq. }
  assert (He3 : zget (files s3) idx = Some e) by by rewrite Hfs.
  destruct Hr as [[-> Hfull]|[l Hfr]].
  - rewrite Z.eqb_refl. print_cmd (Hi2 : io_rep (m_io (set_fs s3 m2)) rest) i3 Hi3.
    eexists. split; [by apply zoom_ret, (upd_file_run idx _ _ e (set_used 0 e))|]. right.
    split; [done|].
    constructor; try done. by apply (clear_run_slot _ _ _ _ Hf2 He2).
  - destruct (fresh_first _ _ _ _ _ _ Hfr) as [Hn8 Hr16]. apply Z.eqb_neq in Hn8. rewrite Hn8.
    erewrite bind_upd_file; [|exact He3|reflexivity].
    match goal with |- context [confirm ?c ?m1] =>
      destruct (confirm_done c _ m m1 (<[(d, n) := data]> fm) rest _) as (m' & E & Hd') end.
    { constructor; try done. rewrite <-(insert_insert_eq fm (d, n) data []).
      by apply (commit_run _ _ _ _ Hf2 He2 s3 first data l). }
    exists m'. split; [exact E|]. by left.
Qed.

(** ** fedit *)

Definition edit_result m fm (d n inp : list Z) (o : outcome machine unit) : Prop :=
  match fm !! (d, n) with
  | None => ∃ m', o = Ret tt m' ∧ fs_done m m' fm inp
  | Some old =>
      match text_entry old inp with
      | None => ∃ m', o = Blocked m'
      | Some (data, rest) =>
          ∃ m', o = Ret tt m' ∧
            (fs_done m m' (<[(d, n) := data]> fm) rest ∨
             (disk_full (m_fs m') ∧ fs_done m m' (<[(d, n) := []]> fm) rest))
      end
  end.

(** The gathered file, in the scratch buffer. *)
Lemma gather_holds s e n d l tmp :
  fs_shape s → live s e n d l → zlen tmp = TMP_SIZE →
  ∃ tmp', gather (e_first e) (e_size e) tmp s = Ret tmp' s ∧ holds tmp' (contents s e l) ∧
    zlen (contents s e l) = e_size e ∧ zlen (contents s e l) ≤ TMP_SIZE.
Proof.
  intros Hs [_ _ _ Hch Hfit] Ht. pose proof Hch as [_ HL].
  pose proof (links_length _ _ HL). pose proof (chain_data_length _ _ Hs HL) as Hcl.
  pose proof Hfit as [Hz _]. rewrite tmp_size_val in *. rewrite block_size_val in *.
  assert (Hlen : zlen (contents s e l) = e_size e).
  { unfold contents, zlen in *. rewrite length_take. lia. }
  eexists. split; [apply (gather_run _ _ tmp _ l); try done; unfold zlen in *; lia|].
  assert (e_size e ≤ 8 * 32768) by (unfold zlen in *; lia).
  split; [|lia]. split; [|by eexists].
  rewrite zlen_app. fold (contents s e l). rewrite Hlen, tmp_size_val, block_size_val.
  unfold zlen in *. rewrite length_drop. lia.
Qed.

Lemma found_range r : 0 ≤ r < FS_MAX_FILES → (r =? FS_MAX_FILES) = false.
Proof. intros. apply Z.eqb_neq. lia. Qed.

Lemma fs_edit_run m fm inp nb n db d :
  fs_rep (m_fs m) fm → io_rep (m_io m) inp → cstr nb n → cstr db d → n ≠ [] →
  edit_result m fm d n inp (fs_edit nb db m).
Proof.
  intros Hf Hi Hn Hd Hne. unfold fs_edit, edit_result.
  rewrite (bind_lift _ _ _ _ (kstrlen_cstr _ _ Hn)), name_nonempty by done.
  destruct (find_file_run _ _ nb n db d Hf Hn Hd) as (r & E & Hr).
  rewrite (bind_onfs _ _ _ _ _ E), set_fs_id. clear E.
  destruct Hr as [(e & l & Hrange & He & Hl & Hm)|[-> Hm]]; rewrite Hm.
  2:{ eapply complain_done; [apply _|by apply fs_done_refl]. }
  rewrite found_range by done. rewrite (bind_rd_file _ _ _ _ He). steps.
  pose proof (rep_shape _ _ Hf) as Hsh.
  destruct (gather_holds (m_fs m) e n d l (etmp (m_fs m)) Hsh Hl (sh_etmp _ Hsh))
    as (tmp0 & Eg & Ht0 & Hlen & Hle).
  rewrite (bind_onfs _ _ _ _ _ Eg), set_fs_id.
  print_cmd Hi i1 Hi1.
  pose proof (collect_run _ inp tmp0 i1 Hi1 Ht0) as Hc. unfold collect_result in Hc. rewrite Hlen in Hc.
  destruct (text_entry (contents (m_fs m) e l) inp) as [[data rest]|] eqn:Et.
  2:{ destruct Hc as [i' Ec]. eexists. by apply onio_blocked. }
  destruct Hc as (tmp & i2 & Ec & Ht & Hi2).
  rewrite (bind_onio _ _ _ _ _ (Ec : collect _ _ (m_io (set_io i1 m)) = _)).
  rewrite (bind_onfs _ _ _ tt (set_etmp tmp (m_fs m))) by reflexivity.
  set (s1 := set_etmp tmp (m_fs m)).
  assert (Hsame : same_store (m_fs m) s1)
    by (split_and!; try done; simpl; rewrite (sh_etmp _ Hsh); apply Ht).
  assert (Hf1 : fs_rep s1 fm) by by eapply same_store_rep.
  assert (He1 : zget (files s1) r = Some e) by done.
  destruct (free_file_run s1 fm r e n d l Hf1 He1) as (f & Ef & Hk & _);
    [by apply (same_store_live (m_fs m))|].
  rewrite (bind_onfs _ _ _ _ _ (Ef : free_chain _ (m_fs (set_fs s1 _)) = _)).
  set (m2 := set_fs (set_fat f s1) _).
  destruct (store_run s1 r m2 tmp data) as (first & s3 & Es & Hk3 & Hfs & Hres); [done..|].
  step Es. clear Es. pose proof (text_entry_bound _ _ _ _ Hle Et) as Hmax.
  assert (He3 : zget (files s3) r = Some e) by by rewrite Hfs.
  destruct Hl as [Hu Hen Hed _ _]. destruct Hres as [[-> Hfull]|[l' Hfr]].
  - rewrite Z.eqb_refl. print_cmd (Hi2 : io_rep (m_io (set_fs s3 m2)) rest) i3 Hi3.
    eexists. split; [by apply zoom_ret, (upd_file_run r _ _ e (set_first_size FAT_END 0 e))|].
    right. split; [done|]. constructor; try done.
    apply (commit_run _ _ _ _ Hf1 He1 s3 FAT_END [] []); try done. apply fresh_empty.
  - destruct (fresh_first _ _ _ _ _ _ Hfr) as [Hn8 _]. apply Z.eqb_neq in Hn8. rewrite Hn8.
    erewrite bind_upd_file; [|exact He3|reflexivity].
    match goal with |- context [confirm ?c ?m1] =>
      destruct (confirm_done c _ m m1 (<[(d, n) := data]> fm) rest _) as (m' & E & Hd') end.
    { constructor; try done. by apply (commit_run _ _ _ _ Hf1 He1 s3 first data l'). }
    exists m'. split; [exact E|]. by left.
Qed.

(** ** fdel *)

Definition yes (ans : list Z) : Prop := head ans = Some 121 ∨ head ans = Some 89.
#[local] Instance yes_dec ans : Decision (yes ans).
Proof. unfold yes. apply _. Defined.

Lemma declined_run b ans : cstr b ans → declined b = Some (bool_decide (¬ yes ans)).
Proof.
  intros Hb. unfold declined. rewrite (cstr_ld _ _ Hb). cbn [mbind option_bind]. f_equal.
  symmetry. unfold yes. destruct ans as [|c ans]; cbn [hd head].
  { by apply bool_decide_true; intros [[=]|[=]]. }
  destruct (Z.eqb_spec c 121) as [->|]; [by apply bool_decide_false; intros []; left|].
  destruct (Z.eqb_spec c 89) as [->|]; [by apply bool_decide_false; intros []; right|].
  by apply bool_decide_true; intros [[=]|[=]].
Qed.

(** A missing file or an answer other than y leaves the files as they are. *)
Definition delete_result m fm (d n inp : list Z) (o : outcome machine unit) : Prop :=
  match fm !! (d, n) with
  | None => ∃ m', o = Ret tt m' ∧ fs_done m m' fm inp
  | Some _ =>
      match edit_line (λ _, true) 4 [] inp with
      | None => ∃ m', o = Blocked m'
      | Some (ans, rest) =>
          ∃ m', o = Ret tt m' ∧
            fs_done m m' (if decide (yes ans) then delete (d, n) fm else fm) rest
      end
  end.

Lemma fs_delete_run m fm inp nb n db d :
  fs_rep (m_fs m) fm → io_rep (m_io m) inp → cstr nb n → cstr db d → n ≠ [] →
  delete_result m fm d n inp (fs_delete nb db m).
Proof.
  intros Hf Hi Hn Hd Hne. unfold fs_delete, delete_result.
  rewrite (bind_lift _ _ _ _ (kstrlen_cstr _ _ Hn)), name_nonempty by done.
  destruct (find_file_run _ _ nb n db d Hf Hn Hd) as (r & E & Hr).
  rewrite (bind_onfs _ _ _ _ _ E), set_fs_id. clear E.
  destruct Hr as [(e & l & Hrange & He & Hl & Hm)|[-> Hm]]; rewrite Hm.
  2:{ eapply complain_done; [apply _|by apply fs_done_refl]. }
  rewrite found_range by done. print_cmd Hi i1 Hi1.
  pose proof (read_with_run (λ _, true) 4 (uninit 4) i1 inp Hi1 eq_refl ltac:(lia)) as Hread.
  destruct (edit_line (λ _, true) 4 [] inp) as [[ans rest]|].
  2:{ destruct Hread as [i' Ec]. eexists. by apply onio_blocked. }
  destruct Hread as (buf & i2 & Er & Hc & _ & _ & Hi2 & _).
  rewrite (bind_onio _ _ _ _ _ (Er : readline _ _ (m_io (set_io i1 m)) = _)).
  rewrite (bind_lift _ _ _ _ (declined_run _ _ Hc)).
  case_bool_decide as Hy; [rewrite decide_False by done|rewrite decide_True by tauto].
  { eapply say_done; [apply _|]. by constructor. }
  rewrite (bind_rd_file _ _ _ _ (He : zget (files (m_fs (set_io i2 (set_io i1 m)))) _ = _)).
  destruct (free_file_run _ _ r e n d l Hf He Hl) as (f & Ef & Hk & _).
  rewrite (bind_onfs _ _ _ _ _ (Ef : free_chain _ (m_fs (set_io i2 (set_io i1 m))) = _)).
  pose proof (slot_shape _ _ _ _ Hf He) as (Hnl & Hdl & _). destruct Hl as [Hu Hen Hed _ _].
  erewrite bind_upd_file; [|exact He|rewrite zset_upd by (rewrite Hnl; unfold FS_NAME_LEN; lia); reflexivity].
  eapply confirm_done; [apply _|]. constructor; try done.
  apply (clear_run_slot _ _ _ _ Hf He (set_fat f (m_fs m))); try done.
  - right. split; [done|]. by exists n, d.
  - split_and!; simpl; rewrite ?zlen_upd; try done; unfold FAT_END; lia.
Qed.

(** ** rename *)

(** The map after [rename]: unchanged when the file is missing or the new name
    is taken. *)
Definition renamed fm (d n n' : list Z) : afs :=
  match fm !! (d, n), fm !! (d, n') with
  | Some v, None => <[(d, n') := v]> (delete (d, n) fm)
  | _, _ => fm
  end.

Lemma fs_rename_run m fm inp nb n nb' n' db d :
  fs_rep (m_fs m) fm → io_rep (m_io m) inp → cstr nb n → cstr nb' n' → cstr db d →
  n ≠ [] → n' ≠ [] → short n' →
  ∃ m', fs_rename nb nb' db m = Ret tt m' ∧ fs_done m m' (renamed fm d n n') inp.
Proof.
  intros Hf Hi Hn Hn' Hd Hne Hne' Sn. unfold fs_rename, renamed.
  rewrite (bind_lift _ _ _ _ (kstrlen_cstr _ _ Hn)), name_nonempty by done.
  rewrite (bind_lift _ _ _ _ (kstrlen_cstr _ _ Hn')), name_nonempty by done. cbn [orb].
  destruct (find_file_run _ _ nb n db d Hf Hn Hd) as (r & E & Hr).
  rewrite (bind_onfs _ _ _ _ _ E), set_fs_id. clear E.
  destruct Hr as [(e & l & Hrange & He & Hl & Hm)|[-> Hm]]; rewrite Hm.
  2:{ eapply complain_done; [apply _|by apply fs_done_refl]. }
  rewrite found_range by done.
  destruct (find_file_run _ _ nb' n' db d Hf Hn' Hd) as (r' & E & Hr').
  rewrite (bind_onfs _ _ _ _ _ E), set_fs_id. clear E.
  destruct Hr' as [(e' & l' & Hrange' & _ & _ & Hm')|[-> Hm']]; rewrite Hm'.
  { destruct (Z.ltb_spec r' FS_MAX_FILES); [|lia].
    eapply complain_done; [apply _|by apply fs_done_refl]. }
  rewrite Z.ltb_irrefl. pose proof (slot_shape _ _ _ _ Hf He) as Hsh. pose proof Hsh as (Hnl & Hdl & Hfr & Hsz).
  destruct (set_name_run e nb' n' Hsh Hn' Sn) as (b & Es & Hc & Hbl).
  rewrite (bind_upd_file _ _ _ _ _ _ He Es).
  eapply confirm_done; [apply _|]. constructor; try done.
  set (e2 := Entry b _ _ _ _). set (s2 := set_files _ _).
  assert (Hl2 : live s2 e2 n' d l) by (destruct Hl; by constructor).
  change (contents (m_fs m) e l) with (contents s2 e2 l).
  apply (rep_update_live (m_fs m) s2 fm (delete (d, n) fm) r e e2); try done.
  - apply fs_shape_upd_file; [apply Hf|done].
  - right. destruct Hl. split; [done|]. by exists n, d.
  - rewrite lookup_delete_ne; [done|]. intros [= ->]. congruence.
  - intros j ej nj dj lj x Hj Hej Hlj Hx Hxj. apply Hj. by eapply (rep_disj _ _ Hf j r).
Qed.

(** ** copy *)

(** The possible ends of [copy]. *)
Definition copy_result m fm (d n n' inp : list Z) (o : outcome machine unit) : Prop :=
  ∃ m', o = Ret tt m' ∧
    match fm !! (d, n), fm !! (d, n') with
    | Some v, None =>
        (slots_full (m_fs m) ∧ fs_done m m' fm inp) ∨
        (disk_full (m_fs m') ∧ fs_done m m' fm inp) ∨
        fs_done m m' (<[(d, n') := v]> fm) inp
    | _, _ => fs_done m m' fm inp
    end.

(** A failed store loses no file. *)
Lemma lost_blocks s fm idx e s' :
  fs_rep s fm → zget (files s) idx = Some e → dead e → keeps s idx s' → files s' = files s →
  fs_rep s' fm.
Proof.
  intros Hf He Hd Hk Hfs.
  assert (Es : s' = set_files (upd (files s') idx e) s').
  { rewrite upd_id by by rewrite Hfs. by destruct s'. }
  rewrite Es. apply (clear_run_slot _ _ _ _ Hf He); try done; [by left|].
  by apply (slot_shape _ _ _ _ Hf He).
Qed.

(** The second half, into a free slot [t]. *)
Lemma copy_into_run m fm inp nb n nb' n' db d r t e l e0 :
  fs_rep (m_fs m) fm → io_rep (m_io m) inp → cstr nb n → cstr nb' n' → cstr db d →
  short n' → short d → zget (files (m_fs m)) r = Some e → live (m_fs m) e n d l →
  fm !! (d, n') = None → zget (files (m_fs m)) t = Some e0 → dead e0 →
  ∃ m', copy_into nb nb' db r t m = Ret tt m' ∧
    ((disk_full (m_fs m') ∧ fs_done m m' fm inp) ∨
     fs_done m m' (<[(d, n') := contents (m_fs m) e l]> fm) inp).
Proof.
  intros Hf Hi Hn Hn' Hd Sn Sd He Hl Hm' He0 Hdead. unfold copy_into.
  rewrite (bind_rd_file _ _ _ _ He). steps.
  pose proof (rep_shape _ _ Hf) as Hsh.
  destruct (gather_holds (m_fs m) e n d l (ctmp (m_fs m)) Hsh Hl (sh_ctmp _ Hsh))
    as (tmp & Eg & Htmp & Hlen & Hle).
  rewrite (bind_onfs _ _ _ _ _ Eg), set_fs_id.
  rewrite (bind_onfs _ _ _ tt (set_ctmp tmp (m_fs m))) by reflexivity.
  set (s1 := set_ctmp tmp (m_fs m)).
  assert (Hsame : same_store (m_fs m) s1)
    by (split_and!; try done; simpl; rewrite (sh_ctmp _ Hsh); apply Htmp).
  assert (Hf1 : fs_rep s1 fm) by by eapply same_store_rep.
  assert (He1 : zget (files s1) t = Some e0) by done.
  rewrite <-Hlen.
  destruct (store_run s1 t (set_fs s1 m) tmp (contents (m_fs m) e l))
    as (first & s3 & Es & Hk3 & Hfs & Hres); [by apply keeps_refl, Hf1|done..|].
  step Es. clear Es. destruct Hres as [[-> Hfull]|[l' Hfr]].
  - rewrite Z.eqb_refl.
    match goal with |- context [complain ?c ?m1] =>
      destruct (complain_run c _ m1 inp _ Hi) as (i & E & Hi' & _) end.
    eexists. split; [exact E|]. left. split; [done|].
    constructor; try done. by apply (lost_blocks s1 fm t e0).
  - destruct (fresh_first _ _ _ _ _ _ Hfr) as [Hn8 Hr16]. apply Z.eqb_neq in Hn8. rewrite Hn8.
    match goal with |- context [(_ ≫= ?k) ?m1] => set (m3 := m1) end.
    match goal with |- context [λ d0, Some (set_used 1 (?g d0))] => set (upd3 := g) end.
    destruct (bind_new_entry m3 t nb' n' db d e0 (λ x, set_used 1 (upd3 x))
      (λ _, confirm (vga_write (lit "  [copy] '");; vga_write nb;;
                   vga_write (lit "' -> '");; vga_write nb';; vga_writeln (lit "'"))))
      as (b1 & b2 & E3 & Hc1 & Hc2 & Hl1 & Hl2); [by change (m_fs m3) with s3; rewrite Hfs|
        by apply (slot_shape _ _ _ _ Hf He0)|done..|].
    rewrite E3. clear E3.
    match goal with |- context [confirm ?c ?m1] =>
      destruct (confirm_done c _ m m1 (<[(d, n') := contents (m_fs m) e l]> fm) inp _)
        as (m' & E & Hd') end; [|exists m'; split; [exact E|]; by right].
    constructor; try done.
    apply (place_run _ _ _ _ Hf1 He1 s3 first (contents (m_fs m) e l) l'); try done; simpl.
    + by left.
    + apply Z.mod_small. lia.
    + apply Z.mod_small. rewrite tmp_size_val, block_size_val in Hle.
      pose proof (zlen_nonneg (contents (m_fs m) e l)). lia.
Qed.
Lemma fs_copy_run m fm inp nb n nb' n' db d :
  fs_rep (m_fs m) fm → io_rep (m_io m) inp → cstr nb n → cstr nb' n' → cstr db d →
  n ≠ [] → n' ≠ [] → short n' → short d →
  copy_result m fm d n n' inp (fs_copy nb nb' db m).
Proof.
  intros Hf Hi Hn Hn' Hd Hne Hne' Sn Sd. unfold fs_copy, copy_result.
  rewrite (bind_lift _ _ _ _ (kstrlen_cstr _ _ Hn)), name_nonempty by done.
  rewrite (bind_lift _ _ _ _ (kstrlen_cstr _ _ Hn')), name_nonempty by done. cbn [orb].
  destruct (find_file_run _ _ nb n db d Hf Hn Hd) as (r & E & Hr).
  rewrite (bind_onfs _ _ _ _ _ E), set_fs_id. clear E.
  destruct Hr as [(e & l & Hrange & He & Hl & Hm)|[-> Hm]]; rewrite Hm.
  2:{ eapply complain_done; [apply _|by apply fs_done_refl]. }
  rewrite found_range by done.
  destruct (find_file_run _ _ nb' n' db d Hf Hn' Hd) as (r' & E & Hr').
  rewrite (bind_onfs _ _ _ _ _ E), set_fs_id. clear E.
  destruct Hr' as [(e' & l' & Hrange' & _ & _ & Hm')|[-> Hm']]; rewrite Hm'.
  { destruct (Z.ltb_spec r' FS_MAX_FILES); [|lia].
    eapply complain_done; [apply _|by apply fs_done_refl]. }
  rewrite Z.ltb_irrefl. destruct (find_free_slot_run _ _ Hf) as (t & E & Ht).
  rewrite (bind_onfs _ _ _ _ _ E), set_fs_id. clear E.
  destruct Ht as [(e0 & Hrange0 & He0 & Hdead)|[-> Hall]].
  2:{ rewrite Z.eqb_refl. match goal with |- context [complain ?c ?m1] =>
        destruct (complain_done c _ m m1 fm inp _) as (m' & E & Hd') end;
        [by apply fs_done_refl|]. exists m'. split; [exact E|]. by left. }
  rewrite found_range by done.
  destruct (copy_into_run m fm inp nb n nb' n' db d r t e l e0) as (m' & E & Hr); [done..|].
  exists m'. split; [exact E|]. by right.
Qed.
End spec.
