(* ===== verification/FsOutput.v ===== *)
(** * What fread and ls print *)

From S2P Require Import Prelude CString Vga Console Keyboard Io IoSpec Fat FatRep DirTable LineInput Machine Fs FsStore FsSpec.

(** Text with the indent of fread after every newline. *)
Definition indent (s : list Z) : list Z :=
  concat ((λ c, if c =? 10 then [10; 32; 32] else [c]) <$> s).

Lemma indent_app s t : indent (s ++ t) = indent s ++ indent t.
Proof. unfold indent. by rewrite fmap_app, concat_app. Qed.

Lemma indent_one c : indent [c] = if c =? 10 then [10; 32; 32] else [c].
Proof. unfold indent. simpl. apply app_nil_r. Qed.

Section output.
Context `{B : Bus, L : !PcLaws B}.
Implicit Types (m : machine) (fm : afs).

Lemma print_block_run b n k v :
  vga_wf v → (k + n ≤ length b)%nat →
  for_each (range (Z.of_nat k) n) (λ i,
    c ← lift_opt (zget b i); vga_putchar c;;
    if c =? 10 then vga_write (lit "  ") else mret tt) v
  = Ret tt (term_puts v (indent (take n (drop k b)))).
Proof.
  revert k v. induction n as [|n IH]; intros k v Hv Hn; [done|].
  rewrite range_S. cbn [for_each]. rewrite bind_assoc.
  destruct (lookup_lt_is_Some_2 b k) as [c Hc]; [lia|].
  rewrite (bind_lift _ c) by by rewrite zget_nat.
  rewrite bind_assoc. step (putchar_run c v Hv).
  rewrite (drop_S _ c) by done. cbn [take].
  change (c :: take n (drop (S k) b)) with ([c] ++ take n (drop (S k) b)).
  rewrite indent_app, term_puts_app, indent_one.
  replace (Z.of_nat k + 1) with (Z.of_nat (S k)) by lia.
  destruct (Z.eqb_spec c 10) as [->|].
  - erewrite bind_ret by (apply (write_run (lit "  ") [32; 32]);
      [auto with dugos|apply cstr_lit, lit_ok_chars; done]).
    rewrite IH by (auto with dugos || lia). done.
  - steps. rewrite IH by (auto with dugos || lia). done.
Qed.

#[local] Instance prints_block b chunk :
  IsU32 chunk → TCEq (chunk <=? zlen b) true →
  Prints (print_block b chunk) [CText (indent (take (Z.to_nat chunk) b))].
Proof.
  intros Hc Hl v Hv. apply TCEq_eq in Hl. bools. unfold IsU32, zlen in *.
  apply (print_block_run b (Z.to_nat chunk) 0 v Hv). lia.
Qed.

Lemma print_loop fuel l left_ m inp :
  fs_shape (m_fs m) → links (fat (m_fs m)) l → fits left_ l → left_ < 2 ^ 32 →
  (length l < fuel)%nat → io_rep (m_io m) inp →
  ∃ i, loop fuel print_step (hd FAT_END l, left_) m = Ret tt (set_io i m) ∧
    emits (m_io m) [CText (indent (take (Z.to_nat left_) (chain_data (m_fs m) l)))] i inp.
Proof.
  revert l left_ m. induction fuel as [|fuel IH]; intros l lf m Hs HL Hfit H32 Hf Hi; [lia|].
  rewrite loop_S. cbn [print_step]. destruct l as [|b l].
  { destruct Hfit as [Hr _]. change (zlen (@nil Z)) with 0 in Hr. cbn [hd].
    change (FAT_END <? FS_N_BLOCKS) with false. cbn [andb]. steps.
    exists (m_io m). replace lf with 0 by lia. split; [by destruct m|]. by apply emits_quiet. }
  pose proof HL as (Hb & Hn & _ & HL').
  destruct (block_get _ b Hs Hb) as (d & Hd & Hdok).
  destruct (fits_chunk _ b l d lf Hd Hdok Hfit) as (Hc1 & Hc2 & Hfit' & Htk). cbv zeta in *.
  cbn [hd]. destruct (Z.ltb_spec b FS_N_BLOCKS); [|lia].
  destruct (Z.ltb_spec 0 lf); [|lia]. cbn [andb].
  set (chunk := if lf <? FS_BLOCK_SIZE then lf else FS_BLOCK_SIZE) in *.
  rewrite bind_assoc. steps. rewrite bind_assoc, (bind_lift _ _ _ _ Hd).
  assert (IsU32 chunk) by (red; lia).
  assert (TCEq (chunk <=? zlen d) true) by (apply TCEq_eq, Z.leb_le; lia).
  destruct (say_run (print_block d chunk) _ m inp _ Hi) as (i1 & E1 & He1).
  rewrite bind_assoc. step E1. rewrite bind_assoc.
  rewrite (bind_onfs _ _ _ _ _ (rd_fat_run b _ (m_fs (set_io i1 m)) Hn)). steps.
  destruct (IH l (lf - chunk) (set_io i1 m)) as (i2 & E2 & He2);
    [done..|lia|simpl in Hf; lia|apply He1|].
  exists i2. split; [exact E2|]. rewrite Htk, indent_app. by eapply emits_text.
Qed.

(** The screen text of fread for a file [n] with contents [c]. *)
Definition fread_screen (n c : list Z) : list citem :=
  [CColor VGA_LIGHT_CYAN VGA_BLACK; CText (chars "  ---- "); CText n; line " ----";
   CColor VGA_WHITE VGA_BLACK] ++
  (if decide (c = []) then [line "  (empty file)"]
   else [CText (chars "  "); CText (indent c); CText [10]]) ++
  [CColor VGA_LIGHT_CYAN VGA_BLACK; line "  ---- EOF ----"; CColor VGA_WHITE VGA_BLACK].

(** A file is empty exactly when one of the two tests of fread says so. *)
Lemma empty_test s e n d l :
  fs_shape s → live s e n d l →
  (e_first e =? FAT_END) || (e_size e =? 0) = bool_decide (contents s e l = []).
Proof.
  intros Hs [_ _ _ [Hf HL] [Hr Ht]]. pose proof block_size_val.
  pose proof (chain_data_length _ _ Hs HL) as Hcl. destruct l as [|b l]; simpl in Hf.
  - rewrite Hf. unfold contents. simpl. by destruct (Z.to_nat (e_size e)).
  - specialize (Ht ltac:(done)). rewrite zlen_cons in Ht. pose proof (zlen_nonneg l).
    destruct HL as [Hb _]. rewrite Hf. unfold FS_N_BLOCKS, FAT_END in *.
    rewrite (proj2 (Z.eqb_neq b _)), (proj2 (Z.eqb_neq (e_size e) 0)) by nia. cbn [orb].
    symmetry. apply bool_decide_false. intros E%(f_equal length). unfold contents in E.
    rewrite length_take, Hcl in E. unfold zlen in *. simpl length in *. nia.
Qed.

(** The screen of fread and nothing else changes. *)
Definition read_result m fm (d n inp : list Z) (o : outcome machine unit) : Prop :=
  ∃ i, o = Ret tt (set_io i m) ∧
    emits (m_io m)
      (match fm !! (d, n) with
       | Some c => fread_screen n c
       | None => red [CText (chars "  [fread] Error: file not found: "); CText (n ++ [10])]
       end) i inp.

Lemma fs_read_run m fm inp nb n db d :
  fs_rep (m_fs m) fm → io_rep (m_io m) inp → cstr nb n → cstr db d → n ≠ [] →
  read_result m fm d n inp (fs_read nb db m).
Proof.
  intros Hf Hi Hn Hd Hne. unfold fs_read, read_result.
  rewrite (bind_lift _ _ _ _ (kstrlen_cstr _ _ Hn)), name_nonempty by done.
  destruct (find_file_run _ _ nb n db d Hf Hn Hd) as (r & E & Hr).
  rewrite (bind_onfs _ _ _ _ _ E), set_fs_id. clear E.
  destruct Hr as [(e & l & Hrange & He & Hl & Hm)|[-> Hm]]; rewrite Hm.
  2:{ rewrite Z.eqb_refl. match goal with |- context [complain ?c m] =>
        destruct (complain_run c _ m inp _ Hi) as (i & E & He) end. by exists i. }
  rewrite found_range by done.
  match goal with |- context [(say ?c ≫= _) m] =>
    destruct (say_run c _ m inp _ Hi) as (i1 & E1 & He1); step E1; clear E1 end.
  rewrite (bind_rd_file _ _ _ _ (He : zget (files (m_fs (set_io i1 m))) _ = _)).
  rewrite (empty_test _ _ _ _ _ (rep_shape _ _ Hf) Hl).
  pose proof (slot_shape _ _ _ _ Hf He) as (_ & _ & _ & Hsz).
  assert (Hbody : ∃ i2, (if bool_decide (contents (m_fs m) e l = []) then say (vga_writeln (lit "  (empty file)"))
     else say (vga_write (lit "  "));;
       loop (Z.to_nat (e_size e / FS_BLOCK_SIZE + 3)) print_step (e_first e, e_size e);;
       say (vga_putchar 10)) (set_io i1 m) = Ret tt (set_io i2 m) ∧
     emits i1 (if decide (contents (m_fs m) e l = []) then [line "  (empty file)"]
       else [CText (chars "  "); CText (indent (contents (m_fs m) e l)); CText [10]]) i2 inp).
  { case_bool_decide; destruct decide; try done.
    - apply (say_run _ _ (set_io i1 m)); [apply _|apply He1].
    - destruct (say_run (vga_write (lit "  ")) _ (set_io i1 m) inp _ (proj1 He1)) as (i2 & E2 & He2).
      step E2. destruct Hl as [_ _ _ [Hfst HL] Hfit]. rewrite Hfst.
      destruct (print_loop (Z.to_nat (e_size e / FS_BLOCK_SIZE + 3)) l (e_size e) (set_io i2 m) inp)
        as (i3 & E3 & He3); [apply Hf|done..|lia|by apply fits_fuel|apply He2|]. step E3.
      destruct (say_run (vga_putchar 10) _ (set_io i3 m) inp _ (proj1 He3)) as (i4 & E4 & He4).
      exists i4. split; [exact E4|].
      eapply (emits_trans _ [_] _ _ [_; _]); [exact He2|]. by eapply (emits_trans _ [_] _ _ [_]). }
  destruct Hbody as (i2 & E2 & He2). step E2.
  match goal with |- context [say ?c ?m1] =>
    destruct (say_run c _ m1 inp _ (proj1 He2 : io_rep (m_io m1) inp)) as (i3 & E3 & He3) end.
  exists i3. split; [exact E3|]. unfold fread_screen.
  eapply emits_trans; [exact He1|]. by eapply emits_trans.
Qed.

(** ** ls *)

(** The name and size of the file in slot [i], if it lies in [d]. *)
Definition slot_file (s : fs_state) (d : list Z) (i : Z) : option (list Z * Z) :=
  e ← zget (files s) i;
  n ← cstring (e_name e);
  if negb (e_used e =? 0) && bool_decide (cstring (e_dir e) = Some d)
  then Some (n, e_size e) else None.

Definition listed (s : fs_state) (d : list Z) : list (list Z * Z) :=
  omap (slot_file s d) (range 0 32).

Definition file_line : list Z * Z → list citem :=
  λ '(n, z), [CText (chars "  "); CText n; CText (chars "  ("); CText (dec_string z); line " bytes)"].

Definition listing (l : list (list Z * Z)) : list citem :=
  match l with
  | [] => [line "  (no files in this directory)"]
  | _ => concat (file_line <$> l)
  end.

(** The listed files are those of the directory, with their sizes. *)
Lemma listed_spec s fm d n z :
  fs_rep s fm → (n, z) ∈ listed s d ↔ ∃ c, fm !! (d, n) = Some c ∧ z = zlen c.
Proof.
  intros Hf. pose proof (rep_shape _ _ Hf) as Hs.
  assert (Hlen : ∀ e n d l, live s e n d l → zlen (contents s e l) = e_size e).
  { intros e n' d' l Hl. destruct (gather_holds s e n' d' l (ctmp s) Hs Hl (sh_ctmp _ Hs))
      as (_ & _ & _ & ? & _). done. }
  unfold listed. rewrite list_elem_of_omap. split.
  - intros (i & Hi & E). unfold slot_file in E.
    destruct (zget (files s) i) as [e|] eqn:He; simpl in E; [|done].
    destruct (cstring (e_name e)) as [n'|] eqn:En; simpl in E; [|done].
    destruct (negb _ && _) eqn:Et; [|done]. injection E as -> <-.
    apply andb_true_iff in Et as [Hu Hd]. bools. apply bool_decide_eq_true in Hd.
    destruct (rep_slot _ _ Hf i e He) as [[? _]|(n2 & d2 & l & Hl & Hm)]; [done|].
    apply cstring_spec in En, Hd. destruct (Hl) as [_ Hn2 Hd2 _ _].
    rewrite (cstr_fun _ _ _ En Hn2), (cstr_fun _ _ _ Hd Hd2).
    exists (contents s e l). split; [done|]. symmetry. by eapply Hlen.
  - intros (c & Hm & ->). destruct (rep_key _ _ Hf d n c Hm) as (i & e & l & He & Hl).
    destruct (rep_slot _ _ Hf i e He) as [[? _]|(n2 & d2 & l2 & Hl2 & Hm2)];
      [by destruct Hl|].
    destruct (live_fun _ _ _ _ _ _ _ _ Hl Hl2) as (<- & <- & <-).
    exists i. split.
    + apply elem_of_seqZ. pose proof (zget_Some_range _ _ _ He).
      rewrite (sh_files _ Hs) in *. unfold FS_MAX_FILES in *. lia.
    + unfold slot_file. rewrite He. simpl. destruct (Hl) as [Hu Hn Hd _ _].
      apply cstring_spec in Hn, Hd. rewrite Hn, Hd. simpl.
      rewrite bool_decide_true by done. apply Z.eqb_neq in Hu. rewrite Hu. simpl.
      rewrite Hm in Hm2. injection Hm2 as ->. by rewrite (Hlen _ _ _ _ Hl).
Qed.

Lemma list_one_run m fm inp db d i :
  fs_rep (m_fs m) fm → io_rep (m_io m) inp → cstr db d → 0 ≤ i < 32 →
  ∃ i', list_one db i m =
      Ret (match slot_file (m_fs m) d i with Some _ => 1 | None => 0 end) (set_io i' m) ∧
    emits (m_io m) (from_option file_line [] (slot_file (m_fs m) d i)) i' inp.
Proof.
  intros Hf Hi Hd Hir. unfold list_one, slot_file.
  destruct (file_get (m_fs m) i (rep_shape _ _ Hf) Hir) as (e & He & _ & _ & _ & Hsz).
  rewrite (bind_rd_file _ _ _ _ He), He. cbn [mbind option_bind].
  assert (Hquiet : ∃ i', (mret 0 : M machine Z) m = Ret 0 (set_io i' m) ∧ emits (m_io m) [] i' inp).
  { exists (m_io m). split; [by destruct m|]. by apply emits_quiet. }
  destruct (rep_slot _ _ Hf i e He) as [[Hu _]|(n & d' & l & Hl & Hm)].
  { rewrite Hu. by destruct (cstring (e_name e)). }
  destruct Hl as [Hu Hn Hd' _ _]. apply Z.eqb_neq in Hu. rewrite Hu. cbn [negb].
  destruct (kstrcmp_test _ _ _ _ Hd' Hd) as (r & Er & Hr). rewrite (bind_lift _ _ _ _ Er), Hr.
  rewrite (proj2 (cstring_spec _ _) Hn), (proj2 (cstring_spec _ _) Hd').
  cbn [mbind option_bind andb negb].
  rewrite bool_decide_Some. case_bool_decide; cbn [andb negb from_option file_line]; [|done].
  assert (IsU32 (e_size e)) by (red; lia).
  match goal with |- context [(say ?c ≫= _) m] =>
    destruct (say_run c _ m inp _ Hi) as (i1 & E1 & He1) end.
  step E1. exists i1. split; [reflexivity|exact He1].
Qed.

Lemma list_files_run is_ m fm inp db d k :
  fs_rep (m_fs m) fm → io_rep (m_io m) inp → cstr db d → (∀ i, i ∈ is_ → 0 ≤ i < 32) →
  ∃ i', list_files db is_ k m =
      Ret (k + zlen (omap (slot_file (m_fs m) d) is_)) (set_io i' m) ∧
    emits (m_io m) (concat (file_line <$> omap (slot_file (m_fs m) d) is_)) i' inp.
Proof.
  revert m k. induction is_ as [|i is_ IH]; intros m k Hf Hi Hd Hr.
  { exists (m_io m). simpl. rewrite Z.add_0_r. split; [by destruct m|]. by apply emits_quiet. }
  cbn [list_files]. destruct (list_one_run m fm inp db d i) as (i1 & E1 & He1); [done..|set_solver|].
  step E1. destruct (IH (set_io i1 m) (k + (match slot_file (m_fs m) d i with Some _ => 1 | None => 0 end)))
    as (i2 & E2 & He2); [done|apply He1|done|set_solver|].
  exists i2. rewrite E2. cbn [omap list_omap]. simpl m_fs in *.
  destruct (slot_file (m_fs m) d i) as [x|]; cbn [from_option] in He1.
  - split; [rewrite zlen_cons; f_equal; lia|]. rewrite fmap_cons. cbn [concat].
    by eapply emits_trans.
  - split; [f_equal; lia|]. by eapply (emits_trans _ []).
Qed.

Lemma fs_list_run m fm inp db d :
  fs_rep (m_fs m) fm → io_rep (m_io m) inp → cstr db d →
  ∃ i', fs_list db m = Ret tt (set_io i' m) ∧
    emits (m_io m) (listing (listed (m_fs m) d)) i' inp.
Proof.
  intros Hf Hi Hd. unfold fs_list, listed.
  destruct (list_files_run (range 0 32) m fm inp db d 0) as (i1 & E1 & He1); try done.
  { intros i Hi'%elem_of_seqZ. lia. }
  change (Z.to_nat FS_MAX_FILES) with 32%nat. step E1.
  destruct (omap (slot_file (m_fs m) d) (range 0 32)) as [|x l].
  - destruct (say_run (vga_writeln (lit "  (no files in this directory)")) _ (set_io i1 m) inp _ (proj1 He1))
      as (i2 & E2 & He2). exists i2. split; [exact E2|]. by eapply (emits_trans _ []).
  - rewrite zlen_cons. pose proof (zlen_nonneg l).
    rewrite (proj2 (Z.eqb_neq _ 0)) by lia. by exists i1.
Qed.
End output.
