(* ===== verification/Dir.v ===== *)
(** * dir.c: the directory commands *)

From S2P Require Import Prelude CString Vga Console Keyboard Io IoSpec Fat DirTable LineInput Machine Fs.

Section dir.
Context `{B : Bus}.

Definition dir_mkdir (name : list Z) : M machine unit :=
  nlen ← lift_opt (kstrlen name);
  if nlen =? 0 then complain (vga_writeln (lit "  [mkdir] Error: usage: mkdir <dirname>")) else
  count ← gets (λ m, dir_count (m_dir m));
  if DIR_MAX <=? count then
    complain (vga_writeln (lit "  [mkdir] Error: maximum number of directories reached"))
  else
    newpath ← ondir (build_path (uninit DIR_NAME_LEN) name);
    idx ← ondir (find_dir newpath);
    if idx <? DIR_MAX then
      complain (vga_write (lit "  [mkdir] Error: directory already exists: ");;
                vga_writeln newpath)
    else
      ondir (dir_add newpath);;
      confirm (vga_write (lit "  [mkdir] Directory '");; vga_write newpath;;
               vga_writeln (lit "' created.")).

(** The path [dir_cd] looks up. *)
Definition cd_path (target : list Z) : M dir_state (list Z) :=
  r ← lift_opt (kstrcmp target (lit ".."));
  if r =? 0 then
    cwd ← dir_getcwd;
    lift_opt (parent_path (uninit DIR_NAME_LEN) cwd)
  else
    r2 ← lift_opt (kstrcmp target (lit "/"));
    if r2 =? 0 then
      lift_opt (o ← zset (uninit DIR_NAME_LEN) 0 slash; zset o 1 0)
    else build_path (uninit DIR_NAME_LEN) target.

Definition dir_cd (target : list Z) : M machine unit :=
  tlen ← lift_opt (kstrlen target);
  if tlen =? 0 then complain (vga_writeln (lit "  [cd] Error: usage: cd <dirname>")) else
  newpath ← ondir (cd_path target);
  idx ← ondir (find_dir newpath);
  if idx =? DIR_MAX then
    complain (vga_write (lit "  [cd] Error: directory not found: ");; vga_writeln newpath)
  else
    ondir (modify (λ s, DIR (dirs s) (dir_count s) idx));;
    cwd ← ondir dir_getcwd;
    confirm (vga_write (lit "  [cd] Now in: ");; vga_writeln cwd).

(** dir.c has its own copy of the line reader of fs.c. *)
Definition dir_readline : list Z → Z → M io (list Z * Z) := readline.

(** The end of [dir_rmdir]: the question and the removal. *)
Definition rmdir_ask (target : list Z) (idx : Z) : M machine unit :=
  say (vga_write (lit "  Delete directory '");; vga_write target;; vga_write (lit "'? (y/n): "));;
  '(ans, _) ← onio (dir_readline (uninit 4) 4);
  no ← lift_opt (declined ans);
  if (no : bool) then say (vga_writeln (lit "  [rmdir] Cancelled."))
  else
    ondir (dir_remove idx);;
    confirm (vga_write (lit "  [rmdir] '");; vga_write target;; vga_writeln (lit "' removed.")).

Definition dir_rmdir (name : list Z) : M machine unit :=
  nlen ← lift_opt (kstrlen name);
  if nlen =? 0 then complain (vga_writeln (lit "  [rmdir] Error: usage: rmdir <dirname>")) else
  target ← ondir (build_path (uninit DIR_NAME_LEN) name);
  r ← lift_opt (kstrcmp target (lit "/"));
  if r =? 0 then
    complain (vga_writeln (lit "  [rmdir] Error: cannot remove root directory"))
  else
  idx ← ondir (find_dir target);
  if idx =? DIR_MAX then
    complain (vga_write (lit "  [rmdir] Error: directory not found: ");; vga_writeln target)
  else
  cwd ← gets (λ m, cwd_idx (m_dir m));
  if idx =? cwd then
    complain (vga_writeln (lit "  [rmdir] Error: cannot remove current working directory"))
  else
  empty ← onfs (fs_dir_empty target);
  if empty =? 0 then
    complain (vga_write (lit "  [rmdir] Error: directory is not empty: ");; vga_writeln target)
  else
    rmdir_ask target idx.

(** One turn of the loop of [dir_ls] ([sub_count] has no effect). *)
Definition ls_sub (cwd : list Z) (i : Z) : M machine unit :=
  s ← gets m_dir;
  d ← lift_opt (zget (dirs s) i);
  c ← lift_opt (is_immediate_child d cwd);
  if negb (c =? 0) then say (vga_write (lit "  [DIR]  ");; vga_writeln d) else mret tt.

Definition dir_ls : M machine unit :=
  cwd ← ondir dir_getcwd;
  say (vga_set_color VGA_LIGHT_CYAN VGA_BLACK;;
       vga_write (lit "  Directory listing: ");; vga_writeln cwd;;
       vga_writeln (lit "");;
       vga_set_color VGA_WHITE VGA_BLACK);;
  n ← gets (λ m, dir_count (m_dir m));
  for_each (range 0 (Z.to_nat n)) (ls_sub cwd);;
  fs_list cwd.
End dir.

(** ** Specification *)

(** The part of a path before its last slash. *)
Fixpoint dirpart (p : list Z) : list Z :=
  match p with
  | [] => []
  | c :: p' => if bool_decide (slash ∈ p') then c :: dirpart p' else []
  end.

Lemma dirpart_spec p : slash ∈ p → ∃ n, p = dirpart p ++ slash :: n ∧ slash ∉ n.
Proof.
  induction p as [|c p IH]; [by intros ?%elem_of_nil|]. intros Hin. simpl.
  case_bool_decide as Hp.
  - destruct (IH Hp) as (n & E & Hn). exists n. split; [|done]. simpl. by rewrite <-E.
  - apply elem_of_cons in Hin as [<-|]; [|done]. by exists p.
Qed.

Definition dotdot : list Z := [46; 46].

(** Where [cd t] goes from [c]. *)
Definition cd_target (c t : list Z) : list Z :=
  if decide (t = dotdot) then parent (dirpart c)
  else if decide (t = root) then root
  else resolve c t.
