(* ===== verification/DirSpec.v ===== *)
(** * The directory commands on a table of paths *)

From S2P Require Import Prelude CString Vga Console Keyboard Io IoSpec Fat FatRep DirTable LineInput Machine Fs FsStore FsSpec FsOutput Dir.

Section spec.
Context `{B : Bus, L : !PcLaws B}.
Implicit Types (m : machine) (fm : afs) (ps : list (list Z)).

(** The table holds [ps] with current directory [c], the stream is [inp]; the
    rest is as in [m]. *)
Record dir_done m m' ps (c inp : list Z) : Prop := {
  dd_dir : dir_rep (m_dir m') ps;
  dd_cwd : cwd_of (m_dir m') ps = c;
  dd_io : io_rep (m_io m') inp;
  dd_fs : m_fs m' = m_fs m;
  dd_cmd : m_cmd m' = m_cmd m
}.

Lemma dir_done_refl m ps inp :
  dir_rep (m_dir m) ps → io_rep (m_io m) inp → dir_done m m ps (cwd_of (m_dir m) ps) inp.
Proof. by constructor. Qed.

Lemma dir_complain c tr m m1 ps cwd inp :
  Prints c tr → dir_done m m1 ps cwd inp → ∃ m', complain c m1 = Ret tt m' ∧ dir_done m m' ps cwd inp.
Proof.
  intros Hc []. destruct (complain_run c tr m1 inp) as (i & E & He & _); [done..|].
  eexists. split; [exact E|]. by constructor.
Qed.

Lemma dir_confirm c tr m m1 ps cwd inp :
  Prints c tr → dir_done m m1 ps cwd inp → ∃ m', confirm c m1 = Ret tt m' ∧ dir_done m m' ps cwd inp.
Proof.
  intros Hc []. destruct (confirm_run c tr m1 inp) as (i & E & He & _); [done..|].
  eexists. split; [exact E|]. by constructor.
Qed.

Lemma dir_say c tr m m1 ps cwd inp :
  Prints c tr → dir_done m m1 ps cwd inp → ∃ m', say c m1 = Ret tt m' ∧ dir_done m m' ps cwd inp.
Proof.
  intros Hc []. destruct (say_run c tr m1 inp) as (i & E & He & _); [done..|].
  eexists. split; [exact E|]. by constructor.
Qed.

(** ** mkdir *)

Definition made ps (p : list Z) : list (list Z) :=
  if decide (zlen ps = DIR_MAX) then ps else if decide (p ∈ ps) then ps else ps ++ [p].

Lemma length_uninit : length (uninit DIR_NAME_LEN) = 64%nat.
Proof. done. Qed.

Lemma cwd_of_app D ps p : 0 ≤ cwd_idx D < zlen ps → cwd_of D (ps ++ [p]) = cwd_of D ps.
Proof. intros. unfold cwd_of. by rewrite zget_app_l by lia. Qed.

Lemma cwd_valid D ps : dir_rep D ps → valid_path (cwd_of D ps).
Proof. intros HD. destruct (cwd_row D ps HD) as [Hp _]. by eapply dr_path. Qed.

Lemma dir_mkdir_run m ps inp nb n :
  dir_rep (m_dir m) ps → io_rep (m_io m) inp → cstr nb n → n ≠ [] →
  path_fits (cwd_of (m_dir m) ps) n →
  ∃ m', dir_mkdir nb m = Ret tt m' ∧
    dir_done m m' (made ps (resolve (cwd_of (m_dir m) ps) n)) (cwd_of (m_dir m) ps) inp.
Proof.
  intros HD Hi Hn Hne Hfit. unfold dir_mkdir, made. set (c := cwd_of (m_dir m) ps) in *.
  rewrite (bind_lift _ _ _ _ (kstrlen_cstr _ _ Hn)), name_nonempty by done. steps.
  rewrite (dr_count _ _ HD). pose proof (dr_max _ _ HD).
  destruct (Z.leb_spec DIR_MAX (zlen ps)); destruct decide; try lia.
  { eapply dir_complain; [apply _|by apply dir_done_refl]. }
  destruct (build_path_run (m_dir m) ps (uninit DIR_NAME_LEN) nb n HD Hn length_uninit Hne Hfit)
    as (pb & Eb & Hbl & Hb).
  rewrite (bind_ondir _ _ _ _ _ Eb), set_dir_id. fold c in Hb. set (p := resolve c n) in *.
  destruct (find_dir_run _ _ pb p HD Hb) as (r & Ef & Hr).
  rewrite (bind_ondir _ _ _ _ _ Ef), set_dir_id.
  destruct Hr as [[Hr Hp]|[-> Hp]].
  - destruct (Z.ltb_spec r DIR_MAX); [|lia].
    rewrite decide_True by by eapply zget_elem_of.
    eapply dir_complain; [apply _|by apply dir_done_refl].
  - rewrite Z.ltb_irrefl, decide_False by done.
    destruct (dir_add_run _ _ pb p HD Hb) as (D' & Ea & HD' & Hc'); [|done|lia|].
    { apply resolve_valid; try done; [by apply cwd_valid|apply Hn]. }
    rewrite (bind_ondir _ _ _ _ _ Ea). eapply dir_confirm; [apply _|].
    constructor; try done. simpl. unfold cwd_of. rewrite Hc'.
    apply (cwd_of_app (m_dir m)), HD.
Qed.

(** ** cd *)

Lemma cd_path_run D ps tb t :
  dir_rep D ps → cstr tb t → t ≠ [] →
  (t ≠ dotdot → path_fits (cwd_of D ps) t) →
  ∃ o, cd_path tb D = Ret o D ∧ cstr o (cd_target (cwd_of D ps) t).
Proof.
  intros HD Ht Hne Hfit. unfold cd_path, cd_target.
  assert (Hdd : cstr (lit "..") dotdot) by (apply cstr_lit, lit_ok_chars; done).
  destruct (kstrcmp_test _ _ _ _ Ht Hdd) as (r & Er & Hr). rewrite (bind_lift _ _ _ _ Er), Hr.
  case_bool_decide; destruct decide; try done.
  - destruct (getcwd_run D ps HD) as (cb & Ec & Hc). step Ec.
    destruct (cwd_valid D ps HD) as (HF & Hl & Hh).
    destruct (dirpart_spec (cwd_of D ps)) as (n & En & Hn).
    { destruct (cwd_of D ps); simpl in Hh; [done|]. simplify_eq. set_solver. }
    rewrite En in Hc, Hl. destruct (parent_path_run (uninit DIR_NAME_LEN) cb _ n length_uninit Hc Hn Hl)
      as (o & Eo & Ho & _).
    exists o. split; [by apply lift_opt_some|done].
  - destruct (kstrcmp_test _ _ _ _ Ht cstr_root) as (r2 & Er2 & Hr2).
    rewrite (bind_lift _ _ _ _ Er2), Hr2. case_bool_decide; destruct decide; try done.
    + eexists. split; [by apply lift_opt_some|]. apply (cstr_app0 root), valid_root.
    + destruct (build_path_run D ps (uninit DIR_NAME_LEN) tb t HD Ht length_uninit Hne)
        as (o & Eo & _ & Ho); [by apply Hfit|]. by exists o.
Qed.

(** The directory after [cd]: the target if it exists. *)
Definition went ps (c p : list Z) : list Z := if decide (p ∈ ps) then p else c.

Lemma dir_cd_run m ps inp tb t :
  dir_rep (m_dir m) ps → io_rep (m_io m) inp → cstr tb t → t ≠ [] →
  (t ≠ dotdot → path_fits (cwd_of (m_dir m) ps) t) →
  ∃ m', dir_cd tb m = Ret tt m' ∧
    dir_done m m' ps (went ps (cwd_of (m_dir m) ps) (cd_target (cwd_of (m_dir m) ps) t)) inp.
Proof.
  intros HD Hi Ht Hne Hfit. unfold dir_cd, went. set (c := cwd_of (m_dir m) ps) in *.
  rewrite (bind_lift _ _ _ _ (kstrlen_cstr _ _ Ht)), name_nonempty by done.
  destruct (cd_path_run _ _ tb t HD Ht Hne Hfit) as (pb & Eb & Hb).
  rewrite (bind_ondir _ _ _ _ _ Eb), set_dir_id. fold c in Hb. set (p := cd_target c t) in *.
  destruct (find_dir_run _ _ pb p HD Hb) as (r & Ef & Hr).
  rewrite (bind_ondir _ _ _ _ _ Ef), set_dir_id.
  destruct Hr as [[Hr Hp]|[-> Hp]].
  2:{ rewrite Z.eqb_refl, decide_False by done.
      eapply dir_complain; [apply _|by apply dir_done_refl]. }
  rewrite (proj2 (Z.eqb_neq _ _)) by lia. rewrite decide_True by by eapply zget_elem_of.
  set (D' := DIR (dirs (m_dir m)) (dir_count (m_dir m)) r).
  rewrite (bind_ondir _ _ _ tt D') by reflexivity.
  assert (HD' : dir_rep D' ps).
  { destruct HD. constructor; try done. simpl. by eapply zget_Some_range. }
  assert (Hc' : cwd_of D' ps = p) by (unfold cwd_of; simpl; by rewrite Hp).
  destruct (getcwd_run D' ps HD') as (cb & Ec & Hcb).
  rewrite (bind_ondir _ _ _ _ _ (Ec : dir_getcwd (m_dir (set_dir D' m)) = _)).
  eapply dir_confirm; [apply _|]. by constructor.
Qed.

(** ** rmdir *)

Lemma filter_others ps p : p ∉ ps → filter (λ q, q ≠ p) ps = ps.
Proof.
  induction ps as [|q ps IH]; [done|]. intros Hp.
  rewrite filter_cons_True by set_solver. f_equal. apply IH. set_solver.
Qed.

Lemma delete_filter ps (i : nat) p :
  NoDup ps → ps !! i = Some p → delete i ps = filter (λ q, q ≠ p) ps.
Proof.
  revert i. induction ps as [|q ps IH]; intros i HN Hi; [done|].
  inversion HN as [|? ? Hq HN']; subst. destruct i as [|i]; simpl in Hi.
  - injection Hi as ->. rewrite filter_cons_False by tauto. simpl. symmetry.
    by apply filter_others.
  - rewrite filter_cons_True by (intros ->; by apply Hq; eapply list_elem_of_lookup_2).
    simpl. f_equal. by apply IH.
Qed.

(** What [rmdir] refuses: the root, an unknown directory, the current one, one
    with files in it. *)
Definition refused ps (c p : list Z) fm : Prop :=
  p = root ∨ p ∉ ps ∨ p = c ∨ ∃ n, is_Some (fm !! (p, n)).

Definition rmdir_result m ps fm (c p inp : list Z) (o : outcome machine unit) : Prop :=
  (refused ps c p fm ∧ ∃ m', o = Ret tt m' ∧ dir_done m m' ps c inp) ∨
  (¬ refused ps c p fm ∧
   match edit_line (λ _, true) 4 [] inp with
   | None => ∃ m', o = Blocked m'
   | Some (ans, rest) =>
       ∃ m', o = Ret tt m' ∧
         dir_done m m' (if decide (yes ans) then filter (λ q, q ≠ p) ps else ps) c rest
   end).

Lemma cwd_index D ps r p :
  dir_rep D ps → zget ps r = Some p → (r =? cwd_idx D) = bool_decide (p = cwd_of D ps).
Proof.
  intros HD Hr. destruct (cwd_row D ps HD) as [Hc _].
  destruct (Z.eqb_spec r (cwd_idx D)) as [->|Hne]; symmetry.
  - apply bool_decide_true. congruence.
  - apply bool_decide_false. intros ->. apply Hne.
    pose proof (zget_Some_range _ _ _ Hr). pose proof (zget_Some_range _ _ _ Hc).
    unfold zget in *. destruct (0 <=? r), (0 <=? cwd_idx D); try done.
    pose proof (NoDup_lookup _ _ _ _ (dr_nodup _ _ HD) Hr Hc). lia.
Qed.

(** The last part of [rmdir], when nothing is refused. *)
Lemma rmdir_confirm_run m ps inp pb p r :
  dir_rep (m_dir m) ps → io_rep (m_io m) inp → cstr pb p → zget ps r = Some p → p ≠ root →
  p ≠ cwd_of (m_dir m) ps →
  match edit_line (λ _, true) 4 [] inp with
  | None => ∃ m', rmdir_ask pb r m = Blocked m'
  | Some (ans, rest) =>
      ∃ m', rmdir_ask pb r m = Ret tt m' ∧
        dir_done m m' (if decide (yes ans) then filter (λ q, q ≠ p) ps else ps)
          (cwd_of (m_dir m) ps) rest
  end.
Proof.
  intros HD Hi Hb Hp Hroot Hcwd. unfold rmdir_ask. print_cmd Hi i1 Hi1.
  pose proof (read_with_run (λ _, true) 4 (uninit 4) i1 inp Hi1 eq_refl ltac:(lia)) as Hread.
  destruct (edit_line (λ _, true) 4 [] inp) as [[ans rest]|].
  2:{ destruct Hread as [i' Ec]. eexists. by apply onio_blocked. }
  destruct Hread as (buf & i2 & Er & Hc & _ & _ & Hi2 & _).
  rewrite (bind_onio _ _ _ _ _ (Er : readline _ _ (m_io (set_io i1 m)) = _)).
  rewrite (bind_lift _ _ _ _ (declined_run _ _ Hc)).
  case_bool_decide as Hy; [rewrite decide_False by done|rewrite decide_True by tauto].
  { eapply dir_say; [apply _|]. by constructor. }
  pose proof (zget_Some_range _ _ _ Hp) as Hr. pose proof (cwd_index _ _ _ _ HD Hp) as Hne.
  rewrite bool_decide_false in Hne by done. bools.
  assert (Hnat : ps !! Z.to_nat r = Some p).
  { unfold zget in Hp. by destruct (0 <=? r). }
  assert (H0 : (0 < Z.to_nat r)%nat).
  { destruct (Z.to_nat r) as [|k] eqn:E; [|lia]. exfalso. apply Hroot.
    pose proof (dr_root _ _ HD) as Hhd. destruct ps; simpl in *; congruence. }
  destruct (dir_remove_run (m_dir m) ps (Z.to_nat r) HD) as (D' & Ed & HD' & Hc').
  { split; [done|]. by eapply lookup_lt_Some. }
  { by rewrite Z2Nat.id by lia. }
  rewrite Z2Nat.id in Ed by lia. rewrite (delete_filter _ _ p) in HD', Hc' by (done || apply HD).
  rewrite (bind_ondir _ _ _ _ _ (Ed : dir_remove r (m_dir (set_io i2 (set_io i1 m))) = _)).
  eapply dir_confirm; [apply _|]. by constructor.
Qed.

Lemma dir_rmdir_run m ps fm inp nb n :
  fs_rep (m_fs m) fm → dir_rep (m_dir m) ps → io_rep (m_io m) inp → cstr nb n → n ≠ [] →
  path_fits (cwd_of (m_dir m) ps) n →
  rmdir_result m ps fm (cwd_of (m_dir m) ps) (resolve (cwd_of (m_dir m) ps) n) inp (dir_rmdir nb m).
Proof.
  intros Hf HD Hi Hn Hne Hfit. unfold dir_rmdir, rmdir_result. set (c := cwd_of (m_dir m) ps) in *.
  rewrite (bind_lift _ _ _ _ (kstrlen_cstr _ _ Hn)), name_nonempty by done.
  destruct (build_path_run (m_dir m) ps (uninit DIR_NAME_LEN) nb n HD Hn length_uninit Hne Hfit)
    as (pb & Eb & Hbl & Hb).
  rewrite (bind_ondir _ _ _ _ _ Eb), set_dir_id. fold c in Hb. set (p := resolve c n) in *.
  destruct (kstrcmp_test _ _ _ _ Hb cstr_root) as (x & Ex & Hx).
  rewrite (bind_lift _ _ _ _ Ex), Hx. unfold refused.
  case_bool_decide as Hroot.
  { left. split; [by left|]. eapply dir_complain; [apply _|by apply dir_done_refl]. }
  destruct (find_dir_run _ _ pb p HD Hb) as (r & Ef & Hr).
  rewrite (bind_ondir _ _ _ _ _ Ef), set_dir_id.
  destruct Hr as [[Hr Hp]|[-> Hp]].
  2:{ rewrite Z.eqb_refl. left. split; [by right; left|].
      eapply dir_complain; [apply _|by apply dir_done_refl]. }
  rewrite (proj2 (Z.eqb_neq _ _)) by lia. steps. rewrite (cwd_index _ _ _ _ HD Hp). fold c.
  case_bool_decide as Hcwd.
  { left. split; [by right; right; left|]. eapply dir_complain; [apply _|by apply dir_done_refl]. }
  destruct (dir_empty_run _ _ pb p Hf Hb) as (e & Ee & He).
  rewrite (bind_onfs _ _ _ _ _ Ee), set_fs_id.
  destruct He as [[-> Hempty]|[-> Hex]].
  2:{ left. split; [by right; right; right|]. eapply dir_complain; [apply _|by apply dir_done_refl]. }
  right. split.
  { intros [?|[Hnp|[?|[n' [v Hv]]]]]; try done; [by apply Hnp; eapply zget_elem_of|].
    by rewrite Hempty in Hv. }
  cbn [Z.eqb]. by apply (rmdir_confirm_run m ps inp pb p r).
Qed.

(** ** ls *)

(** Whether [p] is an entry of the directory [c]. *)
Definition sub_of (c p : list Z) : bool :=
  let base := child c [] in
  bool_decide (take (length base) p = base) && bool_decide (simple_name (drop (length base) p)).

Lemma sub_of_spec c p : sub_of c p = true ↔ ∃ n, simple_name n ∧ p = child c n.
Proof.
  assert (Hch : ∀ n, child c n = child c [] ++ n) by (intros; unfold child; by rewrite <-app_assoc).
  unfold sub_of. rewrite andb_true_iff, !bool_decide_eq_true. split.
  - intros [Ht Hs]. exists (drop (length (child c [])) p). split; [done|].
    rewrite (Hch (drop _ _)). rewrite <-Ht at 1. by rewrite take_drop.
  - intros (n & Hs & ->). rewrite (Hch n), take_app_length, drop_app_length. done.
Qed.

Definition sub_line (p : list Z) : list citem := [CText (chars "  [DIR]  "); CText (p ++ [10])].

(** The screen text of ls in [c], with the directories [ps] and files [l]. *)
Definition ls_screen (c : list Z) ps (l : list (list Z * Z)) : list citem :=
  [CColor VGA_LIGHT_CYAN VGA_BLACK; CText (chars "  Directory listing: "); CText (c ++ [10]);
   CText [10]; CColor VGA_WHITE VGA_BLACK] ++
  concat (sub_line <$> filter (λ p, sub_of c p = true) ps) ++ listing l.

Lemma ls_sub_run m ps inp cb c i p :
  dir_rep (m_dir m) ps → io_rep (m_io m) inp → cstr cb c → zget ps i = Some p →
  ∃ i', ls_sub cb i m = Ret tt (set_io i' m) ∧
    emits (m_io m) (if sub_of c p then sub_line p else []) i' inp.
Proof.
  intros HD Hi Hc Hp. unfold ls_sub. steps.
  destruct (dr_row _ _ HD i p Hp) as (d & Hd & Hdp). rewrite (bind_lift _ _ _ _ Hd).
  destruct (immediate_child_run d p cb c Hdp Hc) as (r & Er & H01 & Hr).
  rewrite (bind_lift _ _ _ _ Er). rewrite <-sub_of_spec in Hr.
  destruct (sub_of c p).
  - rewrite (proj2 Hr) by done. cbn [Z.eqb negb].
    match goal with |- context [say ?x m] =>
      destruct (say_run x _ m inp _ Hi) as (i1 & E1 & He1) end. by exists i1.
  - destruct H01 as [-> | ->]; [|by destruct Hr as [Hr _]; specialize (Hr eq_refl)].
    exists (m_io m). split; [by destruct m|]. by apply emits_quiet.
Qed.

Lemma ls_subs_run qs k m ps inp cb c :
  dir_rep (m_dir m) ps → io_rep (m_io m) inp → cstr cb c → drop k ps = qs →
  ∃ i', for_each (range (Z.of_nat k) (length qs)) (ls_sub cb) m = Ret tt (set_io i' m) ∧
    emits (m_io m) (concat (sub_line <$> filter (λ p, sub_of c p = true) qs)) i' inp.
Proof.
  revert k m. induction qs as [|q qs IH]; intros k m HD Hi Hc Hk.
  { exists (m_io m). split; [by destruct m|]. by apply emits_quiet. }
  simpl length. rewrite range_S. cbn [for_each].
  assert (Hq : ps !! k = Some q).
  { rewrite <-(Nat.add_0_r k), <-lookup_drop, Hk. done. }
  destruct (ls_sub_run m ps inp cb c (Z.of_nat k) q) as (i1 & E1 & He1); [done..|by rewrite zget_nat|].
  step E1. replace (Z.of_nat k + 1) with (Z.of_nat (S k)) by lia.
  destruct (IH (S k) (set_io i1 m)) as (i2 & E2 & He2); [done|apply He1|done| |].
  { rewrite <-Nat.add_1_r, <-drop_drop, Hk. done. }
  exists i2. split; [exact E2|]. rewrite filter_cons. destruct (sub_of c q); simpl decide.
  - rewrite decide_True by done. rewrite fmap_cons. cbn [concat]. by eapply emits_trans.
  - rewrite decide_False by done. by eapply (emits_trans _ []).
Qed.

Lemma dir_ls_run m ps fm inp :
  fs_rep (m_fs m) fm → dir_rep (m_dir m) ps → io_rep (m_io m) inp →
  ∃ i', dir_ls m = Ret tt (set_io i' m) ∧
    emits (m_io m) (ls_screen (cwd_of (m_dir m) ps) ps
      (listed (m_fs m) (cwd_of (m_dir m) ps))) i' inp.
Proof.
  intros Hf HD Hi. unfold dir_ls. destruct (getcwd_run _ _ HD) as (cb & Ec & Hc).
  rewrite (bind_ondir _ _ _ _ _ Ec), set_dir_id. set (c := cwd_of (m_dir m) ps) in *.
  match goal with |- context [(say ?x ≫= _) m] =>
    destruct (say_run x _ m inp _ Hi) as (i1 & E1 & He1); step E1; clear E1 end.
  steps. simpl m_dir. rewrite (dr_count _ _ HD). unfold zlen. rewrite Nat2Z.id.
  destruct (ls_subs_run ps 0 (set_io i1 m) ps inp cb c) as (i2 & E2 & He2); [done|apply He1|done..|].
  step E2. destruct (fs_list_run (set_io i2 (set_io i1 m)) fm inp cb c) as (i3 & E3 & He3);
    [done|apply He2|done|].
  exists i3. split; [exact E3|]. unfold ls_screen.
  eapply emits_trans; [exact He1|]. by eapply emits_trans.
Qed.
End spec.
