(* ===== verification/Shell.v ===== *)
(** * shell.c: parsing, dispatch and the main loop *)

From S2P Require Import Prelude CString Tokens Vga Console Keyboard Io IoSpec Fat DirTable LineInput Machine Fs Dir.

Definition CMD_LEN : Z := 256.
Definition MAX_ARGS : nat := 8.

(** ** parse_cmd: tokens as positions in the buffer, cut in place *)

Definition is_blank (c : Z) : bool := (c =? 32) || (c =? 9).

Definition skip_blank : list Z → nat → option nat := tok_skip is_blank.
Definition scan_token : list Z → nat → option nat := tok_scan is_blank.

(** The outer loop with [k] arguments still allowed; the result is the buffer
    and the values of [argv]. *)
Fixpoint parse_args (k : nat) (buf : list Z) (p : nat) : option (list Z * list nat) :=
  c ← ld (drop p buf);
  if c =? 0 then Some (buf, []) else
  match k with
  | O => Some (buf, [])
  | S k' =>
      p1 ← skip_blank (drop p buf) p;
      c1 ← ld (drop p1 buf);
      if c1 =? 0 then Some (buf, []) else
      p2 ← scan_token (drop p1 buf) p1;
      c2 ← ld (drop p2 buf);
      '(buf1, p3) ← (if c2 =? 0 then Some (buf, p2)
                     else b ← zset buf (Z.of_nat p2) 0; Some (b, S p2));
      '(buf2, argv) ← parse_args k' buf1 p3;
      Some (buf2, p1 :: argv)
  end.

Definition parse_cmd (buf : list Z) : option (list Z * list nat) := parse_args MAX_ARGS buf 0.

(** ** The commands of the shell itself *)

Section shell.
Context `{B : Bus}.

Definition cmd_help : M vga_state unit :=
  vga_writeln (lit "");;
  vga_set_color VGA_LIGHT_CYAN VGA_BLACK;;
  vga_writeln (lit "  +------------------------------------------------------------+");;
  vga_writeln (lit "  |          DugOS v1.0  --  Command Reference                 |");;
  vga_writeln (lit "  +------------------------------------------------------------+");;
  vga_set_color VGA_WHITE VGA_BLACK;;
  vga_writeln (lit "");;
  vga_writeln (lit "  [ General ]");;
  vga_writeln (lit "    help                  Show this help screen");;
  vga_writeln (lit "    cls / clear           Clear the screen");;
  vga_writeln (lit "    pwd                   Print current directory");;
  vga_writeln (lit "    whoami                Show current user");;
  vga_writeln (lit "    shutdown              Shut down DugOS");;
  vga_writeln (lit "");;
  vga_writeln (lit "  [ File Operations ]");;
  vga_writeln (lit "    fwrite <file>         Create or overwrite a file");;
  vga_writeln (lit "    fread  <file>         Read and display a file");;
  vga_writeln (lit "    cat    <file>         Same as fread");;
  vga_writeln (lit "    fedit  <file>         Append content to a file");;
  vga_writeln (lit "    fdel   <file>         Delete a file");;
  vga_writeln (lit "    rename <old> <new>    Rename a file");;
  vga_writeln (lit "    copy   <src> <dst>    Copy a file");;
  vga_writeln (lit "");;
  vga_writeln (lit "  [ Directory Operations ]");;
  vga_writeln (lit "    mkdir  <dir>          Create a directory");;
  vga_writeln (lit "    cd     <dir>          Change directory (use '..' for parent)");;
  vga_writeln (lit "    rmdir  <dir>          Delete an empty directory");;
  vga_writeln (lit "    ls / dir              List current directory");;
  vga_writeln (lit "");;
  vga_set_color VGA_LIGHT_CYAN VGA_BLACK;;
  vga_writeln (lit "  +------------------------------------------------------------+");;
  vga_set_color VGA_WHITE VGA_BLACK;;
  vga_writeln (lit "").

Definition boot_image : list (Z * string) :=
  [(-4, "HARDWARE"%string); (-3, "IDLE"%string); (-2, "CLOCK"%string); (-1, "SYSTEM"%string);
   (0, "PM"%string); (1, "FS"%string); (2, "TTY"%string); (3, "INIT"%string)].

Definition stop_proc : Z * string → M vga_state unit :=
  λ '(nr, name),
    if negb (nr =? -4) then
      vga_write (lit "  [kernel]   -> stopping ");;
      vga_write (lit name);;
      vga_write (lit " (proc ");;
      vga_write_dec (u32 (if nr <? 0 then - nr else nr));;
      vga_writeln (lit ")")
    else mret tt.

Definition cmd_shutdown : M machine unit :=
  say (vga_writeln (lit "");;
       vga_set_color VGA_LIGHT_CYAN VGA_BLACK;;
       vga_writeln (lit "  +----------------------------------------------------------+");;
       vga_writeln (lit "  |                   DugOS Shutdown                         |");;
       vga_writeln (lit "  +----------------------------------------------------------+");;
       vga_set_color VGA_WHITE VGA_BLACK;;
       vga_writeln (lit "");;
       vga_writeln (lit "  [kernel] Sending SIGKSTOP to all system processes..."));;
  say (for_each boot_image stop_proc);;
  say (vga_writeln (lit "  [kernel] Flushing file system buffers ... OK");;
       vga_writeln (lit "  [kernel] Stopping clock task          ... OK");;
       vga_writeln (lit "  [kernel] Masking all hardware IRQs    ... OK"));;
  onio pic_restore;;
  say (vga_writeln (lit "  [kernel] intr_init: restoring BIOS defaults ... OK");;
       vga_writeln (lit "");;
       vga_writeln (lit "  DugOS has shut down. Goodbye, dug.");;
       vga_writeln (lit ""));;
  onio (cli;; outb 0x604 0x00;; outb 0xB004 0x00;; halt).

(** [kstrcmp(cmd, s) == 0]. *)
Definition is_cmd (cmd : list Z) (s : string) : M machine bool :=
  r ← lift_opt (kstrcmp cmd (lit s));
  mret (r =? 0).

(** [if (cmd is one of ss) yes else no], left to right. *)
Fixpoint cmd_case (cmd : list Z) (ss : list string) (yes no : M machine unit) : M machine unit :=
  match ss with
  | [] => no
  | s :: ss' =>
      b ← is_cmd cmd s;
      if (b : bool) then yes else cmd_case cmd ss' yes no
  end.

(** [argc > k ? argv[k] : dflt]. *)
Definition arg_or (argv : list (list Z)) (k : nat) (dflt : string) : list Z :=
  default (lit dflt) (argv !! k).

Definition shell_dispatch (argv : list (list Z)) : M machine unit :=
  cmd ← lift_opt (argv !! 0%nat);
  cwd ← ondir dir_getcwd;
  cmd_case cmd ["help"%string] (say cmd_help) (
  cmd_case cmd ["clear"%string; "cls"%string] (say vga_clear) (
  cmd_case cmd ["pwd"%string] (say (vga_write (lit "  ");; vga_writeln cwd)) (
  cmd_case cmd ["whoami"%string] (say (vga_writeln (lit "  dug"))) (
  cmd_case cmd ["shutdown"%string] cmd_shutdown (
  cmd_case cmd ["fwrite"%string] (fs_write (arg_or argv 1 "") cwd) (
  cmd_case cmd ["fread"%string; "cat"%string] (fs_read (arg_or argv 1 "") cwd) (
  cmd_case cmd ["fedit"%string] (fs_edit (arg_or argv 1 "") cwd) (
  cmd_case cmd ["fdel"%string] (fs_delete (arg_or argv 1 "") cwd) (
  cmd_case cmd ["rename"%string] (fs_rename (arg_or argv 1 "") (arg_or argv 2 "") cwd) (
  cmd_case cmd ["copy"%string] (fs_copy (arg_or argv 1 "") (arg_or argv 2 "") cwd) (
  cmd_case cmd ["mkdir"%string] (dir_mkdir (arg_or argv 1 "")) (
  cmd_case cmd ["cd"%string] (dir_cd (arg_or argv 1 "/")) (
  cmd_case cmd ["rmdir"%string] (dir_rmdir (arg_or argv 1 "")) (
  cmd_case cmd ["ls"%string; "dir"%string] dir_ls (
  complain (vga_write (lit "  Unknown command: '");; vga_write cmd;;
            vga_writeln (lit "'  (type 'help' for a list)"))))))))))))))))).

(** One turn of the loop of [shell_run]. *)
Definition shell_step : M machine unit :=
  cwd ← ondir dir_getcwd;
  say (vga_set_color VGA_LIGHT_GREEN VGA_BLACK;;
       vga_write (lit "  dug@os:");; vga_write cwd;; vga_write (lit "$ ");;
       vga_set_color VGA_WHITE VGA_BLACK);;
  buf0 ← gets m_cmd;
  '(buf, len) ← onio (shell_readline buf0 CMD_LEN);
  modify (set_cmd buf);;
  if len =? 0 then mret tt else
  '(buf1, argv) ← lift_opt (parse_cmd buf);
  modify (set_cmd buf1);;
  if (length argv =? 0)%nat then mret tt else
  shell_dispatch ((λ p, drop p buf1) <$> argv);;
  say (vga_writeln (lit "")).

(** Every turn reads a line, so the turns are bounded by the characters to come. *)
Definition shell_run : M machine unit :=
  say (vga_writeln (lit "");;
       vga_set_color VGA_LIGHT_GREEN VGA_BLACK;;
       vga_writeln (lit "  >> DugOS shell ready. Type 'help' for commands.");;
       vga_set_color VGA_WHITE VGA_BLACK;;
       vga_writeln (lit ""));;
  f ← gets (λ m, input_fuel (m_io m));
  loop f (λ _ : unit, shell_step;; mret (inl tt)) tt.
End shell.
