(* ===== verification/ShellParse.v ===== *)
(** * parse_cmd computes the words of the line *)

From S2P Require Import Prelude CString Tokens Vga Console Keyboard Io IoSpec Fat DirTable LineInput Machine Fs Dir Shell.

(** The blank-separated words of a line. *)
Definition words : list Z → list (list Z) := fields is_blank.

(** What a parse of the string [s] behind [pre] gives. *)
Definition parsed (k : nat) (pre s rest : list Z) (r : option (list Z * list nat)) : Prop :=
  ∃ t argv, r = Some (pre ++ t, argv) ∧ length t = length (s ++ 0 :: rest) ∧
    Forall2 (λ p w, (length pre ≤ p)%nat ∧ cstr (drop p (pre ++ t)) w) argv (take k (words s)).

Lemma parsed_nil k pre s rest :
  take k (words s) = [] → parsed k pre s rest (Some (pre ++ s ++ 0 :: rest, [])).
Proof. intros E. exists (s ++ 0 :: rest), []. split_and!; [done..|]. rewrite E. constructor. Qed.

Lemma parsed_cons k pre bs tok mid s' rest' t argv s rest :
  Forall is_char tok → take (S k) (words s) = tok :: take k (words s') →
  length (s ++ 0 :: rest) = (length (bs ++ tok ++ mid) + length (s' ++ 0%Z :: rest'))%nat →
  length t = length (s' ++ 0 :: rest') →
  (mid = [0] ∨ (mid = [] ∧ ∃ u, t = 0 :: u)) →
  Forall2 (λ p w, (length (pre ++ bs ++ tok ++ mid) ≤ p)%nat ∧
    cstr (drop p ((pre ++ bs ++ tok ++ mid) ++ t)) w) argv (take k (words s')) →
  parsed (S k) pre s rest
    (Some ((pre ++ bs ++ tok ++ mid) ++ t, (length pre + length bs)%nat :: argv)).
Proof.
  intros HC Hw Hlen Ht Hmid HF. exists ((bs ++ tok ++ mid) ++ t), ((length pre + length bs)%nat :: argv).
  rewrite (app_assoc pre (bs ++ tok ++ mid) t). split_and!; [done| |].
  - rewrite length_app, Hlen, Ht. done.
  - rewrite Hw. constructor.
    + split; [lia|]. rewrite <-app_assoc, drop_pre, <-!app_assoc, drop_app_length.
      destruct Hmid as [->|[-> [u ->]]]; by apply cstr_app0.
    + eapply Forall2_impl; [exact HF|]. intros p w [Hp Hc]. rewrite length_app in Hp. split; [lia|done].
Qed.

Lemma parse_args_end k pre rest :
  parse_args k (pre ++ 0 :: rest) (length pre) = Some (pre ++ 0 :: rest, []).
Proof. destruct k; cbn [parse_args]; by rewrite drop_app_length. Qed.

(** The character a scan stops at. *)
Lemma stop_char s rest : Forall is_char s → ∃ c b', s ++ 0 :: rest = c :: b' ∧ 0 ≤ c ∧ hd 0 s = c.
Proof.
  destruct 1 as [|x s Hx HF]; [by exists 0, rest|]. unfold is_char in Hx.
  exists x, (s ++ 0 :: rest). split_and!; [done|lia|done].
Qed.

(** One token: the scans of the loop find it. *)
Lemma token_scans pre bs t r rest :
  Forall is_char (bs ++ t ++ r) → Forall (λ c, is_blank c = true) bs → token is_blank t →
  (r = [] ∨ ∃ x y, r = x :: y ∧ is_blank x = true) →
  let buf := pre ++ (bs ++ t ++ r) ++ 0 :: rest in
  let p1 := (length pre + length bs)%nat in
  skip_blank (drop (length pre) buf) (length pre) = Some p1 ∧
  ld (drop p1 buf) = Some (hd 0 t) ∧ hd 0 t ≠ 0 ∧
  scan_token (drop p1 buf) p1 = Some (p1 + length t)%nat ∧
  ld (drop (p1 + length t) buf) = Some (hd 0 r).
Proof.
  intros HC Hbs [Hne HT] Hr. apply Forall_app in HC as [HCb HC].
  pose proof HC as [HCt HCr]%Forall_app. cbv zeta. rewrite drop_app_length, drop_pre.
  rewrite <-!app_assoc, drop_app_length.
  destruct t as [|x t]; [done|]. inversion HT as [|? ? Hx _]; subst. inversion HCt as [|? ? Hxc _]; subst.
  unfold is_char in Hxc. cbn [hd]. split_and!.
  - apply tok_skip_run; [done..|]. exists x, (t ++ r ++ 0 :: rest). split_and!; [done|lia|done].
  - apply (cstr_ld _ ((x :: t) ++ r)). rewrite app_assoc. by apply cstr_app0.
  - lia.
  - apply tok_scan_run; [done..|]. destruct (stop_char r rest HCr) as (c & b' & -> & Hc & Hh).
    exists c, b'. split_and!; [done|done|]. destruct Hr as [-> |(z & y & -> & Hz)]; simpl in Hh; subst; auto.
  - rewrite <-Nat.add_assoc, drop_pre, <-drop_drop, !drop_app_length.
    by apply cstr_ld, cstr_app0.
Qed.

Lemma parse_args_run k pre s rest :
  Forall is_char s →
  parsed k pre s rest (parse_args k (pre ++ s ++ 0 :: rest) (length pre)).
Proof.
  revert pre s rest. induction k as [|k IH]; intros pre s rest HC.
  { cbn [parse_args]. rewrite drop_app_length. rewrite (cstr_ld _ s) by by apply cstr_app0.
    cbn [mbind option_bind]. destruct (hd 0 s =? 0); by apply parsed_nil. }
  cbn [parse_args]. rewrite drop_app_length. rewrite (cstr_ld _ s) by by apply cstr_app0.
  cbn [mbind option_bind]. destruct (Z.eqb_spec (hd 0 s) 0) as [E|E].
  { apply hd_zero in E; [|done]. subst. by apply parsed_nil. }
  destruct (first_token is_blank s) as [[Hall Hw]|(bs & t & r & -> & Hbs & HT & Hr & Hw)].
  { unfold skip_blank. rewrite tok_skip_run; [|done..|by exists 0, rest]. cbn [mbind option_bind].
    rewrite drop_pre, drop_app_length. cbn [ld mbind option_bind].
    apply parsed_nil. unfold words. by rewrite Hw. }
  destruct (token_scans pre bs t r rest HC Hbs HT Hr) as (E1 & E2 & E3 & E4 & E5). cbv zeta in *.
  rewrite drop_app_length in E1. rewrite E1. cbn [mbind option_bind]. rewrite E2. cbn [mbind option_bind].
  destruct (Z.eqb_spec (hd 0 t) 0); [done|]. rewrite E4. cbn [mbind option_bind]. rewrite E5.
  cbn [mbind option_bind]. clear E1 E2 E3 E4 E5.
  apply Forall_app in HC as [HCb [HCt HCr]%Forall_app].
  destruct Hr as [->|(x & y & -> & Hx)]; cbn [hd].
  - rewrite Z.eqb_refl. cbn [mbind option_bind].
    replace (pre ++ (bs ++ t ++ []) ++ 0 :: rest) with ((pre ++ bs ++ t ++ []) ++ 0 :: rest)
      by by rewrite <-!app_assoc.
    replace (length pre + length bs + length t)%nat with (length (pre ++ bs ++ t ++ []))
      by (rewrite app_nil_r, !length_app; lia).
    rewrite parse_args_end. cbn [mbind option_bind].
    apply (parsed_cons k pre bs t [] [] rest (0 :: rest)); try done.
    + unfold words. rewrite Hw. by destruct k.
    + rewrite !length_app. simpl. lia.
    + right. split; [done|]. by exists rest.
    + by destruct k.
  - inversion HCr as [|? ? Hxc HCy]; subst. unfold is_char in Hxc.
    destruct (Z.eqb_spec x 0); [lia|].
    replace (pre ++ (bs ++ t ++ x :: y) ++ 0 :: rest) with ((pre ++ bs ++ t) ++ x :: y ++ 0 :: rest)
      by by rewrite <-!app_assoc.
    replace (Z.of_nat (length pre + length bs + length t)) with (zlen (pre ++ bs ++ t))
      by (unfold zlen; rewrite !length_app; lia).
    rewrite zset_upd, upd_app_mid.
    2:{ rewrite (zlen_app _ (x :: _)), zlen_cons. pose proof (zlen_nonneg (pre ++ bs ++ t)).
        pose proof (zlen_nonneg (y ++ 0 :: rest)). lia. }
    cbn [mbind option_bind].
    specialize (IH (pre ++ bs ++ t ++ [0]) y rest HCy).
    replace ((pre ++ bs ++ t) ++ 0 :: y ++ 0 :: rest) with ((pre ++ bs ++ t ++ [0]) ++ y ++ 0 :: rest)
      by by rewrite <-!app_assoc.
    replace (S (length pre + length bs + length t))%nat with (length (pre ++ bs ++ t ++ [0]))
      by (rewrite !length_app; simpl; lia).
    destruct IH as (u & argv & E1 & Hl & HF). rewrite E1. cbn [mbind option_bind].
    apply (parsed_cons k pre bs t [0] y rest u); try done.
    + unfold words. by rewrite Hw.
    + rewrite !length_app. simpl. rewrite ?length_app. simpl. lia.
    + by left.
Qed.

(** The arguments are the first eight words of the line. *)
Lemma parse_cmd_run buf s :
  cstr buf s →
  ∃ buf' argv, parse_cmd buf = Some (buf', argv) ∧ length buf' = length buf ∧
    Forall2 (λ p w, cstr (drop p buf') w) argv (take MAX_ARGS (words s)).
Proof.
  intros [HC [rest ->]]. destruct (parse_args_run MAX_ARGS [] s rest HC) as (t & argv & E & Hl & HF).
  exists t, argv. split_and!; [exact E|done|]. eapply Forall2_impl; [exact HF|]. by intros p w [_ ?].
Qed.
