(* ===== verification/ShellSpec.v ===== *)
(** * The shell as a machine on maps, paths and characters

    The reference shell has a map of files, a list of directories, a current
    directory and the characters to come.  [exec] says what each command may
    do to them; the kernel's dispatcher does one of these things. *)

From S2P Require Import Prelude CString Vga Console Keyboard Io IoSpec Fat FatRep DirTable LineInput Machine Fs FsStore FsSpec FsOutput Dir DirSpec Shell ShellParse.

Record sh := Sh {
  sh_fm : afs;
  sh_ps : list (list Z);
  sh_cwd : list Z;
  sh_inp : list Z
}.

(** A command ends, waits for more input, or turns the machine off. *)
Inductive result := RNext (st : sh) | RWait | ROff.

Definition with_fm (fm : afs) (inp : list Z) (st : sh) : sh := Sh fm (sh_ps st) (sh_cwd st) inp.
Definition with_dirs (ps : list (list Z)) (c inp : list Z) (st : sh) : sh := Sh (sh_fm st) ps c inp.

Definition cmd_is (w : list Z) (ss : list string) : bool := bool_decide (w ∈ chars <$> ss).
Definition word_or (ws : list (list Z)) (k : nat) (dflt : string) : list Z :=
  default (chars dflt) (ws !! k).

Section exec.
Context (st : sh).
Let fm := sh_fm st.
Let d := sh_cwd st.
Let inp := sh_inp st.

Definition exec_write (n : list Z) (r : result) : Prop :=
  if decide (n = []) then r = RNext st else
  (fm !! (d, n) = None ∧ r = RNext st) ∨
  match text_entry [] inp with
  | None => r = RWait
  | Some (data, rest) =>
      r = RNext (with_fm (<[(d, n) := data]> fm) rest st) ∨
      r = RNext (with_fm (delete (d, n) fm) rest st)
  end.

Definition exec_edit (n : list Z) (r : result) : Prop :=
  if decide (n = []) then r = RNext st else
  match fm !! (d, n) with
  | None => r = RNext st
  | Some old =>
      match text_entry old inp with
      | None => r = RWait
      | Some (data, rest) =>
          r = RNext (with_fm (<[(d, n) := data]> fm) rest st) ∨
          r = RNext (with_fm (<[(d, n) := []]> fm) rest st)
      end
  end.

Definition exec_delete (n : list Z) (r : result) : Prop :=
  if decide (n = []) then r = RNext st else
  match fm !! (d, n) with
  | None => r = RNext st
  | Some _ =>
      match edit_line (λ _, true) 4 [] inp with
      | None => r = RWait
      | Some (ans, rest) =>
          r = RNext (with_fm (if bool_decide (yes ans) then delete (d, n) fm else fm) rest st)
      end
  end.

Definition exec_rename (n n' : list Z) (r : result) : Prop :=
  r = RNext (if bool_decide (n = [] ∨ n' = []) then st
             else with_fm (renamed fm d n n') inp st).

Definition exec_copy (n n' : list Z) (r : result) : Prop :=
  r = RNext st ∨
  ∃ v, n ≠ [] ∧ n' ≠ [] ∧ fm !! (d, n) = Some v ∧ fm !! (d, n') = None ∧
    r = RNext (with_fm (<[(d, n') := v]> fm) inp st).

Definition exec_mkdir (n : list Z) (r : result) : Prop :=
  r = RNext (if decide (n = []) then st
             else with_dirs (made (sh_ps st) (resolve d n)) d inp st).

Definition exec_cd (t : list Z) (r : result) : Prop :=
  r = RNext (if decide (t = []) then st
             else with_dirs (sh_ps st) (went (sh_ps st) d (cd_target d t)) inp st).

Definition exec_rmdir (n : list Z) (r : result) : Prop :=
  if decide (n = []) then r = RNext st else
  (refused (sh_ps st) d (resolve d n) fm ∧ r = RNext st) ∨
  (¬ refused (sh_ps st) d (resolve d n) fm ∧
   match edit_line (λ _, true) 4 [] inp with
   | None => r = RWait
   | Some (ans, rest) =>
       r = RNext (with_dirs (if bool_decide (yes ans)
                             then filter (λ q, q ≠ resolve d n) (sh_ps st)
                             else sh_ps st) d rest st)
   end).

(** What the command line [ws] may do. *)
Definition exec (ws : list (list Z)) (r : result) : Prop :=
  let w := word_or ws 0 "" in
  let a := word_or ws 1 "" in
  let b := word_or ws 2 "" in
  let stay := r = RNext st in
  if cmd_is w ["help"%string] then stay
  else if cmd_is w ["clear"%string; "cls"%string] then stay
  else if cmd_is w ["pwd"%string] then stay
  else if cmd_is w ["whoami"%string] then stay
  else if cmd_is w ["shutdown"%string] then r = ROff
  else if cmd_is w ["fwrite"%string] then exec_write a r
  else if cmd_is w ["fread"%string; "cat"%string] then stay
  else if cmd_is w ["fedit"%string] then exec_edit a r
  else if cmd_is w ["fdel"%string] then exec_delete a r
  else if cmd_is w ["rename"%string] then exec_rename a b r
  else if cmd_is w ["copy"%string] then exec_copy a b r
  else if cmd_is w ["mkdir"%string] then exec_mkdir a r
  else if cmd_is w ["cd"%string] then exec_cd (word_or ws 1 "/") r
  else if cmd_is w ["rmdir"%string] then exec_rmdir a r
  else stay.
End exec.

(** No command brings characters back. *)
Lemma exec_inp st ws st' : exec st ws (RNext st') → (length (sh_inp st') ≤ length (sh_inp st))%nat.
Proof.
  unfold exec. cbv zeta.
  repeat match goal with |- context [if cmd_is ?w ?ss then _ else _] => destruct (cmd_is w ss) end;
    try (intros [= ->]; done); intros H.
  - unfold exec_write in H. destruct decide; [by injection H as ->|].
    destruct H as [[_ [= ->]]|H]; [done|].
    destruct (text_entry _ _) as [[data rest]|] eqn:E; [|done].
    apply text_entry_rest in E. destruct H as [[= ->]|[= ->]]; simpl; lia.
  - unfold exec_edit in H. destruct decide; [by injection H as ->|].
    destruct (sh_fm st !! _) as [old|]; [|by injection H as ->].
    destruct (text_entry _ _) as [[data rest]|] eqn:E; [|done].
    apply text_entry_rest in E. destruct H as [[= ->]|[= ->]]; simpl; lia.
  - unfold exec_delete in H. destruct decide; [by injection H as ->|].
    destruct (sh_fm st !! _) as [old|]; [|by injection H as ->].
    destruct (edit_line _ _ _ _) as [[ans rest]|] eqn:E; [|done].
    apply edit_line_rest in E as [E _]. injection H as ->. simpl. lia.
  - injection H as ->. by case_bool_decide.
  - destruct H as [[= ->]|(v & _ & _ & _ & _ & [= ->])]; done.
  - injection H as ->. by destruct decide.
  - injection H as ->. by destruct decide.
  - unfold exec_rmdir in H. destruct decide; [by injection H as ->|].
    destruct H as [[_ [= ->]]|[_ H]]; [done|].
    destruct (edit_line _ _ _ _) as [[ans rest]|] eqn:E; [|done].
    apply edit_line_rest in E as [E _]. injection H as ->. simpl. lia.
Qed.

(** ** The prompt *)

(** One turn of the prompt: a line, then the command in it. *)
Definition turn (st : sh) (r : result) : Prop :=
  match edit_line printable CMD_LEN [] (sh_inp st) with
  | None => r = RWait
  | Some (l, rest) =>
      let st1 := with_fm (sh_fm st) rest st in
      let ws := take MAX_ARGS (words l) in
      if decide (ws = []) then r = RNext st1 else exec st1 ws r
  end.

Lemma turn_inp st st' : turn st (RNext st') → (length (sh_inp st') < length (sh_inp st))%nat.
Proof.
  unfold turn. destruct (edit_line _ _ _ _) as [[l rest]|] eqn:E; [|done].
  apply edit_line_rest in E as [E _]. cbv zeta. destruct decide.
  - by intros [= ->].
  - intros H%exec_inp. simpl in H. lia.
Qed.

(** Lines whose words fit the kernel's 64-byte fields, and whose first
    argument, appended to the current directory, does too. *)
Definition safe (c : list Z) (ws : list (list Z)) : Prop :=
  Forall short ws ∧ ∀ a, ws !! 1%nat = Some a → (length c + length a < 63)%nat.

Definition safe_turn (st : sh) : Prop :=
  match edit_line printable CMD_LEN [] (sh_inp st) with
  | Some (l, _) => safe (sh_cwd st) (take MAX_ARGS (words l))
  | None => True
  end.

(** A whole session: turns until one waits for input or turns the machine off. *)
Inductive session : sh → result → Prop :=
  | session_wait st : turn st RWait → session st RWait
  | session_off st : turn st ROff → session st ROff
  | session_turn st st' r : turn st (RNext st') → session st' r → session st r.

Definition reach : sh → sh → Prop := rtc (λ st st', turn st (RNext st')).

Lemma path_fits_safe c a : (length c < 64)%nat → (length c + length a < 63)%nat → path_fits c a.
Proof.
  intros Hc Ha. unfold path_fits. destruct a as [|x a]; simpl in *; [lia|].
  destruct (x =? slash); [lia|]. unfold join.
  destruct decide, (length c <? 62)%nat; rewrite length_app; simpl; lia.
Qed.

Section spec.
Context `{B : Bus, L : !PcLaws B}.
Implicit Types (m : machine).

Record sys_rep m (st : sh) : Prop := {
  sr_fs : fs_rep (m_fs m) (sh_fm st);
  sr_dir : dir_rep (m_dir m) (sh_ps st);
  sr_cwd : cwd_of (m_dir m) (sh_ps st) = sh_cwd st;
  sr_io : io_rep (m_io m) (sh_inp st);
  sr_cmd : zlen (m_cmd m) = CMD_LEN
}.

Definition sim (o : outcome machine unit) (r : result) : Prop :=
  match r with
  | RNext st' => ∃ m', o = Ret tt m' ∧ sys_rep m' st'
  | RWait => ∃ m', o = Blocked m'
  | ROff => ∃ m', o = Off m'
  end.

(** The results of the components, as results of the system. *)
Lemma sim_fs m st fm inp o :
  sys_rep m st → (∃ m', o = Ret tt m' ∧ fs_done m m' fm inp) →
  sim o (RNext (with_fm fm inp st)).
Proof.
  intros [] (m' & -> & []). exists m'. split; [done|]. constructor; simpl; congruence.
Qed.

Lemma sim_same m st o :
  sys_rep m st → (∃ m', o = Ret tt m' ∧ fs_done m m' (sh_fm st) (sh_inp st)) → sim o (RNext st).
Proof.
  intros Hm H. replace st with (with_fm (sh_fm st) (sh_inp st) st) by by destruct st.
  by apply (sim_fs m).
Qed.

Lemma sim_dir m st ps c inp o :
  sys_rep m st → (∃ m', o = Ret tt m' ∧ dir_done m m' ps c inp) →
  sim o (RNext (with_dirs ps c inp st)).
Proof.
  intros [] (m' & -> & []). exists m'. split; [done|]. constructor; simpl; congruence.
Qed.

Lemma sim_io m st i tr o :
  sys_rep m st → o = Ret tt (set_io i m) → emits (m_io m) tr i (sh_inp st) → sim o (RNext st).
Proof.
  intros Hm -> [Hi _]. apply (sim_same m); [done|]. eexists. split; [done|]. constructor; try done. apply Hm.
Qed.

Lemma sim_say m st c tr : sys_rep m st → Prints c tr → sim (say c m) (RNext st).
Proof.
  intros Hm Hc. destruct (say_run c tr m (sh_inp st) Hc (sr_io _ _ Hm)) as (i & E & He).
  by eapply sim_io.
Qed.

Lemma sim_complain m st c tr : sys_rep m st → Prints c tr → sim (complain c m) (RNext st).
Proof.
  intros Hm Hc. destruct (complain_run c tr m (sh_inp st) Hc (sr_io _ _ Hm)) as (i & E & He).
  by eapply sim_io.
Qed.

(** ** Choosing the command *)

Lemma cmd_case_run w cb ss yes no m :
  cstr cb w → Forall (λ s, lit_ok s = true) ss →
  cmd_case cb ss yes no m = (if cmd_is w ss then yes else no) m.
Proof.
  intros Hw HF. unfold cmd_is. induction HF as [|s ss Hs HF IH]; simpl; [done|].
  unfold is_cmd. destruct (kstrcmp_test cb w (lit s) (chars s)) as (r & Er & Hr);
    [done|by apply cstr_lit, lit_ok_chars|].
  rewrite bind_assoc, (bind_lift _ _ _ _ Er). steps. rewrite Hr.
  case_bool_decide as E.
  - rewrite bool_decide_true; [done|]. set_solver.
  - rewrite IH. erewrite bool_decide_ext; [reflexivity|]. set_solver.
Qed.

(** An argument as a string: the word, or the default. *)
Lemma arg_or_run argv ws k dflt :
  Forall2 cstr argv ws → lit_ok dflt = true → cstr (arg_or argv k dflt) (word_or ws k dflt).
Proof.
  intros HF Hd. unfold arg_or, word_or. destruct (argv !! k) as [b|] eqn:Eb.
  - destruct (Forall2_lookup_l _ _ _ _ _ HF Eb) as (w & -> & Hw). done.
  - destruct (ws !! k) as [w|] eqn:Ew; [|by apply cstr_lit, lit_ok_chars].
    destruct (Forall2_lookup_r _ _ _ _ _ HF Ew) as (b & Eb' & _). congruence.
Qed.

Lemma word_short ws k dflt : Forall short ws → (length (chars dflt) < 64)%nat → short (word_or ws k dflt).
Proof.
  intros HF Hd. unfold word_or. destruct (ws !! k) eqn:E; [|done]. by eapply Forall_lookup_1.
Qed.

(** ** The commands *)

Section commands.
Context (m : machine) (st : sh) (cb : list Z).
Hypothesis Hm : sys_rep m st.
Hypothesis Hcb : cstr cb (sh_cwd st).

Local Lemma cwd_ok : valid_path (sh_cwd st).
Proof. rewrite <-(sr_cwd _ _ Hm). apply cwd_valid, Hm. Qed.

Local Lemma cwd_short : short (sh_cwd st).
Proof. apply cwd_ok. Qed.

(** A missing argument. *)
Local Lemma usage_sim c tr nb (k : Z → M machine unit) :
  Prints c tr → cstr nb [] →
  sim ((x ← lift_opt (kstrlen nb); if x =? 0 then complain c else k x) m) (RNext st).
Proof.
  intros Hc Hn. rewrite (bind_lift _ _ _ _ (kstrlen_cstr _ _ Hn)). by eapply sim_complain.
Qed.

Lemma write_sim nb n :
  cstr nb n → short n → ∃ r, exec_write st n r ∧ sim (fs_write nb cb m) r.
Proof.
  intros Hn Sn. unfold exec_write. destruct decide as [->|Hne].
  { eexists. split; [done|]. eapply usage_sim; [apply _|done]. }
  destruct (fs_write_run m _ _ nb n cb _ (sr_fs _ _ Hm) (sr_io _ _ Hm) Hn Hcb Hne Sn cwd_short)
    as [(Hnone & _ & Hd)|Hw].
  { eexists. split; [by left|]. by apply (sim_same m). }
  destruct (text_entry [] (sh_inp st)) as [[data rest]|].
  - destruct Hw as (m' & E & [Hd|[_ Hd]]).
    + eexists. split; [right; by left|]. apply (sim_fs m); [done|]. by exists m'.
    + eexists. split; [right; by right|]. apply (sim_fs m); [done|]. by exists m'.
  - exists RWait. split; [by right|done].
Qed.

Lemma edit_sim nb n : cstr nb n → ∃ r, exec_edit st n r ∧ sim (fs_edit nb cb m) r.
Proof.
  intros Hn. unfold exec_edit. destruct decide as [->|Hne].
  { eexists. split; [done|]. eapply usage_sim; [apply _|done]. }
  pose proof (fs_edit_run m _ _ nb n cb _ (sr_fs _ _ Hm) (sr_io _ _ Hm) Hn Hcb Hne) as Hw.
  unfold edit_result in Hw. destruct (sh_fm st !! (sh_cwd st, n)) as [old|].
  2:{ eexists. split; [done|]. by apply (sim_same m). }
  destruct (text_entry old (sh_inp st)) as [[data rest]|]; [|by exists RWait].
  destruct Hw as (m' & E & [Hd|[_ Hd]]).
  - eexists. split; [by left|]. apply (sim_fs m); [done|]. by exists m'.
  - eexists. split; [by right|]. apply (sim_fs m); [done|]. by exists m'.
Qed.

Lemma delete_sim nb n : cstr nb n → ∃ r, exec_delete st n r ∧ sim (fs_delete nb cb m) r.
Proof.
  intros Hn. unfold exec_delete. destruct decide as [->|Hne].
  { eexists. split; [done|]. eapply usage_sim; [apply _|done]. }
  pose proof (fs_delete_run m _ _ nb n cb _ (sr_fs _ _ Hm) (sr_io _ _ Hm) Hn Hcb Hne) as Hw.
  unfold delete_result in Hw. destruct (sh_fm st !! (sh_cwd st, n)) as [old|].
  2:{ eexists. split; [done|]. by apply (sim_same m). }
  destruct (edit_line (λ _, true) 4 [] (sh_inp st)) as [[ans rest]|]; [|by exists RWait].
  eexists. split; [done|]. apply (sim_fs m); [done|].
  by case_bool_decide; destruct decide.
Qed.

Lemma rename_sim nb n nb' n' :
  cstr nb n → cstr nb' n' → short n' → ∃ r, exec_rename st n n' r ∧ sim (fs_rename nb nb' cb m) r.
Proof.
  intros Hn Hn' Sn. eexists. split; [reflexivity|]. case_bool_decide as E.
  - unfold fs_rename. rewrite (bind_lift _ _ _ _ (kstrlen_cstr _ _ Hn)).
    destruct n as [|x n].
    + steps. eapply sim_complain; [done|apply _].
    + rewrite name_nonempty by done. rewrite (bind_lift _ _ _ _ (kstrlen_cstr _ _ Hn')).
      destruct E as [?| ->]; [done|]. eapply sim_complain; [done|apply _].
  - apply (sim_fs m); [done|]. apply (fs_rename_run _ _ _ nb n nb' n' cb); try done;
      [apply Hm|apply Hm|naive_solver..].
Qed.

Lemma copy_sim nb n nb' n' :
  cstr nb n → cstr nb' n' → short n' → ∃ r, exec_copy st n n' r ∧ sim (fs_copy nb nb' cb m) r.
Proof.
  intros Hn Hn' Sn. unfold exec_copy.
  destruct (decide (n = [] ∨ n' = [])) as [E|E].
  - eexists. split; [by left|]. unfold fs_copy. rewrite (bind_lift _ _ _ _ (kstrlen_cstr _ _ Hn)).
    destruct n as [|x n].
    + steps. eapply sim_complain; [done|apply _].
    + rewrite name_nonempty by done. rewrite (bind_lift _ _ _ _ (kstrlen_cstr _ _ Hn')).
      destruct E as [?| ->]; [done|]. eapply sim_complain; [done|apply _].
  - assert (n ≠ []) by naive_solver. assert (n' ≠ []) by naive_solver.
    destruct (fs_copy_run m _ _ nb n nb' n' cb _ (sr_fs _ _ Hm) (sr_io _ _ Hm) Hn Hn' Hcb)
      as (m' & Eo & Hc); [done..|apply cwd_short|].
    assert (Hsame : fs_done m m' (sh_fm st) (sh_inp st) → ∃ r,
      (r = RNext st ∨ ∃ v, n ≠ [] ∧ n' ≠ [] ∧ sh_fm st !! (sh_cwd st, n) = Some v ∧
        sh_fm st !! (sh_cwd st, n') = None ∧
        r = RNext (with_fm (<[(sh_cwd st, n') := v]> (sh_fm st)) (sh_inp st) st)) ∧
      sim (fs_copy nb nb' cb m) r).
    { intros Hd. eexists. split; [by left|]. apply (sim_same m); [done|]. by exists m'. }
    destruct (sh_fm st !! (sh_cwd st, n)) as [v|] eqn:Ev; [|by apply Hsame].
    destruct (sh_fm st !! (sh_cwd st, n')) as [v'|] eqn:Ev'; [by apply Hsame|].
    destruct Hc as [[_ Hc]|[[_ Hc]|Hc]]; [by apply Hsame..|].
    eexists. split; [right; by exists v|]. apply (sim_fs m); [done|]. by exists m'.
Qed.

Lemma mkdir_sim nb n :
  cstr nb n → (n ≠ [] → path_fits (sh_cwd st) n) → ∃ r, exec_mkdir st n r ∧ sim (dir_mkdir nb m) r.
Proof.
  intros Hn Hfit. eexists. split; [reflexivity|]. destruct decide as [->|Hne].
  { eapply usage_sim; [apply _|done]. }
  apply (sim_dir m); [done|]. rewrite <-(sr_cwd _ _ Hm) in *.
  apply dir_mkdir_run; try done; try apply Hm. by apply Hfit.
Qed.

Lemma cd_sim tb t :
  cstr tb t → (t ≠ [] → path_fits (sh_cwd st) t) → ∃ r, exec_cd st t r ∧ sim (dir_cd tb m) r.
Proof.
  intros Ht Hfit. eexists. split; [reflexivity|]. destruct decide as [->|Hne].
  { eapply usage_sim; [apply _|done]. }
  apply (sim_dir m); [done|]. rewrite <-(sr_cwd _ _ Hm) in *.
  apply dir_cd_run; try done; try apply Hm. intros _. by apply Hfit.
Qed.

Lemma rmdir_sim nb n :
  cstr nb n → (n ≠ [] → path_fits (sh_cwd st) n) → ∃ r, exec_rmdir st n r ∧ sim (dir_rmdir nb m) r.
Proof.
  intros Hn Hfit. unfold exec_rmdir. destruct decide as [->|Hne].
  { eexists. split; [reflexivity|]. eapply usage_sim; [apply _|done]. }
  rewrite <-(sr_cwd _ _ Hm) in *.
  destruct (dir_rmdir_run m _ _ _ nb n (sr_fs _ _ Hm) (sr_dir _ _ Hm) (sr_io _ _ Hm) Hn Hne (Hfit Hne))
    as [[Hr Hd]|[Hr Hd]].
  - eexists. split; [by left|].
    replace st with (with_dirs (sh_ps st) (sh_cwd st) (sh_inp st) st) by by destruct st.
    rewrite <-(sr_cwd _ _ Hm). by apply (sim_dir m).
  - destruct (edit_line (λ _, true) 4 [] (sh_inp st)) as [[ans rest]|].
    + eexists. split; [by right|]. apply (sim_dir m); [done|].
      by case_bool_decide; destruct decide.
    + exists RWait. split; [by right|done].
Qed.

Lemma read_sim nb n : cstr nb n → sim (fs_read nb cb m) (RNext st).
Proof.
  intros Hn. destruct (decide (n = [])) as [->|Hne]; [eapply usage_sim; [apply _|done]|].
  destruct (fs_read_run m _ _ nb n cb _ (sr_fs _ _ Hm) (sr_io _ _ Hm) Hn Hcb Hne) as (i & E & He).
  by eapply sim_io.
Qed.

Lemma ls_sim : sim (dir_ls m) (RNext st).
Proof.
  destruct (dir_ls_run m _ _ _ (sr_fs _ _ Hm) (sr_dir _ _ Hm) (sr_io _ _ Hm)) as (i & E & He).
  by eapply sim_io.
Qed.
End commands.

(** ** shutdown *)

#[local] Instance u32_is_u32 x : IsU32 (u32 x).
Proof. unfold IsU32, u32. apply Z.mod_pos_bound. lia. Qed.

Definition stop_lines (p : Z * string) : list citem :=
  if p.1 =? -4 then []
  else [CText (chars "  [kernel]   -> stopping "); CText (chars p.2); CText (chars " (proc ");
        CText (dec_string (u32 (if p.1 <? 0 then - p.1 else p.1))); line ")"].

Lemma stop_procs_print l :
  Forall (λ p, lit_ok p.2 = true) l →
  Prints (for_each l stop_proc) (concat (stop_lines <$> l)).
Proof.
  induction 1 as [|[nr name] l Hl HF IH]; [apply prints_ret|]. cbn [for_each].
  rewrite fmap_cons. cbn [concat]. apply prints_seq; [|done]. unfold stop_lines, stop_proc. cbn [fst snd] in *.
  destruct (nr =? -4); [apply prints_ret|]. cbn [negb].
  assert (IsStr (lit name) (chars name)) by by apply cstr_lit, lit_ok_chars.
  refine (prints_seq _ _ [_] _ _ _). refine (prints_seq _ _ [_] _ _ _).
  refine (prints_seq _ _ [_] _ _ _). refine (prints_seq _ _ [_] _ _ _).
Qed.

(** The machine is off, with interrupts disabled, both controllers back at
    their BIOS vectors and every line masked. *)
Definition powered_off m' : Prop :=
  io_if (m_io m') = false ∧
  imr (pic1 (io_dev (m_io m'))) = 0xFF ∧ imr (pic2 (io_dev (m_io m'))) = 0xFF ∧
  vec_base (pic1 (io_dev (m_io m'))) = 0x08 ∧ vec_base (pic2 (io_dev (m_io m'))) = 0x70.

Lemma bind_say_vga {A} c tr m (f : unit → M machine A) :
  Prints c tr → vga_wf (io_vga (m_io m)) →
  ∃ v, (say c ≫= f) m = f tt (set_io (set_vga v (m_io m)) m) ∧ vga_wf v.
Proof.
  intros Hc Hv. exists (render (io_vga (m_io m)) tr). split; [|by apply render_wf].
  apply bind_ret, zoom_ret. by apply con_run.
Qed.

#[local] Instance boot_image_print :
  Prints (for_each boot_image stop_proc) (concat (stop_lines <$> boot_image)).
Proof. apply stop_procs_print. by repeat constructor. Qed.

Ltac say_vga Hv v Hv' :=
  match goal with |- context [(say ?c ≫= ?k) ?m] =>
    let E := fresh in destruct (bind_say_vga c _ m k _ Hv) as (v & E & Hv'); rewrite E; clear E end.

Lemma shutdown_run m st :
  sys_rep m st → ∃ m', cmd_shutdown m = Off m' ∧ powered_off m' ∧
    m_fs m' = m_fs m ∧ m_dir m' = m_dir m.
Proof.
  intros Hm. assert (Hv : vga_wf (io_vga (m_io m))) by apply Hm. unfold cmd_shutdown.
  say_vga Hv v1 Hv1. say_vga Hv1 v2 Hv2. say_vga Hv2 v3 Hv3.
  set (i3 := set_vga v3 _). destruct (pic_restore_run i3) as (d & E & P1 & P2).
  rewrite (bind_onio _ _ _ _ _ (E : pic_restore (m_io (set_io i3 _)) = _)).
  say_vga Hv3 v4 Hv4.
  eexists. split.
  { unfold onio, zoom. unfold cli. rewrite bind_modify, !bind_outb by (split; easy). reflexivity. }
  split; [|done]. unfold powered_off. cbn [m_io set_io io_if io_dev set_if set_dev set_vga].
  rewrite !law_out1, !law_out2 by lia. rewrite P1, P2. done.
Qed.

(** ** Dispatch *)

(** The first argument, when there is one, gives a path that fits. *)
Lemma arg1_fits c ws dflt :
  (length c < 64)%nat → safe c ws → (chars dflt ≠ [] → path_fits c (chars dflt)) →
  word_or ws 1 dflt ≠ [] → path_fits c (word_or ws 1 dflt).
Proof.
  intros Hl [_ Ha] Hd. unfold word_or. destruct (ws !! 1%nat) as [a|]; [|done].
  intros _. apply path_fits_safe; [done|]. by apply Ha.
Qed.

Ltac lits_ok := repeat first [apply Forall_nil_2 | apply Forall_cons_2; [reflexivity|]].
Ltac next_case w Hw :=
  rewrite (cmd_case_run w) by first [exact Hw | lits_ok];
  match goal with |- context [if cmd_is w ?ss then _ else _] => destruct (cmd_is w ss) end.

Lemma dispatch_run m st argv ws :
  sys_rep m st → Forall2 cstr argv ws → ws ≠ [] → safe (sh_cwd st) ws →
  ∃ r, exec st ws r ∧ sim (shell_dispatch argv m) r.
Proof.
  intros Hm HF Hne Hsafe. pose proof (cwd_ok m st Hm) as (_ & Hcwd & _). pose proof Hsafe as [Hsh _].
  destruct (getcwd_run _ _ (sr_dir _ _ Hm)) as (cb & Ec & Hcb). rewrite (sr_cwd _ _ Hm) in Hcb.
  destruct (argv !! 0%nat) as [wb|] eqn:Ewb.
  2:{ apply lookup_ge_None in Ewb. apply Forall2_length in HF. destruct ws; [done|]. simpl in *. lia. }
  destruct (Forall2_lookup_l _ _ _ _ _ HF Ewb) as (w & Ew & Hw).
  assert (Hfit1 := arg1_fits _ ws "" Hcwd Hsafe ltac:(done)).
  assert (Hfit2 := arg1_fits _ ws "/" Hcwd Hsafe ltac:(intros _; simpl; lia)).
  assert (Ha1 := arg_or_run argv ws 1 "" HF eq_refl). assert (Ha2 := arg_or_run argv ws 2 "" HF eq_refl).
  assert (Ha3 := arg_or_run argv ws 1 "/" HF eq_refl).
  assert (Hs1 : short (word_or ws 1 "")) by (apply word_short; [done|simpl; lia]).
  assert (Hs2 : short (word_or ws 2 "")) by (apply word_short; [done|simpl; lia]).
  unfold shell_dispatch. rewrite (bind_lift _ wb) by done.
  rewrite (bind_ondir _ _ _ _ _ Ec), set_dir_id. unfold exec.
  assert (word_or ws 0 "" = w) as -> by (unfold word_or; by rewrite Ew).
  assert (Hstay : ∀ (o : outcome machine unit), sim o (RNext st) → ∃ r, r = RNext st ∧ sim o r) by eauto.
  next_case w Hw; [apply Hstay; eapply sim_say; [done|apply _]|].
  next_case w Hw; [apply Hstay; eapply sim_say; [done|apply _]|].
  next_case w Hw; [apply Hstay; eapply sim_say; [done|apply _]|].
  next_case w Hw; [apply Hstay; eapply sim_say; [done|apply _]|].
  next_case w Hw; [exists ROff; split; [done|];
    destruct (shutdown_run m st Hm) as (m' & E & _); by exists m'|].
  next_case w Hw; [by eapply write_sim|].
  next_case w Hw; [apply Hstay; by eapply read_sim|].
  next_case w Hw; [by eapply edit_sim|].
  next_case w Hw; [by eapply delete_sim|].
  next_case w Hw; [by eapply rename_sim|].
  next_case w Hw; [by eapply copy_sim|].
  next_case w Hw; [by eapply mkdir_sim|].
  next_case w Hw; [by eapply cd_sim|].
  next_case w Hw; [by eapply rmdir_sim|].
  next_case w Hw; [apply Hstay; by apply ls_sim|].
  apply Hstay. eapply sim_complain; [done|apply _].
Qed.

(** ** The main loop *)

Lemma sim_then_say o r c tr (k : unit → M machine unit) :
  Prints c tr → (∀ m, k tt m = say c m) → sim o r →
  sim (match o with Ret a m => k a m | Fault m => Fault m | Blocked m => Blocked m
       | Off m => Off m | Timeout m => Timeout m end) r.
Proof.
  intros Hc Hk. destruct r as [st'| |]; simpl.
  - intros (m' & -> & Hm'). rewrite Hk. by eapply sim_say.
  - intros (m' & ->). by exists m'.
  - intros (m' & ->). by exists m'.
Qed.

Lemma shell_step_run m st :
  sys_rep m st → safe_turn st → ∃ r, turn st r ∧ sim (shell_step m) r.
Proof.
  intros Hm Hsafe. unfold shell_step, turn.
  destruct (getcwd_run _ _ (sr_dir _ _ Hm)) as (cb & Ec & Hcb).
  rewrite (bind_ondir _ _ _ _ _ Ec), set_dir_id. print_cmd (sr_io _ _ Hm) i1 Hi1. steps.
  pose proof (read_with_run printable CMD_LEN (m_cmd m) i1 _ Hi1 (sr_cmd _ _ Hm) ltac:(done)) as Hread.
  unfold safe_turn in Hsafe.
  destruct (edit_line printable CMD_LEN [] (sh_inp st)) as [[l rest]|].
  2:{ destruct Hread as [i' E]. exists RWait. split; [done|]. eexists. by apply onio_blocked. }
  destruct Hread as (buf & i2 & E & Hc & Hlen & _ & Hi2 & _).
  rewrite (bind_onio _ _ _ _ _ (E : shell_readline _ _ (m_io (set_io i1 m)) = _)).
  cbv zeta. steps. set (st1 := with_fm (sh_fm st) rest st).
  assert (Hm1 : ∀ b, zlen b = CMD_LEN → sys_rep (set_cmd b (set_io i2 (set_io i1 m))) st1).
  { intros b Hb. destruct Hm. by constructor. }
  destruct (Z.eqb_spec (zlen l) 0) as [El|El].
  { destruct l; [|rewrite zlen_cons in El; pose proof (zlen_nonneg l); lia].
    exists (RNext st1). split; [by rewrite decide_True|]. eexists. split; [reflexivity|].
    by apply Hm1. }
  destruct (parse_cmd_run buf l Hc) as (buf1 & argv & Ep & Hl1 & HF).
  rewrite (bind_lift _ _ _ _ Ep). steps. set (ws := take MAX_ARGS (words l)) in *.
  pose proof (Forall2_length _ _ _ HF) as Hlen2.
  assert (Hb1 : zlen buf1 = CMD_LEN) by (unfold zlen in *; congruence).
  destruct (Nat.eqb_spec (length argv) 0) as [E0|E0].
  { exists (RNext st1). split; [by rewrite decide_True by (apply nil_length_inv; lia)|].
    eexists. split; [reflexivity|]. by apply (Hm1 buf1). }
  destruct (dispatch_run (set_cmd buf1 (set_io i2 (set_io i1 m))) st1 ((λ p, drop p buf1) <$> argv) ws)
    as (r & Hr & Hsim); [by apply Hm1|by apply Forall2_fmap_l| |done|].
  { intros Ew. rewrite Ew in Hlen2. simpl in *. lia. }
  exists r. split; [rewrite decide_False; [done|intros Ew; rewrite Ew in Hlen2; simpl in *; lia]|].
  eapply (sim_then_say _ _ (vga_writeln (lit ""))); [apply _|done|exact Hsim].
Qed.

Lemma shell_loop fuel m st :
  sys_rep m st → (∀ st', reach st st' → safe_turn st') → (length (sh_inp st) < fuel)%nat →
  ∃ r, session st r ∧
    sim (loop fuel (λ _ : unit, shell_step;; mret (inl tt)) tt m) r.
Proof.
  revert m st. induction fuel as [|fuel IH]; intros m st Hm Hsafe Hf; [lia|].
  rewrite loop_S, bind_assoc.
  destruct (shell_step_run m st Hm (Hsafe st (rtc_refl _ _))) as ([st'| |] & Ht & Hsim).
  - destruct Hsim as (m' & E & Hm'). step E. steps.
    pose proof (turn_inp _ _ Ht).
    destruct (IH m' st' Hm') as (r & Hr & Hsim); [|lia|].
    { intros st2 H2. apply Hsafe. by eapply rtc_l. }
    exists r. split; [by eapply session_turn|done].
  - destruct Hsim as (m' & E). exists RWait. split; [by apply session_wait|].
    exists m'. by apply bind_blocked.
  - destruct Hsim as (m' & E). exists ROff. split; [by apply session_off|].
    exists m'. by apply bind_off.
Qed.

Lemma session_end st r : session st r → r = RWait ∨ r = ROff.
Proof. induction 1; auto. Qed.

(** The shell runs a session of the reference shell. *)
Lemma shell_run_run m st :
  sys_rep m st → (∀ st', reach st st' → safe_turn st') →
  ∃ r, session st r ∧ sim (shell_run m) r.
Proof.
  intros Hm Hsafe. unfold shell_run. print_cmd (sr_io _ _ Hm) i1 Hi1. steps.
  apply shell_loop; [|done|].
  - destruct Hm. by constructor.
  - by apply input_fuel_enough.
Qed.
End spec.
