(* ===== verification/ShellInv.v ===== *)
(** * What holds in every state of a session

    Invariants of the reference shell, and so of the kernel's state: the
    directories of the table are distinct, the current directory and the root
    are among them, and every file lies in one of them. *)

From S2P Require Import Prelude CString Vga Console Keyboard Io IoSpec Fat FatRep DirTable LineInput Machine Fs FsStore FsSpec FsOutput Dir DirSpec Shell ShellParse ShellSpec.

Record tidy (st : sh) : Prop := {
  td_root : root ∈ sh_ps st;
  td_cwd : sh_cwd st ∈ sh_ps st;
  td_file : ∀ d n, is_Some (sh_fm st !! (d, n)) → d ∈ sh_ps st
}.

(** Files may change in the current directory only. *)
Lemma tidy_files st fm inp :
  tidy st → (∀ d n, is_Some (fm !! (d, n)) → d = sh_cwd st ∨ is_Some (sh_fm st !! (d, n))) →
  tidy (with_fm fm inp st).
Proof.
  intros [Hr Hc Hf] H. constructor; simpl; try done.
  intros d n [->|Hs]%H; [done|by eapply Hf].
Qed.

Lemma insert_cwd (fm : afs) c n v d k :
  is_Some (<[(c, n) := v]> fm !! (d, k)) → d = c ∨ is_Some (fm !! (d, k)).
Proof. intros [[= -> _]|[_ H]]%lookup_insert_is_Some; auto. Qed.

Lemma delete_any (fm : afs) x d k : is_Some (delete x fm !! (d, k)) → is_Some (fm !! (d, k)).
Proof. intros [_ H]%lookup_delete_is_Some. done. Qed.

Lemma renamed_cwd fm c n n' d k :
  is_Some (renamed fm c n n' !! (d, k)) → d = c ∨ is_Some (fm !! (d, k)).
Proof.
  unfold renamed. destruct (fm !! (c, n)); [|auto]. destruct (fm !! (c, n')); [auto|].
  intros [->|H%delete_any]%insert_cwd; auto.
Qed.

Lemma made_incl ps p q : q ∈ ps → q ∈ made ps p.
Proof. unfold made. destruct decide; [done|]. destruct decide; [done|]. set_solver. Qed.

Lemma went_in ps c p : c ∈ ps → went ps c p ∈ ps.
Proof. unfold went. by destruct decide. Qed.

Lemma exec_tidy st ws st' : tidy st → exec st ws (RNext st') → tidy st'.
Proof.
  intros Ht. unfold exec. cbv zeta.
  repeat match goal with |- context [if cmd_is ?w ?ss then _ else _] => destruct (cmd_is w ss) end;
    try (intros [= ->]; done); intros H.
  - unfold exec_write in H. destruct decide; [by injection H as ->|].
    destruct H as [[_ [= ->]]|H]; [done|].
    destruct (text_entry _ _) as [[data rest]|]; [|done].
    destruct H as [[= ->]|[= ->]]; apply tidy_files; eauto using insert_cwd, delete_any.
  - unfold exec_edit in H. destruct decide; [by injection H as ->|].
    destruct (sh_fm st !! _) as [old|]; [|by injection H as ->].
    destruct (text_entry _ _) as [[data rest]|]; [|done].
    destruct H as [[= ->]|[= ->]]; apply tidy_files; eauto using insert_cwd.
  - unfold exec_delete in H. destruct decide; [by injection H as ->|].
    destruct (sh_fm st !! _) as [old|]; [|by injection H as ->].
    destruct (edit_line _ _ _ _) as [[ans rest]|]; [|done].
    injection H as ->. apply tidy_files; [done|]. case_bool_decide; eauto using delete_any.
  - injection H as ->. case_bool_decide; [done|]. apply tidy_files; eauto using renamed_cwd.
  - destruct H as [[= ->]|(v & _ & _ & _ & _ & [= ->])]; [done|]. apply tidy_files; eauto using insert_cwd.
  - injection H as ->. destruct decide; [done|]. destruct Ht. constructor; simpl; eauto using made_incl.
  - injection H as ->. destruct decide; [done|]. destruct Ht. constructor; simpl; eauto using went_in.
  - unfold exec_rmdir in H. destruct decide; [by injection H as ->|].
    destruct H as [[_ [= ->]]|[Hnr H]]; [done|].
    destruct (edit_line _ _ _ _) as [[ans rest]|]; [|done].
    injection H as ->. case_bool_decide; destruct Ht as [Hr Hc Hf]; [|by constructor].
    unfold refused in Hnr. constructor; simpl.
    + apply list_elem_of_filter. split; [|done]. intros E. apply Hnr. by left.
    + apply list_elem_of_filter. split; [|done]. intros E. apply Hnr. by right; right; left.
    + intros d k Hs. apply list_elem_of_filter. split; [|by eapply Hf].
      intros ->. apply Hnr. right; right; right. by exists k.
Qed.

Lemma turn_tidy st st' : tidy st → turn st (RNext st') → tidy st'.
Proof.
  intros Ht. unfold turn. destruct (edit_line _ _ _ _) as [[l rest]|]; [|done]. cbv zeta.
  assert (tidy (with_fm (sh_fm st) rest st)) by (apply tidy_files; auto).
  destruct decide; [by intros [= ->]|]. by apply exec_tidy.
Qed.

Lemma reach_tidy st st' : tidy st → reach st st' → tidy st'.
Proof. intros Ht Hr. induction Hr; eauto using turn_tidy. Qed.
