(* ===== verification/Boot.v ===== *)
(** * main.c: from the boot loader to the prompt

    The whole kernel: the machine of the commands, and the two descriptor
    tables.  [boot] is [kmain] up to [sti]; [kmain] goes on with the shell. *)

From S2P Require Import Prelude CString Vga Console Keyboard Io IoSpec Descriptors Fat FatRep DirTable LineInput Machine Fs FsStore FsSpec FsOutput Dir DirSpec Shell ShellParse ShellSpec ShellInv.

Definition NR_TASKS : Z := 4.
Definition NR_PROCS : Z := 64.
Definition NR_SYS_PROCS : Z := 32.
Definition NR_BOOT_PROCS : Z := 8.

Record image_entry := ImageEntry { proc_nr : Z; priority : Z; quantum : Z; proc_name : string }.

Definition image : list image_entry :=
  [ImageEntry (-4) 0 0 "HARDWARE"; ImageEntry (-3) 1 10 "IDLE"; ImageEntry (-2) 2 10 "CLOCK";
   ImageEntry (-1) 2 10 "SYSTEM"; ImageEntry 0 3 10 "PM"; ImageEntry 1 3 10 "FS";
   ImageEntry 2 3 10 "TTY"; ImageEntry 3 4 10 "INIT"].

Definition boot_proc_table : M vga_state unit :=
  vga_set_color VGA_LIGHT_GREEN VGA_BLACK;;
  vga_write (lit "  [kernel] proc_table: ");;
  vga_write_dec (NR_TASKS + NR_PROCS);;
  vga_writeln (lit " slots cleared ... OK").

Definition boot_priv_table : M vga_state unit :=
  vga_set_color VGA_LIGHT_GREEN VGA_BLACK;;
  vga_write (lit "  [kernel] priv_table: ");;
  vga_write_dec NR_SYS_PROCS;;
  vga_writeln (lit " slots cleared ... OK").

Definition boot_image_init : M vga_state unit :=
  vga_set_color VGA_LIGHT_GREEN VGA_BLACK;;
  for_each image (λ p,
    vga_write (lit "  [kernel]   -> loaded  ");;
    vga_write (lit (proc_name p));;
    vga_writeln (lit ""));;
  vga_write (lit "  [kernel] boot_image: ");;
  vga_write_dec NR_BOOT_PROCS;;
  vga_writeln (lit " processes loaded  ... OK").

Definition announce : M vga_state unit :=
  vga_set_color VGA_LIGHT_GREEN VGA_BLACK;;
  vga_writeln (lit "  [kernel] DugOS v1.0 -- Built on MINIX 3.1.0 concepts");;
  vga_writeln (lit "  [kernel] Executing in 32-bit protected mode.").

Definition welcome : M vga_state unit :=
  vga_set_color VGA_YELLOW VGA_BLACK;;
  vga_writeln (lit "");;
  vga_writeln (lit "  +=================================================================+");;
  vga_writeln (lit "  |                                                                 |");;
  vga_writeln (lit "  |    ____  _   _   ____   ___   ____                             |");;
  vga_writeln (lit "  |   |  _ \| | | | / ___| / _ \ / ___|                            |");;
  vga_writeln (lit "  |   | | | | | | || |  _ | | | |\___ \                            |");;
  vga_writeln (lit "  |   | |_| | |_| || |_| || |_| | ___) |                           |");;
  vga_writeln (lit "  |   |____/ \___/  \____| \___/ |____/                             |");;
  vga_writeln (lit "  |                                                                 |");;
  vga_writeln (lit "  |          O P E R A T I N G     S Y S T E M                    |");;
  vga_writeln (lit "  |                      v e r s i o n  1.0                        |");;
  vga_writeln (lit "  |                                                                 |");;
  vga_writeln (lit "  |   - - - - - - - - - - - - - - - - - - - - - - - - - - - - -   |");;
  vga_writeln (lit "  |      Built on MINIX 3.1.0 kernel  (Appendix B, line 07100)    |");;
  vga_writeln (lit "  |   - - - - - - - - - - - - - - - - - - - - - - - - - - - - -   |");;
  vga_writeln (lit "  |                                                                 |");;
  vga_writeln (lit "  |              [ Type  'help'  to begin ]                        |");;
  vga_writeln (lit "  |                                                                 |");;
  vga_writeln (lit "  +=================================================================+").

Section boot.
Context `{B : Bus}.

Record kernel := Kernel {
  k_m : machine;
  k_gdt : gdt_state;
  k_idt : idt_state
}.

Definition set_m (x : machine) (k : kernel) : kernel := Kernel x (k_gdt k) (k_idt k).
Definition set_gdt (x : gdt_state) (k : kernel) : kernel := Kernel (k_m k) x (k_idt k).
Definition set_idt (x : idt_state) (k : kernel) : kernel := Kernel (k_m k) (k_gdt k) x.

Definition onm {A} (c : M machine A) : M kernel A := zoom k_m set_m c.
Definition ongdt (c : M gdt_state unit) : M kernel unit := zoom k_gdt set_gdt c.
Definition onidt (c : M idt_state unit) : M kernel unit := zoom k_idt set_idt c.

(** Addresses the linker fixes: the two tables and the assembly stubs. *)
Record layout := Layout {
  gdt_addr : Z; idt_addr : Z; isr_stub : Z → Z; irq_stub : Z → Z
}.

Definition boot (ly : layout) : M kernel unit :=
  onm (say (vga_init;; welcome));;
  ongdt (gdt_init (gdt_addr ly));;
  onm (say (vga_set_color VGA_LIGHT_GREEN VGA_BLACK;;
            vga_writeln (lit "  >> GDT loaded (5 entries)")));;
  onidt (idt_init (idt_addr ly) (isr_stub ly) (irq_stub ly));;
  onm (say (vga_writeln (lit "  >> IDT loaded (256 entries, 32 exceptions + 16 IRQ slots)")));;
  onm (onio pic_init);;
  onm (say (boot_proc_table;; boot_priv_table;; boot_image_init;; announce));;
  onm (onio kbd_init);;
  onm (say (vga_writeln (lit "  >> Keyboard driver initialized (IRQ1 registered)")));;
  onm (onfs fs_init);;
  onm (say (vga_writeln (lit "  >> File system initialized (8 x 32KB blocks, FAT-linked)")));;
  onm (ondir dir_init);;
  onm (say (vga_writeln (lit "  >> Directory subsystem initialized (cwd = /)");;
            vga_writeln (lit "");;
            vga_set_color VGA_WHITE VGA_BLACK;;
            vga_writeln (lit "  >> All systems ready. Entering shell...");;
            vga_writeln (lit "")));;
  onm (onio sti).

(** The loop [cli; hlt] after [shell_run] never ends. *)
Definition kmain (ly : layout) : M kernel unit :=
  boot ly;;
  onm shell_run;;
  onm (onio (cli;; hlt)).

(** The kernel as the boot loader starts it: cleared static data, interrupts
    off; the screen memory, the devices and the interrupts to come are
    whatever they are. *)
Definition loaded (mem : list Z) (d : dev) (es : list event) : kernel :=
  Kernel
    (Machine
      (IO (VGA mem 0 0 0) (KBD (replicate 256 0) 0 0 0 0) (replicate 16 None) false d es)
      (FS (replicate 8 0) (replicate 8 (replicate (Z.to_nat FS_BLOCK_SIZE) 0))
          (replicate 32 (Entry (replicate 64 0) (replicate 64 0) 0 0 0))
          (replicate (Z.to_nat TMP_SIZE) 0) (replicate (Z.to_nat TMP_SIZE) 0)
          (replicate (Z.to_nat TMP_SIZE) 0))
      (DIR (replicate 32 (replicate 64 0)) 0 0)
      (replicate (Z.to_nat CMD_LEN) 0))
    (GDT (replicate 5 (GdtEntry 0 0 0 0 0 0)) (TablePtr 0 0) None)
    (IDT (replicate 256 (IdtEntry 0 0 0 0 0)) (TablePtr 0 0) None).
End boot.

Section lemmas.
Context `{B : Bus, L : !PcLaws B}.

Lemma bind_onm {A C} (c : M machine A) (f : A → M kernel C) k a m :
  c (k_m k) = Ret a m → (onm c ≫= f) k = f a (set_m m k).
Proof. intros E. apply bind_ret, zoom_ret, E. Qed.

Lemma bind_ongdt {C} c (f : unit → M kernel C) k g :
  c (k_gdt k) = Ret tt g → (ongdt c ≫= f) k = f tt (set_gdt g k).
Proof. intros E. apply bind_ret, zoom_ret, E. Qed.

Lemma bind_onidt {C} c (f : unit → M kernel C) k t :
  c (k_idt k) = Ret tt t → (onidt c ≫= f) k = f tt (set_idt t k).
Proof. intros E. apply bind_ret, zoom_ret, E. Qed.

Lemma bind_onm_io {A C} (c : M io A) (f : A → M kernel C) k a i :
  c (m_io (k_m k)) = Ret a i → (onm (onio c) ≫= f) k = f a (set_m (set_io i (k_m k)) k).
Proof. intros E. apply bind_onm, zoom_ret, E. Qed.

(** A message before interrupts are on: only the screen changes. *)
Lemma bind_onm_say {C} c tr (f : unit → M kernel C) k :
  Prints c tr → vga_wf (io_vga (m_io (k_m k))) →
  ∃ v, (onm (say c) ≫= f) k =
      f tt (set_m (set_io (set_vga v (m_io (k_m k))) (k_m k)) k) ∧ vga_wf v.
Proof.
  intros Hc Hv. exists (render (io_vga (m_io (k_m k))) tr). split; [|by apply render_wf].
  apply bind_onm, zoom_ret. by apply con_run.
Qed.

#[local] Instance prints_init : Prints vga_init [CColor VGA_LIGHT_GREY VGA_BLACK; CClear].
Proof. apply (prints_seq _ _ [_] [_]); apply _. Qed.

Definition loaded_lines (p : image_entry) : list citem :=
  [text "  [kernel]   -> loaded  "; CText (chars (proc_name p)); line ""].

#[local] Instance prints_image :
  Prints (for_each image (λ p,
    vga_write (lit "  [kernel]   -> loaded  ");;
    vga_write (lit (proc_name p));;
    vga_writeln (lit ""))) (concat (loaded_lines <$> image)).
Proof.
  assert (HF : Forall (λ p, lit_ok (proc_name p) = true) image) by by repeat constructor.
  induction HF as [|p l Hl HF IH]; [apply prints_ret|]. cbn [for_each].
  rewrite fmap_cons. cbn [concat]. apply prints_seq; [|done].
  assert (IsStr (lit (proc_name p)) (chars (proc_name p))) by by apply cstr_lit, lit_ok_chars.
  refine (prints_seq _ _ [_] _ _ _). refine (prints_seq _ _ [_] _ _ _).
Qed.

Lemma prints_tables : ∃ tr, Prints (boot_proc_table;; boot_priv_table;; boot_image_init;; announce) tr.
Proof.
  unfold boot_proc_table, boot_priv_table, boot_image_init, announce.
  assert (IsU32 (NR_TASKS + NR_PROCS)) by (unfold IsU32, NR_TASKS, NR_PROCS; lia).
  assert (IsU32 NR_SYS_PROCS) by (unfold IsU32, NR_SYS_PROCS; lia).
  assert (IsU32 NR_BOOT_PROCS) by (unfold IsU32, NR_BOOT_PROCS; lia).
  eexists. apply _.
Qed.

Lemma prints_cons c1 c2 x t : Prints c1 [x] → Prints c2 t → Prints (c1;; c2) (x :: t).
Proof. apply (prints_seq c1 c2 [x] t). Qed.

Lemma prints_welcome : ∃ tr, Prints welcome tr.
Proof.
  unfold welcome. eexists.
  do 19 (notypeclasses refine (prints_cons _ _ _ _ _ _); [apply _|]). apply _.
Qed.

(** ** The state the prompt starts from *)

(** A kernel whose static data has its declared size, interrupts off. *)
Record ready (k : kernel) (d : dev) (es : list event) : Prop := {
  rd_vga : vga_wf (io_vga (m_io (k_m k)));
  rd_kbd : io_kbd (m_io (k_m k)) = KBD (replicate 256 0) 0 0 0 0;
  rd_irq : irq_handlers (m_io (k_m k)) = replicate 16 None;
  rd_dev : io_dev (m_io (k_m k)) = d;
  rd_env : io_env (m_io (k_m k)) = es;
  rd_fs : fs_shape (m_fs (k_m k));
  rd_dirs : zlen (dirs (m_dir (k_m k))) = DIR_MAX ∧ Forall (λ r, length r = 64%nat) (dirs (m_dir (k_m k)));
  rd_cmd : zlen (m_cmd (k_m k)) = CMD_LEN;
  rd_gdt : zlen (gdt (k_gdt k)) = GDT_ENTRIES;
  rd_idt : zlen (idt (k_idt k)) = IDT_ENTRIES
}.

Lemma zlen_replicate {A} n (x : A) : zlen (replicate n x) = Z.of_nat n.
Proof. unfold zlen. by rewrite length_replicate. Qed.

Lemma zlen_tmp : zlen (replicate (Z.to_nat TMP_SIZE) 0) = TMP_SIZE.
Proof. rewrite zlen_replicate, tmp_size_val, block_size_val. lia. Qed.

Lemma loaded_fs mem d es : fs_shape (m_fs (k_m (loaded mem d es))).
Proof.
  unfold loaded. cbn [m_fs k_m].
  constructor; cbn [fat blocks files wtmp etmp ctmp]; try apply zlen_tmp; rewrite ?zlen_replicate.
  - reflexivity.
  - apply Forall_replicate. lia.
  - reflexivity.
  - apply Forall_replicate. unfold block_ok. rewrite zlen_replicate, block_size_val. lia.
  - reflexivity.
  - apply Forall_replicate. by split_and!.
Qed.

Lemma loaded_ready mem d es : zlen mem = 2000 → ready (loaded mem d es) d es.
Proof.
  intros Hm. constructor; try reflexivity.
  - unfold vga_wf. cbn [loaded k_m m_io io_vga vmem vrow vcol vcolor]. lia.
  - apply loaded_fs.
  - split; [reflexivity|]. by apply Forall_replicate.
Qed.

Definition no_mods : mods := Mods false false.

(** What [boot] promises the shell and the hardware. *)
Record booted (ly : layout) (k : kernel) (d : dev) (es : list event) : Prop := {
  bt_sys : sys_rep (k_m k) (Sh ∅ [root] root (typed no_mods es));
  bt_gdt : gdtr (k_gdt k) = Some (TablePtr 39 (u32 (gdt_addr ly)));
  bt_segs : gdt (k_gdt k) =
    [gdt_encode 0 0 0 0; gdt_encode 0 0xFFFFFFFF 0x9A 0xCF; gdt_encode 0 0xFFFFFFFF 0x92 0xCF;
     gdt_encode 0 0xFFFFFFFF 0xFA 0xCF; gdt_encode 0 0xFFFFFFFF 0xF2 0xCF];
  bt_idt : idtr (k_idt k) = Some (TablePtr 2047 (u32 (idt_addr ly)));
  bt_gates : ∀ n, 0 ≤ n < 256 → zget (idt (k_idt k)) n = Some (idt_gate (isr_stub ly) (irq_stub ly) n);
  bt_base : vec_base (pic1 (io_dev (m_io (k_m k)))) = 0x20 ∧ vec_base (pic2 (io_dev (m_io (k_m k)))) = 0x28;
  bt_mask : ∀ j, 0 ≤ j < 16 → masked (io_dev (m_io (k_m k))) j = negb (1 =? j) && masked d j
}.

Ltac onm_say Hv v Hv' :=
  match goal with |- context [(onm (say ?c) ≫= ?k) ?s] =>
    let E := fresh in destruct (bind_onm_say c _ k s _ Hv) as (v & E & Hv'); rewrite E; clear E end.

Lemma boot_run ly k d es :
  ready k d es → quiet d → Forall event_ok es → ∃ k', boot ly k = Ret tt k' ∧ booted ly k' d es.
Proof.
  intros [Hv Hk Hirq <- <- Hfs [Hd1 Hd2] Hcmd Hg Hi] Hq Hes. unfold boot.
  destruct prints_welcome as [tw Hw]. destruct prints_tables as [tt0 Ht].
  onm_say Hv v1 Hv1.
  erewrite bind_ongdt by exact (gdt_init_run (gdt_addr ly) _ Hg).
  onm_say Hv1 v2 Hv2.
  destruct (idt_init_run (idt_addr ly) (isr_stub ly) (irq_stub ly) _ Hi) as (t & Et & _ & Hgates).
  erewrite bind_onidt by exact Et.
  onm_say Hv2 v3 Hv3.
  set (k3 := set_m _ _). destruct (pic_init_run (m_io (k_m k3)) Hv3) as (d1 & E1 & P1 & P2).
  rewrite (bind_onm_io _ _ _ _ _ E1).
  set (v4 := render _ _). assert (Hv4 : vga_wf v4) by by apply render_wf. clearbody v4.
  onm_say Hv4 v5 Hv5. set (k5 := set_m _ _).
  destruct (kbd_init_run (m_io (k_m k5))) as (d2 & E2 & HP & HM).
  { simpl. by rewrite Hirq. }
  { split; simpl; [by rewrite P1|by rewrite P2]. }
  rewrite (bind_onm_io _ _ _ _ _ E2).
  onm_say Hv5 v6 Hv6.
  destruct (fs_init_run _ Hfs) as (s' & E3 & Hrep & _).
  erewrite bind_onm by (apply zoom_ret; exact E3).
  onm_say Hv6 v7 Hv7.
  destruct (dir_init_run _ Hd1 Hd2) as (D' & E4 & Hdir & Hcwd).
  erewrite bind_onm by (apply zoom_ret; exact E4).
  onm_say Hv7 v8 Hv8. eexists. split; [reflexivity|].
  destruct HP as (B1 & B2 & S1 & S2 & _). simpl in B1, B2, S1, S2.
  rewrite P1 in B1, S1. rewrite P2 in B2, S2. destruct Hq as [Q1 Q2]. simpl in Q1, Q2.
  constructor; try reflexivity.
  - constructor; try done. simpl. constructor; simpl; try done.
    + rewrite Hk. split_and!; try done.
    + by rewrite Hirq.
    + split; [exact (eq_trans S1 Q1)|exact (eq_trans S2 Q2)].
    + rewrite Hk. done.
    + by apply typed_chars.
  - exact Hgates.
  - done.
  - intros j Hj. simpl. rewrite (HM j Hj). f_equal. simpl. unfold masked. rewrite P1, P2. done.
Qed.

(** The fresh system: no file, the root directory, the keys to come. *)
Definition fresh (es : list event) : sh := Sh ∅ [root] root (typed no_mods es).

Lemma fresh_tidy es : tidy (fresh es).
Proof. constructor; simpl; [set_solver..|]. intros d n [v Hv]. by rewrite lookup_empty in Hv. Qed.

(** [kmain] ends as a session of the reference shell ends: it waits for keys
    that never come, or the machine is off. *)
Lemma kmain_run ly k d es :
  ready k d es → quiet d → Forall event_ok es →
  (∀ st, reach (fresh es) st → safe_turn st) →
  ∃ k', (session (fresh es) RWait ∧ kmain ly k = Blocked k') ∨
        (session (fresh es) ROff ∧ kmain ly k = Off k').
Proof.
  intros Hk Hq Hes Hsafe. destruct (boot_run ly k d es Hk Hq Hes) as (k1 & E & Hb).
  unfold kmain. step E.
  destruct (shell_run_run _ _ (bt_sys _ _ _ _ Hb) Hsafe) as (r & Hr & Hsim).
  destruct (session_end _ _ Hr) as [-> | ->]; destruct Hsim as (m' & Em).
  - eexists. left. split; [done|]. apply bind_blocked. unfold onm, zoom. by rewrite Em.
  - eexists. right. split; [done|]. apply bind_off. unfold onm, zoom. by rewrite Em.
Qed.

(** The vector the controllers give a line. *)
Definition irq_vector (d : dev) (irq : Z) : Z :=
  if irq <? 8 then vec_base (pic1 d) + irq else vec_base (pic2 d) + (irq - 8).

Lemma booted_vectors ly k d es irq :
  booted ly k d es → 0 ≤ irq < 16 → 0 ≤ irq_stub ly irq < 2 ^ 32 →
  let v := irq_vector (io_dev (m_io (k_m k))) irq in
  32 ≤ v < 48 ∧ ∃ g, zget (idt (k_idt k)) v = Some g ∧ gate_offset g = irq_stub ly irq ∧
    gate_present g = true ∧ gate_interrupt g = true ∧ selector g = 8.
Proof.
  intros Hb Hirq Hst. simpl. destruct (bt_base _ _ _ _ Hb) as [B1 B2].
  assert (Hv : irq_vector (io_dev (m_io (k_m k))) irq = 32 + irq).
  { unfold irq_vector. rewrite B1, B2. destruct (Z.ltb_spec irq 8); lia. }
  rewrite Hv. split; [lia|]. eexists. split; [apply (bt_gates _ _ _ _ Hb); lia|].
  unfold idt_gate. destruct (Z.ltb_spec (32 + irq) 32), (Z.ltb_spec (32 + irq) 48); try lia.
  replace (32 + irq - 32) with irq by lia. unfold u32. rewrite Z.mod_small by (simpl in Hst; lia).
  split; [by apply gate_offset_encode|]. done.
Qed.
End lemmas.
