(* ===== verification/Sample.v ===== *)
(** * A concrete machine

    A state of the kernel on the bus [pc]: the root directory and [/d], one
    file [/a] with three bytes in block 1, a cleared screen and a given list of
    key events.  The statements about the commands are tried on it. *)

From S2P Require Import Prelude CString Tokens Vga Console Keyboard Io IoSpec Descriptors Fat FatRep DirTable LineInput Machine Fs FsStore FsSpec FsOutput Dir DirSpec Shell ShellParse ShellSpec ShellInv Boot.

Definition pic_idle (base : Z) : chip := Chip 0xB8 base 0 0.
Definition sample_dev : pc_dev := PcDev (pic_idle 0x20) (pic_idle 0x28) 0.

Definition name_field (s : list Z) : list Z := s ++ replicate (64 - length s) 0.
Definition no_entry : file_entry := Entry (replicate 64 0) (replicate 64 0) FAT_END 0 0.
Definition block_of (s : list Z) : list Z :=
  s ++ replicate (Z.to_nat FS_BLOCK_SIZE - length s) 0.
Definition file_a : file_entry := Entry (name_field [97]) (name_field root) 1 3 1.

Definition sample_fs : fs_state :=
  FS [0; FAT_END; 0; 0; 0; 0; 0; 0]
     (block_of [] :: block_of [104; 105; 10] :: replicate 6 (block_of []))
     (file_a :: replicate 31 no_entry)
     (replicate (Z.to_nat TMP_SIZE) 0) (replicate (Z.to_nat TMP_SIZE) 0)
     (replicate (Z.to_nat TMP_SIZE) 0).

Definition sub_d : list Z := [47; 100].
Definition sample_dir : dir_state :=
  DIR (name_field root :: name_field sub_d :: replicate 30 (replicate 64 0)) 2 0.

Definition sample_io (es : list event) : io :=
  IO (VGA (replicate 2000 0) 0 0 7) (KBD (replicate 256 0) 0 0 0 0) kbd_table true sample_dev es.

Definition sample (es : list event) : machine :=
  Machine (sample_io es) sample_fs sample_dir (replicate (Z.to_nat CMD_LEN) 0).

Definition sample_files : afs := {[ (root, [97]) := [104; 105; 10] ]}.
Definition sample_dirs : list (list Z) := [root; sub_d].

(** Keys by their make codes. *)
Definition key (sc : Z) : event := Event 1 sc.
Definition keys (l : list Z) : list event := key <$> l.

Definition sample_sh (es : list event) : sh := Sh sample_files sample_dirs root (typed no_mods es).

(** ** It represents that state *)

Lemma zlen_block s : (length s ≤ 3)%nat → block_ok (block_of s).
Proof.
  intros Hs. unfold block_ok, block_of. rewrite zlen_app, zlen_replicate, block_size_val. unfold zlen. lia.
Qed.

Lemma name_field_cstr s : Forall is_char s → (length s < 64)%nat → cstr (name_field s) s.
Proof.
  intros HF Hs. unfold name_field. destruct (64 - length s)%nat as [|k] eqn:E; [lia|].
  simpl. by apply cstr_app0.
Qed.

Lemma zlen_field s : (length s ≤ 64)%nat → zlen (name_field s) = 64.
Proof. intros Hs. unfold name_field. rewrite zlen_app, zlen_replicate. unfold zlen. lia. Qed.

Lemma sample_fs_shape : fs_shape sample_fs.
Proof.
  unfold sample_fs. constructor; cbn [fat blocks files wtmp etmp ctmp]; try apply zlen_tmp; try reflexivity.
  - repeat apply Forall_cons_2; try apply Forall_nil_2; unfold FAT_END; lia.
  - do 2 (apply Forall_cons_2; [apply zlen_block; simpl; lia|]).
    apply Forall_replicate, zlen_block. simpl. lia.
  - apply Forall_cons_2; [|apply Forall_replicate]; by repeat split.
Qed.

Lemma file_a_live : live sample_fs file_a [97] root [1].
Proof.
  constructor.
  - done.
  - apply name_field_cstr; [repeat constructor; lia|simpl; lia].
  - apply name_field_cstr; [repeat constructor; unfold slash; lia|simpl; lia].
  - done.
  - unfold fits. rewrite block_size_val. unfold zlen. simpl. lia.
Qed.

Lemma file_a_contents : contents sample_fs file_a [1] = [104; 105; 10].
Proof. reflexivity. Qed.

Lemma sample_slot i e : zget (files sample_fs) i = Some e → (i = 0 ∧ e = file_a) ∨ dead e.
Proof.
  unfold sample_fs. cbn [files]. unfold zget. destruct (Z.leb_spec 0 i); [|done].
  destruct (Z.to_nat i) as [|k] eqn:E; cbn [lookup list_lookup].
  - intros [= <-]. left. split; [lia|done].
  - intros [-> _]%lookup_replicate. by right.
Qed.

Lemma sample_live i e n d l :
  zget (files sample_fs) i = Some e → live sample_fs e n d l → i = 0 ∧ e = file_a ∧ n = [97] ∧ d = root ∧ l = [1].
Proof.
  intros [[-> ->]|[Hu _]]%sample_slot Hl; [|by destruct (lv_used _ _ _ _ _ Hl)].
  by destruct (live_fun _ _ _ _ _ _ _ _ Hl file_a_live) as (-> & -> & ->).
Qed.

Lemma sample_fs_rep : fs_rep sample_fs sample_files.
Proof.
  unfold sample_files. constructor.
  - apply sample_fs_shape.
  - intros i e [[-> ->]|Hd]%sample_slot; [|by left]. right. exists [97], root, [1].
    split; [apply file_a_live|]. rewrite file_a_contents. apply lookup_singleton_eq.
  - intros d n v Hv. apply lookup_singleton_Some in Hv as [E _]. injection E as <- <-.
    exists 0, file_a, [1]. split; [done|apply file_a_live].
  - intros i j ei ej n d li lj Hi Hj Hli Hlj.
    apply (sample_live _ _ _ _ _ Hi) in Hli as [-> _]. by apply (sample_live _ _ _ _ _ Hj) in Hlj as [-> _].
  - intros i j ei ej ni di nj dj li lj b Hi Hj Hli Hlj _ _.
    apply (sample_live _ _ _ _ _ Hi) in Hli as [-> _]. by apply (sample_live _ _ _ _ _ Hj) in Hlj as [-> _].
Qed.

Lemma sample_dir_rep : dir_rep sample_dir sample_dirs.
Proof.
  unfold sample_dir, sample_dirs. constructor; cbn [dirs dir_count cwd_idx]; try reflexivity.
  - do 2 (apply Forall_cons_2; [reflexivity|]). by apply Forall_replicate.
  - unfold zlen, DIR_MAX. simpl. lia.
  - intros i p Hp. pose proof (zget_Some_range _ _ _ Hp) as Hr. unfold zlen in Hr. simpl in Hr.
    assert (i = 0 ∨ i = 1) as [-> | ->] by lia; injection Hp as <-; eexists; (split; [reflexivity|]);
      apply name_field_cstr; first [simpl; lia | repeat constructor; unfold slash; lia].
  - repeat constructor; unfold slash; simpl; try lia; done.
  - repeat constructor; set_solver.
  - unfold zlen. simpl. lia.
Qed.

Lemma sample_io_rep es : Forall event_ok es → io_rep (sample_io es) (typed no_mods es).
Proof.
  intros Hes. constructor; try done.
  by apply typed_chars.
Qed.

Lemma sample_rep es : Forall event_ok es → sys_rep (sample es) (sample_sh es).
Proof.
  intros Hes. constructor; [apply sample_fs_rep|apply sample_dir_rep|reflexivity|by apply sample_io_rep|reflexivity].
Qed.

Lemma keys_ok l : Forall (λ c, 0 ≤ c < 256) l → Forall event_ok (keys l).
Proof. intros HF. apply Forall_fmap. eapply Forall_impl; [exact HF|]. intros c Hc. unfold event_ok. simpl in *. lia. Qed.
