(* ===== verification/SystemTheorems.v ===== *)
(** * The system as a whole

    What the boot sequence, the prompt and the commands guarantee together. *)

From S2P Require Import Prelude CString Tokens Vga Console Keyboard Io IoSpec Descriptors Fat FatRep DirTable LineInput Machine Fs FsStore FsSpec FsOutput Dir DirSpec Shell ShellParse ShellSpec ShellInv Boot Sample.

(** Typing shutdown and Enter. *)
Definition shutdown_keys : list event :=
  keys [0x1F; 0x23; 0x16; 0x14; 0x20; 0x18; 0x11; 0x31; 0x1C].
Definition demo_layout : layout := Layout 0x100000 0x100100 (λ n, 0x101000 + 16 * n) (λ n, 0x102000 + 16 * n).
Definition demo_pc : @dev pc := PcDev (Chip 0xB8 8 0 0) (Chip 0x8F 0x70 0 0) 0.

Lemma shutdown_keys_ok : Forall event_ok shutdown_keys.
Proof. apply keys_ok. repeat constructor; lia. Qed.

Lemma shutdown_line st :
  sh_inp st = typed no_mods shutdown_keys →
  edit_line printable CMD_LEN [] (sh_inp st) = Some (chars "shutdown", []).
Proof. intros ->. vm_compute. reflexivity. Qed.

Lemma shutdown_turn st r :
  sh_inp st = typed no_mods shutdown_keys → turn st r → r = ROff.
Proof.
  intros Hi. unfold turn. rewrite (shutdown_line st Hi). cbv zeta.
  replace (take MAX_ARGS (words (chars "shutdown"))) with [chars "shutdown"] by (vm_compute; reflexivity).
  rewrite decide_False by done. unfold exec, word_or. cbn [lookup list_lookup default from_option].
  by replace (cmd_is (chars "shutdown") ["shutdown"%string]) with true by (vm_compute; reflexivity).
Qed.

Lemma shutdown_reach st st' :
  sh_inp st = typed no_mods shutdown_keys → reach st st' → st' = st.
Proof. intros Hi Hr. destruct Hr as [|x y z Ht _]; [done|]. by apply (shutdown_turn _ _ Hi) in Ht. Qed.

Lemma shutdown_safe st :
  sh_inp st = typed no_mods shutdown_keys → (length (sh_cwd st) < 50)%nat → safe_turn st.
Proof.
  intros Hi _. unfold safe_turn. rewrite (shutdown_line st Hi).
  replace (take MAX_ARGS (words (chars "shutdown"))) with [chars "shutdown"] by (vm_compute; reflexivity).
  split; [|done]. apply Forall_singleton. unfold short. simpl. lia.
Qed.



(** The boot sequence leaves an empty file system with the root as current
    directory, both descriptor tables loaded, the controllers at vectors 0x20
    and 0x28 with only the keyboard line newly unmasked, and interrupts on. *)
Theorem boot_establishes `{B : Bus, L : !PcLaws B} ly mem d es
  (Hmem : zlen mem = 2000) (Hq : quiet d) (Hes : Forall event_ok es) :
  ∃ k, boot ly (loaded mem d es) = Ret tt k ∧ booted ly k d es.
Proof. apply boot_run; [by apply loaded_ready|assumption..]. Qed.

Lemma boot_establishes_witness :
  ∃ k, boot demo_layout (loaded (replicate 2000 0) demo_pc shutdown_keys) = Ret tt k ∧
       booted demo_layout k demo_pc shutdown_keys.
Proof.
  apply (boot_establishes (B := pc)); [apply zlen_replicate|by split|apply shutdown_keys_ok].
Defined.

(** C2: one turn of the prompt does what a turn of the reference shell may do,
    and keeps the session tidy: the root and the current directory are in the
    directory table and every file lies in a directory of the table. *)
Theorem shell_turn_tidy `{B : Bus, L : !PcLaws B} m st
  (Hm : sys_rep m st) (Ht : tidy st) (Hsafe : safe_turn st) :
  ∃ r, turn st r ∧ sim (shell_step m) r ∧ ∀ st', r = RNext st' → tidy st'.
Proof.
  destruct (shell_step_run m st Hm Hsafe) as (r & Hr & Hsim). exists r. split_and!; try done.
  intros st' ->. by eapply turn_tidy.
Qed.

Lemma sample_tidy es : tidy (sample_sh es).
Proof.
  constructor; simpl; [set_solver..|]. intros d n [v Hv]. unfold sample_files in Hv. apply lookup_singleton_Some in Hv as [E _].
  injection E as <- <-. set_solver.
Qed.

Lemma shell_turn_tidy_witness :
  ∃ r, turn (sample_sh shutdown_keys) r ∧ sim (shell_step (sample shutdown_keys)) r ∧
    ∀ st', r = RNext st' → tidy st'.
Proof.
  apply (shell_turn_tidy (B := pc)).
  - apply sample_rep, shutdown_keys_ok.
  - apply sample_tidy.
  - apply shutdown_safe; [reflexivity|simpl; lia].
Defined.


(** The command line [mkdir x]. *)
Definition mkdir_argv : list (list Z) := [lit "mkdir"; lit "x"].
Definition mkdir_words : list (list Z) := [chars "mkdir"; chars "x"].


(** Every state of a session that starts from a tidy one is tidy; the
    sessions of a booted kernel start from one. *)
Theorem sessions_stay_tidy es st (Hr : reach (fresh es) st) : tidy st.
Proof. by eapply reach_tidy, Hr; apply fresh_tidy. Qed.

Lemma sessions_stay_tidy_witness : tidy (fresh shutdown_keys).
Proof. apply (sessions_stay_tidy shutdown_keys). apply rtc_refl. Defined.




