(* ===== verification/FileTheorems.v ===== *)
(** * The file system's theorems

    The file commands on the map of files, and the block layer below them. *)

From S2P Require Import Prelude CString Tokens Vga Console Keyboard Io IoSpec Descriptors Fat FatRep DirTable LineInput Machine Fs FsStore FsSpec FsOutput Dir DirSpec Shell ShellParse ShellSpec ShellInv Boot Sample.

(** Names and directories of the examples. *)
Definition name_a : list Z := [97].
Definition name_b : list Z := [98].
Definition buf_a : list Z := [97; 0].
Definition buf_b : list Z := [98; 0].
Definition buf_root : list Z := [47; 0].

Lemma cstr_a : cstr buf_a name_a.
Proof. split; [repeat constructor; lia|by exists []]. Qed.
Lemma cstr_b : cstr buf_b name_b.
Proof. split; [repeat constructor; lia|by exists []]. Qed.
Lemma cstr_root_buf : cstr buf_root root.
Proof. split; [repeat constructor; unfold slash; lia|by exists []]. Qed.

(** The keys of the line [x], then of the line [.]; and of the answer [y]. *)
Definition entry_keys : list event := keys [0x2D; 0x1C; 0x34; 0x1C].
Definition yes_keys : list event := keys [0x15; 0x1C].
Lemma entry_keys_ok : Forall event_ok entry_keys.
Proof. apply keys_ok. repeat constructor; lia. Qed.
Lemma yes_keys_ok : Forall event_ok yes_keys.
Proof. apply keys_ok. repeat constructor; lia. Qed.

(** C3: fwrite ends in one of four ways: no slot is left and nothing changes;
    the text is not finished and the command waits; the file holds exactly the
    text typed and no other file changed; or the disk is full, which costs the
    file but no other. *)
Theorem fwrite_refines `{B : Bus, L : !PcLaws B} m fm inp nb n db d
  (Hf : fs_rep (m_fs m) fm) (Hi : io_rep (m_io m) inp) (Hn : cstr nb n) (Hd : cstr db d)
  (Hne : n ≠ []) (Sn : short n) (Sd : short d) :
  write_result m fm d n inp (fs_write nb db m).
Proof. by apply fs_write_run. Qed.

Lemma fwrite_refines_witness :
  write_result (sample entry_keys) sample_files root name_b (typed no_mods entry_keys)
    (fs_write buf_b buf_root (sample entry_keys)).
Proof.
  apply (fwrite_refines (B := pc)).
  - apply sample_fs_rep.
  - apply sample_io_rep, entry_keys_ok.
  - apply cstr_b.
  - apply cstr_root_buf.
  - discriminate.
  - unfold short. simpl. lia.
  - unfold short. simpl. lia.
Defined.

(** Fedit appends the typed lines to the old contents; on a full disk the
    file is left empty; a file that does not exist is not created. *)
Theorem fedit_refines `{B : Bus, L : !PcLaws B} m fm inp nb n db d
  (Hf : fs_rep (m_fs m) fm) (Hi : io_rep (m_io m) inp) (Hn : cstr nb n) (Hd : cstr db d)
  (Hne : n ≠ []) :
  edit_result m fm d n inp (fs_edit nb db m).
Proof. by apply fs_edit_run. Qed.

Lemma fedit_refines_witness :
  edit_result (sample entry_keys) sample_files root name_a (typed no_mods entry_keys)
    (fs_edit buf_a buf_root (sample entry_keys)).
Proof.
  apply (fedit_refines (B := pc));
    [apply sample_fs_rep|apply sample_io_rep, entry_keys_ok|apply cstr_a|apply cstr_root_buf|discriminate].
Defined.

(** Fdel removes the file after an answer that starts with y or Y, and
    nothing otherwise. *)
Theorem fdel_refines `{B : Bus, L : !PcLaws B} m fm inp nb n db d
  (Hf : fs_rep (m_fs m) fm) (Hi : io_rep (m_io m) inp) (Hn : cstr nb n) (Hd : cstr db d)
  (Hne : n ≠ []) :
  delete_result m fm d n inp (fs_delete nb db m).
Proof. by apply fs_delete_run. Qed.

Lemma fdel_refines_witness :
  delete_result (sample yes_keys) sample_files root name_a (typed no_mods yes_keys)
    (fs_delete buf_a buf_root (sample yes_keys)).
Proof.
  apply (fdel_refines (B := pc));
    [apply sample_fs_rep|apply sample_io_rep, yes_keys_ok|apply cstr_a|apply cstr_root_buf|discriminate].
Defined.

(** Rename moves the contents to the new name when the old one exists and
    the new one does not, and changes nothing otherwise. *)
Theorem rename_refines `{B : Bus, L : !PcLaws B} m fm inp nb n nb' n' db d
  (Hf : fs_rep (m_fs m) fm) (Hi : io_rep (m_io m) inp) (Hn : cstr nb n) (Hn' : cstr nb' n')
  (Hd : cstr db d) (Hne : n ≠ []) (Hne' : n' ≠ []) (Sn : short n') :
  ∃ m', fs_rename nb nb' db m = Ret tt m' ∧ fs_done m m' (renamed fm d n n') inp.
Proof. by eapply fs_rename_run. Qed.

Lemma rename_refines_witness :
  ∃ m', fs_rename buf_a buf_b buf_root (sample []) = Ret tt m' ∧
    fs_done (sample []) m' (renamed sample_files root name_a name_b) [].
Proof.
  apply (rename_refines (B := pc));
    [apply sample_fs_rep|apply sample_io_rep; constructor|apply cstr_a|apply cstr_b
    |apply cstr_root_buf|discriminate|discriminate|unfold short; simpl; lia].
Defined.

(** Copy gives the new name the contents of the old one; it fails without
    changing any file when the source is missing, the target exists, no slot
    is left or the disk is full. *)
Theorem copy_refines `{B : Bus, L : !PcLaws B} m fm inp nb n nb' n' db d
  (Hf : fs_rep (m_fs m) fm) (Hi : io_rep (m_io m) inp) (Hn : cstr nb n) (Hn' : cstr nb' n')
  (Hd : cstr db d) (Hne : n ≠ []) (Hne' : n' ≠ []) (Sn : short n') (Sd : short d) :
  copy_result m fm d n n' inp (fs_copy nb nb' db m).
Proof. by apply fs_copy_run. Qed.

Lemma copy_refines_witness :
  copy_result (sample []) sample_files root name_a name_b [] (fs_copy buf_a buf_b buf_root (sample [])).
Proof.
  apply (copy_refines (B := pc));
    [apply sample_fs_rep|apply sample_io_rep; constructor|apply cstr_a|apply cstr_b
    |apply cstr_root_buf|discriminate|discriminate|unfold short; simpl; lia|unfold short; simpl; lia].
Defined.

(** Fread prints the header, the contents of the file with every line
    indented, and the footer, or that the file does not exist; nothing but the
    screen changes. *)
Theorem fread_prints_the_file `{B : Bus, L : !PcLaws B} m fm inp nb n db d
  (Hf : fs_rep (m_fs m) fm) (Hi : io_rep (m_io m) inp) (Hn : cstr nb n) (Hd : cstr db d)
  (Hne : n ≠ []) :
  read_result m fm d n inp (fs_read nb db m).
Proof. by apply fs_read_run. Qed.

Lemma fread_prints_the_file_witness :
  read_result (sample []) sample_files root name_a [] (fs_read buf_a buf_root (sample [])).
Proof.
  apply (fread_prints_the_file (B := pc));
    [apply sample_fs_rep|apply sample_io_rep; constructor|apply cstr_a|apply cstr_root_buf|discriminate].
Defined.

(** ** The block layer *)

(** What storing [len] bytes and reading them back gives: it succeeds exactly
    when the free blocks have room, touches free blocks only, and gathering the
    chain gives the bytes back; otherwise every free block is used up. *)
Definition stored (s : fs_state) (data : list Z) (len : Z) (o : outcome fs_state Z) : Prop :=
  ∃ first s', o = Ret first s' ∧ files s' = files s ∧
    (∀ b, zget (fat s) b ≠ Some FAT_FREE →
       zget (fat s') b = zget (fat s) b ∧ zget (blocks s') b = zget (blocks s) b) ∧
    if len <=? FS_BLOCK_SIZE * nfree s then
      0 ≤ first < FS_N_BLOCKS ∧
      ∀ tmp, len ≤ zlen tmp →
        gather first len tmp s' = Ret (take (Z.to_nat len) data ++ drop (Z.to_nat len) tmp) s'
    else first = FS_N_BLOCKS ∧ disk_full s'.

(** C5: [write_to_blocks] succeeds exactly when the free blocks have room for
    the data; it changes no block in use, and reading the new chain back gives
    the bytes that were written. *)
Theorem store_roundtrip s data len (Hs : fs_shape s) (Hlen : 0 < len ≤ zlen data) :
  stored s data len (write_to_blocks data len s).
Proof.
  pose proof block_size_val as HBS.
  destruct (write_to_blocks_run s data len Hs Hlen) as (s' & l & w & W & Hres).
  assert (HL := wr_links _ _ _ _ _ _ W). assert (Hw := wr_written _ _ _ _ _ _ W).
  assert (Hsame : ∀ b, zget (fat s) b ≠ Some FAT_FREE →
    zget (fat s') b = zget (fat s) b ∧ zget (blocks s') b = zget (blocks s) b).
  { intros b Hb. assert (b ∉ l) by (intros Hin; by apply Hb, (wr_free _ _ _ _ _ _ W)).
    split; [by apply (wr_fat_out _ _ _ _ _ _ W)|by apply (wr_blk_out _ _ _ _ _ _ W)]. }
  destruct Hres as [[E Hwl]|(E & Hwl & Hfull)].
  - exists (hd FAT_END l), s'. split; [done|]. split; [apply W|]. split; [done|].
    subst w. assert (Hle := writing_le_nfree _ _ _ _ _ _ W).
    destruct (Z.leb_spec len (FS_BLOCK_SIZE * nfree s)); [|nia]. split.
    + destruct l as [|b l]; [unfold zlen in Hw; simpl in Hw; lia|]. apply (links_range _ _ _ HL). left.
    + intros tmp Htmp.
      rewrite (gather_run _ _ _ _ l (wr_shape _ _ _ _ _ _ W)); [|done|eapply fits_writing; [exact W|lia]|done].
      by rewrite (wr_data _ _ _ _ _ _ W).
  - exists FS_N_BLOCKS, s'. split; [done|]. split; [apply W|]. split; [done|].
    assert (Hge := writing_full _ _ _ _ _ _ W Hfull).
    destruct (Z.leb_spec len (FS_BLOCK_SIZE * nfree s)); [nia|done].
Qed.

Lemma store_roundtrip_witness :
  stored sample_fs [120; 121] 2 (write_to_blocks [120; 121] 2 sample_fs).
Proof. apply store_roundtrip; [apply sample_fs_shape|unfold zlen; simpl; lia]. Defined.

(** C7: [free_chain] ends on every FAT, also one with cycles or links out of
    range: it only turns entries free, and stays inside the table. *)
Theorem free_chain_total start s (Hs : fs_shape s) (Hst : 0 ≤ start < 65536) :
  ∃ f, free_chain start s = Ret tt (set_fat f s) ∧ fs_shape (set_fat f s) ∧ only_freed (fat s) f.
Proof. by apply free_chain_run. Qed.

(** A FAT whose blocks 1 and 2 point at each other. *)
Definition cyclic_fs : fs_state := set_fat [0; 2; 1; 0; 0; 0; 0; 0] sample_fs.

Lemma free_chain_total_witness :
  ∃ f, free_chain 1 cyclic_fs = Ret tt (set_fat f cyclic_fs) ∧
    fs_shape (set_fat f cyclic_fs) ∧ only_freed (fat cyclic_fs) f.
Proof.
  apply free_chain_total; [|lia]. apply fs_shape_set_fat; [apply sample_fs_shape|done|].
  repeat apply Forall_cons_2; try apply Forall_nil_2; lia.
Defined.

(** On a chain that does not start at block 0 it frees exactly the
    blocks of the chain. *)
Theorem free_chain_frees first l s b
  (Hs : fs_shape s) (Hc : chain (fat s) first l) (Hne : first ≠ 0) :
  ∃ s', free_chain first s = Ret tt s' ∧
    zget (fat s') b = if bool_decide (b ∈ l) then Some FAT_FREE else zget (fat s) b.
Proof.
  rewrite (free_chain_links _ _ _ Hs Hc Hne). eexists. split; [done|]. simpl.
  assert (Hr : ∀ c, c ∈ l → 0 ≤ c < zlen (fat s)).
  { intros c Hin. rewrite (sh_fat _ Hs). destruct Hc as [_ HL]. by eapply links_range. }
  case_bool_decide as Hb.
  - by apply freed_in.
  - apply freed_out; [|done]. intros c Hin. by apply Hr.
Qed.

Lemma free_chain_frees_witness :
  ∃ s', free_chain 1 sample_fs = Ret tt s' ∧
    zget (fat s') 1 = if bool_decide (1 ∈ [1]) then Some FAT_FREE else zget (fat sample_fs) 1.
Proof. apply free_chain_frees; [apply sample_fs_shape|by split|lia]. Defined.

(** Block 0 is the first block ever allocated and its number is the mark
    of a free entry: freeing a chain that starts there frees nothing. *)
Theorem free_chain_leaks_block_0 s l (Hs : fs_shape s) (Hc : chain (fat s) 0 l) :
  free_chain 0 s = Ret tt s ∧ 0 ∈ l ∧ ∀ b, b ∈ l → zget (fat s) b ≠ Some FAT_FREE.
Proof.
  split; [apply free_chain_zero|]. destruct Hc as [Hh HL]. split.
  - destruct l as [|b l]; [done|]. simpl in Hh. subst. left.
  - intros b Hb. by eapply links_nonfree.
Qed.

Definition used_0_fs : fs_state := set_fat [3; 0; 0; FAT_END; 0; 0; 0; 0] sample_fs.
Lemma free_chain_leaks_block_0_witness :
  free_chain 0 used_0_fs = Ret tt used_0_fs ∧ 0 ∈ [0; 3] ∧
    ∀ b, b ∈ [0; 3] → zget (fat used_0_fs) b ≠ Some FAT_FREE.
Proof.
  apply free_chain_leaks_block_0.
  - apply fs_shape_set_fat; [apply sample_fs_shape|done|].
    repeat apply Forall_cons_2; try apply Forall_nil_2; unfold FAT_END; lia.
  - split; [done|]. unfold links, used_0_fs, FS_N_BLOCKS. cbn [fat set_fat hd]. repeat split; lia || done.
Defined.

(** The listing of a directory shows its files and only those, each with
    the size of its contents, or that there is none. *)
Theorem fs_list_shows_the_directory `{B : Bus, L : !PcLaws B} m fm inp db d
  (Hf : fs_rep (m_fs m) fm) (Hi : io_rep (m_io m) inp) (Hd : cstr db d) :
  ∃ l i', fs_list db m = Ret tt (set_io i' m) ∧ emits (m_io m) (listing l) i' inp ∧
    ∀ n z, (n, z) ∈ l ↔ ∃ c, fm !! (d, n) = Some c ∧ z = zlen c.
Proof.
  destruct (fs_list_run m fm inp db d Hf Hi Hd) as (i' & E & He).
  exists (listed (m_fs m) d), i'. split_and!; [done..|]. intros n z. by apply listed_spec.
Qed.

Lemma fs_list_shows_the_directory_witness :
  ∃ l i', fs_list buf_root (sample []) = Ret tt (set_io i' (sample [])) ∧
    emits (m_io (sample [])) (listing l) i' [] ∧
    ∀ n z, (n, z) ∈ l ↔ ∃ c, sample_files !! (root, n) = Some c ∧ z = zlen c.
Proof.
  apply (fs_list_shows_the_directory (B := pc));
    [apply sample_fs_rep|apply sample_io_rep; constructor|apply cstr_root_buf].
Defined.
