(* ===== verification/DirTheorems.v ===== *)
(** * The theorems of the directory subsystem and of line input *)

From S2P Require Import Prelude CString Tokens Vga Console Keyboard Io IoSpec Descriptors Fat FatRep DirTable LineInput Machine Fs FsStore FsSpec FsOutput Dir DirSpec Shell ShellParse ShellSpec ShellInv Boot Sample FileTheorems.

Definition buf_d : list Z := [100; 0].
Definition name_d : list Z := [100].
Definition buf_up : list Z := [46; 46; 0].
Lemma cstr_d : cstr buf_d name_d.
Proof. split; [repeat constructor; lia|by exists []]. Qed.
Lemma cstr_up : cstr buf_up dotdot.
Proof. split; [repeat constructor; lia|by exists []]. Qed.

(** Mkdir adds the resolved path to the table unless it is there already
    or the table is full, and changes nothing else. *)
Theorem mkdir_refines `{B : Bus, L : !PcLaws B} m ps inp nb n
  (HD : dir_rep (m_dir m) ps) (Hi : io_rep (m_io m) inp) (Hn : cstr nb n) (Hne : n ≠ [])
  (Hfit : path_fits (cwd_of (m_dir m) ps) n) :
  ∃ m', dir_mkdir nb m = Ret tt m' ∧
    dir_done m m' (made ps (resolve (cwd_of (m_dir m) ps) n)) (cwd_of (m_dir m) ps) inp.
Proof. by apply dir_mkdir_run. Qed.

Lemma mkdir_refines_witness :
  ∃ m', dir_mkdir buf_a (sample []) = Ret tt m' ∧
    dir_done (sample []) m' (made sample_dirs (resolve (cwd_of (m_dir (sample [])) sample_dirs) name_a))
      (cwd_of (m_dir (sample [])) sample_dirs) [].
Proof.
  apply (mkdir_refines (B := pc));
    [apply sample_dir_rep|apply sample_io_rep; constructor|apply cstr_a|discriminate|vm_compute; lia].
Defined.

(** Cd goes to the parent for [..], to the root for [/], else to the
    resolved path, when that directory exists, and stays put otherwise. *)
Theorem cd_refines `{B : Bus, L : !PcLaws B} m ps inp tb t
  (HD : dir_rep (m_dir m) ps) (Hi : io_rep (m_io m) inp) (Ht : cstr tb t) (Hne : t ≠ [])
  (Hfit : t ≠ dotdot → path_fits (cwd_of (m_dir m) ps) t) :
  ∃ m', dir_cd tb m = Ret tt m' ∧
    dir_done m m' ps (went ps (cwd_of (m_dir m) ps) (cd_target (cwd_of (m_dir m) ps) t)) inp.
Proof. by apply dir_cd_run. Qed.

Lemma cd_refines_witness :
  ∃ m', dir_cd buf_d (sample []) = Ret tt m' ∧
    dir_done (sample []) m' sample_dirs
      (went sample_dirs (cwd_of (m_dir (sample [])) sample_dirs)
         (cd_target (cwd_of (m_dir (sample [])) sample_dirs) name_d)) [].
Proof.
  apply (cd_refines (B := pc));
    [apply sample_dir_rep|apply sample_io_rep; constructor|apply cstr_d|discriminate
    |intros _; vm_compute; lia].
Defined.

(** The part of a path before its last component. *)
Lemma dirpart_app pre n : slash ∉ n → dirpart (pre ++ slash :: n) = pre.
Proof.
  intros Hn. induction pre as [|c pre IH]; simpl; [by rewrite bool_decide_false|].
  rewrite bool_decide_true by set_solver. by rewrite IH.
Qed.

Lemma parent_child c n : c ≠ [] → slash ∉ n → parent (dirpart (child c n)) = c.
Proof.
  intros Hc Hn. unfold child, parent. rewrite dirpart_app by done.
  destruct (decide (c = root)) as [->|]; [done|]. by rewrite decide_False.
Qed.

(** Cd into a subdirectory and cd .. bring the shell back to where it
    was. *)
Theorem cd_down_and_up `{B : Bus, L : !PcLaws B} m ps inp nb n
  (HD : dir_rep (m_dir m) ps) (Hi : io_rep (m_io m) inp) (Hn : cstr nb n)
  (Hs : simple_name n) (Hnd : n ≠ dotdot)
  (Hin : child (cwd_of (m_dir m) ps) n ∈ ps)
  (Hlen : (length (cwd_of (m_dir m) ps) + length n < 62)%nat) :
  ∃ m1 m2, dir_cd nb m = Ret tt m1 ∧ cwd_of (m_dir m1) ps = child (cwd_of (m_dir m) ps) n ∧
    dir_cd buf_up m1 = Ret tt m2 ∧ cwd_of (m_dir m2) ps = cwd_of (m_dir m) ps.
Proof.
  set (c := cwd_of (m_dir m) ps) in *. destruct Hs as [Hne Hsl].
  destruct (cwd_valid _ _ HD) as (_ & _ & Hh). fold c in Hh.
  assert (Hcne : c ≠ []) by by intros ->.
  assert (Hcin : c ∈ ps) by (destruct (cwd_row _ _ HD) as [Hp _]; by eapply zget_elem_of).
  assert (Htgt : cd_target c n = child c n).
  { unfold cd_target. rewrite decide_False by done.
    rewrite decide_False by (intros ->; apply Hsl; set_solver). unfold resolve.
    destruct n as [|x n]; [done|]. destruct (Z.eqb_spec x slash) as [->|]; [set_solver|].
    apply join_child. lia. }
  destruct (dir_cd_run m ps inp nb n HD Hi Hn Hne) as (m1 & E1 & D1).
  { intros _. apply path_fits_safe; fold c; lia. }
  fold c in D1. rewrite Htgt in D1. unfold went in D1. rewrite decide_True in D1 by done.
  destruct (dir_cd_run m1 ps inp buf_up dotdot (dd_dir _ _ _ _ _ D1) (dd_io _ _ _ _ _ D1) cstr_up)
    as (m2 & E2 & D2); [done|done|].
  rewrite (dd_cwd _ _ _ _ _ D1) in D2. unfold cd_target in D2. rewrite decide_True in D2 by done.
  rewrite parent_child in D2 by done. unfold went in D2. rewrite decide_True in D2 by done.
  exists m1, m2. split_and!; [done|apply D1|done|apply D2].
Qed.

Lemma cd_down_and_up_witness :
  ∃ m1 m2, dir_cd buf_d (sample []) = Ret tt m1 ∧
    cwd_of (m_dir m1) sample_dirs = child (cwd_of (m_dir (sample [])) sample_dirs) name_d ∧
    dir_cd buf_up m1 = Ret tt m2 ∧
    cwd_of (m_dir m2) sample_dirs = cwd_of (m_dir (sample [])) sample_dirs.
Proof.
  apply (cd_down_and_up (B := pc) _ _ []);
    [apply sample_dir_rep|apply sample_io_rep; constructor|apply cstr_d
    |split; [discriminate|vm_compute; set_solver]|discriminate|vm_compute; set_solver|vm_compute; lia].
Defined.

(** Rmdir refuses the root, a path not in the table, the current
    directory and a directory with files; otherwise it asks, and removes
    exactly that path after a yes. *)
Theorem rmdir_refines `{B : Bus, L : !PcLaws B} m ps fm inp nb n
  (Hf : fs_rep (m_fs m) fm) (HD : dir_rep (m_dir m) ps) (Hi : io_rep (m_io m) inp)
  (Hn : cstr nb n) (Hne : n ≠ []) (Hfit : path_fits (cwd_of (m_dir m) ps) n) :
  rmdir_result m ps fm (cwd_of (m_dir m) ps) (resolve (cwd_of (m_dir m) ps) n) inp (dir_rmdir nb m).
Proof. by apply dir_rmdir_run. Qed.

Lemma rmdir_refines_witness :
  rmdir_result (sample yes_keys) sample_dirs sample_files (cwd_of (m_dir (sample yes_keys)) sample_dirs)
    (resolve (cwd_of (m_dir (sample yes_keys)) sample_dirs) name_d) (typed no_mods yes_keys)
    (dir_rmdir buf_d (sample yes_keys)).
Proof.
  apply (rmdir_refines (B := pc));
    [apply sample_fs_rep|apply sample_dir_rep|apply sample_io_rep, yes_keys_ok|apply cstr_d
    |discriminate|vm_compute; lia].
Defined.

(** Ls prints the current directory, the directories exactly one level
    below it, in the order of the table, and the files in it. *)
Theorem ls_prints_the_directory `{B : Bus, L : !PcLaws B} m ps fm inp
  (Hf : fs_rep (m_fs m) fm) (HD : dir_rep (m_dir m) ps) (Hi : io_rep (m_io m) inp) :
  ∃ i', dir_ls m = Ret tt (set_io i' m) ∧
    emits (m_io m) (ls_screen (cwd_of (m_dir m) ps) ps
      (listed (m_fs m) (cwd_of (m_dir m) ps))) i' inp.
Proof. by eapply dir_ls_run. Qed.

Lemma ls_prints_the_directory_witness :
  ∃ i', dir_ls (sample []) = Ret tt (set_io i' (sample [])) ∧
    emits (m_io (sample []))
      (ls_screen (cwd_of (m_dir (sample [])) sample_dirs) sample_dirs
        (listed (m_fs (sample [])) (cwd_of (m_dir (sample [])) sample_dirs))) i' [].
Proof.
  apply (ls_prints_the_directory (B := pc) _ _ sample_files);
    [apply sample_fs_rep|apply sample_dir_rep|apply sample_io_rep; constructor].
Defined.

(** A relative name that does not fit its 64-byte buffer together with
    the current directory gives a path without terminator: its length is
    undefined, and the search for duplicates reads it to the end and finds
    nothing. *)
Theorem overlong_path_is_unterminated D ps out nb n
  (HD : dir_rep D ps) (Ho : length out = 64%nat) (Hn : cstr nb n) (Hne : n ≠ [])
  (Hrel : head n ≠ Some slash) (Hlong : (64 ≤ length (join (cwd_of D ps) n))%nat) :
  ∃ o, build_path out nb D = Ret o D ∧ length o = 64%nat ∧ kstrlen o = None ∧
    find_dir o D = Ret DIR_MAX D.
Proof.
  unfold build_path. rewrite (bind_lift _ _ _ _ (cstr_ld _ _ Hn)).
  destruct n as [|x n]; [done|]. simpl in Hrel |- *. destruct (Z.eqb_spec x slash) as [->|]; [done|]. steps.
  destruct (cwd_row D ps HD) as (Hp & r & Hr & Hc). rewrite (bind_lift _ _ _ _ Hr).
  destruct (dr_path _ _ _ _ HD Hp) as (HF & Hl & _).
  assert (Hch : Forall is_char (pad64 (join (cwd_of D ps) (x :: n)))).
  { apply pad64_overrun; [|done]. apply join_chars; [done|apply Hn]. }
  eexists. split; [by apply lift_opt_some, build_rel_run|]. rewrite length_pad64.
  split_and!; [done|by apply kstrlen_overrun|].
  eapply find_dir_overlong; [done|done|]. by rewrite length_pad64.
Qed.

Definition long_name : list Z := replicate 64 97.
Lemma overlong_path_is_unterminated_witness :
  ∃ o, build_path (replicate 64 0) (long_name ++ [0]) sample_dir = Ret o sample_dir ∧
    length o = 64%nat ∧ kstrlen o = None ∧ find_dir o sample_dir = Ret DIR_MAX sample_dir.
Proof.
  apply (overlong_path_is_unterminated sample_dir sample_dirs _ _ long_name).
  - apply sample_dir_rep.
  - reflexivity.
  - apply cstr_app0. apply Forall_replicate. unfold is_char. lia.
  - discriminate.
  - discriminate.
  - vm_compute. lia.
Defined.

(** [is_immediate_child] decides whether a path is one component below
    another. *)
Theorem immediate_child_decides cb c pb p (Hc : cstr cb c) (Hp : cstr pb p) :
  ∃ r, is_immediate_child cb pb = Some r ∧ verdict r (∃ n, simple_name n ∧ c = child p n).
Proof. by apply immediate_child_run. Qed.

Lemma immediate_child_decides_witness :
  ∃ r, is_immediate_child (name_field sub_d) buf_root = Some r ∧
    verdict r (∃ n, simple_name n ∧ sub_d = child root n).
Proof.
  apply immediate_child_decides; [|apply cstr_root_buf].
  apply name_field_cstr; [repeat constructor; unfold slash; lia|simpl; lia].
Defined.

(** ** Input *)

(** The shell's arguments are the first eight blank-separated words of
    the line, cut in place. *)
Theorem parse_cmd_words buf s (Hs : cstr buf s) :
  ∃ buf' argv, parse_cmd buf = Some (buf', argv) ∧ length buf' = length buf ∧
    Forall2 (λ p w, cstr (drop p buf') w) argv (take MAX_ARGS (words s)).
Proof. by apply parse_cmd_run. Qed.

Lemma parse_cmd_words_witness :
  ∃ buf' argv, parse_cmd (lit "copy  a b") = Some (buf', argv) ∧
    length buf' = length (lit "copy  a b") ∧
    Forall2 (λ p w, cstr (drop p buf') w) argv (take MAX_ARGS (words (chars "copy  a b"))).
Proof. apply parse_cmd_words. by apply cstr_lit, lit_ok_chars. Defined.

(** The line editor stores the line that the keys describe (backspaces
    applied, characters beyond the buffer dropped), echoes it, leaves the keys
    after Enter for later, and waits when there is no Enter. *)
Theorem readline_edits `{B : Bus, L : !PcLaws B} accept len buf i inp
  (Hi : io_rep i inp) (Hbuf : zlen buf = len) (Hlen : 0 < len) :
  match edit_line accept len [] inp with
  | Some (line, rest) =>
      ∃ buf' i', read_with accept buf len i = Ret (buf', zlen line) i' ∧
        cstr buf' line ∧ zlen buf' = len ∧ zlen line < len ∧
        emits i [CText (edit_echo accept len [] inp)] i' rest
  | None => ∃ i', read_with accept buf len i = Blocked i'
  end.
Proof. by apply read_with_run. Qed.

Lemma readline_edits_witness :
  match edit_line printable 8 [] (typed no_mods yes_keys) with
  | Some (line, rest) =>
      ∃ buf' i', read_with printable (replicate 8 0) 8 (sample_io yes_keys) = Ret (buf', zlen line) i' ∧
        cstr buf' line ∧ zlen buf' = 8 ∧ zlen line < 8 ∧
        emits (sample_io yes_keys) [CText (edit_echo printable 8 [] (typed no_mods yes_keys))] i' rest
  | None => ∃ i', read_with printable (replicate 8 0) 8 (sample_io yes_keys) = Blocked i'
  end.
Proof. apply (readline_edits (B := pc)); [apply sample_io_rep, yes_keys_ok|reflexivity|lia]. Defined.

(** The text-entry loop of fwrite and fedit collects the trimmed lines up
    to a line with a single dot, never beyond the scratch buffer. *)
Theorem text_entry_collects `{B : Bus, L : !PcLaws B} data inp tmp i
  (Hi : io_rep i inp) (Ht : holds tmp data) :
  collect_result data inp (collect tmp (zlen data) i).
Proof. by apply collect_run. Qed.

Lemma text_entry_collects_witness :
  collect_result [] (typed no_mods entry_keys)
    (collect (replicate (Z.to_nat TMP_SIZE) 0) (zlen (@nil Z)) (sample_io entry_keys)).
Proof.
  apply (text_entry_collects (B := pc)); [apply sample_io_rep, entry_keys_ok|].
  apply holds_nil, zlen_tmp.
Defined.
