(* ===== verification/DeviceTheorems.v ===== *)
(** * The theorems of the drivers and of the tables the processor reads *)

From S2P Require Import Prelude CString Tokens Vga Console Keyboard Io IoSpec Descriptors Fat FatRep DirTable LineInput Machine Fs FsStore FsSpec FsOutput Dir DirSpec Shell ShellParse ShellSpec ShellInv Boot Sample.

(** ** Keyboard *)

Definition idle_kbd : kbd_state := KBD (replicate 256 0) 0 0 0 0.
Lemma idle_kbd_wf : kbd_wf idle_kbd.
Proof. unfold kbd_wf, idle_kbd, KBD_BUF_SIZE. cbn [kbuf khead ktail kshift kcaps]. rewrite zlen_replicate. lia. Qed.

(** C6: however the interrupt handler is interleaved with the reader's memory
    accesses, the ring buffer behaves as a queue of 255 places behind the
    decoder, from which a read takes the oldest character in one step: no
    character is lost, doubled or reordered, except those that find it full. *)
Theorem keyboard_pipe_refines_queue p p' s (Hs : pipe_sim p s) (Hr : rtc pipe_step p p') :
  ∃ s', rtc spec_step s s' ∧ pipe_sim p' s'.
Proof. by eapply pipe_refines. Qed.

Lemma keyboard_pipe_refines_queue_witness :
  ∃ s', rtc spec_step (Spec no_mods [] []) s' ∧
    pipe_sim (Pipe (set_shift 1 idle_kbd) Keyboard.RWait []) s'.
Proof.
  apply (keyboard_pipe_refines_queue (Pipe idle_kbd Keyboard.RWait [])).
  - split; [apply idle_kbd_wf|done].
  - apply rtc_once. by apply (step_irq 0x2A).
Defined.

(** The scan-code handler accepts every byte, keeps the buffer in order,
    updates the modifiers and appends the decoded character if there is one
    and room for it. *)
Theorem kbd_isr_decodes sc k (Hk : kbd_wf k) (Hsc : 0 ≤ sc < 256) :
  ∃ k', kbd_isr_body sc k = Ret tt k' ∧ kbd_wf k' ∧
    mods_of k' = (kbd_decode (mods_of k) sc).1 ∧
    kbd_queue k' = enqueue (kbd_queue k) (kbd_decode (mods_of k) sc).2.
Proof. by apply kbd_isr_run. Qed.

Lemma kbd_isr_decodes_witness :
  ∃ k', kbd_isr_body 0x1E idle_kbd = Ret tt k' ∧ kbd_wf k' ∧
    mods_of k' = (kbd_decode (mods_of idle_kbd) 0x1E).1 ∧
    kbd_queue k' = enqueue (kbd_queue idle_kbd) (kbd_decode (mods_of idle_kbd) 0x1E).2.
Proof. apply kbd_isr_decodes; [apply idle_kbd_wf|lia]. Defined.

(** Letters of the unshifted table. *)
Definition is_letter (c : Z) : bool := (97 <=? c) && (c <=? 122).

Lemma shifted_letter sc c :
  0 ≤ sc < 128 → zget scancode_normal sc = Some c → is_letter c = true →
  kbd_decode (Mods true false) sc = (Mods true false, Some c).
Proof.
  intros Hsc Hc Hl.
  pose proof (range_forall (λ sc, match zget scancode_normal sc with
    | Some c => negb (is_letter c) ||
        bool_decide ((kbd_decode (Mods true false) sc) .2 = Some c) &&
        m_shift (kbd_decode (Mods true false) sc).1 && negb (m_caps (kbd_decode (Mods true false) sc).1)
    | None => true end) 0 128 ltac:(by vm_compute) sc ltac:(lia)) as H.
  cbv beta in H. rewrite Hc, Hl in H. simpl in H. bools.
  destruct (kbd_decode (Mods true false) sc) as [[s cp] o]. simpl in *.
  by apply bool_decide_eq_true in H as ->; subst.
Qed.

(** With Shift held and Caps Lock off every letter key types its lower
    case letter: the table already gives the upper case one, and the case
    adjustment flips it back. *)
Theorem shift_types_lower_case sc c k
  (Hk : kbd_wf k) (Hm : mods_of k = Mods true false) (Hsc : 0 ≤ sc < 128)
  (Hc : zget scancode_normal sc = Some c) (Hl : is_letter c = true) :
  ∃ k', kbd_isr_body sc k = Ret tt k' ∧ kbd_queue k' = enqueue (kbd_queue k) (Some c).
Proof.
  destruct (kbd_isr_run sc k Hk ltac:(lia)) as (k' & E & _ & _ & Hq).
  exists k'. split; [done|]. by rewrite Hq, Hm, (shifted_letter sc c).
Qed.

Lemma shift_types_lower_case_witness :
  ∃ k', kbd_isr_body 0x1E (set_shift 1 idle_kbd) = Ret tt k' ∧
    kbd_queue k' = enqueue (kbd_queue (set_shift 1 idle_kbd)) (Some 97).
Proof.
  apply shift_types_lower_case; [|done|lia|done|done].
  unfold kbd_wf, set_shift, idle_kbd, KBD_BUF_SIZE. cbn [kbuf khead ktail kshift kcaps].
  rewrite zlen_replicate. lia.
Defined.



(** ** The interrupt controllers *)

(** [pic_init] moves the two controllers to vectors 0x20 and 0x28,
    leaves both initialised, and keeps their masks and in-service bits. *)
Theorem pic_init_remaps `{B : Bus, L : !PcLaws B} i (Hv : vga_wf (io_vga i)) :
  ∃ d, pic_init i = Ret tt (set_vga (render (io_vga i) pic_banner) (set_dev d i)) ∧
    pic1 d = Chip (imr (pic1 (io_dev i))) 0x20 (in_service (pic1 (io_dev i))) 0 ∧
    pic2 d = Chip (imr (pic2 (io_dev i))) 0x28 (in_service (pic2 (io_dev i))) 0.
Proof. by apply pic_init_run. Qed.

Lemma pic_init_remaps_witness :
  ∃ d, pic_init (sample_io []) =
      Ret tt (set_vga (render (io_vga (sample_io [])) pic_banner) (set_dev d (sample_io []))) ∧
    pic1 d = Chip (imr (pic1 (io_dev (sample_io [])))) 0x20 (in_service (pic1 (io_dev (sample_io [])))) 0 ∧
    pic2 d = Chip (imr (pic2 (io_dev (sample_io [])))) 0x28 (in_service (pic2 (io_dev (sample_io [])))) 0.
Proof. apply (pic_init_remaps (B := pc)). apply (ir_vga _ []), sample_io_rep. constructor. Defined.

(** Masking or unmasking a line changes the mask bit of that line and of
    no other, on whichever controller it is, and nothing else of the
    controllers. *)
Theorem pic_masks_one_line `{B : Bus, L : !PcLaws B} irq i
  (Hirq : 0 ≤ irq < 16) (Hr : pics_ready (io_dev i)) :
  (∃ d, pic_mask irq i = Ret tt (set_dev d i) ∧ same_pics (io_dev i) d ∧
     ∀ j, 0 ≤ j < 16 → masked d j = (irq =? j) || masked (io_dev i) j) ∧
  (∃ d, pic_unmask irq i = Ret tt (set_dev d i) ∧ same_pics (io_dev i) d ∧
     ∀ j, 0 ≤ j < 16 → masked d j = negb (irq =? j) && masked (io_dev i) j).
Proof. split; [by apply pic_mask_run|by apply pic_unmask_run]. Qed.

Lemma pic_masks_one_line_witness :
  (∃ d, pic_mask 12 (sample_io []) = Ret tt (set_dev d (sample_io [])) ∧
     same_pics (io_dev (sample_io [])) d ∧
     ∀ j, 0 ≤ j < 16 → masked d j = (12 =? j) || masked (io_dev (sample_io [])) j) ∧
  (∃ d, pic_unmask 12 (sample_io []) = Ret tt (set_dev d (sample_io [])) ∧
     same_pics (io_dev (sample_io [])) d ∧
     ∀ j, 0 ≤ j < 16 → masked d j = negb (12 =? j) && masked (io_dev (sample_io [])) j).
Proof. apply (pic_masks_one_line (B := pc)); [lia|by split]. Defined.

(** C9: whatever line an interrupt comes from, [irq_dispatch] runs the
    registered handler if there is one and acknowledges the interrupt at every
    controller it went through, so that no line stays blocked. *)
Theorem irq_dispatch_acknowledges `{B : Bus, L : !PcLaws B} e d i
  (He : event_ok e) (Hq : quiet d) (Hk : kbd_wf (io_kbd i)) (Ht : irq_handlers i = kbd_table)
  (Hd : io_dev i = bus_raise e d) :
  ∃ k d', irq_dispatch (ev_irq e) i = Ret tt (set_dev d' (set_kbd k i)) ∧ quiet d' ∧
    kbd_wf k ∧ kbd_after e (io_kbd i) k.
Proof. by eapply irq_dispatch_run. Qed.

Definition raised_io (e : event) : io (B := pc) := set_dev (bus_raise e sample_dev) (sample_io []).
Lemma irq_dispatch_acknowledges_witness :
  ∃ k d', irq_dispatch 12 (raised_io (Event 12 5)) = Ret tt (set_dev d' (set_kbd k (raised_io (Event 12 5)))) ∧
    quiet d' ∧ kbd_wf k ∧ kbd_after (Event 12 5) (io_kbd (raised_io (Event 12 5))) k.
Proof.
  apply (irq_dispatch_acknowledges (B := pc) (Event 12 5) sample_dev);
    [split; simpl; lia|by split|apply idle_kbd_wf|done|done].
Defined.

(** ** Descriptor tables *)

(** [gdt_set] writes an entry from which the processor reads back the
    base and the low 20 bits of the limit, and changes no other entry. *)
Theorem gdt_set_roundtrip idx base limit acc fl s
  (Hi : 0 ≤ idx < zlen (gdt s)) (Hb : 0 ≤ base < 2 ^ 32) (Hl : 0 ≤ limit) :
  ∃ s' e, gdt_set idx base limit acc fl s = Ret tt s' ∧ zget (gdt s') idx = Some e ∧
    seg_base e = base ∧ seg_limit e = limit mod 2 ^ 20 ∧ access e = acc ∧
    ∀ j, j ≠ idx → zget (gdt s') j = zget (gdt s) j.
Proof.
  rewrite gdt_set_run by done. eexists _, (gdt_encode base limit acc fl). split; [done|]. simpl gdt.
  rewrite zget_upd_eq by done. split_and!; [done|by apply seg_base_encode|by apply seg_limit_encode|done|].
  intros j Hj. apply zget_upd_ne; lia.
Qed.

Definition blank_gdt : gdt_state := GDT (replicate 5 (GdtEntry 0 0 0 0 0 0)) (TablePtr 0 0) None.
Lemma gdt_set_roundtrip_witness :
  ∃ s' e, gdt_set 2 0x12345678 0xFFFFF 0x92 0xCF blank_gdt = Ret tt s' ∧ zget (gdt s') 2 = Some e ∧
    seg_base e = 0x12345678 ∧ seg_limit e = 0xFFFFF mod 2 ^ 20 ∧ access e = 0x92 ∧
    ∀ j, j ≠ 2 → zget (gdt s') j = zget (gdt blank_gdt) j.
Proof. apply gdt_set_roundtrip; [unfold zlen; simpl; lia|lia|lia]. Defined.

(** ** The screen *)

(** C12: [vga_write] does to video memory and cursor what a terminal of 80 by
    25 cells does for the characters of the string: wrapping, newline,
    backspace and scrolling, never outside the memory; and keeps its state in
    range. *)
Theorem vga_write_is_a_terminal buf s v (Hv : vga_wf v) (Hs : cstr buf s) :
  vga_write buf v = Ret tt (term_puts v s) ∧ vga_wf (term_puts v s).
Proof. split; [by apply write_run|by apply term_puts_wf]. Qed.

Definition blank_vga : vga_state := VGA (replicate 2000 0) 24 79 7.
Lemma vga_write_is_a_terminal_witness :
  vga_write [97; 98; 0] blank_vga = Ret tt (term_puts blank_vga [97; 98]) ∧
  vga_wf (term_puts blank_vga [97; 98]).
Proof.
  apply vga_write_is_a_terminal.
  - unfold vga_wf, blank_vga. cbn [vmem vrow vcol vcolor]. rewrite zlen_replicate. lia.
  - split; [repeat constructor; lia|by exists []].
Defined.

(** The number printers print, for every 32-bit value, the decimal and
    the hexadecimal digits of that value without leading zeros. *)
Theorem vga_prints_numbers n v (Hv : vga_wf v) (Hn : 0 ≤ n < 2 ^ 32) :
  (∃ ds, vga_write_dec n v = Ret tt (term_puts v ds) ∧ dec_val ds = n ∧ canonical ds) ∧
  (∃ ds, vga_write_hex n v = Ret tt (term_puts v ds) ∧ hex_val ds = n ∧
     Forall is_hex_digit ds ∧ ds ≠ [] ∧ (head ds = Some 48 → ds = [48])).
Proof. split; [by apply write_dec_run|by apply write_hex_run]. Qed.

Lemma vga_prints_numbers_witness :
  (∃ ds, vga_write_dec 4294967295 blank_vga = Ret tt (term_puts blank_vga ds) ∧
     dec_val ds = 4294967295 ∧ canonical ds) ∧
  (∃ ds, vga_write_hex 4294967295 blank_vga = Ret tt (term_puts blank_vga ds) ∧
     hex_val ds = 4294967295 ∧ Forall is_hex_digit ds ∧ ds ≠ [] ∧ (head ds = Some 48 → ds = [48])).
Proof.
  apply vga_prints_numbers; [|lia].
  unfold vga_wf, blank_vga. cbn [vmem vrow vcol vcolor]. rewrite zlen_replicate. lia.
Defined.

(** ** Strings *)

(** [kstrcmp] has the sign of the lexicographic comparison of its two
    strings as bytes, and reads neither past its terminator. *)
Theorem kstrcmp_is_lexicographic a sa b sb (Ha : cstr a sa) (Hb : cstr b sb) :
  ∃ r, kstrcmp a b = Some r ∧ (r ?= 0) = lex_compare sa sb.
Proof. by apply kstrcmp_lex. Qed.

Lemma kstrcmp_is_lexicographic_witness :
  ∃ r, kstrcmp (lit "cat") (lit "car") = Some r ∧ (r ?= 0) = lex_compare (chars "cat") (chars "car").
Proof. apply kstrcmp_is_lexicographic; by apply cstr_lit, lit_ok_chars. Defined.
