(* ===== verification/Prototype.v ===== *)
(** * dug_os.c: the hosted prototype

    The prototype runs as a process: standard input and output are streams of
    characters, and files, directories and [system] belong to the host.  The
    host is a parameter ([Host]); the C library's [fgets], [strtok], [strncpy]
    and [printf] are modelled here. *)

From S2P Require Import Prelude CString Tokens.

(** What the program asks of its host.  [None] is the failure the C call
    reports; a name is a string without its terminator. *)
Class Host := {
  host : Type;
  h_creat : list Z → host → option host;             (* fopen(n, "w") or "wb" *)
  h_open : list Z → host → bool;                     (* fopen(n, "r") succeeds *)
  h_openapp : list Z → host → option host;           (* fopen(n, "a") *)
  h_put : list Z → list Z → host → host;             (* write at the end of an open file *)
  h_text : list Z → host → list Z;                   (* the bytes of an open file *)
  h_remove : list Z → host → option host;
  h_rename : list Z → list Z → host → option host;
  h_mkdir : list Z → host → option host;
  h_rmdir : list Z → host → option host;
  h_chdir : list Z → host → option host;
  h_getcwd : host → option (list Z);                 (* None: does not fit, or fails *)
  h_system : list Z → host → list Z * host;          (* output of the command *)
  h_date : host → list Z                             (* strftime of the local time *)
}.

Definition NR_TASKS : Z := 4.
Definition NR_PROCS : Z := 64.
Definition NR_BOOT_PROCS : Z := 8.
Definition NR_SYS_PROCS : Z := 32.
Definition SLOT_FREE : Z := 0x01.
Definition NO_MAP : Z := 0x02.
Definition SYS_PROC : Z := 0x10.
Definition NONE : Z := -1.
Definition HARDWARE : Z := -4.
Definition P_NAME_LEN : Z := 16.
Definition CWD_LEN : Z := 512.
Definition CMD_LEN : Z := 256.
Definition MAX_ARGS : nat := 8.
Definition FILE_BUF : Z := 4096.

Record proc := Proc {
  p_nr : Z; p_rts_flags : Z; p_priority : Z; p_quantum_size : Z; p_ticks_left : Z;
  p_name : list Z
}.

Record priv := Priv { s_proc_nr : Z; s_id : Z; s_flags : Z }.

Record boot_image := BootImage {
  proc_nr : Z; priority : Z; quantum : Z; flags : Z; proc_name : string
}.

Definition image : list boot_image :=
  [BootImage (-4) 0 0 SYS_PROC "HARDWARE"; BootImage (-3) 1 10 SYS_PROC "IDLE";
   BootImage (-2) 2 10 SYS_PROC "CLOCK"; BootImage (-1) 2 10 SYS_PROC "SYSTEM";
   BootImage 0 3 10 SYS_PROC "PM"; BootImage 1 3 10 SYS_PROC "FS";
   BootImage 2 3 10 SYS_PROC "TTY"; BootImage 3 4 10 0 "INIT"].

(** ** The C library on buffers *)

(** [fgets]: at most [n - 1] characters, up to and with a newline; [None] at
    the end of the input. *)
Fixpoint fgets_chars (n : nat) (inp : list Z) : list Z * list Z :=
  match n, inp with
  | S n', c :: inp' =>
      if c =? 10 then ([c], inp')
      else let '(l, rest) := fgets_chars n' inp' in (c :: l, rest)
  | _, _ => ([], inp)
  end.

Definition fgets (buf : list Z) (inp : list Z) : option (list Z * list Z) :=
  match inp with
  | [] => None
  | _ => let '(l, rest) := fgets_chars (length buf - 1) inp in
         Some (l ++ 0 :: drop (S (length l)) buf, rest)
  end.

(** [strtok]: one call with the saved position [p]: the buffer, the next saved position
    and the token. *)
Definition strtok (delim : Z → bool) (buf : list Z) (p : nat)
    : option (list Z * nat * option nat) :=
  p1 ← tok_skip delim (drop p buf) p;
  c1 ← ld (drop p1 buf);
  if c1 =? 0 then Some (buf, p1, None) else
  p2 ← tok_scan delim (drop p1 buf) p1;
  c2 ← ld (drop p2 buf);
  if c2 =? 0 then Some (buf, p2, Some p1)
  else b ← zset buf (Z.of_nat p2) 0; Some (b, S p2, Some p1).

(** Left-justified in a field. *)
Definition pad (n : nat) (s : list Z) : list Z := s ++ replicate (n - length s) 32.

Fixpoint digits (fuel : nat) (n : Z) : list Z :=
  match fuel with
  | O => []
  | S fuel' => if n <? 10 then [48 + n] else digits fuel' (n / 10) ++ [48 + n mod 10]
  end.
(** [%d] of an [int]. *)
Definition show_int (n : Z) : list Z := if n <? 0 then 45 :: digits 11 (- n) else digits 11 n.

(** ** trim *)

Definition is_pad (c : Z) : bool := (c =? 32) || (c =? 9).
Definition is_space (c : Z) : bool := is_pad c || (c =? 10) || (c =? 13).

(** [while (end > s && isspace( *end)) end--], for [end = s + n]. *)
Fixpoint trim_end (buf : list Z) (s n : nat) : option nat :=
  match n with
  | O => Some s
  | S n' =>
      c ← ld (drop (s + n) buf);
      if is_space c then trim_end buf s n' else Some (s + n)%nat
  end.

(** The buffer afterwards, and the returned pointer as a position in it. *)
Definition trim (buf : list Z) : option (list Z * nat) :=
  s ← tok_skip is_pad buf 0;
  c ← ld (drop s buf);
  if c =? 0 then Some (buf, s) else
  n ← kstrlen (drop s buf);
  e ← trim_end buf s (Z.to_nat n - 1);
  b ← zset buf (Z.of_nat (S e)) 0;
  Some (b, s).

(** ** parse_cmd *)

Definition cmd_delim (c : Z) : bool := is_pad c || (c =? 10).

(** The loop with the token in hand and [k] places left in [argv]. *)
Fixpoint parse_rest (k : nat) (buf : list Z) (save : nat) (tok : option nat)
    : option (list Z * list nat) :=
  match tok, k with
  | Some t, S k' =>
      '(buf1, save1, tok1) ← strtok cmd_delim buf save;
      '(buf2, argv) ← parse_rest k' buf1 save1 tok1;
      Some (buf2, t :: argv)
  | _, _ => Some (buf, [])
  end.

Definition parse_cmd (input : list Z) (max_args : nat) : option (list Z * list nat) :=
  '(buf, save, tok) ← strtok cmd_delim input 0;
  parse_rest max_args buf save tok.

(** ** The program *)

Section prototype.
Context `{H : Host}.

Record proto := Proto {
  proc_table : list proc;
  priv_table : list priv;
  shutdown_started : Z;
  os_running : Z;
  cwd : list Z;
  stdout : list Z;      (* everything printed so far *)
  stdin : list Z;       (* everything still to be read *)
  p_host : host
}.

Definition set_procs (x : list proc) (s : proto) : proto :=
  Proto x (priv_table s) (shutdown_started s) (os_running s) (cwd s) (stdout s) (stdin s) (p_host s).
Definition set_privs (x : list priv) (s : proto) : proto :=
  Proto (proc_table s) x (shutdown_started s) (os_running s) (cwd s) (stdout s) (stdin s) (p_host s).
Definition set_running (sd run : Z) (s : proto) : proto :=
  Proto (proc_table s) (priv_table s) sd run (cwd s) (stdout s) (stdin s) (p_host s).
Definition set_cwd (x : list Z) (s : proto) : proto :=
  Proto (proc_table s) (priv_table s) (shutdown_started s) (os_running s) x (stdout s) (stdin s) (p_host s).
Definition set_out (x : list Z) (s : proto) : proto :=
  Proto (proc_table s) (priv_table s) (shutdown_started s) (os_running s) (cwd s) x (stdin s) (p_host s).
Definition set_in (x : list Z) (s : proto) : proto :=
  Proto (proc_table s) (priv_table s) (shutdown_started s) (os_running s) (cwd s) (stdout s) x (p_host s).
Definition set_host (x : host) (s : proto) : proto :=
  Proto (proc_table s) (priv_table s) (shutdown_started s) (os_running s) (cwd s) (stdout s) (stdin s) x.

(** Output: characters, the text of a format string, a [%s] argument. *)
Definition put (cs : list Z) : M proto unit := modify (λ s, set_out (stdout s ++ cs) s).
Definition printf (s : string) : M proto unit := put (chars s).
Definition println (s : string) : M proto unit := put (chars s ++ [10]).
Definition put_str (buf : list Z) : M proto unit :=
  s ← lift_opt (cstring buf); put s.

(** A call into the host that may fail. *)
Definition try_host (f : host → option host) : M proto bool :=
  s ← get;
  match f (p_host s) with
  | Some h => modify (set_host h);; mret true
  | None => mret false
  end.

Definition system (cmd : string) : M proto unit :=
  s ← get;
  let '(o, h) := h_system (chars cmd) (p_host s) in
  modify (set_host h);; put o.

(** [CLEAR_CMD] outside Windows. *)
Definition CLEAR_CMD : string := "clear".

Definition intr_init (minit : Z) : M proto unit :=
  if negb (minit =? 0) then
    println "  [kernel] intr_init: remapping 8259A PIC ... OK";;
    println "  [kernel] IRQs 0-7  -> vectors 0x20-0x27";;
    println "  [kernel] IRQs 8-15 -> vectors 0x28-0x2F"
  else println "  [kernel] intr_init: restoring BIOS defaults ... OK".

(** One process slot. *)
Definition upd_proc (i : Z) (f : proc → option proc) : M proto unit :=
  s ← get;
  p ← lift_opt (zget (proc_table s) i);
  q ← lift_opt (f p);
  t ← lift_opt (zset (proc_table s) i q);
  modify (set_procs t).

Definition upd_priv (i : Z) (f : priv → priv) : M proto unit :=
  s ← get;
  p ← lift_opt (zget (priv_table s) i);
  t ← lift_opt (zset (priv_table s) i (f p));
  modify (set_privs t).

(** The pointer and the counter advance together: slot [j] gets number
    [j - NR_TASKS]. *)
Definition boot_proc_table : M proto unit :=
  for_each (range 0 (Z.to_nat (NR_TASKS + NR_PROCS))) (λ j,
    upd_proc j (λ p, Some (Proc (j - NR_TASKS) SLOT_FREE (p_priority p) (p_quantum_size p)
                             (p_ticks_left p) (p_name p))));;
  printf "  [kernel] proc_table: ";; put (show_int (NR_TASKS + NR_PROCS));;
  println " slots cleared ... OK".

Definition boot_priv_table : M proto unit :=
  for_each (range 0 (Z.to_nat NR_SYS_PROCS)) (λ i,
    upd_priv i (λ p, Priv NONE i (s_flags p)));;
  printf "  [kernel] priv_table: ";; put (show_int NR_SYS_PROCS);;
  println " slots cleared ... OK".

(** A loaded slot. *)
Definition load_proc (ip : boot_image) (p : proc) : option proc :=
  name ← kstrncpy (p_name p) (lit (proc_name ip)) (Z.to_nat P_NAME_LEN);
  Some (Proc (proc_nr ip) (if proc_nr ip =? HARDWARE then NO_MAP else 0)
          (priority ip) (quantum ip) (quantum ip) name).

Definition boot_image_init : M proto unit :=
  for_each image (λ ip, upd_proc (NR_TASKS + proc_nr ip) (load_proc ip));;
  printf "  [kernel] boot_image: ";; put (show_int NR_BOOT_PROCS);;
  println " processes loaded  ... OK".

Definition announce : M proto unit :=
  println "  [kernel] DugOS v1.0 -- Built on MINIX 3.1.0 concepts";;
  println "  [kernel] Executing in 32-bit protected mode.".

Definition welcome_screen : M proto unit :=
  system CLEAR_CMD;;
  println "";;
  println "  +=================================================================+";;
  println "  |                                                                 |";;
  println "  |    ____  _   _   ____   ___   ____                             |";;
  println "  |   |  _ \| | | | / ___| / _ \ / ___|                            |";;
  println "  |   | | | | | | || |  _ | | | |\___ \                            |";;
  println "  |   | |_| | |_| || |_| || |_| | ___) |                           |";;
  println "  |   |____/ \___/  \____| \___/ |____/                             |";;
  println "  |                                                                 |";;
  println "  |          O P E R A T I N G     S Y S T E M                    |";;
  printf "  |                      v e r s i o n  ";; put (pad 4 (chars "1.0"));;
  println "                       |";;
  println "  |                                                                 |";;
  println "  |   - - - - - - - - - - - - - - - - - - - - - - - - - - - - -   |";;
  println "  |      Built on MINIX 3.1.0 kernel  (Appendix B, line 07100)    |";;
  println "  |   - - - - - - - - - - - - - - - - - - - - - - - - - - - - -   |";;
  println "  |                                                                 |";;
  println "  |                  [ Type  'help'  to begin ]                    |";;
  println "  |                                                                 |";;
  println "  +=================================================================+";;
  println "";;
  println "  >> Welcome, dug. DugOS is ready.";;
  println "".

Definition refresh_cwd : M proto unit :=
  s ← get;
  c ← lift_opt (match h_getcwd (p_host s) with
                | Some d => kstrcpy (cwd s) (d ++ [0])
                | None => kstrncpy (cwd s) (lit "?") (Z.to_nat CWD_LEN)
                end);
  modify (set_cwd c).

Definition err (cmd msg : string) : M proto unit :=
  printf "  [";; printf cmd;; printf "] Error: ";; println msg.

Definition help_line (cmd what : string) : M proto unit :=
  printf "  ";; put (pad 22 (chars cmd));; printf "  ";; println what.

Definition cmd_help : M proto unit :=
  println "";;
  println "  +------------------------------------------------------------+";;
  println "  |              DugOS v1.0  --  Command Reference            |";;
  println "  +------------------------------------------------------------+";;
  println "";;
  println "  [ General ]";;
  help_line "  help" "Show this help screen";;
  help_line "  cls / clear" "Clear the terminal screen";;
  help_line "  pwd" "Print current working directory";;
  help_line "  date" "Show current date and time";;
  help_line "  whoami" "Show current user";;
  println "";;
  println "  [ File Operations ]";;
  help_line "  fwrite <file>" "Create or overwrite a file";;
  help_line "  fread  <file>" "Read and display a file";;
  help_line "  cat    <file>" "Same as fread";;
  help_line "  fedit  <file>" "Append content to a file";;
  help_line "  fdel   <file>" "Delete a file";;
  help_line "  rename <old> <new>" "Rename a file";;
  help_line "  copy   <src> <dst>" "Copy a file";;
  println "";;
  println "  [ Directory Operations ]";;
  help_line "  mkdir  <dir>" "Create a new directory";;
  help_line "  cd     <dir>" "Change current directory";;
  help_line "  rmdir  <dir>" "Delete an empty directory";;
  help_line "  ls / dir" "List files in current directory";;
  println "";;
  println "  [ System ]";;
  help_line "  shutdown" "Shut down DugOS";;
  println "";;
  println "  +------------------------------------------------------------+";;
  println "".

Definition cmd_clear : M proto unit := system CLEAR_CMD.

Definition cmd_pwd : M proto unit :=
  refresh_cwd;;
  printf "  ";; c ← gets cwd; put_str c;; println "".

Definition cmd_date : M proto unit :=
  s ← get; printf "  ";; put (h_date (p_host s));; println "".

Definition cmd_whoami : M proto unit := println "  dug".

(** [!filename || strlen(filename) == 0], then the body with the name. *)
Definition with_name (fn : option (list Z)) (usage : M proto unit)
    (body : list Z → M proto unit) : M proto unit :=
  match fn with
  | None => usage
  | Some buf =>
      n ← lift_opt (cstring buf);
      if (zlen n =? 0) then usage else body n
  end.

(** One line of text entry: read, trim (in place), stop at a dot, else store
    the whole buffer. *)
Definition entry_step (n : list Z) : list Z → M proto (list Z + unit) := λ line,
  s ← get;
  match fgets line (stdin s) with
  | None => mret (inr tt)
  | Some (line1, rest) =>
      modify (set_in rest);;
      '(line2, t) ← lift_opt (trim line1);
      r ← lift_opt (kstrcmp (drop t line2) (lit "."));
      if r =? 0 then mret (inr tt) else
      txt ← lift_opt (cstring line2);
      modify (λ s, set_host (h_put n txt (p_host s)) s);;
      printf "  > ";;
      mret (inl line2)
  end.

(** Each round reads at least one character. *)
Definition text_entry (n : list Z) : M proto unit :=
  k ← gets (λ s, length (stdin s));
  loop (S k) (entry_step n) (uninit 256).

Definition cmd_fwrite (fn : option (list Z)) : M proto unit :=
  with_name fn (err "fwrite" "usage: fwrite <filename>") (λ n,
    ok ← try_host (h_creat n);
    if negb ok then err "fwrite" "cannot create file" else
    println "  Enter content. Type a single dot '.' on a new line to finish:";;
    printf "  > ";;
    text_entry n;;
    printf "  [fwrite] '";; put n;; println "' written successfully.").

(** The lines of one buffer, as [strtok(buf, "\n")] finds them. *)
Definition is_nl (c : Z) : bool := c =? 10.
Definition fread_lines (buf : list Z) : M proto unit :=
  r ← lift_opt (strtok is_nl buf 0);
  loop (S (length buf)) (λ '(b, save, line),
    match line with
    | None => mret (inr tt)
    | Some p =>
        printf "  ";; put_str (drop p b);; println "";;
        r' ← lift_opt (strtok is_nl b save);
        mret (inl r')
    end) r.

(** [fread(buf, 1, FILE_BUF - 1, fp)] until it returns 0. *)
Definition fread_chunks (text : list Z) : M proto unit :=
  loop (S (length text)) (λ '(rest, buf),
    let l := take (Z.to_nat (FILE_BUF - 1)) rest in
    if (zlen l =? 0) then mret (inr tt) else
    let buf1 := l ++ 0 :: drop (S (length l)) buf in
    fread_lines buf1;;
    mret (inl (drop (Z.to_nat (FILE_BUF - 1)) rest, buf1))) (text, uninit FILE_BUF).

Definition cmd_fread (fn : option (list Z)) : M proto unit :=
  with_name fn (err "fread" "usage: fread <filename>") (λ n,
    s ← get;
    if negb (h_open n (p_host s)) then err "fread" "file not found" else
    printf "  ---- ";; put n;; println " ----";;
    fread_chunks (h_text n (p_host s));;
    println "  ---- EOF ----").

Definition cmd_fedit (fn : option (list Z)) : M proto unit :=
  with_name fn (err "fedit" "usage: fedit <filename>") (λ n,
    s ← get;
    if negb (h_open n (p_host s)) then
      err "fedit" "file not found -- use fwrite to create it first" else
    ok ← try_host (h_openapp n);
    if negb ok then err "fedit" "cannot open file for editing" else
    printf "  Appending to '";; put n;; println "'. Type '.' on a new line to finish:";;
    printf "  > ";;
    text_entry n;;
    printf "  [fedit] '";; put n;; println "' updated successfully.").

(** Read an answer of at most 7 characters: [None] at the end of the input,
    else whether it starts with y or Y. *)
Definition ask : M proto (option bool) :=
  s ← get;
  match fgets (uninit 8) (stdin s) with
  | None => mret None
  | Some (b, rest) =>
      modify (set_in rest);;
      '(b1, t) ← lift_opt (trim b);
      c ← lift_opt (ld (drop t b1));
      if c =? 121 then mret (Some true) else
      '(b2, t2) ← lift_opt (trim b1);
      c2 ← lift_opt (ld (drop t2 b2));
      mret (Some (c2 =? 89))
  end.

Definition cmd_fdel (fn : option (list Z)) : M proto unit :=
  with_name fn (err "fdel" "usage: fdel <filename>") (λ n,
    printf "  Delete '";; put n;; printf "'? (y/n): ";;
    a ← ask;
    match a with
    | None => mret tt
    | Some false => println "  [fdel] Cancelled."
    | Some true =>
        ok ← try_host (h_remove n);
        if (ok : bool) then printf "  [fdel] '";; put n;; println "' deleted."
        else err "fdel" "could not delete file (does it exist?)"
    end).

(** The two-argument commands test both pointers, then both lengths. *)
Definition with_names (a b : option (list Z)) (usage : M proto unit)
    (body : list Z → list Z → M proto unit) : M proto unit :=
  match a, b with
  | Some x, Some y =>
      n ← lift_opt (cstring x);
      if zlen n =? 0 then usage else
      n' ← lift_opt (cstring y);
      if zlen n' =? 0 then usage else body n n'
  | _, _ => usage
  end.

Definition cmd_rename (a b : option (list Z)) : M proto unit :=
  with_names a b (err "rename" "usage: rename <old> <new>") (λ n n',
    ok ← try_host (h_rename n n');
    if (ok : bool) then printf "  [rename] '";; put n;; printf "' -> '";; put n';; println "'"
    else err "rename" "could not rename file").

(** The copy loop reads blocks of 4096 bytes until the source is at its end.
    The source is read as it is after the destination was created. *)
Definition copy_blocks (n' : list Z) (text : list Z) : M proto unit :=
  loop (S (length text)) (λ rest,
    let l := take 4096 rest in
    if zlen l =? 0 then mret (inr tt) else
    modify (λ s, set_host (h_put n' l (p_host s)) s);;
    mret (inl (drop 4096 rest))) text.

Definition cmd_copy (a b : option (list Z)) : M proto unit :=
  with_names a b (err "copy" "usage: copy <source> <destination>") (λ n n',
    s ← get;
    if negb (h_open n (p_host s)) then err "copy" "source file not found" else
    ok ← try_host (h_creat n');
    if negb ok then err "copy" "cannot create destination file" else
    s' ← get;
    copy_blocks n' (h_text n (p_host s'));;
    printf "  [copy] '";; put n;; printf "' -> '";; put n';; println "'").

Definition cmd_mkdir (fn : option (list Z)) : M proto unit :=
  with_name fn (err "mkdir" "usage: mkdir <dirname>") (λ n,
    ok ← try_host (h_mkdir n);
    if (ok : bool) then printf "  [mkdir] Directory '";; put n;; println "' created."
    else err "mkdir" "could not create directory (already exists?)").

Definition cmd_cd (fn : option (list Z)) : M proto unit :=
  with_name fn (err "cd" "usage: cd <dirname>") (λ n,
    ok ← try_host (h_chdir n);
    if (ok : bool) then
      refresh_cwd;; printf "  [cd] Now in: ";; c ← gets cwd; put_str c;; println ""
    else err "cd" "directory not found").

Definition cmd_rmdir (fn : option (list Z)) : M proto unit :=
  with_name fn (err "rmdir" "usage: rmdir <dirname>") (λ n,
    printf "  Delete directory '";; put n;; printf "'? (y/n): ";;
    a ← ask;
    match a with
    | None => mret tt
    | Some false => println "  [rmdir] Cancelled."
    | Some true =>
        ok ← try_host (h_rmdir n);
        if (ok : bool) then printf "  [rmdir] '";; put n;; println "' removed."
        else err "rmdir" "could not remove (is it empty and does it exist?)"
    end).

Definition cmd_ls : M proto unit :=
  refresh_cwd;;
  printf "  Directory listing: ";; c ← gets cwd; put_str c;; println "";; println "";;
  system "ls -lah --color=never";;
  println "".

Definition cmd_shutdown : M proto unit :=
  println "";;
  println "  +----------------------------------------------------------+";;
  println "  |                  DugOS Shutdown                       |";;
  println "  +----------------------------------------------------------+";;
  println "";;
  println "  [kernel] Sending SIGKSTOP to all system processes...";;
  for_each image (λ ip,
    when (negb (proc_nr ip =? HARDWARE))
      (printf "  [kernel]   -> stopping ";; put (pad 10 (chars (proc_name ip)));;
       printf " (proc ";; put (show_int (proc_nr ip));; println ")"));;
  println "  [kernel] Flushing file system buffers ... OK";;
  println "  [kernel] Stopping clock task          ... OK";;
  println "  [kernel] Masking all hardware IRQs    ... OK";;
  intr_init 0;;
  modify (set_running 1 0);;
  println "";; println "  DugOS has shut down. Goodbye, dug.";; println "".

(** [strcmp(cmd, s) == 0], for one of the names of a command. *)
Fixpoint cmd_case (cmd : list Z) (names : list string) (yes no : M proto unit) : M proto unit :=
  match names with
  | [] => no
  | s :: names' =>
      r ← lift_opt (kstrcmp cmd (lit s));
      if r =? 0 then yes else cmd_case cmd names' yes no
  end.

Definition run_cmd (cmd : list Z) (a1 a2 : option (list Z)) : M proto unit :=
  cmd_case cmd ["help"%string] cmd_help (
  cmd_case cmd ["cls"%string; "clear"%string] cmd_clear (
  cmd_case cmd ["pwd"%string] cmd_pwd (
  cmd_case cmd ["date"%string] cmd_date (
  cmd_case cmd ["whoami"%string] cmd_whoami (
  cmd_case cmd ["shutdown"%string] cmd_shutdown (
  cmd_case cmd ["fwrite"%string] (cmd_fwrite a1) (
  cmd_case cmd ["fread"%string; "cat"%string] (cmd_fread a1) (
  cmd_case cmd ["fedit"%string] (cmd_fedit a1) (
  cmd_case cmd ["fdel"%string] (cmd_fdel a1) (
  cmd_case cmd ["rename"%string] (cmd_rename a1 a2) (
  cmd_case cmd ["copy"%string] (cmd_copy a1 a2) (
  cmd_case cmd ["mkdir"%string] (cmd_mkdir a1) (
  cmd_case cmd ["cd"%string] (cmd_cd a1) (
  cmd_case cmd ["rmdir"%string] (cmd_rmdir a1) (
  cmd_case cmd ["ls"%string; "dir"%string] cmd_ls (
    printf "  Unknown command: '";; put_str cmd;;
    println "'  (type 'help' for a list)")))))))))))))))).

Definition shell_dispatch (input : list Z) : M proto unit :=
  b ← lift_opt (kstrncpy (uninit CMD_LEN) input (Z.to_nat (CMD_LEN - 1)));
  buf ← lift_opt (zset b (CMD_LEN - 1) 0);
  '(buf1, argv) ← lift_opt (parse_cmd buf MAX_ARGS);
  match (λ p, drop p buf1) <$> argv with
  | [] => mret tt
  | cmd :: args => run_cmd cmd (args !! 0%nat) (args !! 1%nat)
  end.

(** One turn of the shell: [inr] ends the loop. *)
Definition shell_turn : list Z → M proto (list Z + unit) := λ input,
  s ← get;
  if os_running s =? 0 then mret (inr tt) else
  refresh_cwd;;
  printf "  dug@os:";; c ← gets cwd; put_str c;; printf "$ ";;
  s1 ← get;
  match fgets input (stdin s1) with
  | None => mret (inr tt)
  | Some (input1, rest) =>
      modify (set_in rest);;
      '(input2, t) ← lift_opt (trim input1);
      n ← lift_opt (kstrlen (drop t input2));
      if n =? 0 then mret (inl input2) else
      shell_dispatch (drop t input2);;
      println "";;
      mret (inl input2)
  end.

Definition shell_run : M proto unit :=
  k ← gets (λ s, length (stdin s));
  loop (S (S k)) shell_turn (uninit CMD_LEN).

Definition main : M proto unit :=
  system CLEAR_CMD;;
  println "";; println "  Booting DugOS v1.0 ...";; println "";;
  intr_init 1;;
  boot_proc_table;;
  boot_priv_table;;
  boot_image_init;;
  announce;;
  println "";; println "  Boot complete.";;
  welcome_screen;;
  shell_run.
End prototype.
