(* ===== verification/PrototypeSpec.v ===== *)
(** * What the prototype does

    The C library calls on buffers, then a class [Runs] of computations that
    end normally and consume no more input than there is: every command is in
    it, so the prototype never faults and always ends. *)

From S2P Require Import Prelude CString Tokens DirTable Prototype.

(** ** strtok *)

(** After a call the buffer starts with [pre2] and the scan goes on at the
    string [s2] behind it; a token found lies in [pre2] or just before its
    terminator. *)
Lemma strtok_run delim pre s rest :
  Forall is_char s → delim 0 = false →
  (∃ p', strtok delim (pre ++ s ++ 0 :: rest) (length pre) = Some (pre ++ s ++ 0 :: rest, p', None) ∧
     fields delim s = []) ∨
  (∃ bs t mid s2 rest2,
     strtok delim (pre ++ s ++ 0 :: rest) (length pre) =
       Some ((pre ++ bs ++ t ++ mid) ++ s2 ++ 0 :: rest2, length (pre ++ bs ++ t ++ mid),
             Some (length pre + length bs)%nat) ∧
     Forall is_char t ∧ Forall is_char s2 ∧ fields delim s = t :: fields delim s2 ∧
     (mid = [0] ∨ mid = [] ∧ s2 = []) ∧
     length (bs ++ t ++ mid ++ s2 ++ 0 :: rest2) = length (s ++ 0 :: rest) ∧ (length s2 < length s)%nat).
Proof.
  intros HC H0. unfold strtok. rewrite drop_app_length.
  destruct (first_token delim s) as [[Hall Hw]|(bs & t & r & -> & Hbs & [Hne HT] & Hr & Hw)].
  { left. rewrite tok_skip_run; [|done..|by exists 0, rest]. cbn [mbind option_bind].
    rewrite drop_pre, drop_app_length. cbn [ld mbind option_bind]. by eexists. }
  right. pose proof HC as [HCb [HCt HCr]%Forall_app]%Forall_app. rewrite <-!app_assoc.
  destruct t as [|x t]; [done|]. inversion HT as [|? ? Hx _]; subst.
  inversion HCt as [|? ? Hxc _]; subst. unfold is_char in Hxc.
  rewrite tok_skip_run; [|done..|by exists x, (t ++ r ++ 0 :: rest); split_and!; [done|lia|done]].
  cbn [mbind option_bind]. rewrite drop_pre, drop_app_length.
  rewrite (cstr_ld _ ((x :: t) ++ r)) by (rewrite app_assoc; apply cstr_app0; by apply Forall_app).
  cbn [mbind option_bind hd app]. destruct (Z.eqb_spec x 0); [lia|].
  change (x :: t ++ r ++ 0 :: rest) with ((x :: t) ++ r ++ 0 :: rest).
  rewrite tok_scan_run; [|done..|].
  2:{ destruct Hr as [->|(z & y & -> & Hz)]; [exists 0, rest; split_and!; [done|lia|by left]|].
      inversion HCr; subst. unfold is_char in *. exists z, (y ++ 0 :: rest). split_and!; [done|lia|by right]. }
  cbn [mbind option_bind].
  rewrite <-Nat.add_assoc, drop_pre, <-drop_drop, !drop_app_length.
  rewrite (cstr_ld _ r) by by apply cstr_app0. cbn [mbind option_bind].
  destruct Hr as [->|(z & y & -> & Hz)]; cbn [hd].
  - rewrite Z.eqb_refl. exists bs, (x :: t), [], [], rest. simpl in Hw.
    split; [rewrite <-!app_assoc, !length_app; repeat f_equal; simpl; lia|].
    split; [done|]. split; [done|]. split; [done|]. split; [by right|].
    split; rewrite !length_app; simpl; lia.
  - inversion HCr as [|? ? Hzc HCy]; subst. unfold is_char in Hzc. destruct (Z.eqb_spec z 0); [lia|].
    exists bs, (x :: t), [0], y, rest.
    replace (pre ++ bs ++ (x :: t) ++ (z :: y) ++ 0 :: rest)
      with ((pre ++ bs ++ x :: t) ++ z :: y ++ 0 :: rest) by by rewrite <-!app_assoc.
    replace (Z.of_nat (length pre + (length bs + length (x :: t)))) with (zlen (pre ++ bs ++ x :: t))
      by (unfold zlen; rewrite !length_app; lia).
    rewrite zset_upd, upd_app_mid.
    2:{ rewrite (zlen_app _ (z :: _)), zlen_cons. pose proof (zlen_nonneg (pre ++ bs ++ x :: t)).
        pose proof (zlen_nonneg (y ++ 0 :: rest)). lia. }
    cbn [mbind option_bind].
    split; [rewrite <-!app_assoc, !length_app; simpl app; repeat f_equal; rewrite ?length_app; simpl; lia|].
    split; [done|]. split; [done|]. split; [done|]. split; [by left|].
    split; rewrite !length_app; simpl; rewrite ?length_app; simpl; lia.
Qed.

(** ** parse_cmd *)

(** The rest of a parse, from a call of [strtok] on. *)
Definition parse_go (k : nat) (buf : list Z) (p : nat) : option (list Z * list nat) :=
  '(b, save, tok) ← strtok cmd_delim buf p; parse_rest k b save tok.

Lemma parse_rest_S k buf save t :
  parse_rest (S k) buf save (Some t) = '(b, argv) ← parse_go k buf save; Some (b, t :: argv).
Proof. unfold parse_go. simpl. by destruct (strtok cmd_delim buf save) as [[[b sv] tk]|]. Qed.

Lemma parse_go_run k pre s rest :
  Forall is_char s →
  ∃ t argv, parse_go k (pre ++ s ++ 0 :: rest) (length pre) = Some (pre ++ t, argv) ∧
    length t = length (s ++ 0 :: rest) ∧ (s = [] → ∃ u, t = 0 :: u) ∧
    Forall2 (λ p w, (length pre ≤ p)%nat ∧ cstr (drop p (pre ++ t)) w) argv (take k (fields cmd_delim s)).
Proof.
  revert pre s rest. induction k as [|k IH]; intros pre s rest HC; unfold parse_go;
    destruct (strtok_run cmd_delim pre s rest HC eq_refl)
      as [(p' & -> & Hf)|(bs & t & mid & s2 & rest2 & -> & HCt & HC2 & Hf & Hmid & Hl & Hlt)];
    cbn [mbind option_bind].
  - exists (s ++ 0 :: rest), []. split_and!; try done. intros ->. by exists rest.
  - exists (bs ++ t ++ mid ++ s2 ++ 0 :: rest2), []. split; [by rewrite <-!app_assoc|].
    split; [done|]. split; [|done]. intros ->. simpl in Hlt. lia.
  - exists (s ++ 0 :: rest), []. split; [done|]. split; [done|].
    split; [intros ->; by exists rest|]. by rewrite Hf.
  - rewrite parse_rest_S. destruct (IH (pre ++ bs ++ t ++ mid) s2 rest2 HC2) as (u & argv & E & Hu & Hs2 & HF).
    rewrite E. cbn [mbind option_bind]. exists (bs ++ t ++ mid ++ u), ((length pre + length bs)%nat :: argv).
    split; [by rewrite <-!app_assoc|].
    split; [rewrite <-Hl, !length_app, Hu, !length_app; lia|].
    split; [intros ->; simpl in Hlt; lia|]. rewrite Hf. cbn [take]. constructor.
    + split; [lia|]. rewrite drop_pre, drop_app_length.
      destruct Hmid as [->|[-> ->]]; [by apply cstr_app0|].
      destruct (Hs2 eq_refl) as [w ->]. by apply cstr_app0.
    + eapply Forall2_impl; [exact HF|]. intros p w [Hp Hc]. rewrite length_app in Hp.
      split; [lia|]. by rewrite <-!app_assoc in Hc.
Qed.

Lemma proto_parse_run buf s k :
  cstr buf s →
  ∃ buf' argv, parse_cmd buf k = Some (buf', argv) ∧ length buf' = length buf ∧
    Forall2 (λ p w, cstr (drop p buf') w) argv (take k (fields cmd_delim s)).
Proof.
  intros [HC [rest ->]]. destruct (parse_go_run k [] s rest HC) as (t & argv & E & Hl & _ & HF).
  exists t, argv. split; [exact E|]. split; [done|]. eapply Forall2_impl; [exact HF|]. by intros p w [_ ?].
Qed.

(** ** trim *)

(** The line without the blanks before and the white space after it; a line
    of one character keeps it. *)
Fixpoint rstrip (s : list Z) : list Z :=
  match s with
  | [] => []
  | c :: s' => if is_space c && bool_decide (rstrip s' = []) then [] else c :: rstrip s'
  end.

Lemma rstrip_snoc s c : rstrip (s ++ [c]) = if is_space c then rstrip s else s ++ [c].
Proof.
  induction s as [|x s IH]; simpl; [by destruct (is_space c)|]. rewrite IH.
  destruct (is_space c); [done|]. rewrite bool_decide_false by by destruct s. by rewrite andb_false_r.
Qed.

(** The characters left when the end pointer stops at the first one. *)
Definition keep_first (c : Z) (s : list Z) : list Z := c :: rstrip s.

Lemma trim_end_run pre c s rest :
  Forall is_char s →
  ∃ e, trim_end (pre ++ c :: s ++ rest) (length pre) (length s) = Some e ∧
    S e = (length pre + length (keep_first c s))%nat.
Proof.
  revert rest. induction s as [|x s IH] using rev_ind; intros rest HC.
  - exists (length pre). split; [done|]. simpl. lia.
  - apply Forall_app in HC as [HC Hx]. inversion Hx as [|? ? Hx' _]; subst. unfold is_char in Hx'.
    rewrite length_app, <-app_assoc. simpl length. rewrite Nat.add_1_r. cbn [trim_end].
    rewrite drop_pre. cbn [drop]. rewrite drop_app_length. cbn [ld app].
    destruct (Z.ltb_spec x 0); [lia|]. cbn [mbind option_bind].
    unfold keep_first. rewrite rstrip_snoc. destruct (is_space x).
    + apply (IH (x :: rest) HC).
    + eexists. split; [done|]. simpl. rewrite length_app. simpl. lia.
Qed.

Fixpoint lead (s : list Z) : list Z :=
  match s with [] => [] | c :: s' => if is_pad c then c :: lead s' else [] end.
Fixpoint lstrip (s : list Z) : list Z :=
  match s with [] => [] | c :: s' => if is_pad c then lstrip s' else s end.

(** The string [trim] returns, and the one it leaves in the buffer. *)
Definition strip_line (s : list Z) : list Z :=
  match lstrip s with [] => [] | c :: s' => keep_first c s' end.
Definition kept (s : list Z) : list Z := lead s ++ strip_line s.

Lemma lead_lstrip s : s = lead s ++ lstrip s.
Proof. induction s as [|c s IH]; simpl; [done|]. destruct (is_pad c); [|done]. simpl. by f_equal. Qed.

Lemma lead_pads s : Forall (λ c, is_pad c = true) (lead s).
Proof. induction s as [|c s IH]; simpl; [constructor|]. destruct (is_pad c) eqn:E; by constructor. Qed.

Lemma lstrip_head s c s' : lstrip s = c :: s' → is_pad c = false.
Proof.
  induction s as [|x s IH]; simpl; [done|]. destruct (is_pad x) eqn:E; [done|]. by intros [= <- _].
Qed.

Lemma rstrip_prefix s : ∃ u, s = rstrip s ++ u.
Proof.
  induction s as [|c s [u E]]; simpl; [by exists []|]. destruct (_ && _); [by exists (c :: s)|].
  exists u. simpl. by rewrite <-E.
Qed.

Lemma trim_run buf s :
  cstr buf s →
  ∃ buf' p, trim buf = Some (buf', p) ∧ length buf' = length buf ∧
    cstr (drop p buf') (strip_line s) ∧ cstr buf' (kept s).
Proof.
  intros [HC [rest ->]]. unfold trim, kept, strip_line. pose proof (lead_lstrip s) as Hs.
  rewrite Hs in HC. replace (s ++ 0 :: rest) with (lead s ++ lstrip s ++ 0 :: rest)
    by by rewrite app_assoc, <-Hs.
  apply Forall_app in HC as [HCl HCs]. clear Hs.
  pose proof (lead_pads s) as Hp. set (a := lead s) in *.
  destruct (lstrip s) as [|c s'] eqn:E.
  { rewrite tok_skip_run; [|done..|by exists 0, rest]. cbn [mbind option_bind Nat.add app].
    rewrite drop_app_length. cbn [ld mbind option_bind]. eexists _, _. split; [done|].
    split; [done|]. rewrite drop_app_length. split; [by apply (cstr_app0 [])|].
    rewrite app_nil_r. by apply cstr_app0. }
  apply lstrip_head in E. inversion HCs as [|? ? Hc HC']; subst. unfold is_char in Hc.
  rewrite tok_skip_run; [|done..|by exists c, (s' ++ 0 :: rest); split_and!; [done|lia|done]].
  cbn [mbind option_bind Nat.add]. rewrite drop_app_length.
  rewrite (cstr_ld _ (c :: s')) by by apply cstr_app0. cbn [mbind option_bind hd].
  destruct (Z.eqb_spec c 0); [lia|].
  rewrite (kstrlen_cstr _ (c :: s')) by by apply cstr_app0. cbn [mbind option_bind].
  replace (Z.to_nat (zlen (c :: s')) - 1)%nat with (length s') by (unfold zlen; simpl; lia).
  destruct (trim_end_run a c s' (0 :: rest) HC') as (e & Ee & He). cbn [app] in Ee |- *.
  rewrite Ee. cbn [mbind option_bind].
  destruct (rstrip_prefix s') as [u Hu]. unfold keep_first in *.
  assert (Hcut : ∃ z w, a ++ c :: s' ++ 0 :: rest = (a ++ c :: rstrip s') ++ z :: w).
  { replace (s' ++ 0 :: rest) with (rstrip s' ++ u ++ 0 :: rest) by by rewrite app_assoc, <-Hu.
    destruct u as [|z u].
    - exists 0, rest. by rewrite <-app_assoc.
    - exists z, (u ++ 0 :: rest). by rewrite <-!app_assoc. }
  destruct Hcut as (z & w & Hcut). rewrite Hcut.
  replace (Z.of_nat (S e)) with (zlen (a ++ c :: rstrip s')) by (unfold zlen; rewrite length_app; lia).
  rewrite zset_upd, upd_app_mid.
  2:{ rewrite (zlen_app _ (z :: _)), zlen_cons. pose proof (zlen_nonneg (a ++ c :: rstrip s')).
      pose proof (zlen_nonneg w). lia. }
  cbn [mbind option_bind]. eexists _, _. split; [done|].
  assert (HCr : Forall is_char (c :: rstrip s')).
  { constructor; [unfold is_char; lia|]. rewrite Hu in HC'. by apply Forall_app in HC' as [? _]. }
  split; [by rewrite (length_app _ (0 :: w)), (length_app _ (z :: w))|]. split.
  - rewrite <-app_assoc, drop_app_length. by apply cstr_app0.
  - apply cstr_app0. by apply Forall_app.
Qed.

(** ** fgets *)

Lemma fgets_chars_spec n inp :
  let '(l, rest) := fgets_chars n inp in inp = l ++ rest ∧ (length l ≤ n)%nat ∧
    ((0 < n)%nat → inp ≠ [] → l ≠ []).
Proof.
  revert inp. induction n as [|n IH]; intros [|c inp]; simpl; try (split_and!; done || lia).
  destruct (c =? 10); [split_and!; done || (simpl; lia)|].
  specialize (IH inp). destruct (fgets_chars n inp) as [l rest]. destruct IH as (-> & Hl & _).
  split_and!; [done|simpl; lia|done].
Qed.

Lemma fgets_run buf inp :
  (1 < length buf)%nat → inp ≠ [] → Forall is_char inp →
  ∃ l rest buf', fgets buf inp = Some (buf', rest) ∧ inp = l ++ rest ∧ l ≠ [] ∧
    (l, rest) = fgets_chars (length buf - 1) inp ∧ cstr buf' l ∧ length buf' = length buf.
Proof.
  intros Hb Hne HF. pose proof (fgets_chars_spec (length buf - 1) inp) as H. unfold fgets.
  destruct inp as [|c inp]; [done|]. destruct (fgets_chars _ _) as [l rest].
  destruct H as (E & Hl & Hn). exists l, rest, (l ++ 0 :: drop (S (length l)) buf).
  split; [done|]. split; [done|]. split; [apply Hn; [lia|done]|]. split; [done|]. split.
  - apply cstr_app0. rewrite E in HF. by apply Forall_app in HF as [? _].
  - rewrite length_app. simpl. rewrite length_drop. lia.
Qed.

(** ** The host *)

(** Documented behaviour of the host's calls: [getcwd] gives a path that fits
    the buffer it was given, files are sequences of bytes, opening for writing
    empties the file, and writing appends. *)
Class HostLaws (H : Host) := {
  law_cwd h d : h_getcwd h = Some d → Forall is_char d ∧ (length d < 512)%nat;
  law_text n h : Forall (λ c, 0 ≤ c < 256) (h_text n h);
  law_creat n h h' : h_creat n h = Some h' → h_text n h' = [];
  law_put n t h : Forall is_char t → h_text n (h_put n t h) = h_text n h ++ t
}.

(** A host with one directory and a list of files. *)
Definition byte_list (l : list Z) : list Z := u8 <$> l.
#[export] Instance tiny_host : Host := {|
  host := gmap (list Z) (list Z);
  h_creat n h := Some (<[n := []]> h);
  h_open n h := bool_decide (is_Some (h !! n));
  h_openapp n h := Some (match h !! n with Some _ => h | None => <[n := []]> h end);
  h_put n t h := <[n := default [] (h !! n) ++ t]> h;
  h_text n h := byte_list (default [] (h !! n));
  h_remove n h := match h !! n with Some _ => Some (delete n h) | None => None end;
  h_rename n n' h := match h !! n with Some t => Some (<[n' := t]> (delete n h)) | None => None end;
  h_mkdir _ _ := None;
  h_rmdir _ _ := None;
  h_chdir _ _ := None;
  h_getcwd _ := Some [47];
  h_system _ h := ([], h);
  h_date _ := []
|}.

#[export] Instance tiny_laws : HostLaws tiny_host.
Proof.
  constructor.
  - intros h d [= <-]. split; [repeat constructor; lia|simpl; lia].
  - intros n h. apply Forall_fmap. apply Forall_true. intros c. apply Z.mod_pos_bound. lia.
  - intros n h h' [= <-]. simpl. by rewrite lookup_insert_eq.
  - intros n t h Ht. simpl. rewrite lookup_insert_eq. unfold byte_list. simpl. rewrite fmap_app. f_equal.
    induction Ht as [|c t Hc _ IH]; [done|]. rewrite fmap_cons, IH. f_equal. unfold is_char in Hc.
    apply Z.mod_small. lia.
Qed.

(** ** Computations that end normally *)

Create HintDb runs.

Section runs.
Context `{H : Host, L : !HostLaws H}.

Record proto_wf (s : proto) : Prop := {
  pw_cwd : zlen (cwd s) = CWD_LEN;
  pw_str : terminated (cwd s);
  pw_in : Forall is_char (stdin s)
}.

(** In order afterwards, with a suffix of the input left. *)
Definition ok_after (s s' : proto) : Prop := proto_wf s' ∧ ∃ l, stdin s = l ++ stdin s'.

Definition runs {A} (c : M proto A) (s : proto) : Prop := ∃ a s', c s = Ret a s' ∧ ok_after s s'.

Definition Runs {A} (c : M proto A) : Prop := ∀ s, proto_wf s → runs c s.

Lemma ok_after_refl s : proto_wf s → ok_after s s.
Proof. intros. split; [done|]. by exists []. Qed.

Lemma ok_after_trans s1 s2 s3 : ok_after s1 s2 → ok_after s2 s3 → ok_after s1 s3.
Proof. intros [_ [l1 E1]] [H2 [l2 E2]]. split; [done|]. exists (l1 ++ l2). by rewrite E1, E2, app_assoc. Qed.

Lemma ok_after_out s x : proto_wf s → ok_after s (set_out x s).
Proof. intros []. split; [by constructor|]. by exists []. Qed.

Lemma ok_after_host s x : proto_wf s → ok_after s (set_host x s).
Proof. intros []. split; [by constructor|]. by exists []. Qed.

Lemma runs_bind_at {A C} (c : M proto A) (f : A → M proto C) s :
  runs c s → (∀ a s', ok_after s s' → c s = Ret a s' → runs (f a) s') → runs (c ≫= f) s.
Proof.
  intros (a & s1 & E & H1) Hf. destruct (Hf a s1 H1 E) as (b & s2 & E2 & H2). exists b, s2.
  split; [by step E|by eapply ok_after_trans].
Qed.

Lemma runs_assoc {A C D} (c : M proto A) (f : A → M proto C) (g : C → M proto D) s :
  runs (c ≫= (λ a, f a ≫= g)) s → runs ((c ≫= f) ≫= g) s.
Proof. unfold runs. by rewrite bind_assoc. Qed.

Lemma runs_ret {A} (a : A) : Runs (mret a).
Proof. intros s Hs. exists a, s. split; [done|by apply ok_after_refl]. Qed.

Lemma runs_bind {A C} (c : M proto A) (f : A → M proto C) :
  Runs c → (∀ a, Runs (f a)) → Runs (c ≫= f).
Proof. intros Hc Hf s Hs. apply runs_bind_at; [by apply Hc|]. intros a s' [Hs' _] _. by apply Hf. Qed.

Lemma runs_get : Runs (get (S := proto)).
Proof. intros s Hs. exists s, s. split; [done|by apply ok_after_refl]. Qed.

Lemma runs_gets {A} (f : proto → A) : Runs (gets f).
Proof. intros s Hs. exists (f s), s. split; [done|by apply ok_after_refl]. Qed.

Lemma runs_put cs : Runs (put cs).
Proof. intros s Hs. eexists _, _. split; [done|by apply ok_after_out]. Qed.

Lemma runs_host (f : proto → host) : Runs (modify (λ s, set_host (f s) s)).
Proof. intros s Hs. eexists _, _. split; [done|by apply ok_after_host]. Qed.

Lemma runs_set_host x : Runs (modify (set_host x)).
Proof. intros s Hs. eexists _, _. split; [done|by apply ok_after_host]. Qed.

Lemma runs_running a b : Runs (modify (set_running a b)).
Proof. intros s []. eexists _, _. split; [done|]. split; [by constructor|]. by exists []. Qed.

Lemma runs_if {A} (b : bool) (c1 c2 : M proto A) :
  Runs c1 → Runs c2 → Runs (if b then c1 else c2).
Proof. by destruct b. Qed.

Lemma runs_println s : Runs (println s).
Proof. apply runs_put. Qed.
Lemma runs_printf s : Runs (printf s).
Proof. apply runs_put. Qed.

Lemma runs_try f : Runs (try_host f).
Proof.
  unfold try_host. apply runs_bind; [apply runs_get|]. intros s.
  destruct (f (p_host s)); [apply runs_bind; [apply runs_set_host|intros _]|]; apply runs_ret.
Qed.

Lemma runs_system cmd : Runs (system cmd).
Proof.
  unfold system. apply runs_bind; [apply runs_get|]. intros s. destruct (h_system _ _).
  apply runs_bind; [apply runs_set_host|intros _; apply runs_put].
Qed.

Lemma runs_each {A} (l : list A) (f : A → M proto unit) :
  (∀ x, Runs (f x)) → Runs (for_each l f).
Proof. intros Hf. induction l; simpl; [apply runs_ret|by apply runs_bind]. Qed.

Lemma runs_when b c : Runs c → Runs (when b c).
Proof. intros Hc. unfold when. apply runs_if; [done|apply runs_ret]. Qed.

(** Printing a buffer that holds a string. *)
Lemma runs_str buf : terminated buf → Runs (put_str buf).
Proof.
  intros [t Ht%cstring_spec] s Hs. unfold put_str. rewrite Ht. by apply runs_put.
Qed.

Lemma runs_show_cwd {C} (k : unit → M proto C) :
  (∀ u, Runs (k u)) → Runs (c ← gets cwd; put_str c ≫= k).
Proof.
  intros Hk s Hs. unfold runs. rewrite bind_gets. apply (runs_bind_at (put_str (cwd s)) k s).
  - apply runs_str; [apply Hs|done].
  - intros a s' [Hs' _] _. by apply Hk.
Qed.

Lemma runs_refresh : Runs refresh_cwd.
Proof.
  intros s Hs. assert (Hl : length (cwd s) = 512%nat).
  { pose proof (pw_cwd s Hs). unfold zlen, CWD_LEN in *. lia. }
  assert (Hc : ∃ c t, match h_getcwd (p_host s) with
      | Some d => kstrcpy (cwd s) (d ++ [0])
      | None => kstrncpy (cwd s) (lit "?") (Z.to_nat CWD_LEN) end = Some c ∧ length c = 512%nat ∧ cstr c t).
  { destruct (h_getcwd (p_host s)) as [d|] eqn:E.
    - destruct (law_cwd _ _ E) as [Hd Hn]. exists (d ++ 0 :: drop (S (length d)) (cwd s)), d.
      split; [apply kstrcpy_spec; [by apply cstr_app0|lia]|].
      split; [rewrite length_app; simpl; rewrite length_drop; lia|by apply cstr_app0].
    - destruct (kstrncpy_cstr (cwd s) (lit "?") (chars "?") 512) as (b & Eb & Hb & Hlb).
      + apply cstr_lit. repeat constructor; lia.
      + simpl. lia.
      + done.
      + by exists b, (chars "?"). }
  destruct Hc as (c & t & E & Hlc & Hct). unfold runs, refresh_cwd. rewrite bind_get.
  rewrite (bind_lift _ _ _ _ E). eexists _, _. split; [done|]. destruct Hs.
  split; [|by exists []]. constructor; simpl; [unfold zlen; rewrite Hlc; done|by exists t|done].
Qed.

(** ** The commands *)

(** An argument: NULL or a string. *)
Class ArgOk (fn : option (list Z)) : Prop := arg_ok : ∀ b, fn = Some b → terminated b.

Lemma runs_with_name fn usage body :
  ArgOk fn → Runs usage → (∀ n, Runs (body n)) → Runs (with_name fn usage body).
Proof.
  intros Ha Hu Hb. unfold with_name. destruct fn as [b|]; [|done].
  destruct (Ha b eq_refl) as [t Ht%cstring_spec]. intros s Hs. unfold runs.
  rewrite (bind_lift _ _ _ _ Ht). destruct (_ =? 0); [by apply Hu|by apply Hb].
Qed.

Lemma runs_with_names a b usage body :
  ArgOk a → ArgOk b → Runs usage → (∀ n n', Runs (body n n')) → Runs (with_names a b usage body).
Proof.
  intros Ha Hb Hu Hk. unfold with_names. destruct a as [x|]; [|done]. destruct b as [y|]; [|done].
  destruct (Ha x eq_refl) as [t Ht%cstring_spec]. destruct (Hb y eq_refl) as [u Hv%cstring_spec].
  intros s Hs. unfold runs. rewrite (bind_lift _ _ _ _ Ht). destruct (_ =? 0); [by apply Hu|].
  rewrite (bind_lift _ _ _ _ Hv). destruct (_ =? 0); [by apply Hu|by apply Hk].
Qed.

Lemma runs_err c msg : Runs (err c msg).
Proof. unfold err. repeat (apply runs_bind; [apply runs_put|intros _]). apply runs_put. Qed.

Lemma wf_set_in s rest l : proto_wf s → stdin s = l ++ rest → ok_after s (set_in rest s).
Proof.
  intros [Hc Ht Hi] E. split; [|by exists l]. constructor; simpl; try done.
  rewrite E in Hi. by apply Forall_app in Hi as [_ ?].
Qed.

(** Reading a line: the state afterwards, the buffer and what [trim] makes of
    it. *)
Lemma read_line_run buf s :
  proto_wf s → (1 < length buf)%nat → stdin s ≠ [] →
  ∃ l rest b1 b2 p, fgets buf (stdin s) = Some (b1, rest) ∧ trim b1 = Some (b2, p) ∧
    (l, rest) = fgets_chars (length buf - 1) (stdin s) ∧ stdin s = l ++ rest ∧ l ≠ [] ∧
    length b2 = length buf ∧ cstr (drop p b2) (strip_line l) ∧ cstr b2 (kept l) ∧
    ok_after s (set_in rest s).
Proof.
  intros Hs Hb Hne. destruct (fgets_run buf (stdin s) Hb Hne (pw_in _ Hs))
    as (l & rest & b1 & E1 & El & Hl & Hf & Hc & Hlen).
  destruct (trim_run b1 l Hc) as (b2 & p & E2 & Hl2 & Hp & Hk).
  exists l, rest, b1, b2, p. split; [done|]. split; [done|]. split; [done|]. split; [done|].
  split; [done|]. split; [lia|]. split; [done|]. split; [done|]. by eapply wf_set_in.
Qed.

Lemma cstr_dot_lit : cstr (lit ".") [46].
Proof. apply (cstr_lit "."). repeat constructor; lia. Qed.

(** The result of one line of text entry. *)
Lemma entry_step_run n buf s :
  proto_wf s → length buf = 256%nat →
  (stdin s = [] ∧ entry_step n buf s = Ret (inr tt) s) ∨
  ∃ l rest b2, (l, rest) = fgets_chars 255 (stdin s) ∧ stdin s = l ++ rest ∧ l ≠ [] ∧
    length b2 = 256%nat ∧ ok_after s (set_in rest s) ∧
    entry_step n buf s =
      if bool_decide (strip_line l = [46]) then Ret (inr tt) (set_in rest s)
      else Ret (inl b2) (set_out (stdout s ++ chars "  > ")
             (set_host (h_put n (kept l) (p_host s)) (set_in rest s))).
Proof.
  intros Hs Hb. unfold entry_step. rewrite bind_get. destruct (decide (stdin s = [])) as [E|Hne].
  { left. split; [done|]. by rewrite E. }
  right. destruct (read_line_run buf s Hs ltac:(lia) Hne)
    as (l & rest & b1 & b2 & p & E1 & E2 & Hf & El & Hl & Hlen & Hp & Hk & Hok).
  exists l, rest, b2. rewrite Hb in Hf. split; [done|]. split; [done|]. split; [done|].
  split; [lia|]. split; [done|]. rewrite E1. steps. rewrite (bind_lift _ _ _ _ E2).
  destruct (kstrcmp_test _ _ _ _ Hp cstr_dot_lit) as (r & Er & Hr). rewrite (bind_lift _ _ _ _ Er), Hr.
  case_bool_decide; [done|]. apply cstring_spec in Hk. by rewrite (bind_lift _ _ _ _ Hk).
Qed.

Lemma runs_text_entry n : Runs (text_entry n).
Proof.
  intros s Hs. unfold text_entry, runs. rewrite bind_gets.
  assert (HL : ∀ k buf s, proto_wf s → length buf = 256%nat → (length (stdin s) < k)%nat →
    runs (loop k (entry_step n) buf) s).
  { clear s Hs. induction k as [|k IH]; intros buf s Hs Hb Hk; [lia|]. unfold runs. rewrite loop_S.
    destruct (entry_step_run n buf s Hs Hb) as [[E0 E]|(l & rest & b2 & _ & El & Hl & Hb2 & Hok & E)].
    - step E. eexists _, _. split; [done|by apply ok_after_refl].
    - case_bool_decide.
      + step E. eexists _, _. split; [done|done].
      + step E. set (s1 := set_out _ _). destruct Hok as [[Hw1 Hw2 Hw3] _].
        assert (Hs1 : ok_after s s1) by (split; [by constructor|by exists l]).
        destruct (IH b2 s1) as (a & s2 & E2 & H2); [apply Hs1|done| |].
        { simpl. rewrite El, length_app in Hk. destruct l; [done|]. simpl in Hk. lia. }
        exists a, s2. split; [done|]. by eapply ok_after_trans. }
  apply HL; [done|done|lia].
Qed.

Lemma runs_ask : Runs ask.
Proof.
  intros s Hs. unfold ask, runs. rewrite bind_get. destruct (decide (stdin s = [])) as [E|Hne].
  { rewrite E. eexists _, _. split; [done|by apply ok_after_refl]. }
  destruct (read_line_run (uninit 8) s Hs ltac:(simpl; lia) Hne)
    as (l & rest & b1 & b2 & p & E1 & E2 & _ & _ & _ & _ & Hp & Hk & Hok).
  rewrite E1. steps. rewrite (bind_lift _ _ _ _ E2), (bind_lift _ _ _ _ (cstr_ld _ _ Hp)).
  destruct (_ =? 121); [by eexists _, _|].
  destruct (trim_run b2 _ Hk) as (b3 & p3 & E3 & _ & Hp3 & _). rewrite (bind_lift _ _ _ _ E3).
  rewrite (bind_lift _ _ _ _ (cstr_ld _ _ Hp3)). by eexists _, _.
Qed.

(** Printing the lines of a buffer. *)
Lemma runs_fread_lines l rest :
  Forall (λ c, 0 ≤ c < 256) l → Runs (fread_lines (l ++ 0 :: rest)).
Proof.
  intros HF s Hs. assert (Hc : ∃ s0 r0, Forall is_char s0 ∧ l ++ 0 :: rest = s0 ++ 0 :: r0).
  { clear s Hs. induction HF as [|c l Hc HF (s0 & r0 & H0 & E)]; [by exists [], rest|].
    destruct (decide (c = 0)) as [->|]; [by exists [], (l ++ 0 :: rest)|].
    exists (c :: s0), r0. split; [constructor; [unfold is_char; lia|done]|]. simpl. by rewrite E. }
  destruct Hc as (s0 & r0 & H0 & ->). unfold fread_lines, runs.
  assert (HL : ∀ k pre t r s, proto_wf s → Forall is_char t → (length t < k)%nat →
    ∃ o, strtok is_nl (pre ++ t ++ 0 :: r) (length pre) = Some o ∧
    runs (loop k (λ '(b, save, line),
      match line with
      | None => mret (inr tt)
      | Some p =>
          printf "  ";; put_str (drop p b);; println "";;
          r' ← lift_opt (strtok is_nl b save);
          mret (inl r')
      end) o) s).
  { clear s Hs s0 r0 H0. induction k as [|k IH]; intros pre t r s Hs Ht Hk; [lia|].
    destruct (strtok_run is_nl pre t r Ht eq_refl)
      as [(p' & E & _)|(bs & w & mid & s2 & r2 & E & Hw & H2 & _ & Hmid & _ & Hlt)].
    - eexists. split; [exact E|]. unfold runs. rewrite loop_S. eexists _, _.
      split; [done|by apply ok_after_refl].
    - eexists. split; [exact E|]. unfold runs. rewrite loop_S. cbv beta iota.
      set (pre2 := pre ++ bs ++ w ++ mid) in *.
      assert (Hstr : terminated (drop (length pre + length bs) (pre2 ++ s2 ++ 0 :: r2))).
      { exists w. unfold pre2. rewrite <-!app_assoc, drop_pre, drop_app_length.
        destruct Hmid as [->|[-> ->]]; by apply cstr_app0. }
      apply runs_assoc, runs_bind_at; [by apply runs_printf|]. intros _ s1 [H1 _] _.
      apply runs_assoc, runs_bind_at; [by apply runs_str|]. intros _ s3 [H3 _] _.
      apply runs_assoc, runs_bind_at; [by apply runs_println|]. intros _ s4 [H4 _] _.
      destruct (IH pre2 s2 r2 s4 H4 H2 ltac:(lia)) as (o & Eo & Hr). apply runs_assoc.
      unfold runs. rewrite (bind_lift _ _ _ _ Eo). exact Hr. }
  destruct (HL (S (length (s0 ++ 0 :: r0))) [] s0 r0 s Hs H0) as (o & Eo & Hr).
  { rewrite length_app. lia. }
  simpl in Eo. rewrite (bind_lift _ _ _ _ Eo). exact Hr.
Qed.

Lemma runs_fread_chunks text :
  Forall (λ c, 0 ≤ c < 256) text → Runs (fread_chunks text).
Proof.
  intros HF. unfold fread_chunks. generalize (uninit FILE_BUF). intros buf s Hs.
  assert (HL : ∀ k rest buf s, proto_wf s → Forall (λ c, 0 ≤ c < 256) rest → (length rest < k)%nat →
    runs (loop k (λ '(rest, buf),
      let l := take (Z.to_nat (FILE_BUF - 1)) rest in
      if zlen l =? 0 then mret (inr tt) else
      let buf1 := l ++ 0 :: drop (S (length l)) buf in
      fread_lines buf1;;
      mret (inl (drop (Z.to_nat (FILE_BUF - 1)) rest, buf1))) (rest, buf)) s).
  { clear. intros k. induction k as [|k IH]; intros rest buf s Hs HF Hk; [lia|].
    unfold runs. rewrite loop_S. cbv beta iota zeta.
    destruct (Z.eqb_spec (zlen (take (Z.to_nat (FILE_BUF - 1)) rest)) 0) as [E|E].
    { eexists _, _. split; [done|by apply ok_after_refl]. }
    assert (Hl : Forall (λ c, 0 ≤ c < 256) (take (Z.to_nat (FILE_BUF - 1)) rest)) by by apply Forall_take.
    rewrite bind_assoc.
    destruct (runs_fread_lines _ (drop (S (length (take (Z.to_nat (FILE_BUF - 1)) rest))) buf) Hl s Hs)
      as (a & s1 & E1 & H1).
    step E1. steps.
    destruct (IH (drop (Z.to_nat (FILE_BUF - 1)) rest)
      (take (Z.to_nat (FILE_BUF - 1)) rest ++ 0 :: drop (S (length (take (Z.to_nat (FILE_BUF - 1)) rest))) buf)
      s1 (proj1 H1) (Forall_drop _ _ _ HF)) as (b & s2 & E2 & H2).
    { rewrite length_drop. destruct rest; [by rewrite take_nil in E|]. simpl in *.
      change (Z.to_nat (FILE_BUF - 1)) with 4095%nat. lia. }
    exists b, s2. split; [exact E2|by eapply ok_after_trans]. }
  apply HL; [done|done|lia].
Qed.

Lemma runs_copy_blocks n text : Runs (copy_blocks n text).
Proof.
  unfold copy_blocks. assert (HL : ∀ k rest, (length rest < k)%nat →
    Runs (loop k (λ rest,
      let l := take 4096 rest in
      if zlen l =? 0 then mret (inr tt) else
      modify (λ s, set_host (h_put n l (p_host s)) s);;
      mret (inl (drop 4096 rest))) rest)).
  { induction k as [|k IH]; intros rest Hk s Hs; [lia|]. unfold runs. rewrite loop_S. cbv zeta.
    destruct (Z.eqb_spec (zlen (take 4096 rest)) 0) as [E|E].
    { eexists _, _. split; [done|by apply ok_after_refl]. }
    rewrite bind_assoc, bind_modify. steps. set (s1 := set_host _ _).
    assert (H1 : ok_after s s1) by by apply ok_after_host.
    assert (Hd : (length (drop 4096 rest) < k)%nat).
    { rewrite length_drop. destruct rest; [by destruct E|]. simpl in *. lia. }
    destruct (IH _ Hd s1 (proj1 H1)) as (b & s2 & E2 & H2).
    exists b, s2. split; [exact E2|exact (ok_after_trans _ _ _ H1 H2)]. }
  apply HL. lia.
Qed.

Lemma runs_answer {A} (a : option bool) (c0 c1 c2 : M proto A) :
  Runs c0 → Runs c1 → Runs c2 →
  Runs (match a with None => c0 | Some false => c1 | Some true => c2 end).
Proof. by destruct a as [[]|]. Qed.

Lemma runs_fread_file n h : Runs (fread_chunks (h_text n h)).
Proof. apply runs_fread_chunks, law_text. Qed.

(** The structure of a command, then its leaves. *)
Ltac runs :=
  repeat first
    [ simple apply runs_show_cwd; intros ? | simple apply runs_bind; [|intros ?]
    | simple apply runs_if | simple apply runs_answer | simple apply runs_when
    | simple apply runs_each; intros ?
    | simple apply runs_with_name; [assumption| |intros ?]
    | simple apply runs_with_names; [assumption|assumption| |intros ? ?]
    | solve [auto 2 with runs] ].

Hint Resolve runs_get runs_gets runs_put runs_host runs_set_host runs_running runs_println
  runs_printf runs_try runs_system runs_refresh runs_err runs_text_entry runs_ask runs_copy_blocks
  runs_ret runs_fread_file : runs.

Lemma runs_help_line a b : Runs (help_line a b).
Proof. unfold help_line. runs. Qed.
Hint Resolve runs_help_line : runs.
Lemma runs_intr n : Runs (intr_init n).
Proof. unfold intr_init. runs. Qed.
Hint Resolve runs_intr : runs.

Lemma runs_help : Runs cmd_help.
Proof. unfold cmd_help. runs. Qed.
Lemma runs_clear : Runs cmd_clear.
Proof. unfold cmd_clear. runs. Qed.
Lemma runs_pwd : Runs cmd_pwd.
Proof. unfold cmd_pwd. runs. Qed.
Lemma runs_date : Runs cmd_date.
Proof. unfold cmd_date. runs. Qed.
Lemma runs_whoami : Runs cmd_whoami.
Proof. unfold cmd_whoami. runs. Qed.
Lemma runs_fwrite fn : ArgOk fn → Runs (cmd_fwrite fn).
Proof. intros Ha. unfold cmd_fwrite. runs. Qed.
Lemma runs_fread fn : ArgOk fn → Runs (cmd_fread fn).
Proof. intros Ha. unfold cmd_fread. runs. Qed.
Lemma runs_fedit fn : ArgOk fn → Runs (cmd_fedit fn).
Proof. intros Ha. unfold cmd_fedit. runs. Qed.
Lemma runs_fdel fn : ArgOk fn → Runs (cmd_fdel fn).
Proof. intros Ha. unfold cmd_fdel. runs. Qed.
Lemma runs_rename a b : ArgOk a → ArgOk b → Runs (cmd_rename a b).
Proof. intros Ha Hb. unfold cmd_rename. runs. Qed.
Lemma runs_copy a b : ArgOk a → ArgOk b → Runs (cmd_copy a b).
Proof. intros Ha Hb. unfold cmd_copy. runs. Qed.
Lemma runs_mkdir fn : ArgOk fn → Runs (cmd_mkdir fn).
Proof. intros Ha. unfold cmd_mkdir. runs. Qed.
Lemma runs_cd fn : ArgOk fn → Runs (cmd_cd fn).
Proof. intros Ha. unfold cmd_cd. runs. Qed.
Lemma runs_rmdir fn : ArgOk fn → Runs (cmd_rmdir fn).
Proof. intros Ha. unfold cmd_rmdir. runs. Qed.
Lemma runs_ls : Runs cmd_ls.
Proof. unfold cmd_ls. runs. Qed.
Lemma runs_shutdown : Runs cmd_shutdown.
Proof. unfold cmd_shutdown. runs. Qed.
Hint Resolve runs_help runs_clear runs_pwd runs_date runs_whoami runs_fwrite runs_fread runs_fedit
  runs_fdel runs_rename runs_copy runs_mkdir runs_cd runs_rmdir runs_ls runs_shutdown : runs.

Lemma runs_case cmd names yes no :
  terminated cmd → Forall (λ s, Forall is_char (chars s)) names →
  Runs yes → Runs no → Runs (cmd_case cmd names yes no).
Proof.
  intros [t Ht] HF Hy Hn. induction HF as [|x names Hx HF IH]; simpl; [done|].
  destruct (kstrcmp_test cmd t (lit x) (chars x) Ht) as (r & Er & _); [by apply cstr_lit|].
  intros s Hs. unfold runs. rewrite (bind_lift _ _ _ _ Er). destruct (r =? 0); [by apply Hy|by apply IH].
Qed.

Ltac names_ok := repeat constructor; unfold is_char; simpl; lia.

Lemma runs_run_cmd cmd a1 a2 : terminated cmd → ArgOk a1 → ArgOk a2 → Runs (run_cmd cmd a1 a2).
Proof.
  intros Hc H1 H2. unfold run_cmd.
  repeat (apply runs_case; [done|names_ok|by auto with runs|]).
  runs. by apply runs_str.
Qed.

(** ** The shell *)

(** The copy of the line that is parsed. *)
Lemma copy_line input t :
  cstr input t →
  ∃ b buf, kstrncpy (uninit CMD_LEN) input (Z.to_nat (CMD_LEN - 1)) = Some b ∧
    zset b (CMD_LEN - 1) 0 = Some buf ∧ cstr buf (take 255 t).
Proof.
  intros Ht. change (Z.to_nat (CMD_LEN - 1)) with 255%nat.
  assert (Hu : length (uninit CMD_LEN) = 256%nat) by done.
  rewrite (kstrncpy_spec _ _ _ 255 Ht) by lia. eexists. eexists. split; [done|].
  change (drop 255 (uninit CMD_LEN)) with [INDET].
  rewrite app_assoc. set (p := take 255 t ++ replicate (255 - length t) 0).
  assert (Hp : zlen p = CMD_LEN - 1).
  { unfold p, zlen. rewrite length_app, length_take, length_replicate. unfold CMD_LEN. lia. }
  rewrite <-Hp, zset_upd, upd_app_mid by (rewrite zlen_app; unfold zlen; simpl; lia).
  split; [done|]. unfold p. rewrite <-app_assoc. destruct (255 - length t)%nat as [|k]; simpl;
    by apply cstr_app0, Forall_take, Ht.
Qed.

Lemma runs_dispatch input : terminated input → Runs (shell_dispatch input).
Proof.
  intros [t Ht] s Hs. unfold shell_dispatch, runs.
  destruct (copy_line input t Ht) as (b & buf & E1 & E2 & Hb).
  rewrite (bind_lift _ _ _ _ E1), (bind_lift _ _ _ _ E2).
  destruct (proto_parse_run buf _ MAX_ARGS Hb) as (buf1 & argv & E3 & _ & HF).
  rewrite (bind_lift _ _ _ _ E3).
  assert (Hargs : Forall terminated ((λ p, drop p buf1) <$> argv)).
  { apply Forall_fmap. eapply Forall2_Forall_l; [exact HF|]. apply Forall_true. intros w p Hw. by exists w. }
  destruct ((λ p, drop p buf1) <$> argv) as [|cmd args]; [by apply runs_ret|].
  apply Forall_cons in Hargs as [Hc Ha].
  apply runs_run_cmd; try done; intros x Hx; by eapply Forall_lookup_1.
Qed.

Lemma shell_turn_run input s :
  proto_wf s → length input = 256%nat →
  ∃ r s', shell_turn input s = Ret r s' ∧ ok_after s s' ∧
    match r with
    | inl input' => length input' = 256%nat ∧ (length (stdin s') < length (stdin s))%nat
    | inr _ => True
    end.
Proof.
  intros Hs Hi. unfold shell_turn. rewrite bind_get. destruct (os_running s =? 0).
  { eexists _, _. split; [done|]. split; [by apply ok_after_refl|done]. }
  assert (Hpre : ∃ s1, ∀ (k : unit → M proto (list Z + unit)),
      (refresh_cwd;; printf "  dug@os:";; c ← gets cwd; put_str c;; printf "$ " ≫= k) s = k tt s1 ∧
      ok_after s s1).
  { destruct (runs_refresh s Hs) as ([] & s1 & E1 & H1).
    destruct (runs_printf "  dug@os:" s1 (proj1 H1)) as ([] & s2 & E2 & H2).
    destruct (runs_str (cwd s2) (pw_str _ (proj1 H2)) s2 (proj1 H2)) as ([] & s3 & E3 & H3).
    destruct (runs_printf "$ " s3 (proj1 H3)) as ([] & s4 & E4 & H4).
    exists s4. intros k. split; [|by eauto using ok_after_trans].
    step E1. step E2. rewrite bind_gets. step E3. by step E4. }
  destruct Hpre as (s1 & Hpre). specialize (Hpre (λ _, s1 ← get;
    match fgets input (stdin s1) with
    | None => mret (inr tt)
    | Some (input1, rest) =>
        modify (set_in rest);;
        '(input2, t) ← lift_opt (trim input1);
        n ← lift_opt (kstrlen (drop t input2));
        if n =? 0 then mret (inl input2) else
        shell_dispatch (drop t input2);;
        println "";;
        mret (inl input2)
    end)) as [Epre Hok]. rewrite Epre, bind_get. clear Epre.
  destruct (decide (stdin s1 = [])) as [E|Hne].
  { rewrite E. eexists _, _. split; [done|]. done. }
  destruct (read_line_run input s1 (proj1 Hok) ltac:(lia) Hne)
    as (l & rest & b1 & b2 & p & E1 & E2 & _ & El & Hl & Hlen & Hp & _ & Hr).
  rewrite E1. steps. rewrite (bind_lift _ _ _ _ E2), (bind_lift _ _ _ _ (kstrlen_cstr _ _ Hp)).
  assert (Hlt : ∀ s2, ok_after (set_in rest s1) s2 → (length (stdin s2) < length (stdin s))%nat).
  { intros s2 [_ [l2 E3]]. simpl in E3. destruct Hok as [_ [l0 E0]]. rewrite E0, El, E3, !length_app.
    destruct l; [done|]. simpl. lia. }
  destruct (_ =? 0).
  { eexists _, _. split; [done|]. split; [by eapply ok_after_trans|]. split; [lia|].
    apply Hlt, ok_after_refl, Hr. }
  destruct (runs_dispatch (drop p b2)) with (s := set_in rest s1) as (a & s3 & E3 & H3);
    [by eexists|apply Hr|].
  step E3. destruct (runs_println "" s3 (proj1 H3)) as ([] & s4 & E4 & H4). step E4.
  eexists _, _. split; [done|]. split; [by eauto using ok_after_trans|]. split; [lia|].
  apply Hlt. by eapply ok_after_trans.
Qed.

Lemma runs_shell : Runs shell_run.
Proof.
  intros s Hs. unfold shell_run, runs. rewrite bind_gets.
  assert (HL : ∀ k input s, proto_wf s → length input = 256%nat → (length (stdin s) < k)%nat →
    runs (loop k shell_turn input) s).
  { clear s Hs. induction k as [|k IH]; intros input s Hs Hi Hk; [lia|]. unfold runs. rewrite loop_S.
    destruct (shell_turn_run input s Hs Hi) as (r & s1 & E & H1 & Hr). step E.
    destruct r as [input'|[]]; [|by eexists _, _]. destruct Hr as [Hi' Hlt].
    destruct (IH input' s1 (proj1 H1) Hi') as (a & s2 & E2 & H2); [lia|].
    exists a, s2. split; [done|by eapply ok_after_trans]. }
  apply HL; [done|done|lia].
Qed.
End runs.
