(* ===== verification/PrototypeTheorems.v ===== *)
(** * The prototype's theorems *)

From S2P Require Import Prelude CString Tokens DirTable Prototype PrototypeSpec.

(** ** The boot tables *)

Section boot.
Context `{H : Host}.

Lemma table_upd_proc_run i f (s : proto) p q :
  zget (proc_table s) i = Some p → f p = Some q →
  upd_proc i f s = Ret tt (set_procs (upd (proc_table s) i q) s).
Proof.
  intros Hp Hq. unfold upd_proc. steps. rewrite (bind_lift _ _ _ _ Hp), (bind_lift _ _ _ _ Hq).
  rewrite bind_zset by by eapply zget_Some_range. done.
Qed.

Lemma table_upd_priv_run i f (s : proto) p :
  zget (priv_table s) i = Some p →
  upd_priv i f s = Ret tt (set_privs (upd (priv_table s) i (f p)) s).
Proof.
  intros Hp. unfold upd_priv. steps. rewrite (bind_lift _ _ _ _ Hp).
  rewrite bind_zset by by eapply zget_Some_range. done.
Qed.

(** A process table of the declared size. *)
Definition procs_ok (t : list proc) : Prop :=
  zlen t = NR_TASKS + NR_PROCS ∧ Forall (λ p, length (p_name p) = 16%nat) t.

(** A slot as [boot_proc_table] leaves it. *)
Definition free_slot (j : Z) (p : proc) : Prop := p_nr p = j - NR_TASKS ∧ p_rts_flags p = SLOT_FREE.

Lemma procs_cleared (s : proto) :
  procs_ok (proc_table s) →
  ∃ t, for_each (range 0 (Z.to_nat (NR_TASKS + NR_PROCS))) (λ j,
         upd_proc j (λ p, Some (Proc (j - NR_TASKS) SLOT_FREE (p_priority p) (p_quantum_size p)
                                  (p_ticks_left p) (p_name p)))) s = Ret tt (set_procs t s) ∧
    procs_ok t ∧ ∀ j p, zget t j = Some p → free_slot j p.
Proof.
  intros Hok. destruct (for_each_range (λ k s', ∃ t, s' = set_procs t s ∧ procs_ok t ∧
      ∀ j p, j < k → zget t j = Some p → free_slot j p) 0 (Z.to_nat (NR_TASKS + NR_PROCS))
      (λ j, upd_proc j (λ p, Some (Proc (j - NR_TASKS) SLOT_FREE (p_priority p) (p_quantum_size p)
                                  (p_ticks_left p) (p_name p)))) s) as (s' & E & t & -> & Ht & Hf).
  - exists (proc_table s). split; [by destruct s|]. split; [done|].
    intros j p Hj Hp%zget_Some_range. lia.
  - intros i s1 Hi (t & -> & [Hl Hn] & Hf). unfold NR_TASKS, NR_PROCS in Hi, Hl.
    destruct (zget_in t i) as (p & Hp); [lia|].
    eexists. split; [by eapply table_upd_proc_run|]. eexists. split; [done|]. simpl.
    pose proof (Forall_zget _ _ _ _ Hn Hp) as Hnp. split; [split|].
    + by rewrite zlen_upd.
    + by apply Forall_upd.
    + intros j q Hj. rewrite zget_upd by lia. destruct (Z.eqb_spec i j) as [->|]; [by intros [= <-]|].
      apply Hf. lia.
  - exists t. split; [done|]. split; [done|]. intros j p Hp. apply (Hf j p); [|done].
    apply zget_Some_range in Hp. destruct Ht as [Hl _]. unfold NR_TASKS, NR_PROCS in *. lia.
Qed.

Lemma privs_cleared (s : proto) :
  zlen (priv_table s) = NR_SYS_PROCS →
  ∃ t, for_each (range 0 (Z.to_nat NR_SYS_PROCS)) (λ i,
         upd_priv i (λ p, Priv NONE i (s_flags p))) s = Ret tt (set_privs t s) ∧
    zlen t = NR_SYS_PROCS ∧ ∀ i p, zget t i = Some p → s_proc_nr p = NONE ∧ s_id p = i.
Proof.
  intros Hok. destruct (for_each_range (λ k s', ∃ t, s' = set_privs t s ∧ zlen t = NR_SYS_PROCS ∧
      ∀ i p, i < k → zget t i = Some p → s_proc_nr p = NONE ∧ s_id p = i) 0 (Z.to_nat NR_SYS_PROCS)
      (λ i, upd_priv i (λ p, Priv NONE i (s_flags p))) s) as (s' & E & t & -> & Ht & Hf).
  - exists (priv_table s). split; [by destruct s|]. split; [done|].
    intros j p Hj Hp%zget_Some_range. lia.
  - intros i s1 Hi (t & -> & Hl & Hf). unfold NR_SYS_PROCS in Hi, Hl.
    destruct (zget_in t i) as (p & Hp); [lia|].
    eexists. split; [by eapply table_upd_priv_run|]. eexists. split; [done|]. simpl.
    split; [by rewrite zlen_upd|]. intros j q Hj. rewrite zget_upd by lia.
    destruct (Z.eqb_spec i j) as [->|]; [by intros [= <-]|]. apply Hf. lia.
  - exists t. split; [done|]. split; [done|]. intros j p Hp. apply (Hf j p); [|done].
    apply zget_Some_range in Hp. unfold NR_SYS_PROCS in *. lia.
Qed.

(** A slot as [boot_image_init] leaves it. *)
Definition loaded_slot (ip : boot_image) (p : proc) : Prop :=
  p_nr p = proc_nr ip ∧ p_rts_flags p = (if proc_nr ip =? HARDWARE then NO_MAP else 0) ∧
  p_priority p = priority ip ∧ p_quantum_size p = quantum ip ∧ p_ticks_left p = quantum ip ∧
  cstr (p_name p) (chars (proc_name ip)).

Lemma load_proc_run ip p :
  length (p_name p) = 16%nat → Forall is_char (chars (proc_name ip)) →
  (length (chars (proc_name ip)) < 16)%nat →
  ∃ q, load_proc ip p = Some q ∧ loaded_slot ip q ∧ length (p_name q) = 16%nat.
Proof.
  intros Hn Hc Hl. unfold load_proc. change (Z.to_nat P_NAME_LEN) with 16%nat.
  destruct (kstrncpy_cstr (p_name p) (lit (proc_name ip)) (chars (proc_name ip)) 16)
    as (b & -> & Hb & Hlb); [by apply cstr_lit|done|done|].
  eexists. split; [done|]. split; [|done]. done.
Qed.

(** The entries of a list of images go to consecutive slots. *)
Lemma load_images l k (s : proto) :
  procs_ok (proc_table s) → 0 ≤ k → k + zlen l ≤ NR_TASKS + NR_PROCS →
  (∀ i ip, l !! i = Some ip → NR_TASKS + proc_nr ip = k + Z.of_nat i ∧
     Forall is_char (chars (proc_name ip)) ∧ (length (chars (proc_name ip)) < 16)%nat) →
  ∃ t, for_each l (λ ip, upd_proc (NR_TASKS + proc_nr ip) (load_proc ip)) s = Ret tt (set_procs t s) ∧
    procs_ok t ∧ ∀ j, match (if k <=? j then l !! Z.to_nat (j - k) else None) with
                      | Some ip => ∃ p, zget t j = Some p ∧ loaded_slot ip p
                      | None => zget t j = zget (proc_table s) j end.
Proof.
  revert k s. induction l as [|ip l IH]; intros k s Hok Hk Hlen Hl.
  { exists (proc_table s). split; [by destruct s|]. split; [done|]. intros j. by destruct (k <=? j). }
  rewrite zlen_cons in Hlen. pose proof (zlen_nonneg l).
  destruct (Hl 0%nat ip eq_refl) as (Hnr & Hch & Hsh). rewrite Z.add_0_r in Hnr. simpl for_each.
  destruct Hok as [Htl Htn]. destruct (zget_in (proc_table s) k) as (p & Hp); [lia|].
  destruct (load_proc_run ip p) as (q & Eq & Hq & Hqn); [by apply (Forall_zget _ _ _ _ Htn Hp)|done|done|].
  rewrite Hnr. step (table_upd_proc_run k (load_proc ip) s p q Hp Eq).
  destruct (IH (k + 1) (set_procs (upd (proc_table s) k q) s)) as (t & E & Ht & Hj).
  - split; cbn [proc_table set_procs]; [by rewrite zlen_upd|by apply Forall_upd].
  - lia.
  - lia.
  - intros i ip' Hi. destruct (Hl (S i) ip' Hi) as (? & ? & ?). split; [lia|done].
  - exists t. split; [exact E|]. split; [done|]. intros j. specialize (Hj j). simpl in Hj.
    destruct (Z.leb_spec k j) as [Hkj|Hkj].
    + destruct (decide (j = k)) as [->|Hne].
      * rewrite Z.sub_diag. destruct (Z.leb_spec (k + 1) k); [lia|]. simpl. exists q.
        split; [|done]. rewrite Hj. apply zget_upd_eq. lia.
      * destruct (Z.leb_spec (k + 1) j); [|lia].
        replace (Z.to_nat (j - k)) with (S (Z.to_nat (j - (k + 1)))) by lia. simpl.
        destruct (l !! Z.to_nat (j - (k + 1))); [done|]. rewrite Hj. apply zget_upd_ne; lia.
    + destruct (Z.leb_spec (k + 1) j); [lia|]. rewrite Hj. apply zget_upd_ne; lia.
Qed.

Lemma image_ok i ip : image !! i = Some ip →
  NR_TASKS + proc_nr ip = 0 + Z.of_nat i ∧
  Forall is_char (chars (proc_name ip)) ∧ (length (chars (proc_name ip)) < 16)%nat.
Proof.
  do 8 (destruct i as [|i]; [intros [= <-]; split; [done|]; split;
    [repeat constructor; unfold is_char; simpl; lia|simpl; lia]|]). done.
Qed.

(** The tables after the three boot functions. *)
Definition booted_tables (procs : list proc) (privs : list priv) : Prop :=
  zlen procs = NR_TASKS + NR_PROCS ∧ zlen privs = NR_SYS_PROCS ∧
  (∀ j ip, image !! j = Some ip → ∃ p, zget procs (Z.of_nat j) = Some p ∧ loaded_slot ip p) ∧
  (∀ j p, NR_BOOT_PROCS ≤ j → zget procs j = Some p → free_slot j p) ∧
  (∀ i p, zget privs i = Some p → s_proc_nr p = NONE ∧ s_id p = i).

Lemma boot_tables_run (s : proto) :
  procs_ok (proc_table s) → zlen (priv_table s) = NR_SYS_PROCS →
  ∃ s', (boot_proc_table;; boot_priv_table;; boot_image_init) s = Ret tt s' ∧
    booted_tables (proc_table s') (priv_table s') ∧ stdin s' = stdin s ∧ cwd s' = cwd s.
Proof.
  intros Hp Hv. unfold boot_proc_table, boot_priv_table, boot_image_init.
  destruct (procs_cleared s Hp) as (t1 & E1 & Ht1 & Hf1).
  rewrite bind_assoc. step E1. rewrite !bind_assoc. unfold printf, println, put.
  rewrite bind_modify, !bind_assoc, bind_modify, bind_modify.
  set (s1 := set_out _ _).
  destruct (privs_cleared s1 Hv) as (t2 & E2 & Hl2 & Hf2).
  rewrite bind_assoc. step E2. rewrite !bind_assoc. rewrite bind_modify, !bind_assoc, bind_modify, bind_modify.
  set (s2 := set_out _ _).
  destruct (load_images image 0 s2) as (t3 & E3 & [Hl3 _] & Hj); [done|lia|done|apply image_ok|].
  step E3. rewrite bind_modify, bind_modify. eexists. split; [reflexivity|]. simpl.
  split; [|done]. split; [done|]. split; [done|]. split; [|split; [|done]].
  - intros j ip Hip. specialize (Hj (Z.of_nat j)). destruct (Z.leb_spec 0 (Z.of_nat j)); [|lia].
    rewrite Z.sub_0_r, Nat2Z.id, Hip in Hj. done.
  - intros j p Hjb Hpj. specialize (Hj j). unfold NR_BOOT_PROCS in Hjb. destruct (Z.leb_spec 0 j); [|lia].
    rewrite lookup_ge_None_2 in Hj by (simpl length; lia). rewrite Hj in Hpj. by apply Hf1.
Qed.
End boot.

(** ** The whole program *)

Section program.
Context `{H : Host, L : !HostLaws H}.

Lemma main_run (s : proto) :
  procs_ok (proc_table s) → zlen (priv_table s) = NR_SYS_PROCS → proto_wf s →
  ∃ s', main s = Ret tt s'.
Proof.
  intros Hp Hv Hs. unfold main.
  assert (Hpre : ∀ (k : unit → M proto unit),
    ∃ s1, ((system CLEAR_CMD;; println "";; println "  Booting DugOS v1.0 ...";; println "";;
            intr_init 1 ≫= k) s = k tt s1) ∧
      proc_table s1 = proc_table s ∧ priv_table s1 = priv_table s ∧ stdin s1 = stdin s ∧ cwd s1 = cwd s).
  { intros k. unfold system. rewrite bind_assoc, bind_get. destruct (h_system _ _) as [o h].
    rewrite bind_assoc, bind_modify. eexists. split; [reflexivity|done]. }
  destruct (Hpre (λ _, boot_proc_table;; boot_priv_table;; boot_image_init;; announce;;
    println "";; println "  Boot complete.";; welcome_screen;; shell_run)) as (s1 & E & P1 & V1 & I1 & C1).
  rewrite E. clear E Hpre.
  destruct (boot_tables_run s1) as (s2 & E2 & _ & I2 & C2); [congruence..|].
  assert (Hs2 : proto_wf s2) by (destruct Hs; constructor; congruence).
  assert (Hk : Runs (announce;; println "";; println "  Boot complete.";; welcome_screen;; shell_run)).
  { unfold announce, welcome_screen. repeat (apply runs_bind; [|intros _]).
    all: first [apply runs_println|apply runs_printf|apply runs_system|apply runs_put|apply runs_shell]. }
  destruct (Hk s2 Hs2) as ([] & s3 & E3 & _). exists s3.
  assert (Hseq : ∀ k : unit → M proto unit,
    (boot_proc_table;; boot_priv_table;; boot_image_init ≫= k) s1 =
    ((boot_proc_table;; boot_priv_table;; boot_image_init) ≫= k) s1).
  { intros k. rewrite bind_assoc. unfold mbind, M_bind. destruct (boot_proc_table s1) as [a sa|sa|sa|sa|sa]; [|done..].
    by destruct (boot_priv_table sa). }
  etransitivity; [apply (Hseq (λ _, announce;; println "";; println "  Boot complete.";;
    welcome_screen;; shell_run))|]. by step E2.
Qed.

(** ** What fwrite stores *)

(** The text that the lines of an input add to a file, and what is left. *)
Fixpoint entered (fuel : nat) (inp : list Z) : list Z * list Z :=
  match fuel with
  | O => ([], inp)
  | S fuel' =>
      if bool_decide (inp = []) then ([], []) else
      let '(l, rest) := fgets_chars 255 inp in
      if bool_decide (strip_line l = [46]) then ([], rest)
      else let '(t, r) := entered fuel' rest in (kept l ++ t, r)
  end.

Lemma kept_chars l : Forall is_char l → Forall is_char (kept l).
Proof.
  intros HF. destruct (trim_run (l ++ [0]) l) as (b & p & _ & _ & _ & [? _]); [|done].
  by apply cstr_app0.
Qed.

Lemma text_entry_loop n k buf s :
  proto_wf s → length buf = 256%nat → (length (stdin s) < k)%nat →
  ∃ s', loop k (entry_step n) buf s = Ret tt s' ∧ proto_wf s' ∧
    h_text n (p_host s') = h_text n (p_host s) ++ (entered k (stdin s)).1 ∧
    stdin s' = (entered k (stdin s)).2.
Proof.
  revert buf s. induction k as [|k IH]; intros buf s Hs Hb Hk; [lia|]. rewrite loop_S. cbn [entered].
  destruct (entry_step_run n buf s Hs Hb) as [[E0 E]|(l & rest & b2 & Hf & El & Hl & Hb2 & [Hw _] & E)].
  - step E. rewrite bool_decide_true by done. eexists. split; [done|]. rewrite app_nil_r. done.
  - rewrite bool_decide_false by (rewrite El; by destruct l). rewrite <-Hf.
    case_bool_decide.
    + step E. eexists. split; [done|]. simpl. by rewrite app_nil_r.
    + step E. destruct (IH b2 (set_out (stdout s ++ chars "  > ")
        (set_host (h_put n (kept l) (p_host s)) (set_in rest s)))) as (s' & E' & Hw' & Ht & Hi);
        [by destruct Hw; constructor|done| |].
      { simpl. rewrite El, length_app in Hk. destruct l; [done|]. simpl in Hk. lia. }
      exists s'. split; [exact E'|]. split; [done|]. simpl in Ht, Hi.
      rewrite law_put in Ht by (apply kept_chars; pose proof (pw_in _ Hs) as HI; rewrite El in HI;
        by apply Forall_app in HI as [? _]).
      destruct (entered k rest) as [t r]. simpl in *. by rewrite Ht, app_assoc.
Qed.

Lemma cmd_fwrite_run nb n h s :
  proto_wf s → cstr nb n → n ≠ [] → h_creat n (p_host s) = Some h →
  ∃ s', cmd_fwrite (Some nb) s = Ret tt s' ∧
    h_text n (p_host s') = (entered (S (length (stdin s))) (stdin s)).1 ∧
    stdin s' = (entered (S (length (stdin s))) (stdin s)).2.
Proof.
  intros Hs Hn Hne Hc. unfold cmd_fwrite, with_name. apply cstring_spec in Hn.
  rewrite (bind_lift _ _ _ _ Hn). destruct (Z.eqb_spec (zlen n) 0) as [E|_].
  { destruct n; [done|]. rewrite zlen_cons in E. pose proof (zlen_nonneg n). lia. }
  unfold try_host. rewrite bind_assoc, bind_get, Hc, bind_assoc, bind_modify, bind_mret. cbn [negb].
  unfold println, printf, put, text_entry. rewrite !bind_modify, bind_assoc, bind_gets.
  set (s1 := set_out _ _). assert (Hs1 : proto_wf s1) by (destruct Hs; by constructor).
  destruct (text_entry_loop n (S (length (stdin s1))) (uninit 256) s1 Hs1 eq_refl (le_n _))
    as (s2 & E2 & _ & Ht & Hi).
  step E2. rewrite !bind_modify. eexists. split; [reflexivity|]. simpl. rewrite Ht, Hi. simpl.
  by rewrite (law_creat _ _ _ Hc).
Qed.

(** A line without white space. *)
Definition plain (a : list Z) : Prop :=
  a ≠ [] ∧ a ≠ [46] ∧ (length a < 255)%nat ∧ Forall is_char a ∧ Forall (λ c, is_space c = false) a.

Lemma fgets_line a n rest :
  Forall (λ c, is_space c = false) a → (length a < n)%nat → fgets_chars n (a ++ 10 :: rest) = (a ++ [10], rest).
Proof.
  intros HF. revert n. induction HF as [|c a Hc HF IH]; intros [|n] Hn; simpl in *; try lia; [done|].
  destruct (Z.eqb_spec c 10) as [->|]; [done|]. by rewrite IH by lia.
Qed.

Lemma rstrip_plain a : Forall (λ c, is_space c = false) a → rstrip a = a.
Proof. induction 1 as [|c a Hc HF IH]; [done|]. simpl. by rewrite Hc, IH. Qed.

Lemma strip_plain a : a ≠ [] → Forall (λ c, is_space c = false) a →
  strip_line (a ++ [10]) = a ∧ kept (a ++ [10]) = a.
Proof.
  intros Hne HF. destruct HF as [|c a Hc HF]; [done|]. unfold kept, strip_line.
  assert (is_pad c = false) as Hp.
  { unfold is_space in Hc. by destruct (is_pad c). }
  simpl. rewrite Hp. unfold keep_first. rewrite rstrip_snoc. change (is_space 10) with true.
  rewrite rstrip_plain by done. done.
Qed.

Lemma entered_plain k a rest :
  plain a → entered (S k) (a ++ 10 :: rest) = (a ++ (entered k rest).1, (entered k rest).2).
Proof.
  intros (Hne & Hdot & Hl & _ & HF). cbn [entered]. rewrite bool_decide_false by by destruct a.
  rewrite fgets_line by done. destruct (strip_plain a Hne HF) as [-> ->].
  rewrite bool_decide_false by done. by destruct (entered k rest).
Qed.

Lemma entered_dot k rest : entered (S k) (46 :: 10 :: rest) = ([], rest).
Proof. reflexivity. Qed.
End program.

(** ** Statements *)

(** The program as the C runtime starts it, on the small host. *)
Definition started (inp : list Z) : proto (H := tiny_host) :=
  Proto (replicate 68 (Proc 0 0 0 0 0 (replicate 16 0))) (replicate 32 (Priv 0 0 0)) 0 1
    (replicate 512 0) [] inp ∅.

Lemma started_procs inp : procs_ok (proc_table (started inp)).
Proof. split; [reflexivity|]. by apply Forall_replicate. Qed.

Lemma started_wf inp : Forall is_char inp → proto_wf (started inp).
Proof.
  intros HF. constructor; [reflexivity| |done]. exists []. split; [constructor|]. by exists (replicate 511 0).
Qed.



(** The boot functions give every entry of the boot image its own slot of
    the process table, with number, priority, quantum and name, leave every
    other slot free and numbered, and number the privilege table. *)
Theorem prototype_boot_tables `{H : Host} (s : proto)
  (Hp : procs_ok (proc_table s)) (Hv : zlen (priv_table s) = NR_SYS_PROCS) :
  ∃ s', (boot_proc_table;; boot_priv_table;; boot_image_init) s = Ret tt s' ∧
    booted_tables (proc_table s') (priv_table s').
Proof. destruct (boot_tables_run s Hp Hv) as (s' & E & Ht & _). by exists s'. Qed.

Lemma prototype_boot_tables_witness :
  ∃ s', (boot_proc_table;; boot_priv_table;; boot_image_init) (started []) = Ret tt s' ∧
    booted_tables (proc_table s') (priv_table s').
Proof. apply (prototype_boot_tables (H := tiny_host)); [apply started_procs|reflexivity]. Defined.

(** The prototype's arguments are the first eight words of the line. *)
Theorem prototype_parse_words buf s (Hs : cstr buf s) :
  ∃ buf' argv, parse_cmd buf MAX_ARGS = Some (buf', argv) ∧ length buf' = length buf ∧
    Forall2 (λ p w, cstr (drop p buf') w) argv (take MAX_ARGS (fields cmd_delim s)).
Proof. by apply proto_parse_run. Qed.

Lemma prototype_parse_words_witness :
  ∃ buf' argv, parse_cmd (lit "cd  x") MAX_ARGS = Some (buf', argv) ∧ length buf' = length (lit "cd  x") ∧
    Forall2 (λ p w, cstr (drop p buf') w) argv (take MAX_ARGS (fields cmd_delim (chars "cd  x"))).
Proof. apply prototype_parse_words, cstr_lit. repeat constructor; unfold is_char; simpl; lia. Defined.

(** Fwrite of two ordinary lines stores them run together: trimming a
    line cuts its newline off in the very buffer that is then written. *)
Theorem prototype_fwrite_joins_lines `{H : Host, L : !HostLaws H} nb n h (s : proto) a b rest
  (Hs : proto_wf s) (Hn : cstr nb n) (Hne : n ≠ []) (Hc : h_creat n (p_host s) = Some h)
  (Ha : plain a) (Hb : plain b) (Hin : stdin s = a ++ 10 :: b ++ 10 :: 46 :: 10 :: rest) :
  ∃ s', cmd_fwrite (Some nb) s = Ret tt s' ∧ h_text n (p_host s') = a ++ b ∧ stdin s' = rest.
Proof.
  destruct (cmd_fwrite_run nb n h s Hs Hn Hne Hc) as (s' & E & Ht & Hi). exists s'.
  assert (∃ k, length (stdin s) = S (S k)) as [k Hk].
  { rewrite Hin, length_app. simpl. rewrite length_app. simpl.
    exists (length a + length b + length rest + 2)%nat. lia. }
  rewrite Hk, Hin, entered_plain, entered_plain, entered_dot in Ht, Hi by done. simpl in *.
  rewrite app_nil_r in Ht. done.
Qed.

Lemma prototype_fwrite_joins_lines_witness :
  ∃ s', cmd_fwrite (Some [97; 0]) (started [104; 105; 10; 121; 111; 10; 46; 10]) = Ret tt s' ∧
    h_text [97] (p_host s') = [104; 105] ++ [121; 111] ∧ stdin s' = [].
Proof.
  apply (prototype_fwrite_joins_lines (H := tiny_host) _ _ (<[[97] := []]> ∅)).
  - apply started_wf. repeat constructor; unfold is_char; lia.
  - split; [repeat constructor; lia|by exists []].
  - discriminate.
  - reflexivity.
  - unfold plain. split_and!; try discriminate; [simpl; lia|repeat constructor; unfold is_char; lia|by repeat constructor].
  - unfold plain. split_and!; try discriminate; [simpl; lia|repeat constructor; unfold is_char; lia|by repeat constructor].
  - reflexivity.
Defined.
