(* ===== verification/Linked.v ===== *)
(** * Linked lists in a table

    The reference system keeps its lists by links between the entries of a
    static table: holes of memory, ready processes, processes waiting to send.
    A pointer is [None] (nil) or the index of an entry; [nx i] is the link of
    entry [i], [None] when there is no such entry. *)

From S2P Require Import Prelude.

Definition links := Z → option (option Z).

(** [lseg nx p l q]: from [p] the links go through the entries [l] to [q]. *)
Fixpoint lseg (nx : links) (p : option Z) (l : list Z) (q : option Z) : Prop :=
  match l with
  | [] => p = q
  | i :: l' => p = Some i ∧ ∃ r, nx i = Some r ∧ lseg nx r l' q
  end.

Definition linked (nx : links) (p : option Z) (l : list Z) : Prop := lseg nx p l None.

Section linked.
Implicit Types (nx : links) (p q r : option Z) (l k : list Z).

Lemma lseg_ext nx nx' p l q :
  (∀ i, i ∈ l → nx' i = nx i) → lseg nx p l q → lseg nx' p l q.
Proof.
  revert p. induction l as [|i l IH]; intros p Hext; [done|].
  intros [-> (r & Hr & Hl)]. split; [done|]. exists r.
  rewrite Hext by set_solver. split; [done|]. apply IH; [|done]. set_solver.
Qed.

Lemma lseg_app nx p l k q :
  lseg nx p (l ++ k) q ↔ ∃ r, lseg nx p l r ∧ lseg nx r k q.
Proof.
  revert p. induction l as [|i l IH]; intros p; simpl; [naive_solver|].
  setoid_rewrite IH. naive_solver.
Qed.

Lemma lseg_snoc nx p l i q :
  lseg nx p (l ++ [i]) q ↔ lseg nx p l (Some i) ∧ nx i = Some q.
Proof. rewrite lseg_app. simpl. naive_solver. Qed.

(** Entries in the order of the table. *)
Lemma lseg_range nx lo n :
  (∀ i, lo ≤ i < lo + Z.of_nat n → nx i = Some (Some (i + 1))) →
  lseg nx (Some lo) (range lo n) (Some (lo + Z.of_nat n)).
Proof.
  revert lo. induction n as [|n IH]; intros lo Hn.
  - simpl. f_equal. lia.
  - rewrite range_S. split; [done|]. exists (Some (lo + 1)). split; [apply Hn; lia|].
    replace (lo + Z.of_nat (S n)) with (lo + 1 + Z.of_nat n) by lia.
    apply IH. intros. apply Hn. lia.
Qed.

Lemma linked_app nx p l k :
  linked nx p (l ++ k) ↔ ∃ r, lseg nx p l r ∧ linked nx r k.
Proof. apply lseg_app. Qed.

Lemma linked_nil nx p : linked nx p [] ↔ p = None.
Proof. done. Qed.

Lemma linked_cons nx p i l :
  linked nx p (i :: l) ↔ p = Some i ∧ ∃ r, nx i = Some r ∧ linked nx r l.
Proof. done. Qed.

Lemma linked_ext nx nx' p l :
  (∀ i, i ∈ l → nx' i = nx i) → linked nx p l → linked nx' p l.
Proof. apply lseg_ext. Qed.

Lemma linked_None nx l : linked nx None l → l = [].
Proof. destruct l; [done|]. by intros [? _]. Qed.

Lemma linked_Some nx i l :
  linked nx (Some i) l → ∃ r l', l = i :: l' ∧ nx i = Some r ∧ linked nx r l'.
Proof. destruct l as [|j l]; [done|]. intros [[= ->] (r & ? & ?)]. by exists r, l. Qed.

Lemma linked_head nx p l : linked nx p l → p = head l.
Proof. destruct l; [done|]. by intros [-> _]. Qed.

(** Links lead to one list only, *)
Lemma linked_det nx p l k : linked nx p l → linked nx p k → l = k.
Proof.
  revert p k. induction l as [|i l IH]; intros p k.
  - intros ->. by intros ->%linked_None.
  - intros [-> (r & Hr & Hl)] (r' & k' & -> & Hr' & Hk)%linked_Some.
    simplify_eq. f_equal. by eapply IH.
Qed.

(** and a list that ends has no entry twice. *)
Lemma linked_NoDup nx p l : linked nx p l → NoDup l.
Proof.
  revert p. induction l as [|i l IH]; intros p; [constructor|].
  intros H. pose proof H as [-> (r & Hr & Hl)]. constructor; [|by eapply IH].
  intros (l1 & l2 & El)%list_elem_of_split. subst l.
  apply linked_app in Hl as (r' & _ & Hl2). pose proof (linked_head _ _ _ Hl2) as ->.
  pose proof (linked_det _ _ _ _ H Hl2) as E.
  apply (f_equal length) in E. simpl in E. rewrite length_app in E. simpl in E. lia.
Qed.

Lemma lseg_defined nx p l q i : lseg nx p l q → i ∈ l → is_Some (nx i).
Proof.
  revert p. induction l as [|j l IH]; intros p; [set_solver|].
  intros [-> (r & Hr & Hl)] [->|Hi]%elem_of_cons; [by exists r|by eapply IH].
Qed.

Lemma linked_length nx p l (n : Z) :
  (∀ i, is_Some (nx i) → 0 ≤ i < n) → linked nx p l → zlen l ≤ Z.max 0 n.
Proof.
  intros Hn Hl. unfold zlen.
  assert (l ⊆+ seqZ 0 n) as Hs%submseteq_length.
  { apply NoDup_submseteq; [by eapply linked_NoDup|].
    intros i Hi. apply elem_of_seqZ. rewrite Z.add_0_l. apply Hn.
    by eapply lseg_defined. }
  rewrite length_seqZ in Hs. lia.
Qed.

(** The link before [i] in a list: the head pointer or the link of the entry
    that precedes it. Redirecting it to the successor of [i] takes [i] out. *)
Lemma lseg_last nx p l i q : lseg nx p (l ++ [i]) q → nx i = Some q.
Proof. by intros [_ ?]%lseg_snoc. Qed.

(** Redirecting the last link of a segment. *)
Lemma lseg_redirect nx nx' p l i q q' :
  lseg nx p (l ++ [i]) q → i ∉ l → nx' i = Some q' → (∀ j, j ∈ l → nx' j = nx j) →
  lseg nx' p (l ++ [i]) q'.
Proof.
  intros [Hl _]%lseg_snoc Hi Hq Hext. apply lseg_snoc. split; [|done].
  by eapply lseg_ext.
Qed.

End linked.
