(* ===== verification/Holes.v ===== *)
(** * The memory holes of the reference system's process manager

    [reference/minix/servers/pm/alloc.c]: physical memory that is not in use is
    kept as a list of holes, linked through a static table of 128 entries and
    sorted by address; entries not in use are linked in a second list. Sizes
    and addresses are in clicks, 32-bit unsigned integers. A panic of the
    process manager stops the system ([Off]). *)

From S2P Require Import Prelude Linked.

Definition NR_HOLES : Z := 2 * 64.
Definition NR_MEMS : Z := 8.
Definition NO_MEM : Z := 0.
Definition swap_base : Z := 0xffffffff.

Record hole : Type := Hole { h_next : option Z; h_base : Z; h_len : Z }.

Record pm_holes : Type := PmHoles {
  hole_tab : list hole;
  hole_head : option Z;
  free_slots : option Z }.

Definition set_tab (t : list hole) (s : pm_holes) : pm_holes :=
  PmHoles t (hole_head s) (free_slots s).
Definition set_head (p : option Z) (s : pm_holes) : pm_holes :=
  PmHoles (hole_tab s) p (free_slots s).
Definition set_free (p : option Z) (s : pm_holes) : pm_holes :=
  PmHoles (hole_tab s) (hole_head s) p.

(** [*p] and [*p = f( *p)]; the nil pointer and pointers out of the table fault. *)
Definition rd_hole (p : option Z) : M pm_holes hole :=
  i ← lift_opt p; s ← get; lift_opt (zget (hole_tab s) i).
Definition upd_hole (p : option Z) (f : hole → hole) : M pm_holes unit :=
  i ← lift_opt p;
  s ← get;
  h ← lift_opt (zget (hole_tab s) i);
  t ← lift_opt (zset (hole_tab s) i (f h));
  modify (set_tab t).

Definition set_next (q : option Z) (h : hole) : hole := Hole q (h_base h) (h_len h).
Definition set_extent (b n : Z) (h : hole) : hole := Hole (h_next h) b n.

Definition del_slot (prev_ptr hp : option Z) : M pm_holes unit :=
  s ← get;
  h ← rd_hole hp;
  (if decide (hp = hole_head s) then modify (set_head (h_next h))
   else upd_hole prev_ptr (set_next (h_next h)));;
  fr ← gets free_slots;
  upd_hole hp (set_next fr);;
  modify (set_free hp).

(** One test of two neighbours: returns the entry from which to go on. *)
Definition absorb (hp next_ptr : option Z) : M pm_holes (option Z) :=
  h ← rd_hole hp;
  x ← rd_hole next_ptr;
  if u32 (h_base h + h_len h) =? h_base x then
    upd_hole hp (set_extent (h_base h) (u32 (h_len h + h_len x)));;
    del_slot hp next_ptr;;
    mret hp
  else mret next_ptr.

Definition merge (hp : option Z) : M pm_holes unit :=
  h ← rd_hole hp;
  if decide (h_next h = None) then mret tt else
  hp' ← absorb hp (h_next h);
  h' ← rd_hole hp';
  if decide (h_next h' = None) then mret tt else
  _ ← absorb hp' (h_next h');
  mret tt.

Definition alloc_step (clicks : Z)
    : option Z * option Z → M pm_holes (option Z * option Z + Z) :=
  λ '(prev_ptr, hp),
    if decide (hp = None) then mret (inr NO_MEM) else
    h ← rd_hole hp;
    if negb (h_base h <? swap_base) then mret (inr NO_MEM) else
    if clicks <=? h_len h then
      upd_hole hp (set_extent (u32 (h_base h + clicks)) (u32 (h_len h - clicks)));;
      h' ← rd_hole hp;
      when (h_len h' =? 0) (del_slot prev_ptr hp);;
      mret (inr (h_base h))
    else mret (inl (hp, h_next h)).

Definition hole_fuel : nat := S (Z.to_nat NR_HOLES).

Definition alloc_mem (clicks : Z) : M pm_holes Z :=
  hp ← gets hole_head;
  loop hole_fuel (alloc_step clicks) (None, hp).

Definition place_step (base : Z)
    : option Z * option Z → M pm_holes (option Z * option Z + option Z) :=
  λ '(prev_ptr, hp),
    if decide (hp = None) then mret (inr prev_ptr) else
    h ← rd_hole hp;
    if h_base h <? base then mret (inl (hp, h_next h)) else mret (inr prev_ptr).

Definition free_mem (base clicks : Z) : M pm_holes unit :=
  if clicks =? 0 then mret tt else
  new_ptr ← gets free_slots;
  if decide (new_ptr = None) then halt else
  upd_hole new_ptr (set_extent base clicks);;
  n ← rd_hole new_ptr;
  modify (set_free (h_next n));;
  hp ← gets hole_head;
  front ← (if decide (hp = None) then mret true
           else (h ← rd_hole hp; mret (base <=? h_base h)));
  if (front : bool) then
    upd_hole new_ptr (set_next hp);;
    modify (set_head new_ptr);;
    merge new_ptr
  else
    prev_ptr ← loop hole_fuel (place_step base) (None, hp);
    p ← rd_hole prev_ptr;
    upd_hole new_ptr (set_next (h_next p));;
    upd_hole prev_ptr (set_next new_ptr);;
    merge prev_ptr.

(** The chunks are an array of [NR_MEMS] pairs of base and size; the result is
    the total size, [*free]. *)
Definition init_chunk (chunks : list (Z * Z)) (total : Z) (i : Z) : M pm_holes Z :=
  c ← lift_opt (zget chunks i);
  if 0 <? c.2 then free_mem c.1 c.2;; mret (u32 (total + c.2)) else mret total.

Fixpoint init_chunks (chunks : list (Z * Z)) (total : Z) (idx : list Z) : M pm_holes Z :=
  match idx with
  | [] => mret total
  | i :: idx' => t ← init_chunk chunks total i; init_chunks chunks t idx'
  end.

(** Every entry goes on the free list. *)
Definition init_table : M pm_holes unit :=
  for_each (range 0 (Z.to_nat NR_HOLES)) (λ i, upd_hole (Some i) (set_next (Some (i + 1))));;
  upd_hole (Some (NR_HOLES - 1)) (set_next None);;
  modify (set_head None);;
  modify (set_free (Some 0)).

Definition mem_init (chunks : list (Z * Z)) : M pm_holes Z :=
  init_table;;
  init_chunks chunks 0 (reverse (range 0 (Z.to_nat NR_MEMS))).

(** ** The holes as a list *)

(** The holes of a well-kept list: nonempty, below the end of memory, in
    increasing order with a gap between any two, the first not below [lo]. *)
Fixpoint gapped (lo : Z) (hs : list (Z * Z)) : Prop :=
  match hs with
  | [] => True
  | (b, n) :: hs' => lo ≤ b ∧ 0 < n ∧ b + n ≤ swap_base ∧ gapped (b + n + 1) hs'
  end.

(** Click [x] is in a hole. *)
Definition avail (hs : list (Z * Z)) (x : Z) : Prop :=
  ∃ b n, (b, n) ∈ hs ∧ b ≤ x < b + n.

Fixpoint first_fit (c : Z) (hs : list (Z * Z)) : option (Z * list (Z * Z)) :=
  match hs with
  | [] => None
  | (b, n) :: hs' =>
      if c <=? n then Some (b, if n - c =? 0 then hs' else (b + c, n - c) :: hs')
      else '(r, hs'') ← first_fit c hs'; Some (r, (b, n) :: hs'')
  end.

Definition glue (hs : list (Z * Z)) : list (Z * Z) :=
  match hs with
  | (b, n) :: (b', n') :: hs' =>
      if b + n =? b' then (b, n + n') :: hs' else hs
  | _ => hs
  end.

(** The two tests of [merge]. *)
Definition coalesce (hs : list (Z * Z)) : list (Z * Z) :=
  match hs with
  | (b, n) :: (b', n') :: hs' =>
      if b + n =? b' then glue ((b, n + n') :: hs') else (b, n) :: glue ((b', n') :: hs')
  | _ => hs
  end.

Fixpoint release (b n : Z) (hs : list (Z * Z)) : list (Z * Z) :=
  match hs with
  | [] => [(b, n)]
  | x :: hs' =>
      if b <=? x.1 then coalesce ((b, n) :: hs)
      else if forallb (λ y, b <=? y.1) (take 1 hs') then coalesce (x :: (b, n) :: hs')
      else x :: release b n hs'
  end.

(** The block [[b, b + n)] and the holes have no click in common. *)
Definition apart (b n : Z) (hs : list (Z * Z)) : Prop :=
  ∀ x, b ≤ x < b + n → ¬ avail hs x.
