(* ===== verification/HolesSpec.v ===== *)
(** * The hole list keeps track of the free memory

    First the arithmetic of lists of holes, then the linked table that holds
    such a list, and what each operation does to it. *)

From S2P Require Import Prelude Linked Holes.

(** ** Lists of holes *)

Lemma avail_nil x : avail [] x ↔ False.
Proof. unfold avail. set_solver. Qed.

Lemma avail_cons b n hs x : avail ((b, n) :: hs) x ↔ b ≤ x < b + n ∨ avail hs x.
Proof.
  unfold avail. setoid_rewrite elem_of_cons. split; [|naive_solver].
  intros (b' & n' & [[= -> ->]|?] & ?); naive_solver.
Qed.

Lemma avail_app hs hs' x : avail (hs ++ hs') x ↔ avail hs x ∨ avail hs' x.
Proof. unfold avail. setoid_rewrite elem_of_app. naive_solver. Qed.

Lemma gapped_mono lo lo' hs : lo' ≤ lo → gapped lo hs → gapped lo' hs.
Proof. destruct hs as [|[b n] hs]; simpl; [done|]. intuition lia. Qed.

Lemma gapped_avail lo hs x : gapped lo hs → avail hs x → lo ≤ x < swap_base.
Proof.
  revert lo. induction hs as [|[b n] hs IH]; intros lo; [by rewrite avail_nil|].
  simpl. rewrite avail_cons. intros (? & ? & ? & Hg) [?|Ha]; [lia|].
  specialize (IH _ Hg Ha). lia.
Qed.

(** Where the holes are determines the list. *)
Lemma gapped_ext lo hs hs' :
  gapped lo hs → gapped lo hs' → (∀ x, avail hs x ↔ avail hs' x) → hs = hs'.
Proof.
  revert lo hs'. induction hs as [|[b n] hs IH]; intros lo [|[b' n'] hs'] Hg Hg' He.
  - done.
  - destruct Hg' as (? & ? & _). specialize (He b'). rewrite avail_nil, avail_cons in He.
    destruct He as [_ []]. lia.
  - destruct Hg as (? & ? & _). specialize (He b). rewrite avail_nil, avail_cons in He.
    destruct He as [[] _]. lia.
  - destruct Hg as (? & ? & ? & Hg), Hg' as (? & ? & ? & Hg').
    setoid_rewrite avail_cons in He.
    assert (b = b') as <-.
    { destruct (proj1 (He b) ltac:(lia)) as [?|Hx%(gapped_avail _ _ _ Hg')],
        (proj2 (He b') ltac:(lia)) as [?|Hy%(gapped_avail _ _ _ Hg)]; lia. }
    assert (n = n') as <-.
    { assert (∀ hs, gapped (b + n + 1) hs → ¬ avail hs (b + n)) as Hn
        by (intros k Hk Hx%(gapped_avail _ _ _ Hk); lia).
      assert (∀ hs, gapped (b + n' + 1) hs → ¬ avail hs (b + n')) as Hn'
        by (intros k Hk Hx%(gapped_avail _ _ _ Hk); lia).
      destruct (Z.lt_trichotomy n n') as [Hlt|[->|Hlt]]; [|done|].
      - destruct (proj2 (He (b + n)) ltac:(lia)) as [?|Ha]; [lia|]. by destruct (Hn _ Hg).
      - destruct (proj1 (He (b + n')) ltac:(lia)) as [?|Ha]; [lia|]. by destruct (Hn' _ Hg'). }
    f_equal. eapply IH; [done..|]. intros x. specialize (He x). split; intros Ha.
    + pose proof (gapped_avail _ _ _ Hg Ha). destruct (proj1 He (or_intror Ha)); [lia|done].
    + pose proof (gapped_avail _ _ _ Hg' Ha). destruct (proj2 He (or_intror Ha)); [lia|done].
Qed.

(** First fit takes a free block off the list: *)
Lemma first_fit_gapped c lo hs b hs' :
  0 ≤ c → gapped lo hs → first_fit c hs = Some (b, hs') → gapped lo hs'.
Proof.
  intros Hc. revert lo hs'. induction hs as [|[b0 n0] hs IH]; intros lo hs'; [done|].
  simpl. intros (? & ? & ? & Hg). destruct (Z.leb_spec c n0).
  - intros [= <- <-]. destruct (Z.eqb_spec (n0 - c) 0); [|simpl].
    + eapply gapped_mono; [|done]. lia.
    + split_and!; try lia. eapply gapped_mono; [|done]. lia.
  - intros ([b1 hs1] & E & [= <- <-])%bind_Some. simpl. split_and!; try lia. by eapply IH.
Qed.

Lemma first_fit_avail c lo hs b hs' :
  0 ≤ c → gapped lo hs → first_fit c hs = Some (b, hs') →
  (∀ x, b ≤ x < b + c → avail hs x) ∧
  (∀ x, avail hs' x ↔ avail hs x ∧ ¬ (b ≤ x < b + c)).
Proof.
  intros Hc. revert lo hs'. induction hs as [|[b0 n0] hs IH]; intros lo hs'; [done|].
  simpl. intros (? & ? & ? & Hg). destruct (Z.leb_spec c n0).
  - intros [= <- <-]. setoid_rewrite avail_cons. split; [intros; lia|]. intros x.
    destruct (Z.eqb_spec (n0 - c) 0); rewrite ?avail_cons; split; intros Hx.
    + pose proof (gapped_avail _ _ _ Hg Hx). split; [tauto|lia].
    + destruct Hx as [[?|?] ?]; [lia|done].
    + destruct Hx as [?|Hx]; [lia|]. pose proof (gapped_avail _ _ _ Hg Hx). split; [tauto|lia].
    + destruct Hx as [[?|?] ?]; [lia|tauto].
  - intros ([b1 hs1] & E & [= <- <-])%bind_Some.
    destruct (IH _ _ Hg E) as [Hin Hout]. setoid_rewrite avail_cons. split; [naive_solver|].
    intros x. rewrite Hout. split; [|tauto].
    intros [?|?]; [|tauto]. split; [tauto|]. intros Hx.
    pose proof (gapped_avail _ _ _ Hg (Hin b1 ltac:(lia))). lia.
Qed.

(** it fails exactly when no hole has the size. *)
Lemma first_fit_None c hs : first_fit c hs = None ↔ Forall (λ h, h.2 < c) hs.
Proof.
  induction hs as [|[b n] hs IH]; simpl; [by split; [constructor|]|].
  rewrite Forall_cons. simpl. destruct (Z.leb_spec c n); [split; [done|lia]|].
  rewrite <- IH. destruct (first_fit c hs) as [[??]|]; simpl; naive_solver lia.
Qed.

Lemma first_fit_length c hs b hs' :
  first_fit c hs = Some (b, hs') → (length hs' ≤ length hs)%nat.
Proof.
  revert hs'. induction hs as [|[b0 n0] hs IH]; intros hs'; [done|]. cbn [first_fit].
  destruct (c <=? n0).
  - intros [= _ <-]. destruct (n0 - c =? 0); simpl; lia.
  - intros ([b1 hs1] & E & [= <- <-])%bind_Some. apply IH in E. simpl. lia.
Qed.

Lemma glue_spec lo b n hs :
  lo ≤ b → 0 < n → b + n ≤ swap_base → gapped (b + n) hs →
  gapped lo (glue ((b, n) :: hs)) ∧
  ∀ x, avail (glue ((b, n) :: hs)) x ↔ avail ((b, n) :: hs) x.
Proof.
  intros Hlo Hn Hb Hg. destruct hs as [|[b' n'] hs]; [done|].
  destruct Hg as (? & ? & ? & Hg). simpl. destruct (Z.eqb_spec (b + n) b') as [<-|].
  - split; [simpl; split_and!; try lia; eapply gapped_mono; [|done]; lia|].
    intros x. rewrite !avail_cons. intuition lia.
  - split; [simpl; split_and!; try lia; done|done].
Qed.

Lemma coalesce_pair lo b n b' n' hs :
  lo ≤ b → 0 < n → b + n ≤ b' → 0 < n' → b' + n' ≤ swap_base → gapped (b' + n') hs →
  gapped lo (coalesce ((b, n) :: (b', n') :: hs)) ∧
  ∀ x, avail (coalesce ((b, n) :: (b', n') :: hs)) x ↔ avail ((b, n) :: (b', n') :: hs) x.
Proof.
  intros. unfold coalesce. destruct (Z.eqb_spec (b + n) b') as [<-|].
  - edestruct (glue_spec lo b (n + n') hs) as [? Ha]; [lia..| |].
    { eapply gapped_mono; [|done]. lia. }
    split; [done|]. intros x. rewrite Ha, !avail_cons. intuition lia.
  - edestruct (glue_spec (b + n + 1) b' n' hs) as [? Ha]; [lia..|done|].
    split; [simpl; split_and!; try lia; done|]. intros x. by rewrite avail_cons, Ha, <- avail_cons.
Qed.

Lemma coalesce_spec lo b n hs :
  lo ≤ b → 0 < n → b + n ≤ swap_base → gapped (b + n) hs →
  gapped lo (coalesce ((b, n) :: hs)) ∧
  ∀ x, avail (coalesce ((b, n) :: hs)) x ↔ avail ((b, n) :: hs) x.
Proof.
  intros ? ? ? Hg. destruct hs as [|[b' n'] hs]; [done|]. destruct Hg as (? & ? & ? & ?).
  apply coalesce_pair; try lia. eapply gapped_mono; [|done]. lia.
Qed.

Lemma apart_cons b n b' n' hs :
  0 < n → 0 < n' → apart b n ((b', n') :: hs) → (b + n ≤ b' ∨ b' + n' ≤ b) ∧ apart b n hs.
Proof.
  unfold apart. setoid_rewrite avail_cons. intros ? ? H. split; [|naive_solver].
  destruct (decide (b ≤ b' < b + n)) as [Hx|Hx]; [exfalso; apply (H b'); lia|].
  destruct (decide (b' ≤ b < b' + n')) as [Hy|Hy]; [exfalso; apply (H b); lia|]. lia.
Qed.

(** Giving a block back makes its clicks free and keeps the list in order. *)
Lemma release_spec lo b n hs :
  gapped lo hs → lo ≤ b → 0 < n → b + n ≤ swap_base → apart b n hs →
  gapped lo (release b n hs) ∧
  ∀ x, avail (release b n hs) x ↔ b ≤ x < b + n ∨ avail hs x.
Proof.
  intros Hg Hlo Hn Hb. revert lo Hg Hlo.
  induction hs as [|[b0 n0] hs IH]; intros lo Hg Hlo Hap.
  { split; [done|]. intros x. cbn [release]. by rewrite avail_cons. }
  destruct Hg as (? & ? & ? & Hg). apply apart_cons in Hap as [Hd Hap]; [|lia..].
  setoid_rewrite (avail_cons b0). cbn [release fst].
  destruct (Z.leb_spec b b0).
  { destruct (coalesce_spec lo b n ((b0, n0) :: hs)) as [? Ha]; [lia..| |].
    - simpl. split_and!; try lia. done.
    - split; [done|]. intros x. by rewrite Ha, !avail_cons. }
  destruct (forallb _ _) eqn:Ef.
  - destruct (coalesce_pair lo b0 n0 b n hs) as [? Ha]; [lia..| |].
    + destruct hs as [|[b1 n1] hs]; [done|]. simpl in Ef. rewrite andb_true_r in Ef. bools.
      destruct Hg as (? & ? & ? & ?). apply apart_cons in Hap as [? _]; [|lia..].
      simpl. split_and!; try lia. done.
    + split; [done|]. intros x. rewrite Ha, !avail_cons. tauto.
  - destruct (IH (b0 + n0 + 1)) as [? Ha]; [done| |done|].
    + destruct hs as [|[b1 n1] hs]; [done|]. simpl in Ef. rewrite andb_true_r in Ef. bools.
      destruct Hg as (? & ? & ? & ?). lia.
    + split; [simpl; split_and!; try lia; done|]. intros x. rewrite avail_cons, Ha. tauto.
Qed.

(** ** The table that holds a list of holes *)

Definition hnx (t : list hole) : links := λ i, h_next <$> zget t i.
Definition hval (t : list hole) (i : Z) : option (Z * Z) :=
  (λ h, (h_base h, h_len h)) <$> zget t i.

Lemma hnx_upd t i h j :
  0 ≤ i < zlen t → hnx (upd t i h) j = if i =? j then Some (h_next h) else hnx t j.
Proof. intros. unfold hnx. rewrite zget_upd by done. by destruct (i =? j). Qed.

Lemma hval_upd t i h j :
  0 ≤ i < zlen t → hval (upd t i h) j = if i =? j then Some (h_base h, h_len h) else hval t j.
Proof. intros. unfold hval. rewrite zget_upd by done. by destruct (i =? j). Qed.

Lemma hnx_inv t i p : hnx t i = Some p → ∃ h, zget t i = Some h ∧ h_next h = p.
Proof. unfold hnx. intros (h & ? & ->)%fmap_Some. eauto. Qed.

Lemma hval_inv t i b n :
  hval t i = Some (b, n) → ∃ h, zget t i = Some h ∧ h_base h = b ∧ h_len h = n.
Proof. unfold hval. intros (h & ? & [= -> ->])%fmap_Some. eauto. Qed.

Lemma hval_range t i x : hval t i = Some x → 0 ≤ i < zlen t.
Proof. unfold hval. intros (h & Hz & _)%fmap_Some. by eapply zget_Some_range. Qed.

(** Changing an entry leaves the lists it is not in. *)
Lemma linked_frame t i h p l q :
  0 ≤ i < zlen t → i ∉ l → lseg (hnx t) p l q → lseg (hnx (upd t i h)) p l q.
Proof.
  intros Hr Hi. apply lseg_ext. intros j Hj. rewrite hnx_upd by done.
  destruct (Z.eqb_spec i j) as [<-|]; [by destruct Hi|done].
Qed.

Definition vals (t : list hole) (l : list Z) (hs : list (Z * Z)) : Prop :=
  Forall2 (λ i x, hval t i = Some x) l hs.

Lemma vals_ext t t' l hs :
  (∀ j, j ∈ l → hval t' j = hval t j) → vals t l hs → vals t' l hs.
Proof.
  intros Hext Hv. revert Hext. induction Hv as [|j x l hs Hj Hv IH]; intros Hext; constructor.
  - rewrite Hext by set_solver. done.
  - apply IH. set_solver.
Qed.

Lemma vals_frame t i h l hs :
  0 ≤ i < zlen t → i ∉ l → vals t l hs → vals (upd t i h) l hs.
Proof.
  intros Hr Hi. apply vals_ext. intros j Hj. rewrite hval_upd by done.
  destruct (Z.eqb_spec i j) as [<-|]; [by destruct Hi|done].
Qed.

(** Changing only the link of an entry leaves the holes. *)
Lemma vals_next t i h q l hs :
  zget t i = Some h → vals t l hs → vals (upd t i (set_next q h)) l hs.
Proof.
  intros Hz. apply vals_ext. intros j Hj.
  rewrite hval_upd by (by eapply zget_Some_range).
  destruct (Z.eqb_spec i j) as [<-|]; [|done]. unfold hval. by rewrite Hz.
Qed.

(** The entries [ls] hold the holes [hs]; the entries [fs] are free. *)
Record hshape (s : pm_holes) (ls fs : list Z) (hs : list (Z * Z)) : Prop := HShape {
  sh_used : linked (hnx (hole_tab s)) (hole_head s) ls;
  sh_free : linked (hnx (hole_tab s)) (free_slots s) fs;
  sh_disj : ls ## fs;
  sh_vals : vals (hole_tab s) ls hs }.

Lemma rd_hole_run i h s : zget (hole_tab s) i = Some h → rd_hole (Some i) s = Ret h s.
Proof.
  intros E. unfold rd_hole. rewrite (bind_lift (Some i) i) by done. by apply lift_opt_some.
Qed.

Lemma upd_hole_run i h f s :
  zget (hole_tab s) i = Some h →
  upd_hole (Some i) f s = Ret tt (set_tab (upd (hole_tab s) i (f h)) s).
Proof.
  intros E. unfold upd_hole. rewrite (bind_lift (Some i) i) by done. rewrite bind_get.
  rewrite (bind_lift _ _ _ _ E). by rewrite bind_zset by (by eapply zget_Some_range).
Qed.

Section shape.
Context (s : pm_holes) (l1 l2 fs : list Z) (i : Z) (hs1 hs2 : list (Z * Z)) (b n : Z).
Context (Hlen : length l1 = length hs1).
Context (H : hshape s (l1 ++ i :: l2) fs (hs1 ++ (b, n) :: hs2)).

Lemma hshape_entry : zget (hole_tab s) i = Some (Hole (head l2) b n).
Proof using Hlen H.
  destruct H as [Hu _ _ Hv]. apply linked_app in Hu as (r & _ & Hu).
  apply linked_cons in Hu as (-> & q & Hq & Hl2).
  apply linked_head in Hl2 as ->. apply hnx_inv in Hq as (h & Hz & Hn).
  apply Forall2_app_inv in Hv as [_ Hv]; [|done]. inversion Hv as [|? ? ? ? Hi]; subst.
  unfold hval in Hi. rewrite Hz in *. destruct h; naive_solver.
Qed.

Lemma hshape_rd : rd_hole (Some i) s = Ret (Hole (head l2) b n) s.
Proof using Hlen H. by apply rd_hole_run, hshape_entry. Qed.

Lemma hshape_fresh : (i ∉ l1) ∧ (i ∉ l2) ∧ (i ∉ fs) ∧ NoDup (l1 ++ l2).
Proof using Hlen H.
  destruct H as [Hu%linked_NoDup _ Hd _]. rewrite NoDup_app in Hu.
  destruct Hu as (? & Hx & [? ?]%NoDup_cons). split_and!; [set_solver..|].
  apply NoDup_app. set_solver.
Qed.

(** Changing the extent of a hole. *)
Lemma hshape_extent b' n' :
  ∃ s', upd_hole (Some i) (set_extent b' n') s = Ret tt s' ∧
    hshape s' (l1 ++ i :: l2) fs (hs1 ++ (b', n') :: hs2) ∧
    zlen (hole_tab s') = zlen (hole_tab s).
Proof using Hlen H.
  pose proof hshape_entry as He. pose proof (zget_Some_range _ _ _ He) as Hr.
  eexists. split; [by apply upd_hole_run|]. split; [|apply zlen_upd].
  destruct hshape_fresh as (? & ? & ? & _). destruct H as [Hu Hf Hd Hv].
  split; cbn [set_tab hole_tab hole_head free_slots]; [|by apply linked_frame|done|].
  - eapply linked_ext; [|exact Hu]. intros j _. rewrite hnx_upd by done.
    destruct (Z.eqb_spec i j) as [<-|]; [|done]. unfold hnx. by rewrite He.
  - apply Forall2_app_inv in Hv as [Hv1 Hv2]; [|done]. inversion Hv2; subst.
    apply Forall2_app; [by apply vals_frame|]. constructor; [|by apply vals_frame].
    by rewrite hval_upd, Z.eqb_refl.
Qed.

Lemma vals_drop : vals (hole_tab s) (l1 ++ l2) (hs1 ++ hs2).
Proof using Hlen H.
  destruct H as [_ _ _ [Hv1 Hv2]%Forall2_app_inv]; [|done]. inversion Hv2; subst.
  by apply Forall2_app.
Qed.

(** Unlinking a hole: its entry goes to the front of the free ones. *)
Lemma del_slot_run :
  ∃ s', del_slot (last l1) (Some i) s = Ret tt s' ∧
    hshape s' (l1 ++ l2) (i :: fs) (hs1 ++ hs2) ∧
    zlen (hole_tab s') = zlen (hole_tab s).
Proof using Hlen H.
  pose proof hshape_entry as He. pose proof (zget_Some_range _ _ _ He) as Hr.
  pose proof vals_drop as Hvd. destruct hshape_fresh as (Hi1 & Hi2 & Hif & Hnd).
  pose proof H as [Hu Hf Hd _]. unfold del_slot. steps. step hshape_rd.
  destruct l1 as [|p k _] using rev_ind.
  - rewrite decide_True by (by apply linked_head in Hu). steps.
    rewrite (bind_ret _ _ _ _ _ (upd_hole_run i _ _ (set_head (head l2) s) He)).
    eexists. split; [done|]. split; [|apply zlen_upd].
    split; cbn [set_free set_tab set_head hole_tab hole_head free_slots].
    + apply linked_cons in Hu as (_ & r & Hr' & Hl2).
      rewrite <- (linked_head _ _ _ Hl2). by apply linked_frame.
    + split; [done|]. exists (free_slots s). rewrite hnx_upd, Z.eqb_refl by done.
      split; [done|]. by apply linked_frame.
    + set_solver.
    + by apply vals_next.
  - rewrite decide_False.
    2:{ intros E. apply linked_head in Hu. rewrite <- E in Hu. destruct k; set_solver. }
    rewrite last_snoc.
    pose proof Hu as Hu'. rewrite <- app_assoc in Hu'. apply linked_app in Hu' as (q & Hk & Hp).
    apply linked_cons in Hp as (-> & r & Hpn & Hil2).
    apply hnx_inv in Hpn as (hp & Hpz & Hpr). pose proof (zget_Some_range _ _ _ Hpz) as Hpr'.
    rewrite (bind_ret _ _ _ _ _ (upd_hole_run p _ _ s Hpz)). steps.
    set (t1 := upd (hole_tab s) p _).
    assert (p ≠ i) as Hpi by set_solver.
    assert (zget t1 i = Some (Hole (head l2) b n)) as He1.
    { unfold t1. rewrite zget_upd_ne by (lia || done). done. }
    rewrite (bind_ret _ _ _ _ _ (upd_hole_run i _ _ (set_tab t1 s) He1)).
    assert (0 ≤ i < zlen t1) as Hr1 by (unfold t1; by rewrite zlen_upd).
    eexists. split; [done|]. split; [|cbn; unfold t1; by rewrite !zlen_upd].
    split; cbn [set_free set_tab set_head hole_tab hole_head free_slots].
    + apply linked_app in Hu as (q' & Hk' & [-> (r' & Hr' & Hl2)]).
      apply linked_app. exists (head l2). split.
      * apply linked_frame; [done|done|]. eapply lseg_redirect; [exact Hk'| | |].
        -- apply NoDup_app in Hnd as (Hnd & _ & _). apply NoDup_app in Hnd. set_solver.
        -- unfold t1. by rewrite hnx_upd, Z.eqb_refl.
        -- intros j Hj. unfold t1. rewrite hnx_upd by done.
           destruct (Z.eqb_spec p j) as [<-|]; [|done].
           apply NoDup_app in Hnd as (Hnd & _ & _). apply NoDup_app in Hnd. set_solver.
      * rewrite <- (linked_head _ _ _ Hl2). apply linked_frame; [done|done|].
        unfold t1. apply linked_frame; [done| |done].
        apply NoDup_app in Hnd as (_ & Hnd & _). set_solver.
    + split; [done|]. exists (free_slots s). rewrite hnx_upd, Z.eqb_refl by done.
      split; [done|]. apply linked_frame; [done|done|]. unfold t1.
      apply linked_frame; [done|set_solver|done].
    + set_solver.
    + apply vals_next; [done|]. by apply vals_next.
Qed.
End shape.

(** Holes in increasing order that do not overlap; neighbours may touch. *)
Fixpoint ordered (lo : Z) (hs : list (Z * Z)) : Prop :=
  match hs with
  | [] => True
  | (b, n) :: hs' => lo ≤ b ∧ 0 < n ∧ b + n ≤ swap_base ∧ ordered (b + n) hs'
  end.

Lemma gapped_ordered lo hs : gapped lo hs → ordered lo hs.
Proof.
  revert lo. induction hs as [|[b n] hs IH]; intros lo; [done|]. simpl.
  intros (? & ? & ? & Hg). split_and!; try lia. apply IH. eapply gapped_mono; [|done]. lia.
Qed.

Lemma u32_small x : 0 ≤ x ≤ swap_base → u32 x = x.
Proof. intros. unfold u32. apply Z.mod_small. unfold swap_base in *. lia. Qed.

Section merging.
Context (l1 : list Z) (hs1 : list (Z * Z)) (Hlen : length l1 = length hs1).

Lemma absorb_run s i j l2 fs b n b' n' hs2 :
  hshape s (l1 ++ i :: j :: l2) fs (hs1 ++ (b, n) :: (b', n') :: hs2) →
  0 ≤ b → 0 < n → b + n ≤ b' → 0 < n' → b' + n' ≤ swap_base →
  if b + n =? b' then
    ∃ s', absorb (Some i) (Some j) s = Ret (Some i) s' ∧
      hshape s' (l1 ++ i :: l2) (j :: fs) (hs1 ++ (b, n + n') :: hs2) ∧
      zlen (hole_tab s') = zlen (hole_tab s)
  else absorb (Some i) (Some j) s = Ret (Some j) s.
Proof using Hlen.
  intros H Hb Hn Hbb Hn' Hbn'. unfold absorb.
  assert (length (l1 ++ [i]) = length (hs1 ++ [(b, n)])) as Hlen1 by (rewrite !length_app; simpl; lia).
  assert (hshape s ((l1 ++ [i]) ++ j :: l2) fs ((hs1 ++ [(b, n)]) ++ (b', n') :: hs2)) as Hj
    by (by rewrite <- !app_assoc).
  rewrite (bind_ret _ _ _ _ _ (hshape_rd _ _ _ _ _ _ _ _ _ Hlen H)).
  rewrite (bind_ret _ _ _ _ _ (hshape_rd _ _ _ _ _ _ _ _ _ Hlen1 Hj)).
  cbn [h_base h_len]. rewrite !u32_small by lia.
  destruct (Z.eqb_spec (b + n) b') as [<-|]; [|done].
  destruct (hshape_extent _ _ _ _ _ _ _ _ _ Hlen H b (n + n')) as (s1 & E1 & Hs1 & Hz1).
  step E1.
  assert (length (l1 ++ [i]) = length (hs1 ++ [(b, n + n')])) as Hlen2 by (rewrite !length_app; simpl; lia).
  destruct (del_slot_run s1 (l1 ++ [i]) l2 fs j (hs1 ++ [(b, n + n')]) hs2 (b + n) n')
    as (s2 & E2 & Hs2 & Hz2); [done|by rewrite <- !app_assoc|].
  rewrite last_snoc in E2. step E2. exists s2. split; [done|].
  rewrite <- !app_assoc in Hs2. split; [done|congruence].
Qed.

(** The second test of [merge]. *)
Lemma merge_tail s i l2 fs b n hs2 :
  hshape s (l1 ++ i :: l2) fs (hs1 ++ (b, n) :: hs2) → ordered 0 ((b, n) :: hs2) →
  ∃ s' l2' fs',
    (h' ← rd_hole (Some i);
     if decide (h_next h' = None) then mret tt else
     _ ← absorb (Some i) (h_next h'); mret tt) s = Ret tt s' ∧
    hshape s' (l1 ++ l2') fs' (hs1 ++ glue ((b, n) :: hs2)) ∧
    zlen (hole_tab s') = zlen (hole_tab s) ∧
    (length l2' + length fs' = S (length l2) + length fs)%nat.
Proof using Hlen.
  intros H (? & ? & ? & Ho).
  rewrite (bind_ret _ _ _ _ _ (hshape_rd _ _ _ _ _ _ _ _ _ Hlen H)). cbn [h_next].
  pose proof (Forall2_length _ _ _ (sh_vals _ _ _ _ H)) as Hl.
  rewrite !length_app in Hl. simpl in Hl.
  destruct l2 as [|j l3], hs2 as [|[b' n'] hs3]; simpl in Hl; try lia.
  { by exists s, [i], fs. }
  destruct Ho as (? & ? & ? & _). simpl head. rewrite decide_False by done.
  pose proof (absorb_run _ _ _ _ _ _ _ _ _ _ H) as Ha. simpl glue.
  destruct (Z.eqb_spec (b + n) b').
  - destruct Ha as (s1 & E1 & Hs1 & Hz1); [lia..|]. step E1.
    exists s1, (i :: l3), (j :: fs). split; [done|]. split_and!; [done|done|simpl; lia].
  - step (Ha ltac:(lia) ltac:(lia) ltac:(lia) ltac:(lia) ltac:(lia)).
    by exists s, (i :: j :: l3), fs.
Qed.
End merging.

Lemma merge_run l1 hs1 s i l2 fs hs2 :
  length l1 = length hs1 →
  hshape s (l1 ++ i :: l2) fs (hs1 ++ hs2) → ordered 0 hs2 →
  ∃ s' l2' fs', merge (Some i) s = Ret tt s' ∧
    hshape s' (l1 ++ l2') fs' (hs1 ++ coalesce hs2) ∧
    zlen (hole_tab s') = zlen (hole_tab s) ∧
    (length l2' + length fs' = S (length l2) + length fs)%nat.
Proof.
  intros Hlen H Ho.
  pose proof (Forall2_length _ _ _ (sh_vals _ _ _ _ H)) as Hl.
  rewrite !length_app in Hl. simpl in Hl.
  destruct hs2 as [|[b n] hs2]; [simpl in Hl; lia|]. destruct Ho as (? & ? & ? & Ho).
  unfold merge. rewrite (bind_ret _ _ _ _ _ (hshape_rd _ _ _ _ _ _ _ _ _ Hlen H)). cbn [h_next].
  destruct l2 as [|j l3], hs2 as [|[b' n'] hs3]; simpl in Hl; try lia.
  { by exists s, [i], fs. }
  destruct Ho as (? & ? & ? & Ho). simpl head. rewrite decide_False by done.
  pose proof (absorb_run _ _ Hlen _ _ _ _ _ _ _ _ _ _ H) as Ha. unfold coalesce.
  destruct (Z.eqb_spec (b + n) b') as [<-|].
  - destruct Ha as (s1 & E1 & Hs1 & Hz1); [lia..|]. step E1.
    destruct (merge_tail _ _ Hlen _ _ _ _ _ _ _ Hs1) as (s2 & l2' & fs' & E2 & Hs2 & Hz2 & Hc2).
    { simpl. split_and!; try lia. by rewrite Z.add_assoc. }
    exists s2, l2', fs'. rewrite E2. simpl in *. split_and!; [done|done|congruence|lia].
  - step (Ha ltac:(lia) ltac:(lia) ltac:(lia) ltac:(lia) ltac:(lia)).
    destruct (merge_tail (l1 ++ [i]) (hs1 ++ [(b, n)]) ltac:(rewrite !length_app; simpl; lia)
      s j l3 fs b' n' hs3) as (s2 & l2' & fs' & E2 & Hs2 & Hz2 & Hc2).
    { by rewrite <- !app_assoc. }
    { simpl. split_and!; try lia. done. }
    exists s2, (i :: l2'), fs'. rewrite E2. rewrite <- !app_assoc in Hs2.
    simpl in *. split_and!; [done|done|congruence|lia].
Qed.

(** ** The operations *)

(** The state of the hole table: every entry is in one of the two lists. *)
Definition holes_rep (s : pm_holes) (hs : list (Z * Z)) : Prop :=
  gapped 0 hs ∧ zlen (hole_tab s) = NR_HOLES ∧
  ∃ ls fs, hshape s ls fs hs ∧ zlen ls + zlen fs = NR_HOLES.

Section allocating.
Context (c : Z) (s : pm_holes) (l1 l2 fs : list Z) (i : Z) (hs1 hs2 : list (Z * Z)) (b n : Z).
Context (Hc : 0 ≤ c) (Hlen : length l1 = length hs1).
Context (H : hshape s (l1 ++ i :: l2) fs (hs1 ++ (b, n) :: hs2)).
Context (Hb : 0 ≤ b) (Hn : 0 < n) (Hbn : b + n ≤ swap_base).

Lemma alloc_skip p : n < c → alloc_step c (p, Some i) s = Ret (inl (Some i, head l2)) s.
Proof using Hlen H Hb Hn Hbn.
  intros. unfold alloc_step. rewrite decide_False by done.
  rewrite (bind_ret _ _ _ _ _ (hshape_rd _ _ _ _ _ _ _ _ _ Hlen H)). cbn [h_base h_len h_next].
  destruct (Z.ltb_spec b swap_base); [|lia]. destruct (Z.leb_spec c n); [lia|done].
Qed.

Lemma alloc_take :
  c ≤ n → ∃ s' l2' fs', alloc_step c (last l1, Some i) s = Ret (inr b) s' ∧
    hshape s' (l1 ++ l2') fs' (hs1 ++ if n - c =? 0 then hs2 else (b + c, n - c) :: hs2) ∧
    zlen (hole_tab s') = zlen (hole_tab s) ∧
    (length l2' + length fs' = S (length l2) + length fs)%nat.
Proof using Hc Hlen H Hb Hn Hbn.
  intros. unfold alloc_step. rewrite decide_False by done.
  rewrite (bind_ret _ _ _ _ _ (hshape_rd _ _ _ _ _ _ _ _ _ Hlen H)). cbn [h_base h_len h_next].
  destruct (Z.ltb_spec b swap_base); [|lia]. destruct (Z.leb_spec c n); [|lia].
  rewrite !u32_small by lia. cbn [negb].
  destruct (hshape_extent _ _ _ _ _ _ _ _ _ Hlen H (b + c) (n - c)) as (s1 & E1 & Hs1 & Hz1).
  step E1. rewrite (bind_ret _ _ _ _ _ (hshape_rd _ _ _ _ _ _ _ _ _ Hlen Hs1)). cbn [h_len].
  destruct (Z.eqb_spec (n - c) 0); unfold when.
  - destruct (del_slot_run _ _ _ _ _ _ _ _ _ Hlen Hs1) as (s2 & E2 & Hs2 & Hz2).
    step E2. exists s2, l2, (i :: fs). split_and!; [done|done|congruence|simpl; lia].
  - steps. by exists s1, (i :: l2), fs.
Qed.
End allocating.

Lemma alloc_loop c s l1 l2 fs hs1 hs2 lo fuel :
  length l1 = length hs1 → hshape s (l1 ++ l2) fs (hs1 ++ hs2) →
  0 ≤ lo → gapped lo hs2 → 0 ≤ c → (length l2 < fuel)%nat →
  match first_fit c hs2 with
  | Some (b, hs') =>
      ∃ s' l2' fs', loop fuel (alloc_step c) (last l1, head l2) s = Ret b s' ∧
        hshape s' (l1 ++ l2') fs' (hs1 ++ hs') ∧
        zlen (hole_tab s') = zlen (hole_tab s) ∧
        (length l2' + length fs' = length l2 + length fs)%nat
  | None => loop fuel (alloc_step c) (last l1, head l2) s = Ret NO_MEM s
  end.
Proof.
  revert l1 l2 hs1 lo fuel. induction hs2 as [|[b n] hs2 IH];
    intros l1 l2 hs1 lo fuel Hlen H Hlo Hg Hc Hf;
    (destruct fuel as [|fuel]; [lia|]); rewrite loop_S;
    pose proof (Forall2_length _ _ _ (sh_vals _ _ _ _ H)) as Hl; rewrite !length_app in Hl;
    destruct l2 as [|i l2]; simpl in Hl; try lia; [done|].
  destruct Hg as (? & ? & ? & Hg). cbn [head first_fit].
  destruct (Z.leb_spec c n) as [Hcn|Hcn].
  - destruct (alloc_take c _ _ _ _ _ _ _ _ _ Hc Hlen H ltac:(lia) ltac:(lia) ltac:(lia) Hcn)
      as (s' & l2' & fs' & E & Hs' & Hz' & Hl').
    step E. by exists s', l2', fs'.
  - rewrite (bind_ret _ _ _ _ _ (alloc_skip c _ _ _ _ _ _ _ _ _ Hlen H ltac:(lia) ltac:(lia) ltac:(lia) _ Hcn)).
    specialize (IH (l1 ++ [i]) l2 (hs1 ++ [(b, n)]) (b + n + 1) fuel).
    rewrite <- !app_assoc, last_snoc in IH.
    specialize (IH ltac:(rewrite !length_app; simpl; lia) H ltac:(lia) Hg Hc ltac:(simpl in Hf; lia)).
    destruct (first_fit c hs2) as [[r hs']|]; [|done]. simpl.
    destruct IH as (s' & l2' & fs' & E & Hs' & Hz' & Hl').
    exists s', (i :: l2'), fs'. rewrite <- !app_assoc in Hs'.
    split_and!; [done|done|done|simpl; lia].
Qed.

Lemma hole_fuel_enough s ls fs hs :
  hshape s ls fs hs → zlen ls + zlen fs = NR_HOLES → (length ls < hole_fuel)%nat.
Proof. unfold zlen, hole_fuel, NR_HOLES. lia. Qed.

Lemma alloc_mem_run c s hs :
  holes_rep s hs → 0 ≤ c →
  match first_fit c hs with
  | Some (b, hs') => ∃ s', alloc_mem c s = Ret b s' ∧ holes_rep s' hs'
  | None => alloc_mem c s = Ret NO_MEM s
  end.
Proof.
  intros (Hg & Hz & ls & fs & H & Hn) Hc. unfold alloc_mem. steps.
  rewrite (linked_head _ _ _ (sh_used _ _ _ _ H)).
  pose proof (alloc_loop c s [] ls fs [] hs 0 hole_fuel) as Ha. simpl in Ha.
  specialize (Ha eq_refl H ltac:(lia) Hg Hc ltac:(by eapply hole_fuel_enough)).
  destruct (first_fit c hs) as [[b hs']|] eqn:E; [|done].
  destruct Ha as (s' & ls' & fs' & E' & Hs' & Hz' & Hl').
  exists s'. split; [done|]. split; [by eapply first_fit_gapped|]. split; [congruence|].
  exists ls', fs'. split; [done|]. unfold zlen in *. lia.
Qed.

(** Taking an entry off the free list. *)
Lemma take_slot_run s ls i fs hs b n :
  hshape s ls (i :: fs) hs →
  ∃ s', upd_hole (Some i) (set_extent b n) s = Ret tt s' ∧
    zget (hole_tab s') i = Some (Hole (head fs) b n) ∧
    hshape (set_free (head fs) s') ls fs hs ∧
    (i ∉ ls) ∧ (i ∉ fs) ∧ zlen (hole_tab s') = zlen (hole_tab s).
Proof.
  intros [Hu Hf Hd Hv]. pose proof (linked_NoDup _ _ _ Hf) as [Hi _]%NoDup_cons.
  apply linked_cons in Hf as (Hfr & q & Hq & Hf). apply hnx_inv in Hq as (h & Hz & Hq).
  pose proof (linked_head _ _ _ Hf) as Hhd. pose proof (zget_Some_range _ _ _ Hz) as Hr.
  eexists. split; [by apply upd_hole_run|]. cbn [set_tab set_free hole_tab].
  split. { rewrite zget_upd_eq by done. unfold set_extent. by rewrite Hq, Hhd. }
  split_and!; [|set_solver|done|apply zlen_upd].
  split; cbn [set_tab set_free hole_tab hole_head free_slots].
  - apply linked_frame; [done|set_solver|done].
  - rewrite <- Hhd. by apply linked_frame.
  - set_solver.
  - apply vals_frame; [done|set_solver|done].
Qed.

Section linking.
Context (s : pm_holes) (i : Z) (fs : list Z) (b n : Z) (q : option Z).
Context (Hz : zget (hole_tab s) i = Some (Hole q b n)) (Hif : i ∉ fs).

Lemma link_front_run ls hs :
  hshape s ls fs hs → i ∉ ls →
  ∃ s', (upd_hole (Some i) (set_next (hole_head s));; modify (set_head (Some i))) s = Ret tt s' ∧
    hshape s' (i :: ls) fs ((b, n) :: hs) ∧ zlen (hole_tab s') = zlen (hole_tab s).
Proof using Hz Hif.
  intros [Hu Hf Hd Hv] Hi. pose proof (zget_Some_range _ _ _ Hz) as Hr.
  eexists. split; [by rewrite (bind_ret _ _ _ _ _ (upd_hole_run i _ _ s Hz))|].
  split; [|apply zlen_upd]. split; cbn [set_tab set_head hole_tab hole_head free_slots].
  - split; [done|]. exists (hole_head s). rewrite hnx_upd, Z.eqb_refl by done.
    split; [done|]. by apply linked_frame.
  - by apply linked_frame.
  - set_solver.
  - constructor; [by rewrite hval_upd, Z.eqb_refl|by apply vals_frame].
Qed.

Lemma link_after_run l1 p l2 hs1 x hs2 :
  length l1 = length hs1 →
  hshape s (l1 ++ p :: l2) fs (hs1 ++ x :: hs2) → (i ∉ l1 ++ p :: l2) →
  ∃ s', (upd_hole (Some i) (set_next (head l2));; upd_hole (Some p) (set_next (Some i))) s = Ret tt s' ∧
    hshape s' (l1 ++ p :: i :: l2) fs (hs1 ++ x :: (b, n) :: hs2) ∧
    zlen (hole_tab s') = zlen (hole_tab s).
Proof using Hz Hif.
  intros Hlen H Hi. pose proof (zget_Some_range _ _ _ Hz) as Hr.
  destruct x as [bx nx]. pose proof (hshape_entry _ _ _ _ _ _ _ _ _ Hlen H) as Hp.
  destruct (hshape_fresh _ _ _ _ _ _ _ _ _ Hlen H) as (Hp1 & Hp2 & Hpf & _).
  destruct H as [Hu Hf Hd Hv]. set (t1 := upd (hole_tab s) i (set_next (head l2) (Hole q b n))).
  assert (p ≠ i) as Hpi by set_solver.
  assert (zget t1 p = Some (Hole (head l2) bx nx)) as Hp'
    by (unfold t1; rewrite zget_upd_ne by (lia || done); done).
  pose proof (zget_Some_range _ _ _ Hp') as Hpr.
  eexists. split.
  { rewrite (bind_ret _ _ _ _ _ (upd_hole_run i _ _ s Hz)).
    exact (upd_hole_run p _ _ (set_tab t1 s) Hp'). }
  split; [|cbn; rewrite zlen_upd; apply zlen_upd].
  split; cbn [set_tab hole_tab hole_head free_slots].
  - apply linked_app in Hu as (r & Hl1 & [-> (r' & Hr' & Hl2)]). apply linked_app.
    exists (Some p). split.
    { apply linked_frame; [done|done|]. apply linked_frame; [done|set_solver|done]. }
    split; [done|]. exists (Some i). rewrite hnx_upd, Z.eqb_refl by done. split; [done|].
    split; [done|]. exists (head l2). rewrite hnx_upd by done.
    destruct (Z.eqb_spec p i); [done|]. unfold t1 at 1. rewrite hnx_upd, Z.eqb_refl by done.
    split; [done|]. rewrite <- (linked_head _ _ _ Hl2).
    apply linked_frame; [done|done|]. apply linked_frame; [done|set_solver|done].
  - apply linked_frame; [done|done|]. by apply linked_frame.
  - set_solver.
  - apply vals_next; [done|]. apply Forall2_app_inv in Hv as [Hv1 Hv2]; [|done].
    inversion Hv2; subst. apply Forall2_app; [apply vals_frame; [done|set_solver|done]|].
    constructor; [|constructor].
    + unfold t1. rewrite hval_upd by done. destruct (Z.eqb_spec i p); [done|done].
    + unfold t1. by rewrite hval_upd, Z.eqb_refl.
    + apply vals_frame; [done|set_solver|done].
Qed.
End linking.

Lemma place_step_run b q s k j l2 fs hk b1 n1 hs2 :
  length k = length hk → hshape s (k ++ j :: l2) fs (hk ++ (b1, n1) :: hs2) →
  place_step b (q, Some j) s =
    if b1 <? b then Ret (inl (Some j, head l2)) s else Ret (inr q) s.
Proof.
  intros Hlen H. unfold place_step. rewrite decide_False by done.
  rewrite (bind_ret _ _ _ _ _ (hshape_rd _ _ _ _ _ _ _ _ _ Hlen H)).
  cbn [h_base h_next]. by destruct (b1 <? b).
Qed.

(** The place where a block goes in. *)
Lemma place_loop b n s fs hs2 l2 k p hk x fuel :
  length k = length hk → hshape s (k ++ p :: l2) fs (hk ++ x :: hs2) →
  x.1 < b → (length l2 < fuel)%nat →
  ∃ k' p' l2' hk' x' hs2',
    loop fuel (place_step b) (Some p, head l2) s = Ret (Some p') s ∧
    k ++ p :: l2 = k' ++ p' :: l2' ∧ length k' = length hk' ∧
    hk ++ x :: hs2 = hk' ++ x' :: hs2' ∧ x'.1 < b ∧
    (∀ y, head hs2' = Some y → b ≤ y.1) ∧
    hk ++ release b n (x :: hs2) = hk' ++ coalesce (x' :: (b, n) :: hs2').
Proof.
  revert l2 k p hk x fuel. induction hs2 as [|[b1 n1] hs2 IH];
    intros l2 k p hk x fuel Hlen H Hx Hf; (destruct fuel as [|fuel]; [lia|]);
    pose proof (Forall2_length _ _ _ (sh_vals _ _ _ _ H)) as Hl; rewrite !length_app in Hl;
    destruct l2 as [|j l2]; simpl in Hl; try lia; rewrite loop_S.
  - exists k, p, [], hk, x, []. split_and!; try done.
    cbn [release]. destruct (Z.leb_spec b x.1); [lia|done].
  - assert (hshape s ((k ++ [p]) ++ j :: l2) fs ((hk ++ [x]) ++ (b1, n1) :: hs2)) as Hj
      by (by rewrite <- !app_assoc).
    assert (length (k ++ [p]) = length (hk ++ [x])) as Hlen' by (rewrite !length_app; simpl; lia).
    pose proof (place_step_run b (Some p) _ _ _ _ _ _ _ _ _ Hlen' Hj) as Es.
    cbn [release take forallb fst]. cbn [head].
    destruct (Z.leb_spec b x.1); [lia|]. rewrite andb_true_r.
    destruct (Z.ltb_spec b1 b), (Z.leb_spec b b1); try lia.
    + step Es. destruct (IH l2 (k ++ [p]) j (hk ++ [x]) (b1, n1) fuel)
        as (k' & p' & l2' & hk' & x' & hs2' & E & ? & ? & ? & ? & ? & Er);
        [done|done|simpl; lia|simpl in Hf; lia|].
      exists k', p', l2', hk', x', hs2'. rewrite <- !app_assoc in *. split_and!; try done.
      rewrite <- Er. cbn [release fst app]. by destruct (Z.leb_spec b b1); [lia|].
    + step Es. exists k, p, (j :: l2), hk, x, ((b1, n1) :: hs2).
      split_and!; try done. intros y [= <-]. simpl. lia.
Qed.

Lemma gapped_app lo hs hs' : gapped lo (hs ++ hs') → gapped lo hs'.
Proof.
  revert lo. induction hs as [|[b n] hs IH]; intros lo; [done|]. simpl.
  intros (? & ? & ? & Hg%IH). eapply gapped_mono; [|done]. lia.
Qed.

(** Around the place of a block that is apart from the holes. *)
Lemma placed_ordered b n x hs lo :
  gapped lo (x :: hs) → 0 < n → b + n ≤ swap_base → apart b n (x :: hs) → x.1 < b →
  (∀ y, head hs = Some y → b ≤ y.1) → ordered lo (x :: (b, n) :: hs).
Proof.
  destruct x as [b0 n0]. intros (? & ? & ? & Hg) ? ? [? Hap]%apart_cons ? Hhd; [|lia..].
  simpl in *. split_and!; try lia. destruct hs as [|[b1 n1] hs]; [done|].
  specialize (Hhd _ eq_refl). simpl in Hhd. destruct Hg as (? & ? & ? & Hg).
  apply apart_cons in Hap as [? _]; [|lia..]. simpl. split_and!; try lia.
  apply gapped_ordered. eapply gapped_mono; [|done]. lia.
Qed.

Lemma apart_app b n hs hs' : apart b n (hs ++ hs') → apart b n hs'.
Proof. unfold apart. setoid_rewrite avail_app. naive_solver. Qed.

(** With an entry in hand, the block is put in its place and merged. *)
Section placing.
Context (b n : Z) (s : pm_holes) (i : Z) (fs ls : list Z) (hs : list (Z * Z)).
Context (H : hshape s ls fs hs) (Hz : zget (hole_tab s) i = Some (Hole (head fs) b n)).
Context (Hi : i ∉ ls) (Hif : i ∉ fs).
Context (Hg : gapped 0 hs) (Hb : 0 ≤ b) (Hn : 0 < n) (Hbn : b + n ≤ swap_base) (Hap : apart b n hs).

Lemma put_front_run :
  (∀ y, head hs = Some y → b ≤ y.1) →
  ∃ s' ls' fs',
    (upd_hole (Some i) (set_next (hole_head s));; modify (set_head (Some i));; merge (Some i)) s
      = Ret tt s' ∧
    hshape s' ls' fs' (release b n hs) ∧ zlen (hole_tab s') = zlen (hole_tab s) ∧
    (length ls' + length fs' = S (length ls) + length fs)%nat.
Proof using H Hz Hi Hif Hg Hb Hn Hbn Hap.
  intros Hhd. destruct (link_front_run s i fs b n _ Hz Hif ls hs H Hi) as (s1 & E1 & Hs1 & Hz1).
  rewrite (bind_seq _ _ _ _ _ _ E1).
  destruct (merge_run [] [] s1 i ls fs ((b, n) :: hs)) as (s2 & ls' & fs' & E2 & Hs2 & Hz2 & Hl2); [done|done| |].
  { split_and!; [done..|]. destruct hs as [|[b0 n0] hs']; [done|].
    destruct Hg as (? & ? & ? & Hg'). specialize (Hhd _ eq_refl). simpl in Hhd.
    apply apart_cons in Hap as [? _]; [|lia..]. simpl. split_and!; try lia.
    apply gapped_ordered. eapply gapped_mono; [|done]. lia. }
  exists s2, ls', fs'. rewrite E2. split; [done|]. split; [|split; [congruence|lia]].
  destruct hs as [|[b0 n0] hs']; [done|]. specialize (Hhd _ eq_refl). simpl in Hhd.
  cbn [release fst]. by destruct (Z.leb_spec b b0); [|lia].
Qed.

Lemma put_after_run :
  (length ls < hole_fuel)%nat → (∀ y, head hs = Some y → y.1 < b) → hs ≠ [] →
  ∃ s' ls' fs',
    (prev_ptr ← loop hole_fuel (place_step b) (None, hole_head s);
     p ← rd_hole prev_ptr;
     upd_hole (Some i) (set_next (h_next p));;
     upd_hole prev_ptr (set_next (Some i));;
     merge prev_ptr) s = Ret tt s' ∧
    hshape s' ls' fs' (release b n hs) ∧ zlen (hole_tab s') = zlen (hole_tab s) ∧
    (length ls' + length fs' = S (length ls) + length fs)%nat.
Proof using H Hz Hi Hif Hg Hb Hn Hbn Hap.
  intros Hfuel Hhd Hne. destruct hs as [|[b0 n0] hs2] eqn:Ehs; [done|].
  specialize (Hhd _ eq_refl). simpl in Hhd.
  pose proof (Forall2_length _ _ _ (sh_vals _ _ _ _ H)) as Hl.
  destruct ls as [|p l2] eqn:Els; [done|]. rewrite (linked_head _ _ _ (sh_used _ _ _ _ H)). cbn [head].
  assert (loop hole_fuel (place_step b) (None, Some p) s =
          loop (pred hole_fuel) (place_step b) (Some p, head l2) s) as El.
  { pose proof (place_step_run b None s [] p l2 fs [] b0 n0 hs2 eq_refl H) as Es.
    destruct (Z.ltb_spec b0 b); [|lia]. unfold hole_fuel. rewrite loop_S. by step Es. }
  destruct (place_loop b n s fs hs2 l2 [] p [] (b0, n0) (pred hole_fuel))
    as (k & q & l2' & hk & x & hs2' & E & Ek & Hlk & Eh & Hx & Hy & Er); [done|done|done|cbn [length] in Hfuel; unfold hole_fuel in *; lia|].
  cbn [app] in Ek, Eh, Er. step (eq_trans El E). rewrite Ek in H, Hi. rewrite Eh in H, Hg, Hap.
  rewrite Ek. destruct x as [bx nx].
  rewrite (bind_ret _ _ _ _ _ (hshape_rd _ _ _ _ _ _ _ _ _ Hlk H)). cbn [h_next].
  destruct (link_after_run s i fs b n _ Hz Hif _ _ _ _ _ _ Hlk H Hi) as (s1 & E1 & Hs1 & Hz1).
  rewrite (bind_seq _ _ _ _ _ _ E1).
  destruct (merge_run k hk s1 q (i :: l2') fs ((bx, nx) :: (b, n) :: hs2'))
    as (s2 & ls' & fs' & E2 & Hs2 & Hz2 & Hl2); [done|done| |].
  { eapply placed_ordered; [by eapply gapped_app|lia|lia|by eapply apart_app|done|done]. }
  exists s2, (k ++ ls'), fs'. rewrite E2, Er. split; [done|]. split; [done|].
  split; [congruence|]. rewrite !length_app. simpl in *. lia.
Qed.
End placing.

Lemma free_mem_run b n s hs :
  holes_rep s hs → 0 ≤ b → 0 < n → b + n ≤ swap_base → apart b n hs →
  if zlen hs =? NR_HOLES then free_mem b n s = Off s
  else ∃ s', free_mem b n s = Ret tt s' ∧ holes_rep s' (release b n hs).
Proof.
  intros (Hg & Hz & ls & fs & H & Hc) Hb Hn Hbn Hap.
  pose proof (Forall2_length _ _ _ (sh_vals _ _ _ _ H)) as Hl.
  unfold free_mem. destruct (Z.eqb_spec n 0); [lia|]. steps.
  rewrite (linked_head _ _ _ (sh_free _ _ _ _ H)).
  destruct fs as [|i fs]; cbn [head].
  { destruct (Z.eqb_spec (zlen hs) NR_HOLES) as [|[]]; [done|]. unfold zlen in *. simpl in Hc. lia. }
  destruct (Z.eqb_spec (zlen hs) NR_HOLES) as [E|_].
  { rewrite zlen_cons in Hc. unfold zlen in *. lia. }
  rewrite decide_False by done.
  destruct (take_slot_run _ _ _ _ _ b n H) as (s1 & E1 & Hz1 & Hs1 & Hi & Hif & Hzl).
  step E1. rewrite (bind_ret _ _ _ _ _ (rd_hole_run i _ s1 Hz1)). cbn [h_next]. steps.
  set (s2 := set_free (head fs) s1) in *.
  assert (length ls < hole_fuel)%nat as Hfuel by (unfold hole_fuel, zlen, NR_HOLES in *; simpl in Hc; lia).
  destruct (release_spec 0 b n hs Hg Hb Hn Hbn Hap) as [Hg' _].
  assert (∀ (A : M pm_holes unit) s' ls' fs',
    A s2 = Ret tt s' → hshape s' ls' fs' (release b n hs) → zlen (hole_tab s') = zlen (hole_tab s2) →
    (length ls' + length fs' = S (length ls) + length fs)%nat →
    ∃ s', A s2 = Ret tt s' ∧ holes_rep s' (release b n hs)) as Hdone.
  { intros A s' ls' fs' EA Hs' Hz' Hl'. exists s'. split; [done|]. split; [done|].
    split; [rewrite Hz'; cbn; congruence|]. exists ls', fs'. split; [done|].
    unfold zlen in *. simpl in Hc. lia. }
  pose proof (linked_head _ _ _ (sh_used _ _ _ _ Hs1)) as Hhd.
  destruct ls as [|j ls2], hs as [|[b0 m0] hs2]; try done.
  - rewrite Hhd. rewrite decide_True by done. steps.
    destruct (put_front_run b n s2 i fs [] [] Hs1 Hz1 Hi Hif Hg Hb Hn Hbn Hap) as (s' & ls' & fs' & E' & ? & ? & ?);
      [done|]. rewrite Hhd in E'. by eapply Hdone.
  - rewrite Hhd. rewrite decide_False by done.
    rewrite bind_assoc, (bind_ret _ _ _ _ _ (hshape_rd s2 [] ls2 fs j [] hs2 b0 m0 eq_refl Hs1)). cbn [h_base].
    steps. destruct (Z.leb_spec b b0).
    + destruct (put_front_run b n s2 i fs _ _ Hs1 Hz1 Hi Hif Hg Hb Hn Hbn Hap) as (s' & ls' & fs' & E' & ? & ? & ?);
        [intros y [= <-]; simpl; lia|]. rewrite Hhd in E'. by eapply Hdone.
    + destruct (put_after_run b n s2 i fs _ _ Hs1 Hz1 Hi Hif Hg Hb Hn Hbn Hap Hfuel) as (s' & ls' & fs' & E' & ? & ? & ?);
        [intros y [= <-]; simpl; lia|done|]. rewrite Hhd in E'. by eapply Hdone.
Qed.

(** ** The start *)

Lemma init_table_run s :
  zlen (hole_tab s) = NR_HOLES → ∃ s', init_table s = Ret tt s' ∧ holes_rep s' [].
Proof.
  intros Hz. unfold init_table.
  destruct (for_each_range (λ k s, zlen (hole_tab s) = NR_HOLES ∧
      ∀ i, 0 ≤ i < k → hnx (hole_tab s) i = Some (Some (i + 1)))
    0 (Z.to_nat NR_HOLES) (λ i, upd_hole (Some i) (set_next (Some (i + 1)))) s)
    as (s1 & E1 & Hz1 & Hn1).
  { split; [done|lia]. }
  { intros i t Hi [Ht Hn]. destruct (zget_in (hole_tab t) i) as [h Hh];
      [rewrite Ht; unfold NR_HOLES in *; lia|].
    eexists. split; [by apply upd_hole_run|]. cbn [set_tab hole_tab].
    split; [by rewrite zlen_upd|]. intros j Hj.
    rewrite hnx_upd by (by eapply zget_Some_range).
    destruct (Z.eqb_spec i j) as [<-|]; [done|]. apply Hn. lia. }
  step E1. destruct (zget_in (hole_tab s1) (NR_HOLES - 1)) as [h Hh]; [rewrite Hz1; by vm_compute|].
  rewrite (bind_ret _ _ _ _ _ (upd_hole_run _ _ _ s1 Hh)). steps.
  pose proof (zget_Some_range _ _ _ Hh) as Hr.
  eexists. split; [done|]. split; [done|]. split; [cbn; by rewrite zlen_upd|].
  exists [], (range 0 (Z.to_nat NR_HOLES)). split; [|by rewrite zlen_range].
  split; cbn [set_tab set_head set_free hole_tab hole_head free_slots]; [done| |set_solver|constructor].
  change (Z.to_nat NR_HOLES) with (S (Z.to_nat (NR_HOLES - 1))). rewrite range_snoc.
  apply linked_app. exists (Some (0 + Z.of_nat (Z.to_nat (NR_HOLES - 1)))). split.
  - apply lseg_range. intros i Hi. rewrite hnx_upd by done.
    destruct (Z.eqb_spec (NR_HOLES - 1) i); [unfold NR_HOLES in *; lia|].
    apply Hn1. unfold NR_HOLES in *. lia.
  - split; [done|]. exists None. rewrite hnx_upd by done. by split.
Qed.

(** The chunks of memory the boot monitor reports. *)
Definition in_chunk (c : Z * Z) (x : Z) : Prop := c.1 ≤ x < c.1 + c.2.

(** No click is in two of them. *)
Fixpoint parts (cs : list (Z * Z)) : Prop :=
  match cs with
  | [] => True
  | c :: cs' => (∀ x d, in_chunk c x → d ∈ cs' → ¬ in_chunk d x) ∧ parts cs'
  end.

Definition chunks_ok (cs : list (Z * Z)) : Prop :=
  Forall (λ c, 0 ≤ c.1 ∧ 0 ≤ c.2 ∧ c.1 + c.2 ≤ swap_base) cs ∧ parts cs.

Definition donate (c : Z * Z) (hs : list (Z * Z)) : list (Z * Z) :=
  if 0 <? c.2 then release c.1 c.2 hs else hs.

Lemma coalesce_length hs : (length (coalesce hs) ≤ length hs)%nat.
Proof.
  assert (∀ k, (length (glue k) ≤ length k)%nat) as Hg.
  { intros [|[b n] [|[b' n'] k]]; simpl; try lia. destruct (_ =? _); simpl; lia. }
  destruct hs as [|[b n] [|[b' n'] hs]]; unfold coalesce; try lia.
  destruct (_ =? _).
  - pose proof (Hg ((b, n + n') :: hs)). cbn [length] in *. lia.
  - pose proof (Hg ((b', n') :: hs)). cbn [length] in *. lia.
Qed.

Lemma release_length b n hs : (length (release b n hs) ≤ S (length hs))%nat.
Proof.
  induction hs as [|x hs IH]; cbn [release]; [done|].
  destruct (b <=? x.1); [apply (coalesce_length ((b, n) :: x :: hs))|].
  destruct (forallb _ _); [apply (coalesce_length (x :: (b, n) :: hs))|simpl; lia].
Qed.

Lemma u32_add x y : u32 (u32 x + y) = u32 (x + y).
Proof. unfold u32. apply Zplus_mod_idemp_l. Qed.

Definition total_size (cs : list (Z * Z)) : Z := foldr (λ c t, t + c.2) 0 cs.

Definition holes_of (cs : list (Z * Z)) : list (Z * Z) := foldr donate [] cs.

Lemma holes_of_spec cs :
  chunks_ok cs →
  gapped 0 (holes_of cs) ∧ (length (holes_of cs) ≤ length cs)%nat ∧
  ∀ x, avail (holes_of cs) x ↔ ∃ c, c ∈ cs ∧ in_chunk c x.
Proof.
  intros [Hr Hp]. induction cs as [|c cs IH].
  { split_and!; [done..|]. intros x. rewrite avail_nil. set_solver. }
  apply Forall_cons in Hr as [(? & ? & ?) Hr]. destruct Hp as [Hc Hp].
  destruct (IH Hr Hp) as (Hg & Hl & Ha). clear IH. cbn [holes_of foldr]. fold (holes_of cs).
  setoid_rewrite elem_of_cons. unfold donate. destruct (Z.ltb_spec 0 c.2).
  - destruct (release_spec 0 c.1 c.2 (holes_of cs)) as [Hg' Ha']; [done|lia..| |].
    { intros x Hx (d & Hd & Hdx)%Ha. by eapply Hc. }
    split_and!; [done|pose proof (release_length c.1 c.2 (holes_of cs)); simpl; lia|].
    intros x. rewrite Ha', Ha. unfold in_chunk. naive_solver.
  - split_and!; [done|simpl; lia|]. intros x. rewrite Ha. unfold in_chunk. split; [naive_solver|].
    intros (d & [->|Hd] & Hx); [lia|eauto].
Qed.

Lemma init_chunks_run cs s k :
  chunks_ok cs → zlen cs < NR_HOLES → (k ≤ length cs)%nat →
  holes_rep s (holes_of (drop k cs)) →
  ∃ s', init_chunks cs (u32 (total_size (drop k cs))) (reverse (range 0 k)) s
          = Ret (u32 (total_size cs)) s' ∧ holes_rep s' (holes_of cs).
Proof.
  intros Hok Hn. revert s. induction k as [|k IH]; intros s Hk Hs; [by exists s|].
  rewrite range_snoc, reverse_snoc, Z.add_0_l. cbn [init_chunks]. unfold init_chunk at 1.
  destruct (lookup_lt_is_Some_2 cs k) as [c Hc]; [lia|].
  rewrite bind_assoc, (bind_lift _ c) by (by rewrite zget_nat).
  specialize (IH). pose proof (drop_S _ _ _ Hc) as Hd. rewrite Hd in IH.
  assert (chunks_ok (drop k cs)) as Hok'.
  { destruct Hok as [Hr Hp]. split; [by apply Forall_drop|]. clear -Hp.
    revert k. induction cs as [|d cs IHc]; intros [|k]; [done..|]. simpl. apply IHc, Hp. }
  rewrite Hd in Hok'. destruct Hok' as [Hr Hp].
  pose proof Hr as [(? & ? & ?) Hr']%Forall_cons. destruct Hp as [Hp1 Hp2].
  cbn [holes_of total_size foldr] in IH. unfold donate at 1 in IH.
  fold (holes_of (drop (S k) cs)) (total_size (drop (S k) cs)) in IH.
  destruct (holes_of_spec (drop (S k) cs)) as (_ & Hl & Ha); [by split|].
  destruct (Z.ltb_spec 0 c.2).
  - pose proof (free_mem_run c.1 c.2 s (holes_of (drop (S k) cs)) Hs) as Hf.
    rewrite length_drop in Hl. destruct (Z.eqb_spec (zlen (holes_of (drop (S k) cs))) NR_HOLES).
    { unfold zlen in *. lia. }
    destruct Hf as (s1 & E1 & Hs1); [lia..| |].
    { intros x Hx (d & Hdc & Hdx)%Ha. by eapply Hp1. }
    rewrite bind_assoc. step E1. steps. rewrite u32_add. apply IH; [lia|done].
  - steps. replace (total_size (drop (S k) cs)) with (total_size (drop (S k) cs) + c.2) by lia.
    apply IH; [lia|done].
Qed.

Lemma mem_init_run cs s :
  zlen (hole_tab s) = NR_HOLES → chunks_ok cs → zlen cs = NR_MEMS →
  ∃ s', mem_init cs s = Ret (u32 (total_size cs)) s' ∧ holes_rep s' (holes_of cs).
Proof.
  intros Hz Hok Hn. destruct (init_table_run s Hz) as (s1 & E1 & Hs1).
  unfold mem_init. step E1.
  pose proof (init_chunks_run cs s1 (length cs) Hok ltac:(rewrite Hn; done) ltac:(done)) as Hi.
  rewrite drop_all in Hi. destruct (Hi Hs1) as (s2 & E2 & Hs2).
  exists s2. split; [|done]. replace (Z.to_nat NR_MEMS) with (length cs) by (unfold zlen in Hn; lia).
  exact E2.
Qed.
