(* ===== verification/HolesTheorems.v ===== *)
(** * The memory allocator of the reference process manager *)

From S2P Require Import Prelude Linked Holes HolesSpec.

(** A small memory for the examples: two chunks, at clicks 16 and 100. *)
Definition demo_chunks : list (Z * Z) := (16, 8) :: (100, 50) :: replicate 6 (0, 0).
Definition demo_holes : pm_holes := PmHoles (replicate 128 (Hole None 0 0)) None None.

Lemma demo_chunks_ok : chunks_ok demo_chunks.
Proof.
  split; [by repeat constructor|].
  assert (∀ k x d, d ∈ replicate k (0, 0) → ¬ in_chunk d x) as Hz.
  { intros k x d [-> _]%elem_of_replicate. unfold in_chunk. simpl. lia. }
  assert (∀ k, parts (replicate k (0, 0))) as Hp.
  { induction k as [|k IH]; [done|]. split; [|done]. intros x d _. apply Hz. }
  split; [|split; [|apply Hp]]; intros x d Hx Hd.
  - apply elem_of_cons in Hd as [->|Hd]; [unfold in_chunk in *; simpl in *; lia|by eapply Hz].
  - by eapply Hz.
Qed.

Lemma demo_start :
  ∃ s, mem_init demo_chunks demo_holes = Ret 58 s ∧ holes_rep s [(16, 8); (100, 50)].
Proof. apply (mem_init_run demo_chunks demo_holes); [done|apply demo_chunks_ok|done]. Qed.

(** [mem_init] makes every click of the chunks free, once, and nothing
    else, and returns the amount of memory. *)
Theorem mem_init_frees_the_chunks cs s
  (Hz : zlen (hole_tab s) = NR_HOLES) (Hok : chunks_ok cs) (Hn : zlen cs = NR_MEMS) :
  ∃ s' hs, mem_init cs s = Ret (u32 (total_size cs)) s' ∧ holes_rep s' hs ∧
    ∀ x, avail hs x ↔ ∃ c, c ∈ cs ∧ in_chunk c x.
Proof.
  destruct (mem_init_run cs s Hz Hok Hn) as (s' & E & Hs).
  exists s', (holes_of cs). split_and!; [done|done|]. by apply holes_of_spec.
Qed.

Lemma mem_init_frees_the_chunks_witness :
  ∃ s' hs, mem_init demo_chunks demo_holes = Ret (u32 (total_size demo_chunks)) s' ∧
    holes_rep s' hs ∧ ∀ x, avail hs x ↔ ∃ c, c ∈ demo_chunks ∧ in_chunk c x.
Proof.
  apply (mem_init_frees_the_chunks demo_chunks demo_holes); [reflexivity|apply demo_chunks_ok|reflexivity].
Defined.

(** [alloc_mem] returns the start of a block that was free, and takes
    exactly that block from the free memory; it fails, without a change, only
    when no hole has the size. *)
Theorem alloc_mem_takes_a_free_block s hs c (Hs : holes_rep s hs) (Hc : 0 ≤ c) :
  (∃ b s' hs', alloc_mem c s = Ret b s' ∧ holes_rep s' hs' ∧
     (∀ x, b ≤ x < b + c → avail hs x) ∧
     (∀ x, avail hs' x ↔ avail hs x ∧ ¬ (b ≤ x < b + c))) ∨
  (alloc_mem c s = Ret NO_MEM s ∧ Forall (λ h, h.2 < c) hs).
Proof.
  pose proof (alloc_mem_run c s hs Hs Hc) as Ha. destruct (first_fit c hs) as [[b hs']|] eqn:E.
  - left. destruct Ha as (s' & Ea & Hs'). destruct Hs as [Hg _].
    destruct (first_fit_avail _ _ _ _ _ Hc Hg E). by exists b, s', hs'.
  - right. split; [done|]. by apply first_fit_None.
Qed.

Lemma alloc_mem_takes_a_free_block_witness :
  ∃ s, holes_rep s [(16, 8); (100, 50)] ∧
    ((∃ b s' hs', alloc_mem 10 s = Ret b s' ∧ holes_rep s' hs' ∧
       (∀ x, b ≤ x < b + 10 → avail [(16, 8); (100, 50)] x) ∧
       (∀ x, avail hs' x ↔ avail [(16, 8); (100, 50)] x ∧ ¬ (b ≤ x < b + 10))) ∨
     (alloc_mem 10 s = Ret NO_MEM s ∧ Forall (λ h, h.2 < 10) [(16, 8); (100, 50)])).
Proof.
  destruct demo_start as (s & _ & Hs). exists s. split; [exact Hs|].
  apply (alloc_mem_takes_a_free_block s _ 10 Hs). lia.
Defined.

(** [free_mem] adds a block to the free memory, merging it with its
    neighbours, or stops the system when all entries of the table are in use. *)
Theorem free_mem_returns_the_block s hs b n
  (Hs : holes_rep s hs) (Hb : 0 ≤ b) (Hn : 0 < n) (Hbn : b + n ≤ swap_base) (Hap : apart b n hs) :
  (zlen hs = NR_HOLES ∧ free_mem b n s = Off s) ∨
  (∃ s' hs', free_mem b n s = Ret tt s' ∧ holes_rep s' hs' ∧
     ∀ x, avail hs' x ↔ b ≤ x < b + n ∨ avail hs x).
Proof.
  pose proof (free_mem_run b n s hs Hs Hb Hn Hbn Hap) as Hf.
  destruct (Z.eqb_spec (zlen hs) NR_HOLES); [by left|right].
  destruct Hf as (s' & E & Hs'). exists s', (release b n hs). split_and!; [done..|].
  destruct Hs as [Hg _]. by destruct (release_spec 0 b n hs Hg Hb Hn Hbn Hap).
Qed.

Lemma free_mem_returns_the_block_witness :
  ∃ s, holes_rep s [(16, 8); (100, 50)] ∧
    ((zlen [(16, 8); (100, 50)] = NR_HOLES ∧ free_mem 24 76 s = Off s) ∨
     (∃ s' hs', free_mem 24 76 s = Ret tt s' ∧ holes_rep s' hs' ∧
       ∀ x, avail hs' x ↔ 24 ≤ x < 24 + 76 ∨ avail [(16, 8); (100, 50)] x)).
Proof.
  destruct demo_start as (s & _ & Hs). exists s. split; [exact Hs|].
  apply (free_mem_returns_the_block s _ 24 76 Hs); [lia|lia|vm_compute; discriminate|].
  intros x Hx (b & n & Hin & Hbx). apply elem_of_cons in Hin as [[= -> ->]|Hin]; [lia|].
  apply elem_of_cons in Hin as [[= -> ->]|Hin]; [lia|]. by apply elem_of_nil in Hin.
Defined.

(** Giving back the block that was just allocated restores the list of
    holes, split or used up or not. *)
Theorem alloc_free_restores s hs c b hs'
  (Hs : holes_rep s hs) (Hc : 0 < c) (Hroom : zlen hs < NR_HOLES)
  (Hfit : first_fit c hs = Some (b, hs')) :
  ∃ s1 s2, alloc_mem c s = Ret b s1 ∧ holes_rep s1 hs' ∧
    free_mem b c s1 = Ret tt s2 ∧ holes_rep s2 hs.
Proof.
  pose proof (alloc_mem_run c s hs Hs ltac:(lia)) as Ha. rewrite Hfit in Ha.
  destruct Ha as (s1 & E1 & Hs1). destruct Hs as [Hg _]. pose proof Hs1 as [Hg1 _].
  destruct (first_fit_avail c 0 hs b hs') as [Hin Hout]; [lia|done|done|].
  pose proof (gapped_avail _ _ _ Hg (Hin b ltac:(lia))).
  pose proof (gapped_avail _ _ _ Hg (Hin (b + c - 1) ltac:(lia))).
  assert (apart b c hs') as Hap by (intros x Hx; rewrite Hout; tauto).
  pose proof (free_mem_run b c s1 hs' Hs1 ltac:(lia) Hc ltac:(lia) Hap) as Hf.
  destruct (Z.eqb_spec (zlen hs') NR_HOLES) as [E|_].
  { pose proof (first_fit_length _ _ _ _ Hfit). unfold zlen in *. lia. }
  destruct Hf as (s2 & E2 & Hs2). exists s1, s2. split_and!; [done..|].
  destruct (release_spec 0 b c hs') as [Hg2 Ha2]; [done|lia..|done|].
  rewrite <- (gapped_ext 0 (release b c hs') hs); [done|done|done|].
  intros x. rewrite Ha2, Hout. specialize (Hin x). destruct (decide (b ≤ x < b + c)); tauto.
Qed.

Lemma alloc_free_restores_witness :
  ∃ s, holes_rep s [(16, 8); (100, 50)] ∧
    ∃ s1 s2, alloc_mem 8 s = Ret 16 s1 ∧ holes_rep s1 [(100, 50)] ∧
      free_mem 16 8 s1 = Ret tt s2 ∧ holes_rep s2 [(16, 8); (100, 50)].
Proof.
  destruct demo_start as (s & _ & Hs). exists s. split; [exact Hs|].
  apply (alloc_free_restores s [(16, 8); (100, 50)] 8 16 [(100, 50)] Hs); [lia|reflexivity|reflexivity].
Defined.

(** ** Sequences of requests

    The clients of the allocator own blocks: those it handed out and that were
    not given back yet. [NO_MEM] tells a client that there is no memory. *)

Inductive pm_step : pm_holes * list (Z * Z) → pm_holes * list (Z * Z) → Prop :=
  | pm_alloc c b s s' own :
      0 < c → alloc_mem c s = Ret b s' → b ≠ NO_MEM → pm_step (s, own) (s', (b, c) :: own)
  | pm_full c s s' own :
      0 < c → alloc_mem c s = Ret NO_MEM s' → pm_step (s, own) (s', own)
  | pm_free b c s s' own own' :
      own ≡ₚ (b, c) :: own' → free_mem b c s = Ret tt s' → pm_step (s, own) (s', own').

(** The memory [mem] is divided between the holes and the owners. *)
Record divided (mem : Z → Prop) (s : pm_holes) (own hs : list (Z * Z)) : Prop := Divided {
  dv_rep : holes_rep s hs;
  dv_own : chunks_ok own;
  dv_pos : Forall (λ o, 0 < o.2) own;
  dv_apart : ∀ o x, o ∈ own → in_chunk o x → ¬ avail hs x;
  dv_all : ∀ x, mem x ↔ avail hs x ∨ ∃ o, o ∈ own ∧ in_chunk o x }.

Lemma parts_perm cs cs' : cs ≡ₚ cs' → parts cs → parts cs'.
Proof.
  induction 1 as [|c cs cs' HP IH|c d cs|cs1 cs2 cs3 _ IH1 _ IH2]; [done| | |by auto].
  - intros [Hc Hp]. split; [|by apply IH]. intros x d Hx Hd. apply (Hc x d Hx). by rewrite HP.
  - intros (Hc & Hd & Hp). split; [|split; [|done]].
    + intros x e Hx [->|He]%elem_of_cons Hex; [|by eapply Hd].
      eapply Hc; [exact Hex| |exact Hx]. set_solver.
    + intros x e Hx He. apply (Hc x e Hx). set_solver.
Qed.

Lemma divided_alloc mem s own hs c b s' :
  divided mem s own hs → ¬ mem 0 → 0 < c → alloc_mem c s = Ret b s' → b ≠ NO_MEM →
  ∃ hs', divided mem s' ((b, c) :: own) hs'.
Proof.
  intros [Hs [Hr Hp] Hpos Hap Hall] H0 Hc E Hb.
  pose proof (alloc_mem_run c s hs Hs ltac:(lia)) as Ha.
  destruct (first_fit c hs) as [[b' hs']|] eqn:Ef; [|congruence].
  destruct Ha as (s1 & E1 & Hs1). assert (b' = b ∧ s1 = s') as [-> ->] by (split; congruence).
  pose proof Hs as [Hg _]. destruct (first_fit_avail c 0 hs b hs') as [Hin Hout]; [lia|done|done|].
  pose proof (gapped_avail _ _ _ Hg (Hin b ltac:(lia))).
  pose proof (gapped_avail _ _ _ Hg (Hin (b + c - 1) ltac:(lia))).
  exists hs'. split; [done|split|..].
  - constructor; [simpl; lia|done].
  - split; [|done]. intros x d Hx Hd Hdx. by eapply (Hap d x Hd Hdx), Hin.
  - by constructor.
  - intros o x [->|Ho]%elem_of_cons Hx; rewrite Hout; [unfold in_chunk in Hx; simpl in Hx; tauto|].
    intros [Hav _]. by eapply Hap.
  - intros x. rewrite Hall, Hout. setoid_rewrite elem_of_cons. specialize (Hin x).
    unfold in_chunk. split; [|naive_solver].
    destruct (decide (b ≤ x < b + c)); [|naive_solver]. right. exists (b, c). naive_solver.
Qed.

Lemma divided_full mem s own hs c s' :
  divided mem s own hs → ¬ mem 0 → 0 < c → alloc_mem c s = Ret NO_MEM s' → s' = s.
Proof.
  intros [Hs _ _ _ Hall] H0 Hc E. pose proof (alloc_mem_run c s hs Hs ltac:(lia)) as Ha.
  destruct (first_fit c hs) as [[b' hs']|] eqn:Ef; [|congruence].
  destruct Ha as (s1 & E1 & Hs1). assert (b' = 0) as -> by (unfold NO_MEM in *; congruence).
  destruct H0. apply Hall. left. destruct Hs as [Hg _].
  destruct (first_fit_avail c 0 hs 0 hs') as [Hin _]; [lia|done|done|]. apply Hin. lia.
Qed.

Lemma divided_free mem s own hs b c own' s' :
  divided mem s own hs → own ≡ₚ (b, c) :: own' → free_mem b c s = Ret tt s' →
  ∃ hs', divided mem s' own' hs'.
Proof.
  intros [Hs [Hr Hp] Hpos Hap Hall] HP E.
  apply (parts_perm _ _ HP) in Hp as [Hb Hp]. rewrite HP in Hr, Hpos.
  apply Forall_cons in Hr as [(? & ? & ?) Hr], Hpos as [Hc Hpos]. simpl in *.
  assert (apart b c hs) as Hbap.
  { intros x Hx. apply (Hap (b, c)); [rewrite HP; set_solver|done]. }
  pose proof (free_mem_run b c s hs Hs ltac:(lia) Hc ltac:(lia) Hbap) as Hf.
  destruct (Z.eqb_spec (zlen hs) NR_HOLES); [congruence|].
  destruct Hf as (s1 & E1 & Hs1). assert (s1 = s') as -> by congruence.
  destruct Hs as [Hg _]. destruct (release_spec 0 b c hs) as [_ Ha]; [done|lia..|done|].
  exists (release b c hs). split; [done|by split|done| |].
  - intros o x Ho Hx. rewrite Ha. intros [Hbx|Hav]; [by eapply Hb|].
    eapply (Hap o x); [rewrite HP; set_solver|done..].
  - intros x. rewrite Hall, Ha. setoid_rewrite HP. setoid_rewrite elem_of_cons.
    unfold in_chunk. naive_solver.
Qed.

Lemma divided_steps mem s own hs p :
  divided mem s own hs → ¬ mem 0 → rtc pm_step (s, own) p → ∃ hs', divided mem p.1 p.2 hs'.
Proof.
  intros Hd H0 Hr. remember (s, own) as q eqn:Eq. revert s own hs Hd Eq.
  induction Hr as [q|q q' q'' Hstep _ IH]; intros s own hs Hd ->; [by exists hs|].
  inversion Hstep; subst.
  - edestruct divided_alloc as [hs' Hd']; [done..|]. by eapply IH.
  - assert (s' = s) as -> by (by eapply divided_full). by eapply IH.
  - edestruct divided_free as [hs' Hd']; [done..|]. by eapply IH.
Qed.

(** C40: whatever the requests, no click is ever owned twice or owned and free
    at the same time, and none is lost: the memory of the chunks stays divided
    between the holes and the owners. *)
Theorem memory_stays_divided cs s t s0 s1 own
  (Hz : zlen (hole_tab s) = NR_HOLES) (Hok : chunks_ok cs) (Hn : zlen cs = NR_MEMS)
  (H0 : Forall (λ c, 0 < c.1) (filter (λ c, 0 < c.2) cs))
  (Hi : mem_init cs s = Ret t s0) (Hr : rtc pm_step (s0, []) (s1, own)) :
  ∃ hs, holes_rep s1 hs ∧ parts own ∧
    (∀ o x, o ∈ own → in_chunk o x → ¬ avail hs x) ∧
    (∀ x, (∃ c, c ∈ cs ∧ in_chunk c x) ↔ avail hs x ∨ ∃ o, o ∈ own ∧ in_chunk o x).
Proof.
  destruct (mem_init_run cs s Hz Hok Hn) as (s' & E & Hs').
  assert (s' = s0) as -> by congruence. destruct (holes_of_spec cs Hok) as (_ & _ & Ha).
  destruct (divided_steps (λ x, ∃ c, c ∈ cs ∧ in_chunk c x) s0 [] (holes_of cs) (s1, own))
    as [hs [Hs [_ Hp] _ Hap Hall]]; [|..|done|by exists hs].
  - split; [done|by split|done|set_solver|]. intros x. rewrite Ha. set_solver.
  - intros (c & Hc & Hx). unfold in_chunk in Hx. rewrite Forall_forall in H0.
    specialize (H0 c). rewrite list_elem_of_filter in H0. specialize (H0 ltac:(split; [lia|done])). lia.
Qed.

Lemma memory_stays_divided_witness :
  ∃ s0 s1, mem_init demo_chunks demo_holes = Ret 58 s0 ∧ rtc pm_step (s0, []) (s1, [(100, 10)]) ∧
  ∃ hs, holes_rep s1 hs ∧ parts [(100, 10)] ∧
    (∀ o x, o ∈ [(100, 10)] → in_chunk o x → ¬ avail hs x) ∧
    (∀ x, (∃ c, c ∈ demo_chunks ∧ in_chunk c x) ↔
      avail hs x ∨ ∃ o, o ∈ [(100, 10)] ∧ in_chunk o x).
Proof.
  destruct demo_start as (s0 & E & Hs).
  pose proof (alloc_mem_run 10 s0 _ Hs ltac:(lia)) as (s1 & E1 & _).
  assert (rtc pm_step (s0, []) (s1, [(100, 10)])) as Hr.
  { apply rtc_once. apply (pm_alloc 10 100 s0 s1 []); [lia|exact E1|discriminate]. }
  exists s0, s1. split; [exact E|]. split; [exact Hr|].
  apply (memory_stays_divided demo_chunks demo_holes 58 s0 s1);
    [reflexivity|apply demo_chunks_ok|reflexivity|vm_compute; by repeat constructor|exact E|exact Hr].
Defined.
