(* ===== verification/Irq.v ===== *)
(** * Interrupt lines of the reference kernel

    [put_irq_handler] and [rm_irq_handler] of [reference/minix/kernel/i8259.c],
    [enable_irq] and [disable_irq] of [klib386.s], and [get_randomness] of
    [system.c], on the tables of [glo.h]. A hook is an index: the entries of
    [irq_hooks], then the clock's own hook. The mask registers of the two
    controllers are one number, a bit for each line. A kernel panic stops the
    system ([Off]). *)

From S2P Require Import Prelude Linked.

Definition NR_IRQ_VECTORS : Z := 16.
Definition NR_IRQ_HOOKS : Z := 16.
Definition CLOCK_IRQ : Z := 0.
Definition RANDOM_SOURCES : Z := 16.
Definition RANDOM_ELEMENTS : Z := 32.

(** The handlers that the kernel installs. *)
Inductive irq_handler : Type := NoHandler | ClockHandler | GenericHandler.

Record irq_hook : Type := IrqHook {
  h_next : option Z;
  h_handler : irq_handler;
  h_irq : Z;
  h_id : Z;
  h_proc_nr : Z;
  h_notify_id : Z;
  h_policy : Z }.

Record irqs : Type := Irqs {
  irq_hooks : list irq_hook;
  irq_handlers : list (option Z);
  irq_actids : list Z;
  irq_use : Z;
  irq_mask : Z }.

(** What the tables hold when the kernel is loaded. *)
Definition blank_hook : irq_hook := IrqHook None NoHandler 0 0 0 0 0.
Definition blank_irqs : irqs :=
  Irqs (replicate (Z.to_nat (NR_IRQ_HOOKS + 1)) blank_hook) (replicate (Z.to_nat NR_IRQ_VECTORS) None)
    (replicate (Z.to_nat NR_IRQ_VECTORS) 0) 0 (2 ^ NR_IRQ_VECTORS - 1).

(** The index of [clock_hook], after the table. *)
Definition clock_hook : Z := NR_IRQ_HOOKS.

Definition set_next (x : option Z) (h : irq_hook) : irq_hook :=
  IrqHook x (h_handler h) (h_irq h) (h_id h) (h_proc_nr h) (h_notify_id h) (h_policy h).
Definition set_owner (n : Z) (h : irq_hook) : irq_hook :=
  IrqHook (h_next h) (h_handler h) (h_irq h) (h_id h) n (h_notify_id h) (h_policy h).
Definition set_request (n notify policy : Z) (h : irq_hook) : irq_hook :=
  IrqHook (h_next h) (h_handler h) (h_irq h) (h_id h) n notify policy.
Definition set_installed (f : irq_handler) (irq id : Z) (h : irq_hook) : irq_hook :=
  IrqHook None f irq id (h_proc_nr h) (h_notify_id h) (h_policy h).

Definition with_hooks (x : list irq_hook) (s : irqs) : irqs :=
  Irqs x (irq_handlers s) (irq_actids s) (irq_use s) (irq_mask s).
Definition with_handlers (x : list (option Z)) (s : irqs) : irqs :=
  Irqs (irq_hooks s) x (irq_actids s) (irq_use s) (irq_mask s).
Definition with_actids (x : list Z) (s : irqs) : irqs :=
  Irqs (irq_hooks s) (irq_handlers s) x (irq_use s) (irq_mask s).
Definition with_use (x : Z) (s : irqs) : irqs :=
  Irqs (irq_hooks s) (irq_handlers s) (irq_actids s) x (irq_mask s).
Definition with_mask (x : Z) (s : irqs) : irqs :=
  Irqs (irq_hooks s) (irq_handlers s) (irq_actids s) (irq_use s) x.

Definition rd_hook (i : Z) : M irqs irq_hook := s ← get; lift_opt (zget (irq_hooks s) i).
Definition upd_hook (i : Z) (f : irq_hook → irq_hook) : M irqs unit :=
  s ← get;
  h ← lift_opt (zget (irq_hooks s) i);
  t ← lift_opt (zset (irq_hooks s) i (f h));
  modify (with_hooks t).

(** [*line = v], [line] being the head of the list or a link. *)
Definition set_line (irq : Z) (prev v : option Z) : M irqs unit :=
  match prev with
  | None =>
      s ← get;
      t ← lift_opt (zset (irq_handlers s) irq v);
      modify (with_handlers t)
  | Some j => upd_hook j (set_next v)
  end.

Definition irq_fuel : nat := S (S (Z.to_nat NR_IRQ_HOOKS)).

Definition bad_irq (irq : Z) : bool := (irq <? 0) || (NR_IRQ_VECTORS <=? irq).

(** ** Registering a handler *)

(** The walk to the end of the list: [None] when the hook is already there,
    else the last entry and the bit after those passed. *)
Definition put_step (hook : Z) : option Z * option Z * Z →
    M irqs (option Z * option Z * Z + option (option Z * Z)) :=
  λ '(prev, line, id),
    match line with
    | None => mret (inr (Some (prev, id)))
    | Some i =>
        if hook =? i then mret (inr None) else
        h ← rd_hook i;
        mret (inl (Some i, h_next h, u32 (Z.shiftl id 1)))
    end.

Definition put_irq_handler (hook irq : Z) (handler : irq_handler) : M irqs unit :=
  if bad_irq irq then halt else
  s ← get;
  first ← lift_opt (zget (irq_handlers s) irq);
  r ← loop irq_fuel (put_step hook) (None, first, 1);
  match r with
  | None => mret tt
  | Some (line, id) =>
      if id =? 0 then halt else
      upd_hook hook (set_installed handler irq id);;
      set_line irq line (Some hook);;
      modify (λ s, with_use (Z.lor (irq_use s) (Z.shiftl 1 irq)) s)
  end.

(** ** Removing a handler *)

Definition rm_step (irq id : Z) : option Z * option Z → M irqs (option Z * option Z + unit) :=
  λ '(prev, line),
    match line with
    | None => mret (inr tt)
    | Some i =>
        h ← rd_hook i;
        if h_id h =? id then
          set_line irq prev (h_next h);;
          s ← get;
          first ← lift_opt (zget (irq_handlers s) irq);
          when (bool_decide (first = None))
            (modify (λ s, with_use (Z.ldiff (irq_use s) (Z.shiftl 1 irq)) s));;
          mret (inr tt)
        else mret (inl (Some i, h_next h))
    end.

Definition rm_irq_handler (hook : Z) : M irqs unit :=
  h ← rd_hook hook;
  let irq := h_irq h in
  let id := h_id h in
  if bad_irq irq then halt else
  s ← get;
  first ← lift_opt (zget (irq_handlers s) irq);
  loop irq_fuel (rm_step irq id) (None, first).

(** ** The lines at the controllers *)

Definition act (irq : Z) (f : Z → Z) : M irqs Z :=
  s ← get;
  a ← lift_opt (zget (irq_actids s) irq);
  t ← lift_opt (zset (irq_actids s) irq (f a));
  modify (with_actids t);;
  mret (f a).

Definition enable_irq (hook : Z) : M irqs unit :=
  h ← rd_hook hook;
  a ← act (h_irq h) (λ a, Z.ldiff a (h_id h));
  when (a =? 0) (modify (λ s, with_mask (Z.ldiff (irq_mask s) (Z.shiftl 1 (h_irq h))) s)).

(** Returns whether the line was enabled. *)
Definition disable_irq (hook : Z) : M irqs bool :=
  h ← rd_hook hook;
  _ ← act (h_irq h) (λ a, Z.lor a (h_id h));
  s ← get;
  if Z.testbit (irq_mask s) (h_irq h) then mret false
  else modify (λ s, with_mask (Z.lor (irq_mask s) (Z.shiftl 1 (h_irq h))) s);; mret true.

(** ** Random information *)

Record random_bin : Type := RandomBin { r_next : Z; r_size : Z; r_buf : list Z }.
Definition blank_bin : random_bin := RandomBin 0 0 (replicate (Z.to_nat RANDOM_ELEMENTS) 0).

(** [value] is what the cycle counter or the clock chip reads, of which 16
    bits are kept. *)
Definition put_random (value : Z) (b : random_bin) : option random_bin :=
  buf ← zset (r_buf b) (r_next b) (u16 value);
  Some (RandomBin ((r_next b + 1) mod RANDOM_ELEMENTS)
          (if r_size b <? RANDOM_ELEMENTS then r_size b + 1 else r_size b) buf).

Definition get_randomness (value source : Z) : M (list random_bin) unit :=
  let source := Z.rem source RANDOM_SOURCES in
  bins ← get;
  b ← lift_opt (zget bins source);
  b' ← lift_opt (put_random value b);
  t ← lift_opt (zset bins source b');
  modify (λ _, t).
