(* ===== verification/Timers.v ===== *)
(** * Watchdog timers

    [include/timers.h] of the reference system. The library itself is not part
    of the sources: its functions are a class, with what the header says of
    them as laws. A queue of timers is the list of its active timers; a timer
    that is in no queue has the time [TMR_NEVER]. *)

From stdpp Require Import sorting.
From S2P Require Import Prelude.

(** [(clock_t) LONG_MAX]. *)
Definition TMR_NEVER : Z := 2147483647.

(** The timers of the kernel: the alarm timer of a privilege structure, and the
    one that [prepare_shutdown] sets. *)
Inductive timer_id : Type := AlarmTimer (priv : Z) | ShutdownTimer.
#[global] Instance timer_id_eq_dec : EqDecision timer_id.
Proof. solve_decision. Defined.

(** The watchdog functions with their argument. *)
Inductive watchdog : Type := CauseAlarm (proc_nr : Z) | Shutdown (how : Z).

Record timer : Type := Timer { tmr_id : timer_id; tmr_exp_time : Z; tmr_func : watchdog }.

(** The state of [clock.c]; [prev_ptr] is a global variable of the kernel. *)
Record clock : Type := Clock {
  clock_timers : list timer;
  next_timeout : Z;
  lost_ticks : Z;
  prev_ptr : option Z }.

Definition blank_clock : clock := Clock [] 0 0 None.

(** In order of expiration, each timer once. *)
Definition timers_ok (q : list timer) : Prop :=
  Sorted (λ a b, tmr_exp_time a ≤ tmr_exp_time b) q ∧ NoDup (tmr_id <$> q).

Lemma timers_first t q : timers_ok (t :: q) → Forall (λ u, tmr_exp_time t ≤ tmr_exp_time u) q.
Proof.
  intros [Hs _]. apply Sorted_StronglySorted in Hs; [|intros ? ? ? ? ?; simpl in *; lia].
  by inversion Hs.
Qed.

Lemma timers_ok_app e r : timers_ok (e ++ r) → timers_ok r.
Proof.
  intros [Hs Hn]. rewrite fmap_app in Hn. apply NoDup_app in Hn as (_ & _ & Hn). split; [|done].
  induction e as [|t e IH]; [done|]. apply Sorted_inv in Hs as [Hs _]. by apply IH.
Qed.

Class TimerLib : Type := {
  tmrs_settimer : list timer → timer → list timer;
  tmrs_clrtimer : list timer → timer_id → list timer;
  (** The timers that have expired, in the order their watchdogs run, and the
      queue that is left. *)
  tmrs_exptimers : list timer → Z → list timer * list timer;
  (** Adding a timer removes it first; the queue stays sorted. *)
  settimer_ok q t : timers_ok q → timers_ok (tmrs_settimer q t);
  settimer_elem q t u :
    timers_ok q → u ∈ tmrs_settimer q t ↔ u = t ∨ (u ∈ q ∧ tmr_id u ≠ tmr_id t);
  clrtimer_ok q i : timers_ok q → timers_ok (tmrs_clrtimer q i);
  clrtimer_elem q i u : timers_ok q → u ∈ tmrs_clrtimer q i ↔ u ∈ q ∧ tmr_id u ≠ i;
  exptimers_split q now :
    timers_ok q → let '(e, r) := tmrs_exptimers q now in
    q = e ++ r ∧ Forall (λ t, tmr_exp_time t ≤ now) e ∧ Forall (λ t, now < tmr_exp_time t) r }.

(** ** A library that keeps to the header *)

Fixpoint insert_timer (t : timer) (q : list timer) : list timer :=
  match q with
  | [] => [t]
  | u :: q' => if tmr_exp_time t <=? tmr_exp_time u then t :: q else u :: insert_timer t q'
  end.

Definition drop_timer (i : timer_id) (q : list timer) : list timer :=
  filter (λ t, tmr_id t ≠ i) q.

Fixpoint expired (q : list timer) (now : Z) : list timer * list timer :=
  match q with
  | [] => ([], [])
  | t :: q' =>
      if tmr_exp_time t <=? now then let '(e, r) := expired q' now in (t :: e, r) else ([], q)
  end.

Lemma insert_timer_elem t q u : u ∈ insert_timer t q ↔ u = t ∨ u ∈ q.
Proof.
  induction q as [|v q IH]; simpl; [set_solver|]. destruct (_ <=? _); [set_solver|].
  rewrite !elem_of_cons, IH. tauto.
Qed.

Lemma insert_timer_perm t q : insert_timer t q ≡ₚ t :: q.
Proof.
  induction q as [|v q IH]; simpl; [done|]. destruct (_ <=? _); [done|]. rewrite IH. constructor.
Qed.

Lemma insert_timer_sorted t q :
  Sorted (λ a b, tmr_exp_time a ≤ tmr_exp_time b) q →
  Sorted (λ a b, tmr_exp_time a ≤ tmr_exp_time b) (insert_timer t q).
Proof.
  induction q as [|v q IH]; intros Hs; simpl; [by repeat constructor|].
  destruct (Z.leb_spec (tmr_exp_time t) (tmr_exp_time v)); [by constructor; [|constructor]|].
  apply Sorted_inv in Hs as [Hs Hh]. constructor; [by apply IH|].
  destruct q as [|w q]; simpl; [constructor; lia|]. apply HdRel_inv in Hh.
  destruct (_ <=? _); constructor; lia.
Qed.

Lemma drop_timer_ok i q : timers_ok q → timers_ok (drop_timer i q).
Proof.
  intros [Hs Hn]. unfold drop_timer. split.
  - apply Sorted_StronglySorted in Hs; [|intros ? ? ? ? ?; simpl in *; lia].
    apply StronglySorted_Sorted. induction Hs as [|t q Hs IH Hall]; [constructor|].
    simpl in Hn. apply NoDup_cons in Hn as [_ Hn]. rewrite filter_cons. case_decide; [|by apply IH].
    constructor; [by apply IH|]. apply Forall_forall. intros u [_ Hu]%list_elem_of_filter.
    by eapply Forall_forall in Hall.
  - eapply sublist_NoDup; [exact Hn|]. apply fmap_sublist, sublist_filter.
Qed.

Lemma settimer_sorted q t : timers_ok q → timers_ok (insert_timer t (drop_timer (tmr_id t) q)).
Proof.
  intros Hq. destruct (drop_timer_ok (tmr_id t) q Hq) as [Hs Hn].
  split; [by apply insert_timer_sorted|]. rewrite insert_timer_perm. simpl.
  constructor; [|done]. intros (u & Hu & [Hne _]%list_elem_of_filter)%list_elem_of_fmap. by rewrite Hu in Hne.
Qed.

Lemma expired_split q now :
  Sorted (λ a b, tmr_exp_time a ≤ tmr_exp_time b) q → let '(e, r) := expired q now in
  q = e ++ r ∧ Forall (λ t, tmr_exp_time t ≤ now) e ∧ Forall (λ t, now < tmr_exp_time t) r.
Proof.
  intros Hs. apply Sorted_StronglySorted in Hs; [|intros ? ? ? ? ?; simpl in *; lia].
  induction Hs as [|t q Hs IH Hall]; simpl; [by repeat split|].
  destruct (Z.leb_spec (tmr_exp_time t) now).
  - destruct (expired q now) as [e r]. destruct IH as (-> & He & Hr). by repeat constructor.
  - repeat split; [done|]. constructor; [lia|]. eapply Forall_impl; [exact Hall|]. simpl. lia.
Qed.

#[local] Program Instance sorted_timers : TimerLib := {|
  tmrs_settimer q t := insert_timer t (drop_timer (tmr_id t) q);
  tmrs_clrtimer q i := drop_timer i q;
  tmrs_exptimers := expired |}.
Next Obligation. intros. by apply settimer_sorted. Qed.
Next Obligation. intros. rewrite insert_timer_elem. unfold drop_timer. rewrite list_elem_of_filter. tauto. Qed.
Next Obligation. intros. by apply drop_timer_ok. Qed.
Next Obligation. intros. unfold drop_timer. rewrite list_elem_of_filter. tauto. Qed.
Next Obligation. intros q now [Hs _]. by apply expired_split. Qed.
