(* ===== verification/Ipc.v ===== *)
(** * Scheduling and message passing of the reference kernel

    [reference/minix/kernel/proc.c] with the data of [proc.h] and [priv.h]. A
    [struct proc *] is the index of a slot of the process table ([None] is nil),
    the table of slot pointers being the identity that [main.c] sets up; a
    [struct priv *] is an index of the privilege table. Physical memory, which
    messages are copied in, is a function from addresses to bytes, apart from
    the kernel's own tables. A kernel panic stops the system ([Off]); printing
    a diagnostic adds a line to a log, without the signal to the terminal
    driver that [kprintf] ends with. *)

From S2P Require Import Prelude Linked Irq Timers.

(** ** Constants *)

Definition NR_TASKS : Z := 4.
Definition NR_PROCS : Z := 64.
Definition NR_SYS_PROCS : Z := 32.
Definition NR_SCHED_QUEUES : Z := 16.
Definition IDLE_Q : Z := 15.

Definition ANY : Z := 0x7ace.
Definition HARDWARE : Z := -1.
Definition SYSTEM : Z := -2.

Definition SLOT_FREE : Z := 0x01.
Definition NO_MAP : Z := 0x02.
Definition SENDING : Z := 0x04.
Definition RECEIVING : Z := 0x08.
Definition SIGNALED : Z := 0x10.
Definition SIG_PENDING : Z := 0x20.
Definition P_STOP : Z := 0x40.
Definition NO_PRIV : Z := 0x80.

Definition BILLABLE : Z := 0x04.
Definition SENDREC_BUSY : Z := 0x20.
Definition STACK_GUARD : Z := 0xDEADBEEF.

Definition SYSCALL_FUNC : Z := 0x0F.
Definition SYSCALL_FLAGS : Z := 0xF0.
Definition NON_BLOCKING : Z := 0x10.
Definition SEND : Z := 1.
Definition RECEIVE : Z := 2.
Definition SENDREC : Z := 3.
Definition NOTIFY : Z := 4.
Definition ECHO : Z := 8.
Definition CHECK_PTR : Z := 0x0B.
Definition CHECK_DST : Z := 0x05.

Definition OK : Z := 0.
Definition EFAULT : Z := -14.
Definition ELOCKED : Z := -101.
Definition EBADCALL : Z := -102.
Definition EBADSRCDST : Z := -103.
Definition ECALLDENIED : Z := -104.
Definition EDEADDST : Z := -105.
Definition ENOTREADY : Z := -106.

Definition CLICK_SHIFT : Z := 10.
Definition MESS_SIZE : Z := 36.
Definition NOTIFY_MESSAGE : Z := 0x1000.

(** ** Data *)

Record mem_map : Type := MemMap { mem_vir : Z; mem_phys : Z; mem_len : Z }.

(** A segment outside the memory map. *)
Record far_mem : Type := FarMem { fm_in_use : bool; fm_phys : Z; fm_len : Z }.

Record proc : Type := Proc {
  p_nr : Z;
  p_priv : Z;
  p_rts_flags : Z;
  p_priority : Z;
  p_max_priority : Z;
  p_ticks_left : Z;
  p_quantum_size : Z;
  p_mapD : mem_map;
  p_mapS : mem_map;
  p_nextready : option Z;
  p_caller_q : option Z;
  p_q_link : option Z;
  p_messbuf : Z;
  p_getfrom : Z;
  p_sendto : Z;
  p_pending : Z;
  p_user_time : Z;
  p_sys_time : Z;
  p_mapT : mem_map }.

(** [s_stack_guard] is the word the guard pointer points to. *)
Record priv : Type := Priv {
  s_proc_nr : Z;
  s_id : Z;
  s_flags : Z;
  s_trap_mask : Z;
  s_ipc_to : list Z;
  s_notify_pending : list Z;
  s_int_pending : Z;
  s_sig_pending : Z;
  s_stack_guard : Z;
  s_call_mask : Z;
  s_farmem : list far_mem }.

(** [sched_prev] is the static variable of [sched]; [k_frame] is the address of
    the message buffer on the kernel stack; [k_intr] tells whether interrupts
    are enabled. *)
Record kst : Type := Kst {
  procs : list proc;
  privs : list priv;
  rdy_head : list (option Z);
  rdy_tail : list (option Z);
  proc_ptr : Z;
  next_ptr : option Z;
  bill_ptr : option Z;
  sched_prev : option Z;
  memory : Z → Z;
  realtime : Z;
  shutdown_started : bool;
  k_reenter : Z;
  k_frame : Z;
  k_intr : bool;
  k_log : list (Z * Z * Z);
  k_irqs : irqs;
  k_clock : clock;
  k_random : list random_bin }.

(** ** Access *)

Definition with_procs (x : list proc) (k : kst) : kst :=
  Kst x (privs k) (rdy_head k) (rdy_tail k) (proc_ptr k) (next_ptr k) (bill_ptr k) (sched_prev k)
    (memory k) (realtime k) (shutdown_started k) (k_reenter k) (k_frame k) (k_intr k) (k_log k)
    (k_irqs k) (k_clock k) (k_random k).
Definition with_privs (x : list priv) (k : kst) : kst :=
  Kst (procs k) x (rdy_head k) (rdy_tail k) (proc_ptr k) (next_ptr k) (bill_ptr k) (sched_prev k)
    (memory k) (realtime k) (shutdown_started k) (k_reenter k) (k_frame k) (k_intr k) (k_log k)
    (k_irqs k) (k_clock k) (k_random k).
Definition with_rdy (h t : list (option Z)) (k : kst) : kst :=
  Kst (procs k) (privs k) h t (proc_ptr k) (next_ptr k) (bill_ptr k) (sched_prev k)
    (memory k) (realtime k) (shutdown_started k) (k_reenter k) (k_frame k) (k_intr k) (k_log k)
    (k_irqs k) (k_clock k) (k_random k).
Definition with_next (n b : option Z) (k : kst) : kst :=
  Kst (procs k) (privs k) (rdy_head k) (rdy_tail k) (proc_ptr k) n b (sched_prev k)
    (memory k) (realtime k) (shutdown_started k) (k_reenter k) (k_frame k) (k_intr k) (k_log k)
    (k_irqs k) (k_clock k) (k_random k).
Definition with_prev (x : option Z) (k : kst) : kst :=
  Kst (procs k) (privs k) (rdy_head k) (rdy_tail k) (proc_ptr k) (next_ptr k) (bill_ptr k) x
    (memory k) (realtime k) (shutdown_started k) (k_reenter k) (k_frame k) (k_intr k) (k_log k)
    (k_irqs k) (k_clock k) (k_random k).
Definition with_memory (x : Z → Z) (k : kst) : kst :=
  Kst (procs k) (privs k) (rdy_head k) (rdy_tail k) (proc_ptr k) (next_ptr k) (bill_ptr k)
    (sched_prev k) x (realtime k) (shutdown_started k) (k_reenter k) (k_frame k) (k_intr k) (k_log k)
    (k_irqs k) (k_clock k) (k_random k).
Definition with_intr (x : bool) (k : kst) : kst :=
  Kst (procs k) (privs k) (rdy_head k) (rdy_tail k) (proc_ptr k) (next_ptr k) (bill_ptr k)
    (sched_prev k) (memory k) (realtime k) (shutdown_started k) (k_reenter k) (k_frame k) x (k_log k)
    (k_irqs k) (k_clock k) (k_random k).
Definition with_log (x : list (Z * Z * Z)) (k : kst) : kst :=
  Kst (procs k) (privs k) (rdy_head k) (rdy_tail k) (proc_ptr k) (next_ptr k) (bill_ptr k)
    (sched_prev k) (memory k) (realtime k) (shutdown_started k) (k_reenter k) (k_frame k) (k_intr k) x
    (k_irqs k) (k_clock k) (k_random k).

Definition rd_proc (i : Z) : M kst proc := k ← get; lift_opt (zget (procs k) i).
Definition upd_proc (i : Z) (f : proc → proc) : M kst unit :=
  k ← get;
  p ← lift_opt (zget (procs k) i);
  t ← lift_opt (zset (procs k) i (f p));
  modify (with_procs t).
Definition rd_priv (i : Z) : M kst priv := k ← get; lift_opt (zget (privs k) i).
Definition upd_priv (i : Z) (f : priv → priv) : M kst unit :=
  k ← get;
  p ← lift_opt (zget (privs k) i);
  t ← lift_opt (zset (privs k) i (f p));
  modify (with_privs t).

(** [priv(rp)], [proc_addr(n)], [isokprocn(n)], [iskerneln(n)]. *)
Definition priv_of (i : Z) : M kst priv := p ← rd_proc i; rd_priv (p_priv p).
Definition upd_priv_of (i : Z) (f : priv → priv) : M kst unit :=
  p ← rd_proc i; upd_priv (p_priv p) f.
Definition proc_addr (n : Z) : Z := n + NR_TASKS.
Definition isokprocn (n : Z) : bool := u32 (n + NR_TASKS) <? NR_PROCS + NR_TASKS.
Definition iskerneln (n : Z) : bool := n <? 0.

Definition set_rts (f : Z) (p : proc) : proc :=
  Proc (p_nr p) (p_priv p) f (p_priority p) (p_max_priority p) (p_ticks_left p) (p_quantum_size p)
    (p_mapD p) (p_mapS p) (p_nextready p) (p_caller_q p) (p_q_link p) (p_messbuf p) (p_getfrom p) (p_sendto p)
    (p_pending p) (p_user_time p) (p_sys_time p) (p_mapT p).
Definition set_sched (prio ticks : Z) (p : proc) : proc :=
  Proc (p_nr p) (p_priv p) (p_rts_flags p) prio (p_max_priority p) ticks (p_quantum_size p)
    (p_mapD p) (p_mapS p) (p_nextready p) (p_caller_q p) (p_q_link p) (p_messbuf p) (p_getfrom p) (p_sendto p)
    (p_pending p) (p_user_time p) (p_sys_time p) (p_mapT p).
Definition set_nextready (x : option Z) (p : proc) : proc :=
  Proc (p_nr p) (p_priv p) (p_rts_flags p) (p_priority p) (p_max_priority p) (p_ticks_left p) (p_quantum_size p)
    (p_mapD p) (p_mapS p) x (p_caller_q p) (p_q_link p) (p_messbuf p) (p_getfrom p) (p_sendto p)
    (p_pending p) (p_user_time p) (p_sys_time p) (p_mapT p).
Definition set_caller_q (x : option Z) (p : proc) : proc :=
  Proc (p_nr p) (p_priv p) (p_rts_flags p) (p_priority p) (p_max_priority p) (p_ticks_left p) (p_quantum_size p)
    (p_mapD p) (p_mapS p) (p_nextready p) x (p_q_link p) (p_messbuf p) (p_getfrom p) (p_sendto p)
    (p_pending p) (p_user_time p) (p_sys_time p) (p_mapT p).
Definition set_q_link (x : option Z) (p : proc) : proc :=
  Proc (p_nr p) (p_priv p) (p_rts_flags p) (p_priority p) (p_max_priority p) (p_ticks_left p) (p_quantum_size p)
    (p_mapD p) (p_mapS p) (p_nextready p) (p_caller_q p) x (p_messbuf p) (p_getfrom p) (p_sendto p)
    (p_pending p) (p_user_time p) (p_sys_time p) (p_mapT p).
Definition set_messbuf (x : Z) (p : proc) : proc :=
  Proc (p_nr p) (p_priv p) (p_rts_flags p) (p_priority p) (p_max_priority p) (p_ticks_left p) (p_quantum_size p)
    (p_mapD p) (p_mapS p) (p_nextready p) (p_caller_q p) (p_q_link p) x (p_getfrom p) (p_sendto p)
    (p_pending p) (p_user_time p) (p_sys_time p) (p_mapT p).
Definition set_getfrom (x : Z) (p : proc) : proc :=
  Proc (p_nr p) (p_priv p) (p_rts_flags p) (p_priority p) (p_max_priority p) (p_ticks_left p) (p_quantum_size p)
    (p_mapD p) (p_mapS p) (p_nextready p) (p_caller_q p) (p_q_link p) (p_messbuf p) x (p_sendto p)
    (p_pending p) (p_user_time p) (p_sys_time p) (p_mapT p).
Definition set_sendto (x : Z) (p : proc) : proc :=
  Proc (p_nr p) (p_priv p) (p_rts_flags p) (p_priority p) (p_max_priority p) (p_ticks_left p) (p_quantum_size p)
    (p_mapD p) (p_mapS p) (p_nextready p) (p_caller_q p) (p_q_link p) (p_messbuf p) (p_getfrom p) x
    (p_pending p) (p_user_time p) (p_sys_time p) (p_mapT p).

Definition set_flags (x : Z) (s : priv) : priv :=
  Priv (s_proc_nr s) (s_id s) x (s_trap_mask s) (s_ipc_to s) (s_notify_pending s)
    (s_int_pending s) (s_sig_pending s) (s_stack_guard s) (s_call_mask s) (s_farmem s).
Definition set_pending (x : list Z) (s : priv) : priv :=
  Priv (s_proc_nr s) (s_id s) (s_flags s) (s_trap_mask s) (s_ipc_to s) x
    (s_int_pending s) (s_sig_pending s) (s_stack_guard s) (s_call_mask s) (s_farmem s).
Definition set_int_pending (x : Z) (s : priv) : priv :=
  Priv (s_proc_nr s) (s_id s) (s_flags s) (s_trap_mask s) (s_ipc_to s) (s_notify_pending s)
    x (s_sig_pending s) (s_stack_guard s) (s_call_mask s) (s_farmem s).
Definition set_sig_pending (x : Z) (s : priv) : priv :=
  Priv (s_proc_nr s) (s_id s) (s_flags s) (s_trap_mask s) (s_ipc_to s) (s_notify_pending s)
    (s_int_pending s) x (s_stack_guard s) (s_call_mask s) (s_farmem s).

(** Flag tests [f & m]. *)
Definition has (f m : Z) : bool := negb (Z.land f m =? 0).

(** ** Messages in memory *)

Definition st8 (a v : Z) (m : Z → Z) : Z → Z := λ x, if x =? a then v else m x.
Definition ld32 (a : Z) (m : Z → Z) : Z :=
  m (u32 a) + 256 * m (u32 (a + 1)) + 65536 * m (u32 (a + 2)) + 16777216 * m (u32 (a + 3)).
Definition st32 (a v : Z) (m : Z → Z) : Z → Z :=
  st8 (u32 (a + 3)) (u8 (Z.shiftr v 24)) (st8 (u32 (a + 2)) (u8 (Z.shiftr v 16))
    (st8 (u32 (a + 1)) (u8 (Z.shiftr v 8)) (st8 (u32 a) (u8 v) m))).

Fixpoint copy_words (n : nat) (src dst : Z) (m : Z → Z) : Z → Z :=
  match n with
  | O => m
  | S n' => copy_words n' (src + 4) (dst + 4) (st32 dst (ld32 src m) m)
  end.

(** [cp_mess]: the number of the sender, then the words after the first. *)
Definition cp_mess (src src_clicks src_offset dst_clicks dst_offset : Z) (m : Z → Z) : Z → Z :=
  let esi := u32 (Z.shiftl src_clicks CLICK_SHIFT) + src_offset in
  let edi := u32 (Z.shiftl dst_clicks CLICK_SHIFT) + dst_offset in
  copy_words 8 (esi + 4) (edi + 4) (st32 edi src m).

(** [CopyMess(s,sp,sm,dp,dm)]. *)
Definition CopyMess (s sp sm dp dm : Z) : M kst unit :=
  x ← rd_proc sp;
  y ← rd_proc dp;
  k ← get;
  modify (with_memory (cp_mess s (mem_phys (p_mapD x)) sm (mem_phys (p_mapD y)) dm (memory k))).

(** [BuildMess(&m, src, dst_ptr)], [m] being on the kernel stack. *)
Definition BuildMess (src dst_ptr : Z) : M kst unit :=
  k ← get;
  h ← rd_proc (proc_addr HARDWARE);
  let base := u32 (Z.shiftl (mem_phys (p_mapD h)) CLICK_SHIFT) + k_frame k in
  let put off v := modify (λ k, with_memory (st32 (base + off) v (memory k)) k) in
  put 0 src;;
  put 4 (Z.lor NOTIFY_MESSAGE (src + NR_TASKS));;
  put 24 (realtime k);;
  if src =? HARDWARE then
    s ← priv_of dst_ptr;
    put 20 (s_int_pending s);;
    upd_priv_of dst_ptr (set_int_pending 0)
  else if src =? SYSTEM then
    s ← priv_of dst_ptr;
    put 20 (s_sig_pending s);;
    upd_priv_of dst_ptr (set_sig_pending 0)
  else mret tt.

(** ** Scheduling *)

Definition pick_step (q : Z) (found : bool) : M kst bool :=
  if found then mret true else
  k ← get;
  h ← lift_opt (zget (rdy_head k) q);
  match h with
  | None => mret false
  | Some rp =>
      modify (λ k, with_next (Some rp) (bill_ptr k) k);;
      s ← priv_of rp;
      when (has (s_flags s) BILLABLE) (modify (λ k, with_next (next_ptr k) (Some rp) k));;
      mret true
  end.

Fixpoint pick_queues (qs : list Z) (found : bool) : M kst bool :=
  match qs with
  | [] => mret found
  | q :: qs' => f ← pick_step q found; pick_queues qs' f
  end.

Definition pick_proc : M kst unit :=
  _ ← pick_queues (range 0 (Z.to_nat NR_SCHED_QUEUES)) false; mret tt.

(** Returns the queue and whether to insert at its front. *)
Definition sched (rp : Z) : M kst (Z * bool) :=
  p ← rd_proc rp;
  k ← get;
  let time_left := 0 <? p_ticks_left p in
  let penalty := if time_left then 0 else if decide (sched_prev k = Some rp) then 1 else -1 in
  let ticks := if time_left then p_ticks_left p else p_quantum_size p in
  when (negb time_left) (modify (with_prev (Some rp)));;
  let prio := p_priority p + penalty in
  let prio' :=
    if negb (penalty =? 0) && negb (iskerneln (p_nr p)) then
      if prio <? p_max_priority p then p_max_priority p
      else if IDLE_Q - 1 <? prio then IDLE_Q - 1 else prio
    else p_priority p in
  upd_proc rp (set_sched prio' ticks);;
  mret (prio', time_left).

(** The part of [enqueue] that adds the process to queue [q]. *)
Definition insert_ready (rp q : Z) (front : bool) : M kst unit :=
  k ← get;
  h ← lift_opt (zget (rdy_head k) q);
  if decide (h = None) then
    hs ← lift_opt (zset (rdy_head k) q (Some rp));
    ts ← lift_opt (zset (rdy_tail k) q (Some rp));
    modify (with_rdy hs ts);;
    upd_proc rp (set_nextready None)
  else if front then
    upd_proc rp (set_nextready h);;
    hs ← lift_opt (zset (rdy_head k) q (Some rp));
    modify (with_rdy hs (rdy_tail k))
  else
    t ← lift_opt (zget (rdy_tail k) q);
    tl ← lift_opt t;
    upd_proc tl (set_nextready (Some rp));;
    ts ← lift_opt (zset (rdy_tail k) q (Some rp));
    modify (with_rdy (rdy_head k) ts);;
    upd_proc rp (set_nextready None).

Definition enqueue (rp : Z) : M kst unit :=
  '(q, front) ← sched rp;
  insert_ready rp q front;;
  pick_proc.

(** The walk of [dequeue] along the ready queue: [prev] is the entry whose link
    [xpp] is, [None] for the head of the queue, and [x] is [*xpp]; [*xpp = v] is
    [set_ready_link]. *)
Definition set_ready_link (q : Z) (prev v : option Z) : M kst unit :=
  match prev with
  | None =>
      k ← get;
      hs ← lift_opt (zset (rdy_head k) q v);
      modify (with_rdy hs (rdy_tail k))
  | Some j => upd_proc j (set_nextready v)
  end.

Definition dequeue_step (rp q : Z) : option Z * option Z → M kst (option Z * option Z + unit) :=
  λ '(prev, x),
    match x with
    | None => mret (inr tt)
    | Some i =>
        p ← rd_proc i;
        if i =? rp then
          set_ready_link q prev (p_nextready p);;
          k ← get;
          t ← lift_opt (zget (rdy_tail k) q);
          when (bool_decide (t = Some rp))
            (ts ← lift_opt (zset (rdy_tail k) q prev); modify (with_rdy (rdy_head k) ts));;
          when ((rp =? proc_ptr k) || bool_decide (next_ptr k = Some rp)) pick_proc;;
          mret (inr tt)
        else mret (inl (Some i, p_nextready p))
    end.

Definition proc_fuel : nat := S (Z.to_nat (NR_TASKS + NR_PROCS)).

Definition dequeue (rp : Z) : M kst unit :=
  p ← rd_proc rp;
  let q := p_priority p in
  bad ← (if iskerneln (p_nr p)
         then (s ← priv_of rp; mret (negb (s_stack_guard s =? STACK_GUARD)))
         else mret false);
  if (bad : bool) then halt else
  k ← get;
  h ← lift_opt (zget (rdy_head k) q);
  loop proc_fuel (dequeue_step rp q) (None, h).

(** ** Message passing *)

(** Following the destinations of processes that are sending; [true] means
    that the caller is among them. *)
Definition deadlock_step (caller : Z) (xp : Z) : M kst (Z + bool) :=
  p ← rd_proc xp;
  if has (p_rts_flags p) SENDING then
    let xp' := proc_addr (p_sendto p) in
    if xp' =? caller then mret (inr true) else mret (inl xp')
  else mret (inr false).

(** The end of the queue of callers: [prev] is the entry whose link [xpp] is,
    [None] for the head of the queue. *)
Definition caller_tail_step : option Z * option Z → M kst (option Z * option Z + option Z) :=
  λ '(prev, x),
    match x with
    | None => mret (inr prev)
    | Some i => p ← rd_proc i; mret (inl (Some i, p_q_link p))
    end.

(** [*xpp = v]. *)
Definition set_caller_link (owner : Z) (prev v : option Z) : M kst unit :=
  match prev with
  | None => upd_proc owner (set_caller_q v)
  | Some j => upd_proc j (set_q_link v)
  end.

(** The caller goes to the end of the destination's queue. *)
Definition queue_caller (dst_ptr caller : Z) : M kst unit :=
  d ← rd_proc dst_ptr;
  prev ← loop proc_fuel caller_tail_step (None, p_caller_q d);
  set_caller_link dst_ptr prev (Some caller);;
  upd_proc caller (set_q_link None).

(** The process is waiting for a message from the number [from]. *)
Definition awaits (p : proc) (from : Z) : bool :=
  (Z.land (p_rts_flags p) (Z.lor RECEIVING SENDING) =? RECEIVING) &&
  ((p_getfrom p =? ANY) || (p_getfrom p =? from)).

(** [rp->p_rts_flags &= ~f] and, when nothing is left, [enqueue(rp)]. *)
Definition unblock (rp f : Z) : M kst unit :=
  p ← rd_proc rp;
  let fl := Z.ldiff (p_rts_flags p) f in
  upd_proc rp (set_rts fl);;
  when (fl =? 0) (enqueue rp).

(** [if (rp->p_rts_flags == 0) dequeue(rp); rp->p_rts_flags |= f]. *)
Definition block (rp f : Z) : M kst unit :=
  p ← rd_proc rp;
  when (p_rts_flags p =? 0) (dequeue rp);;
  upd_proc rp (λ p, set_rts (Z.lor (p_rts_flags p) f) p).

Definition mini_send (caller dst m_ptr flags : Z) : M kst Z :=
  let dst_ptr := proc_addr dst in
  locked ← loop proc_fuel (deadlock_step caller) dst_ptr;
  if (locked : bool) then mret ELOCKED else
  c ← rd_proc caller;
  d ← rd_proc dst_ptr;
  if awaits d (p_nr c) then
    CopyMess (p_nr c) caller m_ptr dst_ptr (p_messbuf d);;
    unblock dst_ptr RECEIVING;;
    mret OK
  else if negb (has flags NON_BLOCKING) then
    upd_proc caller (set_messbuf m_ptr);;
    block caller SENDING;;
    upd_proc caller (set_sendto dst);;
    queue_caller dst_ptr caller;;
    mret OK
  else mret ENOTREADY.

(** The bit of a chunk that is set first. *)
Fixpoint first_bit (fuel : nat) (i chunk : Z) : Z :=
  match fuel with
  | O => i
  | S fuel' => if Z.testbit chunk i then i else first_bit fuel' (i + 1) chunk
  end.

Definition NR_SYS_CHUNKS : Z := 2.
Definition BITCHUNK_BITS : Z := 16.

(** One turn over the chunks of the pending notifications: [None] goes on to
    the next chunk, [Some false] leaves the loop, [Some true] has delivered. *)
Definition pending_step (caller src m_ptr j : Z) : M kst (option bool) :=
  s ← priv_of caller;
  chunk ← lift_opt (zget (s_notify_pending s) j);
  if chunk =? 0 then mret None else
  let i := first_bit 16 0 chunk in
  let src_id := j * BITCHUNK_BITS + i in
  if NR_SYS_PROCS <=? src_id then mret (Some false) else
  o ← rd_priv src_id;
  let src_proc_nr := s_proc_nr o in
  if negb (src =? ANY) && negb (src =? src_proc_nr) then mret None else
  l ← lift_opt (zset (s_notify_pending s) j (Z.ldiff chunk (Z.shiftl 1 i)));
  upd_priv_of caller (set_pending l);;
  BuildMess src_proc_nr caller;;
  k ← get;
  CopyMess src_proc_nr (proc_addr HARDWARE) (k_frame k) caller m_ptr;;
  mret (Some true).

Fixpoint pending_loop (caller src m_ptr : Z) (js : list Z) : M kst bool :=
  match js with
  | [] => mret false
  | j :: js' =>
      r ← pending_step caller src m_ptr j;
      match r with
      | None => pending_loop caller src m_ptr js'
      | Some b => mret b
      end
  end.

(** The message of the sender [i] is copied and the sender released and taken
    off the queue. *)
Definition take_message (caller m_ptr : Z) (prev : option Z) (i : Z) : M kst unit :=
  p ← rd_proc i;
  CopyMess (p_nr p) i (p_messbuf p) caller m_ptr;;
  unblock i SENDING;;
  p' ← rd_proc i;
  set_caller_link caller prev (p_q_link p').

(** The walk of [mini_receive] along the queue of callers. *)
Definition receive_step (caller src m_ptr : Z)
    : option Z * option Z → M kst (option Z * option Z + bool) :=
  λ '(prev, x),
    match x with
    | None => mret (inr false)
    | Some i =>
        p ← rd_proc i;
        if (src =? ANY) || (src =? p_nr p) then
          take_message caller m_ptr prev i;;
          mret (inr true)
        else mret (inl (Some i, p_q_link p))
    end.

Definition mini_receive (caller src m_ptr flags : Z) : M kst Z :=
  c ← rd_proc caller;
  s ← priv_of caller;
  got ← (if has (p_rts_flags c) SENDING then mret false else
         noted ← (if has (s_flags s) SENDREC_BUSY then mret false
                  else pending_loop caller src m_ptr (range 0 (Z.to_nat NR_SYS_CHUNKS)));
         if (noted : bool) then mret true
         else loop proc_fuel (receive_step caller src m_ptr) (None, p_caller_q c));
  if (got : bool) then mret OK else
  if negb (has flags NON_BLOCKING) then
    upd_proc caller (set_getfrom src);;
    upd_proc caller (set_messbuf m_ptr);;
    block caller RECEIVING;;
    mret OK
  else mret ENOTREADY.

Definition set_sys_bit (map : list Z) (bit : Z) : option (list Z) :=
  c ← zget map (bit / BITCHUNK_BITS);
  zset map (bit / BITCHUNK_BITS) (Z.lor c (Z.shiftl 1 (bit mod BITCHUNK_BITS))).
Definition get_sys_bit (map : list Z) (bit : Z) : option bool :=
  c ← zget map (bit / BITCHUNK_BITS);
  Some (has c (Z.shiftl 1 (bit mod BITCHUNK_BITS))).

Definition mini_notify (caller dst : Z) : M kst Z :=
  let dst_ptr := proc_addr dst in
  c ← rd_proc caller;
  d ← rd_proc dst_ptr;
  ds ← priv_of dst_ptr;
  if awaits d (p_nr c) && negb (has (s_flags ds) SENDREC_BUSY) then
    BuildMess (p_nr c) dst_ptr;;
    k ← get;
    CopyMess (p_nr c) (proc_addr HARDWARE) (k_frame k) dst_ptr (p_messbuf d);;
    unblock dst_ptr RECEIVING;;
    mret OK
  else
    cs ← priv_of caller;
    l ← lift_opt (set_sys_bit (s_notify_pending ds) (s_id cs));
    upd_priv_of dst_ptr (set_pending l);;
    mret OK.

(** ** Leaving the kernel *)

Definition with_running (c : Z) (n : option Z) (k : kst) : kst :=
  Kst (procs k) (privs k) (rdy_head k) (rdy_tail k) c n (bill_ptr k) (sched_prev k) (memory k)
    (realtime k) (shutdown_started k) (k_reenter k) (k_frame k) (k_intr k) (k_log k)
    (k_irqs k) (k_clock k) (k_random k).

(** The choice [restart] makes before it goes back to a process. *)
Definition restart : M kst unit :=
  k ← get;
  match next_ptr k with
  | Some n => modify (with_running n None)
  | None => mret tt
  end.

(** ** Gateways *)

Definition lock : M kst unit := modify (with_intr false).
Definition unlock : M kst unit := modify (with_intr true).

Definition lock_notify (src dst : Z) : M kst Z :=
  k ← get;
  if 0 <=? k_reenter k then mini_notify (proc_addr src) dst
  else lock;; r ← mini_notify (proc_addr src) dst; unlock;; mret r.

Definition lock_send (dst m_ptr : Z) : M kst Z :=
  lock;; k ← get; r ← mini_send (proc_ptr k) dst m_ptr NON_BLOCKING; unlock;; mret r.

Definition lock_enqueue (rp : Z) : M kst unit := lock;; enqueue rp;; unlock.
Definition lock_dequeue (rp : Z) : M kst unit := lock;; dequeue rp;; unlock.

(** A refused call leaves a line with the function, the caller and the other
    process. *)
Definition deny (function caller src_dst err : Z) : M kst Z :=
  c ← rd_proc caller;
  modify (λ k, with_log (k_log k ++ [(function, p_nr c, src_dst)]) k);;
  mret err.

(** The message buffer lies in the data or stack of the process, or between. *)
Definition bad_pointer (c : proc) (m_ptr : Z) : bool :=
  let vlo := Z.shiftr m_ptr CLICK_SHIFT in
  let vhi := Z.shiftr (u32 (m_ptr + MESS_SIZE - 1)) CLICK_SHIFT in
  (vlo <? mem_vir (p_mapD c)) || (vhi <? vlo) ||
  (u32 (mem_vir (p_mapS c) + mem_len (p_mapS c)) <=? vhi).

(** Whether a call that sends may send: [None] when it may. *)
Definition check_dst (caller src_dst : Z) : M kst (option Z) :=
  s ← priv_of caller;
  o ← priv_of (proc_addr src_dst);
  may ← lift_opt (get_sys_bit (s_ipc_to s) (s_id o));
  if negb (may : bool) then mret (Some ECALLDENIED) else
  d ← rd_proc (proc_addr src_dst);
  k ← get;
  if (p_rts_flags d =? SLOT_FREE) && negb (shutdown_started k) then mret (Some EDEADDST)
  else mret None.

Definition sys_call (call_nr src_dst m_ptr : Z) : M kst Z :=
  k ← get;
  let caller := proc_ptr k in
  let function := Z.land call_nr SYSCALL_FUNC in
  let flags := Z.land call_nr SYSCALL_FLAGS in
  c ← rd_proc caller;
  s ← priv_of caller;
  if negb (has (s_trap_mask s) (Z.shiftl 1 function)) ||
     (iskerneln src_dst && negb (function =? SENDREC) && negb (function =? RECEIVE))
  then deny function caller src_dst ECALLDENIED else
  if negb (isokprocn src_dst || (src_dst =? ANY) || (function =? ECHO))
  then deny function caller src_dst EBADSRCDST else
  if has function CHECK_PTR && bad_pointer c m_ptr
  then deny function caller src_dst EFAULT else
  refused ← (if has function CHECK_DST then check_dst caller src_dst else mret None);
  match refused with
  | Some e => deny function caller src_dst e
  | None =>
      if function =? SENDREC then
        upd_priv_of caller (λ s, set_flags (Z.lor (s_flags s) SENDREC_BUSY) s);;
        r ← mini_send caller src_dst m_ptr flags;
        if negb (r =? OK) then mret r else mini_receive caller src_dst m_ptr flags
      else if function =? SEND then mini_send caller src_dst m_ptr flags
      else if function =? RECEIVE then
        upd_priv_of caller (λ s, set_flags (Z.ldiff (s_flags s) SENDREC_BUSY) s);;
        mini_receive caller src_dst m_ptr flags
      else if function =? NOTIFY then mini_notify caller src_dst
      else if function =? ECHO then
        CopyMess (p_nr c) caller m_ptr caller m_ptr;; mret OK
      else mret EBADCALL
  end.
