(* ===== verification/IpcQueues.v ===== *)
(** * Messages and ready queues of the reference kernel

    What a copied message is, and the ready queues of the scheduler. *)

From S2P Require Import Prelude Linked Ipc.

(** ** Messages in memory *)

Lemma u32_id x : 0 ≤ x < 2 ^ 32 → u32 x = x.
Proof. intros. unfold u32. by apply Z.mod_small. Qed.

(** *** Copying messages *)

Definition bytes (m : Z → Z) : Prop := ∀ a, 0 ≤ m a < 256.

Lemma st32_other a v m x :
  0 ≤ a → a + 4 ≤ 2 ^ 32 → x < a ∨ a + 4 ≤ x → st32 a v m x = m x.
Proof.
  intros H0 H1 Hx. unfold st32, st8. rewrite !u32_id by lia.
  repeat match goal with |- context [x =? ?b] => destruct (Z.eqb_spec x b); [lia|] end. done.
Qed.

Lemma st32_byte a v m j :
  0 ≤ a → a + 4 ≤ 2 ^ 32 → 0 ≤ j < 4 → st32 a v m (a + j) = u8 (Z.shiftr v (8 * j)).
Proof.
  intros H0 H1 Hj. unfold st32, st8. rewrite !u32_id by lia.
  assert (j = 0 ∨ j = 1 ∨ j = 2 ∨ j = 3) as [-> | [-> | [-> | ->]]] by lia;
    rewrite ?Z.add_0_r;
    repeat match goal with |- context [?x =? ?b] => destruct (Z.eqb_spec x b); [done || lia|] end; lia.
Qed.

Lemma ld32_byte a m j :
  bytes m → 0 ≤ a → a + 4 ≤ 2 ^ 32 → 0 ≤ j < 4 → u8 (Z.shiftr (ld32 a m) (8 * j)) = m (a + j).
Proof.
  intros Hb H0 H1 Hj. unfold ld32, u8. rewrite !u32_id by lia.
  pose proof (Hb a). pose proof (Hb (a + 1)). pose proof (Hb (a + 2)). pose proof (Hb (a + 3)).
  rewrite Z.shiftr_div_pow2 by lia.
  assert (j = 0 ∨ j = 1 ∨ j = 2 ∨ j = 3) as [-> | [-> | [-> | ->]]] by lia; cbn; rewrite ?Z.add_0_r;
    Z.div_mod_to_equations; lia.
Qed.

Lemma bytes_st32 a v m : bytes m → bytes (st32 a v m).
Proof.
  intros Hb x. unfold st32, st8. do 4 (case_match; [unfold u8; apply Z.mod_pos_bound; lia|]).
  apply Hb.
Qed.

Lemma copy_words_run n : ∀ src dst m,
  bytes m → 0 ≤ src → 0 ≤ dst → src + 4 * Z.of_nat n ≤ 2 ^ 32 → dst + 4 * Z.of_nat n ≤ 2 ^ 32 →
  src + 4 * Z.of_nat n ≤ dst ∨ dst + 4 * Z.of_nat n ≤ src →
  (∀ j, 0 ≤ j < 4 * Z.of_nat n → copy_words n src dst m (dst + j) = m (src + j)) ∧
  (∀ x, x < dst ∨ dst + 4 * Z.of_nat n ≤ x → copy_words n src dst m x = m x).
Proof.
  induction n as [|n IH]; intros src dst m Hb Hs Hd Hse Hde Hdis; [by split; intros; [lia|]|].
  cbn [copy_words]. set (m1 := st32 dst (ld32 src m) m).
  destruct (IH (src + 4) (dst + 4) m1) as [Hin Hout]; [by apply bytes_st32|lia..|].
  assert (∀ x, x < dst ∨ dst + 4 ≤ x → m1 x = m x) as Ho by (intros; apply st32_other; lia).
  split.
  - intros j Hj. destruct (decide (j < 4)).
    + rewrite Hout by lia. unfold m1. rewrite st32_byte, ld32_byte by (done || lia). done.
    + replace (dst + j) with (dst + 4 + (j - 4)) by lia. rewrite Hin by lia.
      replace (src + 4 + (j - 4)) with (src + j) by lia. apply Ho. lia.
  - intros x Hx. rewrite Hout by lia. apply Ho. lia.
Qed.

(** The absolute address of a buffer at offset [off] of a segment. *)
Definition absolute (clicks off : Z) : Z := u32 (Z.shiftl clicks CLICK_SHIFT) + off.

Lemma cp_mess_run nr sc so dc d m :
  let src := absolute sc so in let dst := absolute dc d in
  bytes m → 0 ≤ src → 0 ≤ dst → src + MESS_SIZE ≤ 2 ^ 32 → dst + MESS_SIZE ≤ 2 ^ 32 →
  src + MESS_SIZE ≤ dst ∨ dst + MESS_SIZE ≤ src →
  let m' := cp_mess nr sc so dc d m in
  ld32 dst m' = u32 nr ∧
  (∀ j, 4 ≤ j < MESS_SIZE → m' (dst + j) = m (src + j)) ∧
  (∀ x, x < dst ∨ dst + MESS_SIZE ≤ x → m' x = m x).
Proof.
  intros src dst Hb Hs Hd Hse Hde Hdis m'. unfold MESS_SIZE in *.
  set (m1 := st32 dst nr m).
  destruct (copy_words_run 8 (src + 4) (dst + 4) m1) as [Hin Hout]; [by apply bytes_st32|cbn; lia..|].
  cbn [Z.of_nat] in Hin, Hout. unfold m', cp_mess. fold (absolute sc so) (absolute dc d) src dst m1.
  assert (∀ x, x < dst ∨ dst + 4 ≤ x → m1 x = m x) as Ho by (intros; apply st32_other; lia).
  split_and!.
  - unfold ld32. rewrite !u32_id by lia. rewrite !Hout by lia. rewrite <- (Z.add_0_r dst) at 1.
    unfold m1. rewrite !st32_byte by lia. unfold u8, u32. rewrite !Z.shiftr_div_pow2 by lia. cbn.
    Z.div_mod_to_equations. lia.
  - intros j Hj. replace (dst + j) with (dst + 4 + (j - 4)) by lia. rewrite Hin by lia.
    replace (src + 4 + (j - 4)) with (src + j) by lia. apply Ho. lia.
  - intros x Hx. rewrite Hout by lia. apply Ho. lia.
Qed.

(** ** The ready queues of the reference kernel *)

(** *** Views of the process table *)

Definition view {A} (f : proc → A) (ps : list proc) (i : Z) : option A := f <$> zget ps i.

Lemma view_upd {A} (f : proc → A) ps i p j :
  0 ≤ i < zlen ps → view f (upd ps i p) j = if i =? j then Some (f p) else view f ps j.
Proof. intros. unfold view. rewrite zget_upd by done. by destruct (i =? j). Qed.

Lemma view_same {A} (f : proc → A) ps i p p' j :
  zget ps i = Some p → f p' = f p → view f (upd ps i p') j = view f ps j.
Proof.
  intros Hz Hf. rewrite view_upd by (by eapply zget_Some_range).
  destruct (Z.eqb_spec i j) as [<-|]; [|done]. unfold view. rewrite Hz. simpl. by rewrite Hf.
Qed.

Lemma view_Some {A} (f : proc → A) ps i x :
  view f ps i = Some x ↔ ∃ p, zget ps i = Some p ∧ f p = x.
Proof. unfold view. rewrite fmap_Some. naive_solver. Qed.

Lemma view_get {A} (f : proc → A) ps i p : zget ps i = Some p → view f ps i = Some (f p).
Proof. unfold view. by intros ->. Qed.

(** Everything but the scheduling fields. *)
Definition core (p : proc) :=
  (p_nr p, p_priv p, p_rts_flags p, p_max_priority p, p_quantum_size p,
   (p_mapD p, p_mapS p, p_caller_q p, p_q_link p, p_messbuf p, p_getfrom p, p_sendto p),
   (p_pending p, p_user_time p, p_sys_time p, p_mapT p)).

Definition keeps (ps ps' : list proc) : Prop :=
  zlen ps' = zlen ps ∧ ∀ i, view core ps' i = view core ps i.

#[global] Instance keeps_po : PreOrder keeps.
Proof.
  split; [done|]. intros a b c [Hl Hv] [Hl' Hv']. split; [congruence|].
  intros i. by rewrite Hv', Hv.
Qed.

Lemma keeps_upd ps i p p' : zget ps i = Some p → core p' = core p → keeps ps (upd ps i p').
Proof. intros Hz Hc. split; [apply zlen_upd|]. intros j. by eapply view_same. Qed.

Lemma keeps_view {A} (f : proc → A) ps ps' i :
  (∀ p p', core p' = core p → f p' = f p) → keeps ps ps' → view f ps' i = view f ps i.
Proof.
  intros Hf [_ Hv]. specialize (Hv i). unfold view in *.
  destruct (zget ps' i) as [p'|], (zget ps i) as [p|]; simpl in *; try done.
  f_equal. apply Hf. by apply (inj Some).
Qed.

Lemma keeps_get ps ps' i p :
  keeps ps ps' → zget ps i = Some p → ∃ p', zget ps' i = Some p' ∧ core p' = core p.
Proof.
  intros [_ Hv] Hz. specialize (Hv i). unfold view in Hv. rewrite Hz in Hv. simpl in Hv.
  apply fmap_Some in Hv as (p' & ? & ?). by exists p'.
Qed.

(** *** The invariant of the queues *)

Definition in_q (q : Z) : Prop := 0 ≤ q < NR_SCHED_QUEUES.

(** [Q q] is queue [q]: linked from its head to its tail, and its members are
    the processes of priority [q] that satisfy [R]. *)
Record ready (ps : list proc) (hd tl : list (option Z)) (R : Z → Prop) (Q : Z → list Z) : Prop := Ready {
  rd_head : ∀ q, in_q q → zget hd q = Some (head (Q q));
  rd_tail : ∀ q, in_q q → zget tl q = Some (last (Q q));
  rd_link : ∀ q, in_q q → linked (view p_nextready ps) (head (Q q)) (Q q);
  rd_mem : ∀ q i, in_q q → i ∈ Q q ↔ R i ∧ view p_priority ps i = Some q }.

(** The process that goes first: the head of the first queue that is not
    empty. *)
Definition top (Q : Z → list Z) : option Z :=
  head (mjoin (Q <$> range 0 (Z.to_nat NR_SCHED_QUEUES))).

(** The process that runs when the kernel is left: [next_ptr] when it is set,
    else the one that ran before. *)
Definition chosen (k : kst) : Z := default (proc_ptr k) (next_ptr k).

(** Every process has its privileges; those of a task that can run have the
    guard word. *)
Definition privileged (ps : list proc) (ss : list priv) : Prop :=
  ∀ i p, zget ps i = Some p → p_rts_flags p ≠ SLOT_FREE → ∃ s, zget ss (p_priv p) = Some s ∧
    (iskerneln (p_nr p) = true → has (p_rts_flags p) NO_MAP = false → s_stack_guard s = STACK_GUARD).

(** The members of a set of processes have slots in use. *)
Definition live (ps : list proc) (R : Z → Prop) : Prop :=
  ∀ i p, R i → zget ps i = Some p → p_rts_flags p ≠ SLOT_FREE.

(** *** Running the primitives *)

Lemma rd_proc_run i p k : zget (procs k) i = Some p → rd_proc i k = Ret p k.
Proof. intros E. unfold rd_proc. rewrite bind_get. by apply lift_opt_some. Qed.

Lemma upd_proc_run i p f k :
  zget (procs k) i = Some p →
  upd_proc i f k = Ret tt (with_procs (upd (procs k) i (f p)) k).
Proof.
  intros E. unfold upd_proc. rewrite bind_get, (bind_lift _ _ _ _ E).
  by rewrite bind_zset by (by eapply zget_Some_range).
Qed.

Lemma rd_priv_run i s k : zget (privs k) i = Some s → rd_priv i k = Ret s k.
Proof. intros E. unfold rd_priv. rewrite bind_get. by apply lift_opt_some. Qed.

Lemma priv_of_run i p s k :
  zget (procs k) i = Some p → zget (privs k) (p_priv p) = Some s → priv_of i k = Ret s k.
Proof. intros Hp Hs. unfold priv_of. step (rd_proc_run _ _ _ Hp). by apply rd_priv_run. Qed.

Lemma upd_priv_of_run i p s f k :
  zget (procs k) i = Some p → zget (privs k) (p_priv p) = Some s →
  upd_priv_of i f k = Ret tt (with_privs (upd (privs k) (p_priv p) (f s)) k).
Proof.
  intros Hp Hs. unfold upd_priv_of. step (rd_proc_run _ _ _ Hp). unfold upd_priv.
  rewrite bind_get, (bind_lift _ _ _ _ Hs).
  by rewrite bind_zset by (by eapply zget_Some_range).
Qed.

(** *** [pick_proc] *)

Lemma pick_queues_true qs k : pick_queues qs true k = Ret true k.
Proof. induction qs as [|q qs IH]; [done|]. cbn [pick_queues]. unfold pick_step. by steps. Qed.

Lemma pick_step_run k q x :
  zget (rdy_head k) q = Some x → privileged (procs k) (privs k) →
  (∀ h, x = Some h → ∃ p, zget (procs k) h = Some p ∧ p_rts_flags p ≠ SLOT_FREE) →
  match x with
  | Some h => ∃ b, pick_step q false k = Ret true (with_next (Some h) b k)
  | None => pick_step q false k = Ret false k
  end.
Proof.
  intros Hx Hp Hin. unfold pick_step. rewrite bind_get, (bind_lift _ _ _ _ Hx).
  destruct x as [h|]; [|done]. destruct (Hin h eq_refl) as (p & Hz & Hf).
  destruct (Hp _ _ Hz Hf) as (s & Hs & _). rewrite bind_modify.
  rewrite (bind_ret _ _ _ _ _ (priv_of_run _ _ _ (with_next (Some h) (bill_ptr k) k) Hz Hs)).
  unfold when. destruct (has _ _); steps; eauto.
Qed.

Lemma pick_queues_run k Q qs :
  (∀ q, q ∈ qs → zget (rdy_head k) q = Some (head (Q q))) →
  (∀ q i, q ∈ qs → i ∈ Q q → ∃ p, zget (procs k) i = Some p ∧ p_rts_flags p ≠ SLOT_FREE) →
  privileged (procs k) (privs k) →
  match head (mjoin (Q <$> qs)) with
  | Some h => ∃ b, pick_queues qs false k = Ret true (with_next (Some h) b k)
  | None => pick_queues qs false k = Ret false k
  end.
Proof.
  intros Hh Hq Hp. induction qs as [|q qs IH]; [done|]. cbn [pick_queues].
  change (mjoin (Q <$> q :: qs)) with (Q q ++ mjoin (Q <$> qs)).
  pose proof (pick_step_run k q (head (Q q)) (Hh q ltac:(set_solver)) Hp) as Hs.
  destruct (Q q) as [|h l] eqn:Eq; cbn [head app] in *.
  - rewrite (bind_ret _ _ _ _ _ (Hs ltac:(done))). apply IH; set_solver.
  - destruct Hs as [b E]; [intros ? [= <-]; apply (Hq q); [|rewrite Eq]; apply elem_of_cons; by left|].
    step E. rewrite pick_queues_true. eauto.
Qed.

Lemma pick_proc_run k R Q :
  ready (procs k) (rdy_head k) (rdy_tail k) R Q → privileged (procs k) (privs k) → live (procs k) R →
  ∃ n b, pick_proc k = Ret tt (with_next n b k) ∧ (∀ h, top Q = Some h → n = Some h).
Proof.
  intros Hr Hp Hlv. unfold pick_proc.
  assert (∀ q, q ∈ range 0 (Z.to_nat NR_SCHED_QUEUES) → in_q q) as Hin.
  { intros q Hq%elem_of_seqZ. unfold in_q, NR_SCHED_QUEUES in *. lia. }
  assert (match top Q with
    | Some h => ∃ b, pick_queues (range 0 (Z.to_nat NR_SCHED_QUEUES)) false k
                      = Ret true (with_next (Some h) b k)
    | None => pick_queues (range 0 (Z.to_nat NR_SCHED_QUEUES)) false k = Ret false k
    end) as H.
  { apply pick_queues_run; [| |done].
    - intros q Hq. by apply (rd_head _ _ _ _ _ Hr), Hin.
    - intros q i Hq Hi. eapply (rd_mem _ _ _ _ _ Hr) in Hi as [? (p & ? & _)%view_Some]; eauto. }
  destruct (top Q) as [h|].
  - destruct H as [b E]. step E. exists (Some h), b. by split; [|intros ? [= ->]].
  - step H. exists (next_ptr k), (bill_ptr k). split; [|done]. by destruct k.
Qed.

(** *** [enqueue] *)

Lemma link_frame (f : proc → option Z) ps i p' x l y :
  0 ≤ i < zlen ps → i ∉ l → lseg (view f ps) x l y → lseg (view f (upd ps i p')) x l y.
Proof.
  intros Hr Hi. apply lseg_ext. intros j Hj. rewrite view_upd by done.
  destruct (Z.eqb_spec i j) as [<-|]; [by destruct Hi|done].
Qed.

Lemma ready_not_in ps hd tl R Q q i : ready ps hd tl R Q → in_q q → ¬ R i → i ∉ Q q.
Proof. intros Hr Hq Hn Hi. eapply rd_mem in Hi as [? _]; eauto. Qed.

Lemma ready_once ps hd tl R Q q q' i :
  ready ps hd tl R Q → in_q q → in_q q' → i ∈ Q q → i ∈ Q q' → q = q'.
Proof.
  intros Hr Hq Hq' Hi Hi'. eapply (rd_mem _ _ _ _ _ Hr) in Hi as [_ Hi], Hi' as [_ Hi']; try done.
  congruence.
Qed.

Section insert.
Context (ps : list proc) (hd tl : list (option Z)) (R : Z → Prop) (Q : Z → list Z).
Context (rp : Z) (p : proc).
Context (Hr : ready ps hd tl R Q) (HR : ¬ R rp) (Hz : zget ps rp = Some p).
Context (Hq : in_q (p_priority p)).

Definition Qfront (q : Z) : list Z := if q =? p_priority p then rp :: Q q else Q q.
Definition Qback (q : Z) : list Z := if q =? p_priority p then Q q ++ [rp] else Q q.

Lemma ready_front hd' tl' :
  (∀ q, in_q q → zget hd' q = Some (head (Qfront q))) →
  (∀ q, in_q q → zget tl' q = Some (last (Qfront q))) →
  ready (upd ps rp (set_nextready (head (Q (p_priority p))) p)) hd' tl'
    (λ i, R i ∨ i = rp) Qfront.
Proof using Hr HR Hz Hq.
  intros Hhd Htl. pose proof (zget_Some_range _ _ _ Hz) as Hrg. split; [done|done|..].
  - intros q Hin. pose proof (rd_link _ _ _ _ _ Hr q Hin) as Hl.
    assert (rp ∉ Q q) as Hni by (by eapply ready_not_in). unfold Qfront.
    destruct (Z.eqb_spec q (p_priority p)) as [->|].
    + split; [done|]. eexists. rewrite view_upd, Z.eqb_refl by done. split; [done|].
      by apply link_frame.
    + by apply link_frame.
  - intros q i Hin. rewrite (view_same p_priority ps rp p) by done.
    pose proof (rd_mem _ _ _ _ _ Hr q i Hin) as Hm. unfold Qfront.
    assert (view p_priority ps rp = Some (p_priority p)) as Hv by (by apply view_get).
    destruct (Z.eqb_spec q (p_priority p)) as [->|]; rewrite ?elem_of_cons, Hm; [naive_solver|].
    split; [tauto|]. intros [[?| ->] Hp]; [done|congruence].
Qed.

Lemma ready_back t pt hd' tl' :
  last (Q (p_priority p)) = Some t → zget ps t = Some pt →
  (∀ q, in_q q → zget hd' q = Some (head (Qback q))) →
  (∀ q, in_q q → zget tl' q = Some (last (Qback q))) →
  ready (upd (upd ps t (set_nextready (Some rp) pt)) rp (set_nextready None p)) hd' tl'
    (λ i, R i ∨ i = rp) Qback.
Proof using Hr HR Hz Hq.
  intros Ht Hpt Hhd Htl. pose proof (zget_Some_range _ _ _ Hz) as Hrg.
  pose proof (zget_Some_range _ _ _ Hpt) as Htg.
  apply last_Some in Ht as [l El].
  assert (t ∈ Q (p_priority p)) as Hin by (rewrite El; set_solver).
  assert (t ≠ rp) as Htr by (intros ->; by eapply ready_not_in).
  assert (0 ≤ rp < zlen (upd ps t (set_nextready (Some rp) pt))) as Hrg' by (by rewrite zlen_upd).
  split; [done|done|..].
  - intros q Hi. pose proof (rd_link _ _ _ _ _ Hr q Hi) as Hl.
    assert (rp ∉ Q q) as Hni by (by eapply ready_not_in). unfold Qback.
    destruct (Z.eqb_spec q (p_priority p)) as [->|Hne].
    + rewrite El in *. pose proof (linked_NoDup _ _ _ Hl) as (_ & Hnd & _)%NoDup_app.
      assert (head ((l ++ [t]) ++ [rp]) = head (l ++ [t])) as -> by (by destruct l).
      apply linked_app. exists (Some rp). split.
      * apply link_frame; [done|done|]. eapply lseg_redirect; [exact Hl|set_solver| |].
        -- by rewrite view_upd, Z.eqb_refl.
        -- intros j Hj. rewrite view_upd by done. destruct (Z.eqb_spec t j) as [<-|]; [|done].
           exfalso. eapply Hnd; [done|set_solver].
      * split; [done|]. exists None. rewrite view_upd, Z.eqb_refl by done. done.
    + apply link_frame; [done|done|]. apply link_frame; [done| |done].
      intros Ht. by eapply Hne, ready_once.
  - intros q i Hi.
    assert (view p_priority (upd (upd ps t (set_nextready (Some rp) pt)) rp (set_nextready None p)) i
            = view p_priority ps i) as ->.
    { rewrite (view_same p_priority _ rp p) by (rewrite ?zget_upd_ne by (lia || done); done).
      by apply (view_same p_priority _ t pt). }
    pose proof (rd_mem _ _ _ _ _ Hr q i Hi) as Hm. unfold Qback.
    assert (view p_priority ps rp = Some (p_priority p)) as Hv by (by apply view_get).
    destruct (Z.eqb_spec q (p_priority p)) as [->|]; rewrite ?elem_of_app, ?list_elem_of_singleton, Hm.
    + naive_solver.
    + split; [tauto|]. intros [[?| ->] Hp]; [done|congruence].
Qed.
End insert.

(** What scheduling leaves alone. *)
Definition outside (k : kst) :=
  (privs k, proc_ptr k, memory k, realtime k, shutdown_started k, k_reenter k, k_frame k,
   k_intr k, k_log k).

Definition prio_ok (ps : list proc) : Prop :=
  ∀ i p, zget ps i = Some p → in_q (p_priority p) ∧ in_q (p_max_priority p).

Lemma prio_ok_upd ps i p' :
  prio_ok ps → in_q (p_priority p') → in_q (p_max_priority p') → 0 ≤ i < zlen ps →
  prio_ok (upd ps i p').
Proof.
  intros Hp Ha Hb Hi j p. rewrite zget_upd by done. destruct (i =? j); [naive_solver|apply Hp].
Qed.

(** The new priority: that of a task never changes; that of another process
    stays between its own limit and the queue above the idle one. *)
Definition resched (p : proc) (prio : Z) : Prop :=
  in_q prio ∧ (iskerneln (p_nr p) = true → prio = p_priority p) ∧
  (iskerneln (p_nr p) = false → p_max_priority p < IDLE_Q →
    prio = p_priority p ∨ p_max_priority p ≤ prio < IDLE_Q).

Lemma sched_run rp p k :
  zget (procs k) rp = Some p → in_q (p_priority p) → in_q (p_max_priority p) →
  ∃ prio ticks front pv,
    sched rp k = Ret (prio, front)
      (with_procs (upd (procs k) rp (set_sched prio ticks p)) (with_prev pv k)) ∧
    resched p prio ∧
    (0 < p_ticks_left p → prio = p_priority p ∧ ticks = p_ticks_left p ∧ front = true) ∧
    (p_ticks_left p ≤ 0 → ticks = p_quantum_size p ∧ front = false).
Proof.
  intros Hz Hq Hm. unfold sched. step (rd_proc_run _ _ _ Hz). steps.
  destruct (Z.ltb_spec 0 (p_ticks_left p)) as [Ht|Ht]; cbn [negb]; unfold when.
  - steps. cbn [Z.eqb negb andb].
    rewrite (bind_ret _ _ _ _ _ (upd_proc_run _ _ _ k Hz)).
    eexists _, _, _, (sched_prev k). split; [by destruct k|]. unfold resched.
    split_and!; [done..|by left|done|lia].
  - steps. rewrite (bind_ret _ _ _ _ _ (upd_proc_run _ _ _ (with_prev (Some rp) k) Hz)).
    eexists _, _, _, _. split; [done|]. split; [|split; [lia|done]].
    set (pen := if decide (sched_prev k = Some rp) then 1 else -1).
    assert (pen = 1 ∨ pen = -1) as Hpen by (unfold pen; case_decide; lia). clearbody pen.
    unfold resched, in_q, IDLE_Q, NR_SCHED_QUEUES in *.
    destruct (Z.eqb_spec pen 0); [lia|]. cbn [negb andb].
    destruct (iskerneln (p_nr p)); cbn [negb]; [naive_solver|].
    destruct (Z.ltb_spec (p_priority p + pen) (p_max_priority p)); [split_and!; try done; intros; lia|].
    destruct (Z.ltb_spec (15 - 1) (p_priority p + pen)); split_and!; try done; intros; lia.
Qed.

Lemma ready_mono ps ps' hd tl R R' Q :
  (∀ i, R i → view p_nextready ps' i = view p_nextready ps i) →
  (∀ i, R i → view p_priority ps' i = view p_priority ps i) →
  (∀ i, R' i ↔ R i) → ready ps hd tl R Q → ready ps' hd tl R' Q.
Proof.
  intros Hn Hp HR [Hh Ht Hl Hm]. split; [done|done|..].
  - intros q Hq. eapply lseg_ext; [|by apply Hl]. intros i Hi. apply Hn. by apply (Hm q i Hq).
  - intros q i Hq. rewrite Hm, HR by done. split; intros [? Hv]; (split; [done|]).
    + by rewrite Hp.
    + by rewrite <- Hp.
Qed.

Lemma ready_ext ps ps' hd tl R R' Q :
  (∀ i, view p_nextready ps' i = view p_nextready ps i) →
  (∀ i, R i → view p_priority ps' i = view p_priority ps i) →
  (∀ i, R' i ↔ R i) → ready ps hd tl R Q → ready ps' hd tl R' Q.
Proof. intros Hn. by apply ready_mono. Qed.

Definition queues_len (k : kst) : Prop :=
  zlen (rdy_head k) = NR_SCHED_QUEUES ∧ zlen (rdy_tail k) = NR_SCHED_QUEUES.

(** The outcome of a change to the queues. *)
Definition requeued (k k' : kst) (R : Z → Prop) (Q : Z → list Z) : Prop :=
  keeps (procs k) (procs k') ∧ outside k' = outside k ∧ prio_ok (procs k') ∧
  ready (procs k') (rdy_head k') (rdy_tail k') R Q ∧
  (∀ h, top Q = Some h → chosen k' = h) ∧ queues_len k'.

Lemma prio_ok_keeps ps ps' :
  keeps ps ps' → (∀ i, view p_priority ps' i = view p_priority ps i) → prio_ok ps → prio_ok ps'.
Proof.
  intros [_ Hc] Hv Hp i p' Hp'. specialize (Hc i). specialize (Hv i).
  unfold view in Hc, Hv. rewrite Hp' in Hc, Hv.
  destruct (zget ps i) as [p|] eqn:E; [|done]. destruct (Hp i p E).
  simpl in Hc, Hv. apply (inj Some) in Hc, Hv. unfold core in Hc. injection Hc. intros.
  split; congruence.
Qed.

Lemma privileged_keeps ps ps' ss : keeps ps ps' → privileged ps ss → privileged ps' ss.
Proof.
  intros Hk Hp i p' Hz. destruct Hk as [_ Hv]. specialize (Hv i).
  unfold view in Hv. rewrite Hz in Hv. destruct (zget ps i) as [p|] eqn:E; [|done].
  simpl in Hv. apply (inj Some) in Hv. unfold core in Hv. injection Hv as ? ? ? ? ? ? ? ? ? ? ? ?.
  intros Hf. destruct (Hp i p E) as (s & Hs & Hg); [congruence|].
  exists s. split; [congruence|]. intros. apply Hg; congruence.
Qed.

Lemma live_keeps ps ps' R : keeps ps ps' → live ps R → live ps' R.
Proof.
  intros [_ Hv] Hl i p' HR Hz. specialize (Hv i). unfold view in Hv. rewrite Hz in Hv.
  destruct (zget ps i) as [p|] eqn:E; [|done]. simpl in Hv. apply (inj Some) in Hv.
  unfold core in Hv. injection Hv as ? ? ? ? ? ? ? ? ? ? ? ?. pose proof (Hl i p HR E). congruence.
Qed.

(** The end of [enqueue]: the state with the process in its queue. *)
Lemma enqueue_pick k k1 R Q :
  keeps (procs k) (procs k1) → outside k1 = outside k → prio_ok (procs k1) → queues_len k1 →
  ready (procs k1) (rdy_head k1) (rdy_tail k1) R Q → privileged (procs k) (privs k) →
  live (procs k) R →
  ∃ k', pick_proc k1 = Ret tt k' ∧ requeued k k' R Q.
Proof.
  intros Hk Ho Hp Hql Hr Hpr Hlv.
  assert (privileged (procs k1) (privs k1)) as Hpr1.
  { replace (privs k1) with (privs k) by (unfold outside in Ho; congruence).
    by eapply privileged_keeps. }
  destruct (pick_proc_run k1 R Q Hr Hpr1 (live_keeps _ _ _ Hk Hlv)) as (n & b & E & Hn).
  exists (with_next n b k1). split; [done|]. split_and!; try done.
  intros h Hh. unfold chosen. cbn. by rewrite (Hn h Hh).
Qed.

Section insert_ready.
Context (k : kst) (rp : Z) (p : proc) (R : Z → Prop) (Q : Z → list Z).
Context (Hz : zget (procs k) rp = Some p) (HR : ¬ R rp) (Hq : in_q (p_priority p)).
Context (Hql : queues_len k) (Hr : ready (procs k) (rdy_head k) (rdy_tail k) R Q).

(** The process is in its queue and nothing else has changed. *)
Definition inserted (k' : kst) : Prop :=
  keeps (procs k) (procs k') ∧ (∀ i, view p_priority (procs k') i = view p_priority (procs k) i) ∧
  outside k' = outside k ∧ queues_len k' ∧
  ∃ Q', ready (procs k') (rdy_head k') (rdy_tail k') (λ i, R i ∨ i = rp) Q'.

Lemma zget_queue (l : list (option Z)) x q' :
  zlen l = NR_SCHED_QUEUES →
  zget (upd l (p_priority p) x) q' = if q' =? p_priority p then Some x else zget l q'.
Proof using Hq. intros Hl. rewrite Z.eqb_sym. apply zget_upd. by rewrite Hl. Qed.

Lemma queue_in (l : list (option Z)) : zlen l = NR_SCHED_QUEUES → 0 ≤ p_priority p < zlen l.
Proof using Hq. by intros ->. Qed.

(** The head of the queue, and its tail when the queue was empty, become the
    process. *)
Lemma inserted_front hd' tl' :
  zlen hd' = NR_SCHED_QUEUES → zlen tl' = NR_SCHED_QUEUES →
  (∀ q, in_q q → zget hd' q = Some (head (Qfront Q rp p q))) →
  (∀ q, in_q q → zget tl' q = Some (last (Qfront Q rp p q))) →
  inserted (with_rdy hd' tl'
    (with_procs (upd (procs k) rp (set_nextready (head (Q (p_priority p))) p)) k)).
Proof using All.
  intros Hlh Hlt Hhd Htl. split; [by eapply keeps_upd|]. split; [intros; by eapply view_same|].
  split; [done|]. split; [done|]. exists (Qfront Q rp p).
  by apply (ready_front _ (rdy_head k) (rdy_tail k)).
Qed.

Lemma insert_empty front :
  Q (p_priority p) = [] →
  ∃ k', insert_ready rp (p_priority p) front k = Ret tt k' ∧ inserted k'.
Proof using All.
  intros EQ. destruct Hql as [Hlh Hlt]. unfold insert_ready.
  rewrite bind_get, (bind_lift _ _ _ _ (rd_head _ _ _ _ _ Hr _ Hq)), EQ, decide_True by done.
  rewrite !bind_zset by (by apply queue_in). rewrite bind_modify, (upd_proc_run rp p) by done.
  eexists. split; [done|]. pose proof (inserted_front (upd (rdy_head k) (p_priority p) (Some rp))
    (upd (rdy_tail k) (p_priority p) (Some rp))) as H. rewrite EQ in H.
  apply H; rewrite ?zlen_upd; try done; intros q Hin; rewrite zget_queue by done; unfold Qfront;
    destruct (Z.eqb_spec q (p_priority p)) as [->|]; try done.
  - by apply (rd_head _ _ _ _ _ Hr).
  - by rewrite EQ.
  - by apply (rd_tail _ _ _ _ _ Hr).
Qed.

Lemma insert_front :
  Q (p_priority p) ≠ [] →
  ∃ k', insert_ready rp (p_priority p) true k = Ret tt k' ∧ inserted k'.
Proof using All.
  intros Hne. destruct Hql as [Hlh Hlt]. unfold insert_ready.
  rewrite bind_get, (bind_lift _ _ _ _ (rd_head _ _ _ _ _ Hr _ Hq)).
  rewrite decide_False by (by destruct (Q (p_priority p))).
  rewrite (bind_ret _ _ _ _ _ (upd_proc_run rp p _ _ Hz)), bind_zset by (by apply queue_in).
  eexists. split; [done|]. apply (inserted_front (upd (rdy_head k) (p_priority p) (Some rp)));
    rewrite ?zlen_upd; try done; intros q Hin; rewrite ?zget_queue by done; unfold Qfront.
  - destruct (Z.eqb_spec q (p_priority p)); [done|]. by apply (rd_head _ _ _ _ _ Hr).
  - rewrite (rd_tail _ _ _ _ _ Hr) by done. destruct (Z.eqb_spec q (p_priority p)) as [->|]; [|done].
    rewrite last_cons. destruct (last (Q (p_priority p))) eqn:E; [done|]. by apply last_None in E.
Qed.

Lemma insert_back :
  Q (p_priority p) ≠ [] →
  ∃ k', insert_ready rp (p_priority p) false k = Ret tt k' ∧ inserted k'.
Proof using All.
  intros Hne. destruct Hql as [Hlh Hlt]. unfold insert_ready.
  rewrite bind_get, (bind_lift _ _ _ _ (rd_head _ _ _ _ _ Hr _ Hq)).
  rewrite decide_False by (by destruct (Q (p_priority p))).
  rewrite (bind_lift _ _ _ _ (rd_tail _ _ _ _ _ Hr _ Hq)).
  destruct (last (Q (p_priority p))) as [t|] eqn:Et; [|by apply last_None in Et].
  rewrite (bind_lift (Some t) t) by done.
  assert (t ∈ Q (p_priority p)) as Htin by (apply last_Some in Et as [? ->]; set_solver).
  assert (t ≠ rp) as Htr by (intros ->; by eapply ready_not_in).
  pose proof Htin as Hti. apply (rd_mem _ _ _ _ _ Hr) in Hti as [_ (pt & Hpt & _)%view_Some]; [|done].
  rewrite (bind_ret _ _ _ _ _ (upd_proc_run t pt _ _ Hpt)), bind_zset by (by apply queue_in).
  rewrite bind_modify. pose proof (zget_Some_range _ _ _ Hpt).
  rewrite (upd_proc_run rp p) by (cbn; by rewrite zget_upd_ne by (lia || done)).
  eexists. split; [done|]. cbn.
  split; [etrans; eapply keeps_upd; [exact Hpt|done|by cbn; rewrite zget_upd_ne by (lia || done)|done]|].
  split.
  { intros i. cbn. erewrite view_same; [by eapply view_same|by rewrite zget_upd_ne by (lia || done)|done]. }
  split; [done|]. split; [by split; cbn; rewrite ?zlen_upd|]. exists (Qback Q rp p). cbn.
  eapply ready_back; try done; intros q Hin; rewrite ?zget_queue by done; unfold Qback.
  - rewrite (rd_head _ _ _ _ _ Hr) by done. destruct (Z.eqb_spec q (p_priority p)) as [->|]; [|done].
    by destruct (Q (p_priority p)).
  - destruct (Z.eqb_spec q (p_priority p)); [by rewrite last_snoc|]. by apply (rd_tail _ _ _ _ _ Hr).
Qed.

Lemma insert_ready_run front :
  ∃ k', insert_ready rp (p_priority p) front k = Ret tt k' ∧ inserted k'.
Proof using All.
  destruct (decide (Q (p_priority p) = [])) as [E|E]; [by apply insert_empty|].
  destruct front; [by apply insert_front|by apply insert_back].
Qed.
End insert_ready.

Lemma enqueue_run k rp p R Q :
  zget (procs k) rp = Some p → ¬ R rp → prio_ok (procs k) → queues_len k →
  ready (procs k) (rdy_head k) (rdy_tail k) R Q → privileged (procs k) (privs k) →
  live (procs k) R → p_rts_flags p ≠ SLOT_FREE →
  ∃ k' Q', enqueue rp k = Ret tt k' ∧ requeued k k' (λ i, R i ∨ i = rp) Q'.
Proof.
  intros Hz HR Hpo Hql Hr Hpr Hlv Hfr. destruct (Hpo _ _ Hz) as [Hq0 Hm0].
  destruct (sched_run rp p k Hz Hq0 Hm0) as (q & ticks & front & pv & E & (Hq & _) & _).
  unfold enqueue. step E. cbv iota.
  set (p1 := set_sched q ticks p). set (ps1 := upd (procs k) rp p1).
  set (k1 := with_procs ps1 (with_prev pv k)).
  pose proof (zget_Some_range _ _ _ Hz) as Hrg.
  assert (zget ps1 rp = Some p1) as Hz1 by (by apply zget_upd_eq).
  assert (keeps (procs k) ps1) as Hk1 by (by eapply keeps_upd).
  assert (prio_ok ps1) as Hpo1 by (by apply prio_ok_upd).
  assert (ready ps1 (rdy_head k) (rdy_tail k) R Q) as Hr1.
  { eapply ready_ext; [..|exact Hr]; [|intros i Hi|done].
    - intros i. by eapply view_same.
    - unfold ps1. rewrite view_upd by done. destruct (Z.eqb_spec rp i) as [<-|]; done. }
  destruct (insert_ready_run k1 rp p1 R Q Hz1 HR Hq Hql Hr1 front)
    as (k2 & E2 & Hk2 & Hv2 & Ho2 & Hl2 & Q2 & Hr2).
  step E2. destruct (enqueue_pick k k2 (λ i, R i ∨ i = rp) Q2) as (k3 & E3 & H3); try done.
  - etrans; [exact Hk1|exact Hk2].
  - by eapply prio_ok_keeps.
  - intros i pi [HRi| ->] Hi; [by eapply Hlv|congruence].
  - rewrite E3. by exists k3, Q2.
Qed.

(** *** [dequeue] *)

Section remove.
Context (ps : list proc) (hd tl : list (option Z)) (R : Z → Prop) (Q : Z → list Z).
Context (rp q : Z) (l1 l2 : list Z).
Context (Hr : ready ps hd tl R Q) (Hq : in_q q) (EQ : Q q = l1 ++ rp :: l2).

Definition Qdel (q' : Z) : list Z := if q' =? q then l1 ++ l2 else Q q'.

Lemma remove_fresh : NoDup (l1 ++ rp :: l2).
Proof using Hr Hq EQ. rewrite <- EQ. eapply linked_NoDup. by apply (rd_link _ _ _ _ _ Hr). Qed.

(** The table after unlinking: the link before the process is redirected. *)
Definition unlinked (ps' : list proc) : Prop :=
  match last l1 with
  | None => ps' = ps
  | Some j => ∃ pj, zget ps j = Some pj ∧ ps' = upd ps j (set_nextready (head l2) pj)
  end.

Lemma ready_remove ps' hd' tl' :
  unlinked ps' →
  (∀ q', in_q q' → zget hd' q' = Some (head (Qdel q'))) →
  (∀ q', in_q q' → zget tl' q' = Some (last (Qdel q'))) →
  ready ps' hd' tl' (λ i, R i ∧ i ≠ rp) Qdel.
Proof using Hr Hq EQ.
  intros Hu Hhd Htl. pose proof remove_fresh as Hnd.
  assert (∀ i, view p_priority ps' i = view p_priority ps i) as Hvp.
  { unfold unlinked in Hu. destruct (last l1) as [j|]; [|by subst].
    destruct Hu as (pj & Hj & ->). intros i. by eapply view_same. }
  split; [done|done|..].
  - intros q' Hq'. pose proof (rd_link _ _ _ _ _ Hr q' Hq') as Hl. unfold unlinked in Hu. unfold Qdel.
    destruct l1 as [|j l _] using rev_ind; simpl in Hu.
    + subst ps'. destruct (Z.eqb_spec q' q) as [->|]; [|done].
      rewrite EQ in Hl. apply linked_cons in Hl as (_ & r & _ & Hl). simpl.
      by rewrite <- (linked_head _ _ _ Hl).
    + rewrite last_snoc in Hu. destruct Hu as (pj & Hj & ->).
      pose proof (zget_Some_range _ _ _ Hj) as Hjr.
      rewrite <- app_assoc in Hnd. apply NoDup_app in Hnd as (_ & Hn1 & Hn2).
      apply NoDup_cons in Hn2 as [Hn2 _].
      destruct (Z.eqb_spec q' q) as [->|Hne].
      * rewrite EQ in Hl. apply linked_app in Hl as (r & Hl1 & [-> (r' & _ & Hl2)]).
        apply linked_app. exists (head l2). split.
        -- assert (head ((l ++ [j]) ++ l2) = head ((l ++ [j]) ++ rp :: l2)) as -> by (by destruct l).
           eapply lseg_redirect; [exact Hl1|intros Hj'; apply (Hn1 j Hj'); set_solver| |].
           ++ by rewrite view_upd, Z.eqb_refl.
           ++ intros i Hi. rewrite view_upd by done. destruct (Z.eqb_spec j i) as [<-|]; [|done].
              exfalso. apply (Hn1 j Hi). set_solver.
        -- rewrite <- (linked_head _ _ _ Hl2). apply link_frame; [done|set_solver|done].
      * apply link_frame; [done| |done]. intros Hjq. eapply Hne, ready_once; [done..|].
        rewrite EQ. set_solver.
  - intros q' i Hq'. rewrite Hvp. pose proof (rd_mem _ _ _ _ _ Hr q' i Hq') as Hm.
    apply NoDup_app in Hnd as (_ & Hn1 & [Hn2 _]%NoDup_cons). unfold Qdel.
    destruct (Z.eqb_spec q' q) as [->|Hne].
    + rewrite EQ in Hm. rewrite elem_of_app, elem_of_cons in Hm. rewrite elem_of_app.
      split; [|naive_solver]. intros Hi. split; [|naive_solver]. split; [naive_solver|].
      intros ->. destruct Hi as [Hi|Hi]; [apply (Hn1 rp Hi); set_solver|done].
    + rewrite Hm. split; [|tauto]. intros [HRi Hv]. split; [|done]. split; [done|].
      intros ->. apply Hne. eapply (ready_once _ _ _ _ _ q' q rp Hr); try done; [by apply Hm|].
      rewrite EQ. set_solver.
Qed.

(** Taking out a process that does not go first leaves the one that does. *)
Lemma top_remove h : top Q ≠ Some rp → top Qdel = Some h → top Q = Some h.
Proof using Hr Hq EQ.
  unfold top. generalize (range 0 (Z.to_nat NR_SCHED_QUEUES)) as qs.
  induction qs as [|q' qs IH]; [done|].
  change (mjoin (Q <$> q' :: qs)) with (Q q' ++ mjoin (Q <$> qs)).
  change (mjoin (Qdel <$> q' :: qs)) with (Qdel q' ++ mjoin (Qdel <$> qs)).
  unfold Qdel at 1. destruct (Z.eqb_spec q' q) as [->|].
  - rewrite EQ. destruct l1 as [|i l]; simpl; [done|]. done.
  - destruct (Q q') as [|i l]; simpl; [done|done].
Qed.
End remove.

Section dequeue.
Context (k : kst) (R : Z → Prop) (Q : Z → list Z) (rp q : Z) (p : proc).
Context (Hz : zget (procs k) rp = Some p) (Hq : in_q q).
Context (Hr : ready (procs k) (rdy_head k) (rdy_tail k) R Q).
Context (Hql : queues_len k) (Hpo : prio_ok (procs k)) (Hpr : privileged (procs k) (privs k)).
Context (Hlv : live (procs k) R) (Hn : ∀ h, top Q = Some h → chosen k = h).

(** The first half of the removal: the link before the process. *)
Lemma unlink_run l1 l2 :
  Q q = l1 ++ rp :: l2 →
  ∃ ps' hd',
    set_ready_link q (last l1) (head l2) k = Ret tt (with_rdy hd' (rdy_tail k) (with_procs ps' k)) ∧
    unlinked (procs k) l1 l2 ps' ∧ keeps (procs k) ps' ∧
    (∀ i, view p_priority ps' i = view p_priority (procs k) i) ∧ zlen hd' = NR_SCHED_QUEUES ∧
    (∀ q', in_q q' → zget hd' q' = Some (head (Qdel Q q l1 l2 q'))).
Proof using All.
  intros EQ. destruct Hql as [Hlh Hlt]. unfold unlinked, Qdel, set_ready_link.
  destruct (last l1) as [j|] eqn:El.
  - apply last_Some in El as [l ->].
    assert (j ∈ Q q) as Hj by (rewrite EQ; set_solver).
    apply (rd_mem _ _ _ _ _ Hr) in Hj as [_ (pj & Hj & _)%view_Some]; [|done].
    exists (upd (procs k) j (set_nextready (head l2) pj)), (rdy_head k).
    split; [rewrite (upd_proc_run j pj) by done; by destruct k|].
    split; [by exists pj|]. split; [by eapply keeps_upd|].
    split; [intros; by eapply view_same|]. split; [done|].
    intros q' Hq'. rewrite (rd_head _ _ _ _ _ Hr) by done.
    destruct (Z.eqb_spec q' q) as [->|]; [|done]. rewrite EQ. by destruct l.
  - apply last_None in El as ->. exists (procs k), (upd (rdy_head k) q (head l2)).
    assert (0 ≤ q < zlen (rdy_head k)) as Hqh by (by rewrite Hlh).
    rewrite bind_get, bind_zset by done. split; [by destruct k|].
    split; [done|]. split; [done|]. split; [done|]. split; [by rewrite zlen_upd|].
    intros q' Hq'. rewrite zget_upd by done. rewrite (Z.eqb_sym q q').
    destruct (Z.eqb_spec q' q) as [->|]; [done|]. by apply (rd_head _ _ _ _ _ Hr).
Qed.

Lemma dequeue_found l1 l2 :
  Q q = l1 ++ rp :: l2 → p_nextready p = head l2 →
  ∃ k', dequeue_step rp q (last l1, Some rp) k = Ret (inr tt) k' ∧
    requeued k k' (λ i, R i ∧ i ≠ rp) (Qdel Q q l1 l2).
Proof using All.
  intros EQ Hnx. unfold dequeue_step. step (rd_proc_run _ _ _ Hz). rewrite Z.eqb_refl, Hnx.
  destruct (unlink_run l1 l2 EQ) as (ps' & hd' & E & Hu & Hk & Hvp & Hlh & Hhd).
  destruct Hql as [_ Hlt]. assert (0 ≤ q < zlen (rdy_tail k)) as Hqt by (by rewrite Hlt).
  step E. rewrite bind_get. cbn [rdy_tail with_rdy proc_ptr next_ptr with_procs rdy_head].
  rewrite (bind_lift _ _ _ _ (rd_tail _ _ _ _ _ Hr q Hq)).
  set (tl' := if bool_decide (last (Q q) = Some rp) then upd (rdy_tail k) q (last l1) else rdy_tail k).
  set (k2 := with_rdy hd' tl' (with_procs ps' k)).
  assert (when (bool_decide (last (Q q) = Some rp))
      (ts ← lift_opt (zset (rdy_tail k) q (last l1)); modify (with_rdy hd' ts))
      (with_rdy hd' (rdy_tail k) (with_procs ps' k)) = Ret tt k2) as E2.
  { unfold k2, tl', when. destruct (bool_decide _); [|done]. by rewrite bind_zset. }
  step E2.
  assert (∀ q', in_q q' → zget tl' q' = Some (last (Qdel Q q l1 l2 q'))) as Htl.
  { pose proof (remove_fresh _ _ _ _ _ _ _ _ _ Hr Hq EQ) as (_ & _ & [Hn2 _]%NoDup_cons)%NoDup_app.
    clear E2. intros q' Hq'. unfold tl', Qdel. rewrite EQ. case_bool_decide as Hl.
    - rewrite zget_upd by done. rewrite (Z.eqb_sym q q').
      destruct (Z.eqb_spec q' q) as [->|]; [|by apply (rd_tail _ _ _ _ _ Hr)].
      destruct l2 as [|x l2' _] using rev_ind; [by rewrite app_nil_r|].
      exfalso. apply Hn2. change (rp :: l2' ++ [x]) with ([rp] ++ l2' ++ [x]) in Hl.
      rewrite !app_assoc, last_snoc in Hl. injection Hl as ->. set_solver.
    - rewrite (rd_tail _ _ _ _ _ Hr) by done. destruct (Z.eqb_spec q' q) as [->|]; [|done].
      rewrite EQ. destruct l2 as [|x l2' _] using rev_ind; [by rewrite last_snoc in Hl|].
      change (rp :: l2' ++ [x]) with ([rp] ++ l2' ++ [x]). by rewrite !app_assoc, !last_snoc. }
  assert (ready ps' hd' tl' (λ i, R i ∧ i ≠ rp) (Qdel Q q l1 l2)) as Hr2
    by (by eapply ready_remove).
  assert (queues_len k2) as Hl2.
  { split; [done|]. unfold k2, tl'. cbn. case_bool_decide; by rewrite ?zlen_upd. }
  assert (prio_ok ps') as Hpo2 by (by eapply prio_ok_keeps).
  unfold when. destruct ((rp =? proc_ptr k) || bool_decide (next_ptr k = Some rp)) eqn:Eb.
  - destruct (enqueue_pick k k2 _ _ Hk eq_refl Hpo2 Hl2 Hr2 Hpr (λ i p HR, Hlv i p (proj1 HR))) as (k3 & E3 & H3).
    step E3. by exists k3.
  - steps. exists k2. split; [done|]. split_and!; try done. intros h Hh.
    apply orb_false_iff in Eb as [Ep%Z.eqb_neq Eb%bool_decide_eq_false].
    change (chosen k = h). apply Hn. eapply top_remove; [done..| |exact Hh].
    intros Ht%Hn. unfold chosen in Ht. destruct (next_ptr k); simpl in Ht; congruence.
Qed.

Lemma ready_nextready l1 i l2 :
  Q q = l1 ++ i :: l2 → ∃ pi, zget (procs k) i = Some pi ∧ p_nextready pi = head l2.
Proof using Hq Hr.
  intros EQ. pose proof (rd_link _ _ _ _ _ Hr q Hq) as Hl. rewrite EQ in Hl.
  apply linked_app in Hl as (r & _ & [_ (r' & Hr' & Hl)]).
  apply view_Some in Hr' as (pi & Hpi & <-). exists pi. split; [done|]. by eapply linked_head.
Qed.

Lemma dequeue_loop l1 l2 fuel :
  p_priority p = q → Q q = l1 ++ l2 → rp ∉ l1 → (length l2 < fuel)%nat →
  ∃ k' Q', loop fuel (dequeue_step rp q) (last l1, head l2) k = Ret tt k' ∧
    requeued k k' (λ i, R i ∧ i ≠ rp) Q'.
Proof using All.
  intros Hpq. revert l1 fuel. induction l2 as [|i l2 IH]; intros l1 fuel EQ Hni Hf;
    (destruct fuel as [|fuel]; [lia|]); rewrite loop_S; cbn [head].
  - exists k, Q. split; [done|]. split_and!; try done. eapply ready_ext; [..|exact Hr]; [done|done|].
    intros i. split; [tauto|]. intros HRi. split; [done|]. intros ->. apply Hni.
    rewrite app_nil_r in EQ. rewrite <- EQ. apply (rd_mem _ _ _ _ _ Hr); [done|].
    split; [done|]. rewrite <- Hpq. by apply view_get.
  - destruct (ready_nextready _ _ _ EQ) as (pi & Hpi & Hnx).
    destruct (Z.eq_dec i rp) as [->|Hne].
    + assert (pi = p) as -> by congruence.
      destruct (dequeue_found l1 l2 EQ Hnx) as (k' & E & H). step E.
      by exists k', (Qdel Q q l1 l2).
    + assert (dequeue_step rp q (last l1, Some i) k = Ret (inl (Some i, head l2)) k) as E.
      { unfold dequeue_step. step (rd_proc_run _ _ _ Hpi).
        destruct (Z.eqb_spec i rp); [done|]. by rewrite Hnx. }
      step E. destruct (IH (l1 ++ [i]) fuel) as (k' & Q' & E' & H).
      * by rewrite <- app_assoc.
      * set_solver.
      * simpl in Hf. lia.
      * rewrite last_snoc in E'. by exists k', Q'.
Qed.
End dequeue.

Lemma ready_length ps hd tl R Q q :
  ready ps hd tl R Q → in_q q → zlen ps = NR_TASKS + NR_PROCS → (length (Q q) < proc_fuel)%nat.
Proof.
  intros Hr Hq Hl. pose proof (rd_link _ _ _ _ _ Hr q Hq) as Hk.
  apply (linked_length _ _ _ (NR_TASKS + NR_PROCS)) in Hk.
  - unfold zlen, proc_fuel, NR_TASKS, NR_PROCS in *. lia.
  - intros i [x (p & Hp & _)%view_Some]. rewrite <- Hl. by eapply zget_Some_range.
Qed.

Lemma dequeue_run k rp p R Q :
  zget (procs k) rp = Some p → prio_ok (procs k) → queues_len k →
  zlen (procs k) = NR_TASKS + NR_PROCS →
  ready (procs k) (rdy_head k) (rdy_tail k) R Q → privileged (procs k) (privs k) →
  live (procs k) R → (iskerneln (p_nr p) = true → p_rts_flags p = 0) →
  (∀ h, top Q = Some h → chosen k = h) →
  ∃ k' Q', dequeue rp k = Ret tt k' ∧ requeued k k' (λ i, R i ∧ i ≠ rp) Q'.
Proof.
  intros Hz Hpo Hql Hlen Hr Hpr Hlv Hf0 Hn. destruct (Hpo _ _ Hz) as [Hq _].
  unfold dequeue. step (rd_proc_run _ _ _ Hz).
  assert ((if iskerneln (p_nr p)
           then (s ← priv_of rp; mret (negb (s_stack_guard s =? STACK_GUARD)))
           else mret false) k = Ret false k) as E.
  { destruct (iskerneln (p_nr p)) eqn:Ek; [|done]. specialize (Hf0 eq_refl).
    destruct (Hpr _ _ Hz) as (s & Hs & Hg); [by rewrite Hf0|].
    step (priv_of_run _ _ _ _ Hz Hs). rewrite Hg by (by rewrite ?Hf0). by rewrite Z.eqb_refl. }
  step E. cbv iota. rewrite bind_get, (bind_lift _ _ _ _ (rd_head _ _ _ _ _ Hr _ Hq)).
  apply (dequeue_loop k R Q rp (p_priority p) p Hz Hq Hr Hql Hpo Hpr Hlv Hn [] (Q (p_priority p)));
    [done|done|set_solver|by eapply ready_length].
Qed.
