(* ===== verification/IpcInv.v ===== *)
(** * The invariant of the reference kernel's processes

    The queues of callers and the chains of processes that wait for each other,
    on the process table alone, then the invariant of the whole kernel state. *)

From S2P Require Import Prelude Linked Ipc IpcQueues.

(** ** Flags *)

Lemma has_pow2 f n : 0 ≤ n → has f (2 ^ n) = Z.testbit f n.
Proof.
  intros Hn. unfold has.
  assert (Z.land f (2 ^ n) = if Z.testbit f n then 2 ^ n else 0) as ->.
  { apply Z.bits_inj'. intros m Hm. rewrite Z.land_spec, Z.pow2_bits_eqb by done.
    destruct (Z.eqb_spec n m) as [<-|].
    - rewrite andb_true_r. destruct (Z.testbit f n); [by rewrite Z.pow2_bits_true|by rewrite Z.bits_0].
    - rewrite andb_false_r. destruct (Z.testbit f n); [|by rewrite Z.bits_0].
      by rewrite Z.pow2_bits_false. }
  pose proof (Z.pow_pos_nonneg 2 n ltac:(lia) Hn).
  destruct (Z.testbit f n), (Z.eqb_spec (2 ^ n) 0); try lia; done.
Qed.

Lemma has_sending f : has f SENDING = Z.testbit f 2.
Proof. by apply (has_pow2 f 2). Qed.

Lemma has_lor_sending f : has (Z.lor f SENDING) SENDING = true.
Proof. rewrite has_sending, Z.lor_spec. apply orb_true_r. Qed.

Lemma has_lor_receiving f : has (Z.lor f RECEIVING) SENDING = has f SENDING.
Proof. rewrite !has_sending, Z.lor_spec. apply orb_false_r. Qed.

Lemma has_ldiff_sending f : has (Z.ldiff f SENDING) SENDING = false.
Proof. rewrite has_sending, Z.ldiff_spec. apply andb_false_r. Qed.

Lemma has_ldiff_receiving f : has (Z.ldiff f RECEIVING) SENDING = has f SENDING.
Proof. rewrite !has_sending, Z.ldiff_spec. apply andb_true_r. Qed.

Lemma lor_nonzero f b n : 0 ≤ n → b = 2 ^ n → Z.lor f b ≠ 0.
Proof.
  intros Hn -> E. apply (f_equal (λ x, Z.testbit x n)) in E.
  rewrite Z.lor_spec, Z.pow2_bits_true, orb_true_r, Z.bits_0 in E by done. done.
Qed.

(** ** Processes that send *)

(** Where a blocked sender waits. *)
Definition dest (p : proc) : option Z :=
  if has (p_rts_flags p) SENDING then Some (proc_addr (p_sendto p)) else None.

(** [C j] is the queue of callers of slot [j]: the processes that send to it,
    linked from its [p_caller_q]. *)
Record callers (ps : list proc) (C : Z → list Z) : Prop := Callers {
  cl_link : ∀ j x, view p_caller_q ps j = Some x → linked (view p_q_link ps) x (C j);
  cl_mem : ∀ j i, i ∈ C j ↔ view dest ps i = Some (Some j);
  cl_in : ∀ i j, view dest ps i = Some (Some j) → is_Some (zget ps j) }.

(** No process waits, directly or not, for itself. *)
Definition acyclic (ps : list proc) : Prop :=
  ∀ i, is_Some (zget ps i) → ∃ l, linked (view dest ps) (Some i) l.

Definition numbered (ps : list proc) : Prop :=
  zlen ps = NR_TASKS + NR_PROCS ∧ ∀ i p, zget ps i = Some p → p_nr p = i - NR_TASKS.

Record ipc_ok (ps : list proc) : Prop := IpcOk {
  io_nr : numbered ps;
  io_callers : ∃ C, callers ps C;
  io_acyclic : acyclic ps }.

Lemma view_is_Some {A} (f : proc → A) ps i : is_Some (view f ps i) ↔ is_Some (zget ps i).
Proof. unfold view. by rewrite fmap_is_Some. Qed.

Lemma numbered_ext ps ps' :
  zlen ps' = zlen ps → (∀ i, view p_nr ps' i = view p_nr ps i) → numbered ps → numbered ps'.
Proof.
  intros Hl Hn [Hz Hnr]. split; [congruence|]. intros i p' Hp'. specialize (Hn i).
  unfold view in Hn. rewrite Hp' in Hn. destruct (zget ps i) as [p|] eqn:E; [|done].
  simpl in Hn. rewrite <- (Hnr i p E). congruence.
Qed.

(** Only four fields matter. *)
Lemma ipc_ext ps ps' :
  zlen ps' = zlen ps →
  (∀ i, view p_nr ps' i = view p_nr ps i) →
  (∀ i, view dest ps' i = view dest ps i) →
  (∀ i, view p_caller_q ps' i = view p_caller_q ps i) →
  (∀ i, view p_q_link ps' i = view p_q_link ps i) → ipc_ok ps → ipc_ok ps'.
Proof.
  intros Hl Hn Hd Hc Hq [[Hz Hnr] [C [Hlk Hm Hi]] Ha].
  assert (∀ i, is_Some (zget ps' i) ↔ is_Some (zget ps i)) as Hs.
  { intros i. by rewrite <- !(view_is_Some p_nr), Hn. }
  split.
  - by apply (numbered_ext ps).
  - exists C. split.
    + intros j x. rewrite Hc. intros Hx%Hlk. eapply lseg_ext; [|exact Hx]. intros; apply Hq.
    + intros j i. by rewrite Hd.
    + intros i j. rewrite Hd, Hs. apply Hi.
  - intros i. rewrite Hs. intros [l Hli]%Ha. exists l. eapply lseg_ext; [|exact Hli].
    intros; apply Hd.
Qed.

Lemma dest_core p p' : core p' = core p → dest p' = dest p.
Proof. unfold core, dest. intros [=]. by repeat match goal with H : _ p' = _ p |- _ => rewrite H end. Qed.

Lemma ipc_keeps ps ps' : keeps ps ps' → ipc_ok ps → ipc_ok ps'.
Proof.
  intros Hk. apply ipc_ext; [apply Hk|..]; intros i; apply keeps_view; try done;
    intros p p' E; try (by apply dest_core); unfold core in E; congruence.
Qed.

(** The link of a process that is in no queue does not matter. *)
Lemma ipc_upd_unqueued ps i p p' :
  zget ps i = Some p → p_nr p' = p_nr p → dest p = None → dest p' = None →
  p_caller_q p' = p_caller_q p → ipc_ok ps → ipc_ok (upd ps i p').
Proof.
  intros Hz Hn Hd Hd' Hc [[Hl Hnr] [C [Hlk Hm Hi]] Ha].
  assert (∀ j, view dest (upd ps i p') j = view dest ps j) as Hdv
    by (intros j; eapply view_same; [exact Hz|congruence]).
  assert (∀ j, is_Some (zget (upd ps i p') j) ↔ is_Some (zget ps j)) as Hs
    by (intros j; by rewrite <- !(view_is_Some dest), Hdv).
  split.
  - apply (numbered_ext ps); [apply zlen_upd|intros; by eapply view_same|done].
  - exists C. split.
    + intros j x. rewrite (view_same p_caller_q _ _ _ _ _ Hz Hc). intros Hx%Hlk.
      eapply lseg_ext; [|exact Hx]. intros y Hy. rewrite view_upd by (by eapply zget_Some_range).
      destruct (Z.eqb_spec i y) as [<-|]; [|done]. apply Hm in Hy.
      rewrite (view_get dest _ _ _ Hz), Hd in Hy. done.
    + intros j x. by rewrite Hdv.
    + intros x j. rewrite Hdv, Hs. apply Hi.
  - intros j. rewrite Hs. intros [l Hlj]%Ha. exists l. eapply lseg_ext; [|exact Hlj]. intros; apply Hdv.
Qed.

(** A change to one process that keeps the four fields. *)
Lemma ipc_upd ps i p p' :
  zget ps i = Some p → p_nr p' = p_nr p → dest p' = dest p → p_caller_q p' = p_caller_q p →
  p_q_link p' = p_q_link p → ipc_ok ps → ipc_ok (upd ps i p').
Proof. intros Hz ? ? ? ?. apply ipc_ext; [apply zlen_upd|..]; intros j; by eapply view_same. Qed.

(** The queues after a caller is added at the end of queue [d], and after one
    is taken out of queue [c]. *)
Definition caller_add (C : Z → list Z) (d c : Z) : Z → list Z :=
  λ j, if j =? d then C d ++ [c] else C j.
Definition caller_del (C : Z → list Z) (c : Z) (l1 l2 : list Z) : Z → list Z :=
  λ j, if j =? c then l1 ++ l2 else C j.

(** ** A process starts to send *)

Section sending.
Context (ps ps' : list proc) (C : Z → list Z) (c d : Z) (l : list Z).
Context (Hnr : numbered ps) (HC : callers ps C) (Ha : acyclic ps).
Context (Hc : view dest ps c = Some None) (Hd : is_Some (zget ps d)).
(** [l] is the chain of processes that [d] waits for; the caller is not in it. *)
Context (Hl : linked (view dest ps) (Some d) l) (Hcl : c ∉ l).
Context (Hlen : zlen ps' = zlen ps) (Hn : ∀ i, view p_nr ps' i = view p_nr ps i).
Context (Hd' : ∀ i, view dest ps' i = if i =? c then Some (Some d) else view dest ps i).
Context (Hq' : ∀ i, view p_caller_q ps' i =
  if (i =? d) && bool_decide (C d = []) then Some (Some c) else view p_caller_q ps i).
Context (Hk' : ∀ i, view p_q_link ps' i =
  if i =? c then Some None
  else if bool_decide (last (C d) = Some i) then Some (Some c) else view p_q_link ps i).

Lemma send_not_queued j : c ∉ C j.
Proof using HC Hc. rewrite (cl_mem _ _ HC), Hc. by intros [=]. Qed.

Lemma send_link j x : view p_caller_q ps' j = Some x → linked (view p_q_link ps') x (caller_add C d c j).
Proof using All.
  rewrite Hq'. unfold caller_add. pose proof (send_not_queued j) as Hcj. pose proof (send_not_queued d) as Hcd.
  destruct (Z.eqb_spec j d) as [->|Hj]; cbn [andb].
  - case_bool_decide as E.
    + intros [= <-]. rewrite E. split; [done|]. exists None. by rewrite Hk', Z.eqb_refl.
    + intros Hx%(cl_link _ _ HC). destruct (C d) as [|t k _] eqn:Ed using rev_ind; [done|].
      apply linked_app. exists (Some c). split; [|split; [done|]].
      * apply linked_NoDup in Hx as Hnd. apply NoDup_app in Hnd as (_ & Hnd & _).
        eapply lseg_redirect; [exact Hx|intros Ht; apply (Hnd t Ht); set_solver| |].
        -- rewrite Hk'. destruct (Z.eqb_spec t c) as [->|]; [set_solver|].
           by rewrite last_snoc, bool_decide_true.
        -- intros i Hi. rewrite Hk'. destruct (Z.eqb_spec i c) as [->|]; [set_solver|].
           rewrite last_snoc, bool_decide_false; [done|]. intros [= ->]. apply (Hnd i Hi). set_solver.
      * exists None. by rewrite Hk', Z.eqb_refl.
  - intros Hx%(cl_link _ _ HC). eapply lseg_ext; [|exact Hx]. intros i Hi. rewrite Hk'.
    destruct (Z.eqb_spec i c) as [->|]; [done|]. rewrite bool_decide_false; [done|].
    intros Hlast. apply last_Some in Hlast as [k Ek].
    assert (i ∈ C d) as Hid by (rewrite Ek; set_solver).
    apply (cl_mem _ _ HC) in Hid, Hi. congruence.
Qed.

Lemma send_acyclic : acyclic ps'.
Proof using All.
  assert (linked (view dest ps') (Some d) l) as Hl'.
  { eapply lseg_ext; [|exact Hl]. intros i Hi. rewrite Hd'.
    destruct (Z.eqb_spec i c) as [->|]; [by destruct Hcl|done]. }
  intros i Hi. assert (is_Some (zget ps i)) as Hi0
    by (by rewrite <- (view_is_Some p_nr), <- Hn, (view_is_Some p_nr)).
  destruct (Ha i Hi0) as [k Hk]. destruct (decide (c ∈ k)) as [Hck|Hck].
  - apply list_elem_of_split in Hck as (k1 & k2 & ->).
    pose proof (linked_NoDup _ _ _ Hk) as (_ & Hnd & _)%NoDup_app.
    apply linked_app in Hk as (r & Hk1 & [-> (r' & Hr' & Hk2)]).
    exists (k1 ++ c :: l). apply linked_app. exists (Some c). split.
    + eapply lseg_ext; [|exact Hk1]. intros j Hj. rewrite Hd'.
      destruct (Z.eqb_spec j c) as [->|]; [|done]. exfalso. apply (Hnd c Hj). set_solver.
    + split; [done|]. exists (Some d). rewrite Hd', Z.eqb_refl. by split.
  - exists k. eapply lseg_ext; [|exact Hk]. intros j Hj. rewrite Hd'.
    destruct (Z.eqb_spec j c) as [->|]; [done|done].
Qed.

Lemma send_callers : callers ps' (caller_add C d c).
Proof using All.
  split.
  - apply send_link.
  - intros j i. rewrite Hd'. unfold caller_add. pose proof (send_not_queued j) as Hcj.
    pose proof (cl_mem _ _ HC j i) as Hm.
    destruct (Z.eqb_spec j d) as [->|], (Z.eqb_spec i c) as [->|];
      rewrite ?elem_of_app, ?list_elem_of_singleton; naive_solver.
  - intros i j Hij. rewrite <- (view_is_Some p_nr), Hn, (view_is_Some p_nr).
    rewrite Hd' in Hij. destruct (Z.eqb_spec i c) as [->|]; [by injection Hij as <-|].
    by apply (cl_in _ _ HC i).
Qed.

Lemma ipc_send : ipc_ok ps'.
Proof using All.
  split; [by eapply numbered_ext|eexists; apply send_callers|apply send_acyclic].
Qed.
End sending.

(** ** A message is taken from a sender *)

Section receiving.
Context (ps ps' : list proc) (C : Z → list Z) (c i : Z) (l1 l2 : list Z).
Context (Hnr : numbered ps) (HC : callers ps C) (Ha : acyclic ps) (EC : C c = l1 ++ i :: l2).
Context (Hin : is_Some (zget ps c)).
Context (Hlen : zlen ps' = zlen ps) (Hn : ∀ x, view p_nr ps' x = view p_nr ps x).
Context (Hd' : ∀ x, view dest ps' x = if x =? i then Some None else view dest ps x).
Context (Hq' : ∀ x, view p_caller_q ps' x =
  if (x =? c) && bool_decide (l1 = []) then Some (head l2) else view p_caller_q ps x).
Context (Hk' : ∀ x, view p_q_link ps' x =
  if bool_decide (last l1 = Some x) then Some (head l2) else view p_q_link ps x).

Lemma take_sender : view dest ps i = Some (Some c).
Proof using HC EC. apply (cl_mem _ _ HC). rewrite EC, elem_of_app, elem_of_cons. tauto. Qed.

Lemma take_fresh : NoDup (l1 ++ i :: l2).
Proof using HC EC Hin.
  destruct Hin as [p Hp]. rewrite <- EC. eapply linked_NoDup.
  by apply (cl_link _ _ HC), (view_get p_caller_q).
Qed.

Lemma take_link j x : view p_caller_q ps' j = Some x → linked (view p_q_link ps') x (caller_del C c l1 l2 j).
Proof using HC EC Hin Hq' Hk'.
  clear Hnr Hn Hlen Hd' Ha. rewrite Hq'. unfold caller_del. pose proof take_fresh as (Hn0 & Hn1 & [Hn2 _]%NoDup_cons)%NoDup_app.
  destruct (Z.eqb_spec j c) as [->|Hj]; cbn [andb].
  - assert (∀ y, view p_caller_q ps c = Some y → linked (view p_q_link ps) y (l1 ++ i :: l2)) as Hy
      by (rewrite <- EC; apply (cl_link _ _ HC)).
    case_bool_decide as E.
    + intros [= <-]. subst l1. destruct Hin as [p Hp].
      specialize (Hy _ (view_get _ _ _ _ Hp)). apply linked_cons in Hy as (_ & r & _ & Hy).
      rewrite <- (linked_head _ _ _ Hy). eapply lseg_ext; [|exact Hy]. intros; by rewrite Hk'.
    + intros Hx%Hy. destruct l1 as [|t k _] using rev_ind; [done|].
      rewrite last_snoc in Hk'.
      apply linked_app in Hx as (r & Hx1 & [-> (r' & _ & Hx2)]).
      assert (t ∉ k) as Htk.
      { apply NoDup_app in Hn0 as (_ & Hn0 & _). intros Ht. apply (Hn0 t Ht). set_solver. }
      apply linked_app. exists (head l2). split.
      * eapply lseg_redirect; [exact Hx1|done| |].
        -- by rewrite Hk', bool_decide_true.
        -- intros y Hyk. rewrite Hk', bool_decide_false; [done|]. by intros [= ->].
      * rewrite <- (linked_head _ _ _ Hx2). eapply lseg_ext; [|exact Hx2].
        intros y Hyl. rewrite Hk', bool_decide_false; [done|]. intros [= ->].
        apply (Hn1 y); set_solver.
  - intros Hx%(cl_link _ _ HC). eapply lseg_ext; [|exact Hx]. intros y Hy. rewrite Hk'.
    rewrite bool_decide_false; [done|]. intros [k ->]%last_Some.
    assert (y ∈ C c) as Hyc by (rewrite EC; set_solver).
    apply (cl_mem _ _ HC) in Hy, Hyc. congruence.
Qed.

Lemma take_acyclic : acyclic ps'.
Proof using All.
  intros j Hj. assert (is_Some (zget ps j)) as Hj0
    by (by rewrite <- (view_is_Some p_nr), <- Hn, (view_is_Some p_nr)).
  destruct (Ha j Hj0) as [k Hk]. destruct (decide (i ∈ k)) as [Hik|Hik].
  - apply list_elem_of_split in Hik as (k1 & k2 & ->).
    pose proof (linked_NoDup _ _ _ Hk) as (_ & Hnd & _)%NoDup_app.
    apply linked_app in Hk as (r & Hk1 & [-> _]).
    exists (k1 ++ [i]). apply linked_app. exists (Some i). split.
    + eapply lseg_ext; [|exact Hk1]. intros x Hx. rewrite Hd'.
      destruct (Z.eqb_spec x i) as [->|]; [|done]. exfalso. apply (Hnd i Hx). set_solver.
    + split; [done|]. exists None. by rewrite Hd', Z.eqb_refl.
  - exists k. eapply lseg_ext; [|exact Hk]. intros x Hx. rewrite Hd'.
    by destruct (Z.eqb_spec x i) as [->|].
Qed.

Lemma take_callers : callers ps' (caller_del C c l1 l2).
Proof using All.
  split.
  - apply take_link.
  - intros j x. rewrite Hd'. unfold caller_del. pose proof (cl_mem _ _ HC j x) as Hm.
    pose proof take_sender as Hs.
    pose proof take_fresh as (_ & Hn1 & [Hn2 _]%NoDup_cons)%NoDup_app.
    destruct (Z.eqb_spec j c) as [->|].
    + rewrite EC, elem_of_app, elem_of_cons in Hm. rewrite elem_of_app.
      destruct (Z.eqb_spec x i) as [->|]; [|naive_solver].
      split; [|done]. intros [Hx|Hx]; [|done]. exfalso. apply (Hn1 i Hx). set_solver.
    + rewrite Hm. destruct (Z.eqb_spec x i) as [->|]; [|done]. split; [congruence|done].
  - intros x j Hxj. rewrite <- (view_is_Some p_nr), Hn, (view_is_Some p_nr).
    rewrite Hd' in Hxj. destruct (Z.eqb_spec x i) as [->|]; [done|].
    by apply (cl_in _ _ HC x).
Qed.

Lemma ipc_take : ipc_ok ps'.
Proof using All.
  split; [by eapply numbered_ext|eexists; apply take_callers|apply take_acyclic].
Qed.
End receiving.
