(* ===== verification/IpcSpec.v ===== *)
(** * What the calls of the reference kernel do

    The kernel invariant, and each operation of [proc.c] run from a state that
    satisfies it. *)

From S2P Require Import Prelude Linked Ipc IpcQueues IpcInv.

Definition runnable (ps : list proc) (i : Z) : Prop := view p_rts_flags ps i = Some 0.

(** The scheduler: every runnable process is in the queue of its priority, no
    other process is in a queue, and the process to run is the one that goes
    first. *)
Record sched_ok (k : kst) : Prop := SchedOk {
  so_np : zlen (procs k) = NR_TASKS + NR_PROCS;
  so_prio : prio_ok (procs k);
  so_len : queues_len k;
  so_priv : privileged (procs k) (privs k);
  so_ready : ∃ Q, ready (procs k) (rdy_head k) (rdy_tail k) (runnable (procs k)) Q ∧
    ∀ h, top Q = Some h → chosen k = h }.

Definition privs_ok (ss : list priv) : Prop :=
  zlen ss = NR_SYS_PROCS ∧ ∀ j s, zget ss j = Some s →
    zlen (s_ipc_to s) = NR_SYS_CHUNKS ∧ zlen (s_notify_pending s) = NR_SYS_CHUNKS ∧
    0 ≤ s_id s < NR_SYS_PROCS.

Record kinv (k : kst) : Prop := Kinv {
  ki_sched : sched_ok k;
  ki_ipc : ipc_ok (procs k);
  ki_privs : privs_ok (privs k) }.

Lemma flags_core (p p' : proc) : core p' = core p → p_rts_flags p' = p_rts_flags p.
Proof. unfold core. congruence. Qed.

Lemma priv_core (p p' : proc) : core p' = core p → p_priv p' = p_priv p.
Proof. unfold core. congruence. Qed.

(** What a process holds besides its place in the queues: its privileges and
    the signals that are waiting for it. *)
Definition held (p : proc) : Z * Z := (p_priv p, p_pending p).

Lemma held_core (p p' : proc) : core p' = core p → held p' = held p.
Proof. unfold core, held. congruence. Qed.

(** ** Scheduling steps *)

Lemma requeued_sched k k1 k' Q :
  sched_ok k → privs k1 = privs k → zlen (procs k1) = NR_TASKS + NR_PROCS →
  privileged (procs k1) (privs k1) →
  requeued k1 k' (runnable (procs k1)) Q → sched_ok k'.
Proof.
  intros Hs Hp Hl Hpr (Hk & Ho & Hpo & Hr & Hn & Hq). split; try done.
  - destruct Hk as [-> _]. done.
  - unfold outside in Ho. replace (privs k') with (privs k1) by congruence.
    by eapply privileged_keeps.
  - exists Q. split; [|done]. eapply ready_ext; [..|exact Hr]; [done|done|].
    intros i. unfold runnable. rewrite (keeps_view p_rts_flags (procs k1)); [done| |done].
    intros p p' E. unfold core in E. congruence.
Qed.

Lemma requeued_ext k k' R R' Q :
  (∀ i, R' i ↔ R i) → requeued k k' R Q → requeued k k' R' Q.
Proof.
  intros HR (Hk & Ho & Hpo & Hr & Hn & Hq). split_and!; try done.
  by eapply ready_ext; [..|exact Hr].
Qed.

(** A change of flags that makes no new demands on privileges and has nothing
    to do with signals: a free slot stays free, and an unmapped process stays
    unmapped. *)
Definition fits (f f' : Z) : Prop :=
  (f' ≠ SLOT_FREE → f ≠ SLOT_FREE) ∧ has f' NO_MAP = has f NO_MAP ∧
  has f' SIGNALED = has f SIGNALED ∧ has f' SIG_PENDING = has f SIG_PENDING.

#[global] Instance fits_po : PreOrder fits.
Proof.
  split; [done|]. intros f g h (? & ? & ? & ?) (? & ? & ? & ?). split_and!; [tauto|congruence..].
Qed.

Lemma has_no_map f : has f NO_MAP = Z.testbit f 1.
Proof. by apply (has_pow2 f 1). Qed.
Lemma has_signaled f : has f SIGNALED = Z.testbit f 4.
Proof. by apply (has_pow2 f 4). Qed.
Lemma has_sig_pending f : has f SIG_PENDING = Z.testbit f 5.
Proof. by apply (has_pow2 f 5). Qed.

Lemma fits_ldiff f b : b = SENDING ∨ b = RECEIVING → fits f (Z.ldiff f b).
Proof.
  intros Hb. split; [intros Hf ->; by destruct Hb as [-> | ->]|].
  rewrite !has_no_map, !has_signaled, !has_sig_pending, !Z.ldiff_spec.
  destruct Hb as [-> | ->]; split_and!; apply andb_true_r.
Qed.

Lemma fits_lor f b : b = SENDING ∨ b = RECEIVING → f ≠ SLOT_FREE → fits f (Z.lor f b).
Proof.
  intros Hb Hf. split; [done|].
  rewrite !has_no_map, !has_signaled, !has_sig_pending, !Z.lor_spec.
  destruct Hb as [-> | ->]; split_and!; apply orb_false_r.
Qed.

Lemma privileged_upd ps ss i p p' :
  zget ps i = Some p → p_nr p' = p_nr p → p_priv p' = p_priv p → fits (p_rts_flags p) (p_rts_flags p') →
  privileged ps ss → privileged (upd ps i p') ss.
Proof.
  intros Hz Hn Hp (Hf & Hm & _) Hpr j q. rewrite zget_upd by (by eapply zget_Some_range).
  destruct (Z.eqb_spec i j) as [<-|]; [|apply Hpr]. intros [= <-]. rewrite Hn, Hp, Hm.
  intros Hq%Hf. by apply (Hpr i).
Qed.

Lemma runnable_live ps : live ps (runnable ps).
Proof.
  intros i p Hr Hz. unfold runnable in Hr. rewrite (view_get _ _ _ _ Hz) in Hr.
  injection Hr as ->. done.
Qed.

(** Changes to other fields of a process. *)
Lemma sched_upd k i p p' :
  sched_ok k → zget (procs k) i = Some p →
  p_nr p' = p_nr p → p_priv p' = p_priv p → p_rts_flags p' = p_rts_flags p →
  p_priority p' = p_priority p → p_max_priority p' = p_max_priority p →
  p_nextready p' = p_nextready p → sched_ok (with_procs (upd (procs k) i p') k).
Proof.
  intros [Hl Hpo Hq Hpr (Q & Hr & Hn)] Hz ? ? ? ? ? ?.
  pose proof (zget_Some_range _ _ _ Hz). destruct (Hpo _ _ Hz). split; cbn; try done.
  - by rewrite zlen_upd.
  - apply prio_ok_upd; [done|congruence|congruence|done].
  - eapply privileged_upd; [done..| |done]. split_and!; congruence.
  - exists Q. split; [|done]. eapply ready_ext; [..|exact Hr]; unfold runnable; intros; by erewrite view_same.
Qed.

Section flags.
Context (k : kst) (rp : Z) (p : proc) (Hs : sched_ok k) (Hz : zget (procs k) rp = Some p).

(** The table with the flags of the process changed. *)
Definition reflag (f : Z) : list proc := upd (procs k) rp (set_rts f p).

Lemma reflag_runnable f i :
  runnable (reflag f) i ↔ if rp =? i then f = 0 else runnable (procs k) i.
Proof using Hz.
  unfold runnable, reflag. rewrite view_upd by (by eapply zget_Some_range).
  destruct (Z.eqb_spec rp i); [|done]. simpl. split; [by intros [= ->]|by intros ->].
Qed.

Lemma reflag_ready f R Q :
  ready (procs k) (rdy_head k) (rdy_tail k) R Q →
  ready (reflag f) (rdy_head k) (rdy_tail k) R Q.
Proof using Hz. intros Hr. eapply ready_ext; [..|exact Hr]; intros; [by eapply view_same..|done]. Qed.

Lemma reflag_facts f :
  fits (p_rts_flags p) f →
  zlen (reflag f) = NR_TASKS + NR_PROCS ∧ prio_ok (reflag f) ∧ privileged (reflag f) (privs k).
Proof using Hs Hz.
  intros Hft. destruct Hs as [Hl Hpo Hq Hpr _]. destruct (Hpo _ _ Hz). unfold reflag. split_and!.
  - by rewrite zlen_upd.
  - by apply prio_ok_upd; [..|by eapply zget_Some_range].
  - by eapply privileged_upd.
Qed.

(** Changing flags without making the process runnable or the opposite. *)
Lemma reflag_same f :
  fits (p_rts_flags p) f → (f = 0 ↔ p_rts_flags p = 0) → sched_ok (with_procs (reflag f) k).
Proof using Hs Hz.
  intros Hft Hf. destruct (reflag_facts f Hft) as (? & ? & ?).
  pose proof Hs as [Hl Hpo Hq Hpr (Q & Hr & Hn)]. split; cbn; try done.
  exists Q. split; [|done]. eapply ready_ext; [..|exact (reflag_ready f _ _ Hr)]; [done|done|].
  intros i. rewrite reflag_runnable. destruct (Z.eqb_spec rp i) as [<-|]; [|done].
  rewrite Hf. unfold runnable. rewrite (view_get _ _ _ _ Hz). split; [by intros ->|by intros [= ->]].
Qed.

Lemma unblock_run f :
  f = SENDING ∨ f = RECEIVING → p_rts_flags p ≠ 0 →
  ∃ k', unblock rp f k = Ret tt k' ∧ keeps (reflag (Z.ldiff (p_rts_flags p) f)) (procs k') ∧
    outside k' = outside k ∧ sched_ok k'.
Proof using Hs Hz.
  intros Hsr Hne. pose proof (fits_ldiff (p_rts_flags p) f Hsr) as Hft. unfold unblock. step (rd_proc_run _ _ _ Hz).
  rewrite (bind_ret _ _ _ _ _ (upd_proc_run _ _ _ _ Hz)).
  set (fl := Z.ldiff _ f). fold (reflag fl). unfold when.
  destruct (Z.eqb_spec fl 0) as [Hfl|Hfl].
  - destruct (reflag_facts fl Hft) as (Hl' & Hpo' & Hpr').
    pose proof Hs as [Hl Hpo Hq Hpr (Q & Hr & Hn)].
    assert (¬ runnable (procs k) rp) as Hnr.
    { unfold runnable. rewrite (view_get _ _ _ _ Hz). by intros [= ?]. }
    set (k1 := with_procs (reflag fl) k).
    destruct (enqueue_run k1 rp (set_rts fl p) (runnable (procs k)) Q) as (k' & Q' & E & H); try done.
    { apply zget_upd_eq. by eapply zget_Some_range. }
    { by apply reflag_ready. }
    { intros i pi Hri Hzi. apply (runnable_live (reflag fl) i pi); [|done].
      apply reflag_runnable. destruct (Z.eqb_spec rp i) as [<-|]; [by destruct Hnr|done]. }
    { by cbn; rewrite Hfl. }
    exists k'. split; [done|]. split; [apply H|]. split; [apply H|].
    eapply (requeued_sched k k1); [done..|]. eapply requeued_ext; [|exact H].
    intros i. cbn [procs k1 with_procs]. rewrite reflag_runnable.
    destruct (Z.eqb_spec rp i) as [<-|]; naive_solver.
  - exists (with_procs (reflag fl) k). split_and!; try done. by apply reflag_same.
Qed.

Lemma block_run f n :
  0 ≤ n → f = 2 ^ n → f = SENDING ∨ f = RECEIVING → p_rts_flags p ≠ SLOT_FREE →
  ∃ k', block rp f k = Ret tt k' ∧ keeps (reflag (Z.lor (p_rts_flags p) f)) (procs k') ∧
    outside k' = outside k ∧ sched_ok k'.
Proof using Hs Hz.
  intros Hn Hf Hsr Hfr. pose proof (lor_nonzero (p_rts_flags p) f n Hn Hf) as Hne.
  pose proof (fits_lor (p_rts_flags p) f Hsr Hfr) as Hft.
  unfold block. step (rd_proc_run _ _ _ Hz). unfold when.
  destruct (Z.eqb_spec (p_rts_flags p) 0) as [H0|H0].
  - pose proof Hs as [Hl Hpo Hq Hpr (Q & Hr & Hnx)].
    destruct (dequeue_run k rp p _ Q Hz Hpo Hq Hl Hr Hpr (runnable_live _) (λ _, H0) Hnx) as (k1 & Q1 & E1 & H1).
    step E1. destruct H1 as (Hk1 & Ho1 & Hpo1 & Hr1 & Hn1 & Hq1).
    destruct (keeps_get _ _ _ _ Hk1 Hz) as (p1 & Hz1 & Hc1).
    assert (p_rts_flags p1 = p_rts_flags p) as Hf1 by (unfold core in Hc1; congruence).
    rewrite (upd_proc_run rp p1) by done. rewrite Hf1.
    eexists. split; [done|]. split; [|split; [done|]].
    + split; [unfold reflag; cbn; rewrite !zlen_upd; apply Hk1|]. intros i. cbn.
      unfold reflag. rewrite !view_upd by (by eapply zget_Some_range). destruct (rp =? i).
      * unfold core in Hc1 |- *. cbn. congruence.
      * apply Hk1.
    + pose proof (zget_Some_range _ _ _ Hz1). destruct (Hpo1 _ _ Hz1).
      split; cbn.
      * rewrite zlen_upd. destruct Hk1 as [-> _]. done.
      * by apply prio_ok_upd.
      * done.
      * unfold outside in Ho1. replace (privs k1) with (privs k) by congruence.
        eapply privileged_upd; [done|done|done|cbn; by rewrite Hf1|]. by eapply privileged_keeps.
      * exists Q1. split; [|done]. eapply ready_ext; [..|exact Hr1];
          [intros i; by eapply view_same|intros i _; by eapply view_same|intros i].
        unfold runnable. rewrite view_upd by done. destruct (Z.eqb_spec rp i) as [<-|Hi].
        -- cbn. split; [by intros [= ?]|by intros [_ ?]].
        -- rewrite (keeps_view p_rts_flags (procs k)); [naive_solver| |done].
           intros q q' E. unfold core in E. congruence.
  - steps. rewrite (upd_proc_run rp p) by done.
    exists (with_procs (reflag (Z.lor (p_rts_flags p) f)) k). split_and!; try done.
    apply reflag_same; [done|naive_solver].
Qed.
End flags.

(** ** Messages *)

Lemma CopyMess_run s sp sm dp dm x y k :
  zget (procs k) sp = Some x → zget (procs k) dp = Some y →
  CopyMess s sp sm dp dm k =
    Ret tt (with_memory (cp_mess s (mem_phys (p_mapD x)) sm (mem_phys (p_mapD y)) dm (memory k)) k).
Proof.
  intros Hx Hy. unfold CopyMess. step (rd_proc_run _ _ _ Hx). by step (rd_proc_run _ _ _ Hy).
Qed.

Lemma slot_in k n :
  zlen (procs k) = NR_TASKS + NR_PROCS → - NR_TASKS ≤ n < NR_PROCS → is_Some (zget (procs k) (proc_addr n)).
Proof.
  intros Hl Hn. destruct (zget_in (procs k) (proc_addr n)) as [p Hp]; [|by exists p].
  rewrite Hl. unfold proc_addr. lia.
Qed.

(** Changes to privileges that leave the guard word and the sizes. *)
Definition privs_like (ss ss' : list priv) : Prop :=
  zlen ss' = zlen ss ∧ ∀ j s', zget ss' j = Some s' → ∃ s, zget ss j = Some s ∧
    s_stack_guard s' = s_stack_guard s ∧ s_trap_mask s' = s_trap_mask s ∧
    s_ipc_to s' = s_ipc_to s ∧ s_id s' = s_id s ∧
    zlen (s_notify_pending s') = zlen (s_notify_pending s).

#[global] Instance privs_like_po : PreOrder privs_like.
Proof.
  split.
  - intros ss. split; [done|]. intros j s Hs. by exists s.
  - intros a b c [Hl H] [Hl' H']. split; [congruence|]. intros j s' (s & Hs & ? & ? & ? & ? & ?)%H'.
    apply H in Hs as (s0 & ? & ? & ? & ? & ? & ?). exists s0. split_and!; congruence.
Qed.

Lemma privs_like_upd ss j s s' :
  zget ss j = Some s → s_stack_guard s' = s_stack_guard s → s_trap_mask s' = s_trap_mask s → s_ipc_to s' = s_ipc_to s →
  s_id s' = s_id s → zlen (s_notify_pending s') = zlen (s_notify_pending s) →
  privs_like ss (upd ss j s').
Proof.
  intros Hs ? ? ? ? ?. split; [apply zlen_upd|]. intros i x.
  rewrite zget_upd by (by eapply zget_Some_range).
  destruct (Z.eqb_spec j i) as [<-|]; [intros [= <-]; eauto 10|eauto 10].
Qed.

Lemma privs_like_ok ss ss' : privs_like ss ss' → privs_ok ss → privs_ok ss'.
Proof.
  intros [Hl H] [Hn Ho]. split; [congruence|]. intros j s' (s & Hs & ? & ? & Hi & Hid & Hp)%H.
  apply Ho in Hs as (? & ? & ?). rewrite Hi, Hid, Hp. done.
Qed.

Lemma privs_like_privileged ps ss ss' :
  privs_like ss ss' → privileged ps ss → privileged ps ss'.
Proof.
  intros [Hl H] Hp i p Hz Hf. destruct (Hp i p Hz Hf) as (s & Hs & Hg).
  destruct (zget_in ss' (p_priv p)) as [s' Hs'].
  { rewrite Hl. by eapply zget_Some_range. }
  exists s'. split; [done|]. apply H in Hs' as (s0 & Hs0 & -> & _).
  assert (s0 = s) as -> by congruence. done.
Qed.

(** Memory and privileges are not the scheduler's. *)
Lemma kinv_aside k m ss :
  kinv k → privs_like (privs k) ss → kinv (with_privs ss (with_memory m k)).
Proof.
  intros [[Hl Hpo Hq Hpr Hr] Hi Hp] Hss. split; [|done|by eapply privs_like_ok].
  split; try done. by eapply privs_like_privileged.
Qed.

Lemma kinv_memory k m : kinv k → kinv (with_memory m k).
Proof. intros Hk. pose proof (kinv_aside k m (privs k) Hk ltac:(done)). by destruct k. Qed.

Lemma BuildMess_run src dst k p s :
  kinv k → zget (procs k) dst = Some p → zget (privs k) (p_priv p) = Some s →
  ∃ m ss, BuildMess src dst k = Ret tt (with_privs ss (with_memory m k)) ∧ privs_like (privs k) ss.
Proof.
  intros [[Hl _ _ Hpr _] _ _] Hz Hs. destruct (slot_in k HARDWARE Hl ltac:(done)) as [h Hh].
  unfold BuildMess. rewrite bind_get. step (rd_proc_run _ _ _ Hh). rewrite !bind_modify.
  set (m := st32 _ _ _). set (k1 := with_memory m _).
  assert (k1 = with_memory m k) as -> by done.
  assert (with_memory m k = with_privs (privs k) (with_memory m k)) as Ek by (by destruct k).
  destruct (src =? HARDWARE); [|destruct (src =? SYSTEM); [|by exists m, (privs k); rewrite Ek at 1]].
  all: rewrite (bind_ret _ _ _ _ _ (priv_of_run dst p s (with_memory m k) Hz Hs)), bind_modify.
  all: rewrite (upd_priv_of_run dst p s) by done.
  all: eexists _, _; split; [done|]; by eapply privs_like_upd.
Qed.

(** ** [mini_send] *)

(** The walk along the destinations finds the caller exactly when it is in the
    chain of processes the destination waits for. *)
Lemma deadlock_run k c d l fuel :
  linked (view dest (procs k)) (Some d) l → (length l ≤ fuel)%nat →
  loop fuel (deadlock_step c) d k = Ret (bool_decide (c ∈ tail l)) k.
Proof.
  revert d fuel. induction l as [|x l IH]; intros d fuel; [done|].
  intros [[= ->] (r & (p & Hp & Hr)%view_Some & Hl)] Hf.
  destruct fuel as [|fuel]; [simpl in Hf; lia|]. rewrite loop_S. cbn [tail].
  unfold dest in Hr.
  destruct (has (p_rts_flags p) SENDING) eqn:Es.
  - subst r. apply linked_Some in Hl as (r & l' & -> & Hr & Hl).
    assert (deadlock_step c x k = if proc_addr (p_sendto p) =? c then Ret (inr true) k
                                  else Ret (inl (proc_addr (p_sendto p))) k) as E.
    { unfold deadlock_step. step (rd_proc_run _ _ _ Hp). rewrite Es. by destruct (_ =? c). }
    destruct (Z.eqb_spec (proc_addr (p_sendto p)) c) as [Hc|Hc].
    + step E. rewrite bool_decide_true; [done|]. rewrite Hc. set_solver.
    + step E. cbv iota. rewrite (IH (proc_addr (p_sendto p)) fuel); [..|simpl in *; lia].
      * f_equal. apply bool_decide_ext. set_solver.
      * split; [done|]. eauto.
  - subst r. apply linked_None in Hl as ->.
    assert (deadlock_step c x k = Ret (inr false) k) as E.
    { unfold deadlock_step. step (rd_proc_run _ _ _ Hp). by rewrite Es. }
    by step E.
Qed.

Lemma chain_length k d l :
  zlen (procs k) = NR_TASKS + NR_PROCS → linked (view dest (procs k)) (Some d) l →
  (length l ≤ proc_fuel)%nat.
Proof.
  intros Hl Hk. apply (linked_length _ _ _ (NR_TASKS + NR_PROCS)) in Hk.
  - unfold zlen, proc_fuel, NR_TASKS, NR_PROCS in *. lia.
  - intros i Hi%view_is_Some. destruct Hi as [p Hp]. rewrite <- Hl. by eapply zget_Some_range.
Qed.

Lemma caller_tail_run k x l prev fuel :
  linked (view p_q_link (procs k)) x l → (length l < fuel)%nat →
  loop fuel caller_tail_step (prev, x) k = Ret (match last l with Some t => Some t | None => prev end) k.
Proof.
  revert x prev fuel. induction l as [|i l IH]; intros x prev fuel Hl Hf;
    (destruct fuel as [|fuel]; [lia|]); rewrite loop_S.
  - apply linked_nil in Hl as ->. done.
  - destruct Hl as [-> (r & (p & Hp & <-)%view_Some & Hl)].
    assert (caller_tail_step (prev, Some i) k = Ret (inl (Some i, p_q_link p)) k) as E.
    { unfold caller_tail_step. by step (rd_proc_run _ _ _ Hp). }
    step E. cbv iota. rewrite (IH _ (Some i) fuel Hl); [|simpl in Hf; lia].
    rewrite last_cons. by destruct (last l).
Qed.

Section blocking.
Context (k : kst) (c dst m_ptr : Z) (pc : proc).
Context (Hs : sched_ok k) (Hc : zget (procs k) c = Some pc) (Hfr : p_rts_flags pc ≠ SLOT_FREE).

(** The caller is taken off its queue and marked as sending. *)
Lemma send_block_run :
  ∃ k', (upd_proc c (set_messbuf m_ptr);; block c SENDING;; upd_proc c (set_sendto dst)) k = Ret tt k' ∧
    sched_ok k' ∧ outside k' = outside k ∧ zlen (procs k') = zlen (procs k) ∧
    (∀ i, view p_nr (procs k') i = view p_nr (procs k) i) ∧
    (∀ i, view held (procs k') i = view held (procs k) i) ∧
    (∀ i, view p_caller_q (procs k') i = view p_caller_q (procs k) i) ∧
    (∀ i, view p_q_link (procs k') i = view p_q_link (procs k) i) ∧
    (∀ i, view p_messbuf (procs k') i = if i =? c then Some m_ptr else view p_messbuf (procs k) i) ∧
    (∀ i, view dest (procs k') i = if i =? c then Some (Some (proc_addr dst)) else view dest (procs k) i) ∧
    (∀ i, view p_rts_flags (procs k') i =
       if i =? c then Some (Z.lor (p_rts_flags pc) SENDING) else view p_rts_flags (procs k) i).
Proof using Hs Hc Hfr.
  pose proof (zget_Some_range _ _ _ Hc) as Hcr.
  rewrite (bind_ret _ _ _ _ _ (upd_proc_run _ _ _ _ Hc)).
  set (p1 := set_messbuf m_ptr pc). set (k1 := with_procs (upd (procs k) c p1) k).
  assert (zget (procs k1) c = Some p1) as Hc1 by (by apply zget_upd_eq).
  assert (sched_ok k1) as Hs1 by (by eapply sched_upd).
  destruct (block_run k1 c p1 Hs1 Hc1 SENDING 2) as (k2 & E2 & Hk2 & Ho2 & Hs2); [done|done|by left|done|].
  step E2. set (p2 := set_rts (Z.lor (p_rts_flags p1) SENDING) p1) in *.
  assert (zlen (procs k1) = zlen (procs k)) as Hl1 by apply zlen_upd.
  assert (zget (reflag k1 c p1 (Z.lor (p_rts_flags p1) SENDING)) c = Some p2) as Hc2
    by (apply zget_upd_eq; by rewrite Hl1).
  destruct (keeps_get _ _ _ _ Hk2 Hc2) as (p3 & Hc3 & Hcore).
  rewrite (upd_proc_run c p3) by done.
  assert (∀ (A : Type) (f : proc → A) i, (∀ p p', core p' = core p → f p' = f p) →
    view f (upd (procs k2) c (set_sendto dst p3)) i =
    if i =? c then Some (f (set_sendto dst p3)) else view f (procs k) i) as Hv.
  { intros A f i Hf. rewrite view_upd by (by eapply zget_Some_range).
    rewrite (Z.eqb_sym i c). destruct (Z.eqb_spec c i) as [<-|Hi]; [done|].
    rewrite (keeps_view f _ _ i Hf Hk2). unfold reflag.
    rewrite view_upd by (by rewrite Hl1). destruct (Z.eqb_spec c i); [done|].
    cbn. rewrite view_upd by done. by destruct (Z.eqb_spec c i). }
  eexists. split; [done|]. split; [by eapply sched_upd|]. split; [done|].
  split; [cbn; rewrite zlen_upd; destruct Hk2 as [-> _]; unfold reflag; by rewrite zlen_upd|].
  unfold core in Hcore. cbn [procs with_procs].
  split_and!; intros i;
    rewrite Hv by (intros p p' E; first [by apply dest_core|by apply held_core|unfold core in E; congruence]);
    destruct (Z.eqb_spec i c) as [->|]; try done.
  - rewrite (view_get p_nr _ _ _ Hc). cbn in Hcore |- *. congruence.
  - rewrite (view_get held _ _ _ Hc). unfold held. cbn in Hcore |- *. congruence.
  - rewrite (view_get p_caller_q _ _ _ Hc). cbn in Hcore |- *. congruence.
  - rewrite (view_get p_q_link _ _ _ Hc). cbn in Hcore |- *. congruence.
  - cbn in Hcore |- *. congruence.
  - unfold dest. cbn [set_sendto p_rts_flags p_sendto].
    assert (p_rts_flags p3 = Z.lor (p_rts_flags p1) SENDING) as -> by (cbn in Hcore |- *; congruence).
    by rewrite has_lor_sending.
  - cbn in Hcore |- *. congruence.
Qed.
End blocking.

(** A scheduling-neutral change of one field, and of a link. *)
Lemma upd_proc_sched k i p f :
  sched_ok k → zget (procs k) i = Some p →
  p_nr (f p) = p_nr p → p_priv (f p) = p_priv p → p_rts_flags (f p) = p_rts_flags p →
  p_priority (f p) = p_priority p → p_max_priority (f p) = p_max_priority p →
  p_nextready (f p) = p_nextready p →
  ∃ k', upd_proc i f k = Ret tt k' ∧ k' = with_procs (upd (procs k) i (f p)) k ∧ sched_ok k'.
Proof. intros. eexists. split; [by apply upd_proc_run|]. split; [done|]. by eapply sched_upd. Qed.

Lemma set_caller_link_run k owner prev v po :
  sched_ok k → zget (procs k) owner = Some po →
  (∀ j, prev = Some j → is_Some (zget (procs k) j)) →
  ∃ ps', set_caller_link owner prev v k = Ret tt (with_procs ps' k) ∧ sched_ok (with_procs ps' k) ∧
    zlen ps' = zlen (procs k) ∧
    (∀ i, view p_nr ps' i = view p_nr (procs k) i) ∧
    (∀ i, view p_messbuf ps' i = view p_messbuf (procs k) i) ∧
    (∀ i, view dest ps' i = view dest (procs k) i) ∧
    (∀ i, view p_rts_flags ps' i = view p_rts_flags (procs k) i) ∧
    (∀ i, view held ps' i = view held (procs k) i) ∧
    (∀ i, view p_caller_q ps' i =
       if (i =? owner) && bool_decide (prev = None) then Some v else view p_caller_q (procs k) i) ∧
    (∀ i, view p_q_link ps' i =
       if bool_decide (prev = Some i) then Some v else view p_q_link (procs k) i).
Proof.
  intros Hs Ho Hp. unfold set_caller_link. destruct prev as [j|].
  - destruct (Hp j eq_refl) as [pj Hj]. pose proof (zget_Some_range _ _ _ Hj).
    destruct (upd_proc_sched k j pj (set_q_link v)) as (k' & E & -> & Hs'); [done..|].
    eexists. split; [exact E|]. split; [done|]. split; [apply zlen_upd|].
    split_and!; intros i; try (by eapply view_same).
    + rewrite bool_decide_false, andb_false_r by done. by eapply view_same.
    + rewrite view_upd by done. case_bool_decide as Hb; destruct (Z.eqb_spec j i); try done; congruence.
  - pose proof (zget_Some_range _ _ _ Ho).
    destruct (upd_proc_sched k owner po (set_caller_q v)) as (k' & E & -> & Hs'); [done..|].
    eexists. split; [exact E|]. split; [done|]. split; [apply zlen_upd|].
    split_and!; intros i; try (by eapply view_same).
    rewrite view_upd by done. rewrite bool_decide_true, andb_true_r, Z.eqb_sym by done.
    by destruct (i =? owner).
Qed.

Lemma queue_caller_run k C c d pc pd :
  sched_ok k → zget (procs k) c = Some pc → zget (procs k) d = Some pd →
  linked (view p_q_link (procs k)) (p_caller_q pd) (C d) → (c ∉ C d) →
  ∃ ps', queue_caller d c k = Ret tt (with_procs ps' k) ∧
    sched_ok (with_procs ps' k) ∧ zlen ps' = zlen (procs k) ∧
    (∀ i, view p_nr ps' i = view p_nr (procs k) i) ∧
    (∀ i, view p_messbuf ps' i = view p_messbuf (procs k) i) ∧
    (∀ i, view dest ps' i = view dest (procs k) i) ∧
    (∀ i, view p_rts_flags ps' i = view p_rts_flags (procs k) i) ∧
    (∀ i, view held ps' i = view held (procs k) i) ∧
    (∀ i, view p_caller_q ps' i =
       if (i =? d) && bool_decide (C d = []) then Some (Some c) else view p_caller_q (procs k) i) ∧
    (∀ i, view p_q_link ps' i =
       if i =? c then Some None
       else if bool_decide (last (C d) = Some i) then Some (Some c) else view p_q_link (procs k) i).
Proof.
  intros Hs Hc Hd Hl Hcd. unfold queue_caller. step (rd_proc_run _ _ _ Hd).
  assert (length (C d) < proc_fuel)%nat as Hf.
  { destruct Hs as [Hn _ _ _ _]. apply (linked_length _ _ _ (NR_TASKS + NR_PROCS)) in Hl.
    - unfold zlen, proc_fuel, NR_TASKS, NR_PROCS in *. lia.
    - intros i Hi%view_is_Some. destruct Hi as [p Hp]. rewrite <- Hn. by eapply zget_Some_range. }
  rewrite (bind_ret _ _ _ _ _ (caller_tail_run _ _ _ None _ Hl Hf)).
  replace (match last (C d) with Some t => Some t | None => None end) with (last (C d)) by (by destruct (last _)).
  destruct (set_caller_link_run k d (last (C d)) (Some c) pd Hs Hd) as (ps1 & E1 & Hs1 & Hl1 & Hn1 & Hm1 & Hd1 & Hf1 & Hp1 & Hq1 & Hk1).
  { intros j Hj. apply last_Some in Hj as [l El].
    eapply (view_is_Some p_q_link), lseg_defined; [exact Hl|]. rewrite El. set_solver. }
  step E1.
  assert (is_Some (zget ps1 c)) as [p1 Hc1].
  { rewrite <- (view_is_Some p_nr), Hn1, view_is_Some. eauto. }
  destruct (upd_proc_sched (with_procs ps1 k) c p1 (set_q_link None)) as (k2 & E2 & -> & Hs2); [done..|].
  pose proof (zget_Some_range _ _ _ Hc1).
  eexists. split; [exact E2|]. split; [exact Hs2|]. split; [by rewrite zlen_upd|]. cbn.
  split_and!; intros i; try (rewrite (view_same _ _ c p1) by done; done).
  - rewrite (view_same p_caller_q _ c p1) by done. rewrite Hq1.
    by rewrite (bool_decide_ext (last (C d) = None) (C d = [])) by (apply last_None).
  - rewrite view_upd by done. rewrite Z.eqb_sym. destruct (i =? c); [done|]. apply Hk1.
Qed.

Lemma awaits_flags p n :
  awaits p n = true → p_rts_flags p ≠ 0 ∧ has (p_rts_flags p) SENDING = false.
Proof.
  unfold awaits. intros [H _]%andb_true_iff. apply Z.eqb_eq in H. split.
  - intros E. by rewrite E in H.
  - rewrite has_sending. apply (f_equal (λ x, Z.testbit x 2)) in H.
    rewrite Z.land_spec in H. change (Z.testbit (Z.lor RECEIVING SENDING) 2) with true in H.
    change (Z.testbit RECEIVING 2) with false in H. by rewrite andb_true_r in H.
Qed.

(** Only the receiver is released, and it has the message. *)
Definition delivered (k k' : kst) (d : Z) (pd : proc) (C : Z → list Z) : Prop :=
  callers (procs k') C ∧
  (∀ i, view p_rts_flags (procs k') i =
       if i =? d then Some (Z.ldiff (p_rts_flags pd) RECEIVING) else view p_rts_flags (procs k) i) ∧
  ∀ i, view held (procs k') i = view held (procs k) i.

Lemma callers_ext ps ps' C :
  (∀ i, view dest ps' i = view dest ps i) →
  (∀ i, view p_caller_q ps' i = view p_caller_q ps i) →
  (∀ i, view p_q_link ps' i = view p_q_link ps i) →
  (∀ i, is_Some (zget ps i) → is_Some (zget ps' i)) → callers ps C → callers ps' C.
Proof.
  intros Hd Hc Hq Hs [Hlk Hm Hi]. split.
  - intros j x. rewrite Hc. intros Hx%Hlk. eapply lseg_ext; [|exact Hx]. intros; apply Hq.
  - intros j i. by rewrite Hd.
  - intros i j. rewrite Hd. intros Hij%Hi. by apply Hs.
Qed.

(** Releasing a receiver. *)
Lemma release_run k d pd C :
  sched_ok k → ipc_ok (procs k) → privs_ok (privs k) → callers (procs k) C →
  zget (procs k) d = Some pd → p_rts_flags pd ≠ 0 →
  ∃ k', unblock d RECEIVING k = Ret tt k' ∧ kinv k' ∧ outside k' = outside k ∧ delivered k k' d pd C.
Proof.
  intros Hs Hi Hp HC Hd Hne.
  destruct (unblock_run k d pd Hs Hd RECEIVING (or_intror eq_refl) Hne) as (k' & E & Hk & Ho & Hs').
  set (ps1 := reflag k d pd (Z.ldiff (p_rts_flags pd) RECEIVING)) in *.
  assert (∀ i, view dest ps1 i = view dest (procs k) i) as Hdest.
  { intros i. eapply view_same; [exact Hd|]. unfold dest. cbn. by rewrite has_ldiff_receiving. }
  assert (ipc_ok ps1) as Hi1.
  { eapply ipc_upd; [exact Hd|done| |done|done|done]. unfold dest. cbn. by rewrite has_ldiff_receiving. }
  assert (∀ (A : Type) (f : proc → A) i, (∀ p p', core p' = core p → f p' = f p) →
    view f (procs k') i = view f ps1 i) as Hv by (intros; by apply keeps_view).
  assert (∀ p p', core p' = core p → p_caller_q p' = p_caller_q p ∧ p_q_link p' = p_q_link p ∧
     p_rts_flags p' = p_rts_flags p ∧ held p' = held p) as Hcore by (unfold core, held; intros ? ? [=]; split_and!; congruence).
  exists k'. split; [done|]. split; [|split; [done|split; [|split]]].
  - split; [done|by eapply ipc_keeps|]. unfold outside in Ho. replace (privs k') with (privs k) by congruence. done.
  - eapply callers_ext; [..|exact HC]; intros i.
    + rewrite Hv by apply dest_core. apply Hdest.
    + rewrite Hv by apply Hcore. by eapply view_same.
    + rewrite Hv by apply Hcore. by eapply view_same.
    + rewrite <- !(view_is_Some dest), Hv, Hdest by apply dest_core. done.
  - intros i. rewrite Hv by apply Hcore. unfold ps1, reflag.
    rewrite view_upd by (by eapply zget_Some_range). by rewrite Z.eqb_sym.
  - intros i. rewrite Hv by apply Hcore. by eapply view_same.
Qed.

Definition send_outcome (k : kst) (c dst m_ptr flags : Z) (pc pd : proc) (l : list Z)
    (C : Z → list Z) (r : outcome kst Z) : Prop :=
  let d := proc_addr dst in
  if bool_decide (c ∈ l) then r = Ret ELOCKED k
  else if awaits pd (p_nr pc) then
    ∃ k', r = Ret OK k' ∧ kinv k' ∧ delivered k k' d pd C ∧
      memory k' = cp_mess (p_nr pc) (mem_phys (p_mapD pc)) m_ptr (mem_phys (p_mapD pd)) (p_messbuf pd) (memory k) ∧
      privs k' = privs k
  else if has flags NON_BLOCKING then r = Ret ENOTREADY k
  else
    ∃ k', r = Ret OK k' ∧ kinv k' ∧ callers (procs k') (caller_add C d c) ∧
      view p_messbuf (procs k') c = Some m_ptr ∧ memory k' = memory k ∧ privs k' = privs k ∧
      (∀ i, view p_rts_flags (procs k') i =
        if i =? c then Some (Z.lor (p_rts_flags pc) SENDING) else view p_rts_flags (procs k) i) ∧
      ∀ i, view held (procs k') i = view held (procs k) i.

Lemma mini_send_run k c dst m_ptr flags pc pd l C :
  kinv k → callers (procs k) C → zget (procs k) c = Some pc →
  zget (procs k) (proc_addr dst) = Some pd →
  has (p_rts_flags pc) SENDING = false → p_rts_flags pc ≠ SLOT_FREE →
  c ≠ proc_addr dst → linked (view dest (procs k)) (Some (proc_addr dst)) l →
  send_outcome k c dst m_ptr flags pc pd l C (mini_send c dst m_ptr flags k).
Proof.
  intros Hk HC Hc Hd Hns Hfr Hcd Hl. pose proof Hk as [Hs Hi Hp]. set (d := proc_addr dst) in *.
  unfold send_outcome, mini_send. fold d.
  rewrite (bind_ret _ _ _ _ _ (deadlock_run _ c d l _ Hl (chain_length _ _ _ (so_np _ Hs) Hl))).
  assert (bool_decide (c ∈ tail l) = bool_decide (c ∈ l)) as ->.
  { apply bool_decide_ext. apply linked_Some in Hl as (r & l' & -> & _). set_solver. }
  case_bool_decide as Hcl; [done|].
  step (rd_proc_run _ _ _ Hc). step (rd_proc_run _ _ _ Hd).
  destruct (awaits pd (p_nr pc)) eqn:Ea; [|destruct (has flags NON_BLOCKING); cbn [negb]; [done|]].
  - apply awaits_flags in Ea as [Hne _].
    rewrite (bind_ret _ _ _ _ _ (CopyMess_run _ _ _ _ _ _ _ _ Hc Hd)).
    set (m := cp_mess _ _ _ _ _ _).
    destruct (kinv_memory k m Hk) as [Hs1 Hi1 Hp1].
    destruct (release_run (with_memory m k) d pd C) as (k' & E & Hk' & Ho & Hdel); [done..|].
    step E. exists k'. unfold outside in Ho. cbn in Ho. injection Ho as.
    split; [done|]. split; [done|]. split; [exact Hdel|]. by split.
  - destruct (send_block_run k c dst m_ptr pc Hs Hc Hfr)
      as (k1 & E1 & Hs1 & Ho1 & Hl1 & Hn1 & Hpv1 & Hq1 & Hlk1 & Hm1 & Hd1 & Hf1).
    rewrite (bind_seq3 _ _ _ _ _ _ _ E1).
    assert (is_Some (zget (procs k1) c)) as [pc1 Hc1] by (rewrite <- (view_is_Some p_nr), Hn1, view_is_Some; eauto).
    assert (is_Some (zget (procs k1) d)) as [pd1 Hdz1] by (rewrite <- (view_is_Some p_nr), Hn1, view_is_Some; eauto).
    assert (view dest (procs k) c = Some None) as Hc0
      by (rewrite (view_get dest _ _ _ Hc); unfold dest; by rewrite Hns).
    assert (c ∉ C d) as HcC by (rewrite (cl_mem _ _ HC), Hc0; by intros [=]).
    destruct (queue_caller_run k1 C c d pc1 pd1 Hs1 Hc1 Hdz1)
      as (ps2 & E2 & Hs2 & Hl2 & Hn2 & Hm2 & Hd2 & Hf2 & Hpv2 & Hq2 & Hk2); [|done|].
    { eapply lseg_ext; [intros; apply Hlk1|]. apply (cl_link _ _ HC).
      rewrite <- Hq1. by apply view_get. }
    step E2. exists (with_procs ps2 k1). unfold outside in Ho1. injection Ho1 as.
    assert (ipc_ok ps2 ∧ callers ps2 (caller_add C d c)) as [Hi2 HC2].
    { destruct Hi as [Hnr _ Hac].
      assert (∀ i, view p_nr ps2 i = view p_nr (procs k) i) as Hnn by (intros; by rewrite Hn2).
      assert (∀ i, view dest ps2 i = if i =? c then Some (Some d) else view dest (procs k) i) as Hdd
        by (intros; by rewrite Hd2).
      assert (∀ i, view p_caller_q ps2 i =
        if (i =? d) && bool_decide (C d = []) then Some (Some c) else view p_caller_q (procs k) i) as Hqq
        by (intros; by rewrite Hq2, Hq1).
      assert (∀ i, view p_q_link ps2 i = if i =? c then Some None
        else if bool_decide (last (C d) = Some i) then Some (Some c) else view p_q_link (procs k) i) as Hkk
        by (intros; by rewrite Hk2, Hlk1).
      assert (is_Some (zget (procs k) d)) as Hds by eauto.
      split; [by eapply (ipc_send (procs k) ps2 C c d l); try done; congruence|].
      by eapply (send_callers (procs k) ps2 C c d l); try done; congruence. }
    split; [done|]. split; [split; [done|done|]|].
    { cbn. replace (privs k1) with (privs k) by done. done. }
    split; [done|]. cbn. rewrite Hm2, Hm1, Z.eqb_refl. split_and!; [done..| |]; intros i; [by rewrite Hf2|by rewrite Hpv2].
Qed.

(** ** [mini_receive] *)

Lemma with_aside_id k : with_privs (privs k) (with_memory (memory k) k) = k.
Proof. by destruct k. Qed.

Lemma pending_step_run k c pc s src m_ptr j :
  kinv k → zget (procs k) c = Some pc → zget (privs k) (p_priv pc) = Some s → 0 ≤ j < NR_SYS_CHUNKS →
  ∃ r m ss, pending_step c src m_ptr j k = Ret r (with_privs ss (with_memory m k)) ∧
    privs_like (privs k) ss ∧ (r ≠ Some true → ss = privs k ∧ m = memory k).
Proof.
  intros Hk Hc Hps Hj. pose proof Hk as [Hs Hi Hp].
  assert (∀ r, r ≠ Some true → ∃ r' m ss, (Ret r k : outcome kst (option bool)) = Ret r' (with_privs ss (with_memory m k)) ∧
    privs_like (privs k) ss ∧ (r' ≠ Some true → ss = privs k ∧ m = memory k)) as Hno.
  { intros r _. exists r, (memory k), (privs k). by rewrite with_aside_id. }
  unfold pending_step. step (priv_of_run _ _ _ _ Hc Hps).
  pose proof Hp as [Hpl Hpo]. destruct (Hpo _ _ Hps) as (_ & Hpend & _).
  destruct (zget_in (s_notify_pending s) j) as [chunk Hch]; [by rewrite Hpend|].
  rewrite (bind_lift _ _ _ _ Hch). destruct (chunk =? 0); [by apply Hno|]. cbv zeta.
  set (i := first_bit 16 0 chunk). set (id := j * BITCHUNK_BITS + i).
  destruct (Z.leb_spec NR_SYS_PROCS id) as [Hid|Hid]; [by apply Hno|].
  assert (∀ fuel a, a ≤ first_bit fuel a chunk) as Hfb.
  { induction fuel as [|fuel IH]; intros a; simpl; [lia|]. destruct (Z.testbit chunk a); [lia|].
    specialize (IH (a + 1)). lia. }
  destruct (zget_in (privs k) id) as [o Ho].
  { rewrite Hpl. specialize (Hfb 16%nat 0). unfold id, i, BITCHUNK_BITS in *. lia. }
  step (rd_priv_run _ _ _ Ho). destruct (_ && _); [by apply Hno|].
  rewrite bind_zset by (by rewrite Hpend).
  rewrite (bind_ret _ _ _ _ _ (upd_priv_of_run _ _ _ _ _ Hc Hps)).
  set (s1 := set_pending _ s). set (ss1 := upd (privs k) (p_priv pc) s1).
  assert (privs_like (privs k) ss1) as Hl1
    by (eapply privs_like_upd; [exact Hps|done..|apply zlen_upd]).
  assert (kinv (with_privs ss1 k)) as Hk1.
  { pose proof (kinv_aside k (memory k) ss1 Hk Hl1) as Hka. by destruct k. }
  destruct (BuildMess_run (s_proc_nr o) c (with_privs ss1 k) pc s1 Hk1 Hc) as (m2 & ss2 & E2 & Hl2);
    [apply zget_upd_eq; by eapply zget_Some_range|].
  step E2. rewrite bind_get.
  destruct (slot_in k HARDWARE (so_np _ Hs) ltac:(done)) as [h Hh].
  rewrite (bind_ret _ _ _ _ _ (CopyMess_run _ _ _ _ _ h pc (with_privs ss2 (with_memory m2 (with_privs ss1 k))) Hh Hc)).
  eexists (Some true), _, ss2. split; [done|]. split; [by etrans|done].
Qed.

Lemma pending_loop_run k c pc s src m_ptr js :
  kinv k → zget (procs k) c = Some pc → zget (privs k) (p_priv pc) = Some s → (∀ j, j ∈ js → 0 ≤ j < NR_SYS_CHUNKS) →
  ∃ b m ss, pending_loop c src m_ptr js k = Ret b (with_privs ss (with_memory m k)) ∧
    privs_like (privs k) ss ∧ (b = false → ss = privs k ∧ m = memory k).
Proof.
  intros Hk Hc Hs. induction js as [|j js IH]; intros Hjs.
  { exists false, (memory k), (privs k). by rewrite with_aside_id. }
  destruct (pending_step_run k c pc s src m_ptr j Hk Hc Hs) as (r & m & ss & E & Hl & Hr); [apply Hjs; set_solver|].
  cbn [pending_loop]. step E. destruct r as [[]|].
  - by exists true, m, ss.
  - destruct (Hr ltac:(done)) as [-> ->]. by exists false, (memory k), (privs k).
  - destruct (Hr ltac:(done)) as [-> ->]. rewrite with_aside_id. apply IH. set_solver.
Qed.

(** The sender whose message a receive takes. *)
Definition wanted (src i : Z) : bool := (src =? ANY) || (src =? i - NR_TASKS).

(** The sender is released and leaves the queue of the receiver. *)
Definition taken (k k' : kst) (c src m_ptr : Z) (C : Z → list Z) : Prop :=
  ∃ l1 i l2 pi pc, C c = l1 ++ i :: l2 ∧ wanted src i = true ∧
    Forall (λ x, wanted src x = false) l1 ∧ callers (procs k') (caller_del C c l1 l2) ∧
    zget (procs k) i = Some pi ∧ zget (procs k) c = Some pc ∧
    memory k' = cp_mess (p_nr pi) (mem_phys (p_mapD pi)) (p_messbuf pi)
                  (mem_phys (p_mapD pc)) m_ptr (memory k) ∧ privs k' = privs k ∧
    (∀ x, view p_rts_flags (procs k') x =
      if x =? i then Some (Z.ldiff (p_rts_flags pi) SENDING) else view p_rts_flags (procs k) x) ∧
    ∀ x, view held (procs k') x = view held (procs k) x.

Section take.
Context (k : kst) (c src m_ptr : Z) (pc : proc) (C : Z → list Z).
Context (Hk : kinv k) (HC : callers (procs k) C) (Hc : zget (procs k) c = Some pc).

(** The link after an entry of the caller's queue. *)
Lemma caller_next l1 i l2 pi :
  C c = l1 ++ i :: l2 → zget (procs k) i = Some pi → p_q_link pi = head l2.
Proof using HC Hc.
  intros EC Hi. pose proof (cl_link _ _ HC c _ (view_get _ _ _ _ Hc)) as Hl. rewrite EC in Hl.
  apply linked_app in Hl as (r & _ & [-> (r' & Hr' & Hl)]).
  rewrite (view_get p_q_link _ _ _ Hi) in Hr'. injection Hr' as ->. by eapply linked_head.
Qed.

Lemma caller_sends l1 i l2 pi :
  C c = l1 ++ i :: l2 → zget (procs k) i = Some pi → has (p_rts_flags pi) SENDING = true.
Proof using HC.
  intros EC Hi. assert (view dest (procs k) i = Some (Some c)) as Hd
    by (apply (cl_mem _ _ HC); rewrite EC, elem_of_app, elem_of_cons; tauto).
  rewrite (view_get dest _ _ _ Hi) in Hd. apply (inj Some) in Hd. unfold dest in Hd.
  by destruct (has (p_rts_flags pi) SENDING).
Qed.

(** The sender is released: its flags are the only change that matters for
    messages. *)
Lemma take_release m i pi :
  zget (procs k) i = Some pi → has (p_rts_flags pi) SENDING = true →
  ∃ k2, unblock i SENDING (with_memory m k) = Ret tt k2 ∧ sched_ok k2 ∧
    outside k2 = outside (with_memory m k) ∧ zlen (procs k2) = zlen (procs k) ∧
    (∀ x, view p_nr (procs k2) x = view p_nr (procs k) x) ∧
    (∀ x, view held (procs k2) x = view held (procs k) x) ∧
    (∀ x, view p_caller_q (procs k2) x = view p_caller_q (procs k) x) ∧
    (∀ x, view p_q_link (procs k2) x = view p_q_link (procs k) x) ∧
    (∀ x, view p_rts_flags (procs k2) x =
       if x =? i then Some (Z.ldiff (p_rts_flags pi) SENDING) else view p_rts_flags (procs k) x) ∧
    (∀ x, view dest (procs k2) x = if x =? i then Some None else view dest (procs k) x).
Proof using Hk.
  intros Hi Hs. destruct (kinv_memory k m Hk) as [Hs1 _ _].
  assert (p_rts_flags pi ≠ 0) as Hne by (intros E; by rewrite E in Hs).
  destruct (unblock_run (with_memory m k) i pi Hs1 Hi SENDING (or_introl eq_refl) Hne)
    as (k2 & E2 & Hk2 & Ho2 & Hs2). exists k2. split; [done|]. split; [done|]. split; [done|].
  pose proof (zget_Some_range _ _ _ Hi) as Hr.
  assert (∀ p p', core p' = core p → p_nr p' = p_nr p ∧ held p' = held p ∧
    p_caller_q p' = p_caller_q p ∧ p_q_link p' = p_q_link p) as Hcc
    by (unfold core, held; intros ? ? [=]; split_and!; congruence).
  split; [destruct Hk2 as [-> _]; unfold reflag; by rewrite zlen_upd|].
  split_and!; intros x;
    (rewrite (keeps_view _ _ _ x) by (done || apply Hcc || apply flags_core || apply dest_core));
    unfold reflag; try (by eapply view_same); rewrite view_upd, Z.eqb_sym by done.
  - done.
  - unfold dest. cbn. by rewrite has_ldiff_sending.
Qed.

Lemma receive_take_run l1 i l2 pi :
  C c = l1 ++ i :: l2 → zget (procs k) i = Some pi →
  ∃ k', take_message c m_ptr (last l1) i k = Ret tt k' ∧ kinv k' ∧ callers (procs k') (caller_del C c l1 l2) ∧
    memory k' = cp_mess (p_nr pi) (mem_phys (p_mapD pi)) (p_messbuf pi)
                  (mem_phys (p_mapD pc)) m_ptr (memory k) ∧ privs k' = privs k ∧
    (∀ x, view p_rts_flags (procs k') x =
      if x =? i then Some (Z.ldiff (p_rts_flags pi) SENDING) else view p_rts_flags (procs k) x) ∧
    ∀ x, view held (procs k') x = view held (procs k) x.
Proof using All.
  intros EC Hi. unfold take_message. step (rd_proc_run _ _ _ Hi).
  rewrite (bind_ret _ _ _ _ _ (CopyMess_run _ _ _ _ _ _ _ _ Hi Hc)). set (m := cp_mess _ _ _ _ _ _).
  destruct (take_release m i pi Hi (caller_sends _ _ _ _ EC Hi))
    as (k2 & E2 & Hs2 & Ho2 & Hl2 & Hn2 & Hp2 & Hq2 & Hk2 & Hf2 & Hd2).
  step E2. pose proof Hk as [_ [Hnr _ Ha] Hp].
  assert (∀ x, is_Some (zget (procs k) x) → is_Some (zget (procs k2) x)) as His
    by (intros x; by rewrite <- !(view_is_Some p_nr), Hn2).
  destruct (His i) as [p2 Hi2]; [eauto|]. destruct (His c) as [pc2 Hc2]; [eauto|].
  step (rd_proc_run _ _ _ Hi2).
  assert (p_q_link p2 = head l2) as ->.
  { rewrite <- (caller_next _ _ _ _ EC Hi). specialize (Hk2 i).
    rewrite (view_get _ _ _ _ Hi2), (view_get _ _ _ _ Hi) in Hk2. congruence. }
  destruct (set_caller_link_run k2 c (last l1) (head l2) pc2 Hs2 Hc2)
    as (ps3 & E3 & Hs3 & Hl3 & Hn3 & _ & Hd3 & Hf3 & Hp3 & Hq3 & Hk3).
  { intros j Hj. apply His. apply last_Some in Hj as [l ->].
    pose proof (cl_link _ _ HC c _ (view_get _ _ _ _ Hc)) as Hl. rewrite EC in Hl.
    apply (view_is_Some p_q_link). eapply lseg_defined; [exact Hl|]. set_solver. }
  rewrite E3. exists (with_procs ps3 k2). split; [done|]. unfold outside in Ho2. injection Ho2 as.
  assert (ipc_ok ps3 ∧ callers ps3 (caller_del C c l1 l2)) as [Hi3 HC3].
  { assert (is_Some (zget (procs k) c)) as Hcs by eauto.
    assert (∀ x, view p_caller_q ps3 x =
      if (x =? c) && bool_decide (l1 = []) then Some (head l2) else view p_caller_q (procs k) x) as Hqq.
    { intros x. rewrite Hq3, Hq2. by rewrite (bool_decide_ext (last l1 = None) (l1 = [])) by apply last_None. }
    split; [eapply (ipc_take (procs k) ps3 C c i l1 l2)|eapply (take_callers (procs k) ps3 C c i l1 l2)];
      try done; intros; rewrite ?Hn3, ?Hd3, ?Hk3, ?Hn2, ?Hd2, ?Hk2; done || congruence. }
  split; [split; [done|done|cbn; by replace (privs k2) with (privs k) by done]|].
  split_and!; [done..| |]; intros x; cbn; by rewrite ?Hf3, ?Hp3, ?Hf2, ?Hp2.
Qed.

Lemma receive_loop_run l1 l2 fuel :
  C c = l1 ++ l2 → Forall (λ x, wanted src x = false) l1 → (length l2 < fuel)%nat →
  (loop fuel (receive_step c src m_ptr) (last l1, head l2) k = Ret false k ∧
     Forall (λ x, wanted src x = false) (C c)) ∨
  (∃ k', loop fuel (receive_step c src m_ptr) (last l1, head l2) k = Ret true k' ∧
     kinv k' ∧ taken k k' c src m_ptr C).
Proof using All.
  revert l1 fuel. induction l2 as [|i l2 IH]; intros l1 fuel EC Hno Hf;
    (destruct fuel as [|fuel]; [lia|]); rewrite loop_S; cbn [head].
  - left. split; [done|]. by rewrite EC, app_nil_r.
  - assert (view dest (procs k) i = Some (Some c)) as (pi & Hi & _)%view_Some
      by (apply (cl_mem _ _ HC); rewrite EC, elem_of_app, elem_of_cons; tauto).
    assert (p_nr pi = i - NR_TASKS) as Hnr by (by apply (io_nr _ (ki_ipc _ Hk))).
    destruct (wanted src i) eqn:Ew.
    + right. destruct (receive_take_run l1 i l2 pi EC Hi) as (k' & E & Hk' & HC' & Hm & Hp & Hfl & Hpv).
      assert (receive_step c src m_ptr (last l1, Some i) k = Ret (inr true) k') as E'.
      { unfold receive_step. step (rd_proc_run _ _ _ Hi). rewrite Hnr. unfold wanted in Ew.
        rewrite Ew. by step E. }
      step E'. exists k'. split; [done|]. split; [done|]. by exists l1, i, l2, pi, pc.
    + pose proof (caller_next _ _ _ _ EC Hi) as Hlk.
      assert (receive_step c src m_ptr (last l1, Some i) k = Ret (inl (Some i, head l2)) k) as E'.
      { unfold receive_step. step (rd_proc_run _ _ _ Hi). rewrite Hnr. unfold wanted in Ew.
        by rewrite Ew, Hlk. }
      step E'. cbv iota. specialize (IH (l1 ++ [i]) fuel). rewrite last_snoc in IH. apply IH.
      * by rewrite <- app_assoc.
      * apply Forall_app. by repeat constructor.
      * simpl in Hf. lia.
Qed.
End take.

Lemma callers_length ps C c pc :
  zlen ps = NR_TASKS + NR_PROCS → callers ps C → zget ps c = Some pc → (length (C c) < proc_fuel)%nat.
Proof.
  intros Hn HC Hc. pose proof (cl_link _ _ HC c _ (view_get _ _ _ _ Hc)) as Hl.
  apply (linked_length _ _ _ (NR_TASKS + NR_PROCS)) in Hl.
  - unfold zlen, proc_fuel, NR_TASKS, NR_PROCS in *. lia.
  - intros i Hi%view_is_Some. destruct Hi as [p Hp]. rewrite <- Hn. by eapply zget_Some_range.
Qed.

(** Blocking in a receive. *)
Lemma wait_run k c pc src m_ptr C :
  kinv k → callers (procs k) C → zget (procs k) c = Some pc → p_rts_flags pc ≠ SLOT_FREE →
  ∃ k', (upd_proc c (set_getfrom src);; upd_proc c (set_messbuf m_ptr);; block c RECEIVING) k = Ret tt k' ∧
    kinv k' ∧ callers (procs k') C ∧ outside k' = outside k ∧
    view p_getfrom (procs k') c = Some src ∧ view p_messbuf (procs k') c = Some m_ptr ∧
    (∀ i, view p_rts_flags (procs k') i =
       if i =? c then Some (Z.lor (p_rts_flags pc) RECEIVING) else view p_rts_flags (procs k) i) ∧
    (∀ i, view held (procs k') i = view held (procs k) i).
Proof.
  intros [Hs Hi Hp] HC Hc Hfr. pose proof (zget_Some_range _ _ _ Hc) as Hr.
  destruct (upd_proc_sched k c pc (set_getfrom src)) as (k1 & E1 & -> & Hs1); [done..|].
  step E1. set (ps1 := upd _ _ _) in *. set (p1 := set_getfrom src pc) in *.
  assert (zget ps1 c = Some p1) as Hc1 by (by apply zget_upd_eq).
  destruct (upd_proc_sched (with_procs ps1 k) c p1 (set_messbuf m_ptr)) as (k2 & E2 & -> & Hs2); [done..|].
  step E2. cbn [procs with_procs] in *. set (ps2 := upd ps1 _ _) in *. set (p2 := set_messbuf m_ptr p1) in *.
  assert (zlen ps1 = zlen (procs k)) as Hl1 by apply zlen_upd.
  assert (zlen ps2 = zlen (procs k)) as Hl2 by (unfold ps2; by rewrite zlen_upd).
  assert (zget ps2 c = Some p2) as Hc2 by (apply zget_upd_eq; by rewrite Hl1).
  destruct (block_run _ c p2 Hs2 Hc2 RECEIVING 3) as (k3 & E3 & Hk3 & Ho3 & Hs3); [done|done|by right|done|].
  rewrite E3. exists k3. split; [done|].
  set (ps3 := reflag _ _ _ _) in Hk3. set (p3 := set_rts (Z.lor (p_rts_flags p2) RECEIVING) p2).
  assert (zget ps3 c = Some p3) as Hc3 by (apply zget_upd_eq; cbn; by rewrite Hl2).
  assert (∀ (A : Type) (f : proc → A) i, f p3 = f pc → view f ps3 i = view f (procs k) i) as Hv.
  { intros A f i Hf. unfold ps3, reflag. cbn.
    rewrite view_upd by (by rewrite Hl2). destruct (Z.eqb_spec c i) as [<-|].
    - by rewrite (view_get f _ _ _ Hc), <- Hf.
    - unfold ps2. rewrite view_upd by (by rewrite Hl1). destruct (Z.eqb_spec c i); [done|].
      unfold ps1. rewrite view_upd by done. by destruct (Z.eqb_spec c i). }
  assert (dest p3 = dest pc) as Hdp by (unfold dest; cbn; by rewrite has_lor_receiving).
  assert (zlen ps3 = zlen (procs k)) as Hl3 by (unfold ps3, reflag; cbn; by rewrite zlen_upd).
  destruct (keeps_get _ _ _ _ Hk3 Hc3) as (p4 & Hc4 & Hcore).
  unfold outside in Ho3. injection Ho3 as.
  split; [split; [done| |]|split; [|split; [unfold outside; congruence|]]].
  - eapply ipc_keeps; [exact Hk3|]. eapply ipc_ext; [..|exact Hi]; [done|intros; by apply Hv..].
  - replace (privs k3) with (privs k) by done. done.
  - assert (callers ps3 C) as HC3.
    { eapply callers_ext; [..|exact HC]; try (intros; by apply Hv).
      intros i. rewrite <- !(view_is_Some p_nr), (Hv _ p_nr i) by done. done. }
    eapply callers_ext; [..|exact HC3]; intros i.
    + by apply keeps_view; [apply dest_core|].
    + apply keeps_view; [|done]. unfold core. intros ? ? [=]. congruence.
    + apply keeps_view; [|done]. unfold core. intros ? ? [=]. congruence.
    + rewrite <- !(view_is_Some core). destruct Hk3 as [_ Hv3]. by rewrite Hv3.
  - unfold core in Hcore. cbn in Hcore. unfold view. rewrite Hc4. cbn.
    injection Hcore as. split_and!; [congruence..| |]; intros i.
    2:{ fold (view held (procs k3) i). fold (view held (procs k) i).
        rewrite (keeps_view held _ _ _ held_core Hk3). by apply Hv. }
    fold (view p_rts_flags (procs k3) i). fold (view p_rts_flags (procs k) i).
    rewrite (keeps_view p_rts_flags _ _ _ flags_core Hk3). unfold ps3, reflag. cbn.
    rewrite view_upd by (by rewrite Hl2). rewrite Z.eqb_sym. destruct (Z.eqb_spec i c); [done|].
    unfold ps2. rewrite view_upd by (by rewrite Hl1). destruct (Z.eqb_spec c i); [done|].
    unfold ps1. rewrite view_upd by done. by destruct (Z.eqb_spec c i).
Qed.

(** A receive that finds nothing blocks, or fails when it may not block. *)
Definition waits (k : kst) (c src m_ptr flags : Z) (pc : proc) (C : Z → list Z)
    (r : outcome kst Z) : Prop :=
  if has flags NON_BLOCKING then r = Ret ENOTREADY k
  else ∃ k', r = Ret OK k' ∧ kinv k' ∧ callers (procs k') C ∧ outside k' = outside k ∧
    view p_getfrom (procs k') c = Some src ∧ view p_messbuf (procs k') c = Some m_ptr ∧
    (∀ i, view p_rts_flags (procs k') i =
       if i =? c then Some (Z.lor (p_rts_flags pc) RECEIVING) else view p_rts_flags (procs k) i) ∧
    (∀ i, view held (procs k') i = view held (procs k) i).

(** A notification only touches memory and the pending bits. *)
Definition notified (k : kst) (r : outcome kst Z) : Prop :=
  ∃ m ss, r = Ret OK (with_privs ss (with_memory m k)) ∧ privs_like (privs k) ss.

Definition receive_outcome (k : kst) (c src m_ptr flags : Z) (pc : proc) (s : priv)
    (C : Z → list Z) (r : outcome kst Z) : Prop :=
  if has (p_rts_flags pc) SENDING then waits k c src m_ptr flags pc C r
  else (has (s_flags s) SENDREC_BUSY = false ∧ notified k r) ∨
       (∃ k', r = Ret OK k' ∧ kinv k' ∧ taken k k' c src m_ptr C) ∨
       (Forall (λ x, wanted src x = false) (C c) ∧ waits k c src m_ptr flags pc C r).

Lemma mini_receive_run k c src m_ptr flags pc s C :
  kinv k → callers (procs k) C → zget (procs k) c = Some pc → zget (privs k) (p_priv pc) = Some s →
  p_rts_flags pc ≠ SLOT_FREE →
  receive_outcome k c src m_ptr flags pc s C (mini_receive c src m_ptr flags k).
Proof.
  intros Hk HC Hc Hs Hfr. unfold receive_outcome, mini_receive.
  step (rd_proc_run _ _ _ Hc). step (priv_of_run _ _ _ _ Hc Hs).
  assert (waits k c src m_ptr flags pc C
    ((if negb (has flags NON_BLOCKING) then
        upd_proc c (set_getfrom src);; upd_proc c (set_messbuf m_ptr);; block c RECEIVING;; mret OK
      else mret ENOTREADY) k)) as Hw.
  { unfold waits. destruct (has flags NON_BLOCKING); cbn [negb]; [done|].
    destruct (wait_run k c pc src m_ptr C Hk HC Hc Hfr) as (k' & E & H).
    exists k'. split; [|done]. by rewrite (bind_seq3 _ _ _ _ _ _ _ E). }
  destruct (has (p_rts_flags pc) SENDING); [by rewrite bind_mret|].
  set (note := if has (s_flags s) SENDREC_BUSY then mret false
               else pending_loop c src m_ptr (range 0 (Z.to_nat NR_SYS_CHUNKS))).
  assert (∃ b m ss, note k = Ret b (with_privs ss (with_memory m k)) ∧ privs_like (privs k) ss ∧
    (b = false → ss = privs k ∧ m = memory k) ∧ (b = true → has (s_flags s) SENDREC_BUSY = false))
    as (b & m & ss & E & Hl & Hf & Ht).
  { unfold note. destruct (has (s_flags s) SENDREC_BUSY).
    - exists false, (memory k), (privs k). by rewrite with_aside_id.
    - destruct (pending_loop_run k c pc s src m_ptr (range 0 (Z.to_nat NR_SYS_CHUNKS)) Hk Hc Hs)
        as (b & m & ss & E & Hl & Hf); [|by exists b, m, ss].
      intros j Hj%elem_of_seqZ. unfold NR_SYS_CHUNKS in *. lia. }
  rewrite bind_assoc. step E. destruct b; cbv iota.
  - rewrite bind_mret. left. split; [by apply Ht|]. by exists m, ss.
  - destruct (Hf eq_refl) as [-> ->]. rewrite with_aside_id. right.
    pose proof (cl_link _ _ HC c _ (view_get _ _ _ _ Hc)) as Hcq. rewrite (linked_head _ _ _ Hcq).
    destruct (receive_loop_run k c src m_ptr pc C Hk HC Hc [] (C c) proc_fuel) as [[E' Hno]|(k' & E' & H)];
      [done|constructor|by eapply callers_length; [apply Hk|..]|..].
    + right. split; [done|]. rewrite (bind_ret _ _ _ _ _ E'). exact Hw.
    + left. exists k'. by rewrite (bind_ret _ _ _ _ _ E').
Qed.

(** ** [mini_notify] *)

Lemma set_sys_bit_run map bit :
  zlen map = NR_SYS_CHUNKS → 0 ≤ bit < NR_SYS_PROCS →
  ∃ l, set_sys_bit map bit = Some l ∧ zlen l = NR_SYS_CHUNKS ∧ get_sys_bit l bit = Some true.
Proof.
  intros Hl Hb. unfold NR_SYS_CHUNKS, NR_SYS_PROCS in *.
  assert (0 ≤ bit / BITCHUNK_BITS < zlen map) as Hr.
  { rewrite Hl. unfold BITCHUNK_BITS. split; [apply Z.div_pos; lia|apply Z.div_lt_upper_bound; lia]. }
  destruct (zget_in map _ Hr) as [ch Hch]. unfold set_sys_bit, get_sys_bit. rewrite Hch.
  eexists. split; [by apply zset_upd|]. split; [by rewrite zlen_upd|].
  rewrite zget_upd_eq by done. simpl. f_equal.
  assert (0 ≤ bit mod BITCHUNK_BITS) as Hm by (apply Z.mod_pos_bound; done).
  rewrite Z.shiftl_1_l, has_pow2 by done. by rewrite Z.lor_spec, Z.pow2_bits_true, orb_true_r.
Qed.

(** The destination is released with the message, or the bit of the caller is
    set in its map of pending notifications. *)
Definition notify_outcome (k : kst) (d : Z) (pc pd : proc) (cs ds : priv) (C : Z → list Z)
    (r : outcome kst Z) : Prop :=
  if awaits pd (p_nr pc) && negb (has (s_flags ds) SENDREC_BUSY) then
    ∃ k', r = Ret OK k' ∧ kinv k' ∧ delivered k k' d pd C ∧ privs_like (privs k) (privs k')
  else
    ∃ l, r = Ret OK (with_privs (upd (privs k) (p_priv pd) (set_pending l ds)) k) ∧
      kinv (with_privs (upd (privs k) (p_priv pd) (set_pending l ds)) k) ∧
      privs_like (privs k) (upd (privs k) (p_priv pd) (set_pending l ds)) ∧
      get_sys_bit l (s_id cs) = Some true.

Lemma mini_notify_run k c dst pc pd cs ds C :
  kinv k → callers (procs k) C → zget (procs k) c = Some pc →
  zget (procs k) (proc_addr dst) = Some pd →
  zget (privs k) (p_priv pc) = Some cs → zget (privs k) (p_priv pd) = Some ds →
  notify_outcome k (proc_addr dst) pc pd cs ds C (mini_notify c dst k).
Proof.
  intros Hk HC Hc Hd Hcs Hds. unfold notify_outcome, mini_notify.
  step (rd_proc_run _ _ _ Hc). step (rd_proc_run _ _ _ Hd). step (priv_of_run _ _ _ _ Hd Hds).
  destruct (awaits pd (p_nr pc) && negb (has (s_flags ds) SENDREC_BUSY)) eqn:Ea.
  - apply andb_true_iff in Ea as [[Hne _]%awaits_flags _].
    destruct (BuildMess_run (p_nr pc) (proc_addr dst) k pd ds Hk Hd Hds) as (m & ss & E & Hl).
    step E. rewrite bind_get.
    destruct (slot_in k HARDWARE (so_np _ (ki_sched _ Hk)) ltac:(done)) as [h Hh].
    set (k1 := with_privs ss (with_memory m k)).
    rewrite (bind_ret _ _ _ _ _ (CopyMess_run _ _ _ _ _ h pd k1 Hh Hd)).
    set (m2 := cp_mess _ _ _ _ _ _).
    pose proof (kinv_memory k1 m2 (kinv_aside k m ss Hk Hl)) as [Hs2 Hi2 Hp2].
    destruct (release_run (with_memory m2 k1) (proc_addr dst) pd C) as (k' & E' & Hk' & Ho' & Hdel); [done..|].
    step E'. exists k'. split; [done|]. split; [done|]. split; [exact Hdel|].
    unfold outside in Ho'. cbn in Ho'. replace (privs k') with ss by congruence. done.
  - step (priv_of_run _ _ _ _ Hc Hcs). pose proof (ki_privs _ Hk) as [_ Ho].
    destruct (Ho _ _ Hds) as (_ & Hpl & _). destruct (Ho _ _ Hcs) as (_ & _ & Hid).
    destruct (set_sys_bit_run _ _ Hpl Hid) as (l & El & Hll & Hg).
    rewrite (bind_lift _ _ _ _ El).
    rewrite (bind_ret _ _ _ _ _ (upd_priv_of_run _ _ _ _ _ Hd Hds)).
    assert (privs_like (privs k) (upd (privs k) (p_priv pd) (set_pending l ds))) as Hpl'
      by (eapply privs_like_upd; [exact Hds|done..|cbn; congruence]).
    exists l. split; [done|]. split; [|done].
    pose proof (kinv_aside k (memory k) _ Hk Hpl') as Hk'. by destruct k.
Qed.

(** ** [sys_call] *)

Lemma kinv_log k l : kinv k → kinv (with_log l k).
Proof. intros [[? ? ? ? ?] ? ?]. by split; [split|..]. Qed.

Lemma deny_run f c sd e pc k :
  zget (procs k) c = Some pc →
  deny f c sd e k = Ret e (with_log (k_log k ++ [(f, p_nr pc, sd)]) k).
Proof. intros Hc. unfold deny. by step (rd_proc_run _ _ _ Hc). Qed.

Lemma isokprocn_range n : - 2 ^ 31 ≤ n < 2 ^ 31 → isokprocn n = true → - NR_TASKS ≤ n < NR_PROCS.
Proof.
  unfold isokprocn, u32, NR_TASKS, NR_PROCS. intros Hn Hb%Z.ltb_lt.
  destruct (decide (0 ≤ n + 4)) as [?|?].
  - rewrite Z.mod_small in Hb by lia. lia.
  - rewrite <- (Z.mod_add (n + 4) 1) in Hb by lia. rewrite Z.mod_small in Hb by lia. lia.
Qed.

Lemma upd_flags_run k c pc s f :
  kinv k → zget (procs k) c = Some pc → zget (privs k) (p_priv pc) = Some s →
  let ss := upd (privs k) (p_priv pc) (set_flags f s) in
  kinv (with_privs ss k) ∧ zget ss (p_priv pc) = Some (set_flags f s) ∧ privs_like (privs k) ss.
Proof.
  intros Hk Hc Hs.
  assert (privs_like (privs k) (upd (privs k) (p_priv pc) (set_flags f s))) as Hl
    by (by eapply privs_like_upd).
  split; [|split; [by apply zget_upd_eq; eapply zget_Some_range|done]].
  pose proof (kinv_aside k (memory k) _ Hk Hl). by destruct k.
Qed.

(** The process has been given privileges, as every slot in use has. *)
Definition known (k : kst) (n : Z) : Prop :=
  ∃ p s, zget (procs k) (proc_addr n) = Some p ∧ zget (privs k) (p_priv p) = Some s.

Lemma check_dst_run k c pc s n :
  kinv k → zget (procs k) c = Some pc → zget (privs k) (p_priv pc) = Some s → known k n →
  ∃ r, check_dst c n k = Ret r k ∧ r ≠ Some OK.
Proof.
  intros Hk Hc Hps (pd & o & Hd & Hpo). pose proof Hk as [Hs _ [_ Hp]].
  unfold check_dst. step (priv_of_run _ _ _ _ Hc Hps). step (priv_of_run _ _ _ _ Hd Hpo).
  destruct (Hp _ _ Hps) as (Hl & _ & _). destruct (Hp _ _ Hpo) as (_ & _ & Hid).
  destruct (zget_in (s_ipc_to s) (s_id o / BITCHUNK_BITS)) as [ch Hch].
  { rewrite Hl. unfold NR_SYS_CHUNKS, NR_SYS_PROCS, BITCHUNK_BITS in *.
    split; [apply Z.div_pos; lia|apply Z.div_lt_upper_bound; lia]. }
  assert (get_sys_bit (s_ipc_to s) (s_id o)
          = Some (has ch (Z.shiftl 1 (s_id o mod BITCHUNK_BITS)))) as Hg
    by (unfold get_sys_bit; by rewrite Hch).
  rewrite (bind_lift _ _ _ _ Hg). destruct (negb _); [by exists (Some ECALLDENIED)|].
  step (rd_proc_run _ _ _ Hd). rewrite bind_get.
  destruct (_ && _); [by exists (Some EDEADDST)|by exists None].
Qed.

(** A call of [c] blocks nobody else, and changes no rights and no signals. *)
Definition spares (c : Z) (k k' : kst) : Prop :=
  privs_like (privs k) (privs k') ∧ (∀ i, view held (procs k') i = view held (procs k) i) ∧
  (∀ i f', view p_rts_flags (procs k') i = Some f' →
     ∃ f, view p_rts_flags (procs k) i = Some f ∧ fits f f') ∧
  ∀ i, i ≠ c → runnable (procs k) i → runnable (procs k') i.

Lemma spares_same c k k' : privs_like (privs k) (privs k') → procs k' = procs k → spares c k k'.
Proof. intros Hp E. unfold spares. rewrite E. split_and!; [done..| |done]. intros i f' Hf. by exists f'. Qed.

Lemma spares_refl c k : spares c k k.
Proof. by apply spares_same. Qed.

Lemma spares_trans c k1 k2 k3 : spares c k1 k2 → spares c k2 k3 → spares c k1 k3.
Proof.
  intros (? & Hp & Hf & Ha) (? & Hq & Hg & Hb). split_and!; [by etrans|intros i; by rewrite Hq| |].
  - intros i f3 (f2 & (f1 & ? & ?)%Hf & ?)%Hg. exists f1. split; [done|]. by etrans.
  - intros i Hi Hr. by apply Hb, Ha.
Qed.

(** Only the flags of [x] change, and not to block it. *)
Lemma spares_flags c k k' x px f :
  privs_like (privs k) (privs k') → (∀ i, view held (procs k') i = view held (procs k) i) →
  (∀ i, view p_rts_flags (procs k') i = if i =? x then Some f else view p_rts_flags (procs k) i) →
  zget (procs k) x = Some px → fits (p_rts_flags px) f →
  (x ≠ c → runnable (procs k) x → f = 0) → spares c k k'.
Proof.
  intros Hp Hpv Hv Hz Hft Hx. split_and!; [done..| |].
  - intros i f'. rewrite Hv. destruct (Z.eqb_spec i x) as [->|]; [|intros Hf; by exists f'].
    intros [= <-]. exists (p_rts_flags px). by rewrite (view_get _ _ _ _ Hz).
  - intros i Hi Hr. unfold runnable. rewrite Hv. destruct (Z.eqb_spec i x) as [->|]; [by rewrite Hx|done].
Qed.

Lemma runnable_flags ps i p : zget ps i = Some p → runnable ps i → p_rts_flags p = 0.
Proof. intros Hz Hr. unfold runnable in Hr. rewrite (view_get _ _ _ _ Hz) in Hr. congruence. Qed.

Lemma delivered_spares c k k' d pd C :
  zget (procs k) d = Some pd → privs_like (privs k) (privs k') → delivered k k' d pd C → spares c k k'.
Proof.
  intros Hd Hp (_ & Hf & Hpv). eapply spares_flags; [done|done|exact Hf|exact Hd|by apply fits_ldiff; right|].
  intros _ Hr.
  by rewrite (runnable_flags _ _ _ Hd Hr).
Qed.

(** The outcome of a trap: it returns, the invariant holds, no other process
    is blocked, and a failure leaves processes and memory alone, unless the
    first half of a SENDREC succeeded. *)
Definition trapped (k : kst) (c function : Z) (o : outcome kst Z) : Prop :=
  ∃ r k', o = Ret r k' ∧ kinv k' ∧ spares c k k' ∧
    (r ≠ OK → function ≠ SENDREC → procs k' = procs k ∧ memory k' = memory k).

Lemma waits_trapped k c src m_ptr flags pc C f o :
  kinv k → zget (procs k) c = Some pc → p_rts_flags pc ≠ SLOT_FREE →
  waits k c src m_ptr flags pc C o → trapped k c f o.
Proof.
  intros Hk Hc Hfr. unfold waits. destruct (has flags NON_BLOCKING).
  - intros ->. exists ENOTREADY, k. split_and!; [done..|apply spares_refl|done].
  - intros (k' & -> & Hk' & _ & Ho & _ & _ & Hf & Hpv). exists OK, k'. split_and!; [done..| |done].
    unfold outside in Ho. eapply spares_flags; [by replace (privs k') with (privs k) by congruence|done|exact Hf|exact Hc| |done].
    apply fits_lor; [by right|done].
Qed.

Lemma receive_trapped k c src m_ptr flags pc s C f :
  kinv k → callers (procs k) C → zget (procs k) c = Some pc → zget (privs k) (p_priv pc) = Some s →
  p_rts_flags pc ≠ SLOT_FREE → trapped k c f (mini_receive c src m_ptr flags k).
Proof.
  intros Hk HC Hc Hs Hfr. pose proof (mini_receive_run k c src m_ptr flags pc s C Hk HC Hc Hs Hfr) as H.
  unfold receive_outcome in H. destruct (has (p_rts_flags pc) SENDING); [by eapply waits_trapped|].
  destruct H as [(_ & m & ss & E & Hl)|[(k' & E & Hk' & Ht)|[_ H]]]; [| |by eapply waits_trapped].
  - exists OK. eexists. split; [exact E|]. split; [by apply kinv_aside|]. split; [by apply spares_same|done].
  - exists OK, k'. split_and!; [done..| |done].
    destruct Ht as (l1 & i & l2 & pi & pc' & _ & _ & _ & _ & Hi & _ & _ & Hp & Hf & Hpv).
    eapply spares_flags; [by rewrite Hp|done|exact Hf|exact Hi|by apply fits_ldiff; left|]. intros _ Hr.
    by rewrite (runnable_flags _ _ _ Hi Hr).
Qed.

Lemma send_trapped k c dst m_ptr flags pc C :
  kinv k → callers (procs k) C → zget (procs k) c = Some pc → p_rts_flags pc = 0 →
  is_Some (zget (procs k) (proc_addr dst)) → c ≠ proc_addr dst →
  ∃ r k', mini_send c dst m_ptr flags k = Ret r k' ∧ kinv k' ∧ spares c k k' ∧
    (r ≠ OK → procs k' = procs k ∧ memory k' = memory k) ∧
    ∃ p', zget (procs k') c = Some p' ∧ p_rts_flags p' ≠ SLOT_FREE.
Proof.
  intros Hk HC Hc H0 [pd Hpd] Hne. pose proof Hk as [Hs Hi _].
  destruct (io_acyclic _ Hi (proc_addr dst)) as [l Hl]; [eauto|].
  assert (p_rts_flags pc ≠ SLOT_FREE) as Hfr by (by rewrite H0).
  assert (has (p_rts_flags pc) SENDING = false) as Hns by (by rewrite H0).
  pose proof (mini_send_run k c dst m_ptr flags pc pd l C Hk HC Hc Hpd Hns Hfr Hne Hl) as H.
  assert (∀ e, ∃ r k', (Ret e k : outcome kst Z) = Ret r k' ∧ kinv k' ∧ spares c k k' ∧
    (r ≠ OK → procs k' = procs k ∧ memory k' = memory k) ∧
    ∃ p', zget (procs k') c = Some p' ∧ p_rts_flags p' ≠ SLOT_FREE) as Hno.
  { intros e. exists e, k. split_and!; [done..|apply spares_refl|done|by exists pc]. }
  assert (∀ k' f, f ≠ SLOT_FREE → view p_rts_flags (procs k') c = Some f →
    ∃ p', zget (procs k') c = Some p' ∧ p_rts_flags p' ≠ SLOT_FREE) as Hlive.
  { intros k' f Hf (p' & Hz & <-)%view_Some. by exists p'. }
  unfold send_outcome in H. case_bool_decide; [rewrite H; apply Hno|].
  destruct (awaits _ _); [|destruct (has flags NON_BLOCKING); [rewrite H; apply Hno|]].
  - destruct H as (k' & E & Hk' & Hdel & _ & Hp). exists OK, k'. split_and!; [done..| |done|].
    + eapply delivered_spares; [exact Hpd|by rewrite Hp|exact Hdel].
    + apply (Hlive _ 0); [done|]. destruct Hdel as (_ & -> & _).
      destruct (Z.eqb_spec c (proc_addr dst)); [done|]. rewrite (view_get _ _ _ _ Hc). by rewrite H0.
  - destruct H as (k' & E & Hk' & _ & _ & _ & Hp & Hf & Hpv). exists OK, k'. split_and!; [done..| |done|].
    + eapply spares_flags; [by rewrite Hp|done|exact Hf|exact Hc|apply fits_lor; [by left|done]|done].
    + apply (Hlive _ (Z.lor (p_rts_flags pc) SENDING)); [by rewrite H0|]. by rewrite Hf, Z.eqb_refl.
Qed.

(** The calls themselves, once the checks are passed. *)
Definition dispatch (caller src_dst m_ptr flags function : Z) : M kst Z :=
  if function =? SENDREC then
    upd_priv_of caller (λ s, set_flags (Z.lor (s_flags s) SENDREC_BUSY) s);;
    r ← mini_send caller src_dst m_ptr flags;
    if negb (r =? OK) then mret r else mini_receive caller src_dst m_ptr flags
  else if function =? SEND then mini_send caller src_dst m_ptr flags
  else if function =? RECEIVE then
    upd_priv_of caller (λ s, set_flags (Z.ldiff (s_flags s) SENDREC_BUSY) s);;
    mini_receive caller src_dst m_ptr flags
  else if function =? NOTIFY then mini_notify caller src_dst
  else if function =? ECHO then
    c ← rd_proc caller; CopyMess (p_nr c) caller m_ptr caller m_ptr;; mret OK
  else mret EBADCALL.

Lemma calls_run k c pc src_dst m_ptr flags f :
  kinv k → zget (procs k) c = Some pc → p_rts_flags pc = 0 →
  (has f CHECK_DST = true → known k src_dst) →
  (f = SEND ∨ f = SENDREC → c ≠ proc_addr src_dst) →
  trapped k c f (dispatch c src_dst m_ptr flags f k).
Proof.
  intros Hk Hc H0 Hd Hself. assert (p_rts_flags pc ≠ SLOT_FREE) as Hfr by (by rewrite H0).
  destruct (so_priv _ (ki_sched _ Hk) _ _ Hc Hfr) as (s & Hs & _). destruct (io_callers _ (ki_ipc _ Hk)) as [C HC].
  unfold dispatch, trapped.
  destruct (Z.eqb_spec f SENDREC) as [->|]; [|destruct (Z.eqb_spec f SEND) as [->|];
    [|destruct (Z.eqb_spec f RECEIVE) as [->|]; [|destruct (Z.eqb_spec f NOTIFY) as [->|];
    [|destruct (Z.eqb_spec f ECHO) as [->|]]]]].
  - rewrite (bind_ret _ _ _ _ _ (upd_priv_of_run _ _ _ _ _ Hc Hs)).
    destruct (upd_flags_run k c pc s (Z.lor (s_flags s) SENDREC_BUSY) Hk Hc Hs) as (Hk1 & _ & Hpl).
    set (k1 := with_privs _ k) in *.
    destruct (Hd eq_refl) as (pd & ds & Hpd & _).
    destruct (send_trapped k1 c src_dst m_ptr flags pc C Hk1 HC Hc H0)
      as (r & k2 & E & Hk2 & Hsp & _ & pc2 & Hc2 & Hfr2); [by exists pd|by apply Hself; right|].
    assert (spares c k k2) as Hsp2 by (eapply spares_trans; [|exact Hsp]; by apply spares_same).
    step E. destruct (negb (r =? OK)); [by exists r, k2|].
    destruct (so_priv _ (ki_sched _ Hk2) _ _ Hc2 Hfr2) as (s2 & Hs2 & _).
    destruct (io_callers _ (ki_ipc _ Hk2)) as [C2 HC2].
    destruct (receive_trapped k2 c src_dst m_ptr flags pc2 s2 C2 SENDREC Hk2 HC2 Hc2 Hs2 Hfr2)
      as (r3 & k3 & E3 & Hk3 & Hsp3 & _).
    exists r3, k3. split_and!; [done..|by eapply spares_trans|done].
  - destruct (Hd eq_refl) as (pd & ds & Hpd & _).
    destruct (send_trapped k c src_dst m_ptr flags pc C Hk HC Hc H0) as (r & k2 & E & Hk2 & Hsp & H & _);
      [by exists pd|by apply Hself; left|]. exists r, k2. split_and!; [done..|]. intros; by apply H.
  - rewrite (bind_ret _ _ _ _ _ (upd_priv_of_run _ _ _ _ _ Hc Hs)).
    destruct (upd_flags_run k c pc s (Z.ldiff (s_flags s) SENDREC_BUSY) Hk Hc Hs) as (Hk1 & Hs1 & Hpl).
    destruct (receive_trapped (with_privs _ k) c src_dst m_ptr flags pc _ C RECEIVE Hk1 HC Hc Hs1 Hfr)
      as (r3 & k3 & E3 & Hk3 & Hsp & H). exists r3, k3. split_and!; [done..| |done].
    eapply spares_trans; [|exact Hsp]. by apply spares_same.
  - destruct (Hd eq_refl) as (pd & ds & Hpd & Hds).
    pose proof (mini_notify_run k c src_dst pc pd s ds C Hk HC Hc Hpd Hs Hds) as H.
    unfold notify_outcome in H. exists OK. destruct (_ && _).
    + destruct H as (k' & E & Hk' & Hdel & Hpl). exists k'. split_and!; [done..| |done].
      by eapply delivered_spares.
    + destruct H as (l & E & Hk' & Hpl & _). eexists. split; [exact E|]. split; [exact Hk'|].
      split; [by apply spares_same|done].
  - step (rd_proc_run _ _ _ Hc). rewrite (bind_ret _ _ _ _ _ (CopyMess_run _ _ _ _ _ _ _ _ Hc Hc)).
    exists OK. eexists. split; [done|]. split; [by apply kinv_memory|]. split; [by apply spares_same|done].
  - exists EBADCALL, k. split_and!; [done..|apply spares_refl|done].
Qed.

Lemma sys_call_run k call_nr src_dst m_ptr pc :
  kinv k → zget (procs k) (proc_ptr k) = Some pc → p_rts_flags pc = 0 →
  let f := Z.land call_nr SYSCALL_FUNC in
  (has f CHECK_DST = true → isokprocn src_dst = true → known k src_dst) →
  (has f CHECK_DST = true → src_dst ≠ ANY) →
  (f = SEND ∨ f = SENDREC → proc_ptr k ≠ proc_addr src_dst) →
  trapped k (proc_ptr k) f (sys_call call_nr src_dst m_ptr k).
Proof.
  intros Hk Hc H0 f Hkn Hany Hself. set (c := proc_ptr k) in *.
  destruct (so_priv _ (ki_sched _ Hk) _ _ Hc) as (s & Hs & _); [by rewrite H0|].
  assert (∀ e, trapped k c f (deny f c src_dst e k)) as Hdeny.
  { intros e. rewrite (deny_run _ _ _ _ _ _ Hc). eexists _, _. split; [done|].
    split; [by apply kinv_log|]. split; [by apply spares_same|done]. }
  unfold sys_call. rewrite bind_get. fold c f. step (rd_proc_run _ _ _ Hc).
  step (priv_of_run _ _ _ _ Hc Hs).
  destruct (negb _ || _); [apply Hdeny|].
  destruct (negb (isokprocn src_dst || _ || _)) eqn:Eok; [apply Hdeny|].
  destruct (has f CHECK_PTR && _); [apply Hdeny|].
  assert (has f CHECK_DST = true → known k src_dst) as Hr.
  { intros Hcd. apply Hkn; [done|]. specialize (Hany Hcd). apply negb_false_iff in Eok.
    destruct (isokprocn src_dst); [done|]. destruct (Z.eqb_spec src_dst ANY); [done|].
    destruct (Z.eqb_spec f ECHO) as [E|]; [by rewrite E in Hcd|done]. }
  assert (∃ r, (if has f CHECK_DST then check_dst c src_dst else mret None) k = Ret r k)
    as [r Er].
  { destruct (has f CHECK_DST); [|by exists None].
    destruct (check_dst_run k c pc s src_dst Hk Hc Hs) as (r & E & _); [by apply Hr|]. by exists r. }
  step Er. destruct r as [e|]; [apply Hdeny|].
  pose proof (calls_run k c pc src_dst m_ptr (Z.land call_nr SYSCALL_FLAGS) f Hk Hc H0 Hr Hself) as H.
  unfold dispatch in H. destruct (f =? SENDREC); [done|]. destruct (f =? SEND); [done|].
  destruct (f =? RECEIVE); [done|]. destruct (f =? NOTIFY); [done|].
  destruct (f =? ECHO); [|done]. by rewrite (bind_ret _ _ _ _ _ (rd_proc_run _ _ _ Hc)) in H.
Qed.

(** ** Interrupts and the end of a quantum *)

Lemma kinv_intr k b : kinv k → kinv (with_intr b k).
Proof. intros [[? ? ? ? ?] ? ?]. by split; [split|..]. Qed.

Lemma lock_notify_run k src dst :
  kinv k → known k src → known k dst →
  ∃ k', lock_notify src dst k = Ret OK k' ∧ kinv k' ∧ ∀ c, spares c k k'.
Proof.
  intros Hk Hsrc Hdst.
  assert (∀ k, kinv k → known k src → known k dst →
    ∃ k', mini_notify (proc_addr src) dst k = Ret OK k' ∧ kinv k' ∧ ∀ c, spares c k k') as Hn.
  { clear k Hk Hsrc Hdst. intros k Hk (pc & cs & Hc & Hcs) (pd & ds & Hd & Hds).
    pose proof Hk as [Hs [_ [C HC] _] _].
    pose proof (mini_notify_run k _ dst pc pd cs ds C Hk HC Hc Hd Hcs Hds) as H.
    unfold notify_outcome in H. destruct (_ && _).
    - destruct H as (k' & E & Hk' & Hdel & Hpl). exists k'. split_and!; [done..|].
      intros. by eapply delivered_spares.
    - destruct H as (l & E & Hk' & Hpl & _). eexists. split; [exact E|]. split; [exact Hk'|].
      intros. by apply spares_same. }
  unfold lock_notify. rewrite bind_get. destruct (0 <=? k_reenter k); [by apply Hn|].
  unfold lock, unlock. rewrite bind_modify.
  destruct (Hn (with_intr false k)) as (k' & E & Hk' & Hsp); [by apply kinv_intr|done|done|].
  step E. rewrite bind_modify. eexists. split; [done|]. split; [by apply kinv_intr|exact Hsp].
Qed.

(** ** A process outside the queues

    Between [lock_dequeue] and [lock_enqueue] a process is in no ready queue,
    whatever its flags say. *)
Record kinv_off (rp : Z) (k : kst) : Prop := KinvOff {
  ko_np : zlen (procs k) = NR_TASKS + NR_PROCS;
  ko_prio : prio_ok (procs k);
  ko_len : queues_len k;
  ko_priv : privileged (procs k) (privs k);
  ko_ready : ∃ Q,
    ready (procs k) (rdy_head k) (rdy_tail k) (λ i, runnable (procs k) i ∧ i ≠ rp) Q ∧
    ∀ h, top Q = Some h → chosen k = h;
  ko_ipc : ipc_ok (procs k);
  ko_privs : privs_ok (privs k) }.

Lemma kinv_out k rp : kinv k → ¬ runnable (procs k) rp → kinv_off rp k.
Proof.
  intros [[Hl Hpo Hq Hpr (Q & Hr & Hn)] Hi Hp] Hrp. split; try done. exists Q. split; [|done].
  eapply ready_ext; [..|exact Hr]; [done|done|]. intros i. split; [by intros [? _]|].
  intros Hri. split; [done|]. by intros ->.
Qed.

Lemma kinv_back k rp : kinv_off rp k → ¬ runnable (procs k) rp → kinv k.
Proof.
  intros [Hl Hpo Hq Hpr (Q & Hr & Hn) Hi Hp] Hrp. split; [split|..]; try done. exists Q. split; [|done].
  eapply ready_ext; [..|exact Hr]; [done|done|]. intros i. split; [|by intros [? _]].
  intros Hri. split; [done|]. by intros ->.
Qed.

(** What scheduling does not touch. *)
Definition aside (k k' : kst) : Prop :=
  keeps (procs k) (procs k') ∧ privs k' = privs k ∧ memory k' = memory k ∧ proc_ptr k' = proc_ptr k.

Lemma requeued_aside k k' R Q : requeued k k' R Q → aside k k'.
Proof. intros (Hk & Ho & _). unfold outside in Ho. split; [done|]. split_and!; congruence. Qed.

Lemma lock_dequeue_run k rp p :
  kinv k → zget (procs k) rp = Some p → (iskerneln (p_nr p) = true → p_rts_flags p = 0) →
  ∃ k', lock_dequeue rp k = Ret tt k' ∧ kinv_off rp k' ∧ aside k k'.
Proof.
  intros [[Hl Hpo Hq Hpr (Q & Hr & Hn)] Hi Hp] Hz Hf.
  destruct (dequeue_run (with_intr false k) rp p _ Q Hz Hpo Hq Hl Hr Hpr (runnable_live _) Hf Hn)
    as (k1 & Q1 & E1 & H1). unfold lock_dequeue, lock, unlock. rewrite bind_modify. step E1.
  eexists. split; [done|]. pose proof (requeued_aside _ _ _ _ H1) as (Hk1 & Hs1 & ? & ?).
  destruct H1 as (_ & _ & Hpo1 & Hr1 & Hn1 & Hq1). cbn in *. split; [|done].
  split; cbn; rewrite ?Hs1; try done.
  - destruct Hk1 as [-> _]. done.
  - by eapply privileged_keeps.
  - exists Q1. split; [|done]. eapply ready_ext; [..|exact Hr1]; [done|done|]. intros i.
    unfold runnable. by rewrite (keeps_view p_rts_flags (procs k) (procs k1)); [|apply flags_core|].
  - by eapply ipc_keeps.
Qed.

Lemma lock_enqueue_run k rp p :
  kinv_off rp k → zget (procs k) rp = Some p → p_rts_flags p = 0 →
  ∃ k', lock_enqueue rp k = Ret tt k' ∧ kinv k' ∧ aside k k'.
Proof.
  intros [Hl Hpo Hq Hpr (Q & Hr & Hn) Hi Hp] Hz Hf.
  destruct (enqueue_run (with_intr false k) rp p _ Q Hz (λ H, proj2 H eq_refl) Hpo Hq Hr Hpr)
    as (k1 & Q1 & E1 & H1); [intros i pi [Hri _]; by apply runnable_live|by rewrite Hf|].
  unfold lock_enqueue, lock, unlock. rewrite bind_modify. step E1.
  eexists. split; [done|]. pose proof (requeued_aside _ _ _ _ H1) as (Hk1 & Hs1 & ? & ?).
  destruct H1 as (_ & _ & Hpo1 & Hr1 & Hn1 & Hq1). cbn in *. split; [|done].
  split; [split|..]; cbn; rewrite ?Hs1; try done.
  - destruct Hk1 as [-> _]. done.
  - by eapply privileged_keeps.
  - exists Q1. split; [|done]. eapply ready_ext; [..|exact Hr1]; [done|done|]. intros i.
    assert (runnable (procs k) rp) as Hrp by (unfold runnable; by rewrite (view_get _ _ _ _ Hz), Hf).
    unfold runnable in *. rewrite (keeps_view p_rts_flags (procs k) (procs k1)); [|apply flags_core|done].
    destruct (Z.eq_dec i rp) as [->|]; tauto.
  - by eapply ipc_keeps.
Qed.

(** A process outside the queues can change: its number stays, its priorities
    are queues, and its place among the callers stays. *)
Lemma off_upd k rp p p' :
  kinv_off rp k → zget (procs k) rp = Some p → p_nr p' = p_nr p →
  in_q (p_priority p') → in_q (p_max_priority p') →
  (p_rts_flags p' ≠ SLOT_FREE → ∃ s, zget (privs k) (p_priv p') = Some s ∧
     (iskerneln (p_nr p') = true → has (p_rts_flags p') NO_MAP = false → s_stack_guard s = STACK_GUARD)) →
  ipc_ok (upd (procs k) rp p') → kinv_off rp (with_procs (upd (procs k) rp p') k).
Proof.
  intros [Hl Hpo Hq Hpr (Q & Hr & Hn) Hi Hp] Hz Hnr Ha Hb Hpv Hi'.
  pose proof (zget_Some_range _ _ _ Hz) as Hrg. split; cbn; try done.
  - by rewrite zlen_upd.
  - by apply prio_ok_upd.
  - intros j q. rewrite zget_upd by done. destruct (Z.eqb_spec rp j) as [<-|]; [|apply Hpr].
    intros [= <-]. apply Hpv.
  - exists Q. split; [|done].
    assert (∀ A (f : proc → A) i, i ≠ rp → view f (upd (procs k) rp p') i = view f (procs k) i) as Hv.
    { intros A f i Hne. rewrite view_upd by done. by destruct (Z.eqb_spec rp i). }
    eapply ready_mono; [..|exact Hr]; intros i; [intros [_ ?]; by apply Hv..|].
    split; intros [Hri Hne]; (split; [|done]); unfold runnable in *; by rewrite Hv in *.
Qed.

(** The end of a quantum. *)
Lemma requeue_run k rp :
  kinv k → runnable (procs k) rp →
  ∃ k1 k2, lock_dequeue rp k = Ret tt k1 ∧ lock_enqueue rp k1 = Ret tt k2 ∧ kinv k2 ∧
    ∀ c, spares c k k2.
Proof.
  intros Hk Hrun. pose proof Hrun as (p & Hz & Hf)%view_Some.
  destruct (lock_dequeue_run k rp p Hk Hz (λ _, Hf)) as (k1 & E1 & Ho1 & Hk1 & Hp1 & _).
  destruct (keeps_get _ _ _ _ Hk1 Hz) as (p1 & Hz1 & Hc1).
  destruct (lock_enqueue_run k1 rp p1 Ho1 Hz1) as (k2 & E2 & Hi2 & Hk2 & Hp2 & _).
  { unfold core in Hc1. congruence. }
  exists k1, k2. split_and!; [done..|]. intros c.
  assert (keeps (procs k) (procs k2)) as Hkk by (by etrans).
  assert (∀ i, view p_rts_flags (procs k2) i = view p_rts_flags (procs k) i) as Hfv
    by (intros i; by apply keeps_view; [apply flags_core|]).
  split; [by rewrite Hp2, Hp1|]. split; [intros i; by apply keeps_view; [apply held_core|]|].
  split; [|intros i _; unfold runnable; by rewrite Hfv]. intros i f' Hf'. exists f'. by rewrite <- Hfv.
Qed.


(** ** Leaving the kernel *)

Lemma restart_run k : restart k = Ret tt (with_running (chosen k) None k).
Proof. unfold restart, chosen. rewrite bind_get. by destruct k as [? ? ? ? ? []]. Qed.

Lemma kinv_restart k : kinv k → kinv (with_running (chosen k) None k).
Proof. intros [[? ? ? ? ?] ? ?]. by split; [split|..]. Qed.

(** The one that goes first is ready, and nobody ready is more urgent. *)
Lemma top_first ps hd tl R Q i q :
  ready ps hd tl R Q → R i → view p_priority ps i = Some q → in_q q →
  ∃ h qh, top Q = Some h ∧ R h ∧ view p_priority ps h = Some qh ∧ qh ≤ q.
Proof.
  intros Hr HRi Hp Hq.
  assert (∀ lo n, 0 ≤ lo → lo + Z.of_nat n = NR_SCHED_QUEUES → lo ≤ q →
    ∃ h qh, head (mjoin (Q <$> range lo n)) = Some h ∧ R h ∧ view p_priority ps h = Some qh ∧ qh ≤ q) as H.
  { intros lo n. revert lo. induction n as [|n IH]; intros lo Hlo Hn Hle.
    { unfold in_q in Hq. lia. }
    rewrite range_S. change (mjoin (Q <$> lo :: range (lo + 1) n)) with (Q lo ++ mjoin (Q <$> range (lo + 1) n)).
    assert (in_q lo) as Hlq by (unfold in_q; lia).
    destruct (Q lo) as [|h l] eqn:E.
    - cbn [app]. apply IH; [lia|lia|]. destruct (Z.eq_dec lo q) as [->|]; [|lia].
      assert (i ∈ Q q) as Hin by (by apply (rd_mem _ _ _ _ _ Hr)). rewrite E in Hin. set_solver.
    - exists h, lo. split; [done|]. assert (h ∈ Q lo) as Hh by (rewrite E; set_solver).
      apply (rd_mem _ _ _ _ _ Hr) in Hh as [? ?]; done. }
  apply H; [lia|done|]. unfold in_q in Hq. lia.
Qed.
