(* ===== verification/KernelBoot.v ===== *)
(** * Start-up of the reference kernel

    [main] of [reference/minix/kernel/main.c] with [get_priv] of [system.c] and
    the boot image of [table.c], on the tables that scheduling and message
    passing use: the process and privilege tables are cleared, then each
    process of the image gets its priorities, privileges, memory map and place
    in a ready queue. The a.out headers that the boot monitor leaves in memory
    are a parameter. Registers, names, segment descriptors
    and the banner are outside this state. *)

From S2P Require Import Prelude Linked Irq Timers Ipc IpcQueues IpcInv IpcSpec.

(** ** The boot image *)

Definition NONE : Z := 0x6ace.
Definition USER_PRIV_ID : Z := 0.
Definition ENOSPC : Z := -28.

Definition IDLE : Z := -4.
Definition CLOCK : Z := -3.
Definition PM_PROC_NR : Z := 0.
Definition FS_PROC_NR : Z := 1.
Definition RS_PROC_NR : Z := 2.
Definition MEM_PROC_NR : Z := 3.
Definition LOG_PROC_NR : Z := 4.
Definition TTY_PROC_NR : Z := 5.
Definition DRVR_PROC_NR : Z := 6.
Definition INIT_PROC_NR : Z := 7.

Definition PREEMPTIBLE : Z := 0x01.
Definition SYS_PROC : Z := 0x10.

Definition TASK_Q : Z := 0.
Definition USER_Q : Z := 7.

Definition IDL_F : Z := Z.lor (Z.lor SYS_PROC PREEMPTIBLE) BILLABLE.
Definition TSK_F : Z := SYS_PROC.
Definition SRV_F : Z := Z.lor SYS_PROC PREEMPTIBLE.
Definition USR_F : Z := Z.lor BILLABLE PREEMPTIBLE.

Definition TSK_T : Z := Z.shiftl 1 RECEIVE.
Definition SRV_T : Z := -1.
Definition USR_T : Z := Z.lor (Z.shiftl 1 SENDREC) (Z.shiftl 1 ECHO).

Definition s_nr_to_id (n : Z) : Z := NR_TASKS + n + 1.
Definition s_bit (n : Z) : Z := Z.shiftl 1 (s_nr_to_id n).
Definition SRV_M : Z := u16 (-1).
Definition SYS_M : Z := u16 (-1).
Definition USR_M : Z := Z.lor (Z.lor (s_bit PM_PROC_NR) (s_bit FS_PROC_NR)) (s_bit RS_PROC_NR).
Definition DRV_M : Z :=
  Z.lor (Z.lor (Z.lor (Z.lor USR_M (s_bit SYSTEM)) (s_bit CLOCK)) (s_bit LOG_PROC_NR)) (s_bit TTY_PROC_NR).

(** The numbers of the kernel calls, from [KERNEL_CALL] on. *)
Definition KERNEL_CALL : Z := 0x600.
Definition SYS_KILL : Z := KERNEL_CALL + 6.
Definition SYS_EXIT : Z := KERNEL_CALL + 2.
Definition SYS_SEGCTL : Z := KERNEL_CALL + 12.
Definition SYS_UMAP : Z := KERNEL_CALL + 14.
Definition SYS_VIRCOPY : Z := KERNEL_CALL + 15.
Definition SYS_PHYSCOPY : Z := KERNEL_CALL + 16.
Definition SYS_VIRVCOPY : Z := KERNEL_CALL + 17.
Definition SYS_PHYSVCOPY : Z := KERNEL_CALL + 18.
Definition SYS_IRQCTL : Z := KERNEL_CALL + 19.
Definition SYS_INT86 : Z := KERNEL_CALL + 20.
Definition SYS_DEVIO : Z := KERNEL_CALL + 21.
Definition SYS_SDEVIO : Z := KERNEL_CALL + 22.
Definition SYS_VDEVIO : Z := KERNEL_CALL + 23.
Definition SYS_SETALARM : Z := KERNEL_CALL + 24.
Definition SYS_TIMES : Z := KERNEL_CALL + 25.
Definition SYS_GETINFO : Z := KERNEL_CALL + 26.

Definition c_bit (n : Z) : Z := Z.shiftl 1 (n - KERNEL_CALL).
Definition c_bits (ns : list Z) : Z := foldr (λ n, Z.lor (c_bit n)) 0 ns.
Definition RS_C : Z := -1.
Definition PM_C : Z := Z.lnot (c_bits [SYS_DEVIO; SYS_SDEVIO; SYS_VDEVIO; SYS_IRQCTL; SYS_INT86]).
Definition FS_C : Z :=
  c_bits [SYS_KILL; SYS_VIRCOPY; SYS_VIRVCOPY; SYS_UMAP; SYS_GETINFO; SYS_EXIT; SYS_TIMES; SYS_SETALARM].
Definition DRV_C : Z :=
  Z.lor FS_C (c_bits [SYS_SEGCTL; SYS_IRQCTL; SYS_INT86; SYS_DEVIO; SYS_VDEVIO; SYS_SDEVIO]).
Definition MEM_C : Z := Z.lor DRV_C (c_bits [SYS_PHYSCOPY; SYS_PHYSVCOPY]).

Definition SMALL_STACK : Z := 128 * 4.
Definition IDL_S : Z := SMALL_STACK.
Definition HRD_S : Z := 0.
Definition TSK_S : Z := SMALL_STACK.

Record boot_image : Type := BootImage {
  b_proc_nr : Z;
  b_flags : Z;
  b_quantum : Z;
  b_priority : Z;
  b_stksize : Z;
  b_trap_mask : Z;
  b_ipc_to : Z;
  b_call_mask : Z }.

Definition image : list boot_image := [
  BootImage IDLE         IDL_F 8  IDLE_Q IDL_S 0     0 0;
  BootImage CLOCK        TSK_F 64 TASK_Q TSK_S TSK_T 0 0;
  BootImage SYSTEM       TSK_F 64 TASK_Q TSK_S TSK_T 0 0;
  BootImage HARDWARE     TSK_F 64 TASK_Q HRD_S 0     0 0;
  BootImage PM_PROC_NR   SRV_F 32 3      0     SRV_T SRV_M PM_C;
  BootImage FS_PROC_NR   SRV_F 32 4      0     SRV_T SRV_M FS_C;
  BootImage RS_PROC_NR   SRV_F 4  3      0     SRV_T SYS_M RS_C;
  BootImage TTY_PROC_NR  SRV_F 4  1      0     SRV_T SYS_M DRV_C;
  BootImage MEM_PROC_NR  SRV_F 4  2      0     SRV_T DRV_M MEM_C;
  BootImage LOG_PROC_NR  SRV_F 4  2      0     SRV_T SYS_M DRV_C;
  BootImage DRVR_PROC_NR SRV_F 4  2      0     SRV_T SYS_M DRV_C;
  BootImage INIT_PROC_NR USR_F 8  USER_Q 0     USR_T USR_M 0 ].

(** The fields of an a.out header that the start-up code uses. *)
Record exec : Type := Exec { a_flags : Z; a_text : Z; a_total : Z; a_syms : Z }.
Definition A_SEP : Z := 0x20.
Definition CLICK_SIZE : Z := 1024.

(** ** Clearing the tables *)

Definition reset_slot (i : Z) (p : proc) : proc :=
  Proc i (p_priv p) SLOT_FREE (p_priority p) (p_max_priority p) (p_ticks_left p) (p_quantum_size p)
    (p_mapD p) (p_mapS p) (p_nextready p) (p_caller_q p) (p_q_link p) (p_messbuf p) (p_getfrom p) (p_sendto p)
    (p_pending p) (p_user_time p) (p_sys_time p) (p_mapT p).
Definition reset_priv (i : Z) (s : priv) : priv :=
  Priv NONE i (s_flags s) (s_trap_mask s) (s_ipc_to s) (s_notify_pending s)
    (s_int_pending s) (s_sig_pending s) (s_stack_guard s) (s_call_mask s) (s_farmem s).

Fixpoint clear_procs (i : Z) (rs : list Z) : M kst unit :=
  match rs with
  | [] => mret tt
  | rp :: rs' => upd_proc rp (reset_slot i);; clear_procs (i + 1) rs'
  end.
Fixpoint clear_privs (ss : list Z) : M kst unit :=
  match ss with
  | [] => mret tt
  | sp :: ss' => upd_priv sp (reset_priv sp);; clear_privs ss'
  end.

(** ** Privileges *)

Definition set_proc_nr (n f : Z) (s : priv) : priv :=
  Priv n (s_id s) f (s_trap_mask s) (s_ipc_to s) (s_notify_pending s)
    (s_int_pending s) (s_sig_pending s) (s_stack_guard s) (s_call_mask s) (s_farmem s).
Definition set_rights (f t : Z) (to : list Z) (s : priv) : priv :=
  Priv (s_proc_nr s) (s_id s) f t to (s_notify_pending s)
    (s_int_pending s) (s_sig_pending s) (s_stack_guard s) (s_call_mask s) (s_farmem s).
Definition set_call_mask (c : Z) (s : priv) : priv :=
  Priv (s_proc_nr s) (s_id s) (s_flags s) (s_trap_mask s) (s_ipc_to s) (s_notify_pending s)
    (s_int_pending s) (s_sig_pending s) (s_stack_guard s) c (s_farmem s).
Definition set_guard (g : Z) (s : priv) : priv :=
  Priv (s_proc_nr s) (s_id s) (s_flags s) (s_trap_mask s) (s_ipc_to s) (s_notify_pending s)
    (s_int_pending s) (s_sig_pending s) g (s_call_mask s) (s_farmem s).
Definition set_priv (x : Z) (p : proc) : proc :=
  Proc (p_nr p) x (p_rts_flags p) (p_priority p) (p_max_priority p) (p_ticks_left p) (p_quantum_size p)
    (p_mapD p) (p_mapS p) (p_nextready p) (p_caller_q p) (p_q_link p) (p_messbuf p) (p_getfrom p) (p_sendto p)
    (p_pending p) (p_user_time p) (p_sys_time p) (p_mapT p).

(** Where the search of [get_priv] stops: at an unused structure, or one past
    the end of the table. *)
Fixpoint find_priv (sp : Z) (ss : list priv) : Z :=
  match ss with
  | [] => sp
  | s :: ss' =>
      if (s_proc_nr s =? NONE) && negb (s_id s =? USER_PRIV_ID) then sp else find_priv (sp + 1) ss'
  end.

Definition get_priv (rc proc_type : Z) : M kst Z :=
  if proc_type =? SYS_PROC then
    k ← get;
    let sp := find_priv 0 (privs k) in
    s ← rd_priv sp;
    if negb (s_proc_nr s =? NONE) then mret ENOSPC else
    upd_proc rc (set_priv sp);;
    p ← rd_proc rc;
    upd_priv_of rc (set_proc_nr (p_nr p) SYS_PROC);;
    mret OK
  else
    upd_proc rc (set_priv USER_PRIV_ID);;
    upd_priv_of rc (set_proc_nr INIT_PROC_NR 0);;
    mret OK.

(** ** The processes of the image *)

Definition set_quanta (prio quantum : Z) (p : proc) : proc :=
  Proc (p_nr p) (p_priv p) (p_rts_flags p) prio prio quantum quantum
    (p_mapD p) (p_mapS p) (p_nextready p) (p_caller_q p) (p_q_link p) (p_messbuf p) (p_getfrom p) (p_sendto p)
    (p_pending p) (p_user_time p) (p_sys_time p) (p_mapT p).
Definition set_maps (t d s : mem_map) (p : proc) : proc :=
  Proc (p_nr p) (p_priv p) (p_rts_flags p) (p_priority p) (p_max_priority p) (p_ticks_left p) (p_quantum_size p)
    d s (p_nextready p) (p_caller_q p) (p_q_link p) (p_messbuf p) (p_getfrom p) (p_sendto p)
    (p_pending p) (p_user_time p) (p_sys_time p) t.

(** The memory map of a process from its header. *)
Definition boot_maps (e : exec) (p : proc) : proc :=
  let text_base := u32 (Z.shiftr (a_syms e) CLICK_SHIFT) in
  let text_clicks :=
    if has (a_flags e) A_SEP then u32 (Z.shiftr (a_text e + (CLICK_SIZE - 1)) CLICK_SHIFT) else 0 in
  let data_clicks := u32 (Z.shiftr (a_total e + (CLICK_SIZE - 1)) CLICK_SHIFT) in
  set_maps (MemMap (mem_vir (p_mapT p)) text_base text_clicks)
           (MemMap (mem_vir (p_mapD p)) (u32 (text_base + text_clicks)) data_clicks)
           (MemMap data_clicks (u32 (text_base + text_clicks + data_clicks)) (mem_len (p_mapS p))) p.

Section main.
Context (aout : Z → exec).

Definition boot_proc (i : Z) (ip : boot_image) : M kst unit :=
  let rp := proc_addr (b_proc_nr ip) in
  upd_proc rp (set_quanta (b_priority ip) (b_quantum ip));;
  _ ← get_priv rp (Z.land (b_flags ip) SYS_PROC);
  s ← priv_of rp;
  to ← lift_opt (zset (s_ipc_to s) 0 (b_ipc_to ip));
  upd_priv_of rp (set_rights (b_flags ip) (b_trap_mask ip) to);;
  upd_priv_of rp (set_call_mask (b_call_mask ip));;
  p ← rd_proc rp;
  when (iskerneln (p_nr p) && (0 <? b_stksize ip)) (upd_priv_of rp (set_guard STACK_GUARD));;
  let hdrindex := if iskerneln (p_nr p) then 0 else 1 + i - NR_TASKS in
  upd_proc rp (boot_maps (aout hdrindex));;
  if negb (p_nr p =? HARDWARE) then
    upd_proc rp (set_rts 0);;
    lock_enqueue rp
  else upd_proc rp (set_rts NO_MAP).

Fixpoint boot_procs (i : Z) (ips : list boot_image) : M kst unit :=
  match ips with
  | [] => mret tt
  | ip :: ips' => boot_proc i ip;; boot_procs (i + 1) ips'
  end.

Definition with_shutdown (x : bool) (k : kst) : kst :=
  Kst (procs k) (privs k) (rdy_head k) (rdy_tail k) (proc_ptr k) (next_ptr k) (bill_ptr k) (sched_prev k)
    (memory k) (realtime k) x (k_reenter k) (k_frame k) (k_intr k) (k_log k)
    (k_irqs k) (k_clock k) (k_random k).

Definition main : M kst unit :=
  clear_procs (- NR_TASKS) (range 0 (Z.to_nat (NR_TASKS + NR_PROCS)));;
  clear_privs (range 0 (Z.to_nat NR_SYS_PROCS));;
  boot_procs 0 image;;
  modify (with_shutdown false);;
  modify (λ k, with_next (next_ptr k) (Some (proc_addr IDLE)) k);;
  restart.
End main.

(** ** The state the kernel is loaded in: uninitialised data is zero, and no
    pointer points to a slot. *)
Definition blank_map : mem_map := MemMap 0 0 0.
Definition blank_proc : proc :=
  Proc 0 (-1) 0 0 0 0 0 blank_map blank_map None None None 0 0 0 0 0 0 blank_map.
Definition NR_REMOTE_SEGS : Z := 3.
Definition blank_priv : priv :=
  Priv 0 0 0 0 [0; 0] [0; 0] 0 0 0 0 (replicate (Z.to_nat NR_REMOTE_SEGS) (FarMem false 0 0)).

Definition loaded (m : Z → Z) (ticks frame : Z) : kst :=
  Kst (replicate (Z.to_nat (NR_TASKS + NR_PROCS)) blank_proc)
    (replicate (Z.to_nat NR_SYS_PROCS) blank_priv)
    (replicate (Z.to_nat NR_SCHED_QUEUES) None) (replicate (Z.to_nat NR_SCHED_QUEUES) None)
    (-1) None None None m ticks false 0 frame false []
    blank_irqs blank_clock (replicate (Z.to_nat RANDOM_SOURCES) blank_bin).

(** ** Checking a state in which nobody is sending *)

Section settled.
Context (k : kst) (Ql : list (list Z)).

Definition queue (q : Z) : list Z := default [] (zget Ql q).

Definition slots : list Z := range 0 (Z.to_nat (NR_TASKS + NR_PROCS)).
Definition queues : list Z := range 0 (Z.to_nat NR_SCHED_QUEUES).

Fixpoint walks (x : option Z) (l : list Z) : bool :=
  match l with
  | [] => bool_decide (x = None)
  | i :: l' =>
      bool_decide (x = Some i) &&
      match view p_nextready (procs k) i with Some r => walks r l' | None => false end
  end.

Definition in_qb (q : Z) : bool := (0 <=? q) && (q <? NR_SCHED_QUEUES).

Definition slot_settled (i : Z) : bool :=
  match zget (procs k) i with
  | None => false
  | Some p =>
      in_qb (p_priority p) && in_qb (p_max_priority p) && (p_nr p =? i - NR_TASKS) &&
      bool_decide (dest p = None) && bool_decide (p_caller_q p = None) &&
      eqb (p_rts_flags p =? 0) (bool_decide (i ∈ queue (p_priority p))) &&
      ((p_rts_flags p =? SLOT_FREE) ||
       match zget (privs k) (p_priv p) with
       | Some s => negb (iskerneln (p_nr p)) || has (p_rts_flags p) NO_MAP || (s_stack_guard s =? STACK_GUARD)
       | None => false
       end)
  end.

Definition queue_settled (q : Z) : bool :=
  bool_decide (zget (rdy_head k) q = Some (head (queue q))) &&
  bool_decide (zget (rdy_tail k) q = Some (last (queue q))) &&
  walks (head (queue q)) (queue q) &&
  forallb (λ i, bool_decide (view p_priority (procs k) i = Some q)) (queue q).

Definition priv_settled (s : priv) : bool :=
  (zlen (s_ipc_to s) =? NR_SYS_CHUNKS) && (zlen (s_notify_pending s) =? NR_SYS_CHUNKS) &&
  (0 <=? s_id s) && (s_id s <? NR_SYS_PROCS).

Definition settled : bool :=
  (zlen (procs k) =? NR_TASKS + NR_PROCS) && (zlen (rdy_head k) =? NR_SCHED_QUEUES) &&
  (zlen (rdy_tail k) =? NR_SCHED_QUEUES) && (zlen (privs k) =? NR_SYS_PROCS) &&
  forallb slot_settled slots && forallb queue_settled queues && forallb priv_settled (privs k) &&
  bool_decide (top queue = Some (chosen k)).
End settled.

Lemma walks_linked k x l : walks k x l = true → linked (view p_nextready (procs k)) x l.
Proof.
  revert x. induction l as [|i l IH]; intros x; simpl.
  - by intros ?%bool_decide_eq_true.
  - intros [->%bool_decide_eq_true H]%andb_true_iff. split; [done|].
    destruct (view p_nextready (procs k) i) as [r|] eqn:E; [|done]. exists r. split; [done|]. by apply IH.
Qed.

Lemma in_qb_spec q : in_qb q = true → in_q q.
Proof. unfold in_qb, in_q. intros [?%Z.leb_le ?%Z.ltb_lt]%andb_true_iff. lia. Qed.

Lemma forallb_range (P : Z → bool) n i :
  forallb P (range 0 (Z.to_nat n)) = true → 0 ≤ i < n → P i = true.
Proof.
  intros H Hi. rewrite forallb_forall in H. apply H, list_elem_of_In, elem_of_seqZ. lia.
Qed.

(** What is known of a slot of a settled state. *)
Lemma slot_settled_spec k Ql i p :
  settled k Ql = true → zget (procs k) i = Some p →
  in_q (p_priority p) ∧ in_q (p_max_priority p) ∧ p_nr p = i - NR_TASKS ∧
  dest p = None ∧ p_caller_q p = None ∧ (p_rts_flags p = 0 ↔ i ∈ queue Ql (p_priority p)) ∧
  (p_rts_flags p ≠ SLOT_FREE → ∃ s, zget (privs k) (p_priv p) = Some s ∧
    (iskerneln (p_nr p) = true → has (p_rts_flags p) NO_MAP = false → s_stack_guard s = STACK_GUARD)).
Proof.
  intros H Hz. unfold settled in H. rewrite !andb_true_iff in H.
  destruct H as [[[[[[[Hl _] _] _] Hs] _] _] _]. apply Z.eqb_eq in Hl.
  pose proof (zget_Some_range _ _ _ Hz) as Hr. rewrite Hl in Hr.
  pose proof (forallb_range _ _ _ Hs Hr) as Hi. unfold slot_settled in Hi. rewrite Hz in Hi.
  rewrite !andb_true_iff in Hi. destruct Hi as [[[[[[H1 H2] H3] H4] H5] H6] H7].
  apply in_qb_spec in H1, H2. apply Z.eqb_eq in H3. apply bool_decide_eq_true in H4, H5.
  split_and!; try done.
  - apply eqb_prop in H6. rewrite <- Z.eqb_eq, H6, bool_decide_eq_true. done.
  - intros Hf. apply orb_true_iff in H7 as [?%Z.eqb_eq|H7]; [done|].
    destruct (zget (privs k) (p_priv p)) as [s|]; [|done]. exists s. split; [done|]. intros Hk Hm.
    rewrite Hk, Hm in H7. by apply Z.eqb_eq in H7.
Qed.

Lemma settled_ready k Ql :
  settled k Ql = true →
  ready (procs k) (rdy_head k) (rdy_tail k) (runnable (procs k)) (queue Ql).
Proof.
  intros Hs. pose proof Hs as H. unfold settled in H. rewrite !andb_true_iff in H.
  destruct H as [[[_ Hq] _] _].
  assert (∀ q, in_q q → queue_settled k Ql q = true) as Hqs by (intros q; by apply forallb_range).
  unfold queue_settled in Hqs. split; intros q; [..|intros i]; intros Hin; specialize (Hqs q Hin);
    rewrite !andb_true_iff in Hqs; destruct Hqs as [[[Ha%bool_decide_eq_true Hb%bool_decide_eq_true] Hc] Hd].
  - done.
  - done.
  - by apply walks_linked.
  - unfold runnable. split.
    + intros Hi. rewrite forallb_forall in Hd. pose proof (Hd i) as Hp.
      rewrite <- list_elem_of_In, bool_decide_eq_true in Hp. specialize (Hp Hi). split; [|done].
      apply view_Some in Hp as (p & Hz & Hq'). rewrite (view_get _ _ _ _ Hz). f_equal.
      apply (slot_settled_spec _ _ _ _ Hs Hz). by rewrite Hq'.
    + intros [(p & Hz & Hf)%view_Some Hp]. rewrite (view_get _ _ _ _ Hz) in Hp. injection Hp as <-.
      by apply (slot_settled_spec _ _ _ _ Hs Hz).
Qed.

Lemma settled_kinv k Ql : settled k Ql = true → kinv k.
Proof.
  intros Hs. pose proof (λ i p, slot_settled_spec k Ql i p Hs) as Hslot.
  pose proof (settled_ready k Ql Hs) as Hr. unfold settled in Hs. rewrite !andb_true_iff in Hs.
  destruct Hs as [[[[[[[Hl Hh] Ht] Hsl] _] _] Hp] Htop].
  apply Z.eqb_eq in Hl, Hh, Ht, Hsl. apply bool_decide_eq_true in Htop.
  assert (∀ i, view dest (procs k) i = Some None ∨ view dest (procs k) i = None) as Hd.
  { intros i. unfold view. destruct (zget (procs k) i) as [p|] eqn:E; [|by right].
    left. cbn. by rewrite (proj1 (proj2 (proj2 (proj2 (Hslot _ _ E))))). }
  split; [split|split|split]; try done.
  - intros i p Hz. by destruct (Hslot _ _ Hz) as (? & ? & _).
  - intros i p Hz. by apply (Hslot _ _ Hz).
  - exists (queue Ql). split; [done|]. intros h. rewrite Htop. by intros [= ->].
  - split; [done|]. intros i p Hz. by destruct (Hslot _ _ Hz) as (_ & _ & ? & _).
  - exists (λ _, []). split.
    + intros j x (p & Hz & <-)%view_Some.
      destruct (Hslot _ _ Hz) as (_ & _ & _ & _ & -> & _). done.
    + intros j i. split; [by intros ?%elem_of_nil|]. destruct (Hd i) as [-> | ->]; by intros [=].
    + intros i j. destruct (Hd i) as [-> | ->]; by intros [=].
  - intros i [p Hz]. exists [i]. split; [done|]. exists None. split; [|done].
    destruct (Hd i) as [E|E]; [done|]. unfold view in E. by rewrite Hz in E.
  - intros j s Hz. apply zget_elem_of, list_elem_of_In in Hz. rewrite forallb_forall in Hp. apply Hp in Hz.
    unfold priv_settled in Hz. rewrite !andb_true_iff, !Z.eqb_eq, Z.leb_le, Z.ltb_lt in Hz. tauto.
Qed.
