(* ===== verification/IpcTheorems.v ===== *)
(** * The reference kernel: what scheduling and message passing guarantee

    Start-up establishes the kernel invariant, every entry to the kernel keeps
    it, and the process that runs is always one that can run and that no other
    is more urgent than; what each call does to messages, queues and flags; and
    the calls that the code lets through although it cannot handle them. *)

From S2P Require Import Prelude Linked Ipc IpcQueues IpcInv IpcSpec KernelBoot.

(** ** Entries to the kernel *)

(** The IDLE task can run, and its privileges allow no trap at all. *)
Definition idle_ready (k : kst) : Prop :=
  runnable (procs k) (proc_addr IDLE) ∧
  ∃ p s, zget (procs k) (proc_addr IDLE) = Some p ∧ zget (privs k) (p_priv p) = Some s ∧
    s_trap_mask s = 0.

(** The calls that [sys_call] can handle: the destination of a call that sends
    is one process, has been given privileges, and for a message is not the
    caller. *)
Definition sane (k : kst) (call_nr src_dst : Z) : Prop :=
  let f := Z.land call_nr SYSCALL_FUNC in
  (has f CHECK_DST = true → isokprocn src_dst = true → known k src_dst) ∧
  (has f CHECK_DST = true → src_dst ≠ ANY) ∧
  (f = SEND ∨ f = SENDREC → proc_ptr k ≠ proc_addr src_dst).

(** A trap of the running process, a notification (from an interrupt handler
    or a task), and the end of a quantum of a process that can run, each
    followed by the return to the process chosen. *)
Inductive kstep : kst → kst → Prop :=
  | kstep_trap k call_nr src_dst m_ptr r k1 k2 :
      sane k call_nr src_dst →
      sys_call call_nr src_dst m_ptr k = Ret r k1 → restart k1 = Ret tt k2 → kstep k k2
  | kstep_notify k src dst r k1 k2 :
      known k src → known k dst →
      lock_notify src dst k = Ret r k1 → restart k1 = Ret tt k2 → kstep k k2
  | kstep_quantum k rp k1 k2 k3 :
      runnable (procs k) rp →
      lock_dequeue rp k = Ret tt k1 → lock_enqueue rp k1 = Ret tt k2 → restart k2 = Ret tt k3 →
      kstep k k3.

(** No process that can run is more urgent than the running one. *)
Definition most_urgent (k : kst) : Prop :=
  ∃ qr, runnable (procs k) (proc_ptr k) ∧ view p_priority (procs k) (proc_ptr k) = Some qr ∧
    ∀ i q, runnable (procs k) i → view p_priority (procs k) i = Some q → qr ≤ q.

Definition kgood (k : kst) : Prop := kinv k ∧ idle_ready k ∧ most_urgent k.

Lemma idle_spared c k k' :
  spares c k k' → (c = proc_addr IDLE → runnable (procs k') c) → idle_ready k → idle_ready k'.
Proof.
  intros (Hl & Hp & _ & Hsp) Hc (Hr & p & s & Hz & Hs & Ht). split.
  { destruct (Z.eq_dec (proc_addr IDLE) c) as [E|Hne]; [rewrite E; by apply Hc|by apply Hsp]. }
  specialize (Hp (proc_addr IDLE)). rewrite (view_get _ _ _ _ Hz) in Hp.
  apply view_Some in Hp as (p' & Hz' & [= Hpp _]). destruct Hl as [Hlen Hl].
  destruct (zget_in (privs k') (p_priv p')) as [s' Hs'].
  { rewrite Hlen, Hpp. by eapply zget_Some_range. }
  exists p', s'. split_and!; [done..|]. destruct (Hl _ _ Hs') as (s0 & Hs0 & _ & -> & _).
  rewrite Hpp in Hs0. congruence.
Qed.

(** Leaving the kernel chooses the most urgent process. *)
Lemma restart_most_urgent k :
  kinv k → idle_ready k → ∃ k', restart k = Ret tt k' ∧ kgood k'.
Proof.
  intros Hk Hi. eexists. split; [apply restart_run|].
  split; [by apply kinv_restart|]. split; [exact Hi|].
  pose proof Hk as [[Hl Hpo Hq Hpr (Q & Hr & Hn)] _ _].
  assert (∀ i q, runnable (procs k) i → view p_priority (procs k) i = Some q →
    ∃ qh, runnable (procs k) (chosen k) ∧ view p_priority (procs k) (chosen k) = Some qh ∧ qh ≤ q) as H.
  { intros i q Hri Hv. pose proof Hv as (p & Hz & Hp)%view_Some.
    destruct (top_first _ _ _ _ _ _ _ Hr Hri Hv) as (h & qh & Ht & Hrh & Hvh & Hle).
    { rewrite <- Hp. by apply (Hpo i). }
    rewrite (Hn h Ht). by exists qh. }
  destruct Hi as (Hri & p & _ & Hz & _).
  destruct (H _ _ Hri (view_get p_priority _ _ _ Hz)) as (qh & Hrh & Hvh & _).
  exists qh. split_and!; [done..|]. intros i q Hi' Hv'.
  destruct (H i q Hi' Hv') as (qh' & _ & Hvh' & Hle). congruence.
Qed.

(** IDLE's traps are refused. *)
Lemma idle_trap_denied k call_nr src_dst m_ptr p s :
  zget (procs k) (proc_ptr k) = Some p → zget (privs k) (p_priv p) = Some s → s_trap_mask s = 0 →
  ∃ k', sys_call call_nr src_dst m_ptr k = Ret ECALLDENIED k' ∧ procs k' = procs k.
Proof.
  intros Hz Hs Ht. unfold sys_call. rewrite bind_get. step (rd_proc_run _ _ _ Hz).
  step (priv_of_run _ _ _ _ Hz Hs). rewrite Ht. eexists. split; [by apply deny_run|done].
Qed.

Lemma trap_keeps k call_nr src_dst m_ptr :
  kinv k → idle_ready k → runnable (procs k) (proc_ptr k) → sane k call_nr src_dst →
  ∃ r k', sys_call call_nr src_dst m_ptr k = Ret r k' ∧ kinv k' ∧ idle_ready k' ∧ spares (proc_ptr k) k k'.
Proof.
  intros Hk Hi Hrun (Hs1 & Hs2 & Hs3). pose proof Hrun as (pc & Hc & H0)%view_Some.
  destruct (sys_call_run k call_nr src_dst m_ptr pc Hk Hc H0 Hs1 Hs2 Hs3) as (r & k' & E & Hk' & Hsp & _).
  exists r, k'. split; [done|]. split; [done|]. split; [|done]. eapply idle_spared; [exact Hsp| |done].
  intros Ec. destruct Hi as (Hr & p & s & Hz & Hs & Ht). rewrite <- Ec in *.
  assert (p = pc) as -> by congruence.
  destruct (idle_trap_denied k call_nr src_dst m_ptr pc s Hc Hs Ht) as (k2 & E2 & Hp).
  assert (k2 = k') as -> by congruence. by rewrite Hp.
Qed.

(** Leaving the kernel changes nothing but the running process. *)
Lemma restart_spares c k k1 k2 : restart k1 = Ret tt k2 → spares c k k1 → spares c k k2.
Proof. rewrite restart_run. intros [= <-] Hsp. eapply spares_trans; [exact Hsp|]. by apply spares_same. Qed.

Lemma kstep_enters k k' :
  kinv k → idle_ready k → runnable (procs k) (proc_ptr k) → kstep k k' → kgood k' ∧ ∃ c, spares c k k'.
Proof.
  intros Hk Hi Hru Hst. destruct Hst as [k call_nr src_dst m_ptr r k1 k2 Hs E1 E2
    |k src dst r k1 k2 Hs Hd E1 E2|k rp k1 k2 k3 Hr E1 E2 E3].
  - destruct (trap_keeps k call_nr src_dst m_ptr Hk Hi Hru Hs) as (r' & k' & E & Hk' & Hi' & Hsp).
    assert (k' = k1) as -> by congruence.
    destruct (restart_most_urgent k1 Hk' Hi') as (k3 & E3 & ?). assert (k3 = k2) as -> by congruence.
    split; [done|]. exists (proc_ptr k). by eapply restart_spares.
  - destruct (lock_notify_run k src dst Hk Hs Hd) as (k' & E & Hk' & Hsp).
    assert (k' = k1) as -> by congruence.
    assert (idle_ready k1) as Hi' by (by eapply (idle_spared (-1))).
    destruct (restart_most_urgent k1 Hk' Hi') as (k3 & E3 & ?). assert (k3 = k2) as -> by congruence.
    split; [done|]. exists (-1). by eapply restart_spares.
  - destruct (requeue_run k rp Hk Hr) as (k1' & k2' & E1' & E2' & Hk' & Hsp).
    assert (k1' = k1) as -> by congruence. assert (k2' = k2) as -> by congruence.
    assert (idle_ready k2) as Hi' by (by eapply (idle_spared (-1))).
    destruct (restart_most_urgent k2 Hk' Hi') as (k4 & E4 & ?). assert (k4 = k3) as -> by congruence.
    split; [done|]. exists (-1). by eapply restart_spares.
Qed.

Lemma kstep_good k k' : kgood k → kstep k k' → kgood k'.
Proof. intros (Hk & Hi & (qr & Hru & _)) Hst. by apply (kstep_enters k k' Hk Hi Hru). Qed.

(** ** Start-up *)

Definition boot_queues : list (list Z) :=
  [[2; 1]; [9]; [10; 8; 7]; [6; 4]; [5]; []; []; [11]; []; []; []; []; []; []; []; [0]].

Definition idle_readyb (k : kst) : bool :=
  match zget (procs k) (proc_addr IDLE) with
  | Some p =>
      (p_rts_flags p =? 0) &&
      match zget (privs k) (p_priv p) with Some s => s_trap_mask s =? 0 | None => false end
  | None => false
  end.

Lemma idle_readyb_spec k : idle_readyb k = true → idle_ready k.
Proof.
  unfold idle_readyb, idle_ready, runnable, view.
  destruct (zget (procs k) (proc_addr IDLE)) as [p|] eqn:Hz; [|done]. simpl.
  intros [->%Z.eqb_eq H]%andb_true_iff. split; [done|].
  destruct (zget (privs k) (p_priv p)) as [s|] eqn:Hs; [|done]. apply Z.eqb_eq in H.
  by exists p, s.
Qed.

Lemma startup_run aout m ticks frame :
  ∃ k, main aout (loaded m ticks frame) = Ret tt k ∧ kinv k ∧ idle_ready k ∧
    chosen k = proc_addr SYSTEM ∧ proc_ptr k = proc_addr SYSTEM ∧
    view p_priority (procs k) (proc_ptr k) = Some 0 ∧ runnable (procs k) (proc_ptr k) ∧ memory k = m.
Proof.
  assert (match main aout (loaded m ticks frame) with
          | Ret tt k => settled k boot_queues && idle_readyb k && (chosen k =? proc_addr SYSTEM) &&
              (proc_ptr k =? proc_addr SYSTEM) &&
              match zget (procs k) (proc_ptr k) with
              | Some p => (p_priority p =? 0) && (p_rts_flags p =? 0) | None => false end
          | _ => false end = true ∧
          match main aout (loaded m ticks frame) with Ret _ k => memory k | _ => m end = m) as [H Hm]
    by (split; vm_compute; reflexivity).
  destruct (main aout (loaded m ticks frame)) as [[] k| | | |] eqn:E; try discriminate H.
  exists k. split; [reflexivity|]. clear E.
  rewrite !andb_true_iff in H. destruct H as [[[[Hs Hi] Hc] Hp] H].
  apply Z.eqb_eq in Hc, Hp. unfold runnable, view.
  destruct (zget (procs k) (proc_ptr k)) as [p|]; [|done]. simpl.
  apply andb_true_iff in H as [->%Z.eqb_eq ->%Z.eqb_eq].
  split_and!; try done; [by eapply settled_kinv|by apply idle_readyb_spec].
Qed.

Lemma boot_good aout m ticks frame :
  ∃ k, main aout (loaded m ticks frame) = Ret tt k ∧ kgood k.
Proof.
  destruct (startup_run aout m ticks frame) as (k & E & Hk & Hi & _ & _ & Hv & Hr & _).
  exists k. split; [done|]. split_and!; [done..|]. exists 0. split_and!; [done..|].
  intros i q Hri (p & Hz & <-)%view_Some. apply (so_prio _ (ki_sched _ Hk)) in Hz as [[? _] _]. lia.
Qed.

(** C15: start-up. Whatever the boot monitor leaves in memory and in the a.out
    headers, [main] completes: the process and privilege tables and the ready
    queues satisfy the kernel invariant, the SYSTEM task runs first, and the
    IDLE task is ready and may make no calls. *)
Theorem boot_establishes_the_invariant aout m ticks frame :
  ∃ k, main aout (loaded m ticks frame) = Ret tt k ∧ kinv k ∧ idle_ready k ∧ most_urgent k ∧
    proc_ptr k = proc_addr SYSTEM ∧ memory k = m.
Proof.
  destruct (startup_run aout m ticks frame) as (k & E & _ & _ & _ & Hp & _ & _ & Hm).
  destruct (boot_good aout m ticks frame) as (k' & E' & Hk & Hi & Hu).
  assert (k' = k) as -> by congruence. exists k. split; [exact E|].
  split_and!; [exact Hk|exact Hi|exact Hu|exact Hp|exact Hm].
Qed.

(** Scheduling. From start-up on, after any sequence of traps,
    notifications and ends of quanta, the kernel invariant holds, the running
    process is one that can run, and no process that can run has a more urgent
    priority. In particular there always is a process to run. *)
Theorem kernel_runs_the_most_urgent aout m ticks frame k0 k
  (Hb : main aout (loaded m ticks frame) = Ret tt k0) (Hr : rtc kstep k0 k) :
  kinv k ∧ most_urgent k.
Proof.
  destruct (boot_good aout m ticks frame) as (k0' & E & Hg).
  assert (k0' = k0) as -> by congruence. clear E Hb.
  induction Hr as [k|k k1 k2 Hs _ IH]; [by destruct Hg as (? & _ & ?)|].
  apply IH. by eapply kstep_good.
Qed.

(** A kernel that has just started, for examples. *)
Definition header : exec := Exec 0 4096 65536 1048576.
Definition kernel0 : kst :=
  match main (λ _, header) (loaded (λ _, 0) 0 0x9000) with Ret _ k => k | _ => loaded (λ _, 0) 0 0 end.

Lemma kernel0_boot : main (λ _, header) (loaded (λ _, 0) 0 0x9000) = Ret tt kernel0.
Proof.
  unfold kernel0. destruct (boot_good (λ _, header) (λ _, 0) 0 0x9000) as (k & E & _).
  rewrite E. reflexivity.
Qed.

Lemma kernel0_good : kgood kernel0.
Proof.
  destruct (boot_good (λ _, header) (λ _, 0) 0 0x9000) as (k & E & H).
  unfold kernel0. rewrite E. exact H.
Qed.

(** The SYSTEM task waits for work. *)
Lemma kernel0_sane : sane kernel0 RECEIVE ANY.
Proof. split_and!; [vm_compute; discriminate..|]. intros [E|E]; vm_compute in E; discriminate E. Qed.

Lemma kernel_runs_the_most_urgent_witness :
  ∃ r k1 k2, sys_call RECEIVE ANY 0x1000 kernel0 = Ret r k1 ∧ restart k1 = Ret tt k2 ∧
    kinv k2 ∧ most_urgent k2.
Proof.
  destruct kernel0_good as (Hk & Hi & (qr & Hru & _)).
  destruct (trap_keeps kernel0 RECEIVE ANY 0x1000 Hk Hi Hru kernel0_sane) as (r & k1 & E1 & Hk1 & Hi1 & _).
  destruct (restart_most_urgent k1 Hk1 Hi1) as (k2 & E2 & _). exists r, k1, k2.
  split; [exact E1|]. split; [exact E2|].
  apply (kernel_runs_the_most_urgent (λ _, header) (λ _, 0) 0 0x9000 kernel0 k2 kernel0_boot).
  apply rtc_once. exact (kstep_trap kernel0 RECEIVE ANY 0x1000 r k1 k2 kernel0_sane E1 E2).
Defined.


(** C17: sending. The chain of processes that the destination waits for decides
    a deadlock; otherwise a destination that waits for the message gets it and
    is released, and else the caller is blocked at the end of the
    destination's queue, or told to try later. In each case the rest of the
    process table is as before and the invariant holds. *)
Theorem send_delivers_or_queues k c dst m_ptr flags pc pd l C
  (Hk : kinv k) (HC : callers (procs k) C) (Hc : zget (procs k) c = Some pc)
  (Hd : zget (procs k) (proc_addr dst) = Some pd) (H0 : p_rts_flags pc = 0)
  (Hne : c ≠ proc_addr dst) (Hl : linked (view dest (procs k)) (Some (proc_addr dst)) l) :
  send_outcome k c dst m_ptr flags pc pd l C (mini_send c dst m_ptr flags k).
Proof. apply mini_send_run; try done; by rewrite H0. Qed.


Definition slot0 (i : Z) : proc := default blank_proc (zget (procs kernel0) i).


(** RS sends to PM, which is not waiting. *)
Lemma send_delivers_or_queues_witness :
  ∃ C l, send_outcome kernel0 6 PM_PROC_NR 0x1000 0 (slot0 6) (slot0 4) l C
    (mini_send 6 PM_PROC_NR 0x1000 0 kernel0).
Proof.
  destruct (io_callers _ (ki_ipc _ (proj1 kernel0_good))) as [C HC].
  destruct (io_acyclic _ (ki_ipc _ (proj1 kernel0_good)) 4) as [l Hl]; [vm_compute; eexists; reflexivity|].
  exists C, l. apply send_delivers_or_queues.
  - exact (proj1 kernel0_good).
  - exact HC.
  - vm_compute. reflexivity.
  - vm_compute. reflexivity.
  - vm_compute. reflexivity.
  - vm_compute. discriminate.
  - exact Hl.
Defined.


(** C19: a message that is delivered arrives. When the destination waits for
    the caller, its buffer gets the caller's number and the eight words of the
    message, no other byte of memory changes, and the destination no longer
    waits. *)
Theorem a_message_arrives k c dst m_ptr flags pc pd l C
  (Hk : kinv k) (HC : callers (procs k) C) (Hc : zget (procs k) c = Some pc)
  (Hd : zget (procs k) (proc_addr dst) = Some pd) (H0 : p_rts_flags pc = 0)
  (Hne : c ≠ proc_addr dst) (Hl : linked (view dest (procs k)) (Some (proc_addr dst)) l)
  (Hcl : c ∉ l) (Ha : awaits pd (p_nr pc) = true) (Hb : bytes (memory k))
  (Hs : 0 ≤ absolute (mem_phys (p_mapD pc)) m_ptr ≤ 2 ^ 32 - MESS_SIZE)
  (Ht : 0 ≤ absolute (mem_phys (p_mapD pd)) (p_messbuf pd) ≤ 2 ^ 32 - MESS_SIZE)
  (Hdis : absolute (mem_phys (p_mapD pc)) m_ptr + MESS_SIZE
            ≤ absolute (mem_phys (p_mapD pd)) (p_messbuf pd) ∨
          absolute (mem_phys (p_mapD pd)) (p_messbuf pd) + MESS_SIZE
            ≤ absolute (mem_phys (p_mapD pc)) m_ptr) :
  ∃ k', mini_send c dst m_ptr flags k = Ret OK k' ∧
    let src := absolute (mem_phys (p_mapD pc)) m_ptr in
    let buf := absolute (mem_phys (p_mapD pd)) (p_messbuf pd) in
    ld32 buf (memory k') = u32 (p_nr pc) ∧
    (∀ j, 4 ≤ j < MESS_SIZE → memory k' (buf + j) = memory k (src + j)) ∧
    (∀ x, x < buf ∨ buf + MESS_SIZE ≤ x → memory k' x = memory k x) ∧
    view p_rts_flags (procs k') (proc_addr dst) = Some (Z.ldiff (p_rts_flags pd) RECEIVING).
Proof.
  assert (has (p_rts_flags pc) SENDING = false) as Hns by (by rewrite H0).
  assert (p_rts_flags pc ≠ SLOT_FREE) as Hfr by (by rewrite H0).
  pose proof (mini_send_run k c dst m_ptr flags pc pd l C Hk HC Hc Hd Hns Hfr Hne Hl) as H.
  unfold send_outcome in H. rewrite bool_decide_false, Ha in H by done.
  destruct H as (k' & E & _ & (_ & Hf & _) & Hm & _). exists k'. split; [done|]. cbv zeta.
  destruct (cp_mess_run (p_nr pc) (mem_phys (p_mapD pc)) m_ptr (mem_phys (p_mapD pd)) (p_messbuf pd)
    (memory k)) as (Hw & Hin & Hout); [done|lia..|].
  rewrite Hm. split_and!; [done..|]. by rewrite Hf, Z.eqb_refl.
Qed.

(** PM waits for a message at 0x2000. *)
Definition kernel1 : kst :=
  match mini_receive 4 ANY 0x2000 0 kernel0 with Ret _ k => k | _ => kernel0 end.

Lemma kernel1_inv : kinv kernel1.
Proof.
  apply (settled_kinv kernel1
    [[2; 1]; [9]; [10; 8; 7]; [6]; [5]; []; []; [11]; []; []; []; []; []; []; []; [0]]).
  vm_compute. reflexivity.
Qed.

Definition slot1 (i : Z) : proc := default blank_proc (zget (procs kernel1) i).

Lemma a_message_arrives_witness :
  ∃ k', mini_send 6 PM_PROC_NR 0x1000 0 kernel1 = Ret OK k' ∧
    view p_rts_flags (procs k') 4 = Some 0.
Proof.
  destruct (io_callers _ (ki_ipc _ kernel1_inv)) as [C HC].
  destruct (a_message_arrives kernel1 6 PM_PROC_NR 0x1000 0 (slot1 6) (slot1 4) [4] C) as (k' & E & H).
  - exact kernel1_inv.
  - exact HC.
  - vm_compute. reflexivity.
  - vm_compute. reflexivity.
  - vm_compute. reflexivity.
  - vm_compute. discriminate.
  - split; [reflexivity|]. exists None. split; [vm_compute; reflexivity|reflexivity].
  - rewrite list_elem_of_singleton. discriminate.
  - vm_compute. reflexivity.
  - intros a. vm_compute. split; [discriminate|reflexivity].
  - vm_compute. split; discriminate.
  - vm_compute. split; discriminate.
  - left. vm_compute. discriminate.
  - exists k'. split; [exact E|]. apply H.
Defined.

(** ** Calls the code lets through *)

(** [sys_call] reads the privileges of the destination before it knows
    that there is such a process: a call that sends to ANY, which is not a
    process number, or to a slot that has never been given privileges, goes
    through the table of pointers, or through a nil pointer. *)
Theorem sending_to_nobody_faults k dst m_ptr pc s
  (Hc : zget (procs k) (proc_ptr k) = Some pc) (Hs : zget (privs k) (p_priv pc) = Some s)
  (Ht : has (s_trap_mask s) (Z.shiftl 1 SEND) = true) (Hp : bad_pointer pc m_ptr = false)
  (Hu : iskerneln dst = false) (Hd : isokprocn dst || (dst =? ANY) = true)
  (Hn : ¬ known k dst) :
  sys_call SEND dst m_ptr k = Fault k.
Proof.
  unfold sys_call. rewrite bind_get. step (rd_proc_run _ _ _ Hc). step (priv_of_run _ _ _ _ Hc Hs).
  change (Z.land SEND SYSCALL_FUNC) with SEND. rewrite Ht, Hu, Hd, Hp.
  change (has SEND CHECK_PTR) with true. change (has SEND CHECK_DST) with true. cbn [negb orb andb].
  apply bind_fault. unfold check_dst. step (priv_of_run _ _ _ _ Hc Hs). apply bind_fault.
  unfold priv_of, rd_proc. rewrite bind_assoc, bind_get.
  destruct (zget (procs k) (proc_addr dst)) as [p|] eqn:E; [|done].
  rewrite (bind_lift _ _ _ _ eq_refl). unfold rd_priv. rewrite bind_get.
  destruct (zget (privs k) (p_priv p)) as [o|] eqn:Eo; [|done]. destruct Hn. by exists p, o.
Qed.

(** TTY in a kernel where it runs. *)
Definition kernel_tty : kst := with_running 9 None kernel0.

Lemma sending_to_nobody_faults_witness :
  sys_call SEND ANY 0x1000 kernel_tty = Fault kernel_tty ∧
  sys_call SEND 8 0x1000 kernel_tty = Fault kernel_tty.
Proof.
  split; eapply sending_to_nobody_faults; try (vm_compute; reflexivity).
  - intros (p & s & E & _). vm_compute in E. discriminate E.
  - intros (p & s & E & Es). vm_compute in E. injection E as <-. vm_compute in Es. discriminate Es.
Defined.

(** A process that sends to itself closes a circle that the walk over
    destinations never leaves. *)
Lemma deadlock_circle k d p c fuel :
  zget (procs k) d = Some p → has (p_rts_flags p) SENDING = true → proc_addr (p_sendto p) = d →
  d ≠ c → loop fuel (deadlock_step c) d k = Timeout k.
Proof.
  intros Hz Hs Hd Hc. induction fuel as [|fuel IH]; [done|]. rewrite loop_S.
  assert (deadlock_step c d k = Ret (inl d) k) as E.
  { unfold deadlock_step. step (rd_proc_run _ _ _ Hz). rewrite Hs, Hd. by destruct (Z.eqb_spec d c). }
  step E. exact IH.
Qed.

(** The two tasks wait for work, then TTY sends a message to itself. *)
Definition self_send : M kst Z :=
  _ ← sys_call RECEIVE ANY 0x1000; restart;;
  _ ← sys_call RECEIVE ANY 0x1000; restart;;
  sys_call SEND TTY_PROC_NR 0x1000.

(** A message to oneself. [mini_send] looks for a deadlock along processes
    that already send, so a driver's message to itself is accepted and blocks
    it; from then on the search for a deadlock of any other process that sends
    to it goes round for ever, whatever number of steps it is given. *)
Theorem a_message_to_oneself_hangs_the_next_sender :
  ∃ k', self_send kernel0 = Ret OK k' ∧
    ∀ c fuel, c ≠ proc_addr TTY_PROC_NR →
      loop fuel (deadlock_step c) (proc_addr TTY_PROC_NR) k' = Timeout k'.
Proof.
  assert (match self_send kernel0 with
          | Ret r k => (r =? OK) &&
              match zget (procs k) (proc_addr TTY_PROC_NR) with
              | Some p => has (p_rts_flags p) SENDING && (proc_addr (p_sendto p) =? proc_addr TTY_PROC_NR)
              | None => false end
          | _ => false end = true) as H by (vm_compute; reflexivity).
  destruct (self_send kernel0) as [r k'| | | |]; try discriminate H.
  apply andb_true_iff in H as [->%Z.eqb_eq H]. exists k'. split; [reflexivity|]. intros c fuel Hc.
  destruct (zget (procs k') (proc_addr TTY_PROC_NR)) as [p|] eqn:E; [|discriminate H].
  apply andb_true_iff in H as [Hs Hd%Z.eqb_eq]. by eapply deadlock_circle.
Qed.

(** The send masks of [table.c] are written for the privilege numbers that
    [s_nr_to_id] gives, but the image lists TTY before the memory and log
    drivers, and [get_priv] hands out numbers in the order of the image: the
    memory driver, whose mask names TTY, may not send to it. *)
Theorem send_masks_name_other_processes aout m ticks frame :
  ∃ k k', main aout (loaded m ticks frame) = Ret tt k ∧
    Z.testbit DRV_M (s_nr_to_id TTY_PROC_NR) = true ∧
    view p_priv (procs k) (proc_addr TTY_PROC_NR) = Some 8 ∧ s_nr_to_id TTY_PROC_NR = 10 ∧
    check_dst (proc_addr MEM_PROC_NR) TTY_PROC_NR k = Ret (Some ECALLDENIED) k'.
Proof.
  assert (match main aout (loaded m ticks frame) with
          | Ret tt k =>
              match view p_priv (procs k) (proc_addr TTY_PROC_NR) with Some x => x =? 8 | None => false end &&
              match check_dst (proc_addr MEM_PROC_NR) TTY_PROC_NR k with
              | Ret (Some e) _ => e =? ECALLDENIED | _ => false end
          | _ => false end = true) as H by (vm_compute; reflexivity).
  destruct (main aout (loaded m ticks frame)) as [[] k| | | |]; try discriminate H.
  apply andb_true_iff in H as [Hp H]. exists k.
  destruct (view p_priv (procs k) (proc_addr TTY_PROC_NR)) as [x|]; [|discriminate Hp].
  apply Z.eqb_eq in Hp as ->.
  destruct (check_dst (proc_addr MEM_PROC_NR) TTY_PROC_NR k) as [[e|] k'| | | |]; try discriminate H.
  apply Z.eqb_eq in H as ->. exists k'. split_and!; reflexivity.
Qed.

(** When every privilege structure is taken, [get_priv] does not report
    that there is no room: its search ends one past the table, where it reads
    the field it decides by. *)
Theorem get_priv_reads_past_the_table k rc
  (Hall : Forall (λ s, s_proc_nr s ≠ NONE ∨ s_id s = USER_PRIV_ID) (privs k)) :
  get_priv rc SYS_PROC k = Fault k.
Proof.
  assert (∀ ss sp, Forall (λ s, s_proc_nr s ≠ NONE ∨ s_id s = USER_PRIV_ID) ss →
    find_priv sp ss = sp + zlen ss) as Hf.
  { induction ss as [|s ss IH]; intros sp Hss; cbn [find_priv]; [unfold zlen; simpl; lia|].
    apply Forall_cons in Hss as [Hs Hss].
    destruct (Z.eqb_spec (s_proc_nr s) NONE), (Z.eqb_spec (s_id s) USER_PRIV_ID); cbn [andb negb];
      try (destruct Hs; done); rewrite IH by done; unfold zlen; simpl; lia. }
  unfold get_priv. rewrite Z.eqb_refl, bind_get, (Hf _ 0 Hall). apply bind_fault.
  unfold rd_priv. rewrite bind_get.
  assert (zget (privs k) (0 + zlen (privs k)) = None) as -> by (apply zget_None; lia). done.
Qed.

Lemma get_priv_reads_past_the_table_witness :
  let full := with_privs (replicate 32 blank_priv) kernel0 in
  get_priv 20 SYS_PROC full = Fault full.
Proof.
  apply get_priv_reads_past_the_table. apply Forall_replicate. left. vm_compute. discriminate.
Defined.

(** SYSTEM and RS notify PM, which is not waiting; then PM waits for RS. *)
Definition missed : M kst Z :=
  _ ← lock_notify SYSTEM PM_PROC_NR; _ ← lock_notify RS_PROC_NR PM_PROC_NR;
  mini_receive (proc_addr PM_PROC_NR) RS_PROC_NR 0x1000 0.

(** A receive from one source looks only at the first pending bit of each
    chunk of the map: with a notification of SYSTEM pending as well, PM blocks
    waiting for RS although the notification of RS is there. *)
Theorem a_pending_notification_is_missed :
  ∃ k' s, missed kernel0 = Ret OK k' ∧
    view p_rts_flags (procs k') (proc_addr PM_PROC_NR) = Some RECEIVING ∧
    view p_getfrom (procs k') (proc_addr PM_PROC_NR) = Some RS_PROC_NR ∧
    priv_of (proc_addr PM_PROC_NR) k' = Ret s k' ∧
    get_sys_bit (s_notify_pending s) (s_nr_to_id RS_PROC_NR) = Some true.
Proof.
  set (chk := λ k, match zget (procs k) (proc_addr PM_PROC_NR) with
    | Some p => (p_rts_flags p =? RECEIVING) && (p_getfrom p =? RS_PROC_NR) &&
        match zget (privs k) (p_priv p) with
        | Some s => bool_decide (get_sys_bit (s_notify_pending s) (s_nr_to_id RS_PROC_NR) = Some true)
        | None => false end
    | None => false end).
  assert (match missed kernel0 with Ret r k => (r =? OK) && chk k | _ => false end = true) as H
    by (vm_compute; reflexivity).
  destruct (missed kernel0) as [r k'| | | |]; try discriminate H.
  apply andb_true_iff in H as [->%Z.eqb_eq H]. unfold chk in H. unfold view.
  destruct (zget (procs k') (proc_addr PM_PROC_NR)) as [p|] eqn:Hz; [|discriminate H].
  apply andb_true_iff in H as [[Hf%Z.eqb_eq Hg%Z.eqb_eq]%andb_true_iff H].
  destruct (zget (privs k') (p_priv p)) as [s|] eqn:Hs; [|discriminate H].
  apply bool_decide_eq_true in H. exists k', s. rewrite Hz. cbn. rewrite Hf, Hg.
  split_and!; [reflexivity..|by eapply priv_of_run|exact H].
Qed.
