(* ===== verification/Clock.v ===== *)
(** * Devices inside the kernel state

    The tables of interrupt hooks, timers and random information as parts of
    the kernel state, and the watchdog timers of
    [reference/minix/kernel/clock.c]. *)

From S2P Require Import Prelude Irq Timers Ipc KernelBoot.

Definition with_irqs (x : irqs) (k : kst) : kst :=
  Kst (procs k) (privs k) (rdy_head k) (rdy_tail k) (proc_ptr k) (next_ptr k) (bill_ptr k) (sched_prev k)
    (memory k) (realtime k) (shutdown_started k) (k_reenter k) (k_frame k) (k_intr k) (k_log k)
    x (k_clock k) (k_random k).
Definition with_clock (x : clock) (k : kst) : kst :=
  Kst (procs k) (privs k) (rdy_head k) (rdy_tail k) (proc_ptr k) (next_ptr k) (bill_ptr k) (sched_prev k)
    (memory k) (realtime k) (shutdown_started k) (k_reenter k) (k_frame k) (k_intr k) (k_log k)
    (k_irqs k) x (k_random k).
Definition with_random (x : list random_bin) (k : kst) : kst :=
  Kst (procs k) (privs k) (rdy_head k) (rdy_tail k) (proc_ptr k) (next_ptr k) (bill_ptr k) (sched_prev k)
    (memory k) (realtime k) (shutdown_started k) (k_reenter k) (k_frame k) (k_intr k) (k_log k)
    (k_irqs k) (k_clock k) x.
Definition with_realtime (x : Z) (k : kst) : kst :=
  Kst (procs k) (privs k) (rdy_head k) (rdy_tail k) (proc_ptr k) (next_ptr k) (bill_ptr k) (sched_prev k)
    (memory k) x (shutdown_started k) (k_reenter k) (k_frame k) (k_intr k) (k_log k)
    (k_irqs k) (k_clock k) (k_random k).

Definition on_irqs {A} (c : M irqs A) : M kst A := zoom k_irqs with_irqs c.
Definition on_random {A} (c : M (list random_bin) A) : M kst A := zoom k_random with_random c.

(** ** Timers *)

Definition get_uptime : M kst Z := k ← get; mret (realtime k).

Section timers.
Context `{TL : TimerLib}.

Definition with_timers (q : list timer) (t : Z) (c : clock) : clock := Clock q t (lost_ticks c) (prev_ptr c).

Definition set_timer (tp : timer_id) (exp_time : Z) (w : watchdog) : M kst unit :=
  k ← get;
  let q := tmrs_settimer (clock_timers (k_clock k)) (Timer tp exp_time w) in
  match q with
  | t :: _ => modify (with_clock (with_timers q (tmr_exp_time t) (k_clock k)))
  | [] => fault
  end.

Definition first_timeout (q : list timer) : Z :=
  match q with [] => TMR_NEVER | t :: _ => tmr_exp_time t end.

Definition reset_timer (tp : timer_id) : M kst unit :=
  k ← get;
  let q := tmrs_clrtimer (clock_timers (k_clock k)) tp in
  modify (with_clock (with_timers q (first_timeout q) (k_clock k))).
End timers.
