(* ===== verification/IrqSpec.v ===== *)
(** * Interrupt hooks: the lists they form

    Each line has a list of hooks, linked from [irq_handlers]. The invariant
    [hooks_ok] says which lists they are: a hook that is on a list belongs to
    that line and to a process, no two hooks of a line share an identifier, and
    [irq_use] marks the lines that have hooks. Registering, removing and
    switching hooks run from it. *)

From S2P Require Import Prelude Linked Irq KernelBoot.

Definition hnx (s : irqs) : links := λ i, h_next <$> zget (irq_hooks s) i.

(** A hook without its link. *)
Definition face (h : irq_hook) : irq_handler * Z * Z * Z * Z * Z :=
  (h_handler h, h_irq h, h_id h, h_proc_nr h, h_notify_id h, h_policy h).
Definition faces (s : irqs) (i : Z) := face <$> zget (irq_hooks s) i.

Definition hook_id (s : irqs) (i : Z) : option Z := h_id <$> zget (irq_hooks s) i.

Definition is_line (irq : Z) : Prop := 0 ≤ irq < NR_IRQ_VECTORS.

Record hooks_ok (L : Z → list Z) (s : irqs) : Prop := HooksOk {
  ho_hooks : zlen (irq_hooks s) = NR_IRQ_HOOKS + 1;
  ho_heads : zlen (irq_handlers s) = NR_IRQ_VECTORS;
  ho_act : zlen (irq_actids s) = NR_IRQ_VECTORS;
  ho_line irq p : zget (irq_handlers s) irq = Some p → linked (hnx s) p (L irq);
  ho_irq i h : zget (irq_hooks s) i = Some h → is_line (h_irq h);
  ho_in irq i h : is_line irq → i ∈ L irq → zget (irq_hooks s) i = Some h → h_irq h = irq ∧ h_proc_nr h ≠ NONE;
  ho_id irq i j : is_line irq → i ∈ L irq → j ∈ L irq → hook_id s i = hook_id s j → i = j;
  ho_use irq : is_line irq → Z.testbit (irq_use s) irq = bool_decide (L irq ≠ []) }.

Definition put_line (L : Z → list Z) (irq : Z) (l : list Z) : Z → list Z :=
  λ x, if x =? irq then l else L x.

(** ** Reading and writing *)

Lemma line_good irq : is_line irq → bad_irq irq = false.
Proof. intros []. apply orb_false_iff. split; [by apply Z.ltb_ge|by apply Z.leb_gt]. Qed.

Lemma rd_hook_run i h s : zget (irq_hooks s) i = Some h → rd_hook i s = Ret h s.
Proof. intros E. unfold rd_hook. rewrite bind_get. by apply lift_opt_some. Qed.

Lemma upd_hook_run i h f s :
  zget (irq_hooks s) i = Some h → upd_hook i f s = Ret tt (with_hooks (upd (irq_hooks s) i (f h)) s).
Proof.
  intros E. unfold upd_hook. rewrite bind_get, (bind_lift _ _ _ _ E).
  by rewrite bind_zset by (by eapply zget_Some_range).
Qed.

Lemma faces_upd s i h h' j :
  zget (irq_hooks s) i = Some h → face h' = face h →
  faces (with_hooks (upd (irq_hooks s) i h') s) j = faces s j.
Proof.
  intros Hz Hf. pose proof (zget_Some_range _ _ _ Hz). unfold faces. cbn. rewrite zget_upd by done.
  destruct (Z.eqb_spec i j) as [<-|]; [|done]. rewrite Hz. simpl. by rewrite Hf.
Qed.

Lemma faces_get s s' i h : (∀ j, faces s' j = faces s j) → zget (irq_hooks s') i = Some h →
  ∃ h0, zget (irq_hooks s) i = Some h0 ∧ face h = face h0.
Proof.
  intros Hf Hz. specialize (Hf i). unfold faces in Hf. rewrite Hz in Hf.
  destruct (zget (irq_hooks s) i) as [h0|]; [|done]. exists h0. split; [done|]. by apply (inj Some) in Hf.
Qed.

Lemma faces_id s s' i : (∀ j, faces s' j = faces s j) → hook_id s' i = hook_id s i.
Proof.
  intros Hf. specialize (Hf i). unfold faces, hook_id in *.
  destruct (zget (irq_hooks s') i), (zget (irq_hooks s) i); try done. apply (inj Some) in Hf.
  unfold face in Hf. simpl. congruence.
Qed.

(** ** Redirecting a line *)

(** [*line = v] after the hooks [l1]: the line then has [l1], and what [v]
    leads to. *)
Definition redirected (irq : Z) (l1 l2 : list Z) (s s' : irqs) : Prop :=
  (∃ p, zget (irq_handlers s') irq = Some p ∧ linked (hnx s') p (l1 ++ l2)) ∧
  (∀ x, x ≠ irq → zget (irq_handlers s') x = zget (irq_handlers s) x) ∧
  (∀ j, j ∉ l1 → zget (irq_hooks s') j = zget (irq_hooks s) j) ∧
  (∀ j, faces s' j = faces s j) ∧
  zlen (irq_hooks s') = zlen (irq_hooks s) ∧ zlen (irq_handlers s') = zlen (irq_handlers s) ∧
  irq_actids s' = irq_actids s ∧ irq_use s' = irq_use s ∧ irq_mask s' = irq_mask s.

Lemma set_line_run irq s p l1 line v l2 :
  zget (irq_handlers s) irq = Some p → lseg (hnx s) p l1 line → linked (hnx s) v l2 → NoDup (l1 ++ l2) →
  ∃ s', set_line irq (last l1) v s = Ret tt s' ∧ redirected irq l1 l2 s s'.
Proof.
  intros Hp H1 H2 Hd. pose proof (zget_Some_range _ _ _ Hp) as Hr.
  destruct l1 as [|j l1 _] using rev_ind.
  - cbn [last set_line]. rewrite bind_get, bind_zset by done. eexists. split; [done|].
    split_and!; cbn; try done; [|intros x Hx; apply zget_upd_ne; lia|apply zlen_upd].
    exists v. by rewrite zget_upd_eq.
  - rewrite last_snoc. cbn [set_line]. apply lseg_snoc in H1 as [H1 Hj].
    unfold hnx in Hj. destruct (zget (irq_hooks s) j) as [h|] eqn:Hz; [|done].
    pose proof (zget_Some_range _ _ _ Hz) as Hrj. rewrite (upd_hook_run _ _ _ _ Hz).
    eexists. split; [done|]. unfold redirected. rewrite <- app_assoc in Hd |- *. cbn [app] in Hd |- *.
    apply NoDup_app in Hd as (_ & Hd & [Hj2 _]%NoDup_cons).
    assert (j ∉ l1) as Hj1 by (intros Hin; eapply Hd; [exact Hin|left]).
    assert (∀ l : list Z, j ∉ l → ∀ i, i ∈ l → hnx (with_hooks (upd (irq_hooks s) j (set_next v h)) s) i = hnx s i) as Hext.
    { intros l Hl i Hi. unfold hnx. cbn. rewrite zget_upd_ne; [done|lia|]. intros ->. done. }
    split_and!; cbn; try done; [|intros i Hi; apply zget_upd_ne; [lia|set_solver]|
      intros i; by eapply faces_upd|by rewrite zlen_upd].
    exists p. split; [done|]. apply linked_app. exists (Some j).
    split; [eapply lseg_ext; [|exact H1]; by apply Hext|]. split; [done|]. exists v. split.
    + unfold hnx. cbn. by rewrite zget_upd_eq.
    + eapply linked_ext; [|exact H2]. by apply Hext.
Qed.

(** ** Removing a hook *)

(** The hooks of a list that do not have the identifier [id]. *)
Definition others (s : irqs) (id : Z) (l : list Z) : list Z := filter (λ j, hook_id s j ≠ Some id) l.

Lemma others_none s id l : Forall (λ j, hook_id s j ≠ Some id) l → others s id l = l.
Proof. apply filter_all. Qed.

Lemma hook_get L s irq i :
  hooks_ok L s → is_line irq → i ∈ L irq → ∃ h, zget (irq_hooks s) i = Some h.
Proof.
  intros Ho Hl Hi. destruct (zget_in (irq_handlers s) irq) as [p Hp]; [by rewrite (ho_heads _ _ Ho)|].
  destruct (lseg_defined _ _ _ _ _ (ho_line _ _ Ho _ _ Hp) Hi) as [x Hx]. unfold hnx in Hx.
  destruct (zget (irq_hooks s) i) as [h|]; [by exists h|done].
Qed.

Lemma line_length L s irq : hooks_ok L s → is_line irq → (length (L irq) < irq_fuel)%nat.
Proof.
  intros Ho Hl. destruct (zget_in (irq_handlers s) irq) as [p Hp]; [by rewrite (ho_heads _ _ Ho)|].
  pose proof (linked_length (hnx s) p (L irq) (NR_IRQ_HOOKS + 1)) as H.
  assert (zlen (L irq) ≤ 17) as Hle; [|change irq_fuel with 18%nat; unfold zlen in Hle; lia]. apply H; [|by apply Ho].
  intros i [x Hx]. unfold hnx in Hx. destruct (zget (irq_hooks s) i) eqn:E; [|done].
  rewrite <- (ho_hooks _ _ Ho). by eapply zget_Some_range.
Qed.

(** Hooks that can form the list of a line. *)
Definition belong (irq : Z) (l : list Z) (s : irqs) : Prop :=
  (∀ i h, i ∈ l → zget (irq_hooks s) i = Some h → h_irq h = irq ∧ h_proc_nr h ≠ NONE) ∧
  (∀ i j, i ∈ l → j ∈ l → hook_id s i = hook_id s j → i = j).

Lemma belong_sub L s irq l : hooks_ok L s → is_line irq → l ⊆ L irq → belong irq l s.
Proof.
  intros Ho Hl Hsub. split.
  - intros i h Hi. apply (ho_in _ _ Ho); [done|by apply Hsub].
  - intros i j Hi Hj. apply (ho_id _ _ Ho irq); [done|by apply Hsub..].
Qed.

(** After a line got a new list of hooks. *)
Lemma redirected_ok L s s' irq l1 l2 u :
  hooks_ok L s → is_line irq → redirected irq l1 l2 s s' → belong irq (l1 ++ l2) s → l1 ⊆ L irq →
  (∀ x, is_line x → Z.testbit u x = if x =? irq then bool_decide (l1 ++ l2 ≠ []) else Z.testbit (irq_use s) x) →
  hooks_ok (put_line L irq (l1 ++ l2)) (with_use u s').
Proof.
  intros Ho Hl ((p & Hp & Hlk) & Hh & Hk & Hf & Hl1 & Hl2 & Ha & _ & _) [Hin Hids] Hsub Hu.
  split; cbn [with_use irq_hooks irq_handlers irq_actids irq_use].
  - by rewrite Hl1, (ho_hooks _ _ Ho).
  - by rewrite Hl2, (ho_heads _ _ Ho).
  - by rewrite Ha, (ho_act _ _ Ho).
  - intros x q Hq. unfold put_line. destruct (Z.eqb_spec x irq) as [->|Hx]; [by simplify_eq|].
    rewrite Hh in Hq by done. eapply linked_ext; [|by apply (ho_line _ _ Ho)].
    intros j Hj. unfold hnx. cbn. rewrite Hk; [done|]. intros Hj1.
    assert (is_line x) as Hx' by (unfold is_line; rewrite <- (ho_heads _ _ Ho); by eapply zget_Some_range).
    destruct (hook_get _ _ _ _ Ho Hx' Hj) as [h Hz].
    pose proof (ho_in _ _ Ho x j h Hx' Hj Hz) as [E1 _].
    pose proof (ho_in _ _ Ho irq j h Hl (Hsub j Hj1) Hz) as [E2 _]. congruence.
  - intros i h Hz. destruct (faces_get _ _ _ _ Hf Hz) as (h0 & Hz0 & [= _ -> _ _ _ _]). by eapply (ho_irq _ _ Ho).
  - intros x i h Hx Hi Hz. destruct (faces_get _ _ _ _ Hf Hz) as (h0 & Hz0 & [= _ -> _ -> _ _]).
    unfold put_line in Hi. destruct (Z.eqb_spec x irq) as [->|]; [by eapply Hin|by eapply (ho_in _ _ Ho)].
  - intros x i j Hx Hi Hj E. change (hook_id (with_use u s')) with (hook_id s') in E.
    rewrite !(faces_id _ _ _ Hf) in E. unfold put_line in *.
    destruct (Z.eqb_spec x irq) as [->|]; [by apply Hids|by apply (ho_id _ _ Ho x)].
  - intros x Hx. rewrite Hu by done. unfold put_line. destruct (x =? irq); [done|]. by apply Ho.
Qed.

Lemma hooks_ext L L' s : (∀ x, L' x = L x) → hooks_ok L s → hooks_ok L' s.
Proof.
  intros E [H1 H2 H3 H4 H5 H6 H7 H8].
  split; [done..| | |done| | |]; intros; rewrite ?E in *; eauto.
Qed.

Lemma put_line_same L irq x : put_line L irq (L irq) x = L x.
Proof. unfold put_line. by destruct (Z.eqb_spec x irq) as [->|]. Qed.

Lemma testbit_lor_bit u i x : 0 ≤ i → Z.testbit (Z.lor u (Z.shiftl 1 i)) x = (x =? i) || Z.testbit u x.
Proof.
  intros Hi. rewrite Z.lor_spec, Z.shiftl_1_l, Z.pow2_bits_eqb by done. by rewrite orb_comm, Z.eqb_sym.
Qed.
Lemma testbit_ldiff_bit u i x : 0 ≤ i → Z.testbit (Z.ldiff u (Z.shiftl 1 i)) x = negb (x =? i) && Z.testbit u x.
Proof.
  intros Hi. rewrite Z.ldiff_spec, Z.shiftl_1_l, Z.pow2_bits_eqb by done. by rewrite andb_comm, Z.eqb_sym.
Qed.

Definition same_lines (s s' : irqs) : Prop :=
  (∀ j, faces s' j = faces s j) ∧ irq_actids s' = irq_actids s ∧ irq_mask s' = irq_mask s.

Section remove.
Context (L : Z → list Z) (s : irqs) (irq id : Z) (p : option Z).
Context (Ho : hooks_ok L s) (Hl : is_line irq) (Hp : zget (irq_handlers s) irq = Some p).

(** The hook found: the link before it skips it. *)
Lemma rm_found l1 i h l2 :
  L irq = l1 ++ i :: l2 → lseg (hnx s) p l1 (Some i) → zget (irq_hooks s) i = Some h → linked (hnx s) (h_next h) l2 →
  h_id h = id → ∃ s', rm_step irq id (last l1, Some i) s = Ret (inr tt) s' ∧
    hooks_ok (put_line L irq (l1 ++ l2)) s' ∧ same_lines s s'.
Proof using Ho Hl Hp.
  intros El H1 Hz H2 Hid. unfold rm_step. step (rd_hook_run _ _ _ Hz). rewrite Hid, Z.eqb_refl.
  assert (NoDup (l1 ++ l2)) as Hd.
  { pose proof (linked_NoDup _ _ _ (ho_line _ _ Ho _ _ Hp)) as H. rewrite El in H.
    apply NoDup_app in H as (? & Hx & [? ?]%NoDup_cons). apply NoDup_app. set_solver. }
  destruct (set_line_run irq s p l1 _ _ l2 Hp H1 H2 Hd) as (s1 & E1 & Hr). step E1.
  pose proof Hr as ((p1 & Hp1 & Hlk) & _ & _ & Hf & _ & _ & Ha & Hu & Hm).
  assert (l1 ++ l2 ⊆ L irq) as Hsub by (rewrite El; set_solver).
  rewrite bind_get, (bind_lift _ _ _ _ Hp1), (linked_head _ _ _ Hlk).
  pose proof (λ u, redirected_ok L s s1 irq l1 l2 u Ho Hl Hr (belong_sub _ _ _ _ Ho Hl Hsub)
    ltac:(rewrite El; set_solver)) as Hok.
  destruct (l1 ++ l2) as [|x l] eqn:E; cbn [head].
  - rewrite bool_decide_true by done. unfold when. steps. eexists. split; [done|]. split; [|done].
    apply Hok. intros y Hy. destruct Hl. rewrite testbit_ldiff_bit by done. rewrite Hu.
    destruct (y =? irq); [by rewrite bool_decide_false by (by intros [])|done].
  - rewrite bool_decide_false by done. unfold when. steps. eexists. split; [done|]. split; [|done].
    replace s1 with (with_use (irq_use s) s1) by (rewrite <- Hu; by destruct s1). apply Hok. intros y Hy.
    destruct (Z.eqb_spec y irq) as [->|]; [|done]. rewrite (ho_use _ _ Ho) by done.
    rewrite El. destruct l1; by rewrite !bool_decide_true.
Qed.

Lemma rm_loop fuel l1 l2 line :
  L irq = l1 ++ l2 → lseg (hnx s) p l1 line → linked (hnx s) line l2 →
  Forall (λ j, hook_id s j ≠ Some id) l1 → (length l2 < fuel)%nat →
  ∃ s', loop fuel (rm_step irq id) (last l1, line) s = Ret tt s' ∧
    hooks_ok (put_line L irq (others s id (L irq))) s' ∧ same_lines s s'.
Proof using Ho Hl Hp.
  revert l1 l2 line. induction fuel as [|fuel IH]; intros l1 l2 line El H1 H2 Hf Hlen; [lia|]. rewrite loop_S.
  destruct l2 as [|i l2].
  - apply linked_nil in H2 as ->. cbn [rm_step]. steps. exists s. split; [done|]. split; [|done].
    eapply hooks_ext; [|exact Ho]. intros x. rewrite others_none, put_line_same; [done|].
    by rewrite El, app_nil_r.
  - apply linked_cons in H2 as [-> (r & Hr & H2)].
    destruct (hook_get L s irq i Ho Hl) as [h Hz]; [rewrite El; set_solver|].
    unfold hnx in Hr. rewrite Hz in Hr. injection Hr as <-.
    assert (hook_id s i = Some (h_id h)) as Hi by (unfold hook_id; by rewrite Hz).
    destruct (Z.eq_dec (h_id h) id) as [E|E].
    + destruct (rm_found l1 i h l2 El H1 Hz H2 E) as (s' & E' & Hok & Hsame). step E'. cbv iota.
      exists s'. split; [done|]. split; [|done]. eapply hooks_ext; [|exact Hok]. intros x.
      assert (others s id (L irq) = l1 ++ l2) as ->; [|done]. rewrite El. unfold others. rewrite filter_app, filter_cons.
      rewrite decide_False by (rewrite Hi, E; tauto). fold (others s id l1) (others s id l2).
      rewrite !others_none; [done| |done]. apply Forall_forall. intros j Hj Ej.
      assert (j = i); [|subst j].
      { apply (ho_id _ _ Ho irq); [done|rewrite El; set_solver..|]. by rewrite Ej, Hi, E. }
      pose proof (linked_NoDup _ _ _ (ho_line _ _ Ho _ _ Hp)) as Hd. rewrite El in Hd.
      apply NoDup_app in Hd as (_ & _ & [? _]%NoDup_cons). done.
    + assert (rm_step irq id (last l1, Some i) s = Ret (inl (Some i, h_next h)) s) as Es.
      { unfold rm_step. step (rd_hook_run _ _ _ Hz). destruct (Z.eqb_spec (h_id h) id); [done|]. done. }
      step Es. cbv iota. rewrite <- (last_snoc i l1). apply (IH (l1 ++ [i]) l2).
      * by rewrite <- app_assoc.
      * apply lseg_snoc. split; [done|]. unfold hnx. by rewrite Hz.
      * done.
      * apply Forall_app. split; [done|]. constructor; [|done]. rewrite Hi. congruence.
      * simpl in Hlen. lia.
Qed.
End remove.

(** A hook that was removed is on no line any more. *)
Lemma removed_offline L s i h :
  hooks_ok L s → zget (irq_hooks s) i = Some h →
  ∀ x, is_line x → i ∉ put_line L (h_irq h) (others s (h_id h) (L (h_irq h))) x.
Proof.
  intros Ho Hz x Hx. unfold put_line. destruct (Z.eqb_spec x (h_irq h)) as [->|Hne].
  - intros [Hid _]%list_elem_of_filter. apply Hid. unfold hook_id. by rewrite Hz.
  - intros Hi. by destruct (ho_in _ _ Ho x i h Hx Hi Hz).
Qed.

(** [rm_irq_handler] takes the hooks with the identifier of its hook off the
    line of that hook. *)
Lemma rm_irq_handler_run L s i h :
  hooks_ok L s → zget (irq_hooks s) i = Some h →
  ∃ s', rm_irq_handler i s = Ret tt s' ∧ same_lines s s' ∧
    hooks_ok (put_line L (h_irq h) (others s (h_id h) (L (h_irq h)))) s'.
Proof.
  intros Ho Hz. pose proof (ho_irq _ _ Ho _ _ Hz) as Hl. unfold rm_irq_handler. step (rd_hook_run _ _ _ Hz).
  rewrite line_good by done.
  destruct (zget_in (irq_handlers s) (h_irq h)) as [p Hp]; [by rewrite (ho_heads _ _ Ho)|].
  rewrite bind_get, (bind_lift _ _ _ _ Hp).
  destruct (rm_loop L s (h_irq h) (h_id h) p Ho Hl Hp irq_fuel [] (L (h_irq h)) p) as (s' & E & Hok & Hs).
  - done.
  - done.
  - by apply Ho.
  - done.
  - by eapply line_length.
  - by exists s'.
Qed.

(** ** Registering a hook *)

Definition bit_of (n : nat) : Z := 2 ^ Z.of_nat n.

Lemma bit_of_S n : (n < 31)%nat → u32 (Z.shiftl (bit_of n) 1) = bit_of (S n).
Proof.
  intros Hn. unfold bit_of, u32. rewrite Z.shiftl_mul_pow2 by lia.
  rewrite Nat2Z.inj_succ, Z.pow_succ_r by lia. rewrite Z.pow_1_r, Z.mul_comm. apply Z.mod_small.
  assert (2 ^ Z.of_nat n < 2 ^ 31) by (apply Z.pow_lt_mono_r; lia). assert (0 < 2 ^ Z.of_nat n) by (apply Z.pow_pos_nonneg; lia). lia.
Qed.

(** The fields of a hook that is on no line can be filled in. *)
Lemma offline_ok L s i h' :
  hooks_ok L s → (∀ x, is_line x → i ∉ L x) → 0 ≤ i < zlen (irq_hooks s) → is_line (h_irq h') →
  hooks_ok L (with_hooks (upd (irq_hooks s) i h') s).
Proof.
  intros Ho Hi Hr Hl.
  assert (∀ x j, is_line x → j ∈ L x → i ≠ j) as Hne by (intros x j Hx Hj ->; by eapply Hi).
  split; cbn [with_hooks irq_hooks irq_handlers irq_actids irq_use]; [by rewrite zlen_upd, (ho_hooks _ _ Ho)|apply Ho..| | | | |apply Ho].
  - intros x q Hq. eapply linked_ext; [|by apply (ho_line _ _ Ho)]. intros j Hj. unfold hnx. cbn.
    rewrite zget_upd_ne; [done|lia|]. apply (Hne x); [|done].
    unfold is_line. rewrite <- (ho_heads _ _ Ho). by eapply zget_Some_range.
  - intros j hj. rewrite zget_upd by done. destruct (i =? j); [|apply (ho_irq _ _ Ho)]. by intros [= <-].
  - intros x j hj Hx Hj. rewrite zget_upd_ne; [by apply (ho_in _ _ Ho)|lia|by eapply Hne].
  - intros x j j' Hx Hj Hj'. unfold hook_id. cbn.
    rewrite !zget_upd_ne; [by apply (ho_id _ _ Ho x)|lia|by eapply Hne|lia|by eapply Hne].
Qed.

Lemma installed_belong L s irq i f h id :
  hooks_ok L s → is_line irq → (∀ x, is_line x → i ∉ L x) → zget (irq_hooks s) i = Some h → h_proc_nr h ≠ NONE →
  Forall (λ j, hook_id s j ≠ Some id) (L irq) →
  belong irq (L irq ++ [i]) (with_hooks (upd (irq_hooks s) i (set_installed f irq id h)) s).
Proof.
  intros Ho Hl Hi Hz Hnr Hids. pose proof (zget_Some_range _ _ _ Hz) as Hr.
  assert (∀ j, j ∈ L irq → i ≠ j) as Hne by (intros j Hj ->; by eapply Hi).
  rewrite Forall_forall in Hids. split; unfold hook_id; cbn.
  - intros j hj [Hj| ->%list_elem_of_singleton]%elem_of_app.
    + rewrite zget_upd_ne; [by apply (ho_in _ _ Ho)|lia|by apply Hne].
    + rewrite zget_upd_eq by done. by intros [= <-].
  - intros j j' [Hj| ->%list_elem_of_singleton]%elem_of_app [Hj'| ->%list_elem_of_singleton]%elem_of_app; [| | |done].
    + rewrite !zget_upd_ne; [by apply (ho_id _ _ Ho irq)|lia|by apply Hne|lia|by apply Hne].
    + rewrite zget_upd_ne by (try lia; by apply Hne). rewrite zget_upd_eq by done. intros E. by destruct (Hids _ Hj).
    + rewrite zget_upd_eq by done. rewrite zget_upd_ne by (try lia; by apply Hne). intros E. by destruct (Hids _ Hj').
Qed.

Section register.
Context (L : Z → list Z) (s : irqs) (irq i : Z) (p : option Z).
Context (Ho : hooks_ok L s) (Hl : is_line irq) (Hp : zget (irq_handlers s) irq = Some p).

Lemma put_loop fuel l1 l2 line :
  L irq = l1 ++ l2 → linked (hnx s) line l2 → i ∉ l1 → (length l2 < fuel)%nat →
  loop fuel (put_step i) (last l1, line, bit_of (length l1)) s =
    Ret (if decide (i ∈ L irq) then None else Some (last (L irq), bit_of (length (L irq)))) s.
Proof using Ho Hl Hp.
  revert l1 l2 line. induction fuel as [|fuel IH]; intros l1 l2 line El H2 Hi Hlen; [lia|]. rewrite loop_S.
  destruct l2 as [|j l2].
  - apply linked_nil in H2 as ->. cbn [put_step]. steps. rewrite El, app_nil_r, decide_False by done. done.
  - apply linked_cons in H2 as [-> (r & Hr & H2)].
    destruct (hook_get L s irq j Ho Hl) as [h Hz]; [rewrite El; set_solver|].
    unfold hnx in Hr. rewrite Hz in Hr. injection Hr as <-.
    destruct (Z.eq_dec i j) as [<-|Hij].
    + assert (put_step i (last l1, Some i, bit_of (length l1)) s = Ret (inr None) s) as Es
        by (unfold put_step; by rewrite Z.eqb_refl).
      step Es. rewrite decide_True by (rewrite El; set_solver). done.
    + assert (put_step i (last l1, Some j, bit_of (length l1)) s =
        Ret (inl (Some j, h_next h, bit_of (length (l1 ++ [j])))) s) as Es.
      { unfold put_step. destruct (Z.eqb_spec i j); [done|]. step (rd_hook_run _ _ _ Hz).
        pose proof (line_length L s irq Ho Hl) as H. rewrite El, length_app in H. change irq_fuel with 18%nat in H.
        rewrite bit_of_S by (cbn [length] in H; lia). rewrite length_app. cbn [length]. by rewrite Nat.add_1_r. }
      step Es. cbv iota.
      rewrite <- (last_snoc j l1). apply (IH (l1 ++ [j]) l2).
      * by rewrite <- app_assoc.
      * done.
      * set_solver.
      * simpl in Hlen. lia.
Qed.

(** A hook that is on the line already stays where it is. *)
Lemma put_irq_handler_again f : i ∈ L irq → put_irq_handler i irq f s = Ret tt s.
Proof using Ho Hl Hp.
  intros Hi. unfold put_irq_handler. rewrite line_good by done. rewrite bind_get, (bind_lift _ _ _ _ Hp).
  change 1 with (bit_of (length (@nil Z))). change None with (last (@nil Z)) at 1.
  erewrite bind_ret by (eapply (put_loop _ []); [done|by apply Ho|set_solver|by eapply line_length]).
  by rewrite decide_True.
Qed.

Lemma put_irq_handler_run f h :
  (∀ x, is_line x → i ∉ L x) → zget (irq_hooks s) i = Some h → h_proc_nr h ≠ NONE →
  Forall (λ j, hook_id s j ≠ Some (bit_of (length (L irq)))) (L irq) →
  ∃ s', put_irq_handler i irq f s = Ret tt s' ∧ hooks_ok (put_line L irq (L irq ++ [i])) s' ∧
    irq_actids s' = irq_actids s ∧ irq_mask s' = irq_mask s ∧
    ∀ j, faces s' j = if i =? j then Some (face (set_installed f irq (bit_of (length (L irq))) h)) else faces s j.
Proof using Ho Hl Hp.
  intros Hi Hz Hnr Hids. unfold put_irq_handler. rewrite line_good by done. rewrite bind_get, (bind_lift _ _ _ _ Hp).
  change 1 with (bit_of (length (@nil Z))). change None with (last (@nil Z)) at 1.
  erewrite bind_ret by (eapply (put_loop _ []); [done|by apply Ho|set_solver|by eapply line_length]).
  rewrite decide_False by (by apply Hi). cbv iota beta. set (n := length (L irq)) in *.
  assert ((bit_of n =? 0) = false) as -> by (apply Z.eqb_neq; unfold bit_of; apply Z.pow_nonzero; lia).
  step (upd_hook_run _ _ (set_installed f irq (bit_of n)) _ Hz). set (h1 := set_installed f irq (bit_of n) h).
  pose proof (offline_ok L s i h1 Ho Hi (zget_Some_range _ _ _ Hz) Hl) as Ho1.
  set (s1 := with_hooks (upd (irq_hooks s) i h1) s) in *.
  pose proof (zget_Some_range _ _ _ Hz) as Hr.
  assert (zget (irq_hooks s1) i = Some h1) as Hz1 by (by apply zget_upd_eq).
  assert (linked (hnx s1) (Some i) [i]) as H2.
  { split; [done|]. exists None. split; [|done]. unfold hnx. by rewrite Hz1. }
  assert (NoDup (L irq ++ [i])) as Hd.
  { apply NoDup_app. split; [by eapply linked_NoDup, Ho|]. split; [|apply NoDup_singleton].
    intros x Hx ->%list_elem_of_singleton. by eapply Hi. }
  destruct (set_line_run irq s1 p (L irq) None (Some i) [i] Hp (ho_line _ _ Ho1 _ _ Hp) H2 Hd) as (s2 & E2 & Hrd).
  step E2. eexists. split; [done|]. pose proof Hrd as (_ & _ & _ & Hf & _ & _ & Ha & Hu & Hm).
  split_and!; [|done|done|].
  - rewrite Hu. eapply (redirected_ok L s1); [done|done|done|by apply installed_belong|done|].
    intros x Hx. destruct Hl. rewrite testbit_lor_bit by done. destruct (x =? irq); [|done].
    rewrite bool_decide_true; [done|]. by destruct (L irq).
  - intros j. etrans; [exact (Hf j)|]. unfold faces. cbn. rewrite zget_upd by done.
    by destruct (i =? j).
Qed.
End register.

(** ** Switching lines on and off *)

Lemma act_ok L s t m : hooks_ok L s → zlen t = NR_IRQ_VECTORS → hooks_ok L (with_mask m (with_actids t s)).
Proof. intros [H1 H2 H3 H4 H5 H6 H7 H8] Ht. by split. Qed.

Lemma act_run L s irq f :
  hooks_ok L s → is_line irq → ∃ a, zget (irq_actids s) irq = Some a ∧
    act irq f s = Ret (f a) (with_actids (upd (irq_actids s) irq (f a)) s).
Proof.
  intros Ho Hl. destruct (zget_in (irq_actids s) irq) as [a Ha]; [by rewrite (ho_act _ _ Ho)|].
  exists a. split; [done|]. unfold act. rewrite bind_get, (bind_lift _ _ _ _ Ha), bind_zset by (by rewrite (ho_act _ _ Ho)).
  by steps.
Qed.

(** Enabling a line takes the bit of the hook off; the line is open when no
    other hook keeps it closed. *)
Lemma enable_irq_run L s i h :
  hooks_ok L s → zget (irq_hooks s) i = Some h →
  ∃ a s', zget (irq_actids s) (h_irq h) = Some a ∧ enable_irq i s = Ret tt s' ∧ hooks_ok L s' ∧
    irq_hooks s' = irq_hooks s ∧ zget (irq_actids s') (h_irq h) = Some (Z.ldiff a (h_id h)) ∧
    (∀ x, is_line x → Z.testbit (irq_mask s') x =
       if (x =? h_irq h) && (Z.ldiff a (h_id h) =? 0) then false else Z.testbit (irq_mask s) x).
Proof.
  intros Ho Hz. pose proof (ho_irq _ _ Ho _ _ Hz) as Hl. unfold enable_irq. step (rd_hook_run _ _ _ Hz).
  destruct (act_run L s (h_irq h) (λ a, Z.ldiff a (h_id h)) Ho Hl) as (a & Ha & E). step E. exists a.
  pose proof (act_ok L s (upd (irq_actids s) (h_irq h) (Z.ldiff a (h_id h)))) as Hok.
  destruct (Z.ldiff a (h_id h) =? 0); unfold when; steps; eexists; (split_and!; [done|done|apply Hok|done|..]);
    try (by rewrite ?zlen_upd, ?(ho_act _ _ Ho)); try (cbn; apply zget_upd_eq; by rewrite (ho_act _ _ Ho)); cbn.
  - intros x Hx. destruct Hl. rewrite testbit_ldiff_bit by done. by destruct (x =? h_irq h).
  - intros x Hx. by rewrite andb_false_r.
Qed.

Lemma disable_irq_run L s i h :
  hooks_ok L s → zget (irq_hooks s) i = Some h →
  ∃ s', disable_irq i s = Ret (negb (Z.testbit (irq_mask s) (h_irq h))) s' ∧ hooks_ok L s' ∧
    irq_hooks s' = irq_hooks s ∧
    (∀ x, is_line x → Z.testbit (irq_mask s') x = (x =? h_irq h) || Z.testbit (irq_mask s) x).
Proof.
  intros Ho Hz. pose proof (ho_irq _ _ Ho _ _ Hz) as Hl. unfold disable_irq. step (rd_hook_run _ _ _ Hz).
  destruct (act_run L s (h_irq h) (λ a, Z.lor a (h_id h)) Ho Hl) as (a & Ha & E). step E. rewrite bind_get.
  pose proof (act_ok L s (upd (irq_actids s) (h_irq h) (Z.lor a (h_id h)))) as Hok. cbn [with_actids irq_mask].
  destruct (Z.testbit (irq_mask s) (h_irq h)) eqn:Eb; steps; eexists; (split_and!; [done|apply Hok|done|..]);
    try (by rewrite ?zlen_upd, ?(ho_act _ _ Ho)); cbn; intros x Hx.
  - destruct (Z.eqb_spec x (h_irq h)) as [->|]; [done|done].
  - destruct Hl. by rewrite testbit_lor_bit.
Qed.

(** ** The tables when the kernel is loaded *)

Lemma blank_hooks_ok : hooks_ok (λ _, []) blank_irqs.
Proof.
  split; [done..| | | | |].
  - intros irq p Hp. apply zget_elem_of in Hp. apply elem_of_replicate in Hp as [-> _]. done.
  - intros i h Hz. apply zget_elem_of in Hz. apply elem_of_replicate in Hz as [-> _]. done.
  - intros irq i h _ Hi. by apply not_elem_of_nil in Hi.
  - intros irq i j _ Hi. by apply not_elem_of_nil in Hi.
  - intros irq Hl. rewrite bool_decide_false by (by intros []). apply Z.bits_0.
Qed.
