(* ===== verification/KernelCalls.v ===== *)
(** * Kernel calls of the reference system that change processes

    Forking, exiting, priorities, signals and privileges:
    [reference/minix/kernel/system/do_fork.c], [do_exit.c], [do_nice.c],
    [do_kill.c], [do_getksig.c], [do_endksig.c], [do_privctl.c], and [send_sig]
    and [cause_sig] of [system.c]. The fields of the request message are
    arguments; [m_source] is the process that made the request. Registers and
    segment descriptors are not in this state. *)

From S2P Require Import Prelude Irq Timers Ipc KernelBoot Clock.

Definition EPERM : Z := -1.
Definition EINVAL : Z := -22.
Definition EDONTREPLY : Z := -201.
Definition SELF : Z := 0x8ace.

Definition MAX_USER_Q : Z := 0.
Definition MIN_USER_Q : Z := 14.
Definition PRIO_MIN : Z := -20.
Definition PRIO_MAX : Z := 20.

Definition NSIG : Z := 20.
Definition SIGKSIG : Z := 19.

(** ** Fields *)

Definition set_nr (n : Z) (p : proc) : proc :=
  Proc n (p_priv p) (p_rts_flags p) (p_priority p) (p_max_priority p) (p_ticks_left p) (p_quantum_size p)
    (p_mapD p) (p_mapS p) (p_nextready p) (p_caller_q p) (p_q_link p) (p_messbuf p) (p_getfrom p) (p_sendto p)
    (p_pending p) (p_user_time p) (p_sys_time p) (p_mapT p).
Definition set_ticks (t : Z) (p : proc) : proc :=
  Proc (p_nr p) (p_priv p) (p_rts_flags p) (p_priority p) (p_max_priority p) t (p_quantum_size p)
    (p_mapD p) (p_mapS p) (p_nextready p) (p_caller_q p) (p_q_link p) (p_messbuf p) (p_getfrom p) (p_sendto p)
    (p_pending p) (p_user_time p) (p_sys_time p) (p_mapT p).
Definition set_queue (q : Z) (p : proc) : proc :=
  Proc (p_nr p) (p_priv p) (p_rts_flags p) q q (p_ticks_left p) (p_quantum_size p)
    (p_mapD p) (p_mapS p) (p_nextready p) (p_caller_q p) (p_q_link p) (p_messbuf p) (p_getfrom p) (p_sendto p)
    (p_pending p) (p_user_time p) (p_sys_time p) (p_mapT p).
Definition set_signals (x : Z) (p : proc) : proc :=
  Proc (p_nr p) (p_priv p) (p_rts_flags p) (p_priority p) (p_max_priority p) (p_ticks_left p) (p_quantum_size p)
    (p_mapD p) (p_mapS p) (p_nextready p) (p_caller_q p) (p_q_link p) (p_messbuf p) (p_getfrom p) (p_sendto p)
    x (p_user_time p) (p_sys_time p) (p_mapT p).
Definition set_times (u s : Z) (p : proc) : proc :=
  Proc (p_nr p) (p_priv p) (p_rts_flags p) (p_priority p) (p_max_priority p) (p_ticks_left p) (p_quantum_size p)
    (p_mapD p) (p_mapS p) (p_nextready p) (p_caller_q p) (p_q_link p) (p_messbuf p) (p_getfrom p) (p_sendto p)
    (p_pending p) u s (p_mapT p).

Definition or_rts (f : Z) (p : proc) : proc := set_rts (Z.lor (p_rts_flags p) f) p.
Definition clear_rts (f : Z) (p : proc) : proc := set_rts (Z.ldiff (p_rts_flags p) f) p.

(** [isemptyp]. *)
Definition isemptyp (p : proc) : bool := p_rts_flags p =? SLOT_FREE.

(** ** Signal sets: POSIX functions of the C library. A number that is not a
    signal is an error ([-1]) and leaves the set as it is. *)
Definition is_signal (sig : Z) : bool := (0 <=? sig) && (sig <=? NSIG).
Definition sigaddset (set sig : Z) : Z := if is_signal sig then Z.lor set (Z.shiftl 1 sig) else set.
Definition sigismember (set sig : Z) : Z :=
  if is_signal sig then (if Z.testbit set sig then 1 else 0) else -1.

(** ** Forking *)

Definition do_fork (PR_PROC_NR PR_PPROC_NR : Z) : M kst Z :=
  let rpp := proc_addr PR_PPROC_NR in
  let rpc := proc_addr PR_PROC_NR in
  pp ← rd_proc rpp;
  pc ← rd_proc rpc;
  if isemptyp pp || negb (isemptyp pc) then mret EINVAL else
  upd_proc rpc (λ _, pp);;
  upd_proc rpc (set_nr PR_PROC_NR);;
  upd_proc rpc (or_rts NO_MAP);;
  upd_proc rpc (clear_rts (Z.lor (Z.lor SIGNALED SIG_PENDING) P_STOP));;
  upd_proc rpc (set_signals 0);;
  upd_proc rpc (set_times 0 0);;
  upd_proc rpc (λ p, set_ticks (Z.quot (p_ticks_left p + 1) 2) p);;
  upd_proc rpp (λ p, set_ticks (Z.quot (p_ticks_left p) 2) p);;
  s ← priv_of rpp;
  when (has (s_flags s) SYS_PROC)
    (upd_proc rpc (set_priv USER_PRIV_ID);; upd_proc rpc (or_rts NO_PRIV));;
  mret OK.

(** ** Exiting *)

(** The walk over one queue of callers: the exiting process is taken out. *)
Definition unqueue_step (rc owner : Z)
    : option Z * option Z → M kst (option Z * option Z + unit) :=
  λ '(prev, x),
    match x with
    | None => mret (inr tt)
    | Some i =>
        p ← rd_proc i;
        if i =? rc then set_caller_link owner prev (p_q_link p);; mret (inr tt)
        else mret (inl (Some i, p_q_link p))
    end.

Fixpoint unqueue (rc : Z) (rs : list Z) : M kst unit :=
  match rs with
  | [] => mret tt
  | rp :: rs' =>
      p ← rd_proc rp;
      when (negb (bool_decide (p_caller_q p = None)))
        (loop proc_fuel (unqueue_step rc rp) (None, p_caller_q p));;
      unqueue rc rs'
  end.

(** The exiting process is no longer scheduled and no longer queued. *)
Definition leave_queues (rc : Z) : M kst unit :=
  p ← rd_proc rc;
  when (p_rts_flags p =? 0) (lock_dequeue rc);;
  when (has (p_rts_flags p) SENDING) (unqueue rc (range 0 (Z.to_nat (NR_TASKS + NR_PROCS)))).

Definition release_slot (rc : Z) : M kst unit :=
  upd_proc rc (set_rts SLOT_FREE);;
  s ← priv_of rc;
  when (has (s_flags s) SYS_PROC) (upd_priv_of rc (λ s, set_proc_nr NONE (s_flags s) s)).

(** The interrupt hooks of the process [nr] are released. *)
Fixpoint release_hooks (nr : Z) (hs : list Z) : M irqs unit :=
  match hs with
  | [] => mret tt
  | i :: hs' =>
      h ← rd_hook i;
      when (h_proc_nr h =? nr) (rm_irq_handler i;; upd_hook i (set_owner NONE));;
      release_hooks nr hs'
  end.

Section exit.
Context `{TL : TimerLib}.

Definition clear_proc (rc : Z) : M kst unit :=
  p ← rd_proc rc;
  _ ← rd_priv (p_priv p);
  reset_timer (AlarmTimer (p_priv p));;
  leave_queues rc;;
  p ← rd_proc rc;
  on_irqs (release_hooks (p_nr p) (range 0 (Z.to_nat NR_IRQ_HOOKS)));;
  release_slot rc.

Definition do_exit (m_source PR_PROC_NR : Z) : M kst Z :=
  if (PM_PROC_NR =? m_source) && negb (PR_PROC_NR =? SELF) then
    if negb (isokprocn PR_PROC_NR) then mret EINVAL else
    clear_proc (proc_addr PR_PROC_NR);;
    mret OK
  else
    clear_proc (proc_addr m_source);;
    mret EDONTREPLY.
End exit.

(** ** Priorities *)

Definition nice_queue (pri : Z) : Z :=
  let new_q := MAX_USER_Q + Z.quot ((pri - PRIO_MIN) * (MIN_USER_Q - MAX_USER_Q + 1))
                 (PRIO_MAX - PRIO_MIN + 1) in
  let new_q := if new_q <? MAX_USER_Q then MAX_USER_Q else new_q in
  if MIN_USER_Q <? new_q then MIN_USER_Q else new_q.

Definition do_nice (PR_PROC_NR PR_PRIORITY : Z) : M kst Z :=
  if negb (isokprocn PR_PROC_NR) then mret EINVAL else
  if iskerneln PR_PROC_NR then mret EPERM else
  if (PR_PRIORITY <? PRIO_MIN) || (PRIO_MAX <? PR_PRIORITY) then mret EINVAL else
  let new_q := nice_queue PR_PRIORITY in
  let rp := proc_addr PR_PROC_NR in
  lock_dequeue rp;;
  upd_proc rp (set_queue new_q);;
  p ← rd_proc rp;
  when (p_rts_flags p =? 0) (lock_enqueue rp);;
  mret OK.

(** ** Signals *)

Definition send_sig (proc_nr sig_nr : Z) : M kst unit :=
  let rp := proc_addr proc_nr in
  upd_priv_of rp (λ s, set_sig_pending (sigaddset (s_sig_pending s) sig_nr) s);;
  _ ← lock_notify SYSTEM proc_nr;
  mret tt.

Definition cause_sig (proc_nr sig_nr : Z) : M kst unit :=
  let rp := proc_addr proc_nr in
  p ← rd_proc rp;
  if negb (sigismember (p_pending p) sig_nr =? 0) then mret tt else
  upd_proc rp (λ p, set_signals (sigaddset (p_pending p) sig_nr) p);;
  if has (p_rts_flags p) SIGNALED then mret tt else
  when (p_rts_flags p =? 0) (lock_dequeue rp);;
  upd_proc rp (or_rts (Z.lor SIGNALED SIG_PENDING));;
  send_sig PM_PROC_NR SIGKSIG.

Definition do_kill (m_source SIG_PROC SIG_NUMBER : Z) : M kst Z :=
  if negb (isokprocn SIG_PROC) || (NSIG <? SIG_NUMBER) then mret EINVAL else
  if iskerneln SIG_PROC then mret EPERM else
  if m_source =? PM_PROC_NR then
    s ← priv_of (proc_addr SIG_PROC);
    if negb (has (s_flags s) SYS_PROC) then mret EPERM else
    send_sig SIG_PROC SIG_NUMBER;; mret OK
  else cause_sig SIG_PROC SIG_NUMBER;; mret OK.

(** The reply: SIG_PROC, and SIG_MAP when a process was found. *)
Fixpoint getksig_loop (rs : list Z) : M kst (Z * option Z) :=
  match rs with
  | [] => mret (NONE, None)
  | rp :: rs' =>
      p ← rd_proc rp;
      if has (p_rts_flags p) SIGNALED then
        upd_proc rp (set_signals 0);;
        upd_proc rp (clear_rts SIGNALED);;
        mret (p_nr p, Some (p_pending p))
      else getksig_loop rs'
  end.

Definition do_getksig : M kst (Z * option Z) :=
  getksig_loop (range NR_TASKS (Z.to_nat NR_PROCS)).

Definition do_endksig (SIG_PROC : Z) : M kst Z :=
  let rp := proc_addr SIG_PROC in
  p ← rd_proc rp;
  if negb (has (p_rts_flags p) SIG_PENDING) then mret EINVAL else
  when (negb (has (p_rts_flags p) SIGNALED))
    (upd_proc rp (clear_rts SIG_PENDING);;
     p' ← rd_proc rp;
     when (p_rts_flags p' =? 0) (lock_enqueue rp));;
  mret OK.

(** ** Privileges *)

Definition FILLED_MASK : Z := -1.
Definition unset_sys_bit (map : list Z) (bit : Z) : option (list Z) :=
  c ← zget map (bit / BITCHUNK_BITS);
  zset map (bit / BITCHUNK_BITS) (Z.ldiff c (Z.shiftl 1 (bit mod BITCHUNK_BITS))).

(** The privileges of the caller, for the structure with number [id] and the
    process [nr]: nothing pending, every trap and every destination allowed. *)
Definition copied_priv (id nr : Z) (to : list Z) (s : priv) : priv :=
  Priv nr id (s_flags s) FILLED_MASK to (replicate (Z.to_nat NR_SYS_CHUNKS) 0) 0 0 (s_stack_guard s)
    (s_call_mask s) (s_farmem s).

(** Everybody the process can send to can reply. *)
Fixpoint allow_replies (rp id : Z) (ss : list Z) : M kst unit :=
  match ss with
  | [] => mret tt
  | i :: ss' =>
      s ← priv_of rp;
      may ← lift_opt (get_sys_bit (s_ipc_to s) i);
      when (may : bool)
        (o ← rd_priv i;
         l ← lift_opt (set_sys_bit (s_ipc_to o) id);
         upd_priv i (λ o, set_rights (s_flags o) (s_trap_mask o) l o));;
      allow_replies rp id ss'
  end.

Definition do_privctl (m_source PR_PROC_NR : Z) : M kst Z :=
  c ← priv_of (proc_addr m_source);
  if negb (has (s_flags c) SYS_PROC) then mret EPERM else
  if negb (isokprocn PR_PROC_NR) then mret EINVAL else
  let rp := proc_addr PR_PROC_NR in
  p ← rd_proc rp;
  if negb (has (p_rts_flags p) NO_PRIV) then mret EPERM else
  r ← get_priv rp SYS_PROC;
  if negb (r =? OK) then mret r else
  s ← priv_of rp;
  let priv_id := s_id s in
  c ← priv_of (proc_addr m_source);
  let full := replicate (Z.to_nat NR_SYS_CHUNKS) (u16 FILLED_MASK) in
  to ← lift_opt (unset_sys_bit full USER_PRIV_ID);
  upd_priv_of rp (λ _, copied_priv priv_id PR_PROC_NR to c);;
  allow_replies rp priv_id (range 0 (Z.to_nat NR_SYS_PROCS));;
  p ← rd_proc rp;
  let old_flags := p_rts_flags p in
  upd_proc rp (clear_rts NO_PRIV);;
  p ← rd_proc rp;
  when (negb (old_flags =? 0) && (p_rts_flags p =? 0)) (lock_enqueue rp);;
  mret OK.
