(* ===== verification/KernelFrame.v ===== *)
(** * What kernel code leaves alone

    Scheduling, message passing and the kernel calls work on the process and
    privilege tables, the ready queues, memory and the log. The process that
    runs changes only when the kernel is left: the code chooses the next one in
    [next_ptr], and [restart] alone switches to it. The tables of interrupt
    hooks, timers and random information belong to the code for devices; and
    somebody pays for the time of system processes all along. *)

From S2P Require Import Prelude Irq Timers Ipc KernelBoot Clock KernelCalls.

(** A relation between states that scheduling and message passing keep: the
    process to bill is, if changed, one that exists. *)
Class Frame (R : kst → kst → Prop) : Prop := {
  frame_pre :: PreOrder R;
  frame_procs k x : zlen x = zlen (procs k) → R k (with_procs x k);
  frame_privs k x : R k (with_privs x k);
  frame_rdy k h t : R k (with_rdy h t k);
  frame_next k n : R k (with_next n (bill_ptr k) k);
  frame_bill k b : 0 ≤ b < zlen (procs k) → R k (with_next (next_ptr k) (Some b) k);
  frame_prev k x : R k (with_prev x k);
  frame_memory k x : R k (with_memory x k);
  frame_intr k x : R k (with_intr x k);
  frame_log k x : R k (with_log x k) }.

(** The part [f] of the state is the same. *)
Definition same {T} (f : kst → T) (k k' : kst) : Prop := f k' = f k.
#[global] Instance same_pre {T} (f : kst → T) : PreOrder (same f).
Proof. unfold same. split; [by intros k|]. intros k1 k2 k3 H1 H2. by rewrite H2. Qed.

(** The tables of the code for devices. *)
Definition devices (k : kst) : irqs * clock * list random_bin := (k_irqs k, k_clock k, k_random k).

(** Somebody is billed. *)
Definition billed (k : kst) : Prop := ∃ b, bill_ptr k = Some b ∧ 0 ≤ b < zlen (procs k).
Definition bills (k k' : kst) : Prop := zlen (procs k') = zlen (procs k) ∧ (billed k → billed k').

#[global] Instance frame_proc_ptr : Frame (same proc_ptr).
Proof. split; [apply _|done..]. Qed.
#[global] Instance frame_devices : Frame (same devices).
Proof. split; [apply _|done..]. Qed.
#[global] Instance frame_realtime : Frame (same realtime).
Proof. split; [apply _|done..]. Qed.
#[global] Instance frame_bills : Frame bills.
Proof.
  split; [|unfold bills, billed; cbn; intros; (split; [done|])..]; try done.
  - split; [by intros k|]. intros k1 k2 k3 [E1 H1] [E2 H2]. split; [congruence|tauto].
  - by rewrite H.
  - intros _. by exists b.
Qed.

(** A computation that keeps the relation when it returns. *)
Class Keeps (R : kst → kst → Prop) {A} (c : M kst A) : Prop :=
  kept : ∀ k a k', c k = Ret a k' → R k k'.
Arguments kept R {A c _} k a k' _.

Abbreviation Leaves f := (Keeps (same f)).
Lemma leaves {T} (f : kst → T) {A} {c : M kst A} `{!Leaves f c} k a k' : c k = Ret a k' → f k' = f k.
Proof. apply (kept (same f)). Qed.

Section primitives.
Context (R : kst → kst → Prop) `{!PreOrder R} {A B : Type}.

#[global] Instance keeps_ret (a : A) : Keeps R (mret a).
Proof. by intros k b k' [= _ ->]. Qed.
#[global] Instance keeps_get : Keeps R get.
Proof. by intros k b k' [= _ ->]. Qed.
#[global] Instance keeps_halt : Keeps R (halt : M kst A).
Proof. done. Qed.
#[global] Instance keeps_lift (o : option A) : Keeps R (lift_opt o).
Proof. destruct o; [|done]. by intros k b k' [= _ ->]. Qed.
#[global] Instance keeps_bind (c : M kst A) (g : A → M kst B) :
  Keeps R c → (∀ a, Keeps R (g a)) → Keeps R (c ≫= g).
Proof.
  intros Hc Hf k b k' (a & k1 & E1 & E2)%bind_ret_inv.
  etrans; [exact (kept R _ _ _ E1)|exact (kept R _ _ _ E2)].
Qed.
#[global] Instance keeps_if (b : bool) (c d : M kst A) : Keeps R c → Keeps R d → Keeps R (if b then c else d).
Proof. by destruct b. Qed.
#[global] Instance keeps_decide (P : Prop) (b : Decision P) (c d : M kst A) :
  Keeps R c → Keeps R d → Keeps R (if decide P then c else d).
Proof. by destruct (decide P). Qed.
#[global] Instance keeps_opt (o : option B) (c : M kst A) (g : B → M kst A) :
  Keeps R c → (∀ b, Keeps R (g b)) → Keeps R (match o with None => c | Some b => g b end).
Proof. by destruct o. Qed.
#[global] Instance keeps_pair {C : Type} (x : B * C) (g : B → C → M kst A) :
  (∀ b c, Keeps R (g b c)) → Keeps R (let '(b, c) := x in g b c).
Proof. by destruct x. Qed.
End primitives.

#[global] Instance keeps_loop R `{!PreOrder R} {A B} (fuel : nat) (body : A → M kst (A + B)) (a : A) :
  (∀ a, Keeps R (body a)) → Keeps R (loop fuel body a).
Proof.
  intros Hb. revert a. induction fuel as [|fuel IH]; intros a; [done|]. rewrite loop_S.
  apply keeps_bind; [done|done|]. intros [a'|b]; [apply IH|by apply keeps_ret].
Qed.

#[global] Instance keeps_when R `{!PreOrder R} b (c : M kst unit) : Keeps R c → Keeps R (when b c).
Proof. destruct b; [done|]. intros _. by apply keeps_ret. Qed.

Lemma keeps_modify (R : kst → kst → Prop) (g : kst → kst) : (∀ k, R k (g k)) → Keeps R (modify g).
Proof. intros Hf k a k' [= _ <-]. apply Hf. Qed.
#[global] Hint Extern 5 (Keeps _ (modify _)) =>
  apply keeps_modify; intros; first
    [apply frame_privs|apply frame_rdy|apply frame_next|apply frame_prev|apply frame_memory
    |apply frame_intr|apply frame_log] : typeclass_instances.

(** Proves that a computation keeps a relation by what it is made of. *)
Ltac keeps_by := intros; cbv zeta; apply _.

Lemma lift_opt_inv {A} (o : option A) (k : kst) a k' : lift_opt o k = Ret a k' → o = Some a ∧ k' = k.
Proof. destruct o; [|done]. by intros [= -> ->]. Qed.

(** The slot that was read exists. *)
Lemma priv_of_inv rp k s k' : priv_of rp k = Ret s k' → k' = k ∧ 0 ≤ rp < zlen (procs k).
Proof.
  unfold priv_of, rd_proc, rd_priv. intros (p & k1 & E1 & E2)%bind_ret_inv.
  rewrite bind_get in E1. rewrite bind_get in E2. apply lift_opt_inv in E1 as [Hz ->]. apply lift_opt_inv in E2 as [_ ->].
  split; [done|]. by eapply zget_Some_range.
Qed.

Section kernel.
Context (R : kst → kst → Prop) `{!Frame R}.

#[global] Instance keeps_rd_proc i : Keeps R (rd_proc i).
Proof. unfold rd_proc. keeps_by. Qed.
#[global] Instance keeps_upd_proc i g : Keeps R (upd_proc i g).
Proof.
  intros k a k'. unfold upd_proc. rewrite bind_get. intros (p & k1 & [Hp ->]%lift_opt_inv & E)%bind_ret_inv.
  apply bind_ret_inv in E as (t & k2 & [[_ ->]%zset_Some ->]%lift_opt_inv & [= _ <-]).
  apply frame_procs, zlen_upd.
Qed.
#[global] Instance keeps_rd_priv i : Keeps R (rd_priv i).
Proof. unfold rd_priv. keeps_by. Qed.
#[global] Instance keeps_upd_priv i g : Keeps R (upd_priv i g).
Proof. unfold upd_priv. keeps_by. Qed.
#[global] Instance keeps_priv_of i : Keeps R (priv_of i).
Proof. unfold priv_of. keeps_by. Qed.
#[global] Instance keeps_upd_priv_of i g : Keeps R (upd_priv_of i g).
Proof. unfold upd_priv_of. keeps_by. Qed.
#[global] Instance keeps_CopyMess s sp sm dp dm : Keeps R (CopyMess s sp sm dp dm).
Proof. unfold CopyMess. keeps_by. Qed.
#[global] Instance keeps_BuildMess s d : Keeps R (BuildMess s d).
Proof. unfold BuildMess. keeps_by. Qed.

(** ** Scheduling *)

#[global] Instance keeps_bill rp :
  Keeps R (s ← priv_of rp; when (has (s_flags s) BILLABLE) (modify (λ k, with_next (next_ptr k) (Some rp) k));;
           mret true).
Proof.
  intros k a k' (s & k1 & [-> Hr]%priv_of_inv & E)%bind_ret_inv. unfold when in E.
  destruct (has _ _); [|by injection E as _ <-]. rewrite bind_modify in E. injection E as _ <-. by apply frame_bill.
Qed.
#[global] Instance keeps_pick_queues qs b : Keeps R (pick_queues qs b).
Proof.
  revert b. induction qs as [|q qs IH]; intros b; cbn [pick_queues]; [apply _|].
  apply keeps_bind; [apply _| |done]. unfold pick_step. destruct b; apply _.
Qed.
#[global] Instance keeps_pick_proc : Keeps R pick_proc.
Proof. unfold pick_proc. keeps_by. Qed.
#[global] Instance keeps_enqueue rp : Keeps R (enqueue rp).
Proof. unfold enqueue, sched, insert_ready. keeps_by. Qed.
#[global] Instance keeps_dequeue_step rp q x : Keeps R (dequeue_step rp q x).
Proof. unfold dequeue_step, set_ready_link. destruct x as [[]]; keeps_by. Qed.
#[global] Instance keeps_dequeue rp : Keeps R (dequeue rp).
Proof. unfold dequeue. keeps_by. Qed.
#[global] Instance keeps_lock_enqueue rp : Keeps R (lock_enqueue rp).
Proof. unfold lock_enqueue, lock, unlock. keeps_by. Qed.
#[global] Instance keeps_lock_dequeue rp : Keeps R (lock_dequeue rp).
Proof. unfold lock_dequeue, lock, unlock. keeps_by. Qed.

(** ** Messages *)

#[global] Instance keeps_set_caller_link o p v : Keeps R (set_caller_link o p v).
Proof. unfold set_caller_link. destruct p; keeps_by. Qed.
#[global] Instance keeps_caller_tail x : Keeps R (caller_tail_step x).
Proof. destruct x as [? []]; unfold caller_tail_step; keeps_by. Qed.
#[global] Instance keeps_deadlock c x : Keeps R (deadlock_step c x).
Proof. unfold deadlock_step. keeps_by. Qed.
#[global] Instance keeps_mini_send c d m g : Keeps R (mini_send c d m g).
Proof. unfold mini_send, unblock, block, queue_caller. keeps_by. Qed.
#[global] Instance keeps_mini_notify c d : Keeps R (mini_notify c d).
Proof. unfold mini_notify, unblock. keeps_by. Qed.
#[global] Instance keeps_lock_notify s d : Keeps R (lock_notify s d).
Proof. unfold lock_notify, lock, unlock. keeps_by. Qed.
#[global] Instance keeps_lock_send d m : Keeps R (lock_send d m).
Proof. unfold lock_send, lock, unlock. keeps_by. Qed.

(** ** Kernel calls *)

#[global] Instance keeps_do_fork n m : Keeps R (do_fork n m).
Proof. unfold do_fork. keeps_by. Qed.
#[global] Instance keeps_unqueue rc rs : Keeps R (unqueue rc rs).
Proof.
  induction rs as [|r rs IH]; cbn [unqueue]; [apply _|].
  assert (∀ x, Keeps R (unqueue_step rc r x)) by (intros [? []]; unfold unqueue_step; keeps_by).
  keeps_by.
Qed.
#[global] Instance keeps_leave_queues rc : Keeps R (leave_queues rc).
Proof. unfold leave_queues. keeps_by. Qed.
#[global] Instance keeps_release_slot rc : Keeps R (release_slot rc).
Proof. unfold release_slot. keeps_by. Qed.
#[global] Instance keeps_do_nice n q : Keeps R (do_nice n q).
Proof. unfold do_nice. keeps_by. Qed.
#[global] Instance keeps_send_sig n s : Keeps R (send_sig n s).
Proof. unfold send_sig. keeps_by. Qed.
#[global] Instance keeps_do_kill a n s : Keeps R (do_kill a n s).
Proof. unfold do_kill, cause_sig. keeps_by. Qed.
#[global] Instance keeps_do_getksig : Keeps R do_getksig.
Proof. unfold do_getksig. generalize (range NR_TASKS (Z.to_nat NR_PROCS)). intros rs.
  induction rs as [|r rs IH]; cbn [getksig_loop]; keeps_by. Qed.
#[global] Instance keeps_do_endksig n : Keeps R (do_endksig n).
Proof. unfold do_endksig. keeps_by. Qed.

(** ** Traps *)

#[global] Instance keeps_pending_loop c s m js : Keeps R (pending_loop c s m js).
Proof. induction js as [|j js IH]; cbn [pending_loop]; [apply _|]. unfold pending_step. keeps_by. Qed.
#[global] Instance keeps_receive_step c s m x : Keeps R (receive_step c s m x).
Proof. destruct x as [? []]; unfold receive_step, take_message, unblock; keeps_by. Qed.
#[global] Instance keeps_mini_receive c s m g : Keeps R (mini_receive c s m g).
Proof. unfold mini_receive, block. keeps_by. Qed.
#[global] Instance keeps_sys_call n s m : Keeps R (sys_call n s m).
Proof. unfold sys_call, check_dst, deny. keeps_by. Qed.
End kernel.

(** ** Devices *)

(** Code for devices keeps what does not look at them. *)
Class Aside (R : kst → kst → Prop) : Prop := {
  aside_irqs k x : R k (with_irqs x k);
  aside_clock k x : R k (with_clock x k);
  aside_random k x : R k (with_random x k) }.
#[global] Instance aside_proc_ptr : Aside (same proc_ptr).
Proof. by split. Qed.
#[global] Instance aside_bills : Aside bills.
Proof. by split. Qed.

Section aside.
Context (R : kst → kst → Prop) `{!Frame R} `{!Aside R}.

#[global] Instance keeps_on_irqs {A} (c : M irqs A) : Keeps R (on_irqs c).
Proof. intros k a k'. unfold on_irqs, zoom. destruct (c (k_irqs k)); try done. intros [= _ <-]. apply aside_irqs. Qed.
#[global] Instance keeps_on_random {A} (c : M (list random_bin) A) : Keeps R (on_random c).
Proof. intros k a k'. unfold on_random, zoom. destruct (c (k_random k)); try done. intros [= _ <-]. apply aside_random. Qed.
#[global] Instance keeps_reset_timer `{TimerLib} t : Keeps R (reset_timer t).
Proof. intros k a k' [= _ <-]. apply aside_clock. Qed.
#[global] Instance keeps_do_exit `{TimerLib} s n : Keeps R (do_exit s n).
Proof. unfold do_exit, clear_proc. keeps_by. Qed.
End aside.

#[global] Instance leaves_restart : Leaves devices restart.
Proof. unfold restart. intros k a k'. rewrite bind_get. by destruct (next_ptr k); intros [= _ <-]. Qed.
#[global] Instance bills_restart : Keeps bills restart.
Proof. unfold restart. intros k a k'. rewrite bind_get. by destruct (next_ptr k); intros [= _ <-]. Qed.
