(* ===== verification/KernelCallsSpec.v ===== *)
(** * What the kernel calls of the reference system do

    Each call of [KernelCalls] run from a state that satisfies the kernel
    invariant and keeps its signals in order. *)

From S2P Require Import Prelude Linked Ipc IpcQueues IpcInv IpcSpec KernelBoot KernelCalls.

(** ** Signals in order *)

(** A process is marked as signaled exactly when it has signals that PM was not
    told about, and it cannot run until PM has dealt with them. *)
Definition signals_fit (p : proc) : Prop :=
  p_rts_flags p ≠ SLOT_FREE →
  has (p_rts_flags p) SIGNALED = negb (p_pending p =? 0) ∧
  (has (p_rts_flags p) SIGNALED = true → has (p_rts_flags p) SIG_PENDING = true).

Definition signals_ok (ps : list proc) : Prop := ∀ i p, zget ps i = Some p → signals_fit p.

Definition korder (k : kst) : Prop := kinv k ∧ signals_ok (procs k).

Lemma signals_fit_ext p p' :
  p_rts_flags p' = p_rts_flags p → p_pending p' = p_pending p → signals_fit p → signals_fit p'.
Proof. unfold signals_fit. by intros -> ->. Qed.

Lemma signals_views ps ps' :
  (∀ i, view p_rts_flags ps' i = view p_rts_flags ps i) →
  (∀ i, view p_pending ps' i = view p_pending ps i) → signals_ok ps → signals_ok ps'.
Proof.
  intros Hf Hp Hs i p' Hz. specialize (Hf i). specialize (Hp i).
  rewrite (view_get p_rts_flags _ _ _ Hz) in Hf. rewrite (view_get p_pending _ _ _ Hz) in Hp. symmetry in Hf. apply view_Some in Hf as (p & Hzp & Hf).
  rewrite (view_get _ _ _ _ Hzp) in Hp. injection Hp as Hp.
  by eapply signals_fit_ext; [..|by apply (Hs i p)].
Qed.

Lemma signals_keeps ps ps' : keeps ps ps' → signals_ok ps → signals_ok ps'.
Proof.
  intros Hk. apply signals_views; intros i; (apply keeps_view; [|done]); unfold core; congruence.
Qed.

Lemma signals_upd ps i p' :
  0 ≤ i < zlen ps → signals_fit p' → signals_ok ps → signals_ok (upd ps i p').
Proof.
  intros Hi Hp Hs j p. rewrite zget_upd by done.
  destruct (Z.eqb_spec i j); [by intros [= <-]|apply Hs].
Qed.

Lemma held_views ps ps' i :
  view held ps' i = view held ps i →
  view p_priv ps' i = view p_priv ps i ∧ view p_pending ps' i = view p_pending ps i.
Proof.
  unfold view. destruct (zget ps' i), (zget ps i); simpl; try done. intros [=]. split; congruence.
Qed.

(** Traps and notifications have nothing to do with signals. *)
Lemma spared_slot c k k' i p' :
  spares c k k' → zget (procs k') i = Some p' →
  ∃ p, zget (procs k) i = Some p ∧ p_priv p' = p_priv p ∧ p_pending p' = p_pending p ∧
    fits (p_rts_flags p) (p_rts_flags p').
Proof.
  intros (_ & Hh & Hf & _) Hz. specialize (Hh i). rewrite (view_get held _ _ _ Hz) in Hh.
  symmetry in Hh. apply view_Some in Hh as (p & Hp & [=]).
  destruct (Hf i _ (view_get p_rts_flags _ _ _ Hz)) as (f & Hff & Hfit).
  rewrite (view_get p_rts_flags _ _ _ Hp) in Hff. injection Hff as <-. by exists p.
Qed.

Lemma signals_spared c k k' : spares c k k' → signals_ok (procs k) → signals_ok (procs k').
Proof.
  intros Hsp Hs i p' Hz. destruct (spared_slot _ _ _ _ _ Hsp Hz) as (p & Hp & _ & Hpd & Hfr & _ & H4 & H5).
  pose proof (Hs i p Hp) as Hfit. unfold signals_fit in *. rewrite Hpd, H4, H5. auto.
Qed.

(** ** Changes to one process *)

(** The part of the invariant that a change of other fields cannot break. *)
Definition same_place (p p' : proc) : Prop :=
  p_nr p' = p_nr p ∧ p_caller_q p' = p_caller_q p ∧ p_q_link p' = p_q_link p ∧ dest p' = dest p.

Lemma ipc_same_place ps i p p' :
  zget ps i = Some p → same_place p p' → ipc_ok ps → ipc_ok (upd ps i p').
Proof. intros Hz (? & ? & ? & ?). by eapply ipc_upd. Qed.

(** What the privileges of a process have to be. *)
Definition privileged_as (ss : list priv) (p : proc) : Prop :=
  p_rts_flags p ≠ SLOT_FREE → ∃ s, zget ss (p_priv p) = Some s ∧
    (iskerneln (p_nr p) = true → has (p_rts_flags p) NO_MAP = false → s_stack_guard s = STACK_GUARD).

Lemma blocked_not_runnable ps i p : zget ps i = Some p → p_rts_flags p ≠ 0 → ¬ runnable ps i.
Proof. intros Hz Hf Hr. apply Hf. by eapply runnable_flags. Qed.

(** A process that cannot run changes and still cannot run. *)
Lemma sched_upd_blocked k rp p p' :
  sched_ok k → zget (procs k) rp = Some p → p_rts_flags p ≠ 0 → p_rts_flags p' ≠ 0 →
  in_q (p_priority p') → in_q (p_max_priority p') → privileged_as (privs k) p' →
  sched_ok (with_procs (upd (procs k) rp p') k).
Proof.
  intros [Hl Hpo Hq Hpr (Q & Hr & Hn)] Hz Hf Hf' Ha Hb Hp.
  pose proof (zget_Some_range _ _ _ Hz) as Hrg.
  assert (∀ A (f : proc → A) i, i ≠ rp → view f (upd (procs k) rp p') i = view f (procs k) i) as Hv.
  { intros A f i Hne. rewrite view_upd by done. by destruct (Z.eqb_spec rp i). }
  assert (¬ runnable (procs k) rp) as Hno by (by eapply blocked_not_runnable).
  assert (¬ runnable (upd (procs k) rp p') rp) as Hno'
    by (eapply blocked_not_runnable; [by apply zget_upd_eq|done]).
  split; cbn; try done.
  - by rewrite zlen_upd.
  - by apply prio_ok_upd.
  - intros j q. rewrite zget_upd by done. destruct (Z.eqb_spec rp j) as [<-|]; [|apply Hpr].
    intros [= <-]. apply Hp.
  - exists Q. split; [|done]. eapply ready_mono; [..|exact Hr]; intros i.
    + intros Hi. apply Hv. by intros ->.
    + intros Hi. apply Hv. by intros ->.
    + destruct (Z.eq_dec i rp) as [->|Hne]; [tauto|]. unfold runnable. by rewrite Hv.
Qed.

Lemma kinv_upd_blocked k rp p p' :
  kinv k → zget (procs k) rp = Some p → p_rts_flags p ≠ 0 → p_rts_flags p' ≠ 0 →
  in_q (p_priority p') → in_q (p_max_priority p') → privileged_as (privs k) p' →
  ipc_ok (upd (procs k) rp p') → kinv (with_procs (upd (procs k) rp p') k).
Proof. intros [Hs Hi Hp] Hz ? ? ? ? ? ?. split; [by eapply sched_upd_blocked|done|done]. Qed.

(** Fields that neither scheduling nor messages use. *)
Lemma kinv_upd_field k i p p' :
  kinv k → zget (procs k) i = Some p → p_rts_flags p' = p_rts_flags p → p_priv p' = p_priv p →
  p_priority p' = p_priority p → p_max_priority p' = p_max_priority p → p_nextready p' = p_nextready p →
  same_place p p' → kinv (with_procs (upd (procs k) i p') k).
Proof.
  intros [Hs Hi Hp] Hz ? ? ? ? ? Hsp. split; [|by eapply ipc_same_place|done].
  by eapply sched_upd; [..|apply Hsp| | | | |].
Qed.

(** ** Priorities *)

Lemma nice_queue_range pri : MAX_USER_Q ≤ nice_queue pri ≤ MIN_USER_Q.
Proof.
  unfold nice_queue, MAX_USER_Q, MIN_USER_Q. set (q := 0 + _). clearbody q.
  destruct (Z.ltb_spec q 0), (Z.ltb_spec 14 q); repeat case_match; lia.
Qed.

Lemma nice_queue_mono pri pri' : pri ≤ pri' → nice_queue pri ≤ nice_queue pri'.
Proof.
  intros Hle. unfold nice_queue, MAX_USER_Q, MIN_USER_Q, PRIO_MIN, PRIO_MAX.
  assert (Z.quot ((pri - -20) * (14 - 0 + 1)) (20 - -20 + 1) ≤
          Z.quot ((pri' - -20) * (14 - 0 + 1)) (20 - -20 + 1)) as Hq by (apply Z.quot_le_mono; lia).
  set (q := Z.quot _ _) in *. set (q' := Z.quot ((pri' - -20) * _) _) in *. clearbody q q'.
  destruct (Z.ltb_spec (0 + q) 0), (Z.ltb_spec (0 + q') 0); repeat case_match; lia.
Qed.

Lemma isokprocn_user n : 0 ≤ n < NR_PROCS → isokprocn n = true.
Proof. unfold isokprocn, u32, NR_TASKS, NR_PROCS. intros Hn. rewrite Z.mod_small by lia. apply Z.ltb_lt. lia. Qed.

Lemma slot_of k n :
  kinv k → - 2 ^ 31 ≤ n < 2 ^ 31 → isokprocn n = true →
  ∃ p, zget (procs k) (proc_addr n) = Some p ∧ p_nr p = n.
Proof.
  intros Hk Hn Hok. pose proof (isokprocn_range n Hn Hok) as Hr.
  destruct (slot_in k n (so_np _ (ki_sched _ Hk)) Hr) as [p Hp]. exists p. split; [done|].
  destruct (io_nr _ (ki_ipc _ Hk)) as [_ Hnr]. rewrite (Hnr _ _ Hp). unfold proc_addr. lia.
Qed.

Lemma do_nice_run k n pri :
  korder k → - 2 ^ 31 ≤ n < 2 ^ 31 →
  ∃ r k', do_nice n pri k = Ret r k' ∧ korder k' ∧
    (r = OK → view p_max_priority (procs k') (proc_addr n) = Some (nice_queue pri)) ∧
    (∀ i, view p_rts_flags (procs k') i = view p_rts_flags (procs k) i) ∧
    (∀ i, view p_priv (procs k') i = view p_priv (procs k) i) ∧ privs k' = privs k ∧ (r ≠ OK → k' = k).
Proof.
  intros [Hk Hsig] Hn. unfold do_nice.
  destruct (isokprocn n) eqn:Hok; [|by exists EINVAL, k]. cbn [negb].
  destruct (iskerneln n) eqn:Hkn; [by exists EPERM, k|].
  destruct (_ || _); [by exists EINVAL, k|].
  destruct (slot_of k n Hk Hn Hok) as (p & Hz & Hnr). set (rp := proc_addr n) in *.
  destruct (lock_dequeue_run k rp p Hk Hz) as (k1 & E1 & Ho1 & Hkp1 & Hp1 & _); [by rewrite Hnr, Hkn|].
  step E1. destruct (keeps_get _ _ _ _ Hkp1 Hz) as (p1 & Hz1 & Hc1).
  rewrite (bind_ret _ _ _ _ _ (upd_proc_run _ _ _ _ Hz1)).
  pose proof (nice_queue_range pri) as Hq. set (q := nice_queue pri) in *. clearbody q.
  set (k2 := with_procs _ k1).
  assert (zget (procs k2) rp = Some (set_queue q p1)) as Hz2
    by (apply zget_upd_eq; by eapply zget_Some_range).
  assert (in_q q) as Hin by (unfold in_q, NR_SCHED_QUEUES, MAX_USER_Q, MIN_USER_Q in *; lia).
  assert (kinv_off rp k2) as Ho2.
  { eapply off_upd; [done|exact Hz1|done..| |].
    - exact (ko_priv _ _ Ho1 _ _ Hz1).
    - by eapply ipc_same_place; [exact Hz1| |apply Ho1]. }
  assert (signals_ok (procs k2)) as Hs2.
  { apply signals_upd; [by eapply zget_Some_range| |by eapply signals_keeps].
    exact (signals_keeps _ _ Hkp1 Hsig _ _ Hz1). }
  step (rd_proc_run _ _ _ Hz2). cbn [set_queue p_rts_flags].
  assert (∀ i, view p_rts_flags (procs k2) i = view p_rts_flags (procs k) i) as Hf2.
  { intros i. unfold k2. cbn. rewrite (view_same p_rts_flags _ _ _ _ _ Hz1) by done.
    by apply keeps_view; [apply flags_core|]. }
  assert (∀ i, view p_priv (procs k2) i = view p_priv (procs k) i) as Hv2.
  { intros i. unfold k2. cbn. rewrite (view_same p_priv _ _ _ _ _ Hz1) by done.
    by apply keeps_view; [apply priv_core|]. }
  destruct (Z.eqb_spec (p_rts_flags p1) 0) as [Hf|Hf]; unfold when.
  - destruct (lock_enqueue_run k2 rp _ Ho2 Hz2 Hf) as (k3 & E3 & Hk3 & Hkp3 & Hp3 & _). step E3.
    exists OK, k3. split; [done|]. split; [split; [done|by eapply signals_keeps]|].
    split; [|split_and!; [..|by rewrite Hp3, <- Hp1|done]].
    + intros _. rewrite (keeps_view p_max_priority (procs k2)); [|unfold core; congruence|done].
      by rewrite (view_get _ _ _ _ Hz2).
    + intros i. rewrite <- Hf2. by apply keeps_view; [apply flags_core|].
    + intros i. rewrite <- Hv2. by apply keeps_view; [apply priv_core|].
  - steps. exists OK, k2. split; [done|]. split.
    { split; [|done]. eapply kinv_back; [exact Ho2|]. by eapply blocked_not_runnable. }
    split; [|done]. intros _. by rewrite (view_get _ _ _ _ Hz2).
Qed.

(** ** Signals *)

Lemma known_spared c k k' n : spares c k k' → known k n → known k' n.
Proof.
  intros ([Hl _] & Hh & _) (p & s & Hp & Hs).
  specialize (Hh (proc_addr n)). rewrite (view_get held _ _ _ Hp) in Hh.
  apply view_Some in Hh as (p' & Hp' & [= E _]).
  destruct (zget_in (privs k') (p_priv p')) as [s' Hs']; [|by exists p', s'].
  rewrite Hl, E. by eapply zget_Some_range.
Qed.

Lemma known_same k k' n :
  privs k' = privs k → (∀ i, view p_priv (procs k') i = view p_priv (procs k) i) → known k n → known k' n.
Proof.
  intros Hp Hv (p & s & Hz & Hs). specialize (Hv (proc_addr n)). rewrite (view_get _ _ _ _ Hz) in Hv.
  apply view_Some in Hv as (p' & Hz' & E). exists p', s. split; [done|]. by rewrite E, Hp.
Qed.

Lemma known_like k k' m :
  privs_like (privs k) (privs k') → (∀ i, view p_priv (procs k') i = view p_priv (procs k) i) →
  known k m → known k' m.
Proof.
  intros [Hl _] Hv (p & s & Hz & Hs). specialize (Hv (proc_addr m)).
  rewrite (view_get _ _ _ _ Hz) in Hv. apply view_Some in Hv as (p' & Hz' & E).
  destruct (zget_in (privs k') (p_priv p')) as [s' Hs']; [|by exists p', s'].
  rewrite Hl, E. by eapply zget_Some_range.
Qed.

(** A system process is told about a signal. *)
Lemma send_sig_run k n sig :
  korder k → known k SYSTEM → known k n →
  ∃ k', send_sig n sig k = Ret tt k' ∧ korder k' ∧ ∀ c, spares c k k'.
Proof.
  intros [Hk Hsig] HS Hn. pose proof Hn as (p & s & Hz & Hs). unfold send_sig.
  rewrite (bind_ret _ _ _ _ _ (upd_priv_of_run _ _ _ _ _ Hz Hs)).
  set (ss := upd _ _ _).
  assert (privs_like (privs k) ss) as Hl by (by eapply privs_like_upd).
  assert (kinv (with_privs ss k)) as Hk1.
  { pose proof (kinv_aside k (memory k) ss Hk Hl). by destruct k. }
  assert (∀ c, spares c k (with_privs ss k)) as Hsp by (intros; by apply spares_same).
  destruct (lock_notify_run (with_privs ss k) SYSTEM n) as (k' & E & Hk' & Hsp');
    [done|by eapply (known_spared (-1))..|].
  step E. exists k'. split; [done|].
  assert (∀ c, spares c k k') as Hsp2 by (intros c; by eapply spares_trans).
  split; [|done]. split; [done|]. by eapply (signals_spared (-1)).
Qed.

(** A signal that PM still has to hear of stops the process. *)
Definition signaled (k : kst) (rp sig : Z) : Prop :=
  ∃ p, zget (procs k) rp = Some p ∧ sigismember (p_pending p) sig = 1 ∧
    has (p_rts_flags p) SIGNALED = true ∧ has (p_rts_flags p) SIG_PENDING = true.

Lemma sigismember_0 set sig : sigismember set sig = 0 → is_signal sig = true ∧ Z.testbit set sig = false.
Proof. unfold sigismember. by destruct (is_signal sig), (Z.testbit set sig). Qed.

Lemma sigismember_1 set sig : sigismember set sig = 1 ↔ is_signal sig = true ∧ Z.testbit set sig = true.
Proof. unfold sigismember. destruct (is_signal sig), (Z.testbit set sig); naive_solver. Qed.

Lemma sigaddset_member set sig : is_signal sig = true → sigismember (sigaddset set sig) sig = 1.
Proof.
  intros H. apply sigismember_1. split; [done|]. unfold sigaddset. rewrite H.
  unfold is_signal in H. apply andb_true_iff in H as [?%Z.leb_le _].
  by rewrite Z.lor_spec, Z.shiftl_1_l, Z.pow2_bits_true, orb_true_r.
Qed.

Lemma member_nonzero set sig : sigismember set sig = 1 → set ≠ 0.
Proof. intros [_ H]%sigismember_1 ->. by rewrite Z.bits_0 in H. Qed.

(** The pending signals and the flags decide whether the process is signaled. *)
Lemma fit_signaled k rp p sig :
  zget (procs k) rp = Some p → p_rts_flags p ≠ SLOT_FREE → signals_fit p →
  sigismember (p_pending p) sig = 1 → signaled k rp sig.
Proof.
  intros Hz Hne Hfit Hm. destruct (Hfit Hne) as [Hs Hp]. exists p.
  assert (has (p_rts_flags p) SIGNALED = true) as Hs'.
  { rewrite Hs. apply negb_true_iff, Z.eqb_neq. by eapply member_nonzero. }
  split_and!; auto.
Qed.

(** Flags after [p_rts_flags |= SIGNALED | SIG_PENDING]. *)
Lemma or_signaled_bits f n :
  Z.testbit (Z.lor f (Z.lor SIGNALED SIG_PENDING)) n = Z.testbit f n || (n =? 4) || (n =? 5).
Proof.
  rewrite !Z.lor_spec. change SIGNALED with (2 ^ 4). change SIG_PENDING with (2 ^ 5).
  rewrite !Z.pow2_bits_eqb by lia. rewrite !(Z.eqb_sym n). apply orb_assoc.
Qed.

Lemma or_signaled_has f :
  let f' := Z.lor f (Z.lor SIGNALED SIG_PENDING) in
  f' ≠ 0 ∧ has f' SIGNALED = true ∧ has f' SIG_PENDING = true ∧ has f' NO_MAP = has f NO_MAP ∧
  has f' SENDING = has f SENDING.
Proof.
  cbv zeta. rewrite has_signaled, has_sig_pending, !has_no_map, !has_sending, !or_signaled_bits.
  rewrite !orb_false_r, !orb_true_r. split; [|done]. intros E. pose proof (or_signaled_bits f 4) as Hb.
  by rewrite E, Z.bits_0, orb_true_r in Hb.
Qed.

(** A process is taken off its queue when it is on one. *)
Lemma leave_ready k rp p :
  kinv k → zget (procs k) rp = Some p →
  ∃ k1 p1, when (p_rts_flags p =? 0) (lock_dequeue rp) k = Ret tt k1 ∧ kinv_off rp k1 ∧
    aside k k1 ∧ zget (procs k1) rp = Some p1 ∧ core p1 = core p.
Proof.
  intros Hk Hz. destruct (Z.eqb_spec (p_rts_flags p) 0) as [Hf|Hf]; unfold when.
  - destruct (lock_dequeue_run k rp p Hk Hz (λ _, Hf)) as (k1 & E1 & Ho & Ha).
    destruct (keeps_get _ _ _ _ (proj1 Ha) Hz) as (p1 & Hz1 & Hc1). by exists k1, p1.
  - exists k, p. split; [done|]. split; [|done].
    apply kinv_out; [done|by eapply blocked_not_runnable].
Qed.

(** The process is stopped until PM has dealt with its signals. *)
Lemma mark_signaled_run k rp p :
  kinv k → (∀ i q, i ≠ rp → zget (procs k) i = Some q → signals_fit q) →
  zget (procs k) rp = Some p → p_rts_flags p ≠ SLOT_FREE → p_pending p ≠ 0 →
  ∃ k', (when (p_rts_flags p =? 0) (lock_dequeue rp);;
         upd_proc rp (or_rts (Z.lor SIGNALED SIG_PENDING))) k = Ret tt k' ∧ korder k' ∧
    privs k' = privs k ∧ (∀ i, view p_priv (procs k') i = view p_priv (procs k) i) ∧
    (∀ i, view p_pending (procs k') i = view p_pending (procs k) i) ∧
    ∀ i, view p_rts_flags (procs k') i = if i =? rp
      then Some (Z.lor (p_rts_flags p) (Z.lor SIGNALED SIG_PENDING)) else view p_rts_flags (procs k) i.
Proof.
  intros Hk Hoth Hz Hfr Hpd.
  destruct (leave_ready k rp p Hk Hz) as (k1 & p1 & E1 & Ho1 & (Hkp1 & Hp1 & _) & Hz1 & Hc1).
  step E1. rewrite (upd_proc_run rp p1) by done. eexists. split; [done|].
  assert (p_rts_flags p1 = p_rts_flags p) as Hf1 by (by apply flags_core).
  assert (p_pending p1 = p_pending p) as Hpp1 by (unfold core in Hc1; congruence).
  pose proof (zget_Some_range _ _ _ Hz1) as Hr1.
  set (p2 := or_rts _ p1). set (fl := Z.lor (p_rts_flags p) (Z.lor SIGNALED SIG_PENDING)).
  assert (p_rts_flags p2 = fl) as Hf2 by (unfold p2, fl; cbn; by rewrite Hf1).
  destruct (or_signaled_has (p_rts_flags p)) as (Hfl & Hb4 & Hb5 & Hb1 & Hb2). fold fl in Hfl, Hb4, Hb5, Hb1, Hb2.
  split.
  - split.
    + eapply (kinv_back _ rp).
      * pose proof (ko_prio _ _ Ho1 _ _ Hz1) as [? ?]. eapply off_upd; [done|exact Hz1|done..| |].
        -- rewrite Hf2, Hb1, <- Hf1. intros _. apply (ko_priv _ _ Ho1 _ _ Hz1). by rewrite Hf1.
        -- eapply ipc_same_place; [exact Hz1| |apply Ho1]. split_and!; try done.
           unfold dest. rewrite Hf2, Hb2, Hf1. done.
      * eapply blocked_not_runnable; [by apply zget_upd_eq|]. by rewrite Hf2.
    + intros i q. cbn. rewrite zget_upd by done. destruct (Z.eqb_spec rp i) as [<-|Hi].
      * intros [= <-] _. rewrite Hf2, Hb4, Hb5. split; [|done]. symmetry.
        apply negb_true_iff, Z.eqb_neq. cbn. by rewrite Hpp1.
      * intros Hq. destruct Hkp1 as [_ Hv]. specialize (Hv i). rewrite (view_get core _ _ _ Hq) in Hv.
        symmetry in Hv. apply view_Some in Hv as (q0 & Hq0 & Hcq). unfold core in Hcq.
        eapply signals_fit_ext; [..|by apply (Hoth i q0)]; congruence.
  - split; [done|]. cbn. split_and!; intros i.
    + rewrite (view_same p_priv _ _ _ _ _ Hz1) by done. by apply keeps_view; [apply priv_core|].
    + rewrite (view_same p_pending _ _ _ _ _ Hz1) by done.
      apply keeps_view; [unfold core; congruence|done].
    + rewrite view_upd by done. rewrite Hf2, Z.eqb_sym. destruct (i =? rp); [done|].
      by apply keeps_view; [apply flags_core|].
Qed.

Lemma signaled_spared c k k' rp sig : spares c k k' → signaled k rp sig → signaled k' rp sig.
Proof.
  intros Hsp (p & Hz & Hm & H4 & H5).
  assert (is_Some (zget (procs k') rp)) as [p' Hz'].
  { destruct Hsp as (_ & Hh & _). by rewrite <- (view_is_Some held), Hh, (view_is_Some held). }
  destruct (spared_slot _ _ _ _ _ Hsp Hz') as (p0 & Hz0 & _ & Hpd & _ & _ & E4 & E5).
  assert (p0 = p) as -> by congruence. exists p'. by rewrite Hpd, E4, E5.
Qed.

(** The signals of other processes are as before. *)
Definition others_fit (rp : Z) (k k' : kst) : Prop :=
  ∀ i f', i ≠ rp → view p_rts_flags (procs k') i = Some f' →
    ∃ f, view p_rts_flags (procs k) i = Some f ∧ fits f f'.

Lemma others_fit_flags rp k k' :
  (∀ i, i ≠ rp → view p_rts_flags (procs k') i = view p_rts_flags (procs k) i) → others_fit rp k k'.
Proof. intros Hf i f' Hi. rewrite Hf by done. intros H. by exists f'. Qed.

(** A signal for a process is recorded, and PM is told when it did not know of
    any: the process is stopped. *)
Lemma cause_sig_run k n sig p :
  korder k → known k SYSTEM → known k PM_PROC_NR →
  zget (procs k) (proc_addr n) = Some p → p_rts_flags p ≠ SLOT_FREE →
  ∃ k', cause_sig n sig k = Ret tt k' ∧ korder k' ∧
    (is_signal sig = true → signaled k' (proc_addr n) sig) ∧
    privs_like (privs k) (privs k') ∧ (∀ i, view p_priv (procs k') i = view p_priv (procs k) i) ∧
    (∀ i, i ≠ proc_addr n → runnable (procs k) i → runnable (procs k') i) ∧
    others_fit (proc_addr n) k k'.
Proof.
  intros [Hk Hsig] HS HP Hz Hfr. set (rp := proc_addr n) in *. unfold cause_sig. fold rp.
  step (rd_proc_run _ _ _ Hz).
  destruct (Z.eqb_spec (sigismember (p_pending p) sig) 0) as [Hm|Hm]; cbn [negb].
  2:{ exists k. split; [done|]. split; [done|]. split; [|by split_and!; [..|apply others_fit_flags]]. intros His.
      eapply fit_signaled; [exact Hz|done|by apply (Hsig rp)|].
      apply sigismember_1. split; [done|]. unfold sigismember in Hm. rewrite His in Hm.
      by destruct (Z.testbit _ _). }
  apply sigismember_0 in Hm as [His Hnb].
  rewrite (bind_ret _ _ _ _ _ (upd_proc_run _ _ _ _ Hz)).
  set (p1 := set_signals _ p). set (k1 := with_procs _ k).
  pose proof (sigaddset_member (p_pending p) sig His) as Hadd.
  pose proof (member_nonzero _ _ Hadd) as Hnz.
  pose proof (zget_Some_range _ _ _ Hz) as Hr.
  assert (kinv k1) as Hk1 by (by eapply kinv_upd_field).
  assert (zget (procs k1) rp = Some p1) as Hz1 by (by apply zget_upd_eq).
  assert (∀ i, view p_priv (procs k1) i = view p_priv (procs k) i) as Hpv1
    by (intros; by eapply view_same).
  assert (∀ i, view p_rts_flags (procs k1) i = view p_rts_flags (procs k) i) as Hfv1
    by (intros; by eapply view_same).
  destruct (has (p_rts_flags p) SIGNALED) eqn:Es.
  - assert (signals_fit p1) as Hfit.
    { intros _. cbn. destruct (Hsig rp p Hz Hfr) as [_ H5]. split; [|done]. rewrite Es. symmetry.
      by apply negb_true_iff, Z.eqb_neq. }
    exists k1. split; [done|]. split; [split; [done|by apply signals_upd]|].
    split; [intros _; by eapply fit_signaled|].
    do 2 (split; [done|]). split; [intros i _; unfold runnable; by rewrite Hfv1|by apply others_fit_flags].
  - destruct (mark_signaled_run k1 rp p1) as (k2 & E2 & [Hk2 Hs2] & Hp2 & Hpv2 & Hpd2 & Hf2); try done.
    { intros i q Hi. cbn. rewrite zget_upd by done. destruct (Z.eqb_spec rp i); [done|]. apply Hsig. }
    change (p_rts_flags p1) with (p_rts_flags p) in E2. rewrite <- bind_assoc. step E2.
    assert (∀ m, known k m → known k2 m) as Hkn
      by (intros m; apply known_same; [done|intros i; by rewrite Hpv2]).
    destruct (send_sig_run k2 PM_PROC_NR SIGKSIG) as (k3 & E3 & Hk3 & Hsp); [done|by apply Hkn..|].
    rewrite E3. exists k3. split; [done|]. split; [done|]. split; [|split; [|split; [|split]]].
    + intros _. eapply signaled_spared; [exact (Hsp rp)|].
      pose proof (Hpd2 rp) as Hv. rewrite (view_get _ _ _ _ Hz1) in Hv.
      apply view_Some in Hv as (p2 & Hz2 & Epd).
      specialize (Hf2 rp). rewrite (view_get _ _ _ _ Hz2), Z.eqb_refl in Hf2. injection Hf2 as Ef.
      eapply fit_signaled; [exact Hz2| |by apply (Hs2 rp)|by rewrite Epd].
      intros E. rewrite E in Ef. apply (f_equal (λ x, Z.testbit x 4)) in Ef.
      rewrite or_signaled_bits, orb_true_r in Ef. done.
    + destruct (Hsp rp) as [Hl _]. rewrite Hp2 in Hl. exact Hl.
    + intros i. destruct (Hsp rp) as (_ & Hh & _). rewrite <- Hpv1, <- Hpv2. by apply held_views.
    + intros i Hi Hri. apply (Hsp rp); [done|]. unfold runnable. rewrite Hf2.
      destruct (Z.eqb_spec i rp); [done|]. by rewrite Hfv1.
    + intros i f' Hi Hf'. destruct (Hsp rp) as (_ & _ & Hfit & _). destruct (Hfit i f' Hf') as (f & Hf & ?).
      exists f. rewrite Hf2, Hfv1 in Hf. by destruct (Z.eqb_spec i rp).
Qed.

(** What a request to signal a process leads to. PM signals system processes,
    the others ask PM to. *)
Lemma do_kill_run k src n sig p :
  korder k → known k SYSTEM → known k PM_PROC_NR → - 2 ^ 31 ≤ n < 2 ^ 31 →
  zget (procs k) (proc_addr n) = Some p → p_rts_flags p ≠ SLOT_FREE →
  ∃ r k', do_kill src n sig k = Ret r k' ∧ korder k' ∧ privs_like (privs k) (privs k') ∧
    (∀ i, view p_priv (procs k') i = view p_priv (procs k) i) ∧
    (∀ i, i ≠ proc_addr n → runnable (procs k) i → runnable (procs k') i) ∧ (r ≠ OK → k' = k) ∧
    others_fit (proc_addr n) k k' ∧
    (r = OK ↔ 0 ≤ n ∧ isokprocn n = true ∧ sig ≤ NSIG ∧
       (src = PM_PROC_NR → ∃ s, zget (privs k) (p_priv p) = Some s ∧ has (s_flags s) SYS_PROC = true)) ∧
    (r = OK → src ≠ PM_PROC_NR → 0 ≤ sig → signaled k' (proc_addr n) sig).
Proof.
  intros Hk HS HP Hn Hz Hfr. unfold do_kill, iskerneln.
  assert (others_fit (proc_addr n) k k) as Hof by (by apply others_fit_flags).
  destruct (isokprocn n); [|exists EINVAL, k; naive_solver].
  destruct (Z.ltb_spec NSIG sig) as [Hns|Hns]; [exists EINVAL, k; naive_solver lia|].
  destruct (Z.ltb_spec n 0) as [Hkn|Hkn]; [exists EPERM, k; naive_solver lia|].
  destruct (so_priv _ (ki_sched _ (proj1 Hk)) _ _ Hz Hfr) as (s & Hs & _). cbn [negb orb].
  destruct (Z.eqb_spec src PM_PROC_NR) as [->|Hsrc].
  - step (priv_of_run _ _ _ _ Hz Hs).
    destruct (has (s_flags s) SYS_PROC) eqn:Esys; cbn [negb]; [|exists EPERM, k; naive_solver congruence].
    destruct (send_sig_run k n sig Hk HS) as (k' & E & Hk' & Hsp); [by exists p, s|].
    step E. exists OK, k'. destruct (Hsp (proc_addr n)) as (Hl & Hh & Hfit & Hru).
    split_and!; try done; [intros i; by apply held_views|intros i f' _; apply Hfit|naive_solver].
  - destruct (cause_sig_run k n sig p Hk HS HP Hz Hfr) as (k' & E & Hk' & Hsg & Hl & Hv & Hru & Hoth).
    step E. exists OK, k'. split_and!; try done. intros _ _ Hpos. apply Hsg.
    unfold is_signal. by rewrite (proj2 (Z.leb_le _ _) Hpos), (proj2 (Z.leb_le _ _) Hns).
Qed.

Lemma clear_bit f n j : 0 ≤ n → Z.testbit (Z.ldiff f (2 ^ n)) j = Z.testbit f j && negb (n =? j).
Proof. intros Hn. by rewrite Z.ldiff_spec, Z.pow2_bits_eqb. Qed.

(** Two changes in a row to the same process. *)
Lemma upd_proc_again i p g k :
  0 ≤ i < zlen (procs k) →
  upd_proc i g (with_procs (upd (procs k) i p) k) = Ret tt (with_procs (upd (procs k) i (g p)) k).
Proof.
  intros Hi. rewrite (upd_proc_run i p) by (by apply zget_upd_eq). cbn.
  unfold upd. by rewrite list_insert_insert_eq.
Qed.

Lemma clear_signaled_has p :
  let f := p_rts_flags (clear_rts SIGNALED (set_signals 0 p)) in
  has f SIGNALED = false ∧ has f SIG_PENDING = has (p_rts_flags p) SIG_PENDING ∧
  has f SENDING = has (p_rts_flags p) SENDING.
Proof.
  cbv zeta. change (p_rts_flags (clear_rts SIGNALED (set_signals 0 p))) with (Z.ldiff (p_rts_flags p) (2 ^ 4)).
  rewrite has_signaled, !has_sig_pending, !has_sending, !clear_bit by done.
  cbn [Z.eqb Pos.eqb negb]. by rewrite andb_false_r, !andb_true_r.
Qed.

(** The signals of a process are handed to PM. *)
Lemma clear_signaled_run k i p :
  korder k → zget (procs k) i = Some p → has (p_rts_flags p) SIGNALED = true →
  korder (with_procs (upd (procs k) i (clear_rts SIGNALED (set_signals 0 p))) k).
Proof.
  intros [Hk Hsig] Hz Es. pose proof (zget_Some_range _ _ _ Hz) as Hr.
  assert (p_rts_flags p ≠ SLOT_FREE) as Hfr by (intros E; by rewrite E in Es).
  destruct (Hsig _ _ Hz Hfr) as [_ H5]. specialize (H5 Es). set (p' := clear_rts _ _).
  assert (∀ j, j ≠ 4 → Z.testbit (p_rts_flags p') j = Z.testbit (p_rts_flags p) j) as Hb.
  { intros j Hj. change (p_rts_flags p') with (Z.ldiff (p_rts_flags p) (2 ^ 4)).
    rewrite clear_bit by done. destruct (Z.eqb_spec 4 j); [by subst|]. apply andb_true_r. }
  assert (has (p_rts_flags p') SIGNALED = false) as H4
    by (change (p_rts_flags p') with (Z.ldiff (p_rts_flags p) (2 ^ 4));
        by rewrite has_signaled, clear_bit, andb_false_r).
  destruct (so_prio _ (ki_sched _ Hk) _ _ Hz). split.
  - eapply kinv_upd_blocked; try done.
    + intros E. by rewrite E in Es.
    + intros E. rewrite has_sig_pending, <- Hb, E in H5 by done. done.
    + intros _. rewrite has_no_map, Hb, <- has_no_map by done. by apply (so_priv _ (ki_sched _ Hk) _ _ Hz).
    + eapply ipc_same_place; [exact Hz| |apply Hk]. split_and!; try done. unfold dest.
      by rewrite has_sending, Hb, <- has_sending.
  - apply signals_upd; [done| |done]. intros _. by rewrite H4.
Qed.

(** PM asks for a process that was signaled: the first one, with all its
    signals, which are PM's from then on. *)
Lemma getksig_run k lo m :
  korder k → 0 ≤ lo → lo + Z.of_nat m = NR_TASKS + NR_PROCS →
  let o := getksig_loop (range lo m) k in
  (o = Ret (NONE, None) k ∧
     ∀ i p, lo ≤ i → zget (procs k) i = Some p → has (p_rts_flags p) SIGNALED = false) ∨
  ∃ i p, lo ≤ i ∧ zget (procs k) i = Some p ∧ has (p_rts_flags p) SIGNALED = true ∧
    let k' := with_procs (upd (procs k) i (clear_rts SIGNALED (set_signals 0 p))) k in
    o = Ret (i - NR_TASKS, Some (p_pending p)) k' ∧ korder k'.
Proof.
  intros Hk. pose proof Hk as [[Hs Hi _] _]. revert lo. induction m as [|m IH]; intros lo Hlo Hm.
  { left. split; [done|]. intros i p Hle Hz%zget_Some_range. rewrite (so_np _ Hs) in Hz. lia. }
  rewrite range_S. cbn [getksig_loop].
  destruct (zget_in (procs k) lo) as [p Hz]; [rewrite (so_np _ Hs); lia|].
  step (rd_proc_run _ _ _ Hz). destruct (has (p_rts_flags p) SIGNALED) eqn:Es.
  - right. exists lo, p. split; [lia|]. do 2 (split; [done|]). cbv zeta.
    split; [|by apply clear_signaled_run].
    rewrite (bind_ret _ _ _ _ _ (upd_proc_run _ _ _ _ Hz)).
    rewrite (bind_ret _ _ _ _ _ (upd_proc_again lo _ _ _ (zget_Some_range _ _ _ Hz))).
    by rewrite (proj2 (io_nr _ Hi) _ _ Hz).
  - destruct (IH (lo + 1)) as [[E Hno]|(i & q & Hle & H)]; [lia|lia| |].
    + left. split; [exact E|]. intros i q Hle Hq. destruct (Z.eq_dec i lo) as [->|]; [congruence|].
      apply (Hno i); [lia|done].
    + right. exists i, q. split; [lia|exact H].
Qed.

(** PM has dealt with the signals of a process: unless new ones came in, it
    goes on. *)
Lemma do_endksig_run k n p :
  korder k → zget (procs k) (proc_addr n) = Some p → p_rts_flags p ≠ SLOT_FREE →
  ∃ r k', do_endksig n k = Ret r k' ∧ korder k' ∧ (r ≠ OK → k' = k) ∧
    (r = OK ↔ has (p_rts_flags p) SIG_PENDING = true) ∧
    (∀ i, view held (procs k') i = view held (procs k) i) ∧ privs k' = privs k ∧
    (r = OK → ∀ i, view p_rts_flags (procs k') i =
      if (i =? proc_addr n) && negb (has (p_rts_flags p) SIGNALED)
      then Some (Z.ldiff (p_rts_flags p) SIG_PENDING) else view p_rts_flags (procs k) i).
Proof.
  intros [Hk Hsig] Hz Hfr. set (rp := proc_addr n) in *. unfold do_endksig. fold rp.
  step (rd_proc_run _ _ _ Hz).
  destruct (has (p_rts_flags p) SIG_PENDING) eqn:H5; cbn [negb]; [|by exists EINVAL, k].
  destruct (has (p_rts_flags p) SIGNALED) eqn:H4; cbn [negb].
  { exists OK, k. do 6 (split; [done|]). intros _ i. by rewrite andb_false_r. }
  pose proof (zget_Some_range _ _ _ Hz) as Hr. unfold when at 1.
  rewrite bind_assoc, (bind_ret _ _ _ _ _ (upd_proc_run _ _ _ _ Hz)).
  set (p' := clear_rts SIG_PENDING p). set (k1 := with_procs _ k).
  assert (zget (procs k1) rp = Some p') as Hz1 by (by apply zget_upd_eq).
  assert (∀ j, j ≠ 5 → Z.testbit (p_rts_flags p') j = Z.testbit (p_rts_flags p) j) as Hb.
  { intros j Hj. change (p_rts_flags p') with (Z.ldiff (p_rts_flags p) (2 ^ 5)).
    rewrite clear_bit by done. destruct (Z.eqb_spec 5 j); [by subst|]. apply andb_true_r. }
  assert (kinv_off rp k1) as Ho.
  { destruct (so_prio _ (ki_sched _ Hk) _ _ Hz). eapply off_upd; [|exact Hz|done..| |].
    - apply kinv_out; [done|]. eapply blocked_not_runnable; [exact Hz|]. intros E. by rewrite E in H5.
    - intros _. rewrite has_no_map, Hb, <- has_no_map by done. by apply (so_priv _ (ki_sched _ Hk) _ _ Hz).
    - eapply ipc_same_place; [exact Hz| |apply Hk]. split_and!; try done. unfold dest.
      by rewrite has_sending, Hb, <- has_sending. }
  assert (signals_ok (procs k1)) as Hs1.
  { apply signals_upd; [done| |done]. intros _. destruct (Hsig _ _ Hz Hfr) as [Hp _].
    rewrite has_signaled, Hb, <- has_signaled, H4 by done. split; [|done]. rewrite H4 in Hp. exact Hp. }
  assert (∀ i, view p_rts_flags (procs k1) i =
    if (i =? rp) && true then Some (Z.ldiff (p_rts_flags p) SIG_PENDING) else view p_rts_flags (procs k) i) as Hv.
  { intros i. unfold k1. cbn. rewrite view_upd, andb_true_r, Z.eqb_sym by done. by destruct (i =? rp). }
  assert (∀ i, view held (procs k1) i = view held (procs k) i) as Hpv by (intros i; by eapply view_same).
  rewrite bind_assoc. step (rd_proc_run _ _ _ Hz1).
  destruct (Z.eqb_spec (p_rts_flags p') 0) as [Hf|Hf]; unfold when.
  - destruct (lock_enqueue_run k1 rp p' Ho Hz1 Hf) as (k2 & E2 & Hk2 & Hkp2 & Hp2 & _). step E2.
    exists OK, k2. split; [done|]. split; [split; [done|by eapply signals_keeps]|].
    split; [done|]. split; [done|].
    split; [intros i; rewrite <- Hpv; by apply keeps_view; [apply held_core|]|]. split; [done|]. intros _ i. rewrite <- Hv. by apply keeps_view; [apply flags_core|].
  - steps. exists OK, k1. split; [done|]. split; [split; [|done]|by split].
    eapply kinv_back; [exact Ho|]. by eapply blocked_not_runnable.
Qed.
