(* ===== verification/DevicesSpec.v ===== *)
(** * Interrupt hooks and timers as parts of the kernel

    The invariant [devices_ok] of the tables that belong to devices, and what
    setting and clearing timers and releasing hooks do to them. Code that
    leaves these tables alone ([Leaves devices]) keeps it. *)

From S2P Require Import Prelude Linked Irq Timers Ipc IpcSpec KernelBoot Clock IrqSpec KernelCalls KernelFrame KernelCallsSpec.

(** The queue of timers is in order, and the clock looks at it in time for
    each of them. *)
Definition clock_ok (c : clock) : Prop :=
  timers_ok (clock_timers c) ∧ Forall (λ t, next_timeout c ≤ tmr_exp_time t) (clock_timers c).

(** Hooks on a line have a handler, and a process to notify if they need one. *)
Definition handled (P : Z → Prop) (h : irq_hook) : Prop :=
  match h_handler h with NoHandler => False | ClockHandler => True | GenericHandler => P (h_proc_nr h) end.

Definition hooks_for (P : Z → Prop) (s : irqs) : Prop :=
  ∃ L, hooks_ok L s ∧ ∀ x i h, is_line x → i ∈ L x → zget (irq_hooks s) i = Some h → handled P h.

Definition alarms_for (P : Z → Prop) (c : clock) : Prop :=
  ∀ t, t ∈ clock_timers c → match tmr_func t with CauseAlarm n => P n | Shutdown _ => True end.

Definition bins_ok (bs : list random_bin) : Prop :=
  zlen bs = RANDOM_SOURCES ∧
  Forall (λ b, 0 ≤ r_next b < RANDOM_ELEMENTS ∧ 0 ≤ r_size b ≤ RANDOM_ELEMENTS ∧ zlen (r_buf b) = RANDOM_ELEMENTS) bs.

Record devices_ok (k : kst) : Prop := DevicesOk {
  do_hooks : hooks_for (known k) (k_irqs k);
  do_clock : clock_ok (k_clock k);
  do_alarms : alarms_for (known k) (k_clock k);
  do_bins : bins_ok (k_random k) }.

Lemma handled_mono (P Q : Z → Prop) h : (∀ n, P n → Q n) → handled P h → handled Q h.
Proof. intros HPQ. unfold handled. destruct (h_handler h); [done..|]. apply HPQ. Qed.
Lemma handled_face P h h' : face h' = face h → handled P h → handled P h'.
Proof. unfold face, handled. by intros [= -> _ _ -> _ _]. Qed.

Lemma hooks_for_mono (P Q : Z → Prop) s : (∀ n, P n → Q n) → hooks_for P s → hooks_for Q s.
Proof. intros HPQ (L & HL & Hh). exists L. split; [done|]. intros. eapply handled_mono; [done|by eapply Hh]. Qed.
Lemma alarms_for_mono (P Q : Z → Prop) c : (∀ n, P n → Q n) → alarms_for P c → alarms_for Q c.
Proof. intros HPQ Hc t Ht. specialize (Hc t Ht). destruct (tmr_func t); [by apply HPQ|done]. Qed.

Lemma devices_same k k' :
  devices k' = devices k → (∀ n, known k n → known k' n) → devices_ok k → devices_ok k'.
Proof.
  unfold devices. intros [= Ei Ec Er] Hn [? ? ? ?]. split; rewrite ?Ei, ?Ec, ?Er; [|done| |done].
  - by eapply hooks_for_mono.
  - by eapply alarms_for_mono.
Qed.

Lemma leaves_devices_ok {A} (c : M kst A) `{!Leaves devices c} k a k' :
  c k = Ret a k' → (∀ n, known k n → known k' n) → devices_ok k → devices_ok k'.
Proof. intros E. by apply devices_same, (leaves devices _ _ _ E). Qed.

Lemma bind_on_irqs {A B} (c : M irqs A) (f : A → M kst B) k a s :
  c (k_irqs k) = Ret a s → (on_irqs c ≫= f) k = f a (with_irqs s k).
Proof. intros E. by erewrite bind_ret by (by apply zoom_ret). Qed.

(** Scheduling and messages do not depend on them. *)
Lemma korder_irqs k x : korder k → korder (with_irqs x k).
Proof. intros [[[? ? ? ? ?] ? ?] ?]. by split; [split; [split|..]|]. Qed.
Lemma korder_clock k x : korder k → korder (with_clock x k).
Proof. intros [[[? ? ? ? ?] ? ?] ?]. by split; [split; [split|..]|]. Qed.

(** ** Timers *)

Lemma first_timeout_le q : timers_ok q → Forall (λ t, first_timeout q ≤ tmr_exp_time t) q.
Proof.
  destruct q as [|t q]; intros Ht; constructor; simpl; [lia|by apply timers_first].
Qed.

Section timers.
Context `{TL : TimerLib}.

(** A timer that is cleared is in the queue no more; the others are. *)
Lemma reset_timer_run k tp :
  clock_ok (k_clock k) → ∃ c, reset_timer tp k = Ret tt (with_clock c k) ∧ clock_ok c ∧
    (∀ t, t ∈ clock_timers c ↔ t ∈ clock_timers (k_clock k) ∧ tmr_id t ≠ tp) ∧
    next_timeout c = first_timeout (clock_timers c).
Proof.
  intros [Ht _]. unfold reset_timer. steps. eexists. split; [done|]. cbn.
  pose proof (clrtimer_ok (clock_timers (k_clock k)) tp Ht) as Hok.
  split_and!; [split; [done|by apply first_timeout_le]| |done]. intros t. by apply clrtimer_elem.
Qed.

(** A timer that is set is in the queue, with the new time only. *)
Lemma set_timer_run k tp exp w :
  clock_ok (k_clock k) → ∃ c, set_timer tp exp w k = Ret tt (with_clock c k) ∧ clock_ok c ∧
    (∀ t, t ∈ clock_timers c ↔ t = Timer tp exp w ∨ (t ∈ clock_timers (k_clock k) ∧ tmr_id t ≠ tp)) ∧
    next_timeout c = first_timeout (clock_timers c).
Proof.
  intros [Ht _]. unfold set_timer. steps. set (q := clock_timers (k_clock k)) in *.
  pose proof (settimer_ok q (Timer tp exp w) Ht) as Hok.
  pose proof (λ t, settimer_elem q (Timer tp exp w) t Ht) as Hel.
  destruct (tmrs_settimer q (Timer tp exp w)) as [|t1 q1] eqn:E.
  - pose proof (proj2 (Hel (Timer tp exp w)) (or_introl eq_refl)) as Hin. by apply not_elem_of_nil in Hin.
  - eexists. split; [done|]. cbn. split_and!; [split; [done|by apply (first_timeout_le (t1 :: q1))]|done|done].
Qed.
End timers.

(** ** Releasing hooks *)

Lemma release_one L s i h :
  hooks_ok L s → zget (irq_hooks s) i = Some h →
  ∃ L' s' h', (rm_irq_handler i;; upd_hook i (set_owner NONE)) s = Ret tt s' ∧ hooks_ok L' s' ∧
    (∀ x, is_line x → L' x ⊆ L x) ∧ zget (irq_hooks s') i = Some h' ∧ h_proc_nr h' = NONE ∧
    (∀ j, j ≠ i → faces s' j = faces s j).
Proof.
  intros Ho Hz. destruct (rm_irq_handler_run L s i h Ho Hz) as (s1 & E1 & (Hf & _ & _) & Ho1). step E1.
  pose proof (removed_offline L s i h Ho Hz) as Hoff.
  destruct (zget_in (irq_hooks s1) i) as [h1 Hz1].
  { rewrite (ho_hooks _ _ Ho1), <- (ho_hooks _ _ Ho). by eapply zget_Some_range. }
  pose proof (zget_Some_range _ _ _ Hz1) as Hr. rewrite (upd_hook_run _ _ _ _ Hz1).
  eexists _, _, (set_owner NONE h1). split; [done|]. split; [|split_and!].
  - apply offline_ok; [exact Ho1|done|done|]. cbn. by eapply (ho_irq _ _ Ho1).
  - intros x Hx. unfold put_line. destruct (Z.eqb_spec x (h_irq h)) as [->|]; [|done]. 
    by intros y [_ Hy]%list_elem_of_filter.
  - cbn. by apply zget_upd_eq.
  - done.
  - intros j Hj. rewrite <- Hf. unfold faces. cbn. rewrite zget_upd_ne; [done|lia|done].
Qed.

Lemma release_hooks_run nr n :
  nr ≠ NONE → ∀ L s b, hooks_ok L s → 0 ≤ b → b + Z.of_nat n ≤ NR_IRQ_HOOKS + 1 →
  ∃ L' s', release_hooks nr (range b n) s = Ret tt s' ∧ hooks_ok L' s' ∧ (∀ x, is_line x → L' x ⊆ L x) ∧
    ∀ j h', zget (irq_hooks s') j = Some h' → ∃ h, zget (irq_hooks s) j = Some h ∧
      if decide (b ≤ j < b + Z.of_nat n ∧ h_proc_nr h = nr) then h_proc_nr h' = NONE else face h' = face h.
Proof.
  intros Hnr. induction n as [|n IH]; intros L s b Ho Hb Hn.
  { exists L, s. split_and!; [done..|]. intros j h' Hz. exists h'. split; [done|]. rewrite decide_False; [done|lia]. }
  rewrite range_S. cbn [release_hooks].
  destruct (zget_in (irq_hooks s) b) as [h Hz]; [rewrite (ho_hooks _ _ Ho); lia|]. step (rd_hook_run _ _ _ Hz).
  assert (∃ L1 s1, when (h_proc_nr h =? nr) (rm_irq_handler b;; upd_hook b (set_owner NONE)) s = Ret tt s1 ∧
    hooks_ok L1 s1 ∧ (∀ x, is_line x → L1 x ⊆ L x) ∧ (∀ j, j ≠ b → faces s1 j = faces s j) ∧
    ∃ h1, zget (irq_hooks s1) b = Some h1 ∧ if h_proc_nr h =? nr then h_proc_nr h1 = NONE else face h1 = face h)
    as (L1 & s1 & E1 & Ho1 & Hs1 & Hf1 & h1 & Hz1 & Hh1).
  { unfold when. destruct (h_proc_nr h =? nr).
    - destruct (release_one L s b h Ho Hz) as (L1 & s1 & h1 & ? & ? & ? & ? & ? & ?). by exists L1, s1; eauto 10.
    - exists L, s. split_and!; try done. by exists h. }
  step E1. destruct (IH L1 s1 (b + 1) Ho1) as (L' & s' & E' & Ho' & Hs' & Hf'); [lia|lia|].
  exists L', s'. split_and!; [done|done|intros x Hx; etrans; [by apply Hs'|by apply Hs1]|].
  intros j h' Hzj. destruct (Hf' j h' Hzj) as (hj & Hj & Hd). destruct (Z.eq_dec j b) as [->|Hne].
  - assert (hj = h1) as -> by congruence. exists h. split; [done|]. rewrite decide_False in Hd by lia.
    destruct (Z.eqb_spec (h_proc_nr h) nr) as [E|E].
    + rewrite decide_True by lia. injection Hd as _ _ _ -> _ _. done.
    + rewrite decide_False by lia. congruence.
  - specialize (Hf1 j Hne). unfold faces in Hf1. rewrite Hj in Hf1.
    destruct (zget (irq_hooks s) j) as [h0|]; [|done]. apply (inj Some) in Hf1. exists h0. split; [done|].
    pose proof Hf1 as [= _ _ _ Ep _ _]. rewrite Ep in Hd.
    destruct (decide (b + 1 ≤ j < b + 1 + Z.of_nat n ∧ h_proc_nr h0 = nr)) as [Hc|Hc].
    + rewrite decide_True by lia. done.
    + rewrite decide_False by lia. congruence.
Qed.

Lemma release_hooks_for P nr s :
  nr ≠ NONE → hooks_for P s →
  ∃ s', release_hooks nr (range 0 (Z.to_nat NR_IRQ_HOOKS)) s = Ret tt s' ∧ hooks_for P s' ∧
    ∀ j h', j < NR_IRQ_HOOKS → zget (irq_hooks s') j = Some h' →
      ∃ h, zget (irq_hooks s) j = Some h ∧ if h_proc_nr h =? nr then h_proc_nr h' = NONE else face h' = face h.
Proof.
  intros Hnr (L & HL & Hh).
  destruct (release_hooks_run nr (Z.to_nat NR_IRQ_HOOKS) Hnr L s 0) as (L' & s' & E & HL' & Hsub & Hf); [done..|].
  exists s'. split_and!; [done| |].
  - exists L'. split; [done|]. intros x i h' Hx Hi Hz. destruct (Hf i h' Hz) as (h & Hzh & Hd).
    destruct (ho_in _ _ HL' x i h' Hx Hi Hz) as [_ Hne]. case_decide; [done|].
    eapply handled_face; [exact Hd|]. apply (Hh x i); [done|by apply Hsub|done].
  - intros j h' Hj Hz. destruct (Hf j h' Hz) as (h & Hzh & Hd). exists h. split; [done|].
    pose proof (zget_Some_range _ _ _ Hzh) as Hrj.
    destruct (Z.eqb_spec (h_proc_nr h) nr); [rewrite decide_True in Hd|rewrite decide_False in Hd]; [done|lia|done|lia].
Qed.
