(* ===== verification/ProcessCalls.v ===== *)
(** * Forking and exiting in the reference system

    What [do_fork] and [do_exit] of [KernelCalls] do to the process table. *)

From S2P Require Import Prelude Linked Irq Timers Ipc IpcQueues IpcInv IpcSpec KernelBoot Clock IrqSpec KernelCalls KernelFrame KernelCallsSpec DevicesSpec.

(** ** Forking *)

(** The child as [do_fork] makes it of the parent, before the question of
    privileges. *)
Definition fork_child (n : Z) (pp : proc) : proc :=
  set_ticks (Z.quot (p_ticks_left pp + 1) 2) (set_times 0 0 (set_signals 0
    (clear_rts (Z.lor (Z.lor SIGNALED SIG_PENDING) P_STOP) (or_rts NO_MAP (set_nr n pp))))).

Lemma fork_child_bits n pp j :
  Z.testbit (p_rts_flags (fork_child n pp)) j =
    (Z.testbit (p_rts_flags pp) j || (j =? 1)) && negb ((j =? 4) || (j =? 5) || (j =? 6)).
Proof.
  change (p_rts_flags (fork_child n pp))
    with (Z.ldiff (Z.lor (p_rts_flags pp) (2 ^ 1)) (Z.lor (Z.lor (2 ^ 4) (2 ^ 5)) (2 ^ 6))).
  rewrite Z.ldiff_spec, !Z.lor_spec, !Z.pow2_bits_eqb by lia.
  by rewrite !(Z.eqb_sym j).
Qed.

Lemma fork_child_has n pp :
  let f := p_rts_flags (fork_child n pp) in
  has f NO_MAP = true ∧ has f SIGNALED = false ∧ has f SENDING = has (p_rts_flags pp) SENDING ∧ f ≠ 0.
Proof.
  cbv zeta. rewrite has_no_map, has_signaled, !has_sending, !fork_child_bits.
  cbn [Z.eqb Pos.eqb orb negb]. rewrite ?orb_true_r, ?andb_false_r, ?orb_false_r, ?andb_true_r.
  split_and!; try done.
  intros E. pose proof (fork_child_bits n pp 1) as Hb. by rewrite E, Z.bits_0, orb_true_r in Hb.
Qed.

Lemma or_no_priv_has f :
  let f' := Z.lor f NO_PRIV in
  f' ≠ 0 ∧ has f' NO_MAP = has f NO_MAP ∧ has f' SIGNALED = has f SIGNALED ∧ has f' SENDING = has f SENDING.
Proof.
  cbv zeta. split; [by apply (lor_nonzero f _ 7)|].
  rewrite !has_no_map, !has_signaled, !has_sending, !Z.lor_spec. by rewrite !orb_false_r.
Qed.

(** A child of a system process loses the privileges it was given. *)
Lemma unprivileged_run k rp p :
  korder k → zget (procs k) rp = Some p → has (p_rts_flags p) NO_MAP = true →
  has (p_rts_flags p) SIGNALED = false → p_pending p = 0 → p_rts_flags p ≠ 0 →
  korder (with_procs (upd (procs k) rp (or_rts NO_PRIV (set_priv USER_PRIV_ID p))) k).
Proof.
  intros [Hk Hsig] Hz Hb1 Hb4 Hp Hf. set (child := or_rts NO_PRIV _).
  destruct (or_no_priv_has (p_rts_flags p)) as (Hd0 & Hd1 & Hd4 & Hd2).
  change (Z.lor (p_rts_flags p) NO_PRIV) with (p_rts_flags child) in Hd0, Hd1, Hd4, Hd2.
  destruct (so_prio _ (ki_sched _ Hk) _ _ Hz) as [Ha Hb]. split.
  - eapply kinv_upd_blocked; [done|exact Hz|done..| |].
    + intros _. destruct (zget_in (privs k) USER_PRIV_ID) as [u Hu];
        [by rewrite (proj1 (ki_privs _ Hk))|]. exists u. split; [done|]. by rewrite Hd1, Hb1.
    + eapply ipc_same_place; [exact Hz| |apply Hk]. split_and!; try done. unfold dest. by rewrite Hd2.
  - apply signals_upd; [by eapply zget_Some_range| |done]. intros _. rewrite Hd4, Hb4.
    split; [|done]. change (p_pending child) with (p_pending p). by rewrite Hp.
Qed.

Section fork.
Context (k : kst) (n m : Z) (pp pc : proc).
Context (Hpp : zget (procs k) (proc_addr m) = Some pp) (Hpc : zget (procs k) (proc_addr n) = Some pc).

Definition forked (k' : kst) : Prop :=
  ∃ child s, zget (privs k) (p_priv pp) = Some s ∧
    zget (procs k') (proc_addr n) = Some child ∧
    zget (procs k') (proc_addr m) = Some (set_ticks (Z.quot (p_ticks_left pp) 2) pp) ∧
    (∀ i, i ≠ proc_addr n → i ≠ proc_addr m → zget (procs k') i = zget (procs k) i) ∧
    privs k' = privs k ∧
    child = (if has (s_flags s) SYS_PROC then or_rts NO_PRIV (set_priv USER_PRIV_ID (fork_child n pp))
             else fork_child n pp).

(** The states [do_fork] goes through: with the child, with the time shared,
    and with the privileges taken away. *)
Definition fork1 : kst := with_procs (upd (procs k) (proc_addr n) (fork_child n pp)) k.
Definition fork2 : kst :=
  with_procs (upd (procs fork1) (proc_addr m) (set_ticks (Z.quot (p_ticks_left pp) 2) pp)) fork1.
Definition fork3 : kst :=
  with_procs (upd (procs fork2) (proc_addr n) (or_rts NO_PRIV (set_priv USER_PRIV_ID (fork_child n pp)))) fork2.

Section new.
Context (Hf : p_rts_flags pp ≠ SLOT_FREE) (Hc : p_rts_flags pc = SLOT_FREE).
Context (s : priv) (Hs : zget (privs k) (p_priv pp) = Some s).

Lemma fork_apart : proc_addr m ≠ proc_addr n.
Proof using Hpp Hpc Hf Hc. intros E. rewrite E in Hpp. congruence. Qed.

Lemma fork1_parent : zget (procs fork1) (proc_addr m) = Some pp.
Proof using Hpp Hpc Hf Hc.
  pose proof fork_apart. pose proof (zget_Some_range _ _ _ Hpc). cbn.
  by rewrite zget_upd_ne by (lia || congruence).
Qed.

Lemma fork2_slots :
  zget (procs fork2) (proc_addr m) = Some (set_ticks (Z.quot (p_ticks_left pp) 2) pp) ∧
  zget (procs fork2) (proc_addr n) = Some (fork_child n pp) ∧
  ∀ i, i ≠ proc_addr n → i ≠ proc_addr m → zget (procs fork2) i = zget (procs k) i.
Proof using Hpp Hpc Hf Hc.
  pose proof fork_apart. pose proof (zget_Some_range _ _ _ Hpc). pose proof (zget_Some_range _ _ _ Hpp).
  pose proof (zget_Some_range _ _ _ fork1_parent). split_and!.
  - by apply zget_upd_eq.
  - cbn. rewrite zget_upd_ne by (lia || congruence). by apply zget_upd_eq.
  - intros i Hi Hi'. cbn. by rewrite !zget_upd_ne by (lia || congruence).
Qed.

Lemma do_fork_effect :
  do_fork n m k = Ret OK (if has (s_flags s) SYS_PROC then fork3 else fork2).
Proof using All.
  unfold do_fork, isemptyp. step (rd_proc_run _ _ _ Hpp). step (rd_proc_run _ _ _ Hpc).
  rewrite (proj2 (Z.eqb_neq _ _) Hf), (proj2 (Z.eqb_eq _ _) Hc). cbn [negb orb].
  rewrite (bind_ret _ _ _ _ _ (upd_proc_run _ _ _ _ Hpc)).
  do 6 rewrite (bind_ret _ _ _ _ _ (upd_proc_again _ _ _ _ (zget_Some_range _ _ _ Hpc))).
  set (c := set_ticks _ _). change c with (fork_child n pp). fold fork1.
  rewrite (bind_ret _ _ _ _ _ (upd_proc_run _ _ _ _ fork1_parent)). fold fork2.
  destruct fork2_slots as (Hpp2 & Hpc2 & _). step (priv_of_run (proc_addr m) _ s fork2 Hpp2 Hs).
  destruct (has (s_flags s) SYS_PROC); unfold when; [|by steps].
  rewrite bind_assoc, (bind_ret _ _ _ _ _ (upd_proc_run _ _ _ _ Hpc2)).
  by rewrite (bind_ret _ _ _ _ _ (upd_proc_again _ _ _ _ (zget_Some_range _ _ _ Hpc2))).
Qed.

Lemma fork_forked : forked (if has (s_flags s) SYS_PROC then fork3 else fork2).
Proof using All.
  destruct fork2_slots as (Hpp2 & Hpc2 & Hoth). pose proof fork_apart as Hne.
  pose proof (zget_Some_range _ _ _ Hpc2) as Hr.
  destruct (has (s_flags s) SYS_PROC) eqn:E; eexists _, s; rewrite E; split_and!; try done.
  - by apply zget_upd_eq.
  - cbn. rewrite zget_upd_ne by (lia || congruence). done.
  - intros i Hi Hi'. cbn. rewrite zget_upd_ne by (congruence || lia). by apply Hoth.
Qed.
End new.

(** Nobody waits for the slot to take a message, nor for the parent, which is
    not itself waiting to hand one over. *)
Context (Hk : korder k) (Hq : p_caller_q pc = None) (Hpq : p_caller_q pp = None)
  (Hps : has (p_rts_flags pp) SENDING = false).

(** A slot that is free becomes a process that cannot run yet. *)
Lemma occupy_slot p' :
  p_rts_flags pc = SLOT_FREE → p_nr p' = n → dest p' = None → p_caller_q p' = None →
  p_rts_flags p' ≠ 0 → has (p_rts_flags p') NO_MAP = true → has (p_rts_flags p') SIGNALED = false →
  p_pending p' = 0 → in_q (p_priority p') → in_q (p_max_priority p') →
  is_Some (zget (privs k) (p_priv p')) →
  korder (with_procs (upd (procs k) (proc_addr n) p') k).
Proof using Hk Hpc Hq.
  clear Hpq Hps Hpp. intros Hfree Hn Hd Hc Hf Hm H4 Hp Ha Hb [s Hs]. destruct Hk as [Hki Hsig].
  assert (p_nr pc = n) as Hnr.
  { rewrite (proj2 (io_nr _ (ki_ipc _ Hki)) _ _ Hpc). unfold proc_addr. lia. }
  split.
  - eapply kinv_upd_blocked; [done|exact Hpc|by rewrite Hfree|done|done|done| |].
    + intros _. exists s. split; [done|]. intros _ E. congruence.
    + eapply ipc_upd_unqueued; [exact Hpc|congruence| |done|congruence|apply Hki].
      unfold dest. by rewrite Hfree.
  - apply signals_upd; [by eapply zget_Some_range| |done]. intros _. by rewrite H4, Hp.
Qed.

Lemma fork_order s :
  p_rts_flags pp ≠ SLOT_FREE → p_rts_flags pc = SLOT_FREE → zget (privs k) (p_priv pp) = Some s →
  korder fork2 ∧ korder fork3.
Proof using All.
  intros Hf Hc Hs. pose proof Hk as [Hki Hsig]. destruct (fork_child_has n pp) as (Hb1 & Hb4 & Hb2 & Hb0).
  destruct (so_prio _ (ki_sched _ Hki) _ _ Hpp) as [Ha Hb]. pose proof (fork1_parent Hf Hc) as Hpp1.
  assert (korder fork1) as [Hk1 Hsig1] by (apply occupy_slot; try done; unfold dest; by rewrite Hb2, Hps).
  assert (korder fork2) as Hk2.
  { split; [by eapply kinv_upd_field|].
    apply signals_upd; [by eapply zget_Some_range|exact (Hsig _ _ Hpp)|done]. }
  split; [done|]. apply unprivileged_run; try done. apply (fork2_slots Hf Hc).
Qed.

Lemma do_fork_run :
  ∃ r k', do_fork n m k = Ret r k' ∧ korder k' ∧ (r ≠ OK → k' = k) ∧
    (r = OK ↔ p_rts_flags pp ≠ SLOT_FREE ∧ p_rts_flags pc = SLOT_FREE) ∧ (r = OK → forked k').
Proof using All.
  destruct (decide (p_rts_flags pp ≠ SLOT_FREE ∧ p_rts_flags pc = SLOT_FREE)) as [[Hf Hc]|Hno].
  - destruct (so_priv _ (ki_sched _ (proj1 Hk)) _ _ Hpp Hf) as (s & Hs & _).
    destruct (fork_order s Hf Hc Hs) as [? ?].
    eexists OK, _. split; [by eapply do_fork_effect|]. split; [by destruct (has (s_flags s) SYS_PROC)|].
    split; [done|]. split; [done|]. intros _. by apply fork_forked.
  - exists EINVAL, k. split; [|naive_solver]. unfold do_fork, isemptyp.
    step (rd_proc_run _ _ _ Hpp). step (rd_proc_run _ _ _ Hpc).
    destruct (Z.eqb_spec (p_rts_flags pp) SLOT_FREE); [done|].
    destruct (Z.eqb_spec (p_rts_flags pc) SLOT_FREE); [|done]. naive_solver.
Qed.
End fork.

(** ** Exiting *)

Section leaving.
Context (k : kst) (rc : Z) (C : Z → list Z).
Context (Hlen : zlen (procs k) = NR_TASKS + NR_PROCS).
Context (Hlk : ∀ j x, view p_caller_q (procs k) j = Some x → linked (view p_q_link (procs k)) x (C j)).

(** The walk over a queue that the process is not in. *)
Lemma unqueue_skip owner l x prev fuel :
  linked (view p_q_link (procs k)) x l → rc ∉ l → (length l < fuel)%nat →
  loop fuel (unqueue_step rc owner) (prev, x) k = Ret tt k.
Proof using.
  revert x prev fuel. induction l as [|i l IH]; intros x prev fuel Hl Hno Hf;
    (destruct fuel as [|fuel]; [lia|]); rewrite loop_S.
  - apply linked_nil in Hl as ->. done.
  - destruct Hl as [-> (r & (p & Hp & <-)%view_Some & Hl)]. apply not_elem_of_cons in Hno as [Hne Hno].
    assert (unqueue_step rc owner (prev, Some i) k = Ret (inl (Some i, p_q_link p)) k) as E.
    { unfold unqueue_step. step (rd_proc_run _ _ _ Hp). by destruct (Z.eqb_spec i rc). }
    step E. cbv iota. apply IH; [done|done|]. simpl in Hf. lia.
Qed.

Lemma queue_length j p : zget (procs k) j = Some p → (length (C j) < proc_fuel)%nat.
Proof using Hlen Hlk.
  intros Hz. pose proof (Hlk j _ (view_get _ _ _ _ Hz)) as Hl.
  apply (linked_length _ _ _ (NR_TASKS + NR_PROCS)) in Hl.
  - unfold zlen, proc_fuel, NR_TASKS, NR_PROCS in *. lia.
  - intros i [p' Hp']%view_is_Some. rewrite <- Hlen. by eapply zget_Some_range.
Qed.

Lemma unqueue_nowhere rs :
  (∀ j, j ∈ rs → is_Some (zget (procs k) j) ∧ rc ∉ C j) → unqueue rc rs k = Ret tt k.
Proof using Hlen Hlk.
  induction rs as [|j rs IH]; intros Hrs; [done|]. cbn [unqueue].
  destruct (Hrs j) as [[p Hp] Hno]; [set_solver|]. step (rd_proc_run _ _ _ Hp).
  assert (when (negb (bool_decide (p_caller_q p = None)))
    (loop proc_fuel (unqueue_step rc j) (None, p_caller_q p)) k = Ret tt k) as E.
  { destruct (negb _); [|done]. unfold when. eapply unqueue_skip; [by apply Hlk, (view_get p_caller_q)|done|].
    by eapply queue_length. }
  step E. apply IH. set_solver.
Qed.

(** The walk over the queue that the process is in. *)
Lemma unqueue_found owner l0 l1 l2 fuel k' :
  linked (view p_q_link (procs k)) (head (l1 ++ rc :: l2)) (l1 ++ rc :: l2) → rc ∉ l1 →
  (length l1 < fuel)%nat → set_caller_link owner (last (l0 ++ l1)) (head l2) k = Ret tt k' →
  loop fuel (unqueue_step rc owner) (last l0, head (l1 ++ rc :: l2)) k = Ret tt k'.
Proof using.
  revert l0 fuel. induction l1 as [|i l1 IH]; intros l0 fuel Hl Hno Hf Hset;
    (destruct fuel as [|fuel]; [lia|]); rewrite loop_S; cbn [app head] in *.
  - destruct Hl as [_ (r & (p & Hp & <-)%view_Some & Hl)].
    rewrite app_nil_r, <- (linked_head _ _ _ Hl) in Hset.
    assert (unqueue_step rc owner (last l0, Some rc) k = Ret (inr tt) k') as E.
    { unfold unqueue_step. step (rd_proc_run _ _ _ Hp). rewrite Z.eqb_refl. by step Hset. }
    by step E.
  - destruct Hl as [_ (r & (p & Hp & <-)%view_Some & Hl)]. apply not_elem_of_cons in Hno as [Hne Hno].
    pose proof (linked_head _ _ _ Hl) as Hh.
    assert (unqueue_step rc owner (last l0, Some i) k = Ret (inl (Some i, p_q_link p)) k) as E.
    { unfold unqueue_step. step (rd_proc_run _ _ _ Hp). by destruct (Z.eqb_spec i rc). }
    step E. cbv iota. rewrite Hh. specialize (IH (l0 ++ [i]) fuel). rewrite last_snoc in IH.
    apply IH; [by rewrite <- Hh|done|simpl in Hf; lia|by rewrite <- app_assoc].
Qed.
End leaving.

Lemma unqueue_app rc rs rs' k k1 k2 :
  unqueue rc rs k = Ret tt k1 → unqueue rc rs' k1 = Ret tt k2 → unqueue rc (rs ++ rs') k = Ret tt k2.
Proof.
  revert k. induction rs as [|j rs IH]; intros k E E'; cbn [unqueue app] in *; [by injection E as ->|].
  apply bind_ret_inv in E as (p & k0 & Ep & E). apply bind_ret_inv in E as ([] & k3 & Ew & E).
  step Ep. step Ew. by apply IH.
Qed.

(** A blocked sender is taken out of the queue of its destination, whichever
    slot that is. *)
Lemma unqueue_run k rc d l1 l2 C pd :
  sched_ok k → callers (procs k) C → C d = l1 ++ rc :: l2 → zget (procs k) d = Some pd →
  ∃ ps', unqueue rc (range 0 (Z.to_nat (NR_TASKS + NR_PROCS))) k = Ret tt (with_procs ps' k) ∧
    sched_ok (with_procs ps' k) ∧ zlen ps' = zlen (procs k) ∧
    (∀ i, view p_nr ps' i = view p_nr (procs k) i) ∧
    (∀ i, view dest ps' i = view dest (procs k) i) ∧
    (∀ i, view p_rts_flags ps' i = view p_rts_flags (procs k) i) ∧
    (∀ i, view held ps' i = view held (procs k) i) ∧
    (∀ x, view p_caller_q ps' x =
       if (x =? d) && bool_decide (l1 = []) then Some (head l2) else view p_caller_q (procs k) x) ∧
    (∀ x, view p_q_link ps' x =
       if bool_decide (last l1 = Some x) then Some (head l2) else view p_q_link (procs k) x).
Proof.
  intros Hs HC EC Hd. pose proof (so_np _ Hs) as Hlen. pose proof (zget_Some_range _ _ _ Hd) as Hr.
  pose proof (cl_link _ _ HC d _ (view_get _ _ _ _ Hd)) as Hl. rewrite EC in Hl.
  pose proof (linked_NoDup _ _ _ Hl) as (Hn0 & Hn1 & [Hn2 _]%NoDup_cons)%NoDup_app.
  assert (rc ∉ l1) as Hn by (intros H; apply (Hn1 rc H); set_solver).
  assert (∀ j, rc ∈ C j → j = d) as Honly.
  { intros j Hj. assert (rc ∈ C d) as Hin by (rewrite EC; set_solver).
    apply (cl_mem _ _ HC) in Hj, Hin. congruence. }
  destruct (set_caller_link_run k d (last l1) (head l2) pd Hs Hd)
    as (ps3 & E3 & Hs3 & Hl3 & Hn3 & _ & Hd3 & Hf3 & Hp3 & Hq3 & Hk3).
  { intros j [l ->]%last_Some. apply (view_is_Some p_q_link). eapply lseg_defined; [exact Hl|]. set_solver. }
  assert (∀ x, view p_caller_q ps3 x =
    if (x =? d) && bool_decide (l1 = []) then Some (head l2) else view p_caller_q (procs k) x) as Hqq.
  { intros x. rewrite Hq3. by rewrite (bool_decide_ext (last l1 = None) (l1 = [])) by apply last_None. }
  exists ps3. split; [|by split_and!].
  set (rs := range _ _).
  assert (∀ j, j ∈ rs → is_Some (zget (procs k) j)) as Hin.
  { intros j Hj. unfold rs, range in Hj. apply elem_of_seqZ in Hj.
    destruct (zget_in (procs k) j) as [p Hp]; [lia|by exists p]. }
  assert (d ∈ rs) as (ra & rb & Ers)%list_elem_of_split by (apply elem_of_seqZ; lia).
  assert (NoDup rs) as Hnd by apply NoDup_seqZ. rewrite Ers in Hnd, Hin |- *.
  apply NoDup_app in Hnd as (_ & Hna & [Hnb _]%NoDup_cons).
  assert (∀ j, j ∈ ra ∨ j ∈ rb → j ≠ d) as Hne.
  { intros j [Hj|Hj] ->; [apply (Hna d Hj); set_solver|done]. }
  eapply unqueue_app; [|cbn [unqueue]].
  - apply (unqueue_nowhere k rc C Hlen (cl_link _ _ HC)). intros j Hj. split; [apply Hin; set_solver|].
    intros Hrc%Honly. by apply (Hne j); [left|].
  - step (rd_proc_run _ _ _ Hd). rewrite (linked_head _ _ _ Hl).
    assert (head (l1 ++ rc :: l2) ≠ None) as Hh by (by destruct l1).
    rewrite bool_decide_false by done. cbn [negb]. unfold when.
    rewrite (linked_head _ _ _ Hl) in Hl.
    assert ((length l1 < proc_fuel)%nat) as Hfuel.
    { pose proof (queue_length k C Hlen (cl_link _ _ HC) d pd Hd) as H. rewrite EC, length_app in H. lia. }
    pose proof (unqueue_found k rc d [] l1 l2 proc_fuel _ Hl Hn Hfuel E3) as E. step E.
    apply (unqueue_nowhere (with_procs ps3 k) rc (caller_del C d l1 l2)).
    + by rewrite <- Hlen.
    + intros j x. eapply (take_link (procs k) ps3 C d rc l1 l2); [done|done|by exists pd|done|done].
    + intros j Hj. split.
      * rewrite <- (view_is_Some p_nr). cbn. rewrite Hn3, (view_is_Some p_nr). apply Hin. set_solver.
      * unfold caller_del. destruct (Z.eqb_spec j d) as [->|Hjd]; [|by intros ?%Honly].
        by destruct (Hne d (or_intror Hj)).
Qed.

(** The last step of an exit, when the slot is free. *)
Lemma release_priv_run k rc p s :
  kinv k → signals_ok (procs k) → zget (procs k) rc = Some p → zget (privs k) (p_priv p) = Some s →
  ∃ ss, (s ← priv_of rc;
         when (has (s_flags s) SYS_PROC) (upd_priv_of rc (λ s, set_proc_nr NONE (s_flags s) s))) k =
        Ret tt (with_privs ss k) ∧ korder (with_privs ss k) ∧ privs_like (privs k) ss.
Proof.
  intros Hk Hsig Hz Hs. step (priv_of_run _ _ _ _ Hz Hs).
  destruct (has (s_flags s) SYS_PROC); unfold when.
  - rewrite (upd_priv_of_run rc p s) by done. eexists. split; [done|].
    assert (privs_like (privs k) (upd (privs k) (p_priv p) (set_proc_nr NONE (s_flags s) s))) as Hl
      by (by eapply privs_like_upd).
    split; [|done]. split; [|done]. pose proof (kinv_aside k (memory k) _ Hk Hl). by destruct k.
  - exists (privs k). assert (with_privs (privs k) k = k) as -> by (by destruct k). by split_and!.
Qed.

(** The process is in no queue any more: its flags can say that its slot is
    free. *)
Definition gone (k k1 : kst) (rc : Z) (p p1 : proc) : Prop :=
  zget (procs k1) rc = Some p1 ∧ privs k1 = privs k ∧
  (∀ i, view held (procs k1) i = view held (procs k) i) ∧
  (∀ i, view p_rts_flags (procs k1) i = view p_rts_flags (procs k) i) ∧
  korder (with_procs (upd (procs k1) rc (set_rts SLOT_FREE p1)) k1).

Lemma signals_free ps rc p :
  0 ≤ rc < zlen ps → signals_ok ps → signals_ok (upd ps rc (set_rts SLOT_FREE p)).
Proof. intros. by apply signals_upd. Qed.

(** A process that waits to hand over a message. *)
Lemma leave_sending k rc p :
  korder k → zget (procs k) rc = Some p → has (p_rts_flags p) SENDING = true →
  ∃ k1 p1, unqueue rc (range 0 (Z.to_nat (NR_TASKS + NR_PROCS))) k = Ret tt k1 ∧ gone k k1 rc p p1.
Proof.
  intros [Hk Hsig] Hz Es. pose proof Hk as [Hs [Hnr [C HC] Ha] Hp].
  assert (p_rts_flags p ≠ 0) as Hne by (intros E; by rewrite E in Es).
  assert (view dest (procs k) rc = Some (Some (proc_addr (p_sendto p)))) as Hdst
    by (rewrite (view_get _ _ _ _ Hz); unfold dest; by rewrite Es).
  set (d := proc_addr (p_sendto p)) in *. destruct (cl_in _ _ HC _ _ Hdst) as [pd Hd].
  pose proof (proj2 (cl_mem _ _ HC d rc) Hdst) as (l1 & l2 & EC)%list_elem_of_split.
  destruct (unqueue_run k rc d l1 l2 C pd Hs HC EC Hd)
    as (ps & E & Hs1 & Hl1 & Hn1 & Hd1 & Hf1 & Hh1 & Hq1 & Hk1).
  pose proof (Hf1 rc) as Hz1. rewrite (view_get _ _ _ _ Hz) in Hz1. apply view_Some in Hz1 as (p1 & Hz1 & Hfp).
  pose proof (zget_Some_range _ _ _ Hz1) as Hr.
  exists (with_procs ps k), p1. do 5 (split; [done|]). cbn [procs with_procs].
  destruct (so_prio _ Hs1 _ _ Hz1). split.
  - split; [|apply (ipc_take (procs k) _ C d rc l1 l2 Hnr HC Ha EC)|done].
    + eapply (sched_upd_blocked (with_procs ps k)); [done|exact Hz1|by rewrite Hfp|done..|].
      intros Hb. by destruct Hb.
    + by exists pd.
    + cbn. by rewrite zlen_upd.
    + intros x. cbn. by rewrite (view_same p_nr _ _ _ _ _ Hz1), Hn1.
    + intros x. cbn. rewrite view_upd, Z.eqb_sym by done. by destruct (Z.eqb_spec x rc).
    + intros x. cbn. by rewrite (view_same p_caller_q _ _ _ _ _ Hz1), Hq1.
    + intros x. cbn. by rewrite (view_same p_q_link _ _ _ _ _ Hz1), Hk1.
  - apply signals_free; [done|]. eapply signals_views; [exact Hf1| |done].
    intros i. by apply held_views.
Qed.

(** A process that runs, or waits for something else. *)
Lemma leave_ready_run k rc p :
  korder k → zget (procs k) rc = Some p → has (p_rts_flags p) SENDING = false →
  ∃ k1 p1, when (p_rts_flags p =? 0) (lock_dequeue rc) k = Ret tt k1 ∧ gone k k1 rc p p1.
Proof.
  intros [Hk Hsig] Hz Es.
  destruct (leave_ready k rc p Hk Hz) as (k1 & p1 & E1 & Ho1 & (Hkp1 & Hp1 & _) & Hz1 & Hc1).
  pose proof (zget_Some_range _ _ _ Hz1) as Hr. exists k1, p1. split; [done|].
  split; [done|]. split; [done|]. split; [intros i; by apply keeps_view; [apply held_core|]|].
  split; [intros i; by apply keeps_view; [apply flags_core|]|].
  destruct (ko_prio _ _ Ho1 _ _ Hz1). split; [|apply signals_free; [done|by eapply signals_keeps]].
  eapply (kinv_back _ rc).
  - eapply off_upd; [done|exact Hz1|done..|intros Hb; by destruct Hb|].
    eapply ipc_upd_unqueued; [exact Hz1|done| |done|done|apply Ho1].
    rewrite (dest_core p p1 Hc1). unfold dest. by rewrite Es.
  - eapply blocked_not_runnable; [by apply zget_upd_eq|done].
Qed.

Lemma leave_queues_run k rc p :
  korder k → zget (procs k) rc = Some p →
  ∃ k1 p1, leave_queues rc k = Ret tt k1 ∧ gone k k1 rc p p1.
Proof.
  intros Hk Hz. unfold leave_queues. step (rd_proc_run _ _ _ Hz).
  destruct (has (p_rts_flags p) SENDING) eqn:Es.
  - destruct (Z.eqb_spec (p_rts_flags p) 0) as [E|_]; [by rewrite E in Es|]. unfold when. steps.
    by apply leave_sending.
  - destruct (leave_ready_run k rc p Hk Hz Es) as (k1 & p1 & E1 & Hg). step E1. by exists k1, p1.
Qed.

(** The slot itself, once the process is in no queue. *)
Lemma release_slot_run k k1 rc p p1 s :
  zget (procs k) rc = Some p → zget (privs k) (p_priv p) = Some s → gone k k1 rc p p1 →
  ∃ k', release_slot rc k1 = Ret tt k' ∧ korder k' ∧ privs_like (privs k) (privs k') ∧
    (∀ i, view held (procs k') i = view held (procs k) i) ∧
    ∀ i, view p_rts_flags (procs k') i = if i =? rc then Some SLOT_FREE else view p_rts_flags (procs k) i.
Proof.
  intros Hz Hs (Hz1 & Hpr1 & Hh1 & Hf1 & [Hk1 Hs1]). pose proof (zget_Some_range _ _ _ Hz1) as Hr.
  unfold release_slot. rewrite (bind_ret _ _ _ _ _ (upd_proc_run _ _ _ _ Hz1)).
  destruct (release_priv_run _ rc (set_rts SLOT_FREE p1) s Hk1 Hs1) as (ss & E2 & Hk2 & Hl2).
  { by apply zget_upd_eq. }
  { destruct (held_views _ _ _ (Hh1 rc)) as [Hp1 _].
    rewrite (view_get _ _ _ _ Hz1), (view_get _ _ _ _ Hz) in Hp1. injection Hp1 as Hp1. cbn. by rewrite Hp1, Hpr1. }
  rewrite E2. eexists. split; [done|]. split; [done|]. split; [cbn in Hl2 |- *; by rewrite <- Hpr1|].
  split; [intros i; cbn; by rewrite (view_same held _ _ _ _ _ Hz1), Hh1|].
  intros i. cbn. rewrite view_upd, Z.eqb_sym by done. destruct (i =? rc); [done|apply Hf1].
Qed.

Lemma gone_irqs k k1 rc p p1 x : gone k k1 rc p p1 → gone k (with_irqs x k1) rc p p1.
Proof. intros (? & ? & ? & ? & Hk). split_and!; [done..|]. apply (korder_irqs _ x Hk). Qed.

Lemma gone_nr k k1 rc p p1 : gone k k1 rc p p1 → p_nr p1 = rc - NR_TASKS.
Proof.
  intros (Hz1 & _ & _ & _ & [[_ [Hn _ _] _] _]). pose proof (zget_Some_range _ _ _ Hz1) as Hr.
  apply (proj2 Hn rc (set_rts SLOT_FREE p1)). by apply zget_upd_eq.
Qed.

(** Nothing of the process is left with the devices. *)
Definition dismissed (nr id : Z) (k k' : kst) : Prop :=
  (∀ t, t ∈ clock_timers (k_clock k') ↔ t ∈ clock_timers (k_clock k) ∧ tmr_id t ≠ AlarmTimer id) ∧
  ∀ j h', j < NR_IRQ_HOOKS → zget (irq_hooks (k_irqs k')) j = Some h' →
    ∃ h, zget (irq_hooks (k_irqs k)) j = Some h ∧
      if h_proc_nr h =? nr then h_proc_nr h' = NONE else face h' = face h.

Section exit.
Context `{TL : TimerLib}.

(** An exit frees the slot and blocks nobody else. *)
Lemma clear_proc_run k rc p :
  korder k → devices_ok k → zget (procs k) rc = Some p → p_rts_flags p ≠ SLOT_FREE →
  ∃ k', clear_proc rc k = Ret tt k' ∧ korder k' ∧ privs_like (privs k) (privs k') ∧
    (∀ i, view held (procs k') i = view held (procs k) i) ∧
    (∀ i, view p_rts_flags (procs k') i = if i =? rc then Some SLOT_FREE else view p_rts_flags (procs k) i) ∧
    devices_ok k' ∧ dismissed (rc - NR_TASKS) (p_priv p) k k'.
Proof.
  intros Hk [Hi Hc Ha Hb] Hz Hfr. destruct (so_priv _ (ki_sched _ (proj1 Hk)) _ _ Hz Hfr) as (s & Hs & _).
  unfold clear_proc. step (rd_proc_run _ _ _ Hz). step (rd_priv_run _ _ _ Hs).
  destruct (reset_timer_run k (AlarmTimer (p_priv p)) Hc) as (c & E0 & Hc0 & Ht0 & _). step E0.
  set (k0 := with_clock c k). pose proof (korder_clock k c Hk : korder k0) as Hk0.
  destruct (leave_queues_run k0 rc p Hk0 Hz) as (k1 & p1 & E1 & Hg). step E1.
  pose proof (leaves devices _ _ _ E1) as [= Hi1 Hc1 Hr1].
  step (rd_proc_run _ _ _ (proj1 Hg)). rewrite (gone_nr _ _ _ _ _ Hg).
  pose proof (zget_Some_range _ _ _ Hz) as Hr. rewrite (so_np _ (ki_sched _ (proj1 Hk))) in Hr.
  destruct (release_hooks_for (known k) (rc - NR_TASKS) (k_irqs k1)) as (s2 & E2 & HL2 & Hh2);
    [unfold NONE, NR_TASKS, NR_PROCS in *; lia|by rewrite Hi1|].
  rewrite (bind_on_irqs _ _ _ _ _ E2).
  destruct (release_slot_run k0 (with_irqs s2 k1) rc p p1 s Hz Hs (gone_irqs _ _ _ _ _ s2 Hg))
    as (k' & E' & Hk' & Hl & Hhd & Hf). exists k'.
  assert (∀ n, known k n → known k' n) as Hkn by (intros n; by apply known_like; [|intros; apply held_views]).
  pose proof (leaves devices _ _ _ E') as [= Hi' Hc' Hr']. split_and!; try done.
  - split; rewrite ?Hi', ?Hc', ?Hr', ?Hc1, ?Hr1; [by eapply hooks_for_mono|done| |done].
    intros t [Ht _]%Ht0. specialize (Ha t Ht). destruct (tmr_func t); [by apply Hkn|done].
  - split; [intros t; rewrite Hc', Hc1; apply Ht0|]. intros j h' Hj Hzj. rewrite Hi' in Hzj.
    destruct (Hh2 j h' Hj Hzj) as (h & Hzh & Hd). rewrite Hi1 in Hzh. by exists h.
Qed.

Lemma do_exit_run k src n p :
  korder k → devices_ok k → - 2 ^ 31 ≤ n < 2 ^ 31 →
  let who := if (PM_PROC_NR =? src) && negb (n =? SELF) then n else src in
  (isokprocn who = true → zget (procs k) (proc_addr who) = Some p ∧ p_rts_flags p ≠ SLOT_FREE) →
  (who = src → isokprocn src = true) →
  ∃ r k', do_exit src n k = Ret r k' ∧ korder k' ∧ devices_ok k' ∧ privs_like (privs k) (privs k') ∧
    (∀ i, view held (procs k') i = view held (procs k) i) ∧ (r = EINVAL → k' = k) ∧
    (r ≠ EINVAL → ∀ i, view p_rts_flags (procs k') i =
       if i =? proc_addr who then Some SLOT_FREE else view p_rts_flags (procs k) i).
Proof.
  intros Hk Hd Hn who Hw Hsrc. unfold do_exit. unfold who in *.
  destruct ((PM_PROC_NR =? src) && negb (n =? SELF)).
  - destruct (isokprocn n); cbn [negb]; [|by exists EINVAL, k].
    destruct (Hw eq_refl) as [Hz Hfr].
    destruct (clear_proc_run k _ p Hk Hd Hz Hfr) as (k' & E & Hk' & Hl & Hh & Hf & Hd' & _). step E. by exists OK, k'.
  - destruct (Hw (Hsrc eq_refl)) as [Hz Hfr].
    destruct (clear_proc_run k _ p Hk Hd Hz Hfr) as (k' & E & Hk' & Hl & Hh & Hf & Hd' & _). step E. by exists EDONTREPLY, k'.
Qed.
End exit.
