(* ===== verification/Interrupts.v ===== *)
(** * Clock and interrupts of the reference kernel

    [reference/minix/kernel/clock.c] (the tick handler and the clock task),
    [intr_handle] of [i8259.c] with the entry code of [mpx386.s], and the kernel
    calls for time and interrupts: [system/do_setalarm.c], [do_times.c] and
    [do_irqctl.c]. Values read from the timer chip or the cycle counter are
    arguments. Programming the timer chip, acknowledging an interrupt at the
    controllers and the PS/2 acknowledgement leave this state as it is. *)

From S2P Require Import Prelude Irq Timers Ipc KernelBoot Clock KernelCalls.

(** A value stored in a [char]. *)
Definition char8 (x : Z) : Z := schar (u8 x).

Definition HARD_INT : Z := Z.lor NOTIFY_MESSAGE (HARDWARE + NR_TASKS).
Definition IRQ_SETPOLICY : Z := 1.
Definition IRQ_RMPOLICY : Z := 2.
Definition IRQ_ENABLE : Z := 3.
Definition IRQ_DISABLE : Z := 4.
Definition IRQ_REENABLE : Z := 0x001.

(** ** The tick *)

Definition with_lost (x : Z) (c : clock) : clock := Clock (clock_timers c) (next_timeout c) x (prev_ptr c).
Definition with_prev_ptr (x : option Z) (c : clock) : clock := Clock (clock_timers c) (next_timeout c) (lost_ticks c) x.

Definition add_user (t : Z) (p : proc) : proc := set_times (s32 (p_user_time p + t)) (p_sys_time p) p.
Definition add_sys (t : Z) (p : proc) : proc := set_times (p_user_time p) (s32 (p_sys_time p + t)) p.
Definition use_ticks (t : Z) (p : proc) : proc := set_ticks (char8 (p_ticks_left p - t)) p.

(** The running process is charged, and for a system process the one it works
    for. *)
Definition charge (ticks : Z) : M kst unit :=
  k ← get;
  upd_proc (proc_ptr k) (add_user ticks);;
  s ← priv_of (proc_ptr k);
  when (has (s_flags s) PREEMPTIBLE) (upd_proc (proc_ptr k) (use_ticks ticks));;
  when (negb (has (s_flags s) BILLABLE))
    (b ← lift_opt (bill_ptr k);
     upd_proc b (add_sys ticks);;
     upd_proc b (use_ticks ticks)).

Definition clock_handler : M kst bool :=
  k ← get;
  let ticks := u32 (lost_ticks (k_clock k) + 1) in
  modify (λ k, with_clock (with_lost 0 (k_clock k)) k);;
  modify (λ k, with_realtime (s32 (realtime k + ticks)) k);;
  charge ticks;;
  k ← get;
  p ← rd_proc (proc_ptr k);
  when ((next_timeout (k_clock k) <=? realtime k) || (p_ticks_left p <=? 0))
    (modify (λ k, with_clock (with_prev_ptr (Some (proc_ptr k)) (k_clock k)) k);;
     _ ← lock_notify HARDWARE CLOCK;
     mret tt);;
  mret true.

(** ** The clock task *)

Definition cause_alarm (proc_nr : Z) : M kst unit := _ ← lock_notify CLOCK proc_nr; mret tt.

(** The watchdogs of expired timers; [shutdown] does not return. *)
Fixpoint run_watchdogs (ts : list timer) : M kst unit :=
  match ts with
  | [] => mret tt
  | t :: ts' =>
      match tmr_func t with CauseAlarm n => cause_alarm n | Shutdown _ => halt end;;
      run_watchdogs ts'
  end.

Section clock.
Context `{TL : TimerLib}.

Definition do_clocktick : M kst Z :=
  k ← get;
  rp ← lift_opt (prev_ptr (k_clock k));
  p ← rd_proc rp;
  when (p_ticks_left p <=? 0)
    (s ← priv_of rp;
     when (has (s_flags s) PREEMPTIBLE) (lock_dequeue rp;; lock_enqueue rp));;
  k ← get;
  when (next_timeout (k_clock k) <=? realtime k)
    (let '(expired, q) := tmrs_exptimers (clock_timers (k_clock k)) (realtime k) in
     modify (λ k, with_clock (with_timers q (next_timeout (k_clock k)) (k_clock k)) k);;
     run_watchdogs expired;;
     modify (λ k, with_clock (with_timers (clock_timers (k_clock k)) (first_timeout (clock_timers (k_clock k))) (k_clock k)) k));;
  mret EDONTREPLY.

(** One message of the clock task. *)
Definition clock_task (m_source m_type : Z) : M kst unit :=
  if m_type =? HARD_INT then _ ← do_clocktick; mret tt
  else modify (λ k, with_log (k_log k ++ [(m_type, m_source, CLOCK)]) k).

(** ** Alarms and times *)

(** The time of a timer, [TMR_NEVER] when it is not active. *)
Definition timer_time (q : list timer) (tp : timer_id) : Z :=
  match List.find (λ t, bool_decide (tmr_id t = tp)) q with Some t => tmr_exp_time t | None => TMR_NEVER end.

(** The result, and ALRM_TIME_LEFT. *)
Definition do_setalarm (m_source ALRM_EXP_TIME : Z) (ALRM_ABS_TIME : bool) : M kst (Z * option Z) :=
  let rp := proc_addr m_source in
  s ← priv_of rp;
  if negb (has (s_flags s) SYS_PROC) then mret (EPERM, None) else
  p ← rd_proc rp;
  let tp := AlarmTimer (p_priv p) in
  uptime ← get_uptime;
  k ← get;
  let exp := timer_time (clock_timers (k_clock k)) tp in
  let left := if negb (exp =? TMR_NEVER) && (uptime <? exp) then exp - uptime else 0 in
  (if ALRM_EXP_TIME =? 0 then reset_timer tp
   else set_timer tp (if ALRM_ABS_TIME then ALRM_EXP_TIME else s32 (ALRM_EXP_TIME + uptime)) (CauseAlarm m_source));;
  mret (OK, Some left).
End clock.

(** T_USER_TIME and T_SYSTEM_TIME when they are set, and T_BOOT_TICKS. *)
Definition do_times (m_source T_PROC_NR : Z) : M kst (option (Z * Z) * Z) :=
  let proc_nr := if T_PROC_NR =? SELF then m_source else T_PROC_NR in
  times ← (if isokprocn proc_nr
           then p ← rd_proc (proc_addr T_PROC_NR); mret (Some (p_user_time p, p_sys_time p))
           else mret None);
  t ← get_uptime;
  mret (times, t).

(** ** Interrupts *)

Definition generic_handler (hook value : Z) : M kst bool :=
  h ← on_irqs (rd_hook hook);
  on_random (get_randomness value (h_irq h));;
  upd_priv_of (proc_addr (h_proc_nr h))
    (λ s, set_int_pending (Z.lor (s_int_pending s) (Z.shiftl 1 (h_notify_id h))) s);;
  _ ← lock_notify HARDWARE (h_proc_nr h);
  mret (has (h_policy h) IRQ_REENABLE).

Definition call_handler (hook value : Z) (f : irq_handler) : M kst bool :=
  match f with
  | ClockHandler => clock_handler
  | GenericHandler => generic_handler hook value
  | NoHandler => fault
  end.

(** One hook of the line: it is active while its handler runs, and after that
    unless the handler says that it is done. *)
Definition intr_step (value : Z) (hook : option Z) : M kst (option Z + unit) :=
  match hook with
  | None => mret (inr tt)
  | Some i =>
      h ← on_irqs (rd_hook i);
      _ ← on_irqs (act (h_irq h) (λ a, Z.lor a (h_id h)));
      ret ← call_handler i value (h_handler h);
      when ret (_ ← on_irqs (act (h_irq h) (λ a, Z.ldiff a (h_id h))); mret tt);;
      h' ← on_irqs (rd_hook i);
      mret (inl (h_next h'))
  end.

Definition intr_handle (value : Z) (hook : option Z) : M kst unit := loop irq_fuel (intr_step value) hook.

(** The entry of a line: its handlers, and the line masked if one of them is
    still active. *)
Definition hwint (irq value : Z) : M kst unit :=
  k ← get;
  hook ← lift_opt (zget (irq_handlers (k_irqs k)) irq);
  intr_handle value hook;;
  k ← get;
  a ← lift_opt (zget (irq_actids (k_irqs k)) irq);
  when (negb (a =? 0))
    (on_irqs (modify (λ s, with_mask (Z.lor (irq_mask s) (Z.shiftl 1 irq)) s))).

Definition init_clock : M kst unit :=
  on_irqs (upd_hook clock_hook (set_owner CLOCK));;
  on_irqs (put_irq_handler clock_hook CLOCK_IRQ ClockHandler);;
  on_irqs (enable_irq clock_hook).

(** The hooks become available. *)
Fixpoint init_hooks (hs : list Z) : M irqs unit :=
  match hs with
  | [] => mret tt
  | i :: hs' => upd_hook i (set_owner NONE);; init_hooks hs'
  end.

(** ** Interrupt control *)

(** The first hook that is free. *)
Definition free_hook (s : irqs) : option Z :=
  List.find (λ i, match zget (irq_hooks s) i with Some h => h_proc_nr h =? NONE | None => false end)
    (range 0 (Z.to_nat NR_IRQ_HOOKS)).

(** The owner of a hook: [None] for an identifier past the table or a hook that
    is not in use. An identifier of 0 gives the index -1. *)
Definition hook_owner (id : Z) : M kst (option Z) :=
  if NR_IRQ_HOOKS <=? id then mret None else
  h ← on_irqs (rd_hook id);
  mret (if h_proc_nr h =? NONE then None else Some (h_proc_nr h)).

(** The result, and the hook identifier that is returned. *)
Definition do_irqctl (m_source IRQ_REQUEST IRQ_VECTOR IRQ_POLICY IRQ_HOOK_ID : Z) : M kst (Z * option Z) :=
  let irq_hook_id := s32 (u32 IRQ_HOOK_ID - 1) in
  if (IRQ_REQUEST =? IRQ_ENABLE) || (IRQ_REQUEST =? IRQ_DISABLE) then
    o ← hook_owner irq_hook_id;
    match o with
    | None => mret (EINVAL, None)
    | Some n =>
        if negb (n =? m_source) then mret (EPERM, None) else
        (if IRQ_REQUEST =? IRQ_ENABLE then on_irqs (enable_irq irq_hook_id)
         else _ ← on_irqs (disable_irq irq_hook_id); mret tt);;
        mret (OK, None)
    end
  else if IRQ_REQUEST =? IRQ_SETPOLICY then
    if (IRQ_VECTOR <? 0) || (NR_IRQ_VECTORS <=? IRQ_VECTOR) then mret (EINVAL, None) else
    k ← get;
    match free_hook (k_irqs k) with
    | None => mret (ENOSPC, None)
    | Some hook =>
        let notify_id := s32 IRQ_HOOK_ID in
        if 31 <? u32 notify_id then mret (EINVAL, None) else
        on_irqs (upd_hook hook (set_request m_source notify_id IRQ_POLICY));;
        on_irqs (put_irq_handler hook IRQ_VECTOR GenericHandler);;
        mret (OK, Some (hook + 1))
    end
  else if IRQ_REQUEST =? IRQ_RMPOLICY then
    o ← hook_owner irq_hook_id;
    match o with
    | None => mret (EINVAL, None)
    | Some n =>
        if negb (m_source =? n) then mret (EPERM, None) else
        on_irqs (rm_irq_handler irq_hook_id);;
        mret (OK, None)
    end
  else mret (EINVAL, None).
