(* ===== verification/InterruptsSpec.v ===== *)
(** * Clock and interrupts: the handlers run

    Every handler, the clock task and the entry of an interrupt line return
    from the invariants of scheduling and devices, block nobody and change no
    rights ([gentle]). *)

From S2P Require Import Prelude Linked Irq Timers Ipc IpcQueues IpcInv IpcSpec KernelBoot Clock IrqSpec KernelCalls KernelFrame KernelCallsSpec DevicesSpec ProcessCalls Interrupts.

(** ** Gentle steps *)

Definition gentle (k k' : kst) : Prop := kinv k' ∧ ∀ c, spares c k k'.

Lemma gentle_refl k : kinv k → gentle k k.
Proof. intros Hk. split; [done|]. intros c. apply spares_refl. Qed.
Lemma gentle_trans k1 k2 k3 : gentle k1 k2 → gentle k2 k3 → gentle k1 k3.
Proof. intros [_ H1] [H2 H3]. split; [done|]. intros c. by eapply spares_trans. Qed.

Lemma gentle_known k k' n : gentle k k' → known k n → known k' n.
Proof. intros [_ H]. by apply (known_spared (-1)). Qed.
Lemma gentle_runnable k k' i : gentle k k' → runnable (procs k) i → runnable (procs k') i.
Proof.
  intros [_ H] Hr. apply (H (-1)); [|done]. intros ->. apply view_Some in Hr as (p & Hz & _).
  apply zget_Some_range in Hz. lia.
Qed.
Lemma gentle_order k k' : korder k → gentle k k' → korder k'.
Proof. intros [_ Hs] [Hk H]. split; [done|]. by apply (signals_spared (-1) k). Qed.

(** Parts that scheduling does not look at. *)
Lemma gentle_aside k k' : 
  procs k' = procs k → privs k' = privs k → rdy_head k' = rdy_head k → rdy_tail k' = rdy_tail k →
  proc_ptr k' = proc_ptr k → next_ptr k' = next_ptr k → kinv k → gentle k k'.
Proof.
  intros Ep Es Eh Et Ec En [[Hn Hpo [Hq1 Hq2] Hpr (Q & Hr & Hc)] Hi Hp].
  split; [|intros c; apply spares_same; [by rewrite Es|done]].
  assert (chosen k' = chosen k) as E by (unfold chosen; by rewrite En, Ec).
  split; [split|..]; rewrite ?Ep, ?Es; try done.
  - split; by rewrite ?Eh, ?Et.
  - exists Q. by rewrite ?Ep, Eh, Et, E.
Qed.

(** Times and ticks of a process. *)
Definition timed (p p' : proc) : Prop := ∃ u s t, p' = set_ticks t (set_times u s p).

Lemma timed_user t p : timed p (add_user t p).
Proof. exists (s32 (p_user_time p + t)), (p_sys_time p), (p_ticks_left p). by destruct p. Qed.
Lemma timed_sys t p : timed p (add_sys t p).
Proof. exists (p_user_time p), (s32 (p_sys_time p + t)), (p_ticks_left p). by destruct p. Qed.
Lemma timed_ticks t p : timed p (use_ticks t p).
Proof. exists (p_user_time p), (p_sys_time p), (char8 (p_ticks_left p - t)). by destruct p. Qed.
#[local] Hint Resolve timed_user timed_sys timed_ticks : core.

Lemma gentle_timed k i p p' :
  kinv k → zget (procs k) i = Some p → timed p p' → gentle k (with_procs (upd (procs k) i p') k).
Proof.
  intros Hk Hz (u & s & t & ->). pose proof (zget_Some_range _ _ _ Hz) as Hr.
  split; [by eapply kinv_upd_field; [done|exact Hz|..]|].
  intros c. eapply (spares_flags c _ _ i p (p_rts_flags p)); cbn; [done| | |done|done|].
  - intros j. by eapply view_same.
  - intros j. rewrite view_upd, Z.eqb_sym by done. by destruct (j =? i).
  - intros _ H0. by eapply runnable_flags.
Qed.

(** ** The tick *)

(** What the time of one process adds up to. *)
Record charged (k : kst) (b ticks : Z) (s : priv) (ps : list proc) : Prop := Charged {
  ch_user i : view p_user_time ps i =
    (λ t, if i =? proc_ptr k then s32 (t + ticks) else t) <$> view p_user_time (procs k) i;
  ch_sys i : view p_sys_time ps i =
    (λ t, if negb (has (s_flags s) BILLABLE) && (i =? b) then s32 (t + ticks) else t) <$> view p_sys_time (procs k) i;
  ch_ticks i : has (s_flags s) BILLABLE = true → view p_ticks_left ps i =
    (λ t, if has (s_flags s) PREEMPTIBLE && (i =? proc_ptr k) then char8 (t - ticks) else t) <$> view p_ticks_left (procs k) i }.

Lemma view_upd_fmap {A} (f : proc → A) (g : A → A) ps i p p' j :
  zget ps i = Some p → f p' = g (f p) → view f (upd ps i p') j = (λ a, if j =? i then g a else a) <$> view f ps j.
Proof.
  intros Hz Hf. pose proof (zget_Some_range _ _ _ Hz). rewrite view_upd, Z.eqb_sym by done.
  destruct (Z.eqb_spec j i) as [->|].
  - rewrite (view_get _ _ _ _ Hz). simpl. by rewrite Hf.
  - symmetry. rewrite <- (option_fmap_id (view f ps j)) at 2. done.
Qed.

Lemma charge_run k p s b ticks :
  kinv k → zget (procs k) (proc_ptr k) = Some p → zget (privs k) (p_priv p) = Some s →
  bill_ptr k = Some b → 0 ≤ b < zlen (procs k) →
  ∃ ps, charge ticks k = Ret tt (with_procs ps k) ∧ gentle k (with_procs ps k) ∧ charged k b ticks s ps.
Proof.
  intros Hk Hz Hs Eb Hb. unfold charge. steps. set (r := proc_ptr k) in *.
  pose proof (zget_Some_range _ _ _ Hz) as Hr. step (upd_proc_run _ _ (add_user ticks) _ Hz). set (k1 := with_procs _ k).
  assert (gentle k k1) as H1 by (apply (gentle_timed k _ p); [done|done|auto]).
  assert (zget (procs k1) r = Some (add_user ticks p)) as Hz1 by (by apply zget_upd_eq).
  step (priv_of_run _ _ _ _ Hz1 Hs).
  assert (∃ ps, when (has (s_flags s) PREEMPTIBLE) (upd_proc r (use_ticks ticks)) k1 = Ret tt (with_procs ps k) ∧
    zlen ps = zlen (procs k) ∧ gentle k (with_procs ps k) ∧
    (∀ i, view p_user_time ps i = view p_user_time (procs k1) i) ∧
    (∀ i, view p_sys_time ps i = view p_sys_time (procs k) i) ∧
    (∀ i, view p_ticks_left ps i = (λ t, if has (s_flags s) PREEMPTIBLE && (i =? r) then char8 (t - ticks) else t)
                                     <$> view p_ticks_left (procs k) i)) as (ps2 & E2 & Hl2 & H2 & Hu & Hy & Ht).
  { unfold when. destruct (has _ _).
    - rewrite (upd_proc_run _ _ _ _ Hz1). eexists. split; [done|]. split; [cbn; by rewrite !zlen_upd|].
      split; [eapply gentle_trans; [exact H1|]; apply (gentle_timed k1 _ (add_user ticks p)); [apply H1|done|auto]|].
      cbn [procs with_procs] in *. split_and!; intros i.
      + by eapply view_same.
      + etrans; [by eapply view_same|by eapply view_same].
      + etrans; [by eapply (view_upd_fmap _ (λ t, char8 (t - ticks)))|]. f_equal. by eapply view_same.
    - exists (procs k1). cbn. rewrite zlen_upd. split_and!; [done..| |]; intros i.
      + by eapply view_same.
      + rewrite option_fmap_id. by eapply view_same. }
  step E2. unfold when. set (k2 := with_procs ps2 k) in *.
  assert (∀ i, view p_user_time (procs k1) i = (λ t, if i =? r then s32 (t + ticks) else t) <$> view p_user_time (procs k) i) as Hu1.
  { intros i. by eapply (view_upd_fmap _ (λ t, s32 (t + ticks))). }
  destruct (has (s_flags s) BILLABLE) eqn:Ebl; cbn [negb].
  { exists ps2. split_and!; [done..|]. split; rewrite ?Ebl; [intros i; by rewrite Hu|intros i; cbn; by rewrite option_fmap_id|done]. }
  rewrite (bind_lift _ _ _ _ Eb). destruct (zget_in (procs k2) b) as [pb Hzb]; [cbn; by rewrite Hl2|].
  step (upd_proc_run _ _ (add_sys ticks) _ Hzb). set (k3 := with_procs _ k2).
  assert (gentle k2 k3) as H3 by (apply (gentle_timed k2 _ pb); [apply H2|done|auto]).
  assert (zget (procs k3) b = Some (add_sys ticks pb)) as Hz3 by (apply zget_upd_eq; cbn; by rewrite Hl2).
  rewrite (upd_proc_run _ _ (use_ticks ticks) _ Hz3). eexists. split; [done|]. split.
  - eapply gentle_trans; [exact H2|]. eapply gentle_trans; [exact H3|].
    apply (gentle_timed k3 _ (add_sys ticks pb)); [apply H3|done|auto].
  - split; rewrite ?Ebl; [| |done]; intros i; cbn [negb andb].
    + etrans; [by eapply view_same|]. etrans; [by eapply view_same|]. by rewrite Hu.
    + etrans; [by eapply view_same|]. etrans; [by eapply (view_upd_fmap _ (λ t, s32 (t + ticks)))|]. by rewrite Hy.
Qed.

(** A state in which an interrupt can be taken. *)
Record alert (k : kst) : Prop := Alert {
  al_inv : kinv k;
  al_running : runnable (procs k) (proc_ptr k);
  al_hardware : known k HARDWARE;
  al_clock : known k CLOCK;
  al_billed : billed k;
  al_devices : devices_ok k }.

Lemma alert_gentle k k' :
  alert k → gentle k k' → proc_ptr k' = proc_ptr k → billed k' → devices_ok k' → alert k'.
Proof.
  intros [Hk Hr Hh Hc _ _] Hg Hp Hb Hd. split; [apply Hg| |by eapply gentle_known..|done|done].
  rewrite Hp. by eapply gentle_runnable.
Qed.

Lemma running_priv k : alert k → ∃ p s, zget (procs k) (proc_ptr k) = Some p ∧ zget (privs k) (p_priv p) = Some s.
Proof.
  intros Ha. pose proof (al_running _ Ha) as (p & Hz & Hf)%view_Some.
  destruct (so_priv _ (ki_sched _ (al_inv _ Ha)) _ _ Hz) as (s & Hs & _); [by rewrite Hf|]. by exists p, s.
Qed.

Lemma devices_irqs k x : hooks_for (known k) x → devices_ok k → devices_ok (with_irqs x k).
Proof. intros Hx [_ ? ? ?]. by split. Qed.
Lemma devices_clock k c : clock_ok c → alarms_for (known k) c → devices_ok k → devices_ok (with_clock c k).
Proof. intros Hc Ha [? _ _ ?]. by split. Qed.
Lemma devices_gentle k k' : gentle k k' → devices k' = devices k → devices_ok k → devices_ok k'.
Proof. intros Hg Hd. apply devices_same; [done|]. intros n. by apply gentle_known. Qed.

(** One tick: the time goes on, the process is charged, and the clock task is
    notified when a timer is due or the quantum is used up. *)
Definition ticked (k k' : kst) : Prop :=
  let t := u32 (lost_ticks (k_clock k) + 1) in
  ∃ ps b p0 s p, bill_ptr k = Some b ∧ zget (procs k) (proc_ptr k) = Some p0 ∧ zget (privs k) (p_priv p0) = Some s ∧
    charged k b t s ps ∧ zget ps (proc_ptr k) = Some p ∧
    let k1 := with_procs ps (with_realtime (s32 (realtime k + t)) (with_clock (with_lost 0 (k_clock k)) k)) in
    if (next_timeout (k_clock k) <=? realtime k1) || (p_ticks_left p <=? 0)
    then lock_notify HARDWARE CLOCK (with_clock (with_prev_ptr (Some (proc_ptr k)) (k_clock k1)) k1) = Ret OK k'
    else k' = k1.

Lemma clock_handler_run k :
  alert k → ∃ k', clock_handler k = Ret true k' ∧ ticked k k' ∧ gentle k k' ∧ alert k' ∧
    proc_ptr k' = proc_ptr k ∧ k_irqs k' = k_irqs k.
Proof.
  intros Ha. destruct (running_priv k Ha) as (p0 & s & Hz & Hs). pose proof Ha as [Hk Hru Hh Hc (b & Eb & Hb) Hd].
  unfold clock_handler, ticked. steps. set (t := u32 (lost_ticks (k_clock k) + 1)).
  set (k0 := with_realtime _ _). assert (gentle k k0) as H0 by (by apply gentle_aside).
  assert (devices_ok k0) as Hd0.
  { destruct Hd as [? [? ?] ? ?]. by split. }
  destruct (charge_run k0 p0 s b t (proj1 H0) Hz Hs Eb Hb) as (ps & E1 & H1 & Hch). step E1.
  set (k1 := with_procs ps k0) in *. pose proof (gentle_trans _ _ _ H0 H1) as H01. steps.
  pose proof (gentle_runnable _ _ _ H01 Hru) as (p & Hzp & _)%view_Some.
  step (rd_proc_run _ _ _ (Hzp : zget (procs k1) (proc_ptr k1) = _)).
  assert (billed k1) as Hb1.
  { exists b. split; [done|]. by rewrite (so_np _ (ki_sched _ (proj1 H01))), <- (so_np _ (ki_sched _ Hk)). }
  pose proof (devices_gentle k0 k1 H1 eq_refl Hd0) as Hd1.
  assert (charged k b t s ps) as Hch' by (destruct Hch; by split).
  change (next_timeout (k_clock k1)) with (next_timeout (k_clock k)).
  destruct ((next_timeout (k_clock k) <=? realtime k1) || (p_ticks_left p <=? 0)) eqn:Ew; unfold when.
  - rewrite bind_assoc, bind_modify. set (k2 := with_clock _ k1).
    assert (gentle k k2) as H2 by (eapply gentle_trans; [exact H01|]; apply gentle_aside; try done; apply H01).
    destruct (lock_notify_run k2 HARDWARE CLOCK) as (k' & E & Hn); [apply H2|by eapply gentle_known..|].
    rewrite bind_assoc. step E. steps. exists k'.
    pose proof (leaves proc_ptr _ _ _ E) as Hp. pose proof (leaves devices _ _ _ E) as Hdv.
    assert (gentle k k') as Hg by (eapply gentle_trans; [exact H2|exact Hn]).
    assert (devices_ok k2) as Hd2 by (destruct Hd1 as [? [? ?] ? ?]; by split).
    split; [done|]. split.
    { exists ps, b, p0, s, p. split_and!; try done. cbv zeta.
      match goal with |- if ?c then _ else _ => replace c with true by (symmetry; exact Ew) end. exact E. }
    split; [done|]. split; [|split; [done|by injection Hdv]].
    apply (alert_gentle k); [done|done|done| |exact (devices_gentle k2 k' Hn Hdv Hd2)]. by apply (kept bills _ _ _ E).
  - steps. exists k1. split; [done|]. split.
    { exists ps, b, p0, s, p. split_and!; try done. cbv zeta.
      match goal with |- if ?c then _ else _ => replace c with false by (symmetry; exact Ew) end. done. }
    split; [done|]. split; [by apply (alert_gentle k)|done].
Qed.

(** ** Interrupts *)

Lemma get_randomness_run v src bs :
  bins_ok bs → 0 ≤ src < RANDOM_SOURCES → ∃ bs', get_randomness v src bs = Ret tt bs' ∧ bins_ok bs'.
Proof.
  intros [Hl Hb] Hs. unfold get_randomness. rewrite Z.rem_small by done. rewrite bind_get.
  destruct (zget_in bs src) as [x Hx]; [by rewrite Hl|]. rewrite (bind_lift _ _ _ _ Hx).
  assert (∃ y, put_random v x = Some y ∧ 0 ≤ r_next y < RANDOM_ELEMENTS ∧ 0 ≤ r_size y ≤ RANDOM_ELEMENTS ∧
    zlen (r_buf y) = RANDOM_ELEMENTS) as (y & Ey & Hy).
  { destruct (Forall_zget _ _ _ _ Hb Hx) as (Hn & Hsz & Hbuf). unfold put_random.
    rewrite zset_upd by (by rewrite Hbuf). cbn. eexists. split; [done|]. cbn. rewrite zlen_upd.
    split_and!; [apply Z.mod_pos_bound; done|apply Z.mod_pos_bound; done| | |done];
    destruct (Z.ltb_spec (r_size x) RANDOM_ELEMENTS); lia. }
  rewrite (bind_lift _ _ _ _ Ey), bind_zset by (by rewrite Hl). eexists. split; [done|].
  split; [by rewrite zlen_upd|]. apply Forall_upd; done.
Qed.

(** The interrupt is noted for the process of the hook, which is notified. *)
Definition interrupted (h : irq_hook) (k k' : kst) : Prop :=
  ∃ bs p s, zget (procs k) (proc_addr (h_proc_nr h)) = Some p ∧ zget (privs k) (p_priv p) = Some s ∧
    lock_notify HARDWARE (h_proc_nr h)
      (with_privs (upd (privs k) (p_priv p)
         (set_int_pending (Z.lor (s_int_pending s) (Z.shiftl 1 (h_notify_id h))) s)) (with_random bs k)) = Ret OK k'.

Lemma generic_handler_run k i h v :
  alert k → zget (irq_hooks (k_irqs k)) i = Some h → is_line (h_irq h) → known k (h_proc_nr h) →
  ∃ k', generic_handler i v k = Ret (has (h_policy h) IRQ_REENABLE) k' ∧ interrupted h k k' ∧ gentle k k' ∧
    alert k' ∧ proc_ptr k' = proc_ptr k ∧ k_irqs k' = k_irqs k.
Proof.
  intros Ha Hz Hl (p & s & Hp & Hs). pose proof Ha as [Hk Hru Hh Hc Hb Hd]. unfold generic_handler.
  rewrite (bind_on_irqs _ _ _ _ _ (rd_hook_run _ _ _ Hz)).
  replace (with_irqs (k_irqs k) k) with k by (by destruct k).
  destruct (get_randomness_run v (h_irq h) (k_random k) (do_bins _ Hd) Hl) as (bs & E1 & Hbs).
  rewrite (bind_ret _ _ k tt (with_random bs k)) by (by apply zoom_ret).
  rewrite (bind_ret _ _ _ _ _ (upd_priv_of_run _ _ _ _ (with_random bs k) Hp Hs)). set (k1 := with_privs _ _).
  assert (gentle k k1) as H1.
  { split; [|intros c; apply spares_same; [by eapply privs_like_upd|done]].
    change k1 with (with_privs (privs k1) (with_memory (memory k) (with_random bs k))).
    apply kinv_aside; [apply (gentle_aside k); done|by eapply privs_like_upd]. }
  assert (devices_ok k1) as Hd1.
  { destruct Hd as [? ? ? ?]. split; [|done| |done].
    - eapply hooks_for_mono; [intros n; by apply (gentle_known k)|done].
    - eapply alarms_for_mono; [intros n; by apply (gentle_known k)|done]. }
  destruct (lock_notify_run k1 HARDWARE (h_proc_nr h)) as (k' & E & Hn);
    [apply H1|by eapply gentle_known|eapply gentle_known; [done|by exists p, s]|].
  step E. steps. exists k'. split; [done|]. split; [by exists bs, p, s|].
  assert (gentle k k') as Hg by (eapply gentle_trans; [exact H1|exact Hn]). split; [done|].
  pose proof (leaves proc_ptr _ _ _ E) as Hpp. pose proof (leaves devices _ _ _ E) as Hdv.
  split; [|split; [done|by injection Hdv]].
  apply (alert_gentle k); [done|done|done| |exact (devices_gentle k1 k' Hn Hdv Hd1)]. by apply (kept bills _ _ _ E).
Qed.

(** What the handler of a hook does, and whether it is done. *)
Definition handles (h : irq_hook) (k k' : kst) (r : bool) : Prop :=
  match h_handler h with
  | NoHandler => False
  | ClockHandler => ticked k k' ∧ r = true
  | GenericHandler => interrupted h k k' ∧ r = has (h_policy h) IRQ_REENABLE
  end.

Lemma call_handler_run k i h v :
  alert k → zget (irq_hooks (k_irqs k)) i = Some h → is_line (h_irq h) → handled (known k) h →
  ∃ r k', call_handler i v (h_handler h) k = Ret r k' ∧ gentle k k' ∧ alert k' ∧ proc_ptr k' = proc_ptr k ∧
    k_irqs k' = k_irqs k ∧ handles h k k' r.
Proof.
  intros Ha Hz Hl. unfold handled, handles, call_handler. destruct (h_handler h); [done| |].
  - intros _. destruct (clock_handler_run k Ha) as (k' & E & ? & ? & ? & ? & ?). by exists true, k'.
  - intros Hn. destruct (generic_handler_run k i h v Ha Hz Hl Hn) as (k' & E & ? & ? & ? & ? & ?).
    by exists (has (h_policy h) IRQ_REENABLE), k'.
Qed.

(** The hooks [hs] are served in order: each is marked active, its handler
    runs, and it is unmarked if the handler is done. *)
Fixpoint serviced (hs : list irq_hook) (k k' : kst) : Prop :=
  match hs with
  | [] => k' = k
  | h :: hs' => ∃ a k1 r k2 k3,
      on_irqs (act (h_irq h) (λ x, Z.lor x (h_id h))) k = Ret a k1 ∧ handles h k1 k2 r ∧
      (if r then ∃ b, on_irqs (act (h_irq h) (λ x, Z.ldiff x (h_id h))) k2 = Ret b k3 else k3 = k2) ∧
      serviced hs' k3 k'
  end.

Lemma hooks_for_act P s t : zlen t = NR_IRQ_VECTORS → hooks_for P s → hooks_for P (with_actids t s).
Proof.
  intros Ht (L & HL & Hh). exists L. split; [|done]. apply (act_ok L s t (irq_mask s)); done.
Qed.

Lemma alert_irqs k x : hooks_for (known k) x → alert k → alert (with_irqs x k) ∧ gentle k (with_irqs x k).
Proof.
  intros Hx Ha. assert (gentle k (with_irqs x k)) as Hg by (apply gentle_aside; try done; apply Ha).
  split; [|done]. pose proof Ha as [_ _ _ _ Hb Hd]. apply (alert_gentle k); try done. by apply devices_irqs.
Qed.

(** The bits of active hooks change, nothing else at the controllers. *)
Definition acted (k k' : kst) : Prop :=
  gentle k k' ∧ alert k' ∧ proc_ptr k' = proc_ptr k ∧
  ∃ t, zlen t = NR_IRQ_VECTORS ∧ k_irqs k' = with_actids t (k_irqs k).

Lemma acted_trans k1 k2 k3 : acted k1 k2 → acted k2 k3 → acted k1 k3.
Proof.
  intros (Hg1 & _ & Hp1 & t1 & _ & E1) (Hg2 & Ha2 & Hp2 & t2 & Ht2 & E2).
  split_and!; [by eapply gentle_trans|done|congruence|]. exists t2. split; [done|]. by rewrite E2, E1.
Qed.

Lemma act_acted k x f :
  alert k → is_line x → ∃ a k', zget (irq_actids (k_irqs k)) x = Some a ∧ on_irqs (act x f) k = Ret (f a) k' ∧ acted k k' ∧
    zget (irq_actids (k_irqs k')) x = Some (f a).
Proof.
  intros Ha Hx. pose proof (do_hooks _ (al_devices _ Ha)) as Hf. pose proof Hf as (L & HL & _).
  destruct (act_run L (k_irqs k) x f HL Hx) as (a & Hz & E).
  pose proof (zget_Some_range _ _ _ Hz) as Hr. exists a. eexists. split; [done|].
  split; [by apply zoom_ret|].
  assert (zlen (upd (irq_actids (k_irqs k)) x (f a)) = NR_IRQ_VECTORS) as Hl by (by rewrite zlen_upd, (ho_act _ _ HL)).
  destruct (alert_irqs k (with_actids (upd (irq_actids (k_irqs k)) x (f a)) (k_irqs k))) as [Ha' Hg'];
    [by apply hooks_for_act|done|].
  split; [|cbn; by apply zget_upd_eq]. split_and!; [done..|]. by eexists.
Qed.

Lemma bind_rd_hook {B} k i h (f : irq_hook → M kst B) :
  zget (irq_hooks (k_irqs k)) i = Some h → (on_irqs (rd_hook i) ≫= f) k = f h k.
Proof. intros Hz. rewrite (bind_on_irqs _ _ _ _ _ (rd_hook_run _ _ _ Hz)). by destruct k. Qed.

Lemma intr_step_run k i h v :
  alert k → zget (irq_hooks (k_irqs k)) i = Some h → handled (known k) h →
  ∃ k', intr_step v (Some i) k = Ret (inl (h_next h)) k' ∧ acted k k' ∧ ∀ hs k'', serviced hs k' k'' → serviced (h :: hs) k k''.
Proof.
  intros Ha Hz Hh. pose proof (do_hooks _ (al_devices _ Ha)) as (L & HL & _).
  pose proof (ho_irq _ _ HL _ _ Hz) as Hx. cbn [intr_step]. rewrite (bind_rd_hook _ _ _ _ Hz).
  destruct (act_acted k (h_irq h) (λ a, Z.lor a (h_id h)) Ha Hx) as (a1 & k1 & _ & E1 & A1 & _). step E1.
  pose proof A1 as (Hg1 & Ha1 & _ & t1 & Ht1 & I1).
  destruct (call_handler_run k1 i h v Ha1) as (r & k2 & E2 & Hg2 & Ha2 & Hp2 & I2 & Hr2);
    [by rewrite I1|done|by eapply handled_mono; [intros n; by apply (gentle_known k)|]|].
  step E2. assert (acted k1 k2) as A2.
  { split_and!; [done..|]. exists (irq_actids (k_irqs k1)). split; [rewrite I1; done|]. rewrite I2. by destruct (k_irqs k1). }
  assert (∃ k3, when r (_ ← on_irqs (act (h_irq h) (λ a, Z.ldiff a (h_id h))); mret tt) k2 = Ret tt k3 ∧ acted k2 k3 ∧
    if r then ∃ b, on_irqs (act (h_irq h) (λ x, Z.ldiff x (h_id h))) k2 = Ret b k3 else k3 = k2)
    as (k3 & E3 & A3 & R3).
  { unfold when. destruct r.
    - destruct (act_acted k2 (h_irq h) (λ a, Z.ldiff a (h_id h)) Ha2 Hx) as (a & k3 & _ & E3 & A3 & _). step E3.
      exists k3. split_and!; [done..|by eexists].
    - exists k2. split; [done|]. split; [|done]. split_and!; [by apply gentle_refl, Ha2|done|done|].
      exists (irq_actids (k_irqs k2)). split; [rewrite I2, I1; done|]. by destruct (k_irqs k2). }
  step E3. pose proof (acted_trans _ _ _ A1 (acted_trans _ _ _ A2 A3)) as (Hg & Ha' & Hp & t & Ht & I).
  rewrite (bind_rd_hook _ _ h) by (by rewrite I). exists k3. split; [done|].
  split; [split_and!; [done..|by exists t]|]. intros hs k'' Hs. by eexists _, k1, r, k2, k3.
Qed.

Lemma intr_loop fuel k v line l hs :
  alert k → linked (hnx (k_irqs k)) line l → Forall2 (λ i h, zget (irq_hooks (k_irqs k)) i = Some h) l hs →
  Forall (handled (known k)) hs → (length l < fuel)%nat →
  ∃ k', loop fuel (intr_step v) line k = Ret tt k' ∧ acted k k' ∧ serviced hs k k'.
Proof.
  revert k line l hs. induction fuel as [|fuel IH]; intros k line l hs Ha Hl Hls Hh Hf; [lia|]. rewrite loop_S.
  destruct Hls as [|i h l hs Hz Hls].
  - apply linked_nil in Hl as ->. cbn [intr_step]. steps. exists k. split; [done|]. split; [|done].
    split_and!; [by apply gentle_refl, Ha|done|done|]. pose proof (do_hooks _ (al_devices _ Ha)) as (L & HL & _).
    exists (irq_actids (k_irqs k)). split; [apply HL|]. by destruct (k_irqs k).
  - apply linked_cons in Hl as [-> (r & Hr & Hl)]. unfold hnx in Hr. rewrite Hz in Hr. injection Hr as <-.
    apply Forall_cons in Hh as [Hh1 Hh].
    destruct (intr_step_run k i h v Ha Hz Hh1) as (k1 & E1 & A1 & Hs1). step E1. cbv iota.
    pose proof A1 as (Hg1 & Ha1 & _ & t & _ & I1).
    destruct (IH k1 (h_next h) l hs Ha1) as (k' & E' & A' & Hs').
    + by rewrite I1.
    + by rewrite I1.
    + eapply Forall_impl; [exact Hh|]. intros x. apply handled_mono. intros n. by apply (gentle_known k).
    + simpl in Hf. lia.
    + exists k'. split; [done|]. split; [by eapply acted_trans|]. by apply Hs1.
Qed.

(** The hooks of a line. *)
Lemma line_hooks L s x :
  hooks_ok L s → is_line x → ∃ hs, Forall2 (λ i h, zget (irq_hooks s) i = Some h) (L x) hs.
Proof.
  intros HL Hx. assert (∀ l, l ⊆ L x → ∃ hs, Forall2 (λ i h, zget (irq_hooks s) i = Some h) l hs) as H; [|by apply H].
  induction l as [|i l IH]; intros Hl; [by exists []|].
  destruct (hook_get L s x i HL Hx) as [h Hz]; [apply Hl; left|]. destruct IH as [hs Hhs]; [set_solver|].
  exists (h :: hs). by constructor.
Qed.

(** An interrupt on a line: all its handlers run; it stays masked when one of
    them is not done. *)
Definition taken (x : Z) (k k' : kst) : Prop :=
  gentle k k' ∧ alert k' ∧ proc_ptr k' = proc_ptr k ∧
  irq_hooks (k_irqs k') = irq_hooks (k_irqs k) ∧ irq_handlers (k_irqs k') = irq_handlers (k_irqs k) ∧
  ∃ a, zget (irq_actids (k_irqs k')) x = Some a ∧
    ∀ y, is_line y → Z.testbit (irq_mask (k_irqs k')) y = Z.testbit (irq_mask (k_irqs k)) y || ((y =? x) && negb (a =? 0)).

Lemma hwint_run k x v :
  alert k → is_line x → ∃ k', hwint x v k = Ret tt k' ∧ taken x k k' ∧
    ∃ L hs k1, hooks_ok L (k_irqs k) ∧ Forall2 (λ i h, zget (irq_hooks (k_irqs k)) i = Some h) (L x) hs ∧
      serviced hs k k1 ∧ procs k' = procs k1 ∧ privs k' = privs k1.
Proof.
  intros Ha Hx. unfold hwint. pose proof (do_hooks _ (al_devices _ Ha)) as (L & HL & Hh).
  destruct (zget_in (irq_handlers (k_irqs k)) x) as [p Hp]; [by rewrite (ho_heads _ _ HL)|].
  rewrite bind_get, (bind_lift _ _ _ _ Hp). unfold intr_handle.
  destruct (line_hooks L (k_irqs k) x HL Hx) as [hs Hhs].
  destruct (intr_loop irq_fuel k v p (L x) hs Ha) as (k1 & E1 & A1 & S1).
  { by apply HL. } { done. }
  { clear -Hh Hhs Hx. assert (∀ i h, i ∈ L x → zget (irq_hooks (k_irqs k)) i = Some h → handled (known k) h) as H by eauto.
    clear Hh. induction Hhs as [|i h l hs Hz _ IH]; constructor; [apply (H i); [left|done]|]. apply IH.
    intros j hj Hj. apply H. by right. }
  { by eapply line_length. }
  step E1. pose proof A1 as (Hg1 & Ha1 & Hp1 & t & Ht & I1).
  destruct (zget_in t x) as [a Hz]; [by rewrite Ht|].
  rewrite bind_get, (bind_lift _ a) by (by rewrite I1).
  destruct (a =? 0) eqn:Ea; cbn [negb]; unfold when.
  - exists k1. split; [done|]. split; [|by exists L, hs, k1]. split_and!; try done; [by rewrite I1..|].
    exists a. rewrite I1, Ea. split; [done|]. intros y Hy. by rewrite andb_false_r, orb_false_r.
  - set (s1 := with_mask (Z.lor (irq_mask (k_irqs k1)) (Z.shiftl 1 x)) (k_irqs k1)).
    destruct (alert_irqs k1 s1) as [Ha2 Hg2]; [|done|].
    { exists L. split; [|intros y i h Hy Hi Hz'; eapply handled_mono; [intros n; by apply (gentle_known k)|]].
      - unfold s1. rewrite I1. by apply act_ok.
      - apply (Hh y i); [done|done|]. revert Hz'. unfold s1. by rewrite I1. }
    exists (with_irqs s1 k1). split; [done|]. split; [|by exists L, hs, k1].
    split_and!; try done; [by eapply gentle_trans|cbn; by rewrite I1..|].
    exists a. rewrite Ea. split; [cbn; by rewrite I1|]. intros y Hy. destruct Hx. cbn. rewrite I1. cbn.
    rewrite testbit_lor_bit by done. by rewrite andb_true_r, orb_comm.
Qed.

(** ** The clock task *)

(** The processes [ns] are notified by the clock, one after the other. *)
Fixpoint alarmed (ns : list Z) (k k' : kst) : Prop :=
  match ns with
  | [] => k' = k
  | n :: ns' => ∃ k1, lock_notify CLOCK n k = Ret OK k1 ∧ alarmed ns' k1 k'
  end.

(** The processes whose alarms these timers are; [None] when one of them is the
    timer of the shutdown. *)
Fixpoint alarms (ts : list timer) : option (list Z) :=
  match ts with
  | [] => Some []
  | t :: ts' => match tmr_func t with CauseAlarm n => cons n <$> alarms ts' | Shutdown _ => None end
  end.

(** What handlers and the clock task do to the rest. *)
Definition mild (k k' : kst) : Prop :=
  gentle k k' ∧ alert k' ∧ proc_ptr k' = proc_ptr k ∧ realtime k' = realtime k.

Lemma mild_refl k : alert k → mild k k.
Proof. intros Ha. split_and!; [by apply gentle_refl, Ha|done..]. Qed.
Lemma mild_trans k1 k2 k3 : mild k1 k2 → mild k2 k3 → mild k1 k3.
Proof. intros (? & _ & ? & ?) (? & ? & ? & ?). split_and!; [by eapply gentle_trans|done|congruence..]. Qed.

Lemma alert_leaves {A} (c : M kst A) `{!Leaves proc_ptr c, !Leaves devices c, !Leaves realtime c, !Keeps bills c} k a k' :
  c k = Ret a k' → alert k → gentle k k' → mild k k'.
Proof.
  intros E Ha Hg. split; [done|]. split; [|split; [exact (leaves proc_ptr _ _ _ E)|exact (leaves realtime _ _ _ E)]].
  apply (alert_gentle k); [done|done|exact (leaves proc_ptr _ _ _ E)| |].
  - by apply (kept bills _ _ _ E), Ha.
  - eapply devices_gentle; [done|exact (leaves devices _ _ _ E)|apply Ha].
Qed.

Lemma alarms_known (P : Z → Prop) ts ns :
  (∀ t, t ∈ ts → match tmr_func t with CauseAlarm n => P n | Shutdown _ => True end) →
  alarms ts = Some ns → Forall P ns.
Proof.
  revert ns. induction ts as [|t ts IH]; intros ns Ht; cbn [alarms]; [by intros [= <-]|].
  pose proof (Ht t ltac:(left)) as H0. destruct (tmr_func t); [|done]. destruct (alarms ts); [|done].
  intros [= <-]. constructor; [done|]. apply IH; [|done]. intros u Hu. apply Ht. by right.
Qed.

Lemma run_watchdogs_run k ts ns :
  alert k → alarms ts = Some ns → Forall (known k) ns →
  ∃ k', run_watchdogs ts k = Ret tt k' ∧ alarmed ns k k' ∧ mild k k' ∧ devices k' = devices k.
Proof.
  revert k ns. induction ts as [|t ts IH]; intros k ns Ha; cbn [alarms run_watchdogs].
  { intros [= <-] _. exists k. split_and!; [done|done|by apply mild_refl|done]. }
  destruct (tmr_func t) as [n|]; [|done]. destruct (alarms ts) as [ns'|]; [|done]. intros [= <-] [Hn Hns]%Forall_cons.
  destruct (lock_notify_run k CLOCK n (al_inv _ Ha) (al_clock _ Ha) Hn) as (k1 & E1 & Hg1).
  pose proof (alert_leaves _ _ _ _ E1 Ha Hg1) as Hm1. pose proof Hm1 as (_ & Ha1 & _).
  destruct (IH k1 ns' Ha1 eq_refl) as (k' & E' & Hal & Hm & Hd).
  { eapply Forall_impl; [exact Hns|]. intros m. by apply gentle_known. }
  exists k'. unfold cause_alarm. rewrite bind_assoc. step E1. steps. split; [done|]. split; [by exists k1|].
  split; [by eapply mild_trans|]. by rewrite Hd, (leaves devices _ _ _ E1).
Qed.

Section clock_task.
Context `{TL : TimerLib}.

(** The process whose quantum ended goes to the end of a queue. *)
Lemma requeue_prev_run k rp p :
  alert k → zget (procs k) rp = Some p → runnable (procs k) rp →
  ∃ k', when (p_ticks_left p <=? 0) (s ← priv_of rp; when (has (s_flags s) PREEMPTIBLE) (lock_dequeue rp;; lock_enqueue rp)) k
    = Ret tt k' ∧ mild k k' ∧ devices k' = devices k.
Proof.
  intros Ha Hz Hr. pose proof (mild_refl k Ha) as Hm. unfold when. destruct (_ <=? _); [|by exists k].
  pose proof Hr as (p' & Hz' & Hf)%view_Some. assert (p' = p) as -> by congruence.
  destruct (so_priv _ (ki_sched _ (al_inv _ Ha)) _ _ Hz) as (s & Hs & _); [by rewrite Hf|].
  step (priv_of_run _ _ _ _ Hz Hs). destruct (has _ _); [|by exists k].
  destruct (requeue_run k rp (al_inv _ Ha) Hr) as (k1 & k2 & E1 & E2 & Hg).
  assert ((lock_dequeue rp;; lock_enqueue rp) k = Ret tt k2) as E by (by step E1).
  exists k2. split; [done|]. split; [exact (alert_leaves _ _ _ _ E Ha Hg)|]. by apply (leaves devices _ _ _ E).
Qed.

Lemma split_due e r now :
  Forall (λ t, tmr_exp_time t ≤ now) e → Forall (λ t, now < tmr_exp_time t) r →
  filter (λ t, tmr_exp_time t ≤ now) (e ++ r) = e ∧ filter (λ t, now < tmr_exp_time t) (e ++ r) = r.
Proof.
  intros He Hr. rewrite !filter_app. rewrite (filter_all _ e), (filter_none _ r), app_nil_r by
    (done || (eapply Forall_impl; [done|]; simpl; lia)).
  rewrite (filter_none _ e), (filter_all _ r) by (done || (eapply Forall_impl; [done|]; simpl; lia)). done.
Qed.

Lemma do_clocktick_run k rp ns :
  alert k → prev_ptr (k_clock k) = Some rp → runnable (procs k) rp →
  alarms (filter (λ t, tmr_exp_time t ≤ realtime k) (clock_timers (k_clock k))) = Some ns →
  ∃ k', do_clocktick k = Ret EDONTREPLY k' ∧ mild k k' ∧ k_irqs k' = k_irqs k ∧
    clock_timers (k_clock k') = filter (λ t, realtime k < tmr_exp_time t) (clock_timers (k_clock k)) ∧
    (ns ≠ [] → ∃ k1 k2, mild k k1 ∧ alarmed ns k1 k2 ∧ procs k' = procs k2 ∧ privs k' = privs k2).
Proof.
  intros Ha Hp Hr Hns. unfold do_clocktick. rewrite bind_get, (bind_lift _ _ _ _ Hp).
  pose proof Hr as (p & Hz & _)%view_Some. step (rd_proc_run _ _ _ Hz).
  destruct (requeue_prev_run k rp p Ha Hz Hr) as (k1 & E1 & Hm1 & Hd1). step E1. rewrite bind_get.
  pose proof Hd1 as [= Ei Ec _]. pose proof Hm1 as (Hg1 & Ha1 & _ & Et). rewrite Ec, Et. 
  pose proof (do_clock _ (al_devices _ Ha)) as [Hok Hnt]. set (q := clock_timers (k_clock k)) in *.
  destruct (next_timeout (k_clock k) <=? realtime k) eqn:Edue; unfold when.
  - pose proof (exptimers_split q (realtime k) Hok) as Hsp. destruct (tmrs_exptimers q (realtime k)) as [e r].
    destruct Hsp as (Eq & He & Hlr). destruct (split_due e r (realtime k) He Hlr) as [Fe Fr].
    rewrite <- Eq in Fe, Fr. rewrite Fe in Hns. rewrite Fr. rewrite bind_assoc, bind_modify.
    set (k2 := with_clock _ k1). rewrite bind_assoc.
    assert (alert k2 ∧ gentle k1 k2) as [Ha2 Hg2].
    { assert (gentle k1 k2) as Hg2 by (apply gentle_aside; try done; apply Ha1). split; [|done].
      apply (alert_gentle k1); try done; [apply Ha1|]. apply devices_clock; [| |apply Ha1].
      - unfold clock_ok. cbn. split; [|rewrite Ec; eapply Forall_impl; [exact Hlr|]; simpl; lia].
        rewrite Eq in Hok. by eapply timers_ok_app.
      - intros t Ht. apply (do_alarms _ (al_devices _ Ha1)). rewrite Ec. fold q. rewrite Eq. set_solver. }
    assert (Forall (known k2) ns) as Hkn.
    { eapply (alarms_known _ e); [|exact Hns]. intros t Ht. pose proof (do_alarms _ (al_devices _ Ha1) t) as H1.
      rewrite Ec in H1. fold q in H1. rewrite Eq in H1. specialize (H1 ltac:(set_solver)).
      destruct (tmr_func t); [by apply (gentle_known k1)|done]. }
    destruct (run_watchdogs_run k2 e ns Ha2 Hns Hkn) as (k3 & E3 & Hal & Hm3 & Hd3). step E3. rewrite bind_modify. steps.
    pose proof Hd3 as [= Ei3 Ec3 _]. pose proof Hm3 as (Hg3 & Ha3 & Hp3 & Ht3).
    set (k4 := with_clock _ k3). assert (gentle k3 k4) as Hg4 by (apply gentle_aside; try done; apply Ha3).
    assert (clock_timers (k_clock k3) = r) as Ek by (by rewrite Ec3).
    assert (alert k4) as Ha4.
    { apply (alert_gentle k3); try done; [apply Ha3|]. apply devices_clock; [| |apply Ha3].
      - pose proof (do_clock _ (al_devices _ Ha3)) as [Hok3 _]. split; [done|]. by apply first_timeout_le.
      - apply (do_alarms _ (al_devices _ Ha3)). }
    assert (mild k1 k4) as Hm4.
    { eapply mild_trans; [split_and!; [exact Hg2|done|done|done]|]. eapply mild_trans; [exact Hm3|]. by split_and!. }
    exists k4. split; [done|]. split; [by eapply mild_trans|]. split; [cbn; by rewrite Ei3|]. split; [done|].
    intros _. exists k2, k3. split_and!; try done. eapply mild_trans; [exact Hm1|]. by split_and!.
  - apply Z.leb_gt in Edue. destruct (split_due [] q (realtime k)) as [E0 E2]; [done|eapply Forall_impl; [exact Hnt|]; simpl; lia|].
    cbn [app] in E0, E2. rewrite E0 in Hns. injection Hns as <-. steps. exists k1. rewrite Ec. by split_and!.
Qed.
End clock_task.

(** ** Alarms *)

Section alarm_calls.
Context `{TL : TimerLib}.

(** An alarm is set for a system process, or cleared; the time that was left is
    returned. *)
Lemma do_setalarm_run k src exp abs p s :
  clock_ok (k_clock k) → zget (procs k) (proc_addr src) = Some p → zget (privs k) (p_priv p) = Some s →
  if negb (has (s_flags s) SYS_PROC) then do_setalarm src exp abs k = Ret (EPERM, None) k else
  let old := timer_time (clock_timers (k_clock k)) (AlarmTimer (p_priv p)) in
  ∃ c, do_setalarm src exp abs k =
      Ret (OK, Some (if negb (old =? TMR_NEVER) && (realtime k <? old) then old - realtime k else 0)) (with_clock c k) ∧
    clock_ok c ∧
    ∀ t, t ∈ clock_timers c ↔
      (exp ≠ 0 ∧ t = Timer (AlarmTimer (p_priv p)) (if abs then exp else s32 (exp + realtime k)) (CauseAlarm src)) ∨
      (t ∈ clock_timers (k_clock k) ∧ tmr_id t ≠ AlarmTimer (p_priv p)).
Proof.
  intros Hc Hz Hs. unfold do_setalarm. step (priv_of_run _ _ _ _ Hz Hs).
  destruct (has (s_flags s) SYS_PROC); cbn [negb]; [|done]. step (rd_proc_run _ _ _ Hz).
  unfold get_uptime. rewrite bind_assoc. steps.
  destruct (Z.eqb_spec exp 0) as [->|Hne].
  - destruct (reset_timer_run k (AlarmTimer (p_priv p)) Hc) as (c & E & Hok & Hel & _). step E. exists c.
    split_and!; [done|done|]. intros t. rewrite Hel. naive_solver.
  - destruct (set_timer_run k (AlarmTimer (p_priv p)) (if abs then exp else s32 (exp + realtime k)) (CauseAlarm src) Hc)
      as (c & E & Hok & Hel & _). step E. exists c. split_and!; [done|done|]. intros t. rewrite Hel. naive_solver.
Qed.

Lemma do_setalarm_mild k src exp abs :
  alert k → known k src → ∃ r k', do_setalarm src exp abs k = Ret r k' ∧ mild k k' ∧ k_irqs k' = k_irqs k.
Proof.
  intros Ha (p & s & Hz & Hs). pose proof (do_clock _ (al_devices _ Ha)) as Hc.
  pose proof (do_setalarm_run k src exp abs p s Hc Hz Hs) as Hrun. pose proof (mild_refl k Ha) as Hm.
  destruct (negb _); [by exists (EPERM, None), k|]. destruct Hrun as (c & E & Hok & Hel).
  eexists _, _. split; [exact E|]. split; [|done].
  assert (gentle k (with_clock c k)) as Hg by (apply gentle_aside; try done; apply Ha).
  split_and!; [done| |done|done]. apply (alert_gentle k); try done; [apply Ha|].
  apply devices_clock; [done| |apply Ha]. intros t [[_ ->]|[Ht _]]%Hel; [by exists p, s|].
  by apply (do_alarms _ (al_devices _ Ha)).
Qed.
End alarm_calls.

(** ** Interrupt control *)

(** The identifier that the next hook of the line gets is not in use there. *)
Definition fresh_id (s : irqs) (irq : Z) : Prop :=
  ∀ L, hooks_ok L s → Forall (λ j, hook_id s j ≠ Some (bit_of (length (L irq)))) (L irq).

Definition irq_proper (k : kst) (request vec id : Z) : Prop :=
  if request =? IRQ_SETPOLICY then is_line vec → fresh_id (k_irqs k) vec else 0 < id < 2 ^ 31.

Lemma with_irqs_same k : with_irqs (k_irqs k) k = k.
Proof. by destruct k. Qed.

Lemma hook_owner_run k id :
  0 ≤ id → (∃ L, hooks_ok L (k_irqs k)) →
  (hook_owner id k = Ret None k) ∨
  ∃ h, zget (irq_hooks (k_irqs k)) id = Some h ∧ hook_owner id k = Ret (Some (h_proc_nr h)) k ∧ h_proc_nr h ≠ NONE.
Proof.
  intros Hid [L HL]. unfold hook_owner. destruct (Z.leb_spec NR_IRQ_HOOKS id); [by left|].
  destruct (zget_in (irq_hooks (k_irqs k)) id) as [h Hz]; [rewrite (ho_hooks _ _ HL); lia|].
  rewrite (bind_rd_hook _ _ _ _ Hz). destruct (Z.eqb_spec (h_proc_nr h) NONE); [by left|]. right. by exists h.
Qed.

Lemma free_hook_spec s i : free_hook s = Some i → 0 ≤ i < NR_IRQ_HOOKS ∧ ∃ h, zget (irq_hooks s) i = Some h ∧ h_proc_nr h = NONE.
Proof.
  unfold free_hook. intros [Hi Hb]%List.find_some. destruct (zget (irq_hooks s) i) as [h|] eqn:E; [|done].
  apply Z.eqb_eq in Hb. split; [|by exists h].
  assert (∀ n b, In i (range b n) → b ≤ i < b + Z.of_nat n) as Hr.
  { clear. intros n. induction n as [|n IH]; intros b; [done|]. rewrite range_S. intros [->|H%IH]; lia. }
  by apply (Hr _ _ Hi).
Qed.

(** A new policy: a free hook becomes the last of the line, for the caller. *)
Lemma set_policy_run P s src vec notify pol i h L :
  hooks_ok L s → (∀ x j h, is_line x → j ∈ L x → zget (irq_hooks s) j = Some h → handled P h) →
  is_line vec → fresh_id s vec → zget (irq_hooks s) i = Some h → h_proc_nr h = NONE → src ≠ NONE → P src →
  ∃ s', (upd_hook i (set_request src notify pol);; put_irq_handler i vec GenericHandler) s = Ret tt s' ∧
    hooks_ok (put_line L vec (L vec ++ [i])) s' ∧ hooks_for P s' ∧
    faces s' i = Some (GenericHandler, vec, bit_of (length (L vec)), src, notify, pol) ∧
    ∀ j, j ≠ i → faces s' j = faces s j.
Proof.
  intros HL Hh Hv Hf Hz Hn Hsrc HP. step (upd_hook_run _ _ (set_request src notify pol) _ Hz).
  pose proof (zget_Some_range _ _ _ Hz) as Hr. set (h1 := set_request src notify pol h).
  assert (∀ x, is_line x → i ∉ L x) as Hoff by (intros x Hx Hi; by destruct (ho_in _ _ HL x i h Hx Hi Hz)).
  pose proof (offline_ok L s i h1 HL Hoff Hr (ho_irq _ _ HL _ _ Hz)) as HL1. set (s1 := with_hooks _ s) in *.
  destruct (zget_in (irq_handlers s) vec) as [p Hp]; [by rewrite (ho_heads _ _ HL)|].
  assert (zget (irq_hooks s1) i = Some h1) as Hz1 by (by apply zget_upd_eq).
  destruct (put_irq_handler_run L s1 vec i p HL1 Hv Hp GenericHandler h1 Hoff Hz1 Hsrc) as (s2 & E2 & HL2 & _ & _ & Hf2).
  { pose proof (Hf L HL) as HF. rewrite Forall_forall in HF |- *. intros j Hj. unfold hook_id. cbn.
    rewrite zget_upd_ne; [by apply HF|lia|]. intros ->. by apply (Hoff vec). }
  exists s2. assert (∀ j, j ≠ i → faces s2 j = faces s j) as Hf3.
  { intros j Hj. rewrite Hf2. destruct (Z.eqb_spec i j); [done|]. unfold faces. cbn. by rewrite zget_upd_ne by lia. }
  assert (faces s2 i = Some (GenericHandler, vec, bit_of (length (L vec)), src, notify, pol)) as Hfi.
  { rewrite Hf2, Z.eqb_refl. done. }
  split_and!; [done|done| |done|done]. exists (put_line L vec (L vec ++ [i])). split; [done|].
  intros x j hj Hx Hj Hzj. destruct (Z.eq_dec j i) as [->|Hne].
  - unfold faces in Hfi. rewrite Hzj in Hfi. apply (inj Some) in Hfi. unfold handled. by injection Hfi as -> _ _ -> _ _.
  - specialize (Hf3 j Hne). unfold faces in Hf3. rewrite Hzj in Hf3.
    destruct (zget (irq_hooks s) j) as [h0|] eqn:Hz0; [|done]. apply (inj Some) in Hf3.
    eapply handled_face; [exact Hf3|]. apply (Hh x j); [done| |done]. revert Hj. unfold put_line.
    destruct (Z.eqb_spec x vec) as [->|]; [|done]. intros [?| ->%list_elem_of_singleton]%elem_of_app; done.
Qed.

Lemma do_irqctl_run k src request vec pol id :
  devices_ok k → known k src → src ≠ NONE → irq_proper k request vec id →
  ∃ r x, do_irqctl src request vec pol id k = Ret r (with_irqs x k) ∧ hooks_for (known k) x.
Proof.
  intros Hd Hsrc Hnone Hp. pose proof (do_hooks _ Hd) as Hf. pose proof Hf as (L & HL & Hh).
  assert (∀ r, ∃ r' x, (Ret r k : outcome kst (Z * option Z)) = Ret r' (with_irqs x k) ∧ hooks_for (known k) x) as Hsame.
  { intros r. exists r, (k_irqs k). by rewrite with_irqs_same. }
  unfold do_irqctl, irq_proper in *.
  assert (request ≠ IRQ_SETPOLICY → s32 (u32 id - 1) = id - 1 ∧ 0 ≤ id - 1) as Hid.
  { intros Hr. destruct (Z.eqb_spec request IRQ_SETPOLICY); [done|]. unfold s32, u32. rewrite (Z.mod_small id) by lia.
    rewrite Z.mod_small; lia. }
  destruct ((request =? IRQ_ENABLE) || (request =? IRQ_DISABLE)) eqn:Esw; [|destruct (Z.eqb_spec request IRQ_SETPOLICY) as [->|Hns]].
  - destruct Hid as [-> Hid]; [intros ->; done|].
    destruct (hook_owner_run k (id - 1) Hid (ex_intro _ L HL)) as [E|(h & Hz & E & _)]; step E; [steps; apply Hsame|].
    destruct (negb _); [apply Hsame|]. destruct (request =? IRQ_ENABLE).
    + destruct (enable_irq_run L _ _ _ HL Hz) as (a & s' & _ & E' & HL' & Eh & _).
      rewrite (bind_on_irqs _ _ _ _ _ E'). eexists _, s'. split; [done|]. exists L. split; [done|].
      rewrite Eh. exact Hh.
    + destruct (disable_irq_run L _ _ _ HL Hz) as (s' & E' & HL' & Eh & _).
      rewrite bind_assoc, (bind_on_irqs _ _ _ _ _ E'). steps. eexists _, s'. split; [done|]. exists L. split; [done|].
      rewrite Eh. exact Hh.
  - destruct ((vec <? 0) || (NR_IRQ_VECTORS <=? vec)) eqn:Ev; [apply Hsame|].
    apply orb_false_iff in Ev as [Ev1%Z.ltb_ge Ev2%Z.leb_gt]. assert (is_line vec) as Hv by done.
    rewrite bind_get. destruct (free_hook (k_irqs k)) as [i|] eqn:Ei; [|apply Hsame].
    destruct (free_hook_spec _ _ Ei) as (_ & h & Hz & Hn). destruct (31 <? _); [apply Hsame|].
    destruct (set_policy_run (known k) (k_irqs k) src vec (s32 id) pol i h L HL Hh Hv (Hp Hv) Hz Hn Hnone Hsrc)
      as (s' & E & _ & Hf' & _ & _). apply bind_ret_inv in E as ([] & s1 & E1 & E2).
    rewrite (bind_on_irqs _ _ _ _ _ E1). rewrite (bind_on_irqs _ _ (with_irqs s1 k) tt s' E2).
    by eexists _, s'.
  - destruct (Z.eqb_spec request IRQ_RMPOLICY); [|apply Hsame]. destruct Hid as [-> Hid]; [done|].
    destruct (hook_owner_run k (id - 1) Hid (ex_intro _ L HL)) as [E|(h & Hz & E & _)]; step E; [steps; apply Hsame|].
    destruct (negb _); [apply Hsame|].
    destruct (rm_irq_handler_run L _ _ _ HL Hz) as (s' & E' & (Hfc & _) & HL').
    rewrite (bind_on_irqs _ _ _ _ _ E'). eexists _, s'. split; [done|]. eexists. split; [exact HL'|].
    intros x j hj Hx Hj Hzj. destruct (faces_get _ _ _ _ Hfc Hzj) as (h0 & Hz0 & Hf0).
    eapply handled_face; [exact Hf0|]. apply (Hh x j); [done| |done]. revert Hj. unfold put_line.
    destruct (Z.eqb_spec x (h_irq h)) as [->|]; [|done]. by intros [_ ?]%list_elem_of_filter.
Qed.

(** ** What the calls for devices keep *)

#[global] Instance keeps_set_timer R `{!Frame R} `{!Aside R} `{TimerLib} t e w : Keeps R (set_timer t e w).
Proof.
  intros k a k'. unfold set_timer. rewrite bind_get. destruct (tmrs_settimer _ _); [done|].
  intros [= _ <-]. apply aside_clock.
Qed.
#[global] Instance keeps_do_setalarm R `{!Frame R} `{!Aside R} `{TimerLib} s e b : Keeps R (do_setalarm s e b).
Proof. unfold do_setalarm, get_uptime. keeps_by. Qed.
#[global] Instance keeps_do_times R `{!Frame R} s n : Keeps R (do_times s n).
Proof. unfold do_times, get_uptime. keeps_by. Qed.
#[global] Instance keeps_do_irqctl R `{!Frame R} `{!Aside R} s a b c d : Keeps R (do_irqctl s a b c d).
Proof. unfold do_irqctl, hook_owner. keeps_by. Qed.

(** ** Start of the tasks *)

Definition no_lines : Z → list Z := λ _, [].

Lemma init_hooks_run n :
  ∀ s b, hooks_ok no_lines s → 0 ≤ b → b + Z.of_nat n ≤ NR_IRQ_HOOKS + 1 →
  ∃ s', init_hooks (range b n) s = Ret tt s' ∧ hooks_ok no_lines s' ∧ irq_actids s' = irq_actids s ∧ irq_mask s' = irq_mask s.
Proof.
  induction n as [|n IH]; intros s b Ho Hb Hn; [by exists s|]. rewrite range_S. cbn [init_hooks].
  destruct (zget_in (irq_hooks s) b) as [h Hz]; [rewrite (ho_hooks _ _ Ho); lia|].
  step (upd_hook_run _ _ (set_owner NONE) _ Hz).
  assert (hooks_ok no_lines (with_hooks (upd (irq_hooks s) b (set_owner NONE h)) s)) as Ho1.
  { apply offline_ok; [done|intros x _; apply not_elem_of_nil|by eapply zget_Some_range|]. by apply (ho_irq _ _ Ho _ _ Hz). }
  destruct (IH _ (b + 1) Ho1) as (s' & E & Ho' & ? & ?); [lia|lia|]. by exists s'.
Qed.

(** The clock's hook is the first on its line, and the line is open. *)
Lemma init_clock_run k P :
  hooks_ok no_lines (k_irqs k) → zget (irq_actids (k_irqs k)) CLOCK_IRQ = Some 0 →
  ∃ x, init_clock k = Ret tt (with_irqs x k) ∧ hooks_for P x ∧ hooks_ok (put_line no_lines CLOCK_IRQ [clock_hook]) x ∧
    Z.testbit (irq_mask x) CLOCK_IRQ = false.
Proof.
  intros Ho Hact. set (s := k_irqs k) in *.
  destruct (zget_in (irq_hooks s) clock_hook) as [h Hz]; [by rewrite (ho_hooks _ _ Ho)|].
  unfold init_clock. rewrite (bind_on_irqs _ _ _ _ _ (upd_hook_run _ _ (set_owner CLOCK) _ Hz)).
  set (h1 := set_owner CLOCK h). set (s1 := with_hooks _ _).
  assert (hooks_ok no_lines s1) as Ho1.
  { apply offline_ok; [done|intros x _; apply not_elem_of_nil|by eapply zget_Some_range|]. by apply (ho_irq _ _ Ho _ _ Hz). }
  assert (zget (irq_hooks s1) clock_hook = Some h1) as Hz1 by (apply zget_upd_eq; by rewrite (ho_hooks _ _ Ho)).
  destruct (zget_in (irq_handlers s1) CLOCK_IRQ) as [p Hp]; [by rewrite (ho_heads _ _ Ho1)|].
  destruct (put_irq_handler_run no_lines s1 CLOCK_IRQ clock_hook p Ho1 ltac:(done) Hp ClockHandler h1)
    as (s2 & E2 & Ho2 & Ha2 & Hm2 & Hf2); [intros x _; apply not_elem_of_nil|done|done|done|].
  rewrite (bind_on_irqs _ _ (with_irqs s1 k) tt s2 E2). change (with_irqs s2 (with_irqs s1 k)) with (with_irqs s2 k).
  pose proof (Hf2 clock_hook) as Hfc. rewrite Z.eqb_refl in Hfc. unfold faces in Hfc.
  destruct (zget (irq_hooks s2) clock_hook) as [h2|] eqn:Hz2; [|done]. apply (inj Some) in Hfc.
  injection Hfc as Hh2 Hi2 Hid2 _ _ _.
  destruct (enable_irq_run _ s2 clock_hook h2 Ho2 Hz2) as (a & s3 & Ha & E3 & Ho3 & Ek3 & _ & Hm3).
  exists s3. split; [exact (zoom_ret k_irqs with_irqs _ (with_irqs s2 k) tt s3 E3)|]. split; [|split; [done|]].
  - eexists. split; [exact Ho3|]. intros x i hi Hx Hi Hzi. unfold put_line in Hi.
    destruct (x =? CLOCK_IRQ); [|by apply not_elem_of_nil in Hi]. apply list_elem_of_singleton in Hi as ->.
    rewrite Ek3, Hz2 in Hzi. injection Hzi as <-. unfold handled. by rewrite Hh2.
  - rewrite Hm3 by done. rewrite Hi2. assert (a = 0) as ->.
    { rewrite Hi2, Ha2 in Ha. assert (Some a = Some 0) as [= ->] by (by rewrite <- Ha, <- Hact). done. }
    done.
Qed.

Lemma alarms_elem ts ns n i e : alarms ts = Some ns → Timer i e (CauseAlarm n) ∈ ts → n ∈ ns.
Proof.
  revert ns. induction ts as [|t ts IH]; intros ns; cbn [alarms]; [intros _ Hi; by apply not_elem_of_nil in Hi|].
  destruct (tmr_func t) as [m|] eqn:Et; [|done]. destruct (alarms ts) as [ns'|]; [|done]. intros [= <-].
  intros [<-|Hi]%elem_of_cons; [cbn in Et; injection Et as ->; left|right; by apply IH].
Qed.
