(* ===== verification/KernelRequests.v ===== *)
(** * Requests to the SYSTEM task of the reference kernel

    The kernel calls as the call vector of [reference/minix/kernel/system.c]
    dispatches them, which of them the handlers can serve ([proper]), and that
    they are served: the handler returns with the kernel in order, and touches
    one process at most. *)

From S2P Require Import Prelude Linked Irq Timers Ipc IpcQueues IpcInv IpcSpec KernelBoot IpcTheorems Clock IrqSpec KernelCalls KernelFrame KernelCallsSpec DevicesSpec ProcessCalls Interrupts InterruptsSpec.

(** ** Requests to the SYSTEM task *)

(** The requests with the fields of their messages. *)
Inductive request : Type :=
  | Fork (child parent : Z)
  | Exit (proc_nr : Z)
  | Nice (proc_nr pri : Z)
  | Kill (proc_nr sig : Z)
  | Getksig
  | Endksig (proc_nr : Z)
  | Setalarm (exp_time : Z) (abs_time : bool)
  | Times (proc_nr : Z)
  | Irqctl (request vector policy hook_id : Z).

Section requests.
Context `{TL : TimerLib}.

(** The handler that the call vector has for a request, with its result. *)
Definition serve (m_source : Z) (r : request) : M kst Z :=
  match r with
  | Fork child parent => do_fork child parent
  | Exit n => do_exit m_source n
  | Nice n pri => do_nice n pri
  | Kill n sig => do_kill m_source n sig
  | Getksig => _ ← do_getksig; mret OK
  | Endksig n => do_endksig n
  | Setalarm t abs => r ← do_setalarm m_source t abs; mret r.1
  | Times n => _ ← do_times m_source n; mret OK
  | Irqctl req vec pol id => r ← do_irqctl m_source req vec pol id; mret r.1
  end.

Definition int32 (n : Z) : Prop := - 2 ^ 31 ≤ n < 2 ^ 31.

(** The process that a request to exit is about. *)
Definition exiting (m_source n : Z) : Z :=
  if (PM_PROC_NR =? m_source) && negb (n =? SELF) then n else m_source.

Definition in_use (k : kst) (n : Z) : Prop :=
  ∃ p, zget (procs k) (proc_addr n) = Some p ∧ p_rts_flags p ≠ SLOT_FREE.

(** The requests that the handlers can serve. A fork needs a parent and a slot
    that nobody waits for, and a parent that does not wait to send; a process
    that exits is not a task; a signal is for a process; alarms and interrupts
    are for a caller that exists, the times of the caller itself cannot be asked
    for, and hook identifiers start at 1. *)
Definition proper (k : kst) (m_source : Z) (r : request) : Prop :=
  match r with
  | Fork child parent =>
      ∃ pp pc, zget (procs k) (proc_addr parent) = Some pp ∧ zget (procs k) (proc_addr child) = Some pc ∧
        p_caller_q pc = None ∧ p_caller_q pp = None ∧ has (p_rts_flags pp) SENDING = false
  | Exit n =>
      int32 n ∧ 0 ≤ exiting m_source n ∧ (isokprocn (exiting m_source n) = true → in_use k (exiting m_source n)) ∧
      (exiting m_source n = m_source → isokprocn m_source = true)
  | Nice n _ => int32 n
  | Kill n _ => int32 n ∧ in_use k n
  | Getksig => True
  | Endksig n => in_use k n
  | Setalarm _ _ => known k m_source
  | Times n => int32 n ∧ (n = SELF → isokprocn m_source = false)
  | Irqctl req vec _ id => known k m_source ∧ m_source ≠ NONE ∧ irq_proper k req vec id
  end.

(** What a request leaves alone, besides one process [rp]. *)
Definition touches (rp : Z) (k k' : kst) : Prop :=
  privs_like (privs k) (privs k') ∧
  (∀ i, i ≠ rp → view p_priv (procs k') i = view p_priv (procs k) i) ∧
  (∀ m, known k m → known k' m) ∧
  ∀ i, i ≠ rp → runnable (procs k) i → runnable (procs k') i.

Lemma touches_same rp k k' :
  privs k' = privs k → (∀ i, view p_priv (procs k') i = view p_priv (procs k) i) →
  (∀ i, runnable (procs k) i → runnable (procs k') i) → touches rp k k'.
Proof.
  intros Hp Hv Hr. split_and!; [by rewrite Hp|intros; apply Hv|intros m; by apply known_same|auto].
Qed.

(** The request does not touch a task that can run. *)
Definition spares_tasks (rp : Z) (k : kst) : Prop := ∀ i, runnable (procs k) i → i < NR_TASKS → i ≠ rp.

Lemma spares_tasks_process rp k : NR_TASKS ≤ rp → spares_tasks rp k.
Proof. intros Hrp i _ Hi. lia. Qed.

Lemma spares_tasks_none k : spares_tasks (-1) k.
Proof. intros i (p & Hz & _)%view_Some _. apply zget_Some_range in Hz. lia. Qed.

Lemma spares_tasks_blocked rp p k :
  zget (procs k) rp = Some p → p_rts_flags p ≠ 0 → spares_tasks rp k.
Proof. intros Hz Hf i Hi _ ->. by eapply blocked_not_runnable. Qed.

(** A request comes back with a result, in order, and leaves the tasks alone. *)
Definition answered (k : kst) (o : outcome kst Z) : Prop :=
  ∃ r k' rp, o = Ret r k' ∧ korder k' ∧ touches rp k k' ∧ spares_tasks rp k.

(** The tables of the devices are in order, too. *)
Definition served (k : kst) (o : outcome kst Z) : Prop :=
  ∃ r k' rp, o = Ret r k' ∧ korder k' ∧ devices_ok k' ∧ touches rp k k' ∧ spares_tasks rp k.

Lemma answered_served (c : M kst Z) `{!Leaves devices c} k : devices_ok k → answered k (c k) → served k (c k).
Proof.
  intros Hd (r & k' & rp & E & Hk' & Ht & Hs). exists r, k', rp. split_and!; try done.
  eapply leaves_devices_ok; [exact _|exact E|apply Ht|done].
Qed.

Lemma answered_none k r : korder k → answered k (Ret r k).
Proof. intros Hk. exists r, k, (-1). split_and!; [done..|by apply touches_same|apply spares_tasks_none]. Qed.

Lemma forked_touches k k' n m pp pc :
  zget (procs k) (proc_addr m) = Some pp → zget (procs k) (proc_addr n) = Some pc →
  is_Some (zget (privs k) USER_PRIV_ID) → forked k n m pp k' → touches (proc_addr n) k k'.
Proof.
  intros Hpp Hpc [u Hu] (c & s & Hps & Hc & Hp & Hoth & Hprv & Ec).
  assert (∀ A (f : proc → A) i, f (set_ticks (Z.quot (p_ticks_left pp) 2) pp) = f pp → i ≠ proc_addr n →
    view f (procs k') i = view f (procs k) i) as Hv.
  { intros A f i Hf Hi. unfold view. destruct (Z.eq_dec i (proc_addr m)) as [->|]; [|by rewrite Hoth].
    rewrite Hp, Hpp. simpl. by rewrite Hf. }
  split; [by rewrite Hprv|]. split; [intros i Hi; by apply Hv|]. split.
  - intros x (p & sx & Hx & Hsx). rewrite <- Hprv in *. destruct (Z.eq_dec (proc_addr x) (proc_addr n)) as [Ex|Hx'].
    + rewrite <- Ex in Hc. destruct (has (s_flags s) SYS_PROC); subst c; [by eexists _, u|by eexists _, s].
    + pose proof (Hv _ p_priv _ eq_refl Hx') as Hvx. rewrite (view_get _ _ _ _ Hx) in Hvx.
      apply view_Some in Hvx as (p' & Hx2 & E). exists p', sx. by rewrite E.
  - intros i Hi Hr. unfold runnable. by rewrite Hv.
Qed.

Lemma fork_answered k src child parent :
  korder k → proper k src (Fork child parent) → answered k (do_fork child parent k).
Proof.
  intros Hk (pp & pc & Hpp & Hpc & Hq & Hpq & Hs).
  destruct (do_fork_run k child parent pp pc Hpp Hpc Hk Hq Hpq Hs) as (r & k' & E & Hk' & Hno & Hiff & Hf).
  rewrite E. destruct (Z.eq_dec r OK) as [->|Hr]; [|rewrite (Hno Hr); by apply answered_none].
  destruct (proj1 Hiff eq_refl) as [_ Hcf]. exists OK, k', (proc_addr child).
  split; [done|]. split; [done|]. split; [|eapply spares_tasks_blocked; [exact Hpc|by rewrite Hcf]].
  apply (forked_touches k k' child parent pp pc Hpp Hpc); [|by apply Hf]. apply zget_in.
  by rewrite (proj1 (ki_privs _ (proj1 Hk))).
Qed.

Lemma nice_answered k n pri : korder k → int32 n → answered k (do_nice n pri k).
Proof.
  intros Hk Hn. destruct (do_nice_run k n pri Hk Hn) as (r & k' & E & Hk' & _ & Hf & Hv & Hp & _).
  exists r, k', (-1). split; [done|]. split; [done|]. split; [|apply spares_tasks_none].
  apply touches_same; [done..|]. intros i. unfold runnable. by rewrite Hf.
Qed.

Lemma kill_answered k src n sig :
  korder k → known k SYSTEM → known k PM_PROC_NR → proper k src (Kill n sig) → answered k (do_kill src n sig k).
Proof.
  intros Hk HS HP (Hn & p & Hz & Hfr).
  destruct (decide (0 ≤ n)) as [Hpos|Hneg].
  - destruct (do_kill_run k src n sig p Hk HS HP Hn Hz Hfr) as (r & k' & E & Hk' & Hl & Hv & Hru & _).
    exists r, k', (proc_addr n). split; [done|]. split; [done|].
    split; [|apply spares_tasks_process; unfold proc_addr; lia].
    split_and!; [done|by intros|intros m; by apply known_like|done].
  - unfold do_kill. assert (iskerneln n = true) as -> by (by apply Z.ltb_lt; lia).
    destruct (_ || _); by apply answered_none.
Qed.

Lemma getksig_answered k : korder k → answered k ((_ ← do_getksig; mret OK) k).
Proof.
  intros Hk. destruct (getksig_run k NR_TASKS (Z.to_nat NR_PROCS) Hk) as [[E _]|(i & p & _ & Hz & Hs & E & Hk')];
    [done|done| |]; unfold do_getksig; step E; [by apply answered_none|].
  eexists OK, _, (-1). split; [done|]. split; [done|]. split; [|apply spares_tasks_none].
  apply touches_same; [done|intros j; by eapply view_same|]. intros j. unfold runnable. cbn.
  rewrite view_upd by (by eapply zget_Some_range). destruct (Z.eqb_spec i j) as [<-|]; [|done].
  rewrite (view_get _ _ _ _ Hz). intros [= E0]. by rewrite E0 in Hs.
Qed.

Lemma endksig_answered k n : korder k → in_use k n → answered k (do_endksig n k).
Proof.
  intros Hk (p & Hz & Hfr).
  destruct (do_endksig_run k n p Hk Hz Hfr) as (r & k' & E & Hk' & Hno & Hiff & Hv & Hp & Hf).
  rewrite E. destruct (Z.eq_dec r OK) as [->|Hr]; [|rewrite (Hno Hr); by apply answered_none].
  exists OK, k', (-1). split; [done|]. split; [done|]. split; [|apply spares_tasks_none].
  apply touches_same; [done|intros i; by apply held_views|]. intros i Hi. unfold runnable. rewrite Hf by done.
  destruct (Z.eqb_spec i (proc_addr n)) as [->|]; cbn [andb]; [|done].
  apply (runnable_flags _ _ _ Hz) in Hi. apply proj1 in Hiff. specialize (Hiff eq_refl).
  by rewrite Hi in Hiff.
Qed.

Lemma exit_served k src n : korder k → devices_ok k → proper k src (Exit n) → served k (do_exit src n k).
Proof.
  intros Hk Hd (Hn & Hpos & Huse & Hsrc).
  assert (∀ r, served k (Ret r k)) as Hno by (intros r; apply (answered_served (mret r)); [done|by apply answered_none]).
  destruct (decide (isokprocn (exiting src n) = true)) as [Hok|Hok].
  - destruct (Huse Hok) as (p & Hz & Hfr).
    destruct (do_exit_run k src n p Hk Hd Hn (λ _, conj Hz Hfr) Hsrc) as (r & k' & E & Hk' & Hd' & Hl & Hh & Hsame & Hf).
    rewrite E. destruct (Z.eq_dec r EINVAL) as [Hr|Hr]; [rewrite (Hsame Hr); apply Hno|].
    exists r, k', (proc_addr (exiting src n)). split; [done|]. split; [done|]. split; [done|].
    split; [|apply spares_tasks_process; unfold proc_addr; lia]. split; [done|].
    assert (∀ i, view p_priv (procs k') i = view p_priv (procs k) i) as Hv by (intros i; by apply held_views).
    split; [by intros|]. split; [intros m; by apply known_like|]. intros i Hi Hru.
    unfold runnable. rewrite (Hf Hr). fold (exiting src n).
    by destruct (Z.eqb_spec i (proc_addr (exiting src n))).
  - unfold exiting in *. unfold do_exit. destruct ((PM_PROC_NR =? src) && negb (n =? SELF)).
    + destruct (isokprocn n); [done|]. apply Hno.
    + by destruct Hok; apply Hsrc.
Qed.

(** Requests about devices change nothing else. *)
Lemma device_served k k' r : korder k' → devices_ok k' → procs k' = procs k → privs k' = privs k → served k (Ret r k').
Proof.
  intros Hk Hd Hp Hs. exists r, k', (-1). split_and!; [done..| |apply spares_tasks_none].
  apply touches_same; [done|by rewrite Hp|by rewrite Hp].
Qed.

Lemma setalarm_served k src t abs :
  korder k → devices_ok k → known k src → served k ((r ← do_setalarm src t abs; mret r.1) k).
Proof.
  intros Hk Hd (p & s & Hz & Hs). pose proof (do_setalarm_run k src t abs p s (do_clock _ Hd) Hz Hs) as E.
  destruct (negb _); [step E; by apply device_served|]. destruct E as (c & E & Hc & Hel). step E.
  apply device_served; [by apply korder_clock| |done|done]. destruct Hd as [? ? Ha ?]. split; [done|done| |done].
  intros u [[_ ->]|[Hu _]]%Hel; [by exists p, s|by apply Ha].
Qed.

Lemma times_served k src n : korder k → devices_ok k → proper k src (Times n) → served k ((_ ← do_times src n; mret OK) k).
Proof.
  intros Hk Hd [Hn Hself]. assert (∃ r, do_times src n k = Ret r k) as [r E].
  { unfold do_times, get_uptime. destruct (Z.eqb_spec n SELF) as [->|Hne].
    - rewrite Hself by done. steps. by eexists.
    - destruct (isokprocn n) eqn:Ho; [|steps; by eexists]. destruct (slot_of k n (proj1 Hk) Hn Ho) as (p & Hz & _).
      rewrite bind_assoc. step (rd_proc_run _ _ _ Hz). steps. by eexists. }
  step E. by apply device_served.
Qed.

Lemma irqctl_served k src req vec pol id :
  korder k → devices_ok k → proper k src (Irqctl req vec pol id) →
  served k ((r ← do_irqctl src req vec pol id; mret r.1) k).
Proof.
  intros Hk Hd (Hs & Hn & Hp). destruct (do_irqctl_run k src req vec pol id Hd Hs Hn Hp) as (r & x & E & Hx). step E.
  apply device_served; [by apply korder_irqs| |done|done]. destruct Hd. by split.
Qed.

Lemma serve_run k src r :
  korder k → devices_ok k → known k SYSTEM → known k PM_PROC_NR → proper k src r → served k (serve src r k).
Proof.
  intros Hk Hd HS HP Hr. destruct r; cbn [serve].
  - apply answered_served; [exact _|done|]. by eapply fork_answered.
  - by apply exit_served.
  - apply answered_served; [exact _|done|]. by apply nice_answered.
  - apply answered_served; [exact _|done|]. by apply kill_answered.
  - apply (answered_served (_ ← do_getksig; mret OK)); [done|]. by apply getksig_answered.
  - apply answered_served; [exact _|done|]. by apply endksig_answered.
  - by apply setalarm_served.
  - by apply times_served.
  - by apply irqctl_served.
Qed.

#[global] Instance keeps_serve R `{!Frame R} `{!Aside R} src r : Keeps R (serve src r).
Proof. destruct r; cbn [serve]; keeps_by. Qed.
End requests.
