(* ===== verification/KernelTheorems.v ===== *)
(** * The reference kernel as a whole

    Traps, notifications, ends of quanta, interrupts on every line, the clock
    task, and the kernel calls that the SYSTEM task serves, in any order: the
    kernel stays in order, and the process chosen on leaving the kernel is the
    most urgent one. A handler or a kernel call is one step. *)

From S2P Require Import Prelude Linked Irq Timers Ipc IpcQueues IpcInv IpcSpec KernelBoot IpcTheorems Clock IrqSpec KernelCalls KernelFrame KernelCallsSpec DevicesSpec ProcessCalls Interrupts InterruptsSpec KernelRequests.

(** ** The system *)

Section system.
Context `{TL : TimerLib}.

(** No timer that is due is the one of a shutdown. *)
Definition no_shutdown (k : kst) : Prop :=
  ∃ ns, alarms (filter (λ t, tmr_exp_time t ≤ realtime k) (clock_timers (k_clock k))) = Some ns.

(** Everything that happens in the kernel: an entry from a process, an
    interrupt, a message of the clock task, which finds the process it is to
    requeue ready, a request that the SYSTEM task serves, and its reply. *)
Inductive sysstep : kst → kst → Prop :=
  | sysstep_entry k k' : kstep k k' → sysstep k k'
  | sysstep_interrupt k irq value k1 k2 :
      is_line irq → hwint irq value k = Ret tt k1 → restart k1 = Ret tt k2 → sysstep k k2
  | sysstep_clock k rp m_source m_type k' :
      proc_ptr k = proc_addr CLOCK → prev_ptr (k_clock k) = Some rp → runnable (procs k) rp → no_shutdown k →
      clock_task m_source m_type k = Ret tt k' → sysstep k k'
  | sysstep_serve k src r x k' :
      proc_ptr k = proc_addr SYSTEM → proper k src r → serve src r k = Ret x k' → sysstep k k'
  | sysstep_reply k dst m_ptr x k' :
      proc_ptr k = proc_addr SYSTEM → dst ≠ SYSTEM → is_Some (zget (procs k) (proc_addr dst)) →
      lock_send dst m_ptr k = Ret x k' → sysstep k k'.

(** The kernel and its devices are in order, IDLE and the running process can
    run, somebody is billed, and the processes that signals and interrupts need
    are there. *)
Record steady (k : kst) : Prop := Steady {
  st_order : korder k;
  st_devices : devices_ok k;
  st_idle : idle_ready k;
  st_running : runnable (procs k) (proc_ptr k);
  st_billed : billed k;
  st_known : Forall (known k) [HARDWARE; CLOCK; SYSTEM; PM_PROC_NR] }.

Lemma steady_alert k : steady k → alert k.
Proof. intros [[Hk _] Hd _ Hr Hb Hkn]. rewrite !Forall_cons in Hkn. by split; try apply Hkn. Qed.

Lemma known_mono (k k' : kst) ns : (∀ n, known k n → known k' n) → Forall (known k) ns → Forall (known k') ns.
Proof. intros Hn Hf. by eapply Forall_impl. Qed.

Lemma idle_touched rp k k' : touches rp k k' → spares_tasks rp k → idle_ready k → idle_ready k'.
Proof.
  intros (Hl & Hv & _ & Hru) Hsp (Hr & p & s & Hz & Hs & Ht).
  assert (proc_addr IDLE ≠ rp) as Hne by (by apply Hsp). split; [by apply Hru|].
  specialize (Hv _ Hne). rewrite (view_get _ _ _ _ Hz) in Hv. apply view_Some in Hv as (p' & Hz' & Hpp).
  destruct Hl as [Hlen Hl]. destruct (zget_in (privs k') (p_priv p')) as [s' Hs'].
  { rewrite Hlen, Hpp. by eapply zget_Some_range. }
  exists p', s'. split_and!; [done..|]. destruct (Hl _ _ Hs') as (s0 & Hs0 & _ & -> & _).
  rewrite Hpp in Hs0. congruence.
Qed.

Lemma serve_steady k src r x k' :
  steady k → proc_ptr k = proc_addr SYSTEM → proper k src r → serve src r k = Ret x k' → steady k'.
Proof.
  intros [Hk Hd Hi Hru Hb Hkn] Hp Hr E. pose proof Hkn as Hall. rewrite !Forall_cons in Hall. destruct Hall as (_ & _ & HS & HP & _).
  destruct (serve_run k src r Hk Hd HS HP Hr) as (x' & k2 & rp & E' & Hk' & Hd' & Ht & Hsp).
  assert (k2 = k') as -> by congruence. split; [done|done|by eapply idle_touched| | |].
  - rewrite (leaves proc_ptr _ _ _ E). apply Ht; [|done]. apply Hsp; [done|]. by rewrite Hp.
  - by apply (kept bills _ _ _ E).
  - eapply known_mono; [apply Ht|done].
Qed.

(** The reply: the SYSTEM task does not wait for the receiver. *)
Lemma lock_send_run k dst m_ptr pc :
  kinv k → zget (procs k) (proc_ptr k) = Some pc → p_rts_flags pc = 0 →
  is_Some (zget (procs k) (proc_addr dst)) → proc_ptr k ≠ proc_addr dst →
  ∃ r k', lock_send dst m_ptr k = Ret r k' ∧ kinv k' ∧ ∀ c, spares c k k'.
Proof.
  intros Hk Hc H0 [pd Hpd] Hne. pose proof (kinv_intr k false Hk) as Hk1. set (k1 := with_intr false k) in *.
  pose proof Hk1 as [Hs [_ [C HC] Ha] _]. destruct (Ha (proc_addr dst)) as [l Hl]; [by exists pd|].
  assert (has (p_rts_flags pc) SENDING = false) as Hns by (by rewrite H0).
  assert (p_rts_flags pc ≠ SLOT_FREE) as Hfr by (by rewrite H0).
  pose proof (mini_send_run k1 (proc_ptr k) dst m_ptr NON_BLOCKING pc pd l C Hk1 HC Hc Hpd Hns Hfr Hne Hl) as H.
  assert (∃ r k', mini_send (proc_ptr k) dst m_ptr NON_BLOCKING k1 = Ret r k' ∧ kinv k' ∧ ∀ c, spares c k1 k')
    as (r & k2 & E & Hk2 & Hsp).
  { assert (∀ e, ∃ r k', (Ret e k1 : outcome kst Z) = Ret r k' ∧ kinv k' ∧ ∀ c, spares c k1 k') as Hno
      by (intros e; exists e, k1; split_and!; [done..|intros; apply spares_refl]).
    unfold send_outcome in H. case_bool_decide; [rewrite H; apply Hno|].
    destruct (awaits pd (p_nr pc)); [|change (has NON_BLOCKING NON_BLOCKING) with true in H; rewrite H; apply Hno].
    destruct H as (k' & E & Hk' & Hdel & _ & Hp). exists OK, k'. split_and!; [done..|]. intros c.
    eapply delivered_spares; [exact Hpd|by rewrite Hp|exact Hdel]. }
  unfold lock_send, lock, unlock. rewrite bind_modify, bind_get. step E. rewrite bind_modify.
  eexists _, _. split; [done|]. split; [by apply kinv_intr|]. exact Hsp.
Qed.

Lemma spares_steady c k k' :
  steady k → kinv k' → devices k' = devices k → bills k k' → idle_ready k' → runnable (procs k') (proc_ptr k') →
  spares c k k' → steady k'.
Proof.
  intros [[_ Hsig] Hd _ _ Hb Hkn] Hk Hdv [_ Hbl] Hi Hr Hsp.
  assert (∀ n, known k n → known k' n) as Hn by (intros n; by apply (known_spared c)).
  split; [split; [done|by eapply signals_spared]|by eapply devices_same|done|done|by apply Hbl|by eapply known_mono].
Qed.

(** A handler or the clock task, and then perhaps leaving the kernel. *)
Lemma mild_steady k k' : steady k → gentle k k' → alert k' → steady k'.
Proof.
  intros Hst Hg Ha. pose proof Hst as [Hk _ Hi _ _ Hkn]. split; [by eapply gentle_order|apply Ha| |apply Ha..|].
  - eapply (idle_spared (-1)); [apply Hg|done|done].
  - eapply known_mono; [|done]. intros n. by apply gentle_known.
Qed.

Lemma restart_steady k k' : steady k → restart k = Ret tt k' → steady k' ∧ most_urgent k'.
Proof.
  intros Hst E. pose proof Hst as [[Hk Hs] Hd Hi Hr Hb Hkn].
  destruct (restart_most_urgent k Hk Hi) as (k2 & E2 & Hk2 & Hi2 & Hu). assert (k2 = k') as -> by congruence.
  split; [|done]. destruct Hu as (q & Hru & _).
  assert (spares (-1) k k') as Hsp by (eapply restart_spares; [exact E|apply spares_refl]).
  eapply (spares_steady (-1)); try done; [by apply (leaves devices _ _ _ E)|by apply (kept bills _ _ _ E)].
Qed.

Lemma kstep_keeps k k' : kstep k k' → devices k' = devices k ∧ bills k k'.
Proof.
  intros [k1 call_nr src_dst m_ptr r k2 k3 _ E1 E2|k1 src dst r k2 k3 _ _ E1 E2|k1 rp k2 k3 k4 _ E1 E2 E3].
  - split; [by rewrite (leaves devices _ _ _ E2), (leaves devices _ _ _ E1)|].
    etrans; [exact (kept bills _ _ _ E1)|exact (kept bills _ _ _ E2)].
  - split; [by rewrite (leaves devices _ _ _ E2), (leaves devices _ _ _ E1)|].
    etrans; [exact (kept bills _ _ _ E1)|exact (kept bills _ _ _ E2)].
  - split; [by rewrite (leaves devices _ _ _ E3), (leaves devices _ _ _ E2), (leaves devices _ _ _ E1)|].
    etrans; [exact (kept bills _ _ _ E1)|]. etrans; [exact (kept bills _ _ _ E2)|exact (kept bills _ _ _ E3)].
Qed.

Lemma clock_steady k rp m_source m_type k' :
  steady k → prev_ptr (k_clock k) = Some rp → runnable (procs k) rp → no_shutdown k →
  clock_task m_source m_type k = Ret tt k' → steady k'.
Proof.
  intros Hst Hp Hr [ns Hns] E. pose proof (steady_alert k Hst) as Ha. unfold clock_task in E.
  destruct (m_type =? HARD_INT).
  - destruct (do_clocktick_run k rp ns Ha Hp Hr Hns) as (k2 & E2 & (Hg & Ha2 & _) & _).
    rewrite (bind_ret _ _ _ _ _ E2) in E. injection E as <-. by eapply mild_steady.
  - injection E as <-. assert (gentle k (with_log (k_log k ++ [(m_type, m_source, CLOCK)]) k)) as Hg
      by (apply gentle_aside; try done; apply Ha).
    apply (mild_steady k); [done|done|]. apply (alert_gentle k); try done; [apply Ha|].
    eapply devices_same; [| |apply Ha]; [done|]. intros n. by apply gentle_known.
Qed.

Lemma sysstep_steady k k' : steady k → sysstep k k' → steady k'.
Proof.
  intros Hst Hs. pose proof Hst as [[Hk Hsig] _ Hi Hru _ _].
  destruct Hs as [k k' Hs|k irq v k1 k2 Hl E1 E2|k rp s t k' Hp Hpp Hr Hns E|k src r x k' Hp Hr E|k dst m_ptr x k' Hp Hd Hdst E].
  - destruct (kstep_enters k k' Hk Hi Hru Hs) as [(Hk' & Hi' & (q & Hr' & _)) [c Hsp]].
    destruct (kstep_keeps k k' Hs). by eapply spares_steady.
  - destruct (hwint_run k irq v (steady_alert k Hst) Hl) as (k1' & E & (Hg & Ha & _) & _).
    assert (k1' = k1) as -> by congruence. by apply (restart_steady k1 k2 (mild_steady k k1 Hst Hg Ha)).
  - by eapply clock_steady.
  - by eapply serve_steady.
  - pose proof Hru as (pc & Hc & H0)%view_Some.
    destruct (lock_send_run k dst m_ptr pc Hk Hc H0 Hdst) as (r & k2 & E2 & Hk2 & Hsp).
    { rewrite Hp. unfold proc_addr. lia. }
    assert (k2 = k') as -> by congruence.
    eapply (spares_steady (-1)); try done;
      [exact (leaves devices _ _ _ E)|exact (kept bills _ _ _ E)|by eapply (idle_spared (-1))|].
    rewrite (leaves proc_ptr _ _ _ E). destruct (Hsp (-1)) as (_ & _ & _ & Hru'). apply Hru'; [|done].
    rewrite Hp. done.
Qed.
End system.

(** ** Start-up *)

Definition calm_slot (k : kst) (i : Z) : bool :=
  match zget (procs k) i with
  | Some p => (p_pending p =? 0) && negb (has (p_rts_flags p) SIGNALED)
  | None => false
  end.

Definition knownb (k : kst) (n : Z) : bool :=
  match zget (procs k) (proc_addr n) with
  | Some p => bool_decide (is_Some (zget (privs k) (p_priv p)))
  | None => false
  end.

Definition billedb (k : kst) : bool :=
  match bill_ptr k with Some b => (0 <=? b) && (b <? zlen (procs k)) | None => false end.

Definition calm (k : kst) : bool :=
  forallb (calm_slot k) slots && forallb (knownb k) [HARDWARE; CLOCK; SYSTEM; PM_PROC_NR] && billedb k.

Lemma knownb_spec k n : knownb k n = true → known k n.
Proof.
  unfold knownb, known. destruct (zget (procs k) (proc_addr n)) as [p|] eqn:E; [|done].
  intros [s Hs]%bool_decide_eq_true. by exists p, s.
Qed.

Lemma knownb_all k ns : forallb (knownb k) ns = true → Forall (known k) ns.
Proof. rewrite forallb_forall. intros Hn. apply Forall_forall. intros n Hi%list_elem_of_In. by apply knownb_spec, Hn. Qed.

Lemma billedb_spec k : billedb k = true → billed k.
Proof.
  unfold billedb, billed. destruct (bill_ptr k) as [b|]; [|done].
  intros [?%Z.leb_le ?%Z.ltb_lt]%andb_true_iff. by exists b.
Qed.

Lemma calm_signals k :
  zlen (procs k) = NR_TASKS + NR_PROCS → forallb (calm_slot k) slots = true → signals_ok (procs k).
Proof.
  intros Hl Hc i p Hz _. pose proof (zget_Some_range _ _ _ Hz) as Hr. rewrite Hl in Hr.
  pose proof (forallb_range _ _ _ Hc Hr) as Hi. unfold calm_slot in Hi. rewrite Hz in Hi.
  apply andb_true_iff in Hi as [->%Z.eqb_eq ->%negb_true_iff]. done.
Qed.

#[local] Instance leaves_main aout : Leaves devices (main aout).
Proof.
  assert (∀ i rs, Leaves devices (clear_procs i rs)) by
    (intros i rs; revert i; induction rs as [|r rs IH]; intros i; cbn [clear_procs]; keeps_by).
  assert (∀ ss, Leaves devices (clear_privs ss)) by (intros ss; induction ss; cbn [clear_privs]; keeps_by).
  assert (∀ i ips, Leaves devices (boot_procs aout i ips)).
  { intros i ips. revert i. induction ips as [|ip ips IH]; intros i; cbn [boot_procs]; [apply _|].
    unfold boot_proc, get_priv. keeps_by. }
  assert (Leaves devices (modify (with_shutdown false))) by (by apply keeps_modify).
  assert (Leaves devices (modify (λ k, with_next (next_ptr k) (Some (proc_addr IDLE)) k))) by (by apply keeps_modify).
  unfold main. keeps_by.
Qed.

Lemma loaded_devices m ticks frame k : devices k = devices (loaded m ticks frame) → devices_ok k.
Proof.
  intros [= Ei Ec Er]. split; rewrite ?Ei, ?Ec, ?Er.
  - exists no_lines. split; [apply blank_hooks_ok|]. intros x i h _ Hi. by apply not_elem_of_nil in Hi.
  - by repeat constructor.
  - intros t Ht. by apply not_elem_of_nil in Ht.
  - split; [done|]. by repeat constructor.
Qed.

Lemma boot_steady aout m ticks frame :
  ∃ k, main aout (loaded m ticks frame) = Ret tt k ∧ steady k ∧ most_urgent k ∧ k_irqs k = blank_irqs.
Proof.
  assert (match main aout (loaded m ticks frame) with Ret tt k => calm k | _ => false end = true) as H
    by (vm_compute; reflexivity).
  destruct (boot_good aout m ticks frame) as (k & E & Hk & Hi & Hu). rewrite E in H.
  pose proof (leaves devices _ _ _ E) as Hd.
  exists k. split; [exact E|]. split; [|split; [exact Hu|exact (f_equal (fst ∘ fst) Hd)]]. unfold calm in H. rewrite !andb_true_iff in H.
  destruct H as [[Hc Hkn] Hb]. destruct Hu as (q & Hr & _).
  split; [split; [exact Hk|]|exact (loaded_devices m ticks frame k Hd)|exact Hi|exact Hr| |].
  - apply calm_signals; [apply Hk|exact Hc].
  - exact (billedb_spec k Hb).
  - exact (knownb_all k _ Hkn).
Qed.

(** The start of the system: [main], then what the SYSTEM and CLOCK tasks do
    with the interrupt hooks before they wait for their first message. *)
Definition startup (aout : Z → exec) : M kst unit :=
  main aout;; on_irqs (init_hooks (range 0 (Z.to_nat NR_IRQ_HOOKS)));; init_clock.

Lemma startup_steady aout m ticks frame :
  ∃ k, startup aout (loaded m ticks frame) = Ret tt k ∧ steady k ∧ most_urgent k ∧
    hooks_ok (put_line no_lines CLOCK_IRQ [clock_hook]) (k_irqs k) ∧ Z.testbit (irq_mask (k_irqs k)) CLOCK_IRQ = false.
Proof.
  destruct (boot_steady aout m ticks frame) as (k0 & E0 & Hst & Hu & Hi). unfold startup. step E0. clear E0.
  destruct (init_hooks_run (Z.to_nat NR_IRQ_HOOKS) (k_irqs k0) 0) as (s1 & E1 & Ho1 & Ha1 & _);
    [rewrite Hi; apply blank_hooks_ok|done|done|].
  rewrite (bind_on_irqs _ _ _ _ _ E1). set (k1 := with_irqs s1 k0).
  destruct (init_clock_run k1 (known k0)) as (s2 & E2 & Hf & Ho2 & Hm); [done|cbn; by rewrite Ha1, Hi|].
  rewrite E2. eexists. split; [done|]. change (with_irqs s2 k1) with (with_irqs s2 k0).
  split; [|split; [exact Hu|done]].
  destruct (alert_irqs k0 s2 Hf (steady_alert _ Hst)) as [Ha Hg]. by eapply mild_steady.
Qed.

(** The system with any timer library. *)
Section theorems.
Context `{TL : TimerLib}.


(** C20: the SYSTEM task serves every proper request: the handler returns with a
    result, kernel, signals and devices stay in order, no rights change beyond
    those of one process, and no other process is kept from running. *)
Theorem requests_are_served k src r (Hk : steady k) (Hr : proper k src r) :
  ∃ x k' rp, serve src r k = Ret x k' ∧ korder k' ∧ devices_ok k' ∧ touches rp k k' ∧
    ∀ i, i ≠ rp → runnable (procs k) i → runnable (procs k') i.
Proof.
  pose proof Hk as [Ho Hd _ _ _ Hkn]. rewrite !Forall_cons in Hkn. destruct Hkn as (_ & _ & HS & HP & _).
  destruct (serve_run k src r Ho Hd HS HP Hr) as (x & k' & rp & ? & ? & ? & Ht & _). exists x, k', rp.
  split_and!; try done. apply Ht.
Qed.
End theorems.

(** ** A concrete system *)

#[local] Existing Instance sorted_timers.

Lemma kernel0_steady : steady kernel0.
Proof.
  destruct (boot_steady (λ _, header) (λ _, 0) 0 0x9000) as (k & E & H & _).
  unfold kernel0. rewrite E. exact H.
Qed.


(** A system that has started, the same after a tick of the clock, and after
    the SYSTEM task has given INIT a better priority. *)
Definition system0 : kst :=
  match startup (λ _, header) (loaded (λ _, 0) 0 0x9000) with Ret _ k => k | _ => kernel0 end.
Definition system1 : kst :=
  match (hwint CLOCK_IRQ 0;; restart) system0 with Ret _ k => k | _ => system0 end.
Definition system2 : kst :=
  match serve PM_PROC_NR (Nice INIT_PROC_NR (-5)) system1 with Ret _ k => k | _ => system1 end.

Lemma system0_start : startup (λ _, header) (loaded (λ _, 0) 0 0x9000) = Ret tt system0.
Proof.
  destruct (startup_steady (λ _, header) (λ _, 0) 0 0x9000) as (k & E & _). unfold system0. rewrite E. reflexivity.
Qed.

Lemma system0_steady : steady system0.
Proof.
  destruct (startup_steady (λ _, header) (λ _, 0) 0 0x9000) as (k & E & Hst & _). unfold system0. rewrite E. exact Hst.
Qed.

Lemma system1_step : sysstep system0 system1.
Proof.
  destruct (hwint_run system0 CLOCK_IRQ 0 (steady_alert _ system0_steady)) as (k1 & E & _); [split; [discriminate|reflexivity]|].
  eapply (sysstep_interrupt system0 CLOCK_IRQ 0 k1); [split; [discriminate|reflexivity]|exact E|].
  unfold system1. rewrite (bind_ret _ _ _ _ _ E), restart_run. reflexivity.
Qed.

Lemma system2_step : sysstep system1 system2.
Proof.
  apply (sysstep_serve system1 PM_PROC_NR (Nice INIT_PROC_NR (-5)) OK); [vm_compute; reflexivity| |].
  - split; [discriminate|reflexivity].
  - assert (match serve PM_PROC_NR (Nice INIT_PROC_NR (-5)) system1 with Ret x _ => x =? OK | _ => false end = true)
      as H by (vm_compute; reflexivity).
    unfold system2. destruct (serve _ _ system1) as [x k| | | |]; try discriminate H.
    by apply Z.eqb_eq in H as ->.
Qed.


Lemma requests_are_served_witness :
  ∃ x k' rp, serve FS_PROC_NR (Kill INIT_PROC_NR 9) kernel0 = Ret x k' ∧ korder k' ∧ devices_ok k' ∧ touches rp kernel0 k'.
Proof.
  destruct (requests_are_served kernel0 FS_PROC_NR (Kill INIT_PROC_NR 9) kernel0_steady) as (x & k' & rp & H1 & H2 & H3 & H4 & _).
  - split; [split; [discriminate|reflexivity]|]. exists (slot0 11).
    split; [vm_compute; reflexivity|vm_compute; discriminate].
  - exists x, k', rp. exact (conj H1 (conj H2 (conj H3 H4))).
Defined.
