(* ===== verification/KernelCallsTheorems.v ===== *)
(** * The kernel calls of the reference system, one by one

    What forking, exiting, priorities and signals do, and the calls that the
    code lets through although they break the invariant or lose a process. *)

From S2P Require Import Prelude Linked Irq Timers Ipc IpcQueues IpcInv IpcSpec KernelBoot IpcTheorems Clock IrqSpec KernelCalls KernelFrame KernelCallsSpec DevicesSpec ProcessCalls Interrupts InterruptsSpec KernelRequests KernelTheorems.

(** C37: forking. A free slot becomes a copy of the parent: with its own number,
    without a memory map, so that it cannot run, without signals, tracing and
    times; a child of a system process loses its privileges; the time left of
    the parent is shared between the two; nobody else changes. A fork of a free
    slot or into one in use is refused and changes nothing. *)
Theorem fork_makes_a_child k child parent pp pc
  (Hk : korder k) (Hpp : zget (procs k) (proc_addr parent) = Some pp)
  (Hpc : zget (procs k) (proc_addr child) = Some pc)
  (Hq : p_caller_q pc = None) (Hpq : p_caller_q pp = None) (Hps : has (p_rts_flags pp) SENDING = false) :
  ∃ r k', do_fork child parent k = Ret r k' ∧ korder k' ∧ (r ≠ OK → k' = k) ∧
    (r = OK ↔ p_rts_flags pp ≠ SLOT_FREE ∧ p_rts_flags pc = SLOT_FREE) ∧
    (r = OK → forked k child parent pp k' ∧ ¬ runnable (procs k') (proc_addr child) ∧
       (0 ≤ p_ticks_left pp → ∃ c p, zget (procs k') (proc_addr child) = Some c ∧
          zget (procs k') (proc_addr parent) = Some p ∧ p_ticks_left c + p_ticks_left p = p_ticks_left pp)).
Proof.
  destruct (do_fork_run k child parent pp pc Hpp Hpc Hk Hq Hpq Hps) as (r & k' & E & Hk' & Hno & Hiff & Hf).
  exists r, k'. do 4 (split; [done|]). intros Hr. specialize (Hf Hr). split; [done|].
  destruct Hf as (c & s & _ & Hc & Hp & _ & _ & Ec).
  destruct (fork_child_has child pp) as (_ & _ & _ & H0).
  destruct (or_no_priv_has (p_rts_flags (fork_child child pp))) as (H7 & _). split.
  - eapply blocked_not_runnable; [exact Hc|]. destruct (has (s_flags s) SYS_PROC); by subst c.
  - intros Ht. exists c, (set_ticks (Z.quot (p_ticks_left pp) 2) pp). do 2 (split; [done|]).
    assert (p_ticks_left c = Z.quot (p_ticks_left pp + 1) 2) as -> by (destruct (has (s_flags s) SYS_PROC); by subst c).
    cbn. rewrite !Z.quot_div_nonneg by lia. Z.to_euclidean_division_equations. lia.
Qed.

Lemma fork_makes_a_child_witness :
  ∃ k', do_fork 20 INIT_PROC_NR kernel0 = Ret OK k' ∧ forked kernel0 20 INIT_PROC_NR (slot0 11) k'.
Proof.
  destruct (fork_makes_a_child kernel0 20 INIT_PROC_NR (slot0 11) (slot0 24))
    as (r & k' & E & _ & _ & Hiff & Hf);
    [exact (st_order _ kernel0_steady)|vm_compute; reflexivity|vm_compute; reflexivity|vm_compute; reflexivity
    |vm_compute; reflexivity|vm_compute; reflexivity|].
  assert (r = OK) as -> by (apply Hiff; split; [vm_compute; discriminate|vm_compute; reflexivity]).
  exists k'. split; [exact E|]. apply Hf. reflexivity.
Defined.

(** Exiting. The slot of the process is free, it is in no ready queue and in
    no queue of senders, whatever it was doing, and no other process changes
    its state; its alarm is off and its interrupt hooks are released; an exit on
    behalf of PM is answered, one for the caller itself gets no reply. *)
Theorem exit_frees_the_slot `{TL : TimerLib} k src n p
  (Hk : korder k) (Hd : devices_ok k) (Hn : int32 n) (Hok : isokprocn (exiting src n) = true)
  (Hz : zget (procs k) (proc_addr (exiting src n)) = Some p) (Hfr : p_rts_flags p ≠ SLOT_FREE) :
  ∃ k', do_exit src n k = Ret (if (PM_PROC_NR =? src) && negb (n =? SELF) then OK else EDONTREPLY) k' ∧
    korder k' ∧ devices_ok k' ∧ ¬ runnable (procs k') (proc_addr (exiting src n)) ∧
    dismissed (exiting src n) (p_priv p) k k' ∧
    (∀ C j, callers (procs k') C → proc_addr (exiting src n) ∉ C j) ∧
    ∀ i, view p_rts_flags (procs k') i =
      if i =? proc_addr (exiting src n) then Some SLOT_FREE else view p_rts_flags (procs k) i.
Proof.
  destruct (clear_proc_run k _ p Hk Hd Hz Hfr) as (k' & E & Hk' & _ & _ & Hf & Hd' & Hdis). exists k'.
  replace (proc_addr (exiting src n) - NR_TASKS) with (exiting src n) in Hdis by (unfold proc_addr; lia).
  set (rc := proc_addr (exiting src n)) in *.
  assert (view p_rts_flags (procs k') rc = Some SLOT_FREE) as Hrc by (by rewrite Hf, Z.eqb_refl).
  split; [|split; [done|split; [done|split; [|split; [done|split; [|done]]]]]].
  - unfold do_exit, exiting in *. destruct ((PM_PROC_NR =? src) && negb (n =? SELF)).
    + rewrite Hok. cbn [negb]. fold rc. by step E.
    + fold rc. by step E.
  - unfold runnable. rewrite Hrc. by intros [=].
  - intros C j HC Hin%(cl_mem _ _ HC). apply view_Some in Hrc as (q & Hq & Hqf).
    rewrite (view_get dest _ _ _ Hq) in Hin. unfold dest in Hin. by rewrite Hqf in Hin.
Qed.

(** TTY waits to hand a message to PM. *)
Definition kernel3 : kst := match mini_send 9 PM_PROC_NR 0x2000 0 kernel0 with Ret _ k => k | _ => kernel0 end.
Definition slot3 (i : Z) : proc := default blank_proc (zget (procs kernel3) i).

Lemma kernel3_order : korder kernel3.
Proof.
  pose proof (st_order _ kernel0_steady) as [Hk Hsig]. destruct (io_callers _ (ki_ipc _ Hk)) as [C HC].
  destruct (send_trapped kernel0 9 PM_PROC_NR 0x2000 0 (slot0 9) C Hk HC) as (r & k & E & Hk' & Hsp & _);
    [vm_compute; reflexivity|vm_compute; reflexivity|vm_compute; eexists; reflexivity|discriminate|].
  unfold kernel3. rewrite E. split; [exact Hk'|]. exact (signals_spared _ _ _ Hsp Hsig).
Qed.

Lemma kernel3_devices : devices_ok kernel3.
Proof.
  pose proof (st_devices _ kernel0_steady) as Hd. pose proof (st_order _ kernel0_steady) as [Hk _].
  destruct (io_callers _ (ki_ipc _ Hk)) as [C HC].
  destruct (send_trapped kernel0 9 PM_PROC_NR 0x2000 0 (slot0 9) C Hk HC) as (r & k & E & _ & Hsp & _);
    [vm_compute; reflexivity|vm_compute; reflexivity|vm_compute; eexists; reflexivity|discriminate|].
  unfold kernel3. rewrite E. apply (leaves_devices_ok _ _ _ _ E); [|exact Hd].
  intros n. exact (known_spared _ _ _ n Hsp).
Qed.

#[local] Existing Instance sorted_timers.

Lemma exit_frees_the_slot_witness :
  p_caller_q (slot3 4) = Some 9 ∧ ∃ k', do_exit PM_PROC_NR TTY_PROC_NR kernel3 = Ret OK k' ∧
    ∀ C j, callers (procs k') C → 9 ∉ C j.
Proof.
  split; [vm_compute; reflexivity|].
  destruct (exit_frees_the_slot kernel3 PM_PROC_NR TTY_PROC_NR (slot3 9)) as (k' & E & _ & _ & _ & _ & Hq & _);
    [exact kernel3_order|exact kernel3_devices|split; [discriminate|reflexivity]|reflexivity|vm_compute; reflexivity|vm_compute; discriminate|].
  exists k'. split; [exact E|exact Hq].
Defined.




Lemma quiet_slots ps :
  forallb (λ p, negb (has (p_rts_flags p) SIGNALED)) ps = true →
  ∀ i q, zget ps i = Some q → has (p_rts_flags q) SIGNALED = false.
Proof.
  intros H i q Hq. rewrite forallb_forall in H. apply negb_true_iff, H, list_elem_of_In.
  unfold zget in Hq. destruct (0 <=? i); [|done]. by eapply list_elem_of_lookup_2.
Qed.


(** ** What the code lets through *)

(** A fork while somebody waits to hand a message to the parent breaks the
    queues. The child gets a copy of the head of the parent's queue, so that a
    sender is the first in two queues, and no assignment of queues fits the
    process table any more. *)
Theorem a_fork_ties_two_queues k child parent pp pc x
  (Hk : korder k) (Hpp : zget (procs k) (proc_addr parent) = Some pp)
  (Hpc : zget (procs k) (proc_addr child) = Some pc)
  (Hf : p_rts_flags pp ≠ SLOT_FREE) (Hc : p_rts_flags pc = SLOT_FREE) (Hq : p_caller_q pp = Some x) :
  ∃ k', do_fork child parent k = Ret OK k' ∧ ¬ ∃ C, callers (procs k') C.
Proof.
  destruct (so_priv _ (ki_sched _ (proj1 Hk)) _ _ Hpp Hf) as (s & Hs & _).
  eexists. split; [by eapply do_fork_effect|]. intros [C HC].
  pose proof (fork_apart k child parent pp pc Hpp Hpc Hf Hc) as Hne.
  destruct (fork_forked k child parent pp pc Hpp Hpc Hf Hc s Hs) as (c & s' & _ & Hzc & Hzp & _ & _ & Ec).
  assert (∀ j p, zget (procs (if has (s_flags s) SYS_PROC then fork3 k child parent pp else fork2 k child parent pp)) j
      = Some p → p_caller_q p = Some x → view dest (procs (if has (s_flags s) SYS_PROC then fork3 k child parent pp
      else fork2 k child parent pp)) x = Some (Some j)) as Hd.
  { intros j p Hz Hp. apply (cl_mem _ _ HC). pose proof (cl_link _ _ HC j _ (view_get _ _ _ _ Hz)) as Hl.
    rewrite Hp in Hl. apply linked_Some in Hl as (r & l & -> & _). set_solver. }
  pose proof (Hd _ _ Hzp Hq) as H1. rewrite (Hd _ _ Hzc) in H1; [congruence|].
  destruct (has (s_flags s') SYS_PROC); by subst c.
Qed.

Lemma a_fork_ties_two_queues_witness :
  ∃ k', do_fork 20 PM_PROC_NR kernel3 = Ret OK k' ∧ ¬ ∃ C, callers (procs k') C.
Proof.
  apply (a_fork_ties_two_queues kernel3 20 PM_PROC_NR (slot3 4) (slot3 24) 9 kernel3_order);
    [vm_compute; reflexivity|vm_compute; reflexivity|vm_compute; discriminate|vm_compute; reflexivity
    |vm_compute; reflexivity].
Defined.

(** An exit strands the processes that wait to send to the one that exits.
    A sender stays marked as sending to a slot that is now free, and cannot
    run. *)
Theorem an_exit_strands_its_senders `{TL : TimerLib} k rc p x px
  (Hk : korder k) (Hdv : devices_ok k) (Hz : zget (procs k) rc = Some p) (Hfr : p_rts_flags p ≠ SLOT_FREE)
  (Hx : zget (procs k) x = Some px) (Hd : dest px = Some rc) (Hne : x ≠ rc) :
  ∃ k' px', clear_proc rc k = Ret tt k' ∧ view p_rts_flags (procs k') rc = Some SLOT_FREE ∧
    zget (procs k') x = Some px' ∧ has (p_rts_flags px') SENDING = true ∧ ¬ runnable (procs k') x.
Proof.
  destruct (clear_proc_run k rc p Hk Hdv Hz Hfr) as (k' & E & _ & _ & _ & Hf & _).
  pose proof (Hf x) as Hv. destruct (Z.eqb_spec x rc); [done|]. rewrite (view_get _ _ _ _ Hx) in Hv.
  apply view_Some in Hv as (px' & Hx' & Ef). unfold dest in Hd.
  destruct (has (p_rts_flags px) SENDING) eqn:Es; [|done].
  exists k', px'. split; [done|]. split; [by rewrite Hf, Z.eqb_refl|]. split; [done|].
  rewrite Ef. split; [done|]. eapply blocked_not_runnable; [exact Hx'|]. rewrite Ef. intros E0. by rewrite E0 in Es.
Qed.

Lemma an_exit_strands_its_senders_witness :
  ∃ k', clear_proc 4 kernel3 = Ret tt k' ∧ ¬ runnable (procs k') 9.
Proof.
  destruct (an_exit_strands_its_senders kernel3 4 (slot3 4) 9 (slot3 9) kernel3_order kernel3_devices)
    as (k' & px' & E & _ & _ & _ & Hr);
    [vm_compute; reflexivity|vm_compute; discriminate|vm_compute; reflexivity|vm_compute; reflexivity|discriminate|].
  exists k'. split; [exact E|exact Hr].
Defined.
