(* ===== verification/Cache.v ===== *)
(** * The buffer cache of the reference file server

    [reference/minix/servers/fs/cache.c] with the tables of [buf.h] and
    [super.h], [buf_pool] of [main.c] and [get_block_size] of [super.c]. A
    buffer is an index into the table; the chain of free buffers and the hash
    chains are links between entries. Disk drivers are processes of their own,
    reached by [dev_io]: the class [BlockDev] says what a transfer returns, and
    nothing about it. Diagnostics are left out; a panic ends the server
    ([Off]). *)

From S2P Require Import Prelude.

Definition NR_BUFS : Z := 128.
Definition NR_BUF_HASH : Z := 128.
Definition NR_IOREQS : Z := Z.min NR_BUFS 64.
Definition HASH_MASK : Z := NR_BUF_HASH - 1.
Definition NO_BLOCK : Z := 0.
Definition NO_DEV : Z := 0.
Definition DEV_RAM : Z := 0x0100.
Definition NR_SUPERS : Z := 8.
Definition MIN_BLOCK_SIZE : Z := 1024.
Definition MAX_BLOCK_SIZE : Z := 4096.
Definition CLEAN : Z := 0.
Definition DIRTY : Z := 1.
Definition NORMAL : Z := 0.
Definition NO_READ : Z := 1.
Definition PREFETCH : Z := 2.
Definition READING : Z := 0.
Definition WRITING : Z := 1.
Definition END_OF_FILE : Z := -104.
Definition WRITE_IMMED : Z := 64.
Definition ONE_SHOT : Z := 128.
Definition INODE_BLOCK : Z := 0.
Definition DIRECTORY_BLOCK : Z := 1.
Definition INDIRECT_BLOCK : Z := 2.
Definition MAP_BLOCK : Z := 3.
Definition FULL_DATA_BLOCK : Z := 5.
Definition PARTIAL_DATA_BLOCK : Z := 6.

(** ** State *)

Record buf : Type := Buf {
  b_data : list Z;
  b_next : option Z;
  b_prev : option Z;
  b_hash : option Z;
  b_blocknr : Z;
  b_dev : Z;
  b_dirt : Z;
  b_count : Z }.

(** The super block in memory; the inodes of a mounted file system are not part
    of this model. *)
Record super_block : Type := SuperBlock {
  s_ninodes : Z;
  s_nzones : Z;
  s_imap_blocks : Z;
  s_zmap_blocks : Z;
  s_firstdatazone : Z;
  s_log_zone_size : Z;
  s_max_size : Z;
  s_zones : Z;
  s_magic : Z;
  s_block_size : Z;
  s_disk_version : Z;
  s_inodes_per_block : Z;
  s_dev : Z;
  s_rd_only : Z;
  s_native : Z;
  s_version : Z;
  s_ndzones : Z;
  s_nindirs : Z;
  s_isearch : Z;
  s_zsearch : Z }.

(** What the driver of a block device answers. A transfer gives a result and
    what is then on the devices; a read also gives the bytes that were put into
    the buffer, not more than were asked for; a vector of transfers gives what
    is left of each entry. *)
Class BlockDev : Type := {
  disk : Type;
  dev_read : Z → Z → Z → disk → Z * list Z * disk;
  dev_write : Z → Z → list Z → disk → Z * disk;
  dev_scatter : Z → Z → list (list Z) → disk → Z * list Z * disk;
  dev_gather : Z → Z → list Z → disk → Z * list (Z * list Z) * disk;
  read_within dev pos n d r l d' : 0 ≤ n → dev_read dev pos n d = (r, l, d') → zlen l ≤ n;
  scatter_entries dev pos ls d r rest d' : dev_scatter dev pos ls d = (r, rest, d') → length rest = length ls;
  gather_entries dev pos ns d r got d' : dev_gather dev pos ns d = (r, got, d') → length got = length ns }.

Section cache.
Context `{BD : BlockDev}.

Record fsst : Type := Fsst {
  bufs : list buf;
  buf_hash : list (option Z);
  front : option Z;
  rear : option Z;
  bufs_in_use : Z;
  supers : list super_block;
  rdwt_err : Z;
  err_code : Z;
  sbbuf : list Z;
  devices : disk }.

(** ** Access *)

Definition with_bufs (x : list buf) (s : fsst) : fsst :=
  Fsst x (buf_hash s) (front s) (rear s) (bufs_in_use s) (supers s) (rdwt_err s) (err_code s) (sbbuf s) (devices s).
Definition with_buf_hash (x : list (option Z)) (s : fsst) : fsst :=
  Fsst (bufs s) x (front s) (rear s) (bufs_in_use s) (supers s) (rdwt_err s) (err_code s) (sbbuf s) (devices s).
Definition with_front (x : option Z) (s : fsst) : fsst :=
  Fsst (bufs s) (buf_hash s) x (rear s) (bufs_in_use s) (supers s) (rdwt_err s) (err_code s) (sbbuf s) (devices s).
Definition with_rear (x : option Z) (s : fsst) : fsst :=
  Fsst (bufs s) (buf_hash s) (front s) x (bufs_in_use s) (supers s) (rdwt_err s) (err_code s) (sbbuf s) (devices s).
Definition with_in_use (x : Z) (s : fsst) : fsst :=
  Fsst (bufs s) (buf_hash s) (front s) (rear s) x (supers s) (rdwt_err s) (err_code s) (sbbuf s) (devices s).
Definition with_supers (x : list super_block) (s : fsst) : fsst :=
  Fsst (bufs s) (buf_hash s) (front s) (rear s) (bufs_in_use s) x (rdwt_err s) (err_code s) (sbbuf s) (devices s).
Definition with_rdwt_err (x : Z) (s : fsst) : fsst :=
  Fsst (bufs s) (buf_hash s) (front s) (rear s) (bufs_in_use s) (supers s) x (err_code s) (sbbuf s) (devices s).
Definition with_err_code (x : Z) (s : fsst) : fsst :=
  Fsst (bufs s) (buf_hash s) (front s) (rear s) (bufs_in_use s) (supers s) (rdwt_err s) x (sbbuf s) (devices s).
Definition with_devices (x : disk) (s : fsst) : fsst :=
  Fsst (bufs s) (buf_hash s) (front s) (rear s) (bufs_in_use s) (supers s) (rdwt_err s) (err_code s) (sbbuf s) x.
Definition with_sbbuf (x : list Z) (s : fsst) : fsst :=
  Fsst (bufs s) (buf_hash s) (front s) (rear s) (bufs_in_use s) (supers s) (rdwt_err s) (err_code s) x (devices s).

Definition set_links (n p : option Z) (b : buf) : buf :=
  Buf (b_data b) n p (b_hash b) (b_blocknr b) (b_dev b) (b_dirt b) (b_count b).
Definition set_hash (h : option Z) (b : buf) : buf :=
  Buf (b_data b) (b_next b) (b_prev b) h (b_blocknr b) (b_dev b) (b_dirt b) (b_count b).
Definition set_name (dev block : Z) (b : buf) : buf :=
  Buf (b_data b) (b_next b) (b_prev b) (b_hash b) block dev (b_dirt b) (b_count b).
Definition set_dev (dev : Z) (b : buf) : buf := set_name dev (b_blocknr b) b.
Definition set_dirt (d : Z) (b : buf) : buf :=
  Buf (b_data b) (b_next b) (b_prev b) (b_hash b) (b_blocknr b) (b_dev b) d (b_count b).
Definition set_count (c : Z) (b : buf) : buf :=
  Buf (b_data b) (b_next b) (b_prev b) (b_hash b) (b_blocknr b) (b_dev b) (b_dirt b) c.
Definition set_data (l : list Z) (b : buf) : buf :=
  Buf l (b_next b) (b_prev b) (b_hash b) (b_blocknr b) (b_dev b) (b_dirt b) (b_count b).

(** The bytes [l] are put at the start of a buffer. *)
Definition overlay (l : list Z) (old : list Z) : list Z := take (length old) l ++ drop (length l) old.

(** [b_count] is a [char]. *)
Definition char8 (x : Z) : Z := schar (u8 x).

Definition rd_buf (i : Z) : M fsst buf := s ← get; lift_opt (zget (bufs s) i).
Definition upd_buf (i : Z) (f : buf → buf) : M fsst unit :=
  s ← get;
  b ← lift_opt (zget (bufs s) i);
  t ← lift_opt (zset (bufs s) i (f b));
  modify (with_bufs t).
Definition rd_hash (h : Z) : M fsst (option Z) := s ← get; lift_opt (zget (buf_hash s) h).
Definition wr_hash (h : Z) (x : option Z) : M fsst unit :=
  s ← get;
  t ← lift_opt (zset (buf_hash s) h x);
  modify (with_buf_hash t).

Definition buf_fuel : nat := S (Z.to_nat NR_BUFS).

(** ** Start *)

(** One entry of the pool, chained to its neighbours. *)
Definition pool_buf (i : Z) (b : buf) : buf :=
  set_links (if i =? NR_BUFS - 1 then None else Some (i + 1)) (if i =? 0 then None else Some (i - 1))
    (set_name NO_DEV NO_BLOCK b).

Definition buf_pool : M fsst unit :=
  modify (with_in_use 0);;
  modify (with_front (Some 0));;
  modify (with_rear (Some (NR_BUFS - 1)));;
  for_each (range 0 (Z.to_nat NR_BUFS)) (λ i, upd_buf i (pool_buf i));;
  for_each (range 0 (Z.to_nat NR_BUFS)) (λ i, upd_buf i (λ b, set_hash (b_next b) b));;
  s ← get;
  wr_hash 0 (front s).

(** ** The chain of free buffers *)

Definition rm_lru (bp : Z) : M fsst unit :=
  modify (λ s, with_in_use (bufs_in_use s + 1) s);;
  b ← rd_buf bp;
  match b_prev b with
  | Some p => upd_buf p (λ x, set_links (b_next b) (b_prev x) x)
  | None => modify (with_front (b_next b))
  end;;
  match b_next b with
  | Some n => upd_buf n (λ x, set_links (b_next x) (b_prev b) x)
  | None => modify (with_rear (b_prev b))
  end.

(** A buffer goes to the front or to the rear of the chain. *)
Definition to_front (bp : Z) : M fsst unit :=
  s ← get;
  upd_buf bp (set_links (front s) None);;
  match front s with
  | None => modify (with_rear (Some bp))
  | Some f => upd_buf f (λ x, set_links (b_next x) (Some bp) x)
  end;;
  modify (with_front (Some bp)).

Definition to_rear (bp : Z) : M fsst unit :=
  s ← get;
  upd_buf bp (set_links None (rear s));;
  match rear s with
  | None => modify (with_front (Some bp))
  | Some r => upd_buf r (λ x, set_links (Some bp) (b_prev x) x)
  end;;
  modify (with_rear (Some bp)).

(** ** The device *)

Definition get_block_size (dev : Z) : M fsst Z :=
  if dev =? NO_DEV then halt else
  s ← get;
  mret (match List.find (λ sp, s_dev sp =? dev) (supers s) with
        | Some sp => s_block_size sp
        | None => MIN_BLOCK_SIZE
        end).

(** The transfer of [rw_block]: its result. *)
Definition block_io (bp rw_flag dev pos size : Z) : M fsst Z :=
  b ← rd_buf bp;
  s ← get;
  if rw_flag =? READING then
    let '(r, l, d) := dev_read dev pos size (devices s) in
    upd_buf bp (set_data (overlay l (b_data b)));;
    modify (with_devices d);;
    mret r
  else
    let '(r, d) := dev_write dev pos (take (Z.to_nat size) (b_data b)) (devices s) in
    modify (with_devices d);;
    mret r.

Definition rw_block (bp rw_flag : Z) : M fsst unit :=
  b ← rd_buf bp;
  block_size ← get_block_size (b_dev b);
  when (negb (b_dev b =? NO_DEV))
    (r ← block_io bp rw_flag (b_dev b) (u32 (b_blocknr b * block_size)) block_size;
     when (negb (r =? block_size))
       (upd_buf bp (set_dev NO_DEV);;
        when (rw_flag =? READING) (modify (with_rdwt_err (if 0 <=? r then END_OF_FILE else r)))));;
  upd_buf bp (set_dirt CLEAN).

(** ** Returning a block *)

Definition put_block (bp : option Z) (block_type : Z) : M fsst unit :=
  match bp with
  | None => mret tt
  | Some bp =>
      upd_buf bp (λ b, set_count (char8 (b_count b - 1)) b);;
      b ← rd_buf bp;
      if negb (b_count b =? 0) then mret tt else
      modify (λ s, with_in_use (bufs_in_use s - 1) s);;
      (if (b_dev b =? DEV_RAM) || negb (Z.land block_type ONE_SHOT =? 0) then to_front bp else to_rear bp);;
      when (negb (Z.land block_type WRITE_IMMED =? 0) && (b_dirt b =? DIRTY) && negb (b_dev b =? NO_DEV))
        (rw_block bp WRITING)
  end.

(** ** Sorting the blocks of a transfer *)

(** On the array of buffers; [key] gives the block number of a buffer. *)
Section sort.
Context (key : Z → option Z).

Definition rd_q (i : Z) : M (list Z) Z := q ← get; lift_opt (zget q i).
Definition wr_q (i x : Z) : M (list Z) unit := q ← get; t ← lift_opt (zset q i x); modify (λ _, t).

(** The innermost loop: the buffer at [i + gap] moves down. *)
Definition sift_step (gap i : Z) : M (list Z) (Z + unit) :=
  if i <? 0 then mret (inr tt) else
  x ← rd_q i;
  y ← rd_q (i + gap);
  kx ← lift_opt (key x);
  ky ← lift_opt (key y);
  if kx <=? ky then mret (inr tt) else
  wr_q i y;;
  wr_q (i + gap) x;;
  mret (inl (i - gap)).

Definition sift (gap i : Z) : M (list Z) unit := q ← get; loop (S (length q)) (sift_step gap) i.

(** One pass, for [j] from [gap] on. *)
Definition sort_pass (gap : Z) : M (list Z) unit :=
  q ← get;
  for_each (range gap (Z.to_nat (zlen q - gap))) (λ j, sift gap (j - gap)).

Definition first_gap (n : Z) : M (list Z) Z :=
  loop (S (Z.to_nat n)) (λ gap, let gap := 3 * gap + 1 in mret (if gap <=? n then inl gap else inr gap)) 1.

Definition gap_step (gap : Z) : M (list Z) (Z + unit) :=
  if gap =? 1 then mret (inr tt) else
  let gap := Z.quot gap 3 in
  sort_pass gap;;
  mret (inl gap).

Definition shell_sort : M (list Z) unit :=
  q ← get;
  gap ← first_gap (zlen q);
  loop (S (S (Z.to_nat gap))) gap_step gap.
End sort.

(** ** Transfers of many blocks *)

(** How many of the blocks follow each other, at most [n]. *)
Fixpoint run_length (n : nat) (first : Z) (bs : list buf) : nat :=
  match n, bs with
  | S n', b :: bs' => if b_blocknr b =? u32 first then S (run_length n' (first + 1) bs') else O
  | _, _ => O
  end.

(** The vector of a run, and its transfer; what is left of each entry. *)
Definition run_io (rw_flag dev pos size : Z) (q : list Z) : M fsst (Z * list Z) :=
  bs ← mapM rd_buf q;
  s ← get;
  if rw_flag =? WRITING then
    let '(r, rest, d) := dev_scatter dev pos ((λ b, take (Z.to_nat size) (b_data b)) <$> bs) (devices s) in
    modify (with_devices d);;
    mret (r, rest)
  else
    let '(r, got, d) := dev_gather dev pos ((λ _, size) <$> bs) (devices s) in
    for_each (zip q (snd <$> got)) (λ '(i, l), upd_buf i (λ b, set_data (overlay l (b_data b)) b));;
    modify (with_devices d);;
    mret (r, fst <$> got).

(** The results: how many transfers succeeded. *)
Fixpoint harvest (rw_flag dev r i : Z) (q rest : list Z) : M fsst Z :=
  match q, rest with
  | bp :: q', size :: rest' =>
      if negb (size =? 0) then
        when (negb (r =? 0) && (i =? 0)) (upd_buf bp (set_dev NO_DEV));;
        mret i
      else
        (if rw_flag =? READING then upd_buf bp (set_dev dev);; put_block (Some bp) PARTIAL_DATA_BLOCK
         else upd_buf bp (set_dirt CLEAN));;
        harvest rw_flag dev r (i + 1) q' rest'
  | _, _ => mret i
  end.

(** One round of the loop: the buffers that are left. *)
Definition scatter_step (rw_flag dev block_size : Z) (q : list Z) : M fsst (list Z + unit) :=
  match q with
  | [] => mret (inr tt)
  | first :: _ =>
      bs ← mapM rd_buf q;
      b ← rd_buf first;
      let j := run_length (Z.to_nat NR_IOREQS) (b_blocknr b) bs in
      '(r, rest) ← run_io rw_flag dev (u32 (b_blocknr b * block_size)) block_size (take j q);
      i ← harvest rw_flag dev r 0 (take j q) rest;
      let q' := drop (Z.to_nat i) q in
      if rw_flag =? READING then
        for_each q' (λ bp, put_block (Some bp) PARTIAL_DATA_BLOCK);;
        mret (inr tt)
      else if (rw_flag =? WRITING) && (i =? 0) then mret (inr tt)
      else mret (inl q')
  end.

Definition rw_scattered (dev : Z) (bufq : list Z) (rw_flag : Z) : M fsst unit :=
  block_size ← get_block_size dev;
  s ← get;
  match shell_sort (λ i, b_blocknr <$> zget (bufs s) i) bufq with
  | Ret _ q => loop (S (length q)) (scatter_step rw_flag dev block_size) q
  | Timeout _ => λ s, Timeout s
  | _ => fault
  end.

(** The dirty blocks of a device. *)
Definition is_dirty (dev : Z) (s : fsst) (i : Z) : bool :=
  match zget (bufs s) i with Some b => (b_dirt b =? DIRTY) && (b_dev b =? dev) | None => false end.
Definition dirty_bufs (dev : Z) (s : fsst) : list Z :=
  filter (λ i, is_dirty dev s i = true) (range 0 (Z.to_nat NR_BUFS)).

Definition flushall (dev : Z) : M fsst unit :=
  s ← get;
  rw_scattered dev (dirty_bufs dev s) WRITING.

Definition invalidate (device : Z) : M fsst unit :=
  modify (λ s, with_bufs ((λ b, if b_dev b =? device then set_dev NO_DEV b else b) <$> bufs s) s).

(** ** Getting a block *)

(** The search of a hash chain. *)
Definition find_step (dev block : Z) (bp : option Z) : M fsst (option Z + option Z) :=
  match bp with
  | None => mret (inr None)
  | Some i =>
      b ← rd_buf i;
      if (b_blocknr b =? block) && (b_dev b =? dev) then mret (inr (Some i)) else mret (inl (b_hash b))
  end.

Definition find_block (dev block : Z) : M fsst (option Z) :=
  if dev =? NO_DEV then mret None else
  bp ← rd_hash (Z.land block HASH_MASK);
  loop buf_fuel (find_step dev block) bp.

(** Taking a buffer off its hash chain, when it is not the first. *)
Definition unhash_step (bp : Z) (prev_ptr : option Z) : M fsst (option Z + unit) :=
  p ← lift_opt prev_ptr;
  b ← rd_buf p;
  match b_hash b with
  | None => mret (inr tt)
  | Some j =>
      if j =? bp then
        x ← rd_buf bp;
        upd_buf p (set_hash (b_hash x));;
        mret (inr tt)
      else mret (inl (Some j))
  end.

Definition unhash (bp : Z) : M fsst unit :=
  b ← rd_buf bp;
  let h := Z.land (b_blocknr b) HASH_MASK in
  prev_ptr ← rd_hash h;
  if bool_decide (prev_ptr = Some bp) then wr_hash h (b_hash b)
  else loop buf_fuel (unhash_step bp) prev_ptr.

(** The buffer joins the hash chain of its block. *)
Definition rehash (bp : Z) : M fsst unit :=
  b ← rd_buf bp;
  let h := Z.land (b_blocknr b) HASH_MASK in
  first ← rd_hash h;
  upd_buf bp (set_hash first);;
  wr_hash h (Some bp).

Definition get_block (dev block only_search : Z) : M fsst Z :=
  found ← find_block dev block;
  match found with
  | Some bp =>
      b ← rd_buf bp;
      when (b_count b =? 0) (rm_lru bp);;
      upd_buf bp (λ b, set_count (char8 (b_count b + 1)) b);;
      mret bp
  | None =>
      s ← get;
      match front s with
      | None => halt
      | Some bp =>
          rm_lru bp;;
          unhash bp;;
          b ← rd_buf bp;
          when (negb (b_dev b =? NO_DEV) && (b_dirt b =? DIRTY)) (flushall (b_dev b));;
          upd_buf bp (set_name dev block);;
          upd_buf bp (λ b, set_count (char8 (b_count b + 1)) b);;
          rehash bp;;
          when (negb (dev =? NO_DEV))
            (if only_search =? PREFETCH then upd_buf bp (set_dev NO_DEV)
             else when (only_search =? NORMAL) (rw_block bp READING));;
          mret bp
      end
  end.
End cache.
