(* ===== verification/CacheLists.v ===== *)
(** * Lists of the buffer cache

    The Shell sort of a transfer, the free chain and the hash chains. *)

From stdpp Require Import sorting.
From S2P Require Import Prelude Linked Cache.

(** ** Sorting the blocks of a transfer *)

Section sort.
Context (key : Z → option Z) (k : Z → Z).

(** Every buffer of the array has a block number. *)
Definition keyed (q : list Z) : Prop := ∀ x, x ∈ q → key x = Some (k x).

Definition in_order : relation Z := λ x y, k x ≤ k y.

Lemma keyed_perm q q' : q ≡ₚ q' → keyed q → keyed q'.
Proof. intros Hp Hk x Hx. apply Hk. by rewrite Hp. Qed.

Lemma swap_run q i j x y :
  zget q i = Some x → zget q j = Some y → 
  (wr_q i y;; wr_q j x) q = Ret tt (upd (upd q i y) j x) ∧ upd (upd q i y) j x ≡ₚ q.
Proof.
  intros Hx Hy. pose proof (zget_Some_range _ _ _ Hx) as H. pose proof (zget_Some_range _ _ _ Hy). split.
  - assert (∀ q i x, 0 ≤ i < zlen q → wr_q i x q = Ret tt (upd q i x)) as Hw.
    { intros q0 i0 x0 Hi. unfold wr_q. rewrite bind_get, zset_upd by done. done. }
    rewrite (bind_ret _ _ _ _ _ (Hw q i y H)). apply Hw. by rewrite zlen_upd.
  - unfold zget in *. destruct (Z.leb_spec 0 i), (Z.leb_spec 0 j); try done. by apply Permutation_insert_swap.
Qed.

(** *** One buffer moves down *)

Lemma sift_end fuel gap i q : i < 0 → loop (S fuel) (sift_step key gap) i q = Ret tt q.
Proof. intros Hi. rewrite loop_S. unfold sift_step. by destruct (Z.ltb_spec i 0); [|lia]. Qed.

Lemma sift_round gap i q x y :
  zget q i = Some x → zget q (i + gap) = Some y → keyed q →
  sift_step key gap i q =
    if k x <=? k y then Ret (inr tt) q else Ret (inl (i - gap)) (upd (upd q i y) (i + gap) x).
Proof.
  intros Hx Hy Hk. pose proof (zget_Some_range _ _ _ Hx). unfold sift_step.
  destruct (Z.ltb_spec i 0); [lia|]. unfold rd_q.
  rewrite bind_assoc, bind_get, (bind_lift _ _ _ _ Hx), bind_assoc, bind_get, (bind_lift _ _ _ _ Hy).
  rewrite (bind_lift _ (k x)) by (eapply Hk, zget_elem_of, Hx).
  rewrite (bind_lift _ (k y)) by (eapply Hk, zget_elem_of, Hy).
  destruct (k x <=? k y); [done|]. destruct (swap_run q i (i + gap) x y Hx Hy) as [E _].
  by rewrite (bind_seq _ _ _ _ _ _ E).
Qed.

Lemma sift_perm fuel gap i q :
  0 < gap → i + gap < zlen q → i < Z.of_nat fuel → keyed q → - gap ≤ i →
  ∃ q', loop (S fuel) (sift_step key gap) i q = Ret tt q' ∧ q' ≡ₚ q.
Proof.
  intros Hg. revert i q. induction fuel as [|fuel IH]; intros i q Hi Hf Hk Hlo.
  { exists q. split; [|done]. apply sift_end. lia. }
  destruct (Z.ltb_spec i 0); [exists q; split; [by apply sift_end|done]|].
  destruct (zget_in q i) as [x Hx]; [lia|]. destruct (zget_in q (i + gap)) as [y Hy]; [lia|].
  destruct (swap_run q i (i + gap) x y Hx Hy) as [_ Hp].
  rewrite loop_S. unfold mbind, M_bind at 1. rewrite (sift_round gap i q x y Hx Hy Hk).
  destruct (k x <=? k y); [by exists q|].
  destruct (IH (i - gap) (upd (upd q i y) (i + gap) x)) as (q' & E & Hp').
  - rewrite !zlen_upd. lia.
  - lia.
  - eapply keyed_perm; [symmetry; exact Hp|done].
  - lia.
  - exists q'. split; [exact E|]. by rewrite Hp'.
Qed.

(** With a gap of 1 and the buffers below in order: [y] moves down past those
    that come after it. *)
Lemma sift_insert fuel l y m r :
  keyed (l ++ y :: m ++ r) → StronglySorted in_order (l ++ m) → Forall (in_order y) m → (length l ≤ fuel)%nat →
  ∃ p, loop (S fuel) (sift_step key 1) (zlen l - 1) (l ++ y :: m ++ r) = Ret tt (p ++ r) ∧
    StronglySorted in_order p ∧ p ≡ₚ l ++ y :: m.
Proof.
  revert fuel m. induction l as [|x l IH] using rev_ind; intros fuel m Hk Hs Hy Hf.
  { exists (y :: m). split; [by apply sift_end|]. split; [by constructor|done]. }
  rewrite length_app in Hf. simpl in Hf. destruct fuel as [|fuel]; [lia|].
  assert (zlen (l ++ [x]) - 1 = zlen l) as -> by (rewrite zlen_app, zlen_cons, zlen_nil; lia).
  rewrite <- !app_assoc in *. cbn [app] in *.
  assert (zget (l ++ x :: y :: m ++ r) (zlen l) = Some x) as Hx by apply zget_app_mid.
  assert (zget (l ++ x :: y :: m ++ r) (zlen l + 1) = Some y) as Hy'.
  { replace (l ++ x :: y :: m ++ r) with ((l ++ [x]) ++ y :: m ++ r) by (by rewrite <- app_assoc).
    replace (zlen l + 1) with (zlen (l ++ [x])) by (by rewrite zlen_app). apply zget_app_mid. }
  rewrite loop_S. unfold mbind, M_bind at 1. rewrite (sift_round 1 _ _ x y Hx Hy' Hk).
  destruct (Z.leb_spec (k x) (k y)).
  - exists (l ++ x :: y :: m). split; [by rewrite <- app_assoc|]. split; [|done].
    apply StronglySorted_app in Hs as (Hc & Hl & Hxm). apply StronglySorted_inv in Hxm as [Hm Hxm].
    apply StronglySorted_app. split_and!; [|done|].
    + intros a b Ha [->|[->|Hb]%elem_of_cons]%elem_of_cons; [apply Hc; [done|left]| |apply Hc; [done|by right]].
      assert (in_order a x) by (apply Hc; [done|left]). unfold in_order in *. lia.
    + constructor; [by constructor|]. by constructor.
  - assert (upd (upd (l ++ x :: y :: m ++ r) (zlen l) y) (zlen l + 1) x = l ++ y :: (x :: m) ++ r) as ->.
    { rewrite upd_app_mid. replace (l ++ y :: y :: m ++ r) with ((l ++ [y]) ++ y :: m ++ r) by (by rewrite <- app_assoc).
      replace (zlen l + 1) with (zlen (l ++ [y])) by (by rewrite zlen_app). rewrite upd_app_mid. by rewrite <- app_assoc. }
    destruct (IH fuel (x :: m)) as (p & E & Hp & Hpp).
    + eapply keyed_perm; [|exact Hk]. cbn. by rewrite Permutation_swap.
    + done.
    + constructor; [unfold in_order; lia|done].
    + lia.
    + exists p. split; [exact E|]. split; [done|]. rewrite Hpp. by rewrite Permutation_swap.
Qed.

(** *** A pass *)

Lemma pass_perm gap q :
  0 < gap → keyed q → ∃ q', sort_pass key gap q = Ret tt q' ∧ q' ≡ₚ q.
Proof.
  intros Hg Hk. unfold sort_pass. rewrite bind_get.
  destruct (for_each_range (λ _ q', q' ≡ₚ q) gap (Z.to_nat (zlen q - gap)) (λ j, sift key gap (j - gap)) q)
    as (q' & E & Hp); [done| |by exists q'].
  intros j q1 Hj Hp. unfold sift. rewrite bind_get.
  assert (zlen q1 = zlen q) as Hl by (unfold zlen; by rewrite Hp).
  destruct (sift_perm (length q1) gap (j - gap) q1) as (q2 & E & Hp2); try lia.
  - unfold zlen in *. lia.
  - by eapply keyed_perm.
  - exists q2. split; [done|]. by rewrite Hp2.
Qed.

Lemma pass_sorts q :
  keyed q → ∃ q', sort_pass key 1 q = Ret tt q' ∧ q' ≡ₚ q ∧ StronglySorted in_order q'.
Proof.
  intros Hk. unfold sort_pass. rewrite bind_get. destruct q as [|x q0] eqn:Eq.
  { exists []. split; [done|]. split; [done|constructor]. }
  rewrite <- Eq in *.
  destruct (for_each_range (λ j q', q' ≡ₚ q ∧ ∃ p r, q' = p ++ r ∧ zlen p = j ∧ StronglySorted in_order p)
    1 (Z.to_nat (zlen q - 1)) (λ j, sift key 1 (j - 1)) q) as (q' & E & Hp & p & r & Er & Hlp & Hs).
  - split; [done|]. exists [x], q0. split; [by rewrite Eq|]. split; [done|]. by repeat constructor.
  - intros j q1 Hj (Hp & p & r & -> & Hlp & Hs).
    assert (zlen (p ++ r) = zlen q) as Hl by (unfold zlen; by rewrite Hp). rewrite zlen_app in Hl.
    destruct r as [|y r]; [rewrite zlen_nil in Hl; lia|].
    destruct (sift_insert (length (p ++ y :: r)) p y [] r) as (p' & E & Hs' & Hpp).
    + by eapply keyed_perm.
    + by rewrite app_nil_r.
    + done.
    + rewrite length_app. lia.
    + exists (p' ++ r). split; [unfold sift; rewrite bind_get; subst j; exact E|].
      rewrite Hpp. split; [rewrite <- Hp; by rewrite <- app_assoc|]. exists p', r. split_and!; [done| |done].
      assert (zlen p' = zlen (p ++ [y])) as -> by (unfold zlen; by rewrite Hpp).
      rewrite zlen_app, zlen_cons, zlen_nil. lia.
  - exists q'. split; [done|]. split; [done|].
    assert (zlen q' = zlen q) as Hl by (unfold zlen; by rewrite Hp). subst q'. rewrite zlen_app in Hl.
    assert (0 < zlen q) by (rewrite Eq, zlen_cons; pose proof (zlen_nonneg q0); lia).
    destruct r; [by rewrite app_nil_r|]. rewrite zlen_cons in Hl. pose proof (zlen_nonneg r). lia.
Qed.

(** *** The gaps *)

(** 1, 4, 13, 40, ... *)
Inductive is_gap : Z → Prop :=
  | gap_one : is_gap 1
  | gap_next g : is_gap g → is_gap (3 * g + 1).

Lemma gap_pos g : is_gap g → 1 ≤ g.
Proof. induction 1; lia. Qed.

Lemma first_gap_run n q :
  ∃ g, first_gap n q = Ret (3 * g + 1) q ∧ is_gap g.
Proof.
  unfold first_gap. assert (∀ fuel g, is_gap g → n < 3 * g + 1 + Z.of_nat fuel →
    ∃ g', loop (S fuel) (λ gap, let gap := 3 * gap + 1 in mret (if gap <=? n then inl gap else inr gap)) g q =
      Ret (3 * g' + 1) q ∧ is_gap g') as H.
  { induction fuel as [|fuel IH]; intros g Hg Hf; rewrite loop_S; cbv zeta; rewrite bind_mret;
      destruct (Z.leb_spec (3 * g + 1) n); try (by exists g); [lia|].
    pose proof (gap_pos _ Hg). apply IH; [by constructor|lia]. }
  apply H; [constructor|lia].
Qed.

Lemma gap_step_run g q q' :
  1 ≤ g → sort_pass key g q = Ret tt q' → gap_step key (3 * g + 1) q = Ret (inl g) q'.
Proof.
  intros Hg E. unfold gap_step. destruct (Z.eqb_spec (3 * g + 1) 1); [lia|]. cbv zeta.
  assert (Z.quot (3 * g + 1) 3 = g) as ->; [|by step E].
  rewrite Z.quot_div_nonneg by lia. symmetry. apply (Z.div_unique _ _ _ 1); lia.
Qed.

Lemma gap_loop g q :
  is_gap g → keyed q → ∀ fuel, g < Z.of_nat fuel →
  ∃ q', loop (S fuel) (gap_step key) (3 * g + 1) q = Ret tt q' ∧ q' ≡ₚ q ∧ StronglySorted in_order q'.
Proof.
  intros Hg. revert q. induction Hg as [|g Hg IH]; intros q Hk fuel Hf.
  - destruct fuel as [|fuel]; [lia|]. destruct (pass_sorts q Hk) as (q' & E & Hp & Hs). rewrite loop_S. step (gap_step_run 1 q q' ltac:(lia) E).
    cbv iota. rewrite loop_S. by exists q'.
  - pose proof (gap_pos _ Hg). destruct fuel as [|fuel]; [lia|]. destruct (pass_perm (3 * g + 1) q) as (q1 & E1 & Hp1); [lia|done|].
    rewrite loop_S. step (gap_step_run (3 * g + 1) q q1 ltac:(lia) E1). cbv iota.
    destruct (IH q1) with (fuel := fuel) as (q' & E & Hp & Hs).
    + by eapply keyed_perm.
    + lia.
    + exists q'. split; [exact E|]. split; [by rewrite Hp|done].
Qed.

Lemma shell_sort_run q :
  keyed q → ∃ q', shell_sort key q = Ret tt q' ∧ q' ≡ₚ q ∧ StronglySorted in_order q'.
Proof.
  intros Hk. unfold shell_sort. rewrite bind_get. destruct (first_gap_run (zlen q) q) as (g & E & Hg). step E.
  pose proof (gap_pos _ Hg). apply gap_loop; [done|done|lia].
Qed.
End sort.

(** ** The chains of the buffer cache *)

(** *** Links *)

Section links.
Implicit Types (nx : links) (l : list Z).

(** An entry is taken out: the link that led to it leads to its successor. *)
Lemma unlink_head nx p i l : linked nx p (i :: l) → nx i = Some (head l) ∧ linked nx (head l) l.
Proof. intros [_ (r & Hr & Hl)]. by rewrite <- (linked_head _ _ _ Hl). Qed.

Lemma unlink_tail nx nx' p l1 x i l2 :
  linked nx p ((l1 ++ [x]) ++ i :: l2) → nx' x = Some (head l2) → (∀ j, j ≠ x → nx' j = nx j) →
  nx i = Some (head l2) ∧ linked nx' p ((l1 ++ [x]) ++ l2).
Proof.
  intros Hl Hx Hj. pose proof (linked_NoDup _ _ _ Hl) as Hd.
  apply linked_app in Hl as (r & H1 & H2). pose proof (linked_head _ _ _ H2) as ->. cbn in H1.
  apply unlink_head in H2 as [Hi H2]. split; [done|]. rewrite <- app_assoc in Hd. apply NoDup_app in Hd as (_ & Hn & Hd).
  apply linked_app. exists (head l2). split.
  - apply (lseg_redirect nx nx' p l1 x _ _ H1); [|done|].
    + intros Hin. apply (Hn _ Hin). left.
    + intros j Hin. apply Hj. intros ->. apply (Hn _ Hin). left.
  - eapply linked_ext; [|exact H2]. intros j Hin. apply Hj. intros ->. apply NoDup_cons in Hd as [Hd _].
    apply Hd. by right.
Qed.

Lemma push_link nx nx' p i l :
  linked nx p l → nx' i = Some p → (∀ j, j ∈ l → nx' j = nx j) → linked nx' (Some i) (i :: l).
Proof. intros Hl Hi Hj. split; [done|]. exists p. split; [done|]. by eapply linked_ext. Qed.

Lemma append_link nx nx' p l x i :
  linked nx p (l ++ [x]) → i ∉ l ++ [x] → nx' x = Some (Some i) → nx' i = Some None →
  (∀ j, j ≠ x → j ≠ i → nx' j = nx j) → linked nx' p ((l ++ [x]) ++ [i]).
Proof.
  intros Hl Hi Hx Hn Hj. pose proof (linked_NoDup _ _ _ Hl) as Hd. apply NoDup_app in Hd as (_ & Hd & _).
  assert (x ∉ l) as Hxl by (intros Hin; apply (Hd _ Hin); left).
  apply linked_app. exists (Some i). split.
  - apply (lseg_redirect nx nx' p l x None _ Hl); [done|done|]. intros j Hin. apply Hj; intros ->; set_solver.
  - split; [done|]. exists None. done.
Qed.
End links.

Section chains.
Context `{BD : BlockDev}.
Implicit Types (s : fsst) (b : buf).

(** *** Views of the table *)

Definition bview {A} (f : buf → A) (s : fsst) (i : Z) : option A := f <$> zget (bufs s) i.

Lemma bview_get {A} (f : buf → A) s i b : zget (bufs s) i = Some b → bview f s i = Some (f b).
Proof. unfold bview. by intros ->. Qed.

Lemma bview_Some {A} (f : buf → A) s i x : bview f s i = Some x → ∃ b, zget (bufs s) i = Some b ∧ f b = x.
Proof. unfold bview. destruct (zget (bufs s) i) as [b|]; [|done]. intros [= <-]. by exists b. Qed.

(** What is read off a part of the buffers that stays is the same. *)
Lemma bview_part {A B} (g : buf → A) (f : buf → B) (f' : A → B) s s' :
  (∀ b, f b = f' (g b)) → (∀ j, bview g s' j = bview g s j) → ∀ j, bview f s' j = bview f s j.
Proof.
  intros Hf Hg j. specialize (Hg j). unfold bview in *.
  destruct (zget (bufs s') j), (zget (bufs s) j); try done. apply (inj Some) in Hg. cbn. by rewrite !Hf, Hg.
Qed.

Lemma bview_len {A} (g : buf → A) s s' : (∀ j, bview g s' j = bview g s j) → zlen (bufs s') = zlen (bufs s).
Proof.
  intros Hg. assert (∀ j, zget (bufs s') j = None ↔ zget (bufs s) j = None) as Hn.
  { intros j. specialize (Hg j). unfold bview in Hg. destruct (zget (bufs s') j), (zget (bufs s) j); done. }
  pose proof (zlen_nonneg (bufs s)). pose proof (zlen_nonneg (bufs s')).
  assert (¬ zlen (bufs s') < zlen (bufs s)).
  { intros Hlt. pose proof (proj1 (Hn (zlen (bufs s')))) as Ha. rewrite !zget_None in Ha. lia. }
  assert (¬ zlen (bufs s) < zlen (bufs s')); [|lia].
  intros Hlt. pose proof (proj2 (Hn (zlen (bufs s)))) as Ha. rewrite !zget_None in Ha. lia.
Qed.

Lemma rd_buf_run s i b : zget (bufs s) i = Some b → rd_buf i s = Ret b s.
Proof. intros E. unfold rd_buf. rewrite bind_get. by apply lift_opt_some. Qed.

Lemma upd_buf_run s i b f :
  zget (bufs s) i = Some b → upd_buf i f s = Ret tt (with_bufs (upd (bufs s) i (f b)) s).
Proof.
  intros E. unfold upd_buf. rewrite bind_get, (bind_lift _ _ _ _ E).
  by rewrite bind_zset by (by eapply zget_Some_range).
Qed.

Lemma bview_upd {A} (f : buf → A) s i b b' j :
  zget (bufs s) i = Some b → bview f (with_bufs (upd (bufs s) i b') s) j = if i =? j then Some (f b') else bview f s j.
Proof.
  intros Hz. unfold bview. cbn. rewrite zget_upd by (by eapply zget_Some_range). by destruct (i =? j).
Qed.

(** An update that keeps a part of the buffer keeps it for the table. *)
Lemma bview_upd_same {A} (f : buf → A) s i b b' :
  zget (bufs s) i = Some b → f b' = f b → ∀ j, bview f (with_bufs (upd (bufs s) i b') s) j = bview f s j.
Proof.
  intros Hz Hf j. rewrite (bview_upd _ _ _ _ _ _ Hz). destruct (Z.eqb_spec i j) as [<-|]; [|done].
  by rewrite (bview_get _ _ _ _ Hz), Hf.
Qed.

(** *** The chain of free buffers *)

Definition nxt (s : fsst) : links := bview b_next s.
Definition prv (s : fsst) : links := bview b_prev s.
Definition hsh (s : fsst) : links := bview b_hash s.

Definition lru (L : list Z) (s : fsst) : Prop :=
  linked (nxt s) (front s) L ∧ linked (prv s) (rear s) (reverse L).

(** The parts that stay when buffers are chained anew. *)
Definition body (b : buf) := (b_data b, b_hash b, b_blocknr b, b_dev b, b_dirt b, b_count b).

Definition relinked (s s' : fsst) : Prop :=
  (∀ j, bview body s' j = bview body s j) ∧ buf_hash s' = buf_hash s ∧ supers s' = supers s ∧
  rdwt_err s' = rdwt_err s ∧ err_code s' = err_code s ∧ devices s' = devices s.

Lemma relinked_upd s i b n p :
  zget (bufs s) i = Some b → relinked s (with_bufs (upd (bufs s) i (set_links n p b)) s).
Proof. intros Hz. split; [by eapply bview_upd_same|done]. Qed.

Lemma lru_ext L s s' :
  (∀ j, nxt s' j = nxt s j) → (∀ j, prv s' j = prv s j) → front s' = front s → rear s' = rear s → lru L s → lru L s'.
Proof.
  intros Hn Hp Hf Hr [H1 H2]. split; [rewrite Hf|rewrite Hr]; (eapply linked_ext; [|done]); intros j _; [apply Hn|apply Hp].
Qed.

Lemma lru_get L s i : lru L s → i ∈ L → ∃ b, zget (bufs s) i = Some b.
Proof.
  intros [H1 _] Hi. destruct (lseg_defined _ _ _ _ _ H1 Hi) as [x Hx]. apply bview_Some in Hx as (b & ? & _). by exists b.
Qed.

Lemma lru_NoDup L s : lru L s → NoDup L.
Proof. intros [H1 _]. by eapply linked_NoDup. Qed.

(** Redirecting the link before an entry and the one after it. *)
Definition set_next_of (p : option Z) (x : option Z) : M fsst unit :=
  match p with Some p => upd_buf p (λ b, set_links x (b_prev b) b) | None => modify (with_front x) end.
Definition set_prev_of (n : option Z) (x : option Z) : M fsst unit :=
  match n with Some n => upd_buf n (λ b, set_links (b_next b) x b) | None => modify (with_rear x) end.

Definition redirects (sel : fsst → links) (oth : fsst → links) (first last : fsst → option Z)
    (p x : option Z) (s s' : fsst) : Prop :=
  relinked s s' ∧ (∀ j, oth s' j = oth s j) ∧ last s' = last s ∧ bufs_in_use s' = bufs_in_use s ∧
  match p with
  | Some p => sel s' p = Some x ∧ (∀ j, j ≠ p → sel s' j = sel s j) ∧ first s' = first s
  | None => first s' = x ∧ ∀ j, sel s' j = sel s j
  end.

Lemma set_next_of_run s p x :
  match p with Some p => is_Some (zget (bufs s) p) | None => True end →
  ∃ s', set_next_of p x s = Ret tt s' ∧ redirects nxt prv front rear p x s s'.
Proof.
  destruct p as [p|]; cbn; [intros [b Hb]|intros _]; [|by eexists].
  eexists. split; [by apply upd_buf_run|]. split_and!; [by apply relinked_upd|by eapply bview_upd_same|done..| | |done].
  - unfold nxt. by rewrite (bview_upd _ _ _ _ _ _ Hb), Z.eqb_refl.
  - intros j Hj. unfold nxt. rewrite (bview_upd _ _ _ _ _ _ Hb). by destruct (Z.eqb_spec p j).
Qed.

Lemma set_prev_of_run s n x :
  match n with Some n => is_Some (zget (bufs s) n) | None => True end →
  ∃ s', set_prev_of n x s = Ret tt s' ∧ redirects prv nxt rear front n x s s'.
Proof.
  destruct n as [n|]; cbn; [intros [b Hb]|intros _]; [|by eexists].
  eexists. split; [by apply upd_buf_run|]. split_and!; [by apply relinked_upd|by eapply bview_upd_same|done..| | |done].
  - unfold prv. by rewrite (bview_upd _ _ _ _ _ _ Hb), Z.eqb_refl.
  - intros j Hj. unfold prv. rewrite (bview_upd _ _ _ _ _ _ Hb). by destruct (Z.eqb_spec n j).
Qed.

#[local] Instance relinked_trans : Transitive relinked.
Proof.
  intros s1 s2 s3 (? & ? & ? & ? & ? & ?) (? & ? & ? & ? & ? & ?). split_and!; try congruence.
  all: intros j; congruence.
Qed.

(** A chain in one direction, after the link before [i] is redirected. *)
Lemma unchain_run (sel oth : fsst → links) (first last : fsst → option Z) p l1 i l2 s s' :
  linked (sel s) (first s) (l1 ++ i :: l2) → p = list.last l1 → redirects sel oth first last p (head l2) s s' →
  linked (sel s') (first s') (l1 ++ l2).
Proof.
  intros Hl Hp (_ & _ & _ & _ & H). destruct l1 as [|x l1 _] using rev_ind.
  - subst p. cbn in *. destruct H as [-> Hj]. apply unlink_head in Hl as [_ Hl].
    eapply linked_ext; [|exact Hl]. intros j _. apply Hj.
  - rewrite last_snoc in Hp. subst p. destruct H as (Hx & Hj & ->). by eapply unlink_tail.
Qed.

Lemma link_of nx p l1 i l2 : linked nx p (l1 ++ i :: l2) → nx i = Some (head l2).
Proof.
  intros (r & _ & H)%linked_app. by destruct (unlink_head _ _ _ _ H).
Qed.

Lemma last_mem (l : list Z) x : last l = Some x → x ∈ l.
Proof. intros [l' ->]%last_Some. set_solver. Qed.

Lemma rm_lru_run s l1 i l2 :
  lru (l1 ++ i :: l2) s →
  ∃ s', rm_lru i s = Ret tt s' ∧ lru (l1 ++ l2) s' ∧ relinked s s' ∧ bufs_in_use s' = bufs_in_use s + 1.
Proof.
  intros Hl. destruct (lru_get _ _ i Hl) as [b Hb]; [set_solver|]. pose proof Hl as [Hn Hp].
  assert (reverse (l1 ++ i :: l2) = reverse l2 ++ i :: reverse l1) as Er
    by (rewrite reverse_app, reverse_cons, <- app_assoc; done).
  rewrite Er in Hp. pose proof (link_of _ _ _ _ _ Hn) as En. pose proof (link_of _ _ _ _ _ Hp) as Ep.
  rewrite head_reverse in Ep. unfold nxt in En. unfold prv in Ep. rewrite (bview_get b_next _ _ _ Hb) in En. rewrite (bview_get b_prev _ _ _ Hb) in Ep.
  apply (inj Some) in En, Ep. unfold rm_lru. rewrite bind_modify. set (s0 := with_in_use _ s).
  step (rd_buf_run s0 i b Hb). rewrite En, Ep.
  change (match last l1 with Some p => _ | None => _ end) with (set_next_of (last l1) (head l2)).
  change (match head l2 with Some p => _ | None => _ end) with (set_prev_of (head l2) (last l1)).
  destruct (set_next_of_run s0 (last l1) (head l2)) as (s1 & E1 & R1).
  { destruct (last l1) as [p|] eqn:El; [|done]. destruct (lru_get _ _ p Hl) as [x Hx]; [|by exists x].
    apply last_mem in El. set_solver. }
  pose proof (unchain_run nxt prv front rear (last l1) l1 i l2 s0 s1 Hn eq_refl R1) as Hn1.
  pose proof R1 as (Rl1 & Ho1 & Hr1 & Hu1 & _). step E1.
  destruct (set_prev_of_run s1 (head l2) (last l1)) as (s2 & E2 & R2).
  { destruct l2 as [|n l2]; [done|]. cbn. destruct (lru_get _ _ n Hl) as [x Hx]; [set_solver|].
    pose proof (bview_get body _ _ _ Hx) as Hv. destruct Rl1 as [Hv1 _]. rewrite <- (Hv1 n : _ = bview body s n) in Hv.
    apply bview_Some in Hv as (y & Hy & _). by exists y. }
  assert (linked (prv s2) (rear s2) (reverse l2 ++ reverse l1)) as Hp2.
  { apply (unchain_run prv nxt rear front (head l2) (reverse l2) i (reverse l1) s1 s2).
    - rewrite Hr1. eapply linked_ext; [|exact Hp]. intros j _. apply Ho1.
    - by rewrite last_reverse.
    - by rewrite head_reverse. }
  pose proof R2 as (Rl2 & Ho2 & Hr2 & Hu2 & _). exists s2. split; [done|]. split; [split|].
  - rewrite Hr2. eapply linked_ext; [|exact Hn1]. intros j _. apply Ho2.
  - by rewrite reverse_app.
  - split; [transitivity s1; [exact Rl1|done]|]. by rewrite Hu2, Hu1.
Qed.

(** An entry joins a chain at its beginning. *)
Lemma joined (sel oth : fsst → links) (first last : fsst → option Z) L i s s' :
  linked (sel s) (first s) L → linked (oth s) (last s) (reverse L) → i ∉ L →
  sel s' i = Some (first s) → first s' = Some i → (∀ j, j ≠ i → sel s' j = sel s j) → oth s' i = Some None →
  match first s with
  | None => last s' = Some i
  | Some f => oth s' f = Some (Some i) ∧ last s' = last s ∧ ∀ j, j ≠ f → j ≠ i → oth s' j = oth s j
  end →
  linked (sel s') (first s') (i :: L) ∧ linked (oth s') (last s') (reverse (i :: L)).
Proof.
  intros H1 H2 Hi Hs Hf Hj Ho H. split.
  - rewrite Hf. eapply push_link; [exact H1|done|]. intros j Hin. apply Hj. by intros ->.
  - rewrite reverse_cons. pose proof (linked_head _ _ _ H1) as Eh. rewrite Eh in H. destruct L as [|f L]; cbn in H.
    + rewrite H. split; [done|]. exists None. done.
    + destruct H as (Hof & -> & Hoj). rewrite reverse_cons in *. eapply append_link; try done.
      rewrite elem_of_app, elem_of_reverse, list_elem_of_singleton. set_solver.
Qed.

Lemma front_head L s : lru L s → front s = head L.
Proof. intros [H _]. by apply linked_head in H. Qed.

Lemma rear_last L s : lru L s → rear s = last L.
Proof. intros [_ H]. apply linked_head in H. by rewrite head_reverse in H. Qed.

(** A neighbour of the buffer that joins. *)
Lemma neighbour L s i b n p f :
  lru L s → i ∉ L → zget (bufs s) i = Some b → (match f with Some f => f ∈ L | None => True end) →
  match f with Some f => f ≠ i ∧ is_Some (zget (bufs (with_bufs (upd (bufs s) i (set_links n p b)) s)) f) | None => True end.
Proof.
  intros Hl Hi Hb Hf. destruct f as [f|]; [|done]. assert (f ≠ i) as Hne by (by intros ->). split; [done|].
  destruct (lru_get _ _ f Hl Hf) as [x Hx]. exists x. cbn. rewrite zget_upd_ne; [done| |congruence].
  apply zget_Some_range in Hb. lia.
Qed.

Lemma to_front_run L s i b :
  lru L s → i ∉ L → zget (bufs s) i = Some b →
  ∃ s', to_front i s = Ret tt s' ∧ lru (i :: L) s' ∧ relinked s s' ∧ bufs_in_use s' = bufs_in_use s.
Proof.
  intros Hl Hi Hb. unfold to_front. rewrite bind_get. step (upd_buf_run s i b (set_links (front s) None) Hb).
  pose proof (neighbour L s i b (front s) None (front s) Hl Hi Hb) as Hf.
  pose proof (relinked_upd s i b (front s) None Hb) as R1. set (s1 := with_bufs _ s) in *.
  change (match front s with Some f => _ | None => _ end) with (set_prev_of (front s) (Some i)).
  assert (match front s with Some f => f ∈ L | None => True end) as Hin.
  { rewrite (front_head _ _ Hl). destruct L; [done|]. cbn. left. }
  specialize (Hf Hin). destruct (set_prev_of_run s1 (front s) (Some i)) as (s2 & E2 & R2).
  { destruct (front s); [apply Hf|done]. }
  pose proof R2 as (Rl2 & Ho2 & Hr2 & Hu2 & H2). step E2. exists (with_front (Some i) s2). split; [done|].
  assert (∀ A (f : buf → A) j, j ≠ i → bview f s1 j = bview f s j) as Hj1.
  { intros A f j Hj. unfold s1. rewrite (bview_upd _ _ _ _ _ _ Hb). by destruct (Z.eqb_spec i j). }
  assert (nxt s1 i = Some (front s) ∧ prv s1 i = Some None) as [Hn1 Hp1].
  { unfold nxt, prv, s1. by rewrite !(bview_upd _ _ _ _ _ _ Hb), Z.eqb_refl. }
  split; [|split; [transitivity s1; [done|]; transitivity s2; [exact Rl2|done]|exact Hu2]].
  apply (joined nxt prv front rear L i s); [apply Hl..|done| |done| | |].
  - rewrite <- Hn1. apply Ho2.
  - intros j Hj. etrans; [apply Ho2|exact (Hj1 _ b_next j Hj)].
  - destruct (front s) as [f|]; [destruct Hf as [Hne _]; destruct H2 as (_ & H2 & _)|destruct H2 as [_ H2]]; (etrans; [apply H2|exact Hp1]); congruence.
  - destruct (front s) as [f|]; [|apply H2]. destruct H2 as (Ha & Hb2 & Hc). split_and!; [done|done|].
    intros j Hjf Hji. etrans; [by apply Hb2|exact (Hj1 _ b_prev j Hji)].
Qed.

Lemma to_rear_run L s i b :
  lru L s → i ∉ L → zget (bufs s) i = Some b →
  ∃ s', to_rear i s = Ret tt s' ∧ lru (L ++ [i]) s' ∧ relinked s s' ∧ bufs_in_use s' = bufs_in_use s.
Proof.
  intros Hl Hi Hb. unfold to_rear. rewrite bind_get. step (upd_buf_run s i b (set_links None (rear s)) Hb).
  pose proof (neighbour L s i b None (rear s) (rear s) Hl Hi Hb) as Hf.
  pose proof (relinked_upd s i b None (rear s) Hb) as R1. set (s1 := with_bufs _ s) in *.
  change (match rear s with Some f => _ | None => _ end) with (set_next_of (rear s) (Some i)).
  assert (match rear s with Some f => f ∈ L | None => True end) as Hin.
  { rewrite (rear_last _ _ Hl). destruct (last L) eqn:El; [by apply last_mem|done]. }
  specialize (Hf Hin). destruct (set_next_of_run s1 (rear s) (Some i)) as (s2 & E2 & R2).
  { destruct (rear s); [apply Hf|done]. }
  pose proof R2 as (Rl2 & Ho2 & Hr2 & Hu2 & H2). step E2. exists (with_rear (Some i) s2). split; [done|].
  assert (∀ A (f : buf → A) j, j ≠ i → bview f s1 j = bview f s j) as Hj1.
  { intros A f j Hj. unfold s1. rewrite (bview_upd _ _ _ _ _ _ Hb). by destruct (Z.eqb_spec i j). }
  assert (prv s1 i = Some (rear s) ∧ nxt s1 i = Some None) as [Hn1 Hp1].
  { unfold nxt, prv, s1. by rewrite !(bview_upd _ _ _ _ _ _ Hb), Z.eqb_refl. }
  split; [|split; [transitivity s1; [done|]; transitivity s2; [exact Rl2|done]|exact Hu2]].
  destruct (joined prv nxt rear front (reverse L) i s (with_rear (Some i) s2)) as [J1 J2];
    [apply Hl|rewrite reverse_involutive; apply Hl|by rewrite elem_of_reverse| |done| | | |].
  - rewrite <- Hn1. apply Ho2.
  - intros j Hj. etrans; [apply Ho2|exact (Hj1 _ b_prev j Hj)].
  - destruct (rear s) as [f|]; [destruct Hf as [Hne _]; destruct H2 as (_ & H2 & _)|destruct H2 as [_ H2]]; (etrans; [apply H2|exact Hp1]); congruence.
  - destruct (rear s) as [f|]; [|apply H2]. destruct H2 as (Ha & Hb2 & Hc). split_and!; [done|done|].
    intros j Hjf Hji. etrans; [by apply Hb2|exact (Hj1 _ b_next j Hji)].
  - split; [|rewrite reverse_app; exact J1]. rewrite reverse_cons, reverse_involutive in J2. exact J2.
Qed.

(** *** Hash chains *)

Definition bucket (block : Z) : Z := Z.land block HASH_MASK.

Lemma bucket_range block : 0 ≤ bucket block < NR_BUF_HASH.
Proof.
  unfold bucket. change HASH_MASK with (Z.ones 7). rewrite Z.land_ones by lia. change NR_BUF_HASH with (2 ^ 7).
  apply Z.mod_pos_bound. lia.
Qed.

Definition chains (H : Z → list Z) (s : fsst) : Prop :=
  ∀ h, 0 ≤ h < NR_BUF_HASH → ∃ p, zget (buf_hash s) h = Some p ∧ linked (hsh s) p (H h).

Definition put_chain (H : Z → list Z) (h : Z) (l : list Z) : Z → list Z := λ x, if x =? h then l else H x.

(** The parts that stay when hash chains change. *)
Definition shell (b : buf) := (b_data b, b_next b, b_prev b, b_blocknr b, b_dev b, b_dirt b, b_count b).

Definition rehashed (s s' : fsst) : Prop :=
  (∀ j, bview shell s' j = bview shell s j) ∧ zlen (buf_hash s') = zlen (buf_hash s) ∧
  front s' = front s ∧ rear s' = rear s ∧ bufs_in_use s' = bufs_in_use s ∧ supers s' = supers s ∧
  rdwt_err s' = rdwt_err s ∧ err_code s' = err_code s ∧ devices s' = devices s.

Lemma rehashed_upd s i b h : zget (bufs s) i = Some b → rehashed s (with_bufs (upd (bufs s) i (set_hash h b)) s).
Proof. intros Hz. split; [by eapply bview_upd_same|done]. Qed.

Lemma wr_hash_run s h p x :
  zget (buf_hash s) h = Some p → wr_hash h x s = Ret tt (with_buf_hash (upd (buf_hash s) h x) s) ∧
  rehashed s (with_buf_hash (upd (buf_hash s) h x) s).
Proof.
  intros Hz. split; [|split_and!; try done; apply zlen_upd]. unfold wr_hash. rewrite bind_get.
  by rewrite bind_zset by (by eapply zget_Some_range).
Qed.

Lemma rd_hash_run s h p : zget (buf_hash s) h = Some p → rd_hash h s = Ret p s.
Proof. intros Hz. unfold rd_hash. rewrite bind_get. by apply lift_opt_some. Qed.

Lemma chains_ext H s s' :
  (∀ j, hsh s' j = hsh s j) → buf_hash s' = buf_hash s → chains H s → chains H s'.
Proof.
  intros Hj Hb Hc h Hh. destruct (Hc h Hh) as (p & Hp & Hl). exists p. rewrite Hb. split; [done|].
  eapply linked_ext; [|exact Hl]. intros j _. apply Hj.
Qed.

Lemma hash_get nx s l p i : nx = hsh s → linked nx p l → i ∈ l → ∃ b, zget (bufs s) i = Some b.
Proof.
  intros -> Hl Hi. destruct (lseg_defined _ _ _ _ _ Hl Hi) as [x Hx]. apply bview_Some in Hx as (b & ? & _). by exists b.
Qed.

Lemma unhash_step_run s i p b j :
  zget (bufs s) p = Some b → b_hash b = Some j → 
  unhash_step i (Some p) s =
    if j =? i then (x ← rd_buf i; upd_buf p (set_hash (b_hash x));; mret (inr tt)) s else Ret (inl (Some j)) s.
Proof.
  intros Hb Hj. unfold unhash_step. cbn [lift_opt]. rewrite bind_mret. step (rd_buf_run s p b Hb). rewrite Hj.
  by destruct (j =? i).
Qed.

(** The walk to the entry before [i]. *)
Lemma unhash_loop s i l2 l1 x bi fuel :
  linked (hsh s) (Some x) (x :: l1 ++ i :: l2) → zget (bufs s) i = Some bi → (length l1 < fuel)%nat →
  ∃ y b, last (x :: l1) = Some y ∧ zget (bufs s) y = Some b ∧
    loop fuel (unhash_step i) (Some x) s = Ret tt (with_bufs (upd (bufs s) y (set_hash (head l2) b)) s).
Proof.
  revert x fuel. induction l1 as [|z l1 IH]; intros x fuel Hl Hi Hf; (destruct fuel as [|fuel]; [lia|]).
  - destruct (hash_get _ s _ _ x eq_refl Hl) as [b Hb]; [left|]. destruct (unlink_head _ _ _ _ Hl) as [Hx Hl'].
    destruct (unlink_head _ _ _ _ Hl') as [Hh _]. unfold hsh in Hx, Hh. rewrite (bview_get _ _ _ _ Hb) in Hx.
    rewrite (bview_get _ _ _ _ Hi) in Hh. apply (inj Some) in Hx, Hh. cbn in Hx.
    exists x, b. split_and!; [done..|]. rewrite loop_S. unfold mbind at 1, M_bind at 1.
    rewrite (unhash_step_run s i x b i Hb Hx), Z.eqb_refl. step (rd_buf_run s i bi Hi). rewrite Hh.
    by step (upd_buf_run s x b (set_hash (head l2)) Hb).
  - pose proof (linked_NoDup _ _ _ Hl) as Hd. destruct (hash_get _ s _ _ x eq_refl Hl) as [b Hb]; [left|].
    destruct (unlink_head _ _ _ _ Hl) as [Hx Hl']. unfold hsh in Hx. rewrite (bview_get _ _ _ _ Hb) in Hx.
    apply (inj Some) in Hx. cbn in Hx, Hl'. simpl in Hf.
    destruct (IH z fuel Hl' Hi) as (y & by_ & Hy & Hby & E); [lia|].
    exists y, by_. split; [exact Hy|]. split; [done|]. rewrite <- E, loop_S. unfold mbind at 1, M_bind at 1.
    rewrite (unhash_step_run s i x b z Hb Hx). destruct (Z.eqb_spec z i) as [->|]; [|done].
    apply NoDup_cons in Hd as [_ Hd]. cbn in Hd. apply NoDup_cons in Hd as [Hd _]. set_solver.
Qed.

Lemma bucket_length s p l : zlen (bufs s) = NR_BUFS → linked (hsh s) p l → (length l < buf_fuel)%nat.
Proof.
  intros Hn Hl. assert (zlen l ≤ Z.max 0 NR_BUFS) as H.
  { eapply linked_length; [|exact Hl]. intros i [x Hx]. apply bview_Some in Hx as (b & Hb & _).
    apply zget_Some_range in Hb. by rewrite Hn in Hb. }
  unfold zlen, buf_fuel in *. unfold NR_BUFS in *. lia.
Qed.

Definition disjoint (H : Z → list Z) : Prop := ∀ i x y, i ∈ H x → i ∈ H y → x = y.

(** A buffer leaves its chain. *)
Lemma unhash_run H s i b l1 l2 :
  zlen (bufs s) = NR_BUFS → chains H s → disjoint H → zget (bufs s) i = Some b →
  H (bucket (b_blocknr b)) = l1 ++ i :: l2 →
  ∃ s', unhash i s = Ret tt s' ∧ chains (put_chain H (bucket (b_blocknr b)) (l1 ++ l2)) s' ∧ rehashed s s'.
Proof.
  intros Hn Hc Hd Hb EH. unfold unhash. step (rd_buf_run s i b Hb). cbv zeta. fold (bucket (b_blocknr b)).
  set (h := bucket (b_blocknr b)) in *. pose proof (bucket_range (b_blocknr b)) as Hr. fold h in Hr.
  destruct (Hc h Hr) as (p & Hp & Hl). step (rd_hash_run s h p Hp). rewrite EH in Hl.
  assert (b_hash b = head l2) as Eb.
  { pose proof (link_of _ _ _ _ _ Hl) as E. unfold hsh in E. rewrite (bview_get _ _ _ _ Hb) in E. by injection E. }
  pose proof (linked_NoDup _ _ _ Hl) as Hnd. destruct l1 as [|x l1].
  - rewrite bool_decide_true by (by apply linked_head in Hl). rewrite Eb.
    destruct (wr_hash_run s h p (head l2) Hp) as [E R]. eexists. split; [exact E|]. split; [|exact R].
    intros y Hy. unfold put_chain. cbn. rewrite zget_upd by (by eapply zget_Some_range). rewrite (Z.eqb_sym y h).
    destruct (Z.eqb_spec h y) as [<-|Hne]; [|by apply Hc]. exists (head l2). split; [done|]. by destruct (unlink_head _ _ _ _ Hl).
  - pose proof (linked_head _ _ _ Hl) as Ep. cbn in Ep. subst p. rewrite bool_decide_false.
    2: { intros [= ->]. apply NoDup_cons in Hnd as [Hx _]. apply Hx. set_solver. }
    destruct (unhash_loop s i l2 l1 x b buf_fuel Hl Hb) as (y & b' & Hy & Hb' & E).
    { pose proof (bucket_length s _ _ Hn Hl) as Hlen. cbn in Hlen. rewrite length_app in Hlen. lia. }
    eexists. split; [exact E|]. split; [|by apply rehashed_upd].
    assert (∀ j, j ≠ y → hsh (with_bufs (upd (bufs s) y (set_hash (head l2) b')) s) j = hsh s j) as Hj.
    { intros j Hj. unfold hsh. rewrite (bview_upd _ _ _ _ _ _ Hb'). by destruct (Z.eqb_spec y j). }
    assert (y ∈ H h) as Hyh by (rewrite EH; apply last_mem in Hy; set_solver).
    intros z Hz. unfold put_chain. destruct (Z.eqb_spec z h) as [->|Hne].
    + exists (Some x). split; [done|]. apply last_Some in Hy as [l' El]. rewrite El in *.
      eapply unlink_tail; [exact Hl| |done]. unfold hsh. by rewrite (bview_upd _ _ _ _ _ _ Hb'), Z.eqb_refl.
    + destruct (Hc z Hz) as (q & Hq & Hlq). exists q. split; [done|]. eapply linked_ext; [|exact Hlq].
      intros j Hin. apply Hj. intros ->. apply Hne. by eapply Hd.
Qed.

(** and joins another one, at the front. *)
Lemma rehash_run H s i b :
  chains H s → (∀ h, i ∉ H h) → zget (bufs s) i = Some b →
  ∃ s', rehash i s = Ret tt s' ∧ chains (put_chain H (bucket (b_blocknr b)) (i :: H (bucket (b_blocknr b)))) s' ∧ rehashed s s'.
Proof.
  intros Hc Hi Hb. unfold rehash. step (rd_buf_run s i b Hb). cbv zeta. fold (bucket (b_blocknr b)).
  set (h := bucket (b_blocknr b)) in *. pose proof (bucket_range (b_blocknr b)) as Hr. fold h in Hr.
  destruct (Hc h Hr) as (p & Hp & Hl). step (rd_hash_run s h p Hp).
  step (upd_buf_run s i b (set_hash p) Hb). set (s1 := with_bufs _ s).
  destruct (wr_hash_run s1 h p (Some i) Hp) as [E (R1 & R2 & R3)]. eexists. split; [exact E|]. split.
  - assert (∀ j, j ≠ i → hsh s1 j = hsh s j) as Hj.
    { intros j Hj. unfold hsh, s1. rewrite (bview_upd _ _ _ _ _ _ Hb). by destruct (Z.eqb_spec i j). }
    intros z Hz. unfold put_chain. cbn. rewrite zget_upd by (by eapply zget_Some_range). rewrite (Z.eqb_sym z h).
    destruct (Z.eqb_spec h z) as [<-|Hne].
    + exists (Some i). split; [done|]. apply (push_link (hsh s) (hsh s1) p i (H h) Hl).
      * unfold hsh, s1. by rewrite (bview_upd _ _ _ _ _ _ Hb), Z.eqb_refl.
      * intros j Hin. apply Hj. intros ->. by eapply Hi.
    + destruct (Hc z Hz) as (q & Hq & Hlq). exists q. split; [done|]. apply (linked_ext (hsh s)); [|exact Hlq].
      intros j Hin. apply Hj. intros ->. by eapply Hi.
  - destruct (rehashed_upd s i b p Hb) as (Q1 & Q2 & Q3). split; [intros j; etrans; [apply R1|apply Q1]|].
    split; [by rewrite R2|]. by cbn in *.
Qed.

(** The search finds a buffer with this name, or the chain has none. *)
Definition named (dev block : Z) (b : buf) : Prop := b_dev b = dev ∧ b_blocknr b = block.

Lemma find_step_run s dev block i b :
  zget (bufs s) i = Some b →
  find_step dev block (Some i) s =
    Ret (if (b_blocknr b =? block) && (b_dev b =? dev) then inr (Some i) else inl (b_hash b)) s.
Proof. intros Hb. unfold find_step. step (rd_buf_run s i b Hb). by destruct (_ && _). Qed.

Lemma find_loop_chain s dev block l p fuel :
  linked (hsh s) p l → (length l < fuel)%nat →
  ∃ o, loop fuel (find_step dev block) p s = Ret o s ∧
    match o with
    | Some i => i ∈ l ∧ ∃ b, zget (bufs s) i = Some b ∧ named dev block b
    | None => ∀ i b, i ∈ l → zget (bufs s) i = Some b → ¬ named dev block b
    end.
Proof.
  revert p fuel. induction l as [|i l IH]; intros p fuel Hl Hf; (destruct fuel as [|fuel]; [lia|]); rewrite loop_S.
  - apply linked_nil in Hl as ->. exists None. split; [done|]. intros i b Hi. by apply not_elem_of_nil in Hi.
  - destruct (hash_get _ s _ _ i eq_refl Hl) as [b Hb]; [left|]. pose proof Hl as [-> _].
    destruct (unlink_head _ _ _ _ Hl) as [Hx Hl']. unfold hsh in Hx. rewrite (bview_get _ _ _ _ Hb) in Hx.
    apply (inj Some) in Hx. step (find_step_run s dev block i b Hb).
    destruct ((b_blocknr b =? block) && (b_dev b =? dev)) eqn:Et.
    + apply andb_true_iff in Et as [?%Z.eqb_eq ?%Z.eqb_eq]. exists (Some i). split; [done|]. split; [left|]. by exists b.
    + simpl in Hf. rewrite Hx. destruct (IH (head l) fuel Hl') as (o & E & Ho); [lia|].
      exists o. split; [exact E|]. destruct o as [j|].
      * destruct Ho as [Hj ?]. split; [by right|done].
      * intros j c [->|Hj]%elem_of_cons Hc; [|by eapply Ho]. rewrite Hb in Hc. injection Hc as <-. intros [<- <-].
        by rewrite !Z.eqb_refl in Et.
Qed.

Lemma find_block_run H s dev block :
  zlen (bufs s) = NR_BUFS → chains H s → dev ≠ NO_DEV →
  ∃ o, find_block dev block s = Ret o s ∧
    match o with
    | Some i => ∃ b, zget (bufs s) i = Some b ∧ named dev block b
    | None => ∀ i b, i ∈ H (bucket block) → zget (bufs s) i = Some b → ¬ named dev block b
    end.
Proof.
  intros Hn Hc Hd. unfold find_block. destruct (Z.eqb_spec dev NO_DEV); [done|]. fold (bucket block).
  destruct (Hc (bucket block) (bucket_range block)) as (p & Hp & Hl). step (rd_hash_run s _ p Hp).
  destruct (find_loop_chain s dev block _ p buf_fuel Hl) as (o & E & Ho); [by eapply bucket_length|].
  exists o. split; [done|]. destruct o; [apply Ho|done].
Qed.
End chains.
