(* ===== verification/CacheSpec.v ===== *)
(** * The buffer cache runs

    The invariant [cached out L H] of the cache: [L] are the buffers that nobody
    uses, in the order in which they are given up, and [H] the hash chains; [out]
    is a buffer that is being taken for another block, on no chain.
    Every operation returns and keeps it, whatever the drivers answer. *)

From stdpp Require Import sorting.
From S2P Require Import Prelude Linked Cache CacheLists.

Section spec.
Context `{BD : BlockDev}.
Implicit Types (s : fsst) (b : buf).

(** ** The invariant *)

(** Block sizes of mounted file systems; [read_super] accepts no others. *)
Definition sizes_ok (sps : list super_block) : Prop :=
  Forall (λ sp, s_dev sp ≠ NO_DEV → MIN_BLOCK_SIZE ≤ s_block_size sp ≤ MAX_BLOCK_SIZE) sps.

Record cached (out : option Z) (L : list Z) (H : Z → list Z) (s : fsst) : Prop := Cached {
  ca_bufs : zlen (bufs s) = NR_BUFS;
  ca_heads : zlen (buf_hash s) = NR_BUF_HASH;
  ca_data i b : zget (bufs s) i = Some b → zlen (b_data b) = MAX_BLOCK_SIZE ∧ 0 ≤ b_blocknr b < 2 ^ 32;
  ca_lru : lru L s;
  ca_free i b : zget (bufs s) i = Some b → 0 ≤ b_count b ≤ 127 ∧ (i ∈ L ↔ b_count b = 0 ∧ out ≠ Some i);
  ca_use : bufs_in_use s = NR_BUFS - zlen L;
  ca_chains : chains H s;
  ca_hashed i b h : zget (bufs s) i = Some b → i ∈ H h ↔ h = bucket (b_blocknr b) ∧ out ≠ Some i;
  ca_only i h : i ∈ H h → is_Some (zget (bufs s) i);
  ca_names i j b c : zget (bufs s) i = Some b → zget (bufs s) j = Some c → b_dev b ≠ NO_DEV →
    named (b_dev b) (b_blocknr b) c → i = j;
  ca_sizes : sizes_ok (supers s) }.

Lemma cached_disjoint out L H s : cached out L H s → disjoint H.
Proof.
  intros Hc i x y Hx Hy. destruct (ca_only _ _ _ _ Hc _ _ Hx) as [b Hb].
  apply (ca_hashed _ _ _ _ Hc _ _ _ Hb) in Hx as [-> _], Hy as [-> _]. done.
Qed.

(** ** Block sizes *)

Definition size_of (s : fsst) (dev : Z) : Z :=
  match List.find (λ sp, s_dev sp =? dev) (supers s) with Some sp => s_block_size sp | None => MIN_BLOCK_SIZE end.

Lemma get_block_size_run s dev : dev ≠ NO_DEV → get_block_size dev s = Ret (size_of s dev) s.
Proof. intros Hd. unfold get_block_size. by destruct (Z.eqb_spec dev NO_DEV). Qed.

Lemma size_range out L H s dev : cached out L H s → dev ≠ NO_DEV → MIN_BLOCK_SIZE ≤ size_of s dev ≤ MAX_BLOCK_SIZE.
Proof.
  intros Hc Hd. unfold size_of. destruct (List.find _ _) as [sp|] eqn:E; [|done].
  apply List.find_some in E as [Hin <-%Z.eqb_eq]. pose proof (ca_sizes _ _ _ _ Hc) as Hs. unfold sizes_ok in Hs.
  rewrite List.Forall_forall in Hs. by apply Hs.
Qed.

Lemma overlay_len l old : zlen l ≤ zlen old → zlen (overlay l old) = zlen old.
Proof. unfold overlay, zlen. intros Hl. rewrite length_app, length_take, length_drop. lia. Qed.

(** ** One transfer *)

Lemma upd_buf_twice s i b f g :
  zget (bufs s) i = Some b → (upd_buf i f;; upd_buf i g) s = Ret tt (with_bufs (upd (bufs s) i (g (f b))) s).
Proof.
  intros Hb. step (upd_buf_run s i b f Hb). pose proof (zget_Some_range _ _ _ Hb) as Hr.
  rewrite (upd_buf_run _ i (f b)) by (by apply zget_upd_eq). cbn. unfold upd. by rewrite list_insert_insert_eq.
Qed.

(** A buffer whose transfer gave the result [r]. *)
Definition after_io (r size : Z) (b : buf) : buf := set_dirt CLEAN (if r =? size then b else set_dev NO_DEV b).

Lemma rw_block_read s i b r l d :
  let size := size_of s (b_dev b) in
  zget (bufs s) i = Some b → b_dev b ≠ NO_DEV →
  dev_read (b_dev b) (u32 (b_blocknr b * size)) size (devices s) = (r, l, d) →
  rw_block i READING s = Ret tt
    (with_rdwt_err (if r =? size then rdwt_err s else if 0 <=? r then END_OF_FILE else r)
      (with_devices d (with_bufs (upd (bufs s) i (after_io r size (set_data (overlay l (b_data b)) b))) s))).
Proof.
  intros size Hb Hd E. unfold rw_block. step (rd_buf_run s i b Hb). step (get_block_size_run s _ Hd). fold size.
  destruct (Z.eqb_spec (b_dev b) NO_DEV); [done|]. unfold when at 1. cbn [negb].
  unfold block_io. rewrite !bind_assoc. step (rd_buf_run s i b Hb). rewrite !bind_assoc, bind_get.
  change (READING =? READING) with true. cbv iota. rewrite E. rewrite !bind_assoc.
  set (b1 := set_data (overlay l (b_data b)) b).
  step (upd_buf_run s i b (set_data (overlay l (b_data b))) Hb). fold b1.
  rewrite !bind_assoc, bind_modify, bind_mret.
  pose proof (zget_Some_range _ _ _ Hb) as Hr.
  assert (zget (bufs (with_devices d (with_bufs (upd (bufs s) i b1) s))) i = Some b1) as Hb1 by (by apply zget_upd_eq).
  unfold after_io. destruct (r =? size); unfold when at 1; cbn [negb].
  - rewrite bind_mret. rewrite (upd_buf_run _ i b1) by done. cbn. unfold upd. by rewrite list_insert_insert_eq.
  - rewrite bind_assoc. step (upd_buf_run _ i b1 (set_dev NO_DEV) Hb1). change (READING =? READING) with true.
    unfold when. rewrite bind_modify. rewrite (upd_buf_run _ i (set_dev NO_DEV b1)) by (apply zget_upd_eq; cbn; by rewrite zlen_upd).
    cbn. unfold upd. by rewrite !list_insert_insert_eq.
Qed.

Lemma rw_block_write s i b r d :
  let size := size_of s (b_dev b) in
  zget (bufs s) i = Some b → b_dev b ≠ NO_DEV →
  dev_write (b_dev b) (u32 (b_blocknr b * size)) (take (Z.to_nat size) (b_data b)) (devices s) = (r, d) →
  rw_block i WRITING s = Ret tt (with_devices d (with_bufs (upd (bufs s) i (after_io r size b)) s)).
Proof.
  intros size Hb Hd E. unfold rw_block. step (rd_buf_run s i b Hb). step (get_block_size_run s _ Hd). fold size.
  destruct (Z.eqb_spec (b_dev b) NO_DEV); [done|]. unfold when at 1. cbn [negb].
  unfold block_io. rewrite !bind_assoc. step (rd_buf_run s i b Hb). rewrite !bind_assoc, bind_get.
  change (WRITING =? READING) with false. cbv iota. rewrite E. rewrite !bind_assoc, bind_modify, bind_mret.
  pose proof (zget_Some_range _ _ _ Hb) as Hr.
  unfold after_io. destruct (r =? size); unfold when at 1; cbn [negb].
  - rewrite bind_mret. by rewrite (upd_buf_run _ i b).
  - rewrite bind_assoc. step (upd_buf_run (with_devices d s) i b (set_dev NO_DEV) Hb). change (WRITING =? READING) with false.
    unfold when. rewrite bind_mret. rewrite (upd_buf_run _ i (set_dev NO_DEV b)) by (by apply zget_upd_eq).
    cbn. unfold upd. by rewrite !list_insert_insert_eq.
Qed.

(** ** What transfers leave alone *)

Definition core (b : buf) := (b_next b, b_prev b, b_hash b, b_blocknr b, b_count b).

(** The buffers keep their places; one that had a device may have lost it. *)
Record kept (s s' : fsst) : Prop := Kept {
  ke_core j : bview core s' j = bview core s j;
  ke_bufs j b' : zget (bufs s') j = Some b' → ∃ b, zget (bufs s) j = Some b ∧
    zlen (b_data b') = zlen (b_data b) ∧ (b_dev b' = b_dev b ∨ b_dev b' = NO_DEV);
  ke_hash : buf_hash s' = buf_hash s;
  ke_front : front s' = front s;
  ke_rear : rear s' = rear s;
  ke_use : bufs_in_use s' = bufs_in_use s;
  ke_supers : supers s' = supers s;
  ke_err : err_code s' = err_code s }.

Lemma kept_refl s : kept s s.
Proof. split; try done. intros j b Hb. exists b. split; [done|]. split; [done|]. by left. Qed.

Lemma kept_trans s1 s2 s3 : kept s1 s2 → kept s2 s3 → kept s1 s3.
Proof.
  intros [] []. split; try congruence.
  intros j b3 Hb3. destruct (ke_bufs1 j b3 Hb3) as (b2 & Hb2 & Hl2 & Hd2).
  destruct (ke_bufs0 j b2 Hb2) as (b1 & Hb1 & Hl1 & Hd1). exists b1. split; [done|]. split; [congruence|].
  destruct Hd2 as [->|]; [done|by right].
Qed.

Lemma kept_upd s i b b' d e :
  zget (bufs s) i = Some b → core b' = core b → zlen (b_data b') = zlen (b_data b) →
  (b_dev b' = b_dev b ∨ b_dev b' = NO_DEV) →
  kept s (with_rdwt_err e (with_devices d (with_bufs (upd (bufs s) i b') s))).
Proof.
  intros Hb Hc Hl Hd. split; try done; [intros j; by eapply bview_upd_same|].
  intros j b1 Hb1. cbn in Hb1. rewrite zget_upd in Hb1 by (by eapply zget_Some_range).
  destruct (Z.eqb_spec i j) as [<-|]; [injection Hb1 as <-; by exists b|]. exists b1. split_and!; try done. by left.
Qed.

Lemma kept_core s s' j b' :
  kept s s' → zget (bufs s') j = Some b' → ∃ b, zget (bufs s) j = Some b ∧ core b' = core b ∧
    zlen (b_data b') = zlen (b_data b) ∧ (b_dev b' = b_dev b ∨ b_dev b' = NO_DEV).
Proof.
  intros Hk Hb'. destruct (ke_bufs _ _ Hk j b' Hb') as (b & Hb & ? & ?). exists b. split_and!; try done.
  pose proof (ke_core _ _ Hk j) as E. rewrite (bview_get _ _ _ _ Hb), (bview_get _ _ _ _ Hb') in E. by apply (inj Some) in E.
Qed.

Lemma kept_get s s' j b : kept s s' → zget (bufs s) j = Some b → ∃ b', zget (bufs s') j = Some b' ∧ core b' = core b.
Proof.
  intros Hk Hb. pose proof (ke_core _ _ Hk j) as E. rewrite (bview_get _ _ _ _ Hb) in E. by apply bview_Some in E.
Qed.

Lemma kept_cached out L H s s' : kept s s' → cached out L H s → cached out L H s'.
Proof.
  intros Hk [Hn Hh Hda Hl Hf Hu Hc Hha Ho Hna Hsz]. pose proof Hk as [Kc _ Kh Kf Kr Ku Ks _].
  split.
  - by rewrite (bview_len core s s' Kc).
  - by rewrite Kh.
  - intros i b' Hb'. destruct (kept_core _ _ _ _ Hk Hb') as (b & Hb & Ec & -> & _). injection Ec as _ _ _ -> _. eauto.
  - apply (lru_ext L s); try done; intros j; [exact (bview_part core b_next (λ '(x, _, _, _, _), x) s s' ltac:(done) Kc j)|].
    exact (bview_part core b_prev (λ '(_, x, _, _, _), x) s s' ltac:(done) Kc j).
  - intros i b' Hb'. destruct (kept_core _ _ _ _ Hk Hb') as (b & Hb & Ec & _). injection Ec as _ _ _ _ ->. eauto.
  - congruence.
  - apply (chains_ext H s); [|done|done]. intros j.
    exact (bview_part core b_hash (λ '(_, _, x, _, _), x) s s' ltac:(done) Kc j).
  - intros i b' h Hb'. destruct (kept_core _ _ _ _ Hk Hb') as (b & Hb & Ec & _). injection Ec as _ _ _ -> _. eauto.
  - intros i h Hi. destruct (Ho i h Hi) as [b Hb]. destruct (kept_get _ _ _ _ Hk Hb) as (b' & Hb' & _). by exists b'.
  - intros i j b' c' Hb' Hc' Hd [Ed Eb].
    destruct (kept_core _ _ _ _ Hk Hb') as (b & Hb & Ec & _ & [Eb'|Eb']); [|congruence].
    destruct (kept_core _ _ _ _ Hk Hc') as (c & Hcc & Ecc & _ & [Ec'|Ec']); [|congruence].
    injection Ec as _ _ _ Ebl _. injection Ecc as _ _ _ Ecl _. apply (Hna i j b c Hb Hcc); [congruence|]. split; congruence.
  - by rewrite Ks.
Qed.

Lemma rw_block_kept out L H s i b flag :
  cached out L H s → zget (bufs s) i = Some b → b_dev b ≠ NO_DEV → flag = READING ∨ flag = WRITING →
  ∃ s', rw_block i flag s = Ret tt s' ∧ kept s s'.
Proof.
  intros Hc Hb Hd Hflag. set (size := size_of s (b_dev b)). pose proof (size_range _ _ _ s (b_dev b) Hc Hd) as Hs. fold size in Hs.
  destruct (ca_data _ _ _ _ Hc i b Hb) as [Hlen _]. destruct Hflag as [->| ->].
  - destruct (dev_read (b_dev b) (u32 (b_blocknr b * size)) size (devices s)) as [[r l] d] eqn:E.
    assert (0 ≤ size) as H0 by (unfold MIN_BLOCK_SIZE in Hs; lia). pose proof (read_within _ _ _ _ _ _ _ H0 E) as Hl. eexists. split; [by apply rw_block_read|].
    apply (kept_upd s i b); [done|unfold after_io; by destruct (_ =? _)| |unfold after_io; destruct (_ =? _); [by left|by right]].
    assert (zlen (overlay l (b_data b)) = zlen (b_data b)) as Ho by (apply overlay_len; lia).
    unfold after_io. by destruct (_ =? _).
  - destruct (dev_write (b_dev b) (u32 (b_blocknr b * size)) (take (Z.to_nat size) (b_data b)) (devices s)) as [r d] eqn:E.
    eexists. split; [by apply rw_block_write|].
    apply (kept_upd s i b _ d (rdwt_err s)); [done|..]; unfold after_io; destruct (_ =? _); try done; [by left|by right].
Qed.

(** ** Counting uses *)

(** The buffer [i] is in use [c] times; buffers are chained anew. *)
Definition recounted (i c : Z) (s s' : fsst) : Prop :=
  (∃ b, zget (bufs s) i = Some b ∧
    ∀ j, bview body s' j = if i =? j then Some (body (set_count c b)) else bview body s j) ∧
  buf_hash s' = buf_hash s ∧ supers s' = supers s ∧
  rdwt_err s' = rdwt_err s ∧ err_code s' = err_code s ∧ devices s' = devices s.

Lemma recounted_upd s i b c :
  zget (bufs s) i = Some b → recounted i c s (with_bufs (upd (bufs s) i (set_count c b)) s).
Proof.
  intros Hb. split_and!; try done. exists b. split; [done|]. intros j. by eapply bview_upd.
Qed.

Lemma recounted_relinked i c s s1 s' : recounted i c s s1 → relinked s1 s' → recounted i c s s'.
Proof.
  intros ((b & Hb & Hj) & ? & ? & ? & ? & ?) (Hr & ? & ? & ? & ? & ?). split_and!; try congruence.
  exists b. split; [done|]. intros j. by rewrite Hr.
Qed.

Lemma relinked_get s s' i b : relinked s s' → zget (bufs s) i = Some b → ∃ b', zget (bufs s') i = Some b' ∧ body b' = body b.
Proof. intros [Hj _] Hb. specialize (Hj i). rewrite (bview_get _ _ _ _ Hb) in Hj. by apply bview_Some in Hj. Qed.

Lemma relinked_recounted i c s s1 b1 :
  relinked s s1 → zget (bufs s1) i = Some b1 → recounted i c s (with_bufs (upd (bufs s1) i (set_count c b1)) s1).
Proof.
  intros R Hb1. pose proof R as (Hj & ? & ? & ? & ? & ?). split_and!; try done.
  pose proof (Hj i) as E. rewrite (bview_get _ _ _ _ Hb1) in E. symmetry in E. apply bview_Some in E as (b & Hb & E).
  exists b. split; [done|]. intros j. rewrite (bview_upd _ _ _ _ _ _ Hb1). destruct (i =? j); [|apply Hj].
  injection E as E1 E2 E3 E4 E5 E6. f_equal. unfold body. cbn. congruence.
Qed.

(** A buffer after a recount. *)
Lemma recounted_get i c s s' j b' :
  recounted i c s s' → zget (bufs s') j = Some b' → ∃ b, zget (bufs s) j = Some b ∧
    b_data b' = b_data b ∧ b_hash b' = b_hash b ∧ b_blocknr b' = b_blocknr b ∧ b_dev b' = b_dev b ∧ b_dirt b' = b_dirt b ∧
    b_count b' = if i =? j then c else b_count b.
Proof.
  intros ((b & Hb & Hj) & _) Hb'. specialize (Hj j). rewrite (bview_get _ _ _ _ Hb') in Hj.
  destruct (Z.eqb_spec i j) as [<-|].
  - exists b. split; [done|]. by injection Hj as -> -> -> -> -> ->.
  - symmetry in Hj. apply bview_Some in Hj as (b0 & Hb0 & E). exists b0. split; [done|]. by injection E as -> -> -> -> -> ->.
Qed.

Lemma recounted_back i c s s' j b : recounted i c s s' → zget (bufs s) j = Some b → is_Some (zget (bufs s') j).
Proof.
  intros ((b0 & Hb0 & Hj) & _) Hb. specialize (Hj j). destruct (i =? j); [|rewrite (bview_get _ _ _ _ Hb) in Hj];
    apply bview_Some in Hj as (b' & Hb' & _); by exists b'.
Qed.

Lemma recounted_cached out i c L L' H s s' :
  cached out L H s → recounted i c s s' → lru L' s' → 0 ≤ c ≤ 127 → (i ∈ L' ↔ c = 0 ∧ out ≠ Some i) →
  (∀ j, j ≠ i → j ∈ L' ↔ j ∈ L) → bufs_in_use s' = NR_BUFS - zlen L' → cached out L' H s'.
Proof.
  intros [Hn Hh Hda Hl Hf Hu Hc Hha Ho Hna Hsz] Hr Hl' Hcr Hci Hcj Hu'. pose proof Hr as ((b0 & Hb0 & Hj) & Eh & Es & _).
  assert (∀ j, bview (λ b, (b_data b, b_hash b, b_blocknr b, b_dev b)) s' j =
               bview (λ b, (b_data b, b_hash b, b_blocknr b, b_dev b)) s j) as Hv.
  { intros j. pose proof (Hj j) as E. clear -Hb0 E. unfold bview in *. destruct (Z.eqb_spec i j) as [Ej|].
    - rewrite <- Ej in *. rewrite Hb0. destruct (zget (bufs s') i); [|done]. apply (inj Some) in E. injection E as E1 E2 E3 E4 E5 E6. cbn. congruence.
    - destruct (zget (bufs s') j), (zget (bufs s) j); try done. apply (inj Some) in E. injection E as E1 E2 E3 E4 E5 E6. cbn. congruence. }
  split; [by rewrite (bview_len _ _ _ Hv)|by rewrite Eh| |done| |done| | | | |by rewrite Es].
  - intros j b' Hb'. destruct (recounted_get _ _ _ _ _ _ Hr Hb') as (b & Hb & -> & _ & -> & _). eauto.
  - intros j b' Hb'. destruct (recounted_get _ _ _ _ _ _ Hr Hb') as (b & Hb & _ & _ & _ & _ & _ & ->).
    destruct (Z.eqb_spec i j) as [<-|Hne]; [exact (conj Hcr Hci)|]. rewrite Hcj by congruence. by apply Hf.
  - apply (chains_ext H s); [|done|done]. intros j. exact (bview_part (λ b, (b_data b, b_hash b, b_blocknr b, b_dev b)) b_hash (λ '(_, x, _, _), x) s s' (λ b, eq_refl) Hv j).
  - intros j b' h Hb'. destruct (recounted_get _ _ _ _ _ _ Hr Hb') as (b & Hb & _ & _ & -> & _). eauto.
  - intros j h Hin. destruct (Ho j h Hin) as [b Hb]. by eapply recounted_back.
  - intros j k b' c' Hb' Hc' Hd [E1 E2].
    destruct (recounted_get _ _ _ _ _ _ Hr Hb') as (b & Hb & _ & _ & Eb & Ed & _).
    destruct (recounted_get _ _ _ _ _ _ Hr Hc') as (c0 & Hc0 & _ & _ & Ecb & Ecd & _).
    apply (Hna j k b c0 Hb Hc0); [congruence|]. split; congruence.
Qed.

(** ** Returning a block *)

Lemma char8_small x : -128 ≤ x ≤ 127 → char8 x = x.
Proof.
  intros Hx. unfold char8, schar, u8. destruct (Z.ltb_spec x 0).
  - assert (x mod 256 = x + 256) as -> by (symmetry; apply (Z.mod_unique _ _ (-1)); lia).
    destruct (Z.ltb_spec (x + 256) 128); lia.
  - rewrite Z.mod_small by lia. destruct (Z.ltb_spec x 128); lia.
Qed.

(** Where a buffer goes that is not used any more. *)
Definition requeue (b : buf) (ty i : Z) (L : list Z) : list Z :=
  if (b_dev b =? DEV_RAM) || negb (Z.land ty ONE_SHOT =? 0) then i :: L else L ++ [i].

Definition written_at_once (b : buf) (ty : Z) : bool :=
  negb (Z.land ty WRITE_IMMED =? 0) && (b_dirt b =? DIRTY) && negb (b_dev b =? NO_DEV).

Lemma put_block_run L H s i b ty :
  cached None L H s → zget (bufs s) i = Some b → 1 ≤ b_count b →
  ∃ s1 s', put_block (Some i) ty s = Ret tt s' ∧ recounted i (b_count b - 1) s s1 ∧
    cached None (if b_count b =? 1 then requeue b ty i L else L) H s1 ∧
    if (b_count b =? 1) && written_at_once b ty then rw_block i WRITING s1 = Ret tt s' ∧ kept s1 s' else s' = s1.
Proof.
  intros Hc Hb Hcount. destruct (ca_free _ _ _ _ Hc i b Hb) as [Hcr Hin]. pose proof (ca_lru _ _ _ _ Hc) as Hl.
  assert (i ∉ L) as Hi by (rewrite Hin; lia).
  unfold put_block. step (upd_buf_run s i b (λ b, set_count (char8 (b_count b - 1)) b) Hb). rewrite char8_small by lia.
  set (b1 := set_count (b_count b - 1) b). set (s1 := with_bufs _ s).
  assert (zget (bufs s1) i = Some b1) as Hb1 by (apply zget_upd_eq; by eapply zget_Some_range).
  step (rd_buf_run s1 i b1 Hb1). change (b_count b1) with (b_count b - 1).
  assert (recounted i (b_count b - 1) s s1) as R1 by (by apply recounted_upd).
  assert (lru L s1) as Hl1 by (apply (lru_ext L s); try done; intros j; by eapply bview_upd_same).
  destruct (Z.eqb_spec (b_count b) 1) as [E1|E1]; destruct (Z.eqb_spec (b_count b - 1) 0) as [E0|E0]; try lia; cbn [negb andb].
  2: { exists s1, s1. split_and!; try done. eapply recounted_cached; try done; [lia|split; [done|lia]|]. apply Hc. }
  rewrite bind_modify. set (s2 := with_in_use _ s1).
  assert (∃ s3, (if (b_dev b1 =? DEV_RAM) || negb (Z.land ty ONE_SHOT =? 0) then to_front i else to_rear i) s2 = Ret tt s3 ∧
    lru (requeue b ty i L) s3 ∧ relinked s2 s3 ∧ bufs_in_use s3 = bufs_in_use s2) as (s3 & E3 & Hl3 & R3 & Hu3).
  { unfold requeue. change (b_dev b1) with (b_dev b). destruct (_ || _); [by eapply to_front_run|by eapply to_rear_run]. }
  step E3. assert (recounted i (b_count b - 1) s s3) as Rs by (eapply recounted_relinked; [exact R1|exact R3]).
  assert (zlen (requeue b ty i L) = zlen L + 1) as Hlen.
  { unfold requeue. destruct (_ || _); rewrite ?zlen_app, !zlen_cons, ?zlen_nil; lia. }
  assert (cached None (requeue b ty i L) H s3) as Hc3.
  { eapply recounted_cached; try done; [lia| | |].
    - split; [done|]. intros _. unfold requeue. destruct (_ || _); set_solver.
    - intros j Hj. unfold requeue. destruct (_ || _); set_solver.
    - rewrite Hu3, Hlen. cbn. rewrite (ca_use _ _ _ _ Hc). lia. }
  unfold written_at_once. change (b_dirt b1) with (b_dirt b). change (b_dev b1) with (b_dev b).
  destruct (negb (Z.land ty WRITE_IMMED =? 0) && (b_dirt b =? DIRTY) && negb (b_dev b =? NO_DEV)) eqn:Ew; unfold when.
  - destruct (recounted_back _ _ _ _ _ _ Rs Hb) as [b3 Hb3].
    destruct (recounted_get _ _ _ _ _ _ Rs Hb3) as (b0 & Hb0 & _ & _ & _ & Ed & _). rewrite Hb in Hb0. injection Hb0 as <-.
    apply andb_true_iff in Ew as [_ Ed0%negb_true_iff%Z.eqb_neq].
    destruct (rw_block_kept None _ H s3 i b3 WRITING Hc3 Hb3) as (s4 & E4 & K4); [congruence|by right|].
    exists s3, s4. done.
  - exists s3, s3. done.
Qed.

(** ** Transfers of many blocks *)

Definition present (s : fsst) (q : list Z) : Prop := ∀ i, i ∈ q → is_Some (zget (bufs s) i).

Lemma present_kept s s' q : kept s s' → present s q → present s' q.
Proof. intros Hk Hp i Hi. destruct (Hp i Hi) as [b Hb]. destruct (kept_get _ _ _ _ Hk Hb) as (b' & Hb' & _). by exists b'. Qed.

Lemma rd_bufs_run s q :
  present s q → ∃ bs, mapM rd_buf q s = Ret bs s ∧ Forall2 (λ i b, zget (bufs s) i = Some b) q bs.
Proof.
  induction q as [|i q IH]; intros Hp; [by exists []|]. destruct (Hp i) as [b Hb]; [left|].
  destruct IH as (bs & E & Hbs); [intros j Hj; apply Hp; by right|]. exists (b :: bs). split; [|by constructor].
  cbn [mapM]. step (rd_buf_run s i b Hb). by step E.
Qed.

Lemma kept_dirt s i b x : zget (bufs s) i = Some b → kept s (with_bufs (upd (bufs s) i (set_dirt x b)) s).
Proof. intros Hb. apply (kept_upd s i b _ (devices s) (rdwt_err s)); try done. by left. Qed.

Lemma kept_drop s i b : zget (bufs s) i = Some b → kept s (with_bufs (upd (bufs s) i (set_dev NO_DEV b)) s).
Proof. intros Hb. apply (kept_upd s i b _ (devices s) (rdwt_err s)); try done. by right. Qed.

Lemma kept_devices s d : kept s (with_devices d s).
Proof. split; try done. intros j b Hb. exists b. split; [done|]. split; [done|]. by left. Qed.

Lemma harvest_kept dev r rest : ∀ q i s,
  present s q → ∃ n s', harvest WRITING dev r i q rest s = Ret (i + Z.of_nat n) s' ∧ (n ≤ length q)%nat ∧ kept s s'.
Proof.
  induction rest as [|x rest IH]; intros q i s Hp.
  { exists O, s. split; [|split; [lia|apply kept_refl]]. destruct q; cbn; by rewrite Z.add_0_r. }
  destruct q as [|j q]; [exists O, s; split; [cbn; by rewrite Z.add_0_r|split; [done|apply kept_refl]]|].
  destruct (Hp j) as [b Hb]; [left|]. cbn [harvest]. change (WRITING =? READING) with false. cbv iota.
  destruct (negb (x =? 0)).
  - unfold when. destruct (negb (r =? 0) && (i =? 0)).
    + step (upd_buf_run s j b (set_dev NO_DEV) Hb). eexists O, _. split; [by rewrite Z.add_0_r|].
      split; [lia|by apply kept_drop].
    + exists O, s. split; [by rewrite Z.add_0_r|split; [lia|apply kept_refl]].
  - step (upd_buf_run s j b (set_dirt CLEAN) Hb). pose proof (kept_dirt s j b CLEAN Hb) as K1.
    destruct (IH q (i + 1) _ (present_kept _ _ q K1 ltac:(intros k Hk; apply Hp; by right))) as (n & s' & E & Hn & K2).
    exists (S n), s'. split; [rewrite E; f_equal; lia|]. split; [simpl; lia|by eapply kept_trans].
Qed.

Lemma run_io_write dev pos size q s bs :
  Forall2 (λ i b, zget (bufs s) i = Some b) q bs → present s q →
  run_io WRITING dev pos size q s =
    let '(r, rest, d) := dev_scatter dev pos ((λ b, take (Z.to_nat size) (b_data b)) <$> bs) (devices s) in
    Ret (r, rest) (with_devices d s).
Proof.
  intros Hbs Hp. destruct (rd_bufs_run s q Hp) as (bs' & E & Hbs'). assert (bs' = bs) as ->.
  { clear -Hbs Hbs'. revert bs' Hbs'. induction Hbs as [|i b q bs Hb _ IH]; intros bs' Hbs'; inversion Hbs'; subst; [done|].
    f_equal; [congruence|by apply IH]. }
  unfold run_io. step E. rewrite bind_get. change (WRITING =? WRITING) with true. cbv iota.
  by destruct (dev_scatter _ _ _ _) as [[r rest] d].
Qed.

Lemma scatter_loop_kept dev size fuel : ∀ q s,
  present s q → (length q < fuel)%nat →
  ∃ s', loop fuel (scatter_step WRITING dev size) q s = Ret tt s' ∧ kept s s'.
Proof.
  induction fuel as [|fuel IH]; intros q s Hp Hf; [lia|]. rewrite loop_S. destruct q as [|first q0] eqn:Eq.
  { exists s. split; [done|apply kept_refl]. }
  rewrite <- Eq in *. assert (scatter_step WRITING dev size q = scatter_step WRITING dev size (first :: q0)) as -> by (by rewrite Eq).
  destruct (rd_bufs_run s q Hp) as (bs & E1 & Hbs). destruct (Hp first) as [b Hb]; [rewrite Eq; left|].
  cbn [scatter_step]. rewrite <- Eq. rewrite bind_assoc. step E1. rewrite bind_assoc. step (rd_buf_run s first b Hb). cbv zeta.
  set (j := run_length _ _ bs). assert (present s (take j q)) as Hpj.
  { intros i Hi. apply Hp. rewrite <- (take_drop j q). set_solver. }
  pose proof (run_io_write dev (u32 (b_blocknr b * size)) size (take j q) s (take j bs)
    (Forall2_take _ _ _ j Hbs) Hpj) as Er.
  destruct (dev_scatter _ _ _ _) as [[r rest] d] eqn:Ed. rewrite bind_assoc. step Er.
  cbv iota beta. rewrite bind_assoc.
  destruct (harvest_kept dev r rest (take j q) 0 (with_devices d s)) as (n & s1 & E2 & Hn & K1).
  { by eapply present_kept; [apply kept_devices|]. }
  step E2. rewrite Z.add_0_l, Nat2Z.id. change (WRITING =? READING) with false. change (WRITING =? WRITING) with true.
  cbv iota. cbn [andb]. assert (kept s s1) as K by (eapply kept_trans; [apply kept_devices|exact K1]).
  destruct (Z.eqb_spec (Z.of_nat n) 0) as [En|En]; [by exists s1|]. rewrite bind_mret.
  destruct (IH (drop n q) s1) as (s' & E3 & K3).
  - intros i Hi. apply (present_kept s s1 q K Hp). rewrite <- (take_drop n q). set_solver.
  - rewrite length_drop. rewrite length_take in Hn. lia.
  - exists s'. split; [done|by eapply kept_trans].
Qed.

Lemma flushall_kept out L H s dev :
  cached out L H s → dev ≠ NO_DEV → ∃ s', flushall dev s = Ret tt s' ∧ kept s s'.
Proof.
  intros Hc Hd. unfold flushall, rw_scattered. rewrite bind_get. step (get_block_size_run s dev Hd). rewrite bind_get.
  assert (present s (dirty_bufs dev s)) as Hp.
  { intros i [Hi _]%list_elem_of_filter. unfold is_dirty in Hi. by destruct (zget (bufs s) i). }
  destruct (shell_sort_run (λ i, b_blocknr <$> zget (bufs s) i) (λ i, default 0 (b_blocknr <$> zget (bufs s) i)) (dirty_bufs dev s))
    as (q & E & Hq & _).
  { intros i Hi. destruct (Hp i Hi) as [b ->]. done. }
  rewrite E. apply scatter_loop_kept; [|lia]. intros i Hi. apply Hp. by rewrite <- Hq.
Qed.

(** ** Getting a block *)

(** What a buffer holds, apart from its places in the chains. *)
Definition content (b : buf) := (b_data b, b_blocknr b, b_dev b, b_dirt b, b_count b).

Definition unchanged (s s' : fsst) : Prop :=
  (∀ j, bview content s' j = bview content s j) ∧ supers s' = supers s ∧ rdwt_err s' = rdwt_err s ∧
  err_code s' = err_code s ∧ devices s' = devices s.

Lemma unchanged_trans s1 s2 s3 : unchanged s1 s2 → unchanged s2 s3 → unchanged s1 s3.
Proof. intros (? & ? & ? & ? & ?) (? & ? & ? & ? & ?). split_and!; congruence. Qed.

Lemma relinked_unchanged s s' : relinked s s' → unchanged s s'.
Proof.
  intros (Hb & ? & ? & ? & ? & ?). split_and!; try done.
  exact (bview_part body content (λ '(d, _, n, v, t, c), (d, n, v, t, c)) s s' (λ b, eq_refl) Hb).
Qed.

Lemma rehashed_unchanged s s' : rehashed s s' → unchanged s s'.
Proof.
  intros (Hb & ? & ? & ? & ? & ? & ? & ? & ?). split_and!; try done.
  exact (bview_part shell content (λ '(d, _, _, n, v, t, c), (d, n, v, t, c)) s s' (λ b, eq_refl) Hb).
Qed.

Lemma unchanged_get s s' j b' :
  unchanged s s' → zget (bufs s') j = Some b' → ∃ b, zget (bufs s) j = Some b ∧ content b' = content b.
Proof.
  intros [Hc _] Hb'. specialize (Hc j). rewrite (bview_get _ _ _ _ Hb') in Hc. symmetry in Hc.
  apply bview_Some in Hc as (b & Hb & E). by exists b.
Qed.

Lemma unchanged_back s s' j b :
  unchanged s s' → zget (bufs s) j = Some b → ∃ b', zget (bufs s') j = Some b' ∧ content b' = content b.
Proof. intros [Hc _] Hb. specialize (Hc j). rewrite (bview_get _ _ _ _ Hb) in Hc. by apply bview_Some in Hc. Qed.

Definition without (i : Z) (L : list Z) : list Z := filter (λ j, j ≠ i) L.

Lemma without_split i L : i ∈ L → NoDup L → ∃ l1 l2, L = l1 ++ i :: l2 ∧ without i L = l1 ++ l2.
Proof.
  intros (l1 & l2 & ->)%list_elem_of_split Hd. exists l1, l2. split; [done|]. unfold without.
  apply NoDup_app in Hd as (_ & H1 & H2). apply NoDup_cons in H2 as [H2 _].
  rewrite filter_app, filter_cons_False by auto. f_equal; apply filter_all, Forall_forall.
  - intros j Hj ->. apply (H1 _ Hj). left.
  - by intros j Hj ->.
Qed.

Lemma without_none i L : i ∉ L → without i L = L.
Proof. intros Hi. apply filter_all, Forall_forall. by intros j Hj ->. Qed.

(** A block that is in the cache. *)
Lemma get_cached L H s i b :
  cached None L H s → zget (bufs s) i = Some b → b_count b < 127 →
  ∃ s', (when (b_count b =? 0) (rm_lru i);; upd_buf i (λ b, set_count (char8 (b_count b + 1)) b)) s = Ret tt s' ∧
    recounted i (b_count b + 1) s s' ∧ cached None (without i L) H s'.
Proof.
  intros Hc Hb Hlt. destruct (ca_free _ _ _ _ Hc i b Hb) as [Hcr Hin]. pose proof (ca_lru _ _ _ _ Hc) as Hl.
  assert (∃ s1, when (b_count b =? 0) (rm_lru i) s = Ret tt s1 ∧ lru (without i L) s1 ∧ relinked s s1 ∧
    bufs_in_use s1 = NR_BUFS - zlen (without i L)) as (s1 & E1 & Hl1 & R1 & Hu1).
  { unfold when. destruct (Z.eqb_spec (b_count b) 0) as [E0|E0].
    - destruct (without_split i L) as (l1 & l2 & -> & Eo); [by apply Hin|by eapply lru_NoDup|].
      destruct (rm_lru_run s l1 i l2 Hl) as (s1 & E & Hl1 & R1 & Hu1). exists s1. rewrite Eo. split_and!; try done.
      rewrite Hu1, (ca_use _ _ _ _ Hc), !zlen_app, zlen_cons. lia.
    - rewrite without_none by (intros Hi; by apply Hin in Hi as [? _]). exists s. split_and!; try done. apply Hc. }
  step E1. destruct (relinked_get _ _ _ _ R1 Hb) as (b1 & Hb1 & Eb).
  assert (b_count b1 = b_count b) as Ec by (by injection Eb).
  rewrite (upd_buf_run s1 i b1 _ Hb1), Ec, char8_small by lia.
  pose proof (relinked_recounted i (b_count b + 1) s s1 b1 R1 Hb1) as Rc. eexists. split; [done|]. split; [done|].
  eapply recounted_cached; try done.
  - apply (lru_ext _ s1); try done; intros j; by eapply bview_upd_same.
  - lia.
  - unfold without. rewrite list_elem_of_filter. split; [by intros [? _]|lia].
  - intros j Hj. unfold without. rewrite list_elem_of_filter. naive_solver.
Qed.

(** The least recently used buffer leaves its chains. *)
Lemma take_front L H s i :
  cached None (i :: L) H s →
  ∃ s' H', (rm_lru i;; unhash i) s = Ret tt s' ∧ cached (Some i) L H' s' ∧ unchanged s s'.
Proof.
  intros Hc. pose proof Hc as [Hn Hh Hda Hl Hf Hu Hch Hha Ho Hna Hsz]. pose proof (lru_NoDup _ _ Hl) as Hnd.
  apply NoDup_cons in Hnd as [HiL Hnd].
  destruct (rm_lru_run s [] i L Hl) as (s1 & E1 & Hl1 & R1 & Hu1). step E1.
  destruct (lru_get _ _ i Hl) as [b Hb]; [left|]. destruct (relinked_get _ _ _ _ R1 Hb) as (b1 & Hb1 & Eb).
  assert (b_blocknr b1 = b_blocknr b) as Ebn by (by injection Eb).
  assert (chains H s1) as Hch1.
  { apply (chains_ext H s); [|apply R1|done]. intros j.
    exact (bview_part body b_hash (λ '(_, x, _, _, _, _), x) s s1 (λ b, eq_refl) (proj1 R1) j). }
  assert (i ∈ H (bucket (b_blocknr b1))) as (l1 & l2 & EH)%list_elem_of_split by (rewrite Ebn; by apply (Hha i b)).
  assert (zlen (bufs s1) = NR_BUFS) as Hn1 by (by rewrite (bview_len body s s1 (proj1 R1))).
  destruct (unhash_run H s1 i b1 l1 l2 Hn1 Hch1 (cached_disjoint _ _ _ _ Hc) Hb1 EH) as (s2 & E2 & Hch2 & R2).
  set (H2 := put_chain H (bucket (b_blocknr b1)) (l1 ++ l2)) in *.
  assert (unchanged s s2) as Hun by (eapply unchanged_trans; [by apply relinked_unchanged|by apply rehashed_unchanged]).
  assert (∀ j h, j ∈ H2 h ↔ j ∈ H h ∧ j ≠ i) as HH2.
  { intros j h. unfold H2, put_chain. destruct (Z.eqb_spec h (bucket (b_blocknr b1))) as [->|Hne].
    - rewrite EH. destruct (Hch1 (bucket (b_blocknr b1)) (bucket_range _)) as (p & _ & Hlk). rewrite EH in Hlk.
      apply linked_NoDup, NoDup_app in Hlk as (_ & Ha & Hbd). apply NoDup_cons in Hbd as [Hbd _].
      rewrite !elem_of_app, elem_of_cons. split; [|naive_solver].
      intros [Hj|Hj]; (split; [naive_solver|]); [intros ->; apply (Ha _ Hj); left|by intros ->].
    - split; [|naive_solver]. intros Hj. split; [done|]. intros ->. apply Hne. rewrite Ebn. by apply (Hha i b). }
  exists s2, H2. split; [exact E2|]. split; [|done]. pose proof R2 as (Rs & Rh & Rf & Rr & Ru & Rsu & _).
  pose proof R1 as (_ & R1h & R1s & _).
  split.
  - by rewrite (bview_len shell s1 s2 Rs).
  - by rewrite Rh, R1h.
  - intros j c' Hc'. destruct (unchanged_get _ _ _ _ Hun Hc') as (c & Hcc & E). injection E as -> -> _ _ _. eauto.
  - apply (lru_ext L s1); try done; intros j; [exact (bview_part shell b_next (λ '(_, x, _, _, _, _, _), x) s1 s2 (λ b, eq_refl) Rs j)|].
    exact (bview_part shell b_prev (λ '(_, _, x, _, _, _, _), x) s1 s2 (λ b, eq_refl) Rs j).
  - intros j c' Hc'. destruct (unchanged_get _ _ _ _ Hun Hc') as (c & Hcc & E). injection E as _ _ _ _ ->.
    destruct (Hf j c Hcc) as [? Hjc]. split; [done|]. rewrite elem_of_cons in Hjc. split.
    + intros Hj. split; [apply Hjc; by right|]. by intros [= ->].
    + intros [E0 Hji]. destruct Hjc as [_ Hjc]. destruct Hjc as [->|]; [done| |done]. by destruct Hji.
  - rewrite Ru, Hu1, Hu, zlen_cons. lia.
  - done.
  - intros j c' h Hc'. destruct (unchanged_get _ _ _ _ Hun Hc') as (c & Hcc & E). injection E as _ -> _ _ _.
    rewrite HH2, (Hha j c h Hcc). split; [intros [[-> _] ?]; split; [done|congruence]|].
    intros [-> ?]. split; [done|congruence].
  - intros j h [Hj _]%HH2. destruct (Ho j h Hj) as [c Hcc]. destruct (unchanged_back _ _ _ _ Hun Hcc) as (c' & ? & _). by exists c'.
  - intros j k c' d' Hc' Hd' Hdev [E1' E2'].
    destruct (unchanged_get _ _ _ _ Hun Hc') as (c & Hcc & E). injection E as _ Ecb Ecd _ _.
    destruct (unchanged_get _ _ _ _ Hun Hd') as (d & Hdd & E'). injection E' as _ Edb Edd _ _.
    apply (Hna j k c d Hcc Hdd); [congruence|]. split; congruence.
  - by rewrite Rsu, R1s.
Qed.

(** The buffer is now for another block, used once. *)
Definition renamed (i dev block : Z) (s s' : fsst) : Prop :=
  (∃ b b', zget (bufs s) i = Some b ∧ zget (bufs s') i = Some b' ∧ content b' = (b_data b, block, dev, b_dirt b, 1)) ∧
  (∀ j, j ≠ i → bview content s' j = bview content s j) ∧
  supers s' = supers s ∧ rdwt_err s' = rdwt_err s ∧ err_code s' = err_code s ∧ devices s' = devices s.

(** No buffer but [i] has the name. *)
Definition unnamed (i dev block : Z) (s : fsst) : Prop :=
  dev ≠ NO_DEV → ∀ j c, zget (bufs s) j = Some c → named dev block c → j = i.

Lemma renamed_get i dev block s s' j c' :
  renamed i dev block s s' → zget (bufs s') j = Some c' → j ≠ i → ∃ c, zget (bufs s) j = Some c ∧ content c' = content c.
Proof.
  intros (_ & Hj & _) Hc' Hne. specialize (Hj j Hne). rewrite (bview_get _ _ _ _ Hc') in Hj. symmetry in Hj.
  apply bview_Some in Hj as (c & Hc & E). by exists c.
Qed.

Lemma rename_run L H s i b dev block :
  cached (Some i) L H s → zget (bufs s) i = Some b → b_count b = 0 → unnamed i dev block s → 0 ≤ block < 2 ^ 32 →
  ∃ s' H', (upd_buf i (set_name dev block);; upd_buf i (λ b, set_count (char8 (b_count b + 1)) b);; rehash i) s = Ret tt s' ∧
    cached None L H' s' ∧ renamed i dev block s s'.
Proof.
  intros [Hn Hh Hda Hl Hf Hu Hch Hha Ho Hna Hsz] Hb H0 Hun Hbl. pose proof (zget_Some_range _ _ _ Hb) as Hr.
  rewrite (bind_seq _ _ _ _ _ _ (upd_buf_twice s i b (set_name dev block) (λ b, set_count (char8 (b_count b + 1)) b) Hb)).
  cbn [b_count set_name]. rewrite H0. change (char8 (0 + 1)) with 1. set (b1 := set_count 1 _). set (s1 := with_bufs _ s).
  assert (zget (bufs s1) i = Some b1) as Hb1 by (by apply zget_upd_eq).
  assert (chains H s1) as Hch1 by (apply (chains_ext H s); try done; intros j; by eapply bview_upd_same).
  assert (∀ h, i ∉ H h) as Hi by (intros h Hih; apply (Hha i b h Hb) in Hih as [_ []]; done).
  destruct (rehash_run H s1 i b1 Hch1 Hi Hb1) as (s2 & E2 & Hch2 & R2). change (b_blocknr b1) with block in *.
  set (H2 := put_chain H (bucket block) (i :: H (bucket block))) in *.
  pose proof (rehashed_unchanged _ _ R2) as Hu2. pose proof R2 as (Rs & Rh & Rf & Rr & Ru & Rsu & _).
  assert (renamed i dev block s s2) as Hren.
  { split_and!; try apply Hu2.
    - destruct (unchanged_back _ _ _ _ Hu2 Hb1) as (b2 & Hb2 & E). exists b, b2. split_and!; try done.
    - intros j Hj. rewrite (proj1 Hu2 j). unfold s1. rewrite (bview_upd _ _ _ _ _ _ Hb). by destruct (Z.eqb_spec i j). }
  assert (∀ j c', zget (bufs s2) j = Some c' → j = i ∧ b_data c' = b_data b ∧ named dev block c' ∧ b_count c' = 1 ∨
    j ≠ i ∧ ∃ c, zget (bufs s) j = Some c ∧ content c' = content c) as Hget.
  { intros j c' Hc'. destruct (Z.eq_dec j i) as [->|Hne]; [left|right; split; [done|by eapply renamed_get]].
    destruct Hren as ((b0 & b2 & Hb0 & Hb2 & E) & _). rewrite Hb in Hb0. rewrite Hc' in Hb2. injection Hb0 as <-. injection Hb2 as <-.
    injection E as -> E1 E3 _ ->. done. }
  assert (∀ j h, j ∈ H2 h ↔ j ∈ H h ∨ j = i ∧ h = bucket block) as HH2.
  { intros j h. unfold H2, put_chain. destruct (Z.eqb_spec h (bucket block)) as [->|]; [set_solver|]. naive_solver. }
  exists s2, H2. split; [exact E2|]. split; [|done]. split.
  - rewrite (bview_len shell s1 s2 Rs). cbn. by rewrite zlen_upd.
  - by rewrite Rh.
  - intros j c' Hc'. destruct (Hget j c' Hc') as [(-> & -> & [_ ->] & _)|(_ & c & Hcc & E)]; [split; [by apply (Hda i b)|done]|].
    injection E as -> -> _ _ _. eauto.
  - apply (lru_ext L s); [| |by rewrite Rf|by rewrite Rr|done]; intros j.
    + etrans; [exact (bview_part shell b_next (λ '(_, x, _, _, _, _, _), x) s1 s2 (λ b, eq_refl) Rs j)|]. by eapply bview_upd_same.
    + etrans; [exact (bview_part shell b_prev (λ '(_, _, x, _, _, _, _), x) s1 s2 (λ b, eq_refl) Rs j)|]. by eapply bview_upd_same.
  - intros j c' Hc'. destruct (Hget j c' Hc') as [(-> & _ & _ & ->)|(Hji & c & Hcc & E)].
    + split; [done|]. split; [|by intros [? _]]. intros HiL. by apply (Hf i b Hb) in HiL as [_ []].
    + injection E as _ _ _ _ ->. destruct (Hf j c Hcc) as [? Hjc]. split; [done|]. rewrite Hjc. naive_solver.
  - by rewrite Ru.
  - done.
  - intros j c' h Hc'. rewrite HH2. destruct (Hget j c' Hc') as [(-> & _ & [_ ->] & _)|(Hji & c & Hcc & E)].
    + split; [intros [Hih|[_ ->]]; [by destruct (Hi h)|done]|]. intros [-> _]. by right.
    + injection E as _ -> _ _ _. rewrite (Hha j c h Hcc). naive_solver.
  - intros j h [Hj|[-> ->]]%HH2.
    + destruct (Ho j h Hj) as [c Hcc]. pose proof (bview_len shell s1 s2 Rs) as Hlen. cbn in Hlen. rewrite zlen_upd in Hlen.
      apply zget_Some_range in Hcc. destruct (zget_in (bufs s2) j) as [x Hx]; [by rewrite Hlen|by exists x].
    + destruct Hren as ((b0 & b2 & _ & Hb2 & _) & _). by exists b2.
  - intros j k c' d' Hc' Hd' Hdev [E1' E2'].
    destruct (Hget j c' Hc') as [(-> & _ & [Ed En] & _)|(Hji & c & Hcc & E)];
      destruct (Hget k d' Hd') as [(-> & _ & [Ed' En'] & _)|(Hki & d & Hdd & E')]; [done|..].
    + injection E' as _ Edb Edd _ _. symmetry. apply (Hun ltac:(congruence) k d Hdd). split; congruence.
    + injection E as _ Ecb Ecd _ _. apply (Hun ltac:(congruence) j c Hcc). split; congruence.
    + injection E as _ Ecb Ecd _ _. injection E' as _ Edb Edd _ _. apply (Hna j k c d Hcc Hdd); [congruence|]. split; congruence.
  - by rewrite Rsu.
Qed.

(** What is done with the buffer of a block that was not in the cache. *)
Definition fill (i dev only_search : Z) : M fsst unit :=
  when (negb (dev =? NO_DEV))
    (if only_search =? PREFETCH then upd_buf i (set_dev NO_DEV)
     else when (only_search =? NORMAL) (rw_block i READING)).

Lemma get_missing L H s i dev block how :
  cached None (i :: L) H s → 0 ≤ block < 2 ^ 32 →
  find_block dev block s = Ret None s → unnamed i dev block s →
  ∃ s2 s3 s5 H2 H5 b2, unchanged s s2 ∧ cached (Some i) L H2 s2 ∧ zget (bufs s2) i = Some b2 ∧
    (if negb (b_dev b2 =? NO_DEV) && (b_dirt b2 =? DIRTY) then flushall (b_dev b2) s2 = Ret tt s3 else s3 = s2) ∧ kept s2 s3 ∧
    renamed i dev block s3 s5 ∧ cached None L H5 s5 ∧ get_block dev block how s = (fill i dev how;; mret i) s5.
Proof.
  intros Hc Hbl Ef Hun. destruct (take_front L H s i Hc) as (s2 & H2 & E2 & Hc2 & U2).
  destruct (lru_get _ _ i (ca_lru _ _ _ _ Hc)) as [b Hb]; [left|].
  destruct (unchanged_back _ _ _ _ U2 Hb) as (b2 & Hb2 & Eb).
  assert (b_count b2 = 0) as H0.
  { injection Eb as _ _ _ _ ->. apply (ca_free _ _ _ _ Hc i b Hb). left. }
  assert (∃ s3, when (negb (b_dev b2 =? NO_DEV) && (b_dirt b2 =? DIRTY)) (flushall (b_dev b2)) s2 = Ret tt s3 ∧ kept s2 s3 ∧
    if negb (b_dev b2 =? NO_DEV) && (b_dirt b2 =? DIRTY) then flushall (b_dev b2) s2 = Ret tt s3 else s3 = s2)
    as (s3 & E3 & K3 & F3).
  { destruct (negb (b_dev b2 =? NO_DEV) && _) eqn:Ed; unfold when.
    - apply andb_true_iff in Ed as [Ed%negb_true_iff%Z.eqb_neq _].
      destruct (flushall_kept _ _ _ s2 (b_dev b2) Hc2 Ed) as (s3 & E3 & K3). by exists s3.
    - exists s2. split_and!; [done|apply kept_refl|done]. }
  destruct (kept_get _ _ _ _ K3 Hb2) as (b3 & Hb3 & Ec3).
  assert (b_count b3 = 0) as H03 by (injection Ec3 as _ _ _ _ ->; done).
  destruct (rename_run L H2 s3 i b3 dev block) as (s5 & H5 & E5 & Hc5 & R5).
  { by eapply kept_cached. } { done. } { done. }
  { intros Hd j c Hcc [Ed En]. destruct (kept_core _ _ _ _ K3 Hcc) as (c2 & Hc2' & Ecc & _ & [Ed2|]); [|congruence].
    injection Ecc as _ _ _ Enc _. destruct (unchanged_get _ _ _ _ U2 Hc2') as (c0 & Hc0 & E0). injection E0 as _ En0 Ed0 _ _.
    apply (Hun Hd j c0 Hc0). split; congruence. }
  { done. }
  exists s2, s3, s5, H2, H5, b2. split_and!; try done. unfold get_block. step Ef. rewrite bind_get.
  rewrite (front_head _ _ (ca_lru _ _ _ _ Hc)). cbn [head]. rewrite (bind_seq _ _ _ _ _ _ E2).
  step (rd_buf_run s2 i b2 Hb2). step E3. by rewrite (bind_seq3 _ _ _ _ _ _ _ E5).
Qed.
End spec.
