(* ===== verification/CacheRep.v ===== *)
(** * What the buffer cache holds

    The class [Reliable] are drivers that carry out every transfer within the
    device. With them the cache represents the contents of the blocks: those of
    the buffer that is named after the block, or else those on the device. *)

From stdpp Require Import sorting.
From S2P Require Import Prelude Linked Cache CacheLists CacheSpec.

(** ** Bytes on a device *)

Definition bytes_at (f : Z → Z) (pos n : Z) : list Z := (λ k, f (pos + k)) <$> range 0 (Z.to_nat n).

Definition put_bytes (f : Z → Z → Z) (dev pos : Z) (l : list Z) : Z → Z → Z :=
  λ dev' p, if (dev' =? dev) && (pos <=? p) && (p <? pos + zlen l) then default 0 (zget l (p - pos)) else f dev' p.

(** The parts of a vector follow each other. *)
Fixpoint put_all (f : Z → Z → Z) (dev pos : Z) (ls : list (list Z)) : Z → Z → Z :=
  match ls with [] => f | l :: ls' => put_all (put_bytes f dev pos l) dev (pos + zlen l) ls' end.

Class Reliable `{BD : BlockDev} : Type := {
  stored : disk → Z → Z → Z;
  capacity : Z → Z;
  capacity_max dev : capacity dev ≤ 2 ^ 32;
  read_stored dev pos n d : 0 ≤ pos → 0 ≤ n → pos + n ≤ capacity dev →
    ∃ d', dev_read dev pos n d = (n, bytes_at (stored d dev) pos n, d') ∧ ∀ dev' p, stored d' dev' p = stored d dev' p;
  write_stored dev pos l d : 0 ≤ pos → pos + zlen l ≤ capacity dev →
    ∃ d', dev_write dev pos l d = (zlen l, d') ∧ ∀ dev' p, stored d' dev' p = put_bytes (stored d) dev pos l dev' p;
  scatter_stored dev pos ls d : 0 ≤ pos → pos + zlen (concat ls) ≤ capacity dev →
    ∃ d', dev_scatter dev pos ls d = (0, (λ _, 0) <$> ls, d') ∧
      ∀ dev' p, stored d' dev' p = put_all (stored d) dev pos ls dev' p }.

Lemma bytes_at_ext f g pos n : (∀ k, 0 ≤ k < n → f (pos + k) = g (pos + k)) → bytes_at f pos n = bytes_at g pos n.
Proof.
  intros Hfg. apply list_fmap_ext. intros i k Hk. unfold range in Hk. apply lookup_seqZ in Hk. apply Hfg. lia.
Qed.

Lemma bytes_at_put f dev pos l : bytes_at (put_bytes f dev pos l dev) pos (zlen l) = l.
Proof.
  apply list_eq. intros i. unfold bytes_at. rewrite list_lookup_fmap. unfold zlen. rewrite Nat2Z.id. unfold range.
  destruct (seqZ 0 (Z.of_nat (length l)) !! i) as [k|] eqn:E.
  - apply lookup_seqZ in E as [-> Hi]. cbn. unfold put_bytes. rewrite Z.eqb_refl.
    destruct (Z.leb_spec pos (pos + (0 + Z.of_nat i))); [|lia]. unfold zlen.
    destruct (Z.ltb_spec (pos + (0 + Z.of_nat i)) (pos + Z.of_nat (length l))); [|lia]. cbn.
    replace (pos + (0 + Z.of_nat i) - pos) with (Z.of_nat i) by lia. rewrite zget_nat.
    destruct (lookup_lt_is_Some_2 l i ltac:(lia)) as [x ->]. done.
  - cbn. symmetry. apply lookup_ge_None. apply lookup_ge_None in E. rewrite length_seqZ in E. lia.
Qed.

Lemma bytes_at_other f dev dev' pos l p n :
  dev' ≠ dev ∨ p + n ≤ pos ∨ pos + zlen l ≤ p → bytes_at (put_bytes f dev pos l dev') p n = bytes_at (f dev') p n.
Proof.
  intros Hd. apply bytes_at_ext. intros k Hk. unfold put_bytes.
  destruct (Z.eqb_spec dev' dev), (Z.leb_spec pos (p + k)), (Z.ltb_spec (p + k) (pos + zlen l)); try done. lia.
Qed.

Lemma bytes_at_len f pos n : 0 ≤ n → zlen (bytes_at f pos n) = n.
Proof. intros Hn. unfold bytes_at, zlen, range. rewrite length_fmap, length_seqZ. lia. Qed.

Lemma put_all_other f dev dev' pos ls p : dev' ≠ dev → put_all f dev pos ls dev' p = f dev' p.
Proof.
  intros Hd. revert f pos. induction ls as [|l ls IH]; intros f pos; [done|]. cbn. rewrite IH. unfold put_bytes.
  by destruct (Z.eqb_spec dev' dev).
Qed.

(** Blocks that follow each other, written at once. *)
Lemma put_all_blocks f dev dev' size ls n m :
  0 < size → Forall (λ l, zlen l = size) ls →
  bytes_at (put_all f dev (n * size) ls dev') (m * size) size =
    match (if dev' =? dev then zget ls (m - n) else None) with
    | Some l => l
    | None => bytes_at (f dev') (m * size) size
    end.
Proof.
  intros Hs. revert f n. induction ls as [|l ls IH]; intros f n Hl.
  { cbn. destruct (dev' =? dev); [|done]. assert (zget ([] : list (list Z)) (m - n) = None) as ->; [|done].
    apply zget_None. unfold zlen. simpl length. lia. }
  apply Forall_cons in Hl as [Hl1 Hl]. cbn [put_all]. rewrite Hl1. replace (n * size + size) with ((n + 1) * size) by lia.
  rewrite IH by done. destruct (Z.eqb_spec dev' dev) as [->|Hd]; [|apply bytes_at_other; by left].
  destruct (Z.eq_dec m n) as [->|Hne].
  - rewrite Z.sub_diag. assert (zget ls (n - (n + 1)) = None) as -> by (apply zget_None; lia).
    change (zget (l :: ls) 0) with (Some l). cbv iota. etrans; [|apply (bytes_at_put f dev (n * size))]. by rewrite Hl1.
  - assert (zget (l :: ls) (m - n) = zget ls (m - (n + 1))) as ->.
    { unfold zget. destruct (Z.leb_spec 0 (m - n)), (Z.leb_spec 0 (m - (n + 1))); try lia; [|done].
      by replace (Z.to_nat (m - n)) with (S (Z.to_nat (m - (n + 1)))) by lia. }
    destruct (zget ls _); [done|]. apply bytes_at_other. right. nia.
Qed.

Section rep.
Context `{RD : Reliable}.
Implicit Types (s : fsst) (b : buf).

(** ** Blocks *)

Definition disk_block (s : fsst) (dev n : Z) : list Z :=
  bytes_at (stored (devices s) dev) (n * size_of s dev) (size_of s dev).

Definition on_disk (s : fsst) (dev n : Z) : Prop := 0 ≤ n ∧ (n + 1) * size_of s dev ≤ capacity dev.

(** The part of a buffer that belongs to the block. *)
Definition block_data (s : fsst) (b : buf) : list Z := take (Z.to_nat (size_of s (b_dev b))) (b_data b).

(** A clean buffer holds what is on the device; but for the buffers [X], which
    are about to be written. *)
Definition coherent (X : Z → Prop) (s : fsst) : Prop :=
  ∀ i b, zget (bufs s) i = Some b → b_dev b ≠ NO_DEV →
    on_disk s (b_dev b) (b_blocknr b) ∧
    (X i ∨ b_dirt b = DIRTY ∨ block_data s b = disk_block s (b_dev b) (b_blocknr b)).

Definition has_name (dev n : Z) (s : fsst) (i : Z) : bool :=
  match zget (bufs s) i with Some b => (b_dev b =? dev) && (b_blocknr b =? n) | None => false end.

(** The contents of a block. *)
Definition contents (s : fsst) (dev n : Z) : list Z :=
  match List.find (has_name dev n s) (range 0 (Z.to_nat NR_BUFS)) with
  | Some i => match zget (bufs s) i with Some b => block_data s b | None => [] end
  | None => disk_block s dev n
  end.

Definition absent (dev n : Z) (s : fsst) : Prop := ∀ i b, zget (bufs s) i = Some b → ¬ named dev n b.

Lemma has_name_true dev n s i : has_name dev n s i = true ↔ ∃ b, zget (bufs s) i = Some b ∧ named dev n b.
Proof.
  unfold has_name, named. destruct (zget (bufs s) i) as [b|]; [|naive_solver].
  rewrite andb_true_iff, !Z.eqb_eq. naive_solver.
Qed.

Lemma contents_named out L H s i b :
  cached out L H s → zget (bufs s) i = Some b → b_dev b ≠ NO_DEV → contents s (b_dev b) (b_blocknr b) = block_data s b.
Proof.
  intros Hc Hb Hd. unfold contents. destruct (List.find _ _) as [j|] eqn:E.
  - apply List.find_some in E as [_ (c & Hcc & Hn)%has_name_true].
    assert (i = j) as <- by (by eapply (ca_names _ _ _ _ Hc)). by rewrite Hb in Hcc |- *.
  - apply (List.find_none _ _) with (x := i) in E.
    + apply not_true_iff_false in E. destruct E. apply has_name_true. by exists b.
    + apply list_elem_of_In. unfold range. apply elem_of_seqZ. apply zget_Some_range in Hb. rewrite (ca_bufs _ _ _ _ Hc) in Hb. lia.
Qed.

Lemma contents_absent dev n s : absent dev n s → contents s dev n = disk_block s dev n.
Proof.
  intros Ha. unfold contents. destruct (List.find _ _) as [j|] eqn:E; [|done].
  apply List.find_some in E as [_ (c & Hcc & Hn)%has_name_true]. by destruct (Ha j c).
Qed.

Lemma name_cases dev n s : (∃ i b, zget (bufs s) i = Some b ∧ named dev n b) ∨ absent dev n s.
Proof.
  destruct (List.find (has_name dev n s) (range 0 (length (bufs s)))) as [j|] eqn:E.
  - left. apply List.find_some in E as [_ (c & Hcc & Hn)%has_name_true]. by exists j, c.
  - right. intros i b Hb Hn. apply (List.find_none _ _) with (x := i) in E.
    + apply not_true_iff_false in E. destruct E. apply has_name_true. by exists b.
    + apply list_elem_of_In. unfold range. apply elem_of_seqZ. apply zget_Some_range in Hb. unfold zlen in Hb. lia.
Qed.

(** The contents of all blocks stay the same. *)
Definition transparent (s s' : fsst) : Prop := ∀ dev n, dev ≠ NO_DEV → contents s' dev n = contents s dev n.

Lemma size_same s s' dev : supers s' = supers s → size_of s' dev = size_of s dev.
Proof. intros E. unfold size_of. by rewrite E. Qed.

Lemma disk_same s s' dev n : supers s' = supers s → devices s' = devices s → disk_block s' dev n = disk_block s dev n.
Proof. intros E1 E2. unfold disk_block. by rewrite (size_same _ _ _ E1), E2. Qed.

(** States whose buffers have the same names and data, and the same devices. *)
Definition data_name (b : buf) := (b_data b, b_blocknr b, b_dev b).

Lemma transparent_same out L H out' L' H' s s' :
  cached out L H s → cached out' L' H' s' → (∀ j, bview data_name s' j = bview data_name s j) →
  supers s' = supers s → (∀ dev n, disk_block s' dev n = disk_block s dev n) → transparent s s'.
Proof.
  intros Hc Hc' Hv Hs Hdb dev n Hd.
  assert (∀ i b, zget (bufs s) i = Some b → ∃ b', zget (bufs s') i = Some b' ∧ data_name b' = data_name b) as Hget.
  { intros i b Hb. specialize (Hv i). rewrite (bview_get _ _ _ _ Hb) in Hv. by apply bview_Some in Hv. }
  destruct (name_cases dev n s) as [(i & b & Hb & <- & <-)|Ha].
  - destruct (Hget i b Hb) as (b' & Hb' & E). injection E as Ed En Ev. rewrite (contents_named _ _ _ _ _ _ Hc Hb) by done.
    rewrite <- Ev, <- En. rewrite (contents_named _ _ _ _ _ _ Hc' Hb') by congruence.
    unfold block_data. by rewrite Ev, Ed, (size_same _ _ _ Hs).
  - rewrite !contents_absent; [apply Hdb|done|]. intros i b' Hb' [E1 E2]. specialize (Hv i).
    rewrite (bview_get _ _ _ _ Hb') in Hv. symmetry in Hv. apply bview_Some in Hv as (b & Hb & E). injection E as _ E3 E4.
    apply (Ha i b Hb). split; congruence.
Qed.

Lemma coherent_same X s s' :
  (∀ j, bview (λ b, (data_name b, b_dirt b)) s' j = bview (λ b, (data_name b, b_dirt b)) s j) →
  supers s' = supers s → (∀ dev n, disk_block s' dev n = disk_block s dev n) → coherent X s → coherent X s'.
Proof.
  intros Hv Hs Hdb Hco i b' Hb' Hd. specialize (Hv i). rewrite (bview_get _ _ _ _ Hb') in Hv. symmetry in Hv.
  apply bview_Some in Hv as (b & Hb & E). injection E as E1 E2 E3 E4.
  destruct (Hco i b Hb) as [Ho Hx]; [congruence|]. unfold on_disk, block_data in *.
  rewrite <- E1, <- E2, <- E3, <- E4, Hdb, (size_same _ _ _ Hs). done.
Qed.

Lemma unchanged_coherent X s s' : unchanged s s' → coherent X s → coherent X s'.
Proof.
  intros (Hv & Hs & _ & _ & Hd). apply coherent_same; [|done|intros; by apply disk_same].
  exact (bview_part content _ (λ '(d, n, v, t, c), (d, n, v, t)) s s' (λ b, eq_refl) Hv).
Qed.

Lemma unchanged_transparent out L H out' L' H' s s' :
  cached out L H s → cached out' L' H' s' → unchanged s s' → transparent s s'.
Proof.
  intros Hc Hc' (Hv & Hs & _ & _ & Hd). eapply transparent_same; try done; [|intros; by apply disk_same].
  exact (bview_part content _ (λ '(d, n, v, t, c), (d, n, v)) s s' (λ b, eq_refl) Hv).
Qed.

(** ** Writing dirty blocks *)

(** The buffers [q] are clean; the rest of the state is as it was. *)
Definition cleaned (q : list Z) (s s' : fsst) : Prop :=
  (∀ j, zget (bufs s') j = (λ b, if decide (j ∈ q) then set_dirt CLEAN b else b) <$> zget (bufs s) j) ∧
  supers s' = supers s ∧ rdwt_err s' = rdwt_err s ∧ devices s' = devices s.

Lemma harvest_all {A} dev (ls : list A) : ∀ q i s,
  present s q → length ls = length q →
  ∃ s', harvest WRITING dev 0 i q ((λ _, 0) <$> ls) s = Ret (i + zlen q) s' ∧ cleaned q s s'.
Proof.
  induction ls as [|x ls IH]; intros q i s Hp Hl; (destruct q as [|j q]; [|]); try done.
  - exists s. split; [cbn; by rewrite Z.add_0_r|]. split; [|done]. intros k. by destruct (zget (bufs s) k).
  - destruct (Hp j) as [b Hb]; [left|]. cbn [harvest fmap list_fmap]. change (negb (0 =? 0)) with false.
    change (WRITING =? READING) with false. cbv iota. step (upd_buf_run s j b (set_dirt CLEAN) Hb).
    destruct (IH q (i + 1) (with_bufs (upd (bufs s) j (set_dirt CLEAN b)) s)) as (s' & E & Hb' & ? & ? & ?).
    + eapply present_kept; [by apply kept_dirt|]. intros k Hk. apply Hp. by right.
    + by injection Hl.
    + exists s'. split; [rewrite E; f_equal; rewrite zlen_cons; lia|]. split; [|done]. intros k. rewrite Hb'. cbn.
      rewrite zget_upd by (by eapply zget_Some_range). destruct (Z.eqb_spec j k) as [->|Hne].
      * rewrite Hb. cbn. f_equal. rewrite (decide_True (P := k ∈ k :: q)) by left. by destruct (decide (k ∈ q)).
      * destruct (zget (bufs s) k); [|done]. cbn. f_equal. destruct (decide (k ∈ q)) as [Hk|Hk].
        -- by rewrite decide_True by (by right).
        -- rewrite decide_False; [done|]. by intros [?|?]%elem_of_cons.
Qed.

Record wrote (dev : Z) (q : list Z) (s s' : fsst) : Prop := Wrote {
  wr_bufs j : zget (bufs s') j = (λ b, if decide (j ∈ q) then set_dirt CLEAN b else b) <$> zget (bufs s) j;
  wr_data j b : j ∈ q → zget (bufs s) j = Some b → disk_block s' dev (b_blocknr b) = block_data s b;
  wr_other dev' n : (dev' = dev → ∀ j b, j ∈ q → zget (bufs s) j = Some b → b_blocknr b ≠ n) →
    disk_block s' dev' n = disk_block s dev' n;
  wr_supers : supers s' = supers s;
  wr_err : rdwt_err s' = rdwt_err s }.

Lemma wrote_nil dev s : wrote dev [] s s.
Proof.
  split; try done; [intros j; by destruct (zget (bufs s) j)|]. intros j b Hj. by apply not_elem_of_nil in Hj.
Qed.

(** Blocks of the device, no two with the same number. *)
Definition distinct (dev : Z) (s : fsst) (q : list Z) : Prop :=
  present s q ∧ (∀ j b, j ∈ q → zget (bufs s) j = Some b →
    b_dev b = dev ∧ on_disk s dev (b_blocknr b) ∧ zlen (b_data b) = MAX_BLOCK_SIZE) ∧
  ∀ i j b c, i ∈ q → j ∈ q → zget (bufs s) i = Some b → zget (bufs s) j = Some c → b_blocknr b = b_blocknr c → i = j.

Lemma wrote_app dev q1 q2 s s1 s2 :
  NoDup (q1 ++ q2) → distinct dev s (q1 ++ q2) → wrote dev q1 s s1 → wrote dev q2 s1 s2 → wrote dev (q1 ++ q2) s s2.
Proof.
  intros Hnd (Hp & Hdev & Hdis) [B1 D1 O1 S1 R1] [B2 D2 O2 S2 R2].
  assert (∀ j b, zget (bufs s) j = Some b → ∃ b1, zget (bufs s1) j = Some b1 ∧ data_name b1 = data_name b) as Hget.
  { intros j b Hb. rewrite B1, Hb. cbn. eexists. split; [done|]. by destruct (decide (j ∈ q1)). }
  apply NoDup_app in Hnd as (_ & Hnd & _). split.
  - intros j. rewrite B2, B1. destruct (zget (bufs s) j) as [b|]; [|done]. cbn. f_equal.
    destruct (decide (j ∈ q1)) as [H1|H1], (decide (j ∈ q2)) as [H2|H2].
    + by destruct (Hnd j H1).
    + by rewrite decide_True by set_solver.
    + by rewrite decide_True by set_solver.
    + by rewrite decide_False by set_solver.
  - intros j b [Hj|Hj]%elem_of_app Hb.
    + rewrite O2; [by eapply D1|]. intros _ k c1 Hk Hc1. rewrite B1 in Hc1.
      destruct (zget (bufs s) k) as [c|] eqn:Hc; [|done]. injection Hc1 as <-. rewrite decide_False by (intros ?; by eapply Hnd).
      intros E. assert (j = k) as <- by (eapply Hdis; [set_solver..|done|done|done]). by eapply Hnd.
    + destruct (Hget j b Hb) as (b1 & Hb1 & E). injection E as E1 E2 E3. rewrite <- E2, (D2 j b1 Hj Hb1).
      unfold block_data. by rewrite E1, E3, (size_same _ _ _ S1).
  - intros dev' n Hn. rewrite O2, O1; [done| |].
    + intros Ed j b Hj Hb. eapply (Hn Ed j); [set_solver|done].
    + intros Ed j b1 Hj Hb1. rewrite B1 in Hb1. destruct (zget (bufs s) j) as [b|] eqn:Hb; [|done]. injection Hb1 as <-.
      assert (b_blocknr b ≠ n) by (eapply (Hn Ed j); [set_solver|done]). by destruct (decide (j ∈ q1)).
  - congruence.
  - congruence.
Qed.

Lemma distinct_wrote dev q1 q2 s s1 : NoDup (q1 ++ q2) → distinct dev s (q1 ++ q2) → wrote dev q1 s s1 → distinct dev s1 q2.
Proof.
  intros Hnd (Hp & Hdev & Hdis) [B1 _ _ S1 _]. apply NoDup_app in Hnd as (_ & Hnd & _).
  assert (∀ j b1, j ∈ q2 → zget (bufs s1) j = Some b1 → zget (bufs s) j = Some b1) as Hget.
  { intros j b1 Hj Hb1. rewrite B1 in Hb1. destruct (zget (bufs s) j) as [b|] eqn:Hb; [|done]. injection Hb1 as <-.
    rewrite decide_False; [done|]. intros H1. by eapply Hnd. }
  split_and!.
  - intros j Hj. destruct (Hp j) as [b Hb]; [set_solver|]. rewrite B1, Hb. by eexists.
  - intros j b1 Hj Hb1. unfold on_disk. rewrite (size_same _ _ _ S1). apply (Hdev j); [set_solver|by apply Hget].
  - intros i j b c Hi Hj Hb Hc. apply (Hdis i j b c); [set_solver..|by apply Hget|by apply Hget].
Qed.

(** The buffers of a run. *)
Lemma run_length_spec n : ∀ first bs k b,
  bs !! k = Some b → (k < run_length n first bs)%nat → b_blocknr b = u32 (first + Z.of_nat k).
Proof.
  induction n as [|n IH]; intros first bs k b Hk Hlt; [simpl in Hlt; lia|].
  destruct bs as [|b0 bs]; [done|]. cbn in Hlt. destruct (Z.eqb_spec (b_blocknr b0) (u32 first)); [|lia].
  destruct k as [|k]; [injection Hk as <-; by rewrite Z.add_0_r|].
  rewrite (IH (first + 1) bs k b Hk) by lia. f_equal. lia.
Qed.

Lemma run_length_le n first bs : (run_length n first bs ≤ length bs)%nat.
Proof.
  revert first bs. induction n as [|n IH]; intros first bs; [simpl; lia|]. destruct bs as [|b bs]; [simpl; lia|]. cbn.
  destruct (_ =? _); [specialize (IH (first + 1) bs); lia|lia].
Qed.

Lemma on_disk_small s dev n : MIN_BLOCK_SIZE ≤ size_of s dev → on_disk s dev n → 0 ≤ n < 2 ^ 22.
Proof. intros Hs [H0 H1]. pose proof (capacity_max dev). unfold MIN_BLOCK_SIZE in *. nia. Qed.

Lemma on_disk_pos s dev n :
  MIN_BLOCK_SIZE ≤ size_of s dev → on_disk s dev n → u32 (n * size_of s dev) = n * size_of s dev.
Proof. intros Hs [H0 H1]. pose proof (capacity_max dev). unfold MIN_BLOCK_SIZE in *. apply Z.mod_small. nia. Qed.

Lemma concat_blocks (ls : list (list Z)) size : Forall (λ l, zlen l = size) ls → zlen (concat ls) = zlen ls * size.
Proof. induction 1 as [|l ls Hl _ IH]; [done|]. cbn. rewrite zlen_app, zlen_cons, IH, Hl. lia. Qed.

Lemma mem_take (j : nat) (q : list Z) i : i ∈ take j q → i ∈ q.
Proof. intros Hi. rewrite <- (take_drop j q). apply elem_of_app. by left. Qed.

Lemma run_length_max n first bs : (run_length n first bs ≤ n)%nat.
Proof.
  revert first bs. induction n as [|n IH]; intros first bs; [simpl; lia|]. destruct bs as [|b bs]; [simpl; lia|]. cbn.
  destruct (_ =? _); [specialize (IH (first + 1) bs); lia|lia].
Qed.

(** ** One run is written *)

Section run.
Context (dev : Z) (s : fsst) (q : list Z) (b : buf) (bs0 : list buf).
Notation bs := (b :: bs0).
Notation size := (size_of s dev).
Notation j := (run_length (Z.to_nat NR_IOREQS) (b_blocknr b) bs).
Notation ls := ((λ b, take (Z.to_nat (size_of s dev)) (b_data b)) <$> take j bs).
Context (Hdi : distinct dev s q) (Hs : MIN_BLOCK_SIZE ≤ size ≤ MAX_BLOCK_SIZE).
Context (Hbs : Forall2 (λ i b, zget (bufs s) i = Some b) q bs).

Lemma run_first : on_disk s dev (b_blocknr b).
Proof using Hdi Hbs.
  destruct Hdi as (_ & Hdev & _). inversion Hbs; subst. eapply Hdev; [left|done].
Qed.

Lemma run_some : ∃ n, j = S n.
Proof using Hdi Hs Hbs.
  pose proof (on_disk_small _ _ _ (proj1 Hs) run_first). change (Z.to_nat NR_IOREQS) with 64%nat. cbn [run_length].
  unfold u32. rewrite Z.mod_small by lia. rewrite Z.eqb_refl. by eexists.
Qed.

Lemma run_lengths : length (take j q) = j ∧ length ls = j.
Proof using Hbs.
  pose proof (Forall2_length _ _ _ Hbs). pose proof (run_length_le (Z.to_nat NR_IOREQS) (b_blocknr b) bs).
  rewrite length_fmap, !length_take. lia.
Qed.

(** The buffers of the run have consecutive numbers. *)
Lemma run_members k i c :
  take j q !! k = Some i → zget (bufs s) i = Some c →
  bs !! k = Some c ∧ b_blocknr c = b_blocknr b + Z.of_nat k ∧ (k < j)%nat ∧ i ∈ q.
Proof using Hdi Hs Hbs.
  intros Hk Hc. apply lookup_take_Some in Hk as [Hk Hkj].
  destruct (Forall2_lookup_l _ _ _ _ _ Hbs Hk) as (c' & Hc' & Hz). assert (c' = c) as -> by congruence.
  split; [done|]. split; [|split; [done|by eapply list_elem_of_lookup_2]].
  rewrite (run_length_spec _ _ _ _ _ Hc' Hkj). unfold u32. apply Z.mod_small.
  pose proof (on_disk_small _ _ _ (proj1 Hs) run_first). pose proof (run_length_max (Z.to_nat NR_IOREQS) (b_blocknr b) bs).
  change (Z.to_nat NR_IOREQS) with 64%nat in *. lia.
Qed.

Lemma run_block k i c : take j q !! k = Some i → zget (bufs s) i = Some c → ls !! k = Some (block_data s c).
Proof using Hdi Hs Hbs.
  intros Hk Hc. destruct (run_members k i c Hk Hc) as (Hbk & _ & Hkj & Hiq).
  destruct Hdi as (_ & Hdev & _). destruct (Hdev i c Hiq Hc) as [Ed _].
  rewrite list_lookup_fmap, lookup_take_lt by done. rewrite Hbk. cbn. unfold block_data. by rewrite Ed.
Qed.

(** Every entry of the vector is one of them. *)
Lemma run_entry k : (k < j)%nat → ∃ i c, take j q !! k = Some i ∧ zget (bufs s) i = Some c.
Proof using Hdi Hbs.
  intros Hk. destruct run_lengths as [Hl _]. destruct (lookup_lt_is_Some_2 (take j q) k ltac:(lia)) as [i Hi].
  destruct Hdi as (Hp & _). destruct (Hp i) as [c Hc]; [by eapply mem_take, list_elem_of_lookup_2|]. by exists i, c.
Qed.

Lemma run_sizes : Forall (λ l, zlen l = size) ls.
Proof using Hdi Hs Hbs.
  apply Forall_forall. intros l [k Hk]%list_elem_of_lookup. pose proof (lookup_lt_Some _ _ _ Hk) as Hkl.
  destruct run_lengths as [_ Hll]. rewrite Hll in Hkl. destruct (run_entry k Hkl) as (i & c & Hi & Hc).
  rewrite (run_block k i c Hi Hc) in Hk. injection Hk as <-. destruct (run_members k i c Hi Hc) as (_ & _ & _ & Hiq).
  destruct Hdi as (_ & Hdev & _). destruct (Hdev i c Hiq Hc) as (Ed & _ & Hd). unfold block_data. rewrite Ed. unfold zlen in *.
  rewrite length_take. unfold MIN_BLOCK_SIZE, MAX_BLOCK_SIZE in *. lia.
Qed.

Lemma run_fits : b_blocknr b * size + zlen (concat ls) ≤ capacity dev.
Proof using Hdi Hs Hbs.
  rewrite (concat_blocks _ _ run_sizes). unfold zlen. destruct run_lengths as [_ ->]. destruct run_some as [n En].
  destruct (run_entry n) as (i & c & Hi & Hc); [lia|]. destruct (run_members n i c Hi Hc) as (_ & E & _ & Hiq).
  destruct Hdi as (_ & Hdev & _). destruct (Hdev i c Hiq Hc) as (_ & [_ Ho] & _). rewrite E in Ho. rewrite En. nia.
Qed.

(** What is on the devices after the run. *)
Lemma run_disk s' d :
  supers s' = supers s → devices s' = d →
  (∀ dev' p, stored d dev' p = put_all (stored (devices s)) dev (b_blocknr b * size) ls dev' p) →
  ∀ dev' m, disk_block s' dev' m =
    match (if dev' =? dev then zget ls (m - b_blocknr b) else None) with Some l => l | None => disk_block s dev' m end.
Proof using Hdi Hs Hbs.
  intros Hsu Hde Hst dev' m. unfold disk_block. rewrite (size_same s s') by done. rewrite Hde.
  destruct (Z.eqb_spec dev' dev) as [->|Hne].
  - pose proof (put_all_blocks (stored (devices s)) dev dev size ls (b_blocknr b) m) as Hpa. rewrite Z.eqb_refl in Hpa.
    rewrite <- Hpa; [|unfold MIN_BLOCK_SIZE in *; lia|exact run_sizes]. apply bytes_at_ext. intros. apply Hst.
  - apply bytes_at_ext. intros k Hk. rewrite Hst. by apply put_all_other.
Qed.

Lemma run_wrote s' d :
  cleaned (take j q) (with_devices d s) s' →
  (∀ dev' p, stored d dev' p = put_all (stored (devices s)) dev (b_blocknr b * size) ls dev' p) →
  wrote dev (take j q) s s'.
Proof using Hdi Hs Hbs.
  intros (Hcl & Hsu & Hre & Hde) Hst. pose proof (run_disk s' d Hsu Hde Hst) as Hdb. split; [exact Hcl| | |done|done].
  - intros i c [k Hk]%list_elem_of_lookup Hc. destruct (run_members k i c Hk Hc) as (_ & En & Hkj & _).
    rewrite Hdb, Z.eqb_refl, En. replace (b_blocknr b + Z.of_nat k - b_blocknr b) with (Z.of_nat k) by lia.
    by rewrite zget_nat, (run_block k i c Hk Hc).
  - intros dev' m Hm. rewrite Hdb. destruct (Z.eqb_spec dev' dev) as [->|]; [|done].
    destruct (zget ls (m - b_blocknr b)) as [l|] eqn:El; [|done]. pose proof (zget_Some_range _ _ _ El) as Hr. unfold zlen in Hr.
    destruct run_lengths as [_ Hll]. rewrite Hll in Hr. destruct (run_entry (Z.to_nat (m - b_blocknr b)) ltac:(lia)) as (i & c & Hi & Hc).
    destruct (run_members _ i c Hi Hc) as (_ & En & _).
    destruct (Hm eq_refl i c ltac:(by eapply list_elem_of_lookup_2) Hc). rewrite En. lia.
Qed.
End run.

Lemma scatter_round dev s first q0 :
  let q := first :: q0 in
  distinct dev s q → MIN_BLOCK_SIZE ≤ size_of s dev ≤ MAX_BLOCK_SIZE →
  ∃ n s', scatter_step WRITING dev (size_of s dev) q s = Ret (inl (drop (S n) q)) s' ∧ wrote dev (take (S n) q) s s'.
Proof.
  intros q Hdi Hs. pose proof Hdi as (Hp & _). destruct (rd_bufs_run s q Hp) as (bs & E1 & Hbs).
  destruct bs as [|b bs0]; [by inversion Hbs|]. assert (zget (bufs s) first = Some b) as Hb by (by inversion Hbs).
  destruct (run_some dev s q b bs0 Hdi Hs Hbs) as [n Ej]. destruct (run_lengths dev s q b bs0 Hbs) as [Hlen Hlls].
  pose proof (run_fits dev s q b bs0 Hdi Hs Hbs) as Hfit. pose proof (run_first dev s q b bs0 Hdi Hbs) as Hod.
  pose proof (run_wrote dev s q b bs0 Hdi Hs Hbs) as Hw. set (j := run_length _ _ _) in *. set (ls := _ <$> take j _) in *.
  assert (present s (take j q)) as Hpj by (intros i Hi; by eapply Hp, mem_take).
  destruct (scatter_stored dev (b_blocknr b * size_of s dev) ls (devices s)) as (d & Es & Hst); [|done|].
  { destruct Hod. unfold MIN_BLOCK_SIZE in *. nia. }
  destruct (harvest_all dev ls (take j q) 0 (with_devices d s)) as (s' & E2 & Hcl); [done|lia|].
  exists n, s'. rewrite <- Ej. split; [|by eapply Hw].
  unfold q. cbn [scatter_step]. fold q. step E1. step (rd_buf_run s first b Hb). cbv zeta. fold j.
  rewrite (on_disk_pos _ _ _ (proj1 Hs) Hod).
  pose proof (run_io_write dev (b_blocknr b * size_of s dev) (size_of s dev) (take j q) s _ (Forall2_take _ _ _ j Hbs) Hpj) as Er.
  fold ls in Er. rewrite Es in Er. step Er. cbv iota. step E2. rewrite Z.add_0_l.
  change (WRITING =? READING) with false. change (WRITING =? WRITING) with true. cbv iota. cbn [andb].
  unfold zlen. rewrite Hlen, Nat2Z.id. destruct (Z.eqb_spec (Z.of_nat j) 0); [lia|done].
Qed.

Lemma scatter_loop dev size fuel : ∀ q s,
  size = size_of s dev → NoDup q → distinct dev s q → MIN_BLOCK_SIZE ≤ size ≤ MAX_BLOCK_SIZE → (length q < fuel)%nat →
  ∃ s', loop fuel (scatter_step WRITING dev size) q s = Ret tt s' ∧ wrote dev q s s'.
Proof.
  induction fuel as [|fuel IH]; intros q s Es Hnd Hdi Hs Hf; [lia|]. rewrite loop_S. destruct q as [|first q0].
  { exists s. split; [done|apply wrote_nil]. }
  destruct (scatter_round dev s first q0) as (n & s1 & E1 & W1); [done|by rewrite <- Es|]. rewrite <- Es in E1. step E1. cbv iota.
  set (q := first :: q0) in *. pose proof Hnd as Hnd'. rewrite <- (take_drop (S n) q) in Hnd', Hdi.
  destruct (IH (drop (S n) q) s1) as (s' & E2 & W2).
  - by rewrite (size_same _ _ _ (wr_supers _ _ _ _ W1)).
  - by apply NoDup_app in Hnd' as (_ & _ & ?).
  - by eapply distinct_wrote.
  - done.
  - rewrite length_drop. unfold q in *. simpl in *. lia.
  - exists s'. split; [done|]. rewrite <- (take_drop (S n) q). by eapply wrote_app.
Qed.

Lemma wrote_perm dev q q' s s' : q ≡ₚ q' → wrote dev q s s' → wrote dev q' s s'.
Proof.
  intros Hp [B D O S R]. assert (∀ j, j ∈ q ↔ j ∈ q') as Hj by (intros j; by rewrite Hp). split; try done.
  - intros j. rewrite B. destruct (zget (bufs s) j); [|done]. cbn. f_equal.
    destruct (decide (j ∈ q)), (decide (j ∈ q')); naive_solver.
  - intros j b Hin. apply D. by apply Hj.
  - intros dev' n Hn. apply O. intros Ed j b Hin. apply (Hn Ed). by apply Hj.
Qed.

Lemma dirty_elem dev s i :
  zlen (bufs s) = NR_BUFS → i ∈ dirty_bufs dev s ↔ ∃ b, zget (bufs s) i = Some b ∧ b_dirt b = DIRTY ∧ b_dev b = dev.
Proof.
  intros Hn. unfold dirty_bufs, is_dirty. rewrite list_elem_of_filter. split.
  - intros [Hi _]. destruct (zget (bufs s) i) as [b|]; [|done]. apply andb_true_iff in Hi as [?%Z.eqb_eq ?%Z.eqb_eq]. by exists b.
  - intros (b & Hb & Ed & Ev). rewrite Hb, Ed, Ev, !Z.eqb_refl. split; [done|]. unfold range. apply elem_of_seqZ.
    apply zget_Some_range in Hb. lia.
Qed.

Lemma flushall_wrote out L H X s dev :
  cached out L H s → coherent X s → dev ≠ NO_DEV →
  ∃ s', flushall dev s = Ret tt s' ∧ kept s s' ∧ wrote dev (dirty_bufs dev s) s s'.
Proof.
  intros Hc Hco Hd. destruct (flushall_kept out L H s dev Hc Hd) as (s' & E & K). exists s'. split; [done|]. split; [done|].
  revert E. unfold flushall, rw_scattered. rewrite bind_get. step (get_block_size_run s dev Hd). rewrite bind_get.
  pose proof (λ i, dirty_elem dev s i (ca_bufs _ _ _ _ Hc)) as Hq.
  destruct (shell_sort_run (λ i, b_blocknr <$> zget (bufs s) i) (λ i, default 0 (b_blocknr <$> zget (bufs s) i)) (dirty_bufs dev s))
    as (q & E & Hp & _).
  { intros i (b & -> & _)%Hq. done. }
  rewrite E. destruct (scatter_loop dev (size_of s dev) (S (length q)) q s) as (s1 & E1 & W).
  - done.
  - rewrite Hp. apply NoDup_filter, NoDup_ListNoDup. unfold range. apply NoDup_ListNoDup, NoDup_seqZ.
  - split_and!.
    + intros i Hi. rewrite Hp in Hi. apply Hq in Hi as (b & Hb & _). by exists b.
    + intros i b Hi Hb. rewrite Hp in Hi. apply Hq in Hi as (b' & Hb' & _ & Ed). assert (b' = b) as -> by congruence.
      split; [done|]. split; [|apply (ca_data _ _ _ _ Hc i b Hb)]. rewrite <- Ed. apply (Hco i b Hb). congruence.
    + intros i j b c Hi Hj Hb Hcc En. rewrite Hp in Hi, Hj. apply Hq in Hi as (b' & Hb' & _ & Ed). apply Hq in Hj as (c' & Hc' & _ & Ed').
      assert (b' = b) as -> by congruence. assert (c' = c) as -> by congruence.
      eapply (ca_names _ _ _ _ Hc i j b c); [done|done|congruence|]. split; congruence.
  - by apply (size_range _ _ _ s dev Hc Hd).
  - lia.
  - rewrite E1. intros [= <-]. by eapply wrote_perm.
Qed.

(** A flush changes no contents, and leaves no block of the device dirty. *)
Lemma flushed_transparent out L H X s s' dev :
  cached out L H s → cached out L H s' → coherent X s → dev ≠ NO_DEV → wrote dev (dirty_bufs dev s) s s' →
  transparent s s' ∧ coherent X s' ∧ ∀ i b, zget (bufs s') i = Some b → b_dev b = dev → b_dirt b ≠ DIRTY.
Proof.
  intros Hc Hc' Hco Hd [B D O S R]. pose proof (λ i, dirty_elem dev s i (ca_bufs _ _ _ _ Hc)) as Hq.
  assert (∀ i b', zget (bufs s') i = Some b' → ∃ b, zget (bufs s) i = Some b ∧ data_name b' = data_name b ∧
    ((i ∈ dirty_bufs dev s ∧ b_dirt b' = CLEAN) ∨ (i ∉ dirty_bufs dev s ∧ b_dirt b' = b_dirt b))) as Hget.
  { intros i b' Hb'. rewrite B in Hb'. destruct (zget (bufs s) i) as [b|]; [|done]. injection Hb' as <-. exists b. split; [done|].
    destruct (decide (i ∈ dirty_bufs dev s)); (split; [done|]); [by left|by right]. }
  split_and!.
  - intros dev' n Hd'. destruct (name_cases dev' n s) as [(i & b & Hb & <- & <-)|Ha].
    + rewrite (contents_named _ _ _ _ _ _ Hc Hb Hd'). pose proof (B i) as Hb'. rewrite Hb in Hb'. cbn in Hb'.
      set (b' := if decide _ then _ else _) in Hb'. assert (data_name b' = data_name b) as E by (unfold b'; by destruct (decide _)).
      injection E as E1 E2 E3. rewrite <- E2, <- E3. rewrite (contents_named _ _ _ _ _ _ Hc' Hb') by congruence.
      unfold block_data. by rewrite E1, E3, (size_same _ _ _ S).
    + rewrite !contents_absent; [|done|].
      * apply O. intros -> i b (b0 & Hb0 & _ & Ed)%Hq Hb En. apply (Ha i b Hb). split; [congruence|done].
      * intros i b' Hb' [E1 E2]. destruct (Hget i b' Hb') as (b & Hb & E & _). injection E as _ E3 E4. apply (Ha i b Hb). split; congruence.
  - intros i b' Hb' Hdv. destruct (Hget i b' Hb') as (b & Hb & E & Hcase). injection E as E1 E2 E3.
    destruct (Hco i b Hb) as [Hod Hx]; [congruence|]. unfold on_disk, block_data in *. rewrite E1, E2, E3, (size_same _ _ _ S).
    split; [done|]. destruct Hcase as [[Hin _]|[Hin ->]].
    + right. right. pose proof (D i b Hin Hb) as HD. apply Hq in Hin as (b0 & Hb0 & _ & Ed). assert (b0 = b) as -> by congruence.
      rewrite Ed, HD. unfold block_data. by rewrite Ed.
    + destruct Hx as [|[|Hx]]; [by left|by right; left|]. right. right. rewrite Hx. symmetry. apply O.
      intros Ed j c Hj Hcc En. apply Hin. assert (i = j) as ->; [|done]. pose proof Hj as (c0 & Hc0 & _ & Edc)%Hq.
      eapply (ca_names _ _ _ _ Hc i j b c); [done|done|congruence|]. split; congruence.
  - intros i b' Hb' Ed Hdi. destruct (Hget i b' Hb') as (b & Hb & E & [[_ Hcl]|[Hin Hdb]]); [by rewrite Hcl in Hdi|].
    apply Hin, Hq. exists b. injection E as _ _ E3. split_and!; [done|congruence|congruence].
Qed.

(** ** Getting and returning blocks *)

Definition nobody : Z → Prop := λ _, False.

Lemma recounted_views i c s s' :
  recounted i c s s' → ∀ j, bview (λ b, (data_name b, b_dirt b)) s' j = bview (λ b, (data_name b, b_dirt b)) s j.
Proof.
  intros ((b & Hb & Hj) & _) j. specialize (Hj j). unfold bview in *. destruct (Z.eqb_spec i j) as [Ej|].
  - rewrite <- Ej in *. rewrite Hb. destruct (zget (bufs s') i); [|done]. apply (inj Some) in Hj.
    injection Hj as E1 E2 E3 E4 E5 E6. cbn. unfold data_name. congruence.
  - destruct (zget (bufs s') j), (zget (bufs s) j); try done. apply (inj Some) in Hj. injection Hj as E1 E2 E3 E4 E5 E6.
    cbn. unfold data_name. congruence.
Qed.

Lemma recounted_rep X out L H out' L' H' i c s s' :
  cached out L H s → cached out' L' H' s' → recounted i c s s' → transparent s s' ∧ (coherent X s → coherent X s').
Proof.
  intros Hc Hc' Hr. pose proof (recounted_views _ _ _ _ Hr) as Hv. pose proof Hr as (_ & _ & Hs & _ & _ & Hd). split.
  - eapply transparent_same; try done; [|intros; by apply disk_same].
    exact (bview_part (λ b, (data_name b, b_dirt b)) data_name fst s s' (λ b, eq_refl) Hv).
  - apply coherent_same; [done|done|]. intros. by apply disk_same.
Qed.

Lemma absent_same dev n s s' :
  (∀ j c', zget (bufs s') j = Some c' → b_dev c' = dev → ∃ c, zget (bufs s) j = Some c ∧ b_dev c = dev ∧ b_blocknr c = b_blocknr c') →
  absent dev n s → absent dev n s'.
Proof. intros Hg Ha j c' Hc' [E1 E2]. destruct (Hg j c' Hc' E1) as (c & Hc & Ed & En). apply (Ha j c Hc). split; congruence. Qed.

(** The buffer [i], which is not dirty, gets a new name. *)
Lemma renamed_rep out L H out' L' H' i b dev block s s' :
  cached out L H s → cached out' L' H' s' → coherent nobody s → renamed i dev block s s' →
  zget (bufs s) i = Some b → (b_dev b = NO_DEV ∨ b_dirt b ≠ DIRTY) → on_disk s dev block →
  coherent (λ j, j = i) s' ∧
  ∀ dev' n, dev' ≠ NO_DEV → (dev', n) ≠ (dev, block) → contents s' dev' n = contents s dev' n.
Proof.
  intros Hc Hc' Hco Hr Hb Hcl Hod. pose proof Hr as ((b0 & b' & Hb0 & Hb' & E) & Hj & Hs & _ & _ & Hd).
  assert (b0 = b) as -> by congruence. injection E as E1 E2 E3 E4 E5.
  assert (∀ dev n, disk_block s' dev n = disk_block s dev n) as Hdb by (intros; by apply disk_same).
  assert (∀ j c', j ≠ i → zget (bufs s') j = Some c' → ∃ c, zget (bufs s) j = Some c ∧ content c' = content c) as Hget
    by (intros j c' Hne Hc''; by eapply renamed_get).
  split.
  - intros j c' Hcc' Hdv. destruct (Z.eq_dec j i) as [->|Hne].
    + assert (c' = b') as -> by congruence. unfold on_disk. rewrite E2, E3, (size_same _ _ _ Hs). split; [done|by left].
    + destruct (Hget j c' Hne Hcc') as (c & Hcc & Ec). injection Ec as F1 F2 F3 F4 F5.
      destruct (Hco j c Hcc) as [Ho Hx]; [congruence|]. unfold on_disk, block_data in *. rewrite F1, F2, F3, F4, Hdb, (size_same _ _ _ Hs).
      split; [done|]. right. by destruct Hx as [[]|].
  - intros dev' n Hdv Hne. destruct (name_cases dev' n s) as [(j & c & Hcc & <- & <-)|Ha].
    + rewrite (contents_named _ _ _ _ _ _ Hc Hcc Hdv). destruct (Z.eq_dec j i) as [->|Hji].
      * assert (c = b) as -> by congruence. destruct (Hco i b Hb Hdv) as [_ Hx]. destruct Hx as [[]|[Hx|Hx]]; [by destruct Hcl|].
        rewrite Hx, <- Hdb. apply contents_absent. intros k d' Hd' [F1 F2].
        destruct (Z.eq_dec k i) as [->|Hki]; [assert (d' = b') as -> by congruence; apply Hne; congruence|].
        destruct (Hget k d' Hki Hd') as (d & Hdd & Ec). injection Ec as _ G2 G3 _ _.
        apply Hki. symmetry. apply (ca_names _ _ _ _ Hc i k b d Hb Hdd Hdv). split; congruence.
      * specialize (Hj j Hji). rewrite (bview_get _ _ _ _ Hcc) in Hj. apply bview_Some in Hj as (c' & Hcc' & Ec).
        injection Ec as F1 F2 F3 F4 F5. rewrite <- F2, <- F3. rewrite (contents_named _ _ _ _ _ _ Hc' Hcc') by congruence.
        unfold block_data. by rewrite F1, F3, (size_same _ _ _ Hs).
    + rewrite !contents_absent; [apply Hdb|done|]. intros k d' Hd' [F1 F2].
      destruct (Z.eq_dec k i) as [->|Hki]; [assert (d' = b') as -> by congruence; apply Hne; congruence|].
      destruct (Hget k d' Hki Hd') as (d & Hdd & Ec). injection Ec as _ G2 G3 _ _. apply (Ha k d Hdd). split; congruence.
Qed.

Lemma take_overlay l old n : zlen l = n → n ≤ zlen old → take (Z.to_nat n) (overlay l old) = l.
Proof.
  unfold overlay, zlen. intros Hl Hn. rewrite take_app_le by (rewrite length_take; lia). rewrite take_take.
  apply take_ge. lia.
Qed.

(** The buffer is read from the device. *)
Lemma read_rep out L H i b s :
  cached out L H s → zget (bufs s) i = Some b → b_dev b ≠ NO_DEV → coherent (λ j, j = i) s →
  ∃ s' b', rw_block i READING s = Ret tt s' ∧ kept s s' ∧ coherent nobody s' ∧ zget (bufs s') i = Some b' ∧
    named (b_dev b) (b_blocknr b) b' ∧ b_count b' = b_count b ∧ block_data s' b' = disk_block s (b_dev b) (b_blocknr b) ∧
    (∀ j, j ≠ i → zget (bufs s') j = zget (bufs s) j) ∧ rdwt_err s' = rdwt_err s ∧
    ∀ dev n, disk_block s' dev n = disk_block s dev n.
Proof.
  intros Hc Hb Hd Hco. destruct (Hco i b Hb Hd) as [Hod _]. pose proof (size_range _ _ _ s (b_dev b) Hc Hd) as Hs.
  pose proof (on_disk_pos _ _ _ (proj1 Hs) Hod) as Hpos. set (size := size_of s (b_dev b)) in *.
  destruct (read_stored (b_dev b) (b_blocknr b * size) size (devices s)) as (d & Er & Hst).
  { destruct Hod. unfold MIN_BLOCK_SIZE in *. nia. } { unfold MIN_BLOCK_SIZE in *. lia. } { destruct Hod as [_ Ho]. fold size in Ho. lia. }
  set (l := bytes_at (stored (devices s) (b_dev b)) (b_blocknr b * size) size) in *.
  assert (zlen l = size) as Hll by (apply bytes_at_len; unfold MIN_BLOCK_SIZE in *; lia).
  pose proof (rw_block_read s i b size l d Hb Hd) as E. cbv zeta in E. fold size in E. rewrite Hpos in E. specialize (E Er).
  rewrite Z.eqb_refl in E. unfold after_io in E. rewrite Z.eqb_refl in E.
  destruct (rw_block_kept out L H s i b READING Hc Hb Hd (or_introl eq_refl)) as (s1 & E1 & K). rewrite E in E1. injection E1 as <-.
  set (b1 := set_dirt CLEAN (set_data (overlay l (b_data b)) b)) in *. set (s1 := with_rdwt_err _ _) in *.
  assert (zget (bufs s1) i = Some b1) as Hb1 by (apply zget_upd_eq; by eapply zget_Some_range).
  assert (∀ j, j ≠ i → zget (bufs s1) j = zget (bufs s) j) as Hj.
  { intros j Hne. unfold s1. cbn. apply zget_upd_ne; [apply zget_Some_range in Hb; lia|congruence]. }
  assert (∀ dev n, disk_block s1 dev n = disk_block s dev n) as Hdb by (intros; by apply bytes_at_ext).
  assert (block_data s1 b1 = l) as Hl1.
  { unfold block_data. change (size_of s1 (b_dev b1)) with size. apply take_overlay; [done|].
    rewrite (proj1 (ca_data _ _ _ _ Hc i b Hb)). lia. }
  exists s1, b1. split_and!; try done. intros j c Hcc Hdv. destruct (Z.eq_dec j i) as [->|Hne].
  - assert (c = b1) as -> by congruence. split; [done|]. right. right. rewrite Hl1, Hdb. done.
  - rewrite Hj in Hcc by done. destruct (Hco j c Hcc Hdv) as [Ho Hx]. split; [done|]. right. destruct Hx as [?|[?|Hx]]; [done|by left|].
    right. rewrite Hdb, <- Hx. done.
Qed.

(** What getting a block leaves as it was: the uses of all buffers, but one more
    of [i]; and name and data of the buffers in use. *)
Definition counted (i d : Z) (s s' : fsst) : Prop :=
  ∀ j, bview b_count s' j = (λ c, if i =? j then c + d else c) <$> bview b_count s j.

Definition holding (s s' : fsst) : Prop :=
  ∀ j c, zget (bufs s) j = Some c → b_count c ≠ 0 → ∃ c', zget (bufs s') j = Some c' ∧ data_name c' = data_name c.

Lemma recounted_counted i b d s s' :
  zget (bufs s) i = Some b → recounted i (b_count b + d) s s' → counted i d s s' ∧ holding s s'.
Proof.
  intros Hb Hr. pose proof (recounted_views _ _ _ _ Hr) as Hv. destruct Hr as ((b0 & Hb0 & Hj) & _).
  assert (b0 = b) as -> by congruence. split.
  - intros j. specialize (Hj j). clear Hv. destruct (Z.eqb_spec i j) as [Ej|].
    + rewrite <- Ej in *. clear Ej. rewrite (bview_get _ _ _ _ Hb). apply bview_Some in Hj as (b' & Hb' & E). rewrite (bview_get _ _ _ _ Hb').
      injection E as _ _ _ _ _ ->. done.
    + unfold bview in *. destruct (zget (bufs s') j), (zget (bufs s) j); try done. apply (inj Some) in Hj. injection Hj as _ _ _ _ _ E.
      cbn. by rewrite E.
  - intros j c Hc _. specialize (Hv j). rewrite (bview_get _ _ _ _ Hc) in Hv. apply bview_Some in Hv as (c' & Hc' & E).
    exists c'. split; [done|exact (f_equal fst E)].
Qed.

Lemma wrote_view {A} (f : buf → A) dev q s s' :
  (∀ b, f (set_dirt CLEAN b) = f b) → wrote dev q s s' → ∀ j, bview f s' j = bview f s j.
Proof.
  intros Hf [B _ _ _ _] j. unfold bview. rewrite B. destruct (zget (bufs s) j); [|done]. cbn. by destruct (decide _); rewrite ?Hf.
Qed.

(** The flush of a buffer that is taken. *)
Lemma clean_rep L H s2 s3 i b2 :
  cached (Some i) L H s2 → coherent nobody s2 → zget (bufs s2) i = Some b2 → kept s2 s3 →
  (if negb (b_dev b2 =? NO_DEV) && (b_dirt b2 =? DIRTY) then flushall (b_dev b2) s2 = Ret tt s3 else s3 = s2) →
  ∃ b3, cached (Some i) L H s3 ∧ transparent s2 s3 ∧ coherent nobody s3 ∧ zget (bufs s3) i = Some b3 ∧
    (b_dev b3 = NO_DEV ∨ b_dirt b3 ≠ DIRTY) ∧ supers s3 = supers s2 ∧ rdwt_err s3 = rdwt_err s2 ∧
    ∀ j, bview (λ b, (data_name b, b_count b)) s3 j = bview (λ b, (data_name b, b_count b)) s2 j.
Proof.
  intros Hc Hco Hb K E. pose proof (kept_cached _ _ _ _ _ K Hc) as Hc3.
  destruct (negb (b_dev b2 =? NO_DEV) && (b_dirt b2 =? DIRTY)) eqn:Ed.
  - apply andb_true_iff in Ed as [Ed%negb_true_iff%Z.eqb_neq _].
    destruct (flushall_wrote _ _ _ _ s2 (b_dev b2) Hc Hco Ed) as (s' & E' & _ & W). assert (s' = s3) as -> by congruence.
    destruct (flushed_transparent _ _ _ _ _ _ _ Hc Hc3 Hco Ed W) as (Ht & Hco3 & Hcl).
    pose proof (wrote_view (λ b, (data_name b, b_count b)) _ _ _ _ (λ b, eq_refl) W) as Hv.
    pose proof (Hv i) as Hvi. rewrite (bview_get _ _ _ _ Hb) in Hvi. apply bview_Some in Hvi as (b3 & Hb3 & E3).
    exists b3. split_and!; try done; [|apply W|apply W]. right. apply (Hcl i b3 Hb3). by injection E3.
  - subst s3. exists b2. split_and!; try done. apply andb_false_iff in Ed as [?%negb_false_iff%Z.eqb_eq|?%Z.eqb_neq]; [by left|by right].
Qed.

(** A block that is not in the cache: the buffer [i] has been taken for it. *)
Record prepared (i dev block : Z) (s s5 : fsst) : Prop := Prepared {
  pr_cached : ∃ L H, cached None L H s5;
  pr_coherent : coherent (λ j, j = i) s5;
  pr_other dev' n : dev' ≠ NO_DEV → (dev', n) ≠ (dev, block) → contents s5 dev' n = contents s dev' n;
  pr_disk : disk_block s5 dev block = contents s dev block;
  pr_buf : ∃ b, zget (bufs s5) i = Some b ∧ named dev block b ∧ b_count b = 1;
  pr_counted : counted i 1 s s5;
  pr_holding : holding s s5;
  pr_supers : supers s5 = supers s;
  pr_err : rdwt_err s5 = rdwt_err s }.

Lemma miss_rep L H s i dev block how :
  cached None (i :: L) H s → coherent nobody s → dev ≠ NO_DEV → on_disk s dev block → absent dev block s →
  find_block dev block s = Ret None s →
  ∃ s5, prepared i dev block s s5 ∧ get_block dev block how s = (fill i dev how;; mret i) s5.
Proof.
  intros Hc Hco Hd Hod Ha Ef. pose proof (on_disk_small _ _ _ (proj1 (size_range _ _ _ s dev Hc Hd)) Hod) as Hsm.
  destruct (get_missing L H s i dev block how Hc) as (s2 & s3 & s5 & H2 & H5 & b2 & U2 & Hc2 & Hb2 & F & K & R & Hc5 & E);
    [lia|done|intros _ j c Hcc Hn; by destruct (Ha j c Hcc)|].
  pose proof (unchanged_transparent _ _ _ _ _ _ _ _ Hc Hc2 U2) as T2. pose proof (unchanged_coherent _ _ _ U2 Hco) as Hco2.
  destruct (clean_rep L H2 s2 s3 i b2 Hc2 Hco2 Hb2 K F) as (b3 & Hc3 & T3 & Hco3 & Hb3 & Hcl & S3 & Er3 & V3).
  assert (supers s3 = supers s) as Hs3 by (rewrite S3; apply U2).
  assert (absent dev block s3) as Ha3.
  { intros j c3 Hcc3 Hn. pose proof (V3 j) as Hv. rewrite (bview_get _ _ _ _ Hcc3) in Hv. symmetry in Hv.
    apply bview_Some in Hv as (c2 & Hcc2 & Ec). destruct (unchanged_get _ _ _ _ U2 Hcc2) as (c & Hcc & E2).
    injection Ec as _ G2 G3 _. injection E2 as _ F2 F3 _ _. destruct Hn. apply (Ha j c Hcc). split; congruence. }
  destruct (renamed_rep _ _ _ _ _ _ i b3 dev block s3 s5 Hc3 Hc5 Hco3 R Hb3 Hcl) as [Hco5 T5].
  { unfold on_disk. by rewrite (size_same _ _ _ Hs3). }
  pose proof R as ((b0 & b5 & Hb0 & Hb5 & Eb) & Rj & Rs & Rr & _ & Rd). injection Eb as E1 E2 E3 E4 E5.
  assert (∀ j, bview b_count s3 j = bview b_count s j) as Hcount.
  { intros j. etrans; [exact (bview_part (λ b, (data_name b, b_count b)) b_count snd s2 s3 (λ b, eq_refl) V3 j)|].
    exact (bview_part content b_count (λ '(_, _, _, _, c), c) s s2 (λ b, eq_refl) (proj1 U2) j). }
  assert (b_count b3 = 0) as H03.
  { pose proof (Hcount i) as Hi. rewrite (bview_get _ _ _ _ Hb3) in Hi. symmetry in Hi. apply bview_Some in Hi as (b & Hb & <-).
    apply (ca_free _ _ _ _ Hc i b Hb). left. }
  exists s5. split; [|done]. split.
  - by exists L, H5.
  - done.
  - intros dev' n Hd' Hne. rewrite T5, T3, T2 by done. done.
  - rewrite <- T2, <- T3 by done. rewrite (contents_absent _ _ _ Ha3). by apply disk_same.
  - exists b5. done.
  - intros j. destruct (Z.eqb_spec i j) as [<-|Hne].
    + rewrite <- Hcount, (bview_get _ _ _ _ Hb5), (bview_get _ _ _ _ Hb3), E5, H03. done.
    + assert (bview b_count s5 j = bview b_count s3 j) as ->.
      { specialize (Rj j ltac:(congruence)). unfold bview in *. destruct (zget (bufs s5) j), (zget (bufs s3) j); try done.
        apply (inj Some) in Rj. injection Rj as _ _ _ _ Ec. cbn. by rewrite Ec. }
      rewrite Hcount. by destruct (bview b_count s j).
  - intros j c Hcc Hcn. assert (j ≠ i) as Hji.
    { intros ->. apply Hcn. apply (ca_free _ _ _ _ Hc i c Hcc). left. }
    destruct (unchanged_back _ _ _ _ U2 Hcc) as (c2 & Hcc2 & G2). specialize (V3 j). rewrite (bview_get _ _ _ _ Hcc2) in V3.
    apply bview_Some in V3 as (c3 & Hcc3 & G3). specialize (Rj j Hji). rewrite (bview_get _ _ _ _ Hcc3) in Rj.
    apply bview_Some in Rj as (c5 & Hcc5 & G5). exists c5. split; [done|]. injection G2 as ? ? ? ? ?. injection G3 as ? ? ? ?.
    injection G5 as ? ? ? ? ?. unfold data_name. congruence.
  - congruence.
  - rewrite Rr, Er3. apply U2.
Qed.

(** A block that was read: the buffer holds its contents, and all contents are
    what they were. *)
Record gotten (i dev block : Z) (s s' : fsst) : Prop := Gotten {
  go_cached : ∃ L H, cached None L H s';
  go_coherent : coherent nobody s';
  go_transparent : transparent s s';
  go_buf : ∃ b, zget (bufs s') i = Some b ∧ named dev block b ∧ block_data s' b = contents s dev block;
  go_counted : counted i 1 s s';
  go_holding : holding s s';
  go_supers : supers s' = supers s;
  go_err : rdwt_err s' = rdwt_err s }.

(** Only the buffer [i] of the block changes, and the devices do not. *)
Lemma others_same out L H out' L' H' i dev block s s' :
  cached out L H s → cached out' L' H' s' → supers s' = supers s →
  (∀ j, j ≠ i → bview data_name s' j = bview data_name s j) →
  bview (λ b, (b_blocknr b, b_dev b)) s i = Some (block, dev) → bview (λ b, (b_blocknr b, b_dev b)) s' i = Some (block, dev) →
  ∀ dev' n, dev' ≠ NO_DEV → (dev', n) ≠ (dev, block) → disk_block s' dev' n = disk_block s dev' n →
  contents s' dev' n = contents s dev' n.
Proof.
  intros Hc Hc' Hs Hj Hi Hi' dev' n Hd Hne Hdb.
  apply bview_Some in Hi as (b & Hb & E). injection E as E1 E2. apply bview_Some in Hi' as (b' & Hb' & E'). injection E' as E1' E2'.
  destruct (name_cases dev' n s) as [(j & c & Hcc & <- & <-)|Ha].
  - assert (j ≠ i) as Hji by (intros ->; assert (c = b) as -> by congruence; apply Hne; congruence).
    rewrite (contents_named _ _ _ _ _ _ Hc Hcc Hd). specialize (Hj j Hji). rewrite (bview_get _ _ _ _ Hcc) in Hj.
    apply bview_Some in Hj as (c' & Hcc' & Ec). injection Ec as F1 F2 F3. rewrite <- F2, <- F3.
    rewrite (contents_named _ _ _ _ _ _ Hc' Hcc') by congruence. unfold block_data. by rewrite F1, F3, (size_same _ _ _ Hs).
  - rewrite !contents_absent; [done|done|]. intros j c' Hcc' [F1 F2].
    destruct (Z.eq_dec j i) as [->|Hji]; [assert (c' = b') as -> by congruence; apply Hne; congruence|].
    specialize (Hj j Hji). rewrite (bview_get _ _ _ _ Hcc') in Hj. symmetry in Hj. apply bview_Some in Hj as (c & Hcc & Ec).
    injection Ec as _ G2 G3. apply (Ha j c Hcc). split; congruence.
Qed.

Lemma counted_views i d s s1 s' : counted i d s s1 → (∀ j, bview b_count s' j = bview b_count s1 j) → counted i d s s'.
Proof. intros Hc Hv j. by rewrite Hv. Qed.

Lemma filled i dev block s s5 :
  dev ≠ NO_DEV → prepared i dev block s s5 → ∃ s', fill i dev NORMAL s5 = Ret tt s' ∧ gotten i dev block s s'.
Proof.
  intros Hd [(L & H & Hc) Hco Hot Hdk (b & Hb & (Ed & En) & H1) Hcn Hho Hs He].
  destruct (read_rep _ _ _ i b s5 Hc Hb ltac:(congruence) Hco) as (s' & b' & E & K & Hco' & Hb' & (Ed' & En') & Hcount & Hda & Hj & Her & Hdb).
  pose proof (kept_cached _ _ _ _ _ K Hc) as Hc'. exists s'. split.
  { unfold fill. destruct (Z.eqb_spec dev NO_DEV); [done|]. exact E. }
  rewrite Ed, En in *. pose proof (ke_supers _ _ K) as Hs'. split.
  - by exists L, H.
  - done.
  - intros dev' n Hd'. destruct (decide ((dev', n) = (dev, block))) as [[= -> ->]|Hne].
    + rewrite <- Hdk, <- Hda, <- Ed', <- En'. by rewrite (contents_named _ _ _ _ _ _ Hc' Hb') by congruence.
    + rewrite <- (Hot dev' n Hd' Hne). apply (others_same _ _ _ _ _ _ i dev block s5 s' Hc Hc'); try done.
      * intros j Hji. unfold bview. by rewrite Hj.
      * rewrite (bview_get _ _ _ _ Hb). by rewrite Ed, En.
      * rewrite (bview_get _ _ _ _ Hb'). by rewrite Ed', En'.
  - exists b'. split; [done|]. split; [done|]. by rewrite Hda, Hdk.
  - eapply counted_views; [exact Hcn|].
    exact (bview_part core b_count (λ '(_, _, _, _, c), c) s5 s' (λ b, eq_refl) (ke_core _ _ K)).
  - intros j c Hcc Hc0. destruct (Z.eq_dec j i) as [->|Hji].
    + specialize (Hcn i). rewrite (bview_get _ _ _ _ Hb), (bview_get _ _ _ _ Hcc), Z.eqb_refl in Hcn. cbn in Hcn.
      apply (inj Some) in Hcn. lia.
    + destruct (Hho j c Hcc Hc0) as (c5 & Hcc5 & G). exists c5. by rewrite Hj.
  - congruence.
  - congruence.
Qed.

Lemma get_block_reads L H s dev block :
  cached None L H s → coherent nobody s → dev ≠ NO_DEV → on_disk s dev block → (absent dev block s → L ≠ []) →
  (∀ j c, zget (bufs s) j = Some c → b_count c < 127) →
  ∃ i s', get_block dev block NORMAL s = Ret i s' ∧ gotten i dev block s s'.
Proof.
  intros Hc Hco Hd Hod Hav Hcnt.
  destruct (find_block_run H s dev block (ca_bufs _ _ _ _ Hc) (ca_chains _ _ _ _ Hc) Hd) as (o & Ef & Ho).
  destruct o as [i|].
  - destruct Ho as (b & Hb & Ed & En). destruct (get_cached L H s i b Hc Hb (Hcnt i b Hb)) as (s' & E & R & Hc').
    exists i, s'. split.
    { unfold get_block. step Ef. step (rd_buf_run s i b Hb). by rewrite (bind_seq _ _ _ _ _ _ E). }
    destruct (recounted_rep nobody _ _ _ _ _ _ _ _ _ _ Hc Hc' R) as [T Hco']. destruct (recounted_counted i b 1 s s' Hb R) as [Hcn Hho].
    pose proof R as (_ & _ & Hs & Her & _). split; try done; [by eexists _, _|by apply Hco'|].
    destruct (recounted_back _ _ _ _ _ _ R Hb) as [b' Hb']. destruct (recounted_get _ _ _ _ _ _ R Hb') as (b0 & Hb0 & F1 & _ & F3 & F4 & _).
    assert (b0 = b) as -> by congruence. exists b'. split; [done|]. split; [split; congruence|].
    rewrite <- Ed, <- En, (contents_named _ _ _ _ _ _ Hc Hb) by congruence. unfold block_data. by rewrite F1, F4, (size_same _ _ _ Hs).
  - assert (absent dev block s) as Ha.
    { intros j c Hcc [E1 E2]. apply (Ho j c); [|done|done]. rewrite (ca_hashed _ _ _ _ Hc j c _ Hcc). split; [congruence|done]. }
    destruct L as [|i L]; [by destruct (Hav Ha)|]. destruct (miss_rep L H s i dev block NORMAL Hc Hco Hd Hod Ha Ef) as (s5 & P & E).
    destruct (filled i dev block s s5 Hd P) as (s' & E' & G). exists i, s'. split; [|done]. rewrite E. by step E'.
Qed.

(** A block that is to be overwritten: the buffer may hold anything. *)
Record claimed (i dev block : Z) (s s' : fsst) : Prop := Claimed {
  cl_cached : ∃ L H, cached None L H s';
  cl_coherent : coherent (λ j, j = i) s';
  cl_other dev' n : dev' ≠ NO_DEV → (dev', n) ≠ (dev, block) → contents s' dev' n = contents s dev' n;
  cl_buf : ∃ b, zget (bufs s') i = Some b ∧ named dev block b;
  cl_counted : counted i 1 s s';
  cl_holding : holding s s';
  cl_supers : supers s' = supers s;
  cl_err : rdwt_err s' = rdwt_err s }.

Lemma coherent_mono (X Y : Z → Prop) s : (∀ i, X i → Y i) → coherent X s → coherent Y s.
Proof. intros HXY Hco i b Hb Hd. destruct (Hco i b Hb Hd) as [? [?|?]]; split; try done; [left; by apply HXY|by right]. Qed.

Lemma gotten_claimed i dev block s s' : gotten i dev block s s' → claimed i dev block s s'.
Proof.
  intros [? Hco Ht (b & Hb & Hn & _) ? ? ? ?]. split; try done; [by eapply coherent_mono; [|exact Hco]| |by exists b].
  intros dev' n Hd _. by apply Ht.
Qed.

Lemma get_block_claims L H s dev block :
  cached None L H s → coherent nobody s → dev ≠ NO_DEV → on_disk s dev block → (absent dev block s → L ≠ []) →
  (∀ j c, zget (bufs s) j = Some c → b_count c < 127) →
  ∃ i s', get_block dev block NO_READ s = Ret i s' ∧ claimed i dev block s s'.
Proof.
  intros Hc Hco Hd Hod Hav Hcnt.
  destruct (find_block_run H s dev block (ca_bufs _ _ _ _ Hc) (ca_chains _ _ _ _ Hc) Hd) as (o & Ef & Ho).
  destruct o as [i|].
  - destruct (get_block_reads L H s dev block Hc Hco Hd Hod Hav Hcnt) as (i' & s' & E & G). exists i', s'.
    split; [|by apply gotten_claimed]. revert E. unfold get_block. rewrite !(bind_ret _ _ _ _ _ Ef). done.
  - assert (absent dev block s) as Ha.
    { intros j c Hcc [E1 E2]. apply (Ho j c); [|done|done]. rewrite (ca_hashed _ _ _ _ Hc j c _ Hcc). split; [congruence|done]. }
    destruct L as [|i L]; [by destruct (Hav Ha)|]. destruct (miss_rep L H s i dev block NO_READ Hc Hco Hd Hod Ha Ef) as (s5 & P & E).
    exists i, s5. split.
    + rewrite E. unfold fill. by destruct (Z.eqb_spec dev NO_DEV).
    + destruct P as [? ? ? _ (b & Hb & Hn & _) ? ? ? ?]. split; try done. by exists b.
Qed.

(** ** Changing a block *)

Definition overwrite (i : Z) (l : list Z) : M fsst unit := upd_buf i (λ b, set_dirt DIRTY (set_data l b)).

Lemma overwrite_rep L H s i b l :
  cached None L H s → coherent (λ j, j = i) s → zget (bufs s) i = Some b → b_dev b ≠ NO_DEV → zlen l = MAX_BLOCK_SIZE →
  ∃ s', overwrite i l s = Ret tt s' ∧ cached None L H s' ∧ coherent nobody s' ∧
    (∀ dev n, dev ≠ NO_DEV → contents s' dev n =
       if decide ((dev, n) = (b_dev b, b_blocknr b)) then take (Z.to_nat (size_of s (b_dev b))) l else contents s dev n) ∧
    (∀ j, bview core s' j = bview core s j) ∧ supers s' = supers s ∧ rdwt_err s' = rdwt_err s ∧ devices s' = devices s ∧
    zget (bufs s') i = Some (set_dirt DIRTY (set_data l b)) ∧ ∀ j, j ≠ i → zget (bufs s') j = zget (bufs s) j.
Proof.
  intros Hc Hco Hb Hd Hl. set (b' := set_dirt DIRTY (set_data l b)).
  assert (kept s (with_bufs (upd (bufs s) i b') s)) as K.
  { apply (kept_upd s i b b' (devices s) (rdwt_err s)); try done; [|by left]. cbn. by rewrite (proj1 (ca_data _ _ _ _ Hc i b Hb)). }
  eexists. split; [by apply upd_buf_run|]. fold b'. set (s' := with_bufs _ s) in *. pose proof (kept_cached _ _ _ _ _ K Hc) as Hc'.
  assert (zget (bufs s') i = Some b') as Hb' by (apply zget_upd_eq; by eapply zget_Some_range).
  assert (∀ j, j ≠ i → zget (bufs s') j = zget (bufs s) j) as Hj.
  { intros j Hne. apply zget_upd_ne; [apply zget_Some_range in Hb; lia|congruence]. }
  split_and!; try done; [| |apply K].
  - intros j c Hcc Hdv. destruct (Z.eq_dec j i) as [->|Hne].
    + assert (c = b') as -> by congruence. split; [by apply (Hco i b Hb Hd)|]. right. by left.
    + rewrite Hj in Hcc by done. destruct (Hco j c Hcc Hdv) as [Ho Hx]. split; [done|]. right. by destruct Hx.
  - intros dev n Hdv. case_decide as Ed.
    + injection Ed as -> ->. exact (contents_named _ _ _ _ _ _ Hc' Hb' Hd).
    + apply (others_same _ _ _ _ _ _ i (b_dev b) (b_blocknr b) s s' Hc Hc'); try done.
      * intros j Hne. unfold bview. by rewrite Hj.
      * by rewrite (bview_get _ _ _ _ Hb).
      * by rewrite (bview_get _ _ _ _ Hb').
Qed.

(** ** Returning a block *)

(** One buffer is written. *)
Lemma write_rep out L H i b s :
  cached out L H s → zget (bufs s) i = Some b → b_dev b ≠ NO_DEV → coherent nobody s →
  ∃ s', rw_block i WRITING s = Ret tt s' ∧ kept s s' ∧ coherent nobody s' ∧ transparent s s' ∧ rdwt_err s' = rdwt_err s ∧
    ∀ j, bview data_name s' j = bview data_name s j.
Proof.
  intros Hc Hb Hd Hco. destruct (Hco i b Hb Hd) as [Hod _]. pose proof (size_range _ _ _ s (b_dev b) Hc Hd) as Hs.
  pose proof (on_disk_pos _ _ _ (proj1 Hs) Hod) as Hpos. set (size := size_of s (b_dev b)) in *.
  assert (zlen (block_data s b) = size) as Hll.
  { unfold block_data. fold size. unfold zlen. rewrite length_take. pose proof (proj1 (ca_data _ _ _ _ Hc i b Hb)) as Hlen.
    unfold zlen in Hlen. unfold MIN_BLOCK_SIZE in *. lia. }
  destruct (write_stored (b_dev b) (b_blocknr b * size) (block_data s b) (devices s)) as (d & Er & Hst).
  { destruct Hod. unfold MIN_BLOCK_SIZE in *. nia. } { rewrite Hll. destruct Hod as [_ Ho]. fold size in Ho. lia. }
  pose proof (rw_block_write s i b size d Hb Hd) as E. cbv zeta in E. fold size in E. rewrite Hpos in E. rewrite Hll in Er. specialize (E Er).
  unfold after_io in E. rewrite Z.eqb_refl in E.
  destruct (rw_block_kept out L H s i b WRITING Hc Hb Hd (or_intror eq_refl)) as (s1 & E1 & K). rewrite E in E1. injection E1 as <-.
  set (b1 := set_dirt CLEAN b) in *. set (s1 := with_devices _ _) in *. pose proof (kept_cached _ _ _ _ _ K Hc) as Hc1.
  assert (zget (bufs s1) i = Some b1) as Hb1 by (apply zget_upd_eq; by eapply zget_Some_range).
  assert (∀ j, bview data_name s1 j = bview data_name s j) as Hv by (by eapply bview_upd_same).
  assert (disk_block s1 (b_dev b) (b_blocknr b) = block_data s b) as Hown.
  { unfold disk_block. change (size_of s1 (b_dev b)) with size. rewrite <- Hll at 2.
    etrans; [apply bytes_at_ext; intros; apply Hst|apply bytes_at_put]. }
  assert (∀ dev n, (dev, n) ≠ (b_dev b, b_blocknr b) → disk_block s1 dev n = disk_block s dev n) as Hdb.
  { intros dev n Hne. unfold disk_block. change (size_of s1 dev) with (size_of s dev).
    etrans; [apply bytes_at_ext; intros; apply Hst|]. apply bytes_at_other. destruct (Z.eq_dec dev (b_dev b)) as [->|]; [|by left].
    right. fold size. rewrite Hll. assert (n ≠ b_blocknr b) by congruence. unfold MIN_BLOCK_SIZE in *. nia. }
  exists s1. split_and!; try done.
  - intros j c Hcc Hdv. destruct (Z.eq_dec j i) as [->|Hne].
    + assert (c = b1) as -> by congruence. split; [done|]. right. right. exact (eq_sym Hown).
    + assert (zget (bufs s) j = Some c) as Hcc0.
      { rewrite <- Hcc. symmetry. apply zget_upd_ne; [apply zget_Some_range in Hb; lia|congruence]. }
      destruct (Hco j c Hcc0 Hdv) as [Ho [[]|[?|Hx]]]; (split; [done|]); right; [by left|right].
      rewrite Hdb; [done|]. intros [= E2 E3]. apply Hne. apply (ca_names _ _ _ _ Hc j i c b Hcc0 Hb Hdv). by split.
  - intros dev n Hdv. destruct (decide ((dev, n) = (b_dev b, b_blocknr b))) as [[= -> ->]|Hne].
    + rewrite (contents_named _ _ _ _ _ _ Hc Hb Hd). exact (contents_named _ _ _ _ _ _ Hc1 Hb1 Hd).
    + apply (others_same _ _ _ _ _ _ i (b_dev b) (b_blocknr b) s s1 Hc Hc1); try done; [by rewrite (bview_get _ _ _ _ Hb)..| |].
      * by rewrite (bview_get _ _ _ _ Hb1).
      * by apply Hdb.
Qed.

Lemma put_block_rep L H s i b ty :
  cached None L H s → coherent nobody s → zget (bufs s) i = Some b → 1 ≤ b_count b →
  ∃ s' L', put_block (Some i) ty s = Ret tt s' ∧ cached None L' H s' ∧ coherent nobody s' ∧ transparent s s' ∧
    counted i (-1) s s' ∧ (∀ j, bview data_name s' j = bview data_name s j) ∧ supers s' = supers s ∧ rdwt_err s' = rdwt_err s.
Proof.
  intros Hc Hco Hb H1. destruct (put_block_run L H s i b ty Hc Hb H1) as (s1 & s' & E & R & Hc1 & Hs').
  set (L' := if b_count b =? 1 then _ else L) in *.
  destruct (recounted_rep nobody _ _ _ _ _ _ _ _ _ _ Hc Hc1 R) as [T1 Hco1].
  destruct (recounted_counted i b (-1) s s1 Hb R) as [Hcn _]. pose proof (recounted_views _ _ _ _ R) as Hv.
  pose proof (bview_part (λ b, (data_name b, b_dirt b)) data_name fst s s1 (λ b, eq_refl) Hv) as Hv1.
  pose proof R as (_ & _ & Hs & Her & _). exists s', L'. split; [done|].
  destruct ((b_count b =? 1) && written_at_once b ty) eqn:Ew.
  - destruct Hs' as [Ew' K]. destruct (recounted_back _ _ _ _ _ _ R Hb) as [b1 Hb1].
    destruct (recounted_get _ _ _ _ _ _ R Hb1) as (b0 & Hb0 & _ & _ & _ & F4 & _). assert (b0 = b) as -> by congruence.
    apply andb_true_iff in Ew as [_ Ew]. apply andb_true_iff in Ew as [_ Hd%negb_true_iff%Z.eqb_neq].
    destruct (write_rep _ _ _ i b1 s1 Hc1 Hb1 ltac:(congruence) (Hco1 Hco)) as (s2 & E2 & K2 & Hco2 & T2 & Her2 & Hv2).
    assert (s2 = s') as -> by congruence. split_and!; try done.
    + by eapply kept_cached.
    + intros dev n Hd'. by rewrite T2, T1.
    + eapply counted_views; [exact Hcn|]. exact (bview_part core b_count (λ '(_, _, _, _, c), c) s1 s' (λ b, eq_refl) (ke_core _ _ K2)).
    + intros j. by rewrite Hv2, Hv1.
    + by rewrite (ke_supers _ _ K2).
    + by rewrite Her2.
  - subst s'. split_and!; try done. by apply Hco1.
Qed.
End rep.
