(* ===== verification/CacheOps.v ===== *)
(** * The buffer cache from its start

    [buf_pool] sets the invariant up, and every call that the rest of the file
    server makes keeps it: the states of the cache are those that a sequence of
    calls reaches, whatever the drivers answer. *)

From S2P Require Import Prelude Linked Cache CacheLists CacheSpec.

Section ops.
Context `{BD : BlockDev}.
Implicit Types (s : fsst) (b : buf).

(** ** The start *)

(** One update per buffer. *)
Lemma upd_each f s :
  zlen (bufs s) = NR_BUFS →
  ∃ t, for_each (range 0 (Z.to_nat NR_BUFS)) (λ i, upd_buf i (f i)) s = Ret tt (with_bufs t s) ∧
    ∀ j, zget t j = f j <$> zget (bufs s) j.
Proof.
  intros Hn.
  destruct (for_each_range (λ k s', ∃ t, s' = with_bufs t s ∧ zlen t = NR_BUFS ∧
    ∀ j, zget t j = if j <? k then f j <$> zget (bufs s) j else zget (bufs s) j) 0 (Z.to_nat NR_BUFS)
    (λ i, upd_buf i (f i)) s) as (s' & E & t & -> & Hlt & Ht).
  - exists (bufs s). split; [by destruct s|]. split; [done|]. intros j. destruct (Z.ltb_spec j 0); [|done].
    assert (zget (bufs s) j = None) as -> by (apply zget_None; lia). done.
  - intros i s' Hi (t & -> & Hlt & Ht). destruct (zget_in (bufs s) i) as [b Hb]; [rewrite Hn; lia|].
    assert (zget t i = Some b) as Hbt by (rewrite Ht; by destruct (Z.ltb_spec i i); [lia|]).
    eexists. split; [by apply (upd_buf_run _ i b)|]. exists (upd t i (f i b)). split; [done|]. split; [by rewrite zlen_upd|].
    intros j. rewrite zget_upd by (by eapply zget_Some_range). rewrite Ht. destruct (Z.eqb_spec i j) as [<-|Hne].
    + destruct (Z.ltb_spec i (i + 1)); [|lia]. by rewrite Hb.
    + destruct (Z.ltb_spec j i), (Z.ltb_spec j (i + 1)); try done; lia.
  - exists t. split; [done|]. intros j. rewrite Ht. destruct (Z.ltb_spec j (0 + Z.of_nat (Z.to_nat NR_BUFS))) as [|Hj]; [done|].
    assert (zget (bufs s) j = None) as -> by (apply zget_None; rewrite Hn; unfold NR_BUFS in *; lia). done.
Qed.

(** The tables as the server is loaded: static data, so zero. *)
Record loaded (s : fsst) : Prop := Loaded {
  ld_bufs : zlen (bufs s) = NR_BUFS;
  ld_zero i b : zget (bufs s) i = Some b → zlen (b_data b) = MAX_BLOCK_SIZE ∧ b_count b = 0 ∧ b_dirt b = CLEAN;
  ld_hash : buf_hash s = replicate (Z.to_nat NR_BUF_HASH) None;
  ld_sizes : sizes_ok (supers s) }.

Definition pool : list Z := range 0 (Z.to_nat NR_BUFS).
Definition pool_chains : Z → list Z := λ h, if h =? 0 then pool else [].

Lemma elem_of_pool i : i ∈ pool ↔ 0 ≤ i < NR_BUFS.
Proof. unfold pool. rewrite elem_of_range. unfold NR_BUFS. lia. Qed.

(** Links that lead through the whole table. *)
Lemma pool_linked nx :
  (∀ i, 0 ≤ i < NR_BUFS → nx i = Some (if i =? NR_BUFS - 1 then None else Some (i + 1))) → linked nx (Some 0) pool.
Proof.
  intros Hn. unfold pool. change (Z.to_nat NR_BUFS) with (S (Z.to_nat (NR_BUFS - 1))). rewrite range_snoc. apply lseg_snoc.
  change (0 + Z.of_nat (Z.to_nat (NR_BUFS - 1))) with (NR_BUFS - 1). split.
  - apply (lseg_range nx 0 (Z.to_nat (NR_BUFS - 1))). intros i Hi. rewrite Hn by (unfold NR_BUFS in *; lia).
    destruct (Z.eqb_spec i (NR_BUFS - 1)); [unfold NR_BUFS in *; lia|done].
  - by rewrite Hn, Z.eqb_refl by (unfold NR_BUFS; lia).
Qed.

Lemma rev_linked nx n : ∀ lo,
  (∀ i, lo ≤ i < lo + Z.of_nat n → nx i = Some (if i =? lo then None else Some (i - 1))) →
  linked nx (match n with O => None | _ => Some (lo + Z.of_nat n - 1) end) (reverse (range lo n)).
Proof.
  induction n as [|n IH]; intros lo Hn; [done|]. rewrite range_snoc, reverse_snoc. split; [f_equal; lia|].
  rewrite Hn by lia. eexists. split; [done|].
  assert ((if lo + Z.of_nat n =? lo then None else Some (lo + Z.of_nat n - 1)) =
    match n with O => None | _ => Some (lo + Z.of_nat n - 1) end) as ->.
  { destruct n; [by rewrite Z.add_0_r, Z.eqb_refl|]. destruct (Z.eqb_spec (lo + Z.of_nat (S n)) lo); [lia|done]. }
  apply IH. intros i Hi. apply Hn. lia.
Qed.

Definition pool_entry (i : Z) (b : buf) : buf := set_hash (b_next (pool_buf i b)) (pool_buf i b).

Lemma buf_pool_run s :
  loaded s →
  ∃ s', buf_pool s = Ret tt s' ∧ cached None pool pool_chains s' ∧ supers s' = supers s ∧ devices s' = devices s ∧
    rdwt_err s' = rdwt_err s ∧ ∀ j, zget (bufs s') j = pool_entry j <$> zget (bufs s) j.
Proof.
  intros [Hn Hz Hh Hs]. unfold buf_pool. rewrite !bind_modify. set (s0 := with_rear _ _).
  destruct (upd_each pool_buf s0) as (t1 & E1 & Ht1); [done|]. step E1.
  destruct (upd_each (λ _ b, set_hash (b_next b) b) (with_bufs t1 s0)) as (t2 & E2 & Ht2).
  { rewrite <- Hn. apply (bview_len (λ _, tt) s (with_bufs t1 s0)). intros j. unfold bview. cbn. rewrite Ht1.
    cbn. by destruct (zget (bufs s) j). }
  step E2. rewrite bind_get. unfold wr_hash. rewrite bind_get. cbn [buf_hash with_bufs s0 with_rear with_front with_in_use].
  rewrite Hh. rewrite bind_zset by done. eexists. split; [done|]. set (s' := with_buf_hash _ _).
  assert (∀ j, zget (bufs s') j = pool_entry j <$> zget (bufs s) j) as Hb.
  { intros j. cbn. rewrite Ht2. cbn. rewrite Ht1. cbn. by destruct (zget (bufs s) j). }
  assert (∀ j, 0 ≤ j < NR_BUFS → ∃ b, zget (bufs s) j = Some b ∧ zget (bufs s') j = Some (pool_entry j b)) as Hin.
  { intros j Hj. destruct (zget_in (bufs s) j) as [b Eb]; [by rewrite Hn|]. exists b. split; [done|]. by rewrite Hb, Eb. }
  assert (zlen (bufs s') = NR_BUFS) as Hn'.
  { rewrite <- Hn. apply (bview_len (λ _, tt) s s'). intros j. unfold bview. rewrite Hb. by destruct (zget (bufs s) j). }
  assert (∀ i b', zget (bufs s') i = Some b' → 0 ≤ i < NR_BUFS ∧ ∃ b, zget (bufs s) i = Some b ∧ b' = pool_entry i b) as Hget.
  { intros i b' Hb'. pose proof (zget_Some_range _ _ _ Hb') as Hr. rewrite Hn' in Hr. split; [done|]. rewrite Hb in Hb'.
    destruct (zget (bufs s) i) as [b|]; [|done]. exists b. split; [done|]. by injection Hb'. }
  split_and!; try done. split; try done.
  - intros i b' (_ & b & Eb & ->)%Hget. split; [by apply (Hz i b)|done].
  - split.
    + apply pool_linked. intros i (b & _ & Eb)%Hin. unfold nxt. by rewrite (bview_get _ _ _ _ Eb).
    + apply (rev_linked (prv s') (Z.to_nat NR_BUFS) 0). intros i Hi. destruct (Hin i ltac:(unfold NR_BUFS in *; lia)) as (b & _ & Eb).
      unfold prv. by rewrite (bview_get _ _ _ _ Eb).
  - intros i b' (Hi & b & Eb & ->)%Hget. destruct (Hz i b Eb) as (_ & E0 & _). cbn. rewrite E0. split; [done|].
    rewrite elem_of_pool. done.
  - intros h Hh'. cbn [buf_hash s' with_buf_hash]. rewrite zget_upd by done. unfold pool_chains. rewrite (Z.eqb_sym h 0).
    destruct (Z.eqb_spec 0 h) as [<-|Hne].
    + exists (Some 0). split; [done|]. apply pool_linked. intros i (b & _ & Eb)%Hin. unfold hsh. by rewrite (bview_get _ _ _ _ Eb).
    + exists None. split; [|done]. unfold zget. destruct (Z.leb_spec 0 h); [|lia].
      apply lookup_replicate_2. unfold NR_BUF_HASH in *. lia.
  - intros i b' h (Hi & b & Eb & ->)%Hget. cbn [b_blocknr pool_entry pool_buf set_hash set_links set_name].
    unfold pool_chains. change (bucket NO_BLOCK) with 0. destruct (Z.eqb_spec h 0) as [->|Hne].
    + rewrite elem_of_pool. done.
    + split; [by intros ?%not_elem_of_nil|by intros [-> _]].
  - intros i h Hi. unfold pool_chains in Hi. destruct (h =? 0); [|by apply not_elem_of_nil in Hi].
    apply elem_of_pool, Hin in Hi as (b & _ & Eb). by eexists.
  - intros i j b' c (_ & b & _ & ->)%Hget _ []. done.
Qed.

(** ** Getting a block *)

Lemma fill_kept out L H s i b dev how :
  cached out L H s → zget (bufs s) i = Some b → b_dev b = dev → ∃ s', fill i dev how s = Ret tt s' ∧ kept s s'.
Proof.
  intros Hc Hb <-. unfold fill, when. destruct (Z.eqb_spec (b_dev b) NO_DEV) as [|Hd]; cbn [negb].
  { exists s. split; [done|apply kept_refl]. }
  destruct (how =? PREFETCH); [eexists; split; [by apply upd_buf_run|by apply kept_drop]|].
  destruct (how =? NORMAL); [|exists s; split; [done|apply kept_refl]].
  eapply rw_block_kept; [exact Hc|done|done|by left].
Qed.

(** A block that no buffer is named after, and a block that has a buffer. *)
Definition missing (dev block : Z) (s : fsst) : Prop :=
  dev = NO_DEV ∨ ∀ j c, zget (bufs s) j = Some c → ¬ named dev block c.

Lemma find_cases L H s dev block :
  cached None L H s →
  (∃ i b, find_block dev block s = Ret (Some i) s ∧ zget (bufs s) i = Some b ∧ named dev block b ∧ dev ≠ NO_DEV) ∨
  (find_block dev block s = Ret None s ∧ missing dev block s).
Proof.
  intros Hc. destruct (Z.eq_dec dev NO_DEV) as [->|Hd]; [right; split; [done|by left]|].
  destruct (find_block_run H s dev block (ca_bufs _ _ _ _ Hc) (ca_chains _ _ _ _ Hc) Hd) as ([i|] & Ef & Ho).
  - left. destruct Ho as (b & Hb & Hn). by exists i, b.
  - right. split; [done|]. right. intros j c Hcc [E1 E2]. apply (Ho j c); [|done|done].
    rewrite (ca_hashed _ _ _ _ Hc j c _ Hcc). split; [congruence|done].
Qed.

Lemma missing_none L H s dev block : cached None L H s → missing dev block s → find_block dev block s = Ret None s.
Proof.
  intros Hc Hm. destruct (find_cases L H s dev block Hc) as [(i & b & _ & Hb & Hn & Hd)|[E _]]; [|done].
  destruct Hm as [?|Hm]; [done|]. by destruct (Hm i b Hb).
Qed.

(** A missing block takes the buffer at the front of the chain. *)
Lemma get_block_misses L H s i dev block how :
  cached None (i :: L) H s → 0 ≤ block < 2 ^ 32 → missing dev block s →
  ∃ s' H' b', get_block dev block how s = Ret i s' ∧ cached None L H' s' ∧ zget (bufs s') i = Some b' ∧
    b_blocknr b' = block ∧ (b_dev b' = dev ∨ b_dev b' = NO_DEV) ∧ b_count b' = 1 ∧
    ∀ j c', j ≠ i → zget (bufs s') j = Some c' → ∃ c, zget (bufs s) j = Some c ∧ b_blocknr c' = b_blocknr c ∧
      b_count c' = b_count c ∧ (b_dev c' = b_dev c ∨ b_dev c' = NO_DEV).
Proof.
  intros Hc Hbl Hm. assert (unnamed i dev block s) as Hun.
  { intros Hd j c Hcc Hn. destruct Hm as [?|Hm]; [done|by destruct (Hm j c Hcc)]. }
  destruct (get_missing L H s i dev block how Hc Hbl (missing_none _ _ _ _ _ Hc Hm) Hun)
    as (s2 & s3 & s5 & H2 & H5 & b2 & U2 & Hc2 & _ & _ & K3 & R5 & Hc5 & E).
  pose proof R5 as ((b3 & b5 & _ & Hb5 & Eb5) & _). injection Eb5 as _ En5 Ed5 _ Ec5.
  destruct (fill_kept None L H5 s5 i b5 dev how Hc5 Hb5 Ed5) as (s' & E' & K').
  destruct (kept_get _ _ _ _ K' Hb5) as (b' & Hb' & Ecb). destruct (kept_core _ _ _ _ K' Hb') as (b0 & Hb0 & _ & _ & Hdev).
  assert (b0 = b5) as -> by congruence. injection Ecb as _ _ _ En Ec. exists s', H5, b'. split_and!; try congruence.
  - rewrite E. by step E'.
  - by eapply kept_cached.
  - intros j c' Hji Hc'. destruct (kept_core _ _ _ _ K' Hc') as (c5 & Hc5' & E5 & _ & Hd5). injection E5 as _ _ _ F1 F2.
    destruct (renamed_get _ _ _ _ _ _ _ R5 Hc5' Hji) as (c3 & Hc3 & E3). injection E3 as _ G1 G2 _ G3.
    destruct (kept_core _ _ _ _ K3 Hc3) as (c2 & Hc2' & E2 & _ & Hd2). injection E2 as _ _ _ I1 I2.
    destruct (unchanged_get _ _ _ _ U2 Hc2') as (c & Hcc & E0). injection E0 as _ J1 J2 _ J3. exists c.
    split_and!; try congruence. destruct Hd5 as [->|]; [|by right]. rewrite G2. destruct Hd2 as [->|]; [|by right]. by left.
Qed.

(** Every call returns or, when all buffers are in use, panics. *)
Lemma get_block_any L H s dev block how :
  cached None L H s → 0 ≤ block < 2 ^ 32 → (∀ j c, zget (bufs s) j = Some c → b_count c < 127) →
  (∃ i s' L' H' b', get_block dev block how s = Ret i s' ∧ cached None L' H' s' ∧ zget (bufs s') i = Some b' ∧
    b_blocknr b' = block ∧ (b_dev b' = dev ∨ b_dev b' = NO_DEV) ∧ 1 ≤ b_count b') ∨
  (L = [] ∧ missing dev block s ∧ get_block dev block how s = Off s).
Proof.
  intros Hc Hbl Hcnt. destruct (find_cases L H s dev block Hc) as [(i & b & Ef & Hb & (Ed & En) & Hd)|[Ef Hm]].
  - left. destruct (get_cached L H s i b Hc Hb (Hcnt i b Hb)) as (s' & E & R & Hc').
    destruct (recounted_back _ _ _ _ _ _ R Hb) as [b' Hb'].
    destruct (recounted_get _ _ _ _ _ _ R Hb') as (b0 & Hb0 & _ & _ & F3 & F4 & _ & F6).
    assert (b0 = b) as -> by congruence. rewrite Z.eqb_refl in F6. exists i, s', (without i L), H, b'. split_and!; try congruence.
    + unfold get_block. step Ef. step (rd_buf_run s i b Hb). by rewrite (bind_seq _ _ _ _ _ _ E).
    + left. congruence.
    + pose proof (proj1 (ca_free _ _ _ _ Hc i b Hb)). lia.
  - destruct L as [|i L].
    + right. split; [done|]. split; [done|]. unfold get_block. step Ef. rewrite bind_get. by rewrite (front_head _ _ (ca_lru _ _ _ _ Hc)).
    + left. destruct (get_block_misses L H s i dev block how Hc Hbl Hm) as (s' & H' & b' & E & Hc' & Hb' & ? & ? & ? & _).
      exists i, s', L, H', b'. split_and!; try done. lia.
Qed.

(** Blocks that are got one after the other, and kept, take the buffers in the
    order of the chain. *)
Lemma get_blocks_order dev how ns : ∀ L H s,
  cached None L H s → NoDup ns → (∀ n, n ∈ ns → 0 ≤ n < 2 ^ 32 ∧ missing dev n s) → (length ns ≤ length L)%nat →
  ∃ s' H', mapM (λ n, get_block dev n how) ns s = Ret (take (length ns) L) s' ∧ cached None (drop (length ns) L) H' s'.
Proof.
  induction ns as [|n ns IH]; intros L H s Hc Hnd Hns Hlen; [by exists s, H|]. destruct L as [|i L]; [cbn in Hlen; lia|].
  apply NoDup_cons in Hnd as [Hn Hnd]. destruct (Hns n) as [Hbl Hm]; [left|].
  destruct (get_block_misses L H s i dev n how Hc Hbl Hm) as (s1 & H1 & b1 & E1 & Hc1 & Hb1 & En1 & Ed1 & _ & Hj).
  destruct (IH L H1 s1 Hc1 Hnd) as (s' & H' & E' & Hc'); [|cbn in Hlen; lia|].
  - intros k Hk. destruct (Hns k) as [Hkb Hkm]; [by right|]. split; [done|]. destruct Hkm as [?|Hkm]; [by left|].
    destruct (Z.eq_dec dev NO_DEV) as [|Hd]; [by left|]. right. intros j c' Hc' [F1 F2].
    destruct (Z.eq_dec j i) as [->|Hji]; [apply Hn; congruence|].
    destruct (Hj j c' Hji Hc') as (c & Hcc & G1 & _ & [G2|]); [|congruence]. apply (Hkm j c Hcc). split; congruence.
  - exists s', H'. split; [|done]. cbn [mapM length take]. step E1. by step E'.
Qed.

(** A driver that does not deliver the whole block leaves an invalid buffer and
    an error code. *)
Lemma get_block_fails L H s i dev block r :
  cached None (i :: L) H s → 0 ≤ block < 2 ^ 32 → dev ≠ NO_DEV → missing dev block s → r ≠ size_of s dev →
  (∀ d, (dev_read dev (u32 (block * size_of s dev)) (size_of s dev) d).1.1 = r) →
  ∃ s' H' b', get_block dev block NORMAL s = Ret i s' ∧ cached None L H' s' ∧ zget (bufs s') i = Some b' ∧
    b_dev b' = NO_DEV ∧ b_blocknr b' = block ∧ b_count b' = 1 ∧ rdwt_err s' = (if 0 <=? r then END_OF_FILE else r) ∧
    missing dev block s'.
Proof.
  intros Hc Hbl Hd Hm Hr Hdrv. assert (unnamed i dev block s) as Hun.
  { intros _ j c Hcc Hn. destruct Hm as [?|Hm]; [done|by destruct (Hm j c Hcc)]. }
  destruct (get_missing L H s i dev block NORMAL Hc Hbl (missing_none _ _ _ _ _ Hc Hm) Hun)
    as (s2 & s3 & s5 & H2 & H5 & b2 & U2 & Hc2 & _ & _ & K3 & R5 & Hc5 & E).
  pose proof R5 as ((b3 & b5 & _ & Hb5 & Eb5) & _ & Hs5 & _). injection Eb5 as _ En5 Ed5 _ Ec5.
  assert (size_of s5 dev = size_of s dev) as Hsz.
  { unfold size_of. rewrite Hs5, (ke_supers _ _ K3). destruct U2 as (_ & -> & _). done. }
  set (size := size_of s dev) in *. destruct (dev_read dev (u32 (block * size)) size (devices s5)) as [[r' l] d] eqn:Er.
  specialize (Hdrv (devices s5)). rewrite Er in Hdrv. cbn in Hdrv. subst r'.
  pose proof (rw_block_read s5 i b5 r l d Hb5) as Erd. cbv zeta in Erd. rewrite Ed5, En5, Hsz in Erd. specialize (Erd Hd Er).
  destruct (rw_block_kept None L H5 s5 i b5 READING Hc5 Hb5) as (s' & E' & K'); [congruence|by left|].
  rewrite E' in Erd. injection Erd as Es'. destruct (Z.eqb_spec r size); [done|].
  assert (zget (bufs s') i = Some (after_io r size (set_data (overlay l (b_data b5)) b5))) as Hb'.
  { rewrite Es'. apply zget_upd_eq. by eapply zget_Some_range. }
  exists s', H5, (after_io r size (set_data (overlay l (b_data b5)) b5)). unfold after_io in *. destruct (Z.eqb_spec r size); [done|].
  split_and!; try done.
  - rewrite E. unfold fill. destruct (Z.eqb_spec dev NO_DEV); [done|]. unfold when. cbn [negb]. change (NORMAL =? PREFETCH) with false.
    change (NORMAL =? NORMAL) with true. cbv iota. by step E'.
  - by eapply kept_cached.
  - by rewrite Es'.
  - right. intros j c Hcc [F1 F2]. destruct (Z.eq_dec j i) as [->|Hji].
    + rewrite Hb' in Hcc. injection Hcc as <-. by destruct Hd.
    + destruct (kept_core _ _ _ _ K' Hcc) as (c5 & Hc5' & E5 & _ & [Hd5|]); [|congruence]. injection E5 as _ _ _ G1 _.
      apply Hji. apply (ca_names _ _ _ _ Hc5 j i c5 b5 Hc5' Hb5); [congruence|]. split; congruence.
Qed.

(** ** The calls of the file server *)

Lemma invalidate_run s dev : ∃ s', invalidate dev s = Ret tt s' ∧ kept s s' ∧ devices s' = devices s ∧
  ∀ i b, zget (bufs s') i = Some b → dev ≠ NO_DEV → b_dev b ≠ dev.
Proof.
  eexists. split; [done|]. assert (∀ j, zget (bufs (with_bufs ((λ b, if b_dev b =? dev then set_dev NO_DEV b else b) <$> bufs s) s)) j =
    (λ b, if b_dev b =? dev then set_dev NO_DEV b else b) <$> zget (bufs s) j) as Hj.
  { intros j. cbn. unfold zget. destruct (0 <=? j); [|done]. apply list_lookup_fmap. }
  split_and!; try done.
  - split; try done.
    + intros j. unfold bview. rewrite Hj. destruct (zget (bufs s) j) as [b|]; [|done]. cbn. by destruct (b_dev b =? dev).
    + intros j b' Hb'. rewrite Hj in Hb'. destruct (zget (bufs s) j) as [b|]; [|done]. injection Hb' as <-. exists b.
      split; [done|]. destruct (b_dev b =? dev); (split; [done|]); [by right|by left].
  - intros i b' Hb' Hd. rewrite Hj in Hb'. destruct (zget (bufs s) i) as [b|]; [|done]. injection Hb' as <-.
    destruct (Z.eqb_spec (b_dev b) dev); cbn; congruence.
Qed.

(** No block is used so often that its count overflows. *)
Definition counts_fit (s : fsst) : Prop := ∀ j c, zget (bufs s) j = Some c → b_count c < 127.

(** One call: getting and returning a block, changing a block in use, writing and
    dropping the blocks of a device; the super blocks in memory and the error
    code are set by others. *)
Inductive call : fsst → fsst → Prop :=
  | call_get s dev block how i s' :
      0 ≤ block < 2 ^ 32 → counts_fit s → get_block dev block how s = Ret i s' → call s s'
  | call_put s i b ty s' :
      zget (bufs s) i = Some b → 1 ≤ b_count b → put_block (Some i) ty s = Ret tt s' → call s s'
  | call_change s i b l d :
      zget (bufs s) i = Some b → 1 ≤ b_count b → zlen l = MAX_BLOCK_SIZE →
      call s (with_bufs (upd (bufs s) i (set_dirt d (set_data l b))) s)
  | call_flush s dev s' : dev ≠ NO_DEV → flushall dev s = Ret tt s' → call s s'
  | call_invalidate s dev s' : invalidate dev s = Ret tt s' → call s s'
  | call_supers s sps :
      sizes_ok sps → call s (with_supers sps s)
  | call_error s e : call s (with_rdwt_err e s).

Lemma call_cached s s' : call s s' → (∃ L H, cached None L H s) → ∃ L H, cached None L H s'.
Proof.
  intros Hcall (L & H & Hc). destruct Hcall as [s dev block how i s' Hbl Hcnt E|s i b ty s' Hb H1 E|s i b l d Hb _ Hl|s dev s' Hd E|
    s dev s' E|s sps Hs|s e].
  - destruct (get_block_any L H s dev block how Hc Hbl Hcnt) as [(i' & s1 & L' & H' & b' & E' & Hc' & _)|(_ & _ & E')]; [|congruence].
    rewrite E in E'. injection E' as <- <-. by exists L', H'.
  - destruct (put_block_run L H s i b ty Hc Hb H1) as (s1 & s2 & E2 & _ & Hc1 & Hs). rewrite E in E2. injection E2 as <-.
    exists (if b_count b =? 1 then requeue b ty i L else L), H. destruct (_ && _); [|by subst].
    eapply kept_cached; [apply Hs|done].
  - exists L, H. eapply kept_cached; [|exact Hc]. apply (kept_upd s i b _ (devices s) (rdwt_err s)); try done; [|by left].
    cbn. by rewrite (proj1 (ca_data _ _ _ _ Hc i b Hb)).
  - destruct (flushall_kept _ _ _ s dev Hc Hd) as (s1 & E1 & K). rewrite E in E1. injection E1 as <-. exists L, H. by eapply kept_cached.
  - destruct (invalidate_run s dev) as (s1 & E1 & K & _). rewrite E in E1. injection E1 as <-. exists L, H. by eapply kept_cached.
  - exists L, H. by destruct Hc.
  - exists L, H. by destruct Hc.
Qed.

(** The states of the cache. *)
Definition reachable (s : fsst) : Prop := ∃ s0 s1, loaded s0 ∧ buf_pool s0 = Ret tt s1 ∧ rtc call s1 s.

Lemma reachable_cached s : reachable s → ∃ L H, cached None L H s.
Proof.
  intros (s0 & s1 & Hl & E & Hr). destruct (buf_pool_run s0 Hl) as (s' & E' & Hc & _). rewrite E in E'. injection E' as <-.
  assert (∃ L H, cached None L H s1) as Hs1 by (by eexists _, _). clear -Hr Hs1. induction Hr; [done|].
  apply IHHr. by eapply call_cached.
Qed.
End ops.
