(* ===== verification/CacheStore.v ===== *)
(** * The buffer cache as a store of blocks

    The clients of the cache get a block, use or change its data, and return it.
    With drivers that carry out their transfers, any sequence of such requests
    gives what a plain store of blocks gives, and a device that has been flushed
    holds what the store holds. *)

From S2P Require Import Prelude Linked Cache CacheLists CacheSpec CacheRep.

(** ** Requests *)

(** Read a block, replace it, change a part of it, write back what is dirty. *)
Inductive request : Type :=
  | ReadBlock (dev n ty : Z)
  | WriteBlock (dev n ty : Z) (l : list Z)
  | ChangeBlock (dev n ty off : Z) (l : list Z)
  | SyncDev (dev : Z).

Definition splice (off : Z) (l old : list Z) : list Z := take (Z.to_nat off) old ++ l ++ drop (Z.to_nat off + length l) old.

(** ** The specification *)

Definition block_store := Z → Z → list Z.

Definition put_store (dev n : Z) (l : list Z) (st : block_store) : block_store :=
  λ dev' n', if (dev' =? dev) && (n' =? n) then l else st dev' n'.

Definition serve_spec (r : request) (st : block_store) : list Z * block_store :=
  match r with
  | ReadBlock dev n _ => (st dev n, st)
  | WriteBlock dev n _ l => ([], put_store dev n l st)
  | ChangeBlock dev n _ off l => ([], put_store dev n (splice off l (st dev n)) st)
  | SyncDev _ => ([], st)
  end.

Fixpoint serve_all_spec (rs : list request) (st : block_store) : list (list Z) * block_store :=
  match rs with
  | [] => ([], st)
  | r :: rs' => let '(out, st1) := serve_spec r st in let '(outs, st2) := serve_all_spec rs' st1 in (out :: outs, st2)
  end.

Section store.
Context `{RD : Reliable}.
Implicit Types (s : fsst) (b : buf).

(** ** The requests through the cache *)

Definition serve_block (r : request) : M fsst (list Z) :=
  match r with
  | ReadBlock dev n ty =>
      i ← get_block dev n NORMAL;
      b ← rd_buf i;
      size ← get_block_size dev;
      put_block (Some i) ty;;
      mret (take (Z.to_nat size) (b_data b))
  | WriteBlock dev n ty l =>
      i ← get_block dev n NO_READ;
      b ← rd_buf i;
      overwrite i (overlay l (b_data b));;
      put_block (Some i) ty;;
      mret []
  | ChangeBlock dev n ty off l =>
      i ← get_block dev n NORMAL;
      b ← rd_buf i;
      overwrite i (splice off l (b_data b));;
      put_block (Some i) ty;;
      mret []
  | SyncDev dev => flushall dev;; mret []
  end.

(** A request that fits the devices. *)
Definition fits (s : fsst) (r : request) : Prop :=
  match r with
  | ReadBlock dev n _ => dev ≠ NO_DEV ∧ on_disk s dev n
  | WriteBlock dev n _ l => dev ≠ NO_DEV ∧ on_disk s dev n ∧ zlen l = size_of s dev
  | ChangeBlock dev n _ off l => dev ≠ NO_DEV ∧ on_disk s dev n ∧ 0 ≤ off ∧ off + zlen l ≤ size_of s dev
  | SyncDev dev => dev ≠ NO_DEV
  end.

(** Between requests no block is in use; a client may hold one: its buffer and the
    name of the block. *)
Definition holder : Type := option (Z * Z * Z).

Definition held_count (h : holder) (j : Z) : Z := match h with Some (i, _, _) => if i =? j then 1 else 0 | None => 0 end.
Definition holds_block (h : holder) (s : fsst) : Prop :=
  match h with Some (i, dev, n) => dev ≠ NO_DEV ∧ ∃ b, zget (bufs s) i = Some b ∧ named dev n b | None => True end.

Record resting (h : holder) (s : fsst) : Prop := Resting {
  id_cached : ∃ L H, cached None L H s;
  id_coherent : coherent nobody s;
  id_count j c : zget (bufs s) j = Some c → b_count c = held_count h j;
  id_held : holds_block h s }.

Notation idle := (resting None).

Definition agrees (s : fsst) (st : block_store) : Prop := ∀ dev n, dev ≠ NO_DEV → contents s dev n = st dev n.

Lemma fits_same s s' r : supers s' = supers s → fits s r → fits s' r.
Proof. intros E. unfold fits, on_disk. destruct r; by rewrite ?(size_same _ _ _ E). Qed.

Lemma id_free s : idle s → ∀ j c, zget (bufs s) j = Some c → b_count c = 0.
Proof. intros Hi j c Hc. by rewrite (id_count _ _ Hi j c Hc). Qed.

Section holder.
Context {h : holder}.

Lemma idle_free s L H : resting h s → cached None L H s → L ≠ [].
Proof.
  intros Hi Hc ->. set (j := match h with Some (0, _, _) => 1 | _ => 0 end).
  assert (held_count h j = 0 ∧ 0 ≤ j < NR_BUFS) as [Hj Hr] by (destruct h as [[[[] ?] ?]|]; done).
  destruct (zget_in (bufs s) j) as [b Hb]; [by rewrite (ca_bufs _ _ _ _ Hc)|].
  destruct (ca_free _ _ _ _ Hc j b Hb) as [_ [_ Hin]]. apply (not_elem_of_nil j), Hin. split; [|done]. by rewrite (id_count _ _ Hi j b Hb).
Qed.

Lemma idle_counts s : resting h s → ∀ j c, zget (bufs s) j = Some c → b_count c < 127.
Proof. intros Hi j c Hc. rewrite (id_count _ _ Hi j c Hc). unfold held_count. destruct h as [[[i ?] ?]|]; [destruct (i =? j)|]; lia. Qed.

Lemma holds_named s s' :
  (∀ j, bview (λ b, (b_dev b, b_blocknr b)) s' j = bview (λ b, (b_dev b, b_blocknr b)) s j) → holds_block h s → holds_block h s'.
Proof.
  unfold holds_block. destruct h as [[[i dev] n]|]; [|done]. intros Hv (Hd & b & Hb & [<- <-]). split; [done|].
  specialize (Hv i). rewrite (bview_get _ _ _ _ Hb) in Hv. unfold bview in Hv. destruct (zget (bufs s') i) as [b'|]; [|done].
  exists b'. split; [done|]. injection Hv as E1 E2. by split.
Qed.

Lemma holds_holding s s' : resting h s → holding s s' → holds_block h s'.
Proof.
  intros Hi Hho. pose proof (id_held _ _ Hi) as Hh. pose proof (id_count _ _ Hi) as Hcn. unfold holds_block in *.
  destruct h as [[[i dev] n]|]; [|done]. destruct Hh as (Hd & b & Hb & [<- <-]). split; [done|].
  destruct (Hho i b Hb) as (b' & Hb' & E); [rewrite (Hcn i b Hb); cbn; by rewrite Z.eqb_refl|]. exists b'. split; [done|]. injection E as _ E1 E2. by split.
Qed.

(** A block that was taken is returned: no other than before is in use. *)
Lemma put_idle L H s s1 i b ty :
  resting h s → cached None L H s1 → coherent nobody s1 → counted i 1 s s1 → holds_block h s1 → zget (bufs s1) i = Some b →
  ∃ s', put_block (Some i) ty s1 = Ret tt s' ∧ resting h s' ∧ transparent s1 s' ∧ supers s' = supers s1 ∧ rdwt_err s' = rdwt_err s1.
Proof.
  intros Hi Hc Hco Hcn Hho Hb.
  assert (∀ j c, zget (bufs s1) j = Some c → b_count c = if i =? j then held_count h j + 1 else held_count h j) as Hcount.
  { intros j c Hcc. specialize (Hcn j). rewrite (bview_get _ _ _ _ Hcc) in Hcn. unfold bview in Hcn.
    destruct (zget (bufs s) j) as [c0|] eqn:E0; [|done]. apply (inj Some) in Hcn. by rewrite Hcn, (id_count _ _ Hi j c0 E0). }
  destruct (put_block_rep L H s1 i b ty Hc Hco Hb) as (s' & L' & E & Hc' & Hco' & T & Hcn' & Hv & Hs & He).
  { rewrite (Hcount i b Hb), Z.eqb_refl. unfold held_count. destruct h as [[[k ?] ?]|]; [destruct (k =? i)|]; lia. }
  exists s'. split_and!; try done. split; [by exists L', H|done| |].
  - intros j c' Hcc'. specialize (Hcn' j). rewrite (bview_get _ _ _ _ Hcc') in Hcn'. unfold bview in Hcn'.
    destruct (zget (bufs s1) j) as [c0|] eqn:E0; [|done]. apply (inj Some) in Hcn'. rewrite Hcn', (Hcount j c0 E0). destruct (i =? j); lia.
  - eapply holds_named; [|done]. exact (bview_part data_name (λ b, (b_dev b, b_blocknr b)) (λ '(_, n, d), (d, n)) s1 s' (λ b, eq_refl) Hv).
Qed.

Lemma read_served s dev n ty :
  resting h s → dev ≠ NO_DEV → on_disk s dev n →
  ∃ s', serve_block (ReadBlock dev n ty) s = Ret (contents s dev n) s' ∧ resting h s' ∧ transparent s s' ∧
    supers s' = supers s ∧ rdwt_err s' = rdwt_err s.
Proof.
  intros Hi Hd Ho. destruct (id_cached _ _ Hi) as (L & H & Hc).
  destruct (get_block_reads L H s dev n Hc (id_coherent _ _ Hi) Hd Ho (λ _, idle_free _ _ _ Hi Hc) (idle_counts s Hi))
    as (i & s1 & E & [(L1 & H1 & Hc1) Hco1 T1 (b & Hb & (Ed & En) & Hdat) Hcn Hho Hs1 He1]).
  destruct (put_idle L1 H1 s s1 i b ty Hi Hc1 Hco1 Hcn (holds_holding _ _ Hi Hho) Hb) as (s' & E' & Hi' & T' & Hs' & He').
  exists s'. split_and!; try congruence.
  - cbn [serve_block]. step E. step (rd_buf_run s1 i b Hb). step (get_block_size_run s1 dev Hd). step E'. unfold mret, M_ret.
    f_equal. rewrite <- Hdat. unfold block_data. by rewrite Ed.
  - intros dev' n' Hd'. by rewrite T', T1.
Qed.

(** The data of a block in use are replaced, and the block is returned. *)
Lemma written s s1 i b dev n l ty :
  resting h s → claimed i dev n s s1 → dev ≠ NO_DEV → zget (bufs s1) i = Some b → zlen l = MAX_BLOCK_SIZE →
  ∃ s', (overwrite i l;; put_block (Some i) ty) s1 = Ret tt s' ∧ resting h s' ∧
    (∀ dev' n', dev' ≠ NO_DEV → contents s' dev' n' =
      put_store dev n (take (Z.to_nat (size_of s dev)) l) (contents s) dev' n') ∧
    supers s' = supers s ∧ rdwt_err s' = rdwt_err s.
Proof.
  intros Hi [(L1 & H1 & Hc1) Hco1 Hot (b0 & Hb0 & Ed & En) Hcn Hho Hs1 He1] Hd Hb Hl. assert (b0 = b) as -> by congruence.
  destruct (overwrite_rep L1 H1 s1 i b l Hc1 Hco1 Hb ltac:(congruence) Hl)
    as (s2 & E2 & Hc2 & Hco2 & Hcon & Hcore & Hs2 & He2 & _ & Hb2 & Hoth).
  assert (counted i 1 s s2) as Hcn2.
  { eapply counted_views; [exact Hcn|]. exact (bview_part core b_count (λ '(_, _, _, _, c), c) s1 s2 (λ b, eq_refl) Hcore). }
  assert (holds_block h s2) as Hh2.
  { eapply (holds_named s1 s2); [|by apply (holds_holding s)]. intros j. unfold bview. destruct (Z.eq_dec j i) as [->|Hne]; [by rewrite Hb2, Hb|by rewrite Hoth]. }
  destruct (put_idle L1 H1 s s2 i _ ty Hi Hc2 Hco2 Hcn2 Hh2 Hb2) as (s' & E' & Hi' & T' & Hs' & He').
  exists s'. split_and!; try congruence; [by step E2|].
  intros dev' n' Hd'. rewrite T', Hcon by done. rewrite Ed, En, (size_same _ _ _ Hs1). unfold put_store.
  destruct (Z.eqb_spec dev' dev) as [->|], (Z.eqb_spec n' n) as [->|]; cbn [andb];
    case_decide as E; try (by rewrite E in *); try congruence; apply Hot; congruence.
Qed.

End holder.

Lemma splice_len off l old : 0 ≤ off → off + zlen l ≤ zlen old → zlen (splice off l old) = zlen old.
Proof. unfold splice, zlen. intros. rewrite !length_app, length_take, length_drop. lia. Qed.

Lemma take_splice off l old n :
  0 ≤ off → off + zlen l ≤ n → n ≤ zlen old → take (Z.to_nat n) (splice off l old) = splice off l (take (Z.to_nat n) old).
Proof.
  unfold splice, zlen. intros Ho Hn Hold.
  assert (take (Z.to_nat off) (take (Z.to_nat n) old) = take (Z.to_nat off) old) as ->.
  { rewrite take_take. f_equal. lia. }
  rewrite take_app, take_ge by (rewrite length_take; lia). f_equal. rewrite length_take_le by lia.
  rewrite take_app, take_ge by lia. f_equal. rewrite skipn_firstn_comm. f_equal. lia.
Qed.

(** A device that has been flushed holds the contents of its blocks. *)
Lemma flushed_disk s dev :
  idle s → dev ≠ NO_DEV →
  ∃ s', flushall dev s = Ret tt s' ∧ idle s' ∧ transparent s s' ∧ supers s' = supers s ∧ rdwt_err s' = rdwt_err s ∧
    (∀ n, disk_block s' dev n = contents s dev n) ∧ ∀ i b, zget (bufs s') i = Some b → b_dev b = dev → b_dirt b ≠ DIRTY.
Proof.
  intros Hi Hd. destruct (id_cached _ _ Hi) as (L & H & Hc).
  destruct (flushall_wrote _ _ _ _ s dev Hc (id_coherent _ _ Hi) Hd) as (s' & E & K & W).
  pose proof (kept_cached _ _ _ _ _ K Hc) as Hc'.
  destruct (flushed_transparent _ _ _ _ s s' dev Hc Hc' (id_coherent _ _ Hi) Hd W) as (T & Hco & Hdi).
  assert (idle s') as Hi'.
  { split; [by exists L, H|done| |done]. intros j c' Hcc'. destruct (kept_core _ _ _ _ K Hcc') as (c & Hcc & Ec & _).
    injection Ec as _ _ _ _ ->. by apply (id_free s Hi j c). }
  exists s'. split_and!; try done; [apply K|apply (wr_err _ _ _ _ W)|]. intros n. rewrite <- T by done.
  destruct (name_cases dev n s') as [(i & b & Hb & <- & <-)|Hab]; [|by rewrite contents_absent].
  rewrite (contents_named _ _ _ _ _ _ Hc' Hb Hd). destruct (Hco i b Hb Hd) as [_ [[]|[Hx|Hx]]]; [|done].
  by destruct (Hdi i b Hb).
Qed.
Lemma serve_block_run s r st :
  idle s → fits s r → agrees s st →
  ∃ s', serve_block r s = Ret (serve_spec r st).1 s' ∧ idle s' ∧ agrees s' (serve_spec r st).2 ∧ supers s' = supers s ∧ rdwt_err s' = rdwt_err s.
Proof.
  intros Hi Hf Ha. destruct (id_cached _ _ Hi) as (L & H & Hc). destruct r as [dev n ty|dev n ty l|dev n ty off l|dev].
  - destruct Hf as [Hd Ho]. destruct (read_served s dev n ty Hi Hd Ho) as (s' & E & Hi' & T & Hs & He). exists s'. split_and!; try done.
    + rewrite E. cbn [fst serve_spec]. by rewrite (Ha dev n Hd).
    + intros dev' n' Hd'. rewrite T by done. by apply Ha.
  - destruct Hf as (Hd & Ho & Hl).
    destruct (get_block_claims L H s dev n Hc (id_coherent _ _ Hi) Hd Ho (λ _, idle_free _ _ _ Hi Hc) (idle_counts s Hi)) as (i & s1 & E & Cl).
    pose proof Cl as [(L1 & H1 & Hc1) _ _ (b & Hb & _) _ _ _ _]. pose proof (proj1 (ca_data _ _ _ _ Hc1 i b Hb)) as Hlen.
    pose proof (size_range _ _ _ s dev Hc Hd) as Hsz.
    destruct (written s s1 i b dev n (overlay l (b_data b)) ty Hi Cl Hd Hb) as (s' & E' & Hi' & Hcon & Hs & He).
    { rewrite overlay_len; [done|lia]. }
    exists s'. split_and!; try done; [cbn [serve_block]; step E; step (rd_buf_run s1 i b Hb); by rewrite (bind_seq _ _ _ _ _ _ E')|].
    intros dev' n' Hd'. rewrite Hcon by done. rewrite take_overlay by lia. unfold put_store. cbn. unfold put_store. destruct (_ && _); [done|by apply Ha].
  - destruct Hf as (Hd & Ho & Hoff & Hl).
    destruct (get_block_reads L H s dev n Hc (id_coherent _ _ Hi) Hd Ho (λ _, idle_free _ _ _ Hi Hc) (idle_counts s Hi)) as (i & s1 & E & G).
    pose proof (gotten_claimed _ _ _ _ _ G) as Cl. destruct G as [(L1 & H1 & Hc1) _ _ (b & Hb & (Ed & _) & Hdat) _ _ Hs1 _].
    pose proof (proj1 (ca_data _ _ _ _ Hc1 i b Hb)) as Hlen. pose proof (size_range _ _ _ s dev Hc Hd) as Hsz.
    destruct (written s s1 i b dev n (splice off l (b_data b)) ty Hi Cl Hd Hb) as (s' & E' & Hi' & Hcon & Hs & He).
    { rewrite splice_len; [done|lia|lia]. }
    exists s'. split_and!; try done; [cbn [serve_block]; step E; step (rd_buf_run s1 i b Hb); by rewrite (bind_seq _ _ _ _ _ _ E')|].
    intros dev' n' Hd'. rewrite Hcon by done. rewrite take_splice by lia. cbn. rewrite <- (Ha dev n Hd), <- Hdat.
    unfold block_data. rewrite Ed, (size_same _ _ _ Hs1). unfold put_store. destruct (_ && _); [done|by apply Ha].
  - destruct (flushed_disk s dev Hi Hf) as (s' & E & Hi' & T & Hs & He & _). exists s'. split_and!; try done.
    + cbn [serve_block]. by step E.
    + intros dev' n' Hd'. rewrite T by done. by apply Ha.
Qed.

Lemma serve_all_run rs : ∀ s st,
  idle s → Forall (fits s) rs → agrees s st →
  ∃ s', mapM serve_block rs s = Ret (serve_all_spec rs st).1 s' ∧ idle s' ∧ agrees s' (serve_all_spec rs st).2 ∧
    supers s' = supers s ∧ rdwt_err s' = rdwt_err s.
Proof.
  induction rs as [|r rs IH]; intros s st Hi Hf Ha; [by exists s|]. apply Forall_cons in Hf as [Hf1 Hf].
  destruct (serve_block_run s r st Hi Hf1 Ha) as (s1 & E1 & Hi1 & Ha1 & Hs1 & He1). cbn [serve_all_spec].
  destruct (serve_spec r st) as [out st1]. cbn [fst snd] in *.
  destruct (IH s1 st1 Hi1) as (s' & E' & Hi' & Ha' & Hs' & He'); [|done|].
  { eapply Forall_impl; [done|]. intros r' Hr'. by apply (fits_same s). }
  destruct (serve_all_spec rs st1) as [outs st2]. cbn [fst snd] in *. exists s'. split_and!; try congruence; try done.
  cbn [mapM]. step E1. by step E'.
Qed.

End store.

Notation idle := (resting None).
