(* ===== verification/CacheTheorems.v ===== *)
(** * The buffer cache of the reference file server: what it promises

    Its tables stay in order and its calls return whatever the drivers answer;
    with drivers that work it is a store of blocks, and flushing makes that
    store durable; buffers are given up in the order of the chain; a read that
    fails is seen by the caller; blocks are written in ascending order. *)

From stdpp Require Import sorting.
From S2P Require Import Prelude Linked Cache CacheLists CacheSpec CacheRep CacheOps CacheStore.

(** ** A device for the witnesses *)

(** The server as it is loaded. *)
Definition buf0 : buf := Buf (replicate (Z.to_nat MAX_BLOCK_SIZE) 0) None None None 0 0 CLEAN 0.
Definition super0 : super_block := SuperBlock 0 0 0 0 0 0 0 0 0 0 0 0 0 0 0 0 0 0 0 0.
Definition supers0 : list super_block := replicate (Z.to_nat NR_SUPERS) super0.
Definition loaded0 `{BD : BlockDev} (d : disk) : fsst :=
  Fsst (replicate (Z.to_nat NR_BUFS) buf0) (replicate (Z.to_nat NR_BUF_HASH) None) None None 0 supers0 0 0 [] d.

Section loaded0.
Context `{BD : BlockDev} (d : disk).

Lemma loaded0_loaded : loaded (loaded0 d).
Proof.
  split; [vm_compute; reflexivity| |reflexivity|].
  2: { apply Forall_replicate. by intros []. }
  intros i b Hb%zget_elem_of%elem_of_replicate. destruct Hb as [-> _]. unfold buf0. cbn [b_data b_count b_dirt].
  unfold zlen. rewrite length_replicate. done.
Qed.

Lemma reachable0 : ∃ s, reachable s ∧ counts_fit s ∧ cached None pool pool_chains s ∧ supers s = supers0.
Proof.
  destruct (buf_pool_run (loaded0 d) loaded0_loaded) as (s & E & Hc & Hs & _ & _ & Hb). exists s. split_and!; [|intros i b Hi|done|done].
  - exists (loaded0 d), s. split_and!; [apply loaded0_loaded|done|apply rtc_refl].
  - rewrite Hb in Hi. destruct (zget (bufs (loaded0 d)) i) as [b0|] eqn:E0; [|done]. injection Hi as <-.
    destruct (ld_zero _ loaded0_loaded i b0 E0) as (_ & E1 & _). cbn. by rewrite E1.
Qed.

Lemma missing0 s dev n : cached None pool pool_chains s → n ≠ 0 → 0 ≤ n < 128 → missing dev n s.
Proof.
  intros Hc Hn Hr. right. intros j c Hcc [_ E]. destruct (ca_hashed _ _ _ _ Hc j c (bucket n) Hcc) as [_ Hh].
  assert (j ∈ pool_chains (bucket n)) as Hin by (apply Hh; by rewrite E).
  unfold pool_chains, bucket in Hin. change HASH_MASK with (Z.ones 7) in Hin. rewrite Z.land_ones in Hin by lia.
  rewrite Z.mod_small in Hin by lia. destruct (Z.eqb_spec n 0); [done|]. by apply not_elem_of_nil in Hin.
Qed.
End loaded0.

Module Ram.
(** Bytes at addresses, on any device, and every transfer succeeds below 2^32. *)
Definition ram := Z → Z → Z.

Definition ram_read (dev pos n : Z) (d : ram) : Z * list Z * ram := (n, bytes_at (d dev) pos n, d).
Definition ram_write (dev pos : Z) (l : list Z) (d : ram) : Z * ram := (zlen l, put_bytes d dev pos l).
Definition ram_scatter (dev pos : Z) (ls : list (list Z)) (d : ram) : Z * list Z * ram :=
  (0, (λ _, 0) <$> ls, put_all d dev pos ls).
Fixpoint ram_parts (dev pos : Z) (ns : list Z) (d : ram) : list (Z * list Z) :=
  match ns with [] => [] | n :: ns' => (0, bytes_at (d dev) pos n) :: ram_parts dev (pos + n) ns' d end.
Definition ram_gather (dev pos : Z) (ns : list Z) (d : ram) : Z * list (Z * list Z) * ram := (0, ram_parts dev pos ns d, d).

Lemma ram_parts_length dev pos ns d : length (ram_parts dev pos ns d) = length ns.
Proof. revert pos. induction ns as [|n ns IH]; intros pos; [done|]. cbn. by rewrite IH. Qed.

Lemma ram_within dev pos n d r l d' : 0 ≤ n → ram_read dev pos n d = (r, l, d') → zlen l ≤ n.
Proof. intros Hn [= _ <- _]. by rewrite bytes_at_len. Qed.
Lemma ram_scattered dev pos ls d r rest d' : ram_scatter dev pos ls d = (r, rest, d') → length rest = length ls.
Proof. intros [= _ <- _]. by rewrite length_fmap. Qed.
Lemma ram_gathered dev pos ns d r got d' : ram_gather dev pos ns d = (r, got, d') → length got = length ns.
Proof. intros [= _ <- _]. apply ram_parts_length. Qed.

#[export] Instance ram_dev : BlockDev := {|
  disk := ram; dev_read := ram_read; dev_write := ram_write; dev_scatter := ram_scatter; dev_gather := ram_gather;
  read_within := ram_within; scatter_entries := ram_scattered; gather_entries := ram_gathered |}.

#[export] Instance ram_reliable : @Reliable ram_dev.
Proof.
  refine (@Build_Reliable ram_dev (λ d, d) (λ _, 2 ^ 32) _ _ _ _).
  - done.
  - intros dev pos n d _ _ _. by exists d.
  - intros dev pos l d _ _. by eexists.
  - intros dev pos ls d _ _. by eexists.
Defined.

Definition sevens : @disk ram_dev := λ _ _, 7.
End Ram.

(** A driver whose reads fail. *)
Module Broken.
Definition broken_read (dev pos n : Z) (d : Ram.ram) : Z * list Z * Ram.ram := (-5, [], d).

Lemma broken_within dev pos n d r l d' : 0 ≤ n → broken_read dev pos n d = (r, l, d') → zlen l ≤ n.
Proof. by intros Hn [= _ <- _]. Qed.

Definition broken_dev : BlockDev := {|
  disk := Ram.ram; dev_read := broken_read; dev_write := Ram.ram_write; dev_scatter := Ram.ram_scatter; dev_gather := Ram.ram_gather;
  read_within := broken_within; scatter_entries := Ram.ram_scattered; gather_entries := Ram.ram_gathered |}.
End Broken.

(** ** The tables stay in order *)

Section theorems.
Context `{BD : BlockDev}.
Implicit Types (s : fsst) (b : buf).


(** Calls return. In every state that is reached, [get_block] gives a buffer in
    use for the block that was asked for, or, only when all buffers are in use and
    none is for the block, panics; a block in use can be returned, devices can be
    written and dropped; none of this leaves the reachable states. *)
Theorem cache_calls_return s (Hs : reachable s) (Hc : counts_fit s) :
  (∀ dev block how, 0 ≤ block < 2 ^ 32 →
    (∃ i s' b, get_block dev block how s = Ret i s' ∧ reachable s' ∧ zget (bufs s') i = Some b ∧ b_blocknr b = block ∧
      (b_dev b = dev ∨ b_dev b = NO_DEV) ∧ 1 ≤ b_count b) ∨
    (bufs_in_use s = NR_BUFS ∧ missing dev block s ∧ get_block dev block how s = Off s)) ∧
  (∀ i b ty, zget (bufs s) i = Some b → 1 ≤ b_count b → ∃ s', put_block (Some i) ty s = Ret tt s' ∧ reachable s') ∧
  (∀ dev, dev ≠ NO_DEV → ∃ s', flushall dev s = Ret tt s' ∧ reachable s') ∧
  (∀ dev, ∃ s', invalidate dev s = Ret tt s' ∧ reachable s').
Proof.
  destruct (reachable_cached s Hs) as (L & H & Hca). pose proof Hs as (s0 & s1 & Hl & Ep & Hr).
  assert (∀ s', call s s' → reachable s') as Hstep by (intros s' Hcall; exists s0, s1; split_and!; [done..|by eapply rtc_r]).
  split_and!.
  - intros dev block how Hbl. destruct (get_block_any L H s dev block how Hca Hbl Hc) as
      [(i & s' & L' & H' & b & E & _ & Hb & Hn & Hd & H1)|(-> & Hm & E)]; [left|right].
    + exists i, s', b. split_and!; try done. apply Hstep. by eapply call_get.
    + split_and!; try done. rewrite (ca_use _ _ _ _ Hca). done.
  - intros i b ty Hb H1. destruct (put_block_run L H s i b ty Hca Hb H1) as (x & s' & E & _). exists s'. split; [done|].
    apply Hstep. by eapply call_put.
  - intros dev Hd. destruct (flushall_kept _ _ _ s dev Hca Hd) as (s' & E & _). exists s'. split; [done|]. apply Hstep. by eapply call_flush.
  - intros dev. destruct (invalidate_run s dev) as (s' & E & _). exists s'. split; [done|]. apply Hstep. by eapply call_invalidate.
Qed.

(** The order of replacement. Blocks that are not in the cache take the
    buffers of the free chain one after the other from its front, where the
    buffers that were returned longest ago are; a buffer that is returned goes to
    the rear, or to the front when the block is not expected to be used again. *)
Theorem buffers_are_taken_in_order L H s dev how ns (Hc : cached None L H s) (Hd : NoDup ns)
  (Hns : ∀ n, n ∈ ns → 0 ≤ n < 2 ^ 32 ∧ missing dev n s) (Hl : (length ns ≤ length L)%nat) :
  (∃ s' H', mapM (λ n, get_block dev n how) ns s = Ret (take (length ns) L) s' ∧ cached None (drop (length ns) L) H' s') ∧
  ∀ i b ty, zget (bufs s) i = Some b → b_count b = 1 → ∃ s', put_block (Some i) ty s = Ret tt s' ∧
    cached None (if (b_dev b =? DEV_RAM) || negb (Z.land ty ONE_SHOT =? 0) then i :: L else L ++ [i]) H s'.
Proof.
  split; [by eapply get_blocks_order|]. intros i b ty Hb H1.
  destruct (put_block_run L H s i b ty Hc Hb ltac:(lia)) as (s1 & s' & E & _ & Hc1 & Hs'). exists s'. split; [done|].
  rewrite H1 in Hc1, Hs'. change (1 =? 1) with true in *. cbn [andb] in Hs'. destruct (written_at_once b ty); [|by subst].
  eapply kept_cached; [apply Hs'|done].
Qed.

(** C31: a read that fails. When the driver does not deliver the whole block the
    buffer is not left in the cache under the name of the block, and the error
    code tells the caller: the driver's, or end of file for a short transfer. *)
Theorem a_failed_read_is_seen L H s i dev block r (Hc : cached None (i :: L) H s) (Hb : 0 ≤ block < 2 ^ 32)
  (Hd : dev ≠ NO_DEV) (Hm : missing dev block s) (Hr : r ≠ size_of s dev)
  (Hdrv : ∀ d, (dev_read dev (u32 (block * size_of s dev)) (size_of s dev) d).1.1 = r) :
  ∃ s' H' b', get_block dev block NORMAL s = Ret i s' ∧ cached None L H' s' ∧ zget (bufs s') i = Some b' ∧
    b_dev b' = NO_DEV ∧ b_blocknr b' = block ∧ b_count b' = 1 ∧ rdwt_err s' = (if 0 <=? r then END_OF_FILE else r) ∧
    missing dev block s'.
Proof. by eapply get_block_fails. Qed.

(** The block types that exist. *)
Definition block_types : list Z := [INODE_BLOCK; DIRECTORY_BLOCK; INDIRECT_BLOCK; MAP_BLOCK; FULL_DATA_BLOCK; PARTIAL_DATA_BLOCK].

(** No block type asks for an immediate write or for the front of the chain:
    whatever is returned, dirty inodes and indirect blocks included, stays in
    memory only, and goes to the rear unless it is on the RAM disk. *)
Theorem put_block_never_writes L H s i b ty (Hc : cached None L H s) (Hb : zget (bufs s) i = Some b) (H1 : b_count b = 1)
  (Hty : ty ∈ block_types) :
  ∃ s', put_block (Some i) ty s = Ret tt s' ∧ devices s' = devices s ∧ cached None (if b_dev b =? DEV_RAM then i :: L else L ++ [i]) H s'.
Proof.
  assert (Z.land ty WRITE_IMMED = 0 ∧ Z.land ty ONE_SHOT = 0) as [Hw Ho].
  { unfold block_types in Hty. rewrite !elem_of_cons in Hty. by destruct Hty as [->|[->|[->|[->|[->|[->|?%not_elem_of_nil]]]]]]. }
  destruct (put_block_run L H s i b ty Hc Hb ltac:(lia)) as (s1 & s' & E & R & Hc1 & Hs'). exists s'. split; [done|].
  rewrite H1 in Hc1, Hs'. change (1 =? 1) with true in *. unfold written_at_once in Hs'. unfold requeue in Hc1. rewrite Hw in Hs'. rewrite Ho in Hc1.
  cbn [andb negb Z.eqb] in Hs'. rewrite orb_false_r in Hc1. subst s'. split; [apply R|done].
Qed.
End theorems.

(** The sort of a transfer. [shell_sort] ends, on any buffers, with the same
    buffers in ascending order of their block numbers. *)
Theorem blocks_are_sorted key blocknr q (Hk : keyed key blocknr q) :
  ∃ q', shell_sort key q = Ret tt q' ∧ q' ≡ₚ q ∧ StronglySorted (in_order blocknr) q'.
Proof. by apply shell_sort_run. Qed.

(** ** A store of blocks *)

Section store.
Context `{RD : Reliable}.

Lemma pool_idle s0 :
  loaded s0 → ∃ s, buf_pool s0 = Ret tt s ∧ idle s ∧ agrees s (disk_block s0) ∧ supers s = supers s0 ∧ rdwt_err s = rdwt_err s0.
Proof.
  intros Hl. destruct (buf_pool_run s0 Hl) as (s & E & Hc & Hs & Hd & He & Hb). exists s. split; [done|].
  assert (∀ i b, zget (bufs s) i = Some b → b_dev b = NO_DEV ∧ b_count b = 0) as Hbuf.
  { intros i b Hi. rewrite Hb in Hi. destruct (zget (bufs s0) i) as [b0|] eqn:E0; [|done]. injection Hi as <-.
    split; [done|]. by destruct (ld_zero _ Hl i b0 E0) as (_ & ? & _). }
  split_and!; try done.
  - split; [by eexists _, _| |intros; by eapply Hbuf|done]. intros i b [E1 _]%Hbuf Hne. by destruct Hne.
  - intros dev n Hne. rewrite contents_absent; [by apply disk_same|]. intros i b [E1 _]%Hbuf [E2 _]. congruence.
Qed.

(** C21: the cache is a store. After start-up any sequence of reads, overwrites,
    partial changes and flushes of blocks on the devices gives exactly the answers
    of a plain store that starts with what is on the devices, and the contents of
    the blocks are those of the store; no error is reported. *)
Theorem the_cache_is_a_store s0 rs (Hl : loaded s0) (Hf : Forall (fits s0) rs) :
  let '(outs, st) := serve_all_spec rs (disk_block s0) in
  ∃ s', (buf_pool;; mapM serve_block rs) s0 = Ret outs s' ∧ idle s' ∧
    (∀ dev n, dev ≠ NO_DEV → contents s' dev n = st dev n) ∧ rdwt_err s' = rdwt_err s0.
Proof.
  destruct (pool_idle s0 Hl) as (s & E & Hi & Ha & Hs & He).
  destruct (serve_all_run rs s (disk_block s0) Hi) as (s' & E' & Hi' & Ha' & _ & He'); [|done|].
  { eapply Forall_impl; [done|]. intros r. by apply fits_same. }
  destruct (serve_all_spec rs (disk_block s0)) as [outs st]. exists s'. split_and!; try done; [by step E|congruence].
Qed.

(** C22: a flush makes the store durable. After any sequence of requests and a
    flush of the device, the device itself holds what the store holds, and none
    of its blocks is dirty. *)
Theorem a_flush_is_durable s0 rs dev (Hl : loaded s0) (Hf : Forall (fits s0) rs) (Hd : dev ≠ NO_DEV) :
  ∃ s', (buf_pool;; mapM serve_block rs;; flushall dev) s0 = Ret tt s' ∧
    (∀ n, disk_block s' dev n = (serve_all_spec rs (disk_block s0)).2 dev n) ∧
    ∀ i b, zget (bufs s') i = Some b → b_dev b = dev → b_dirt b ≠ DIRTY.
Proof.
  destruct (pool_idle s0 Hl) as (s & E & Hi & Ha & Hs & _).
  destruct (serve_all_run rs s (disk_block s0) Hi) as (s1 & E1 & Hi1 & Ha1 & _ & _); [|done|].
  { eapply Forall_impl; [done|]. intros r. by apply fits_same. }
  destruct (flushed_disk s1 dev Hi1 Hd) as (s' & E' & _ & _ & _ & _ & Hdk & Hdi). exists s'. split_and!; [|by intros n; rewrite Hdk; apply Ha1|done].
  step E. step E1. done.
Qed.
End store.

(** ** Witnesses *)

Import Ram.


Lemma cache_calls_return_witness :
  ∃ s i s', reachable s ∧ get_block 3 5 NORMAL s = Ret i s' ∧ reachable s'.
Proof.
  destruct (reachable0 sevens) as (s & Hr & Hf & Hc & _). destruct (cache_calls_return s Hr Hf) as (Hg & _).
  destruct (Hg 3 5 NORMAL) as [(i & s' & b & E & Hr' & _)|(Hu & _)]; [lia|exists s, i, s'; exact (conj Hr (conj E Hr'))|].
  rewrite (ca_use _ _ _ _ Hc) in Hu. vm_compute in Hu. discriminate Hu.
Defined.

Lemma buffers_are_taken_in_order_witness :
  ∃ s s', reachable s ∧ mapM (λ n, get_block 3 n NORMAL) [17; 4; 23] s = Ret [0; 1; 2] s'.
Proof.
  destruct (reachable0 sevens) as (s & Hr & Hf & Hc & _).
  destruct (buffers_are_taken_in_order pool pool_chains s 3 NORMAL [17; 4; 23] Hc) as [(s' & H' & E & _) _].
  - apply (bool_decide_eq_true_1 _). vm_compute. reflexivity.
  - intros n Hn. assert (n = 17 ∨ n = 4 ∨ n = 23) as Hn' by set_solver. split; [lia|]. apply missing0; [exact Hc|lia|lia].
  - vm_compute. lia.
  - exists s, s'. exact (conj Hr E).
Defined.

Lemma a_failed_read_is_seen_witness :
  ∃ (s s' : @fsst Broken.broken_dev) i, get_block 3 5 NORMAL s = Ret i s' ∧ rdwt_err s' = -5.
Proof.
  destruct (@reachable0 Broken.broken_dev sevens) as (s & _ & _ & Hc & Hs).
  destruct (a_failed_read_is_seen (range 1 127) pool_chains s 0 3 5 (-5)) as (s' & H' & b' & E & _ & _ & _ & _ & _ & He & _).
  - exact Hc.
  - lia.
  - discriminate.
  - apply missing0; [exact Hc|discriminate|lia].
  - unfold size_of. rewrite Hs. discriminate.
  - intros d. reflexivity.
  - exists s, s', 0. exact (conj E He).
Defined.

(** Buffers 0 to 6 with these block numbers. *)
Definition numbers : list Z := [40; 7; 19; 3; 88; 7; 21].

Lemma blocks_are_sorted_witness :
  ∃ q', shell_sort (zget numbers) [0; 1; 2; 3; 4; 5; 6] = Ret tt q' ∧ (λ i, default 0 (zget numbers i)) <$> q' = [3; 7; 7; 19; 21; 40; 88].
Proof.
  destruct (blocks_are_sorted (zget numbers) (λ i, default 0 (zget numbers i)) [0; 1; 2; 3; 4; 5; 6]) as (q' & E & _).
  - intros x Hx. assert (0 ≤ x < 7) as Hr by set_solver by lia. destruct (zget_in numbers x) as [y Hy]; [exact Hr|]. rewrite Hy. reflexivity.
  - exists q'. split; [exact E|]. vm_compute in E. injection E as <-. vm_compute. reflexivity.
Defined.

(** A read, an overwrite, a partial change, and reads of what they leave. *)
Definition requests : list request :=
  [ReadBlock 3 5 INODE_BLOCK; WriteBlock 3 5 FULL_DATA_BLOCK (replicate 1024 1); SyncDev 3;
   ChangeBlock 3 5 PARTIAL_DATA_BLOCK 1022 [8; 9]; ReadBlock 3 5 INODE_BLOCK; ReadBlock 3 6 INODE_BLOCK].

Lemma requests_fit : Forall (fits (loaded0 sevens)) requests.
Proof.
  repeat constructor; try discriminate; try (vm_compute; congruence).
Qed.

Lemma the_cache_is_a_store_witness :
  ∃ s', (buf_pool;; mapM serve_block requests) (loaded0 sevens) =
    Ret [replicate 1024 7; []; []; []; replicate 1022 1 ++ [8; 9]; replicate 1024 7] s'.
Proof.
  pose proof (the_cache_is_a_store (loaded0 sevens) requests (loaded0_loaded sevens) requests_fit) as H.
  destruct (serve_all_spec requests (disk_block (loaded0 sevens))) as [outs st] eqn:E. destruct H as (s' & Er & _).
  exists s'. rewrite Er. f_equal. apply (f_equal fst) in E. cbn [fst] in E. rewrite <- E. vm_compute. reflexivity.
Defined.

Lemma a_flush_is_durable_witness :
  ∃ s', (buf_pool;; mapM serve_block requests;; flushall 3) (loaded0 sevens) = Ret tt s' ∧
    disk_block s' 3 5 = replicate 1022 1 ++ [8; 9].
Proof.
  destruct (a_flush_is_durable (loaded0 sevens) requests 3 (loaded0_loaded sevens) requests_fit) as (s' & E & Hd & _); [discriminate|].
  exists s'. split; [exact E|]. rewrite Hd. vm_compute. reflexivity.
Defined.
