(* ===== verification/Super.v ===== *)
(** * Super blocks and bit maps of the reference file server

    [super.c] of [reference/minix/servers/fs] with [conv2] and [conv4] of
    [utility.c], and [alloc_zone] and [free_zone] of [cache.c], on top of the
    buffer cache. A super block is an index into the table; a bit map is an array
    of 16-bit words in the blocks of the device, the low byte first. *)

From S2P Require Import Prelude Cache.

Definition OK : Z := 0.
Definition EINVAL : Z := -22.
Definition ENOSPC : Z := -28.
Definition IMAP : Z := 0.
Definition ZMAP : Z := 1.
Definition NO_BIT : Z := 0.
Definition NO_ZONE : Z := 0.
Definition START_BLOCK : Z := 2.
Definition SUPER_BLOCK_BYTES : Z := 1024.
Definition STATIC_BLOCK_SIZE : Z := 1024.
Definition BYTE : Z := 0xFF.
Definition BYTE_SWAP : Z := 0.
Definition SUPER_MAGIC : Z := 0x137F.
Definition SUPER_V2 : Z := 0x2468.
Definition SUPER_V3 : Z := 0x4d5a.
Definition V1 : Z := 1.
Definition V2 : Z := 2.
Definition V3 : Z := 3.
Definition V1_NR_DZONES : Z := 7.
Definition V2_NR_DZONES : Z := 7.
Definition SUPER_SIZE : Z := 76.
Definition V1_INODE_SIZE : Z := 32.
Definition V2_INODE_SIZE : Z := 64.
Definition V1_INDIRECTS : Z := STATIC_BLOCK_SIZE / 2.
Definition V1_INODES_PER_BLOCK : Z := STATIC_BLOCK_SIZE / V1_INODE_SIZE.
Definition V2_INDIRECTS (b : Z) : Z := b / 4.
Definition V2_INODES_PER_BLOCK (b : Z) : Z := b / V2_INODE_SIZE.
Definition FS_BITMAP_CHUNKS (b : Z) : Z := b / 2.
Definition FS_BITCHUNK_BITS : Z := 16.
Definition FS_BITS_PER_BLOCK (b : Z) : Z := FS_BITMAP_CHUNKS b * FS_BITCHUNK_BITS.

(** A [short]. *)
Definition s16 (x : Z) : Z := let y := u16 x in if y <? 32768 then y else y - 65536.

(** ** Byte order *)

Definition conv2 (norm w : Z) : Z :=
  if negb (norm =? 0) then Z.land w 0xFFFF
  else Z.lor (Z.shiftl (Z.land w BYTE) 8) (Z.land (Z.shiftr w 8) BYTE).

(** The result is a [long]; its 32 bits are given here. *)
Definition conv4 (norm x : Z) : Z :=
  if negb (norm =? 0) then x
  else Z.lor (Z.shiftl (conv2 0 (Z.land x 0xFFFF)) 16) (conv2 0 (Z.land (Z.shiftr x 16) 0xFFFF)).

(** Numbers in memory, the low byte first. *)
Definition word16 (l : list Z) (off : Z) : option Z :=
  match zget l off, zget l (off + 1) with
  | Some lo, Some hi => Some (lo + 256 * hi)
  | _, _ => None
  end.
Definition word32 (l : list Z) (off : Z) : option Z :=
  match word16 l off, word16 l (off + 2) with
  | Some lo, Some hi => Some (lo + 65536 * hi)
  | _, _ => None
  end.
Definition put_word16 (off x : Z) (l : list Z) : list Z := upd (upd l off (u8 x)) (off + 1) (u8 (x / 256)).

Section super.
Context `{BD : BlockDev}.

(** ** The table *)

Definition rd_super (i : Z) : M fsst super_block := s ← get; lift_opt (zget (supers s) i).
Definition upd_super (i : Z) (f : super_block → super_block) : M fsst unit :=
  s ← get;
  sp ← lift_opt (zget (supers s) i);
  t ← lift_opt (zset (supers s) i (f sp));
  modify (with_supers t).

Definition set_s_dev (dev : Z) (sp : super_block) : super_block :=
  SuperBlock (s_ninodes sp) (s_nzones sp) (s_imap_blocks sp) (s_zmap_blocks sp) (s_firstdatazone sp) (s_log_zone_size sp)
    (s_max_size sp) (s_zones sp) (s_magic sp) (s_block_size sp) (s_disk_version sp) (s_inodes_per_block sp) dev (s_rd_only sp)
    (s_native sp) (s_version sp) (s_ndzones sp) (s_nindirs sp) (s_isearch sp) (s_zsearch sp).
Definition set_search (isearch zsearch : Z) (sp : super_block) : super_block :=
  SuperBlock (s_ninodes sp) (s_nzones sp) (s_imap_blocks sp) (s_zmap_blocks sp) (s_firstdatazone sp) (s_log_zone_size sp)
    (s_max_size sp) (s_zones sp) (s_magic sp) (s_block_size sp) (s_disk_version sp) (s_inodes_per_block sp) (s_dev sp) (s_rd_only sp)
    (s_native sp) (s_version sp) (s_ndzones sp) (s_nindirs sp) isearch zsearch.

Definition has_dev (dev : Z) (sps : list super_block) (i : Z) : bool :=
  match zget sps i with Some sp => s_dev sp =? dev | None => false end.

Definition get_super (dev : Z) : M fsst Z :=
  if dev =? NO_DEV then halt else
  s ← get;
  match List.find (has_dev dev (supers s)) (range 0 (Z.to_nat NR_SUPERS)) with
  | Some i => mret i
  | None => halt
  end.

(** ** Bit maps *)

Definition rd_chunk (bp word : Z) : M fsst Z := b ← rd_buf bp; lift_opt (word16 (b_data b) (2 * word)).
Definition wr_chunk (bp word x : Z) : M fsst unit := upd_buf bp (λ b, set_data (put_word16 (2 * word) x (b_data b)) b).

(** The first bit that is not set. *)
Definition first_clear (k : Z) : M fsst Z :=
  loop (S (Z.to_nat FS_BITCHUNK_BITS))
    (λ i, mret (if negb (Z.land k (Z.shiftl 1 i) =? 0) then inl (i + 1) else inr i)) 0.

Definition map_start (sp : super_block) (map : Z) : Z :=
  if map =? IMAP then START_BLOCK else START_BLOCK + s_imap_blocks sp.
Definition map_bits (sp : super_block) (map : Z) : Z :=
  if map =? IMAP then u32 (s_ninodes sp + 1) else u32 (s_zones sp - (s_firstdatazone sp - 1)).
Definition map_blocks (sp : super_block) (map : Z) : Z :=
  if map =? IMAP then u32 (s_imap_blocks sp) else u32 (s_zmap_blocks sp).

(** One word of a block: [inl] goes on, [inr] is a bit, or none in this block. *)
Definition word_step (sp : super_block) (map bp block word : Z) : M fsst (Z + option Z) :=
  if FS_BITMAP_CHUNKS (s_block_size sp) <=? word then mret (inr None) else
  x ← rd_chunk bp word;
  if x =? 0xFFFF then mret (inl (word + 1)) else
  let k := conv2 (s_native sp) x in
  i ← first_clear k;
  let b := u32 (block * FS_BITS_PER_BLOCK (s_block_size sp) + word * FS_BITCHUNK_BITS + i) in
  if map_bits sp map <=? b then mret (inr None) else
  let k := u16 (Z.lor k (Z.shiftl 1 i)) in
  wr_chunk bp word (conv2 (s_native sp) k);;
  upd_buf bp (set_dirt DIRTY);;
  put_block (Some bp) MAP_BLOCK;;
  mret (inr (Some b)).

(** One block: where it goes on, or the result. *)
Definition block_step (sp : super_block) (map : Z) (st : Z * Z * Z) : M fsst ((Z * Z * Z) + Z) :=
  let '(block, word, bcount) := st in
  bp ← get_block (s_dev sp) (u32 (map_start sp map + block)) NORMAL;
  r ← loop (S (Z.to_nat (FS_BITMAP_CHUNKS (s_block_size sp)))) (word_step sp map bp block) word;
  match r with
  | Some b => mret (inr b)
  | None =>
      put_block (Some bp) MAP_BLOCK;;
      let block := u32 (block + 1) in
      let block := if map_blocks sp map <=? block then 0 else block in
      let bcount := u32 (bcount - 1) in
      mret (if 0 <? bcount then inl (block, 0, bcount) else inr NO_BIT)
  end.

Definition alloc_bit (spi map origin : Z) : M fsst Z :=
  sp ← rd_super spi;
  if negb (s_rd_only sp =? 0) then halt else
  let origin := if map_bits sp map <=? origin then 0 else origin in
  let bits := FS_BITS_PER_BLOCK (s_block_size sp) in
  let bcount := u32 (map_blocks sp map + 1) in
  loop (S (Z.to_nat bcount)) (block_step sp map) (origin / bits, (origin mod bits) / FS_BITCHUNK_BITS, bcount).

Definition free_bit (spi map bit_returned : Z) : M fsst unit :=
  sp ← rd_super spi;
  if negb (s_rd_only sp =? 0) then halt else
  let bits := FS_BITS_PER_BLOCK (s_block_size sp) in
  let block := bit_returned / bits in
  let word := (bit_returned mod bits) / FS_BITCHUNK_BITS in
  let mask := u16 (Z.shiftl 1 (bit_returned mod FS_BITCHUNK_BITS)) in
  bp ← get_block (s_dev sp) (u32 (map_start sp map + block)) NORMAL;
  x ← rd_chunk bp word;
  let k := conv2 (s_native sp) x in
  if Z.land k mask =? 0 then halt else
  wr_chunk bp word (conv2 (s_native sp) (Z.land k (Z.lnot mask)));;
  upd_buf bp (set_dirt DIRTY);;
  put_block (Some bp) MAP_BLOCK.

(** ** Zones *)

Definition alloc_zone (dev z : Z) : M fsst Z :=
  spi ← get_super dev;
  sp ← rd_super spi;
  let bit := if z =? s_firstdatazone sp then s_zsearch sp else u32 (z - (s_firstdatazone sp - 1)) in
  b ← alloc_bit spi ZMAP bit;
  if b =? NO_BIT then
    modify (with_err_code ENOSPC);;
    mret NO_ZONE
  else
    when (z =? s_firstdatazone sp) (upd_super spi (λ sp, set_search (s_isearch sp) b sp));;
    mret (u32 (s_firstdatazone sp - 1 + b)).

Definition free_zone (dev numb : Z) : M fsst unit :=
  spi ← get_super dev;
  sp ← rd_super spi;
  if (numb <? s_firstdatazone sp) || (s_zones sp <=? numb) then mret tt else
  let bit := u32 (numb - (s_firstdatazone sp - 1)) in
  free_bit spi ZMAP bit;;
  when (bit <? s_zsearch sp) (upd_super spi (λ sp, set_search (s_isearch sp) bit sp)).

(** ** Reading a super block *)

(** The fields as they are on the device. [memcpy] also fills the fields that are
    only used in memory with what follows them there. *)
Definition copy_super (l : list Z) : option super_block :=
  ninodes ← word32 l 0; nzones ← word16 l 4; imap ← word16 l 6; zmap ← word16 l 8;
  first ← word16 l 10; logz ← word16 l 12; maxs ← word32 l 16; zones ← word32 l 20;
  magic ← word16 l 24; bsize ← word16 l 28; dver ← zget l 30; ipb ← word32 l 40;
  dev ← word16 l 44; rdonly ← word32 l 48; native ← word32 l 52; version ← word32 l 56;
  ndz ← word32 l 60; nind ← word32 l 64; isearch ← word32 l 68; zsearch ← word32 l 72;
  Some (SuperBlock ninodes nzones (s16 imap) (s16 zmap) first (s16 logz) maxs zones (s16 magic) bsize (schar dver) ipb (s16 dev)
          rdonly native version ndz nind isearch zsearch).

(** Version and byte order. *)
Definition super_kind (magic : Z) : option (Z * Z) :=
  if (magic =? SUPER_MAGIC) || (magic =? conv2 BYTE_SWAP SUPER_MAGIC) then Some (V1, if magic =? SUPER_MAGIC then 1 else 0)
  else if (magic =? SUPER_V2) || (magic =? conv2 BYTE_SWAP SUPER_V2) then Some (V2, if magic =? SUPER_V2 then 1 else 0)
  else if magic =? SUPER_V3 then Some (V3, 1)
  else None.

Definition swap_fields (native : Z) (sp : super_block) : super_block :=
  SuperBlock (u32 (conv4 native (s_ninodes sp))) (u16 (conv2 native (s_nzones sp))) (s16 (conv2 native (s_imap_blocks sp)))
    (s16 (conv2 native (s_zmap_blocks sp))) (u16 (conv2 native (s_firstdatazone sp))) (s16 (conv2 native (s_log_zone_size sp)))
    (u32 (conv4 native (s_max_size sp))) (u32 (conv4 native (s_zones sp))) (s_magic sp) (s_block_size sp) (s_disk_version sp)
    (s_inodes_per_block sp) (s_dev sp) (s_rd_only sp) (s_native sp) (s_version sp) (s_ndzones sp) (s_nindirs sp)
    (s_isearch sp) (s_zsearch sp).

Definition set_geometry (zones bsize ipb ndz nind : Z) (sp : super_block) : super_block :=
  SuperBlock (s_ninodes sp) (s_nzones sp) (s_imap_blocks sp) (s_zmap_blocks sp) (s_firstdatazone sp) (s_log_zone_size sp)
    (s_max_size sp) zones (s_magic sp) bsize (s_disk_version sp) ipb (s_dev sp) (s_rd_only sp)
    (s_native sp) (s_version sp) ndz nind (s_isearch sp) (s_zsearch sp).

Definition set_kind (version native : Z) (sp : super_block) : super_block :=
  SuperBlock (s_ninodes sp) (s_nzones sp) (s_imap_blocks sp) (s_zmap_blocks sp) (s_firstdatazone sp) (s_log_zone_size sp)
    (s_max_size sp) (s_zones sp) (s_magic sp) (s_block_size sp) (s_disk_version sp) (s_inodes_per_block sp) (s_dev sp) (s_rd_only sp)
    native version (s_ndzones sp) (s_nindirs sp) 0 0.

(** Sizes that depend on the version. *)
Definition geometry (version : Z) (sp : super_block) : super_block :=
  if version =? V1 then
    set_geometry (s_nzones sp) STATIC_BLOCK_SIZE V1_INODES_PER_BLOCK V1_NR_DZONES V1_INDIRECTS sp
  else
    let bsize := if version =? V2 then STATIC_BLOCK_SIZE else s_block_size sp in
    if bsize <? MIN_BLOCK_SIZE then set_geometry (s_zones sp) bsize (s_inodes_per_block sp) (s_ndzones sp) (s_nindirs sp) sp
    else set_geometry (s_zones sp) bsize (V2_INODES_PER_BLOCK bsize) V2_NR_DZONES (V2_INDIRECTS bsize) sp.

Definition size_refused (bsize : Z) : bool :=
  (bsize <? MIN_BLOCK_SIZE) || (MAX_BLOCK_SIZE <? bsize) || negb (bsize mod 512 =? 0) || (bsize <? SUPER_SIZE) ||
  negb (bsize mod V2_INODE_SIZE =? 0) || negb (bsize mod V1_INODE_SIZE =? 0).

Definition super_refused (sp : super_block) : bool :=
  (s_imap_blocks sp <? 1) || (s_zmap_blocks sp <? 1) || (s_ninodes sp <? 1) || (s_zones sp <? 1) || (4 <? u32 (s_log_zone_size sp)).

(** The checks: the result, and the super block as they leave it. *)
Definition check_super (dev : Z) (sp : super_block) : Z * super_block :=
  match super_kind (s_magic sp) with
  | None => (EINVAL, sp)
  | Some (version, native) =>
      let sp := geometry version (swap_fields native sp) in
      if size_refused (s_block_size sp) then (EINVAL, sp) else
      let sp := set_kind version native sp in
      if super_refused sp then (EINVAL, sp) else
      (OK, set_s_dev dev sp)
  end.

Definition read_super (spi : Z) : M fsst Z :=
  sp ← rd_super spi;
  let dev := s_dev sp in
  if dev =? NO_DEV then halt else
  s ← get;
  let '(r, l, d) := dev_read dev SUPER_BLOCK_BYTES MIN_BLOCK_SIZE (devices s) in
  modify (with_sbbuf (overlay l (sbbuf s)));;
  modify (with_devices d);;
  if negb (r =? MIN_BLOCK_SIZE) then mret EINVAL else
  s ← get;
  sp ← lift_opt (copy_super (sbbuf s));
  let '(res, sp) := check_super dev (set_s_dev NO_DEV sp) in
  upd_super spi (λ _, sp);;
  mret res.
End super.
