(* ===== verification/SuperSpec.v ===== *)
(** * Bit maps as sets of bits

    Byte order conversion is its own inverse; a word of a map is read and
    written as bits; a block of a map is searched word by word. *)

From S2P Require Import Prelude Linked Cache CacheLists CacheSpec CacheRep CacheStore Super.

(** ** Byte order *)

Lemma lor_add a b n : 0 ≤ n → 0 ≤ b < 2 ^ n → Z.lor (Z.shiftl a n) b = a * 2 ^ n + b.
Proof.
  intros Hn Hb. assert (Z.land (Z.shiftl a n) b = 0) as Hl.
  { apply Z.bits_inj'. intros m Hm. rewrite Z.land_spec, Z.bits_0, Z.shiftl_spec by done.
    destruct (Z.ltb_spec m n); [by rewrite (Z.testbit_neg_r a) by lia|].
    destruct (Z.eq_dec b 0) as [->|]; [by rewrite Z.bits_0, andb_false_r|].
    rewrite (Z.bits_above_log2 b m), andb_false_r; [done|lia|]. apply (Z.lt_le_trans _ n); [|lia]. apply Z.log2_lt_pow2; lia. }
  rewrite <- Z.lxor_lor, <- Z.add_nocarry_lxor by done. by rewrite Z.shiftl_mul_pow2.
Qed.

Lemma land_mod x n : 0 ≤ n → Z.land x (2 ^ n - 1) = x mod 2 ^ n.
Proof. intros Hn. rewrite <- Z.land_ones by done. by rewrite Z.ones_equiv. Qed.

Lemma conv2_swap w : 0 ≤ w < 65536 → conv2 0 w = w mod 256 * 256 + w / 256.
Proof.
  intros Hw. unfold conv2, BYTE. cbn [negb Z.eqb]. change 255 with (2 ^ 8 - 1). rewrite !land_mod by lia.
  rewrite Z.shiftr_div_pow2 by lia. change (2 ^ 8) with 256. rewrite (Z.mod_small (w / 256)) by (split; [apply Z.div_pos; lia|apply Z.div_lt_upper_bound; lia]).
  rewrite lor_add; [done|lia|]. change (2 ^ 8) with 256. split; [apply Z.div_pos; lia|apply Z.div_lt_upper_bound; lia].
Qed.

Lemma conv2_same n w : n ≠ 0 → 0 ≤ w < 65536 → conv2 n w = w.
Proof.
  intros Hn Hw. unfold conv2. destruct (Z.eqb_spec n 0); [done|]. cbn [negb]. change 65535 with (2 ^ 16 - 1).
  rewrite land_mod by lia. by apply Z.mod_small.
Qed.

Lemma conv2_range n w : 0 ≤ w < 65536 → 0 ≤ conv2 n w < 65536.
Proof.
  intros Hw. destruct (Z.eq_dec n 0) as [->|Hn]; [|by rewrite conv2_same]. rewrite conv2_swap by done.
  pose proof (Z.mod_pos_bound w 256 ltac:(lia)). pose proof (Z.div_mod w 256 ltac:(lia)). lia.
Qed.

Lemma conv2_conv2 n w : 0 ≤ w < 65536 → conv2 n (conv2 n w) = w.
Proof.
  intros Hw. destruct (Z.eq_dec n 0) as [->|Hn]; [|by rewrite !conv2_same by (done || by apply conv2_range)].
  rewrite (conv2_swap (conv2 0 w)) by (by apply conv2_range). rewrite conv2_swap by done.
  pose proof (Z.mod_pos_bound w 256 ltac:(lia)). pose proof (Z.div_mod w 256 ltac:(lia)).
  set (a := w mod 256) in *. set (b := w / 256) in *. rewrite (Z.add_comm (a * 256) b), Z.mod_add, Z.div_add by lia.
  rewrite Z.div_small, Z.mod_small by lia. lia.
Qed.

Lemma conv4_swap x : 0 ≤ x < 4294967296 → conv4 0 x = conv2 0 (x mod 65536) * 65536 + conv2 0 (x / 65536).
Proof.
  intros Hx. unfold conv4. cbn [negb Z.eqb]. change 65535 with (2 ^ 16 - 1). rewrite !land_mod by lia.
  rewrite Z.shiftr_div_pow2 by lia. change (2 ^ 16) with 65536.
  assert (0 ≤ x / 65536 < 65536) as Hd by (split; [apply Z.div_pos; lia|apply Z.div_lt_upper_bound; lia]).
  rewrite (Z.mod_small (x / 65536)) by done. rewrite lor_add; [done|lia|]. change (2 ^ 16) with 65536. by apply conv2_range.
Qed.

Lemma conv4_range n x : 0 ≤ x < 4294967296 → 0 ≤ conv4 n x < 4294967296.
Proof.
  intros Hx. destruct (Z.eq_dec n 0) as [->|Hn]; [|unfold conv4; by destruct (Z.eqb_spec n 0)]. rewrite conv4_swap by done.
  pose proof (conv2_range 0 (x mod 65536) (Z.mod_pos_bound x 65536 ltac:(lia))).
  assert (0 ≤ x / 65536 < 65536) as Hd by (split; [apply Z.div_pos; lia|apply Z.div_lt_upper_bound; lia]).
  pose proof (conv2_range 0 _ Hd). lia.
Qed.

Lemma conv4_conv4 n x : 0 ≤ x < 4294967296 → conv4 n (conv4 n x) = x.
Proof.
  intros Hx. destruct (Z.eq_dec n 0) as [->|Hn]; [|unfold conv4; by destruct (Z.eqb_spec n 0)].
  rewrite (conv4_swap (conv4 0 x)) by (by apply conv4_range). rewrite conv4_swap by done.
  assert (0 ≤ x / 65536 < 65536) as Hd by (split; [apply Z.div_pos; lia|apply Z.div_lt_upper_bound; lia]).
  pose proof (Z.mod_pos_bound x 65536 ltac:(lia)) as Hm. pose proof (conv2_range 0 _ Hd). pose proof (conv2_range 0 _ Hm).
  set (a := conv2 0 (x mod 65536)) in *. set (b := conv2 0 (x / 65536)) in *.
  rewrite (Z.add_comm (a * 65536) b), Z.mod_add, Z.div_add by lia. rewrite (Z.div_small b), (Z.mod_small b) by lia. unfold a, b.
  rewrite Z.add_0_l, !conv2_conv2 by done. pose proof (Z.div_mod x 65536 ltac:(lia)). lia.
Qed.

(** ** Bits *)

Lemma testbit_mask k i : 0 ≤ i → (Z.land k (Z.shiftl 1 i) =? 0) = negb (Z.testbit k i).
Proof.
  intros Hi. rewrite Z.shiftl_1_l. destruct (Z.testbit k i) eqn:E; cbn [negb].
  - apply Z.eqb_neq. intros H0. apply (f_equal (λ x, Z.testbit x i)) in H0. rewrite Z.land_spec, Z.bits_0, E, Z.pow2_bits_true in H0 by done. done.
  - apply Z.eqb_eq, Z.bits_inj'. intros m Hm. rewrite Z.land_spec, Z.bits_0. destruct (Z.eq_dec m i) as [->|Hne]; [by rewrite E|].
    by rewrite Z.pow2_bits_false, andb_false_r by done.
Qed.

Lemma testbit_set k i m : 0 ≤ i → Z.testbit (Z.lor k (Z.shiftl 1 i)) m = (m =? i) || Z.testbit k m.
Proof.
  intros Hi. rewrite Z.lor_spec, Z.shiftl_1_l, Z.pow2_bits_eqb, (Z.eqb_sym i m), orb_comm by done. done.
Qed.

Lemma testbit_clear k i m : 0 ≤ i → 0 ≤ m → Z.testbit (Z.land k (Z.lnot (Z.shiftl 1 i))) m = negb (m =? i) && Z.testbit k m.
Proof.
  intros Hi Hm. rewrite Z.land_spec, Z.lnot_spec, Z.shiftl_1_l, Z.pow2_bits_eqb, (Z.eqb_sym i m), andb_comm by done. done.
Qed.

(** All sixteen bits set, and no more, is the word of ones. *)
Lemma all_ones k : 0 ≤ k < 65536 → (∀ i, 0 ≤ i < 16 → Z.testbit k i = true) → k = 65535.
Proof.
  intros Hk Hb. change 65535 with (Z.ones 16). apply Z.bits_inj'. intros m Hm. destruct (Z.ltb_spec m 16).
  - rewrite Hb, Z.ones_spec_low by lia. done.
  - rewrite Z.ones_spec_high by lia. destruct (Z.eq_dec k 0) as [->|]; [apply Z.bits_0|]. apply Z.bits_above_log2; [lia|].
    apply (Z.lt_le_trans _ 16); [|lia]. apply Z.log2_lt_pow2; lia.
Qed.

Lemma ones_bits k i : k = 65535 → 0 ≤ i < 16 → Z.testbit k i = true.
Proof. intros -> Hi. change 65535 with (Z.ones 16). apply Z.ones_spec_low. lia. Qed.

Lemma conv2_ones n w : 0 ≤ w < 65536 → conv2 n w = 65535 ↔ w = 65535.
Proof.
  intros Hw. assert (conv2 n 65535 = 65535) as H1 by (unfold conv2; by destruct (n =? 0)). split; [|by intros ->].
  intros E. by rewrite <- (conv2_conv2 n w), E, H1.
Qed.

(** ** Words of a list of bytes *)

Definition bytes (l : list Z) : Prop := Forall (λ x, 0 ≤ x < 256) l.

Lemma word16_get l off : bytes l → 0 ≤ off → off + 1 < zlen l → ∃ x, word16 l off = Some x ∧ 0 ≤ x < 65536.
Proof.
  intros Hl Ho Hn. unfold word16. destruct (zget_in l off) as [lo Hlo]; [lia|]. destruct (zget_in l (off + 1)) as [hi Hhi]; [lia|].
  rewrite Hlo, Hhi. eexists. split; [done|]. pose proof (Forall_zget _ _ _ _ Hl Hlo). pose proof (Forall_zget _ _ _ _ Hl Hhi). cbv beta in *. lia.
Qed.

Lemma put_word16_len off x l : zlen (put_word16 off x l) = zlen l.
Proof. unfold put_word16. by rewrite !zlen_upd. Qed.

Lemma put_word16_bytes off x l : bytes l → bytes (put_word16 off x l).
Proof. intros Hl. apply Forall_upd; [apply Forall_upd; [done|]|]; apply Z.mod_pos_bound; lia. Qed.

Lemma word16_put l w w' x :
  0 ≤ w → 2 * w + 1 < zlen l → 0 ≤ x < 65536 →
  word16 (put_word16 (2 * w) x l) (2 * w') = if w' =? w then Some x else word16 l (2 * w').
Proof.
  intros Hw Hl Hx. unfold put_word16, word16. rewrite !zget_upd by (rewrite ?zlen_upd; lia).
  destruct (Z.eqb_spec w' w) as [->|Hne].
  - destruct (Z.eqb_spec (2 * w + 1) (2 * w)); [lia|]. rewrite !Z.eqb_refl. f_equal. unfold u8.
    rewrite (Z.mod_small (x / 256)) by (split; [apply Z.div_pos; lia|apply Z.div_lt_upper_bound; lia]).
    pose proof (Z.div_mod x 256). lia.
  - destruct (Z.eqb_spec (2 * w + 1) (2 * w')), (Z.eqb_spec (2 * w) (2 * w')), (Z.eqb_spec (2 * w + 1) (2 * w' + 1)),
      (Z.eqb_spec (2 * w) (2 * w' + 1)); try lia. done.
Qed.

Lemma zget_take {A} (l : list A) n i : i < n → zget (take (Z.to_nat n) l) i = zget l i.
Proof. intros Hi. unfold zget. destruct (Z.leb_spec 0 i); [|done]. apply lookup_take_lt. lia. Qed.

Lemma word16_take l n off : off + 1 < n → word16 (take (Z.to_nat n) l) off = word16 l off.
Proof. intros Hn. unfold word16. by rewrite !zget_take by lia. Qed.

Lemma upd_take {A} (l : list A) n i x : 0 ≤ i < n → take (Z.to_nat n) (upd l i x) = upd (take (Z.to_nat n) l) i x.
Proof. intros Hi. unfold upd. by rewrite take_insert_lt by lia. Qed.

Lemma put_word16_take l n off x : 0 ≤ off → off + 1 < n → take (Z.to_nat n) (put_word16 off x l) = put_word16 off x (take (Z.to_nat n) l).
Proof. intros Ho Hn. unfold put_word16. by rewrite !upd_take by lia. Qed.

(** ** A block of a bit map *)

(** Bit [n] of the block [l], and the block with bit [n] changed. *)
Definition bit_of (native : Z) (l : list Z) (n : Z) : bool :=
  Z.testbit (conv2 native (default 0 (word16 l (2 * (n / 16))))) (n mod 16).

Definition change_bit (native n : Z) (v : bool) (l : list Z) : list Z :=
  let k := conv2 native (default 0 (word16 l (2 * (n / 16)))) in
  put_word16 (2 * (n / 16)) (conv2 native (if v then Z.lor k (Z.shiftl 1 (n mod 16)) else Z.land k (Z.lnot (Z.shiftl 1 (n mod 16))))) l.

Lemma below_pow2 n x : 0 ≤ n → 0 ≤ x → (∀ m, n ≤ m → Z.testbit x m = false) → x < 2 ^ n.
Proof.
  intros Hn Hx Hb. destruct (Z.eq_dec x 0) as [->|Hne]; [apply Z.pow_pos_nonneg; lia|].
  apply Z.log2_lt_pow2; [lia|]. apply Z.nle_gt. intros Hl. pose proof (Hb _ Hl) as E. by rewrite Z.bit_log2 in E by lia.
Qed.

Lemma high_bits k m : 0 ≤ k < 65536 → 16 ≤ m → Z.testbit k m = false.
Proof.
  intros Hk Hm. destruct (Z.eq_dec k 0) as [->|]; [apply Z.bits_0|]. apply Z.bits_above_log2; [lia|].
  apply (Z.lt_le_trans _ 16); [|lia]. apply Z.log2_lt_pow2; lia.
Qed.

Lemma set_range k i : 0 ≤ k < 65536 → 0 ≤ i < 16 → 0 ≤ Z.lor k (Z.shiftl 1 i) < 65536.
Proof.
  intros Hk Hi. assert (0 ≤ Z.lor k (Z.shiftl 1 i)) by (apply Z.lor_nonneg; split; [lia|]; rewrite Z.shiftl_1_l; apply Z.pow_nonneg; lia).
  split; [done|]. apply (below_pow2 16); [lia|done|]. intros m Hm. rewrite testbit_set, high_bits by (done || lia).
  by destruct (Z.eqb_spec m i); [lia|].
Qed.

Lemma clear_range k i : 0 ≤ k < 65536 → 0 ≤ i < 16 → 0 ≤ Z.land k (Z.lnot (Z.shiftl 1 i)) < 65536.
Proof.
  intros Hk Hi. assert (0 ≤ Z.land k (Z.lnot (Z.shiftl 1 i))) by (apply Z.land_nonneg; lia).
  split; [done|]. apply (below_pow2 16); [lia|done|]. intros m Hm. rewrite testbit_clear, high_bits, andb_false_r by (done || lia). done.
Qed.

(** A word with a bit changed. *)
Definition changed_word (k i : Z) (v : bool) : Z := if v then Z.lor k (Z.shiftl 1 i) else Z.land k (Z.lnot (Z.shiftl 1 i)).

Lemma changed_range k i v : 0 ≤ k < 65536 → 0 ≤ i < 16 → 0 ≤ changed_word k i v < 65536.
Proof. intros Hk Hi. destruct v; [by apply set_range|by apply clear_range]. Qed.

Lemma changed_bit k i v m : 0 ≤ i → 0 ≤ m → Z.testbit (changed_word k i v) m = if m =? i then v else Z.testbit k m.
Proof.
  intros Hi Hm. destruct v; cbn [changed_word]; [rewrite testbit_set by done|rewrite testbit_clear by done]; by destruct (m =? i).
Qed.

(** The word of bit [n] of a block. *)
Lemma bit_word native l n :
  bytes l → 0 ≤ n → n / 16 * 2 + 1 < zlen l →
  ∃ x, word16 l (2 * (n / 16)) = Some x ∧ 0 ≤ x < 65536 ∧ 0 ≤ conv2 native x < 65536 ∧ bit_of native l n = Z.testbit (conv2 native x) (n mod 16).
Proof.
  intros Hl Hn Hlen. assert (0 ≤ n / 16) by (apply Z.div_pos; lia). destruct (word16_get l (2 * (n / 16)) Hl) as (x & Hx & Hr); [lia|lia|].
  exists x. split; [done|]. split; [done|]. split; [by apply conv2_range|]. unfold bit_of. by rewrite Hx.
Qed.

Lemma bit_of_change native l n m v :
  bytes l → 0 ≤ n → n / 16 * 2 + 1 < zlen l → 0 ≤ m →
  bit_of native (change_bit native n v l) m = if m =? n then v else bit_of native l m.
Proof.
  intros Hl Hn Hlen Hm. destruct (bit_word native l n Hl Hn Hlen) as (x & Hx & Hr & Hc & _).
  assert (0 ≤ n / 16) by (apply Z.div_pos; lia). pose proof (Z.mod_pos_bound n 16 ltac:(lia)) as Hi.
  unfold change_bit, bit_of. rewrite Hx. cbn [default from_option id]. fold (changed_word (conv2 native x) (n mod 16) v).
  pose proof (changed_range (conv2 native x) (n mod 16) v Hc Hi) as Hch.
  rewrite word16_put; [|done|lia|by apply conv2_range]. pose proof (Z.div_mod n 16 ltac:(lia)). pose proof (Z.div_mod m 16 ltac:(lia)).
  pose proof (Z.mod_pos_bound m 16 ltac:(lia)). destruct (Z.eqb_spec (m / 16) (n / 16)) as [E|E].
  - cbn [default from_option id]. rewrite conv2_conv2 by done. rewrite changed_bit by lia. rewrite E, Hx. cbn [default from_option id].
    destruct (Z.eqb_spec (m mod 16) (n mod 16)), (Z.eqb_spec m n); try lia; done.
  - destruct (Z.eqb_spec m n) as [->|]; [done|]. done.
Qed.

Lemma change_bit_len native n v l : zlen (change_bit native n v l) = zlen l.
Proof. apply put_word16_len. Qed.

Lemma change_bit_bytes native n v l : bytes l → bytes (change_bit native n v l).
Proof. apply put_word16_bytes. Qed.

Lemma bit_of_take native l size n : n / 16 * 2 + 1 < size → bit_of native (take (Z.to_nat size) l) n = bit_of native l n.
Proof. intros Hn. unfold bit_of. by rewrite word16_take by lia. Qed.

Lemma change_bit_take native l size n v :
  0 ≤ n → n / 16 * 2 + 1 < size → take (Z.to_nat size) (change_bit native n v l) = change_bit native n v (take (Z.to_nat size) l).
Proof.
  intros Hn Hs. assert (0 ≤ n / 16) by (apply Z.div_pos; lia). unfold change_bit. rewrite put_word16_take by lia. by rewrite word16_take by lia.
Qed.

(** ** Searching a block *)

Section search.
Context `{BD : BlockDev}.
Implicit Types (s : fsst) (b : buf).

Lemma clear_loop k r s fuel : ∀ i,
  0 ≤ i ≤ r → r - i < Z.of_nat fuel → Z.testbit k r = false → (∀ j, i ≤ j < r → Z.testbit k j = true) →
  loop fuel (λ i, mret (if negb (Z.land k (Z.shiftl 1 i) =? 0) then inl (i + 1) else inr i)) i s = Ret r s.
Proof.
  induction fuel as [|fuel IH]; intros i Hi Hf Hr Hj; [lia|]. rewrite loop_S, bind_mret, testbit_mask, negb_involutive by lia.
  destruct (Z.eq_dec i r) as [->|Hne]; [by rewrite Hr|]. rewrite Hj by lia. apply IH; [lia|lia|done|]. intros j Hj'. apply Hj. lia.
Qed.

Lemma first_clear_run k s :
  0 ≤ k < 65536 → k ≠ 65535 →
  ∃ i, first_clear k s = Ret i s ∧ 0 ≤ i < 16 ∧ Z.testbit k i = false ∧ ∀ j, 0 ≤ j < i → Z.testbit k j = true.
Proof.
  intros Hk Hne. destruct (search_range (λ i, negb (Z.testbit k i)) 0 16 (-1)) as [(Hr & Hp & Hj)|[_ Hall]].
  - exists (search (λ i, negb (Z.testbit k i)) (range 0 16) (-1)). set (r := search _ _ _) in *. cbv beta in *.
    assert (∀ j, 0 ≤ j < r → Z.testbit k j = true) as Hj' by (intros j Hjr; specialize (Hj j Hjr); by apply negb_false_iff).
    apply negb_true_iff in Hp. split; [|split; [lia|done]]. apply clear_loop; try done; [lia|]. unfold FS_BITCHUNK_BITS. lia.
  - destruct Hne. apply all_ones; [done|]. intros i Hi. apply negb_false_iff. apply (Hall i). lia.
Qed.

(** What happens when bit [n] of the block is taken. *)
Definition take_bit (native bp n b : Z) (l : list Z) : M fsst (option Z) :=
  overwrite bp (change_bit native n true l);;
  put_block (Some bp) MAP_BLOCK;;
  mret (Some b).

Lemma wr_chunk_dirty s bp b w x :
  zget (bufs s) bp = Some b → (wr_chunk bp w x;; upd_buf bp (set_dirt DIRTY)) s = overwrite bp (put_word16 (2 * w) x (b_data b)) s.
Proof. intros Hb. unfold wr_chunk, overwrite. rewrite (upd_buf_twice s bp b _ _ Hb). by rewrite (upd_buf_run s bp b _ Hb). Qed.

Lemma bit_taken sp bp b x w i n (g : Z → M fsst (option Z)) s :
  zget (bufs s) bp = Some b → word16 (b_data b) (2 * w) = Some x → 0 ≤ x < 65536 → 0 ≤ i < 16 →
  ((wr_chunk bp w (conv2 (s_native sp) (u16 (Z.lor (conv2 (s_native sp) x) (Z.shiftl 1 i))));;
    upd_buf bp (set_dirt DIRTY);; put_block (Some bp) MAP_BLOCK;; mret (inr (Some n)))
   ≫= λ r, match r with inl a => g a | inr b => mret b end) s =
  take_bit (s_native sp) bp (w * 16 + i) n (b_data b) s.
Proof.
  intros Hb Hx Hxr Hi. unfold take_bit, change_bit. rewrite (Z.add_comm (w * 16) i), Z.div_add, Z.mod_add by lia.
  rewrite (Z.div_small i), (Z.mod_small i), Z.add_0_l, Hx by lia. cbn [default from_option id].
  unfold u16. rewrite (Z.mod_small (Z.lor _ _)) by (apply set_range; [by apply conv2_range|done]).
  set (y := conv2 _ (Z.lor _ _)). pose proof (wr_chunk_dirty s bp b w y Hb) as Ew. unfold overwrite in Ew |- *.
  rewrite (upd_buf_run s bp b _ Hb) in Ew. unfold mbind, M_bind in Ew |- *.
  rewrite (upd_buf_run s bp b _ Hb). destruct (wr_chunk bp w y s); try done. rewrite Ew. by destruct (put_block _ _ _).
Qed.

Lemma word_loop sp map bp b block s fuel : ∀ w,
  let size := s_block_size sp in
  let bits := FS_BITS_PER_BLOCK size in
  zget (bufs s) bp = Some b → bytes (take (Z.to_nat size) (b_data b)) → 0 ≤ size ≤ zlen (b_data b) → 0 ≤ block → (block + 1) * bits ≤ 2 ^ 32 →
  0 ≤ w ≤ FS_BITMAP_CHUNKS size → FS_BITMAP_CHUNKS size - w < Z.of_nat fuel →
  (∃ n, w * 16 ≤ n < bits ∧ bit_of (s_native sp) (b_data b) n = false ∧ block * bits + n < map_bits sp map ∧
     (∀ m, w * 16 ≤ m < n → bit_of (s_native sp) (b_data b) m = true) ∧
     loop fuel (word_step sp map bp block) w s = take_bit (s_native sp) bp n (block * bits + n) (b_data b) s) ∨
  ((∀ m, w * 16 ≤ m < bits → block * bits + m < map_bits sp map → bit_of (s_native sp) (b_data b) m = true) ∧
   loop fuel (word_step sp map bp block) w s = Ret None s).
Proof.
  induction fuel as [|fuel IH]; intros w size bits Hb Hby Hsz Hblk Hov Hw Hf; [lia|].
  assert (bits = FS_BITMAP_CHUNKS size * 16) as Hbits by done.
  remember (loop (S fuel) (word_step sp map bp block) w s) as res eqn:Er. rewrite loop_S in Er. unfold word_step at 2 in Er.
  fold size in Er. fold bits in Er. destruct (Z.leb_spec (FS_BITMAP_CHUNKS size) w) as [Hend|Hlt].
  { right. split; [intros m Hm; lia|by rewrite Er]. }
  assert (2 * FS_BITMAP_CHUNKS size ≤ size) as Hch by (unfold FS_BITMAP_CHUNKS; pose proof (Z.div_mod size 2 ltac:(lia)); pose proof (Z.mod_pos_bound size 2 ltac:(lia)); lia).
  destruct (word16_get (take (Z.to_nat size) (b_data b)) (2 * w) Hby) as (x & Hx & Hxr); [lia|unfold zlen in *; rewrite length_take; lia|].
  rewrite word16_take in Hx by lia. assert (rd_chunk bp w s = Ret x s) as Erd by (unfold rd_chunk; step (rd_buf_run s bp b Hb); by apply lift_opt_some).
  assert (∀ i, 0 ≤ i < 16 → bit_of (s_native sp) (b_data b) (w * 16 + i) = Z.testbit (conv2 (s_native sp) x) i) as Hbit.
  { intros i Hi. unfold bit_of. rewrite Z.add_comm, Z.div_add, Z.mod_add by lia. rewrite Z.div_small, Z.mod_small by lia.
    rewrite Z.add_0_l. by rewrite Hx. }
  rewrite bind_assoc, (bind_ret _ _ _ _ _ Erd) in Er. destruct (Z.eqb_spec x 65535) as [Ex|Ex].
  - rewrite bind_mret in Er. assert (∀ m, w * 16 ≤ m < (w + 1) * 16 → bit_of (s_native sp) (b_data b) m = true) as Hones.
    { intros m Hm. replace m with (w * 16 + (m - w * 16)) by lia. rewrite Hbit by lia. apply ones_bits; [|lia]. by apply conv2_ones. }
    specialize (IH (w + 1) Hb Hby Hsz Hblk Hov). fold size bits in IH.
    destruct IH as [(n & Hn & Hf0 & Hmb & Hm & E)|[Hm E]]; [lia|lia|left|right].
    + exists n. split; [lia|]. split; [done|]. split; [done|]. split; [|by rewrite Er].
      intros m Hmn. destruct (Z.ltb_spec m ((w + 1) * 16)); [apply Hones; lia|apply Hm; lia].
    + split; [|by rewrite Er]. intros m Hmn Hmb. destruct (Z.ltb_spec m ((w + 1) * 16)); [apply Hones; lia|apply Hm; [lia|done]].
  - cbv zeta in Er. destruct (first_clear_run (conv2 (s_native sp) x) s) as (i & Ei & Hi & Hci & Hj).
    { by apply conv2_range. } { by rewrite conv2_ones. }
    rewrite bind_assoc, (bind_ret _ _ _ _ _ Ei) in Er. unfold FS_BITCHUNK_BITS in Er. rewrite <- Z.add_assoc in Er. unfold u32 in Er.
    rewrite (Z.mod_small (block * bits + (w * 16 + i))) in Er by nia.
    destruct (Z.leb_spec (map_bits sp map) (block * bits + (w * 16 + i))) as [Hbe|Hin]; [right|left].
    + split; [|by rewrite Er]. intros m Hm Hmb. replace m with (w * 16 + (m - w * 16)) by lia. rewrite Hbit by lia. apply Hj. lia.
    + exists (w * 16 + i). split; [lia|]. split; [by rewrite Hbit|]. split; [done|]. split.
      * intros m Hm. replace m with (w * 16 + (m - w * 16)) by lia. rewrite Hbit by lia. apply Hj. lia.
      * rewrite Er. by apply (bit_taken sp bp b x w i _ (loop fuel (word_step sp map bp block)) s).
Qed.
End search.
