(* ===== verification/Zones.v ===== *)
(** * Bit maps and zones of the file server

    The bit maps on the devices, zones, and the hint where to look for a free one. *)

From S2P Require Import Prelude Linked Cache CacheLists CacheSpec CacheRep CacheStore Super SuperSpec.

(** ** Bit maps on the devices *)

Section maps.
Context `{RD : Reliable} {ho : holder}.
Implicit Types (s : fsst) (b : buf) (sp : super_block).

(** *** The bits of a map *)

Definition bits_per (sp : super_block) : Z := FS_BITS_PER_BLOCK (s_block_size sp).

(** The block of a bit, and the bit. *)
Definition bit_block (sp : super_block) (map n : Z) : Z := map_start sp map + n / bits_per sp.
Definition mbit (sp : super_block) (map : Z) (s : fsst) (n : Z) : bool :=
  bit_of (s_native sp) (contents s (s_dev sp) (bit_block sp map n)) (n mod bits_per sp).

(** A map that is on its device. *)
Record mapped (sp : super_block) (map : Z) (s : fsst) : Prop := Mapped {
  mp_dev : s_dev sp ≠ NO_DEV;
  mp_size : size_of s (s_dev sp) = s_block_size sp;
  mp_even : s_block_size sp mod 512 = 0;
  mp_start : 0 ≤ map_start sp map;
  mp_blocks : 1 ≤ map_blocks sp map;
  mp_bound : map_blocks sp map * bits_per sp ≤ 2 ^ 32;
  mp_disk k : 0 ≤ k < map_blocks sp map → on_disk s (s_dev sp) (map_start sp map + k) ∧
    bytes (contents s (s_dev sp) (map_start sp map + k));
  mp_bits : map_bits sp map ≤ map_blocks sp map * bits_per sp }.

(** One bit of the map is another, and nothing else. *)
Definition bit_set (sp : super_block) (map n : Z) (v : bool) (s s' : fsst) : Prop :=
  ∀ dev' n', dev' ≠ NO_DEV → contents s' dev' n' =
    put_store (s_dev sp) (bit_block sp map n)
      (change_bit (s_native sp) (n mod bits_per sp) v (contents s (s_dev sp) (bit_block sp map n))) (contents s) dev' n'.

Section one.
Context (sp : super_block) (map : Z).
Notation bits := (bits_per sp).
Notation native := (s_native sp).
Notation dev := (s_dev sp).

(** *** One block *)

Lemma size_facts s : resting ho s → mapped sp map s →
  MIN_BLOCK_SIZE ≤ s_block_size sp ≤ MAX_BLOCK_SIZE ∧ bits = s_block_size sp * 8 ∧ FS_BITMAP_CHUNKS (s_block_size sp) * 2 = s_block_size sp.
Proof.
  intros Hi Hm. destruct (id_cached _ _ Hi) as (L & H & Hc). pose proof (size_range _ _ _ s dev Hc (mp_dev _ _ _ Hm)) as Hs.
  rewrite (mp_size _ _ _ Hm) in Hs. split; [done|]. pose proof (mp_even _ _ _ Hm) as He. unfold bits_per, FS_BITS_PER_BLOCK, FS_BITCHUNK_BITS, FS_BITMAP_CHUNKS.
  assert (s_block_size sp = 2 * (s_block_size sp / 2)); [|lia]. apply Z.div_exact; [lia|].
  pose proof (Z.div_mod (s_block_size sp) 512 ltac:(lia)) as E. rewrite He, Z.add_0_r in E. rewrite E.
  replace (512 * (s_block_size sp / 512)) with (256 * (s_block_size sp / 512) * 2) by lia. apply Z.mod_mul. lia.
Qed.

(** The block that is searched, in its buffer. *)
Lemma map_block_read s block :
  resting ho s → mapped sp map s → 0 ≤ block < map_blocks sp map →
  ∃ i s1 b, get_block dev (u32 (map_start sp map + block)) NORMAL s = Ret i s1 ∧ gotten i dev (map_start sp map + block) s s1 ∧
    zget (bufs s1) i = Some b ∧ zlen (b_data b) = MAX_BLOCK_SIZE ∧ take (Z.to_nat (s_block_size sp)) (b_data b) = contents s dev (map_start sp map + block).
Proof.
  intros Hi Hm Hb. destruct (id_cached _ _ Hi) as (L & H & Hc). pose proof (mp_dev _ _ _ Hm) as Hd. destruct (mp_disk _ _ _ Hm _ Hb) as [Ho _].
  pose proof (on_disk_small _ _ _ (proj1 (size_range _ _ _ s dev Hc Hd)) Ho) as Hsm. unfold u32. rewrite Z.mod_small by lia.
  destruct (get_block_reads L H s dev _ Hc (id_coherent _ _ Hi) Hd Ho (λ _, idle_free _ _ _ Hi Hc) (idle_counts s Hi)) as (i & s1 & E & G).
  pose proof G as [(L1 & H1 & Hc1) _ _ (b & Hbb & (Ed & _) & Hdat) _ _ Hs1 _]. exists i, s1, b. split_and!; try done.
  - by apply (ca_data _ _ _ _ Hc1 i b).
  - rewrite <- Hdat. unfold block_data. by rewrite Ed, (size_same _ _ _ Hs1), (mp_size _ _ _ Hm).
Qed.

(** Position of a bit in its block. *)
Lemma bit_place block n : 0 ≤ block → 0 ≤ n < bits → (block * bits + n) / bits = block ∧ (block * bits + n) mod bits = n.
Proof.
  intros Hb Hn. rewrite Z.add_comm, Z.div_add, Z.mod_add by lia. rewrite Z.div_small, Z.mod_small by lia. done.
Qed.

(** A bit of the block is changed in its buffer, and the block is returned. *)
Lemma bit_written s i s1 b block n v :
  resting ho s → mapped sp map s → 0 ≤ block < map_blocks sp map → 0 ≤ n < bits → gotten i dev (map_start sp map + block) s s1 →
  zget (bufs s1) i = Some b → zlen (b_data b) = MAX_BLOCK_SIZE → take (Z.to_nat (s_block_size sp)) (b_data b) = contents s dev (map_start sp map + block) →
  ∃ s', (overwrite i (change_bit native n v (b_data b));; put_block (Some i) MAP_BLOCK) s1 = Ret tt s' ∧ resting ho s' ∧
    bit_set sp map (block * bits + n) v s s' ∧ supers s' = supers s ∧ rdwt_err s' = rdwt_err s.
Proof.
  intros Hi Hm Hb Hn G Hbb Hlen Hdat. destruct (size_facts s Hi Hm) as (Hs & Hbits & _).
  destruct (written s s1 i b dev (map_start sp map + block) (change_bit native n v (b_data b)) MAP_BLOCK Hi (gotten_claimed _ _ _ _ _ G) (mp_dev _ _ _ Hm) Hbb)
    as (s' & E & Hi' & Hcon & Hs' & He').
  { by rewrite change_bit_len. }
  exists s'. split_and!; try done. intros dev' n' Hd'. rewrite Hcon by done. rewrite (mp_size _ _ _ Hm). unfold bit_block.
  destruct (bit_place block n (proj1 Hb) Hn) as [-> ->]. rewrite change_bit_take; [by rewrite Hdat|lia|].
  assert (n / 16 * 16 ≤ n) by (pose proof (Z.div_mod n 16 ltac:(lia)); pose proof (Z.mod_pos_bound n 16 ltac:(lia)); lia).
  assert (n / 16 < s_block_size sp / 2); [|pose proof (Z.div_mod (s_block_size sp) 2 ltac:(lia)); pose proof (Z.mod_pos_bound (s_block_size sp) 2 ltac:(lia)); lia].
  apply Z.div_lt_upper_bound; [lia|]. pose proof (Z.div_mod (s_block_size sp) 2 ltac:(lia)). unfold FS_BITMAP_CHUNKS in *.
  destruct (size_facts s Hi Hm) as (_ & _ & He). unfold FS_BITMAP_CHUNKS in He. lia.
Qed.

Definition next_block (block : Z) : Z := if map_blocks sp map <=? block + 1 then 0 else block + 1.

Lemma block_step_run s block w c :
  resting ho s → mapped sp map s → 0 ≤ block < map_blocks sp map → 0 ≤ w ≤ FS_BITMAP_CHUNKS (s_block_size sp) → 1 ≤ c < 2 ^ 32 →
  (∃ n s', w * 16 ≤ n < bits ∧ mbit sp map s (block * bits + n) = false ∧ block * bits + n < map_bits sp map ∧
     (∀ m, w * 16 ≤ m < n → mbit sp map s (block * bits + m) = true) ∧
     block_step sp map (block, w, c) s = Ret (inr (block * bits + n)) s' ∧ resting ho s' ∧
     bit_set sp map (block * bits + n) true s s' ∧ supers s' = supers s ∧ rdwt_err s' = rdwt_err s) ∨
  ((∀ m, w * 16 ≤ m < bits → block * bits + m < map_bits sp map → mbit sp map s (block * bits + m) = true) ∧
   ∃ s', block_step sp map (block, w, c) s = Ret (if 0 <? c - 1 then inl (next_block block, 0, c - 1) else inr NO_BIT) s' ∧
     resting ho s' ∧ transparent s s' ∧ supers s' = supers s ∧ rdwt_err s' = rdwt_err s).
Proof.
  intros Hi Hm Hb Hw Hcr. destruct (size_facts s Hi Hm) as (Hs & Hbits & Hch).
  destruct (map_block_read s block Hi Hm Hb) as (i & s1 & b & E & G & Hbb & Hlen & Hdat).
  assert (∀ n, 0 ≤ n < bits → mbit sp map s (block * bits + n) = bit_of native (b_data b) n) as Hbit.
  { intros n Hn. unfold mbit, bit_block. destruct (bit_place block n (proj1 Hb) Hn) as [-> ->]. rewrite <- Hdat. apply bit_of_take.
    assert (n / 16 * 16 ≤ n) by (pose proof (Z.div_mod n 16 ltac:(lia)); pose proof (Z.mod_pos_bound n 16 ltac:(lia)); lia).
    assert (n / 16 < FS_BITMAP_CHUNKS (s_block_size sp)) by (apply Z.div_lt_upper_bound; lia). lia. }
  pose proof (mp_bound _ _ _ Hm) as Hbd. pose proof (mp_blocks _ _ _ Hm) as Hbl. unfold MIN_BLOCK_SIZE in Hs.
  destruct (word_loop sp map i b block s1 (S (Z.to_nat (FS_BITMAP_CHUNKS (s_block_size sp)))) w) as
    [(n & Hn & Hf & Hmb & Hmin & El)|[Hnone El]]; try done.
  { rewrite Hdat. by apply (mp_disk _ _ _ Hm). } { lia. } { lia. } { fold bits. nia. } { lia. }
  - left. fold bits in Hn, Hmb, El. destruct (bit_written s i s1 b block n true Hi Hm Hb ltac:(lia) G Hbb Hlen Hdat) as (s' & E' & Hi' & Hset & Hs' & He').
    exists n, s'. split; [done|]. split; [by rewrite Hbit by lia|]. split; [done|]. split; [intros m Hmn; rewrite Hbit by lia; by apply Hmin|].
    split; [|done]. unfold block_step. step E. unfold take_bit in El. rewrite (bind_seq _ _ _ _ _ _ E') in El. by step El.
  - right. fold bits in Hnone. split; [intros m Hmr Hmb; rewrite Hbit by lia; by apply Hnone|].
    destruct G as [(L1 & H1 & Hc1) Hco1 T1 _ Hcn Hho Hs1 He1].
    destruct (put_idle L1 H1 s s1 i b MAP_BLOCK Hi Hc1 Hco1 Hcn (holds_holding _ _ Hi Hho) Hbb) as (s' & E' & Hi' & T' & Hs' & He').
    exists s'. split; [|split_and!; try congruence; try done; intros dev' n' Hd'; by rewrite T', T1].
    unfold block_step. step E. step El. step E'. cbv zeta. unfold u32. rewrite (Z.mod_small (block + 1)), (Z.mod_small (c - 1)) by nia.
    fold (next_block block). by destruct (0 <? c - 1).
Qed.

(** *** All blocks *)

Lemma mapped_same s s' : transparent s s' → supers s' = supers s → mapped sp map s → mapped sp map s'.
Proof.
  intros T Hs Hm. pose proof (mp_dev _ _ _ Hm) as Hd. destruct Hm as [? Hz ? ? ? ? Hk ?]. split; try done; [by rewrite (size_same _ _ _ Hs)|].
  intros k Hkr. destruct (Hk k Hkr) as [Ho Hb]. rewrite T by done. unfold on_disk. by rewrite (size_same _ _ _ Hs).
Qed.

Lemma mbit_same s s' n : transparent s s' → dev ≠ NO_DEV → mbit sp map s' n = mbit sp map s n.
Proof. intros T Hd. unfold mbit. by rewrite T. Qed.

(** The bits in the order in which [n] blocks are searched. *)
Fixpoint visit (n : nat) (block w : Z) : list Z :=
  match n with O => [] | S n' => range (block * bits + w * 16) (Z.to_nat (bits - w * 16)) ++ visit n' (next_block block) 0 end.

Definition free_bits (s : fsst) (n : Z) : bool := (n <? map_bits sp map) && negb (mbit sp map s n).

Lemma find_app {A} (p : A → bool) l k : List.find p (l ++ k) = match List.find p l with Some x => Some x | None => List.find p k end.
Proof. induction l as [|x l IH]; [done|]. cbn. by destruct (p x). Qed.

Lemma find_range_none p lo n : (∀ m, lo ≤ m < lo + Z.of_nat n → p m = false) → List.find p (range lo n) = None.
Proof.
  revert lo. induction n as [|n IH]; intros lo Hp; [done|]. rewrite range_S. cbn. rewrite Hp by lia. apply IH. intros m Hm. apply Hp. lia.
Qed.

Lemma find_range_first p lo n x :
  lo ≤ x < lo + Z.of_nat n → p x = true → (∀ m, lo ≤ m < x → p m = false) → List.find p (range lo n) = Some x.
Proof.
  revert lo. induction n as [|n IH]; intros lo Hx Hp Hm; [lia|]. rewrite range_S. cbn. destruct (Z.eq_dec lo x) as [->|Hne]; [by rewrite Hp|].
  rewrite Hm by lia. apply IH; [lia|done|]. intros m Hmr. apply Hm. lia.
Qed.

Lemma find_ext (p q : Z → bool) l : (∀ x, p x = q x) → List.find p l = List.find q l.
Proof. intros Hpq. induction l as [|x l IH]; [done|]. cbn. by rewrite Hpq, IH. Qed.

Lemma block_loop fuel : ∀ n block w s,
  resting ho s → mapped sp map s → 0 ≤ block < map_blocks sp map → 0 ≤ w ≤ FS_BITMAP_CHUNKS (s_block_size sp) → (n < fuel)%nat → Z.of_nat (S n) < 2 ^ 32 →
  match List.find (free_bits s) (visit (S n) block w) with
  | Some x => ∃ s', loop fuel (block_step sp map) (block, w, Z.of_nat (S n)) s = Ret x s' ∧ resting ho s' ∧ bit_set sp map x true s s' ∧
      supers s' = supers s ∧ rdwt_err s' = rdwt_err s
  | None => ∃ s', loop fuel (block_step sp map) (block, w, Z.of_nat (S n)) s = Ret NO_BIT s' ∧ resting ho s' ∧ transparent s s' ∧
      supers s' = supers s ∧ rdwt_err s' = rdwt_err s
  end.
Proof.
  induction fuel as [|fuel IH]; intros n block w s Hi Hm Hb Hw Hf Hc; [lia|]. destruct (size_facts s Hi Hm) as (Hs & Hbits & Hch).
  cbn [visit]. rewrite find_app, loop_S.
  destruct (block_step_run s block w (Z.of_nat (S n)) Hi Hm Hb Hw ltac:(lia)) as
    [(x & s' & Hx & Hfree & Hmb & Hmin & E & Hi' & Hset & Hs' & He')|(Hnone & s1 & E & Hi1 & T1 & Hs1 & He1)].
  - rewrite (find_range_first _ _ _ (block * bits + x)).
    + exists s'. by step E.
    + lia.
    + unfold free_bits. rewrite Hfree. by destruct (Z.ltb_spec (block * bits + x) (map_bits sp map)); [|lia].
    + intros m Hmr. unfold free_bits. replace m with (block * bits + (m - block * bits)) by lia. rewrite Hmin by lia. apply andb_false_r.
  - rewrite find_range_none.
    2: { intros m Hmr. unfold free_bits. destruct (Z.ltb_spec m (map_bits sp map)); [|done].
         replace m with (block * bits + (m - block * bits)) by lia. rewrite Hnone by lia. done. }
    pose proof (mp_dev _ _ _ Hm) as Hd. step E. destruct n as [|n].
    + exists s1. done.
    + destruct (Z.ltb_spec 0 (Z.of_nat (S (S n)) - 1)); [|lia]. replace (Z.of_nat (S (S n)) - 1) with (Z.of_nat (S n)) by lia.
      assert (0 ≤ next_block block < map_blocks sp map) as Hnb.
      { unfold next_block. destruct (Z.leb_spec (map_blocks sp map) (block + 1)); lia. }
      specialize (IH n (next_block block) 0 s1 Hi1 (mapped_same s s1 T1 Hs1 Hm) Hnb ltac:(lia) ltac:(lia) ltac:(lia)).
      rewrite (find_ext (free_bits s1) (free_bits s)) in IH by (intros x; unfold free_bits; by rewrite (mbit_same s s1)).
      destruct (List.find (free_bits s) (visit (S n) (next_block block) 0)) as [x|].
      * destruct IH as (s' & E' & Hi' & Hset & Hs' & He'). exists s'. split_and!; try congruence; try done.
        intros dev' n' Hd'. rewrite Hset by done. unfold put_store. rewrite (T1 dev) by done. by rewrite (T1 dev').
      * destruct IH as (s' & E' & Hi' & T' & Hs' & He'). exists s'. split_and!; try congruence; try done. intros dev' n' Hd'. by rewrite T', T1.
Qed.

Lemma range_add lo n m : range lo (n + m) = range lo n ++ range (lo + Z.of_nat n) m.
Proof.
  revert lo. induction n as [|n IH]; intros lo; [by rewrite Z.add_0_r|]. rewrite Nat.add_succ_l, !range_S, IH. cbn. do 3 f_equal. lia.
Qed.

(** The search goes up to the end of the map, and round to where it started. *)
Lemma visit_up n : ∀ block, 0 ≤ bits → 0 ≤ block → block + Z.of_nat n ≤ map_blocks sp map → visit n block 0 = range (block * bits) (Z.to_nat (Z.of_nat n * bits)).
Proof.
  induction n as [|n IH]; intros block H0 Hb Hn; [done|]. cbn [visit]. rewrite !Z.mul_0_l, Z.add_0_r, Z.sub_0_r.
  destruct n as [|n]; [cbn [visit]; rewrite app_nil_r; f_equal; lia|].
  assert (next_block block = block + 1) as -> by (unfold next_block; destruct (Z.leb_spec (map_blocks sp map) (block + 1)); lia).
  rewrite IH by lia. replace (Z.to_nat (Z.of_nat (S (S n)) * bits)) with (Z.to_nat bits + Z.to_nat (Z.of_nat (S n) * bits))%nat by lia.
  rewrite range_add. do 2 f_equal. lia.
Qed.

Lemma visit_round n m : ∀ block w, 0 ≤ block → 0 ≤ w * 16 ≤ bits → block + Z.of_nat (S n) = map_blocks sp map → Z.of_nat m ≤ map_blocks sp map →
  visit (S n + m) block w = range (block * bits + w * 16) (Z.to_nat (map_blocks sp map * bits - (block * bits + w * 16))) ++ range 0 (Z.to_nat (Z.of_nat m * bits)).
Proof.
  induction n as [|n IH]; intros block w Hb Hw Hn Hm; rewrite Nat.add_succ_l; cbn [visit].
  - assert (next_block block = 0) as -> by (unfold next_block; destruct (Z.leb_spec (map_blocks sp map) (block + 1)); lia).
    rewrite Nat.add_0_l, visit_up by lia. do 2 f_equal. nia.
  - assert (next_block block = block + 1) as -> by (unfold next_block; destruct (Z.leb_spec (map_blocks sp map) (block + 1)); lia).
    rewrite (IH (block + 1) 0) by lia. rewrite app_assoc. f_equal.
    replace (Z.to_nat (map_blocks sp map * bits - (block * bits + w * 16))) with
      (Z.to_nat (bits - w * 16) + Z.to_nat (map_blocks sp map * bits - ((block + 1) * bits + 0 * 16)))%nat by nia.
    rewrite range_add. do 2 f_equal. lia.
Qed.

Lemma find_range_cases p lo n :
  (∃ x, List.find p (range lo n) = Some x ∧ lo ≤ x < lo + Z.of_nat n ∧ p x = true ∧ ∀ m, lo ≤ m < x → p m = false) ∨
  (List.find p (range lo n) = None ∧ ∀ m, lo ≤ m < lo + Z.of_nat n → p m = false).
Proof.
  revert lo. induction n as [|n IH]; intros lo; [right; split; [done|lia]|]. rewrite range_S. cbn. destruct (p lo) eqn:E.
  - left. exists lo. split; [done|]. split; [lia|]. split; [done|lia].
  - destruct (IH (lo + 1)) as [(x & Ef & Hx & Hp & Hm)|[Ef Hm]]; [left|right].
    + exists x. split; [done|]. split; [lia|]. split; [done|]. intros m Hmr. destruct (Z.eq_dec m lo) as [->|]; [done|apply Hm; lia].
    + split; [done|]. intros m Hmr. destruct (Z.eq_dec m lo) as [->|]; [done|apply Hm; lia].
Qed.

(** Where the search starts: at a word. *)
Definition search_start (origin : Z) : Z := (if map_bits sp map <=? origin then 0 else origin) / 16 * 16.

(** Bit [x] is taken: the first free bit from the start to the end of the map, or
    if there is none the first of all. *)
Definition first_free (s : fsst) (origin x : Z) : Prop :=
  0 ≤ x < map_bits sp map ∧ mbit sp map s x = false ∧
  ((search_start origin ≤ x ∧ ∀ m, search_start origin ≤ m < x → mbit sp map s m = true) ∨
   ((∀ m, search_start origin ≤ m < map_bits sp map → mbit sp map s m = true) ∧ ∀ m, 0 ≤ m < x → mbit sp map s m = true)).

Lemma free_bits_true s n : free_bits s n = true → n < map_bits sp map ∧ mbit sp map s n = false.
Proof. unfold free_bits. rewrite andb_true_iff, negb_true_iff, Z.ltb_lt. done. Qed.

Lemma free_bits_false s n : free_bits s n = false → n < map_bits sp map → mbit sp map s n = true.
Proof. unfold free_bits. intros E Hn. destruct (Z.ltb_spec n (map_bits sp map)); [|lia]. by apply negb_false_iff in E. Qed.

Lemma alloc_bit_run s spi origin :
  resting ho s → mapped sp map s → zget (supers s) spi = Some sp → s_rd_only sp = 0 → 0 ≤ origin →
  (∃ x s', alloc_bit spi map origin s = Ret x s' ∧ resting ho s' ∧ first_free s origin x ∧ bit_set sp map x true s s' ∧
     supers s' = supers s ∧ rdwt_err s' = rdwt_err s) ∨
  (∃ s', alloc_bit spi map origin s = Ret NO_BIT s' ∧ resting ho s' ∧ (∀ m, 0 ≤ m < map_bits sp map → mbit sp map s m = true) ∧ transparent s s' ∧
     supers s' = supers s ∧ rdwt_err s' = rdwt_err s).
Proof.
  intros Hi Hm Hsp Hro Hor. destruct (size_facts s Hi Hm) as (Hs & Hbits & Hch). unfold alloc_bit, rd_super. rewrite bind_assoc, bind_get.
  rewrite (bind_lift _ _ _ _ Hsp), Hro. change (negb (0 =? 0)) with false. cbv iota zeta. unfold first_free, search_start.
  set (o := if map_bits sp map <=? origin then 0 else origin).
  assert (0 ≤ map_bits sp map) as Hmb0 by (unfold map_bits; destruct (map =? IMAP); apply Z.mod_pos_bound; lia).
  assert (0 ≤ o ∧ o ≤ map_bits sp map ∧ (o < map_bits sp map ∨ o = 0)) as (Ho0 & Hom & Ho1).
  { unfold o. destruct (Z.leb_spec (map_bits sp map) origin); lia. }
  pose proof (mp_bits _ _ _ Hm) as Hle. pose proof (mp_blocks _ _ _ Hm) as Hbl. pose proof (mp_bound _ _ _ Hm) as Hbd. unfold MIN_BLOCK_SIZE in Hs.
  fold bits. set (blk := o / bits). set (w := o mod bits / FS_BITCHUNK_BITS).
  pose proof (Z.div_mod o bits ltac:(lia)) as Edm. fold blk in Edm. pose proof (Z.mod_pos_bound o bits ltac:(lia)) as Hmod.
  assert (0 ≤ blk < map_blocks sp map) as Hblk by (split; [apply Z.div_pos; lia|apply Z.div_lt_upper_bound; nia]).
  unfold FS_BITCHUNK_BITS in w. pose proof (Z.div_mod (o mod bits) 16 ltac:(lia)) as Ew. fold w in Ew. pose proof (Z.mod_pos_bound (o mod bits) 16 ltac:(lia)) as Hwm.
  assert (blk * bits + w * 16 = o / 16 * 16) as Ews.
  { assert (blk * FS_BITMAP_CHUNKS (s_block_size sp) + w = o / 16) as <-; [|unfold bits_per, FS_BITS_PER_BLOCK, FS_BITCHUNK_BITS; lia].
    apply (Z.div_unique _ _ _ (o mod bits mod 16)); [lia|]. unfold bits_per, FS_BITS_PER_BLOCK, FS_BITCHUNK_BITS in *. lia. }
  assert (u32 (map_blocks sp map + 1) = map_blocks sp map + 1) as -> by (unfold u32; apply Z.mod_small; nia).
  set (n := Z.to_nat (map_blocks sp map)). assert (Z.of_nat (S n) = map_blocks sp map + 1) as Hn by lia. rewrite <- Hn.
  pose proof (block_loop (S (Z.to_nat (Z.of_nat (S n)))) n blk w s Hi Hm Hblk ltac:(nia) ltac:(lia) ltac:(nia)) as Hloop.
  assert (visit (S n) blk w = visit (S (Z.to_nat (map_blocks sp map - blk - 1)) + Z.to_nat (blk + 1)) blk w) as Ev by (f_equal; lia).
  rewrite Ev, visit_round, Ews in Hloop by nia. set (ws := o / 16 * 16) in *.
  assert (0 ≤ ws ≤ o) as Hws by (pose proof (Z.div_mod o 16 ltac:(lia)); pose proof (Z.mod_pos_bound o 16 ltac:(lia)); pose proof (Z.div_pos o 16); lia).
  rewrite find_app in Hloop.
  destruct (find_range_cases (free_bits s) ws (Z.to_nat (map_blocks sp map * bits - ws))) as [(x & Ef & Hx & [Hxm Hxf]%free_bits_true & Hmin)|[Ef Hnone]];
    rewrite Ef in Hloop.
  - left. destruct Hloop as (s' & E & ? & ? & ? & ?). exists x, s'. split; [done|]. split; [done|]. split; [|done]. split; [lia|]. split; [done|]. left.
    split; [lia|]. intros m Hmr. apply free_bits_false; [by apply Hmin|lia].
  - assert (∀ m, ws ≤ m < map_bits sp map → mbit sp map s m = true) as Hup by (intros m Hmr; apply free_bits_false; [apply Hnone; lia|lia]).
    destruct (find_range_cases (free_bits s) 0 (Z.to_nat (Z.of_nat (Z.to_nat (blk + 1)) * bits))) as [(x & Ef2 & Hx & [Hxm Hxf]%free_bits_true & Hmin)|[Ef2 Hnone2]];
      rewrite Ef2 in Hloop.
    + left. destruct Hloop as (s' & E & ? & ? & ? & ?). exists x, s'. split; [done|]. split; [done|]. split; [|done]. split; [lia|]. split; [done|]. right.
      split; [done|]. intros m Hmr. apply free_bits_false; [by apply Hmin|lia].
    + right. destruct Hloop as (s' & E & ? & ? & ? & ?). exists s'. split; [done|]. split; [done|]. split; [|done].
      intros m Hmr. destruct (Z.leb_spec ws m); [apply Hup; lia|]. apply free_bits_false; [apply Hnone2; nia|lia].
Qed.

(** *** Giving a bit back *)

Lemma word_place n : 0 ≤ n → bits = FS_BITMAP_CHUNKS (s_block_size sp) * 16 → 0 < bits → (n mod bits) mod 16 = n mod 16.
Proof.
  intros Hn Hb H0. pose proof (Z.div_mod n bits ltac:(lia)) as E. pose proof (Z.div_mod (n mod bits) 16 ltac:(lia)) as E2.
  apply (Z.mod_unique _ _ (FS_BITMAP_CHUNKS (s_block_size sp) * (n / bits) + (n mod bits) / 16)).
  - left. apply Z.mod_pos_bound. lia.
  - nia.
Qed.

Lemma free_bit_run s spi n :
  resting ho s → mapped sp map s → zget (supers s) spi = Some sp → s_rd_only sp = 0 → 0 ≤ n < map_blocks sp map * bits →
  if mbit sp map s n then
    ∃ s', free_bit spi map n s = Ret tt s' ∧ resting ho s' ∧ bit_set sp map n false s s' ∧ supers s' = supers s ∧ rdwt_err s' = rdwt_err s
  else ∃ s', free_bit spi map n s = Off s'.
Proof.
  intros Hi Hm Hsp Hro Hn. destruct (size_facts s Hi Hm) as (Hs & Hbits & Hch). unfold MIN_BLOCK_SIZE in Hs.
  remember (free_bit spi map n s) as res eqn:Er. unfold free_bit, rd_super in Er. rewrite bind_assoc, bind_get in Er.
  rewrite (bind_lift _ _ _ _ Hsp), Hro in Er. change (negb (0 =? 0)) with false in Er. cbv iota zeta in Er. fold bits in Er.
  set (blk := n / bits) in *. set (p := n mod bits) in *. pose proof (Z.mod_pos_bound n bits ltac:(lia)) as Hp. fold p in Hp.
  pose proof (Z.div_mod n bits ltac:(lia)) as En. fold blk p in En.
  assert (0 ≤ blk < map_blocks sp map) as Hblk by (split; [apply Z.div_pos; lia|apply Z.div_lt_upper_bound; lia]).
  assert (n = blk * bits + p) as En' by lia.
  destruct (map_block_read s blk Hi Hm Hblk) as (i & s1 & b & E & G & Hbb & Hlen & Hdat). rewrite (bind_ret _ _ _ _ _ E) in Er.
  assert (bytes (take (Z.to_nat (s_block_size sp)) (b_data b))) as Hby by (rewrite Hdat; by apply (mp_disk _ _ _ Hm)).
  unfold FS_BITCHUNK_BITS in Er. rewrite <- (word_place n (proj1 Hn) ltac:(done) ltac:(lia)) in Er. fold p in Er.
  assert (p / 16 * 16 ≤ p) as Hp16 by (pose proof (Z.div_mod p 16 ltac:(lia)); pose proof (Z.mod_pos_bound p 16 ltac:(lia)); lia).
  assert (0 ≤ p / 16 < FS_BITMAP_CHUNKS (s_block_size sp)) as Hpw by (split; [apply Z.div_pos; lia|apply Z.div_lt_upper_bound; lia]).
  destruct (bit_word native (take (Z.to_nat (s_block_size sp)) (b_data b)) p Hby (proj1 Hp)) as (x & Hx & Hxr & Hcr & Hbit).
  { unfold zlen. rewrite length_take. unfold zlen in Hlen. lia. }
  rewrite word16_take in Hx by lia. assert (rd_chunk i (p / 16) s1 = Ret x s1) as Erd by (unfold rd_chunk; step (rd_buf_run s1 i b Hbb); by apply lift_opt_some).
  rewrite (bind_ret _ _ _ _ _ Erd) in Er. pose proof (Z.mod_pos_bound p 16 ltac:(lia)) as Hpm.
  assert (u16 (Z.shiftl 1 (p mod 16)) = Z.shiftl 1 (p mod 16)) as Emask.
  { unfold u16. rewrite Z.shiftl_1_l. apply Z.mod_small. split; [apply Z.pow_nonneg; lia|]. change 65536 with (2 ^ 16). apply Z.pow_lt_mono_r; lia. }
  rewrite Emask, testbit_mask in Er by lia.
  assert (mbit sp map s n = Z.testbit (conv2 native x) (p mod 16)) as ->.
  { rewrite <- Hbit, Hdat. unfold mbit, bit_block. by fold blk p. }
  destruct (Z.testbit (conv2 native x) (p mod 16)) eqn:Et; cbn [negb] in Er; [|by exists s1].
  destruct (bit_written s i s1 b blk p false Hi Hm Hblk Hp G Hbb Hlen Hdat) as (s' & E' & Hi' & Hset & Hs' & He'). rewrite <- En' in Hset.
  exists s'. split; [|done]. rewrite Er. unfold change_bit in E'. rewrite Hx in E'. cbn [default from_option id] in E'.
  pose proof (wr_chunk_dirty s1 i b (p / 16) (conv2 native (Z.land (conv2 native x) (Z.lnot (Z.shiftl 1 (p mod 16))))) Hbb) as Ew.
  unfold overwrite in Ew, E'. rewrite (upd_buf_run s1 i b _ Hbb) in Ew. rewrite (bind_ret _ _ _ _ _ (upd_buf_run s1 i b _ Hbb)) in E'.
  rewrite (bind_seq _ _ _ _ _ _ Ew). exact E'.
Qed.

(** *** What a change of one bit does to the map *)

Lemma contents_len s d n : resting ho s → d ≠ NO_DEV → zlen (contents s d n) = size_of s d.
Proof.
  intros Hi Hd. destruct (id_cached _ _ Hi) as (L & H & Hc). pose proof (size_range _ _ _ s d Hc Hd) as Hs. unfold MIN_BLOCK_SIZE in Hs.
  destruct (name_cases d n s) as [(i & b & Hb & <- & <-)|Ha].
  - rewrite (contents_named _ _ _ _ _ _ Hc Hb Hd). unfold block_data, zlen. rewrite length_take. pose proof (proj1 (ca_data _ _ _ _ Hc i b Hb)) as Hl.
    unfold zlen in Hl. lia.
  - rewrite contents_absent by done. apply bytes_at_len. lia.
Qed.

Lemma mbit_set s s' n m v :
  resting ho s → mapped sp map s → bit_set sp map n v s s' → 0 ≤ n < map_blocks sp map * bits → 0 ≤ m →
  mbit sp map s' m = if m =? n then v else mbit sp map s m.
Proof.
  intros Hi Hm Hset Hn Hm0. destruct (size_facts s Hi Hm) as (Hs & Hbits & Hch). unfold MIN_BLOCK_SIZE in Hs. pose proof (mp_dev _ _ _ Hm) as Hd.
  unfold mbit. rewrite Hset by done. unfold put_store. rewrite Z.eqb_refl. cbn [andb].
  pose proof (Z.div_mod n bits ltac:(lia)). pose proof (Z.div_mod m bits ltac:(lia)).
  pose proof (Z.mod_pos_bound n bits ltac:(lia)). pose proof (Z.mod_pos_bound m bits ltac:(lia)).
  destruct (Z.eqb_spec (bit_block sp map m) (bit_block sp map n)) as [E|E].
  - assert (m / bits = n / bits) as Eq by (unfold bit_block in E; lia). assert (0 ≤ n / bits < map_blocks sp map) as Hk.
    { split; [apply Z.div_pos; lia|apply Z.div_lt_upper_bound; lia]. }
    rewrite bit_of_change; [|by apply (mp_disk _ _ _ Hm)|lia| |lia].
    + rewrite E. destruct (Z.eqb_spec (m mod bits) (n mod bits)), (Z.eqb_spec m n); try done; nia.
    + rewrite contents_len, (mp_size _ _ _ Hm) by done. set (p := n mod bits) in *.
      assert (p / 16 * 16 ≤ p) by (pose proof (Z.div_mod p 16 ltac:(lia)); pose proof (Z.mod_pos_bound p 16 ltac:(lia)); lia).
      assert (p / 16 < FS_BITMAP_CHUNKS (s_block_size sp)) by (apply Z.div_lt_upper_bound; lia). lia.
  - destruct (Z.eqb_spec m n) as [->|]; [done|]. done.
Qed.

Lemma mapped_set s s' n v :
  mapped sp map s → bit_set sp map n v s s' → supers s' = supers s → 0 ≤ n < map_blocks sp map * bits → mapped sp map s'.
Proof.
  intros Hm Hset Hs Hn. pose proof (mp_dev _ _ _ Hm) as Hd. destruct Hm as [? Hz ? ? ? ? Hk ?]. split; try done; [by rewrite (size_same _ _ _ Hs)|].
  intros k Hkr. destruct (Hk k Hkr) as [Ho Hb]. split; [unfold on_disk; by rewrite (size_same _ _ _ Hs)|]. rewrite Hset by done. unfold put_store.
  destruct (_ && _); [|done]. apply change_bit_bytes. apply Hk. split; [apply Z.div_pos; nia|apply Z.div_lt_upper_bound; nia].
Qed.
End one.
End maps.

(** ** Zones *)

Section zones.
Context `{RD : Reliable} {ho : holder}.
Implicit Types (s : fsst) (b : buf) (sp : super_block).

(** *** Changes of the super block that the cache does not see *)

Definition device_size (sp : super_block) := (s_dev sp, s_block_size sp).

Lemma size_of_view s s' d : device_size <$> supers s' = device_size <$> supers s → size_of s' d = size_of s d.
Proof.
  unfold size_of. generalize (supers s) as k. generalize (supers s') as l. intros l. induction l as [|x l IH]; intros [|y k]; try done.
  cbn. intros [= E1 E2 E3]. rewrite E1. destruct (s_dev y =? d); [done|by apply IH].
Qed.

Lemma sizes_view l k : device_size <$> l = device_size <$> k → sizes_ok k → sizes_ok l.
Proof.
  unfold sizes_ok. revert k. induction l as [|x l IH]; intros [|y k] E Hk; try done. injection E as E1 E2 E3. apply Forall_cons in Hk as [Hy Hk].
  constructor; [by rewrite E1, E2|by eapply IH].
Qed.

(** Only [supers] differs, and not in devices and sizes. *)
Definition resuper (s s' : fsst) : Prop :=
  ∃ t, s' = with_supers t s ∧ device_size <$> t = device_size <$> supers s.

Lemma resuper_idle s s' : resuper s s' → resting ho s → resting ho s'.
Proof.
  intros (t & -> & Et) [(L & H & Hc) Hco Hf Hho]. assert (∀ d, size_of (with_supers t s) d = size_of s d) as Hsz by (intros d; by apply size_of_view).
  split; [| |exact Hf|exact Hho].
  - exists L, H. destruct Hc. split; try done. by eapply sizes_view.
  - intros i b Hb Hd. destruct (Hco i b Hb Hd) as [Ho Hx]. unfold on_disk, block_data, disk_block in *. by rewrite !Hsz.
Qed.

Lemma resuper_contents s s' d n : resuper s s' → contents s' d n = contents s d n.
Proof.
  intros (t & -> & Et). assert (∀ d, size_of (with_supers t s) d = size_of s d) as Hsz by (intros d'; by apply size_of_view).
  unfold contents. change (has_name d n (with_supers t s)) with (has_name d n s). destruct (List.find _ _) as [i|].
  - cbn [bufs with_supers]. destruct (zget (bufs s) i) as [b|]; [|done]. unfold block_data. by rewrite Hsz.
  - unfold disk_block. by rewrite Hsz.
Qed.

Lemma upd_super_run s spi sp f :
  zget (supers s) spi = Some sp → device_size (f sp) = device_size sp →
  upd_super spi f s = Ret tt (with_supers (upd (supers s) spi (f sp)) s) ∧ resuper s (with_supers (upd (supers s) spi (f sp)) s).
Proof.
  intros Hz Hd. split.
  - unfold upd_super. rewrite bind_get, (bind_lift _ _ _ _ Hz). by rewrite bind_zset by (by eapply zget_Some_range).
  - eexists. split; [done|]. unfold upd. rewrite list_fmap_insert, Hd. apply list_insert_id. unfold zget in Hz.
    destruct (0 <=? spi); [|done]. rewrite list_lookup_fmap, Hz. done.
Qed.

(** *** A mounted file system *)

(** The super block of the device, found by [get_super]. *)
Definition sits (dev spi : Z) (sp : super_block) (s : fsst) : Prop :=
  dev ≠ NO_DEV ∧ List.find (has_dev dev (supers s)) (range 0 (Z.to_nat NR_SUPERS)) = Some spi ∧ zget (supers s) spi = Some sp ∧ s_dev sp = dev.

Lemma get_super_run dev spi sp s : sits dev spi sp s → get_super dev s = Ret spi s ∧ rd_super spi s = Ret sp s.
Proof.
  intros (Hd & Hf & Hz & _). unfold get_super, rd_super. destruct (Z.eqb_spec dev NO_DEV); [done|]. rewrite !bind_get, Hf.
  split; [done|]. by apply lift_opt_some.
Qed.

(** A file system that can be written: its zone map is on the device and covers
    its zones, zone 0 of the map is reserved, and the hint is right. *)
Record writable (sp : super_block) (s : fsst) : Prop := Writable {
  wb_map : mapped sp ZMAP s;
  wb_rw : s_rd_only sp = 0;
  wb_zones : 1 ≤ s_firstdatazone sp ≤ s_zones sp ∧ s_zones sp < 2 ^ 32;
  wb_reserved : mbit sp ZMAP s 0 = true;
  wb_search : 0 ≤ s_zsearch sp ∧ ∀ m, 0 ≤ m < s_zsearch sp → m < map_bits sp ZMAP → mbit sp ZMAP s m = true }.

Definition zone_used (sp : super_block) (s : fsst) (z : Z) : bool := mbit sp ZMAP s (z - (s_firstdatazone sp - 1)).
Definition is_zone (sp : super_block) (z : Z) : Prop := s_firstdatazone sp ≤ z < s_zones sp.

Lemma zone_bits sp s : writable sp s → map_bits sp ZMAP = s_zones sp - s_firstdatazone sp + 1.
Proof.
  intros [Hm _ [Hz1 Hz2] _ _]. unfold map_bits. change (ZMAP =? IMAP) with false. cbv iota. unfold u32. rewrite Z.mod_small; lia.
Qed.

(** The states between which zones are given out differ in one bit of the map and
    in the hint of the super block. *)
Record zone_step (dev spi : Z) (sp sp' : super_block) (z : Z) (v : bool) (s s' : fsst) : Prop := ZoneStep {
  zs_idle : resting ho s';
  zs_sits : sits dev spi sp' s';
  zs_writable : writable sp' s';
  zs_used z' : is_zone sp z' → zone_used sp' s' z' = if z' =? z then v else zone_used sp s z';
  zs_contents d n : d ≠ NO_DEV → (d = dev → n ≠ bit_block sp ZMAP (z - (s_firstdatazone sp - 1))) → contents s' d n = contents s d n;
  zs_super : ∃ h, sp' = set_search (s_isearch sp) h sp;
  zs_err : rdwt_err s' = rdwt_err s }.

Lemma sits_upd dev spi sp f s :
  sits dev spi sp s → device_size (f sp) = device_size sp → sits dev spi (f sp) (with_supers (upd (supers s) spi (f sp)) s).
Proof.
  intros (Hd & Hf & Hz & Hdv) E. injection E as E1 E2. pose proof (zget_Some_range _ _ _ Hz) as Hr. split_and!; try done; [|by apply zget_upd_eq|congruence].
  rewrite <- Hf. cbn. apply find_ext. intros i. unfold has_dev. rewrite zget_upd by done. destruct (Z.eqb_spec spi i) as [<-|]; [|done].
  by rewrite Hz, E1.
Qed.

Lemma sits_same dev spi sp s s' : supers s' = supers s → sits dev spi sp s → sits dev spi sp s'.
Proof. unfold sits. by intros ->. Qed.

(** A bit of the map is changed, and then perhaps the hint. *)
Lemma bit_zone_step dev spi sp s s1 n v h s' :
  resting ho s → sits dev spi sp s → writable sp s → resting ho s1 → bit_set sp ZMAP n v s s1 → supers s1 = supers s → rdwt_err s1 = rdwt_err s →
  1 ≤ n < map_bits sp ZMAP → 0 ≤ h → (∀ m, 0 ≤ m < h → m < map_bits sp ZMAP → mbit sp ZMAP s m = true ∧ m ≠ n ∨ m = n ∧ v = true) →
  (s' = s1 ∧ h = s_zsearch sp ∨ s' = with_supers (upd (supers s1) spi (set_search (s_isearch sp) h sp)) s1) →
  zone_step dev spi sp (set_search (s_isearch sp) h sp) (s_firstdatazone sp - 1 + n) v s s'.
Proof.
  intros Hi Hsi Hw Hi1 Hset Hs He Hn Hh Hbelow Hs'. pose proof (wb_map _ _ Hw) as Hm. pose proof (mp_bits _ _ _ Hm) as Hle.
  assert (0 ≤ n < map_blocks sp ZMAP * bits_per sp) as Hnb by lia.
  assert (∀ m, 0 ≤ m → mbit sp ZMAP s1 m = if m =? n then v else mbit sp ZMAP s m) as Hbit by (intros m Hm0; by apply (mbit_set (ho := ho))).
  pose proof (mapped_set sp ZMAP s s1 n v Hm Hset Hs Hnb) as Hm1. pose proof (sits_same _ _ _ _ _ Hs Hsi) as Hsi1.
  assert (resuper s1 s' ∧ sits dev spi (set_search (s_isearch sp) h sp) s' ∧ rdwt_err s' = rdwt_err s1) as (Rs & Hsi' & He').
  { destruct Hs' as [[-> ->]| ->].
    - split_and!; [by exists (supers s1); destruct s1| |done]. by destruct sp.
    - destruct Hsi1 as (Hd & Hf & Hz & Hdv). split_and!; [|by apply (sits_upd dev spi sp (set_search (s_isearch sp) h) s1)|done].
      by apply (upd_super_run s1 spi sp (set_search (s_isearch sp) h)). }
  assert (∀ m, mbit (set_search (s_isearch sp) h sp) ZMAP s' m = mbit sp ZMAP s1 m) as Hbit'.
  { intros m. unfold mbit. rewrite (resuper_contents s1 s' _ _ Rs). done. }
  assert (mapped (set_search (s_isearch sp) h sp) ZMAP s') as Hm'.
  { destruct Hm1 as [? Hz ? ? ? ? Hk ?]. destruct Rs as (t & -> & Et). split; try done; cbn [s_dev set_search].
    - etrans; [by apply (size_of_view s1)|exact Hz].
    - intros k Hkr. destruct (Hk k Hkr) as [Ho Hb]. rewrite (resuper_contents s1 _ _ _ (ex_intro _ t (conj eq_refl Et))). split; [|done].
      unfold on_disk in *. by rewrite (size_of_view s1 (with_supers t s1) _ Et). }
  split; try done.
  - by eapply resuper_idle.
  - destruct Hw as [_ Hrw Hz Hres [Hs0 Hsr]]. split; try done.
    + rewrite Hbit', Hbit by lia. by destruct (Z.eqb_spec 0 n); [lia|].
    + split; [done|]. intros m Hmr Hmb. rewrite Hbit', Hbit by lia. destruct (Hbelow m Hmr Hmb) as [[E ?]|[-> ->]]; [|by rewrite Z.eqb_refl].
      by destruct (Z.eqb_spec m n).
  - intros z' Hz'. unfold zone_used, is_zone in *. rewrite Hbit'. cbn [s_firstdatazone set_search]. rewrite Hbit by lia.
    destruct (Z.eqb_spec (z' - (s_firstdatazone sp - 1)) n), (Z.eqb_spec z' (s_firstdatazone sp - 1 + n)); try done; lia.
  - intros d k Hd Hk. rewrite (resuper_contents s1 s' _ _ Rs), Hset by done. unfold put_store.
    destruct (Z.eqb_spec d (s_dev sp)) as [->|], (Z.eqb_spec k (bit_block sp ZMAP n)) as [->|]; try done. cbn [andb].
    destruct Hsi as (_ & _ & _ & Hdv). destruct (Hk Hdv). f_equal. lia.
  - by exists h.
  - congruence.
Qed.

(** *** The operations *)

Lemma idle_err e s : resting ho s → resting ho (with_err_code e s).
Proof. intros [(L & H & Hc) Hco Hf Hho]. split; [|exact Hco|exact Hf|exact Hho]. exists L, H. by destruct Hc. Qed.

(** The bits below the hint, when the bit that was found becomes the hint. *)
Lemma below_found sp s x :
  writable sp s → first_free sp ZMAP s (s_zsearch sp) x → ∀ m, 0 ≤ m < x → m < map_bits sp ZMAP → mbit sp ZMAP s m = true.
Proof.
  intros Hw (Hx & _ & Hcase) m Hm Hmb. destruct Hcase as [[_ Hup]|[_ Hlow]]; [|by apply Hlow]. unfold search_start in Hup.
  destruct (Z.leb_spec (map_bits sp ZMAP) (s_zsearch sp)) as [Hle|Hlt]; [apply Hup; change (0 / 16 * 16) with 0; lia|].
  destruct (Z.leb_spec (s_zsearch sp / 16 * 16) m); [apply Hup; lia|]. destruct (wb_search _ _ Hw) as [Hs0 Hs]. apply Hs; [|done].
  pose proof (Z.div_mod (s_zsearch sp) 16 ltac:(lia)). pose proof (Z.mod_pos_bound (s_zsearch sp) 16 ltac:(lia)). lia.
Qed.

Lemma alloc_zone_run dev spi sp z s :
  resting ho s → sits dev spi sp s → writable sp s →
  (∃ zone sp' s', alloc_zone dev z s = Ret zone s' ∧ is_zone sp zone ∧ zone_used sp s zone = false ∧
     zone_step dev spi sp sp' zone true s s') ∨
  (∃ s', alloc_zone dev z s = Ret NO_ZONE s' ∧ (∀ z', is_zone sp z' → zone_used sp s z' = true) ∧ resting ho s' ∧ transparent s s' ∧
     supers s' = supers s ∧ err_code s' = ENOSPC).
Proof.
  intros Hi Hsi Hw. destruct (get_super_run dev spi sp s Hsi) as [Eg Er]. pose proof Hsi as (Hd & _ & Hz & Hdv).
  pose proof (zone_bits sp s Hw) as Hbits. pose proof (wb_zones _ _ Hw) as [Hz1 Hz2]. unfold alloc_zone. step Eg. step Er. cbv zeta.
  set (bit := if z =? s_firstdatazone sp then s_zsearch sp else _).
  assert (0 ≤ bit) as Hb0 by (unfold bit; destruct (z =? s_firstdatazone sp); [apply (wb_search _ _ Hw)|apply Z.mod_pos_bound; lia]).
  destruct (alloc_bit_run sp ZMAP s spi bit Hi (wb_map _ _ Hw) Hz (wb_rw _ _ Hw) Hb0) as
    [(x & s1 & E & Hi1 & Hff & Hset & Hs1 & He1)|(s1 & E & Hi1 & Hall & T & Hs1 & He1)].
  - left. pose proof Hff as (Hx & Hfree & _). assert (x ≠ 0) as Hx0 by (intros ->; rewrite (wb_reserved _ _ Hw) in Hfree; done).
    set (h := if z =? s_firstdatazone sp then x else s_zsearch sp).
    set (s' := if z =? s_firstdatazone sp then with_supers (upd (supers s1) spi (set_search (s_isearch sp) x sp)) s1 else s1).
    exists (s_firstdatazone sp - 1 + x), (set_search (s_isearch sp) h sp), s'. split_and!.
    + step E. destruct (Z.eqb_spec x NO_BIT); [done|]. assert (zget (supers s1) spi = Some sp) as Hz' by (by rewrite Hs1).
      assert (when (z =? s_firstdatazone sp) (upd_super spi (λ sp, set_search (s_isearch sp) x sp)) s1 = Ret tt s') as Eu.
      { unfold s', when. destruct (z =? s_firstdatazone sp); [|done]. by apply (upd_super_run s1 spi sp (λ sp, set_search (s_isearch sp) x sp)). }
      step Eu. unfold mret, M_ret. f_equal. unfold u32. apply Z.mod_small. lia.
    + unfold is_zone. lia.
    + unfold zone_used. by replace (s_firstdatazone sp - 1 + x - (s_firstdatazone sp - 1)) with x by lia.
    + apply (bit_zone_step dev spi sp s s1 x true h s' Hi Hsi Hw Hi1 Hset Hs1 He1); [lia| | |].
      * unfold h. destruct (z =? s_firstdatazone sp); [lia|apply (wb_search _ _ Hw)].
      * intros m Hm Hmb. left. assert (mbit sp ZMAP s m = true) as Hu; [|split; [done|congruence]]. unfold h, bit in *.
        destruct (z =? s_firstdatazone sp); [by apply (below_found sp s x)|by apply (wb_search _ _ Hw)].
      * unfold s', h. destruct (z =? s_firstdatazone sp); [by right|by left].
  - right. exists (with_err_code ENOSPC s1). split_and!; try done.
    + step E. done.
    + intros z' Hz'. apply Hall. unfold is_zone in Hz'. lia.
    + by apply idle_err.
Qed.

Lemma free_zone_run dev spi sp z s :
  resting ho s → sits dev spi sp s → writable sp s → is_zone sp z →
  if zone_used sp s z then ∃ sp' s', free_zone dev z s = Ret tt s' ∧ zone_step dev spi sp sp' z false s s'
  else ∃ s', free_zone dev z s = Off s'.
Proof.
  intros Hi Hsi Hw Hiz. destruct (get_super_run dev spi sp s Hsi) as [Eg Er]. pose proof Hsi as (Hd & _ & Hz & Hdv).
  pose proof (zone_bits sp s Hw) as Hbits. pose proof (wb_zones _ _ Hw) as [Hz1 Hz2]. unfold is_zone in Hiz. set (n := z - (s_firstdatazone sp - 1)).
  assert (1 ≤ n < map_bits sp ZMAP) as Hn by (unfold n; lia). pose proof (mp_bits _ _ _ (wb_map _ _ Hw)) as Hle.
  remember (free_zone dev z s) as res eqn:Eres. unfold free_zone in Eres. rewrite (bind_ret _ _ _ _ _ Eg), (bind_ret _ _ _ _ _ Er) in Eres.
  destruct (Z.ltb_spec z (s_firstdatazone sp)), (Z.leb_spec (s_zones sp) z); try lia. cbn [orb] in Eres. fold n in Eres.
  assert (u32 n = n) as En by (unfold u32; apply Z.mod_small; lia). rewrite En in Eres.
  pose proof (free_bit_run sp ZMAP s spi n Hi (wb_map _ _ Hw) Hz (wb_rw _ _ Hw) ltac:(lia)) as Hf. unfold zone_used. fold n.
  destruct (mbit sp ZMAP s n) eqn:Eb; [|destruct Hf as (s' & E); exists s'; by rewrite Eres, (bind_off _ _ _ _ E)].
  destruct Hf as (s1 & E & Hi1 & Hset & Hs1 & He1). rewrite (bind_ret _ _ _ _ _ E) in Eres.
  set (h := if n <? s_zsearch sp then n else s_zsearch sp).
  set (s' := if n <? s_zsearch sp then with_supers (upd (supers s1) spi (set_search (s_isearch sp) n sp)) s1 else s1).
  exists (set_search (s_isearch sp) h sp), s'. split.
  - rewrite Eres. unfold s', when. destruct (n <? s_zsearch sp); [|done]. assert (zget (supers s1) spi = Some sp) as Hz' by (by rewrite Hs1).
    by apply (upd_super_run s1 spi sp (λ sp, set_search (s_isearch sp) n sp)).
  - replace z with (s_firstdatazone sp - 1 + n) by (unfold n; lia).
    apply (bit_zone_step dev spi sp s s1 n false h s' Hi Hsi Hw Hi1 Hset Hs1 He1); [lia| | |].
    + unfold h. destruct (n <? s_zsearch sp); [lia|apply (wb_search _ _ Hw)].
    + intros m Hm Hmb. left. unfold h in Hm. destruct (Z.ltb_spec n (s_zsearch sp)); (split; [apply (wb_search _ _ Hw); [lia|done]|lia]).
    + unfold s', h. destruct (n <? s_zsearch sp); [by right|by left].
Qed.

Lemma free_zone_outside dev spi sp z s : sits dev spi sp s → ¬ is_zone sp z → free_zone dev z s = Ret tt s.
Proof.
  intros Hsi Hiz. destruct (get_super_run dev spi sp s Hsi) as [Eg Er]. unfold free_zone. step Eg. step Er. unfold is_zone in Hiz.
  destruct (Z.ltb_spec z (s_firstdatazone sp)), (Z.leb_spec (s_zones sp) z); try done. lia.
Qed.
End zones.
