(* ===== verification/SuperTheorems.v ===== *)
(** * Super blocks and zones of the reference file server: what they promise

    [read_super] lets only super blocks through that the cache and the bit maps
    can work with; [alloc_bit] finds a free bit if there is one; zones are given
    out once, and the bit map is the set of zones in use. *)

From S2P Require Import Prelude Linked Cache CacheLists CacheSpec CacheRep CacheOps CacheStore CacheTheorems Super SuperSpec Zones.

(** ** Reading a super block *)

(** A super block that was accepted. *)
Record sane (dev : Z) (sp : super_block) : Prop := Sane {
  sa_dev : s_dev sp = dev;
  sa_size : MIN_BLOCK_SIZE ≤ s_block_size sp ≤ MAX_BLOCK_SIZE ∧ s_block_size sp mod 512 = 0;
  sa_kind : (s_version sp = V1 ∨ s_version sp = V2 ∨ s_version sp = V3) ∧ (s_native sp = 0 ∨ s_native sp = 1);
  sa_static : s_version sp ≠ V3 → s_block_size sp = STATIC_BLOCK_SIZE;
  sa_maps : 1 ≤ s_imap_blocks sp ∧ 1 ≤ s_zmap_blocks sp ∧ 1 ≤ s_ninodes sp ∧ 1 ≤ s_zones sp;
  sa_log : 0 ≤ s_log_zone_size sp ≤ 4;
  sa_inodes : s_inodes_per_block sp * (if s_version sp =? V1 then V1_INODE_SIZE else V2_INODE_SIZE) = s_block_size sp;
  sa_search : s_isearch sp = 0 ∧ s_zsearch sp = 0 }.

Lemma super_kind_values m v n :
  super_kind m = Some (v, n) → (v = V1 ∨ v = V2 ∨ v = V3) ∧ (n = 0 ∨ n = 1).
Proof.
  unfold super_kind. destruct (_ || _); [|destruct (_ || _); [|destruct (_ =? _)]]; intros [= <- <-] || done.
  all: split; [by auto|]; try (destruct (_ =? _)); by auto.
Qed.

Lemma s16_range x : -32768 ≤ s16 x < 32768.
Proof. unfold s16, u16. pose proof (Z.mod_pos_bound x 65536 ltac:(lia)). destruct (Z.ltb_spec (x mod 65536) 32768); lia. Qed.

Lemma small_log x : -32768 ≤ x < 32768 → (4 <? u32 x) = false → 0 ≤ x ≤ 4.
Proof.
  intros Hx H%Z.ltb_ge. unfold u32 in H. destruct (Z.ltb_spec x 0).
  - assert (x mod 4294967296 = x + 4294967296) as E by (symmetry; apply (Z.mod_unique _ _ (-1)); lia). rewrite E in H. lia.
  - rewrite Z.mod_small in H by lia. lia.
Qed.

Lemma geometry_fields v sp :
  s_dev (geometry v sp) = s_dev sp ∧ s_log_zone_size (geometry v sp) = s_log_zone_size sp ∧ (v ≠ V3 → v = V1 ∨ v = V2 → s_block_size (geometry v sp) = STATIC_BLOCK_SIZE) ∧
  (MIN_BLOCK_SIZE ≤ s_block_size (geometry v sp) → s_inodes_per_block (geometry v sp) =
     if v =? V1 then V1_INODES_PER_BLOCK else V2_INODES_PER_BLOCK (s_block_size (geometry v sp))).
Proof.
  unfold geometry. destruct (Z.eqb_spec v V1) as [->|H1]; [by split_and!|].
  destruct (Z.ltb_spec (if v =? V2 then STATIC_BLOCK_SIZE else s_block_size sp) MIN_BLOCK_SIZE); split_and!; try done.
  all: try (intros _ [->| ->]; done). cbn. lia.
Qed.

Lemma check_super_sane dev sp r sp' :
  s_dev sp = NO_DEV → check_super dev sp = (r, sp') → (r = OK ∧ sane dev sp') ∨ (r = EINVAL ∧ s_dev sp' = NO_DEV).
Proof.
  intros Hd. unfold check_super. destruct (super_kind (s_magic sp)) as [[v n]|] eqn:Ek; [|intros [= <- <-]; by right].
  apply super_kind_values in Ek as [Hv Hn]. set (g := geometry v (swap_fields n sp)).
  destruct (geometry_fields v (swap_fields n sp)) as (Gd & Gl & Gs & Gi). fold g in Gd, Gl, Gs, Gi.
  destruct (size_refused (s_block_size g)) eqn:Es; [intros [= <- <-]; right; by rewrite Gd|].
  destruct (super_refused (set_kind v n g)) eqn:Er; intros [= <- <-]; [right; split; [done|exact (eq_trans Gd Hd)]|left].
  split; [done|]. unfold size_refused in Es. unfold super_refused in Er. bools. cbn in *.
  split; try done.
  - intros Hv3. change (s_block_size g = STATIC_BLOCK_SIZE). change (v ≠ V3) in Hv3. apply Gs; [done|]. destruct Hv as [?|[?|?]]; [by left|by right|done].
  - change (0 ≤ s_log_zone_size g ≤ 4). apply small_log; [|by apply Z.ltb_ge]. rewrite Gl. apply s16_range.
  - change (s_inodes_per_block g * (if v =? V1 then V1_INODE_SIZE else V2_INODE_SIZE) = s_block_size g). rewrite Gi by lia. destruct (Z.eqb_spec v V1) as [->|Hv1].
    + rewrite Gs by (done || by left). done.
    + unfold V2_INODES_PER_BLOCK. symmetry. rewrite Z.mul_comm. by apply Z.div_exact.
Qed.

Lemma copy_super_total l : MIN_BLOCK_SIZE ≤ zlen l → is_Some (copy_super l).
Proof.
  intros Hl. unfold MIN_BLOCK_SIZE in Hl. assert (∀ i, 0 ≤ i < 1024 → ∃ x, zget l i = Some x) as Hz by (intros i Hi; apply zget_in; lia).
  assert (∀ i, 0 ≤ i < 1000 → ∃ x, word16 l i = Some x) as H16.
  { intros i Hi. unfold word16. destruct (Hz i) as [x ->]; [lia|]. destruct (Hz (i + 1)) as [y ->]; [lia|]. by eexists. }
  assert (∀ i, 0 ≤ i < 990 → ∃ x, word32 l i = Some x) as H32.
  { intros i Hi. unfold word32. destruct (H16 i) as [x ->]; [lia|]. destruct (H16 (i + 2)) as [y ->]; [lia|]. by eexists. }
  unfold copy_super.
  repeat match goal with
  | |- context [word32 l ?i] => let x := fresh "x" in destruct (H32 i) as [x ->]; [lia|]; cbn [mbind option_bind]
  | |- context [word16 l ?i] => let x := fresh "x" in destruct (H16 i) as [x ->]; [lia|]; cbn [mbind option_bind]
  | |- context [zget l ?i] => let x := fresh "x" in destruct (Hz i) as [x ->]; [lia|]; cbn [mbind option_bind]
  end.
  by eexists.
Qed.


(** ** Bits and zones *)

Section zones.
Context `{RD : Reliable}.
Implicit Types (s : fsst) (sp : super_block).

(** The search of a bit map. On a map that is on its device [alloc_bit] takes
    the first free bit from the word of the origin on, or when there is none up to
    the end of the map the first free bit of all, and changes nothing else; it
    reports [NO_BIT] only when every bit of the map is in use. *)
Theorem alloc_bit_finds_a_free_bit sp map s spi origin (Hi : idle s) (Hm : mapped sp map s) (Hz : zget (supers s) spi = Some sp)
  (Hw : s_rd_only sp = 0) (Ho : 0 ≤ origin) :
  (∃ x s', alloc_bit spi map origin s = Ret x s' ∧ idle s' ∧ first_free sp map s origin x ∧ bit_set sp map x true s s' ∧
     ∀ m, 0 ≤ m → mbit sp map s' m = (m =? x) || mbit sp map s m) ∨
  (∃ s', alloc_bit spi map origin s = Ret NO_BIT s' ∧ idle s' ∧ transparent s s' ∧ ∀ m, 0 ≤ m < map_bits sp map → mbit sp map s m = true).
Proof.
  destruct (alloc_bit_run sp map s spi origin Hi Hm Hz Hw Ho) as [(x & s' & E & Hi' & Hff & Hset & _)|(s' & E & Hi' & Hall & T & _)]; [left|right].
  - exists x, s'. split_and!; try done. intros m Hm0. rewrite (mbit_set sp map s s' x m true Hi Hm Hset); [by destruct (m =? x)| |done].
    destruct Hff as [Hx _]. pose proof (mp_bits _ _ _ Hm). lia.
  - by exists s'.
Qed.

(** Calls for zones of a device, with the zones that are given out. *)
Inductive zone_call (dev : Z) : fsst * list Z → fsst * list Z → Prop :=
  | zc_alloc s g z zone s' : alloc_zone dev z s = Ret zone s' → zone ≠ NO_ZONE → zone_call dev (s, g) (s', zone :: g)
  | zc_full s g z s' : alloc_zone dev z s = Ret NO_ZONE s' → zone_call dev (s, g) (s', g)
  | zc_free s g1 z g2 s' : free_zone dev z s = Ret tt s' → zone_call dev (s, g1 ++ z :: g2) (s', g1 ++ g2).

(** The zones in use are those of the start and those given out. *)
Record zones_ok (dev spi : Z) (sp0 : super_block) (used0 : Z → bool) (s : fsst) (g : list Z) : Prop := ZonesOk {
  zo_super : ∃ sp h, sp = set_search (s_isearch sp0) h sp0 ∧ sits dev spi sp s ∧ writable sp s ∧
    ∀ z, is_zone sp0 z → (zone_used sp s z = true ↔ used0 z = true ∨ z ∈ g);
  zo_idle : idle s;
  zo_given : NoDup g ∧ ∀ z, z ∈ g → is_zone sp0 z ∧ used0 z = false }.

Lemma no_zone_step dev spi sp s s' :
  idle s' → transparent s s' → supers s' = supers s → sits dev spi sp s → writable sp s →
  sits dev spi sp s' ∧ writable sp s' ∧ ∀ z, zone_used sp s' z = zone_used sp s z.
Proof.
  intros Hi T Hs Hsi Hw. split; [by eapply sits_same|]. pose proof (mp_dev _ _ _ (wb_map _ _ Hw)) as Hd. split.
  - destruct Hw as [Hm ? ? Hr [? Hb]]. split; try done.
    + by eapply mapped_same.
    + by rewrite (mbit_same sp ZMAP s s').
    + split; [done|]. intros m Hm1 Hm2. rewrite (mbit_same sp ZMAP s s') by done. by apply Hb.
  - intros z. unfold zone_used. by rewrite (mbit_same sp ZMAP s s').
Qed.

Lemma zone_call_ok dev spi sp0 used0 x y :
  zone_call dev x y → zones_ok dev spi sp0 used0 x.1 x.2 → zones_ok dev spi sp0 used0 y.1 y.2.
Proof.
  intros Hcall [(sp & h & Esp & Hsi & Hw & Hused) Hi [Hnd Hgi]]. assert (∀ z, is_zone sp z ↔ is_zone sp0 z) as Hiz by (by subst sp).
  destruct Hcall as [s g z zone s' E Hne|s g z s' E|s g1 z g2 s' E]; cbn [fst snd] in *.
  - destruct (alloc_zone_run dev spi sp z s Hi Hsi Hw) as [(zone' & sp' & s1 & E' & Hz & Hfree & [Hi' Hsi' Hw' Hu _ (h' & Eh) _])|(s1 & E' & _)];
      rewrite E in E'; [|by injection E' as ->]. injection E' as <- <-.
    assert ((zone ∉ g) ∧ used0 zone = false) as [Hng Hn0].
    { apply Hiz in Hz. destruct (used0 zone) eqn:E0; [rewrite (proj2 (Hused zone Hz)) in Hfree by (by left); done|]. split; [|done].
      intros Hin. rewrite (proj2 (Hused zone Hz)) in Hfree by (by right). done. }
    split; [|done|].
    + exists sp', h'. split; [by subst|]. split; [done|]. split; [done|]. intros z' Hz'. rewrite Hu by (by apply Hiz).
      rewrite elem_of_cons. destruct (Z.eqb_spec z' zone); [naive_solver|]. rewrite (Hused z' Hz'). naive_solver.
    + split; [by constructor|]. intros z' [->|Hz']%elem_of_cons; [split; [by apply Hiz|done]|by apply Hgi].
  - destruct (alloc_zone_run dev spi sp z s Hi Hsi Hw) as [(zone' & sp' & s1 & E' & Hz & _)|(s1 & E' & _ & Hi' & T & Hs & _)]; rewrite E in E'.
    + injection E' as <- _. pose proof (wb_zones _ _ Hw). unfold is_zone, NO_ZONE in Hz. lia.
    + injection E' as <-. destruct (no_zone_step dev spi sp s s' Hi' T Hs Hsi Hw) as (Hsi' & Hw' & Hu). split; [|done|done].
      exists sp, h. split_and!; try done. intros z' Hz'. rewrite Hu. by apply Hused.
  - apply NoDup_app in Hnd as (N1 & N2 & N3). apply NoDup_cons in N3 as [N3 N4]. destruct (Hgi z) as [Hz Hz0]; [set_solver|].
    pose proof (free_zone_run dev spi sp z s Hi Hsi Hw (proj2 (Hiz z) Hz)) as Hf. rewrite (proj2 (Hused z Hz)) in Hf by (right; set_solver).
    destruct Hf as (sp' & s1 & E' & [Hi' Hsi' Hw' Hu _ (h' & Eh) _]). rewrite E in E'. injection E' as <-. split; [|done|].
    + exists sp', h'. split; [by subst|]. split; [done|]. split; [done|]. intros z' Hz'. rewrite Hu by (by apply Hiz).
      destruct (Z.eqb_spec z' z) as [->|Hne].
      * split; [done|]. rewrite Hz0, elem_of_app. intros [?|[Hin|Hin]]; [done| |done]. destruct (N2 z Hin). left.
      * rewrite (Hused z' Hz'), !elem_of_app, elem_of_cons. naive_solver.
    + split.
      * apply NoDup_app. split_and!; [done| |done]. intros x Hx Hx2. apply (N2 x Hx). by right.
      * intros z' Hz'. apply Hgi. set_solver.
Qed.

(** C24: zones are given out once. After any sequence of calls of [alloc_zone] and
    of [free_zone] for zones that were given out, the bit map marks exactly the
    zones of the start and those given out; no zone is given out twice or while it
    was in use; the hint of the super block is right; and every further call
    returns, [alloc_zone] with [NO_ZONE] only when all zones are in use. *)
Theorem zones_are_given_out_once dev spi sp s s' g (Hi : idle s) (Hs : sits dev spi sp s) (Hw : writable sp s)
  (Hr : rtc (zone_call dev) (s, []) (s', g)) :
  zones_ok dev spi sp (zone_used sp s) s' g ∧
  (∀ z, ∃ zone s'', alloc_zone dev z s' = Ret zone s'' ∧
     (zone = NO_ZONE → ∀ z', is_zone sp z' → zone_used sp s z' = true ∨ z' ∈ g)) ∧
  ∀ z, z ∈ g → ∃ s'', free_zone dev z s' = Ret tt s''.
Proof.
  assert (zones_ok dev spi sp (zone_used sp s) s' g) as Hok.
  { assert (zones_ok dev spi sp (zone_used sp s) (s, ([] : list Z)).1 (s, ([] : list Z)).2) as H0.
    { split; [|done|split; [constructor|by intros z ?%not_elem_of_nil]]. exists sp, (s_zsearch sp). split; [by destruct sp|].
      split_and!; try done. intros z Hz. split; [by left|]. by intros [?|?%not_elem_of_nil]. }
    change (zones_ok dev spi sp (zone_used sp s) (s', g).1 (s', g).2). revert H0. generalize (zone_used sp s). intros u0. induction Hr; [done|].
    intros H0. apply IHHr. by eapply zone_call_ok. }
  split; [done|]. destruct Hok as [(sp' & h & Esp & Hsi & Hw' & Hused) Hi' [Hnd Hgi]]. assert (∀ z, is_zone sp' z ↔ is_zone sp z) as Hiz by (by subst sp').
  split.
  - intros z. destruct (alloc_zone_run dev spi sp' z s' Hi' Hsi Hw') as [(zone & sp1 & s1 & E & Hz & _)|(s1 & E & Hall & _)].
    + exists zone, s1. split; [done|]. intros ->. pose proof (wb_zones _ _ Hw'). unfold is_zone, NO_ZONE in Hz. lia.
    + exists NO_ZONE, s1. split; [done|]. intros _ z' Hz'. apply Hused; [done|]. by apply Hall, Hiz.
  - intros z Hz. destruct (Hgi z Hz) as [Hzi _]. pose proof (free_zone_run dev spi sp' z s' Hi' Hsi Hw' (proj2 (Hiz z) Hzi)) as Hf.
    rewrite (proj2 (Hused z Hzi)) in Hf by (by right). destruct Hf as (sp1 & s1 & E & _). by exists s1.
Qed.
End zones.

(** ** Witnesses *)

Import Ram.

(** A small file system on device 3: blocks of 1024 bytes, one block for each map,
    data zones 6 to 19; bit 0 of the zone map and bits 0 and 1 of the map of inodes are
    set. *)
Definition sp3 : super_block := SuperBlock 31 20 1 1 6 0 0 20 SUPER_V3 1024 0 16 3 0 1 V3 7 256 0 0.
Definition disk3 : @disk ram_dev := λ _ p, if p =? 3072 then 1 else if p =? 2048 then 3 else 0.
Definition fs3 : fsst := with_supers (<[0%nat := sp3]> supers0) (loaded0 disk3).

Lemma fs3_loaded : loaded fs3.
Proof.
  destruct (loaded0_loaded disk3) as [Hn Hz Hh Hs]. split; [exact Hn|exact Hz|exact Hh|].
  apply Forall_insert; [exact Hs|]. intros _. vm_compute. split; discriminate.
Qed.

(** The state after start-up. *)
Lemma fs3_ready : ∃ s, idle s ∧ supers s = supers fs3 ∧ ∀ n, contents s 3 n = disk_block fs3 3 n.
Proof.
  destruct (pool_idle fs3 fs3_loaded) as (s & _ & Hi & Ha & Hs & _). exists s. split_and!; [done|done|]. intros n. by apply Ha.
Qed.

Lemma disk3_bytes n : bytes (disk_block fs3 3 n).
Proof.
  apply Forall_fmap, Forall_true. intros x. unfold compose. cbn. unfold disk3. destruct (_ =? _); [|destruct (_ =? _)]; lia.
Qed.

Lemma fs3_writable s : idle s → supers s = supers fs3 → (∀ n, contents s 3 n = disk_block fs3 3 n) → sits 3 0 sp3 s ∧ writable sp3 s.
Proof.
  intros Hi Hs Hcon. split; [unfold sits; rewrite Hs; split_and!; [discriminate|vm_compute; reflexivity..]|].
  assert (∀ n, mbit sp3 ZMAP s n = bit_of 1 (disk_block fs3 3 (bit_block sp3 ZMAP n)) (n mod bits_per sp3)) as Hb by (intros n; unfold mbit; by rewrite Hcon).
  split.
  - split; [discriminate| |reflexivity|vm_compute; discriminate..| |vm_compute; discriminate].
    + unfold size_of. rewrite Hs. vm_compute. reflexivity.
    + intros k Hk. assert (k = 0) as -> by (change (map_blocks sp3 ZMAP) with 1 in Hk; lia). split.
      * unfold on_disk, size_of. rewrite Hs. split; vm_compute; discriminate.
      * rewrite Hcon. apply disk3_bytes.
  - reflexivity.
  - split; [split; vm_compute; discriminate|vm_compute; reflexivity].
  - rewrite Hb. vm_compute. reflexivity.
  - change (s_zsearch sp3) with 0. split; [reflexivity|]. intros m Hm. lia.
Qed.


Lemma alloc_bit_finds_a_free_bit_witness :
  ∃ (s : @fsst ram_dev) x s', alloc_bit 0 ZMAP 0 s = Ret x s' ∧ x = 1.
Proof.
  destruct fs3_ready as (s & Hi & Hs & Hcon). destruct (fs3_writable s Hi Hs Hcon) as [Hsi Hw].
  assert (∀ n, mbit sp3 ZMAP s n = bit_of 1 (disk_block fs3 3 (bit_block sp3 ZMAP n)) (n mod bits_per sp3)) as Hb by (intros n; unfold mbit; by rewrite Hcon).
  destruct (alloc_bit_finds_a_free_bit sp3 ZMAP s 0 0 Hi (wb_map _ _ Hw)) as [(x & s' & E & _ & (Hx & Hf & [[_ Hlow]|[Hall _]]) & _)|(s' & _ & _ & _ & Hall)].
  - apply Hsi.
  - reflexivity.
  - lia.
  - exists s, x, s'. split; [exact E|]. change (search_start sp3 ZMAP 0) with 0 in Hlow. change (map_bits sp3 ZMAP) with 15 in Hx.
    destruct (Z.eq_dec x 0) as [->|H0]; [rewrite (wb_reserved _ _ Hw) in Hf; discriminate Hf|]. destruct (Z.eq_dec x 1) as [|H1]; [assumption|].
    specialize (Hlow 1 ltac:(lia)). rewrite Hb in Hlow. vm_compute in Hlow. discriminate Hlow.
  - change (search_start sp3 ZMAP 0) with 0 in Hall. change (map_bits sp3 ZMAP) with 15 in Hall. specialize (Hall 1 ltac:(lia)).
    rewrite Hb in Hall. vm_compute in Hall. discriminate Hall.
  - change (map_bits sp3 ZMAP) with 15 in Hall. specialize (Hall 1 ltac:(lia)). rewrite Hb in Hall. vm_compute in Hall. discriminate Hall.
Defined.

Lemma zones_are_given_out_once_witness :
  ∃ (s s' : @fsst ram_dev) zone, alloc_zone 3 6 s = Ret zone s' ∧ zone ≠ NO_ZONE ∧ zones_ok 3 0 sp3 (zone_used sp3 s) s' [zone].
Proof.
  destruct fs3_ready as (s & Hi & Hs & Hcon). destruct (fs3_writable s Hi Hs Hcon) as [Hsi Hw].
  assert (∀ n, mbit sp3 ZMAP s n = bit_of 1 (disk_block fs3 3 (bit_block sp3 ZMAP n)) (n mod bits_per sp3)) as Hb by (intros n; unfold mbit; by rewrite Hcon).
  destruct (zones_are_given_out_once 3 0 sp3 s s [] Hi Hsi Hw (rtc_refl _ _)) as (_ & Ha & _). destruct (Ha 6) as (zone & s' & E & Hfull).
  assert (zone ≠ NO_ZONE) as Hne.
  { intros Hz. destruct (Hfull Hz 7) as [Hu|Hu].
    - unfold is_zone. cbn. lia.
    - unfold zone_used in Hu. rewrite Hb in Hu. vm_compute in Hu. discriminate Hu.
    - inversion Hu. }
  exists s, s', zone. split; [exact E|]. split; [exact Hne|].
  apply (zones_are_given_out_once 3 0 sp3 s s' [zone] Hi Hsi Hw). apply rtc_once. by apply (zc_alloc 3 s [] 6).
Defined.
