(* ===== verification/Inode.v ===== *)
(** * Inodes of the reference file server

    [inode.c] of [reference/minix/servers/fs], all but [put_inode], with
    [clock_time] of [utility.c], on top of the buffer cache and the bit maps. An
    inode is an index into the table. What [getuptime] answers is part of the
    state; diagnostics are left out. *)

From S2P Require Import Prelude Cache Super.

Definition NR_INODES : Z := 64.
Definition V1_NR_TZONES : Z := 9.
Definition V2_NR_TZONES : Z := 10.
Definition ATIME : Z := 2.
Definition CTIME : Z := 4.
Definition MTIME : Z := 8.
Definition HZ : Z := 60.
Definition ENFILE : Z := -23.
Definition EROFS : Z := -30.

(** ** State *)

Record inode : Type := Inode {
  i_mode : Z;
  i_nlinks : Z;
  i_uid : Z;
  i_gid : Z;
  i_size : Z;
  i_atime : Z;
  i_mtime : Z;
  i_ctime : Z;
  i_zone : list Z;
  i_dev : Z;
  i_num : Z;
  i_count : Z;
  i_ndzones : Z;
  i_nindirs : Z;
  i_sp : option Z;
  i_dirt : Z;
  i_pipe : Z;
  i_mount : Z;
  i_seek : Z;
  i_update : Z }.

Definition set_i_mode (m : Z) (x : inode) : inode :=
  Inode m (i_nlinks x) (i_uid x) (i_gid x) (i_size x) (i_atime x) (i_mtime x) (i_ctime x) (i_zone x) (i_dev x) (i_num x) (i_count x)
    (i_ndzones x) (i_nindirs x) (i_sp x) (i_dirt x) (i_pipe x) (i_mount x) (i_seek x) (i_update x).
Definition set_i_owner (nlinks uid gid : Z) (x : inode) : inode :=
  Inode (i_mode x) nlinks uid gid (i_size x) (i_atime x) (i_mtime x) (i_ctime x) (i_zone x) (i_dev x) (i_num x) (i_count x)
    (i_ndzones x) (i_nindirs x) (i_sp x) (i_dirt x) (i_pipe x) (i_mount x) (i_seek x) (i_update x).
Definition set_i_size (n : Z) (x : inode) : inode :=
  Inode (i_mode x) (i_nlinks x) (i_uid x) (i_gid x) n (i_atime x) (i_mtime x) (i_ctime x) (i_zone x) (i_dev x) (i_num x) (i_count x)
    (i_ndzones x) (i_nindirs x) (i_sp x) (i_dirt x) (i_pipe x) (i_mount x) (i_seek x) (i_update x).
Definition set_i_times (a m c : Z) (x : inode) : inode :=
  Inode (i_mode x) (i_nlinks x) (i_uid x) (i_gid x) (i_size x) a m c (i_zone x) (i_dev x) (i_num x) (i_count x)
    (i_ndzones x) (i_nindirs x) (i_sp x) (i_dirt x) (i_pipe x) (i_mount x) (i_seek x) (i_update x).
Definition set_i_zone (zs : list Z) (x : inode) : inode :=
  Inode (i_mode x) (i_nlinks x) (i_uid x) (i_gid x) (i_size x) (i_atime x) (i_mtime x) (i_ctime x) zs (i_dev x) (i_num x) (i_count x)
    (i_ndzones x) (i_nindirs x) (i_sp x) (i_dirt x) (i_pipe x) (i_mount x) (i_seek x) (i_update x).
Definition set_i_id (dev num : Z) (x : inode) : inode :=
  Inode (i_mode x) (i_nlinks x) (i_uid x) (i_gid x) (i_size x) (i_atime x) (i_mtime x) (i_ctime x) (i_zone x) dev num (i_count x)
    (i_ndzones x) (i_nindirs x) (i_sp x) (i_dirt x) (i_pipe x) (i_mount x) (i_seek x) (i_update x).
Definition set_i_count (c : Z) (x : inode) : inode :=
  Inode (i_mode x) (i_nlinks x) (i_uid x) (i_gid x) (i_size x) (i_atime x) (i_mtime x) (i_ctime x) (i_zone x) (i_dev x) (i_num x) c
    (i_ndzones x) (i_nindirs x) (i_sp x) (i_dirt x) (i_pipe x) (i_mount x) (i_seek x) (i_update x).
Definition set_i_shape (ndzones nindirs : Z) (x : inode) : inode :=
  Inode (i_mode x) (i_nlinks x) (i_uid x) (i_gid x) (i_size x) (i_atime x) (i_mtime x) (i_ctime x) (i_zone x) (i_dev x) (i_num x) (i_count x)
    ndzones nindirs (i_sp x) (i_dirt x) (i_pipe x) (i_mount x) (i_seek x) (i_update x).
Definition set_i_sp (sp : option Z) (x : inode) : inode :=
  Inode (i_mode x) (i_nlinks x) (i_uid x) (i_gid x) (i_size x) (i_atime x) (i_mtime x) (i_ctime x) (i_zone x) (i_dev x) (i_num x) (i_count x)
    (i_ndzones x) (i_nindirs x) sp (i_dirt x) (i_pipe x) (i_mount x) (i_seek x) (i_update x).
Definition set_i_dirt (d : Z) (x : inode) : inode :=
  Inode (i_mode x) (i_nlinks x) (i_uid x) (i_gid x) (i_size x) (i_atime x) (i_mtime x) (i_ctime x) (i_zone x) (i_dev x) (i_num x) (i_count x)
    (i_ndzones x) (i_nindirs x) (i_sp x) d (i_pipe x) (i_mount x) (i_seek x) (i_update x).
Definition set_i_pipe (p : Z) (x : inode) : inode :=
  Inode (i_mode x) (i_nlinks x) (i_uid x) (i_gid x) (i_size x) (i_atime x) (i_mtime x) (i_ctime x) (i_zone x) (i_dev x) (i_num x) (i_count x)
    (i_ndzones x) (i_nindirs x) (i_sp x) (i_dirt x) p (i_mount x) (i_seek x) (i_update x).
Definition set_i_update (u : Z) (x : inode) : inode :=
  Inode (i_mode x) (i_nlinks x) (i_uid x) (i_gid x) (i_size x) (i_atime x) (i_mtime x) (i_ctime x) (i_zone x) (i_dev x) (i_num x) (i_count x)
    (i_ndzones x) (i_nindirs x) (i_sp x) (i_dirt x) (i_pipe x) (i_mount x) (i_seek x) u.

(** ** Inodes on the device *)

(** A number of 32 bits in memory, the low byte first. *)
Definition put_word32 (off x : Z) (l : list Z) : list Z := put_word16 (off + 2) (x / 65536) (put_word16 off x l).

(** An array of zone numbers at [off], each of [width] bytes. *)
Definition get_zones (norm width off : Z) (n : nat) (l : list Z) : option (list Z) :=
  mapM (λ i, if width =? 2 then conv2 norm <$> word16 l (off + 2 * i) else conv4 norm <$> word32 l (off + 4 * i)) (range 0 n).
Definition put_zones (norm width off : Z) (zs : list Z) (n : nat) (l : list Z) : list Z :=
  foldl (λ l i, if width =? 2 then put_word16 (off + 2 * i) (conv2 norm (default 0 (zget zs i))) l
                else put_word32 (off + 4 * i) (conv4 norm (default 0 (zget zs i))) l) l (range 0 n).

(** The V1 layout: mode, user, size, time of change, group and links of a byte
    each, zones of 16 bits. *)
Definition old_icopy_in (norm off : Z) (l : list Z) (x : inode) : option inode :=
  mode ← word16 l off; uid ← word16 l (off + 2); size ← word32 l (off + 4); mtime ← word32 l (off + 8);
  gid ← zget l (off + 12); nlinks ← zget l (off + 13);
  zs ← get_zones norm 2 (off + 14) (Z.to_nat V1_NR_TZONES) l;
  let t := s32 (conv4 norm mtime) in
  Some (set_i_zone (zs ++ drop (Z.to_nat V1_NR_TZONES) (i_zone x))
          (set_i_shape V1_NR_DZONES V1_INDIRECTS
             (set_i_times t t t
                (set_i_size (conv4 norm size)
                   (set_i_owner nlinks (s16 (conv2 norm uid)) (schar gid) (set_i_mode (conv2 norm mode) x)))))).

Definition old_icopy_out (norm off : Z) (x : inode) (l : list Z) : list Z :=
  let l := put_word16 off (conv2 norm (i_mode x)) l in
  let l := put_word16 (off + 2) (conv2 norm (i_uid x)) l in
  let l := put_word32 (off + 4) (conv4 norm (i_size x)) l in
  let l := put_word32 (off + 8) (conv4 norm (i_mtime x)) l in
  let l := upd l (off + 13) (u8 (i_nlinks x)) in
  let l := upd l (off + 12) (u8 (i_gid x)) in
  put_zones norm 2 (off + 14) (i_zone x) (Z.to_nat V1_NR_TZONES) l.

(** The V2 layout: mode, links, user, group, size, three times, zones of 32 bits. *)
Definition new_icopy_in (norm off block_size : Z) (l : list Z) (x : inode) : option inode :=
  mode ← word16 l off; uid ← word16 l (off + 4); nlinks ← word16 l (off + 2); gid ← word16 l (off + 6);
  size ← word32 l (off + 8); atime ← word32 l (off + 12); ctime ← word32 l (off + 20); mtime ← word32 l (off + 16);
  zs ← get_zones norm 4 (off + 24) (Z.to_nat V2_NR_TZONES) l;
  Some (set_i_zone (zs ++ drop (Z.to_nat V2_NR_TZONES) (i_zone x))
          (set_i_shape V2_NR_DZONES (V2_INDIRECTS block_size)
             (set_i_times (s32 (conv4 norm atime)) (s32 (conv4 norm mtime)) (s32 (conv4 norm ctime))
                (set_i_size (conv4 norm size)
                   (set_i_owner (s16 (conv2 norm nlinks)) (s16 (conv2 norm uid)) (char8 (conv2 norm gid))
                      (set_i_mode (conv2 norm mode) x)))))).

Definition new_icopy_out (norm off : Z) (x : inode) (l : list Z) : list Z :=
  let l := put_word16 off (conv2 norm (i_mode x)) l in
  let l := put_word16 (off + 4) (conv2 norm (i_uid x)) l in
  let l := put_word16 (off + 2) (conv2 norm (i_nlinks x)) l in
  let l := put_word16 (off + 6) (conv2 norm (i_gid x)) l in
  let l := put_word32 (off + 8) (conv4 norm (i_size x)) l in
  let l := put_word32 (off + 12) (conv4 norm (i_atime x)) l in
  let l := put_word32 (off + 20) (conv4 norm (i_ctime x)) l in
  let l := put_word32 (off + 16) (conv4 norm (i_mtime x)) l in
  put_zones norm 4 (off + 24) (i_zone x) (Z.to_nat V2_NR_TZONES) l.

(** Division in C: a zero divisor traps. *)
Definition div_by (a b : Z) : option Z := if b =? 0 then None else Some (Z.quot a b).
Definition rem_by (a b : Z) : option Z := if b =? 0 then None else Some (Z.rem a b).

Section inodes.
Context `{BD : BlockDev}.

Record vfs : Type := Vfs {
  cache : fsst;
  inodes : list inode;
  boottime : Z;
  getuptime : Z * Z;
  fp_effuid : Z;
  fp_effgid : Z }.

Definition with_cache (s : fsst) (v : vfs) : vfs := Vfs s (inodes v) (boottime v) (getuptime v) (fp_effuid v) (fp_effgid v).
Definition with_inodes (t : list inode) (v : vfs) : vfs := Vfs (cache v) t (boottime v) (getuptime v) (fp_effuid v) (fp_effgid v).

Definition on_cache {A} (m : M fsst A) : M vfs A := zoom cache with_cache m.
Definition rd_ino (i : Z) : M vfs inode := v ← get; lift_opt (zget (inodes v) i).
Definition upd_ino (i : Z) (f : inode → inode) : M vfs unit :=
  v ← get;
  x ← lift_opt (zget (inodes v) i);
  t ← lift_opt (zset (inodes v) i (f x));
  modify (with_inodes t).

(** [rip->i_sp] and what it points to. *)
Definition ino_super (x : inode) : M vfs super_block := spi ← lift_opt (i_sp x); on_cache (rd_super spi).

(** [rip->i_zone[k]]. *)
Definition rd_zone (rip k : Z) : M vfs Z := x ← rd_ino rip; lift_opt (zget (i_zone x) k).
Definition wr_zone (rip k z : Z) : M vfs unit :=
  x ← rd_ino rip;
  t ← lift_opt (zset (i_zone x) k z);
  upd_ino rip (set_i_zone t).
Definition get_err_code : M vfs Z := v ← get; mret (err_code (cache v)).

Definition clock_time : M vfs Z :=
  v ← get;
  let '(k, uptime) := getuptime v in
  if negb (k =? OK) then halt else
  mret (s32 (boottime v + Z.quot uptime HZ)).

(** ** Reading and writing inodes *)

Definition update_times (rip : Z) : M vfs unit :=
  x ← rd_ino rip;
  sp ← ino_super x;
  if negb (s_rd_only sp =? 0) then mret tt else
  cur_time ← clock_time;
  let upd_time (flag old : Z) := if negb (Z.land (i_update x) flag =? 0) then cur_time else old in
  upd_ino rip (set_i_times (upd_time ATIME (i_atime x)) (upd_time MTIME (i_mtime x)) (upd_time CTIME (i_ctime x)));;
  upd_ino rip (set_i_update 0).

(** The copy between the slot [rip] and the buffer [bp]. *)
Definition old_icopy (rip bp off direction norm : Z) : M vfs unit :=
  b ← on_cache (rd_buf bp);
  x ← rd_ino rip;
  if direction =? READING then
    y ← lift_opt (old_icopy_in norm off (b_data b) x);
    upd_ino rip (λ _, y)
  else on_cache (upd_buf bp (set_data (old_icopy_out norm off x (b_data b)))).

Definition new_icopy (rip bp off direction norm : Z) : M vfs unit :=
  b ← on_cache (rd_buf bp);
  x ← rd_ino rip;
  if direction =? READING then
    sp ← ino_super x;
    y ← lift_opt (new_icopy_in norm off (s_block_size sp) (b_data b) x);
    upd_ino rip (λ _, y)
  else on_cache (upd_buf bp (set_data (new_icopy_out norm off x (b_data b)))).

Definition rw_inode (rip rw_flag : Z) : M vfs unit :=
  x ← rd_ino rip;
  spi ← on_cache (get_super (i_dev x));
  sp ← on_cache (rd_super spi);
  upd_ino rip (set_i_sp (Some spi));;
  let offset := u32 (s_imap_blocks sp + s_zmap_blocks sp + 2) in
  q ← lift_opt (div_by (u32 (i_num x - 1)) (s_inodes_per_block sp));
  bp ← on_cache (get_block (i_dev x) (u32 (q + offset)) NORMAL);
  let dip := u32 (i_num x - 1) mod V1_INODES_PER_BLOCK in
  dip2 ← lift_opt (rem_by (u32 (i_num x - 1)) (V2_INODES_PER_BLOCK (s_block_size sp)));
  when (rw_flag =? WRITING)
    (when (negb (i_update x =? 0)) (update_times rip);;
     when (s_rd_only sp =? 0) (on_cache (upd_buf bp (set_dirt DIRTY))));;
  (if s_version sp =? V1 then old_icopy rip bp (V1_INODE_SIZE * dip) rw_flag (s_native sp)
   else new_icopy rip bp (V2_INODE_SIZE * dip2) rw_flag (s_native sp));;
  on_cache (put_block (Some bp) INODE_BLOCK);;
  upd_ino rip (set_i_dirt CLEAN).

(** ** The table *)

(** The search: a slot that holds the inode, or the last free slot. *)
Definition scan_step (dev numb : Z) (st : Z * option Z) : M vfs ((Z * option Z) + (Z + option Z)) :=
  let '(i, xp) := st in
  if NR_INODES <=? i then mret (inr (inr xp)) else
  x ← rd_ino i;
  if 0 <? i_count x then
    if (i_dev x =? dev) && (i_num x =? u32 numb) then mret (inr (inl i)) else mret (inl (i + 1, xp))
  else mret (inl (i + 1, Some i)).

Definition get_inode (dev numb : Z) : M vfs (option Z) :=
  r ← loop (S (Z.to_nat NR_INODES)) (scan_step dev numb) (0, None);
  match r with
  | inl i =>
      upd_ino i (λ x, set_i_count (i_count x + 1) x);;
      mret (Some i)
  | inr None =>
      on_cache (modify (with_err_code ENFILE));;
      mret None
  | inr (Some xp) =>
      upd_ino xp (λ x, set_i_count 1 (set_i_id dev (u32 numb) x));;
      when (negb (dev =? NO_DEV)) (rw_inode xp READING);;
      upd_ino xp (set_i_update 0);;
      mret (Some xp)
  end.

Definition dup_inode (ip : Z) : M vfs unit := upd_ino ip (λ x, set_i_count (i_count x + 1) x).

Definition wipe_inode (rip : Z) : M vfs unit :=
  upd_ino rip (λ x, set_i_zone (replicate (Z.to_nat V2_NR_TZONES) NO_ZONE ++ drop (Z.to_nat V2_NR_TZONES) (i_zone x))
                      (set_i_dirt DIRTY (set_i_update (Z.lor ATIME (Z.lor CTIME MTIME)) (set_i_size 0 x)))).

Definition alloc_inode (dev bits : Z) : M vfs (option Z) :=
  spi ← on_cache (get_super dev);
  sp ← on_cache (rd_super spi);
  if negb (s_rd_only sp =? 0) then on_cache (modify (with_err_code EROFS));; mret None else
  b ← on_cache (alloc_bit spi IMAP (s_isearch sp));
  if b =? NO_BIT then on_cache (modify (with_err_code ENFILE));; mret None else
  on_cache (upd_super spi (λ sp, set_search b (s_zsearch sp) sp));;
  slot ← get_inode NO_DEV b;
  match slot with
  | None =>
      on_cache (free_bit spi IMAP b);;
      mret None
  | Some rip =>
      v ← get;
      upd_ino rip (λ x, set_i_owner 0 (fp_effuid v) (fp_effgid v) (set_i_mode bits x));;
      upd_ino rip (λ x, set_i_sp (Some spi) (set_i_shape (s_ndzones sp) (s_nindirs sp) (set_i_id dev (i_num x) x)));;
      wipe_inode rip;;
      mret (Some rip)
  end.

Definition free_inode (dev inumb : Z) : M fsst unit :=
  spi ← get_super dev;
  sp ← rd_super spi;
  if (inumb <=? 0) || (s_ninodes sp <? inumb) then mret tt else
  free_bit spi IMAP inumb;;
  when (inumb <? s_isearch sp) (upd_super spi (λ sp, set_search inumb (s_zsearch sp) sp)).
End inodes.
