(* ===== verification/FileMap.v ===== *)
(** * The zones of a file of the reference file server

    [read_map] and [rd_indir] of [read.c], [write.c] but for [do_write],
    [truncate] of [link.c] and [put_inode] of [inode.c]. The first zones of a
    file are in its inode; further ones are in a single indirect block, and in
    the blocks that a double indirect block lists. *)

From S2P Require Import Prelude Cache Super Inode.

Definition NO_PIPE : Z := 0.
Definition I_PIPE : Z := 1.
Definition I_TYPE : Z := 0xF000.
Definition I_BLOCK_SPECIAL : Z := 0x6000.
Definition I_CHAR_SPECIAL : Z := 0x2000.
Definition I_NOT_ALLOC : Z := 0.
Definition EFBIG : Z := -27.
Definition PIPE_SIZE (b : Z) : Z := V1_NR_DZONES * b.

Section files.
Context `{BD : BlockDev}.

(** ** Indirect blocks *)

(** One entry of an indirect block; a number that is no zone is a panic. *)
Definition rd_indir (bp index : Z) : M fsst Z :=
  b ← rd_buf bp;
  spi ← get_super (b_dev b);
  sp ← rd_super spi;
  zone ← (if s_version sp =? V1 then w ← lift_opt (word16 (b_data b) (2 * index)); mret (conv2 (s_native sp) w)
          else w ← lift_opt (word32 (b_data b) (4 * index)); mret (conv4 (s_native sp) w));
  if negb (zone =? NO_ZONE) && ((zone <? s_firstdatazone sp) || (s_zones sp <=? zone)) then halt else
  mret zone.

Definition wr_indir (bp index zone : Z) : M fsst unit :=
  b ← rd_buf bp;
  spi ← get_super (b_dev b);
  sp ← rd_super spi;
  upd_buf bp (set_data (if s_version sp =? V1 then put_word16 (2 * index) (u16 (conv2 (s_native sp) zone)) (b_data b)
                        else put_word32 (4 * index) (u32 (conv4 (s_native sp) zone)) (b_data b))).

Definition zero_block (bp : Z) : M fsst unit :=
  upd_buf bp (set_data (replicate (Z.to_nat MAX_BLOCK_SIZE) 0));;
  upd_buf bp (set_dirt DIRTY).

(** ** Finding a block *)

(** The first block of a zone. *)
Definition zone_block (z scale : Z) : Z := u32 (Z.shiftl z scale).

(** The entry [ex] of the single indirect zone [z], and block [boff] of the zone
    it gives. *)
Definition single_map (dev z scale ex boff : Z) : M fsst Z :=
  if z =? NO_ZONE then mret NO_BLOCK else
  bp ← get_block dev (zone_block z scale) NORMAL;
  z ← rd_indir bp ex;
  put_block (Some bp) INDIRECT_BLOCK;;
  if z =? NO_ZONE then mret NO_BLOCK else
  mret (u32 (zone_block z scale + boff)).

Definition read_map (rip position : Z) : M vfs Z :=
  x ← rd_ino rip;
  sp ← ino_super x;
  let scale := s_log_zone_size sp in
  block_pos ← lift_opt (div_by position (s_block_size sp));
  let zone := Z.shiftr block_pos scale in
  let boff := block_pos - Z.shiftl zone scale in
  let dzones := i_ndzones x in
  let nr_indirects := i_nindirs x in
  if zone <? dzones then
    z ← rd_zone rip zone;
    if z =? NO_ZONE then mret NO_BLOCK else
    mret (u32 (zone_block z scale + boff))
  else
  let excess := zone - dzones in
  if excess <? nr_indirects then
    z ← rd_zone rip dzones;
    on_cache (single_map (i_dev x) z scale excess boff)
  else
    z ← rd_zone rip (dzones + 1);
    if z =? NO_ZONE then mret NO_BLOCK else
    let excess := excess - nr_indirects in
    bp ← on_cache (get_block (i_dev x) (zone_block z scale) NORMAL);
    index ← lift_opt (div_by excess nr_indirects);
    z ← on_cache (rd_indir bp index);
    on_cache (put_block (Some bp) INDIRECT_BLOCK);;
    excess ← lift_opt (rem_by excess nr_indirects);
    on_cache (single_map (i_dev x) z scale excess boff).

(** ** Entering a zone *)

(** The double indirect zone, and whether it is new. *)
Definition double_zone (rip zones : Z) : M vfs (Z * bool) :=
  z ← rd_zone rip (zones + 1);
  if negb (z =? NO_ZONE) then mret (z, false) else
  x ← rd_ino rip;
  first ← rd_zone rip 0;
  z ← on_cache (alloc_zone (i_dev x) first);
  when (negb (z =? NO_ZONE)) (wr_zone rip (zones + 1) z);;
  mret (z, true).

(** The single indirect zone [z1] of the inode, or of entry [ind_ex] of the double
    indirect block in [bp], and whether it is new. *)
Definition single_zone (rip zones : Z) (dbl : option (Z * Z)) (z1 : Z) : M vfs (Z * bool) :=
  if negb (z1 =? NO_ZONE) then mret (z1, false) else
  x ← rd_ino rip;
  first ← rd_zone rip 0;
  z1 ← on_cache (alloc_zone (i_dev x) first);
  match dbl with
  | None => wr_zone rip zones z1
  | Some (bp, ind_ex) => on_cache (wr_indir bp ind_ex z1);; on_cache (upd_buf bp (set_dirt DIRTY))
  end;;
  mret (z1, true).

(** [new_zone] becomes entry [excess] of the single indirect block. *)
Definition fill_entry (rip scale z1 : Z) (new_ind : bool) (excess new_zone : Z) : M vfs Z :=
  x ← rd_ino rip;
  bp ← on_cache (get_block (i_dev x) (zone_block z1 scale) (if new_ind then NO_READ else NORMAL));
  when new_ind (on_cache (zero_block bp));;
  on_cache (wr_indir bp excess new_zone);;
  on_cache (upd_buf bp (set_dirt DIRTY));;
  on_cache (put_block (Some bp) INDIRECT_BLOCK);;
  mret OK.

Definition enter_zone (rip zones scale : Z) (dbl : option (Z * Z)) (z1 excess new_zone : Z) : M vfs Z :=
  '(z1, new_ind) ← single_zone rip zones dbl z1;
  on_cache (put_block (fst <$> dbl) INDIRECT_BLOCK);;
  if z1 =? NO_ZONE then get_err_code else
  fill_entry rip scale z1 new_ind excess new_zone.

Definition write_map (rip position new_zone : Z) : M vfs Z :=
  upd_ino rip (set_i_dirt DIRTY);;
  x ← rd_ino rip;
  sp ← ino_super x;
  let scale := s_log_zone_size sp in
  block_pos ← lift_opt (div_by position (s_block_size sp));
  let zone := Z.shiftr block_pos scale in
  let zones := i_ndzones x in
  let nr_indirects := i_nindirs x in
  if zone <? zones then
    wr_zone rip zone new_zone;;
    mret OK
  else
  let excess := zone - zones in
  if excess <? nr_indirects then
    z1 ← rd_zone rip zones;
    enter_zone rip zones scale None z1 excess new_zone
  else
    '(z, new_dbl) ← double_zone rip zones;
    if z =? NO_ZONE then get_err_code else
    let excess := excess - nr_indirects in
    ind_ex ← lift_opt (div_by excess nr_indirects);
    excess ← lift_opt (rem_by excess nr_indirects);
    if nr_indirects <=? ind_ex then mret EFBIG else
    bp ← on_cache (get_block (i_dev x) (zone_block z scale) (if (new_dbl : bool) then NO_READ else NORMAL));
    when new_dbl (on_cache (zero_block bp));;
    z1 ← on_cache (rd_indir bp ind_ex);
    enter_zone rip zones scale (Some (bp, ind_ex)) z1 excess new_zone.

(** ** New blocks *)

Definition clear_zone (rip pos flag : Z) : M vfs unit :=
  x ← rd_ino rip;
  sp ← ino_super x;
  let scale := s_log_zone_size sp in
  if scale =? 0 then mret tt else
  let zone_size := u32 (Z.shiftl (s_block_size sp) scale) in
  pos ← (if flag =? 1 then q ← lift_opt (div_by pos zone_size); mret (u32 (q * zone_size)) else mret pos);
  let next := u32 (pos + s_block_size sp - 1) in
  nz ← lift_opt (div_by next zone_size);
  pz ← lift_opt (div_by pos zone_size);
  if negb (nz =? pz) then mret tt else
  blo ← read_map rip next;
  if blo =? NO_BLOCK then mret tt else
  let bhi := u32 (u32 (Z.shiftl (Z.shiftr blo scale + 1) scale) - 1) in
  for_each (range blo (Z.to_nat (bhi - blo + 1))) (λ b,
    bp ← on_cache (get_block (i_dev x) b NO_READ);
    on_cache (zero_block bp);;
    on_cache (put_block (Some bp) FULL_DATA_BLOCK)).

(** The block of a position that had none: [None] when there is none to be had. *)
Definition find_new (rip position : Z) : M vfs (option Z) :=
  x ← rd_ino rip;
  sp ← ino_super x;
  first ← rd_zone rip 0;
  z ← on_cache (alloc_zone (i_dev x) (if first =? NO_ZONE then s_firstdatazone sp else first));
  if z =? NO_ZONE then mret None else
  r ← write_map rip position z;
  if negb (r =? OK) then
    on_cache (free_zone (i_dev x) z);;
    on_cache (modify (with_err_code r));;
    mret None
  else
  when (negb (position =? i_size x)) (clear_zone rip position 1);;
  let scale := s_log_zone_size sp in
  let zone_size := u32 (Z.shiftl (s_block_size sp) scale) in
  in_zone ← lift_opt (rem_by position zone_size);
  boff ← lift_opt (div_by in_zone (s_block_size sp));
  mret (Some (u32 (zone_block z scale + boff))).

Definition new_block (rip position : Z) : M vfs (option Z) :=
  b ← read_map rip position;
  b ← (if b =? NO_BLOCK then find_new rip position else mret (Some b));
  match b with
  | None => mret None
  | Some b =>
      x ← rd_ino rip;
      bp ← on_cache (get_block (i_dev x) b NO_READ);
      on_cache (zero_block bp);;
      mret (Some bp)
  end.

(** ** Freeing all zones *)

(** The data zones, one after the other. *)
Definition data_step (rip dev scale size zone_size position : Z) : M vfs (Z + unit) :=
  if size <=? position then mret (inr tt) else
  b ← read_map rip position;
  when (negb (b =? NO_BLOCK)) (on_cache (free_zone dev (Z.shiftr b scale)));;
  mret (inl (u32 (position + zone_size))).

(** The zones that a double indirect block lists. *)
Definition free_listed (dev bp nr_indirects : Z) : M fsst unit :=
  for_each (range 0 (Z.to_nat nr_indirects)) (λ i,
    z1 ← rd_indir bp i;
    free_zone dev z1).

Definition truncate (rip : Z) : M vfs unit :=
  x ← rd_ino rip;
  let file_type := Z.land (i_mode x) I_TYPE in
  if (file_type =? I_CHAR_SPECIAL) || (file_type =? I_BLOCK_SPECIAL) then mret tt else
  sp ← ino_super x;
  let dev := i_dev x in
  let scale := s_log_zone_size sp in
  let zone_size := u32 (Z.shiftl (s_block_size sp) scale) in
  let waspipe := i_pipe x =? I_PIPE in
  let size := if waspipe then PIPE_SIZE (s_block_size sp) else i_size x in
  when waspipe (upd_ino rip (set_i_size size));;
  loop (S (Z.to_nat size)) (data_step rip dev scale size zone_size) 0;;
  upd_ino rip (set_i_dirt DIRTY);;
  if waspipe then wipe_inode rip else
  let single := i_ndzones x in
  z ← rd_zone rip single;
  on_cache (free_zone dev z);;
  z ← rd_zone rip (single + 1);
  when (negb (z =? NO_ZONE))
    (bp ← on_cache (get_block dev (zone_block z scale) NORMAL);
     on_cache (free_listed dev bp (i_nindirs x));;
     on_cache (put_block (Some bp) INDIRECT_BLOCK);;
     on_cache (free_zone dev z)).

(** ** Releasing an inode *)

Definition put_inode (rip : option Z) : M vfs unit :=
  match rip with
  | None => mret tt
  | Some rip =>
      upd_ino rip (λ x, set_i_count (i_count x - 1) x);;
      x ← rd_ino rip;
      if negb (i_count x =? 0) then mret tt else
      (if i_nlinks x =? 0 then
         truncate rip;;
         upd_ino rip (λ x, set_i_dirt DIRTY (set_i_mode I_NOT_ALLOC x));;
         on_cache (free_inode (i_dev x) (i_num x))
       else when (i_pipe x =? I_PIPE) (truncate rip));;
      upd_ino rip (set_i_pipe NO_PIPE);;
      x ← rd_ino rip;
      when (i_dirt x =? DIRTY) (rw_inode rip WRITING)
  end.
End files.
