(* ===== verification/Volume.v ===== *)
(** * A mounted file system

    A block that is changed while it is in use, with the entries of indirect blocks;
    and the super block of a device with its zone map, up to the search hints: zones
    are allocated and freed, blocks of zones are read and written, and indirect
    blocks are read and changed while they are in use. *)

From S2P Require Import Prelude Linked Cache CacheLists CacheSpec CacheRep CacheStore Super SuperSpec Zones Inode FileMap.

(** ** Blocks in use, and indirect blocks *)

Section hold.
Context `{RD : Reliable}.
Implicit Types (s : fsst) (b : buf).

(** The contents of all blocks, but that of block [n] of [dev], are as before. *)
Definition stored (dev n : Z) (l : list Z) (s s' : fsst) : Prop :=
  ∀ dev' n', dev' ≠ NO_DEV → contents s' dev' n' = put_store dev n l (contents s) dev' n'.

Definition same_tables (s s' : fsst) : Prop := supers s' = supers s ∧ rdwt_err s' = rdwt_err s.

Lemma stored_at dev n l s s' : dev ≠ NO_DEV → stored dev n l s s' → contents s' dev n = l.
Proof. intros Hd Hs. rewrite Hs by done. unfold put_store. by rewrite !Z.eqb_refl. Qed.

Lemma stored_other dev n l s s' dev' n' : stored dev n l s s' → dev' ≠ NO_DEV → (dev' = dev → n' ≠ n) → contents s' dev' n' = contents s dev' n'.
Proof.
  intros Hs Hd Hn. rewrite Hs by done. unfold put_store. destruct (Z.eqb_spec dev' dev) as [->|]; [|done].
  by destruct (Z.eqb_spec n' n) as [->|]; [destruct (Hn eq_refl)|].
Qed.

Lemma taken_count i dev n s s1 : idle s → counted i 1 s s1 → ∀ j c, zget (bufs s1) j = Some c → b_count c = held_count (Some (i, dev, n)) j.
Proof.
  intros Hi Hcn j c Hcc. specialize (Hcn j). rewrite (bview_get _ _ _ _ Hcc) in Hcn. unfold bview in Hcn.
  destruct (zget (bufs s) j) as [c0|] eqn:E0; [|done]. apply (inj Some) in Hcn. rewrite Hcn, (id_free _ Hi j c0 E0). cbn. by destruct (i =? j).
Qed.

(** *** Getting a block *)

Lemma hold_get s dev n :
  idle s → dev ≠ NO_DEV → on_disk s dev n →
  ∃ i s1, get_block dev n NORMAL s = Ret i s1 ∧ resting (Some (i, dev, n)) s1 ∧ transparent s s1 ∧ same_tables s s1.
Proof.
  intros Hi Hd Ho. destruct (id_cached _ _ Hi) as (L & H & Hc).
  destruct (get_block_reads L H s dev n Hc (id_coherent _ _ Hi) Hd Ho (λ _, idle_free _ _ _ Hi Hc) (idle_counts s Hi))
    as (i & s1 & E & [Hc1 Hco1 T1 (b & Hb & Hn & _) Hcn _ Hs1 He1]).
  exists i, s1. split; [done|]. split; [|done]. split; [done|done|by eapply taken_count|]. split; [done|]. by exists b.
Qed.

(** A block that need not be read is cleared. *)
Lemma hold_new s dev n :
  idle s → dev ≠ NO_DEV → on_disk s dev n →
  ∃ i s0 s1, get_block dev n NO_READ s = Ret i s0 ∧ zero_block i s0 = Ret tt s1 ∧ resting (Some (i, dev, n)) s1 ∧
    stored dev n (replicate (Z.to_nat (size_of s dev)) 0) s s1 ∧ same_tables s s1.
Proof.
  intros Hi Hd Ho. destruct (id_cached _ _ Hi) as (L & H & Hc).
  destruct (get_block_claims L H s dev n Hc (id_coherent _ _ Hi) Hd Ho (λ _, idle_free _ _ _ Hi Hc) (idle_counts s Hi))
    as (i & s0 & E & [(L0 & H0 & Hc0) Hco0 Hot (b & Hb & Ed & En) Hcn Hho Hs0 He0]).
  pose proof (size_range _ _ _ s dev Hc Hd) as Hsz. set (l := replicate (Z.to_nat MAX_BLOCK_SIZE) 0).
  destruct (overwrite_rep L0 H0 s0 i b l Hc0 Hco0 Hb ltac:(congruence) eq_refl) as (s1 & E1 & Hc1 & Hco1 & Hcon & Hcore & Hs1 & He1 & _ & Hb1 & _).
  exists i, s0, s1. split; [done|]. split.
  { unfold zero_block. fold l. rewrite (upd_buf_twice s0 i b _ _ Hb). unfold overwrite in E1. by rewrite (upd_buf_run s0 i b _ Hb) in E1. }
  split; [|split; [|split; congruence]].
  - split; [by exists L0, H0|done| |split; [done|by eexists]]. eapply taken_count; [done|]. eapply counted_views; [exact Hcn|].
    exact (bview_part core b_count (λ '(_, _, _, _, c), c) s0 s1 (λ b, eq_refl) Hcore).
  - intros dev' n' Hd'. rewrite Hcon by done. rewrite Ed, En, (size_same _ _ _ Hs0). unfold put_store.
    assert (take (Z.to_nat (size_of s dev)) l = replicate (Z.to_nat (size_of s dev)) 0) as ->.
    { unfold l. rewrite take_replicate. f_equal. lia. }
    destruct (Z.eqb_spec dev' dev) as [->|], (Z.eqb_spec n' n) as [->|]; cbn [andb];
      case_decide as Ec; try (by rewrite Ec in *); try congruence; apply Hot; congruence.
Qed.

(** *** While it is in use *)

Section held.
Context (i dev n : Z).
Notation mine := (Some (i, dev, n)).

Lemma held_buf s : resting mine s →
  ∃ b, zget (bufs s) i = Some b ∧ b_dev b = dev ∧ zlen (b_data b) = MAX_BLOCK_SIZE ∧
    MIN_BLOCK_SIZE ≤ size_of s dev ≤ MAX_BLOCK_SIZE ∧ take (Z.to_nat (size_of s dev)) (b_data b) = contents s dev n.
Proof.
  intros Hi. destruct (id_held _ _ Hi) as (Hd & b & Hb & Ed & En). destruct (id_cached _ _ Hi) as (L & H & Hc). exists b.
  split; [done|]. split; [done|]. split; [by apply (ca_data _ _ _ _ Hc i b)|]. split; [by eapply size_range|].
  subst dev n. by rewrite (contents_named _ _ _ _ _ _ Hc Hb Hd).
Qed.

Lemma hold_overwrite s l : resting mine s → zlen l = MAX_BLOCK_SIZE →
  ∃ s', overwrite i l s = Ret tt s' ∧ resting mine s' ∧ stored dev n (take (Z.to_nat (size_of s dev)) l) s s' ∧ same_tables s s'.
Proof.
  intros Hi Hl. destruct (id_held _ _ Hi) as (Hd & b & Hb & Ed & En). destruct (id_cached _ _ Hi) as (L & H & Hc).
  destruct (overwrite_rep L H s i b l Hc (coherent_mono nobody _ s (λ _, False_ind _) (id_coherent _ _ Hi)) Hb ltac:(congruence) Hl)
    as (s' & E & Hc' & Hco' & Hcon & Hcore & Hs' & He' & _ & Hb' & Hj).
  exists s'. split; [done|]. split; [|split; [|done]].
  - split; [by exists L, H|done| |split; [done|by eexists]]. intros j c Hcc.
    pose proof (bview_part core b_count (λ '(_, _, _, _, c), c) s s' (λ b, eq_refl) Hcore j) as Hv.
    rewrite (bview_get _ _ _ _ Hcc) in Hv. unfold bview in Hv. destruct (zget (bufs s) j) as [c0|] eqn:E0; [|done].
    apply (inj Some) in Hv. rewrite Hv. by apply (id_count _ _ Hi).
  - intros dev' n' Hd'. rewrite Hcon by done. rewrite Ed, En. unfold put_store.
    destruct (Z.eqb_spec dev' dev) as [->|], (Z.eqb_spec n' n) as [->|]; cbn [andb]; case_decide as Ec; try done; congruence.
Qed.

Lemma hold_put s ty : resting mine s → ∃ s', put_block (Some i) ty s = Ret tt s' ∧ idle s' ∧ transparent s s' ∧ same_tables s s'.
Proof.
  intros Hi. destruct (id_held _ _ Hi) as (Hd & b & Hb & _). destruct (id_cached _ _ Hi) as (L & H & Hc).
  destruct (put_block_rep L H s i b ty Hc (id_coherent _ _ Hi) Hb) as (s' & L' & E & Hc' & Hco' & T & Hcn' & _ & Hs & He).
  { rewrite (id_count _ _ Hi i b Hb). cbn. by rewrite Z.eqb_refl. }
  exists s'. split; [done|]. split; [|done]. split; [by exists L', H|done| |done].
  intros j c' Hcc'. specialize (Hcn' j). rewrite (bview_get _ _ _ _ Hcc') in Hcn'. unfold bview in Hcn'.
  destruct (zget (bufs s) j) as [c0|] eqn:E0; [|done]. apply (inj Some) in Hcn'. rewrite Hcn', (id_count _ _ Hi j c0 E0). cbn. by destruct (i =? j).
Qed.
End held.
End hold.

(** *** Entries of an indirect block *)

(** The bytes of an entry, and how many there are. *)
Definition entry (sp : super_block) (l : list Z) (j : Z) : Z :=
  if s_version sp =? V1 then conv2 (s_native sp) (default 0 (word16 l (2 * j))) else conv4 (s_native sp) (default 0 (word32 l (4 * j))).
Definition put_entry (sp : super_block) (j z : Z) (l : list Z) : list Z :=
  if s_version sp =? V1 then put_word16 (2 * j) (u16 (conv2 (s_native sp) z)) l else put_word32 (4 * j) (u32 (conv4 (s_native sp) z)) l.
Definition indirects (sp : super_block) : Z := if s_version sp =? V1 then V1_INDIRECTS else V2_INDIRECTS (s_block_size sp).

(** What [read_super] and the layout of a device give. *)
Record shaped (sp : super_block) : Prop := Shaped {
  sh_scale : 0 ≤ s_log_zone_size sp ≤ 4;
  sh_size : MIN_BLOCK_SIZE ≤ s_block_size sp ≤ MAX_BLOCK_SIZE;
  sh_old : s_version sp = V1 → s_block_size sp = STATIC_BLOCK_SIZE ∧ s_zones sp ≤ 65535;
  sh_zones : s_zones sp < 2 ^ 32 }.

Lemma word32_get l off : bytes l → 0 ≤ off → off + 3 < zlen l → ∃ x, word32 l off = Some x ∧ 0 ≤ x < 2 ^ 32.
Proof.
  intros Hl Ho Hn. unfold word32. destruct (word16_get l off Hl) as (a & -> & Ha); [lia|lia|]. destruct (word16_get l (off + 2) Hl) as (b & -> & Hb); [lia|lia|].
  eexists. split; [done|]. lia.
Qed.

Lemma word16_some l off : 0 ≤ off → off + 1 < zlen l → is_Some (word16 l off).
Proof.
  intros Ho Hn. unfold word16. destruct (zget_in l off) as [lo ->]; [lia|]. destruct (zget_in l (off + 1)) as [hi ->]; [lia|]. done.
Qed.

Lemma word32_some l off : 0 ≤ off → off + 3 < zlen l → is_Some (word32 l off).
Proof.
  intros Ho Hn. unfold word32. destruct (word16_some l off) as [x ->]; [lia|lia|]. destruct (word16_some l (off + 2)) as [y ->]; [lia|lia|]. done.
Qed.

(** A word that was put somewhere, read there or elsewhere. *)
Lemma word16_put_at l off x : 0 ≤ off → off + 1 < zlen l → word16 (put_word16 off x l) off = Some (u16 x).
Proof.
  intros Ho Hl. unfold put_word16, word16. rewrite !zget_upd by (rewrite ?zlen_upd; lia). destruct (Z.eqb_spec (off + 1) off); [lia|]. rewrite !Z.eqb_refl.
  f_equal. unfold u8, u16. change 65536 with (256 * 256). rewrite Z.rem_mul_r by lia. done.
Qed.

Lemma word16_put_away l off off' x : 0 ≤ off → off + 1 < zlen l → off' + 1 < off ∨ off + 1 < off' → word16 (put_word16 off x l) off' = word16 l off'.
Proof.
  intros Ho Hl Hne. unfold put_word16, word16. rewrite !zget_upd by (rewrite ?zlen_upd; lia).
  destruct (Z.eqb_spec (off + 1) off'), (Z.eqb_spec off off'), (Z.eqb_spec (off + 1) (off' + 1)), (Z.eqb_spec off (off' + 1)); try lia. done.
Qed.

Lemma put_word32_len off x l : zlen (put_word32 off x l) = zlen l.
Proof. unfold put_word32. by rewrite !put_word16_len. Qed.

Lemma word32_put_at l off x : 0 ≤ off → off + 3 < zlen l → word32 (put_word32 off x l) off = Some (u32 x).
Proof.
  intros Ho Hl. unfold put_word32, word32. rewrite word16_put_away by (rewrite ?put_word16_len; lia).
  rewrite word16_put_at by lia. rewrite word16_put_at by (rewrite ?put_word16_len; lia).
  f_equal. unfold u16, u32. change 4294967296 with (65536 * 65536). rewrite Z.rem_mul_r by lia. done.
Qed.

Lemma word32_put_away l off off' x : 0 ≤ off → off + 3 < zlen l → off' + 3 < off ∨ off + 3 < off' → word32 (put_word32 off x l) off' = word32 l off'.
Proof.
  intros Ho Hl Hne. unfold put_word32, word32. by rewrite !word16_put_away by (rewrite ?put_word16_len; lia).
Qed.

Lemma word16_word32_away l off off' x : 0 ≤ off → off + 3 < zlen l → off' + 1 < off ∨ off + 3 < off' → word16 (put_word32 off x l) off' = word16 l off'.
Proof. intros Ho Hl Hne. unfold put_word32. by rewrite !word16_put_away by (rewrite ?put_word16_len; lia). Qed.

Lemma put_word32_take l n off x : 0 ≤ off → off + 3 < n → take (Z.to_nat n) (put_word32 off x l) = put_word32 off x (take (Z.to_nat n) l).
Proof. intros Ho Hn. unfold put_word32. by rewrite !put_word16_take by lia. Qed.

Lemma word32_take l n off : off + 3 < n → word32 (take (Z.to_nat n) l) off = word32 l off.
Proof. intros Hn. unfold word32. by rewrite !word16_take by lia. Qed.

Section entries.
Context (sp : super_block) (Hsh : shaped sp).
Notation size := (s_block_size sp).
Notation ni := (indirects sp).

Lemma indirects_fit : 1 ≤ ni ∧ if s_version sp =? V1 then 2 * ni ≤ size else 4 * ni ≤ size.
Proof.
  pose proof (sh_size _ Hsh) as Hs. unfold MIN_BLOCK_SIZE, MAX_BLOCK_SIZE in Hs. unfold indirects. destruct (Z.eqb_spec (s_version sp) V1) as [E|].
  - rewrite (proj1 (sh_old _ Hsh E)). split; [done|]. done.
  - unfold V2_INDIRECTS. pose proof (Z.div_mod size 4 ltac:(lia)). pose proof (Z.mod_pos_bound size 4 ltac:(lia)). lia.
Qed.

Lemma put_entry_len j z l : zlen (put_entry sp j z l) = zlen l.
Proof. unfold put_entry. destruct (_ =? _); [apply put_word16_len|apply put_word32_len]. Qed.

Lemma put_entry_take l j z : 0 ≤ j < ni → take (Z.to_nat size) (put_entry sp j z l) = put_entry sp j z (take (Z.to_nat size) l).
Proof.
  intros Hj. destruct indirects_fit as [_ Hf]. unfold put_entry. destruct (s_version sp =? V1); [apply put_word16_take|apply put_word32_take]; lia.
Qed.

Lemma entry_take l j : 0 ≤ j < ni → entry sp (take (Z.to_nat size) l) j = entry sp l j.
Proof.
  intros Hj. destruct indirects_fit as [_ Hf]. unfold entry. destruct (s_version sp =? V1); [by rewrite word16_take by lia|by rewrite word32_take by lia].
Qed.

Lemma entry_put l j k z : 0 ≤ j < ni → 0 ≤ k < ni → size ≤ zlen l → 0 ≤ z → z = NO_ZONE ∨ z < s_zones sp →
  entry sp (put_entry sp j z l) k = if k =? j then z else entry sp l k.
Proof.
  intros Hj Hk Hl Hz0 Hz. destruct indirects_fit as [_ Hf]. pose proof (sh_zones _ Hsh). unfold entry, put_entry, NO_ZONE in *.
  destruct (Z.eqb_spec (s_version sp) V1) as [E|].
  - pose proof (sh_old _ Hsh E) as [_ Hzs]. assert (0 ≤ z < 65536) as Hz' by lia.
    destruct (Z.eqb_spec k j) as [->|Hne]; [|by rewrite word16_put_away by lia].
    rewrite word16_put_at by lia. cbn [default from_option id]. unfold u16. pose proof (conv2_range (s_native sp) z Hz').
    rewrite !(Z.mod_small (conv2 _ _)) by lia. by apply conv2_conv2.
  - assert (0 ≤ z < 4294967296) as Hz' by lia. destruct (Z.eqb_spec k j) as [->|Hne]; [|by rewrite word32_put_away by lia].
    rewrite word32_put_at by lia. cbn [default from_option id]. unfold u32. pose proof (conv4_range (s_native sp) z Hz').
    rewrite !(Z.mod_small (conv4 _ _)) by lia. by apply conv4_conv4.
Qed.

Lemma zget_zeros n i : zget (replicate n 0) i = None ∨ zget (replicate n 0) i = Some 0.
Proof. unfold zget. destruct (0 <=? i); [|by left]. destruct (decide (Z.to_nat i < n)%nat); [right; by apply lookup_replicate_2|left; apply lookup_replicate_None; lia]. Qed.

Lemma entry_zeros n j : entry sp (replicate n 0) j = NO_ZONE.
Proof.
  assert (∀ off, default 0 (word16 (replicate n 0) off) = 0) as H2.
  { intros off. unfold word16. destruct (zget_zeros n off) as [->| ->]; [done|]. by destruct (zget_zeros n (off + 1)) as [->| ->]. }
  unfold entry. destruct (_ =? _).
  - rewrite H2. unfold conv2. by destruct (s_native sp =? 0).
  - assert (default 0 (word32 (replicate n 0) (4 * j)) = 0) as ->.
    { unfold word32. pose proof (H2 (4 * j)) as Ha. pose proof (H2 (4 * j + 2)) as Hb.
      destruct (word16 _ (4 * j)) as [a|]; [|done]. destruct (word16 _ (4 * j + 2)) as [b|]; [|done]. cbn in *. by subst. }
    unfold conv4, conv2. by destruct (s_native sp =? 0).
Qed.
End entries.

(** ** A mounted file system *)

Section volume.
Context `{RD : Reliable} (spi : Z) (sp : super_block).
Implicit Types (s : fsst) (b : buf).
Notation dev := (s_dev sp).
Notation scale := (s_log_zone_size sp).

(** Blocks below this one hold the bit maps and the inodes. *)
Definition data_start : Z := s_firstdatazone sp * 2 ^ scale.

(** Blocks below this one hold the bit maps. *)
Definition map_end : Z := START_BLOCK + s_imap_blocks sp + s_zmap_blocks sp.

(** Blocks that are not part of the zone map. *)
Definition off_map (n : Z) : Prop := n < START_BLOCK + s_imap_blocks sp ∨ map_end ≤ n.

(** The device of the zones. *)
Record placed : Prop := Placed {
  pl_shaped : shaped sp;
  pl_maps : map_end ≤ data_start;
  pl_counts : 0 ≤ s_imap_blocks sp ∧ 0 ≤ s_zmap_blocks sp < 32768;
  pl_capacity : s_zones sp * 2 ^ scale * s_block_size sp ≤ capacity dev }.

Record volume (s : fsst) : Prop := Volume {
  vo_super : ∃ i h, sits dev spi (set_search i h sp) s ∧ writable (set_search i h sp) s;
  vo_placed : placed }.

Lemma vol_dev s : volume s → dev ≠ NO_DEV.
Proof. intros [(i & h & (Hd & _) & _) _]. done. Qed.

Lemma vol_size s : volume s → size_of s dev = s_block_size sp.
Proof. intros [(i & h & _ & Hw) _]. exact (mp_size _ _ _ (wb_map _ _ Hw)). Qed.

Lemma vol_zones s : volume s → 1 ≤ s_firstdatazone sp ≤ s_zones sp ∧ s_zones sp < 2 ^ 32.
Proof. intros [(i & h & _ & Hw) _]. exact (wb_zones _ _ Hw). Qed.

Lemma vol_super s : volume s → ∃ i h, get_super dev s = Ret spi s ∧ rd_super spi s = Ret (set_search i h sp) s.
Proof. intros [(i & h & Hs & _) _]. exists i, h. by apply get_super_run. Qed.

(** *** Blocks of zones *)

Lemma scale_pow s : volume s → 1 ≤ 2 ^ scale ≤ 16.
Proof.
  intros Hv. pose proof (sh_scale _ (pl_shaped (vo_placed _ Hv))) as Hs. split; [pose proof (Z.pow_pos_nonneg 2 scale); lia|].
  change 16 with (2 ^ 4). apply Z.pow_le_mono_r; lia.
Qed.

Lemma zone_block_place s z k : volume s → is_zone sp z → 0 ≤ k < 2 ^ scale →
  u32 (zone_block z scale + k) = z * 2 ^ scale + k ∧ on_disk s dev (z * 2 ^ scale + k) ∧ data_start ≤ z * 2 ^ scale + k.
Proof.
  intros Hv Hz Hk. pose proof (scale_pow s Hv) as Hp. pose proof (vo_placed _ Hv) as [Hsh _ _ Hcap]. pose proof (sh_size _ Hsh) as Hb.
  pose proof (sh_scale _ Hsh). pose proof (vol_zones s Hv) as [Hf _]. unfold is_zone in Hz.
  assert (on_disk s dev (z * 2 ^ scale + k)) as Ho.
  { unfold on_disk. rewrite (vol_size s Hv). unfold MIN_BLOCK_SIZE in Hb. split; [nia|]. etrans; [|exact Hcap]. apply Z.mul_le_mono_nonneg_r; [lia|]. nia. }
  assert (MIN_BLOCK_SIZE ≤ size_of s dev) as Hm by (rewrite (vol_size s Hv); lia). pose proof (on_disk_small _ _ _ Hm Ho) as Hsm.
  split; [|split; [done|unfold data_start; nia]]. unfold zone_block, u32. rewrite Z.shiftl_mul_pow2 by lia.
  rewrite (Z.mod_small (z * 2 ^ scale)) by nia. apply Z.mod_small. lia.
Qed.

Lemma zone_block_first s z : volume s → is_zone sp z →
  zone_block z scale = z * 2 ^ scale ∧ on_disk s dev (z * 2 ^ scale) ∧ data_start ≤ z * 2 ^ scale.
Proof.
  intros Hv Hz. pose proof (scale_pow s Hv). destruct (zone_block_place s z 0 Hv Hz ltac:(lia)) as (E & Ho & Hd). rewrite !Z.add_0_r in *.
  split; [|done]. rewrite <- E. unfold zone_block, u32. by rewrite Z.mod_mod by lia.
Qed.

(** *** What a change of blocks keeps *)

Lemma map_block_low n : placed → 0 ≤ n < map_blocks sp ZMAP → START_BLOCK + s_imap_blocks sp ≤ map_start sp ZMAP + n < map_end.
Proof.
  intros [_ Hm Hc _] Hn. unfold map_blocks, map_start, map_end in *. change (ZMAP =? IMAP) with false in *. cbv iota in *. unfold u32 in Hn.
  rewrite Z.mod_small in Hn by lia. lia.
Qed.

(** The maps are where they were. *)
Lemma vol_keep s s' :
  volume s → supers s' = supers s → (∀ n, START_BLOCK + s_imap_blocks sp ≤ n < map_end → contents s' dev n = contents s dev n) →
  volume s' ∧ ∀ z, is_zone sp z → zone_used sp s' z = zone_used sp s z.
Proof.
  intros Hv Hs Hlow. pose proof Hv as [(i & h & Hsi & Hw) Hp]. pose proof (wb_map _ _ Hw) as Hm. set (sp' := set_search i h sp) in *.
  assert (∀ n, 0 ≤ n < map_blocks sp ZMAP * bits_per sp → mbit sp' ZMAP s' n = mbit sp' ZMAP s n) as Hbit.
  { intros n Hn. unfold mbit. f_equal. change (s_dev sp') with dev. apply Hlow. unfold bit_block. change (bits_per sp') with (bits_per sp).
    change (map_start sp' ZMAP) with (map_start sp ZMAP). apply map_block_low; [done|]. assert (1 ≤ map_blocks sp ZMAP) by exact (mp_blocks _ _ _ Hm). assert (0 < bits_per sp) by nia.
    split; [apply Z.div_pos; lia|apply Z.div_lt_upper_bound; lia]. }
  pose proof (zone_bits _ _ Hw) as Hzb. pose proof (mp_bits _ _ _ Hm) as Hmb. change (map_bits sp' ZMAP) with (map_bits sp ZMAP) in *.
  change (map_blocks sp' ZMAP) with (map_blocks sp ZMAP) in *. change (bits_per sp') with (bits_per sp) in *. pose proof (wb_zones _ _ Hw) as [Hz1 Hz2].
  change (s_zones sp') with (s_zones sp) in *. change (s_firstdatazone sp') with (s_firstdatazone sp) in *.
  split.
  - split; [|done]. exists i, h. fold sp'. split; [by eapply sits_same|]. destruct Hw as [_ Hrw Hz Hr [H0 Hb]]. split; try done.
    + destruct Hm as [? Hsz ? ? ? ? Hk ?]. split; try done; [by rewrite (size_same _ _ _ Hs)|]. intros k Hkr. destruct (Hk k Hkr) as [Ho Hby].
      split; [unfold on_disk; by rewrite (size_same _ _ _ Hs)|]. change (s_dev sp') with dev. rewrite Hlow; [done|]. by apply map_block_low.
    + rewrite Hbit by lia. done.
    + split; [done|]. intros m Hm1 Hm2. change (map_bits sp' ZMAP) with (map_bits sp ZMAP) in Hm2. rewrite Hbit by lia. by apply Hb.
  - intros z Hz. unfold zone_used, is_zone in *. apply Hbit. lia.
Qed.

(** The hint for inodes is another. *)
Lemma vol_isearch ho n s : resting ho s → volume s →
  ∃ s', upd_super spi (λ sp, set_search n (s_zsearch sp) sp) s = Ret tt s' ∧ resting ho s' ∧ volume s' ∧ transparent s s' ∧
    ∀ z, is_zone sp z → zone_used sp s' z = zone_used sp s z.
Proof.
  intros Hi [(i & h & Hsi & Hw) Hp]. pose proof Hsi as (Hd & Hf & Hz & Hdv). set (sp1 := set_search i h sp) in *.
  destruct (upd_super_run s spi sp1 (λ sp, set_search n (s_zsearch sp) sp) Hz eq_refl) as [E Rs].
  pose proof (sits_upd dev spi sp1 (λ sp, set_search n (s_zsearch sp) sp) s Hsi eq_refl) as Hsi'. cbv beta in Hsi'.
  set (s' := with_supers _ s) in *. exists s'. pose proof (resuper_idle s s' Rs Hi) as Hi'.
  assert (transparent s s') as T by (intros d k _; by apply resuper_contents).
  assert (∀ k, mbit sp1 ZMAP s' k = mbit sp1 ZMAP s k) as Hb by (intros k; unfold mbit; by rewrite T).
  split; [done|]. split; [done|]. split; [|split; [done|intros z _; apply Hb]]. split; [|done]. exists n, h. split; [exact Hsi'|].
  destruct Hw as [[? Hsz ? ? ? ? Hk ?] Hrw Hzs Hr [H0 Hs]]. destruct Rs as (t & Es & Et). assert (∀ d, size_of s' d = size_of s d) as Hsize by (intros d; rewrite Es; by apply size_of_view).
  split; [|done|done|by rewrite <- Hr, <- Hb|split; [done|]; intros m Hm1 Hm2; rewrite <- (Hs m Hm1 Hm2), <- Hb; done].
  split; try done; [exact (eq_trans (Hsize _) Hsz)|]. intros k Hkr. destruct (Hk k Hkr) as [Ho Hby].
  split; [|change (s_dev (set_search n h sp)) with dev; rewrite T by done; exact Hby]. unfold on_disk in *. change (s_dev (set_search n h sp)) with dev. by rewrite Hsize.
Qed.

(** *** Zones *)

(** One zone is given out or taken back; all blocks but those of the zone map are as they
    were. *)
Record rezoned (ho : holder) (z : Z) (v : bool) (s s' : fsst) : Prop := Rezoned {
  rz_rest : resting ho s';
  rz_volume : volume s';
  rz_used z' : is_zone sp z' → zone_used sp s' z' = if z' =? z then v else zone_used sp s z';
  rz_data d n : d ≠ NO_DEV → (d = dev → off_map n) → contents s' d n = contents s d n }.

Lemma step_rezoned ho i h sp' z v s s' :
  placed → is_zone sp z → writable (set_search i h sp) s →
  zone_step (ho := ho) dev spi (set_search i h sp) sp' z v s s' → rezoned ho z v s s'.
Proof.
  intros Hp Hz Hw [Hi Hsi Hw' Hu Hcon (h' & ->) _]. split; [done| |done|].
  - split; [|done]. by exists i, h'.
  - intros d n Hd Hn. apply Hcon; [done|]. intros ->. specialize (Hn eq_refl). unfold bit_block. intros ->.
    change (bits_per (set_search i h sp)) with (bits_per sp) in Hn. change (map_start (set_search i h sp) ZMAP) with (map_start sp ZMAP) in Hn.
    change (s_firstdatazone (set_search i h sp)) with (s_firstdatazone sp) in Hn.
    pose proof (zone_bits _ _ Hw) as Hzb. pose proof (mp_bits _ _ _ (wb_map _ _ Hw)) as Hmb. pose proof (wb_zones _ _ Hw) as [Hz1 Hz2].
    change (map_bits (set_search i h sp) ZMAP) with (map_bits sp ZMAP) in *. change (map_blocks (set_search i h sp) ZMAP) with (map_blocks sp ZMAP) in *.
    change (bits_per (set_search i h sp)) with (bits_per sp) in *. change (s_zones (set_search i h sp)) with (s_zones sp) in *.
    change (s_firstdatazone (set_search i h sp)) with (s_firstdatazone sp) in *. unfold is_zone in Hz. set (k := z - (s_firstdatazone sp - 1)) in *.
    assert (0 ≤ k < map_blocks sp ZMAP * bits_per sp) as Hk by lia. assert (1 ≤ map_blocks sp ZMAP) by exact (mp_blocks _ _ _ (wb_map _ _ Hw)). assert (0 < bits_per sp) by nia.
    assert (0 ≤ k / bits_per sp < map_blocks sp ZMAP) as Hkb by (split; [apply Z.div_pos; lia|apply Z.div_lt_upper_bound; lia]).
    pose proof (map_block_low _ Hp Hkb). unfold off_map in Hn. lia.
Qed.

Lemma vol_alloc ho z0 s : resting ho s → volume s →
  (∃ z s', alloc_zone dev z0 s = Ret z s' ∧ is_zone sp z ∧ zone_used sp s z = false ∧ rezoned ho z true s s') ∨
  (∃ s', alloc_zone dev z0 s = Ret NO_ZONE s' ∧ (∀ z', is_zone sp z' → zone_used sp s z' = true) ∧ resting ho s' ∧ volume s' ∧ transparent s s' ∧
     (∀ z', is_zone sp z' → zone_used sp s' z' = zone_used sp s z') ∧ err_code s' = ENOSPC).
Proof.
  intros Hi Hv. pose proof Hv as [(i & h & Hsi & Hw) Hp].
  destruct (alloc_zone_run dev spi _ z0 s Hi Hsi Hw) as [(z & sp' & s' & E & Hz & Hf & Hst)|(s' & E & Hall & Hi' & T & Hs & He)]; [left|right].
  - exists z, s'. split_and!; try done. by eapply step_rezoned.
  - exists s'. pose proof (vol_dev _ Hv) as Hd. destruct (vol_keep s s' Hv Hs (λ n _, T dev n Hd)) as [Hv' Hu]. split_and!; done.
Qed.

Lemma vol_free ho z s : resting ho s → volume s → is_zone sp z → zone_used sp s z = true →
  ∃ s', free_zone dev z s = Ret tt s' ∧ rezoned ho z false s s'.
Proof.
  intros Hi Hv Hz Hu. pose proof Hv as [(i & h & Hsi & Hw) Hp]. pose proof (free_zone_run dev spi _ z s Hi Hsi Hw Hz) as Hf.
  change (zone_used (set_search i h sp) s z) with (zone_used sp s z) in Hf. rewrite Hu in Hf. destruct Hf as (sp' & s' & E & Hst).
  exists s'. split; [done|]. by eapply step_rezoned.
Qed.

Lemma vol_free_none z s : volume s → ¬ is_zone sp z → free_zone dev z s = Ret tt s.
Proof. intros [(i & h & Hsi & Hw) Hp] Hz. by eapply free_zone_outside. Qed.

(** *** Blocks in use *)

Definition zone_ok (z : Z) : Prop := z = NO_ZONE ∨ is_zone sp z.

(** Block [n] of the data is another, and nothing else. *)
Record rewrote (ho : holder) (n : Z) (l : list Z) (s s' : fsst) : Prop := Rewrote {
  rw_rest : resting ho s';
  rw_volume : volume s';
  rw_used z : is_zone sp z → zone_used sp s' z = zone_used sp s z;
  rw_stored : stored dev n l s s' }.

Lemma stored_rewrote ho n l s s' :
  volume s → data_start ≤ n → resting ho s' → stored dev n l s s' → same_tables s s' → rewrote ho n l s s'.
Proof.
  intros Hv Hn Hi Hst [Hs _]. destruct (vol_keep s s' Hv Hs) as [Hv' Hu]; [|done].
  intros k Hk. pose proof (pl_maps (vo_placed _ Hv)). apply (stored_other dev n l s s'); [done|by eapply vol_dev|lia].
Qed.

(** Nothing that can be seen changes. *)
Record unseen (ho : holder) (s s' : fsst) : Prop := Unseen {
  un_rest : resting ho s';
  un_volume : volume s';
  un_used z : is_zone sp z → zone_used sp s' z = zone_used sp s z;
  un_same : transparent s s' }.

Lemma transparent_unseen ho s s' : volume s → resting ho s' → transparent s s' → same_tables s s' → unseen ho s s'.
Proof. intros Hv Hi T [Hs _]. pose proof (vol_dev _ Hv) as Hd. destruct (vol_keep s s' Hv Hs (λ n _, T dev n Hd)) as [Hv' Hu]. done. Qed.

Lemma vol_get s n : idle s → volume s → on_disk s dev n →
  ∃ i s', get_block dev n NORMAL s = Ret i s' ∧ unseen (Some (i, dev, n)) s s'.
Proof.
  intros Hi Hv Ho. destruct (hold_get s dev n Hi (vol_dev _ Hv) Ho) as (i & s' & E & Hi' & T & Hs).
  exists i, s'. split; [done|]. by apply transparent_unseen.
Qed.

Lemma vol_new s n : idle s → volume s → on_disk s dev n → data_start ≤ n →
  ∃ i s0 s', get_block dev n NO_READ s = Ret i s0 ∧ zero_block i s0 = Ret tt s' ∧
    rewrote (Some (i, dev, n)) n (replicate (Z.to_nat (s_block_size sp)) 0) s s'.
Proof.
  intros Hi Hv Ho Hn. destruct (hold_new s dev n Hi (vol_dev _ Hv) Ho) as (i & s0 & s' & E0 & E & Hi' & Hst & Hs).
  rewrite (vol_size s Hv) in Hst. exists i, s0, s'. split; [done|]. split; [done|]. by apply stored_rewrote.
Qed.

Lemma vol_put s i n ty : resting (Some (i, dev, n)) s → volume s → ∃ s', put_block (Some i) ty s = Ret tt s' ∧ unseen None s s'.
Proof.
  intros Hi Hv. destruct (hold_put i dev n s ty Hi) as (s' & E & Hi' & T & Hs). exists s'. split; [done|]. by apply transparent_unseen.
Qed.

Lemma rd_indir_run s i n j :
  resting (Some (i, dev, n)) s → volume s → 0 ≤ j < indirects sp → zone_ok (entry sp (contents s dev n) j) →
  rd_indir i j s = Ret (entry sp (contents s dev n) j) s.
Proof.
  intros Hi Hv Hj Hz. destruct (held_buf i dev n s Hi) as (b & Hb & Ed & Hl & Hsz & Hdat). rewrite (vol_size s Hv) in *.
  destruct (vol_super s Hv) as (k & h & Eg & Er). pose proof (pl_shaped (vo_placed _ Hv)) as Hsh.
  rewrite <- Hdat, entry_take in * by done. unfold rd_indir. step (rd_buf_run s i b Hb). rewrite Ed. step Eg. step Er.
  cbn [s_version s_native s_zones s_firstdatazone set_search]. destruct (indirects_fit sp Hsh) as [_ Hf]. unfold MIN_BLOCK_SIZE in *.
  set (z := entry sp (b_data b) j) in *.
  assert ((if s_version sp =? V1 then w ← lift_opt (word16 (b_data b) (2 * j)); mret (conv2 (s_native sp) w)
           else w ← lift_opt (word32 (b_data b) (4 * j)); mret (conv4 (s_native sp) w)) s = Ret z s) as Ez.
  { unfold z, entry. destruct (s_version sp =? V1).
    - destruct (word16_some (b_data b) (2 * j)) as [w Ew]; [lia|lia|]. rewrite (bind_lift _ _ _ _ Ew). by rewrite Ew.
    - destruct (word32_some (b_data b) (4 * j)) as [w Ew]; [lia|lia|]. rewrite (bind_lift _ _ _ _ Ew). by rewrite Ew. }
  step Ez. destruct Hz as [->|Hz]; [done|]. unfold is_zone in Hz. destruct (Z.ltb_spec z (s_firstdatazone sp)), (Z.leb_spec (s_zones sp) z); try lia.
  by destruct (z =? NO_ZONE).
Qed.

Lemma wr_indir_run s i n j z :
  resting (Some (i, dev, n)) s → volume s → data_start ≤ n → 0 ≤ j < indirects sp →
  ∃ s1 s', wr_indir i j z s = Ret tt s1 ∧ upd_buf i (set_dirt DIRTY) s1 = Ret tt s' ∧
    rewrote (Some (i, dev, n)) n (put_entry sp j z (contents s dev n)) s s'.
Proof.
  intros Hi Hv Hn Hj. destruct (held_buf i dev n s Hi) as (b & Hb & Ed & Hl & Hsz & Hdat). rewrite (vol_size s Hv) in *.
  destruct (vol_super s Hv) as (k & h & Eg & Er). pose proof (pl_shaped (vo_placed _ Hv)) as Hsh.
  destruct (hold_overwrite i dev n s (put_entry sp j z (b_data b)) Hi) as (s' & E & Hi' & Hst & Hs); [by rewrite put_entry_len|].
  rewrite (vol_size s Hv), put_entry_take, Hdat in Hst by done.
  exists (with_bufs (upd (bufs s) i (set_data (put_entry sp j z (b_data b)) b)) s), s'. split; [|split].
  - unfold wr_indir. step (rd_buf_run s i b Hb). rewrite Ed. step Eg. step Er. by apply (upd_buf_run s i b).
  - pose proof (upd_buf_twice s i b (set_data (put_entry sp j z (b_data b))) (set_dirt DIRTY) Hb) as Et.
    rewrite (bind_ret _ _ _ _ _ (upd_buf_run s i b _ Hb)) in Et. rewrite Et. unfold overwrite in E. by rewrite (upd_buf_run s i b _ Hb) in E.
  - by apply stored_rewrote.
Qed.
End volume.
