(* ===== verification/FileZones.v ===== *)
(** * The zones of a file

    The places in the map of a file, the zones it has there, and what a change of the
    map or of a block does to them; then [read_map] on a file that is in order. *)

From S2P Require Import Prelude Linked Cache CacheLists CacheSpec CacheRep CacheStore Super SuperSpec Zones Inode FileMap Volume.

(** ** The map of a file *)

Inductive place : Type := Data (k : Z) | Single | Double | Inner (i : Z).

#[global] Instance place_eq_dec : EqDecision place.
Proof. solve_decision. Defined.

Section zones.
Context `{RD : Reliable} (spi : Z) (sp : super_block).
Implicit Types (s : fsst) (zs : list Z).
Notation dev := (s_dev sp).
Notation ni := (indirects sp).
Notation nd := V2_NR_DZONES.

(** *** Places *)

(** The first block of a zone holds its entries, when it is an indirect zone. *)
Definition first_block (z : Z) : Z := z * 2 ^ s_log_zone_size sp.

Definition ind (s : fsst) (z j : Z) : Z := if z =? NO_ZONE then NO_ZONE else entry sp (contents s dev (first_block z)) j.
Definition direct (zs : list Z) (k : Z) : Z := default NO_ZONE (zget zs k).

Definition zone_at (zs : list Z) (s : fsst) (p : place) : Z :=
  match p with
  | Single => direct zs nd
  | Double => direct zs (nd + 1)
  | Inner i => ind s (direct zs (nd + 1)) i
  | Data k =>
      if k <? nd then direct zs k
      else if k - nd <? ni then ind s (direct zs nd) (k - nd)
      else ind s (ind s (direct zs (nd + 1)) ((k - nd - ni) / ni)) ((k - nd - ni) mod ni)
  end.

(** How many zones the data of a file can have. *)
Definition file_zones : Z := nd + ni + ni * ni.

Definition valid (p : place) : Prop :=
  match p with Data k => 0 ≤ k < file_zones | Inner i => 0 ≤ i < ni | _ => True end.

Record file_ok (zs : list Z) (s : fsst) : Prop := FileOk {
  fo_len : zlen zs = V2_NR_TZONES;
  fo_zone p : valid p → zone_at zs s p = NO_ZONE ∨ is_zone sp (zone_at zs s p) ∧ zone_used sp s (zone_at zs s p) = true;
  fo_own p q : valid p → valid q → zone_at zs s p ≠ NO_ZONE → zone_at zs s p = zone_at zs s q → p = q }.

Lemma inner_index k : shaped sp → 0 ≤ k < file_zones → nd ≤ k → ni ≤ k - nd →
  0 ≤ (k - nd - ni) / ni < ni ∧ 0 ≤ (k - nd - ni) mod ni < ni.
Proof.
  intros Hsh Hk Hd Hi. destruct (indirects_fit sp Hsh) as [Hn _]. unfold file_zones in Hk. split; [|apply Z.mod_pos_bound; lia].
  split; [apply Z.div_pos; lia|apply Z.div_lt_upper_bound; lia].
Qed.

Lemma fo_ok zs s p : file_ok zs s → valid p → zone_ok sp (zone_at zs s p).
Proof. intros Hf Hp. destruct (fo_zone _ _ Hf p Hp) as [?|[? _]]; [by left|by right]. Qed.

(** *** Same entries *)

Lemma ind_same s s' z j : (z ≠ NO_ZONE → contents s' dev (first_block z) = contents s dev (first_block z)) → ind s' z j = ind s z j.
Proof. intros H. unfold ind. destruct (Z.eqb_spec z NO_ZONE); [done|]. by rewrite H. Qed.

(** A file depends on its indirect blocks only. *)
Lemma zone_at_same zs s s' : shaped sp →
  (∀ p, match p with Data _ => False | _ => True end → valid p → zone_at zs s p ≠ NO_ZONE →
     contents s' dev (first_block (zone_at zs s p)) = contents s dev (first_block (zone_at zs s p))) →
  ∀ p, valid p → zone_at zs s' p = zone_at zs s p.
Proof.
  intros Hsh H p Hp. destruct p as [k| | |i]; cbn [zone_at] in *; try done.
  - destruct (Z.ltb_spec k nd); [done|]. destruct (Z.ltb_spec (k - nd) ni); [apply ind_same, (H Single I I)|].
    destruct (inner_index k Hsh Hp) as [Hi1 Hi2]; [done|done|]. rewrite (ind_same s s' (direct zs (nd + 1))) by (apply (H Double I I)).
    apply ind_same. exact (H (Inner _) I Hi1).
  - apply ind_same, (H Double I I).
Qed.

(** The data blocks and the zones in use are as they were. *)
Lemma file_ok_same zs s s' : shaped sp → file_ok zs s →
  (∀ z, is_zone sp z → zone_used sp s z = true → zone_used sp s' z = true) →
  (∀ z, is_zone sp z → zone_used sp s z = true → contents s' dev (first_block z) = contents s dev (first_block z)) →
  file_ok zs s' ∧ ∀ p, valid p → zone_at zs s' p = zone_at zs s p.
Proof.
  intros Hsh Hf Hu Hc. assert (∀ p, valid p → zone_at zs s' p = zone_at zs s p) as Hz.
  { apply zone_at_same; [done|]. intros p _ Hp Hne. destruct (fo_zone _ _ Hf p Hp) as [?|[Hz1 Hz2]]; [done|]. by apply Hc. }
  split; [|done]. split; [apply Hf| |].
  - intros p Hp. rewrite (Hz p Hp). destruct (fo_zone _ _ Hf p Hp) as [?|[Hz1 Hz2]]; [by left|right]. split; [done|]. by apply Hu.
  - intros p q Hp Hq. rewrite (Hz p Hp), (Hz q Hq). by apply (fo_own _ _ Hf).
Qed.

(** *** Filling a place *)

(** No place of the file has the zone [z]. *)
Definition foreign (zs : list Z) (s : fsst) (z : Z) : Prop := ∀ p, valid p → zone_at zs s p ≠ z.

Lemma unused_foreign zs s z : file_ok zs s → is_zone sp z → zone_used sp s z = false → z ≠ NO_ZONE → foreign zs s z.
Proof. intros Hf Hz Hu Hne p Hp Ez. destruct (fo_zone _ _ Hf p Hp) as [E|[_ E]]; congruence. Qed.

Lemma file_ok_set zs s zs' s' p0 z :
  file_ok zs s → zlen zs' = V2_NR_TZONES → foreign zs s z → is_zone sp z → zone_used sp s' z = true →
  (∀ z', is_zone sp z' → zone_used sp s z' = true → zone_used sp s' z' = true) →
  (∀ p, valid p → zone_at zs' s' p = if decide (p = p0) then z else zone_at zs s p) → file_ok zs' s'.
Proof.
  intros Hf Hl Hfo Hz Hu Hm Hat. split; [done| |].
  - intros p Hp. rewrite (Hat p Hp). case_decide; [by right|]. destruct (fo_zone _ _ Hf p Hp) as [?|[Hz1 Hz2]]; [by left|right].
    split; [done|]. by apply Hm.
  - intros p q Hp Hq. rewrite (Hat p Hp), (Hat q Hq). do 2 case_decide; try congruence.
    + intros _ E. symmetry in E. by destruct (Hfo q Hq).
    + intros _ E. by destruct (Hfo p Hp).
    + by apply (fo_own _ _ Hf).
Qed.

Lemma direct_upd zs k j z : 0 ≤ k < zlen zs → direct (upd zs k z) j = if k =? j then z else direct zs j.
Proof. intros Hk. unfold direct. rewrite zget_upd by done. by destruct (k =? j). Qed.

Section fill.
Context (zs : list Z) (s : fsst) (Hsh : shaped sp) (Hf : file_ok zs s).

(** A direct zone. *)
Lemma set_direct k z : 0 ≤ k < nd → ∀ p, valid p → zone_at (upd zs k z) s p = if decide (p = Data k) then z else zone_at zs s p.
Proof.
  intros Hk p Hp. pose proof (fo_len _ _ Hf) as Hl. unfold V2_NR_TZONES in Hl. unfold V2_NR_DZONES in *.
  assert (∀ j, direct (upd zs k z) j = if k =? j then z else direct zs j) as Hd by (intros j; apply direct_upd; lia).
  assert (direct (upd zs k z) 7 = direct zs 7 ∧ direct (upd zs k z) (7 + 1) = direct zs (7 + 1)) as [H7 H8].
  { rewrite !Hd. destruct (Z.eqb_spec k 7), (Z.eqb_spec k (7 + 1)); lia || done. }
  destruct p as [j| | |i]; cbn [zone_at]; unfold V2_NR_DZONES; rewrite ?H7, ?H8; try (by case_decide).
  destruct (Z.ltb_spec j 7).
  - rewrite Hd. destruct (Z.eqb_spec k j) as [->|]; case_decide; congruence.
  - case_decide as E; [injection E as ->; lia|]. by destruct (j - 7 <? ni).
Qed.

Context (s' : fsst).

(** The other indirect blocks are as they were. *)
Definition untouched (z0 : Z) : Prop := ∀ p, valid p → zone_at zs s p ≠ NO_ZONE → zone_at zs s p ≠ z0 →
  contents s' dev (first_block (zone_at zs s p)) = contents s dev (first_block (zone_at zs s p)).

Lemma ind_untouched z0 p j : untouched z0 → valid p → zone_at zs s p ≠ z0 → ind s' (zone_at zs s p) j = ind s (zone_at zs s p) j.
Proof. intros Hu Hp Hne. apply ind_same. intros Hz. by apply Hu. Qed.

(** An entry of the single indirect block, or of an inner one. *)
Lemma set_indirect k z : nd ≤ k < file_zones → 0 ≤ z → z = NO_ZONE ∨ z < s_zones sp →
  let p0 := if k - nd <? ni then Single else Inner ((k - nd - ni) / ni) in
  let j := if k - nd <? ni then k - nd else (k - nd - ni) mod ni in
  zone_at zs s p0 ≠ NO_ZONE → untouched (zone_at zs s p0) → s_block_size sp ≤ zlen (contents s dev (first_block (zone_at zs s p0))) →
  contents s' dev (first_block (zone_at zs s p0)) = put_entry sp j z (contents s dev (first_block (zone_at zs s p0))) →
  ∀ p, valid p → zone_at zs s' p = if decide (p = Data k) then z else zone_at zs s p.
Proof.
  intros Hk Hz0 Hz p0 j Hne Hu Hlen Hc. destruct (indirects_fit sp Hsh) as [Hn _].
  assert (valid p0) as Hp0. { unfold p0. destruct (Z.ltb_spec (k - nd) ni); [done|]. apply inner_index; try done; unfold V2_NR_DZONES in *; lia. }
  assert (0 ≤ j < ni) as Hj. { unfold j. destruct (Z.ltb_spec (k - nd) ni); [unfold V2_NR_DZONES in *; lia|apply Z.mod_pos_bound; lia]. }
  assert (∀ i, 0 ≤ i < ni → ind s' (zone_at zs s p0) i = if i =? j then z else ind s (zone_at zs s p0) i) as Hind.
  { intros i Hi. unfold ind. destruct (Z.eqb_spec (zone_at zs s p0) NO_ZONE); [done|]. rewrite Hc. by rewrite (entry_put sp Hsh). }
  assert (∀ p i, valid p → p ≠ p0 → ind s' (zone_at zs s p) i = ind s (zone_at zs s p) i) as Hoth.
  { intros p i Hp Hpne. destruct (Z.eq_dec (zone_at zs s p) NO_ZONE) as [->|Hz1]; [done|]. apply (ind_untouched (zone_at zs s p0)); [done|done|].
    intros E. apply Hpne. by apply (fo_own _ _ Hf). }
  assert (∀ i, 0 ≤ i < ni → zone_at zs s' (Inner i) = zone_at zs s (Inner i)) as Hinn.
  { intros i Hi. apply (Hoth Double); [done|]. unfold p0. by destruct (_ <? _). }
  intros p Hp. destruct p as [m| | |i]; try (by case_decide); [|rewrite (Hinn i Hp); by case_decide].
  cbn [zone_at] in *. destruct (Z.ltb_spec m nd) as [Hm|Hm]; [case_decide as E; [injection E as ->; unfold V2_NR_DZONES in *; lia|done]|].
  destruct (Z.ltb_spec (m - nd) ni) as [Hm1|Hm1].
  - destruct (decide (p0 = Single)) as [E0|E0].
    + rewrite E0 in Hind. cbn [zone_at] in Hind. rewrite (Hind (m - nd)) by (unfold V2_NR_DZONES in *; lia). unfold p0, j in *.
      destruct (Z.ltb_spec (k - nd) ni); [|done]. destruct (Z.eqb_spec (m - nd) (k - nd)); case_decide as E; try done; [destruct E; f_equal; unfold V2_NR_DZONES in *; lia|].
      injection E as ->. done.
    + rewrite (Hoth Single _ I) by congruence. unfold p0 in E0. destruct (Z.ltb_spec (k - nd) ni); [done|]. case_decide as E; [injection E as ->; lia|done].
  - destruct (inner_index m Hsh Hp Hm Hm1) as [Ha Hb]. set (a := (m - nd - ni) / ni) in *. set (b := (m - nd - ni) mod ni) in *.
    pose proof (Hinn a Ha) as Ea. cbn [zone_at] in Ea. rewrite Ea. clear Ea.
    destruct (decide (p0 = Inner a)) as [E0|E0].
    + rewrite E0 in Hind. cbn [zone_at] in Hind. rewrite (Hind b Hb). unfold p0, j in *. destruct (Z.ltb_spec (k - nd) ni) as [|Hk1]; [done|].
      injection E0 as E0. pose proof (Z.div_mod (m - nd - ni) ni ltac:(lia)) as D1. pose proof (Z.div_mod (k - nd - ni) ni ltac:(lia)) as D2.
      fold a b in D1. rewrite E0 in D2. destruct (Z.eqb_spec b ((k - nd - ni) mod ni)) as [Eb|Eb]; case_decide as E; try done.
      * destruct E. f_equal. lia.
      * injection E as ->. done.
    + pose proof (Hoth (Inner a) b Ha ltac:(congruence)) as Eo. cbn [zone_at] in Eo. rewrite Eo. case_decide as E; [|done]. injection E as ->.
      unfold p0 in E0. destruct (Z.ltb_spec (k - nd) ni); [lia|]. by destruct E0.
Qed.

(** A new indirect block, empty, that was no zone of the file. *)
Context (z : Z) (Hz : z ≠ NO_ZONE) (Hfo : foreign zs s z) (Hun : untouched z).
Context (Hzero : ∃ n, contents s' dev (first_block z) = replicate n 0).

Lemma ind_new j : ind s' z j = NO_ZONE.
Proof. unfold ind. destruct (Z.eqb_spec z NO_ZONE); [done|]. destruct Hzero as [m ->]. apply entry_zeros. Qed.

Lemma ind_others p j : valid p → ind s' (zone_at zs s p) j = ind s (zone_at zs s p) j.
Proof. intros Hp. apply (ind_untouched z); [done|done|]. by apply Hfo. Qed.

Lemma ind_none j : ind s NO_ZONE j = NO_ZONE.
Proof. done. Qed.

Lemma add_single : direct zs nd = NO_ZONE → ∀ p, valid p → zone_at (upd zs nd z) s' p = if decide (p = Single) then z else zone_at zs s p.
Proof.
  intros H0 p Hp. pose proof (fo_len _ _ Hf) as Hl. assert (∀ j, direct (upd zs nd z) j = if nd =? j then z else direct zs j) as Hd.
  { intros j. apply direct_upd. rewrite Hl. done. }
  pose proof (Hd nd) as H7. pose proof (Hd (nd + 1)) as H8. change (nd =? nd) with true in H7. change (nd =? nd + 1) with false in H8. cbv iota in H7, H8.
  assert (∀ i, ind s' (direct zs (nd + 1)) i = ind s (direct zs (nd + 1)) i) as Hin by (intros i; by apply (ind_others Double)).
  destruct p as [k| | |i]; cbn [zone_at]; rewrite ?H7, ?H8, ?Hin; try (by case_decide). case_decide; [done|].
  destruct (Z.ltb_spec k nd); [rewrite Hd; by destruct (Z.eqb_spec nd k); [lia|]|].
  destruct (Z.ltb_spec (k - nd) ni); [by rewrite ind_new, H0|]. destruct (inner_index k Hsh Hp) as [Ha Hb]; [done|done|].
  exact (ind_others (Inner _) _ Ha).
Qed.

Lemma add_double : direct zs (nd + 1) = NO_ZONE → ∀ p, valid p → zone_at (upd zs (nd + 1) z) s' p = if decide (p = Double) then z else zone_at zs s p.
Proof.
  intros H0 p Hp. pose proof (fo_len _ _ Hf) as Hl. assert (∀ j, direct (upd zs (nd + 1) z) j = if nd + 1 =? j then z else direct zs j) as Hd.
  { intros j. apply direct_upd. rewrite Hl. done. }
  pose proof (Hd nd) as H7. pose proof (Hd (nd + 1)) as H8. change (nd + 1 =? nd) with false in H7. change (nd + 1 =? nd + 1) with true in H8. cbv iota in H7, H8.
  destruct p as [k| | |i]; cbn [zone_at]; rewrite ?H7, ?H8, ?ind_new, ?H0, ?ind_none; try (by case_decide). case_decide; [done|].
  destruct (Z.ltb_spec k nd); [rewrite Hd; by destruct (Z.eqb_spec (nd + 1) k); [lia|]|].
  destruct (Z.ltb_spec (k - nd) ni); [|done]. by apply (ind_others Single).
Qed.
End fill.

(** A new inner block: the double indirect block lists it. *)
Lemma add_inner zs s s' i z :
  shaped sp → file_ok zs s → 0 ≤ i < ni → is_zone sp z → 0 < s_firstdatazone sp → foreign zs s z →
  zone_at zs s Double ≠ NO_ZONE → zone_at zs s (Inner i) = NO_ZONE →
  (∀ p, valid p → zone_at zs s p ≠ NO_ZONE → p ≠ Double →
     contents s' dev (first_block (zone_at zs s p)) = contents s dev (first_block (zone_at zs s p))) →
  s_block_size sp ≤ zlen (contents s dev (first_block (zone_at zs s Double))) →
  contents s' dev (first_block (zone_at zs s Double)) = put_entry sp i z (contents s dev (first_block (zone_at zs s Double))) →
  (∃ n, contents s' dev (first_block z) = replicate n 0) →
  ∀ p, valid p → zone_at zs s' p = if decide (p = Inner i) then z else zone_at zs s p.
Proof.
  intros Hsh Hf Hi Hz Hf0 Hfo Hd He Hun Hlen Hput Hzero. unfold is_zone in Hz. assert (z ≠ NO_ZONE) as Hz0 by (unfold NO_ZONE; lia).
  assert (∀ j, 0 ≤ j < ni → zone_at zs s' (Inner j) = if j =? i then z else zone_at zs s (Inner j)) as Hinn.
  { intros j Hj. cbn [zone_at]. unfold ind. cbn [zone_at] in Hd, Hput, Hlen. destruct (Z.eqb_spec (direct zs (nd + 1)) NO_ZONE); [done|]. rewrite Hput.
    rewrite (entry_put sp Hsh); [done|done|done|done|lia|right; lia]. }
  assert (∀ p j, valid p → p ≠ Double → ind s' (zone_at zs s p) j = ind s (zone_at zs s p) j) as Hoth.
  { intros p j Hp Hpd. apply ind_same. intros Hz1. by apply Hun. }
  intros p Hp. destruct p as [k| | |j]; try (by case_decide).
  - case_decide; [done|]. cbn [zone_at]. destruct (Z.ltb_spec k nd); [done|]. destruct (Z.ltb_spec (k - nd) ni); [by apply (Hoth Single)|].
    destruct (inner_index k Hsh Hp) as [Ha Hb]; [done|done|]. set (a := (k - nd - ni) / ni) in *. pose proof (Hinn a Ha) as Ea. cbn [zone_at] in Ea, He.
    rewrite Ea. destruct (Z.eqb_spec a i) as [->|Hne]; [|exact (Hoth (Inner a) _ Ha ltac:(congruence))].
    rewrite He. unfold ind at 1. destruct (Z.eqb_spec z NO_ZONE); [done|]. destruct Hzero as [m ->]. apply entry_zeros.
  - rewrite (Hinn j Hp). destruct (Z.eqb_spec j i) as [->|]; case_decide; congruence.
Qed.

(** *** One place more *)

(** The data blocks that change, and the zones that are given out. *)
Record delta (P N : Z → Prop) (s s' : fsst) : Prop := Delta {
  de_data d n : d ≠ NO_DEV → (d = dev → off_map sp n ∧ ¬ P n) → contents s' d n = contents s d n;
  de_used z : is_zone sp z → zone_used sp s' z = true ↔ zone_used sp s z = true ∨ N z }.

Lemma delta_trans P1 N1 P2 N2 s1 s2 s3 :
  delta P1 N1 s1 s2 → delta P2 N2 s2 s3 → delta (λ n, P1 n ∨ P2 n) (λ z, N1 z ∨ N2 z) s1 s3.
Proof.
  intros [D1 U1] [D2 U2]. split.
  - intros d n Hd Hn. rewrite D2, D1; [done|done| |done|]; intros E; destruct (Hn E); tauto.
  - intros z Hz. rewrite (U2 z Hz), (U1 z Hz). tauto.
Qed.

Lemma delta_weaken (P N P' N' : Z → Prop) s s' : delta P N s s' → (∀ n, P n → P' n) → (∀ z, is_zone sp z → N z ↔ N' z) → delta P' N' s s'.
Proof.
  intros [D U] HP HN. split.
  - intros d n Hd Hn. apply D; [done|]. intros E. destruct (Hn E) as [? Hp]. split; [done|]. intros Hp'. by apply Hp, HP.
  - intros z Hz. by rewrite (U z Hz), (HN z Hz).
Qed.

(** Blocks before the data. *)
Lemma delta_low P N s s' : delta P N s s' → (∀ n, P n → data_start sp ≤ n) → ∀ d n,
  d ≠ NO_DEV → (d = dev → off_map sp n ∧ n < data_start sp) → contents s' d n = contents s d n.
Proof. intros D HP d n Hd Hn. apply (de_data _ _ _ _ D); [done|]. intros E. destruct (Hn E). split; [done|]. intros Hp%HP. lia. Qed.

Definition nothing : Z → Prop := λ _, False.

Lemma unseen_delta ho s s' : unseen spi sp ho s s' → delta nothing nothing s s'.
Proof. intros [_ _ Hu T]. split; [intros d n Hd _; by apply T|]. intros z Hz. rewrite (Hu z Hz). unfold nothing. tauto. Qed.

Lemma rewrote_delta ho n l s s' : rewrote spi sp ho n l s s' → delta (λ m, m = n) nothing s s'.
Proof.
  intros [_ _ Hu Hs]. split.
  - intros d m Hd Hm. apply (stored_other dev n l s s'); [done|done|]. intros E. by apply Hm.
  - intros z Hz. rewrite (Hu z Hz). unfold nothing. tauto.
Qed.

Lemma rezoned_delta ho z s s' : rezoned spi sp ho z true s s' → delta nothing (λ z', z' = z) s s'.
Proof.
  intros [_ _ Hu Hd]. split.
  - intros d n Hdn Hn. apply Hd; [done|]. intros E. by apply Hn.
  - intros z' Hz'. rewrite (Hu z' Hz'). destruct (Z.eqb_spec z' z); naive_solver.
Qed.

Definition keeps_zone (z : Z) (s s' : fsst) : Prop :=
  ∀ b, 0 ≤ b < 2 ^ s_log_zone_size sp → contents s' dev (first_block z + b) = contents s dev (first_block z + b).

Definition indirect (p : place) : Prop := match p with Data _ => False | _ => True end.

(** Place [p] gets zone [z]; zones of others keep their data. *)
Record filled_in (zs : list Z) (s : fsst) (p : place) (z : Z) (zs' : list Z) (s' : fsst) : Prop := FilledIn {
  fl_ok : file_ok zs' s';
  fl_at q : valid q → zone_at zs' s' q = if decide (q = p) then z else zone_at zs s q;
  fl_used z' : is_zone sp z' → zone_used sp s' z' = true ↔ zone_used sp s z' = true ∨ z' = z;
  fl_frame z' : is_zone sp z' → zone_used sp s z' = true → (∀ q, indirect q → valid q → zone_at zs s q ≠ z') → keeps_zone z' s s';
  fl_dev d n : d ≠ NO_DEV → (d = dev → off_map sp n ∧ n < data_start sp) → contents s' d n = contents s d n }.

Section filling.
Context (zs : list Z) (s s' : fsst) (Hv : volume spi sp s) (Hf : file_ok zs s) (z : Z) (Hz : is_zone sp z).
Let Hsh : shaped sp := pl_shaped _ (vo_placed _ _ _ Hv).

Lemma first_block_data z' : is_zone sp z' → data_start sp ≤ first_block z'.
Proof. intros Hz'. apply (zone_block_first spi sp s z' Hv Hz'). Qed.

Lemma data_off n : data_start sp ≤ n → off_map sp n.
Proof. intros Hn. right. pose proof (pl_maps _ (vo_placed _ _ _ Hv)). lia. Qed.

Lemma zone_off z' b : is_zone sp z' → 0 ≤ b → off_map sp (first_block z' + b).
Proof. intros Hz' Hb. apply data_off. pose proof (first_block_data z' Hz'). lia. Qed.

Lemma place_data p : valid p → zone_at zs s p ≠ NO_ZONE → data_start sp ≤ first_block (zone_at zs s p).
Proof. intros Hp Hne. destruct (fo_zone _ _ Hf p Hp) as [?|[Hzp _]]; [done|]. by apply first_block_data. Qed.

Lemma blocks_apart z1 z2 b : z1 ≠ z2 → 0 ≤ b < 2 ^ s_log_zone_size sp → first_block z1 + b ≠ first_block z2.
Proof. unfold first_block. intros Hne Hb. nia. Qed.

Lemma first_block_inj z1 z2 : z1 ≠ z2 → first_block z1 ≠ first_block z2.
Proof. intros Hne. pose proof (scale_pow _ _ _ Hv). rewrite <- (Z.add_0_r (first_block z1)). apply blocks_apart; [done|lia]. Qed.

(** The blocks that change are first blocks of indirect zones, or of the new one. *)
Lemma delta_frame P z' : (∀ n, P n → n = first_block z ∨ ∃ q, indirect q ∧ valid q ∧ n = first_block (zone_at zs s q)) →
  ∀ N, delta P N s s' → is_zone sp z' → z' ≠ z → (∀ q, indirect q → valid q → zone_at zs s q ≠ z') → keeps_zone z' s s'.
Proof.
  intros HP N [D _] Hz' Hne Hq b Hb. apply D; [by eapply vol_dev|]. intros _. split; [apply zone_off; [done|lia]|].
  intros [E|(q & Hi & Hvq & E)]%HP; revert E; apply blocks_apart; try done. intros E. by destruct (Hq q Hi Hvq).
Qed.

Lemma delta_untouched P N z0 : (∀ n, P n → n = first_block z0) → delta P N s s' → untouched zs s s' z0.
Proof.
  intros HP [D _] p Hp Hne Hz0. destruct (fo_zone _ _ Hf p Hp) as [?|[Hzp _]]; [done|]. apply D; [by eapply vol_dev|]. intros _.
  split; [by apply data_off, first_block_data|]. intros E%HP. by apply (first_block_inj _ _ Hz0).
Qed.

(** An empty indirect block for the inode. *)
Lemma fill_inode p0 zs' :
  zone_used sp s z = false → delta (λ n, n = first_block z) (λ z', z' = z) s s' → (∃ n, contents s' dev (first_block z) = replicate n 0) →
  (p0 = Single ∧ zs' = upd zs nd z ∨ p0 = Double ∧ zs' = upd zs (nd + 1) z) → zone_at zs s p0 = NO_ZONE →
  filled_in zs s p0 z zs' s'.
Proof.
  intros Hun Hd Hzero Hp0 He. pose proof (vol_zones _ _ _ Hv) as [Hz1 _]. assert (z ≠ NO_ZONE) as Hne by (unfold is_zone, NO_ZONE in *; lia).
  pose proof (unused_foreign zs s z Hf Hz Hun Hne) as Hfo. pose proof (delta_untouched _ _ z (λ n H, H) Hd) as Hut.
  assert (∀ q, valid q → zone_at zs' s' q = if decide (q = p0) then z else zone_at zs s q) as Hat.
  { destruct Hp0 as [[-> ->]|[-> ->]]; [by apply add_single|by apply add_double]. }
  split; [|done|intros z' Hz'; by apply (de_used _ _ _ _ Hd)| |].
  - apply (file_ok_set zs s zs' s' p0 z Hf); try done.
    + destruct Hp0 as [[_ ->]|[_ ->]]; rewrite zlen_upd; apply (fo_len _ _ Hf).
    + apply (de_used _ _ _ _ Hd z Hz). by right.
    + intros z' Hz' Hu. apply (de_used _ _ _ _ Hd z' Hz'). by left.
  - intros z' Hz' Hu Hq. eapply delta_frame; [|exact Hd|done|congruence|done]. intros n ->. by left.
  - intros d n. apply (delta_low _ _ _ _ Hd). intros m ->. by apply first_block_data.
Qed.

(** An entry for a data zone. *)
Lemma fill_data k p0 j :
  nd ≤ k < file_zones → p0 = (if k - nd <? ni then Single else Inner ((k - nd - ni) / ni)) → j = (if k - nd <? ni then k - nd else (k - nd - ni) mod ni) →
  zone_used sp s z = true → foreign zs s z → zone_at zs s p0 ≠ NO_ZONE → zlen (contents s dev (first_block (zone_at zs s p0))) = s_block_size sp →
  delta (λ n, n = first_block (zone_at zs s p0)) nothing s s' →
  contents s' dev (first_block (zone_at zs s p0)) = put_entry sp j z (contents s dev (first_block (zone_at zs s p0))) →
  filled_in zs s (Data k) z zs s'.
Proof.
  intros Hk Ep0 Ej Hu Hfo Hne Hlen Hd Hc. pose proof (vol_zones _ _ _ Hv) as [Hz1 _]. unfold is_zone in Hz.
  pose proof (delta_untouched _ _ _ (λ n H, H) Hd) as Hut. subst p0 j.
  assert (∀ q, valid q → zone_at zs s' q = if decide (q = Data k) then z else zone_at zs s q) as Hat.
  { apply set_indirect; try done; [lia|right; lia|lia]. }
  assert (indirect (if k - nd <? ni then Single else Inner ((k - nd - ni) / ni)) ∧ valid (if k - nd <? ni then Single else Inner ((k - nd - ni) / ni))) as [Hi Hval].
  { destruct (Z.ltb_spec (k - nd) ni); [done|]. split; [done|]. apply inner_index; [done| |lia|done]. unfold V2_NR_DZONES in *. lia. }
  split; [|done| | |].
  - apply (file_ok_set zs s zs s' (Data k) z Hf); try done; [apply (fo_len _ _ Hf)|apply (de_used _ _ _ _ Hd z Hz); by left|].
    intros z' Hz' Hu'. apply (de_used _ _ _ _ Hd z' Hz'). by left.
  - intros z' Hz'. rewrite (de_used _ _ _ _ Hd z' Hz'). unfold nothing. naive_solver.
  - intros z' Hz' Hu' Hq b Hb. apply (de_data _ _ _ _ Hd); [by eapply vol_dev|]. intros _. split; [apply zone_off; [done|lia]|].
    apply blocks_apart; [|done]. intros E. by apply (Hq _ Hi Hval).
  - intros d n. apply (delta_low _ _ _ _ Hd). intros m ->. by apply place_data.
Qed.

(** An empty inner block. *)
Lemma fill_inner i :
  0 ≤ i < ni → zone_used sp s z = false → zone_at zs s Double ≠ NO_ZONE → zone_at zs s (Inner i) = NO_ZONE →
  zlen (contents s dev (first_block (zone_at zs s Double))) = s_block_size sp →
  delta (λ n, n = first_block (zone_at zs s Double) ∨ n = first_block z) (λ z', z' = z) s s' →
  contents s' dev (first_block (zone_at zs s Double)) = put_entry sp i z (contents s dev (first_block (zone_at zs s Double))) →
  (∃ n, contents s' dev (first_block z) = replicate n 0) → filled_in zs s (Inner i) z zs s'.
Proof.
  intros Hi Hun Hdb He Hlen Hd Hc Hzero. pose proof (vol_zones _ _ _ Hv) as [Hz1 _]. assert (z ≠ NO_ZONE) as Hne by (unfold is_zone, NO_ZONE in *; lia).
  pose proof (unused_foreign zs s z Hf Hz Hun Hne) as Hfo.
  assert (∀ q, valid q → zone_at zs s' q = if decide (q = Inner i) then z else zone_at zs s q) as Hat.
  { apply add_inner; try done; [lia| |lia]. intros p Hp Hnz Hpd. destruct (fo_zone _ _ Hf p Hp) as [?|[Hzp _]]; [done|].
    apply (de_data _ _ _ _ Hd); [by eapply vol_dev|]. intros _. split; [by apply data_off, first_block_data|]. intros [E|E]; revert E; apply first_block_inj.
    - intros E. by apply Hpd, (fo_own _ _ Hf p Double Hp I).
    - by apply Hfo. }
  split; [|done|intros z' Hz'; by apply (de_used _ _ _ _ Hd)| |].
  - apply (file_ok_set zs s zs s' (Inner i) z Hf); try done; [apply (fo_len _ _ Hf)|apply (de_used _ _ _ _ Hd z Hz); by right|].
    intros z' Hz' Hu. apply (de_used _ _ _ _ Hd z' Hz'). by left.
  - intros z' Hz' Hu Hq. eapply delta_frame; [|exact Hd|done|congruence|done]. intros n [->| ->]; [right; by exists Double|by left].
  - intros d n. apply (delta_low _ _ _ _ Hd). intros m [->| ->]; [by apply place_data|by apply first_block_data].
Qed.

(** A direct zone. *)
Lemma fill_direct k : 0 ≤ k < nd → zone_used sp s z = true → foreign zs s z → filled_in zs s (Data k) z (upd zs k z) s.
Proof.
  intros Hk Hu Hfo. pose proof (set_direct zs s Hf k z Hk) as Hat. split; [|done| |done|done].
  - apply (file_ok_set zs s _ s (Data k) z Hf); try done. rewrite zlen_upd. apply (fo_len _ _ Hf).
  - intros z' Hz'. naive_solver.
Qed.
End filling.

(** *** More indirect blocks, and the same data *)

Record grown (zs : list Z) (s : fsst) (zs' : list Z) (s' : fsst) : Prop := Grown {
  gr_ok : file_ok zs' s';
  gr_data m : valid (Data m) → zone_at zs' s' (Data m) = zone_at zs s (Data m);
  gr_ind q : indirect q → valid q → zone_at zs' s' q = zone_at zs s q ∨ (zone_at zs s q = NO_ZONE ∧ zone_used sp s (zone_at zs' s' q) = false);
  gr_used z : is_zone sp z → zone_used sp s z = true → zone_used sp s' z = true;
  gr_new z : is_zone sp z → zone_used sp s' z = true → zone_used sp s z = true ∨ ∃ q, indirect q ∧ valid q ∧ zone_at zs' s' q = z;
  gr_frame z : is_zone sp z → zone_used sp s z = true → (∀ q, indirect q → valid q → zone_at zs s q ≠ z) → keeps_zone z s s';
  gr_dev d n : d ≠ NO_DEV → (d = dev → off_map sp n ∧ n < data_start sp) → contents s' d n = contents s d n }.

(** The same, and data zone [k] is [z]. *)
Record remapped (zs : list Z) (s : fsst) (k z : Z) (zs' : list Z) (s' : fsst) : Prop := Remapped {
  rm_ok : file_ok zs' s';
  rm_data m : valid (Data m) → zone_at zs' s' (Data m) = if m =? k then z else zone_at zs s (Data m);
  rm_used z' : is_zone sp z' → zone_used sp s z' = true → zone_used sp s' z' = true;
  rm_new z' : is_zone sp z' → zone_used sp s' z' = true → zone_used sp s z' = true ∨ ∃ q, indirect q ∧ valid q ∧ zone_at zs' s' q = z';
  rm_frame z' : is_zone sp z' → zone_used sp s z' = true → (∀ q, indirect q → valid q → zone_at zs s q ≠ z') → keeps_zone z' s s';
  rm_dev d n : d ≠ NO_DEV → (d = dev → off_map sp n ∧ n < data_start sp) → contents s' d n = contents s d n }.

Lemma unseen_grown ho zs s s' : volume spi sp s → file_ok zs s → unseen spi sp ho s s' → grown zs s zs s'.
Proof.
  intros Hv Hf [_ _ Hu T]. pose proof (vol_dev _ _ _ Hv) as Hd. destruct (file_ok_same zs s s' (pl_shaped _ (vo_placed _ _ _ Hv)) Hf) as [Hf' Hat].
  { intros z Hz E. by rewrite Hu. } { intros z Hz E. by apply T. }
  split; [done|by intros m; apply Hat|intros q _ Hq; left; by apply Hat|intros z Hz E; by rewrite Hu|intros z Hz E; left; by rewrite <- Hu| |].
  - intros z _ _ _ b _. by apply T.
  - intros d n Hdn _. by apply T.
Qed.

Lemma filled_grown zs s p z zs' s' :
  indirect p → valid p → zone_at zs s p = NO_ZONE → zone_used sp s z = false → filled_in zs s p z zs' s' → grown zs s zs' s'.
Proof.
  intros Hi Hp He Hun [Hf Hat Hu Hfr Hd]. split; try done.
  - intros m Hm. rewrite (Hat _ Hm). case_decide as E; [by subst p|done].
  - intros q _ Hq. rewrite (Hat _ Hq). case_decide as E; [right; by subst q|by left].
  - intros z' Hz' E. apply (Hu z' Hz'). by left.
  - intros z' Hz' [E| ->]%(Hu z' Hz'); [by left|right]. exists p. split; [done|]. split; [done|]. rewrite (Hat _ Hp). by case_decide.
Qed.

Lemma keeps_trans z s1 s2 s3 : keeps_zone z s1 s2 → keeps_zone z s2 s3 → keeps_zone z s1 s3.
Proof. intros H1 H2 b Hb. by rewrite H2, H1. Qed.

(** What is no indirect zone stays none. *)
Lemma grown_foreign zs s zs' s' z :
  grown zs s zs' s' → zone_used sp s z = true → (∀ q, indirect q → valid q → zone_at zs s q ≠ z) → ∀ q, indirect q → valid q → zone_at zs' s' q ≠ z.
Proof. intros Hg Hu Hz q Hi Hq E. destruct (gr_ind _ _ _ _ Hg q Hi Hq) as [E1|[_ E1]]; [by apply (Hz q Hi Hq); congruence|congruence]. Qed.

Lemma grown_trans zs1 s1 zs2 s2 zs3 s3 : 0 < s_firstdatazone sp → grown zs1 s1 zs2 s2 → grown zs2 s2 zs3 s3 → grown zs1 s1 zs3 s3.
Proof.
  intros H0 G1 G2. split.
  - apply G2.
  - intros m Hm. by rewrite (gr_data _ _ _ _ G2 m Hm), (gr_data _ _ _ _ G1 m Hm).
  - intros q Hi Hq. destruct (gr_ind _ _ _ _ G2 q Hi Hq) as [->|[E2 U2]]; [by apply (gr_ind _ _ _ _ G1)|].
    assert (zone_at zs1 s1 q = NO_ZONE) as E0.
    { destruct (gr_ind _ _ _ _ G1 q Hi Hq) as [E1|[E1 _]]; congruence. }
    destruct (fo_zone _ _ (gr_ok _ _ _ _ G2) q Hq) as [E3|[Hz _]]; [left; congruence|right]. split; [done|].
    destruct (zone_used sp s1 (zone_at zs3 s3 q)) eqn:E1; [|done]. by rewrite (gr_used _ _ _ _ G1 _ Hz E1) in U2.
  - intros z Hz Hu. apply (gr_used _ _ _ _ G2 z Hz). by apply (gr_used _ _ _ _ G1 z Hz).
  - intros z Hz Hu. destruct (gr_new _ _ _ _ G2 z Hz Hu) as [Hu2|Hq]; [|by right]. destruct (gr_new _ _ _ _ G1 z Hz Hu2) as [Hu1|(q & Hi & Hq & Eq)]; [by left|].
    destruct (gr_ind _ _ _ _ G2 q Hi Hq) as [E3|[E3 _]]; [right; exists q; split_and!; congruence|]. unfold is_zone, NO_ZONE in *. lia.
  - intros z Hz Hu Hq. eapply keeps_trans; [by apply (gr_frame _ _ _ _ G1)|]. apply (gr_frame _ _ _ _ G2); [done|by apply (gr_used _ _ _ _ G1)|].
    by eapply grown_foreign.
  - intros d n Hd Hne. by rewrite (gr_dev _ _ _ _ G2), (gr_dev _ _ _ _ G1).
Qed.

Lemma grown_remapped zs s zs1 s1 k z zs' s' :
  0 < s_firstdatazone sp → grown zs s zs1 s1 → filled_in zs1 s1 (Data k) z zs' s' → zone_used sp s1 z = true → remapped zs s k z zs' s'.
Proof.
  intros H0 G [Hf Hat Hu Hfr Hd] Hz. split; [done| | | | |].
  - intros m Hm. rewrite (Hat _ Hm), (gr_data _ _ _ _ G m Hm). destruct (Z.eqb_spec m k) as [->|]; case_decide; congruence.
  - intros z' Hz' E. apply (Hu z' Hz'). left. by apply (gr_used _ _ _ _ G).
  - intros z' Hz' [E|E]%(Hu z' Hz'); [|subst z'; destruct (gr_new _ _ _ _ G z Hz' Hz) as [|(q & Hi & Hq & E)]; [by left|]].
    + destruct (gr_new _ _ _ _ G z' Hz' E) as [|(q & Hi & Hq & Eq)]; [by left|]. right. exists q. split_and!; [done|done|]. rewrite (Hat _ Hq). case_decide; [by subst q|done].
    + right. exists q. split_and!; [done|done|]. rewrite (Hat _ Hq). by case_decide.
  - intros z' Hz' E Hq. eapply keeps_trans; [by apply (gr_frame _ _ _ _ G)|]. apply Hfr; [done|by apply (gr_used _ _ _ _ G)|]. by eapply grown_foreign.
  - intros d n Hdn Hne. by rewrite (Hd d n), (gr_dev _ _ _ _ G).
Qed.

Lemma grown_foreign_all zs s zs' s' z : grown zs s zs' s' → zone_used sp s z = true → foreign zs s z → foreign zs' s' z.
Proof.
  intros G Hu Hfo p Hp. destruct p as [m| | |i]; [rewrite (gr_data _ _ _ _ G m Hp); by apply Hfo|..];
    (eapply grown_foreign; [done|done| |done|done]; intros q _ Hq; by apply Hfo).
Qed.

(** An empty entry of the double indirect block is written as empty. *)
Lemma clear_inner zs s s' i : volume spi sp s → file_ok zs s → 0 ≤ i < ni →
  zone_at zs s Double ≠ NO_ZONE → zone_at zs s (Inner i) = NO_ZONE →
  zlen (contents s dev (first_block (zone_at zs s Double))) = s_block_size sp →
  delta (λ n, n = first_block (zone_at zs s Double)) nothing s s' →
  contents s' dev (first_block (zone_at zs s Double)) = put_entry sp i NO_ZONE (contents s dev (first_block (zone_at zs s Double))) →
  grown zs s zs s'.
Proof.
  intros Hv Hf Hi Hd He Hlen De Hput. pose proof (pl_shaped _ (vo_placed _ _ _ Hv)) as Hsh.
  assert (∀ j, 0 ≤ j < ni → zone_at zs s' (Inner j) = zone_at zs s (Inner j)) as Hinn.
  { intros j Hj. cbn [zone_at] in *. unfold ind in *. destruct (Z.eqb_spec (direct zs (nd + 1)) NO_ZONE); [done|]. rewrite Hput.
    rewrite (entry_put sp Hsh); [|done|done|lia|done|by left]. by destruct (Z.eqb_spec j i) as [->|]. }
  assert (∀ p j, valid p → p ≠ Double → ind s' (zone_at zs s p) j = ind s (zone_at zs s p) j) as Hoth.
  { intros p j Hp Hpd. apply ind_same. intros Hz1. apply (delta_untouched zs s s' Hv Hf _ _ _ (λ n H, H) De); try done.
    intros E. by apply Hpd, (fo_own _ _ Hf p Double Hp I). }
  assert (∀ p, valid p → zone_at zs s' p = zone_at zs s p) as Hat.
  { intros p Hp. destruct p as [k| | |j]; [|done|done|by apply Hinn]. cbn [zone_at]. destruct (Z.ltb_spec k nd); [done|].
    destruct (Z.ltb_spec (k - nd) ni); [by apply (Hoth Single)|]. destruct (inner_index k Hsh Hp) as [Ha Hb]; [done|done|].
    pose proof (Hinn _ Ha) as Ea. cbn [zone_at] in Ea. rewrite Ea. by apply (Hoth (Inner _)). }
  pose proof (de_used _ _ _ _ De) as Hu. split.
  - split; [apply Hf| |].
    + intros p Hp. rewrite (Hat p Hp). destruct (fo_zone _ _ Hf p Hp) as [?|[Hz1 Hz2]]; [by left|right]. split; [done|]. apply (Hu _ Hz1). by left.
    + intros p q Hp Hq. rewrite (Hat p Hp), (Hat q Hq). by apply (fo_own _ _ Hf).
  - intros m. apply Hat.
  - intros q _ Hq. left. by apply Hat.
  - intros z Hz E. apply (Hu _ Hz). by left.
  - intros z Hz [E|[]]%(Hu _ Hz). by left.
  - intros z Hz _ Hq b Hb. apply (de_data _ _ _ _ De); [by eapply vol_dev|]. intros _. split; [apply (zone_off s Hv); [done|lia]|].
    apply blocks_apart; [|done]. intros E. by apply (Hq Double I I).
  - intros d n. apply (delta_low _ _ _ _ De). intros m ->. by apply (place_data zs s Hv Hf Double).
Qed.
End zones.

(** ** Reading and changing the map of a file *)

(** *** Commands on the table of inodes *)

Section table.
Context `{BD : BlockDev}.
Implicit Types (v : vfs) (x : inode).

Lemma rd_ino_run v i x : zget (inodes v) i = Some x → rd_ino i v = Ret x v.
Proof. intros E. unfold rd_ino. rewrite bind_get. by apply lift_opt_some. Qed.

Lemma upd_ino_run v i x f : zget (inodes v) i = Some x → upd_ino i f v = Ret tt (with_inodes (upd (inodes v) i (f x)) v).
Proof.
  intros E. unfold upd_ino. rewrite bind_get, (bind_lift _ _ _ _ E). by rewrite bind_zset by (by eapply zget_Some_range).
Qed.

Lemma on_cache_run {A} (m : M fsst A) v a s : m (cache v) = Ret a s → on_cache m v = Ret a (with_cache s v).
Proof. apply zoom_ret. Qed.

Lemma rd_zone_run v i x k z : zget (inodes v) i = Some x → zget (i_zone x) k = Some z → rd_zone i k v = Ret z v.
Proof. intros E Ez. unfold rd_zone. step (rd_ino_run v i x E). by apply lift_opt_some. Qed.

Lemma wr_zone_run v i x k z : zget (inodes v) i = Some x → 0 ≤ k < zlen (i_zone x) →
  wr_zone i k z v = Ret tt (with_inodes (upd (inodes v) i (set_i_zone (upd (i_zone x) k z) x)) v).
Proof. intros E Hk. unfold wr_zone. step (rd_ino_run v i x E). rewrite bind_zset by done. by rewrite (upd_ino_run v i x _ E). Qed.

Lemma ino_super_run v x spi sp : i_sp x = Some spi → rd_super spi (cache v) = Ret sp (cache v) → ino_super x v = Ret sp v.
Proof.
  intros E Er. unfold ino_super. rewrite (bind_lift _ _ _ _ E). rewrite (on_cache_run _ _ _ _ Er). by destruct v.
Qed.

Lemma with_cache_cache s v : cache (with_cache s v) = s.
Proof. done. Qed.
End table.

Section runs.
Context `{RD : Reliable} (spi : Z) (sp : super_block) (rip : Z).
Implicit Types (s : fsst) (v : vfs) (x : inode).
Notation dev := (s_dev sp).
Notation scale := (s_log_zone_size sp).
Notation ni := (indirects sp).
Notation nd := V2_NR_DZONES.

(** The inode of a file of the volume, in slot [rip]. *)
Record slot (x : inode) (v : vfs) : Prop := Slot {
  sl_get : zget (inodes v) rip = Some x;
  sl_sp : i_sp x = Some spi;
  sl_dev : i_dev x = dev;
  sl_nd : i_ndzones x = nd;
  sl_ni : i_nindirs x = ni }.

(** A file that is in order. *)
Record file (x : inode) (v : vfs) : Prop := File {
  fi_slot : slot x v;
  fi_idle : idle (cache v);
  fi_volume : volume spi sp (cache v);
  fi_ok : file_ok sp (i_zone x) (cache v) }.

(** Each place is empty or has the number of a zone. *)
Definition ranged (zs : list Z) (s : fsst) : Prop := zlen zs = V2_NR_TZONES ∧ ∀ p, valid sp p → zone_ok sp (zone_at sp zs s p).

Lemma ok_ranged zs s : file_ok sp zs s → ranged zs s.
Proof. intros Hf. split; [apply (fo_len _ _ _ Hf)|]. intros p. by apply fo_ok. Qed.

(** The zone of the map, and the block within it, of a position. *)
Definition zone_index (position : Z) : Z := position / s_block_size sp / 2 ^ scale.
Definition zone_offset (position : Z) : Z := (position / s_block_size sp) mod 2 ^ scale.
Definition file_zone (x : inode) (v : vfs) (k : Z) : Z := zone_at sp (i_zone x) (cache v) (Data k).
Definition block_at (z boff : Z) : Z := if z =? NO_ZONE then NO_BLOCK else first_block sp z + boff.

Lemma slot_cache x v s : slot x v → slot x (with_cache s v).
Proof. by intros []. Qed.

Lemma slot_super x v : slot x v → volume spi sp (cache v) → ∃ i h, ino_super x v = Ret (set_search i h sp) v.
Proof. intros Hs Hv. destruct (vol_super _ _ _ Hv) as (i & h & _ & Er). exists i, h. eapply ino_super_run; [by apply Hs|done]. Qed.

Lemma slot_direct x v k : slot x v → zlen (i_zone x) = V2_NR_TZONES → 0 ≤ k < V2_NR_TZONES → rd_zone rip k v = Ret (direct (i_zone x) k) v.
Proof.
  intros Hs Hl Hk. destruct (zget_in (i_zone x) k) as [z Hz]; [lia|]. unfold direct. rewrite Hz. by apply (rd_zone_run v rip x k z (sl_get _ _ Hs)).
Qed.

(** Shifts as divisions. *)
Lemma index_shift position : shaped sp → 0 ≤ position →
  div_by position (s_block_size sp) = Some (position / s_block_size sp) ∧ 0 ≤ position / s_block_size sp ∧
  Z.shiftr (position / s_block_size sp) scale = zone_index position ∧
  position / s_block_size sp - Z.shiftl (zone_index position) scale = zone_offset position ∧ 0 ≤ zone_offset position < 2 ^ scale ∧ 0 ≤ zone_index position.
Proof.
  intros Hsh Hp. pose proof (sh_size _ Hsh) as Hb. pose proof (sh_scale _ Hsh) as Hs. unfold MIN_BLOCK_SIZE in Hb. unfold div_by.
  destruct (Z.eqb_spec (s_block_size sp) 0); [lia|]. rewrite Z.quot_div_nonneg by lia. assert (0 ≤ position / s_block_size sp) by (apply Z.div_pos; lia).
  pose proof (Z.pow_pos_nonneg 2 scale ltac:(lia) ltac:(lia)) as Hp2. unfold zone_index, zone_offset.
  split; [done|]. split; [done|]. split; [by rewrite Z.shiftr_div_pow2 by lia|]. rewrite Z.shiftl_mul_pow2 by lia.
  pose proof (Z.div_mod (position / s_block_size sp) (2 ^ scale) ltac:(lia)). split; [lia|]. split; [by apply Z.mod_pos_bound|]. apply Z.div_pos; lia.
Qed.

Lemma block_value s z boff : volume spi sp s → is_zone sp z → 0 ≤ boff < 2 ^ scale → u32 (zone_block z scale + boff) = first_block sp z + boff.
Proof. intros Hv Hz Hb. by apply (zone_block_place spi sp s z boff Hv Hz). Qed.

Lemma zone_not_none s z : volume spi sp s → is_zone sp z → (z =? NO_ZONE) = false.
Proof. intros Hv Hz. pose proof (vol_zones _ _ _ Hv). unfold is_zone, NO_ZONE in *. apply Z.eqb_neq. lia. Qed.

(** *** Reading the map *)

(** An entry of an indirect zone. *)
Lemma entry_read s z j : idle s → volume spi sp s → is_zone sp z → 0 ≤ j < ni → zone_ok sp (ind sp s z j) →
  ∃ bp s1 s', get_block dev (zone_block z scale) NORMAL s = Ret bp s1 ∧ rd_indir bp j s1 = Ret (ind sp s z j) s1 ∧
    put_block (Some bp) INDIRECT_BLOCK s1 = Ret tt s' ∧ unseen spi sp None s s'.
Proof.
  intros Hi Hv Hz Hj Hok. destruct (zone_block_first spi sp s z Hv Hz) as (Eb & Ho & Hd). rewrite Eb.
  destruct (vol_get spi sp s _ Hi Hv Ho) as (bp & s1 & Eg & [Hi1 Hv1 Hu1 T1]). unfold ind in *. rewrite (zone_not_none s z Hv Hz) in *.
  assert (contents s1 dev (first_block sp z) = contents s dev (first_block sp z)) as Ec by (apply T1; by eapply vol_dev).
  destruct (vol_put spi sp s1 bp _ INDIRECT_BLOCK Hi1 Hv1) as (s' & Ep & [Hi' Hv' Hu' T']). exists bp, s1, s'. split; [done|]. split.
  - fold (first_block sp z) in Hi1. rewrite <- Ec in *. by apply (rd_indir_run spi).
  - split; [done|]. split; [done|done| |intros d n Hdn; by rewrite T', T1]. intros z' Hz'. by rewrite Hu', Hu1.
Qed.

Lemma single_map_run s z ex boff : idle s → volume spi sp s → zone_ok sp z → 0 ≤ ex < ni → 0 ≤ boff < 2 ^ scale → zone_ok sp (ind sp s z ex) →
  ∃ s', single_map dev z scale ex boff s = Ret (block_at (ind sp s z ex) boff) s' ∧ unseen spi sp None s s'.
Proof.
  intros Hi Hv Hz Hex Hb Hok. unfold single_map. destruct Hz as [->|Hz].
  { exists s. split; [done|]. by split. }
  destruct (entry_read s z ex Hi Hv Hz Hex Hok) as (bp & s1 & s' & Eg & Er & Ep & Hun).
  exists s'. split; [|done]. rewrite (zone_not_none s z Hv Hz). step Eg. step Er. step Ep. unfold block_at. destruct Hok as [->|Hok]; [done|]. rewrite (zone_not_none s _ Hv Hok).
  by rewrite (block_value s).
Qed.

Lemma read_map_ranged x v position :
  slot x v → idle (cache v) → volume spi sp (cache v) → ranged (i_zone x) (cache v) → 0 ≤ position → zone_index position < file_zones sp →
  ∃ s', read_map rip position v = Ret (block_at (file_zone x v (zone_index position)) (zone_offset position)) (with_cache s' v) ∧
    unseen spi sp None (cache v) s'.
Proof.
  intros Hs Hi Hv [Hl Hf] Hp Hk. pose proof (pl_shaped _ (vo_placed _ _ _ Hv)) as Hsh. destruct (indirects_fit sp Hsh) as [Hn _].
  destruct (index_shift position Hsh Hp) as (Ed & Hbp & Ek & Eo & Ho & Hk0). set (k := zone_index position) in *.
  destruct (slot_super x v Hs Hv) as (i & h & Esp).
  assert (valid sp (Data k)) as Hval by done. pose proof (Hf _ Hval) as Hok.
  unfold read_map. step (rd_ino_run v rip x (sl_get _ _ Hs)). step Esp. cbn [s_log_zone_size s_block_size set_search]. rewrite (bind_lift _ _ _ _ Ed), Ek, Eo.
  cbv zeta. rewrite (sl_nd _ _ Hs), (sl_ni _ _ Hs), (sl_dev _ _ Hs). unfold file_zone. cbn [zone_at] in *.
  destruct (Z.ltb_spec k nd) as [Hd|Hd].
  { exists (cache v). split; [|by split]. step (slot_direct x v k Hs Hl ltac:(unfold V2_NR_DZONES, V2_NR_TZONES in *; lia)). unfold block_at.
    destruct v as [s ? ? ? ? ?]. destruct Hok as [->|Hok]; [done|]. rewrite (zone_not_none s _ Hv Hok). by rewrite (block_value s). }
  destruct (Z.ltb_spec (k - nd) ni) as [Hsg|Hsg].
  { step (slot_direct x v nd Hs Hl ltac:(done)). destruct (single_map_run (cache v) (direct (i_zone x) nd) (k - nd) (zone_offset position)) as (s' & E & Hun); try done.
    { exact (Hf Single I). } { lia. }
    exists s'. split; [|done]. by rewrite (on_cache_run _ _ _ _ E). }
  destruct (inner_index sp k Hsh Hval Hd Hsg) as [Ha Hb]. step (slot_direct x v (nd + 1) Hs Hl ltac:(done)).
  destruct (Hf Double I) as [E0|Hz]; cbn [zone_at] in *.
  { exists (cache v). rewrite E0. split; [by destruct v|by split]. }
  rewrite (zone_not_none _ _ Hv Hz). pose proof (Hf (Inner _) Ha) as Hinn. cbn [zone_at] in Hinn.
  assert (div_by (k - nd - ni) ni = Some ((k - nd - ni) / ni) ∧ rem_by (k - nd - ni) ni = Some ((k - nd - ni) mod ni)) as [Ediv Erem].
  { unfold div_by, rem_by. destruct (Z.eqb_spec ni 0); [lia|]. rewrite Z.quot_div_nonneg, Z.rem_mod_nonneg by lia. done. }
  destruct (entry_read (cache v) _ _ Hi Hv Hz Ha Hinn) as (bp & s1 & s2 & Eg & Er & Ep & [Hi2 Hv2 Hu2 T2]).
  rewrite (bind_ret _ _ _ _ _ (on_cache_run _ _ _ _ Eg)), (bind_lift _ _ _ _ Ediv).
  rewrite (bind_ret _ _ _ _ _ (on_cache_run _ (with_cache s1 v) _ _ Er)). rewrite (bind_ret _ _ _ _ _ (on_cache_run _ (with_cache s1 (with_cache s1 v)) _ _ Ep)).
  rewrite (bind_lift _ _ _ _ Erem). set (a := ind sp (cache v) (direct (i_zone x) (nd + 1)) ((k - nd - ni) / ni)) in *.
  assert (∀ j, ind sp s2 a j = ind sp (cache v) a j) as Hsame by (intros j; apply ind_same; intros _; apply T2; by eapply vol_dev).
  destruct (single_map_run s2 a ((k - nd - ni) mod ni) (zone_offset position) Hi2 Hv2 Hinn Hb Ho) as (s' & E & [Hi' Hv' Hu' T']); [by rewrite Hsame|].
  exists s'. rewrite (on_cache_run _ (with_cache s2 (with_cache s1 (with_cache s1 v))) _ _ E), Hsame. split; [by destruct v|].
  split; [done|done|intros z Hzz; by rewrite Hu', Hu2|intros d n Hdn; by rewrite T', T2].
Qed.

Lemma read_map_run x v position : file x v → 0 ≤ position → zone_index position < file_zones sp →
  ∃ s', read_map rip position v = Ret (block_at (file_zone x v (zone_index position)) (zone_offset position)) (with_cache s' v) ∧
    unseen spi sp None (cache v) s'.
Proof. intros [Hs Hi Hv Hf]. by apply read_map_ranged, ok_ranged. Qed.
End runs.
