(* ===== verification/MapWrites.v ===== *)
(** * Entering and freeing the zones of a file

    [write_map] on a file that is in order: the zone is entered at its position,
    with the indirect blocks it needs; when no zone is left for them the data of
    the file are as they were. [truncate] gives back the zone of every place. *)

From S2P Require Import Prelude Linked Cache CacheLists CacheSpec CacheRep CacheStore Super SuperSpec Zones Inode FileMap Volume FileZones.

(** ** Entering a zone in the map of a file *)

(** *** The error code *)

Section errors.
Context `{BD : BlockDev}.

(** A command that leaves [err_code] as it is. *)
Definition quiet {A} (m : M fsst A) : Prop := ∀ s a s', m s = Ret a s' → err_code s' = err_code s.

Lemma quiet_bind {A B} (m : M fsst A) (f : A → M fsst B) : quiet m → (∀ a, quiet (f a)) → quiet (m ≫= f).
Proof. intros Hm Hf s b s' (a & s1 & E1 & E2)%bind_ret_inv. by rewrite (Hf _ _ _ _ E2), (Hm _ _ _ E1). Qed.

Lemma quiet_ret {A} (a : A) : quiet (mret a).
Proof. by intros s b s' [= <- <-]. Qed.

Lemma quiet_get : quiet get.
Proof. by intros s b s' [= <- <-]. Qed.

Lemma quiet_lift {A} (o : option A) : quiet (lift_opt o).
Proof. destruct o; [apply quiet_ret|done]. Qed.

Lemma quiet_modify f : (∀ s, err_code (f s) = err_code s) → quiet (modify f).
Proof. intros H s b s' [= <- <-]. apply H. Qed.
End errors.

Create HintDb quiet.
#[export] Hint Resolve quiet_ret quiet_get quiet_lift : quiet.

(** Command by command. *)
Ltac hush := repeat first
  [ solve [auto with quiet] | apply quiet_bind; [|intros ?] | apply quiet_modify; done
  | match goal with |- quiet (match ?x with _ => _ end) => destruct x | |- quiet (when _ _) => unfold when end
  | match goal with |- quiet halt => done end ].

Section quiet_cache.
Context `{BD : BlockDev}.

Lemma quiet_rd_buf i : quiet (rd_buf i).
Proof. unfold rd_buf. hush. Qed.
Lemma quiet_upd_buf i f : quiet (upd_buf i f).
Proof. unfold upd_buf. hush. Qed.
#[local] Hint Resolve quiet_rd_buf quiet_upd_buf : quiet.

Lemma quiet_rw_block i flag : quiet (rw_block i flag).
Proof.
  unfold rw_block, get_block_size, block_io. hush.
Qed.
#[local] Hint Resolve quiet_rw_block : quiet.

Lemma quiet_put_block i ty : quiet (put_block i ty).
Proof. unfold put_block, to_front, to_rear. hush. Qed.

Lemma quiet_wr_indir i j z : quiet (wr_indir i j z).
Proof. unfold wr_indir, get_super, rd_super. hush. Qed.
End quiet_cache.

Section writes.
Context `{RD : Reliable} (spi : Z) (sp : super_block) (rip : Z) (x : inode) (v : vfs) (Hslot : slot spi sp rip x v).
Implicit Types (s : fsst) (zs : list Z).
Notation dev := (s_dev sp).
Notation scale := (s_log_zone_size sp).
Notation ni := (indirects sp).
Notation nd := V2_NR_DZONES.

(** The state with other zones in the inode, and another cache. *)
Definition st (zs : list Z) (s : fsst) : vfs := with_cache s (with_inodes (upd (inodes v) rip (set_i_zone zs x)) v).

Lemma st_get zs s : zget (inodes (st zs s)) rip = Some (set_i_zone zs x).
Proof. apply zget_upd_eq. exact (zget_Some_range _ _ _ (sl_get _ _ _ _ _ Hslot)). Qed.

Lemma st_self : v = st (i_zone x) (cache v).
Proof.
  pose proof (sl_get _ _ _ _ _ Hslot) as E. unfold st, with_cache, with_inodes. destruct v as [s t bt ut u g]. cbn in *. f_equal.
  assert (set_i_zone (i_zone x) x = x) as -> by (by destruct x). unfold upd, zget in *. destruct (0 <=? rip); [|done]. symmetry. by apply list_insert_id.
Qed.

Lemma st_slot zs s : slot spi sp rip (set_i_zone zs x) (st zs s).
Proof. destruct Hslot. split; try done. apply st_get. Qed.

Lemma st_rd_ino zs s : rd_ino rip (st zs s) = Ret (set_i_zone zs x) (st zs s).
Proof. apply rd_ino_run, st_get. Qed.

Lemma st_cache {A} (m : M fsst A) zs s a s' : m s = Ret a s' → on_cache m (st zs s) = Ret a (st zs s').
Proof. intros E. by rewrite (on_cache_run m (st zs s) a s' E). Qed.

Lemma st_rd_zone zs s k : zlen zs = V2_NR_TZONES → 0 ≤ k < V2_NR_TZONES → rd_zone rip k (st zs s) = Ret (direct zs k) (st zs s).
Proof. intros Hl Hk. exact (slot_direct spi sp rip (set_i_zone zs x) (st zs s) k (st_slot zs s) Hl Hk). Qed.

Lemma st_wr_zone zs s k z : 0 ≤ k < zlen zs → wr_zone rip k z (st zs s) = Ret tt (st (upd zs k z) s).
Proof.
  intros Hk. rewrite (wr_zone_run (st zs s) rip (set_i_zone zs x) k z (st_get zs s) Hk). unfold st, with_inodes, with_cache. cbn. do 2 f_equal.
  unfold upd. by rewrite list_insert_insert_eq.
Qed.

(** An entry that is written again with what it has. *)
Lemma upd_direct zs k : 0 ≤ k < zlen zs → upd zs k (direct zs k) = zs.
Proof.
  intros Hk. destruct (zget_in zs k Hk) as [z Hz]. unfold direct. rewrite Hz. unfold upd, zget in *. destruct (0 <=? k); [|done]. by apply list_insert_id.
Qed.

(** A zone is allocated near the first zone of the file. *)
Lemma alloc_prefix {A} (rest : Z → M vfs A) zs s z1 s1 : zlen zs = V2_NR_TZONES → alloc_zone dev (direct zs 0) s = Ret z1 s1 →
  (x ← rd_ino rip; first ← rd_zone rip 0; z ← on_cache (alloc_zone (i_dev x) first); rest z) (st zs s) = rest z1 (st zs s1).
Proof.
  intros Hl E. step (st_rd_ino zs s). step (st_rd_zone zs s 0 Hl ltac:(done)). change (i_dev (set_i_zone zs x)) with (i_dev x).
  rewrite (sl_dev _ _ _ _ _ Hslot). by step (st_cache _ zs _ _ _ E).
Qed.

(** The indirect zone of the inode is new. *)
Lemma single_new zs s z1 s1 : zlen zs = V2_NR_TZONES → alloc_zone dev (direct zs 0) s = Ret z1 s1 →
  single_zone rip nd None NO_ZONE (st zs s) = Ret (z1, true) (st (upd zs nd z1) s1).
Proof.
  intros Hl E. unfold single_zone. change (negb (NO_ZONE =? NO_ZONE)) with false. cbv iota. rewrite (alloc_prefix _ zs s z1 s1 Hl E).
  by step (st_wr_zone zs s1 nd z1 ltac:(rewrite Hl; done)).
Qed.

Lemma single_old zs s dbl z1 : z1 ≠ NO_ZONE → single_zone rip nd dbl z1 (st zs s) = Ret (z1, false) (st zs s).
Proof. intros Hne. unfold single_zone. by destruct (Z.eqb_spec z1 NO_ZONE). Qed.

Lemma enter_zone_single zs s zs1 s1 z1 z2 new j z : single_zone rip nd None z1 (st zs s) = Ret (z2, new) (st zs1 s1) →
  enter_zone rip nd scale None z1 j z (st zs s) = if z2 =? NO_ZONE then Ret (err_code s1) (st zs1 s1) else fill_entry rip scale z2 new j z (st zs1 s1).
Proof.
  intros E. unfold enter_zone. step E.
  assert (on_cache (put_block (fst <$> @None (Z * Z)) INDIRECT_BLOCK) (st zs1 s1) = Ret tt (st zs1 s1)) as Ep by (by apply st_cache).
  step Ep. by destruct (z2 =? NO_ZONE).
Qed.

(** The same with a double indirect block in use. *)
Lemma enter_zone_listed zs s s1 bp i z1 j z : z1 ≠ NO_ZONE → put_block (Some bp) INDIRECT_BLOCK s = Ret tt s1 →
  enter_zone rip nd scale (Some (bp, i)) z1 j z (st zs s) = fill_entry rip scale z1 false j z (st zs s1).
Proof.
  intros Hne E. unfold enter_zone. step (single_old zs s (Some (bp, i)) z1 Hne). change (fst <$> Some (bp, i)) with (Some bp).
  step (st_cache _ zs _ _ _ E). by destruct (Z.eqb_spec z1 NO_ZONE).
Qed.

Lemma enter_zone_unlisted zs s s1 s2 s3 s4 bp i z1 j z : zlen zs = V2_NR_TZONES → alloc_zone dev (direct zs 0) s = Ret z1 s1 →
  wr_indir bp i z1 s1 = Ret tt s2 → upd_buf bp (set_dirt DIRTY) s2 = Ret tt s3 → put_block (Some bp) INDIRECT_BLOCK s3 = Ret tt s4 →
  enter_zone rip nd scale (Some (bp, i)) NO_ZONE j z (st zs s) = if z1 =? NO_ZONE then Ret (err_code s1) (st zs s4) else fill_entry rip scale z1 true j z (st zs s4).
Proof.
  intros Hl E1 E2 E3 E4. unfold enter_zone.
  assert (single_zone rip nd (Some (bp, i)) NO_ZONE (st zs s) = Ret (z1, true) (st zs s3)) as E.
  { unfold single_zone. change (negb (NO_ZONE =? NO_ZONE)) with false. cbv iota. rewrite (alloc_prefix _ zs s z1 s1 Hl E1). rewrite bind_assoc.
    step (st_cache _ zs _ _ _ E2). by step (st_cache _ zs _ _ _ E3). }
  step E. change (fst <$> Some (bp, i)) with (Some bp). step (st_cache _ zs _ _ _ E4). destruct (z1 =? NO_ZONE); [|done].
  unfold get_err_code. rewrite bind_get. cbn. unfold mret, M_ret. f_equal.
  by rewrite (quiet_put_block _ _ _ _ _ E4), (quiet_upd_buf _ _ _ _ _ E3), (quiet_wr_indir _ _ _ _ _ _ E2).
Qed.

(** *** The last step *)

Lemma fill_entry_run zs s z1 (new : bool) j z : idle s → volume spi sp s → is_zone sp z1 → 0 ≤ j < ni →
  ∃ ho s1 s', fill_entry rip scale z1 new j z (st zs s) = Ret OK (st zs s') ∧
    (if new then rewrote spi sp ho (first_block sp z1) (replicate (Z.to_nat (s_block_size sp)) 0) s s1 else unseen spi sp ho s s1) ∧
    resting ho s1 ∧ volume spi sp s1 ∧ rewrote spi sp None (first_block sp z1) (put_entry sp j z (contents s1 dev (first_block sp z1))) s1 s'.
Proof.
  intros Hi Hv Hz Hj. destruct (zone_block_first spi sp s z1 Hv Hz) as (Eb & Ho & Hd). fold (first_block sp z1) in *.
  assert (∃ bp s0 s1, get_block dev (first_block sp z1) (if new then NO_READ else NORMAL) s = Ret bp s0 ∧ when new (zero_block bp) s0 = Ret tt s1 ∧
    (if new then rewrote spi sp (Some (bp, dev, first_block sp z1)) (first_block sp z1) (replicate (Z.to_nat (s_block_size sp)) 0) s s1
     else unseen spi sp (Some (bp, dev, first_block sp z1)) s s1) ∧ resting (Some (bp, dev, first_block sp z1)) s1 ∧ volume spi sp s1) as (bp & s0 & s1 & Eg & Ez & Hc & Hi1 & Hv1).
  { destruct new.
    - destruct (vol_new spi sp s _ Hi Hv Ho Hd) as (bp & s0 & s1 & Eg & Ez & Hr). exists bp, s0, s1. by destruct Hr.
    - destruct (vol_get spi sp s _ Hi Hv Ho) as (bp & s1 & Eg & Hr). exists bp, s1, s1. by destruct Hr. }
  destruct (wr_indir_run spi sp s1 bp (first_block sp z1) j z Hi1 Hv1 Hd Hj) as (s2 & s3 & E2 & E3 & [Hi3 Hv3 Hu3 Hs3]).
  destruct (vol_put spi sp s3 bp _ INDIRECT_BLOCK Hi3 Hv3) as (s' & E4 & [Hi' Hv' Hu' T']).
  exists (Some (bp, dev, first_block sp z1)), s1, s'. split; [|split_and!; try done].
  - unfold fill_entry. step (st_rd_ino zs s). change (i_dev (set_i_zone zs x)) with (i_dev x). rewrite (sl_dev _ _ _ _ _ Hslot), Eb. step (st_cache _ zs s _ _ Eg).
    assert (when new (on_cache (zero_block bp)) (st zs s0) = Ret tt (st zs s1)) as Ew.
    { unfold when in *. destruct new; [by apply st_cache|]. by injection Ez as <-. }
    step Ew. step (st_cache _ zs _ _ _ E2). step (st_cache _ zs _ _ _ E3). step (st_cache _ zs _ _ _ E4). done.
  - split; [done|done|intros z' Hz'; by rewrite Hu', Hu3|]. intros d n Hdn. by rewrite T', Hs3.
Qed.

(** Data zone [k] is entered through the indirect zone of its place. *)
Definition ind_place (k : Z) : place := if k - nd <? ni then Single else Inner ((k - nd - ni) / ni).
Definition ind_index (k : Z) : Z := if k - nd <? ni then k - nd else (k - nd - ni) mod ni.

Lemma ind_index_range k : shaped sp → nd ≤ k < file_zones sp → 0 ≤ ind_index k < ni ∧ valid sp (ind_place k) ∧ indirect (ind_place k).
Proof.
  intros Hsh Hk. destruct (indirects_fit sp Hsh) as [Hn _]. unfold ind_index, ind_place. destruct (Z.ltb_spec (k - nd) ni); [split; [lia|done]|].
  destruct (inner_index sp k Hsh) as [Ha Hb]; [unfold V2_NR_DZONES in *; lia|lia|done|]. done.
Qed.

(** The entry is filled in, in a block that is there or in a new one. *)
Lemma entry_filled zs s s1 ho k z ho' s' :
  volume spi sp s1 → resting ho s1 → file_ok sp zs s1 → nd ≤ k < file_zones sp → zone_at sp zs s1 (ind_place k) ≠ NO_ZONE →
  is_zone sp z → zone_used sp s1 z = true → foreign sp zs s1 z →
  rewrote spi sp ho' (first_block sp (zone_at sp zs s1 (ind_place k)))
    (put_entry sp (ind_index k) z (contents s1 dev (first_block sp (zone_at sp zs s1 (ind_place k))))) s1 s' →
  filled_in sp zs s1 (Data k) z zs s'.
Proof.
  intros Hv Hi Hf Hk Hne Hz Hu Hfo Hr. pose proof (vol_dev _ _ _ Hv) as Hd.
  apply (fill_data spi sp zs s1 s' Hv Hf z Hz k (ind_place k) (ind_index k)); try done.
  - rewrite <- (vol_size spi sp s1 Hv). by apply (contents_len (ho := ho)).
  - by eapply rewrote_delta.
  - eapply stored_at; [done|]. apply Hr.
Qed.

(** *** Through the single indirect block of the inode *)

Definition full (s : fsst) : Prop := ∀ z, is_zone sp z → zone_used sp s z = true.

(** What comes of entering zone [z] at place [k]. *)
Definition entered (zs0 : list Z) (s0 : fsst) (k z r : Z) (zs : list Z) (s : fsst) : Prop :=
  idle s ∧ volume spi sp s ∧ (r = OK ∧ remapped sp zs0 s0 k z zs s ∨ r = ENOSPC ∧ grown sp zs0 s0 zs s ∧ full s).

(** The zones the file had, the zone that is entered, and the file so far. *)
Context (zs0 : list Z) (s0 : fsst) (k z : Z) (Hk : nd ≤ k < file_zones sp) (Hz : is_zone sp z).
Context (Hu0 : zone_used sp s0 z = true) (Hfo0 : foreign sp zs0 s0 z).

Lemma entry_entered zs s z1 (new : bool) :
  idle s → volume spi sp s → is_zone sp z1 →
  (∀ ho s1, resting ho s1 → volume spi sp s1 →
     (if new then rewrote spi sp ho (first_block sp z1) (replicate (Z.to_nat (s_block_size sp)) 0) s s1 else unseen spi sp ho s s1) →
     grown sp zs0 s0 zs s1 ∧ zone_at sp zs s1 (ind_place k) = z1) →
  ∃ s', fill_entry rip scale z1 new (ind_index k) z (st zs s) = Ret OK (st zs s') ∧ entered zs0 s0 k z OK zs s'.
Proof.
  intros Hi Hv Hz1 Hg. pose proof (pl_shaped _ (vo_placed _ _ _ Hv)) as Hsh. pose proof (vol_zones _ _ _ Hv) as [Hz0 _].
  destruct (ind_index_range k Hsh Hk) as (Hj & _). destruct (fill_entry_run zs s z1 new (ind_index k) z Hi Hv Hz1 Hj) as (ho & s1 & s' & E & Hc & Hi1 & Hv1 & Hr).
  destruct (Hg ho s1 Hi1 Hv1 Hc) as [G Hat]. exists s'. split; [done|]. split; [apply Hr|]. split; [apply Hr|]. left. split; [done|].
  pose proof (gr_used _ _ _ _ _ G z Hz Hu0) as Hu1. eapply grown_remapped; [lia|exact G| |done].
  apply (entry_filled zs s s1 ho k z None s'); try done; [apply G| | |].
  - rewrite Hat. unfold is_zone, NO_ZONE in *. lia.
  - by eapply grown_foreign_all.
  - by rewrite Hat.
Qed.

Lemma failed_unseen ho s s1 : resting ho s1 → volume spi sp s1 → transparent s s1 → (∀ z', is_zone sp z' → zone_used sp s1 z' = zone_used sp s z') → unseen spi sp ho s s1.
Proof. by split. Qed.

Lemma enter_single_run zs s : k - nd < ni → idle s → volume spi sp s → grown sp zs0 s0 zs s →
  ∃ r zs' s', enter_zone rip nd scale None (direct zs nd) (k - nd) z (st zs s) = Ret r (st zs' s') ∧ entered zs0 s0 k z r zs' s'.
Proof.
  intros Hkn Hi Hv G. pose proof (gr_ok _ _ _ _ _ G) as Hf. pose proof (fo_len _ _ _ Hf) as Hl. pose proof (vol_zones _ _ _ Hv) as [Hz0 _].
  assert (ind_place k = Single ∧ ind_index k = k - nd) as [Epl Eix] by (unfold ind_place, ind_index; by destruct (Z.ltb_spec (k - nd) ni); [|lia]).
  destruct (fo_ok sp _ _ Single Hf I) as [E0|Hz1]; cbn [zone_at] in *.
  - rewrite E0. destruct (vol_alloc spi sp None (direct zs 0) s Hi Hv) as [(z1 & s1 & E & Hz1 & Hun & Rz)|(s1 & E & Hfull & Hi1 & Hv1 & T & Hu & Her)];
      rewrite (enter_zone_single zs s _ _ _ _ _ (k - nd) z (single_new zs s _ _ Hl E)).
    + destruct (entry_entered (upd zs nd z1) s1 z1 true) as (s' & E' & He); [apply Rz|apply Rz|done| |].
      { intros ho s2 Hi2 Hv2 Rw. assert (filled_in sp zs s Single z1 (upd zs nd z1) s2) as Hfi.
        { apply (fill_inode spi sp zs s s2 Hv Hf z1 Hz1 Single); [done| | |by left|done].
          - eapply delta_weaken; [exact (delta_trans _ _ _ _ _ _ _ _ (rezoned_delta _ _ _ _ _ _ Rz) (rewrote_delta _ _ _ _ _ _ _ Rw))| |]; unfold nothing; naive_solver.
          - eexists. eapply stored_at; [by eapply vol_dev|apply Rw]. }
        split; [eapply grown_trans; [lia|done|by apply (filled_grown sp zs s Single z1)]|]. rewrite Epl, (fl_at _ _ _ _ _ _ _ Hfi Single I). by case_decide. }
      exists OK, (upd zs nd z1), s'. rewrite (zone_not_none spi sp s z1 Hv Hz1). rewrite Eix in E'. done.
    + assert (upd zs nd NO_ZONE = zs) as -> by (rewrite <- E0; apply upd_direct; rewrite Hl; done). exists ENOSPC, zs, s1.
      split; [by rewrite <- Her|]. split; [done|]. split; [done|]. right. split; [done|]. split; [|intros z' Hz'; by rewrite Hu, Hfull].
      eapply grown_trans; [lia|done|]. apply (unseen_grown spi sp None); done.
  - pose proof (zone_not_none spi sp s _ Hv Hz1) as Hne. rewrite (enter_zone_single zs s _ _ _ _ _ (k - nd) z (single_old zs s None _ (proj1 (Z.eqb_neq _ _) Hne))), Hne.
    destruct (entry_entered zs s (direct zs nd) false Hi Hv Hz1) as (s' & E' & He).
    { intros ho s2 Hi2 Hv2 Un. pose proof (unseen_grown spi sp ho zs s s2 Hv Hf Un) as G2. split; [eapply grown_trans; [lia|done|done]|]. by rewrite Epl. }
    exists OK, zs, s'. rewrite Eix in E'. done.
Qed.

(** *** Through the double indirect block *)

(** The entry of the new inner zone [z1] is written while the double indirect block
    is in use. *)
Lemma listed_grown zs s s1 s3 s4 ho s5 bp i z1 :
  let d := direct zs (nd + 1) in
  0 ≤ i < ni → resting (Some (bp, dev, first_block sp d)) s → volume spi sp s → file_ok sp zs s → is_zone sp d → zone_at sp zs s (Inner i) = NO_ZONE →
  is_zone sp z1 → zone_used sp s z1 = false → rezoned spi sp (Some (bp, dev, first_block sp d)) z1 true s s1 →
  rewrote spi sp (Some (bp, dev, first_block sp d)) (first_block sp d) (put_entry sp i z1 (contents s1 dev (first_block sp d))) s1 s3 →
  unseen spi sp None s3 s4 → rewrote spi sp ho (first_block sp z1) (replicate (Z.to_nat (s_block_size sp)) 0) s4 s5 →
  filled_in sp zs s (Inner i) z1 zs s5.
Proof.
  intros d Hi Hh Hv Hf Hd He Hz1 Hun Rz Rw Un Rw'. pose proof (vol_dev _ _ _ Hv) as Hdv. pose proof (vol_zones _ _ _ Hv) as [Hz0 _].
  assert (d ≠ NO_ZONE) as Hd0 by (unfold is_zone, NO_ZONE in *; lia).
  assert (d ≠ z1) as Hne. { intros E. destruct (fo_zone _ _ _ Hf Double I) as [?|[_ Hud]]; [done|]. cbn [zone_at] in Hud. fold d in Hud. congruence. }
  apply (fill_inner spi sp zs s s5 Hv Hf z1 Hz1 i Hi Hun); cbn [zone_at]; fold d; try done.
  - rewrite <- (vol_size spi sp s Hv). by apply (contents_len (ho := Some (bp, dev, first_block sp d))).
  - eapply delta_weaken; [exact (delta_trans _ _ _ _ _ _ _ _ (rezoned_delta _ _ _ _ _ _ Rz) (delta_trans _ _ _ _ _ _ _ _ (rewrote_delta _ _ _ _ _ _ _ Rw)
      (delta_trans _ _ _ _ _ _ _ _ (unseen_delta _ _ _ _ _ Un) (rewrote_delta _ _ _ _ _ _ _ Rw'))))| |]; unfold nothing; naive_solver.
  - rewrite (stored_other _ _ _ _ _ dev (first_block sp d) (rw_stored _ _ _ _ _ _ _ Rw') Hdv) by (intros _; by apply (first_block_inj spi sp s Hv)).
    rewrite (un_same _ _ _ _ _ Un) by done. rewrite (stored_at _ _ _ _ _ Hdv (rw_stored _ _ _ _ _ _ _ Rw)). f_equal.
    apply (rz_data _ _ _ _ _ _ _ Rz); [done|]. intros _. by apply (data_off spi sp s Hv), (first_block_data spi sp s Hv).
  - eexists. eapply stored_at; [done|apply Rw'].
Qed.

(** The entry stays empty when there is no zone for it. *)
Lemma cleared_grown zs s s1 s3 s4 bp i :
  let d := direct zs (nd + 1) in
  0 ≤ i < ni → volume spi sp s → file_ok sp zs s → is_zone sp d → zone_at sp zs s (Inner i) = NO_ZONE →
  unseen spi sp (Some (bp, dev, first_block sp d)) s s1 →
  rewrote spi sp (Some (bp, dev, first_block sp d)) (first_block sp d) (put_entry sp i NO_ZONE (contents s1 dev (first_block sp d))) s1 s3 →
  unseen spi sp None s3 s4 → grown sp zs s zs s4.
Proof.
  intros d Hi Hv Hf Hd He Un1 Rw Un. pose proof (vol_dev _ _ _ Hv) as Hdv. pose proof (vol_zones _ _ _ Hv) as [Hz0 _]. pose proof (un_volume _ _ _ _ _ Un1) as Hv1.
  pose proof (unseen_grown spi sp _ zs s s1 Hv Hf Un1) as G1.
  assert (zone_at sp zs s1 (Inner i) = NO_ZONE) as He1.
  { rewrite <- He. apply (zone_at_same sp); [apply Hv|intros q _ _ _; by apply Un1|done]. }
  assert (grown sp zs s1 zs s3) as G3.
  { apply (clear_inner spi sp zs s1 s3 i Hv1 (gr_ok _ _ _ _ _ G1) Hi); cbn [zone_at]; fold d; [unfold is_zone, NO_ZONE in *; lia|done| | |].
    - rewrite <- (vol_size spi sp s1 Hv1). apply (contents_len (ho := Some (bp, dev, first_block sp d))); [apply Un1|done].
    - by eapply rewrote_delta.
    - eapply stored_at; [done|apply Rw]. }
  pose proof (unseen_grown spi sp _ zs s3 s4 (rw_volume _ _ _ _ _ _ _ Rw) (gr_ok _ _ _ _ _ G3) Un) as G4.
  eapply grown_trans; [lia|exact G1|]. eapply grown_trans; [lia|exact G3|done].
Qed.

Lemma enter_inner_run zs s bp : ni ≤ k - nd → resting (Some (bp, dev, first_block sp (direct zs (nd + 1)))) s → is_zone sp (direct zs (nd + 1)) →
  volume spi sp s → grown sp zs0 s0 zs s →
  ∃ r zs' s', enter_zone rip nd scale (Some (bp, (k - nd - ni) / ni)) (zone_at sp zs s (Inner ((k - nd - ni) / ni))) ((k - nd - ni) mod ni) z (st zs s) =
    Ret r (st zs' s') ∧ entered zs0 s0 k z r zs' s'.
Proof.
  intros Hkn Hh Hd Hv G. pose proof (gr_ok _ _ _ _ _ G) as Hf. pose proof (fo_len _ _ _ Hf) as Hl. pose proof (vol_zones _ _ _ Hv) as [Hz0 _].
  pose proof (pl_shaped _ (vo_placed _ _ _ Hv)) as Hsh. destruct (ind_index_range k Hsh Hk) as (Hj & Hval & _). set (i := (k - nd - ni) / ni) in *.
  assert (ind_place k = Inner i ∧ ind_index k = (k - nd - ni) mod ni) as [Epl Eix] by (unfold ind_place, ind_index; by destruct (Z.ltb_spec (k - nd) ni); [lia|]).
  rewrite Epl in Hval. rewrite <- Eix. destruct (zone_block_first spi sp s _ Hv Hd) as (_ & _ & Hds). fold (first_block sp (direct zs (nd + 1))) in Hds.
  destruct (fo_ok sp _ _ (Inner i) Hf Hval) as [E0|Hz1].
  - rewrite E0. destruct (vol_alloc spi sp _ (direct zs 0) s Hh Hv) as [(z1 & s1 & E & Hz1 & Hun & Rz)|(s1 & E & Hfull & Hi1 & Hv1 & T & Hu & Her)].
    + destruct (wr_indir_run spi sp s1 bp _ i z1 (rz_rest _ _ _ _ _ _ _ Rz) (rz_volume _ _ _ _ _ _ _ Rz) Hds Hval) as (s2 & s3 & E2 & E3 & Rw).
      destruct (vol_put spi sp s3 bp _ INDIRECT_BLOCK (rw_rest _ _ _ _ _ _ _ Rw) (rw_volume _ _ _ _ _ _ _ Rw)) as (s4 & E4 & Un).
      rewrite (enter_zone_unlisted zs s s1 s2 s3 s4 bp i z1 (ind_index k) z Hl E E2 E3 E4), (zone_not_none spi sp s z1 Hv Hz1).
      destruct (entry_entered zs s4 z1 true) as (s' & E' & He); [apply Un|apply Un|done| |by exists OK, zs, s'].
      intros ho s5 Hi5 Hv5 Rw5. pose proof (listed_grown zs s s1 s3 s4 ho s5 bp i z1 Hval Hh Hv Hf Hd E0 Hz1 Hun Rz Rw Un Rw5) as Hfi.
      split; [eapply grown_trans; [lia|done|by apply (filled_grown sp zs s (Inner i) z1)]|]. rewrite Epl, (fl_at _ _ _ _ _ _ _ Hfi (Inner i) Hval). by case_decide.
    + destruct (wr_indir_run spi sp s1 bp _ i NO_ZONE Hi1 Hv1 Hds Hval) as (s2 & s3 & E2 & E3 & Rw).
      destruct (vol_put spi sp s3 bp _ INDIRECT_BLOCK (rw_rest _ _ _ _ _ _ _ Rw) (rw_volume _ _ _ _ _ _ _ Rw)) as (s4 & E4 & Un).
      rewrite (enter_zone_unlisted zs s s1 s2 s3 s4 bp i NO_ZONE (ind_index k) z Hl E E2 E3 E4). exists ENOSPC, zs, s4. split; [by rewrite <- Her|].
      split; [apply Un|]. split; [apply Un|]. right. split; [done|].
      pose proof (cleared_grown zs s s1 s3 s4 bp i Hval Hv Hf Hd E0 (failed_unseen _ _ _ Hi1 Hv1 T Hu) Rw Un) as G4. split.
      * eapply grown_trans; [lia|exact G|done].
      * intros z' Hz'. rewrite (un_used _ _ _ _ _ Un z' Hz'), (rw_used _ _ _ _ _ _ _ Rw z' Hz'), Hu by done. by apply Hfull.
  - destruct (vol_put spi sp s bp _ INDIRECT_BLOCK Hh Hv) as (s1 & E1 & Un).
    assert (zone_at sp zs s (Inner i) ≠ NO_ZONE) as Hne by (unfold is_zone, NO_ZONE in *; lia).
    rewrite (enter_zone_listed zs s s1 bp i _ (ind_index k) z Hne E1). pose proof (unseen_grown spi sp _ zs s s1 Hv Hf Un) as G1.
    destruct (entry_entered zs s1 (zone_at sp zs s (Inner i)) false) as (s' & E' & He); [apply Un|apply Un|done| |by exists OK, zs, s'].
    intros ho s2 Hi2 Hv2 Un2. pose proof (unseen_grown spi sp ho zs s1 s2 (un_volume _ _ _ _ _ Un) (gr_ok _ _ _ _ _ G1) Un2) as G2. split.
    + eapply grown_trans; [lia|exact G|]. eapply grown_trans; [lia|exact G1|done].
    + rewrite Epl. pose proof (vol_dev _ _ _ Hv) as Hdv. apply (zone_at_same sp); [done| |done]. intros q _ _ _.
      rewrite (un_same _ _ _ _ _ Un2), (un_same _ _ _ _ _ Un) by done. done.
Qed.

(** The double indirect block in use, a new one when there was none. *)
Lemma double_held zs s : idle s → volume spi sp s → grown sp zs0 s0 zs s →
  (∃ d (new : bool) zs1 s1 bp s2 s3, double_zone rip nd (st zs s) = Ret (d, new) (st zs1 s1) ∧ direct zs1 (nd + 1) = d ∧ is_zone sp d ∧
     get_block dev (zone_block d scale) (if new then NO_READ else NORMAL) s1 = Ret bp s2 ∧ when new (zero_block bp) s2 = Ret tt s3 ∧
     resting (Some (bp, dev, first_block sp d)) s3 ∧ volume spi sp s3 ∧ grown sp zs0 s0 zs1 s3) ∨
  (∃ s1, double_zone rip nd (st zs s) = Ret (NO_ZONE, true) (st zs s1) ∧ err_code s1 = ENOSPC ∧ idle s1 ∧ volume spi sp s1 ∧ grown sp zs0 s0 zs s1 ∧ full s1).
Proof.
  intros Hi Hv G. pose proof (gr_ok _ _ _ _ _ G) as Hf. pose proof (fo_len _ _ _ Hf) as Hl. pose proof (vol_zones _ _ _ Hv) as [Hz0 _].
  assert (0 ≤ nd + 1 < zlen zs) as Hr by (rewrite Hl; done). unfold double_zone. rewrite (bind_ret _ _ _ _ _ (st_rd_zone zs s (nd + 1) Hl ltac:(done))).
  destruct (fo_ok sp _ _ Double Hf I) as [E0|Hd]; cbn [zone_at] in *.
  - rewrite E0. change (negb (NO_ZONE =? NO_ZONE)) with false. cbv iota.
    destruct (vol_alloc spi sp None (direct zs 0) s Hi Hv) as [(d & s1 & E & Hd & Hun & Rz)|(s1 & E & Hfull & Hi1 & Hv1 & T & Hu & Her)];
      rewrite (alloc_prefix _ zs s _ _ Hl E).
    + left. destruct (zone_block_first spi sp s1 d (rz_volume _ _ _ _ _ _ _ Rz) Hd) as (Eb & Ho & Hds). fold (first_block sp d) in *.
      destruct (vol_new spi sp s1 _ (rz_rest _ _ _ _ _ _ _ Rz) (rz_volume _ _ _ _ _ _ _ Rz) Ho Hds) as (bp & s2 & s3 & Eg & Ez & Rw).
      assert (filled_in sp zs s Double d (upd zs (nd + 1) d) s3) as Hfi.
      { apply (fill_inode spi sp zs s s3 Hv Hf d Hd Double); [done| | |by right|done].
        - eapply delta_weaken; [exact (delta_trans _ _ _ _ _ _ _ _ (rezoned_delta _ _ _ _ _ _ Rz) (rewrote_delta _ _ _ _ _ _ _ Rw))| |]; unfold nothing; naive_solver.
        - eexists. eapply stored_at; [by eapply vol_dev|apply Rw]. }
      exists d, true, (upd zs (nd + 1) d), s1, bp, s2, s3. rewrite Eb. split_and!; try done; [| |apply Rw|apply Rw|].
      * rewrite (zone_not_none spi sp s d Hv Hd). cbn [negb when]. by step (st_wr_zone zs s1 (nd + 1) d Hr).
      * rewrite direct_upd by done. by rewrite Z.eqb_refl.
      * eapply grown_trans; [lia|exact G|]. by apply (filled_grown sp zs s Double d).
    + right. exists s1. split_and!; try done.
      * eapply grown_trans; [lia|exact G|]. by apply (unseen_grown spi sp None).
      * intros z' Hz'. by rewrite Hu, Hfull.
  - left. destruct (zone_block_first spi sp s _ Hv Hd) as (Eb & Ho & Hds). destruct (vol_get spi sp s _ Hi Hv Ho) as (bp & s1 & Eg & Un).
    exists (direct zs (nd + 1)), false, zs, s, bp, s1, s1. rewrite Eb. split_and!; try done; [by rewrite (zone_not_none spi sp s _ Hv Hd)|apply Un|apply Un|].
    eapply grown_trans; [lia|exact G|]. by eapply unseen_grown.
Qed.

Lemma enter_double_run zs s : ni ≤ k - nd → idle s → volume spi sp s → grown sp zs0 s0 zs s →
  ∃ r zs' s', (
    '(z', new_dbl) ← double_zone rip nd;
    if z' =? NO_ZONE then get_err_code else
    ind_ex ← lift_opt (div_by (k - nd - ni) ni);
    excess ← lift_opt (rem_by (k - nd - ni) ni);
    if ni <=? ind_ex then mret EFBIG else
    bp ← on_cache (get_block dev (zone_block z' scale) (if (new_dbl : bool) then NO_READ else NORMAL));
    when new_dbl (on_cache (zero_block bp));;
    z1 ← on_cache (rd_indir bp ind_ex);
    enter_zone rip nd scale (Some (bp, ind_ex)) z1 excess z) (st zs s) = Ret r (st zs' s') ∧ entered zs0 s0 k z r zs' s'.
Proof.
  intros Hkn Hi Hv G. pose proof (pl_shaped _ (vo_placed _ _ _ Hv)) as Hsh. destruct (indirects_fit sp Hsh) as [Hn _].
  destruct (inner_index sp k Hsh) as [Ha Hb]; [unfold V2_NR_DZONES in *; lia|lia|done|].
  assert (div_by (k - nd - ni) ni = Some ((k - nd - ni) / ni) ∧ rem_by (k - nd - ni) ni = Some ((k - nd - ni) mod ni)) as [Ediv Erem].
  { unfold div_by, rem_by. destruct (Z.eqb_spec ni 0); [lia|]. rewrite Z.quot_div_nonneg, Z.rem_mod_nonneg by lia. done. }
  destruct (double_held zs s Hi Hv G) as [(d & new & zs1 & s1 & bp & s2 & s3 & Ed & Edz & Hd & Eg & Ez & Hh & Hv3 & G3)|(s1 & Ed & Her & Hi1 & Hv1 & G1 & Hfull)].
  - pose proof (gr_ok _ _ _ _ _ G3) as Hf3. subst d. destruct (enter_inner_run zs1 s3 bp Hkn Hh Hd Hv3 G3) as (r & zs' & s' & E & He).
    exists r, zs', s'. split; [|done]. step Ed. rewrite (zone_not_none spi sp s3 _ Hv3 Hd), (bind_lift _ _ _ _ Ediv), (bind_lift _ _ _ _ Erem).
    destruct (Z.leb_spec ni ((k - nd - ni) / ni)); [lia|]. step (st_cache _ zs1 _ _ _ Eg).
    assert (when new (on_cache (zero_block bp)) (st zs1 s2) = Ret tt (st zs1 s3)) as Ew.
    { unfold when in *. destruct new; [by apply st_cache|]. by injection Ez as <-. }
    step Ew. pose proof (fo_ok sp _ _ (Inner _) Hf3 Ha) as Hok. cbn [zone_at] in Hok, E. unfold ind in Hok, E.
    rewrite (zone_not_none spi sp s3 _ Hv3 Hd) in Hok, E.
    pose proof (rd_indir_run spi sp s3 bp _ _ Hh Hv3 Ha Hok) as Er. step (st_cache _ zs1 _ _ _ Er). exact E.
  - exists ENOSPC, zs, s1. split; [|split; [done|split; [done|by right]]]. step Ed. rewrite <- Her. done.
Qed.
End writes.

(** *** The whole *)

Section whole.
Context `{RD : Reliable} (spi : Z) (sp : super_block) (rip : Z).
Notation nd := V2_NR_DZONES.

(** The state that differs in the zones of the inode, which is to be written, and in
    the cache. *)
Definition changed (x : inode) (v : vfs) (zs : list Z) (s : fsst) : vfs :=
  with_cache s (with_inodes (upd (inodes v) rip (set_i_zone zs (set_i_dirt DIRTY x))) v).

Lemma write_map_run x v position z : file spi sp rip x v → 0 ≤ position → zone_index sp position < file_zones sp →
  is_zone sp z → zone_used sp (cache v) z = true → foreign sp (i_zone x) (cache v) z →
  ∃ r zs' s', write_map rip position z v = Ret r (changed x v zs' s') ∧
    entered spi sp (i_zone x) (cache v) (zone_index sp position) z r zs' s'.
Proof.
  intros [Hs Hi Hv Hf] Hp Hk Hz Hu Hfo. pose proof (pl_shaped _ (vo_placed _ _ _ Hv)) as Hsh.
  destruct (index_shift sp position Hsh Hp) as (Ed & Hbp & Ek & _ & _ & Hk0). set (k := zone_index sp position) in *.
  set (x0 := set_i_dirt DIRTY x). set (v0 := with_inodes (upd (inodes v) rip x0) v).
  assert (slot spi sp rip x0 v0) as Hs0.
  { destruct Hs as [Hg ? ? ? ?]. split; try done. apply zget_upd_eq. by eapply zget_Some_range. }
  assert (∀ zs s, changed x v zs s = st rip x0 v0 zs s) as Hch.
  { intros zs s. unfold changed, st, v0, with_cache, with_inodes. cbn. f_equal. unfold upd. by rewrite list_insert_insert_eq. }
  assert (upd_ino rip (set_i_dirt DIRTY) v = Ret tt v0) as Eu by (by apply (upd_ino_run v rip x), Hs).
  assert (grown sp (i_zone x) (cache v) (i_zone x) (cache v)) as G by (by apply (unseen_grown spi sp None)).
  pose proof (fo_len _ _ _ Hf) as Hl. destruct (slot_super spi sp rip x0 v0 Hs0 Hv) as (i & h & Esp).
  unfold write_map. step Eu. step (rd_ino_run v0 rip x0 (sl_get _ _ _ _ _ Hs0)). step Esp. cbn [s_log_zone_size s_block_size set_search].
  rewrite (bind_lift _ _ _ _ Ed), Ek. cbv zeta. rewrite (sl_nd _ _ _ _ _ Hs0), (sl_ni _ _ _ _ _ Hs0), (sl_dev _ _ _ _ _ Hs0).
  assert (v0 = st rip x0 v0 (i_zone x) (cache v)) as Eself by (by apply (st_self spi sp rip x0 v0)). clearbody x0.
  destruct (Z.ltb_spec k nd) as [Hd|Hd].
  - exists OK, (upd (i_zone x) k z), (cache v). rewrite Hch. split.
    + rewrite Eself at 1. step (st_wr_zone spi sp rip x0 v0 Hs0 (i_zone x) (cache v) k z ltac:(rewrite Hl; unfold V2_NR_DZONES, V2_NR_TZONES in *; lia)). done.
    + split; [done|]. split; [done|]. left. split; [done|]. pose proof (vol_zones _ _ _ Hv) as [Hz0 _]. eapply grown_remapped; [lia|exact G| |done]. by apply fill_direct.
  - destruct (Z.ltb_spec (k - nd) (indirects sp)) as [Hsg|Hsg].
    + rewrite Eself. step (st_rd_zone spi sp rip x0 v0 Hs0 (i_zone x) (cache v) nd Hl ltac:(done)).
      destruct (enter_single_run spi sp rip x0 v0 Hs0 (i_zone x) (cache v) k z ltac:(lia) Hz Hu Hfo (i_zone x) (cache v) Hsg Hi Hv G) as (r & zs' & s' & E & He).
      exists r, zs', s'. by rewrite Hch.
    + destruct (enter_double_run spi sp rip x0 v0 Hs0 (i_zone x) (cache v) k z ltac:(lia) Hz Hu Hfo (i_zone x) (cache v) Hsg Hi Hv G) as (r & zs' & s' & E & He).
      exists r, zs', s'. rewrite Hch. split; [|done]. rewrite Eself at 1. exact E.
Qed.
End whole.

(** ** Freeing the zones of a file *)

Lemma for_each_app {S A : Type} (l1 l2 : list A) (body : A → M S unit) s : for_each (l1 ++ l2) body s = (for_each l1 body;; for_each l2 body) s.
Proof. revert s. induction l1 as [|y l1 IH]; intros s; [done|]. cbn [for_each app]. rewrite bind_assoc. unfold mbind, M_bind. destruct (body y s); [apply IH|done..]. Qed.

Section frees.
Context `{RD : Reliable} (spi : Z) (sp : super_block) (rip : Z).
Implicit Types (s : fsst) (zs : list Z).
Notation dev := (s_dev sp).
Notation scale := (s_log_zone_size sp).
Notation ni := (indirects sp).
Notation nd := V2_NR_DZONES.

Section one_file.
Context (zs : list Z) (s : fsst) (Hv : volume spi sp s) (Hf : file_ok sp zs s).

(** The zones of the places [D] are free, and nothing else is different. *)
Record freed (ho : holder) (D : place → Prop) (s' : fsst) : Prop := Freed {
  fr_rest : resting ho s';
  fr_volume : volume spi sp s';
  fr_used z : is_zone sp z → zone_used sp s' z = true ↔ zone_used sp s z = true ∧ ∀ p, D p → valid sp p → zone_at sp zs s p ≠ z;
  fr_data d n : d ≠ NO_DEV → (d = dev → off_map sp n) → contents s' d n = contents s d n }.

Lemma freed_at ho D s' p : freed ho D s' → valid sp p → zone_at sp zs s' p = zone_at sp zs s p.
Proof.
  intros Fr. apply (zone_at_same sp); [apply Hv|]. intros q _ Hq Hne. destruct (fo_zone _ _ _ Hf q Hq) as [?|[Hz _]]; [done|].
  apply (fr_data _ _ _ Fr); [by eapply vol_dev|]. intros _. by apply (data_off spi sp s Hv), (first_block_data spi sp s Hv).
Qed.

Lemma freed_ranged ho D s' : freed ho D s' → ranged sp zs s'.
Proof. intros Fr. split; [apply (fo_len _ _ _ Hf)|]. intros p Hp. rewrite (freed_at ho D s' p Fr Hp). by apply fo_ok. Qed.

Lemma freed_unseen ho D s1 ho' s2 : freed ho D s1 → unseen spi sp ho' s1 s2 → freed ho' D s2.
Proof.
  intros [_ _ Hu Hd] [Hi' Hv' Hu' T]. split; [done|done| |].
  - intros z Hz. rewrite (Hu' z Hz). by apply Hu.
  - intros d n Hdn Hn. rewrite T by done. by apply Hd.
Qed.

Lemma freed_more ho (D D' : place → Prop) s' : freed ho D s' → (∀ p, valid sp p → zone_at sp zs s p ≠ NO_ZONE → D p ↔ D' p) → freed ho D' s'.
Proof.
  intros [? ? Hu ?] HD. pose proof (vol_zones _ _ _ Hv) as [Hz0 _]. split; try done. intros z Hz. rewrite (Hu z Hz).
  assert (z ≠ NO_ZONE) as Hne by (unfold is_zone, NO_ZONE in *; lia).
  split; intros [Hz1 Hz2]; (split; [done|]); intros p Hp Hval E; apply (Hz2 p); try done; apply HD; try done; congruence.
Qed.

(** The zone of one more place. *)
Lemma free_place ho D s' p0 : freed ho D s' → valid sp p0 → ¬ D p0 →
  ∃ s'', free_zone dev (zone_at sp zs s p0) s' = Ret tt s'' ∧ freed ho (λ p, D p ∨ p = p0) s''.
Proof.
  intros Fr Hp Hn. pose proof (vol_zones _ _ _ Hv) as [Hz0 _]. destruct (fo_zone _ _ _ Hf p0 Hp) as [E0|[Hz Hu]].
  - exists s'. split; [|eapply freed_more; [done|]; intros p _ Hne; split; [by left|intros [?| ->]; [done|by destruct Hne]]].
    apply (vol_free_none spi sp _ s' (fr_volume _ _ _ Fr)). rewrite E0. unfold is_zone, NO_ZONE. lia.
  - set (z := zone_at sp zs s p0) in *. assert (z ≠ NO_ZONE) as Hne by (unfold is_zone, NO_ZONE in *; lia).
    destruct (vol_free spi sp ho z s' (fr_rest _ _ _ Fr) (fr_volume _ _ _ Fr) Hz) as (s'' & E & [Hi'' Hv'' Hu'' Hd'']).
    { apply (fr_used _ _ _ Fr z Hz). split; [done|]. intros p HD Hval Ez. apply Hn. by rewrite (fo_own _ _ _ Hf p0 p Hp Hval Hne (eq_sym Ez)). }
    exists s''. split; [done|]. split; [done|done| |].
    + intros z' Hz'. rewrite (Hu'' z' Hz'). destruct (Z.eqb_spec z' z) as [->|Hnz].
      * split; [done|]. intros [_ Hall]. by destruct (Hall p0 (or_intror eq_refl) Hp).
      * rewrite (fr_used _ _ _ Fr z' Hz'). split; intros [Hz1 Hz2]; (split; [done|]).
        -- intros p [HD| ->] Hval; [by apply Hz2|]. fold z. congruence.
        -- intros p HD. apply Hz2. by left.
    + intros d n Hdn Hn'. rewrite Hd'' by done. by apply (fr_data _ _ _ Fr).
Qed.

Lemma freed_nothing ho : resting ho s → freed ho (λ _, False) s.
Proof. intros Hi. split; [done|done| |done]. intros z _. naive_solver. Qed.

(** *** The zones a double indirect block lists *)

Lemma listed_run bp D : ∀ n s', (∀ i, ¬ D (Inner i)) → is_zone sp (zone_at sp zs s Double) →
  freed (Some (bp, dev, first_block sp (zone_at sp zs s Double))) D s' → Z.of_nat n ≤ ni →
  ∃ s'', for_each (range 0 n) (λ i, z1 ← rd_indir bp i; free_zone dev z1) s' = Ret tt s'' ∧
    freed (Some (bp, dev, first_block sp (zone_at sp zs s Double))) (λ p, D p ∨ ∃ i, p = Inner i ∧ 0 ≤ i < Z.of_nat n) s''.
Proof.
  induction n as [|n IH]; intros s' HD Hd Fr Hn.
  - exists s'. split; [done|]. eapply freed_more; [done|]. intros p _ _. split; [by left|]. intros [?|(i & _ & Hi)]; [done|lia].
  - destruct (IH s' HD Hd Fr ltac:(lia)) as (s1 & E1 & Fr1). assert (0 ≤ Z.of_nat n < ni) as Hi by lia.
    pose proof (freed_at _ _ _ (Inner (Z.of_nat n)) Fr1 Hi) as Hat. pose proof (fo_ok sp _ _ (Inner (Z.of_nat n)) Hf Hi) as Hok. rewrite <- Hat in Hok.
    cbn [zone_at] in Hat, Hok, Hd. unfold ind in Hat, Hok. rewrite (zone_not_none spi sp s _ Hv Hd) in Hat, Hok. cbn [zone_at] in Fr1.
    pose proof (rd_indir_run spi sp s1 bp _ _ (fr_rest _ _ _ Fr1) (fr_volume _ _ _ Fr1) Hi Hok) as Er.
    destruct (free_place _ _ s1 (Inner (Z.of_nat n)) Fr1 Hi) as (s'' & E2 & Fr2).
    { intros [?|(i & [= <-] & Hi')]; [by destruct (HD (Z.of_nat n))|lia]. }
    exists s''. split.
    + rewrite range_snoc, for_each_app. step E1. cbn [for_each]. rewrite Z.add_0_l, bind_assoc. step Er. rewrite Hat. cbn [zone_at] in E2. unfold ind in E2.
      rewrite (zone_not_none spi sp s _ Hv Hd) in E2. by step E2.
    + eapply freed_more; [exact Fr2|]. intros p _ _. split.
      * intros [[?|(i & -> & Hi')]| ->]; [by left|right; exists i; split; [done|lia]|right; eexists; split; [done|lia]].
      * intros [?|(i & -> & Hi')]; [by left; left|]. destruct (Z.eq_dec i (Z.of_nat n)) as [->|]; [by right|]. left. right. exists i. split; [done|lia].
Qed.
End one_file.

(** *** The whole file *)

Definition zone_size : Z := s_block_size sp * 2 ^ scale.

(** The data of the file are within its size. *)
Record sized (x : inode) (v : vfs) : Prop := Sized {
  sz_range : 0 ≤ i_size x ∧ i_size x + zone_size ≤ 2 ^ 32;
  sz_map : i_size x ≤ file_zones sp * zone_size;
  sz_data k : valid sp (Data k) → file_zone sp x v k ≠ NO_ZONE → k * zone_size < i_size x }.

Lemma zone_size_run s : volume spi sp s → u32 (Z.shiftl (s_block_size sp) scale) = zone_size ∧ 1024 ≤ zone_size ≤ 65536.
Proof.
  intros Hv. pose proof (scale_pow _ _ _ Hv) as Hp. pose proof (sh_size _ (pl_shaped _ (vo_placed _ _ _ Hv))) as Hb. pose proof (sh_scale _ (pl_shaped _ (vo_placed _ _ _ Hv))) as Hs.
  unfold MIN_BLOCK_SIZE, MAX_BLOCK_SIZE in Hb. rewrite Z.shiftl_mul_pow2 by lia. fold zone_size. assert (1024 ≤ zone_size ≤ 65536) by (unfold zone_size; nia).
  split; [|done]. unfold u32. apply Z.mod_small. lia.
Qed.

(** The first block of zone [m] of the file. *)
Lemma zone_start s m : volume spi sp s → 0 ≤ m → zone_index sp (m * zone_size) = m ∧ zone_offset sp (m * zone_size) = 0.
Proof.
  intros Hv Hm. pose proof (scale_pow _ _ _ Hv) as Hp. pose proof (sh_size _ (pl_shaped _ (vo_placed _ _ _ Hv))) as Hb. unfold MIN_BLOCK_SIZE in Hb.
  unfold zone_index, zone_offset, zone_size. replace (m * (s_block_size sp * 2 ^ scale)) with (m * 2 ^ scale * s_block_size sp) by lia.
  rewrite Z.div_mul by lia. rewrite Z.div_mul by lia. split; [done|]. apply Z.mod_mul. lia.
Qed.

Section truncated.
Context (x : inode) (v : vfs) (Hfile : file spi sp rip x v) (Hsized : sized x v).
Notation s := (cache v).
Notation zs := (i_zone x).
Let Hv : volume spi sp s := fi_volume _ _ _ _ _ Hfile.
Let Hf : file_ok sp zs s := fi_ok _ _ _ _ _ Hfile.

Definition below (m : Z) (p : place) : Prop := ∃ j, p = Data j ∧ j < m.

Lemma data_loop fuel : ∀ m s', 0 ≤ m → m * zone_size < i_size x + zone_size → i_size x - m * zone_size < Z.of_nat fuel → (0 < fuel)%nat → freed zs s None (below m) s' →
  ∃ s'', loop fuel (data_step rip dev scale (i_size x) zone_size) (m * zone_size) (with_cache s' v) = Ret tt (with_cache s'' v) ∧
    freed zs s None (λ p, ∃ j, p = Data j) s''.
Proof.
  pose proof (zone_size_run s Hv) as [_ Hzs]. destruct Hsized as [[Hs0 Hs1] Hmap Hdata].
  induction fuel as [|fuel IH]; intros m s' Hm Hb Hfu Hfp Fr; [lia|]. destruct (Z.leb_spec (i_size x) (m * zone_size)) as [Hend|Hlt].
  - exists s'. split; [rewrite loop_S; unfold data_step at 2; by destruct (Z.leb_spec (i_size x) (m * zone_size)); [|lia]|].
    eapply freed_more; [done|done|]. intros p Hp Hne. split; [intros (j & -> & _); by exists j|]. intros (j & ->). exists j. split; [done|].
    pose proof (Hdata j Hp Hne). nia.
  - assert (0 ≤ m < file_zones sp) as Hval by nia. destruct (zone_start s m Hv Hm) as [Ei Eo].
    pose proof (slot_cache spi sp rip x v s' (fi_slot _ _ _ _ _ Hfile)) as Hsl.
    destruct (read_map_ranged spi sp rip x (with_cache s' v) (m * zone_size) Hsl (fr_rest _ _ _ _ _ Fr) (fr_volume _ _ _ _ _ Fr)) as (s1 & E1 & Un);
      [by eapply (freed_ranged zs s Hv Hf)|nia|rewrite Ei; lia|].
    rewrite Ei, Eo in E1. unfold file_zone in E1. cbn [cache with_cache] in E1, Un. rewrite (freed_at zs s Hv Hf _ _ _ (Data m) Fr Hval) in E1.
    pose proof (freed_unseen zs s _ _ _ _ _ Fr Un) as Fr1.
    destruct (free_place zs s Hv Hf None _ s1 (Data m) Fr1 Hval) as (s2 & E2 & Fr2); [intros (j & [= <-] & Hj); lia|].
    assert (∃ s3, when (negb (block_at sp (zone_at sp zs s (Data m)) 0 =? NO_BLOCK)) (on_cache (free_zone dev (Z.shiftr (block_at sp (zone_at sp zs s (Data m)) 0) scale)))
      (with_cache s1 v) = Ret tt (with_cache s3 v) ∧ freed zs s None (below (m + 1)) s3) as (s3 & E3 & Fr3).
    { exists s2. split.
      - pose proof (vol_zones _ _ _ Hv) as [Hz0 _]. pose proof (scale_pow _ _ _ Hv) as Hp2. pose proof (sh_scale _ (pl_shaped _ (vo_placed _ _ _ Hv))).
        unfold block_at. destruct (fo_ok sp _ _ (Data m) Hf Hval) as [E0|Hz].
        + rewrite E0 in E2 |- *. rewrite (vol_free_none spi sp NO_ZONE s1 (fr_volume _ _ _ _ _ Fr1)) in E2 by (unfold is_zone, NO_ZONE; lia). by injection E2 as <-.
        + rewrite (zone_not_none spi sp s _ Hv Hz). unfold first_block. rewrite Z.add_0_r. set (z := zone_at sp zs s (Data m)) in *.
          assert (z * 2 ^ scale ≠ NO_BLOCK) as Hnb by (unfold is_zone, NO_BLOCK in *; nia). destruct (Z.eqb_spec (z * 2 ^ scale) NO_BLOCK); [done|]. cbn [negb when].
          rewrite Z.shiftr_div_pow2, Z.div_mul by lia. by rewrite (on_cache_run _ (with_cache s1 v) _ _ E2).
      - eapply freed_more; [done|exact Fr2|]. intros p _ _. unfold below. split.
        + intros [(j & -> & Hj)| ->]; eexists; (split; [done|lia]).
        + intros (j & -> & Hj). destruct (Z.eq_dec j m) as [->|]; [by right|left]. exists j. split; [done|lia]. }
    destruct (IH (m + 1) s3) as (s'' & E'' & Fr''); [lia|lia|nia|nia|done|]. exists s''. split; [|done].
    rewrite loop_S. unfold data_step at 2. destruct (Z.leb_spec (i_size x) (m * zone_size)); [lia|]. rewrite bind_assoc. step E1. rewrite bind_assoc. step E3.
    rewrite bind_mret. unfold u32. rewrite Z.mod_small by lia. replace (m * zone_size + zone_size) with ((m + 1) * zone_size) by lia. exact E''.
Qed.

(** The inode is dirty, and otherwise as it was. *)
Let x0 : inode := set_i_dirt DIRTY x.
Let v0 : vfs := with_inodes (upd (inodes v) rip x0) v.

Lemma dirty_slot : slot spi sp rip x0 v0.
Proof. destruct (fi_slot _ _ _ _ _ Hfile) as [Hg ? ? ? ?]. split; try done. apply zget_upd_eq. by eapply zget_Some_range. Qed.

Lemma dirty_run s1 : upd_ino rip (set_i_dirt DIRTY) (with_cache s1 v) = Ret tt (st rip x0 v0 zs s1).
Proof.
  rewrite (upd_ino_run (with_cache s1 v) rip x) by apply (sl_get _ _ _ _ _ (fi_slot _ _ _ _ _ Hfile)). unfold st, v0, with_inodes, with_cache. cbn. do 2 f_equal.
  assert (set_i_zone zs x0 = x0) as -> by (unfold x0; by destruct x). unfold upd. by rewrite list_insert_insert_eq.
Qed.

(** The double indirect zone with the zones it lists. *)
Lemma double_freed s1 : is_zone sp (zone_at sp zs s Double) → freed zs s None (λ p, (∃ j, p = Data j) ∨ p = Single) s1 →
  ∃ s', (bp ← on_cache (get_block dev (zone_block (direct zs (nd + 1)) scale) NORMAL);
         on_cache (free_listed dev bp ni);;
         on_cache (put_block (Some bp) INDIRECT_BLOCK);;
         on_cache (free_zone dev (direct zs (nd + 1)))) (st rip x0 v0 zs s1) = Ret tt (st rip x0 v0 zs s') ∧ freed zs s None (λ _, True) s'.
Proof.
  intros Hd Fr1. pose proof (fr_volume _ _ _ _ _ Fr1) as Hv1. cbn [zone_at] in Hd. destruct (zone_block_first spi sp s1 _ Hv1 Hd) as (Eb & Ho & _).
  destruct (vol_get spi sp s1 _ (fr_rest _ _ _ _ _ Fr1) Hv1 Ho) as (bp & s2 & E2 & Un2). pose proof (freed_unseen zs s _ _ _ _ _ Fr1 Un2) as Fr2.
  pose proof (indirects_fit sp (pl_shaped _ (vo_placed _ _ _ Hv))) as [Hn _].
  assert (∀ i, ¬ ((∃ j, Inner i = Data j) ∨ Inner i = Single)) as HD by (by intros i [(j & ?)|?]).
  destruct (listed_run zs s Hv Hf bp _ (Z.to_nat ni) s2 HD Hd Fr2 ltac:(lia)) as (s3 & E3 & Fr3).
  destruct (vol_put spi sp s3 bp _ INDIRECT_BLOCK (fr_rest _ _ _ _ _ Fr3) (fr_volume _ _ _ _ _ Fr3)) as (s4 & E4 & Un4).
  pose proof (freed_unseen zs s _ _ _ _ _ Fr3 Un4) as Fr4.
  destruct (free_place zs s Hv Hf None _ s4 Double Fr4 I) as (s' & E5 & Fr5); [by intros [[(j & ?)|?]|(i & ? & _)]|].
  exists s'. split.
  - rewrite Eb. step (st_cache rip x0 v0 _ zs _ _ _ E2). step (st_cache rip x0 v0 _ zs _ _ _ E3). step (st_cache rip x0 v0 _ zs _ _ _ E4).
    exact (st_cache rip x0 v0 _ zs _ _ _ E5).
  - eapply freed_more; [done|exact Fr5|]. intros p Hp _. split; [done|]. intros _. destruct p as [j| | |i]; [left; left; left; by exists j|by left; left; right|by right|].
    left. right. exists i. split; [done|]. cbn in Hp. lia.
Qed.

Lemma truncate_run : Z.land (i_mode x) I_TYPE ≠ I_CHAR_SPECIAL → Z.land (i_mode x) I_TYPE ≠ I_BLOCK_SPECIAL → i_pipe x ≠ I_PIPE →
  ∃ s', truncate rip v = Ret tt (changed rip x v zs s') ∧ freed zs s None (λ _, True) s'.
Proof.
  intros Hc Hb Hp. pose proof (fi_slot _ _ _ _ _ Hfile) as Hs. destruct (slot_super spi sp rip x v Hs Hv) as (i & h & Esp).
  pose proof (zone_size_run s Hv) as [Ezs Hzs]. pose proof (fo_len _ _ _ Hf) as Hl. pose proof dirty_slot as Hs0. pose proof Hsized as [[Hz0 Hz1] _ _].
  destruct (data_loop (S (Z.to_nat (i_size x))) 0 s ltac:(lia) ltac:(lia) ltac:(lia) ltac:(lia)) as (s1 & E1 & Fr1).
  { eapply freed_more; [done|apply freed_nothing; [done|apply Hfile]|]. intros p Hval _. split; [done|]. intros (j & -> & Hj). cbn in Hval. lia. }
  destruct (free_place zs s Hv Hf None _ s1 Single Fr1 I) as (s2 & E2 & Fr2); [by intros (j & ?)|].
  assert (∃ s', when (negb (direct zs (nd + 1) =? NO_ZONE))
      (bp ← on_cache (get_block dev (zone_block (direct zs (nd + 1)) scale) NORMAL);
       on_cache (free_listed dev bp ni);;
       on_cache (put_block (Some bp) INDIRECT_BLOCK);;
       on_cache (free_zone dev (direct zs (nd + 1)))) (st rip x0 v0 zs s2) = Ret tt (st rip x0 v0 zs s') ∧ freed zs s None (λ _, True) s') as (s' & E3 & Fr3).
  { destruct (fo_ok sp _ _ Double Hf I) as [E0|Hd]; cbn [zone_at] in *.
    - rewrite E0. exists s2. split; [done|]. eapply freed_more; [done|exact Fr2|]. intros p Hval Hne. split; [done|]. intros _.
      destruct p as [j| | |k]; [left; by exists j|by right|done|]. cbn [zone_at] in Hne. by rewrite E0 in Hne.
    - rewrite (zone_not_none spi sp s _ Hv Hd). cbn [negb when]. by apply double_freed. }
  exists s'. split; [|done]. unfold truncate. step (rd_ino_run v rip x (sl_get _ _ _ _ _ Hs)).
  destruct (Z.eqb_spec (Z.land (i_mode x) I_TYPE) I_CHAR_SPECIAL), (Z.eqb_spec (Z.land (i_mode x) I_TYPE) I_BLOCK_SPECIAL); try done. cbn [orb].
  step Esp. cbn [s_log_zone_size s_block_size set_search]. destruct (Z.eqb_spec (i_pipe x) I_PIPE); [done|]. cbn [when]. rewrite bind_mret.
  rewrite Ezs, (sl_dev _ _ _ _ _ Hs). rewrite Z.mul_0_l in E1. assert (with_cache s v = v) as Ev by (by destruct v). rewrite Ev in E1. step E1.
  step (dirty_run s1). rewrite (sl_nd _ _ _ _ _ Hs), (sl_ni _ _ _ _ _ Hs). step (st_rd_zone spi sp rip x0 v0 Hs0 zs s1 nd Hl ltac:(done)).
  cbn [zone_at] in E2. step (st_cache rip x0 v0 _ zs _ _ _ E2). step (st_rd_zone spi sp rip x0 v0 Hs0 zs s2 (nd + 1) Hl ltac:(done)). rewrite E3.
  unfold changed, st, v0, with_inodes, with_cache. cbn. do 2 f_equal. unfold upd. by rewrite list_insert_insert_eq.
Qed.
End truncated.
End frees.
