(* ===== verification/InodeRuns.v ===== *)
(** * Inodes are written and read

    The two layouts of an inode on the device; then [rw_inode] on a mounted file
    system: the inode goes to its place in its block, other inodes and other blocks
    are as they were, and reading it gives it back. *)

From S2P Require Import Prelude Linked Cache CacheLists CacheSpec CacheRep CacheStore Super SuperSpec Zones Inode FileMap Volume FileZones MapWrites.

(** ** Inodes on the device and in memory *)

(** *** Signed numbers in unsigned fields *)

Lemma conv2_low n w : conv2 n w = conv2 n (u16 w).
Proof.
  unfold conv2, u16, BYTE. change 65535 with (2 ^ 16 - 1). change 255 with (2 ^ 8 - 1). destruct (negb (n =? 0)); rewrite ?land_mod by lia.
  - change (2 ^ 16) with 65536. by rewrite Z.mod_mod by lia.
  - rewrite !Z.shiftr_div_pow2 by lia. change (2 ^ 8) with 256. f_equal; [f_equal|].
    + change 65536 with (256 * 256). rewrite Z.rem_mul_r by lia. rewrite (Z.mul_comm 256), Z.mod_add by lia. by rewrite Z.mod_mod by lia.
    + change 65536 with (256 * 256). rewrite Z.rem_mul_r by lia. rewrite (Z.mul_comm 256), Z.div_add by lia.
      rewrite (Z.div_small (w mod 256)) by (apply Z.mod_pos_bound; lia). by rewrite Z.add_0_l, Z.mod_mod by lia.
Qed.

Lemma u16_range w : 0 ≤ u16 w < 65536.
Proof. apply Z.mod_pos_bound. lia. Qed.

Lemma u32_range w : 0 ≤ u32 w < 4294967296.
Proof. apply Z.mod_pos_bound. lia. Qed.

Lemma u16_conv2 n w : u16 (conv2 n w) = conv2 n (u16 w).
Proof. rewrite conv2_low. apply Z.mod_small, conv2_range, u16_range. Qed.

Lemma u32_conv4 n w : u32 (conv4 n w) = conv4 n (u32 w).
Proof.
  destruct (Z.eq_dec n 0) as [->|Hn]; [|unfold conv4; by destruct (Z.eqb_spec n 0)].
  assert (conv4 0 w = conv4 0 (u32 w)) as E.
  { unfold conv4. cbn [negb Z.eqb]. change 65535 with (2 ^ 16 - 1). rewrite !land_mod, !Z.shiftr_div_pow2 by lia. change (2 ^ 16) with 65536. unfold u32.
    change 4294967296 with (65536 * 65536). rewrite Z.rem_mul_r by lia. rewrite (Z.mul_comm 65536 (_ mod _)), Z.mod_add, Z.div_add by lia.
    rewrite (Z.div_small (w mod 65536)) by (apply Z.mod_pos_bound; lia). by rewrite Z.add_0_l, !Z.mod_mod by lia. }
  rewrite E. apply Z.mod_small, conv4_range, u32_range.
Qed.

(** A word is stored and read back. *)
Lemma word16_back n off w l : 0 ≤ off → off + 1 < zlen l → conv2 n <$> word16 (put_word16 off (conv2 n w) l) off = Some (u16 w).
Proof. intros Ho Hl. rewrite word16_put_at by lia. cbn. f_equal. rewrite u16_conv2. apply conv2_conv2, u16_range. Qed.

Lemma word32_back n off w l : 0 ≤ off → off + 3 < zlen l → conv4 n <$> word32 (put_word32 off (conv4 n w) l) off = Some (u32 w).
Proof. intros Ho Hl. rewrite word32_put_at by lia. cbn. f_equal. rewrite u32_conv4. apply conv4_conv4, u32_range. Qed.

Lemma s16_u16 w : -32768 ≤ w < 32768 → s16 (u16 w) = w.
Proof.
  intros Hw. unfold s16, u16. rewrite Z.mod_mod by lia. destruct (Z.leb_spec 0 w).
  - rewrite Z.mod_small by lia. by destruct (Z.ltb_spec w 32768); [|lia].
  - replace w with (w + 65536 + -1 * 65536) by lia. rewrite Z.mod_add, Z.mod_small by lia. destruct (Z.ltb_spec (w + 65536) 32768); lia.
Qed.

Lemma s32_u32 w : -2147483648 ≤ w < 2147483648 → s32 (u32 w) = w.
Proof. intros Hw. unfold s32, u32. rewrite Zplus_mod_idemp_l, Z.mod_small by lia. lia. Qed.

Lemma schar_u8 w : -128 ≤ w < 128 → schar (u8 w) = w.
Proof.
  intros Hw. unfold schar, u8. destruct (Z.leb_spec 0 w).
  - rewrite Z.mod_small by lia. by destruct (Z.ltb_spec w 128); [|lia].
  - replace w with (w + 256 + -1 * 256) by lia. rewrite Z.mod_add, Z.mod_small by lia. destruct (Z.ltb_spec (w + 256) 128); lia.
Qed.

Lemma char8_u16 w : -128 ≤ w < 128 → char8 (u16 w) = w.
Proof.
  intros Hw. unfold char8, u8, u16. change 65536 with (256 * 256). rewrite Z.rem_mul_r by lia. rewrite (Z.mul_comm 256), Z.mod_add, Z.mod_mod by lia.
  by apply schar_u8.
Qed.

(** *** Arrays of zones *)

Lemma put_zones_S norm width off zs n l :
  put_zones norm width off zs (S n) l =
  (let l' := put_zones norm width off zs n l in
   if width =? 2 then put_word16 (off + 2 * Z.of_nat n) (conv2 norm (default 0 (zget zs (Z.of_nat n)))) l'
   else put_word32 (off + 4 * Z.of_nat n) (conv4 norm (default 0 (zget zs (Z.of_nat n)))) l').
Proof. unfold put_zones. by rewrite range_snoc, foldl_app. Qed.

Lemma put_zones_len norm width off zs n l : zlen (put_zones norm width off zs n l) = zlen l.
Proof.
  induction n as [|n IH]; [done|]. rewrite put_zones_S. cbv zeta. destruct (width =? 2); [by rewrite put_word16_len|by rewrite put_word32_len].
Qed.

Section zone_arrays.
Context (norm off : Z) (zs : list Z) (l : list Z) (Ho : 0 ≤ off).

Lemma old_zones_away n o : off + 2 * Z.of_nat n ≤ zlen l → o + 1 < off → word16 (put_zones norm 2 off zs n l) o = word16 l o.
Proof.
  intros Hn Hof. induction n as [|n IH]; [done|]. rewrite put_zones_S. cbv zeta. change (2 =? 2) with true. cbv iota.
  rewrite word16_put_away by (rewrite ?put_zones_len; lia). apply IH. lia.
Qed.

Lemma new_zones_away n o : off + 4 * Z.of_nat n ≤ zlen l → o + 1 < off → word16 (put_zones norm 4 off zs n l) o = word16 l o.
Proof.
  intros Hn Hof. induction n as [|n IH]; [done|]. rewrite put_zones_S. cbv zeta. change (4 =? 2) with false. cbv iota.
  rewrite word16_word32_away by (rewrite ?put_zones_len; lia). apply IH. lia.
Qed.

Lemma old_zones_byte n o : off + 2 * Z.of_nat n ≤ zlen l → 0 ≤ o < off → zget (put_zones norm 2 off zs n l) o = zget l o.
Proof.
  intros Hn Hof. induction n as [|n IH]; [done|]. rewrite put_zones_S. cbv zeta. change (2 =? 2) with true. cbv iota.
  unfold put_word16. rewrite !zget_upd by (rewrite ?zlen_upd, ?put_zones_len; lia).
  destruct (Z.eqb_spec (off + 2 * Z.of_nat n + 1) o), (Z.eqb_spec (off + 2 * Z.of_nat n) o); try lia. apply IH. lia.
Qed.

Lemma old_zones_back n i : off + 2 * Z.of_nat n ≤ zlen l → 0 ≤ i < Z.of_nat n →
  conv2 norm <$> word16 (put_zones norm 2 off zs n l) (off + 2 * i) = Some (u16 (default 0 (zget zs i))).
Proof.
  intros Hn Hi. induction n as [|n IH]; [lia|]. rewrite put_zones_S. cbv zeta. change (2 =? 2) with true. cbv iota.
  destruct (Z.eq_dec i (Z.of_nat n)) as [->|]; [apply word16_back; rewrite ?put_zones_len; lia|].
  rewrite word16_put_away by (rewrite ?put_zones_len; lia). apply IH; lia.
Qed.

Lemma new_zones_back n i : off + 4 * Z.of_nat n ≤ zlen l → 0 ≤ i < Z.of_nat n →
  conv4 norm <$> word32 (put_zones norm 4 off zs n l) (off + 4 * i) = Some (u32 (default 0 (zget zs i))).
Proof.
  intros Hn Hi. induction n as [|n IH]; [lia|]. rewrite put_zones_S. cbv zeta. change (4 =? 2) with false. cbv iota.
  destruct (Z.eq_dec i (Z.of_nat n)) as [->|]; [apply word32_back; rewrite ?put_zones_len; lia|].
  rewrite word32_put_away by (rewrite ?put_zones_len; lia). apply IH; lia.
Qed.
End zone_arrays.

Lemma mapM_all {A B} (f : A → option B) (g : A → B) ks : (∀ k, k ∈ ks → f k = Some (g k)) → mapM f ks = Some (g <$> ks).
Proof.
  induction ks as [|k ks IH]; intros H; [done|]. cbn. rewrite H by left. cbn. rewrite IH; [done|]. intros k' Hk'. apply H. by right.
Qed.

Lemma fmap_range_take (f : Z → Z) (zs : list Z) n : Z.of_nat n ≤ zlen zs → (∀ i z, 0 ≤ i < Z.of_nat n → zget zs i = Some z → f i = z) → f <$> range 0 n = take n zs.
Proof.
  induction n as [|n IH]; intros Hn Hf; [done|]. destruct (zget_in zs (Z.of_nat n)) as [z Hz]; [lia|].
  rewrite range_snoc, fmap_app, IH; [|lia|intros i y Hi; apply Hf; lia]. cbn [fmap list_fmap]. rewrite (Hf _ z) by (done || lia).
  rewrite (take_S_r _ _ z); [done|]. unfold zget in Hz. destruct (0 <=? Z.of_nat n); [|done]. by rewrite Nat2Z.id in Hz.
Qed.

(** *** A whole inode *)

Lemma word32_word16_away l off off' x : 0 ≤ off → off + 1 < zlen l → off' + 3 < off ∨ off + 1 < off' → word32 (put_word16 off x l) off' = word32 l off'.
Proof. intros Ho Hl Hne. unfold word32. by rewrite !word16_put_away by lia. Qed.

Lemma word32_zones_away norm off zs l n o :
  0 ≤ off → off + 4 * Z.of_nat n ≤ zlen l → o + 3 < off → word32 (put_zones norm 4 off zs n l) o = word32 l o.
Proof. intros Ho Hn Hof. unfold word32. by rewrite !new_zones_away by lia. Qed.

Lemma word32_old_away norm off zs l n o :
  0 ≤ off → off + 2 * Z.of_nat n ≤ zlen l → o + 3 < off → word32 (put_zones norm 2 off zs n l) o = word32 l o.
Proof. intros Ho Hn Hof. unfold word32. by rewrite !old_zones_away by lia. Qed.

Lemma word16_upd_away l i x o : 0 ≤ i < zlen l → o + 1 < i ∨ i < o → word16 (upd l i x) o = word16 l o.
Proof. intros Hi Ho. unfold word16. rewrite !zget_upd by done. by destruct (Z.eqb_spec i o), (Z.eqb_spec i (o + 1)); try lia. Qed.

Lemma word32_upd_away l i x o : 0 ≤ i < zlen l → o + 3 < i ∨ i < o → word32 (upd l i x) o = word32 l o.
Proof. intros Hi Ho. unfold word32. by rewrite !word16_upd_away by lia. Qed.

Lemma option_fmap_some {A B} (f : A → B) o b : f <$> o = Some b → ∃ a, o = Some a ∧ f a = b.
Proof. intros (a & Ha & Hb)%fmap_Some. by exists a. Qed.

(** Words that are elsewhere are not changed. *)
Ltac lens := repeat first [rewrite put_zones_len | rewrite zlen_upd | rewrite put_word16_len | rewrite put_word32_len].
Ltac away := repeat first
  [ rewrite new_zones_away by (lens; lia) | rewrite word32_zones_away by (lens; lia)
  | rewrite old_zones_away by (lens; lia) | rewrite word32_old_away by (lens; lia)
  | rewrite word16_upd_away by (lens; lia) | rewrite word32_upd_away by (lens; lia)
  | rewrite word16_word32_away by (lens; lia) | rewrite word32_put_away by (lens; lia)
  | rewrite word32_word16_away by (lens; lia) | rewrite word16_put_away by (lens; lia) ].

(** The values the fields of an inode can have. *)
Record fields_ok (x : inode) : Prop := FieldsOk {
  fk_mode : 0 ≤ i_mode x < 65536;
  fk_links : -32768 ≤ i_nlinks x < 32768;
  fk_uid : -32768 ≤ i_uid x < 32768;
  fk_gid : -128 ≤ i_gid x < 128;
  fk_size : 0 ≤ i_size x < 4294967296;
  fk_atime : -2147483648 ≤ i_atime x < 2147483648;
  fk_mtime : -2147483648 ≤ i_mtime x < 2147483648;
  fk_ctime : -2147483648 ≤ i_ctime x < 2147483648;
  fk_zones : zlen (i_zone x) = V2_NR_TZONES ∧ ∀ k z, zget (i_zone x) k = Some z → 0 ≤ z < 4294967296 }.

(** The slot [y] with what the device keeps of [x]. *)
Definition reloaded (bsize : Z) (x y : inode) : inode :=
  set_i_zone (i_zone x)
    (set_i_shape V2_NR_DZONES (V2_INDIRECTS bsize)
       (set_i_times (i_atime x) (i_mtime x) (i_ctime x)
          (set_i_size (i_size x) (set_i_owner (i_nlinks x) (i_uid x) (i_gid x) (set_i_mode (i_mode x) y))))).

Lemma new_icopy_back norm off bsize x y l : fields_ok x → zlen (i_zone y) = V2_NR_TZONES → 0 ≤ off → off + V2_INODE_SIZE ≤ zlen l →
  new_icopy_in norm off bsize (new_icopy_out norm off x l) y = Some (reloaded bsize x y).
Proof.
  intros [Hm Hn Hu Hg Hs Ha Hmt Hc [Hzl Hz]] Hy Ho Hl. unfold V2_INODE_SIZE, V2_NR_TZONES in *. unfold new_icopy_in.
  set (out := new_icopy_out norm off x l).
  assert (conv2 norm <$> word16 out off = Some (u16 (i_mode x))) as (a1 & -> & E1)%option_fmap_some by (unfold out, new_icopy_out, V2_NR_TZONES; away; apply word16_back; lens; lia).
  assert (conv2 norm <$> word16 out (off + 4) = Some (u16 (i_uid x))) as (a2 & -> & E2)%option_fmap_some by (unfold out, new_icopy_out, V2_NR_TZONES; away; apply word16_back; lens; lia).
  assert (conv2 norm <$> word16 out (off + 2) = Some (u16 (i_nlinks x))) as (a3 & -> & E3)%option_fmap_some by (unfold out, new_icopy_out, V2_NR_TZONES; away; apply word16_back; lens; lia).
  assert (conv2 norm <$> word16 out (off + 6) = Some (u16 (i_gid x))) as (a4 & -> & E4)%option_fmap_some by (unfold out, new_icopy_out, V2_NR_TZONES; away; apply word16_back; lens; lia).
  assert (conv4 norm <$> word32 out (off + 8) = Some (u32 (i_size x))) as (a5 & -> & E5)%option_fmap_some by (unfold out, new_icopy_out, V2_NR_TZONES; away; apply word32_back; lens; lia).
  assert (conv4 norm <$> word32 out (off + 12) = Some (u32 (i_atime x))) as (a6 & -> & E6)%option_fmap_some by (unfold out, new_icopy_out, V2_NR_TZONES; away; apply word32_back; lens; lia).
  assert (conv4 norm <$> word32 out (off + 20) = Some (u32 (i_ctime x))) as (a7 & -> & E7)%option_fmap_some by (unfold out, new_icopy_out, V2_NR_TZONES; away; apply word32_back; lens; lia).
  assert (conv4 norm <$> word32 out (off + 16) = Some (u32 (i_mtime x))) as (a8 & -> & E8)%option_fmap_some by (unfold out, new_icopy_out, V2_NR_TZONES; away; apply word32_back; lens; lia).
  assert (get_zones norm 4 (off + 24) (Z.to_nat 10) out = Some (i_zone x)) as Ez.
  { unfold get_zones. rewrite (mapM_all _ (λ i, u32 (default 0 (zget (i_zone x) i)))).
    - f_equal. rewrite (fmap_range_take _ (i_zone x)); [apply take_ge; unfold zlen in Hzl; lia|lia|].
      intros i z Hi E. rewrite E. cbn. apply Z.mod_small. by apply (Hz i).
    - intros i Hi%elem_of_seqZ. change (4 =? 2) with false. cbv iota. unfold out, new_icopy_out, V2_NR_TZONES. apply new_zones_back; lens; lia. }
  cbn [mbind option_bind]. change V2_NR_TZONES with 10. rewrite Ez. cbn [mbind option_bind].
  rewrite E1, E2, E3, E4, E5, E6, E7, E8, !s16_u16, char8_u16, !s32_u32 by done. f_equal. unfold reloaded.
  rewrite drop_ge by (unfold zlen in Hy; lia). rewrite app_nil_r. unfold u16, u32. by rewrite !(Z.mod_small (i_mode x)), !(Z.mod_small (i_size x)) by lia.
Qed.

(** A V1 device has a byte for the links, 16 bits for a zone, and one time. *)
Record old_fields_ok (x : inode) : Prop := OldFieldsOk {
  ok_fields : fields_ok x;
  ok_links : 0 ≤ i_nlinks x < 256;
  ok_zones k z : 0 ≤ k < V1_NR_TZONES → zget (i_zone x) k = Some z → z < 65536 }.

Definition old_reloaded (x y : inode) : inode :=
  set_i_zone (take (Z.to_nat V1_NR_TZONES) (i_zone x) ++ drop (Z.to_nat V1_NR_TZONES) (i_zone y))
    (set_i_shape V1_NR_DZONES V1_INDIRECTS
       (set_i_times (i_mtime x) (i_mtime x) (i_mtime x)
          (set_i_size (i_size x) (set_i_owner (i_nlinks x) (i_uid x) (i_gid x) (set_i_mode (i_mode x) y))))).

Lemma old_icopy_back norm off x y l : old_fields_ok x → 0 ≤ off → off + V1_INODE_SIZE ≤ zlen l →
  old_icopy_in norm off (old_icopy_out norm off x l) y = Some (old_reloaded x y).
Proof.
  intros [[Hm Hn0 Hu Hg Hs Ha Hmt Hc [Hzl Hz]] Hn Hz9] Ho Hl. unfold V1_INODE_SIZE, V1_NR_TZONES, V2_NR_TZONES in *. unfold old_icopy_in.
  set (out := old_icopy_out norm off x l).
  assert (conv2 norm <$> word16 out off = Some (u16 (i_mode x))) as (a1 & -> & E1)%option_fmap_some by (unfold out, old_icopy_out, V1_NR_TZONES; away; apply word16_back; lens; lia).
  assert (conv2 norm <$> word16 out (off + 2) = Some (u16 (i_uid x))) as (a2 & -> & E2)%option_fmap_some by (unfold out, old_icopy_out, V1_NR_TZONES; away; apply word16_back; lens; lia).
  assert (conv4 norm <$> word32 out (off + 4) = Some (u32 (i_size x))) as (a3 & -> & E3)%option_fmap_some by (unfold out, old_icopy_out, V1_NR_TZONES; away; apply word32_back; lens; lia).
  assert (conv4 norm <$> word32 out (off + 8) = Some (u32 (i_mtime x))) as (a4 & -> & E4)%option_fmap_some by (unfold out, old_icopy_out, V1_NR_TZONES; away; apply word32_back; lens; lia).
  assert (zget out (off + 12) = Some (u8 (i_gid x)) ∧ zget out (off + 13) = Some (u8 (i_nlinks x))) as [-> ->].
  { unfold out, old_icopy_out, V1_NR_TZONES. rewrite !old_zones_byte by (lens; lia). rewrite !zget_upd by (lens; lia).
    rewrite !Z.eqb_refl. by destruct (Z.eqb_spec (off + 12) (off + 13)); [lia|]. }
  assert (get_zones norm 2 (off + 14) (Z.to_nat 9) out = Some (take 9 (i_zone x))) as Ez.
  { unfold get_zones. rewrite (mapM_all _ (λ i, u16 (default 0 (zget (i_zone x) i)))).
    - f_equal. rewrite (fmap_range_take _ (i_zone x)); [done|lia|].
      intros i z Hi E. rewrite E. cbn. apply Z.mod_small. pose proof (Hz i z E). pose proof (Hz9 i z ltac:(lia) E). lia.
    - intros i Hi%elem_of_seqZ. change (2 =? 2) with true. cbv iota. unfold out, old_icopy_out, V1_NR_TZONES. apply old_zones_back; lens; lia. }
  cbn [mbind option_bind]. change V1_NR_TZONES with 9. rewrite Ez. cbn [mbind option_bind].
  rewrite E1, E2, E3, E4, s16_u16, schar_u8, s32_u32 by done. f_equal. unfold old_reloaded, V1_NR_TZONES.
  unfold u8, u16, u32. by rewrite (Z.mod_small (i_mode x)), (Z.mod_small (i_size x)), (Z.mod_small (i_nlinks x)) by lia.
Qed.

(** ** Inodes are written and read *)

Lemma put_zones_take norm width off zs n l size : 0 ≤ off → off + (if width =? 2 then 2 else 4) * Z.of_nat n ≤ size →
  take (Z.to_nat size) (put_zones norm width off zs n l) = put_zones norm width off zs n (take (Z.to_nat size) l).
Proof.
  intros Ho Hs. induction n as [|n IH]; [done|]. rewrite !put_zones_S. cbv zeta. destruct (width =? 2).
  - rewrite put_word16_take by lia. by rewrite IH by lia.
  - rewrite put_word32_take by lia. by rewrite IH by lia.
Qed.

Lemma mapM_ext_in {A B} (f g : A → option B) ks : (∀ k, k ∈ ks → f k = g k) → mapM f ks = mapM g ks.
Proof.
  induction ks as [|k ks IH]; intros H; [done|]. cbn. rewrite H by left. rewrite IH; [done|]. intros k' Hk'. apply H. by right.
Qed.

Lemma get_zones_take norm width off n l size : 0 ≤ off → off + (if width =? 2 then 2 else 4) * Z.of_nat n ≤ size →
  get_zones norm width off n (take (Z.to_nat size) l) = get_zones norm width off n l.
Proof.
  intros Ho Hs. apply mapM_ext_in. intros i Hi%elem_of_seqZ. destruct (width =? 2); [by rewrite word16_take by lia|by rewrite word32_take by lia].
Qed.

(** A byte outside of what is written. *)
Lemma zget_word16_away l off x o : 0 ≤ off → off + 1 < zlen l → o < off ∨ off + 1 < o → zget (put_word16 off x l) o = zget l o.
Proof.
  intros Ho Hl Hne. unfold put_word16. rewrite !zget_upd by (rewrite ?zlen_upd; lia). destruct (Z.eqb_spec (off + 1) o), (Z.eqb_spec off o); try lia. done.
Qed.

Lemma zget_word32_away l off x o : 0 ≤ off → off + 3 < zlen l → o < off ∨ off + 3 < o → zget (put_word32 off x l) o = zget l o.
Proof. intros Ho Hl Hne. unfold put_word32. by rewrite !zget_word16_away by (lens; lia). Qed.

Lemma zget_upd_away {A} (l : list A) i x o : 0 ≤ i < zlen l → o ≠ i → zget (upd l i x) o = zget l o.
Proof. intros Hi Hne. rewrite zget_upd by done. by destruct (Z.eqb_spec i o); [lia|]. Qed.

Lemma zget_zones_away norm width off zs n l o : 0 ≤ off → off + (if width =? 2 then 2 else 4) * Z.of_nat n ≤ zlen l →
  o < off ∨ off + (if width =? 2 then 2 else 4) * Z.of_nat n ≤ o → zget (put_zones norm width off zs n l) o = zget l o.
Proof.
  intros Ho Hl Hne. induction n as [|n IH]; [done|]. rewrite put_zones_S. cbv zeta. destruct (width =? 2).
  - rewrite zget_word16_away by (lens; lia). apply IH; lia.
  - rewrite zget_word32_away by (lens; lia). apply IH; lia.
Qed.

(** Words with the same bytes. *)
Lemma word16_ext l l' off : (∀ o, off ≤ o < off + 2 → zget l o = zget l' o) → word16 l off = word16 l' off.
Proof. intros H. unfold word16. by rewrite !H by lia. Qed.

Lemma word32_ext l l' off : (∀ o, off ≤ o < off + 4 → zget l o = zget l' o) → word32 l off = word32 l' off.
Proof. intros H. unfold word32. by rewrite !(word16_ext l l') by (intros; apply H; lia). Qed.

Lemma get_zones_ext norm width off n l l' : (∀ o, off ≤ o < off + (if width =? 2 then 2 else 4) * Z.of_nat n → zget l o = zget l' o) →
  get_zones norm width off n l = get_zones norm width off n l'.
Proof.
  intros H. apply mapM_ext_in. intros i Hi%elem_of_seqZ. destruct (width =? 2); f_equal; [apply word16_ext|apply word32_ext]; intros o Hr; apply H; lia.
Qed.

Section copies.
Context (sp : super_block) (Hsh : shaped sp).
Notation size := (s_block_size sp).

(** Where an inode is in its block, and the copy there. *)
Definition inode_size : Z := if s_version sp =? V1 then V1_INODE_SIZE else V2_INODE_SIZE.
Definition per_block : Z := if s_version sp =? V1 then V1_INODES_PER_BLOCK else V2_INODES_PER_BLOCK size.
Definition inode_off (num : Z) : Z := inode_size * ((num - 1) mod per_block).
Definition copy_out (off : Z) (x : inode) (l : list Z) : list Z :=
  if s_version sp =? V1 then old_icopy_out (s_native sp) off x l else new_icopy_out (s_native sp) off x l.
Definition copy_in (off : Z) (l : list Z) (x : inode) : option inode :=
  if s_version sp =? V1 then old_icopy_in (s_native sp) off l x else new_icopy_in (s_native sp) off size l x.

Lemma per_block_fits : 1 ≤ per_block ∧ inode_size * per_block ≤ size.
Proof.
  pose proof (sh_size _ Hsh) as Hs. unfold MIN_BLOCK_SIZE, MAX_BLOCK_SIZE in Hs. unfold per_block, inode_size.
  destruct (Z.eqb_spec (s_version sp) V1) as [E|].
  - rewrite (proj1 (sh_old _ Hsh E)). done.
  - unfold V2_INODES_PER_BLOCK, V2_INODE_SIZE. pose proof (Z.div_mod size 64 ltac:(lia)). pose proof (Z.mod_pos_bound size 64 ltac:(lia)). lia.
Qed.

Lemma inode_off_range num : 0 ≤ inode_off num ∧ inode_off num + inode_size ≤ size.
Proof.
  destruct per_block_fits as [Hp Hs]. pose proof (Z.mod_pos_bound (num - 1) per_block ltac:(lia)).
  assert (0 < inode_size) by (unfold inode_size; by destruct (_ =? _)). unfold inode_off. nia.
Qed.

Lemma copy_out_len off x l : zlen (copy_out off x l) = zlen l.
Proof. unfold copy_out. destruct (_ =? _); [unfold old_icopy_out|unfold new_icopy_out]; lens; done. Qed.

Lemma copy_out_take off x l : 0 ≤ off → off + inode_size ≤ size → take (Z.to_nat size) (copy_out off x l) = copy_out off x (take (Z.to_nat size) l).
Proof.
  unfold copy_out, inode_size. intros Ho Hl. destruct (_ =? _).
  - unfold V1_INODE_SIZE in Hl. unfold old_icopy_out, V1_NR_TZONES. rewrite put_zones_take, !upd_take, !put_word32_take, !put_word16_take by (change (2 =? 2) with true; lia). done.
  - unfold V2_INODE_SIZE in Hl. unfold new_icopy_out, V2_NR_TZONES. rewrite put_zones_take, !put_word32_take, !put_word16_take by (change (4 =? 2) with false; lia). done.
Qed.

Lemma copy_in_take off x l : 0 ≤ off → off + inode_size ≤ size → copy_in off (take (Z.to_nat size) l) x = copy_in off l x.
Proof.
  unfold copy_in, inode_size. intros Ho Hl. destruct (_ =? _).
  - unfold V1_INODE_SIZE in Hl. unfold old_icopy_in, V1_NR_TZONES.
    rewrite !word16_take, !word32_take, !zget_take, get_zones_take by (change (2 =? 2) with true; lia). done.
  - unfold V2_INODE_SIZE in Hl. unfold new_icopy_in, V2_NR_TZONES.
    rewrite !word16_take, !word32_take, get_zones_take by (change (4 =? 2) with false; lia). done.
Qed.

(** Other inodes of the block. *)
Lemma copy_in_ext off l l' x : (∀ o, off ≤ o < off + inode_size → zget l o = zget l' o) → copy_in off l x = copy_in off l' x.
Proof.
  unfold copy_in, inode_size. intros H. destruct (_ =? _).
  - unfold V1_INODE_SIZE in H. unfold old_icopy_in, V1_NR_TZONES. rewrite !(word16_ext l l'), !(word32_ext l l'), !H by (lia || (intros; apply H; lia)).
    rewrite (get_zones_ext _ _ _ _ l l'); [done|]. change (2 =? 2) with true. intros; apply H; lia.
  - unfold V2_INODE_SIZE in H. unfold new_icopy_in, V2_NR_TZONES. rewrite !(word16_ext l l'), !(word32_ext l l') by (intros; apply H; lia).
    rewrite (get_zones_ext _ _ _ _ l l'); [done|]. change (4 =? 2) with false. intros; apply H; lia.
Qed.

Lemma zget_copy_out off x l o : 0 ≤ off → off + inode_size ≤ zlen l → o < off ∨ off + inode_size ≤ o → zget (copy_out off x l) o = zget l o.
Proof.
  unfold copy_out, inode_size. intros Ho Hl Hne. destruct (_ =? _).
  - unfold V1_INODE_SIZE in *. unfold old_icopy_out, V1_NR_TZONES. rewrite zget_zones_away by (change (2 =? 2) with true; lens; lia).
    rewrite !zget_upd_away, !zget_word32_away, !zget_word16_away by (lens; lia). done.
  - unfold V2_INODE_SIZE in *. unfold new_icopy_out, V2_NR_TZONES. rewrite zget_zones_away by (change (4 =? 2) with false; lens; lia).
    rewrite !zget_word32_away, !zget_word16_away by (lens; lia). done.
Qed.

Lemma copy_other off off' x y l : 0 ≤ off → off + inode_size ≤ zlen l → off' + inode_size ≤ off ∨ off + inode_size ≤ off' →
  copy_in off' (copy_out off x l) y = copy_in off' l y.
Proof. intros Ho Hl Hd. apply copy_in_ext. intros o Hr. apply zget_copy_out; [done|done|lia]. Qed.

(** The fields that the device keeps. *)
Definition keepable (x : inode) : Prop := if s_version sp =? V1 then old_fields_ok x else fields_ok x.
Definition kept_of (x y : inode) : inode := if s_version sp =? V1 then old_reloaded x y else reloaded size x y.

Lemma copy_back off x y l : keepable x → zlen (i_zone y) = V2_NR_TZONES → 0 ≤ off → off + inode_size ≤ zlen l →
  copy_in off (copy_out off x l) y = Some (kept_of x y).
Proof.
  unfold keepable, copy_in, copy_out, kept_of, inode_size. destruct (_ =? _); intros Hx Hy Ho Hl; [by apply old_icopy_back|by apply new_icopy_back].
Qed.
End copies.

(** *** Transfers *)

Section transfers.
Context `{RD : Reliable} (spi : Z) (sp : super_block).
Implicit Types (s : fsst) (v : vfs) (x : inode).
Notation dev := (s_dev sp).

(** The block of an inode, behind the bit maps and before the data. *)
Definition ino_block (num : Z) : Z := map_end sp + (num - 1) / per_block sp.
Definition numbered (num : Z) : Prop := 1 ≤ num < 2 ^ 32 ∧ ino_block num < data_start sp.

Lemma numbered_place s num : volume spi sp s → s_inodes_per_block sp = per_block sp → numbered num →
  u32 (num - 1) = num - 1 ∧ div_by (num - 1) (s_inodes_per_block sp) = Some ((num - 1) / per_block sp) ∧
  u32 ((num - 1) / per_block sp + u32 (s_imap_blocks sp + s_zmap_blocks sp + 2)) = ino_block num ∧
  on_disk s dev (ino_block num) ∧ map_end sp ≤ ino_block num.
Proof.
  intros Hv Hp [Hn Hb]. pose proof (vo_placed _ _ _ Hv) as [Hsh _ Hc Hcap]. destruct (per_block_fits sp Hsh) as [Hp1 _].
  pose proof (sh_size _ Hsh) as Hsz. unfold MIN_BLOCK_SIZE in Hsz. pose proof (vol_zones _ _ _ Hv) as [Hz _]. pose proof (scale_pow _ _ _ Hv) as Hp2.
  assert (0 ≤ (num - 1) / per_block sp) as Hq by (apply Z.div_pos; lia).
  assert (on_disk s dev (ino_block num)) as Ho.
  { unfold on_disk. rewrite (vol_size spi sp s Hv). split; [unfold ino_block, map_end, START_BLOCK; lia|]. etrans; [|exact Hcap].
    apply Z.mul_le_mono_nonneg_r; [lia|]. unfold data_start in Hb. nia. }
  assert (MIN_BLOCK_SIZE ≤ size_of s dev) as Hm by (rewrite (vol_size spi sp s Hv); unfold MIN_BLOCK_SIZE; lia). pose proof (on_disk_small _ _ _ Hm Ho) as Hsm.
  split; [unfold u32; apply Z.mod_small; lia|]. split.
  - unfold div_by. rewrite Hp. destruct (Z.eqb_spec (per_block sp) 0); [lia|]. by rewrite Z.quot_div_nonneg by lia.
  - split; [|split; [done|unfold ino_block; lia]]. unfold ino_block, map_end, START_BLOCK in *. unfold u32. rewrite (Z.mod_small (s_imap_blocks sp + _ + _)) by lia.
    rewrite Z.mod_small; lia.
Qed.

Section slot.
Context (rip : Z) (v : vfs) (Hrip : 0 ≤ rip < zlen (inodes v)).

(** The state with inode [x] in the slot, and cache [s]. *)
Definition pv (x : inode) (s : fsst) : vfs := with_cache s (with_inodes (upd (inodes v) rip x) v).

Lemma pv_rd x s : rd_ino rip (pv x s) = Ret x (pv x s).
Proof. apply rd_ino_run. by apply zget_upd_eq. Qed.

Lemma pv_upd x s f : upd_ino rip f (pv x s) = Ret tt (pv (f x) s).
Proof.
  rewrite (upd_ino_run (pv x s) rip x) by (by apply zget_upd_eq). unfold pv, with_inodes, with_cache. cbn. do 2 f_equal. unfold upd. by rewrite list_insert_insert_eq.
Qed.

Lemma pv_cache {A} (m : M fsst A) x s a s' : m s = Ret a s' → on_cache m (pv x s) = Ret a (pv x s').
Proof. intros E. by rewrite (on_cache_run m (pv x s) a s' E). Qed.

Lemma pv_super x s i h : i_sp x = Some spi → rd_super spi s = Ret (set_search i h sp) s → ino_super x (pv x s) = Ret (set_search i h sp) (pv x s).
Proof. intros Hx E. by apply (ino_super_run (pv x s) x spi). Qed.

(** The times that were to be set. *)
Definition now : Z := s32 (boottime v + Z.quot (getuptime v).2 HZ).
Definition stamped (x : inode) : inode :=
  let t (flag old : Z) := if negb (Z.land (i_update x) flag =? 0) then now else old in
  if i_update x =? 0 then x
  else set_i_update 0 (set_i_times (t ATIME (i_atime x)) (t MTIME (i_mtime x)) (t CTIME (i_ctime x)) x).

Lemma vol_rw s : volume spi sp s → s_rd_only sp = 0.
Proof. intros [(i & h & _ & Hw) _]. exact (wb_rw _ _ Hw). Qed.

Lemma update_times_run x s : volume spi sp s → i_sp x = Some spi → (getuptime v).1 = OK →
  when (negb (i_update x =? 0)) (update_times rip) (pv x s) = Ret tt (pv (stamped x) s).
Proof.
  intros Hv Hx Hc. unfold stamped. destruct (i_update x =? 0) eqn:Eu; [done|]. cbn [negb when]. destruct (vol_super _ _ _ Hv) as (i & h & _ & Er).
  unfold update_times. step (pv_rd x s). step (pv_super x s i h Hx Er). cbn [s_rd_only set_search]. rewrite (vol_rw s Hv). change (negb (0 =? 0)) with false. cbv iota.
  assert (clock_time (pv x s) = Ret now (pv x s)) as Ec.
  { unfold clock_time. rewrite bind_get. change (getuptime (pv x s)) with (getuptime v). unfold now. destruct (getuptime v) as [r t]. cbn in Hc. subst r. done. }
  step Ec. cbv zeta. erewrite bind_ret by apply pv_upd. apply pv_upd.
Qed.

Context (num : Z) (Hnum : numbered num) (Hper : s_inodes_per_block sp = per_block sp).

(** The start of both transfers: the block is in use. *)
Lemma rw_inode_start (flag : Z) x s : idle s → volume spi sp s → i_dev x = dev → i_num x = num →
  ∃ bp s1 i h, unseen spi sp (Some (bp, dev, ino_block num)) s s1 ∧
    rw_inode rip flag (pv x s) =
    (when (flag =? WRITING)
       (when (negb (i_update x =? 0)) (update_times rip);;
        when (s_rd_only (set_search i h sp) =? 0) (on_cache (upd_buf bp (set_dirt DIRTY))));;
     (if s_version sp =? V1 then old_icopy rip bp (inode_off sp num) flag (s_native sp)
      else new_icopy rip bp (inode_off sp num) flag (s_native sp));;
     on_cache (put_block (Some bp) INODE_BLOCK);;
     upd_ino rip (set_i_dirt CLEAN)) (pv (set_i_sp (Some spi) x) s1).
Proof.
  intros Hi Hv Hd Hn. destruct (numbered_place s num Hv Hper Hnum) as (En & Eq & Eb & Ho & _). pose proof (pl_shaped _ (vo_placed _ _ _ Hv)) as Hsh.
  destruct (vol_super _ _ _ Hv) as (i & h & Eg & Er). destruct (vol_get spi sp s _ Hi Hv Ho) as (bp & s1 & E1 & Un).
  exists bp, s1, i, h. split; [done|]. unfold rw_inode. step (pv_rd x s). rewrite Hd, Hn. step (pv_cache _ x _ _ _ Eg). step (pv_cache _ x _ _ _ Er).
  step (pv_upd x s (set_i_sp (Some spi))). cbn [s_imap_blocks s_zmap_blocks s_inodes_per_block s_block_size s_version s_native set_search].
  cbv zeta. rewrite En, (bind_lift _ _ _ _ Eq), Eb. step (pv_cache _ (set_i_sp (Some spi) x) _ _ _ E1).
  pose proof (sh_size _ Hsh) as Hsz. unfold MIN_BLOCK_SIZE, MAX_BLOCK_SIZE in Hsz. destruct Hnum as [Hn1 _].
  assert (rem_by (num - 1) (V2_INODES_PER_BLOCK (s_block_size sp)) = Some ((num - 1) mod V2_INODES_PER_BLOCK (s_block_size sp))) as Erem.
  { unfold rem_by, V2_INODES_PER_BLOCK, V2_INODE_SIZE. assert (16 ≤ s_block_size sp / 64) by (apply Z.div_le_lower_bound; lia).
    destruct (Z.eqb_spec (s_block_size sp / 64) 0); [lia|]. by rewrite Z.rem_mod_nonneg by lia. }
  rewrite (bind_lift _ _ _ _ Erem). unfold inode_off, inode_size, per_block. by destruct (s_version sp =? V1).
Qed.

Lemma inode_dirty_run bp x x0 s1 : volume spi sp s1 → resting (Some (bp, dev, ino_block num)) s1 → i_sp x = Some spi →
  ∃ s2 s3, on_cache (upd_buf bp (set_dirt DIRTY)) (pv x0 s1) = Ret tt (pv x0 s2) ∧
    (if s_version sp =? V1 then old_icopy rip bp (inode_off sp num) WRITING (s_native sp)
     else new_icopy rip bp (inode_off sp num) WRITING (s_native sp)) (pv x s2) = Ret tt (pv x s3) ∧
    resting (Some (bp, dev, ino_block num)) s3 ∧
    stored dev (ino_block num) (copy_out sp (inode_off sp num) x (contents s1 dev (ino_block num))) s1 s3 ∧ same_tables s1 s3.
Proof.
  intros Hv Hh Hx. pose proof (pl_shaped _ (vo_placed _ _ _ Hv)) as Hsh. destruct (held_buf bp dev _ s1 Hh) as (b & Hb & _ & Hl & Hsz & Hdat).
  destruct (inode_off_range sp Hsh num) as [Ho1 Ho2]. set (out := copy_out sp (inode_off sp num) x (b_data b)).
  destruct (hold_overwrite bp dev _ s1 out Hh) as (s3 & E3 & Hh3 & Hst & Htb); [unfold out; by rewrite copy_out_len|].
  rewrite (vol_size spi sp s1 Hv) in Hst, Hdat. unfold out in Hst. rewrite copy_out_take, Hdat in Hst by done.
  set (b2 := set_dirt DIRTY b). set (s2 := with_bufs (upd (bufs s1) bp b2) s1). exists s2, s3.
  assert (zget (bufs s2) bp = Some b2) as Hb2 by (apply zget_upd_eq; by eapply zget_Some_range).
  assert (upd_buf bp (set_data out) s2 = Ret tt s3) as Eout.
  { pose proof (upd_buf_twice s1 bp b (set_dirt DIRTY) (set_data out) Hb) as Et. rewrite (bind_ret _ _ _ _ _ (upd_buf_run s1 bp b _ Hb)) in Et. fold b2 s2 in Et. rewrite Et.
    unfold overwrite in E3. by rewrite (upd_buf_run s1 bp b _ Hb) in E3. }
  split; [by apply pv_cache, upd_buf_run|]. split; [|done].
  unfold out, copy_out in Eout. destruct (s_version sp =? V1); [unfold old_icopy|unfold new_icopy]; step (pv_cache _ x _ _ _ (rd_buf_run s2 bp b2 Hb2)); step (pv_rd x s2);
    exact (pv_cache _ x _ _ _ Eout).
Qed.

(** Writing: the inode with its times, and a clean slot. *)
Lemma rw_inode_writes x s : idle s → volume spi sp s → i_dev x = dev → i_num x = num → (getuptime v).1 = OK →
  ∃ s', let y := stamped (set_i_sp (Some spi) x) in
    rw_inode rip WRITING (pv x s) = Ret tt (pv (set_i_dirt CLEAN y) s') ∧ idle s' ∧ volume spi sp s' ∧
    (∀ z, is_zone sp z → zone_used sp s' z = zone_used sp s z) ∧
    stored dev (ino_block num) (copy_out sp (inode_off sp num) y (contents s dev (ino_block num))) s s'.
Proof.
  intros Hi Hv Hd Hn Hc. destruct (numbered_place s num Hv Hper Hnum) as (_ & _ & _ & _ & Hend).
  destruct (rw_inode_start WRITING x s Hi Hv Hd Hn) as (bp & s1 & i & h & [Hh1 Hv1 Hu1 T1] & E). set (y := stamped (set_i_sp (Some spi) x)).
  assert (i_sp y = Some spi) as Hy by (unfold y, stamped; by destruct (i_update (set_i_sp (Some spi) x) =? 0)).
  destruct (inode_dirty_run bp y y s1 Hv1 Hh1 Hy) as (s2 & s3 & E2 & E3 & Hh3 & Hst & [Hs3 He3]).
  pose proof (vol_dev _ _ _ Hv) as Hdv.
  destruct (vol_keep spi sp s1 s3 Hv1 Hs3) as [Hv3 Hu3].
  { intros k Hk. apply (stored_other _ _ _ _ _ dev k Hst Hdv). lia. }
  destruct (vol_put spi sp s3 bp _ INODE_BLOCK Hh3 Hv3) as (s' & E4 & [Hi' Hv' Hu' T']). exists s'. cbv zeta. fold y. split; [|split; [done|split; [done|split]]].
  - rewrite E. change (WRITING =? WRITING) with true. cbn [when]. rewrite bind_assoc. step (update_times_run (set_i_sp (Some spi) x) s1 Hv1 eq_refl Hc). fold y.
    cbn [s_rd_only set_search]. rewrite (vol_rw s1 Hv1). change (0 =? 0) with true. cbn [when]. step E2. step E3. step (pv_cache _ y _ _ _ E4). apply pv_upd.
  - intros z Hz. by rewrite Hu', Hu3, Hu1.
  - intros d n Hdn. rewrite T', Hst by done. rewrite (T1 dev) by done. unfold put_store. destruct (_ && _); [done|by apply T1].
Qed.

(** Reading: what the device keeps. *)
Lemma rw_inode_reads x y s : idle s → volume spi sp s → i_dev x = dev → i_num x = num →
  copy_in sp (inode_off sp num) (contents s dev (ino_block num)) (set_i_sp (Some spi) x) = Some y →
  ∃ s', rw_inode rip READING (pv x s) = Ret tt (pv (set_i_dirt CLEAN y) s') ∧ unseen spi sp None s s'.
Proof.
  intros Hi Hv Hd Hn Hcp. destruct (rw_inode_start READING x s Hi Hv Hd Hn) as (bp & s1 & i & h & [Hh1 Hv1 Hu1 T1] & E).
  pose proof (vol_dev _ _ _ Hv) as Hdv. destruct (held_buf bp dev _ s1 Hh1) as (b & Hb & _ & Hl & Hsz & Hdat). pose proof (pl_shaped _ (vo_placed _ _ _ Hv)) as Hsh.
  destruct (inode_off_range sp Hsh num) as [Ho1 Ho2]. rewrite (vol_size spi sp s1 Hv1) in Hdat. rewrite <- (T1 dev _ Hdv), <- Hdat, copy_in_take in Hcp by done.
  destruct (vol_put spi sp s1 bp _ INODE_BLOCK Hh1 Hv1) as (s' & E4 & Un4). exists s'. split.
  - rewrite E. change (READING =? WRITING) with false. cbn [when]. rewrite bind_mret. set (x1 := set_i_sp (Some spi) x) in *.
    assert ((if s_version sp =? V1 then old_icopy rip bp (inode_off sp num) READING (s_native sp)
     else new_icopy rip bp (inode_off sp num) READING (s_native sp)) (pv x1 s1) = Ret tt (pv y s1)) as Ec.
    { destruct (vol_super _ _ _ Hv1) as (i' & h' & _ & Er). unfold copy_in in Hcp. destruct (s_version sp =? V1); [unfold old_icopy|unfold new_icopy];
        step (pv_cache _ x1 _ _ _ (rd_buf_run s1 bp b Hb)); step (pv_rd x1 s1); change (READING =? READING) with true; cbv iota.
      - rewrite (bind_lift _ _ _ _ Hcp). apply pv_upd.
      - step (pv_super x1 s1 i' h' eq_refl Er). cbn [s_block_size set_search]. rewrite (bind_lift _ _ _ _ Hcp). apply pv_upd. }
    step Ec. step (pv_cache _ y _ _ _ E4). apply pv_upd.
  - destruct Un4 as [Hi' Hv' Hu' T']. split; [done|done|intros z Hz; by rewrite Hu', Hu1|intros d n Hdn; by rewrite T', T1].
Qed.
End slot.
End transfers.
