(* ===== verification/InodeTable.v ===== *)
(** * The table of inodes

    [get_inode] finds an inode that is in use, or loads it into a free slot. Which
    inode a slot has, and how often it is in use, is changed by [get_inode],
    [dup_inode] and [put_inode] alone, whatever the driver of the device does. *)

From S2P Require Import Prelude Linked Cache CacheLists CacheSpec CacheRep CacheStore Super SuperSpec Zones Inode FileMap Volume FileZones MapWrites InodeRuns.

(** ** The table of inodes *)

(** *** Searching *)

Section search.
Context `{BD : BlockDev}.
Implicit Types (v : vfs) (x : inode).

Definition used_slot (t : list inode) (i : Z) (x : inode) : Prop := zget t i = Some x ∧ 0 < i_count x.

(** What a search of the slots below [n] finds. *)
Definition no_match (dev num : Z) (t : list inode) (n : Z) : Prop := ∀ i x, 0 ≤ i < n → used_slot t i x → ¬ (i_dev x = dev ∧ i_num x = num).
Definition last_free (t : list inode) (n : Z) (xp : option Z) : Prop :=
  match xp with
  | None => ∀ i x, 0 ≤ i < n → zget t i = Some x → 0 < i_count x
  | Some j => (0 ≤ j < n ∧ ∃ x, zget t j = Some x ∧ i_count x ≤ 0) ∧ ∀ i x, j < i < n → zget t i = Some x → 0 < i_count x
  end.

Lemma scan_loop dev numb v fuel : ∀ i xp,
  zlen (inodes v) = NR_INODES → 0 ≤ i ≤ NR_INODES → NR_INODES - i < Z.of_nat fuel → no_match dev (u32 numb) (inodes v) i → last_free (inodes v) i xp →
  ∃ r, loop fuel (scan_step dev numb) (i, xp) v = Ret r v ∧
    match r with
    | inl j => ∃ x, used_slot (inodes v) j x ∧ i_dev x = dev ∧ i_num x = u32 numb
    | inr xp' => no_match dev (u32 numb) (inodes v) NR_INODES ∧ last_free (inodes v) NR_INODES xp'
    end.
Proof.
  induction fuel as [|fuel IH]; intros i xp Hl Hi Hf Hno Hlast; [lia|]. rewrite loop_S. unfold scan_step at 2.
  destruct (Z.leb_spec NR_INODES i) as [Hend|Hlt].
  { exists (inr xp). split; [done|]. assert (i = NR_INODES) as <- by lia. done. }
  destruct (zget_in (inodes v) i) as [x Hx]; [lia|]. rewrite bind_assoc. step (rd_ino_run v i x Hx).
  destruct (Z.ltb_spec 0 (i_count x)) as [Hc|Hc].
  - destruct ((i_dev x =? dev) && (i_num x =? u32 numb)) eqn:Em; rewrite bind_mret.
    + bools. exists (inl i). split; [done|]. by exists x.
    + apply IH; [done|lia|lia| |].
      * intros j y Hj Hy. destruct (Z.eq_dec j i) as [->|]; [|apply (Hno j y); [lia|done]]. destruct Hy as [Hy _]. assert (y = x) as -> by congruence.
        intros [E1 E2]. apply andb_false_iff in Em as [Em|Em]; bools; done.
      * destruct xp as [j|]; cbn in *.
        -- destruct Hlast as [[Hj ?] Hafter]. split; [split; [lia|done]|]. intros j' y Hj' Hy. destruct (Z.eq_dec j' i) as [->|]; [|apply (Hafter j' y); [lia|done]]. congruence.
        -- intros j' y Hj' Hy. destruct (Z.eq_dec j' i) as [->|]; [|apply (Hlast j' y); [lia|done]]. congruence.
  - rewrite bind_mret. apply IH; [done|lia|lia| |].
    + intros j y Hj [Hy Hcy]. destruct (Z.eq_dec j i) as [->|]; [|apply (Hno j y); [lia|done]]. assert (y = x) as -> by congruence. lia.
    + cbn. split; [split; [lia|by exists x]|lia].
Qed.

Lemma scan_run dev numb v : zlen (inodes v) = NR_INODES →
  ∃ r, loop (S (Z.to_nat NR_INODES)) (scan_step dev numb) (0, None) v = Ret r v ∧
    match r with
    | inl j => ∃ x, used_slot (inodes v) j x ∧ i_dev x = dev ∧ i_num x = u32 numb
    | inr xp => no_match dev (u32 numb) (inodes v) NR_INODES ∧ last_free (inodes v) NR_INODES xp
    end.
Proof. intros Hl. apply scan_loop; [done|done|unfold NR_INODES; lia|intros i x; lia|intros i x; lia]. Qed.

(** *** A table in order *)

(** Every inode is in one slot at most. *)
Record table_ok (t : list inode) : Prop := TableOk {
  to_len : zlen t = NR_INODES;
  to_count i x : zget t i = Some x → 0 ≤ i_count x;
  to_once i j x y : used_slot t i x → used_slot t j y → i_dev x = i_dev y → i_num x = i_num y → i = j }.

Lemma used_upd t i j x y : 0 ≤ i < zlen t → used_slot (upd t i x) j y ↔ if i =? j then y = x ∧ 0 < i_count x else used_slot t j y.
Proof.
  intros Hi. unfold used_slot. rewrite zget_upd by done. destruct (i =? j); [|done]. split; [intros [[= <-] ?]|intros [-> ?]]; done.
Qed.

(** A slot changes, but not the inode it has. *)
Lemma table_same t i x x' : table_ok t → zget t i = Some x → i_dev x' = i_dev x → i_num x' = i_num x → 0 ≤ i_count x' →
  (0 < i_count x' → 0 < i_count x) → table_ok (upd t i x').
Proof.
  intros [Hl Hc Ho] Hx Ed En Hc' Hu. pose proof (zget_Some_range _ _ _ Hx) as Hr. split; [by rewrite zlen_upd| |].
  - intros j y. rewrite zget_upd by done. destruct (i =? j); [by intros [= <-]|by apply Hc].
  - intros j k y z. rewrite !used_upd by done. destruct (Z.eqb_spec i j) as [<-|], (Z.eqb_spec i k) as [<-|]; try done.
    + intros [-> Hp] Hz E1 E2. apply (Ho i k x z); [by split; [|apply Hu]|done|congruence|congruence].
    + intros Hy [-> Hp] E1 E2. apply (Ho j i y x); [done|by split; [|apply Hu]|congruence|congruence].
    + by apply Ho.
Qed.

(** An inode that is not in the table goes into a slot. *)
Lemma table_new t i x' : table_ok t → 0 ≤ i < NR_INODES → no_match (i_dev x') (i_num x') t NR_INODES → 0 ≤ i_count x' → table_ok (upd t i x').
Proof.
  intros [Hl Hc Ho] Hi Hno Hc'. assert (0 ≤ i < zlen t) as Hr by lia. split; [by rewrite zlen_upd| |].
  - intros j y. rewrite zget_upd by done. destruct (i =? j); [by intros [= <-]|by apply Hc].
  - intros j k y z. rewrite !used_upd by done. destruct (Z.eqb_spec i j) as [<-|], (Z.eqb_spec i k) as [<-|]; try done.
    + intros [-> Hp] Hz E1 E2. destruct (Hno k z); [|done|done]. destruct Hz as [Hz _]. apply zget_Some_range in Hz. lia.
    + intros Hy [-> Hp] E1 E2. destruct (Hno j y); [|done|done]. destruct Hy as [Hy _]. apply zget_Some_range in Hy. lia.
    + by apply Ho.
Qed.
End search.

(** *** Getting an inode *)

Section getting.
Context `{RD : Reliable} (spi : Z) (sp : super_block) (Hper : s_inodes_per_block sp = per_block sp).
Implicit Types (s : fsst) (v : vfs) (x y : inode).
Notation dev := (s_dev sp).

Lemma pv_self rip v x : zget (inodes v) rip = Some x → v = pv rip v x (cache v).
Proof.
  intros E. unfold pv, with_cache, with_inodes. destruct v as [s t bt ut u g]. cbn in *. f_equal. unfold upd, zget in *. destruct (0 <=? rip); [|done].
  symmetry. by apply list_insert_id.
Qed.

(** The slot as it is filled from the device. *)
Definition fresh (num : Z) (x : inode) : inode := set_i_sp (Some spi) (set_i_count 1 (set_i_id dev num x)).

Lemma get_inode_run v num : zlen (inodes v) = NR_INODES → idle (cache v) → volume spi sp (cache v) → numbered sp num →
  (∀ x, is_Some (copy_in sp (inode_off sp num) (contents (cache v) dev (ino_block sp num)) x)) →
  (∃ i x, get_inode dev num v = Ret (Some i) (pv i v (set_i_count (i_count x + 1) x) (cache v)) ∧ used_slot (inodes v) i x ∧ i_dev x = dev ∧ i_num x = num) ∨
  (no_match dev num (inodes v) NR_INODES ∧
   ((∃ i x y s', get_inode dev num v = Ret (Some i) (pv i v (set_i_update 0 (set_i_dirt CLEAN y)) s') ∧ zget (inodes v) i = Some x ∧ i_count x ≤ 0 ∧
       copy_in sp (inode_off sp num) (contents (cache v) dev (ino_block sp num)) (fresh num x) = Some y ∧ unseen spi sp None (cache v) s') ∨
    (get_inode dev num v = Ret None (with_cache (with_err_code ENFILE (cache v)) v) ∧ ∀ i x, zget (inodes v) i = Some x → 0 < i_count x))).
Proof.
  intros Hl Hi Hv Hn Hc. pose proof (vol_dev _ _ _ Hv) as Hd. assert (u32 num = num) as En by (apply Z.mod_small; destruct Hn as [Hn _]; lia).
  destruct (scan_run dev num v Hl) as (r & Er & Hr). rewrite En in Hr. unfold get_inode. rewrite (bind_ret _ _ _ _ _ Er). destruct r as [i|[i|]].
  - left. destruct Hr as (x & Hx & Ed & Enx). exists i, x. split; [|done]. destruct Hx as [Hx _].
    rewrite (bind_ret _ _ _ _ _ (upd_ino_run v i x _ Hx)). by destruct v.
  - right. destruct Hr as [Hno [[Hir (x & Hx & Hcx)] _]]. split; [done|]. left. rewrite En. set (x1 := set_i_count 1 (set_i_id dev num x)).
    destruct (Hc (fresh num x)) as [y Hy]. destruct (rw_inode_reads spi sp i v ltac:(lia) num Hn Hper x1 y (cache v) Hi Hv eq_refl eq_refl Hy) as (s' & E' & Un).
    exists i, x, y, s'. split; [|done].
    assert (upd_ino i (λ x, set_i_count 1 (set_i_id dev num x)) v = Ret tt (pv i v x1 (cache v))) as Eu.
    { rewrite (upd_ino_run v i x _ Hx). by destruct v. }
    step Eu. destruct (Z.eqb_spec dev NO_DEV); [done|]. cbn [negb when]. step E'. erewrite bind_ret by (apply pv_upd; lia). done.
  - right. destruct Hr as [Hno Hall]. split; [done|]. right. split; [done|]. intros i x Hx. apply (Hall i x); [|done]. apply zget_Some_range in Hx. lia.
Qed.
End getting.

(** ** Slots of the table of inodes *)

Section steady.
Context `{BD : BlockDev}.
Implicit Types (v : vfs) (x : inode).

(** What the table says of a slot. *)
Definition slot_id (x : inode) : Z * Z * Z := (i_dev x, i_num x, i_count x).
Definition ids (v : vfs) : list (Z * Z * Z) := slot_id <$> inodes v.

(** A command that leaves the identity of all slots as it is. *)
Definition steady {A} (m : M vfs A) : Prop := ∀ v a v', m v = Ret a v' → ids v' = ids v.

Lemma steady_bind {A B} (m : M vfs A) (f : A → M vfs B) : steady m → (∀ a, steady (f a)) → steady (m ≫= f).
Proof. intros Hm Hf v b v' (a & v1 & E1 & E2)%bind_ret_inv. by rewrite (Hf _ _ _ _ E2), (Hm _ _ _ E1). Qed.

Lemma steady_ret {A} (a : A) : steady (mret a).
Proof. by intros v b v' [= <- <-]. Qed.

Lemma steady_get : steady get.
Proof. by intros v b v' [= <- <-]. Qed.

Lemma steady_lift {A} (o : option A) : steady (lift_opt o).
Proof. destruct o; [apply steady_ret|done]. Qed.

Lemma steady_cache {A} (m : M fsst A) : steady (on_cache m).
Proof. intros v a v'. unfold on_cache, zoom. destruct (m (cache v)); intros [= <- <-]. done. Qed.

Lemma steady_rd i : steady (rd_ino i).
Proof. apply steady_bind; [apply steady_get|]. intros v. apply steady_lift. Qed.

Lemma ids_upd t i x : slot_id <$> upd t i x = upd (slot_id <$> t) i (slot_id x).
Proof. unfold upd. apply list_fmap_insert. Qed.

Lemma upd_ino_inv i f v v' : upd_ino i f v = Ret tt v' → ∃ x, zget (inodes v) i = Some x ∧ v' = with_inodes (upd (inodes v) i (f x)) v.
Proof.
  intros E. unfold upd_ino in E. rewrite bind_get in E. destruct (zget (inodes v) i) as [x|] eqn:Hx; [|done]. exists x. split; [done|].
  rewrite (bind_lift (Some x) x _ _ eq_refl), bind_zset in E by (by eapply zget_Some_range). by injection E as <-.
Qed.

Lemma upd_same_ids t i x y : zget t i = Some x → slot_id y = slot_id x → slot_id <$> upd t i y = slot_id <$> t.
Proof.
  intros Hx E. rewrite ids_upd, E. pose proof (zget_Some_range _ _ _ Hx) as Hr. unfold zget, upd in *. destruct (0 <=? i); [|done].
  apply list_insert_id. by rewrite list_lookup_fmap, Hx.
Qed.

Lemma steady_upd i f : (∀ x, slot_id (f x) = slot_id x) → steady (upd_ino i f).
Proof. intros Hf v [] v' (x & Hx & ->)%upd_ino_inv. unfold ids. cbn [inodes with_inodes]. by apply (upd_same_ids _ _ x). Qed.

Lemma steady_loop {A B} fuel (body : A → M vfs (A + B)) a : (∀ a, steady (body a)) → steady (loop fuel body a).
Proof. intros Hb. revert a. induction fuel as [|fuel IH]; intros a; [done|]. cbn [loop]. apply steady_bind; [done|]. intros [a'|b]; [done|apply steady_ret]. Qed.
End steady.

Create HintDb steady.
#[export] Hint Resolve steady_ret steady_get steady_lift steady_cache steady_rd steady_loop : steady.
#[export] Hint Extern 1 (steady (upd_ino _ _)) => apply steady_upd; done : steady.

(** Command by command. *)
Ltac settle := repeat first
  [ solve [auto with steady] | apply steady_bind; [|intros ?]
  | match goal with |- steady (match ?x with _ => _ end) => destruct x | |- steady (when _ _) => unfold when end
  | match goal with |- steady halt => done end ].

Section steady_files.
Context `{BD : BlockDev}.

Lemma steady_super x : steady (ino_super x).
Proof. unfold ino_super. settle. Qed.
Lemma steady_rd_zone i k : steady (rd_zone i k).
Proof. unfold rd_zone. settle. Qed.
#[local] Hint Resolve steady_super steady_rd_zone : steady.

Lemma steady_read_map i pos : steady (read_map i pos).
Proof. unfold read_map. settle. Qed.
#[local] Hint Resolve steady_read_map : steady.

Lemma steady_data_step i d sc size zs pos : steady (data_step i d sc size zs pos).
Proof. unfold data_step. settle. Qed.
Lemma steady_wipe i : steady (wipe_inode i).
Proof. unfold wipe_inode. settle. Qed.
#[local] Hint Resolve steady_data_step steady_wipe : steady.

Lemma steady_truncate i : steady (truncate i).
Proof. unfold truncate. settle. Qed.

Lemma steady_times i : steady (update_times i).
Proof. unfold update_times, clock_time. settle. Qed.

(** The fields that are read from the device do not name the inode. *)
Lemma old_in_id norm off l x y : old_icopy_in norm off l x = Some y → slot_id y = slot_id x.
Proof. unfold old_icopy_in. intros H. repeat (apply bind_Some in H as (? & _ & H)). by injection H as <-. Qed.

Lemma new_in_id norm off size l x y : new_icopy_in norm off size l x = Some y → slot_id y = slot_id x.
Proof. unfold new_icopy_in. intros H. repeat (apply bind_Some in H as (? & _ & H)). by injection H as <-. Qed.

Lemma rd_ino_ret i x v v' : rd_ino i v = Ret x v' → v' = v ∧ zget (inodes v) i = Some x.
Proof. unfold rd_ino. rewrite bind_get. destruct (zget (inodes v) i); [|done]. intros E. by injection E as <- <-. Qed.

Lemma lift_ret {A S} (o : option A) (a : A) (s s' : S) : lift_opt o s = Ret a s' → s' = s ∧ o = Some a.
Proof. destruct o; [|done]. intros E. by injection E as <- <-. Qed.

Lemma on_cache_ids {A} (m : M fsst A) v a v' : on_cache m v = Ret a v' → inodes v' = inodes v.
Proof. unfold on_cache, zoom. destruct (m (cache v)); intros E; [|done..]. by injection E as _ <-. Qed.

Lemma upd_const i y x v v' : upd_ino i (λ _, y) v = Ret tt v' → zget (inodes v) i = Some x → slot_id y = slot_id x → ids v' = ids v.
Proof. intros (x1 & Hx1 & ->)%upd_ino_inv Hx E. assert (x1 = x) as -> by congruence. by apply (upd_same_ids _ _ x). Qed.

Lemma steady_old_icopy i bp off dir norm : steady (old_icopy i bp off dir norm).
Proof.
  unfold old_icopy. apply steady_bind; [apply steady_cache|]. intros b v [] v' (x & v1 & [-> Hx]%rd_ino_ret & E)%bind_ret_inv.
  destruct (dir =? READING); [|by apply (steady_cache _ _ _ _ E)]. apply bind_ret_inv in E as (y & v2 & [-> Hy]%lift_ret & E).
  apply (upd_const i y x v v' E Hx). by eapply old_in_id.
Qed.

Lemma steady_new_icopy i bp off dir norm : steady (new_icopy i bp off dir norm).
Proof.
  unfold new_icopy. apply steady_bind; [apply steady_cache|]. intros b v [] v' (x & v1 & [-> Hx]%rd_ino_ret & E)%bind_ret_inv.
  destruct (dir =? READING); [|by apply (steady_cache _ _ _ _ E)]. apply bind_ret_inv in E as (sp & v2 & E2 & (y & v3 & [-> Hy]%lift_ret & E)%bind_ret_inv).
  assert (inodes v2 = inodes v) as Ei.
  { unfold ino_super in E2. apply bind_ret_inv in E2 as (spi & v4 & [-> _]%lift_ret & E2). by eapply on_cache_ids. }
  assert (ids v2 = ids v) as <- by (unfold ids; by rewrite Ei). apply (upd_const i y x v2 v' E); [by rewrite Ei|]. by eapply new_in_id.
Qed.
#[local] Hint Resolve steady_old_icopy steady_new_icopy steady_times steady_truncate : steady.

Lemma steady_rw_inode i flag : steady (rw_inode i flag).
Proof. unfold rw_inode. settle. Qed.
End steady_files.

(** *** Calls *)

Section calls.
Context `{BD : BlockDev}.
Implicit Types (v : vfs) (x y : inode) (t : list inode).

(** The invariant depends on the identities alone. *)
Lemma zget_ids t i x : zget t i = Some x → zget (slot_id <$> t) i = Some (slot_id x).
Proof. unfold zget. destruct (0 <=? i); [|done]. intros E. by rewrite list_lookup_fmap, E. Qed.

Lemma ids_zget t t' i x : slot_id <$> t' = slot_id <$> t → zget t i = Some x → ∃ y, zget t' i = Some y ∧ slot_id y = slot_id x.
Proof.
  intros E Hx%zget_ids. rewrite <- E in Hx. unfold zget in *. destruct (0 <=? i); [|done]. rewrite list_lookup_fmap in Hx.
  destruct (t' !! Z.to_nat i) as [y|]; [|done]. exists y. split; [done|]. injection Hx as E1 E2 E3. unfold slot_id. congruence.
Qed.

Lemma table_ids t t' : slot_id <$> t' = slot_id <$> t → table_ok t → table_ok t'.
Proof.
  intros E [Hl Hc Ho]. assert (∀ i x, zget t' i = Some x → ∃ y, zget t i = Some y ∧ slot_id y = slot_id x) as Hg by (intros i x; by apply ids_zget).
  split.
  - rewrite <- Hl. unfold zlen. f_equal. by rewrite <- (length_fmap slot_id t'), E, length_fmap.
  - intros i x Hx. destruct (Hg i x Hx) as (y & Hy & [= _ _ Ec]). rewrite <- Ec. by eapply Hc.
  - intros i j x y [Hx Hcx] [Hy Hcy] Ed En. destruct (Hg i x Hx) as (x0 & Hx0 & [= Ed1 En1 Ec1]). destruct (Hg j y Hy) as (y0 & Hy0 & [= Ed2 En2 Ec2]).
    apply (Ho i j x0 y0); [split; [done|lia]|split; [done|lia]|congruence|congruence].
Qed.

(** References to slots: the slot, and the inode that was asked for. *)
Definition ref : Type := Z * Z * Z.
Definition uses (i : Z) (g : list ref) : Z := zlen (filter (λ r : ref, r.1.1 = i) g).

(** The calls of the table, with the references that are held. *)
Inductive table_call : vfs * list ref → vfs * list ref → Prop :=
  | tc_get dev numb v i v' g : get_inode dev numb v = Ret (Some i) v' → table_call (v, g) (v', (i, dev, u32 numb) :: g)
  | tc_full dev numb v v' g : get_inode dev numb v = Ret None v' → table_call (v, g) (v', g)
  | tc_dup i d n v v' g : (i, d, n) ∈ g → dup_inode i v = Ret tt v' → table_call (v, g) (v', (i, d, n) :: g)
  | tc_put i d n v v' g1 g2 : put_inode (Some i) v = Ret tt v' → table_call (v, g1 ++ (i, d, n) :: g2) (v', g1 ++ g2).

(** Every slot is in use as often as it is referred to, and has what was asked for. *)
Record refs_ok (v : vfs) (g : list ref) : Prop := RefsOk {
  ro_table : table_ok (inodes v);
  ro_count i x : zget (inodes v) i = Some x → i_count x = uses i g;
  ro_has i d n : (i, d, n) ∈ g → ∃ x, zget (inodes v) i = Some x ∧ i_dev x = d ∧ i_num x = n }.

Lemma uses_cons i r g : uses i (r :: g) = (if r.1.1 =? i then 1 else 0) + uses i g.
Proof. unfold uses, zlen. rewrite filter_cons. destruct (Z.eqb_spec r.1.1 i); rewrite ?decide_True, ?decide_False by done; cbn [length]; lia. Qed.

Lemma uses_app i g1 g2 : uses i (g1 ++ g2) = uses i g1 + uses i g2.
Proof. unfold uses, zlen. rewrite filter_app, length_app. lia. Qed.

Lemma uses_pos i g : 0 ≤ uses i g.
Proof. unfold uses, zlen. lia. Qed.

Lemma uses_in i d n g : (i, d, n) ∈ g → 0 < uses i g.
Proof.
  intros (g1 & g2 & ->)%list_elem_of_split. rewrite uses_app, uses_cons. cbn. rewrite Z.eqb_refl. pose proof (uses_pos i g1). pose proof (uses_pos i g2). lia.
Qed.

Lemma uses_slot i g : 0 < uses i g → ∃ d n, (i, d, n) ∈ g.
Proof.
  induction g as [|[[j d] n] g IH]; [done|]. rewrite uses_cons. cbn. destruct (Z.eqb_spec j i) as [->|].
  - intros _. exists d, n. left.
  - intros H. destruct IH as (d' & n' & H'); [lia|]. exists d', n'. by right.
Qed.

Lemma count_upd i f v v' : upd_ino i f v = Ret tt v' → ∃ x, zget (inodes v) i = Some x ∧ inodes v' = upd (inodes v) i (f x).
Proof. intros (x & Hx & ->)%upd_ino_inv. by exists x. Qed.

Lemma put_steady i x : steady
  ((if i_nlinks x =? 0 then truncate i;; upd_ino i (λ x, set_i_dirt DIRTY (set_i_mode I_NOT_ALLOC x));; on_cache (free_inode (i_dev x) (i_num x))
    else when (i_pipe x =? I_PIPE) (truncate i));;
   upd_ino i (set_i_pipe NO_PIPE);; x ← rd_ino i; when (i_dirt x =? DIRTY) (rw_inode i WRITING)).
Proof. pose proof steady_truncate. pose proof steady_rw_inode. settle. Qed.

Lemma put_ids i v v' : put_inode (Some i) v = Ret tt v' → ∃ x, zget (inodes v) i = Some x ∧ ids v' = slot_id <$> upd (inodes v) i (set_i_count (i_count x - 1) x).
Proof.
  unfold put_inode. intros ([] & v1 & (x & Hx & ->)%upd_ino_inv & (y & v2 & [-> Hy]%rd_ino_ret & E)%bind_ret_inv)%bind_ret_inv.
  exists x. split; [done|]. destruct (negb (i_count y =? 0)); [by injection E as <-|]. by rewrite (put_steady i y _ _ _ E).
Qed.

Lemma get_ids dev numb v r v' : zlen (inodes v) = NR_INODES → get_inode dev numb v = Ret r v' →
  match r with
  | Some i => ∃ x, zget (inodes v) i = Some x ∧
      ((0 < i_count x ∧ i_dev x = dev ∧ i_num x = u32 numb ∧ ids v' = slot_id <$> upd (inodes v) i (set_i_count (i_count x + 1) x)) ∨
       (i_count x ≤ 0 ∧ no_match dev (u32 numb) (inodes v) NR_INODES ∧ ids v' = slot_id <$> upd (inodes v) i (set_i_count 1 (set_i_id dev (u32 numb) x))))
  | None => ids v' = ids v ∧ err_code (cache v') = ENFILE ∧ no_match dev (u32 numb) (inodes v) NR_INODES ∧ ∀ i x, zget (inodes v) i = Some x → 0 < i_count x
  end.
Proof.
  intros Hl E. destruct (scan_run dev numb v Hl) as (res & Er & Hr). unfold get_inode in E. rewrite (bind_ret _ _ _ _ _ Er) in E. destruct res as [i|[i|]].
  - destruct Hr as (x & [Hx Hc] & Hd & Hn). apply bind_ret_inv in E as ([] & v1 & (x1 & Hx1 & ->)%upd_ino_inv & E). injection E as <- <-.
    assert (x1 = x) as -> by congruence. exists x. split; [done|]. by left.
  - destruct Hr as [Hno [[Hi (x & Hx & Hc)] _]]. apply bind_ret_inv in E as ([] & v1 & (x1 & Hx1 & ->)%upd_ino_inv & E). assert (x1 = x) as -> by congruence.
    assert (steady (when (negb (dev =? NO_DEV)) (rw_inode i READING);; upd_ino i (set_i_update 0);; mret (Some i))) as Hst by (pose proof steady_rw_inode; settle).
    assert (r = Some i) as ->. { apply bind_ret_inv in E as (? & ? & _ & (? & ? & _ & E)%bind_ret_inv). by injection E. }
    exists x. split; [done|]. right. split; [done|]. split; [done|]. exact (Hst _ _ _ E).
  - destruct Hr as [Hno Hall]. rewrite (bind_ret _ _ _ _ _ (on_cache_run (modify (with_err_code ENFILE)) v _ _ eq_refl)) in E. injection E as <- <-.
    split; [done|]. split; [done|]. split; [done|]. intros i x Hx. apply (Hall i x); [|done]. apply zget_Some_range in Hx. lia.
Qed.

(** The table after one slot has changed its count. *)
Lemma refs_step v g v' g' i x y :
  refs_ok v g → zget (inodes v) i = Some x → ids v' = slot_id <$> upd (inodes v) i y → table_ok (upd (inodes v) i y) →
  i_count y = uses i g' → (∀ j, j ≠ i → uses j g' = uses j g) →
  (∀ d n, (i, d, n) ∈ g' → i_dev y = d ∧ i_num y = n) → (∀ j d n, (j, d, n) ∈ g' → j ≠ i → (j, d, n) ∈ g) → refs_ok v' g'.
Proof.
  intros [_ Hc Hh] Hx Hi Hok Ec Ho Hself Hin. pose proof (zget_Some_range _ _ _ Hx) as Hr. split; [by eapply table_ids| |].
  - intros j z Hz. destruct (ids_zget _ _ j z (eq_sym Hi) Hz) as (z0 & Hz0 & [= _ _ E]). rewrite <- E. rewrite zget_upd in Hz0 by done.
    destruct (Z.eqb_spec i j) as [<-|Hne]; [by injection Hz0 as <-|]. rewrite Ho by done. by apply Hc.
  - intros j d n Hj. assert (∃ z, zget (upd (inodes v) i y) j = Some z ∧ i_dev z = d ∧ i_num z = n) as (z & Hz & Ed & En).
    { rewrite zget_upd by done. destruct (Z.eqb_spec i j) as [<-|Hne]; [exists y; split; [done|by apply Hself]|]. apply Hh, Hin; [done|congruence]. }
    destruct (ids_zget _ _ j z Hi Hz) as (z' & Hz' & [= E1 E2 _]). exists z'. split; [done|]. split; congruence.
Qed.

Lemma table_call_ok p q : table_call p q → refs_ok p.1 p.2 → refs_ok q.1 q.2.
Proof.
  intros [dev numb v i v' g E|dev numb v v' g E|i d n v v' g Hin E|i d n v v' g1 g2 E] Hok; cbn [fst snd] in *; pose proof Hok as [Ht Hc Hh].
  - pose proof (get_ids dev numb v _ v' (to_len _ Ht) E) as (x & Hx & [(Hp & Ed & En & Hi)|(Hp & Hno & Hi)]).
    + eapply refs_step; [exact Hok|exact Hx|exact Hi| |..].
      * apply (table_same _ _ x); try done. cbn. lia.
      * rewrite uses_cons. cbn. rewrite Z.eqb_refl, (Hc i x Hx). lia.
      * intros j Hj. rewrite uses_cons. cbn. by destruct (Z.eqb_spec i j).
      * intros d n [[= -> ->]|H]%elem_of_cons; [done|]. destruct (Hh _ _ _ H) as (x' & Hx' & <- & <-). assert (x' = x) as -> by congruence. done.
      * intros j d n [[= -> _ _]|H]%elem_of_cons; done.
    + assert (uses i g = 0) as H0 by (pose proof (uses_pos i g); rewrite (Hc i x Hx) in Hp; lia).
      eapply refs_step; [exact Hok|exact Hx|exact Hi| |..].
      * apply table_new; [done| |done|done]. apply zget_Some_range in Hx. by rewrite (to_len _ Ht) in Hx.
      * rewrite uses_cons, H0. cbn. by rewrite Z.eqb_refl.
      * intros j Hj. rewrite uses_cons. cbn. by destruct (Z.eqb_spec i j).
      * intros d n [[= -> ->]|H%uses_in]%elem_of_cons; [done|lia].
      * intros j d n [[= -> _ _]|H]%elem_of_cons; done.
  - pose proof (get_ids dev numb v _ v' (to_len _ Ht) E) as (Hi & _). split; [by eapply table_ids| |].
    + intros j z Hz. destruct (ids_zget _ _ j z (eq_sym Hi) Hz) as (z0 & Hz0 & [= _ _ <-]). by apply Hc.
    + intros j d n (x & Hx & <- & <-)%Hh. destruct (ids_zget _ _ j x Hi Hx) as (z & Hz & [= <- <- _]). by exists z.
  - apply upd_ino_inv in E as (x & Hx & ->). pose proof (uses_in _ _ _ _ Hin) as Hp. destruct (Hh _ _ _ Hin) as (x' & Hx' & Ed & En). assert (x' = x) as -> by congruence.
    eapply refs_step; [exact Hok|exact Hx|done| |..].
    + apply (table_same _ _ x); try done; cbn; rewrite (Hc i x Hx); lia.
    + rewrite uses_cons. cbn. rewrite Z.eqb_refl, (Hc i x Hx). lia.
    + intros j Hj. rewrite uses_cons. cbn. by destruct (Z.eqb_spec i j).
    + intros d' n' [[= -> ->]|H]%elem_of_cons; [done|]. destruct (Hh _ _ _ H) as (x' & Hx'' & <- & <-). by assert (x' = x) as -> by congruence.
    + intros j d' n' [[= -> _ _]|H]%elem_of_cons; done.
  - apply put_ids in E as (x & Hx & Hi). assert (∀ j, uses j (g1 ++ (i, d, n) :: g2) = (if i =? j then 1 else 0) + uses j (g1 ++ g2)) as Hu.
    { intros j. rewrite !uses_app, uses_cons. cbn. lia. }
    pose proof (Hc i x Hx) as Ex. rewrite Hu, Z.eqb_refl in Ex. pose proof (uses_pos i (g1 ++ g2)) as Hp.
    eapply refs_step; [exact Hok|exact Hx|exact Hi| |..].
    + apply (table_same _ _ x); try done; cbn; lia.
    + cbn. lia.
    + intros j Hj. rewrite Hu. by destruct (Z.eqb_spec i j).
    + intros d' n' H. destruct (Hh i d' n') as (x' & Hx'' & <- & <-); [set_solver|]. by assert (x' = x) as -> by congruence.
    + intros j d' n' H _. set_solver.
Qed.
End calls.
