(* ===== verification/NewBlocks.v ===== *)
(** * New blocks of a file

    [new_block] gives the block of a position, cleared and in use: the block that
    is there, or a block of a new zone that is entered in the map. [clear_zone]
    clears the other blocks of a new zone. *)

From S2P Require Import Prelude Linked Cache CacheLists CacheSpec CacheRep CacheStore Super SuperSpec Zones Inode FileMap Volume FileZones MapWrites InodeRuns InodeTable.

Section blocks.
Context `{RD : Reliable} (spi : Z) (sp : super_block) (rip : Z).
Implicit Types (s : fsst) (v : vfs) (x : inode) (zs : list Z).
Notation dev := (s_dev sp).
Notation scale := (s_log_zone_size sp).
Notation nd := V2_NR_DZONES.

Definition zeros : list Z := replicate (Z.to_nat (s_block_size sp)) 0.

(** Some blocks of the data are cleared. *)
Record cleared (P : Z → Prop) (s s' : fsst) : Prop := Cleared {
  cd_idle : idle s';
  cd_volume : volume spi sp s';
  cd_used z : is_zone sp z → zone_used sp s' z = zone_used sp s z;
  cd_zero n : P n → contents s' dev n = zeros;
  cd_rest d n : d ≠ NO_DEV → (d = dev → ¬ P n) → contents s' d n = contents s d n }.

Lemma cleared_nothing s : idle s → volume spi sp s → cleared nothing s s.
Proof. by split. Qed.

Definition clear_body (b : Z) : M vfs unit :=
  bp ← on_cache (get_block dev b NO_READ);
  on_cache (zero_block bp);;
  on_cache (put_block (Some bp) FULL_DATA_BLOCK).

Lemma clear_blocks v blo n : idle (cache v) → volume spi sp (cache v) → data_start sp ≤ blo → (∀ m, blo ≤ m < blo + Z.of_nat n → ∀ s, volume spi sp s → on_disk s dev m) →
  ∃ s', for_each (range blo n) clear_body v = Ret tt (with_cache s' v) ∧ cleared (λ m, blo ≤ m < blo + Z.of_nat n) (cache v) s'.
Proof.
  intros Hi Hv Hb Ho. pose proof (vol_dev _ _ _ Hv) as Hd. induction n as [|n IH].
  - exists (cache v). split; [by destruct v|]. split; try done. intros m Hm. lia.
  - destruct IH as (s1 & E1 & [Hi1 Hv1 Hu1 Hz1 Hr1]). { intros m Hm. apply Ho. lia. }
    destruct (vol_new spi sp s1 (blo + Z.of_nat n) Hi1 Hv1 (Ho (blo + Z.of_nat n) ltac:(lia) s1 Hv1) ltac:(lia)) as (bp & s2 & s3 & E2 & E3 & [Hi3 Hv3 Hu3 Hs3]).
    destruct (vol_put spi sp s3 bp _ FULL_DATA_BLOCK Hi3 Hv3) as (s' & E4 & [Hi' Hv' Hu' T']). exists s'. split.
    + rewrite range_snoc, for_each_app. step E1. cbn [for_each]. unfold clear_body. rewrite bind_assoc.
      rewrite (bind_ret _ _ _ _ _ (on_cache_run _ (with_cache s1 v) _ _ E2)), bind_assoc.
      rewrite (bind_ret _ _ _ _ _ (on_cache_run _ (with_cache s2 (with_cache s1 v)) _ _ E3)).
      by rewrite (bind_ret _ _ _ _ _ (on_cache_run _ (with_cache s3 (with_cache s2 (with_cache s1 v))) _ _ E4)).
    + split; [done|done|intros z Hz; by rewrite Hu', Hu3, Hu1| |].
      * intros m Hm. rewrite T' by done. destruct (Z.eq_dec m (blo + Z.of_nat n)) as [->|Hne]; [by apply (stored_at _ _ _ _ _ Hd Hs3)|].
        rewrite (stored_other _ _ _ _ _ dev m Hs3 Hd) by done. apply Hz1. lia.
      * intros d m Hdm Hm. rewrite T' by done. rewrite (stored_other _ _ _ _ _ d m Hs3 Hdm) by (intros E; specialize (Hm E); lia). apply Hr1; [done|]. intros E. specialize (Hm E). lia.
Qed.

(** The blocks of a zone. *)
Definition zone_blocks (z n : Z) : Prop := first_block sp z ≤ n < first_block sp (z + 1).

Lemma zone_blocks_place z n : 0 < 2 ^ scale → zone_blocks z n ↔ ∃ b, 0 ≤ b < 2 ^ scale ∧ n = first_block sp z + b.
Proof.
  intros Hp. unfold zone_blocks, first_block. split.
  - intros Hn. exists (n - z * 2 ^ scale). lia.
  - intros (b & Hb & ->). lia.
Qed.

(** The last byte of the first block of the zone of a position. *)
Definition first_end (position : Z) : Z := zone_index sp position * zone_size sp + s_block_size sp - 1.

Lemma first_end_place s position : volume spi sp s → 0 ≤ position → position + zone_size sp ≤ 2 ^ 32 →
  div_by position (zone_size sp) = Some (zone_index sp position) ∧ u32 (zone_index sp position * zone_size sp) = zone_index sp position * zone_size sp ∧
  u32 (zone_index sp position * zone_size sp + s_block_size sp - 1) = first_end position ∧
  div_by (first_end position) (zone_size sp) = Some (zone_index sp position) ∧
  div_by (zone_index sp position * zone_size sp) (zone_size sp) = Some (zone_index sp position) ∧
  zone_index sp (first_end position) = zone_index sp position ∧ zone_offset sp (first_end position) = 0 ∧ 0 ≤ first_end position.
Proof.
  intros Hv Hp Hmax. pose proof (zone_size_run spi sp s Hv) as [_ Hzs]. pose proof (scale_pow _ _ _ Hv) as Hp2.
  pose proof (sh_size _ (pl_shaped _ (vo_placed _ _ _ Hv))) as Hsz. unfold MIN_BLOCK_SIZE in Hsz. set (k := zone_index sp position).
  assert (position / zone_size sp = k) as Ek by (unfold k, zone_index, zone_size; by rewrite Z.div_div by lia).
  assert (0 ≤ k) as Hk0 by (rewrite <- Ek; apply Z.div_pos; lia). pose proof (Z.mul_div_le position (zone_size sp) ltac:(lia)) as Hle. rewrite Ek in Hle.
  assert (s_block_size sp ≤ zone_size sp) as Hbz by (unfold zone_size; nia). unfold first_end. fold k. set (next := k * zone_size sp + s_block_size sp - 1).
  assert (0 ≤ next) as Hn0 by (unfold next; nia).
  assert (next / s_block_size sp = k * 2 ^ scale) as En1.
  { symmetry. apply (Z.div_unique _ _ _ (s_block_size sp - 1)); [lia|]. unfold next, zone_size. lia. }
  assert (next / zone_size sp = k) as Enz.
  { symmetry. apply (Z.div_unique _ _ _ (s_block_size sp - 1)); [lia|]. unfold next. lia. }
  unfold div_by. destruct (Z.eqb_spec (zone_size sp) 0); [lia|]. rewrite !Z.quot_div_nonneg by nia. rewrite Ek, Enz, Z.div_mul by lia.
  unfold zone_index, zone_offset. rewrite En1, Z.div_mul, Z.mod_mul by lia. unfold u32. rewrite !Z.mod_small by (unfold next in *; lia). done.
Qed.

(** With flag 1 all blocks of the zone of the position are cleared, but when a zone
    has one block. *)
Lemma clear_zone_run x v position : file spi sp rip x v → 0 ≤ position → position + zone_size sp ≤ 2 ^ 32 → zone_index sp position < file_zones sp →
  let z := file_zone sp x v (zone_index sp position) in is_zone sp z →
  ∃ s', clear_zone rip position 1 v = Ret tt (with_cache s' v) ∧ cleared (λ n, scale ≠ 0 ∧ zone_blocks z n) (cache v) s'.
Proof.
  intros Hfile Hp Hmax Hk z Hz. pose proof Hfile as [Hs Hi Hv Hf]. destruct (slot_super spi sp rip x v Hs Hv) as (i & h & Esp).
  pose proof (zone_size_run spi sp (cache v) Hv) as [Ezs _]. pose proof (scale_pow _ _ _ Hv) as Hp2. pose proof (sh_scale _ (pl_shaped _ (vo_placed _ _ _ Hv))) as Hsc.
  unfold clear_zone. setoid_rewrite (bind_ret _ _ _ _ _ (rd_ino_run v rip x (sl_get _ _ _ _ _ Hs))). setoid_rewrite (bind_ret _ _ _ _ _ Esp).
  cbn [s_log_zone_size s_block_size set_search]. destruct (Z.eqb_spec scale 0) as [E0|E0].
  { exists (cache v). split; [by destruct v|]. split; try done. by intros n []. }
  destruct (first_end_place (cache v) position Hv Hp Hmax) as (D1 & U1 & U2 & D2 & D3 & En & Eo & Hn0). set (k := zone_index sp position) in *.
  destruct (read_map_run spi sp rip x v (first_end position) Hfile Hn0 ltac:(by rewrite En)) as (s1 & E1 & [Hi1 Hv1 Hu1 T1]). rewrite En, Eo in E1. fold z in E1.
  unfold block_at in E1. rewrite (zone_not_none spi sp (cache v) z Hv Hz), Z.add_0_r in E1.
  destruct (zone_block_first spi sp s1 z Hv1 Hz) as (Ezb & Ho1 & Hds). fold (first_block sp z) in Ho1, Hds.
  destruct (clear_blocks (with_cache s1 v) (first_block sp z) (Z.to_nat (2 ^ scale)) Hi1 Hv1 Hds) as (s' & E' & [Hi' Hv' Hu' Hz' Hr']).
  { intros m Hm s Hvs. destruct (zone_block_place spi sp s z (m - first_block sp z) Hvs Hz ltac:(lia)) as (_ & Ho & _). fold (first_block sp z) in Ho.
    by replace (first_block sp z + (m - first_block sp z)) with m in Ho by lia. }
  exists s'. split.
  - change (1 =? 1) with true. cbv iota zeta. rewrite Ezs, bind_assoc, (bind_lift _ _ _ _ D1), bind_mret, U1, U2, (bind_lift _ _ _ _ D2), (bind_lift _ _ _ _ D3).
    rewrite Z.eqb_refl. cbn [negb]. step E1. pose proof (vol_zones _ _ _ Hv) as [Hz0 _].
    assert (first_block sp z ≠ NO_BLOCK) as Hnb by (unfold first_block, is_zone, NO_BLOCK in *; nia). destruct (Z.eqb_spec (first_block sp z) NO_BLOCK); [done|].
    assert (MIN_BLOCK_SIZE ≤ size_of s1 dev) as Hm1 by (rewrite (vol_size spi sp s1 Hv1); apply (sh_size _ (pl_shaped _ (vo_placed _ _ _ Hv)))).
    pose proof (on_disk_small _ _ _ Hm1 Ho1) as Hsm. rewrite (sl_dev _ _ _ _ _ Hs).
    assert (u32 (u32 (Z.shiftl (Z.shiftr (first_block sp z) scale + 1) scale) - 1) - first_block sp z + 1 = 2 ^ scale) as Ehi.
    { unfold first_block in *. rewrite Z.shiftr_div_pow2, Z.div_mul, Z.shiftl_mul_pow2 by lia. unfold u32. rewrite (Z.mod_small ((z + 1) * 2 ^ scale)) by lia.
      rewrite Z.mod_small by lia. lia. }
    rewrite Ehi. change (with_cache s' v) with (with_cache s' (with_cache s1 v)). exact E'.
  - assert (∀ n, first_block sp z ≤ n < first_block sp z + Z.of_nat (Z.to_nat (2 ^ scale)) ↔ scale ≠ 0 ∧ zone_blocks z n) as Hiff.
    { intros n. unfold zone_blocks, first_block. rewrite Z2Nat.id by lia. split; [intros; split; [done|lia]|lia]. }
    split; [done|done|intros z' Hz''; rewrite Hu', Hu1 by done; done| |].
    + intros n Hn. apply Hz'. by apply Hiff.
    + intros d n Hdn Hn. rewrite Hr' by (done || intros E; rewrite Hiff; by apply Hn). by apply T1.
Qed.

(** ** The blocks of a file *)

(** Block [kb] of the file; a place that is empty reads as zeros. *)
Definition file_block (zs : list Z) (s : fsst) (kb : Z) : list Z :=
  let z := zone_at sp zs s (Data (kb / 2 ^ scale)) in
  if z =? NO_ZONE then zeros else contents s dev (first_block sp z + kb mod 2 ^ scale).

Definition block_valid (kb : Z) : Prop := valid sp (Data (kb / 2 ^ scale)).

(** A data zone is no indirect zone. *)
Lemma data_not_indirect zs s m : file_ok sp zs s → valid sp (Data m) → zone_at sp zs s (Data m) ≠ NO_ZONE → ∀ q, indirect q → valid sp q → zone_at sp zs s q ≠ zone_at sp zs s (Data m).
Proof. intros Hf Hm Hne q Hi Hq E. pose proof (fo_own _ _ _ Hf (Data m) q Hm Hq Hne (eq_sym E)) as <-. done. Qed.

Lemma keeps_block zs s zs' s' kb : volume spi sp s → file_ok sp zs s → block_valid kb →
  zone_at sp zs' s' (Data (kb / 2 ^ scale)) = zone_at sp zs s (Data (kb / 2 ^ scale)) →
  (∀ z, is_zone sp z → zone_used sp s z = true → (∀ q, indirect q → valid sp q → zone_at sp zs s q ≠ z) → keeps_zone sp z s s') →
  file_block zs' s' kb = file_block zs s kb.
Proof.
  intros Hv Hf Hkb E Hk. pose proof (scale_pow _ _ _ Hv) as Hp. unfold file_block. rewrite E. destruct (Z.eqb_spec (zone_at sp zs s (Data (kb / 2 ^ scale))) NO_ZONE) as [|Hne]; [done|].
  destruct (fo_zone _ _ _ Hf _ Hkb) as [?|[Hz Hu]]; [done|]. apply (Hk _ Hz Hu); [by apply data_not_indirect|]. apply Z.mod_pos_bound. lia.
Qed.

Lemma grown_block zs s zs' s' kb : volume spi sp s → file_ok sp zs s → grown sp zs s zs' s' → block_valid kb → file_block zs' s' kb = file_block zs s kb.
Proof. intros Hv Hf G Hkb. apply keeps_block; [done|done|done|by apply G|apply G]. Qed.

Lemma remapped_block zs s k z zs' s' kb : volume spi sp s → file_ok sp zs s → remapped sp zs s k z zs' s' → block_valid kb → kb / 2 ^ scale ≠ k →
  file_block zs' s' kb = file_block zs s kb.
Proof.
  intros Hv Hf R Hkb Hne. apply keeps_block; [done|done|done| |apply R]. rewrite (rm_data _ _ _ _ _ _ _ R _ Hkb). by destruct (Z.eqb_spec (kb / 2 ^ scale) k).
Qed.

(** Blocks of the file are in different places. *)
Lemma blocks_differ zs s k1 k2 : volume spi sp s → file_ok sp zs s → block_valid k1 → block_valid k2 → k1 ≠ k2 →
  zone_at sp zs s (Data (k1 / 2 ^ scale)) ≠ NO_ZONE →
  first_block sp (zone_at sp zs s (Data (k1 / 2 ^ scale))) + k1 mod 2 ^ scale ≠ first_block sp (zone_at sp zs s (Data (k2 / 2 ^ scale))) + k2 mod 2 ^ scale.
Proof.
  intros Hv Hf H1 H2 Hne Hz. pose proof (scale_pow _ _ _ Hv) as Hp. pose proof (Z.mod_pos_bound k1 (2 ^ scale) ltac:(lia)). pose proof (Z.mod_pos_bound k2 (2 ^ scale) ltac:(lia)).
  pose proof (Z.div_mod k1 (2 ^ scale) ltac:(lia)) as D1. pose proof (Z.div_mod k2 (2 ^ scale) ltac:(lia)) as D2. unfold first_block. intros E.
  assert (zone_at sp zs s (Data (k1 / 2 ^ scale)) = zone_at sp zs s (Data (k2 / 2 ^ scale))) as Ez by nia.
  pose proof (fo_own _ _ _ Hf _ _ H1 H2 Hz Ez) as Ek. injection Ek as Ek. rewrite Ek in *. lia.
Qed.

(** A block is cleared and stays in use. *)
Lemma block_taken zs s kb : idle s → volume spi sp s → file_ok sp zs s → block_valid kb → zone_at sp zs s (Data (kb / 2 ^ scale)) ≠ NO_ZONE →
  let b := first_block sp (zone_at sp zs s (Data (kb / 2 ^ scale))) + kb mod 2 ^ scale in
  ∃ bp s0 s', get_block dev b NO_READ s = Ret bp s0 ∧ zero_block bp s0 = Ret tt s' ∧ resting (Some (bp, dev, b)) s' ∧ volume spi sp s' ∧ file_ok sp zs s' ∧
    (∀ m, valid sp (Data m) → zone_at sp zs s' (Data m) = zone_at sp zs s (Data m)) ∧
    ∀ kb', block_valid kb' → file_block zs s' kb' = if kb' =? kb then zeros else file_block zs s kb'.
Proof.
  intros Hi Hv Hf Hkb Hne b. pose proof (scale_pow _ _ _ Hv) as Hp. pose proof (vol_dev _ _ _ Hv) as Hd. destruct (fo_zone _ _ _ Hf _ Hkb) as [?|[Hz Hu]]; [done|].
  pose proof (Z.mod_pos_bound kb (2 ^ scale) ltac:(lia)) as Hm. set (z := zone_at sp zs s (Data (kb / 2 ^ scale))) in *.
  destruct (zone_block_place spi sp s z (kb mod 2 ^ scale) Hv Hz Hm) as (_ & Ho & Hds). fold (first_block sp z) in Ho, Hds. fold b in Ho, Hds.
  destruct (vol_new spi sp s b Hi Hv Ho Hds) as (bp & s0 & s' & E0 & E1 & [Hi' Hv' Hu' Hst]). exists bp, s0, s'. split; [done|]. split; [done|]. split; [done|]. split; [done|].
  assert (∀ p, indirect p → valid sp p → zone_at sp zs s p ≠ NO_ZONE → contents s' dev (first_block sp (zone_at sp zs s p)) = contents s dev (first_block sp (zone_at sp zs s p))) as Hind.
  { intros p Hip Hvp Hnp. apply (stored_other _ _ _ _ _ dev _ Hst Hd). intros _ E. symmetry in E. revert E. apply blocks_apart; [|done].
    intros E. by apply (data_not_indirect zs s _ Hf Hkb Hne p Hip Hvp). }
  pose proof (zone_at_same sp zs s s' (pl_shaped _ (vo_placed _ _ _ Hv)) Hind) as Hat. split; [|split; [intros m; apply Hat|]].
  - split; [apply (fo_len _ _ _ Hf)| |].
    + intros p Hvp. rewrite (Hat p Hvp). destruct (fo_zone _ _ _ Hf p Hvp) as [?|[Hz1 Hu1]]; [by left|right]. split; [done|]. by rewrite Hu'.
    + intros p q Hvp Hvq. rewrite (Hat p Hvp), (Hat q Hvq). by apply (fo_own _ _ _ Hf).
  - intros kb' Hkb'. unfold file_block. rewrite (Hat _ Hkb'). destruct (Z.eqb_spec kb' kb) as [->|Hnk].
    + fold z. rewrite (zone_not_none spi sp s z Hv Hz). exact (stored_at _ _ _ _ _ Hd Hst).
    + destruct (Z.eqb_spec (zone_at sp zs s (Data (kb' / 2 ^ scale))) NO_ZONE) as [|Hne']; [done|]. apply (stored_other _ _ _ _ _ dev _ Hst Hd).
      intros _. by apply (blocks_differ zs s kb' kb Hv Hf).
Qed.

(** The error code is no part of a file. *)
Lemma contents_err e s d n : contents (with_err_code e s) d n = contents s d n.
Proof. reflexivity. Qed.

Lemma zone_at_err e zs s p : zone_at sp zs (with_err_code e s) p = zone_at sp zs s p.
Proof. destruct p; cbn [zone_at]; unfold ind; by rewrite ?contents_err. Qed.

Lemma block_err e zs s kb : file_block zs (with_err_code e s) kb = file_block zs s kb.
Proof. unfold file_block. by rewrite zone_at_err, contents_err. Qed.

(** ** A zone for the position *)

Section position.
Context (x : inode) (v : vfs) (position : Z) (Hfile : file spi sp rip x v).
Context (Hp : 0 ≤ position) (Hmax : position + zone_size sp ≤ 2 ^ 32) (Hk : zone_index sp position < file_zones sp).
Notation k := (zone_index sp position).
Let Hv : volume spi sp (cache v) := fi_volume _ _ _ _ _ Hfile.
Let Hf : file_ok sp (i_zone x) (cache v) := fi_ok _ _ _ _ _ Hfile.

Lemma index_valid : valid sp (Data k).
Proof. split; [|done]. apply (index_shift sp position (pl_shaped _ (vo_placed _ _ _ Hv)) Hp). Qed.

(** There is no zone left but the one that could not be entered; what was done for
    the position is harmless. *)
Definition no_room (x' : inode) (s' : fsst) : Prop :=
  file spi sp rip x' (pv rip v x' s') ∧ err_code s' = ENOSPC ∧ (∃ z0, ∀ z, is_zone sp z → z ≠ z0 → zone_used sp s' z = true) ∧ ∀ kb, block_valid kb → file_block (i_zone x') s' kb = file_block (i_zone x) (cache v) kb.

(** The position has a zone now. *)
Definition room (zs' : list Z) (s' : fsst) : Prop :=
  idle s' ∧ volume spi sp s' ∧ file_ok sp zs' s' ∧ zone_at sp zs' s' (Data k) ≠ NO_ZONE ∧
  ∀ kb, block_valid kb → (kb / 2 ^ scale = k → position ≠ i_size x ∧ scale ≠ 0) → file_block zs' s' kb = file_block (i_zone x) (cache v) kb.

Lemma boff_place s : volume spi sp s → ∃ in_zone, rem_by position (zone_size sp) = Some in_zone ∧ div_by in_zone (s_block_size sp) = Some (zone_offset sp position).
Proof.
  intros Hvs. pose proof (zone_size_run spi sp s Hvs) as [_ Hzs]. pose proof (scale_pow _ _ _ Hvs) as Hp2. pose proof (sh_size _ (pl_shaped _ (vo_placed _ _ _ Hvs))) as Hsz.
  unfold MIN_BLOCK_SIZE in Hsz. exists (position mod zone_size sp). pose proof (Z.mod_pos_bound position (zone_size sp) ltac:(lia)). unfold rem_by, div_by.
  destruct (Z.eqb_spec (zone_size sp) 0); [lia|]. rewrite Z.rem_mod_nonneg by lia. split; [done|]. destruct (Z.eqb_spec (s_block_size sp) 0); [lia|].
  rewrite Z.quot_div_nonneg by lia. f_equal. unfold zone_offset, zone_size. rewrite Z.rem_mul_r by lia. rewrite (Z.mul_comm (s_block_size sp) (_ mod _)), Z.div_add by lia.
  rewrite Z.div_small by (apply Z.mod_pos_bound; lia). lia.
Qed.

(** The file with one more zone in use. *)
Lemma alloc_file z s1 : is_zone sp z → zone_used sp (cache v) z = false → rezoned spi sp None z true (cache v) s1 →
  file spi sp rip x (with_cache s1 v) ∧ zone_used sp s1 z = true ∧ foreign sp (i_zone x) s1 z ∧
  (∀ p, valid sp p → zone_at sp (i_zone x) s1 p = zone_at sp (i_zone x) (cache v) p) ∧
  (∀ kb, block_valid kb → file_block (i_zone x) s1 kb = file_block (i_zone x) (cache v) kb).
Proof.
  intros Hz Hun [Hi1 Hv1 Hu1 Hd1]. pose proof (vol_dev _ _ _ Hv) as Hd. pose proof (vol_zones _ _ _ Hv) as [Hz0 _]. pose proof (scale_pow _ _ _ Hv) as Hp2.
  assert (∀ z', is_zone sp z' → keeps_zone sp z' (cache v) s1) as Hkeep.
  { intros z' Hz' b Hb. apply Hd1; [done|]. intros _. apply (zone_off spi sp (cache v) Hv); [done|lia]. }
  assert (∀ z', is_zone sp z' → zone_used sp (cache v) z' = true → zone_used sp s1 z' = true) as Hmono by (intros z' Hz' E; rewrite (Hu1 z' Hz'); by destruct (z' =? z)).
  destruct (file_ok_same sp (i_zone x) (cache v) s1 (pl_shaped _ (vo_placed _ _ _ Hv)) Hf Hmono) as [Hf1 Hat].
  { intros z' Hz' _. rewrite <- (Z.add_0_r (first_block sp z')). apply (Hkeep z' Hz'). lia. }
  split; [split; [apply slot_cache, Hfile|done|done|done]|]. split; [rewrite (Hu1 z Hz); by rewrite Z.eqb_refl|]. split; [|split; [done|]].
  - intros p Hvp. rewrite (Hat p Hvp). apply (unused_foreign sp _ (cache v)); try done. unfold is_zone, NO_ZONE in *. lia.
  - intros kb Hkb. apply keeps_block; [done|done|done|by apply Hat|]. intros z' Hz' _ _. by apply Hkeep.
Qed.

(** The zone goes back when it cannot be entered. *)
Lemma zone_returned z s1 zs2 s2 : is_zone sp z → zone_used sp s1 z = true → foreign sp (i_zone x) s1 z → volume spi sp s1 → file_ok sp (i_zone x) s1 →
  (∀ kb, block_valid kb → file_block (i_zone x) s1 kb = file_block (i_zone x) (cache v) kb) →
  idle s2 → volume spi sp s2 → grown sp (i_zone x) s1 zs2 s2 → (∀ z, is_zone sp z → zone_used sp s2 z = true) →
  ∃ s3, free_zone dev z s2 = Ret tt s3 ∧ no_room (set_i_zone zs2 (set_i_dirt DIRTY x)) (with_err_code ENOSPC s3).
Proof.
  intros Hz Hu Hfo Hv1 Hf1 Hb1 Hi2 Hv2 G Hall. pose proof (vol_dev _ _ _ Hv) as Hd. pose proof (scale_pow _ _ _ Hv) as Hp2.
  destruct (vol_free spi sp None z s2 Hi2 Hv2 Hz (gr_used _ _ _ _ _ G z Hz Hu)) as (s3 & E & [Hi3 Hv3 Hu3 Hd3]). exists s3. split; [done|].
  pose proof (grown_foreign_all sp _ _ _ _ z G Hu Hfo) as Hfo2. pose proof (gr_ok _ _ _ _ _ G) as Hf2.
  assert (∀ z', is_zone sp z' → keeps_zone sp z' s2 s3) as Hkeep.
  { intros z' Hz' b Hb. apply Hd3; [done|]. intros _. apply (zone_off spi sp s2 Hv2); [done|lia]. }
  assert (∀ p, valid sp p → zone_at sp zs2 s3 p = zone_at sp zs2 s2 p) as Hat.
  { apply (zone_at_same sp); [apply Hv2|]. intros p _ Hvp Hne. destruct (fo_zone _ _ _ Hf2 p Hvp) as [?|[Hzp _]]; [done|].
    rewrite <- (Z.add_0_r (first_block sp _)). apply (Hkeep _ Hzp). lia. }
  assert (file_ok sp zs2 s3) as Hf3.
  { split; [apply (fo_len _ _ _ Hf2)| |].
    - intros p Hvp. rewrite (Hat p Hvp). destruct (fo_zone _ _ _ Hf2 p Hvp) as [?|[Hz1 Hu1]]; [by left|right]. split; [done|]. rewrite (Hu3 _ Hz1).
      destruct (Z.eqb_spec (zone_at sp zs2 s2 p) z) as [E2|]; [by destruct (Hfo2 p Hvp)|done].
    - intros p q Hvp Hvq. rewrite (Hat p Hvp), (Hat q Hvq). by apply (fo_own _ _ _ Hf2). }
  split; [|split; [done|split; [exists z; intros z' Hz' Hne; change (zone_used sp s3 z' = true); rewrite (Hu3 z' Hz'); destruct (Z.eqb_spec z' z); [done|by apply Hall]|]]].
  - assert (volume spi sp (with_err_code ENOSPC s3)) as Hv4 by (by apply (vol_keep spi sp s3)).
    assert (file_ok sp zs2 (with_err_code ENOSPC s3)) as Hf4.
    { apply (file_ok_same sp zs2 s3 (with_err_code ENOSPC s3) (pl_shaped _ (vo_placed _ _ _ Hv)) Hf3); [intros z' _ E'; exact E'|intros; reflexivity]. }
    split; [|by apply idle_err|done|done]. destruct (fi_slot _ _ _ _ _ Hfile) as [Hg ? ? ? ?]. split; try done. apply zget_upd_eq. by eapply zget_Some_range.
  - intros kb Hkb. rewrite <- (Hb1 kb Hkb), <- (grown_block _ _ _ _ kb Hv1 Hf1 G Hkb).
    rewrite block_err. apply keeps_block; [done|done|done|by apply Hat|]. intros z' Hz' _ _. by apply Hkeep.
Qed.

(** A new zone that was entered at the position. *)
Lemma entered_room z s1 zs2 s2 s3 : is_zone sp z → volume spi sp s1 → file_ok sp (i_zone x) s1 →
  (∀ kb, block_valid kb → file_block (i_zone x) s1 kb = file_block (i_zone x) (cache v) kb) → zone_at sp (i_zone x) (cache v) (Data k) = NO_ZONE →
  volume spi sp s2 → remapped sp (i_zone x) s1 k z zs2 s2 → cleared (λ n, position ≠ i_size x ∧ scale ≠ 0 ∧ zone_blocks z n) s2 s3 →
  room zs2 s3 ∧ zone_at sp zs2 s3 (Data k) = z.
Proof.
  intros Hz Hv1 Hf1 Hb1 He Hv2 R [Hi3 Hv3 Hu3 Hz3 Hr3]. pose proof (vol_dev _ _ _ Hv) as Hd. pose proof (vol_zones _ _ _ Hv) as [Hz0 _]. pose proof (scale_pow _ _ _ Hv) as Hp2.
  pose proof (rm_ok _ _ _ _ _ _ _ R) as Hf2. assert (zone_at sp zs2 s2 (Data k) = z) as Ek by (rewrite (rm_data _ _ _ _ _ _ _ R k index_valid); by rewrite Z.eqb_refl).
  assert (z ≠ NO_ZONE) as Hzn by (unfold is_zone, NO_ZONE in *; lia).
  assert (∀ z', z' ≠ z → keeps_zone sp z' s2 s3) as Hkeep.
  { intros z' Hne b Hb. apply Hr3; [done|]. intros _ (_ & _ & (b' & Hb' & E)%zone_blocks_place); [|lia]. unfold first_block in E. nia. }
  assert (∀ p, valid sp p → zone_at sp zs2 s3 p = zone_at sp zs2 s2 p) as Hat.
  { apply (zone_at_same sp); [apply Hv2|]. intros p Hip Hvp Hne. rewrite <- (Z.add_0_r (first_block sp _)). apply Hkeep; [|lia].
    rewrite <- Ek. rewrite <- Ek in Hzn. by apply data_not_indirect; [|apply index_valid|..]. }
  assert (file_ok sp zs2 s3) as Hf3.
  { split; [apply (fo_len _ _ _ Hf2)| |].
    - intros p Hvp. rewrite (Hat p Hvp). destruct (fo_zone _ _ _ Hf2 p Hvp) as [?|[Hz1 Hu1]]; [by left|right]. split; [done|]. by rewrite Hu3.
    - intros p q Hvp Hvq. rewrite (Hat p Hvp), (Hat q Hvq). by apply (fo_own _ _ _ Hf2). }
  assert (zone_at sp zs2 s3 (Data k) = z) as Ek3 by (by rewrite (Hat _ index_valid)).
  split; [|done]. split; [done|]. split; [done|]. split; [done|]. split; [by rewrite Ek3|]. intros kb Hkb Hcond. rewrite <- (Hb1 kb Hkb).
  destruct (Z.eq_dec (kb / 2 ^ scale) k) as [Ekb|Hne].
  - destruct (Hcond Ekb) as [Hpos Hsc]. unfold file_block. rewrite Ekb, Ek3. destruct (Z.eqb_spec z NO_ZONE); [done|].
    assert (file_block (i_zone x) s1 kb = zeros) as E1. { rewrite (Hb1 kb Hkb). unfold file_block. by rewrite Ekb, He. }
    unfold file_block in E1. rewrite Ekb in E1. rewrite E1. apply Hz3. split; [done|]. split; [done|]. apply zone_blocks_place; [lia|]. eexists. split; [|done]. apply Z.mod_pos_bound. lia.
  - rewrite <- (remapped_block _ _ _ _ _ _ kb Hv1 Hf1 R Hkb Hne). unfold file_block. rewrite (Hat _ Hkb).
    destruct (Z.eqb_spec (zone_at sp zs2 s2 (Data (kb / 2 ^ scale))) NO_ZONE) as [|Hnz]; [done|]. apply Hkeep; [|apply Z.mod_pos_bound; lia].
    intros E. apply Hne. rewrite <- Ek in E. pose proof (fo_own _ _ _ Hf2 _ _ Hkb index_valid Hnz E) as Eq. by injection Eq.
Qed.

Lemma find_new_run : zone_at sp (i_zone x) (cache v) (Data k) = NO_ZONE →
  (∃ zs' s', find_new rip position v = Ret (Some (first_block sp (zone_at sp zs' s' (Data k)) + zone_offset sp position)) (changed rip x v zs' s') ∧ room zs' s') ∨
  (∃ x' s', find_new rip position v = Ret None (pv rip v x' s') ∧ no_room x' s').
Proof.
  intros He. pose proof (fi_slot _ _ _ _ _ Hfile) as Hs. destruct (slot_super spi sp rip x v Hs Hv) as (i & h & Esp). pose proof (fo_len _ _ _ Hf) as Hl.
  pose proof (zone_size_run spi sp (cache v) Hv) as [Ezs _]. unfold find_new. setoid_rewrite (bind_ret _ _ _ _ _ (rd_ino_run v rip x (sl_get _ _ _ _ _ Hs))).
  setoid_rewrite (bind_ret _ _ _ _ _ Esp). setoid_rewrite (bind_ret _ _ _ _ _ (slot_direct spi sp rip x v 0 Hs Hl ltac:(done))).
  cbn [s_log_zone_size s_block_size s_firstdatazone set_search]. rewrite (sl_dev _ _ _ _ _ Hs). set (z0 := if _ =? _ then _ else _).
  destruct (vol_alloc spi sp None z0 (cache v) (fi_idle _ _ _ _ _ Hfile) Hv) as [(z & s1 & E & Hz & Hun & Rz)|(s1 & E & Hfull & Hi1 & Hv1 & T & Hu & Her)];
    setoid_rewrite (bind_ret _ _ _ _ _ (on_cache_run _ v _ _ E)).
  - destruct (alloc_file z s1 Hz Hun Rz) as (Hf1 & Hu1 & Hfo1 & _ & Hb1). rewrite (zone_not_none spi sp (cache v) z Hv Hz).
    pose proof (fi_volume _ _ _ _ _ Hf1) as Hv1. pose proof (fi_ok _ _ _ _ _ Hf1) as Hok1. cbn [cache with_cache] in Hv1, Hok1.
    destruct (write_map_run spi sp rip x (with_cache s1 v) position z Hf1 Hp Hk Hz Hu1 Hfo1) as (r & zs2 & s2 & E2 & Hi2 & Hv2 & [[-> R]|(-> & G & Hfull)]);
      setoid_rewrite (bind_ret _ _ _ _ _ E2); cbn [cache with_cache] in *.
    + left. set (x2 := set_i_zone zs2 (set_i_dirt DIRTY x)). pose proof (rm_ok _ _ _ _ _ _ _ R) as Hok2.
      assert (file spi sp rip x2 (changed rip x (with_cache s1 v) zs2 s2)) as Hf2.
      { split; [|done|done|done]. destruct Hs as [Hg ? ? ? ?]. split; try done. apply zget_upd_eq. by eapply zget_Some_range. }
      assert (file_zone sp x2 (changed rip x (with_cache s1 v) zs2 s2) k = z) as Ez.
      { unfold file_zone. change (zone_at sp zs2 s2 (Data k) = z). rewrite (rm_data _ _ _ _ _ _ _ R k index_valid). by rewrite Z.eqb_refl. }
      assert (∃ s3, when (negb (position =? i_size x)) (clear_zone rip position 1) (changed rip x (with_cache s1 v) zs2 s2) = Ret tt (changed rip x v zs2 s3) ∧
        cleared (λ n, position ≠ i_size x ∧ scale ≠ 0 ∧ zone_blocks z n) s2 s3) as (s3 & E3 & Cl).
      { destruct (Z.eqb_spec position (i_size x)) as [Eq|Hne]; cbn [negb when].
        - exists s2. split; [done|]. split; try done. by intros n [].
        - destruct (clear_zone_run x2 _ position Hf2 Hp Hmax Hk) as (s3 & E3 & [? ? ? Hzz Hrr]); [by rewrite Ez|]. exists s3. split; [done|]. rewrite Ez in Hzz, Hrr.
          split; try done; [intros n (_ & Hn); by apply Hzz|]. intros d n Hdn Hn. apply Hrr; [done|]. intros E' Hn'. by apply (Hn E'). }
      destruct (entered_room z s1 zs2 s2 s3 Hz Hv1 Hok1 Hb1 He Hv2 R Cl) as [Hroom Ek]. exists zs2, s3. split; [|done]. rewrite Ek.
      change (negb (OK =? OK)) with false. cbv iota. step E3. rewrite Ezs. destruct (boff_place (cache v) Hv) as (iz & Er & Ed). rewrite (bind_lift _ _ _ _ Er), (bind_lift _ _ _ _ Ed).
      unfold mret, M_ret. do 2 f_equal. apply (block_value spi sp (cache v) z _ Hv Hz). unfold zone_offset. apply Z.mod_pos_bound. pose proof (scale_pow _ _ _ Hv). lia.
    + right. destruct (zone_returned z s1 zs2 s2 Hz Hu1 Hfo1 Hv1 Hok1 Hb1 Hi2 Hv2 G Hfull) as (s3 & E3 & Hno). exists (set_i_zone zs2 (set_i_dirt DIRTY x)), (with_err_code ENOSPC s3).
      split; [|done]. change (negb (ENOSPC =? OK)) with true. cbv iota. by rewrite (bind_ret _ _ _ _ _ (on_cache_run _ (changed rip x (with_cache s1 v) zs2 s2) _ _ E3)).
  - right. exists x, s1. split; [change (NO_ZONE =? NO_ZONE) with true; cbv iota; rewrite (pv_self rip v x (sl_get _ _ _ _ _ Hs)) at 1; done|].
    pose proof (unseen_grown spi sp None _ _ s1 Hv Hf ltac:(by split)) as G. split; [|split; [done|split; [exists NO_ZONE; intros z' Hz' _; rewrite Hu by done; by apply Hfull|intros kb Hkb; by apply grown_block]]].
    split; [|done|done|apply G]. destruct Hs as [Hg ? ? ? ?]. split; try done. apply zget_upd_eq. by eapply zget_Some_range.
Qed.
End position.
End blocks.
