(* ===== verification/InodeNumbers.v ===== *)
(** * Inode numbers

    [free_inode] gives an inode number back to the bit map of inodes, [put_inode]
    takes one user off an inode, and [alloc_inode] takes a free number and a free
    slot of the table. *)

From S2P Require Import Prelude Linked Cache CacheLists CacheSpec CacheRep CacheStore Super SuperSpec Zones Inode FileMap Volume FileZones MapWrites InodeRuns InodeTable NewBlocks.

(** ** Releasing an inode *)

Section release.
Context `{RD : Reliable} (spi : Z) (sp : super_block).
Implicit Types (s : fsst) (v : vfs) (x : inode).
Notation dev := (s_dev sp).

(** *** The bit map of inodes *)

Definition inode_bit (s : fsst) (num : Z) : bool := mbit sp IMAP s num.

Lemma imap_blocks : placed sp → map_blocks sp IMAP = s_imap_blocks sp → ∀ n, 0 ≤ n < map_blocks sp IMAP → START_BLOCK ≤ map_start sp IMAP + n < START_BLOCK + s_imap_blocks sp.
Proof. intros _ E n Hn. rewrite E in Hn. change (map_start sp IMAP) with START_BLOCK. lia. Qed.

(** The map of inodes is where it was. *)
Lemma imap_keep s s' :
  volume spi sp s → volume spi sp s' → mapped sp IMAP s → map_blocks sp IMAP = s_imap_blocks sp →
  (∀ n, START_BLOCK ≤ n < START_BLOCK + s_imap_blocks sp → contents s' dev n = contents s dev n) →
  mapped sp IMAP s' ∧ ∀ m, 0 ≤ m < map_blocks sp IMAP * bits_per sp → inode_bit s' m = inode_bit s m.
Proof.
  intros Hv Hv' Hm Eb Hc. pose proof (imap_blocks (vo_placed _ _ _ Hv) Eb) as Hlow. pose proof (mp_blocks _ _ _ Hm) as Hb1. split.
  - destruct Hm as [? Hsz ? ? ? ? Hk ?]. split; try done; [exact (vol_size spi sp s' Hv')|]. intros k Hkr. destruct (Hk k Hkr) as [Ho Hby]. split.
    + unfold on_disk in *. by rewrite (vol_size spi sp s' Hv'), <- (vol_size spi sp s Hv).
    + rewrite Hc; [done|]. by apply Hlow.
  - intros m Hmr. unfold inode_bit, mbit. f_equal. apply Hc. unfold bit_block. apply Hlow. assert (0 < bits_per sp) by nia.
    split; [apply Z.div_pos; lia|apply Z.div_lt_upper_bound; lia].
Qed.

Lemma mapped_hint i h map s : mapped sp map s → mapped (set_search i h sp) map s.
Proof. intros []. by split. Qed.

Lemma free_inode_run num s : idle s → volume spi sp s → mapped sp IMAP s → map_blocks sp IMAP = s_imap_blocks sp →
  1 ≤ num ≤ s_ninodes sp → s_ninodes sp + 1 < 2 ^ 32 → inode_bit s num = true →
  ∃ s', free_inode dev num s = Ret tt s' ∧ idle s' ∧ volume spi sp s' ∧ mapped sp IMAP s' ∧
    (∀ m, 0 ≤ m < map_blocks sp IMAP * bits_per sp → inode_bit s' m = if m =? num then false else inode_bit s m) ∧
    (∀ z, is_zone sp z → zone_used sp s' z = zone_used sp s z) ∧
    (∀ d n, d ≠ NO_DEV → (d = dev → n < START_BLOCK ∨ START_BLOCK + s_imap_blocks sp ≤ n) → contents s' d n = contents s d n).
Proof.
  intros Hi Hv Hm Eb Hn Hmax Hbit. pose proof Hv as [(i & h & Hsi & Hw) Hp]. pose proof Hsi as (Hd & _ & Hz & _). set (sp1 := set_search i h sp) in *.
  destruct (get_super_run dev spi sp1 s Hsi) as [Eg Er]. pose proof (mp_blocks _ _ _ Hm) as Hb1. pose proof (mp_bits _ _ _ Hm) as Hbits.
  assert (map_bits sp IMAP = s_ninodes sp + 1) as Emb by (unfold map_bits; change (IMAP =? IMAP) with true; cbv iota; unfold u32; rewrite Z.mod_small; lia).
  assert (0 ≤ num < map_blocks sp IMAP * bits_per sp) as Hnr by lia.
  pose proof (free_bit_run sp1 IMAP s spi num Hi (mapped_hint i h IMAP s Hm) Hz (wb_rw _ _ Hw) Hnr) as Hf.
  change (mbit sp1 IMAP s num) with (inode_bit s num) in Hf. rewrite Hbit in Hf. destruct Hf as (s1 & E1 & Hi1 & Hset & Hs1 & _).
  assert (START_BLOCK ≤ bit_block sp1 IMAP num < START_BLOCK + s_imap_blocks sp) as Hblk.
  { unfold bit_block. change (bits_per sp1) with (bits_per sp). apply (imap_blocks Hp Eb). assert (0 < bits_per sp) by nia.
    split; [apply Z.div_pos; lia|apply Z.div_lt_upper_bound; lia]. }
  assert (∀ d n, d ≠ NO_DEV → (d = dev → n < START_BLOCK ∨ START_BLOCK + s_imap_blocks sp ≤ n) → contents s1 d n = contents s d n) as Hc1.
  { intros d n Hdn Hno. rewrite Hset by done. unfold put_store. change (s_dev sp1) with dev. destruct (Z.eqb_spec d dev) as [->|]; [|done].
    destruct (Z.eqb_spec n (bit_block sp1 IMAP num)) as [->|]; [|done]. specialize (Hno eq_refl). lia. }
  destruct (vol_keep spi sp s s1 Hv Hs1) as [Hv1 Hu1]. { intros n Hnn. apply Hc1; [done|]. intros _. lia. }
  pose proof (mapped_set sp1 IMAP s s1 num false (mapped_hint i h IMAP s Hm) Hset Hs1 Hnr) as Hm1'.
  assert (mapped sp IMAP s1) as Hm1 by (by destruct Hm1').
  assert (∃ s', when (num <? s_isearch sp1) (upd_super spi (λ sp, set_search num (s_zsearch sp) sp)) s1 = Ret tt s' ∧ idle s' ∧ volume spi sp s' ∧ transparent s1 s' ∧
    ∀ z, is_zone sp z → zone_used sp s' z = zone_used sp s1 z) as (s' & E2 & Hi' & Hv' & T & Hu').
  { unfold when. destruct (num <? s_isearch sp1); [by apply vol_isearch|]. by exists s1. }
  destruct (imap_keep s1 s' Hv1 Hv' Hm1 Eb (λ n _, T dev n Hd)) as [Hm' Hbit']. exists s'. split; [|split_and!; try done].
  - unfold free_inode. step Eg. step Er. change (s_ninodes sp1) with (s_ninodes sp). destruct (Z.leb_spec num 0), (Z.ltb_spec (s_ninodes sp) num); try lia. cbn [orb].
    by step E1.
  - intros m Hmr. rewrite (Hbit' m Hmr). exact (mbit_set (ho := None) sp1 IMAP s s1 num m false Hi (mapped_hint i h IMAP s Hm) Hset Hnr (proj1 Hmr)).
  - intros z Hzz. by rewrite Hu', Hu1.
  - intros d n Hdn Hno. rewrite T by done. by apply Hc1.
Qed.

(** *** One user less *)

Section put.
Context (rip : Z) (x : inode) (v : vfs) (Hx : zget (inodes v) rip = Some x).
Let Hrip : 0 ≤ rip < zlen (inodes v) := zget_Some_range _ _ _ Hx.

Lemma put_count : upd_ino rip (λ x, set_i_count (i_count x - 1) x) v = Ret tt (pv rip v (set_i_count (i_count x - 1) x) (cache v)).
Proof. rewrite (upd_ino_run v rip x _ Hx). by destruct v. Qed.

Lemma put_shared : i_count x ≠ 1 → put_inode (Some rip) v = Ret tt (pv rip v (set_i_count (i_count x - 1) x) (cache v)).
Proof.
  intros Hc. unfold put_inode. step put_count. step (pv_rd rip v Hrip (set_i_count (i_count x - 1) x) (cache v)).
  change (i_count (set_i_count (i_count x - 1) x)) with (i_count x - 1). by destruct (Z.eqb_spec (i_count x - 1) 0); [lia|].
Qed.

(** The last user of an inode that a directory has. *)
Context (Hc : i_count x = 1).
Let x1 : inode := set_i_count 0 x.

Lemma put_last : upd_ino rip (λ x, set_i_count (i_count x - 1) x) v = Ret tt (pv rip v x1 (cache v)).
Proof. rewrite put_count, Hc. done. Qed.

Lemma put_linked : i_nlinks x ≠ 0 → i_pipe x ≠ I_PIPE →
  put_inode (Some rip) v = when (i_dirt x =? DIRTY) (rw_inode rip WRITING) (pv rip v (set_i_pipe NO_PIPE x1) (cache v)).
Proof.
  intros Hl Hp. unfold put_inode. step put_last. step (pv_rd rip v Hrip x1 (cache v)). change (i_count x1 =? 0) with true. cbn [negb].
  change (i_nlinks x1) with (i_nlinks x). change (i_pipe x1) with (i_pipe x). destruct (Z.eqb_spec (i_nlinks x) 0); [done|].
  destruct (Z.eqb_spec (i_pipe x) I_PIPE); [done|]. cbn [when]. rewrite bind_mret. step (pv_upd rip v Hrip x1 (cache v) (set_i_pipe NO_PIPE)).
  by step (pv_rd rip v Hrip (set_i_pipe NO_PIPE x1) (cache v)).
Qed.

(** The last user of one that no directory has. *)
Context (num : Z) (Hnum : numbered sp num) (Hper : s_inodes_per_block sp = per_block sp) (Hino : i_num x = num).
Context (Hfile : file spi sp rip x v) (Hsized : sized sp x v) (Hclock : (getuptime v).1 = OK).

Lemma one_less_file : file spi sp rip x1 (pv rip v x1 (cache v)) ∧ sized sp x1 (pv rip v x1 (cache v)).
Proof.
  destruct Hfile as [[Hg H1 H2 H3 H4] Hi Hv Hf]. split; [|by destruct Hsized]. split; try done. split; try done. by apply zget_upd_eq.
Qed.

Lemma put_unlinked :
  mapped sp IMAP (cache v) → map_blocks sp IMAP = s_imap_blocks sp → num ≤ s_ninodes sp → s_ninodes sp + 1 < 2 ^ 32 → inode_bit (cache v) num = true →
  i_nlinks x = 0 → i_pipe x ≠ I_PIPE → Z.land (i_mode x) I_TYPE ≠ I_CHAR_SPECIAL → Z.land (i_mode x) I_TYPE ≠ I_BLOCK_SPECIAL →
  ∃ y s', put_inode (Some rip) v = Ret tt (pv rip v y s') ∧ i_count y = 0 ∧ i_mode y = I_NOT_ALLOC ∧ i_dirt y = CLEAN ∧ i_dev y = dev ∧ i_num y = num ∧
    idle s' ∧ volume spi sp s' ∧ mapped sp IMAP s' ∧
    (∀ z, is_zone sp z → zone_used sp s' z = true ↔ zone_used sp (cache v) z = true ∧ ∀ p, valid sp p → zone_at sp (i_zone x) (cache v) p ≠ z) ∧
    (∀ m, 0 ≤ m < map_blocks sp IMAP * bits_per sp → inode_bit s' m = if m =? num then false else inode_bit (cache v) m) ∧
    contents s' dev (ino_block sp num) = copy_out sp (inode_off sp num) y (contents (cache v) dev (ino_block sp num)) ∧
    (∀ d n, d ≠ NO_DEV → (d = dev → map_end sp ≤ n ∧ n ≠ ino_block sp num) → contents s' d n = contents (cache v) d n).
Proof.
  intros Hm Eb Hn Hmax Hbit Hl Hp Hch Hbl. pose proof (fi_volume _ _ _ _ _ Hfile) as Hv. pose proof (vol_dev _ _ _ Hv) as Hd. destruct one_less_file as [Hf1 Hs1].
  destruct (truncate_run spi sp rip x1 _ Hf1 Hs1 Hch Hbl Hp) as (s1 & E1 & [Hi1 Hv1 Hu1 Hc1]). set (x2 := set_i_zone (i_zone x) (set_i_dirt DIRTY x1)).
  assert (changed rip x1 (pv rip v x1 (cache v)) (i_zone x1) s1 = pv rip v x2 s1) as Ech.
  { unfold changed, pv, with_inodes, with_cache. cbn. f_equal. unfold upd. by rewrite list_insert_insert_eq. }
  rewrite Ech in E1. destruct (imap_keep (cache v) s1 Hv Hv1 Hm Eb) as [Hm1 Hb1]. { intros n Hnn. apply Hc1; [done|]. intros _. left. lia. }
  assert (0 ≤ num < map_blocks sp IMAP * bits_per sp) as Hnr.
  { pose proof (mp_bits _ _ _ Hm) as Hbits. assert (map_bits sp IMAP = s_ninodes sp + 1) as Emb.
    { unfold map_bits. change (IMAP =? IMAP) with true. cbv iota. unfold u32. destruct Hnum as [? _]. rewrite Z.mod_small; lia. } destruct Hnum as [? _]. lia. }
  destruct (free_inode_run num s1 Hi1 Hv1 Hm1 Eb ltac:(destruct Hnum; lia) Hmax ltac:(by rewrite Hb1)) as (s2 & E2 & Hi2 & Hv2 & Hm2 & Hb2 & Hu2 & Hc2).
  set (x3 := set_i_pipe NO_PIPE (set_i_dirt DIRTY (set_i_mode I_NOT_ALLOC x2))). pose proof (sl_dev _ _ _ _ _ (fi_slot _ _ _ _ _ Hfile)) as Hdev.
  destruct (rw_inode_writes spi sp rip v Hrip num Hnum Hper x3 s2 Hi2 Hv2 Hdev Hino Hclock) as (s' & E3 & Hi' & Hv' & Hu' & Hst).
  destruct (numbered_place spi sp s2 num Hv2 Hper Hnum) as (_ & _ & _ & _ & Hend). pose proof (pl_counts _ (vo_placed _ _ _ Hv)) as Hcnt. unfold map_end, START_BLOCK in *.
  set (y := stamped v (set_i_sp (Some spi) x3)) in *. assert (i_count y = 0 ∧ i_mode y = I_NOT_ALLOC ∧ i_dev y = dev ∧ i_num y = num) as (Y1 & Y2 & Y3 & Y4).
  { unfold y, stamped. by destruct (i_update (set_i_sp (Some spi) x3) =? 0). }
  destruct (imap_keep s2 s' Hv2 Hv' Hm2 Eb) as [Hm' Hb']. { intros n Hnn. apply (stored_other _ _ _ _ _ dev n Hst Hd). unfold START_BLOCK in Hnn. lia. }
  exists (set_i_dirt CLEAN y), s'. split; [|split_and!; try done].
  - unfold put_inode. step put_last. step (pv_rd rip v Hrip x1 (cache v)). change (i_count x1 =? 0) with true. cbn [negb].
    change (i_nlinks x1) with (i_nlinks x). rewrite Hl. change (0 =? 0) with true. cbv iota. rewrite bind_assoc. step E1. rewrite bind_assoc.
    step (pv_upd rip v Hrip x2 s1 (λ x, set_i_dirt DIRTY (set_i_mode I_NOT_ALLOC x))). change (i_dev x1) with (i_dev x). change (i_num x1) with (i_num x). rewrite Hdev, Hino.
    step (pv_cache rip v _ (set_i_dirt DIRTY (set_i_mode I_NOT_ALLOC x2)) _ _ _ E2).
    step (pv_upd rip v Hrip (set_i_dirt DIRTY (set_i_mode I_NOT_ALLOC x2)) s2 (set_i_pipe NO_PIPE)). fold x3. step (pv_rd rip v Hrip x3 s2).
    change (i_dirt x3 =? DIRTY) with true. cbn [when]. exact E3.
  - intros z Hz. rewrite (Hu' z Hz), (Hu2 z Hz), (Hu1 z Hz). change (cache (pv rip v x1 (cache v))) with (cache v). change (i_zone x1) with (i_zone x). naive_solver.
  - intros m Hmr. rewrite (Hb' m Hmr), (Hb2 m Hmr). destruct (m =? num); [done|]. by apply Hb1.
  - rewrite (stored_at _ _ _ _ _ Hd Hst). rewrite Hc2 by (done || intros _; unfold START_BLOCK; lia).
    assert (copy_out sp (inode_off sp num) y = copy_out sp (inode_off sp num) (set_i_dirt CLEAN y)) as -> by done. f_equal. apply Hc1; [done|]. intros _. right. exact Hend.
  - intros d n Hdn Hno. rewrite (stored_other _ _ _ _ _ d n Hst Hdn) by (intros E; by apply Hno).
    rewrite Hc2 by (done || intros E; destruct (Hno E); unfold START_BLOCK; lia). apply Hc1; [done|]. intros E. right. unfold map_end, START_BLOCK. by apply Hno.
Qed.
End put.
End release.

(** ** Taking an inode number *)

(** *** The error code *)

Section quiet_blocks.
Context `{BD : BlockDev}.

Lemma quiet_loop {A B} fuel (body : A → M fsst (A + B)) a : (∀ a, quiet (body a)) → quiet (loop fuel body a).
Proof. intros Hb. revert a. induction fuel as [|fuel IH]; intros a; [done|]. cbn [loop]. apply quiet_bind; [done|]. intros [a'|b]; [done|apply quiet_ret]. Qed.

Lemma quiet_each {A} (l : list A) (body : A → M fsst unit) : (∀ a, quiet (body a)) → quiet (for_each l body).
Proof. intros Hb. induction l as [|a l IH]; [apply quiet_ret|]. cbn [for_each]. by apply quiet_bind. Qed.

Lemma quiet_mapM {A B} (f : A → M fsst B) l : (∀ a, quiet (f a)) → quiet (mapM f l).
Proof. intros Hf. induction l as [|a l IH]; [apply quiet_ret|]. cbn. apply quiet_bind; [done|]. intros b. apply quiet_bind; [done|]. intros bs. apply quiet_ret. Qed.
#[local] Hint Resolve quiet_loop quiet_each quiet_mapM quiet_rd_buf quiet_upd_buf quiet_rw_block quiet_put_block : quiet.

Lemma quiet_harvest flag dev r q : ∀ i rest, quiet (harvest flag dev r i q rest).
Proof. induction q as [|bp q IH]; intros i [|sz rest]; cbn [harvest]; hush. Qed.
#[local] Hint Resolve quiet_harvest : quiet.

Lemma quiet_scatter_step flag dev size q : quiet (scatter_step flag dev size q).
Proof. unfold scatter_step, run_io. hush. apply quiet_each. intros [i l0]. hush. Qed.
Lemma quiet_find_step dev n i : quiet (find_step dev n i).
Proof. unfold find_step. hush. Qed.
Lemma quiet_unhash_step i p : quiet (unhash_step i p).
Proof. unfold unhash_step. hush. Qed.
#[local] Hint Resolve quiet_scatter_step quiet_find_step quiet_unhash_step : quiet.

Lemma quiet_flushall dev : quiet (flushall dev).
Proof. unfold flushall, rw_scattered, get_block_size. hush; done. Qed.
#[local] Hint Resolve quiet_flushall : quiet.

Lemma quiet_get_block dev n only : quiet (get_block dev n only).
Proof. unfold get_block, find_block, rm_lru, unhash, rehash, rd_hash, wr_hash. hush. Qed.
#[local] Hint Resolve quiet_get_block : quiet.

Lemma quiet_free_bit spi map n : quiet (free_bit spi map n).
Proof. unfold free_bit, rd_super, rd_chunk, wr_chunk. hush. Qed.
End quiet_blocks.

Section alloc.
Context `{RD : Reliable} (spi : Z) (sp : super_block).
Implicit Types (s : fsst) (v : vfs) (x : inode).
Notation dev := (s_dev sp).

(** The map of inodes of a mounted file system; number 0 is not given out. *)
Record numbers (s : fsst) : Prop := Numbers {
  nu_map : mapped sp IMAP s;
  nu_blocks : map_blocks sp IMAP = s_imap_blocks sp;
  nu_max : 0 ≤ s_ninodes sp ∧ s_ninodes sp + 1 < 2 ^ 32;
  nu_zero : inode_bit sp s 0 = true;
  nu_hint sp1 : zget (supers s) spi = Some sp1 → 0 ≤ s_isearch sp1 }.

Lemma imap_bits s : numbers s → map_bits sp IMAP = s_ninodes sp + 1.
Proof. intros Hn. pose proof (nu_max _ Hn). unfold map_bits. change (IMAP =? IMAP) with true. cbv iota. unfold u32. rewrite Z.mod_small; lia. Qed.

Lemma bit_range s num : numbers s → 0 ≤ num ≤ s_ninodes sp → 0 ≤ num < map_blocks sp IMAP * bits_per sp.
Proof. intros Hn Hr. pose proof (mp_bits _ _ _ (nu_map _ Hn)). rewrite (imap_bits s Hn) in *. lia. Qed.

(** One bit of the map of inodes is another, and nothing else that can be seen. *)
Record renumbered (num : Z) (b : bool) (s s' : fsst) : Prop := Renumbered {
  rn_idle : idle s';
  rn_volume : volume spi sp s';
  rn_numbers : numbers s';
  rn_bit m : 0 ≤ m ≤ s_ninodes sp → inode_bit sp s' m = if m =? num then b else inode_bit sp s m;
  rn_used z : is_zone sp z → zone_used sp s' z = zone_used sp s z;
  rn_data d n : d ≠ NO_DEV → (d = dev → n < START_BLOCK ∨ START_BLOCK + s_imap_blocks sp ≤ n) → contents s' d n = contents s d n }.

(** The bit is set and becomes the hint. *)
Lemma number_taken s s1 num i h : idle s → volume spi sp s → numbers s → sits dev spi (set_search i h sp) s → 1 ≤ num ≤ s_ninodes sp →
  idle s1 → bit_set (set_search i h sp) IMAP num true s s1 → supers s1 = supers s →
  ∃ s', upd_super spi (λ sp, set_search num (s_zsearch sp) sp) s1 = Ret tt s' ∧ renumbered num true s s'.
Proof.
  intros Hi Hv Hn Hsi Hnum Hi1 Hset Hs1. set (sp1 := set_search i h sp) in *. pose proof (bit_range s num Hn ltac:(lia)) as Hnr. pose proof (vol_dev _ _ _ Hv) as Hd.
  pose proof (nu_map _ Hn) as Hm. pose proof (mp_blocks _ _ _ Hm) as Hb1. pose proof (nu_blocks _ Hn) as Eb. pose proof (vo_placed _ _ _ Hv) as Hp.
  assert (START_BLOCK ≤ bit_block sp1 IMAP num < START_BLOCK + s_imap_blocks sp) as Hblk.
  { unfold bit_block. change (bits_per sp1) with (bits_per sp). apply (imap_blocks sp Hp Eb). assert (0 < bits_per sp) by nia.
    split; [apply Z.div_pos; lia|apply Z.div_lt_upper_bound; lia]. }
  assert (∀ d n, d ≠ NO_DEV → (d = dev → n < START_BLOCK ∨ START_BLOCK + s_imap_blocks sp ≤ n) → contents s1 d n = contents s d n) as Hc1.
  { intros d n Hdn Hno. rewrite Hset by done. unfold put_store. change (s_dev sp1) with dev. destruct (Z.eqb_spec d dev) as [->|]; [|done].
    destruct (Z.eqb_spec n (bit_block sp1 IMAP num)) as [->|]; [|done]. specialize (Hno eq_refl). lia. }
  destruct (vol_keep spi sp s s1 Hv Hs1) as [Hv1 Hu1]. { intros n Hnn. apply Hc1; [done|]. intros _. lia. }
  pose proof (mapped_set sp1 IMAP s s1 num true (mapped_hint sp i h IMAP s Hm) Hset Hs1 Hnr) as Hm1'. assert (mapped sp IMAP s1) as Hm1 by (by destruct Hm1').
  destruct (vol_isearch spi sp None num s1 Hi1 Hv1) as (s' & E & Hi' & Hv' & T & Hu'). exists s'. split; [done|].
  destruct (imap_keep spi sp s1 s' Hv1 Hv' Hm1 Eb (λ n _, T dev n Hd)) as [Hm' Hbit'].
  assert (∀ m, 0 ≤ m ≤ s_ninodes sp → inode_bit sp s' m = if m =? num then true else inode_bit sp s m) as Hbits.
  { intros m Hmr. pose proof (bit_range s m Hn Hmr) as Hr. rewrite (Hbit' m Hr). exact (mbit_set (ho := None) sp1 IMAP s s1 num m true Hi (mapped_hint sp i h IMAP s Hm) Hset Hnr (proj1 Hr)). }
  split; [done|done| |done|intros z Hz; by rewrite Hu', Hu1|intros d n Hdn Hno; rewrite T by done; by apply Hc1].
  split; [done|done|apply (nu_max _ Hn)| |].
  - pose proof (nu_max _ Hn). rewrite Hbits by lia. destruct (0 =? num); [done|apply (nu_zero _ Hn)].
  - destruct Hsi as (_ & _ & Hz & _). rewrite <- Hs1 in Hz. destruct (upd_super_run s1 spi sp1 (λ sp, set_search num (s_zsearch sp) sp) Hz eq_refl) as [E' _].
    rewrite E in E'. injection E' as ->. intros sp2. cbn [supers with_supers]. rewrite zget_upd_eq by (by eapply zget_Some_range). intros [= <-]. cbn. lia.
Qed.

(** The slot of the new inode. *)
Definition blank (num bits : Z) (v : vfs) (x : inode) : inode :=
  let y := set_i_count 1 (set_i_id NO_DEV num x) in
  let y := set_i_owner 0 (fp_effuid v) (fp_effgid v) (set_i_mode bits (set_i_update 0 y)) in
  let y := set_i_sp (Some spi) (set_i_shape (s_ndzones sp) (s_nindirs sp) (set_i_id dev num y)) in
  set_i_zone (replicate (Z.to_nat V2_NR_TZONES) NO_ZONE ++ drop (Z.to_nat V2_NR_TZONES) (i_zone y))
    (set_i_dirt DIRTY (set_i_update (Z.lor ATIME (Z.lor CTIME MTIME)) (set_i_size 0 y))).

Lemma get_slot v num : zlen (inodes v) = NR_INODES → (∀ i x, used_slot (inodes v) i x → i_dev x ≠ NO_DEV) → 0 ≤ num < 2 ^ 32 →
  (∃ i x, get_inode NO_DEV num v = Ret (Some i) (pv i v (set_i_update 0 (set_i_count 1 (set_i_id NO_DEV num x))) (cache v)) ∧ zget (inodes v) i = Some x ∧ i_count x ≤ 0) ∨
  (get_inode NO_DEV num v = Ret None (with_cache (with_err_code ENFILE (cache v)) v) ∧ ∀ i x, zget (inodes v) i = Some x → 0 < i_count x).
Proof.
  intros Hl Hno Hn. assert (u32 num = num) as En by (apply Z.mod_small; lia). destruct (scan_run NO_DEV num v Hl) as (r & Er & Hr). rewrite En in Hr.
  unfold get_inode. rewrite (bind_ret _ _ _ _ _ Er). destruct r as [i|[i|]].
  - destruct Hr as (x & Hx & Ed & _). by destruct (Hno i x Hx).
  - left. destruct Hr as [_ [[Hir (x & Hx & Hcx)] _]]. exists i, x. split; [|done]. rewrite En.
    assert (upd_ino i (λ x, set_i_count 1 (set_i_id NO_DEV num x)) v = Ret tt (pv i v (set_i_count 1 (set_i_id NO_DEV num x)) (cache v))) as Eu.
    { rewrite (upd_ino_run v i x _ Hx). by destruct v. }
    step Eu. change (NO_DEV =? NO_DEV) with true. cbn [negb when]. rewrite bind_mret. erewrite bind_ret by (apply pv_upd; lia). done.
  - right. destruct Hr as [_ Hall]. split; [done|]. intros i x Hx. apply (Hall i x); [|done]. apply zget_Some_range in Hx. lia.
Qed.


(** The number that was taken goes back. *)
Lemma number_back e num s s1 : numbers s → 1 ≤ num ≤ s_ninodes sp → inode_bit sp s num = false → renumbered num true s s1 →
  ∃ s', free_bit spi IMAP num (with_err_code e s1) = Ret tt s' ∧ err_code s' = e ∧ renumbered num false s s'.
Proof.
  intros Hn Hnum Hfree [Hi1 Hv1 Hn1 Hbit1 Hu1 Hc1]. set (s1' := with_err_code e s1). pose proof (bit_range s num Hn ltac:(lia)) as Hnr. pose proof (nu_blocks _ Hn) as Eb.
  pose proof (idle_err (ho := None) e s1 Hi1) as Hi1'. fold s1' in Hi1'.
  destruct (vol_keep spi sp s1 s1' Hv1 eq_refl (λ n _, contents_err e s1 dev n)) as [Hv1' Hu1'].
  destruct (imap_keep spi sp s1 s1' Hv1 Hv1' (nu_map _ Hn1) Eb (λ n _, contents_err e s1 dev n)) as [Hm1 Hb1].
  pose proof Hv1' as [(i & h & Hsi & Hw) Hp]. set (sp1 := set_search i h sp) in *. pose proof Hsi as (Hd & _ & Hz & _).
  pose proof (free_bit_run sp1 IMAP s1' spi num Hi1' (mapped_hint sp i h IMAP s1' Hm1) Hz (wb_rw _ _ Hw) Hnr) as Hf.
  change (mbit sp1 IMAP s1' num) with (inode_bit sp s1' num) in Hf. rewrite (Hb1 num Hnr), (Hbit1 num ltac:(lia)), Z.eqb_refl in Hf.
  destruct Hf as (s' & E & Hi' & Hset & Hs' & _). exists s'. split; [done|]. split; [by rewrite (quiet_free_bit _ _ _ _ _ _ E)|].
  assert (START_BLOCK ≤ bit_block sp1 IMAP num < START_BLOCK + s_imap_blocks sp) as Hblk.
  { unfold bit_block. change (bits_per sp1) with (bits_per sp). apply (imap_blocks sp Hp Eb). pose proof (mp_blocks _ _ _ (nu_map _ Hn)). assert (0 < bits_per sp) by nia.
    split; [apply Z.div_pos; lia|apply Z.div_lt_upper_bound; lia]. }
  assert (∀ d n, d ≠ NO_DEV → (d = dev → n < START_BLOCK ∨ START_BLOCK + s_imap_blocks sp ≤ n) → contents s' d n = contents s1 d n) as Hc'.
  { intros d n Hdn Hno. rewrite Hset by done. unfold put_store. change (s_dev sp1) with dev. destruct (Z.eqb_spec d dev) as [->|]; [|apply contents_err].
    destruct (Z.eqb_spec n (bit_block sp1 IMAP num)) as [->|]; [|apply contents_err]. specialize (Hno eq_refl). lia. }
  destruct (vol_keep spi sp s1 s' Hv1 Hs') as [Hv' Hu']. { intros n Hnn. apply Hc'; [done|]. intros _. lia. }
  pose proof (mapped_set sp1 IMAP s1' s' num false (mapped_hint sp i h IMAP s1' Hm1) Hset Hs' Hnr) as Hm'. 
  assert (∀ m, 0 ≤ m ≤ s_ninodes sp → inode_bit sp s' m = if m =? num then false else inode_bit sp s m) as Hbits.
  { intros m Hmr. pose proof (bit_range s m Hn Hmr) as Hr. etrans; [exact (mbit_set (ho := None) sp1 IMAP s1' s' num m false Hi1' (mapped_hint sp i h IMAP s1' Hm1) Hset Hnr (proj1 Hr))|].
    change (mbit sp1 IMAP s1' m) with (inode_bit sp s1' m). rewrite (Hb1 m Hr), (Hbit1 m Hmr). by destruct (m =? num). }
  split; [done|done| |done|intros z Hzz; by rewrite Hu', Hu1|intros d n Hdn Hno; rewrite Hc' by done; by apply Hc1].
  split; [by destruct Hm'|done|apply (nu_max _ Hn)| |].
  - pose proof (nu_max _ Hn). rewrite Hbits by lia. destruct (Z.eqb_spec 0 num); [lia|apply (nu_zero _ Hn)].
  - intros sp2. change (supers s1') with (supers s1) in Hs'. rewrite Hs'. apply (nu_hint _ Hn1).
Qed.

(** The slot is filled. *)
Lemma fill_slot v i x num bits s : 0 ≤ i < zlen (inodes v) →
  (upd_ino i (λ x, set_i_owner 0 (fp_effuid v) (fp_effgid v) (set_i_mode bits x));;
   upd_ino i (λ x, set_i_sp (Some spi) (set_i_shape (s_ndzones sp) (s_nindirs sp) (set_i_id dev (i_num x) x)));;
   wipe_inode i;; mret (Some i)) (pv i v (set_i_update 0 (set_i_count 1 (set_i_id NO_DEV num x))) s) = Ret (Some i) (pv i v (blank num bits v x) s).
Proof.
  intros Hi. rewrite (bind_ret _ _ _ _ _ (pv_upd i v Hi _ s _)), (bind_ret _ _ _ _ _ (pv_upd i v Hi _ s _)). unfold wipe_inode.
  by rewrite (bind_ret _ _ _ _ _ (pv_upd i v Hi _ s _)).
Qed.

Lemma alloc_inode_run v bits :
  zlen (inodes v) = NR_INODES → (∀ i x, used_slot (inodes v) i x → i_dev x ≠ NO_DEV) → idle (cache v) → volume spi sp (cache v) → numbers (cache v) →
  (∃ i x num s', alloc_inode dev bits v = Ret (Some i) (pv i v (blank num bits v x) s') ∧ zget (inodes v) i = Some x ∧ i_count x ≤ 0 ∧
     1 ≤ num ≤ s_ninodes sp ∧ inode_bit sp (cache v) num = false ∧ renumbered num true (cache v) s') ∨
  (∃ num s', alloc_inode dev bits v = Ret None (with_cache s' v) ∧ err_code s' = ENFILE ∧ renumbered num (inode_bit sp (cache v) num) (cache v) s' ∧
     ((∀ m, 0 ≤ m ≤ s_ninodes sp → inode_bit sp (cache v) m = true) ∨ ∀ i x, zget (inodes v) i = Some x → 0 < i_count x)).
Proof.
  intros Hl Hno Hi Hv Hn. set (s := cache v) in *. pose proof Hv as [(i & h & Hsi & Hw) Hp]. set (sp1 := set_search i h sp) in *. pose proof Hsi as (Hd & _ & Hz & _).
  destruct (get_super_run dev spi sp1 s Hsi) as [Eg Er]. pose proof (nu_hint _ Hn _ Hz) as Hh. pose proof (nu_max _ Hn) as Hmax.
  assert (map_bits sp1 IMAP = s_ninodes sp + 1) as Emb by exact (imap_bits s Hn).
  remember (alloc_inode dev bits v) as res eqn:Eres. unfold alloc_inode in Eres.
  rewrite (bind_ret _ _ _ _ _ (on_cache_run _ _ _ _ Eg)) in Eres. replace (with_cache s v) with v in Eres by (by destruct v).
  rewrite (bind_ret _ _ _ _ _ (on_cache_run _ _ _ _ Er)) in Eres. replace (with_cache s v) with v in Eres by (by destruct v).
  rewrite (wb_rw _ _ Hw) in Eres. change (negb (0 =? 0)) with false in Eres. cbv iota in Eres.
  destruct (alloc_bit_run sp1 IMAP s spi (s_isearch sp1) Hi (mapped_hint sp i h IMAP s (nu_map _ Hn)) Hz (wb_rw _ _ Hw) Hh)
    as [(num & s1 & Ea & Hi1 & (Hr & Hfr & _) & Hset & Hs1 & _)|(s1 & Ea & Hi1 & Hall & T & Hs1 & _)].
  all: rewrite (bind_ret _ _ _ _ _ (on_cache_run _ _ _ _ Ea)) in Eres.
  - rewrite Emb in Hr. change (mbit sp1 IMAP s num) with (inode_bit sp s num) in Hfr.
    assert (1 ≤ num ≤ s_ninodes sp) as Hnum. { pose proof (nu_zero _ Hn). destruct (Z.eq_dec num 0) as [->|]; [congruence|lia]. }
    destruct (Z.eqb_spec num NO_BIT) as [->|_]; [unfold NO_BIT in Hnum; lia|].
    destruct (number_taken s s1 num i h Hi Hv Hn Hsi Hnum Hi1 Hset Hs1) as (s2 & Eu & Rn).
    rewrite (bind_ret _ _ _ _ _ (on_cache_run _ (with_cache s1 v) _ _ Eu)) in Eres. change (with_cache s2 (with_cache s1 v)) with (with_cache s2 v) in Eres.
    destruct (get_slot (with_cache s2 v) num Hl Hno ltac:(lia)) as [(j & x & Ej & Hx & Hc)|[Ej Hfull]]; rewrite (bind_ret _ _ _ _ _ Ej) in Eres.
    + left. exists j, x, num, s2. split; [|done]. rewrite Eres, bind_get. apply (fill_slot (with_cache s2 v) j x num bits s2). by eapply zget_Some_range.
    + right. destruct (number_back ENFILE num s s2 Hn Hnum Hfr Rn) as (s3 & Ef & Ee & Rn3). exists num, s3.
      rewrite (bind_ret _ _ _ _ _ (on_cache_run _ (with_cache (with_err_code ENFILE s2) v) _ _ Ef)) in Eres. rewrite Hfr. split; [done|]. split; [done|]. split; [done|]. by right.
  - right. exists 0, (with_err_code ENFILE s1). change (NO_BIT =? NO_BIT) with true in Eres. cbv iota in Eres. split; [done|]. split; [done|].
    assert (∀ d n, d ≠ NO_DEV → contents (with_err_code ENFILE s1) d n = contents s d n) as T' by (intros d n Hdn; rewrite contents_err; by apply T).
    destruct (vol_keep spi sp s (with_err_code ENFILE s1) Hv Hs1 (λ n _, T' dev n Hd)) as [Hv' Hu'].
    destruct (imap_keep spi sp s (with_err_code ENFILE s1) Hv Hv' (nu_map _ Hn) (nu_blocks _ Hn) (λ n _, T' dev n Hd)) as [Hm' Hb'].
    assert (∀ m, 0 ≤ m ≤ s_ninodes sp → inode_bit sp (with_err_code ENFILE s1) m = inode_bit sp s m) as Hbits by (intros m Hm; apply Hb'; by apply (bit_range s)).
    split; [|left; intros m Hm; apply Hall; lia].
    split; [by apply idle_err|done| |intros m Hm; rewrite Hbits by done; by destruct (Z.eqb_spec m 0) as [->|]|done|intros d n Hdn _; by apply T'].
    split; [done|apply (nu_blocks _ Hn)|done|by rewrite Hbits by lia; apply (nu_zero _ Hn)|]. intros sp2. change (supers (with_err_code ENFILE s1)) with (supers s1). rewrite Hs1. apply (nu_hint _ Hn).
Qed.
End alloc.
