(* ===== verification/InodeTheorems.v ===== *)
(** * Inodes and files of the reference file server: what they promise

    An inode that is written is read back; the table has every inode once and
    counts its users; numbers are given out once; entering a zone changes one place
    of the map of a file; a new block is cleared and other blocks keep their data;
    the last user of a file that no directory has gives back all it had. *)

From S2P Require Import Prelude Linked Cache CacheLists CacheSpec CacheRep CacheStore CacheTheorems Super SuperSpec Zones SuperTheorems Inode FileMap Volume FileZones MapWrites InodeRuns InodeTable NewBlocks InodeNumbers.

Section files.
Context `{RD : Reliable} (spi : Z) (sp : super_block).
Implicit Types (s : fsst) (v : vfs) (x y : inode).
Notation dev := (s_dev sp).
Notation scale := (s_log_zone_size sp).

(** ** Maps of files *)

Lemma changed_pv rip x v zs s : changed rip x v zs s = pv rip v (set_i_zone zs (set_i_dirt DIRTY x)) s.
Proof. done. Qed.

Lemma changed_file rip x v zs s : file spi sp rip x v → idle s → volume spi sp s → file_ok sp zs s → file spi sp rip (set_i_zone zs (set_i_dirt DIRTY x)) (changed rip x v zs s).
Proof. intros [[Hg ? ? ? ?] _ _ _] Hi Hv Hf. split; try done. split; try done. apply zget_upd_eq. by eapply zget_Some_range. Qed.

(** C26: entering a zone. [write_map] on a file that is in order returns. Either it
    returns [OK], and [read_map] afterwards gives the blocks of the new zone for
    the positions of that zone, and for all others what the map had before; or it
    returns [ENOSPC], all zones of the device are in use, and the map is as it was.
    The file is in order, all zones that were in use stay so, further ones are
    indirect zones of the file, and no zone other than its indirect zones has
    other data. *)
Theorem write_map_enters_one_zone rip x v position z (Hf : file spi sp rip x v) (Hp : 0 ≤ position) (Hk : zone_index sp position < file_zones sp)
  (Hz : is_zone sp z) (Hu : zone_used sp (cache v) z = true) (Hfo : foreign sp (i_zone x) (cache v) z) :
  ∃ r x' s', write_map rip position z v = Ret r (pv rip v x' s') ∧ file spi sp rip x' (pv rip v x' s') ∧ i_dirt x' = DIRTY ∧
    (r = OK ∨ r = ENOSPC ∧ ∀ z', is_zone sp z' → zone_used sp s' z' = true) ∧
    (∀ pos, 0 ≤ pos → zone_index sp pos < file_zones sp → ∃ v', read_map rip pos (pv rip v x' s') =
       Ret (block_at sp (if bool_decide (r = OK ∧ zone_index sp pos = zone_index sp position) then z else file_zone sp x v (zone_index sp pos)) (zone_offset sp pos)) v') ∧
    (∀ z', is_zone sp z' → zone_used sp (cache v) z' = true → zone_used sp s' z' = true) ∧
    (∀ z', is_zone sp z' → zone_used sp s' z' = true → zone_used sp (cache v) z' = true ∨ ∃ q, indirect q ∧ valid sp q ∧ zone_at sp (i_zone x') s' q = z') ∧
    (∀ z', is_zone sp z' → zone_used sp (cache v) z' = true → (∀ q, indirect q → valid sp q → zone_at sp (i_zone x) (cache v) q ≠ z') → keeps_zone sp z' (cache v) s').
Proof.
  destruct (write_map_run spi sp rip x v position z Hf Hp Hk Hz Hu Hfo) as (r & zs & s' & E & Hi & Hv & Hr). exists r, (set_i_zone zs (set_i_dirt DIRTY x)), s'.
  split; [exact E|]. assert (file_ok sp zs s') as Hok by (destruct Hr as [[_ R]|(_ & G & _)]; [apply R|apply G]).
  pose proof (changed_file rip x v zs s' Hf Hi Hv Hok) as Hf'. rewrite changed_pv in Hf'. split; [exact Hf'|]. split; [done|].
  split; [destruct Hr as [[-> _]|(-> & _ & Hall)]; [by left|by right]|]. split.
  - intros pos Hpos Hkp. destruct (read_map_run spi sp rip _ _ pos Hf' Hpos Hkp) as (s2 & E2 & _). eexists. rewrite E2. f_equal. f_equal. unfold file_zone.
    assert (valid sp (Data (zone_index sp pos))) as Hval by (split; [apply (index_shift sp pos (pl_shaped _ (vo_placed _ _ _ Hv)) Hpos)|done]).
    change (zone_at sp zs s' (Data (zone_index sp pos)) = if bool_decide (r = OK ∧ zone_index sp pos = zone_index sp position) then z else zone_at sp (i_zone x) (cache v) (Data (zone_index sp pos))).
    destruct Hr as [[-> R]|(-> & G & _)].
    + rewrite (rm_data _ _ _ _ _ _ _ R _ Hval). destruct (Z.eqb_spec (zone_index sp pos) (zone_index sp position)); [by rewrite bool_decide_true|by rewrite bool_decide_false by naive_solver].
    + rewrite (gr_data _ _ _ _ _ G _ Hval), bool_decide_false by (by intros []). done.
  - destruct Hr as [[_ [_ _ R1 R2 R3 _]]|(_ & [_ _ _ G1 G2 G3 _] & _)]; done.
Qed.

(** The end of [new_block], once the position has a zone. *)
Lemma take_block rip v position x' s (kb := position / s_block_size sp) (k := zone_index sp position) :
  slot spi sp rip x' (pv rip v x' s) → idle s → volume spi sp s → file_ok sp (i_zone x') s → block_valid sp kb → zone_at sp (i_zone x') s (Data k) ≠ NO_ZONE →
  ∃ bp s', (x ← rd_ino rip; bp ← on_cache (get_block (i_dev x) (first_block sp (zone_at sp (i_zone x') s (Data k)) + zone_offset sp position) NO_READ);
            on_cache (zero_block bp);; mret (Some bp)) (pv rip v x' s) = Ret (Some bp) (pv rip v x' s') ∧
    volume spi sp s' ∧ file_ok sp (i_zone x') s' ∧ slot spi sp rip x' (pv rip v x' s') ∧
    resting (Some (bp, dev, block_at sp (zone_at sp (i_zone x') s' (Data k)) (zone_offset sp position))) s' ∧
    ∀ kb', block_valid sp kb' → file_block sp (i_zone x') s' kb' = if kb' =? kb then zeros sp else file_block sp (i_zone x') s kb'.
Proof.
  intros Hs Hi Hv Hok Hkb Hne. destruct (block_taken spi sp (i_zone x') s kb Hi Hv Hok Hkb Hne) as (bp & s0 & s' & E2 & E3 & Hi' & Hv' & Hok' & Hat & Hb').
  assert (kb / 2 ^ scale = k) as Ekb by done. assert (kb mod 2 ^ scale = zone_offset sp position) as Eo by done.
  rewrite Ekb, Eo in *. exists bp, s'. split; [|split_and!; try done].
  - step (rd_ino_run _ _ _ (sl_get _ _ _ _ _ Hs)). rewrite (sl_dev _ _ _ _ _ Hs). step (on_cache_run _ (pv rip v x' s) _ _ E2).
    by rewrite (bind_ret _ _ _ _ _ (on_cache_run _ (with_cache s0 (pv rip v x' s)) _ _ E3)).
  - by destruct Hs.
  - rewrite (Hat k) by exact Hkb. unfold block_at. by destruct (Z.eqb_spec (zone_at sp (i_zone x') s (Data k)) NO_ZONE).
Qed.

(** C25: new blocks. For a position of a file that is in order [new_block] returns.
    Either it gives a buffer in use: the file is in order, the block of the
    position is in that buffer and reads as zeros, and every other block reads as
    before (a block that was not there reads as zeros); only when the position was
    the end of the file and its zone is new, the other blocks of that zone may have
    old data. Or it gives none and [ENOSPC]: at most one zone of the device is free,
    and the file reads as before. *)
Theorem new_block_is_cleared rip x v position (Hf : file spi sp rip x v) (Hp : 0 ≤ position) (Hmax : position + zone_size sp ≤ 2 ^ 32)
  (Hk : zone_index sp position < file_zones sp) :
  (∃ bp x' s', let kb := position / s_block_size sp in
     new_block rip position v = Ret (Some bp) (pv rip v x' s') ∧ volume spi sp s' ∧ file_ok sp (i_zone x') s' ∧ slot spi sp rip x' (pv rip v x' s') ∧
     resting (Some (bp, dev, block_at sp (zone_at sp (i_zone x') s' (Data (zone_index sp position))) (zone_offset sp position))) s' ∧
     ∀ kb', block_valid sp kb' → (kb' / 2 ^ scale = zone_index sp position → kb' ≠ kb → file_zone sp x v (zone_index sp position) ≠ NO_ZONE ∨ position ≠ i_size x) →
       file_block sp (i_zone x') s' kb' = if kb' =? kb then zeros sp else file_block sp (i_zone x) (cache v) kb') ∨
  (∃ x' s', new_block rip position v = Ret None (pv rip v x' s') ∧ no_room spi sp rip x v x' s').
Proof.
  pose proof Hf as [Hs Hi Hv Hok]. pose proof (scale_pow _ _ _ Hv) as Hp2. set (kb := position / s_block_size sp). set (k := zone_index sp position).
  assert (kb / 2 ^ scale = k) as Ekb by done. assert (kb mod 2 ^ scale = zone_offset sp position) as Eo by done.
  assert (block_valid sp kb) as Hkb by (unfold block_valid; rewrite Ekb; by apply (index_valid spi sp rip x v position Hf)).
  destruct (read_map_run spi sp rip x v position Hf Hp Hk) as (s1 & E1 & Un). fold k in E1. pose proof (un_rest _ _ _ _ _ Un) as Hi1. pose proof (un_volume _ _ _ _ _ Un) as Hv1.
  pose proof (unseen_grown spi sp None _ _ s1 Hv Hok Un) as G1. pose proof (gr_ok _ _ _ _ _ G1) as Hok1.
  assert (file_zone sp x (with_cache s1 v) k = file_zone sp x v k) as Ez by (by apply (gr_data _ _ _ _ _ G1)).
  assert (∀ kb', block_valid sp kb' → file_block sp (i_zone x) s1 kb' = file_block sp (i_zone x) (cache v) kb') as Hb1 by (intros kb' Hkb'; by apply (grown_block spi sp)).
  assert (file spi sp rip x (with_cache s1 v)) as Hf1 by (by split; [apply slot_cache| | |]).
  pose proof (take_block rip v position) as Htake. fold k kb in Htake.
  unfold new_block. setoid_rewrite (bind_ret _ _ _ _ _ E1).
  destruct (Z.eq_dec (file_zone sp x v k) NO_ZONE) as [E0|Hne].
  - unfold block_at at 2 4. rewrite E0. change (NO_ZONE =? NO_ZONE) with true. cbv iota. change (NO_BLOCK =? NO_BLOCK) with true. cbv iota.
    destruct (find_new_run spi sp rip x (with_cache s1 v) position Hf1 Hp Hmax Hk ltac:(by rewrite <- E0)) as [(zs & s2 & E2 & Hi2 & Hv2 & Hok2 & Hz2 & Hb2)|(x' & s2 & E2 & Hno)];
      setoid_rewrite (bind_ret _ _ _ _ _ E2).
    + left. set (x' := set_i_zone zs (set_i_dirt DIRTY x)). change (changed rip x (with_cache s1 v) zs s2) with (pv rip v x' s2).
      pose proof (changed_file rip x v zs s2 Hf Hi2 Hv2 Hok2) as [Hs2 _ _ _]. rewrite changed_pv in Hs2.
      destruct (Htake x' s2 Hs2 Hi2 Hv2 Hok2 Hkb Hz2) as (bp & s' & E3 & Hv' & Hok' & Hs' & Hr' & Hb'). exists bp, x', s'. cbv zeta. split; [exact E3|]. split_and!; try done.
      intros kb' Hkb' Hcond. rewrite (Hb' kb' Hkb'). destruct (Z.eqb_spec kb' kb) as [|Hn]; [done|]. rewrite <- (Hb1 kb' Hkb'). apply (Hb2 kb' Hkb'). intros Ek.
      split; [by destruct (Hcond Ek Hn)|]. intros Es. apply Hn. rewrite Es in Ek, Ekb. change (2 ^ 0) with 1 in Ek, Ekb. rewrite Z.div_1_r in Ek, Ekb. by rewrite Ek, Ekb.
    + right. exists x', s2. split; [done|]. destruct Hno as (H1 & H2 & H3 & H4). split_and!; [done|done|done|]. intros kb' Hkb'. rewrite (H4 kb' Hkb'). by apply Hb1.
  - left. destruct (fo_zone _ _ _ Hok (Data k) Hkb) as [?|[Hzk _]]; [done|].
    assert (block_at sp (file_zone sp x v k) (zone_offset sp position) = first_block sp (zone_at sp (i_zone x) s1 (Data k)) + zone_offset sp position) as Eb.
    { unfold block_at. destruct (Z.eqb_spec (file_zone sp x v k) NO_ZONE); [done|]. by rewrite <- Ez. }
    assert (first_block sp (zone_at sp (i_zone x) s1 (Data k)) + zone_offset sp position ≠ NO_BLOCK) as Hnb.
    { change (zone_at sp (i_zone x) s1 (Data k)) with (file_zone sp x (with_cache s1 v) k). rewrite Ez. pose proof (vol_zones _ _ _ Hv) as [Hz0 _]. fold (file_zone sp x v k) in Hzk.
      pose proof (Z.mod_pos_bound kb (2 ^ scale) ltac:(lia)). rewrite Eo in *. unfold first_block, is_zone, NO_BLOCK in *. nia. }
    setoid_rewrite Eb. destruct (Z.eqb_spec (first_block sp (zone_at sp (i_zone x) s1 (Data k)) + zone_offset sp position) NO_BLOCK); [done|]. setoid_rewrite bind_mret.
    assert (with_cache s1 v = pv rip v x s1) as Epv by (rewrite (pv_self rip v x (sl_get _ _ _ _ _ Hs)) at 1; done). rewrite Epv in Hf1 |- *.
    destruct (Htake x s1 (fi_slot _ _ _ _ _ Hf1) Hi1 Hv1 Hok1 Hkb) as (bp & s' & E3 & Hv' & Hok' & Hs' & Hr' & Hb').
    { change (zone_at sp (i_zone x) s1 (Data k)) with (file_zone sp x (with_cache s1 v) k). by rewrite Ez. }
    rewrite <- Eb in E3. exists bp, x, s'. cbv zeta. split; [exact E3|]. split_and!; try done. intros kb' Hkb' _. rewrite (Hb' kb' Hkb'). destruct (kb' =? kb); [done|]. by apply Hb1.
Qed.

(** ** Inodes on the device *)

(** A block has room for its inodes. *)
Lemma inode_room s num : idle s → volume spi sp s → 0 ≤ inode_off sp num ∧ inode_off sp num + inode_size sp ≤ zlen (contents s dev (ino_block sp num)).
Proof.
  intros Hi Hv. pose proof (inode_off_range sp (pl_shaped _ (vo_placed _ _ _ Hv)) num) as [H1 H2]. rewrite (contents_len s _ _ Hi) by (by eapply vol_dev). by rewrite (vol_size spi sp s Hv).
Qed.

(** Different inodes are in different places. *)
Lemma inodes_apart s m num : volume spi sp s → m ≠ num → ino_block sp m = ino_block sp num →
  inode_off sp m + inode_size sp ≤ inode_off sp num ∨ inode_off sp num + inode_size sp ≤ inode_off sp m.
Proof.
  intros Hv Hne Eb. destruct (per_block_fits sp (pl_shaped _ (vo_placed _ _ _ Hv))) as [Hp _]. assert (0 < inode_size sp) by (unfold inode_size; by destruct (_ =? _)).
  unfold ino_block, inode_off in *. pose proof (Z.div_mod (m - 1) (per_block sp) ltac:(lia)). pose proof (Z.div_mod (num - 1) (per_block sp) ltac:(lia)). nia.
Qed.

(** C29: inodes are read back. [rw_inode] writes an inode to the device, in the
    layout of the version and in either byte order, and marks the slot clean.
    Reading the same inode into any slot afterwards gives the fields that were
    written, times included, and the inode of any other number is on the device as
    it was. *)
Theorem inode_is_read_back rip x v num (Hx : zget (inodes v) rip = Some x) (Hi : idle (cache v)) (Hv : volume spi sp (cache v))
  (Hper : s_inodes_per_block sp = per_block sp) (Hn : numbered sp num) (Hd : i_dev x = dev) (Hnum : i_num x = num) (Hc : (getuptime v).1 = OK)
  (y := set_i_dirt CLEAN (stamped v (set_i_sp (Some spi) x))) (Hk : keepable sp y) :
  ∃ s', let v' := pv rip v y s' in
    rw_inode rip WRITING v = Ret tt v' ∧ idle s' ∧ volume spi sp s' ∧
    (∀ j z, zget (inodes v') j = Some z → i_dev z = dev → i_num z = num → zlen (i_zone z) = V2_NR_TZONES →
       ∃ s'', rw_inode j READING v' = Ret tt (pv j v' (set_i_dirt CLEAN (kept_of sp y (set_i_sp (Some spi) z))) s'')) ∧
    (∀ m z, m ≠ num → copy_in sp (inode_off sp m) (contents s' dev (ino_block sp m)) z = copy_in sp (inode_off sp m) (contents (cache v) dev (ino_block sp m)) z).
Proof.
  pose proof (vol_dev _ _ _ Hv) as Hdv. pose proof (zget_Some_range _ _ _ Hx) as Hr.
  destruct (rw_inode_writes spi sp rip v Hr num Hn Hper x (cache v) Hi Hv Hd Hnum Hc) as (s' & E & Hi' & Hv' & _ & Hst). cbv zeta in *.
  rewrite <- (pv_self rip v x Hx) in E. fold y in E. exists s'. split; [done|]. split; [done|]. split; [done|]. destruct (inode_room (cache v) num Hi Hv) as [Ho Hl]. split.
  - intros j z Hz Hzd Hzn Hzl. set (v' := pv rip v y s') in *. pose proof (zget_Some_range _ _ _ Hz) as Hj.
    destruct (rw_inode_reads spi sp j v' Hj num Hn Hper z (kept_of sp y (set_i_sp (Some spi) z)) s' Hi' Hv' Hzd Hzn) as (s2 & E2 & _).
    { rewrite (stored_at _ _ _ _ _ Hdv Hst). by apply (copy_back sp (inode_off sp num) y). }
    exists s2. rewrite (pv_self j v' z Hz) at 1. exact E2.
  - intros m z Hm. destruct (Z.eq_dec (ino_block sp m) (ino_block sp num)) as [Eb|Hne].
    + rewrite Eb, (stored_at _ _ _ _ _ Hdv Hst). apply copy_other; [done|done|]. by apply (inodes_apart (cache v)).
    + by rewrite (stored_other _ _ _ _ _ dev _ Hst Hdv) by done.
Qed.

(** ** The table *)

Lemma get_zones_some norm width off n l : 0 ≤ off → off + (if width =? 2 then 2 else 4) * Z.of_nat n ≤ zlen l → is_Some (get_zones norm width off n l).
Proof.
  intros Ho Hl. unfold get_zones. apply mapM_is_Some, Forall_forall. intros i Hi%elem_of_seqZ. destruct (width =? 2); apply fmap_is_Some; [apply word16_some|apply word32_some]; lia.
Qed.

Lemma copy_in_total off l x : 0 ≤ off → off + inode_size sp ≤ zlen l → is_Some (copy_in sp off l x).
Proof.
  intros Ho Hl. unfold copy_in, inode_size in *. destruct (s_version sp =? V1).
  - unfold V1_INODE_SIZE in Hl. unfold old_icopy_in, V1_NR_TZONES. destruct (word16_some l off) as [? ->]; [lia|lia|]. destruct (word16_some l (off + 2)) as [? ->]; [lia|lia|].
    destruct (word32_some l (off + 4)) as [? ->]; [lia|lia|]. destruct (word32_some l (off + 8)) as [? ->]; [lia|lia|]. destruct (zget_in l (off + 12)) as [? ->]; [lia|].
    destruct (zget_in l (off + 13)) as [? ->]; [lia|]. destruct (get_zones_some (s_native sp) 2 (off + 14) (Z.to_nat 9) l) as [? E]; [lia|change (2 =? 2) with true; lia|].
    cbn [mbind option_bind]. rewrite E. by eexists.
  - unfold V2_INODE_SIZE in Hl. unfold new_icopy_in, V2_NR_TZONES. destruct (word16_some l off) as [? ->]; [lia|lia|]. destruct (word16_some l (off + 4)) as [? ->]; [lia|lia|].
    destruct (word16_some l (off + 2)) as [? ->]; [lia|lia|]. destruct (word16_some l (off + 6)) as [? ->]; [lia|lia|]. destruct (word32_some l (off + 8)) as [? ->]; [lia|lia|].
    destruct (word32_some l (off + 12)) as [? ->]; [lia|lia|]. destruct (word32_some l (off + 20)) as [? ->]; [lia|lia|]. destruct (word32_some l (off + 16)) as [? ->]; [lia|lia|].
    destruct (get_zones_some (s_native sp) 4 (off + 24) (Z.to_nat 10) l) as [? E]; [lia|change (4 =? 2) with false; lia|]. cbn [mbind option_bind]. rewrite E. by eexists.
Qed.

(** Getting an inode. On a mounted file system [get_inode] returns. An inode
    that is in the table has one user more and nothing else happens; otherwise it is
    loaded from its place on the device into a free slot, with one user, clean; or
    [ENFILE] is reported, and only when all slots are in use. *)
Theorem get_inode_finds_or_loads v num (Hl : zlen (inodes v) = NR_INODES) (Hi : idle (cache v)) (Hv : volume spi sp (cache v))
  (Hper : s_inodes_per_block sp = per_block sp) (Hn : numbered sp num) :
  (∃ i x, get_inode dev num v = Ret (Some i) (pv i v (set_i_count (i_count x + 1) x) (cache v)) ∧ used_slot (inodes v) i x ∧ i_dev x = dev ∧ i_num x = num) ∨
  (no_match dev num (inodes v) NR_INODES ∧
   ((∃ i x y s', get_inode dev num v = Ret (Some i) (pv i v (set_i_update 0 (set_i_dirt CLEAN y)) s') ∧ zget (inodes v) i = Some x ∧ i_count x ≤ 0 ∧
       copy_in sp (inode_off sp num) (contents (cache v) dev (ino_block sp num)) (fresh spi sp num x) = Some y ∧
       i_count y = 1 ∧ i_dev y = dev ∧ i_num y = num ∧ unseen spi sp None (cache v) s') ∨
    (get_inode dev num v = Ret None (with_cache (with_err_code ENFILE (cache v)) v) ∧ ∀ i x, zget (inodes v) i = Some x → 0 < i_count x))).
Proof.
  destruct (inode_room (cache v) num Hi Hv) as [Ho Hr].
  destruct (get_inode_run spi sp Hper v num Hl Hi Hv Hn (λ x, copy_in_total _ _ x Ho Hr)) as [H|(Hno & [(i & x & y & s' & E & Hx & Hc & Hy & Un)|H])]; [by left|right..]; split; try done.
  - left. exists i, x, y, s'. assert (slot_id y = slot_id (fresh spi sp num x)) as [= Ed En Ec].
    { unfold copy_in in Hy. destruct (s_version sp =? V1); [by eapply old_in_id|by eapply new_in_id]. }
    split_and!; done.
  - by right.
Qed.

(** ** Numbers *)

(** Every inode of the device that is in use has its number taken. *)
Definition numbers_taken (v : vfs) : Prop := ∀ i x, used_slot (inodes v) i x → i_dev x = dev → 1 ≤ i_num x ≤ s_ninodes sp ∧ inode_bit sp (cache v) (i_num x) = true.

(** C30: numbers are given out once. On a mounted file system [alloc_inode] returns.
    Either it takes a number whose bit was clear, sets that bit and no other, and
    fills a free slot with an empty inode of the caller that has this number: the
    table has every inode once, and every inode in use has its bit set, as before.
    Or it reports [ENFILE]: all numbers or all slots are in use, and the bit map is
    as it was. *)
Theorem alloc_inode_takes_a_free_number v bits (Hok : table_ok (inodes v)) (Hreal : ∀ i x, used_slot (inodes v) i x → i_dev x ≠ NO_DEV)
  (Hi : idle (cache v)) (Hv : volume spi sp (cache v)) (Hn : numbers spi sp (cache v)) (Ht : numbers_taken v) :
  (∃ i x num s' (v' := pv i v (blank spi sp num bits v x) s'), alloc_inode dev bits v = Ret (Some i) v' ∧ zget (inodes v) i = Some x ∧ i_count x ≤ 0 ∧
     1 ≤ num ≤ s_ninodes sp ∧ inode_bit sp (cache v) num = false ∧ renumbered spi sp num true (cache v) s' ∧ table_ok (inodes v') ∧ numbers_taken v') ∨
  (∃ s', alloc_inode dev bits v = Ret None (with_cache s' v) ∧ err_code s' = ENFILE ∧ idle s' ∧ volume spi sp s' ∧
     (∀ m, 0 ≤ m ≤ s_ninodes sp → inode_bit sp s' m = inode_bit sp (cache v) m) ∧
     ((∀ m, 0 ≤ m ≤ s_ninodes sp → inode_bit sp (cache v) m = true) ∨ ∀ i x, zget (inodes v) i = Some x → 0 < i_count x)).
Proof.
  destruct (alloc_inode_run spi sp v bits (to_len _ Hok) Hreal Hi Hv Hn) as [(i & x & num & s' & E & Hx & Hc & Hnum & Hb & R)|(num & s' & E & He & R & Hfull)]; [left|right].
  - exists i, x, num, s'. cbv zeta. do 6 (split; [done|]). split.
    + apply table_new; [done| |intros j y Hj Hy [Ed En]|done]; [apply zget_Some_range in Hx; by rewrite (to_len _ Hok) in Hx|].
      destruct (Ht j y Hy Ed) as [_ Hbit]. change (i_num y = num) in En. congruence.
    + intros j y Hy Hd. apply used_upd in Hy; [|by eapply zget_Some_range]. destruct (Z.eqb_spec i j) as [<-|Hne].
      * destruct Hy as [-> _]. change (1 ≤ num ≤ s_ninodes sp ∧ inode_bit sp s' num = true). split; [done|]. rewrite (rn_bit _ _ _ _ _ _ R) by lia. by rewrite Z.eqb_refl.
      * destruct (Ht j y Hy Hd) as [Hr Hbit]. split; [done|]. change (inode_bit sp s' (i_num y) = true). rewrite (rn_bit _ _ _ _ _ _ R) by lia. by destruct (i_num y =? num).
  - exists s'. pose proof R as [? ? ? Hbit _ _]. split_and!; try done. intros m Hm. rewrite (Hbit m Hm). by destruct (Z.eqb_spec m num) as [->|].
Qed.

(** C27: the last user of a file that no directory has. When [put_inode] takes the
    last user off an inode without links, every zone of the file is free, data and
    indirect ones, and no other zone is; its number is free and no other; the inode
    on the device is marked as not in use; and no block but those of the bit maps
    and that of the inode has changed. *)
Theorem last_put_gives_everything_back rip x v num (Hf : file spi sp rip x v) (Hs : sized sp x v) (Hn : numbers spi sp (cache v))
  (Hper : s_inodes_per_block sp = per_block sp) (Hp : numbered sp num) (Hnum : i_num x = num) (Hle : num ≤ s_ninodes sp) (Hb : inode_bit sp (cache v) num = true)
  (Hclock : (getuptime v).1 = OK) (Hc : i_count x = 1) (Hlinks : i_nlinks x = 0) (Hpipe : i_pipe x ≠ I_PIPE)
  (Htype : Z.land (i_mode x) I_TYPE ≠ I_CHAR_SPECIAL ∧ Z.land (i_mode x) I_TYPE ≠ I_BLOCK_SPECIAL) :
  ∃ y s', put_inode (Some rip) v = Ret tt (pv rip v y s') ∧ i_count y = 0 ∧ i_mode y = I_NOT_ALLOC ∧ i_dirt y = CLEAN ∧ idle s' ∧ volume spi sp s' ∧
    (∀ z, is_zone sp z → zone_used sp s' z = true ↔ zone_used sp (cache v) z = true ∧ ∀ p, valid sp p → zone_at sp (i_zone x) (cache v) p ≠ z) ∧
    (∀ m, 0 ≤ m ≤ s_ninodes sp → inode_bit sp s' m = if m =? num then false else inode_bit sp (cache v) m) ∧
    contents s' dev (ino_block sp num) = copy_out sp (inode_off sp num) y (contents (cache v) dev (ino_block sp num)) ∧
    (∀ d n, d ≠ NO_DEV → (d = dev → map_end sp ≤ n ∧ n ≠ ino_block sp num) → contents s' d n = contents (cache v) d n).
Proof.
  destruct Htype as [Hch Hbl]. pose proof (sl_get _ _ _ _ _ (fi_slot _ _ _ _ _ Hf)) as Hx.
  destruct (put_unlinked spi sp rip x v Hx Hc num Hp Hper Hnum Hf Hs Hclock (nu_map _ _ _ Hn) (nu_blocks _ _ _ Hn) Hle (proj2 (nu_max _ _ _ Hn)) Hb Hlinks Hpipe Hch Hbl)
    as (y & s' & E & H1 & H2 & H3 & _ & _ & Hi & Hv & _ & Hu & Hbits & Hino & Hrest).
  exists y, s'. split_and!; try done. intros m Hm. apply Hbits. by apply (bit_range spi sp (cache v)).
Qed.
End files.

(** ** References *)

(** C28: users are counted. Whatever the drivers do, after any sequence of calls of
    [get_inode] and [dup_inode], and of [put_inode] for a reference that is held,
    each slot of the table is in use exactly as often as it is referred to, and has
    the inode that was asked for; no inode is in two slots; so two references to
    the same inode are to the same slot. *)
Theorem users_are_counted `{BD : BlockDev} v v' g (Hl : zlen (inodes v) = NR_INODES) (Hz : ∀ i x, zget (inodes v) i = Some x → i_count x = 0)
  (Hr : rtc table_call (v, []) (v', g)) :
  refs_ok v' g ∧ (∀ i j d n, (i, d, n) ∈ g → (j, d, n) ∈ g → i = j) ∧ ∀ i x, zget (inodes v') i = Some x → i_count x = 0 ↔ ∀ d n, (i, d, n) ∉ g.
Proof.
  assert (refs_ok v' g) as Hok.
  { change (refs_ok (v', g).1 (v', g).2). assert (refs_ok (v, [] : list ref).1 (v, [] : list ref).2) as H0; [|induction Hr as [|p q r Hpq Hqr IH]; [done|by apply IH, (table_call_ok p q)]].
    split; [split| |]; cbn [fst snd]; [done| | |by apply Hz|by intros i d n ?%not_elem_of_nil]; [intros i x Hx; by rewrite (Hz i x Hx)|].
    intros i j x y [Hx Hc] _. rewrite (Hz i x Hx) in Hc. lia. }
  split; [done|]. destruct Hok as [Ht Hc Hh]. split.
  - intros i j d n H1 H2. destruct (Hh _ _ _ H1) as (x & Hx & <- & <-). destruct (Hh _ _ _ H2) as (y & Hy & Ed & En).
    apply uses_in in H1, H2. apply (to_once _ Ht i j x y); [split; [done|by rewrite (Hc i x Hx)]|split; [done|by rewrite (Hc j y Hy)]|done|done].
  - intros i x Hx. rewrite (Hc i x Hx). pose proof (uses_pos i g) as Hp. split.
    + intros E d n ?%uses_in. lia.
    + intros H. destruct (Z.eq_dec (uses i g) 0) as [|Hne]; [done|]. destruct (uses_slot i g) as (d & n & Hin); [lia|]. by destruct (H d n).
Qed.

(** ** Witnesses *)

Import Ram.

Lemma fs3_mounted : ∃ s : @fsst ram_dev, idle s ∧ volume 0 sp3 s ∧ numbers 0 sp3 s ∧ inode_bit sp3 s 1 = true ∧ zone_used sp3 s 6 = false.
Proof.
  destruct fs3_ready as (s & Hi & Hs & Hcon). destruct (fs3_writable s Hi Hs Hcon) as [Hsi Hw]. exists s. split; [exact Hi|].
  assert (∀ map n, mbit sp3 map s n = bit_of 1 (disk_block fs3 3 (bit_block sp3 map n)) (n mod bits_per sp3)) as Hb by (intros map n; unfold mbit; by rewrite Hcon).
  assert (volume 0 sp3 s) as Hv.
  { split; [exists 0, 0; by split|]. split; [|vm_compute; discriminate|split; [|split]; vm_compute; done|vm_compute; discriminate].
    split; [split; vm_compute; discriminate|split; vm_compute; discriminate|discriminate|reflexivity]. }
  split; [exact Hv|]. split; [|split].
  - split; [|reflexivity|split; vm_compute; [discriminate|reflexivity]|unfold inode_bit; rewrite Hb; vm_compute; reflexivity|].
    + split; [discriminate|exact (vol_size 0 sp3 s Hv)|reflexivity|vm_compute; discriminate..| |vm_compute; discriminate].
      intros k Hk. assert (k = 0) as -> by (change (map_blocks sp3 IMAP) with 1 in Hk; lia). split.
      * unfold on_disk. rewrite (vol_size 0 sp3 s Hv). split; vm_compute; discriminate.
      * rewrite Hcon. apply disk3_bytes.
    + intros sp1. rewrite Hs. intros [= <-]. vm_compute. discriminate.
  - unfold inode_bit. rewrite Hb. vm_compute. reflexivity.
  - unfold zone_used. rewrite Hb. vm_compute. reflexivity.
Qed.

(** An empty file without links in slot 0, and 63 free slots. *)
Definition no_zones : list Z := replicate 10 0.
Definition ino1 : inode := Inode 0 0 0 0 0 0 0 0 no_zones 3 1 1 7 256 (Some 0) CLEAN NO_PIPE 0 0 0.
Definition ino_free : inode := set_i_count 0 (set_i_id NO_DEV 0 ino1).
Definition one_file (s : @fsst ram_dev) : vfs := Vfs s (ino1 :: replicate 63 ino_free) 0 (OK, 0) 0 0.

Lemma no_zones_at (s : @fsst ram_dev) p : zone_at sp3 no_zones s p = NO_ZONE.
Proof.
  assert (∀ k, direct no_zones k = NO_ZONE) as Hd.
  { intros k. unfold direct, no_zones, zget. destruct (0 <=? k); [|done]. destruct (replicate 10 0 !! Z.to_nat k) as [z|] eqn:E; [|done]. by apply lookup_replicate in E as [-> _]. }
  destruct p as [k| | |i]; cbn [zone_at]; rewrite ?Hd; [|done..]. destruct (_ <? _); [done|]. by destruct (_ <? _).
Qed.

Lemma one_file_ok (s : @fsst ram_dev) : idle s → volume 0 sp3 s → file 0 sp3 0 ino1 (one_file s) ∧ sized sp3 ino1 (one_file s).
Proof.
  intros Hi Hv. split.
  - split; [by split|done|done|]. split; [done|intros p _; left; apply no_zones_at|]. intros p q _ _ H. by rewrite no_zones_at in H.
  - split; [vm_compute; split; discriminate|vm_compute; discriminate|]. intros k _ H. unfold file_zone in H. change (i_zone ino1) with no_zones in H. by rewrite no_zones_at in H.
Qed.

Lemma ino1_numbered : s_inodes_per_block sp3 = per_block sp3 ∧ numbered sp3 1.
Proof. split; [reflexivity|]. split; [split; [lia|reflexivity]|reflexivity]. Qed.

Lemma one_file_slots s i x : zget (inodes (one_file s)) i = Some x → x = ino1 ∧ i = 0 ∨ x = ino_free.
Proof.
  change (inodes (one_file s)) with (ino1 :: replicate 63 ino_free). unfold zget. destruct (Z.leb_spec 0 i); [|done]. destruct (Z.to_nat i) as [|n] eqn:E.
  - intros [= <-]. left. split; [done|lia].
  - change (replicate 63 ino_free !! n = Some x → x = ino1 ∧ i = 0 ∨ x = ino_free). intros [-> _]%lookup_replicate. by right.
Qed.

Lemma one_file_table s : table_ok (inodes (one_file s)).
Proof.
  split; [reflexivity| |].
  - intros i x [[-> _]| ->]%one_file_slots; vm_compute; discriminate.
  - intros i j x y [[[_ ->]| ->]%one_file_slots Hx] [[[_ ->]| ->]%one_file_slots Hy]; done.
Qed.

Lemma write_map_enters_one_zone_witness :
  ∃ (v : @vfs ram_dev) z r v', is_zone sp3 z ∧ write_map 0 8192 z v = Ret r v'.
Proof.
  destruct fs3_mounted as (s & Hi & Hv & _ & _ & Hfree).
  destruct (vol_alloc 0 sp3 None 6 s Hi Hv) as [(z & s1 & E & Hz & Hun & [Hi1 Hv1 Hu1 _])|(s1 & _ & Hfull & _)].
  - destruct (one_file_ok s1 Hi1 Hv1) as [Hf _].
    destruct (write_map_enters_one_zone 0 sp3 0 ino1 (one_file s1) 8192 z Hf) as (r & x' & s' & Er & _).
    + lia.
    + reflexivity.
    + exact Hz.
    + change (zone_used sp3 s1 z = true). rewrite (Hu1 z Hz), Z.eqb_refl. reflexivity.
    + intros p _. change (zone_at sp3 no_zones s1 p ≠ z). rewrite no_zones_at. unfold is_zone in Hz. cbn in Hz. unfold NO_ZONE. lia.
    + exists (one_file s1), z, r, (pv 0 (one_file s1) x' s'). split; [exact Hz|exact Er].
  - exfalso. assert (is_zone sp3 6) as H6 by (unfold is_zone; cbn; lia). rewrite (Hfull 6 H6) in Hfree. discriminate Hfree.
Defined.

Lemma new_block_is_cleared_witness : ∃ (v : @vfs ram_dev) r v', new_block 0 8192 v = Ret r v'.
Proof.
  destruct fs3_mounted as (s & Hi & Hv & _). destruct (one_file_ok s Hi Hv) as [Hf _].
  destruct (new_block_is_cleared 0 sp3 0 ino1 (one_file s) 8192 Hf) as [(bp & x' & s' & E & _)|(x' & s' & E & _)].
  - lia.
  - vm_compute. discriminate.
  - reflexivity.
  - eexists _, _, _. exact E.
  - eexists _, _, _. exact E.
Defined.

Lemma inode_is_read_back_witness : ∃ (v v' : @vfs ram_dev), rw_inode 0 WRITING v = Ret tt v'.
Proof.
  destruct fs3_mounted as (s & Hi & Hv & _). destruct ino1_numbered as [Hper Hn].
  destruct (inode_is_read_back 0 sp3 0 ino1 (one_file s) 1) as (s' & E & _).
  - reflexivity.
  - exact Hi.
  - exact Hv.
  - exact Hper.
  - exact Hn.
  - reflexivity.
  - reflexivity.
  - reflexivity.
  - split; [split; vm_compute; done..|]. split; [reflexivity|]. intros k z Hz. assert (z = 0) as ->; [|lia].
    unfold zget in Hz. destruct (0 <=? k); [|discriminate Hz]. apply lookup_replicate in Hz as [-> _]. reflexivity.
  - eexists _, _. exact E.
Defined.

Lemma get_inode_finds_or_loads_witness : ∃ (v : @vfs ram_dev) r v', get_inode 3 2 v = Ret r v'.
Proof.
  destruct fs3_mounted as (s & Hi & Hv & _). destruct ino1_numbered as [Hper _].
  destruct (get_inode_finds_or_loads 0 sp3 (one_file s) 2) as [(i & x & E & _)|(_ & [(i & x & y & s' & E & _)|[E _]])].
  - reflexivity.
  - exact Hi.
  - exact Hv.
  - exact Hper.
  - split; [split; [lia|reflexivity]|reflexivity].
  - eexists _, _, _. exact E.
  - eexists _, _, _. exact E.
  - eexists _, _, _. exact E.
Defined.

Lemma alloc_inode_takes_a_free_number_witness : ∃ (v : @vfs ram_dev) r v', alloc_inode 3 32768 v = Ret r v'.
Proof.
  destruct fs3_mounted as (s & Hi & Hv & Hn & Hb & _).
  destruct (alloc_inode_takes_a_free_number 0 sp3 (one_file s) 32768 (one_file_table s)) as [(i & x & num & s' & E & _)|(s' & E & _)].
  - intros i x [[[-> _]| ->]%one_file_slots Hc]; [discriminate|]. vm_compute in Hc. discriminate Hc.
  - exact Hi.
  - exact Hv.
  - exact Hn.
  - intros i x [[[-> _]| ->]%one_file_slots Hc]; intros Hd; [|discriminate Hd]. split; [split; vm_compute; discriminate|exact Hb].
  - eexists _, _, _. exact E.
  - eexists _, _, _. exact E.
Defined.

Lemma last_put_gives_everything_back_witness : ∃ (v v' : @vfs ram_dev), put_inode (Some 0) v = Ret tt v' ∧ inode_bit sp3 (cache v') 1 = false.
Proof.
  destruct fs3_mounted as (s & Hi & Hv & Hn & Hb & _). destruct ino1_numbered as [Hper Hp]. destruct (one_file_ok s Hi Hv) as [Hf Hs].
  destruct (last_put_gives_everything_back 0 sp3 0 ino1 (one_file s) 1 Hf Hs Hn Hper Hp) as (y & s' & E & _ & _ & _ & _ & _ & _ & Hbits & _).
  - reflexivity.
  - vm_compute. discriminate.
  - exact Hb.
  - reflexivity.
  - reflexivity.
  - reflexivity.
  - discriminate.
  - split; discriminate.
  - exists (one_file s), (pv 0 (one_file s) y s'). split; [exact E|]. apply (Hbits 1). vm_compute. split; discriminate.
Defined.

Lemma users_are_counted_witness : ∃ (v v' : @vfs ram_dev) i, get_inode 3 2 v = Ret (Some i) v' ∧ refs_ok v' [(i, 3, 2)].
Proof.
  destruct fs3_mounted as (s & Hi & Hv & _). destruct ino1_numbered as [Hper _]. pose (v := Vfs s (replicate 64 ino_free) 0 (OK, 0) 0 0).
  assert (∀ i x, zget (inodes v) i = Some x → i_count x = 0) as Hz.
  { intros i x. change (inodes v) with (replicate 64 ino_free). unfold zget. destruct (0 <=? i); [|discriminate]. intros [-> _]%lookup_replicate. reflexivity. }
  assert (∃ i v', get_inode 3 2 v = Ret (Some i) v') as (i & v' & E).
  { destruct (get_inode_run 0 sp3 Hper v 2 eq_refl Hi Hv) as [(i & x & E & _)|(_ & [(i & x & y & s' & E & _)|[_ Hall]])].
    - split; [split; [lia|reflexivity]|reflexivity].
    - intros x. destruct (inode_room 0 sp3 s 2 Hi Hv) as [Ho Hr]. exact (copy_in_total sp3 _ _ x Ho Hr).
    - eexists _, _. exact E.
    - eexists _, _. exact E.
    - specialize (Hall 0 ino_free eq_refl). vm_compute in Hall. discriminate Hall. }
  exists v, v', i. split; [exact E|]. apply (users_are_counted v v' [(i, 3, 2)] eq_refl Hz). apply rtc_once. exact (tc_get 3 2 v i v' [] E).
Defined.
